(* ===== verification/_CoqProject ===== *)
-Q . S2P
Prelude.v
Avl.v
FastCommon.v
TrunkShared.v
FreeBlocks.v
SharedFunc.v
StorePath.v
TrunkBinlog.v
FileWriter.v
TrunkMem.v
TrunkSave.v
TrunkLoad.v
TrunkInv.v
TrunkFiles.v
TrunkAlloc.v
TrunkSnapshot.v
TrunkRestore.v
TrunkRestart.v
TrunkCompress.v
CompressSafe.v
TrackerTypes.v
ServerInfo.v
TrackerElection.v
TrackerSafe.v
TrackerChoice.v
TrackerRound.v
SortedArray.v
StorageIds.v
TrackerMem.v
TrackerMemInv.v
TrackerService.v
TrackerJoin.v
TrackerStore.v
TrackerFetch.v
TrackerList.v
TrackerTask.v
TrackerTaskInv.v
TrackerReach.v
TrackerQuery.v
TrackerDownload.v
Metadata.v
FileSys.v
SyncBinlog.v
Net.v
SyncReader.v
SyncPeer.v
SyncThread.v
SyncFiles.v
SyncPlace.v
SyncReading.v
SyncSafe.v
SyncRecords.v
SyncConfirm.v
DataFiles.v
StorageTask.v
StorageDio.v
StorageSyncIn.v
StorageUpload.v
StorageClient.v
FileInfo.v
StorageLink.v
StorageServe.v
DataInv.v
StorageNames.v
StorageSafe.v
StorageSafeClient.v
StorageSafeDisk.v
StorageSteps.v
StorageHandled.v
StorageStepsDisk.v
StorageCopy.v
StorageRun.v
StorageServer.v
Examples.v
RestartExamples.v
CompressExamples.v
TrackerExamples.v
TrackerServiceExamples.v
SyncExamples.v
StorageExamples.v
