(* ===== verification/Prelude.v ===== *)
(** * FastDFS: a verification development.

    FastDFS is a distributed file system.  Tracker servers know the groups of
    storage servers; every storage server of a group holds the same files; a
    client asks a tracker for a server and then talks to it.  Small files are
    stored inside of large trunk files, whose space one server of each group,
    the trunk server, hands out.  This development models these decisions:
    where a trunk server puts a small file and how it survives a restart, how
    the storage servers of a group tell each other what changed, what a storage
    server makes of that, how the trackers elect a leader, and what a tracker
    remembers and answers.

    ** How the model reads.  Names are those of the sources where Rocq allows
    it.  A C [int] is a [Z] kept in range by [int32], [int64] and their kin; a
    string is the [list Z] of its bytes without the terminating zero; a struct
    is a record with [set_] functions for its fields.  Code with side effects
    runs in the state monad [M] of this file ([let!], [;;]) or, where a process
    may die half way, in the monad of [TrunkCompress].  System calls take their
    results from a list or a function in the state, so that a theorem about all
    states is one about all failures.  Results are errno values, or a sum of an
    errno value and a result.  Unbounded loops run on fuel; the callers pass
    more than the loop needs (the lengths of the texts and arrays that a step
    shortens), and the theorems on them show a result, not just its
    correctness.

    ** What is not under [src/].  libfastcommon is a library of its own; its
    parts that matter here are classes with laws and a reference instance for
    examples: the AVL tree ([Avl]), number and base64 codecs, [PJWHash] and
    [splitEx] ([FastCommon]), the buffered file writer ([FileWriter]), text
    splitting and name resolution ([StorageIds.TextTools]), comparing addresses
    ([ServerInfo.Connections]), whole files, ini files and [gzip] ([FileSys.FastFiles]).  Behaviour of the C library ([strtol],
    [bsearch], [qsort], [inet_ntop]) is defined.

    ** The files.

    Shared: [Prelude] (integers, strings, the C library, the monad, tactics,
    list lemmas), [Avl], [FastCommon], [FileWriter], [SharedFunc] (reserved
    space, [fdfs_shared_func.c]), [SortedArray] (sorted arrays, their searches
    and insertions).

    Trunk files, [src/storage/trunk_mgr]: [TrunkShared] ([trunk_shared.c]: file
    names, headers, lookup by name), [FreeBlocks] ([trunk_free_block_checker.c]),
    [StorePath] (the choice of path and directory, [storage_service.c]),
    [TrunkBinlog] ([trunk_sync.c]: binlog writer and reader), [TrunkMem]
    ([trunk_mem.c]: free, allocate, confirm), [TrunkSave] and [TrunkLoad]
    (snapshot, replay, life cycle), [TrunkCompress] (binlog compression).
    Proofs: [TrunkInv] (the indexes agree), [TrunkFiles] (creating trunk files),
    [TrunkAlloc] (the operations against the multiset of spaces held),
    [TrunkSnapshot], [TrunkRestore] and [TrunkRestart] (a restart gives the
    spaces back), [CompressSafe] (crashes at any system call of a compression).

    Synchronisation, [src/storage/storage_sync.c]: [FileSys] (names, inodes and
    failing system calls), [SyncBinlog] (the writer of the binlog),
    [SyncReader] (compression, the readers and their mark files), [Net] (requests
    and answers, the client's side of [tracker_proto.c]), [SyncPeer] (how a change
    is sent), [SyncThread] (a thread per peer, as steps).  Proofs: [SyncFiles]
    (the files hold the log), [SyncPlace] (places in the log), [SyncReading] (the
    readers), [SyncSafe] (the thread and its runs), [SyncRecords] (lines, the
    write cache), [SyncConfirm] (what the answers mean).

    A storage server, [src/storage]: [DataFiles] (the files, descriptors and
    failing system calls of the store paths), [StorageTask] ([storage_nio.h]: a
    connection and what it shares with others), [StorageDio] ([storage_dio.c]: the
    disk threads), [StorageSyncIn] (the handlers and callbacks of
    [storage_service.c] for what other servers send), [StorageUpload] (uploads,
    names of files), [Metadata] ([tracker_proto.c]: the text of metadata),
    [StorageClient] (appender files, downloads, deletions, metadata, what is
    known of a file), [StorageLink] (links), [FileInfo] ([storage_client.c]: what
    a client reads from a name, against the names uploads get), [StorageServe] ([storage_nio.c] and
    [storage_deal_task], and a server whose connections take turns).  Proofs:
    [DataInv] (the files), [StorageNames] (which names are temporary),
    [StorageSafe], [StorageSafeClient] and [StorageSafeDisk] (what a step leaves
    alone), [StorageSteps], [StorageHandled] and [StorageStepsDisk] (handlers and
    disk functions, through the task), [StorageCopy] (writing a file),
    [StorageRun] (a connection from request to request), [StorageServer] (every
    state of a server).

    Trackers, [src/tracker]: [ServerInfo] (addresses), [TrackerElection]
    ([tracker_relationship.c] and the handlers it calls) with [TrackerSafe],
    [TrackerChoice] and [TrackerRound]; [StorageIds] ([fdfs_server_id_func.c]);
    [TrackerMem] ([tracker_mem.c]: groups, servers, statuses, trunk servers),
    [TrackerJoin] (joins), [TrackerFetch] (servers that have a file),
    [TrackerService], [TrackerStore] and [TrackerList] (the handlers of
    [tracker_service.c]), [TrackerTask] (the dispatch).  Proofs:
    [TrackerMemInv] and [TrackerTaskInv] (the invariant, operation by
    operation), [TrackerReach] (every reachable state), [TrackerQuery] (uploads),
    [TrackerDownload] (downloads).

    Theorems at concrete inputs: [Examples], [RestartExamples],
    [CompressExamples], [TrackerExamples], [TrackerServiceExamples],
    [SyncExamples], [StorageExamples].

    ** What the theorems show.

    - The trunk server.  After any operations and failures the spaces held are
      disjoint and counted ([trunk_reachable_safe]); each operation does to the
      multiset of spaces what it should ([trunk_alloc_space_correct] and the
      like); the binlog replays to the same spaces ([trunk_binlog_replays]), and
      so does a restart ([storage_trunk_restart_correct]); a crash of a
      compression, and of the recoveries after it, loses no record
      ([compress_crash_safe]), and a recovery completes.  Names, headers and
      binlog lines round-trip; lookups by name find what was stored, and only
      that.
    - Synchronisation.  The position in a mark file does not run ahead of what the
      peer was told, whatever fails and whenever the server is restarted
      ([no_record_passed_over], within the limits below); no failure of the
      connection is taken for a confirmation, as long as files stay while they
      are sent ([sync_confirmed]), and what is passed over comes from another server
      ([sync_passed_over]); the text of the binlog stays
      ([binlog_text_stays]), through compression too; a line is read back as it
      was written ([binlog_record_roundtrip]) and the write cache never
      overflows ([write_cache_fits]).
    - A storage server.  Whatever its connections do in whatever order, with
      whatever faults, a file that another server sends for a plain name becomes
      visible whole or not at all ([copy_all_or_nothing]), and a connection in
      the middle of one has written what it received to a temporary file of its
      own ([copy_in_progress]); a failed open or write in the middle is not
      answered ([write_failure_unanswered]).  These leave aside spaces of trunk
      files, which are written in place.  An uploaded file, unless it is a slave
      file or in a trunk file, gets a name that was free
      and keeps its content ([uploaded_file_correct]); client, tracker and
      storage server read from the name what was put into it
      ([uploaded_name_correct]), and from the answer to a query what was sent
      ([query_answer_roundtrip]).  Metadata that is packed is read back
      ([metadata_roundtrip]), and merged name by name,
      repeated names included ([merge_metadata_correct]).
    - The election.  As long as connections to running trackers succeed there
      is at most one leader ([one_tracker_leader]), a candidate whose calls are
      answered becomes the leader everywhere, and in no other way can the calls
      end ([undisturbed_election]), and
      trackers with the same information choose the same leader.
    - The tracker.  Whatever storage servers and clients send, but for three
      requests (see below), the memory stays in order ([tracker_state_ok]); an upload gets a group, servers and a disk
      that are active and have space ([query_storage_correct]), with round
      robin or load balance no group is found only when there is none
      ([pick_group_errors]), round robin reaches every
      group ([round_robin_reaches]); the servers told for a file are active and
      have it as far as a tracker can know ([download_servers_correct]).
    - Some theorems show what the code does against its purpose:
      [load_at_buffer_end], [rollback_merge_failure], [wrapped_search_refuses]
      and [fetch_all_misses_source].

    ** Limits.  In [no_record_passed_over] and [binlog_text_stays] no new binlog file begins within one
    step of a reader (the code loses records there), servers are known by
    address ([use_storage_id] is off), the index file of the binlog is whole and
    no system call fails at a restart, and the numbers of files and the offsets fit their types;
    [binlog_write_version] is unbounded.  The sync thread's reports to the
    trackers are a list, and its list of trackers can always be allocated.

    One handler or thread step is atomic, as the locks of the
    sources make it for the state concerned; what two unlocked handlers of one
    tracker do to each other is not modelled.  The build has no [WITH_HTTPD].
    Allocations fail where the state says so, but those of the disk arrays of a
    joining server succeed; the theorems on the trunk server ask that none fails
    ([no_oom]), since the code breaks its invariant then.  Addresses are IPv4, as in this version.
    [tracker_state_ok] leaves out requests that delete a group, join a second
    group on one connection, or change the address of a server that is still
    among the active ones: after these the code breaks its own invariant.  The
    trackers start without data files.

    In a storage server one call of a handler or of a disk function is atomic;
    [temp_file_sequence] is unbounded; names with a NUL inside end there, as in
    the calls that use them; a function that writes behind an array leaves the
    place [Overrun], from which nothing continues, and a link whose prefix or
    extension has a slash (the code does not look) the place [Elsewhere].  What
    the trunk server answers and what [rand] returns are lists in the state.
    Duplicates are not looked for ([g_check_file_duplicate] is off).

    ** Not modelled.  Sockets and threads as such; the requests for the trunk
    server and for a server in recovery (commands 26 to 33); the thread that
    reports to the trackers, the recovery of a disk, the parameter exchange, the
    client library but for [FileInfo], the command line tools, the PHP extension and the bundled
    FastDHT client; access logs, hash codes and FastDHT; loading and saving the
    tracker's data files.  The thread that reports holds decisions that could be
    modelled the same way; most of the others move bytes or wrap calls. *)

From stdpp Require Export base numbers list gmap strings tactics sorting.
From Stdlib Require Export ZArith Lia ZifyBool.

Declare Scope c_scope.
Delimit Scope c_scope with c.

#[global] Open Scope Z_scope.

(** [lia] with division and remainder. *)
Ltac dlia := Z.to_euclidean_division_equations; lia.

(** ** Error numbers (errno.h on Linux). *)
Definition EPERM : Z := 1.
Definition ENOENT : Z := 2.
Definition EINTR : Z := 4.
Definition EIO : Z := 5.
Definition EBADF : Z := 9.
Definition EAGAIN : Z := 11.
Definition ENOMEM : Z := 12.
Definition EACCES : Z := 13.
Definition EBUSY : Z := 16.
Definition EEXIST : Z := 17.
Definition ENOTDIR : Z := 20.
Definition EINVAL : Z := 22.
Definition ENOSPC : Z := 28.
Definition ENAMETOOLONG : Z := 36.
Definition ENOTCONN : Z := 107.
Definition ETIMEDOUT : Z := 110.
Definition EALREADY : Z := 114.
Definition EINPROGRESS : Z := 115.

(** ** Machine integers.  A value of a [w]-bit C type is a [Z]; the functions
    below are the conversions to the type (two's complement wrap-around). *)
Definition uint8 (z : Z) : Z := z `mod` 2 ^ 8.
Definition uint32 (z : Z) : Z := z `mod` 2 ^ 32.
Definition int8 (z : Z) : Z := (z + 2 ^ 7) `mod` 2 ^ 8 - 2 ^ 7.
Definition int32 (z : Z) : Z := (z + 2 ^ 31) `mod` 2 ^ 32 - 2 ^ 31.
Definition int64 (z : Z) : Z := (z + 2 ^ 63) `mod` 2 ^ 64 - 2 ^ 63.

Definition is_int32 (z : Z) : Prop := - 2 ^ 31 <= z < 2 ^ 31.
Definition is_uint8 (z : Z) : Prop := 0 <= z < 2 ^ 8.
Definition is_int64 (z : Z) : Prop := - 2 ^ 63 <= z < 2 ^ 63.

Create HintDb cint.

Lemma uint8_id z : is_uint8 z -> uint8 z = z.
Proof. unfold is_uint8, uint8. intros. apply Z.mod_small. lia. Qed.

Lemma uint8_range z : is_uint8 (uint8 z).
Proof. unfold is_uint8, uint8. apply Z.mod_pos_bound. lia. Qed.

Lemma int32_id z : is_int32 z -> int32 z = z.
Proof. unfold is_int32, int32. intros. rewrite Z.mod_small; lia. Qed.

Lemma int32_range z : is_int32 (int32 z).
Proof.
  unfold is_int32, int32.
  pose proof (Z.mod_pos_bound (z + 2 ^ 31) (2 ^ 32) ltac:(lia)). lia.
Qed.

Lemma int64_id z : is_int64 z -> int64 z = z.
Proof. unfold is_int64, int64. intros. rewrite Z.mod_small; lia. Qed.

Lemma int64_range z : is_int64 (int64 z).
Proof.
  unfold is_int64, int64.
  pose proof (Z.mod_pos_bound (z + 2 ^ 63) (2 ^ 64) ltac:(lia)). lia.
Qed.

(** Wrapped sums can be wrapped once at the end. *)
Lemma int64_add_l a b : int64 (int64 a + b) = int64 (a + b).
Proof.
  unfold int64. replace ((a + 2 ^ 63) `mod` 2 ^ 64 - 2 ^ 63 + b + 2 ^ 63) with ((a + 2 ^ 63) `mod` 2 ^ 64 + b) by lia.
  rewrite Z.add_mod_idemp_l by lia. f_equal. f_equal. lia.
Qed.

Lemma int64_sub_l a b : int64 (int64 a - b) = int64 (a - b).
Proof. apply (int64_add_l a (- b)). Qed.

#[export] Hint Resolve uint8_range int32_range int64_range : cint.

(** ** Bytes and C strings.  A buffer is the list of its bytes (0..255); a C
    string is the list of the bytes before its terminating NUL. *)
Abbreviation bytes := (list Z).

Definition is_byte (z : Z) : Prop := 0 <= z < 256.

(** The bytes of a literal. *)
Fixpoint bs (s : string) : bytes :=
  match s with
  | EmptyString => []
  | String a s' => Z.of_N (Ascii.N_of_ascii a) :: bs s'
  end.

(** The character constants of the sources. *)
Definition ch (s : string) : Z := hd 0 (bs s).

(** The part of a buffer that the string routines see. *)
Fixpoint cstr (b : bytes) : bytes :=
  match b with
  | [] => []
  | c :: b' => if decide (c = 0) then [] else c :: cstr b'
  end.

Lemma cstr_no_nul b : Forall (fun c => c <> 0) b -> cstr b = b.
Proof. induction 1; simpl; [done|]. rewrite decide_False by done. by f_equal. Qed.

(** A string ends at its first NUL. *)
Lemma cstr_app_nul b rest : Forall (fun c => c <> 0) b -> cstr (b ++ 0 :: rest) = b.
Proof. intros Hb. induction Hb as [|c b Hc _ IH]; cbn; [done|]. rewrite decide_False by done. by rewrite IH. Qed.

(** A string in a zero-filled field. *)
Lemma cstr_zeros b k : Forall (fun c => c <> 0) b -> cstr (b ++ replicate k 0) = b.
Proof.
  intros Hb. induction Hb as [|c b Hc _ IH]; cbn; [by destruct k|]. rewrite decide_False by done. by rewrite IH.
Qed.

(** [memcmp] (and [strcmp] on NUL-free strings): the sign of the first
    difference; a proper prefix is smaller. *)
Fixpoint memcmp (a b : bytes) : Z :=
  match a, b with
  | [], [] => 0
  | [], _ :: _ => -1
  | _ :: _, [] => 1
  | x :: a', y :: b' => if decide (x = y) then memcmp a' b' else x - y
  end.

Lemma memcmp_refl a : memcmp a a = 0.
Proof. induction a; simpl; [done|]. by rewrite decide_True. Qed.

Lemma memcmp_eq_0 a b : memcmp a b = 0 <-> a = b.
Proof.
  split; [|intros ->; apply memcmp_refl].
  revert b; induction a as [|x a IH]; intros [|y b]; simpl; try done.
  case_decide; intros; [f_equal; auto | lia].
Qed.

Lemma memcmp_antisym a b : 0 < memcmp a b <-> memcmp b a < 0.
Proof.
  revert b; induction a as [|x a IH]; intros [|y b]; simpl; try lia.
  repeat case_decide; try lia; subst; try done.
Qed.

Lemma memcmp_trans a b c : memcmp a b < 0 -> memcmp b c < 0 -> memcmp a c < 0.
Proof.
  revert b c; induction a as [|x a IH]; intros [|y b] [|z c]; simpl; try lia.
  repeat case_decide; subst; try lia; eauto.
Qed.

(** ** Numbers as text: the digits [printf] writes and [strtol] reads. *)
Definition digit_char (d : Z) : Z := if d <? 10 then 48 + d else 55 + d.

Definition digit_val (c : Z) : option Z :=
  if (48 <=? c) && (c <=? 57) then Some (c - 48)
  else if (65 <=? c) && (c <=? 90) then Some (c - 55)
  else if (97 <=? c) && (c <=? 122) then Some (c - 87)
  else None.

#[global] Arguments digit_val : simpl never.

Definition is_digit (base c : Z) : bool :=
  match digit_val c with Some d => d <? base | None => false end.

Fixpoint fmt_go (fuel : nat) (base n : Z) (acc : bytes) : bytes :=
  match fuel with
  | O => acc
  | S f =>
      let acc' := digit_char (n `mod` base) :: acc in
      if n <? base then acc' else fmt_go f base (n / base) acc'
  end.

(** [%u] / [%X] of a non-negative number; [S (log2 n)] rounds write every
    digit in any base from 2 on. *)
Definition fmt_u (base n : Z) : bytes := fmt_go (S (Z.to_nat (Z.log2 n))) base n [].

(** [%d]. *)
Definition fmt_d (n : Z) : bytes :=
  if n <? 0 then 45 :: fmt_u 10 (- n) else fmt_u 10 n.

(** [%0<w>]: left padding with zeros. *)
Definition pad0 (w : nat) (s : bytes) : bytes := replicate (w - length s) 48 ++ s.

(** [%02X] and [%06u] of an [int] argument. *)
Definition fmt_02X (n : Z) : bytes := pad0 2 (fmt_u 16 (uint32 n)).
Definition fmt_06u (n : Z) : bytes := pad0 6 (fmt_u 10 (uint32 n)).

(** [snprintf(buf, size, ...)] keeps at most [size - 1] characters. *)
Definition snprintf (size : Z) (s : bytes) : bytes := take (Z.to_nat (size - 1)) s.

Lemma snprintf_short size s : Z.of_nat (length s) < size -> snprintf size s = s.
Proof. intros. unfold snprintf. apply take_ge. lia. Qed.

Fixpoint strtol_go (base acc : Z) (s : bytes) : Z * bytes :=
  match s with
  | [] => (acc, [])
  | c :: s' =>
      match digit_val c with
      | Some d => if d <? base then strtol_go base (acc * base + d) s' else (acc, s)
      | None => (acc, s)
      end
  end.

Definition is_space (c : Z) : bool := (c =? 32) || ((9 <=? c) && (c <=? 13)).

Fixpoint skip_spaces (s : bytes) : bytes :=
  match s with
  | c :: s' => if is_space c then skip_spaces s' else s
  | [] => []
  end.

Definition strtol_sign (s : bytes) : bool * bytes :=
  match s with
  | c :: s' => if c =? 45 then (true, s') else if c =? 43 then (false, s') else (false, s)
  | [] => (false, [])
  end.

(** The optional [0x] of base 16, taken only when a hexadecimal digit follows. *)
Definition strtol_prefix (base : Z) (s : bytes) : bytes :=
  match s with
  | a :: x :: c :: s' =>
      if (base =? 16) && (a =? 48) && ((x =? 120) || (x =? 88)) && is_digit 16 c
      then c :: s' else s
  | _ => s
  end.

Definition clamp_long (z : Z) : Z := Z.max (- 2 ^ 63) (Z.min (2 ^ 63 - 1) z).

(** [strtol(s, &end, base)] with 64-bit [long]: the value and what [end]
    points at; without digits nothing is consumed. *)
Definition strtol (base : Z) (s : bytes) : Z * bytes :=
  let '(neg, s1) := strtol_sign (skip_spaces s) in
  let s2 := strtol_prefix base s1 in
  match s2 with
  | c :: _ =>
      if is_digit base c then
        let '(v, rest) := strtol_go base 0 s2 in
        (clamp_long (if neg then - v else v), rest)
      else (0, s)
  | [] => (0, s)
  end.

Definition atoi (s : bytes) : Z := int32 (strtol 10 s).1.

#[global] Arguments fmt_u : simpl never.
#[global] Arguments fmt_d : simpl never.
#[global] Arguments atoi : simpl never.
#[global] Arguments strtol : simpl never.

Lemma digit_val_char d : 0 <= d < 36 -> digit_val (digit_char d) = Some d.
Proof.
  intros Hd. unfold digit_val, digit_char.
  destruct (d <? 10) eqn:E.
  - rewrite (proj2 (Z.leb_le 48 _)), (proj2 (Z.leb_le _ 57)) by lia. simpl. f_equal. lia.
  - rewrite (proj2 (Z.leb_gt (55 + d) 57)) by lia. rewrite andb_false_r.
    rewrite (proj2 (Z.leb_le 65 _)), (proj2 (Z.leb_le _ 90)) by lia. simpl. f_equal. lia.
Qed.

(** Value of a digit string read from [acc] on. *)
Definition digits_val (base acc : Z) (ds : bytes) : Z :=
  fold_left (fun a c => a * base + default 0 (digit_val c)) ds acc.

Lemma strtol_go_digits base ds acc rest :
  Forall (fun c => is_digit base c = true) ds ->
  (forall c, head rest = Some c -> is_digit base c = false) ->
  strtol_go base acc (ds ++ rest) = (digits_val base acc ds, rest).
Proof.
  intros Hds Hrest. revert acc. induction Hds as [|c ds Hc Hds IH]; intros acc; simpl.
  - destruct rest as [|c rest]; [done|]. specialize (Hrest c eq_refl).
    unfold is_digit in Hrest. simpl. destruct (digit_val c); [|done]. by rewrite Hrest.
  - unfold is_digit in Hc. destruct (digit_val c) as [d|] eqn:E; [|done].
    by rewrite Hc, IH.
Qed.

Lemma fmt_go_spec fuel base n acc :
  2 <= base <= 36 -> 0 <= n < 2 ^ Z.of_nat fuel ->
  exists ds, fmt_go fuel base n acc = ds ++ acc /\
    Forall (fun c => is_digit base c = true) ds /\
    (forall a, digits_val base a ds = a * base ^ Z.of_nat (length ds) + n) /\
    (fuel <> O -> ds <> []).
Proof.
  intros Hb. revert n acc. induction fuel as [|f IH]; intros n acc Hn.
  - exists []. simpl. repeat split; [done| |done]. intros a. simpl in Hn. unfold digits_val. simpl. lia.
  - assert (0 <= n `mod` base < base) as Hm by (apply Z.mod_pos_bound; lia).
    assert (is_digit base (digit_char (n `mod` base)) = true) as Hd.
    { unfold is_digit. rewrite digit_val_char by lia. apply Z.ltb_lt. lia. }
    simpl. destruct (n <? base) eqn:E.
    + exists [digit_char (n `mod` base)]. repeat split; try done; [by constructor|].
      intros a. unfold digits_val. simpl. rewrite digit_val_char by lia. simpl.
      rewrite Z.mod_small by lia. lia.
    + assert (0 <= n / base < 2 ^ Z.of_nat f) as Hq.
      { split; [apply Z.div_pos; lia|].
        rewrite Nat2Z.inj_succ, Z.pow_succ_r in Hn by lia.
        apply Z.div_lt_upper_bound; nia. }
      destruct (IH (n / base) (digit_char (n `mod` base) :: acc) Hq) as (ds & Heq & Hall & Hv & _).
      exists (ds ++ [digit_char (n `mod` base)]). rewrite Heq, <- app_assoc. simpl.
      repeat split; [by apply Forall_app; split; [|constructor]| |by destruct ds].
      intros a. unfold digits_val. rewrite fold_left_app. fold (digits_val base a ds).
      rewrite Hv. simpl. rewrite digit_val_char by lia. simpl.
      rewrite length_app. simpl. rewrite Nat2Z.inj_add, Z.pow_add_r by lia.
      change (Z.of_nat 1) with 1. rewrite Z.pow_1_r.
      pose proof (Z.div_mod n base ltac:(lia)). nia.
Qed.

Lemma fmt_u_spec base n :
  2 <= base <= 36 -> 0 <= n ->
  Forall (fun c => is_digit base c = true) (fmt_u base n) /\
  (forall a, digits_val base a (fmt_u base n) = a * base ^ Z.of_nat (length (fmt_u base n)) + n) /\
  fmt_u base n <> [].
Proof.
  intros Hb Hn. unfold fmt_u.
  destruct (fmt_go_spec (S (Z.to_nat (Z.log2 n))) base n [] Hb) as (ds & -> & Hall & Hv & Hne).
  { split; [done|]. rewrite Nat2Z.inj_succ, Z2Nat.id by apply Z.log2_nonneg.
    destruct (decide (n = 0)) as [->|]; [done|]. apply Z.log2_spec. lia. }
  rewrite app_nil_r. auto.
Qed.

Lemma is_digit_not_special base c :
  base <= 36 -> is_digit base c = true -> is_space c = false /\ c <> 45 /\ c <> 43.
Proof.
  unfold is_digit, digit_val, is_space. intros.
  repeat case_match; simplify_eq/=; repeat split; lia.
Qed.

Lemma skip_spaces_digits base ds rest :
  base <= 36 -> Forall (fun c => is_digit base c = true) ds -> ds <> [] ->
  skip_spaces (ds ++ rest) = ds ++ rest /\ strtol_sign (ds ++ rest) = (false, ds ++ rest).
Proof.
  intros Hb Hds Hne. destruct ds as [|c ds]; [done|].
  apply Forall_cons in Hds as [Hc _].
  destruct (is_digit_not_special base c Hb Hc) as (Hs & H45 & H43). simpl.
  rewrite Hs, (proj2 (Z.eqb_neq c 45)), (proj2 (Z.eqb_neq c 43)) by done. done.
Qed.

Lemma strtol_prefix_digits base ds rest :
  2 <= base <= 16 -> Forall (fun c => is_digit base c = true) ds ->
  (forall c, head rest = Some c -> is_digit base c = false /\ c <> 120 /\ c <> 88) ->
  strtol_prefix base (ds ++ rest) = ds ++ rest.
Proof.
  intros Hb Hds Hrest.
  assert (forall x, head (drop 1 (ds ++ rest)) = Some x -> ds <> [] -> x <> 120 /\ x <> 88) as Hx.
  { intros x Hx Hne. destruct ds as [|a [|b ds]]; [done| |]; simpl in Hx.
    - destruct rest; simplify_eq/=. destruct (Hrest x eq_refl) as (_ & ? & ?). done.
    - simplify_eq/=. apply Forall_cons in Hds as [_ Hds]. apply Forall_cons in Hds as [Hd _].
      unfold is_digit, digit_val in Hd. repeat case_match; simplify_eq/=; lia. }
  unfold strtol_prefix. destruct (ds ++ rest) as [|a [|x [|c s]]] eqn:E; [done..|].
  destruct ds as [|a' ds].
  - simpl in E. subst rest. destruct (Hrest a eq_refl) as (Ha & _ & _).
    destruct (base =? 16) eqn:Eb; [|done]. apply Z.eqb_eq in Eb. subst base.
    unfold is_digit, digit_val in Ha. destruct (a =? 48) eqn:E48; [|done].
    apply Z.eqb_eq in E48. subst a. done.
  - destruct (Hx x eq_refl ltac:(done)) as [H1 H2].
    rewrite (proj2 (Z.eqb_neq x 120)), (proj2 (Z.eqb_neq x 88)) by done.
    by rewrite andb_false_r.
Qed.

(** [strtol] reads back any digit string that a non-digit follows. *)
Lemma strtol_digits base ds rest :
  2 <= base <= 16 -> Forall (fun c => is_digit base c = true) ds -> ds <> [] ->
  (forall c, head rest = Some c -> is_digit base c = false /\ c <> 120 /\ c <> 88) ->
  strtol base (ds ++ rest) = (clamp_long (digits_val base 0 ds), rest).
Proof.
  intros Hb Hds Hne Hrest. unfold strtol.
  destruct (skip_spaces_digits base ds rest) as [-> ->]; [lia|done..|].
  rewrite strtol_prefix_digits by done.
  rewrite strtol_go_digits by (try done; intros c Hc; apply Hrest; done).
  destruct ds as [|c ds]; [done|]. simpl. apply Forall_cons in Hds as [-> _]. done.
Qed.

Lemma clamp_long_id z : is_int64 z -> clamp_long z = z.
Proof. unfold is_int64, clamp_long. lia. Qed.

(** A field separator ends a decimal number. *)
Definition ends_number (rest : bytes) : Prop :=
  forall c, head rest = Some c -> is_digit 10 c = false /\ c <> 120 /\ c <> 88.

Lemma strtol_fmt_d n rest :
  is_int64 n -> - 2 ^ 63 < n -> ends_number rest ->
  strtol 10 (fmt_d n ++ rest) = (n, rest).
Proof.
  intros Hn Hmin Hrest. unfold is_int64 in Hn. unfold fmt_d. destruct (n <? 0) eqn:E.
  - destruct (fmt_u_spec 10 (- n)) as (Hds & Hv & Hne); [lia..|].
    unfold strtol. simpl. rewrite strtol_prefix_digits by (done || lia).
    rewrite strtol_go_digits by (try done; intros c Hc; apply Hrest; done).
    rewrite Hv. destruct (fmt_u 10 (- n)) as [|c ds]; [done|]. simpl.
    apply Forall_cons in Hds as [-> _]. rewrite clamp_long_id; [f_equal; lia|].
    unfold is_int64. lia.
  - destruct (fmt_u_spec 10 n) as (Hds & Hv & Hne); [lia..|].
    rewrite strtol_digits by (done || lia). rewrite Hv, clamp_long_id; [done|].
    unfold is_int64. lia.
Qed.

Lemma atoi_fmt_d n rest : is_int32 n -> ends_number rest -> atoi (fmt_d n ++ rest) = n.
Proof.
  unfold is_int32. intros. unfold atoi. rewrite strtol_fmt_d by (unfold is_int64; lia || done).
  apply int32_id. unfold is_int32. lia.
Qed.

(** [atoi] undoes [%u] of a non-negative [int]. *)
Lemma atoi_fmt_u n rest : 0 <= n < 2 ^ 31 -> ends_number rest -> atoi (fmt_u 10 n ++ rest) = n.
Proof.
  intros. replace (fmt_u 10 n) with (fmt_d n).
  - apply atoi_fmt_d; [unfold is_int32; lia | done].
  - unfold fmt_d. rewrite (proj2 (Z.ltb_ge n 0)) by lia. done.
Qed.

(** [atoi] undoes [%u] of any [int]: the conversion to [int] wraps back. *)
Lemma atoi_fmt_uint32 n rest : is_int32 n -> ends_number rest -> atoi (fmt_u 10 (uint32 n) ++ rest) = n.
Proof.
  intros Hn Hrest. unfold is_int32, uint32 in *.
  pose proof (Z.mod_pos_bound n (2 ^ 32) ltac:(lia)) as Hm. unfold atoi.
  replace (fmt_u 10 (n `mod` 2 ^ 32)) with (fmt_d (n `mod` 2 ^ 32)).
  - rewrite strtol_fmt_d by (unfold is_int64; lia || done). simpl fst. unfold int32.
    rewrite Z.add_mod_idemp_l by lia. rewrite Z.mod_small; lia.
  - unfold fmt_d. by rewrite (proj2 (Z.ltb_ge (n `mod` 2 ^ 32) 0)) by lia.
Qed.

Lemma fmt_go_length fuel base n acc k :
  2 <= base -> 0 <= n < base ^ Z.of_nat k -> (1 <= k)%nat ->
  (length (fmt_go fuel base n acc) <= length acc + k)%nat.
Proof.
  intros Hb. revert n acc k. induction fuel as [|f IH]; intros n acc k Hn Hk; simpl; [lia|].
  destruct (n <? base) eqn:E; [simpl; lia|].
  destruct k as [|[|k]]; [lia|simpl in Hn; lia|].
  specialize (IH (n / base) (digit_char (n `mod` base) :: acc) (S k)). simpl length in IH.
  enough (0 <= n / base < base ^ Z.of_nat (S k)) by (specialize (IH ltac:(done) ltac:(lia)); lia).
  split; [apply Z.div_pos; lia|]. apply Z.div_lt_upper_bound; [lia|].
  rewrite <- Z.pow_succ_r by lia. rewrite <- Nat2Z.inj_succ. lia.
Qed.

Lemma fmt_u_length base n k :
  2 <= base -> 0 <= n < base ^ Z.of_nat k -> (1 <= k)%nat -> (length (fmt_u base n) <= k)%nat.
Proof. intros. unfold fmt_u. by apply (fmt_go_length _ base n [] k). Qed.

Lemma fmt_d_length n : is_int32 n -> (length (fmt_d n) <= 11)%nat.
Proof.
  unfold is_int32, fmt_d. intros. destruct (n <? 0) eqn:?; simpl.
  - pose proof (fmt_u_length 10 (- n) 10). lia.
  - pose proof (fmt_u_length 10 n 10). lia.
Qed.

(** The characters of a printed [int]. *)
Lemma fmt_u_chars n : 0 <= n -> Forall (fun c => 48 <= c <= 57) (fmt_u 10 n).
Proof.
  intros. destruct (fmt_u_spec 10 n) as (Hall & _); [lia..|].
  eapply Forall_impl; [exact Hall|]. intros c. unfold is_digit, digit_val.
  repeat case_match; intros; simplify_eq; lia.
Qed.

Lemma fmt_d_chars n : Forall (fun c => 45 <= c <= 57) (fmt_d n).
Proof.
  unfold fmt_d. destruct (n <? 0) eqn:?; [constructor; [lia|]|];
    (eapply Forall_impl; [apply fmt_u_chars; lia|]); intros c; simpl; lia.
Qed.

(** ** The state monad of the imperative code: a C function that reads and
    writes the state [S] and returns an [A]. *)
Definition M (S A : Type) : Type := S -> A * S.

Definition ret {S A} (a : A) : M S A := fun s => (a, s).

Definition bind {S A B} (c : M S A) (k : A -> M S B) : M S B :=
  fun s => let '(a, s') := c s in k a s'.

(** Read a part of the state; change the state. *)
Definition gets {S A} (f : S -> A) : M S A := fun s => (f s, s).
Definition modify {S} (f : S -> S) : M S unit := fun s => (tt, f s).

Lemma bind_run {S A B} (c : M S A) (k : A -> M S B) s : bind c k s = k (c s).1 (c s).2.
Proof. unfold bind. by destruct (c s). Qed.

Lemma bind_snd {S A B} (c : M S A) (k : A -> M S B) s : (bind c k s).2 = (k (c s).1 (c s).2).2.
Proof. unfold bind. by destruct (c s). Qed.

Notation "'let!' x := c 'in' k" := (bind c (fun x => k))
  (at level 10, x name, c at level 200, k at level 200) : c_scope.
Notation "c ';;' k" := (bind c (fun _ => k))
  (at level 100, k at level 200, right associativity) : c_scope.

Section monad_laws.
Context {S A B C : Type}.

Lemma bind_eq (c : M S A) (k : A -> M S B) s a s' : c s = (a, s') -> bind c k s = k a s'.
Proof. unfold bind. by intros ->. Qed.
Lemma bind_ret (a : A) (k : A -> M S B) s : bind (ret a) k s = k a s.
Proof. done. Qed.
Lemma bind_gets (f : S -> A) (k : A -> M S B) s : bind (gets f) k s = k (f s) s.
Proof. done. Qed.
Lemma bind_modify (f : S -> S) (k : unit -> M S B) s : bind (modify f) k s = k tt (f s).
Proof. done. Qed.
Lemma bind_assoc (c : M S A) (k : A -> M S B) (h : B -> M S C) s :
  bind (bind c k) h s = bind c (fun a => bind (k a) h) s.
Proof. unfold bind. by destruct (c s). Qed.
End monad_laws.

(** [for (x : l) { if ((r = body(x)) != 0) return r; } return 0;] *)
Fixpoint for_each {S A} (body : A -> M S Z) (l : list A) : M S Z :=
  match l with
  | [] => ret 0
  | x :: l' =>
      bind (body x) (fun r => if decide (r = 0) then for_each body l' else ret r)
  end.

(** ** Generic lemmas on lists. *)
Lemma StronglySorted_nth {A} (R : A -> A -> Prop) (d : A) l i j :
  StronglySorted R l -> (i < j)%nat -> (j < length l)%nat -> R (nth i l d) (nth j l d).
Proof.
  intros H. revert i j. induction H as [|a l Hs IH Hf]; intros i j Hij Hj; simpl in *; [lia|].
  destruct i, j; try lia.
  - rewrite Forall_forall in Hf. apply Hf. apply list_elem_of_In, nth_In. lia.
  - apply IH; lia.
Qed.

(** [a[i]] for an index the C code computes as an [int]. *)
Definition znth {A} (d : A) (l : list A) (i : Z) : A := nth (Z.to_nat i) l d.
#[global] Arguments znth : simpl never.

Lemma znth_lookup {A} (d : A) l i :
  0 <= i < Z.of_nat (length l) -> l !! Z.to_nat i = Some (znth d l i).
Proof. intros. unfold znth. destruct (nth_lookup_or_length l (Z.to_nat i) d); [done|lia]. Qed.

(** The midpoint [(left + right) / 2] of a binary search stays in range. *)
Lemma quot2_between l r : 0 <= l <= r -> l <= (l + r) ÷ 2 <= r.
Proof. intros. dlia. Qed.

(** Bounds of a sum over a list. *)
Definition zsum (l : list Z) : Z := foldr Z.add 0 l.

Lemma zsum_cons x l : zsum (x :: l) = x + zsum l.
Proof. done. Qed.

Lemma zsum_app l1 l2 : zsum (l1 ++ l2) = zsum l1 + zsum l2.
Proof. unfold zsum. induction l1; simpl; [done|]. lia. Qed.

Lemma zsum_perm l1 l2 : l1 ≡ₚ l2 -> zsum l1 = zsum l2.
Proof. unfold zsum. induction 1; simpl; lia. Qed.

#[export] Instance zsum_proper : Proper ((≡ₚ) ==> (=)) zsum.
Proof. intros l1 l2. apply zsum_perm. Qed.
