(* ===== verification/Avl.v ===== *)
(** * The AVL tree of libfastcommon, as an interface.

    [avl_tree.c] is part of libfastcommon, which is not in this repository.
    The class [AvlTree] lists the operations the trunk manager calls, [AvlLaws]
    what it relies on: the in-order walk of a tree is the strictly ascending
    list of its elements, and every operation acts on that list as the
    reference functions [ref_find], [ref_find_ge], [ref_insert], [ref_delete]
    and [ref_store] do.  The tree stores pointers to caller-owned data;
    [avl_store] is the caller writing through such a pointer without changing
    the key.  [ListAvl] is an instance, a sorted list. *)

From S2P Require Import Prelude.

Class AvlTree (T : Type -> Type) := {
  avl_init : forall {V}, T V;
  avl_walk : forall {V}, T V -> list V;
  avl_find : forall {V}, (V -> V -> Z) -> T V -> V -> option V;
  avl_find_ge : forall {V}, (V -> V -> Z) -> T V -> V -> option V;
  avl_insert : forall {V}, (V -> V -> Z) -> T V -> V -> Z * T V;
  avl_delete : forall {V}, (V -> V -> Z) -> T V -> V -> Z * T V;
  avl_store : forall {V}, (V -> V -> Z) -> T V -> V -> T V;
}.

(** [avl_tree_count]. *)
Definition avl_count {T} `{AvlTree T} {V} (t : T V) : Z := Z.of_nat (length (avl_walk t)).

(** ** The reference: sorted lists. *)
Section reference.
Context {V : Type} (cmp : V -> V -> Z).

Fixpoint ref_find (l : list V) (v : V) : option V :=
  match l with
  | [] => None
  | x :: l' => if decide (cmp x v = 0) then Some x else ref_find l' v
  end.

(** The first element that is not smaller than [v]. *)
Fixpoint ref_find_ge (l : list V) (v : V) : option V :=
  match l with
  | [] => None
  | x :: l' => if decide (cmp x v < 0) then ref_find_ge l' v else Some x
  end.

Fixpoint ref_insert (l : list V) (v : V) : list V :=
  match l with
  | [] => [v]
  | x :: l' => if decide (cmp x v < 0) then x :: ref_insert l' v else v :: l
  end.

Definition ref_delete (l : list V) (v : V) : list V :=
  base.filter (fun x => cmp x v <> 0) l.

Definition ref_store (l : list V) (v : V) : list V :=
  (fun x => if decide (cmp x v = 0) then v else x) <$> l.

(** [cmp] is a total order on the elements of [l]. *)
Record ordered_on (l : list V) : Prop := {
  oo_refl : forall a, a ∈ l -> cmp a a = 0;
  oo_antisym : forall a b, a ∈ l -> b ∈ l -> (0 < cmp a b <-> cmp b a < 0);
  oo_trans : forall a b c, a ∈ l -> b ∈ l -> c ∈ l -> cmp a b < 0 -> cmp b c < 0 -> cmp a c < 0;
  oo_eq_l : forall a b c, a ∈ l -> b ∈ l -> c ∈ l -> cmp a b = 0 -> cmp b c < 0 -> cmp a c < 0;
  oo_eq_r : forall a b c, a ∈ l -> b ∈ l -> c ∈ l -> cmp a b < 0 -> cmp b c = 0 -> cmp a c < 0;
}.

Definition ascending (l : list V) : Prop := StronglySorted (fun a b => cmp a b < 0) l.
End reference.

Class AvlLaws (T : Type -> Type) `{AvlTree T} : Prop := {
  avl_init_walk : forall V, avl_walk (avl_init (V := V)) = [];
  avl_find_spec : forall V cmp (t : T V) v,
    ordered_on cmp (v :: avl_walk t) -> ascending cmp (avl_walk t) ->
    avl_find cmp t v = ref_find cmp (avl_walk t) v;
  avl_find_ge_spec : forall V cmp (t : T V) v,
    ordered_on cmp (v :: avl_walk t) -> ascending cmp (avl_walk t) ->
    avl_find_ge cmp t v = ref_find_ge cmp (avl_walk t) v;
  avl_insert_new : forall V cmp (t : T V) v,
    ordered_on cmp (v :: avl_walk t) -> ascending cmp (avl_walk t) ->
    ref_find cmp (avl_walk t) v = None ->
    (avl_insert cmp t v).1 = 1 /\
    avl_walk (avl_insert cmp t v).2 = ref_insert cmp (avl_walk t) v;
  avl_insert_dup : forall V cmp (t : T V) v x,
    ordered_on cmp (v :: avl_walk t) -> ascending cmp (avl_walk t) ->
    ref_find cmp (avl_walk t) v = Some x ->
    (avl_insert cmp t v).1 = 0 /\ avl_walk (avl_insert cmp t v).2 = avl_walk t;
  avl_delete_spec : forall V cmp (t : T V) v,
    ordered_on cmp (v :: avl_walk t) -> ascending cmp (avl_walk t) ->
    (avl_delete cmp t v).1 = (match ref_find cmp (avl_walk t) v with Some _ => 1 | None => 0 end) /\
    avl_walk (avl_delete cmp t v).2 = ref_delete cmp (avl_walk t) v;
  avl_store_spec : forall V cmp (t : T V) v,
    ordered_on cmp (v :: avl_walk t) -> ascending cmp (avl_walk t) ->
    avl_walk (avl_store cmp t v) = ref_store cmp (avl_walk t) v;
}.

(** ** Facts on the reference functions. *)
Section reference_facts.
Context {V : Type} (cmp : V -> V -> Z).

Lemma ref_find_Some l v x : ref_find cmp l v = Some x -> x ∈ l /\ cmp x v = 0.
Proof.
  induction l as [|y l IH]; simpl; [done|]. case_decide; intros; simplify_eq.
  - split; [left|done].
  - destruct (IH H0). split; [by right|done].
Qed.

Lemma ref_find_None l v : ref_find cmp l v = None <-> Forall (fun x => cmp x v <> 0) l.
Proof.
  induction l as [|y l IH]; simpl; [done|]. rewrite Forall_cons. case_decide; naive_solver.
Qed.

Lemma ref_insert_perm l v : ref_insert cmp l v ≡ₚ v :: l.
Proof.
  induction l as [|x l IH]; simpl; [done|]. case_decide; [|done].
  rewrite IH. apply Permutation_swap.
Qed.

Lemma ref_delete_absent l v : Forall (fun x => cmp x v <> 0) l -> ref_delete cmp l v = l.
Proof.
  unfold ref_delete. induction 1 as [|x l Hx Hl IH]; [done|].
  rewrite filter_cons_True by done. by f_equal.
Qed.

Lemma ordered_on_subset l l' : l' ⊆ l -> ordered_on cmp l -> ordered_on cmp l'.
Proof. intros Hs []. split; eauto 10. Qed.

Lemma ascending_insert l v :
  ordered_on cmp (v :: l) -> ascending cmp l -> ref_find cmp l v = None ->
  ascending cmp (ref_insert cmp l v).
Proof.
  unfold ascending. intros Ho Hs. induction Hs as [|x l Hs IH Hf]; simpl; intros Hn.
  { by repeat constructor. }
  case_decide as E0; [done|].
  assert (ordered_on cmp (v :: l)) as Ho'.
  { eapply ordered_on_subset; [|exact Ho]. intros y. set_unfold. tauto. }
  case_decide as E1.
  - constructor; [auto|]. apply Forall_forall. intros y Hy.
    rewrite (ref_insert_perm l v) in Hy. rewrite Forall_forall in Hf.
    apply elem_of_cons in Hy as [->|Hy]; [done|auto].
  - assert (cmp v x < 0) as Hvx.
    { apply (oo_antisym _ _ Ho x v); [set_solver..|lia]. }
    constructor; [by constructor|]. constructor; [done|].
    rewrite Forall_forall in Hf |- *. intros y Hy.
    apply (oo_trans _ _ Ho v x y); [set_solver..|done|auto].
Qed.

Lemma ascending_delete l v : ascending cmp l -> ascending cmp (ref_delete cmp l v).
Proof.
  unfold ascending, ref_delete. induction 1 as [|x l Hs IH Hf]; [constructor|].
  rewrite filter_cons. case_decide; [|done]. constructor; [done|].
  rewrite Forall_forall in Hf |- *. intros y [_ Hy]%list_elem_of_filter. auto.
Qed.

(** In an ascending list at most one element compares equal to a key, and
    the list splits around it. *)
Lemma ref_find_split l v x :
  ordered_on cmp (v :: l) -> ascending cmp l -> ref_find cmp l v = Some x ->
  exists l1 l2, l = l1 ++ x :: l2 /\
    Forall (fun y => cmp y v <> 0) l1 /\ Forall (fun y => cmp y v <> 0) l2.
Proof.
  unfold ascending. intros Ho Hs. induction Hs as [|y l Hs IH Hf]; simpl; [done|].
  assert (ordered_on cmp (v :: l)) as Ho'.
  { eapply ordered_on_subset; [|exact Ho]. intros z. set_unfold. tauto. }
  case_decide as E.
  - intros [= ->]. exists [], l. repeat split; [constructor|].
    rewrite Forall_forall in Hf |- *. intros z Hz Hzv.
    assert (cmp x v < 0); [|lia].
    apply (oo_eq_r _ _ Ho x z v); [set_solver..|auto|done].
  - intros H. destruct (IH Ho' H) as (l1 & l2 & -> & H1 & H2).
    exists (y :: l1), l2. repeat split; [by constructor|done].
Qed.

Lemma ref_delete_split l1 x l2 v :
  cmp x v = 0 -> Forall (fun y => cmp y v <> 0) l1 -> Forall (fun y => cmp y v <> 0) l2 ->
  ref_delete cmp (l1 ++ x :: l2) v = l1 ++ l2.
Proof.
  intros Hx H1 H2. unfold ref_delete. rewrite filter_app, filter_cons_False by tauto.
  f_equal; by apply ref_delete_absent.
Qed.

Lemma ref_store_split l1 x l2 v :
  cmp x v = 0 -> Forall (fun y => cmp y v <> 0) l1 -> Forall (fun y => cmp y v <> 0) l2 ->
  ref_store cmp (l1 ++ x :: l2) v = l1 ++ v :: l2.
Proof.
  assert (forall l, Forall (fun y => cmp y v <> 0) l ->
    (fun y => if decide (cmp y v = 0) then v else y) <$> l = l) as Hid.
  { induction 1; simpl; [done|]. rewrite decide_False by done. by f_equal. }
  intros Hx H1 H2. unfold ref_store. rewrite fmap_app, fmap_cons, !Hid by done.
  by rewrite decide_True.
Qed.

Lemma ref_find_ge_spec l v x :
  ref_find_ge cmp l v = Some x ->
  exists l1 l2, l = l1 ++ x :: l2 /\ Forall (fun y => cmp y v < 0) l1 /\ 0 <= cmp x v.
Proof.
  induction l as [|y l IH]; simpl; [done|]. case_decide as E.
  - intros H. destruct (IH H) as (l1 & l2 & -> & H1 & H2).
    exists (y :: l1), l2. repeat split; [by constructor|done].
  - intros [= ->]. exists [], l. repeat split; [constructor|lia].
Qed.

Lemma ref_find_ge_None l v : ref_find_ge cmp l v = None <-> Forall (fun y => cmp y v < 0) l.
Proof.
  induction l as [|y l IH]; simpl; [done|]. rewrite Forall_cons. case_decide; naive_solver.
Qed.
End reference_facts.

Create HintDb avl.
#[export] Hint Resolve ascending_insert ascending_delete : avl.

(** ** An instance. *)
Module ListAvl.
#[export] Instance list_avl : AvlTree list := {
  avl_init V := [];
  avl_walk V l := l;
  avl_find V cmp l v := ref_find cmp l v;
  avl_find_ge V cmp l v := ref_find_ge cmp l v;
  avl_insert V cmp l v :=
    match ref_find cmp l v with Some _ => (0, l) | None => (1, ref_insert cmp l v) end;
  avl_delete V cmp l v :=
    (match ref_find cmp l v with Some _ => 1 | None => 0 end, ref_delete cmp l v);
  avl_store V cmp l v := ref_store cmp l v;
}.

#[export] Instance list_avl_laws : AvlLaws list.
Proof. split; intros; simpl in *; repeat case_match; simplify_eq; done. Qed.
End ListAvl.
