(* ===== verification/FastCommon.v ===== *)
(** * Conversions of libfastcommon, as an interface.

    [int2buff], [buff2int], [long2buff], [buff2long], the base64 codec
    initialised by [trunk_shared_init] ([base64_init_ex(ctx, 0, '-', '_', '.')],
    encoding without padding), [PJWHash] and [splitEx] belong to libfastcommon,
    which is not in this repository.  [FastCommon] lists them as parameters,
    [FastCommonLaws] what the sources rely on.  [RefCommon] is an instance. *)

From S2P Require Import Prelude.

Class FastCommon := {
  int2buff : Z -> bytes;
  buff2int : bytes -> Z;
  long2buff : Z -> bytes;
  buff2long : bytes -> Z;
  base64_encode_ex : bytes -> bytes;
  base64_decode_auto : bytes -> bytes;
  PJWHash : bytes -> Z;
  (** [splitEx(src, seperator, cols, max_cols)]. *)
  splitEx : Z -> nat -> bytes -> list bytes;
}.

(** Characters a base64 text without padding needs. *)
Definition base64_length (n : nat) : nat := (n * 4 + 2) / 3.

(** A letter, a digit, [-] or [_]. *)
Definition is_base64 (c : Z) : Prop := 48 <= c <= 57 \/ 65 <= c <= 90 \/ 97 <= c <= 122 \/ c = 45 \/ c = 95.

(** Fields joined with a separator. *)
Fixpoint join (sep : Z) (l : list bytes) : bytes :=
  match l with
  | [] => []
  | [x] => x
  | x :: l' => x ++ sep :: join sep l'
  end.

Class FastCommonLaws `{FastCommon} : Prop := {
  int2buff_length : forall n, length (int2buff n) = 4%nat;
  int2buff_bytes : forall n, Forall is_byte (int2buff n);
  buff2int_int2buff : forall n rest, is_int32 n -> buff2int (int2buff n ++ rest) = n;
  long2buff_length : forall n, length (long2buff n) = 8%nat;
  long2buff_bytes : forall n, Forall is_byte (long2buff n);
  buff2long_long2buff : forall n rest, is_int64 n -> buff2long (long2buff n ++ rest) = n;
  buff2long_range : forall b, is_int64 (buff2long b);
  (** Eight bytes are read. *)
  buff2long_app : forall b rest, length b = 8%nat -> buff2long (b ++ rest) = buff2long b;
  base64_encode_length : forall b, length (base64_encode_ex b) = base64_length (length b);
  base64_decode_encode : forall b, Forall is_byte b -> base64_decode_auto (base64_encode_ex b) = b;
  base64_encode_chars : forall b, Forall is_byte b -> Forall is_base64 (base64_encode_ex b);
  PJWHash_range : forall b, is_int32 (PJWHash b);
  splitEx_join : forall sep n l,
    Forall (fun f => sep ∉ f) l -> l <> [] -> (length l <= n)%nat ->
    splitEx sep n (join sep l) = l;
  (** The last column takes the rest of the text. *)
  splitEx_rest : forall sep n l x,
    Forall (fun f => sep ∉ f) l -> n = S (length l) ->
    splitEx sep n (join sep (l ++ [x])) = l ++ [x];
}.

(** ** An instance: big-endian numbers and base64 in groups of three bytes. *)
Module RefCommon.
(** The low [k] bytes of [n], most significant first. *)
Fixpoint be_bytes (k : nat) (n : Z) : bytes :=
  match k with
  | O => []
  | S k' => be_bytes k' (n / 256) ++ [n `mod` 256]
  end.

Definition be_value (b : bytes) : Z := fold_left (fun a c => a * 256 + c) b 0.

Definition b64_char (v : Z) : Z :=
  if v <? 26 then 65 + v else if v <? 52 then 71 + v
  else if v <? 62 then v - 4 else if v =? 62 then 45 else 95.

Definition b64_val (c : Z) : Z :=
  if (65 <=? c) && (c <=? 90) then c - 65
  else if (97 <=? c) && (c <=? 122) then c - 71
  else if (48 <=? c) && (c <=? 57) then c + 4
  else if c =? 45 then 62 else 63.

Fixpoint b64_encode (b : bytes) : bytes :=
  match b with
  | x :: y :: z :: r =>
      b64_char (x / 4) :: b64_char (x `mod` 4 * 16 + y / 16) ::
      b64_char (y `mod` 16 * 4 + z / 64) :: b64_char (z `mod` 64) :: b64_encode r
  | [x; y] => [b64_char (x / 4); b64_char (x `mod` 4 * 16 + y / 16); b64_char (y `mod` 16 * 4)]
  | [x] => [b64_char (x / 4); b64_char (x `mod` 4 * 16)]
  | [] => []
  end.

Fixpoint b64_decode (s : bytes) : bytes :=
  match s with
  | a :: b :: c :: d :: r =>
      (b64_val a * 4 + b64_val b / 16) :: (b64_val b `mod` 16 * 16 + b64_val c / 4) ::
      (b64_val c `mod` 4 * 64 + b64_val d) :: b64_decode r
  | [a; b; c] => [b64_val a * 4 + b64_val b / 16; b64_val b `mod` 16 * 16 + b64_val c / 4]
  | [a; b] => [b64_val a * 4 + b64_val b / 16]
  | _ => []
  end.

Fixpoint split_go (sep : Z) (n : nat) (cur : bytes) (s : bytes) : list bytes :=
  match s with
  | [] => [rev cur]
  | c :: s' =>
      if decide (c = sep /\ (1 < n)%nat) then rev cur :: split_go sep (pred n) [] s'
      else split_go sep n (c :: cur) s'
  end.

#[export] Instance ref_common : FastCommon := {
  int2buff n := be_bytes 4 n;
  buff2int b := int32 (be_value (take 4 b));
  long2buff n := be_bytes 8 n;
  buff2long b := int64 (be_value (take 8 b));
  base64_encode_ex := b64_encode;
  base64_decode_auto := b64_decode;
  PJWHash b := fold_left (fun h c => (h * 16 + c) `mod` 2 ^ 28) b 0;
  splitEx sep n s := split_go sep n [] s;
}.

Lemma be_bytes_length k n : length (be_bytes k n) = k.
Proof. revert n. induction k; intros n; simpl; [done|]. rewrite length_app, IHk. simpl. lia. Qed.

Lemma be_bytes_bytes k n : Forall is_byte (be_bytes k n).
Proof.
  revert n. induction k; intros n; simpl; [done|]. apply Forall_app. split; [done|].
  repeat constructor; unfold is_byte; pose proof (Z.mod_pos_bound n 256); lia.
Qed.

Lemma be_value_bytes k n : be_value (be_bytes k n) = n `mod` 256 ^ Z.of_nat k.
Proof.
  revert n. induction k as [|k IH]; intros n; [by rewrite Z.mod_1_r|]. simpl be_bytes.
  unfold be_value. rewrite fold_left_app. fold (be_value (be_bytes k (n / 256))).
  rewrite IH. simpl. rewrite Nat2Z.inj_succ, Z.pow_succ_r, Z.rem_mul_r by lia. lia.
Qed.

(** Two's complement: reducing modulo [2 ^ w] keeps the signed value. *)
Lemma signed_mod w z :
  0 < w -> - 2 ^ (w - 1) <= z < 2 ^ (w - 1) ->
  (z `mod` 2 ^ w + 2 ^ (w - 1)) `mod` 2 ^ w - 2 ^ (w - 1) = z.
Proof.
  intros Hw Hz. rewrite Z.add_mod_idemp_l by (apply Z.pow_nonzero; lia).
  rewrite Z.mod_small; [lia|]. replace (2 ^ w) with (2 * 2 ^ (w - 1)); [lia|].
  rewrite <- Z.pow_succ_r by lia. f_equal. lia.
Qed.

Lemma b64_val_char v : 0 <= v < 64 -> b64_val (b64_char v) = v.
Proof. intros. unfold b64_val, b64_char. repeat case_match; lia. Qed.

Lemma b64_roundtrip_pair x y :
  is_byte x -> is_byte y ->
  b64_val (b64_char (x / 4)) * 4 + b64_val (b64_char (x `mod` 4 * 16 + y / 16)) / 16 = x /\
  b64_val (b64_char (x `mod` 4 * 16 + y / 16)) `mod` 16 = y / 16.
Proof. unfold is_byte. intros. rewrite !b64_val_char by dlia. dlia. Qed.

Lemma b64_decode_encode b : Forall is_byte b -> b64_decode (b64_encode b) = b.
Proof.
  remember (length b) as n eqn:Hn. revert b Hn.
  induction n as [n IH] using lt_wf_ind. intros b -> Hb.
  destruct b as [|x [|y [|z r]]]; simpl; [done|..];
    repeat match goal with H : Forall _ (_ :: _) |- _ => apply Forall_cons in H as [? H] end;
    unfold is_byte in *; rewrite !b64_val_char by dlia.
  - f_equal. dlia.
  - repeat f_equal; dlia.
  - rewrite (IH (length r)) by (simpl; lia || done). repeat f_equal; dlia.
Qed.

Lemma b64_char_base64 v : 0 <= v < 64 -> is_base64 (b64_char v).
Proof. intros. unfold is_base64, b64_char. repeat case_match; lia. Qed.

Lemma b64_encode_chars b : Forall is_byte b -> Forall is_base64 (b64_encode b).
Proof.
  remember (length b) as n eqn:Hn. revert b Hn.
  induction n as [n IH] using lt_wf_ind. intros b -> Hb.
  destruct b as [|x [|y [|z r]]]; simpl; [done|..];
    repeat match goal with H : Forall _ (_ :: _) |- _ => apply Forall_cons in H as [? H] end;
    unfold is_byte in *; repeat (constructor; [apply b64_char_base64; dlia|]); try done.
  apply (IH (length r)); simpl; lia || done.
Qed.

Lemma b64_encode_length b : length (b64_encode b) = base64_length (length b).
Proof.
  remember (length b) as n eqn:Hn. revert b Hn.
  induction n as [n IH] using lt_wf_ind. intros b ->.
  destruct b as [|x [|y [|z r]]]; simpl; [done..|].
  rewrite (IH (length r)) by (simpl; lia || done). unfold base64_length.
  replace (S (S (S (length r))) * 4 + 2)%nat with (length r * 4 + 2 + 4 * 3)%nat by lia.
  rewrite Nat.div_add by lia. lia.
Qed.

Lemma split_go_field sep n cur f s :
  sep ∉ f -> split_go sep n cur (f ++ s) = split_go sep n (rev f ++ cur) s.
Proof.
  revert cur. induction f as [|c f IH]; intros cur Hf; simpl; [done|].
  rewrite decide_False by set_solver. rewrite IH by set_solver. by rewrite <- app_assoc.
Qed.

Lemma split_go_join sep n l :
  Forall (fun f => sep ∉ f) l -> l <> [] -> (length l <= n)%nat ->
  split_go sep n [] (join sep l) = l.
Proof.
  intros Hl. revert n. induction Hl as [|f l Hf Hl IH]; intros n Hne Hn; [done|].
  destruct l as [|g l].
  - simpl. rewrite <- (app_nil_r f) at 1. rewrite split_go_field by done. simpl.
    by rewrite app_nil_r, rev_involutive.
  - change (join sep (f :: g :: l)) with (f ++ sep :: join sep (g :: l)).
    rewrite split_go_field by done. simpl in Hn. unfold split_go at 1. fold split_go.
    rewrite decide_True by (split; [done|lia]). rewrite app_nil_r, rev_involutive.
    f_equal. apply IH; [done|simpl; lia].
Qed.

Lemma buff2int_be n rest : is_int32 n -> int32 (be_value (take 4 (be_bytes 4 n ++ rest))) = n.
Proof.
  intros. rewrite take_app_length' by (by rewrite be_bytes_length).
  unfold int32. rewrite be_value_bytes. by apply (signed_mod 32).
Qed.

Lemma buff2long_be n rest : is_int64 n -> int64 (be_value (take 8 (be_bytes 8 n ++ rest))) = n.
Proof.
  intros. rewrite take_app_length' by (by rewrite be_bytes_length).
  unfold int64. rewrite be_value_bytes. by apply (signed_mod 64).
Qed.

Lemma hash_range b : is_int32 (fold_left (fun h c => (h * 16 + c) `mod` 2 ^ 28) b 0).
Proof.
  induction b as [|c b _] using rev_ind; [done|]. rewrite fold_left_app. cbn [fold_left].
  unfold is_int32. set (x := _ * 16 + c). pose proof (Z.mod_pos_bound x (2 ^ 28)). lia.
Qed.

Lemma split_go_last sep cur s : split_go sep 1 cur s = [rev cur ++ s].
Proof.
  revert cur. induction s as [|c s IH]; intros cur; simpl; [by rewrite app_nil_r|].
  rewrite decide_False by (intros [_ ?]; lia). rewrite IH. simpl. by rewrite <- app_assoc.
Qed.

Lemma join_app_cons sep f l x : join sep ((f :: l) ++ [x]) = f ++ sep :: join sep (l ++ [x]).
Proof. by destruct l. Qed.

Lemma split_go_rest sep l x :
  Forall (fun f => sep ∉ f) l -> split_go sep (S (length l)) [] (join sep (l ++ [x])) = l ++ [x].
Proof.
  induction 1 as [|f l Hf _ IH]; [apply split_go_last|].
  rewrite join_app_cons, split_go_field by done. cbn [split_go]. rewrite decide_True by (split; [done|simpl; lia]).
  cbn [length pred]. rewrite IH. by rewrite app_nil_r, rev_involutive.
Qed.

#[export] Instance ref_common_laws : FastCommonLaws.
Proof.
  split.
  - apply (be_bytes_length 4).
  - apply (be_bytes_bytes 4).
  - apply buff2int_be.
  - apply (be_bytes_length 8).
  - apply (be_bytes_bytes 8).
  - apply buff2long_be.
  - intros b. apply int64_range.
  - intros b rest Hb. cbn. by rewrite take_app_le, (firstn_all2 b) by lia.
  - apply b64_encode_length.
  - apply b64_decode_encode.
  - apply b64_encode_chars.
  - apply hash_range.
  - apply split_go_join.
  - intros. subst. by apply split_go_rest.
Qed.
End RefCommon.
