(* ===== verification/TrunkShared.v ===== *)
(** * Trunk file names, headers and lookup ([storage/trunk_mgr/trunk_shared.c]).

    The data of [trunk_shared.h] as records; [SPLIT_FILENAME_BODY] and its
    three entry points; the codecs of the trunk header (24 bytes in front of
    every small file) and of the trunk position inside a file name; the
    lookup of a trunk file by its name ([trunk_file_do_lstat_func_ex],
    [trunk_file_stat_func_ex]) over a read-only view of the file system; and
    the loading of the store paths from the configuration. *)

From S2P Require Import Prelude FastCommon.

(** ** Constants ([tracker_types.h], [trunk_shared.h], [fdfs_global.h]). *)
Definition FDFS_FILE_EXT_NAME_MAX_LEN : Z := 6.
Definition FDFS_LOGIC_FILE_PATH_LEN : Z := 10.
Definition FDFS_TRUE_FILE_PATH_LEN : Z := 6.
Definition FDFS_FILENAME_BASE64_LENGTH : Z := 27.
Definition FDFS_TRUNK_FILE_INFO_LEN : Z := 16.
Definition FDFS_TRUNK_FILENAME_LENGTH : Z :=
  FDFS_TRUE_FILE_PATH_LEN + FDFS_FILENAME_BASE64_LENGTH + FDFS_TRUNK_FILE_INFO_LEN
  + 1 + FDFS_FILE_EXT_NAME_MAX_LEN.
Definition FDFS_TRUNK_LOGIC_FILENAME_LENGTH : Z :=
  FDFS_TRUNK_FILENAME_LENGTH + (FDFS_LOGIC_FILE_PATH_LEN - FDFS_TRUE_FILE_PATH_LEN).
Definition FDFS_STORAGE_STORE_PATH_PREFIX_CHAR : Z := 77. (* 'M' *)
Definition FDFS_TRUNK_FILE_MARK_SIZE : Z := 512 * 1024 * 1024 * 1024 * 1024 * 1024.
Definition FDFS_TRUNK_FILE_HEADER_SIZE : Z := 17 + FDFS_FILE_EXT_NAME_MAX_LEN + 1.
Definition FDFS_TRUNK_STATUS_FREE : Z := 0.
Definition FDFS_TRUNK_STATUS_HOLD : Z := 1.
Definition FDFS_TRUNK_FILE_TYPE_NONE : Z := 0.
Definition FDFS_TRUNK_FILE_TYPE_REGULAR : Z := 70. (* 'F' *)
Definition FDFS_TRUNK_FILE_TYPE_LINK : Z := 76. (* 'L' *)
Definition FDFS_STAT_FUNC_STAT : Z := 0.
Definition FDFS_STAT_FUNC_LSTAT : Z := 1.
(** [MAX_PATH_SIZE] of libfastcommon's [common_define.h]. *)
Definition MAX_PATH_SIZE : Z := 256.

(** ** Data. *)
Record FDFSTrunkPathInfo := {
  store_path_index : Z;   (* unsigned char *)
  sub_path_high : Z;      (* unsigned char *)
  sub_path_low : Z;       (* unsigned char *)
}.

Record FDFSTrunkFileInfo := {
  tf_id : Z;      (* trunk file id *)
  tf_offset : Z;  (* file offset *)
  tf_size : Z;    (* space size *)
}.

Record FDFSTrunkFullInfo := {
  ti_status : Z;
  ti_path : FDFSTrunkPathInfo;
  ti_file : FDFSTrunkFileInfo;
}.

Record FDFSTrunkHeader := {
  th_file_type : Z;
  th_formatted_ext_name : bytes;  (* 8 bytes with the terminating NUL *)
  th_alloc_size : Z;
  th_file_size : Z;
  th_crc32 : Z;
  th_mtime : Z;
}.

Record FDFSStorePathInfo := {
  sp_total_mb : Z;
  sp_free_mb : Z;
  sp_path : bytes;
  sp_mark : option bytes;
}.

#[export] Instance FDFSTrunkPathInfo_eq_dec : EqDecision FDFSTrunkPathInfo.
Proof. solve_decision. Defined.
#[export] Instance FDFSTrunkFileInfo_eq_dec : EqDecision FDFSTrunkFileInfo.
Proof. solve_decision. Defined.
#[export] Instance FDFSTrunkFullInfo_eq_dec : EqDecision FDFSTrunkFullInfo.
Proof. solve_decision. Defined.
#[export] Instance FDFSTrunkHeader_eq_dec : EqDecision FDFSTrunkHeader.
Proof. solve_decision. Defined.

#[export] Instance FDFSTrunkFullInfo_inhabited : Inhabited FDFSTrunkFullInfo :=
  populate {| ti_status := 0; ti_path := {| store_path_index := 0; sub_path_high := 0; sub_path_low := 0 |};
              ti_file := {| tf_id := 0; tf_offset := 0; tf_size := 0 |} |}.

#[export] Instance FDFSStorePathInfo_inhabited : Inhabited FDFSStorePathInfo :=
  populate {| sp_total_mb := 0; sp_free_mb := 0; sp_path := []; sp_mark := None |}.

(** Macros on the size field of a file name ([tracker_types.h]). *)
Definition IS_TRUNK_FILE (file_size : Z) : bool :=
  negb (Z.land file_size FDFS_TRUNK_FILE_MARK_SIZE =? 0).
Definition FDFS_TRUNK_FILE_TRUE_SIZE (file_size : Z) : Z := Z.land file_size 0xFFFFFFFF.
Definition IS_TRUNK_FILE_BY_ID (t : FDFSTrunkFullInfo) : bool := 0 <? tf_id (ti_file t).

(** The bytes [buff + off] with [n] zero bytes after the data. *)
Definition zero_pad (n : nat) (b : bytes) : bytes := b ++ replicate (n - length b) 0.

(** ** Splitting a logic file name [Mxx/HH/HH/name].

    [inl errno], or [inr (filename_len, true_filename, store_path_index)]:
    the updated length, the copied name and the index.  [count] is
    [g_fdfs_store_paths.count]. *)
Definition SPLIT_FILENAME_BODY (count : Z) (check_path_index : bool)
    (logic_filename : bytes) (filename_len : Z) : Z + (Z * bytes * Z) :=
  if filename_len <=? FDFS_LOGIC_FILE_PATH_LEN then inl EINVAL
  else if negb (znth 0 logic_filename 0 =? FDFS_STORAGE_STORE_PATH_PREFIX_CHAR) then
    (* version < V1.12 *)
    inr (filename_len, take (Z.to_nat filename_len) logic_filename, 0)
  else if negb (znth 0 logic_filename 3 =? 47 (* '/' *)) then inl EINVAL
  else
    let buff := cstr [znth 0 logic_filename 1; znth 0 logic_filename 2] in
    let '(v, pEnd) := strtol 16 buff in
    let store_path_index := int32 v in
    if negb (bool_decide (pEnd = [])) then inl EINVAL
    else if check_path_index && ((store_path_index <? 0) || (count <=? store_path_index)) then inl EINVAL
    else inr (filename_len - 4,
              take (Z.to_nat (filename_len - 4)) (drop 4 logic_filename), store_path_index).

Definition storage_split_filename_ex (paths : list FDFSStorePathInfo) (logic_filename : bytes)
    (filename_len : Z) : Z + (Z * bytes * Z) :=
  SPLIT_FILENAME_BODY (Z.of_nat (length paths)) true logic_filename filename_len.

Definition storage_split_filename_no_check (paths : list FDFSStorePathInfo) (logic_filename : bytes)
    (filename_len : Z) : Z + (Z * bytes * Z) :=
  SPLIT_FILENAME_BODY (Z.of_nat (length paths)) false logic_filename filename_len.

(** The third output is [*ppStorePath], the path at the index. *)
Definition storage_split_filename (paths : list FDFSStorePathInfo) (logic_filename : bytes)
    (filename_len : Z) : Z + (Z * bytes * bytes) :=
  match SPLIT_FILENAME_BODY (Z.of_nat (length paths)) true logic_filename filename_len with
  | inl e => inl e
  | inr (len, name, i) => inr (len, name, sp_path (znth inhabitant paths i))
  end.

(** ** Names of trunk files on disk. *)
Definition trunk_get_full_filename_ex (paths : list FDFSStorePathInfo) (t : FDFSTrunkFullInfo)
    (buff_size : Z) : bytes :=
  let pStorePath := sp_path (znth inhabitant paths (store_path_index (ti_path t))) in
  snprintf buff_size
    (pStorePath ++ bs "/data/" ++ fmt_02X (sub_path_high (ti_path t)) ++ bs "/" ++
     fmt_02X (sub_path_low (ti_path t)) ++ bs "/" ++ fmt_06u (tf_id (ti_file t))).

(** The text [trunk_info_dump] logs. *)
Definition trunk_info_dump (t : FDFSTrunkFullInfo) (buff_size : Z) : bytes :=
  snprintf buff_size
    (bs "store_path_index=" ++ fmt_d (store_path_index (ti_path t)) ++
     bs ", sub_path_high=" ++ fmt_d (sub_path_high (ti_path t)) ++
     bs ", sub_path_low=" ++ fmt_d (sub_path_low (ti_path t)) ++
     bs ", id=" ++ fmt_u 10 (uint32 (tf_id (ti_file t))) ++
     bs ", offset=" ++ fmt_d (tf_offset (ti_file t)) ++
     bs ", size=" ++ fmt_d (tf_size (ti_file t)) ++
     bs ", status=" ++ fmt_d (ti_status t)).

Section codec.
Context `{FastCommon}.

(** ** The trunk header. *)
Definition trunk_pack_header (h : FDFSTrunkHeader) : bytes :=
  th_file_type h :: int2buff (th_alloc_size h) ++ int2buff (th_file_size h) ++
  int2buff (th_crc32 h) ++ int2buff (th_mtime h) ++
  take (Z.to_nat (FDFS_FILE_EXT_NAME_MAX_LEN + 1)) (th_formatted_ext_name h).

Definition trunk_unpack_header (buff : bytes) : FDFSTrunkHeader := {|
  th_file_type := znth 0 buff 0;
  th_alloc_size := buff2int (drop 1 buff);
  th_file_size := buff2int (drop 5 buff);
  th_crc32 := buff2int (drop 9 buff);
  th_mtime := buff2int (drop 13 buff);
  th_formatted_ext_name :=
    take (Z.to_nat (FDFS_FILE_EXT_NAME_MAX_LEN + 1)) (drop 17 buff) ++ [0];
|}.

(** ** The trunk position in a file name. *)
Definition trunk_file_info_encode (f : FDFSTrunkFileInfo) : bytes :=
  base64_encode_ex (int2buff (tf_id f) ++ int2buff (tf_offset f) ++ int2buff (tf_size f)).

Definition trunk_file_info_decode (str : bytes) : FDFSTrunkFileInfo :=
  let buff := base64_decode_auto (take (Z.to_nat FDFS_TRUNK_FILE_INFO_LEN) str) in
  {| tf_id := buff2int buff; tf_offset := buff2int (drop 4 buff); tf_size := buff2int (drop 8 buff) |}.

Definition fdfs_is_trunk_file (remote_filename : bytes) (filename_len : Z) : bool :=
  if negb (filename_len =? FDFS_TRUNK_LOGIC_FILENAME_LENGTH) then false
  else
    let buff := zero_pad 64 (base64_decode_auto
      (take (Z.to_nat FDFS_FILENAME_BASE64_LENGTH)
         (drop (Z.to_nat FDFS_LOGIC_FILE_PATH_LEN) remote_filename))) in
    IS_TRUNK_FILE (buff2long (drop 8 buff)).

Definition fdfs_decode_trunk_info (index : Z) (true_filename : bytes) (filename_len : Z)
    (t : FDFSTrunkFullInfo) : Z * FDFSTrunkFullInfo :=
  if negb (filename_len =? FDFS_TRUNK_FILENAME_LENGTH) then (EINVAL, t)
  else (0, {|
    ti_status := ti_status t;
    ti_path := {|
      store_path_index := uint8 index;
      sub_path_high := uint8 (strtol 16 true_filename).1;
      sub_path_low := uint8 (strtol 16 (drop 3 true_filename)).1 |};
    ti_file := trunk_file_info_decode
      (drop (Z.to_nat (FDFS_TRUE_FILE_PATH_LEN + FDFS_FILENAME_BASE64_LENGTH)) true_filename) |}).
End codec.

(** ** Looking a file up by its name.

    The lookup only reads the file system: [stat] and [lstat] of a path, and
    the bytes an [open] for reading gives access to; a failing call is
    [inl errno]. *)
Definition S_IFREG : Z := 0x8000.
Definition S_IFLNK : Z := 0xA000.

Record Stat := { st_mode : Z; st_size : Z; st_mtime : Z }.

Record FileView := {
  sys_stat : bytes -> Z + Stat;
  sys_lstat : bytes -> Z + Stat;
  sys_read : bytes -> Z + bytes;
}.

(** An open descriptor: what it reads and its position. *)
Record Fd := { fd_data : bytes; fd_pos : Z }.

(** [errno != 0 ? errno : dflt]. *)
Definition errno_or (e dflt : Z) : Z := if e =? 0 then dflt else e.

(** [fc_safe_read(fd, buff, n)]: the bytes read and the advanced descriptor. *)
Definition fd_read (fd : Fd) (n : Z) : bytes * Fd :=
  let b := take (Z.to_nat n) (drop (Z.to_nat (fd_pos fd)) (fd_data fd)) in
  (b, {| fd_data := fd_data fd; fd_pos := fd_pos fd + Z.of_nat (length b) |}).

Section lookup.
Context `{FastCommon} (fs : FileView) (paths : list FDFSStorePathInfo).

(** [open] + [lseek]: a descriptor at [pos], or the error. *)
Definition open_at (filename : bytes) (pos : Z) : Z + Fd :=
  match sys_read fs filename with
  | inl e => inl (errno_or e EIO)
  | inr data => if pos <? 0 then inl EINVAL else inr {| fd_data := data; fd_pos := pos |}
  end.

(** [pfd] is the open descriptor the caller passes, if any.  The result is
    the content and the descriptor after the read. *)
Definition trunk_file_get_content_ex (t : FDFSTrunkFullInfo) (file_size : Z)
    (pfd : option Fd) (buff_size : Z) : Z + (bytes * option Fd) :=
  if buff_size <? file_size then inl ENOSPC
  else
    let opened :=
      match pfd with
      | Some fd => inr fd
      | None => open_at (trunk_get_full_filename_ex paths t MAX_PATH_SIZE)
                  (tf_offset (ti_file t) + FDFS_TRUNK_FILE_HEADER_SIZE)
      end in
    match opened with
    | inl e => inl e
    | inr fd =>
        let '(buff, fd') := fd_read fd file_size in
        if Z.of_nat (length buff) =? file_size
        then inr (buff, match pfd with Some _ => Some fd' | None => None end)
        else inl EINVAL
    end.

(** A file that is not in a trunk: [stat] or [lstat] of its path. *)
Definition plain_stat (index : Z) (true_filename : bytes) (stat_func : Z) : Z + Stat :=
  let full_filename := snprintf MAX_PATH_SIZE
    (sp_path (znth inhabitant paths index) ++ bs "/data/" ++ cstr true_filename) in
  match (if stat_func =? FDFS_STAT_FUNC_STAT then sys_stat fs full_filename
         else sys_lstat fs full_filename) with
  | inl e => inl (errno_or e ENOENT)
  | inr st => inr st
  end.

(** The header fields the name alone determines. *)
Definition header_of_name (true_filename : bytes) (filename_len file_size : Z)
    (buff : bytes) (alloc_size file_type : Z) : FDFSTrunkHeader := {|
  th_file_type := file_type;
  th_formatted_ext_name :=
    take (Z.to_nat (FDFS_FILE_EXT_NAME_MAX_LEN + 2))
      (drop (Z.to_nat (filename_len - (FDFS_FILE_EXT_NAME_MAX_LEN + 1))) true_filename ++ [0]);
  th_alloc_size := alloc_size;
  th_file_size := int32 (FDFS_TRUNK_FILE_TRUE_SIZE file_size);
  th_crc32 := buff2int (drop 16 buff);
  th_mtime := buff2int (drop 4 buff);
|}.

(** [inl errno], or the [stat] result with the filled [*pTrunkInfo],
    [*pTrunkHeader] and the open descriptor ([None] for a plain file). *)
Definition trunk_file_do_lstat_func_ex (index : Z) (true_filename : bytes)
    (filename_len stat_func : Z) (t : FDFSTrunkFullInfo) (h : FDFSTrunkHeader)
    : Z + (Stat * FDFSTrunkFullInfo * FDFSTrunkHeader * option Fd) :=
  let t0 := {| ti_status := ti_status t; ti_path := ti_path t;
               ti_file := {| tf_id := 0; tf_offset := tf_offset (ti_file t);
                             tf_size := tf_size (ti_file t) |} |} in
  let plain :=
    match plain_stat index true_filename stat_func with
    | inl e => inl e
    | inr st => inr (st, t0, h, None)
    end in
  if negb (filename_len =? FDFS_TRUNK_FILENAME_LENGTH) then plain
  else
    let buff := zero_pad 128 (base64_decode_auto
      (take (Z.to_nat FDFS_FILENAME_BASE64_LENGTH)
         (drop (Z.to_nat FDFS_TRUE_FILE_PATH_LEN) true_filename))) in
    let file_size := buff2long (drop 8 buff) in
    if negb (IS_TRUNK_FILE file_size) then plain (* slave file *)
    else
      let file := trunk_file_info_decode
        (drop (Z.to_nat (FDFS_TRUE_FILE_PATH_LEN + FDFS_FILENAME_BASE64_LENGTH)) true_filename) in
      let t1 := {| ti_status := ti_status t;
                   ti_path := {| store_path_index := uint8 index;
                                 sub_path_high := uint8 (strtol 16 true_filename).1;
                                 sub_path_low := uint8 (strtol 16 (drop 3 true_filename)).1 |};
                   ti_file := file |} in
      match open_at (trunk_get_full_filename_ex paths t1 MAX_PATH_SIZE) (tf_offset file) with
      | inl e => inl e
      | inr fd =>
          let '(hbuff, fd') := fd_read fd FDFS_TRUNK_FILE_HEADER_SIZE in
          if negb (Z.of_nat (length hbuff) =? FDFS_TRUNK_FILE_HEADER_SIZE) then inl EINVAL
          else
            let file_type := znth 0 hbuff 0 in
            let h1 := header_of_name true_filename filename_len file_size buff (tf_size file) file_type in
            if negb ((file_type =? FDFS_TRUNK_FILE_TYPE_REGULAR)
                     || (file_type =? FDFS_TRUNK_FILE_TYPE_LINK)) then inl ENOENT
            else if negb (memcmp (trunk_pack_header h1) hbuff =? 0) then inl ENOENT
            else inr ({| st_mode := if file_type =? FDFS_TRUNK_FILE_TYPE_REGULAR
                                    then S_IFREG else S_IFLNK;
                         st_size := th_file_size h1; st_mtime := th_mtime h1 |},
                      t1, h1, Some fd')
      end.

(** [with_fd] tells whether the caller passed [pfd]. *)
Definition trunk_file_stat_func_ex (index : Z) (true_filename : bytes)
    (filename_len stat_func : Z) (with_fd : bool) (t : FDFSTrunkFullInfo) (h : FDFSTrunkHeader)
    : Z + (Stat * FDFSTrunkFullInfo * FDFSTrunkHeader * option Fd) :=
  match trunk_file_do_lstat_func_ex index true_filename filename_len stat_func t h with
  | inl e => inl e
  | inr (st, t1, h1, fd) =>
      if negb ((stat_func =? FDFS_STAT_FUNC_STAT) && IS_TRUNK_FILE_BY_ID t1
               && (st_mode st =? S_IFLNK)) then inr (st, t1, h1, if with_fd then fd else None)
      else
        match trunk_file_get_content_ex t1 (st_size st) (if with_fd then fd else None) 127 with
        | inl e => inl e
        | inr (src_filename, _) =>
            match storage_split_filename_no_check paths src_filename (st_size st) with
            | inl e => inl e
            | inr (src_len, src_true_filename, src_index) =>
                if (src_index <? 0) || (Z.of_nat (length paths) <=? src_index) then inl EINVAL
                else
                  match trunk_file_do_lstat_func_ex src_index src_true_filename src_len
                          stat_func t1 h1 with
                  | inl e => inl e
                  | inr (st2, t2, h2, fd2) => inr (st2, t2, h2, if with_fd then fd2 else None)
                  end
            end
        end
  end.
End lookup.

(** ** The store paths of the configuration.

    The ini file, [chopPath], [fileExists] and [isDir] are libfastcommon's and
    the system's; [alloc_err] and [strdup_err] are the [errno] values of failed
    allocations (0 when they succeed). *)
Record ConfView := {
  iniGetIntValue : bytes -> Z -> Z;
  iniGetStrValue : bytes -> option bytes;
  chopPath : bytes -> bytes;
  fileExists_err : bytes -> option Z;   (* [Some errno] when it does not exist *)
  isDir : bytes -> bool;
  malloc_err : option Z;
  strdup_err : bytes -> option Z;
}.

Section load_paths.
Context (cv : ConfView).

Definition new_store_path (p : bytes) : FDFSStorePathInfo :=
  {| sp_total_mb := 0; sp_free_mb := 0; sp_path := p; sp_mark := None |}.

(** One round of the loop for [i >= 1]. *)
Definition load_store_path (i : Z) : Z + FDFSStorePathInfo :=
  match iniGetStrValue cv (bs "store_path" ++ fmt_d i) with
  | None => inl ENOENT
  | Some raw =>
      let p := chopPath cv raw in
      match fileExists_err cv p with
      | Some e => inl (errno_or e ENOENT)
      | None =>
          if negb (isDir cv p) then inl ENOTDIR
          else match strdup_err cv p with
               | Some e => inl (errno_or e ENOMEM)
               | None => inr (new_store_path p)
               end
      end
  end.

Fixpoint load_store_paths (n : nat) (i : Z) : Z + list FDFSStorePathInfo :=
  match n with
  | O => inr []
  | S n' =>
      match load_store_path i with
      | inl e => inl e
      | inr p => match load_store_paths n' (i + 1) with
                 | inl e => inl e
                 | inr l => inr (p :: l)
                 end
      end
  end.

(** [base_path] is [g_fdfs_base_path]. *)
Definition storage_load_paths_from_conf_file_ex (bUseBasePath : bool) (base_path : bytes)
    : Z + list FDFSStorePathInfo :=
  let path_count := iniGetIntValue cv (bs "store_path_count") 1 in
  if path_count <=? 0 then inl EINVAL
  else
    match malloc_err cv with
    | Some e => inl (errno_or e ENOMEM)
    | None =>
        let first :=
          match iniGetStrValue cv (bs "store_path0") with
          | Some p => Some p
          | None => if bUseBasePath then Some base_path else None
          end in
        match first with
        | None => inl ENOENT
        | Some p =>
            match strdup_err cv p with
            | Some e => inl (errno_or e ENOMEM)
            | None =>
                match load_store_paths (Z.to_nat (path_count - 1)) 1 with
                | inl e => inl e
                | inr l => inr (new_store_path p :: l)
                end
            end
        end
    end.

(** The result code with [g_fdfs_base_path] and the paths. *)
Definition storage_load_paths_from_conf_file : Z + (bytes * list FDFSStorePathInfo) :=
  match iniGetStrValue cv (bs "base_path") with
  | None => inl ENOENT
  | Some raw =>
      let base := chopPath cv (snprintf MAX_PATH_SIZE raw) in
      match fileExists_err cv base with
      | Some e => inl (errno_or e ENOENT)
      | None =>
          if negb (isDir cv base) then inl ENOTDIR
          else match storage_load_paths_from_conf_file_ex true base with
               | inl e => inl e
               | inr l => inr (base, l)
               end
      end
  end.
End load_paths.

(** ** Properties. *)

(** The fields of a header and of a position fit their C types. *)
Record header_ok (h : FDFSTrunkHeader) : Prop := {
  ho_alloc : is_int32 (th_alloc_size h);
  ho_size : is_int32 (th_file_size h);
  ho_crc : is_int32 (th_crc32 h);
  ho_mtime : is_int32 (th_mtime h);
  ho_ext_len : length (th_formatted_ext_name h) = 8%nat;
  ho_ext_end : th_formatted_ext_name h !! 7%nat = Some 0;
}.

Definition file_info_ok (f : FDFSTrunkFileInfo) : Prop :=
  is_int32 (tf_id f) /\ is_int32 (tf_offset f) /\ is_int32 (tf_size f).

(** Dropping the bytes a fixed-width field occupies. *)
Lemma drop_field (k n : nat) (f rest : bytes) :
  length f = k -> drop (k + n) (f ++ rest) = drop n rest.
Proof.
  intros <-. rewrite drop_app_ge by lia. f_equal. lia.
Qed.

Section codec_facts.
Context `{FastCommonLaws}.

Lemma pack_header_length h :
  (7 <= length (th_formatted_ext_name h))%nat ->
  Z.of_nat (length (trunk_pack_header h)) = FDFS_TRUNK_FILE_HEADER_SIZE.
Proof.
  intros. unfold trunk_pack_header. cbn [length].
  rewrite !length_app, !int2buff_length, length_take. unfold FDFS_TRUNK_FILE_HEADER_SIZE, FDFS_FILE_EXT_NAME_MAX_LEN. lia.
Qed.

(** unpacking a packed trunk header gives the header back, whatever
    follows it in the buffer. *)
Theorem trunk_unpack_pack_header h rest :
  header_ok h -> trunk_unpack_header (trunk_pack_header h ++ rest) = h.
Proof.
  intros [Ha Hs Hc Hm Hl He]. destruct h as [ft ext al fsz crc mt]; simpl in *.
  unfold trunk_unpack_header, trunk_pack_header; simpl.
  rewrite <- !app_assoc.
  rewrite (drop_field 4 12), (drop_field 4 8), (drop_field 4 4), (drop_field 4 8),
    (drop_field 4 4), (drop_field 4 4) by apply int2buff_length.
  rewrite !(drop_field 4 0) by apply int2buff_length.
  rewrite !drop_0, !buff2int_int2buff by done.
  f_equal. rewrite take_app_length' by (rewrite length_take; unfold FDFS_FILE_EXT_NAME_MAX_LEN; lia).
  rewrite <- (take_drop 7 ext) at 2. f_equal.
  apply list_eq. intros [|i]; rewrite lookup_drop; [done|].
  rewrite !lookup_ge_None_2; simpl; [done|lia..].
Qed.

Lemma file_info_encode_length f : length (trunk_file_info_encode f) = 16%nat.
Proof.
  unfold trunk_file_info_encode.
  by rewrite base64_encode_length, !length_app, !int2buff_length.
Qed.

Lemma file_info_decode_encode f rest :
  file_info_ok f -> trunk_file_info_decode (trunk_file_info_encode f ++ rest) = f.
Proof.
  intros (Hi & Ho & Hs). unfold trunk_file_info_decode.
  rewrite take_app_length' by (by rewrite file_info_encode_length).
  unfold trunk_file_info_encode.
  rewrite base64_decode_encode by (repeat (apply Forall_app; split); apply int2buff_bytes).
  rewrite (drop_field 4 4), !(drop_field 4 0) by apply int2buff_length.
  rewrite !drop_0, !buff2int_int2buff by done.
  rewrite <- (app_nil_r (int2buff (tf_size f))), buff2int_int2buff by done.
  by destruct f.
Qed.

(** the position in a trunk file survives the trip through a file name,
    whatever follows it in the name. *)
Theorem trunk_file_info_decode_encode f rest :
  file_info_ok f -> trunk_file_info_decode (trunk_file_info_encode f ++ rest) = f.
Proof. apply file_info_decode_encode. Qed.
End codec_facts.

(** ** Two hexadecimal digits. *)
Definition hex2_check (i : Z) : bool :=
  match fmt_02X i with
  | [a; b] => is_digit 16 a && is_digit 16 b && negb (a =? 0) && negb (b =? 0)
              && (digits_val 16 0 [a; b] =? i)
  | _ => false
  end.

Lemma hex2_check_all : forallb hex2_check (Z.of_nat <$> seq 0 256) = true.
Proof. vm_compute. reflexivity. Qed.

(** [%02X] of a byte is two hexadecimal digits with the byte's value. *)
Lemma fmt_02X_byte i :
  is_uint8 i ->
  exists a b, fmt_02X i = [a; b] /\ is_digit 16 a = true /\ is_digit 16 b = true /\
    a <> 0 /\ b <> 0 /\ digits_val 16 0 [a; b] = i.
Proof.
  intros Hi. unfold is_uint8 in Hi.
  assert (hex2_check i = true) as Hc.
  { pose proof hex2_check_all as Hall. rewrite forallb_forall in Hall. apply Hall.
    apply list_elem_of_In, list_elem_of_fmap. exists (Z.to_nat i). split; [lia|].
    apply elem_of_seq. lia. }
  unfold hex2_check in Hc. destruct (fmt_02X i) as [|a [|b [|? ?]]]; try done.
  exists a, b. repeat rewrite andb_true_iff in Hc. destruct Hc as [[[[? ?] ?] ?] ?].
  repeat split; try done; lia.
Qed.

Lemma strtol_02X i rest :
  is_uint8 i -> (forall c, head rest = Some c -> c = 47) ->
  strtol 16 (fmt_02X i ++ rest) = (i, rest).
Proof.
  intros Hi Hr. destruct (fmt_02X_byte i Hi) as (a & b & -> & Ha & Hb & _ & _ & Hv).
  rewrite strtol_digits; [|lia|by repeat constructor|done|].
  - rewrite Hv, clamp_long_id; [done|]. unfold is_uint8, is_int64 in *. lia.
  - intros c Hc. apply Hr in Hc. subst c. done.
Qed.

(** ** Splitting logic names. *)
Section split_facts.
Context (paths : list FDFSStorePathInfo).

(** The logic name of a file in a store path, as the upload code prints it. *)
Definition logic_name (i : Z) (true_filename : bytes) : bytes :=
  bs "M" ++ fmt_02X i ++ bs "/" ++ true_filename.

Lemma split_body_logic_name count chk i name :
  is_uint8 i -> (6 < length name)%nat -> (chk = true -> i < count) ->
  SPLIT_FILENAME_BODY count chk (logic_name i name) (Z.of_nat (length (logic_name i name)))
  = inr (Z.of_nat (length name), name, i).
Proof.
  intros Hi Hl Hc. pose proof (strtol_02X i [] Hi ltac:(done)) as Hs.
  destruct (fmt_02X_byte i Hi) as (a & b & Hf & _ & _ & Ha & Hb & _).
  unfold logic_name in *. rewrite Hf in *. rewrite app_nil_r in Hs.
  set (L := Z.of_nat _). assert (L = Z.of_nat (length name) + 4) as HL.
  { unfold L. simpl. lia. }
  unfold SPLIT_FILENAME_BODY, FDFS_LOGIC_FILE_PATH_LEN.
  rewrite (proj2 (Z.leb_gt L 10)) by lia.
  cbv [znth]. simpl. rewrite !decide_False by done. rewrite Hs.
  unfold is_uint8 in Hi. rewrite int32_id by (unfold is_int32; lia).
  rewrite bool_decide_eq_true_2 by done. simpl.
  replace (chk && ((i <? 0) || (count <=? i))) with false
    by (destruct chk; [specialize (Hc eq_refl); lia|done]).
  rewrite HL, Z.add_simpl_r, Nat2Z.id, firstn_all. done.
Qed.

(** the name [Mxx/...] of a file in store path [xx] splits into that
    index and the name below the path, on a storage that has the path. *)
Theorem storage_split_logic_name i name :
  is_uint8 i -> i < Z.of_nat (length paths) -> (6 < length name)%nat ->
  storage_split_filename_ex paths (logic_name i name) (Z.of_nat (length (logic_name i name)))
  = inr (Z.of_nat (length name), name, i).
Proof. intros. by apply split_body_logic_name. Qed.

(** C38: whatever bytes a client sends as file name, an accepted name has an
    index of an existing store path, and a non-empty true name at most as
    long as the one sent. *)
Theorem storage_split_filename_safe name len r_len r_name r_i :
  paths <> [] -> Z.of_nat (length name) = len ->
  storage_split_filename_ex paths name len = inr (r_len, r_name, r_i) ->
  0 <= r_i < Z.of_nat (length paths) /\ 6 < r_len <= len /\
  Z.of_nat (length r_name) = r_len.
Proof.
  intros Hp Hl. unfold storage_split_filename_ex, SPLIT_FILENAME_BODY, FDFS_LOGIC_FILE_PATH_LEN.
  assert (0 < Z.of_nat (length paths)) by (destruct paths; simpl; [done|lia]).
  destruct (strtol 16 _) as [v pend]. repeat case_match; intros; simplify_eq/=.
  - rewrite length_take. repeat split; lia.
  - rewrite length_take, length_drop. repeat split; lia.
Qed.
End split_facts.

(** ** Finding a file in a trunk by its name. *)
Section lookup_facts.
Context `{FastCommonLaws} (fs : FileView) (paths : list FDFSStorePathInfo).

(** The parts a trunk file name carries: the sub directories, the 20 bytes
    under the first base64 text, the position, the formatted extension. *)
Definition trunk_name (hi lo : Z) (meta : bytes) (f : FDFSTrunkFileInfo) (ext : bytes) : bytes :=
  fmt_02X hi ++ bs "/" ++ fmt_02X lo ++ bs "/" ++ base64_encode_ex meta ++
  trunk_file_info_encode f ++ ext.

Definition name_meta (sid mtime size crc : Z) : bytes :=
  int2buff sid ++ int2buff mtime ++ long2buff size ++ int2buff crc.

Lemma name_meta_length sid mtime size crc : length (name_meta sid mtime size crc) = 20%nat.
Proof. unfold name_meta. by rewrite !length_app, !int2buff_length, long2buff_length. Qed.

Lemma name_meta_bytes sid mtime size crc : Forall is_byte (name_meta sid mtime size crc).
Proof. unfold name_meta. repeat (apply Forall_app; split); auto using int2buff_bytes, long2buff_bytes. Qed.

Lemma base64_meta_length sid mtime size crc :
  length (base64_encode_ex (name_meta sid mtime size crc)) = 27%nat.
Proof. by rewrite base64_encode_length, name_meta_length. Qed.

Lemma trunk_name_shape hi lo meta f ext :
  is_uint8 hi -> is_uint8 lo ->
  exists p, length p = 6%nat /\
    trunk_name hi lo meta f ext = p ++ base64_encode_ex meta ++ trunk_file_info_encode f ++ ext /\
    (strtol 16 (trunk_name hi lo meta f ext)).1 = hi /\
    (strtol 16 (drop 3 (trunk_name hi lo meta f ext))).1 = lo.
Proof.
  intros Hh Hl. unfold trunk_name.
  destruct (fmt_02X_byte hi Hh) as (a & b & Ha & _). destruct (fmt_02X_byte lo Hl) as (c & d & Hc & _).
  exists (fmt_02X hi ++ bs "/" ++ fmt_02X lo ++ bs "/"). rewrite Ha, Hc at 1. split; [done|].
  split; [by rewrite <- !app_assoc|]. split.
  - rewrite strtol_02X; [done|done|]. simpl. by intros ? [= <-].
  - rewrite Ha. change (drop 3 ([a; b] ++ bs "/" ++ ?r)) with r.
    rewrite strtol_02X; [done|done|]. simpl. by intros ? [= <-].
Qed.

Lemma zero_pad_drop n k b : (k <= length b)%nat -> drop k (zero_pad n b) = drop k b ++ replicate (n - length b) 0.
Proof. intros. unfold zero_pad. by rewrite drop_app_le. Qed.

(** What the lookup reads back from a name. *)
Lemma name_meta_decode n sid mtime size crc :
  is_int32 mtime -> is_int64 size -> is_int32 crc ->
  let buff := zero_pad n (name_meta sid mtime size crc) in
  buff2int (drop 4 buff) = mtime /\ buff2long (drop 8 buff) = size /\ buff2int (drop 16 buff) = crc.
Proof.
  intros Hm Hs Hc buff. unfold buff.
  rewrite !zero_pad_drop by (rewrite name_meta_length; lia). unfold name_meta.
  rewrite (drop_field 4 12), (drop_field 4 8) by apply int2buff_length.
  rewrite (drop_field 8 0 (long2buff size)) by apply long2buff_length.
  rewrite (drop_field 4 4), !(drop_field 4 0) by apply int2buff_length.
  rewrite !drop_0, <- !app_assoc, !buff2int_int2buff, buff2long_long2buff by done. done.
Qed.

(** What the lookup computes before it opens the trunk file. *)
Lemma trunk_name_fields hi lo sid mtime size crc f ext :
  is_uint8 hi -> is_uint8 lo -> length ext = 7%nat -> file_info_ok f ->
  let name := trunk_name hi lo (name_meta sid mtime size crc) f ext in
  Z.of_nat (length name) = FDFS_TRUNK_FILENAME_LENGTH /\
  base64_decode_auto (take 27 (drop 6 name)) = name_meta sid mtime size crc /\
  trunk_file_info_decode (drop 33 name) = f /\ drop 49 name = ext.
Proof.
  intros Hh Hl He Hf name. unfold name.
  destruct (trunk_name_shape hi lo (name_meta sid mtime size crc) f ext Hh Hl)
    as (p & Hp & -> & _ & _).
  pose proof (base64_meta_length sid mtime size crc) as Hb.
  pose proof (file_info_encode_length f) as Hfl.
  rewrite (drop_field 6 0), (drop_field 6 27), (drop_field 6 43) by done.
  rewrite (drop_field 27 0), (drop_field 27 16), (drop_field 16 0), !drop_0 by done.
  rewrite take_app_length' by done. rewrite base64_decode_encode by apply name_meta_bytes.
  rewrite file_info_decode_encode by done.
  rewrite !length_app, Hp, Hb, Hfl, He. done.
Qed.

(** C31: a file written into a trunk is found by its name.  When the trunk
    file holds, at the position the name carries, the packed header of a
    regular file or a link with the fields of the name, the lookup succeeds
    and returns the size and the modification time of the name, the position,
    and a descriptor just behind the header. *)
Theorem trunk_lookup_found hi lo sid mtime size crc f ext data index ft t0 h0 stat_func :
  is_uint8 hi -> is_uint8 lo -> is_uint8 index -> is_int32 mtime -> is_int64 size ->
  is_int32 crc -> file_info_ok f -> 0 <= tf_offset f -> length ext = 7%nat ->
  IS_TRUNK_FILE size = true -> ft = FDFS_TRUNK_FILE_TYPE_REGULAR \/ ft = FDFS_TRUNK_FILE_TYPE_LINK ->
  let name := trunk_name hi lo (name_meta sid mtime size crc) f ext in
  let t := {| ti_status := ti_status t0;
              ti_path := {| store_path_index := index; sub_path_high := hi; sub_path_low := lo |};
              ti_file := f |} in
  let h := {| th_file_type := ft; th_formatted_ext_name := ext ++ [0]; th_alloc_size := tf_size f;
              th_file_size := int32 (FDFS_TRUNK_FILE_TRUE_SIZE size); th_crc32 := crc; th_mtime := mtime |} in
  sys_read fs (trunk_get_full_filename_ex paths t MAX_PATH_SIZE) = inr data ->
  take 24 (drop (Z.to_nat (tf_offset f)) data) = trunk_pack_header h ->
  trunk_file_do_lstat_func_ex fs paths index name FDFS_TRUNK_FILENAME_LENGTH stat_func t0 h0 =
  inr ({| st_mode := if ft =? FDFS_TRUNK_FILE_TYPE_REGULAR then S_IFREG else S_IFLNK;
          st_size := int32 (FDFS_TRUNK_FILE_TRUE_SIZE size); st_mtime := mtime |},
       t, h, Some {| fd_data := data; fd_pos := tf_offset f + FDFS_TRUNK_FILE_HEADER_SIZE |}).
Proof.
  intros Hh Hl Hi Hm Hs Hc Hf Ho He Htr Hft name t h Hread Hdata.
  destruct (trunk_name_fields hi lo sid mtime size crc f ext Hh Hl He Hf) as (_ & Hdec & Hfile & Hext).
  destruct (trunk_name_shape hi lo (name_meta sid mtime size crc) f ext Hh Hl) as (p & _ & _ & Hhi & Hlo).
  destruct (name_meta_decode 128 sid mtime size crc Hm Hs Hc) as (Hdm & Hds & Hdc).
  fold name in Hdec, Hfile, Hext, Hhi, Hlo.
  unfold trunk_file_do_lstat_func_ex. rewrite Z.eqb_refl. cbn [negb].
  change (Z.to_nat FDFS_FILENAME_BASE64_LENGTH) with 27%nat.
  change (Z.to_nat FDFS_TRUE_FILE_PATH_LEN) with 6%nat.
  change (Z.to_nat (FDFS_TRUE_FILE_PATH_LEN + FDFS_FILENAME_BASE64_LENGTH)) with 33%nat.
  rewrite Hdec, Hfile, Hhi, Hlo, Hds, Htr, !uint8_id by done. cbn [negb].
  unfold open_at. fold t. rewrite Hread, (proj2 (Z.ltb_ge (tf_offset f) 0)) by lia.
  unfold fd_read. cbn [fd_data fd_pos].
  change (Z.to_nat FDFS_TRUNK_FILE_HEADER_SIZE) with 24%nat. rewrite Hdata.
  rewrite (pack_header_length h) by (unfold h; cbn [th_formatted_ext_name]; rewrite length_app, He; simpl; lia).
  rewrite Z.eqb_refl. cbn [negb].
  unfold header_of_name. rewrite Hdm, Hdc.
  change (Z.to_nat (FDFS_TRUNK_FILENAME_LENGTH - (FDFS_FILE_EXT_NAME_MAX_LEN + 1))) with 49%nat.
  change (Z.to_nat (FDFS_FILE_EXT_NAME_MAX_LEN + 2)) with 8%nat.
  rewrite Hext, (take_ge (ext ++ [0])) by (rewrite length_app, He; simpl; lia).
  change (znth 0 (trunk_pack_header h) 0) with ft. fold h.
  rewrite memcmp_refl. by destruct Hft as [-> | ->].
Qed.

(** C32: a lookup that returns a descriptor has compared the bytes on disk.
    The 24 bytes at the position are exactly the packed form of the header
    it returns, the type byte is that of a live file, and the size and time
    it reports are those of the header; a released space (type byte 0) is
    never found. *)
Theorem trunk_lookup_sound index name len stat_func t0 h0 st t h fd :
  trunk_file_do_lstat_func_ex fs paths index name len stat_func t0 h0 = inr (st, t, h, Some fd) ->
  len = FDFS_TRUNK_FILENAME_LENGTH /\
  sys_read fs (trunk_get_full_filename_ex paths t MAX_PATH_SIZE) = inr (fd_data fd) /\
  take 24 (drop (Z.to_nat (tf_offset (ti_file t))) (fd_data fd)) = trunk_pack_header h /\
  fd_pos fd = tf_offset (ti_file t) + FDFS_TRUNK_FILE_HEADER_SIZE /\
  (th_file_type h = FDFS_TRUNK_FILE_TYPE_REGULAR \/ th_file_type h = FDFS_TRUNK_FILE_TYPE_LINK) /\
  st_size st = th_file_size h /\ st_mtime st = th_mtime h /\ th_alloc_size h = tf_size (ti_file t).
Proof.
  unfold trunk_file_do_lstat_func_ex.
  destruct (len =? _) eqn:El; cbn [negb]; [|by destruct (plain_stat _ _ _ _ _)].
  destruct (IS_TRUNK_FILE _); cbn [negb]; [|by destruct (plain_stat _ _ _ _ _)].
  set (f := trunk_file_info_decode _). clearbody f. set (t1 := {| ti_status := _ |}).
  unfold open_at. destruct (sys_read _ _) as [|data] eqn:Er; [done|].
  destruct (tf_offset f <? 0); [done|]. unfold fd_read. cbn [fd_data fd_pos].
  change (Z.to_nat FDFS_TRUNK_FILE_HEADER_SIZE) with 24%nat. set (hb := take 24 _).
  destruct (Z.of_nat _ =? _) eqn:Ehb; cbn [negb]; [|done].
  set (h1 := header_of_name _ _ _ _ _ _).
  destruct (_ || _) eqn:Eo; cbn [negb]; [|done].
  destruct (memcmp _ _ =? 0) eqn:Em; cbn [negb]; [|done]. intros [= <- <- <- <-].
  apply Z.eqb_eq, memcmp_eq_0 in Em. apply orb_prop in Eo. rewrite !Z.eqb_eq in Eo.
  unfold t1 at 2 3. cbn [ti_file fd_data fd_pos st_size st_mtime th_file_size th_mtime].
  repeat split; first [done | by symmetry | lia].
Qed.
End lookup_facts.
