(* ===== verification/FreeBlocks.v ===== *)
(** * The free block checker ([storage/trunk_mgr/trunk_free_block_checker.c]).

    For every trunk file the checker keeps the free (or held) blocks sorted by
    offset, in arrays of pointers to the nodes of the allocator; it refuses a
    block that overlaps one it has.  The nodes live in the memory of the trunk
    manager, [TrunkMemory]: the node pool, the tree of size slots and the tree
    of block arrays, which the allocator of [TrunkMem] uses too. *)

From S2P Require Import Prelude Avl TrunkShared.

(** ** Data ([trunk_free_block_checker.h], [trunk_mem.h]). *)
Record FDFSTrunkFileIdentifier := {
  fi_path : FDFSTrunkPathInfo;
  fi_id : Z;
}.

(** [count] is the length of [ba_blocks], [ba_alloc] the slots allocated. *)
Record FDFSBlockArray := {
  ba_alloc : Z;
  ba_blocks : list Z;
}.

Record FDFSTrunksById := {
  tb_trunk_file_id : FDFSTrunkFileIdentifier;
  tb_block_array : FDFSBlockArray;
}.

(** A slot of the size tree; the chain of its nodes, head first. *)
Record FDFSTrunkSlot := {
  sl_size : Z;
  sl_head : list Z;
}.

Definition TRUNK_FREE_BLOCK_ARRAY_INIT_SIZE : Z := 32.

(** The memory the trunk manager works on: the nodes of [free_blocks_man] by
    address, [tree_info_by_sizes] (one tree per store path),
    [tree_info_by_id], and the outcomes of the coming memory allocations: 0
    for success, else the [errno] they fail with; an exhausted list is
    success. *)
Record TrunkMemory (T : Type -> Type) := mkMemory {
  nodes : gmap Z FDFSTrunkFullInfo;
  tree_info_by_sizes : list (T FDFSTrunkSlot);
  tree_info_by_id : T FDFSTrunksById;
  mallocs : list Z;
}.
Arguments mkMemory {T}.
Arguments nodes {T}.
Arguments tree_info_by_sizes {T}.
Arguments tree_info_by_id {T}.
Arguments mallocs {T}.

Definition set_nodes {T : Type -> Type} (n : gmap Z FDFSTrunkFullInfo) (m : TrunkMemory T) : TrunkMemory T :=
  mkMemory n (tree_info_by_sizes m) (tree_info_by_id m) (mallocs m).
Definition set_by_sizes {T : Type -> Type} (s : list (T FDFSTrunkSlot)) (m : TrunkMemory T) : TrunkMemory T :=
  mkMemory (nodes m) s (tree_info_by_id m) (mallocs m).
Definition set_by_id {T : Type -> Type} (t : T FDFSTrunksById) (m : TrunkMemory T) : TrunkMemory T :=
  mkMemory (nodes m) (tree_info_by_sizes m) t (mallocs m).

(** The next allocation: its [errno], 0 when it succeeds. *)
Definition malloc_errno {T : Type -> Type} : M (TrunkMemory T) Z :=
  fun m => match mallocs m with
           | [] => (0, m)
           | e :: es => (e, mkMemory (nodes m) (tree_info_by_sizes m) (tree_info_by_id m) es)
           end.

(** The nodes behind an array of pointers. *)
Definition deref (n : gmap Z FDFSTrunkFullInfo) (ps : list Z) : list FDFSTrunkFullInfo :=
  (fun p => n !!! p) <$> ps.

Definition t_offset (t : FDFSTrunkFullInfo) : Z := tf_offset (ti_file t).
Definition t_size (t : FDFSTrunkFullInfo) : Z := tf_size (ti_file t).

(** [FILL_FILE_IDENTIFIER]. *)
Definition FILL_FILE_IDENTIFIER (t : FDFSTrunkFullInfo) : FDFSTrunkFileIdentifier :=
  {| fi_path := ti_path t; fi_id := tf_id (ti_file t) |}.

(** The 8 bytes of an identifier: three path bytes, the padding byte the
    [memset] cleared, the id (little-endian). *)
Definition identifier_bytes (i : FDFSTrunkFileIdentifier) : bytes :=
  [store_path_index (fi_path i); sub_path_high (fi_path i); sub_path_low (fi_path i); 0;
   uint8 (fi_id i); uint8 (Z.shiftr (fi_id i) 8);
   uint8 (Z.shiftr (fi_id i) 16); uint8 (Z.shiftr (fi_id i) 24)].

#[global] Arguments identifier_bytes : simpl never.

Definition storage_trunk_node_compare_entry (a b : FDFSTrunksById) : Z :=
  memcmp (identifier_bytes (tb_trunk_file_id a)) (identifier_bytes (tb_trunk_file_id b)).

(** A search key: only the identifier of the entry counts. *)
Definition id_target (i : FDFSTrunkFileIdentifier) : FDFSTrunksById :=
  {| tb_trunk_file_id := i; tb_block_array := {| ba_alloc := 0; ba_blocks := [] |} |}.

(** The binary search of [trunk_free_block_check_duplicate]: [None] is out
    of fuel. *)
Fixpoint dup_search (fuel : nat) (blocks : list FDFSTrunkFullInfo)
    (offset end_offset left right : Z) : option Z :=
  match fuel with
  | O => None
  | S f =>
      if right <? left then Some 0
      else
        let mid := (left + right) ÷ 2 in
        let b := znth inhabitant blocks mid in
        if offset <? t_offset b then
          if t_offset b <? end_offset then Some EEXIST
          else dup_search f blocks offset end_offset left (mid - 1)
        else if offset =? t_offset b then Some EEXIST
        else if offset <? int32 (t_offset b + t_size b) then Some EEXIST
        else dup_search f blocks offset end_offset (mid + 1) right
  end.

(** The loop of [trunk_free_block_do_insert]: [inl errno], or the last
    midpoint. *)
Fixpoint insert_search (fuel : nat) (blocks : list FDFSTrunkFullInfo)
    (offset left right mid : Z) : option (Z + Z) :=
  match fuel with
  | O => None
  | S f =>
      if right <? left then Some (inr mid)
      else
        let mid := (left + right) ÷ 2 in
        let b := znth inhabitant blocks mid in
        if offset <? t_offset b then insert_search f blocks offset left (mid - 1) mid
        else if t_offset b =? offset then Some (inl EEXIST)
        else insert_search f blocks offset (mid + 1) right mid
  end.

(** The loop of [trunk_free_block_delete]: the index found, if any. *)
Fixpoint delete_search (fuel : nat) (blocks : list FDFSTrunkFullInfo)
    (offset left right : Z) : option (option Z) :=
  match fuel with
  | O => None
  | S f =>
      if right <? left then Some None
      else
        let mid := (left + right) ÷ 2 in
        let b := znth inhabitant blocks mid in
        if offset <? t_offset b then delete_search f blocks offset left (mid - 1)
        else if t_offset b =? offset then Some (Some mid)
        else delete_search f blocks offset (mid + 1) right
  end.

Section operations.
Context {T : Type -> Type} `{AvlTree T}.

Definition find_by_id (m : TrunkMemory T) (t : FDFSTrunkFullInfo) : option FDFSTrunksById :=
  avl_find storage_trunk_node_compare_entry (tree_info_by_id m) (id_target (FILL_FILE_IDENTIFIER t)).

Definition trunk_free_block_tree_node_count (m : TrunkMemory T) : Z :=
  avl_count (tree_info_by_id m).

Definition trunk_free_block_total_count (m : TrunkMemory T) : Z :=
  fold_left (fun count e => count + Z.of_nat (length (ba_blocks (tb_block_array e))))
    (avl_walk (tree_info_by_id m)) 0.

Definition trunk_free_block_check_duplicate (m : TrunkMemory T) (t : FDFSTrunkFullInfo) : Z :=
  match find_by_id m t with
  | None => 0
  | Some e =>
      let blocks := deref (nodes m) (ba_blocks (tb_block_array e)) in
      let count := Z.of_nat (length blocks) in
      if count =? 0 then 0
      else
        let end_offset := int32 (t_offset t + t_size t) in
        if end_offset <=? t_offset (znth inhabitant blocks 0) then 0
        else
          let right := count - 1 in
          let last := znth inhabitant blocks right in
          if int32 (t_offset last + t_size last) <=? t_offset t then 0
          else default 0 (dup_search (S (length blocks)) blocks (t_offset t) end_offset 0 right)
  end.

(** The result and the array with [new_alloc] slots. *)
Definition trunk_free_block_realloc (a : FDFSBlockArray) (new_alloc : Z)
    : M (TrunkMemory T) (Z * FDFSBlockArray) :=
  (let! e := malloc_errno in
   if decide (e = 0) then ret (0, {| ba_alloc := new_alloc; ba_blocks := ba_blocks a |})
   else ret (e, a))%c.

(** [memmove] one slot up at [pos], then store. *)
Definition insert_at (pos : Z) (p : Z) (l : list Z) : list Z :=
  take (Z.to_nat pos) l ++ p :: drop (Z.to_nat pos) l.

(** The result and the array with the pointer [p] to the block [t]. *)
Definition trunk_free_block_do_insert (p : Z) (t : FDFSTrunkFullInfo) (a : FDFSBlockArray)
    : M (TrunkMemory T) (Z * FDFSBlockArray) :=
  (let! r := (if ba_alloc a <=? Z.of_nat (length (ba_blocks a))
              then trunk_free_block_realloc a
                     (if ba_alloc a =? 0 then TRUNK_FREE_BLOCK_ARRAY_INIT_SIZE else 2 * ba_alloc a)
              else ret (0, a)) in
   let '(result, a) := r in
   if decide (result <> 0) then ret (result, a)
   else
     let! n := gets nodes in
     let blocks := deref n (ba_blocks a) in
     let count := Z.of_nat (length blocks) in
     let put pos := {| ba_alloc := ba_alloc a; ba_blocks := insert_at pos p (ba_blocks a) |} in
     if count =? 0 then ret (0, put 0)
     else if t_offset t <? t_offset (znth inhabitant blocks 0) then ret (0, put 0)
     else
       let right := count - 1 in
       if t_offset (znth inhabitant blocks right) <? t_offset t then ret (0, put count)
       else
         match insert_search (S (length blocks)) blocks (t_offset t) 0 right 0 with
         | Some (inr mid) =>
             let pos := if t_offset t <? t_offset (znth inhabitant blocks mid) then mid else mid + 1 in
             ret (0, put pos)
         | Some (inl e) => ret (e, a)
         | None => ret (EINVAL, a)
         end)%c.

(** Write an array back through the pointer to its entry. *)
Definition store_entry (e : FDFSTrunksById) (a : FDFSBlockArray) : M (TrunkMemory T) unit :=
  modify (fun m => set_by_id (avl_store storage_trunk_node_compare_entry (tree_info_by_id m)
    {| tb_trunk_file_id := tb_trunk_file_id e; tb_block_array := a |}) m).

(** [p] is the address of the block in the node pool. *)
Definition trunk_free_block_insert (p : Z) : M (TrunkMemory T) Z :=
  (let! t := gets (fun m => nodes m !!! p) in
   let! found := gets (fun m => find_by_id m t) in
   let! entry :=
     match found with
     | Some e => ret (inr e)
     | None =>
         let! e := malloc_errno in
         if decide (e <> 0) then ret (inl e)
         else
           let new := id_target (FILL_FILE_IDENTIFIER t) in
           let! e := malloc_errno in  (* the tree node of avl_tree_insert *)
           if decide (e <> 0) then ret (inl e)
           else
             let! tree := gets tree_info_by_id in
             let '(r, tree') := avl_insert storage_trunk_node_compare_entry tree new in
             if decide (r = 1) then modify (set_by_id tree') ;; ret (inr new)
             else ret (inl ENOMEM)
     end in
   match entry with
   | inl e => ret e
   | inr e =>
       let! r := trunk_free_block_do_insert p t (tb_block_array e) in
       store_entry e (snd r) ;; ret (fst r)
   end)%c.

Definition trunk_free_block_delete (t : FDFSTrunkFullInfo) : M (TrunkMemory T) Z :=
  (let! found := gets (fun m => find_by_id m t) in
   match found with
   | None => ret ENOENT
   | Some e =>
       let a := tb_block_array e in
       let! n := gets nodes in
       let blocks := deref n (ba_blocks a) in
       match delete_search (S (length blocks)) blocks (t_offset t) 0 (Z.of_nat (length blocks) - 1) with
       | Some (Some mid) =>
           let rest := take (Z.to_nat mid) (ba_blocks a) ++ drop (Z.to_nat (mid + 1)) (ba_blocks a) in
           let count := Z.of_nat (length rest) in
           if count =? 0 then
             let! tree := gets tree_info_by_id in
             let '(r, tree') := avl_delete storage_trunk_node_compare_entry tree e in
             if decide (r = 1) then modify (set_by_id tree') ;; ret 0
             else store_entry e {| ba_alloc := 0; ba_blocks := [] |} ;; ret ENOENT
           else
             let a' := {| ba_alloc := ba_alloc a; ba_blocks := rest |} in
             if (count <? ba_alloc a ÷ 2) && (TRUNK_FREE_BLOCK_ARRAY_INIT_SIZE ÷ 2 <? count) then
               let! r := trunk_free_block_realloc a' (ba_alloc a ÷ 2) in
               store_entry e (snd r) ;; ret (fst r)
             else store_entry e a' ;; ret 0
       | _ => ret ENOENT
       end
   end)%c.
End operations.

(** ** Sorted arrays of disjoint blocks. *)

(** A block inside the [int] range. *)
Definition block_ok (t : FDFSTrunkFullInfo) : Prop :=
  0 <= t_offset t /\ 0 < t_size t /\ t_offset t + t_size t < 2 ^ 31.

Definition before (a b : FDFSTrunkFullInfo) : Prop := t_offset a + t_size a <= t_offset b.

Definition overlaps (a b : FDFSTrunkFullInfo) : Prop :=
  t_offset a < t_offset b + t_size b /\ t_offset b < t_offset a + t_size a.

Definition blocks_ok (l : list FDFSTrunkFullInfo) : Prop :=
  Forall block_ok l /\ StronglySorted before l.

Section arrays.
Implicit Types (l : list FDFSTrunkFullInfo) (t : FDFSTrunkFullInfo).

Lemma znth_elem l i : 0 <= i < Z.of_nat (length l) -> znth inhabitant l i ∈ l.
Proof. intros. apply list_elem_of_lookup. eexists. by apply znth_lookup. Qed.

Lemma elem_znth l b : b ∈ l -> exists i, 0 <= i < Z.of_nat (length l) /\ znth inhabitant l i = b.
Proof.
  intros [i Hi]%list_elem_of_lookup. exists (Z.of_nat i).
  pose proof (lookup_lt_Some _ _ _ Hi). split; [lia|].
  unfold znth. rewrite Nat2Z.id. rewrite nth_lookup. by rewrite Hi.
Qed.

Lemma blocks_ok_elem l i : blocks_ok l -> 0 <= i < Z.of_nat (length l) -> block_ok (znth inhabitant l i).
Proof. intros [Hf _] Hi. rewrite Forall_forall in Hf. by apply Hf, znth_elem. Qed.

Lemma blocks_ok_before l i j :
  blocks_ok l -> 0 <= i < j -> j < Z.of_nat (length l) -> before (znth inhabitant l i) (znth inhabitant l j).
Proof. intros [_ Hs] Hi Hj. unfold znth. apply StronglySorted_nth; [done|lia..]. Qed.

Lemma block_end_int32 t : block_ok t -> int32 (t_offset t + t_size t) = t_offset t + t_size t.
Proof. unfold block_ok. intros. apply int32_id. unfold is_int32. lia. Qed.

(** The search decides overlap, given what the two bounds exclude; the fuel
    exceeds the length of the interval. *)
Lemma dup_search_spec fuel l t left right :
  blocks_ok l -> block_ok t -> 0 <= left -> right < Z.of_nat (length l) -> left <= right + 1 ->
  right - left + 1 < Z.of_nat fuel ->
  (forall i, 0 <= i < left -> before (znth inhabitant l i) t) ->
  (forall i, right < i < Z.of_nat (length l) -> before t (znth inhabitant l i)) ->
  exists r, dup_search fuel l (t_offset t) (int32 (t_offset t + t_size t)) left right = Some r /\
    (r = 0 \/ r = EEXIST) /\ (r = EEXIST <-> exists b, b ∈ l /\ overlaps t b).
Proof.
  intros Hl Ht. rewrite block_end_int32 by done. revert left right.
  induction fuel as [|f IH]; intros left right H0 Hr Hlr Hf Hlo Hhi; [lia|]. cbn [dup_search].
  destruct (right <? left) eqn:E.
  { exists 0. split; [done|]. split; [by left|]. split; [done|]. intros (b & Hb & Ho).
    apply elem_znth in Hb as (i & Hi & <-). unfold before, overlaps in *.
    destruct (decide (i < left)); [specialize (Hlo i)|specialize (Hhi i)]; lia. }
  pose proof (quot2_between left right ltac:(lia)) as Hmid.
  set (mid := (left + right) ÷ 2) in *. set (b := znth inhabitant l mid).
  assert (block_ok b) as Hb by (apply blocks_ok_elem; [done|lia]).
  assert (overlaps t b -> exists b, b ∈ l /\ overlaps t b) as Hex.
  { intros. exists b. split; [apply znth_elem; lia|done]. }
  rewrite block_end_int32 by done. unfold block_ok in Ht, Hb.
  destruct (t_offset t <? t_offset b) eqn:E1.
  - destruct (t_offset b <? t_offset t + t_size t) eqn:E2.
    + exists EEXIST. split; [done|]. split; [by right|]. split; [|done]. intros _. apply Hex.
      unfold overlaps. lia.
    + apply IH; try lia; [done|]. intros i Hi.
      destruct (decide (i = mid)) as [->|]; [unfold before; fold b; lia|].
      destruct (decide (right < i)); [apply Hhi; lia|].
      pose proof (blocks_ok_before l mid i Hl ltac:(lia) ltac:(lia)). fold b in H. unfold before in *. lia.
  - destruct (t_offset t =? t_offset b) eqn:E2.
    { exists EEXIST. split; [done|]. split; [by right|]. split; [|done]. intros _. apply Hex.
      unfold overlaps. lia. }
    destruct (t_offset t <? t_offset b + t_size b) eqn:E3.
    + exists EEXIST. split; [done|]. split; [by right|]. split; [|done]. intros _. apply Hex.
      unfold overlaps. lia.
    + apply IH; try lia; [|done]. intros i Hi.
      destruct (decide (i = mid)) as [->|]; [unfold before; fold b; lia|].
      destruct (decide (i < left)); [apply Hlo; lia|].
      pose proof (blocks_ok_before l i mid Hl ltac:(lia) ltac:(lia)) as H. fold b in H.
      unfold before in *. lia.
Qed.

(** Where a block with a new offset goes. *)
Definition insert_pos_ok l t (pos : Z) : Prop :=
  0 <= pos <= Z.of_nat (length l) /\
  (forall i, 0 <= i < pos -> t_offset (znth inhabitant l i) < t_offset t) /\
  (forall i, pos <= i < Z.of_nat (length l) -> t_offset t < t_offset (znth inhabitant l i)).

Lemma blocks_ok_offset_lt l i j :
  blocks_ok l -> 0 <= i < j -> j < Z.of_nat (length l) ->
  t_offset (znth inhabitant l i) < t_offset (znth inhabitant l j).
Proof.
  intros Hl Hi Hj. pose proof (blocks_ok_before l i j Hl Hi Hj).
  pose proof (blocks_ok_elem l i Hl ltac:(lia)). unfold before, block_ok in *. lia.
Qed.

Lemma insert_search_spec fuel l t left right mid :
  blocks_ok l -> 0 <= left -> right < Z.of_nat (length l) -> left <= right + 1 ->
  right - left + 1 < Z.of_nat fuel ->
  Forall (fun b => t_offset b <> t_offset t) l ->
  (forall i, 0 <= i < left -> t_offset (znth inhabitant l i) < t_offset t) ->
  (forall i, right < i < Z.of_nat (length l) -> t_offset t < t_offset (znth inhabitant l i)) ->
  (left <= right \/ mid = left /\ mid < Z.of_nat (length l) \/ mid + 1 = left /\ 0 <= mid) ->
  exists mid', insert_search fuel l (t_offset t) left right mid = Some (inr mid') /\
    insert_pos_ok l t (if t_offset t <? t_offset (znth inhabitant l mid') then mid' else mid' + 1).
Proof.
  intros Hl. revert left right mid.
  induction fuel as [|f IH]; intros left right mid H0 Hr Hlr Hf Hne Hlo Hhi Hmid; [lia|]. cbn [insert_search].
  destruct (right <? left) eqn:E.
  { exists mid. split; [done|]. assert (left = right + 1) by lia.
    destruct Hmid as [?|[[-> ?]|[? ?]]]; [lia| |].
    - specialize (Hhi left). rewrite (proj2 (Z.ltb_lt _ _)) by lia.
      split; [lia|]. split; intros i Hi; [apply Hlo; lia|].
      destruct (decide (i = left)) as [->|]; [lia|].
      pose proof (blocks_ok_offset_lt l left i Hl ltac:(lia) ltac:(lia)). lia.
    - specialize (Hlo mid ltac:(lia)) as Hm. rewrite (proj2 (Z.ltb_ge _ _)) by lia.
      split; [lia|]. split; intros i Hi; [apply Hlo; lia|apply Hhi; lia]. }
  pose proof (quot2_between left right ltac:(lia)) as Hq.
  set (m := (left + right) ÷ 2) in *. set (b := znth inhabitant l m).
  destruct (t_offset t <? t_offset b) eqn:E1.
  - apply IH; try lia; [done..|]. intros i Hi.
    destruct (decide (i = m)) as [->|]; [fold b; lia|].
    destruct (decide (right < i)); [apply Hhi; lia|].
    pose proof (blocks_ok_offset_lt l m i Hl ltac:(lia) ltac:(lia)) as H. fold b in H. lia.
  - assert (t_offset b <> t_offset t) as Hb.
    { rewrite Forall_forall in Hne. apply Hne, znth_elem. lia. }
    rewrite (proj2 (Z.eqb_neq _ _)) by done.
    apply IH; try lia; [done| |done]. intros i Hi.
    destruct (decide (i = m)) as [->|]; [fold b; lia|].
    destruct (decide (i < left)); [apply Hlo; lia|].
    pose proof (blocks_ok_offset_lt l i m Hl ltac:(lia) ltac:(lia)) as H. fold b in H. lia.
Qed.

Lemma delete_search_spec fuel l t left right :
  blocks_ok l -> 0 <= left -> right < Z.of_nat (length l) -> left <= right + 1 ->
  right - left + 1 < Z.of_nat fuel ->
  (forall i, 0 <= i < left -> t_offset (znth inhabitant l i) < t_offset t) ->
  (forall i, right < i < Z.of_nat (length l) -> t_offset t < t_offset (znth inhabitant l i)) ->
  exists r, delete_search fuel l (t_offset t) left right = Some r /\
    match r with
    | Some mid => 0 <= mid < Z.of_nat (length l) /\ t_offset (znth inhabitant l mid) = t_offset t
    | None => Forall (fun b => t_offset b <> t_offset t) l
    end.
Proof.
  intros Hl. revert left right.
  induction fuel as [|f IH]; intros left right H0 Hr Hlr Hf Hlo Hhi; [lia|]. cbn [delete_search].
  destruct (right <? left) eqn:E.
  { exists None. split; [done|]. apply Forall_forall. intros b Hb.
    apply elem_znth in Hb as (i & Hi & <-).
    destruct (decide (i < left)); [specialize (Hlo i)|specialize (Hhi i)]; lia. }
  pose proof (quot2_between left right ltac:(lia)) as Hq.
  set (m := (left + right) ÷ 2) in *. set (b := znth inhabitant l m).
  destruct (t_offset t <? t_offset b) eqn:E1.
  - apply IH; try lia; [done|]. intros i Hi.
    destruct (decide (i = m)) as [->|]; [fold b; lia|].
    destruct (decide (right < i)); [apply Hhi; lia|].
    pose proof (blocks_ok_offset_lt l m i Hl ltac:(lia) ltac:(lia)) as H. fold b in H. lia.
  - destruct (t_offset b =? t_offset t) eqn:E2.
    { exists (Some m). split; [done|]. split; [lia|]. fold b. lia. }
    apply IH; try lia; [|done]. intros i Hi.
    destruct (decide (i = m)) as [->|]; [fold b; lia|].
    destruct (decide (i < left)); [apply Hlo; lia|].
    pose proof (blocks_ok_offset_lt l i m Hl ltac:(lia) ltac:(lia)) as H. fold b in H. lia.
Qed.
End arrays.

(** ** The invariant of the checker. *)

(** [int] ids make the 8-byte key of a file injective. *)
Definition ident_ok (i : FDFSTrunkFileIdentifier) : Prop := is_int32 (fi_id i).

Definition same_file (a b : FDFSTrunkFullInfo) : Prop := FILL_FILE_IDENTIFIER a = FILL_FILE_IDENTIFIER b.

(** An entry holds pointers to live nodes of its file, in offset order and
    without overlap, within the allocated slots. *)
Record entry_ok (n : gmap Z FDFSTrunkFullInfo) (e : FDFSTrunksById) : Prop := {
  eo_ident : ident_ok (tb_trunk_file_id e);
  eo_live : forall p, p ∈ ba_blocks (tb_block_array e) ->
    exists t, n !! p = Some t /\ FILL_FILE_IDENTIFIER t = tb_trunk_file_id e;
  eo_blocks : blocks_ok (deref n (ba_blocks (tb_block_array e)));
  eo_alloc : Z.of_nat (length (ba_blocks (tb_block_array e))) <= ba_alloc (tb_block_array e);
}.

Section invariant.
Context {T : Type -> Type} `{AvlLaws T}.
Implicit Types (m : TrunkMemory T) (t : FDFSTrunkFullInfo).

Record fb_inv m : Prop := {
  fb_sorted : ascending storage_trunk_node_compare_entry (avl_walk (tree_info_by_id m));
  fb_entries : Forall (entry_ok (nodes m)) (avl_walk (tree_info_by_id m));
}.

(** Every pointer the checker holds. *)
Definition fb_ptrs_of (l : list FDFSTrunksById) : list Z :=
  concat ((fun e => ba_blocks (tb_block_array e)) <$> l).
Definition fb_ptrs m : list Z := fb_ptrs_of (avl_walk (tree_info_by_id m)).

(** No allocation is going to fail. *)
Definition no_oom m : Prop := Forall (fun e => e = 0) (mallocs m).

Lemma fb_ptrs_of_app l1 l2 : fb_ptrs_of (l1 ++ l2) = fb_ptrs_of l1 ++ fb_ptrs_of l2.
Proof. unfold fb_ptrs_of. by rewrite fmap_app, concat_app. Qed.

Lemma fb_ptrs_of_cons e l : fb_ptrs_of (e :: l) = ba_blocks (tb_block_array e) ++ fb_ptrs_of l.
Proof. done. Qed.

Lemma elem_of_fb_ptrs_of p l :
  p ∈ fb_ptrs_of l <-> exists e, e ∈ l /\ p ∈ ba_blocks (tb_block_array e).
Proof.
  induction l as [|e l IH]; [by split; [intros ?%not_elem_of_nil|intros (? & ?%not_elem_of_nil & _)]|].
  rewrite fb_ptrs_of_cons, elem_of_app, IH. setoid_rewrite elem_of_cons. naive_solver.
Qed.

Lemma fb_ptrs_of_perm l l' : l ≡ₚ l' -> fb_ptrs_of l ≡ₚ fb_ptrs_of l'.
Proof.
  induction 1; rewrite ?fb_ptrs_of_cons; [done|by f_equiv| |by etrans].
  rewrite !app_assoc. f_equiv. apply Permutation_app_comm.
Qed.

Lemma compare_entry_ordered l : ordered_on storage_trunk_node_compare_entry l.
Proof.
  unfold storage_trunk_node_compare_entry. split; intros.
  - apply memcmp_refl.
  - apply memcmp_antisym.
  - by eapply memcmp_trans.
  - apply memcmp_eq_0 in H4 as ->. done.
  - apply memcmp_eq_0 in H5 as <-. done.
Qed.

Lemma identifier_bytes_inj i j :
  ident_ok i -> ident_ok j -> identifier_bytes i = identifier_bytes j -> i = j.
Proof.
  unfold ident_ok, is_int32, identifier_bytes, uint8. rewrite !Z.shiftr_div_pow2 by lia.
  destruct i as [[a b c] x], j as [[a' b' c'] y]; simpl. intros Hx Hy [= -> -> -> H1 H2 H3 H4].
  f_equal. dlia.
Qed.

Lemma compare_entry_eq e i :
  ident_ok (tb_trunk_file_id e) -> ident_ok i ->
  storage_trunk_node_compare_entry e (id_target i) = 0 <-> tb_trunk_file_id e = i.
Proof.
  intros. unfold storage_trunk_node_compare_entry. rewrite memcmp_eq_0. simpl. split.
  - by apply identifier_bytes_inj.
  - by intros ->.
Qed.

Lemma find_by_id_ref m t :
  fb_inv m ->
  find_by_id m t = ref_find storage_trunk_node_compare_entry (avl_walk (tree_info_by_id m))
                     (id_target (FILL_FILE_IDENTIFIER t)).
Proof. intros [Hs _]. apply avl_find_spec; [apply compare_entry_ordered|done]. Qed.

Definition info_ok t : Prop := block_ok t /\ ident_ok (FILL_FILE_IDENTIFIER t).

(** The entry of a file, in place in the walk. *)
Lemma find_by_id_Some m t e :
  fb_inv m -> ident_ok (FILL_FILE_IDENTIFIER t) -> find_by_id m t = Some e ->
  tb_trunk_file_id e = FILL_FILE_IDENTIFIER t /\ entry_ok (nodes m) e /\
  exists l1 l2, avl_walk (tree_info_by_id m) = l1 ++ e :: l2 /\
    Forall (fun x => storage_trunk_node_compare_entry x e <> 0) l1 /\
    Forall (fun x => storage_trunk_node_compare_entry x e <> 0) l2.
Proof.
  intros Hinv Ht Hf. rewrite find_by_id_ref in Hf by done. destruct Hinv as [Hs He].
  destruct (ref_find_Some _ _ _ _ Hf) as [Hin Hc]. rewrite Forall_forall in He.
  specialize (He e Hin). apply compare_entry_eq in Hc; [|apply He|done].
  split; [done|]. split; [done|].
  destruct (ref_find_split _ _ _ _ (compare_entry_ordered _) Hs Hf) as (l1 & l2 & Hw & H1' & H2').
  exists l1, l2. split; [done|]. unfold storage_trunk_node_compare_entry in *.
  rewrite Hc. done.
Qed.

Lemma find_by_id_None m t e :
  fb_inv m -> ident_ok (FILL_FILE_IDENTIFIER t) -> find_by_id m t = None ->
  e ∈ avl_walk (tree_info_by_id m) -> tb_trunk_file_id e <> FILL_FILE_IDENTIFIER t.
Proof.
  intros Hinv Ht Hf Hin Heq. rewrite find_by_id_ref in Hf by done. destruct Hinv as [Hs He].
  apply ref_find_None in Hf. rewrite Forall_forall in Hf, He. apply (Hf e Hin).
  apply compare_entry_eq; [apply He; done|done|done].
Qed.

Lemma find_by_id_elem m t e :
  fb_inv m -> ident_ok (FILL_FILE_IDENTIFIER t) -> tb_trunk_file_id e = FILL_FILE_IDENTIFIER t ->
  e ∈ avl_walk (tree_info_by_id m) -> find_by_id m t = Some e.
Proof.
  intros Hinv Ht Hid He.
  destruct (find_by_id m t) as [e'|] eqn:Hf; [|by edestruct (find_by_id_None m t e)].
  destruct (find_by_id_Some m t e' Hinv Ht Hf) as (Hid' & _ & l1 & l2 & Hw & H1' & H2').
  assert (storage_trunk_node_compare_entry e e' = 0) as Hc.
  { unfold storage_trunk_node_compare_entry. rewrite Hid, Hid'. apply memcmp_refl. }
  rewrite Hw in He. rewrite Forall_forall in H1', H2'.
  apply elem_of_app in He as [He|[->|He]%elem_of_cons]; [by destruct (H1' e He)|done|by destruct (H2' e He)].
Qed.

(** A pointer to a block of a file is in the entry of that file. *)
Lemma fb_ptr_entry m t p b :
  fb_inv m -> ident_ok (FILL_FILE_IDENTIFIER t) ->
  p ∈ fb_ptrs m -> nodes m !! p = Some b -> same_file b t ->
  exists e, find_by_id m t = Some e /\ p ∈ ba_blocks (tb_block_array e).
Proof.
  intros Hinv Ht Hp Hn Hsf. apply elem_of_fb_ptrs_of in Hp as (e & He & Hp).
  pose proof Hinv as [_ Hall]. rewrite Forall_forall in Hall.
  destruct (eo_live _ _ (Hall e He) p Hp) as (b' & Hb' & Hid). simplify_eq.
  unfold same_file in Hsf. rewrite Hsf in Hid. exists e. split; [|done]. by apply find_by_id_elem.
Qed.

Lemma elem_of_deref n ps b : b ∈ deref n ps -> exists p, p ∈ ps /\ n !!! p = b.
Proof. intros (p & -> & Hp)%list_elem_of_fmap. eauto. Qed.

Lemma elem_of_deref_2 n ps p t : p ∈ ps -> n !! p = Some t -> t ∈ deref n ps.
Proof.
  intros Hp Ht. apply list_elem_of_fmap. exists p. split; [|done].
  by rewrite lookup_total_alt, Ht.
Qed.

Lemma length_deref n ps : length (deref n ps) = length ps.
Proof. apply length_fmap. Qed.

Lemma overlap_in_entry m t e :
  fb_inv m -> info_ok t -> find_by_id m t = Some e ->
  (exists b, b ∈ deref (nodes m) (ba_blocks (tb_block_array e)) /\ overlaps t b) <->
  (exists p b, p ∈ fb_ptrs m /\ nodes m !! p = Some b /\ same_file b t /\ overlaps t b).
Proof.
  intros Hinv [Hb Hi] Hf. destruct (find_by_id_Some m t e Hinv Hi Hf) as (Hid & He & l1 & l2 & Hw & _).
  split.
  - intros (b & (p & Hp & <-)%elem_of_deref & Ho).
    destruct (eo_live _ _ He p Hp) as (b & Hn & Hbid). exists p, b.
    rewrite (lookup_total_correct _ _ _ Hn) in Ho. repeat split; try done.
    + apply elem_of_fb_ptrs_of. exists e. rewrite Hw. set_solver.
    + unfold same_file. by rewrite Hbid.
    + apply Ho.
    + apply Ho.
  - intros (p & b & Hp & Hn & Hsf & Ho).
    destruct (fb_ptr_entry m t p b Hinv Hi Hp Hn Hsf) as (e' & Hf' & Hpe). simplify_eq.
    exists b. split; [by eapply elem_of_deref_2|done].
Qed.

(** The duplicate check decides overlap; its binary search ends. *)
Lemma check_duplicate_spec m t :
  fb_inv m -> info_ok t ->
  (trunk_free_block_check_duplicate m t = 0 \/ trunk_free_block_check_duplicate m t = EEXIST) /\
  (trunk_free_block_check_duplicate m t = EEXIST <->
   exists p b, p ∈ fb_ptrs m /\ nodes m !! p = Some b /\ same_file b t /\ overlaps t b).
Proof.
  intros Hinv Ht. pose proof Ht as [Hb Hi]. unfold trunk_free_block_check_duplicate.
  destruct (find_by_id m t) as [e|] eqn:Hf.
  2:{ split; [by left|]. split; [done|]. intros (p & b & Hp & Hn & Hsf & _).
      destruct (fb_ptr_entry m t p b Hinv Hi Hp Hn Hsf) as (e' & ? & _). congruence. }
  rewrite <- (overlap_in_entry m t e) by done.
  destruct (find_by_id_Some m t e Hinv Hi Hf) as (_ & He & _).
  pose proof (eo_blocks _ _ He) as Hok. set (l := deref _ _) in *.
  rewrite block_end_int32 by done.
  assert (~ (exists b, b ∈ l /\ overlaps t b) ->
    ((0 = 0 \/ 0 = EEXIST) /\ (0 = EEXIST <-> exists b, b ∈ l /\ overlaps t b))) as Hno.
  { intros Hn. split; [by left|]. split; [done|]. by intros ?%Hn. }
  destruct (Z.of_nat (length l) =? 0) eqn:E0.
  { apply Hno. intros (b & (i & Hi' & _)%elem_znth & _). lia. }
  destruct (_ <=? t_offset (znth inhabitant l 0)) eqn:E1.
  { apply Hno. intros (b & (i & Hi' & <-)%elem_znth & Ho). unfold overlaps in Ho.
    destruct (decide (i = 0)) as [->|]; [lia|].
    pose proof (blocks_ok_offset_lt l 0 i Hok ltac:(lia) ltac:(lia)). lia. }
  pose proof (blocks_ok_elem l (Z.of_nat (length l) - 1) Hok ltac:(lia)) as Hlast.
  rewrite block_end_int32 by done.
  destruct (_ <=? t_offset t) eqn:E2.
  { apply Hno. intros (b & (i & Hi' & <-)%elem_znth & Ho). unfold overlaps in Ho.
    destruct (decide (i = Z.of_nat (length l) - 1)) as [->|]; [lia|].
    pose proof (blocks_ok_before l i (Z.of_nat (length l) - 1) Hok ltac:(lia) ltac:(lia)).
    unfold before, block_ok in *. lia. }
  destruct (dup_search_spec (S (length l)) l t 0 (Z.of_nat (length l) - 1)) as (r & Hr & Hr1 & Hr2);
    [done..|lia|lia|lia|lia|lia|lia|].
  rewrite block_end_int32 in Hr by done. rewrite Hr. done.
Qed.

Lemma deref_insert_at n ps p t pos :
  n !! p = Some t ->
  deref n (insert_at pos p ps) = take (Z.to_nat pos) (deref n ps) ++ t :: drop (Z.to_nat pos) (deref n ps).
Proof.
  intros Hn. unfold insert_at, deref. rewrite fmap_app, fmap_cons, fmap_take, fmap_drop.
  by rewrite (lookup_total_correct _ _ _ Hn).
Qed.

(** Inserting a block that overlaps nothing at its place. *)
Lemma insert_blocks_ok l t pos :
  blocks_ok l -> block_ok t -> (forall b, b ∈ l -> ~ overlaps t b) -> insert_pos_ok l t pos ->
  blocks_ok (take (Z.to_nat pos) l ++ t :: drop (Z.to_nat pos) l).
Proof.
  intros [Hf Hs] Ht Hno (Hp & Hlo & Hhi).
  rewrite <- (take_drop (Z.to_nat pos) l) in Hf, Hs. apply Forall_app in Hf as [Hf1 Hf2].
  apply StronglySorted_app in Hs as (Hx & Hs1 & Hs2).
  assert (forall x, x ∈ take (Z.to_nat pos) l -> before x t) as Hbt.
  { intros x (i & Hi & Hlt)%elem_of_take.
    assert (x ∈ l) as Hxl by (apply list_elem_of_lookup; eauto).
    specialize (Hno x Hxl). specialize (Hlo (Z.of_nat i) ltac:(lia)). unfold znth in Hlo.
    rewrite Nat2Z.id, nth_lookup, Hi in Hlo. simpl in Hlo.
    rewrite Forall_forall in Hf1. specialize (Hf1 x ltac:(apply elem_of_take; eauto)).
    unfold before, overlaps, block_ok in *. lia. }
  assert (forall x, x ∈ drop (Z.to_nat pos) l -> before t x) as Hta.
  { intros x (i & Hi)%list_elem_of_lookup. rewrite lookup_drop in Hi.
    pose proof (lookup_lt_Some _ _ _ Hi).
    assert (x ∈ l) as Hxl by (apply list_elem_of_lookup; eauto).
    specialize (Hno x Hxl). specialize (Hhi (pos + Z.of_nat i) ltac:(lia)). unfold znth in Hhi.
    replace (Z.to_nat (pos + Z.of_nat i)) with (Z.to_nat pos + i)%nat in Hhi by lia.
    rewrite nth_lookup, Hi in Hhi. simpl in Hhi. rewrite Forall_forall in Hf2.
    specialize (Hf2 x ltac:(apply list_elem_of_lookup; exists i; by rewrite lookup_drop)).
    unfold before, overlaps, block_ok in *. lia. }
  split; [by apply Forall_app; split; [|constructor]|].
  apply StronglySorted_app. split; [|split; [done|]].
  - intros x y Hx1 [->|Hy]%elem_of_cons; [auto|].
    apply (Hx x y Hx1 Hy).
  - constructor; [done|]. by apply Forall_forall.
Qed.

(** The do-insert step on one array. *)
Lemma do_insert_spec m p t a :
  nodes m !! p = Some t -> block_ok t -> blocks_ok (deref (nodes m) (ba_blocks a)) ->
  Z.of_nat (length (ba_blocks a)) <= ba_alloc a ->
  (forall b, b ∈ deref (nodes m) (ba_blocks a) -> ~ overlaps t b) ->
  exists r a' es,
    trunk_free_block_do_insert p t a m
      = ((r, a'), mkMemory (nodes m) (tree_info_by_sizes m) (tree_info_by_id m) es) /\
    (no_oom m -> r = 0 /\ Forall (fun e => e = 0) es) /\
    Z.of_nat (length (ba_blocks a')) <= ba_alloc a' /\
    blocks_ok (deref (nodes m) (ba_blocks a')) /\
    (r = 0 /\ ba_blocks a' ≡ₚ p :: ba_blocks a \/ r <> 0 /\ ba_blocks a' = ba_blocks a).
Proof.
  intros Hn Ht Hok Hal Hno. unfold trunk_free_block_do_insert, bind.
  (* room for one more *)
  assert (exists r1 a1 es, (if ba_alloc a <=? Z.of_nat (length (ba_blocks a))
     then trunk_free_block_realloc a
            (if ba_alloc a =? 0 then TRUNK_FREE_BLOCK_ARRAY_INIT_SIZE else 2 * ba_alloc a)
     else ret (0, a)) m = ((r1, a1), mkMemory (nodes m) (tree_info_by_sizes m) (tree_info_by_id m) es) /\
    (no_oom m -> r1 = 0 /\ Forall (fun e => e = 0) es) /\ ba_blocks a1 = ba_blocks a /\
    Z.of_nat (length (ba_blocks a1)) <= ba_alloc a1 /\
    (r1 = 0 -> Z.of_nat (length (ba_blocks a1)) < ba_alloc a1)) as (r1 & a1 & es & -> & Hoom & Hb1 & Hal1 & Hroom).
  { destruct (ba_alloc a <=? _) eqn:E.
    - unfold trunk_free_block_realloc, bind, malloc_errno, no_oom, TRUNK_FREE_BLOCK_ARRAY_INIT_SIZE.
      destruct m as [mn msz mid [|e es]]; cbn [mallocs nodes tree_info_by_sizes tree_info_by_id].
      + eexists _, _, _. split; [reflexivity|]. simpl. destruct (ba_alloc a =? 0) eqn:?; repeat split; try done; lia.
      + destruct (decide (e = 0)) as [->|He]; eexists _, _, _; (split; [reflexivity|]);
          cbn [ba_alloc ba_blocks]; rewrite Forall_cons.
        * destruct (ba_alloc a =? 0) eqn:?; repeat split; intros; destruct_and?; done || lia.
        * repeat split; intros; destruct_and?; done.
    - exists 0, a, (mallocs m). split; [by destruct m|]. repeat split; try done; lia. }
  destruct (decide (r1 <> 0)) as [Hr1|Hr1].
  { exists r1, a1, es. split; [done|]. split; [done|]. split; [done|]. rewrite Hb1. split; [done|]. right. done. }
  apply dec_stable in Hr1. specialize (Hroom Hr1). subst r1. unfold gets. cbn [nodes].
  rewrite Hb1 in *. set (l := deref (nodes m) (ba_blocks a)) in *.
  assert (forall pos, insert_pos_ok l t pos ->
    let a' := {| ba_alloc := ba_alloc a1; ba_blocks := insert_at pos p (ba_blocks a) |} in
    Z.of_nat (length (ba_blocks a')) <= ba_alloc a' /\
    blocks_ok (deref (nodes m) (ba_blocks a')) /\
    (0 = 0 /\ ba_blocks a' ≡ₚ p :: ba_blocks a \/ 0 <> 0 /\ ba_blocks a' = ba_blocks a)) as Hput.
  { intros pos Hpos. cbn [ba_blocks ba_alloc]. rewrite (deref_insert_at _ _ _ _ _ Hn). fold l.
    split; [|split].
    - unfold insert_at. rewrite length_app, length_take. simpl. rewrite length_drop. lia.
    - by apply insert_blocks_ok.
    - left. split; [done|]. unfold insert_at.
      rewrite <- Permutation_middle, take_drop. done. }
  assert (Z.of_nat (length l) = Z.of_nat (length (ba_blocks a))) as Hlen by (unfold l; by rewrite length_deref).
  destruct (Z.of_nat (length l) =? 0) eqn:E0.
  { eexists _, _, _. split; [reflexivity|]. split; [done|]. apply (Hput 0).
    split; [lia|]. split; intros; lia. }
  destruct (t_offset t <? t_offset (znth inhabitant l 0)) eqn:E1.
  { eexists _, _, _. split; [reflexivity|]. split; [done|]. apply (Hput 0).
    split; [lia|]. split; intros i Hi; [lia|]. destruct (decide (i = 0)) as [->|]; [lia|].
    pose proof (blocks_ok_offset_lt l 0 i Hok ltac:(lia) ltac:(lia)). lia. }
  destruct (_ <? t_offset t) eqn:E2.
  { eexists _, _, _. split; [reflexivity|]. split; [done|]. apply (Hput (Z.of_nat (length l))).
    split; [lia|]. split; intros i Hi; [|lia].
    destruct (decide (i = Z.of_nat (length l) - 1)) as [->|]; [lia|].
    pose proof (blocks_ok_offset_lt l i (Z.of_nat (length l) - 1) Hok ltac:(lia) ltac:(lia)). lia. }
  destruct (insert_search_spec (S (length l)) l t 0 (Z.of_nat (length l) - 1) 0) as (mid & -> & Hpos);
    [done|lia..| |lia|lia|lia|].
  { apply Forall_forall. intros b Hb Heq. apply (Hno b Hb).
    destruct Hok as [Hf _]. rewrite Forall_forall in Hf. specialize (Hf b Hb).
    unfold overlaps, block_ok in *. lia. }
  eexists _, _, _. split; [reflexivity|]. split; [done|]. by apply Hput.
Qed.

(** Writing back an entry, with its identifier kept. *)
Lemma fb_inv_store m e e' l1 l2 tree' es :
  fb_inv m -> avl_walk (tree_info_by_id m) = l1 ++ e :: l2 ->
  tb_trunk_file_id e' = tb_trunk_file_id e -> entry_ok (nodes m) e' ->
  avl_walk tree' = l1 ++ e' :: l2 ->
  fb_inv (mkMemory (nodes m) (tree_info_by_sizes m) tree' es).
Proof.
  intros [Hs He] Hw Hid He' Hw'. split; cbn [tree_info_by_id nodes]; rewrite Hw'; rewrite Hw in Hs, He.
  - unfold ascending, storage_trunk_node_compare_entry in *.
    apply StronglySorted_app in Hs as (Hx & Hs1 & Hs2). apply StronglySorted_app.
    split; [|split; [done|]].
    + intros x y Hx1 [->|Hy]%elem_of_cons; [rewrite Hid|]; apply Hx; [done|by left|done|by right].
    + inversion_clear Hs2 as [|? ? Hl Hf]. constructor; [done|]. by rewrite Hid.
  - apply Forall_app in He as [H1 H2]. apply Forall_cons in H2 as [_ H2].
    apply Forall_app. split; [done|]. by constructor.
Qed.

Lemma fb_ptrs_of_middle l1 e l2 :
  fb_ptrs_of (l1 ++ e :: l2) ≡ₚ ba_blocks (tb_block_array e) ++ fb_ptrs_of (l1 ++ l2).
Proof.
  rewrite !fb_ptrs_of_app, fb_ptrs_of_cons. rewrite !app_assoc. f_equiv. apply Permutation_app_comm.
Qed.

Lemma avl_store_walk (tree : T FDFSTrunksById) e e' l1 l2 :
  ascending storage_trunk_node_compare_entry (avl_walk tree) ->
  avl_walk tree = l1 ++ e :: l2 -> tb_trunk_file_id e' = tb_trunk_file_id e ->
  Forall (fun x => storage_trunk_node_compare_entry x e <> 0) l1 ->
  Forall (fun x => storage_trunk_node_compare_entry x e <> 0) l2 ->
  avl_walk (avl_store storage_trunk_node_compare_entry tree e') = l1 ++ e' :: l2.
Proof.
  intros Hs Hw Hid H1' H2'. rewrite avl_store_spec by (apply compare_entry_ordered || done).
  rewrite Hw. unfold storage_trunk_node_compare_entry in *. rewrite <- Hid in *.
  apply ref_store_split; [rewrite Hid; apply memcmp_refl|done..].
Qed.

(** What inserting into the entry [e] of the block's file does. *)
Lemma insert_into_entry m p t e l1 l2 :
  fb_inv m -> nodes m !! p = Some t -> info_ok t ->
  avl_walk (tree_info_by_id m) = l1 ++ e :: l2 -> tb_trunk_file_id e = FILL_FILE_IDENTIFIER t ->
  Forall (fun x => storage_trunk_node_compare_entry x e <> 0) l1 ->
  Forall (fun x => storage_trunk_node_compare_entry x e <> 0) l2 ->
  (forall q b, q ∈ fb_ptrs m -> nodes m !! q = Some b -> same_file b t -> ~ overlaps t b) ->
  exists r tree' es,
    (let! x := trunk_free_block_do_insert p t (tb_block_array e) in
     store_entry e (snd x) ;; ret (fst x))%c m
      = (r, mkMemory (nodes m) (tree_info_by_sizes m) tree' es) /\
    fb_inv (mkMemory (nodes m) (tree_info_by_sizes m) tree' es) /\
    (no_oom m -> r = 0 /\ Forall (fun e => e = 0) es) /\
    (r = 0 /\ fb_ptrs_of (avl_walk tree') ≡ₚ p :: fb_ptrs m \/
     r <> 0 /\ fb_ptrs_of (avl_walk tree') ≡ₚ fb_ptrs m).
Proof.
  intros Hinv Hn [Hb Hi] Hw Hid H1' H2' Hno.
  assert (entry_ok (nodes m) e) as He.
  { pose proof (fb_entries _ Hinv) as He. rewrite Forall_forall in He. apply He. rewrite Hw. set_solver. }
  destruct (do_insert_spec m p t (tb_block_array e) Hn Hb (eo_blocks _ _ He) (eo_alloc _ _ He))
    as (r & a' & es & Heq & Hoom & Hal & Hok & Hr).
  { intros b (q & Hq & <-)%elem_of_deref. destruct (eo_live _ _ He q Hq) as (b & Hnb & Hbid).
    rewrite (lookup_total_correct _ _ _ Hnb). apply (Hno q b); [|done|by unfold same_file; congruence].
    apply elem_of_fb_ptrs_of. exists e. rewrite Hw. set_solver. }
  set (e' := {| tb_trunk_file_id := tb_trunk_file_id e; tb_block_array := a' |}).
  set (tree' := avl_store storage_trunk_node_compare_entry (tree_info_by_id m) e').
  assert (avl_walk tree' = l1 ++ e' :: l2) as Hw'.
  { apply (avl_store_walk _ e); [apply Hinv|done..]. }
  exists r, tree', es. unfold bind. rewrite Heq. split; [done|]. split; [|split; [done|]].
  - apply (fb_inv_store m e e' l1 l2); [done..| |done]. split; [apply He| |done|done]. cbn [e' tb_trunk_file_id tb_block_array].
    intros q Hq. destruct Hr as [[_ Hp]|[_ Hp]]; rewrite Hp in Hq.
    + apply elem_of_cons in Hq as [->|Hq]; [by exists t|by apply He].
    + by apply He.
  - unfold fb_ptrs. rewrite Hw', Hw, !fb_ptrs_of_middle. cbn [e' tb_block_array].
    destruct Hr as [[-> ->]|[? ->]]; [left|right]; done.
Qed.

Lemma fb_ptrs_insert_empty cmp l i :
  fb_ptrs_of (ref_insert cmp l (id_target i)) ≡ₚ fb_ptrs_of l.
Proof. rewrite (fb_ptrs_of_perm _ _ (ref_insert_perm cmp l _)). done. Qed.

(** A fresh, empty entry keeps the invariant. *)
Lemma fb_inv_new_entry m t tree' es :
  fb_inv m -> ident_ok (FILL_FILE_IDENTIFIER t) -> find_by_id m t = None ->
  avl_walk tree' = ref_insert storage_trunk_node_compare_entry (avl_walk (tree_info_by_id m))
                     (id_target (FILL_FILE_IDENTIFIER t)) ->
  fb_inv (mkMemory (nodes m) (tree_info_by_sizes m) tree' es).
Proof.
  intros Hinv Hi Hf Hw. rewrite find_by_id_ref in Hf by done. destruct Hinv as [Hs He].
  split; cbn [tree_info_by_id nodes]; rewrite Hw.
  - apply ascending_insert; [apply compare_entry_ordered|done..].
  - rewrite ref_insert_perm. constructor; [|done].
    split; cbn [id_target tb_trunk_file_id tb_block_array ba_blocks ba_alloc]; [done| |by split; constructor|simpl; lia].
    intros p ?%not_elem_of_nil. done.
Qed.

(** The outcome of the next allocation is all that changes. *)
Lemma malloc_errno_eq m : exists e es,
  malloc_errno m = (e, mkMemory (nodes m) (tree_info_by_sizes m) (tree_info_by_id m) es) /\
  (no_oom m -> e = 0 /\ Forall (fun e => e = 0) es).
Proof.
  unfold malloc_errno, no_oom. destruct m as [mn msz mid [|e es]]; cbn [mallocs nodes tree_info_by_sizes tree_info_by_id].
  - exists 0, []. done.
  - exists e, es. split; [done|]. by rewrite Forall_cons.
Qed.

(** Insertion: every branch.  The block joins the pointers held, or the
    call fails and they stay the same. *)
Lemma insert_spec m p t :
  fb_inv m -> nodes m !! p = Some t -> info_ok t ->
  (forall q b, q ∈ fb_ptrs m -> nodes m !! q = Some b -> same_file b t -> ~ overlaps t b) ->
  exists r tree' es,
    trunk_free_block_insert p m = (r, mkMemory (nodes m) (tree_info_by_sizes m) tree' es) /\
    fb_inv (mkMemory (nodes m) (tree_info_by_sizes m) tree' es) /\
    (no_oom m -> r = 0 /\ Forall (fun e => e = 0) es) /\
    (r = 0 /\ fb_ptrs_of (avl_walk tree') ≡ₚ p :: fb_ptrs m \/
     r <> 0 /\ fb_ptrs_of (avl_walk tree') ≡ₚ fb_ptrs m).
Proof.
  intros Hinv Hn Ht Hno. pose proof Ht as [Hb Hi]. unfold trunk_free_block_insert.
  rewrite bind_gets, (lookup_total_correct _ _ _ Hn), bind_gets.
  destruct (find_by_id m t) as [e|] eqn:Hf.
  { destruct (find_by_id_Some m t e Hinv Hi Hf) as (Hid & He & l1 & l2 & Hw & H1' & H2').
    rewrite bind_ret. by eapply insert_into_entry. }
  destruct (malloc_errno_eq m) as (e1 & es1 & Hm1 & Ho1).
  rewrite bind_assoc, (bind_eq _ _ _ _ _ Hm1).
  destruct (decide (e1 <> 0)) as [He1|He1].
  { rewrite bind_ret. exists e1, (tree_info_by_id m), es1. split; [done|].
    split; [by destruct Hinv; split|]. split; [naive_solver|]. right. done. }
  set (m1 := mkMemory _ _ _ es1).
  destruct (malloc_errno_eq m1) as (e2 & es2 & Hm2 & Ho2).
  rewrite bind_assoc, (bind_eq _ _ _ _ _ Hm2). cbn [m1 nodes tree_info_by_sizes tree_info_by_id].
  destruct (decide (e2 <> 0)) as [He2|He2].
  { rewrite bind_ret. exists e2, (tree_info_by_id m), es2. split; [done|].
    split; [by destruct Hinv; split|]. split; [naive_solver|]. right. done. }
  rewrite bind_assoc, bind_gets. cbn [tree_info_by_id].
  pose proof Hf as Hf'. rewrite find_by_id_ref in Hf' by done.
  destruct (avl_insert_new _ storage_trunk_node_compare_entry (tree_info_by_id m)
    (id_target (FILL_FILE_IDENTIFIER t)) (compare_entry_ordered _) (fb_sorted _ Hinv) Hf') as [Hr Hw].
  destruct (avl_insert _ _ _) as [r tree1]. simpl in Hr, Hw. subst r. rewrite decide_True by done.
  rewrite bind_assoc, bind_modify, bind_ret. cbn [set_by_id nodes tree_info_by_sizes mallocs].
  set (m2 := set_by_id _ _).
  assert (fb_inv m2) as Hinv2 by (by apply (fb_inv_new_entry m t)).
  assert (find_by_id m2 t = Some (id_target (FILL_FILE_IDENTIFIER t))) as Hf2.
  { apply find_by_id_elem; [done..|]. cbn [m2 set_by_id tree_info_by_id].
    rewrite Hw, ref_insert_perm. by left. }
  destruct (find_by_id_Some m2 t _ Hinv2 Hi Hf2) as (Hid & He & l1 & l2 & Hw2 & H1' & H2').
  assert (fb_ptrs m2 ≡ₚ fb_ptrs m) as Hp2.
  { unfold fb_ptrs. cbn [m2 set_by_id tree_info_by_id]. rewrite Hw. apply fb_ptrs_insert_empty. }
  destruct (insert_into_entry m2 p t _ l1 l2 Hinv2 Hn Ht Hw2 Hid H1' H2') as (r & tree' & es & Heq & Hi' & Hoom & Hr).
  { intros q b Hq. rewrite Hp2 in Hq. by apply Hno. }
  exists r, tree', es. split; [exact Heq|]. split; [exact Hi'|]. rewrite Hp2 in Hr. split; [|done].
  intros Hm. apply Hoom. naive_solver.
Qed.

(** Dropping the pointer at index [mid] of an array. *)
Lemma drop_block_ok n ps mid :
  blocks_ok (deref n ps) -> blocks_ok (deref n (take mid ps ++ drop (S mid) ps)).
Proof.
  unfold deref. rewrite fmap_app, fmap_take, fmap_drop. set (l := _ <$> ps). clearbody l.
  rewrite <- (take_drop mid l) at 1. rewrite <- (drop_drop l mid 1), Nat.add_1_r || rewrite <- Nat.add_1_r, <- drop_drop.
  set (a := take mid l). generalize (drop mid l). intros b [Hf Hs].
  destruct b as [|x b]; [done|]. simpl. rewrite drop_0.
  apply Forall_app in Hf as [Hf1 Hf2]. apply Forall_cons in Hf2 as [_ Hf2].
  apply StronglySorted_app in Hs as (Hx & Hs1 & Hs2). inversion_clear Hs2.
  split; [by apply Forall_app|]. apply StronglySorted_app. split; [|done].
  intros y z Hy Hz. apply Hx; [done|by right].
Qed.

(** Offsets are distinct in an array, so an offset names one pointer. *)
Lemma offset_pointer n ps p t mid :
  blocks_ok (deref n ps) -> p ∈ ps -> n !! p = Some t -> 0 <= mid < Z.of_nat (length ps) ->
  t_offset (znth inhabitant (deref n ps) mid) = t_offset t -> ps !! Z.to_nat mid = Some p.
Proof.
  intros Hok [i Hi]%list_elem_of_lookup Hn Hm Ho. pose proof (lookup_lt_Some _ _ _ Hi).
  assert (znth inhabitant (deref n ps) (Z.of_nat i) = t) as Ht.
  { unfold znth, deref. rewrite Nat2Z.id, nth_lookup, list_lookup_fmap, Hi. simpl.
    by apply lookup_total_correct. }
  pose proof (length_deref n ps) as Hlen.
  destruct (Ztrichotomy (Z.of_nat i) mid) as [?|[<-|?]].
  - pose proof (blocks_ok_offset_lt _ (Z.of_nat i) mid Hok ltac:(lia) ltac:(lia)) as H'.
    rewrite Ht in H'. lia.
  - by rewrite Nat2Z.id.
  - pose proof (blocks_ok_offset_lt _ mid (Z.of_nat i) Hok ltac:(lia) ltac:(lia)) as H'.
    rewrite Ht in H'. lia.
Qed.

(** Deleting the entry [e] from the tree. *)
Lemma delete_entry m e l1 l2 :
  fb_inv m -> avl_walk (tree_info_by_id m) = l1 ++ e :: l2 ->
  Forall (fun x => storage_trunk_node_compare_entry x e <> 0) l1 ->
  Forall (fun x => storage_trunk_node_compare_entry x e <> 0) l2 ->
  exists tree', avl_delete storage_trunk_node_compare_entry (tree_info_by_id m) e = (1, tree') /\
    fb_inv (mkMemory (nodes m) (tree_info_by_sizes m) tree' (mallocs m)) /\
    fb_ptrs m ≡ₚ ba_blocks (tb_block_array e) ++ fb_ptrs_of (avl_walk tree').
Proof.
  intros Hinv Hw H1' H2'. pose proof Hinv as [Hs He].
  destruct (avl_delete_spec _ storage_trunk_node_compare_entry (tree_info_by_id m) e
    (compare_entry_ordered _) Hs) as [Hr Hdw].
  destruct (avl_delete _ _ _) as [r tree']. cbn [fst snd] in Hr, Hdw. exists tree'.
  assert (storage_trunk_node_compare_entry e e = 0) as Hee by apply memcmp_refl.
  rewrite Hw, ref_delete_split in Hdw by done. split; [|split].
  - destruct (ref_find _ _ e) eqn:Hrf; [by subst|].
    apply ref_find_None in Hrf. rewrite Hw, Forall_app, Forall_cons in Hrf. naive_solver.
  - split; cbn [tree_info_by_id nodes]; rewrite Hdw; rewrite Hw in Hs, He.
    + rewrite <- (ref_delete_split storage_trunk_node_compare_entry l1 e l2 e) by done. by apply ascending_delete.
    + rewrite Forall_app, Forall_cons in He. apply Forall_app. tauto.
  - unfold fb_ptrs. by rewrite Hdw, Hw, fb_ptrs_of_middle.
Qed.

(** Deletion of a block the checker holds: its pointer goes, whether or not
    shrinking the array succeeds. *)
Lemma delete_spec m p t :
  fb_inv m -> p ∈ fb_ptrs m -> nodes m !! p = Some t -> info_ok t ->
  exists r tree' es,
    trunk_free_block_delete t m = (r, mkMemory (nodes m) (tree_info_by_sizes m) tree' es) /\
    fb_inv (mkMemory (nodes m) (tree_info_by_sizes m) tree' es) /\
    (no_oom m -> r = 0 /\ Forall (fun e => e = 0) es) /\
    fb_ptrs m ≡ₚ p :: fb_ptrs_of (avl_walk tree').
Proof.
  intros Hinv Hp Hn [Hb Hi]. destruct (fb_ptr_entry m t p t Hinv Hi Hp Hn eq_refl) as (e & Hf & Hpe).
  destruct (find_by_id_Some m t e Hinv Hi Hf) as (Hid & He & l1 & l2 & Hw & H1' & H2').
  set (a := tb_block_array e). pose proof (length_deref (nodes m) (ba_blocks a)) as Hlen.
  destruct (delete_search_spec (S (length (deref (nodes m) (ba_blocks a)))) (deref (nodes m) (ba_blocks a)) t
    0 (Z.of_nat (length (deref (nodes m) (ba_blocks a))) - 1)) as (r & Hs & Hr); [apply He|lia..|].
  destruct r as [mid|].
  2:{ rewrite Forall_forall in Hr. destruct (Hr t); [by eapply elem_of_deref_2|done]. }
  destruct Hr as [Hm Ho]. rewrite Hlen in Hm.
  pose proof (offset_pointer _ _ p t mid (eo_blocks _ _ He) Hpe Hn Hm Ho) as Hmid.
  set (rest := take (Z.to_nat mid) (ba_blocks a) ++ drop (S (Z.to_nat mid)) (ba_blocks a)).
  assert (ba_blocks a ≡ₚ p :: rest) as Hperm.
  { unfold rest. rewrite <- delete_take_drop. by apply delete_Permutation. }
  (* every branch but one stores an array holding [rest] *)
  assert (forall al es, Z.of_nat (length rest) <= al ->
    let e' := {| tb_trunk_file_id := tb_trunk_file_id e; tb_block_array := {| ba_alloc := al; ba_blocks := rest |} |} in
    let tree' := avl_store storage_trunk_node_compare_entry (tree_info_by_id m) e' in
    fb_inv (mkMemory (nodes m) (tree_info_by_sizes m) tree' es) /\
    fb_ptrs m ≡ₚ p :: fb_ptrs_of (avl_walk tree')) as Hput.
  { intros al es Hal e' tree'.
    assert (avl_walk tree' = l1 ++ e' :: l2) as Hw' by (apply (avl_store_walk _ e); [apply Hinv|done..]).
    split.
    - apply (fb_inv_store m e e' l1 l2); [done..| |done].
      split; [apply He| |by apply drop_block_ok, He|done]. cbn [e' tb_trunk_file_id tb_block_array ba_blocks].
      intros q Hq. apply He. fold a. rewrite Hperm. by right.
    - unfold fb_ptrs. rewrite Hw', Hw, !fb_ptrs_of_middle. fold a. rewrite Hperm. done. }
  pose proof (eo_alloc _ _ He) as Hal. fold a in Hal.
  pose proof (Permutation_length Hperm) as Hlr. simpl in Hlr.
  unfold trunk_free_block_delete. rewrite bind_gets, Hf. fold a. rewrite bind_gets, Hs.
  replace (Z.to_nat (mid + 1)) with (S (Z.to_nat mid)) by lia. fold rest.
  destruct (Z.of_nat (length rest) =? 0) eqn:E0.
  { assert (rest = []) as Hnil by (destruct rest; [done|]; simpl in E0; lia). rewrite Hnil in Hperm.
    rewrite bind_gets. destruct (delete_entry m e l1 l2 Hinv Hw H1' H2') as (tree' & -> & Hinv' & Hp').
    exists 0, tree', (mallocs m). split; [done|]. split; [done|]. split; [done|].
    rewrite Hp'. fold a. rewrite Hperm. done. }
  destruct (_ && _) eqn:E1.
  - unfold trunk_free_block_realloc. rewrite bind_assoc.
    apply andb_true_iff in E1 as [E1%Z.ltb_lt _]. cbn [ba_alloc] in E1.
    destruct (malloc_errno_eq m) as (er & es & Hme & Hoom). rewrite (bind_eq _ _ _ _ _ Hme).
    destruct (decide (er = 0)) as [->|Her]; rewrite bind_ret; cbn [snd fst ba_blocks].
    + destruct (Hput (ba_alloc a ÷ 2) es ltac:(lia)) as [? ?].
      exists 0. eexists _, es. split; [reflexivity|]. done.
    + destruct (Hput (ba_alloc a) es ltac:(lia)) as [? ?].
      exists er. eexists _, es. split; [reflexivity|]. naive_solver.
  - destruct (Hput (ba_alloc a) (mallocs m) ltac:(lia)) as [? ?].
    exists 0. eexists _, (mallocs m). split; [reflexivity|]. done.
Qed.

(** A block at an offset the checker does not hold. *)
Lemma delete_absent m t :
  fb_inv m -> ident_ok (FILL_FILE_IDENTIFIER t) ->
  (forall p b, p ∈ fb_ptrs m -> nodes m !! p = Some b -> same_file b t -> t_offset b <> t_offset t) ->
  trunk_free_block_delete t m = (ENOENT, m).
Proof.
  intros Hinv Hi Hno. unfold trunk_free_block_delete. rewrite bind_gets.
  destruct (find_by_id m t) as [e|] eqn:Hf; [|done]. rewrite bind_gets.
  destruct (find_by_id_Some m t e Hinv Hi Hf) as (Hid & He & l1 & l2 & Hw & H1' & H2').
  set (l := deref _ _).
  destruct (delete_search_spec (S (length l)) l t 0 (Z.of_nat (length l) - 1)) as (r & -> & Hr); [apply He|lia..|].
  destruct r as [mid|]; [|done]. destruct Hr as [Hm Ho].
  destruct (elem_of_deref _ _ _ (znth_elem l mid Hm)) as (p & Hp & Hpl).
  destruct (eo_live _ _ He p Hp) as (b & Hb & Hbid).
  rewrite (lookup_total_correct _ _ _ Hb) in Hpl. destruct (Hno p b); [|done|unfold same_file; congruence|congruence].
  apply elem_of_fb_ptrs_of. exists e. rewrite Hw. set_solver.
Qed.

(** C37: the duplicate check is exact.  Whatever blocks the checker holds, it
    answers EEXIST when the new block shares a byte with a block of the same
    trunk file, and 0 otherwise; the binary search always ends. *)
Theorem check_duplicate_correct m t :
  fb_inv m -> info_ok t ->
  (trunk_free_block_check_duplicate m t = 0 \/ trunk_free_block_check_duplicate m t = EEXIST) /\
  (trunk_free_block_check_duplicate m t = EEXIST <->
   exists p b, p ∈ fb_ptrs m /\ nodes m !! p = Some b /\ same_file b t /\ overlaps t b).
Proof. apply check_duplicate_spec. Qed.

(** inserting a block that passed the duplicate check.  The arrays stay
    sorted and disjoint; the pointer is held exactly when the call returns 0,
    and a failed memory allocation leaves the pointers as they were. *)
Theorem trunk_free_block_insert_correct m p t :
  fb_inv m -> nodes m !! p = Some t -> info_ok t -> trunk_free_block_check_duplicate m t = 0 ->
  let '(r, m') := trunk_free_block_insert p m in
  fb_inv m' /\ nodes m' = nodes m /\ tree_info_by_sizes m' = tree_info_by_sizes m /\
  (no_oom m -> r = 0) /\ (r = 0 -> fb_ptrs m' ≡ₚ p :: fb_ptrs m) /\ (r <> 0 -> fb_ptrs m' ≡ₚ fb_ptrs m).
Proof.
  intros Hinv Hn Ht Hd. destruct (insert_spec m p t Hinv Hn Ht) as (r & tree' & es & -> & Hi & Ho & Hr).
  { intros q b Hq Hb Hsf Hov. destruct (check_duplicate_spec m t Hinv Ht) as [_ He].
    rewrite Hd in He. assert (0 = EEXIST) by (apply He; eauto 6). done. }
  split; [done|]. split; [done|]. split; [done|]. split; [naive_solver|].
  destruct Hr as [[-> Hp]|[? Hp]]; by split.
Qed.

(** deleting a block.  A block that is held leaves, also when shrinking
    the array fails; deleting an offset that is not held is ENOENT and
    changes nothing. *)
Theorem trunk_free_block_delete_correct m t :
  fb_inv m -> info_ok t ->
  (forall p, p ∈ fb_ptrs m -> nodes m !! p = Some t ->
    let '(r, m') := trunk_free_block_delete t m in
    fb_inv m' /\ nodes m' = nodes m /\ (no_oom m -> r = 0) /\ fb_ptrs m ≡ₚ p :: fb_ptrs m') /\
  ((forall p b, p ∈ fb_ptrs m -> nodes m !! p = Some b -> same_file b t -> t_offset b <> t_offset t) ->
    trunk_free_block_delete t m = (ENOENT, m)).
Proof.
  intros Hinv Ht. split.
  - intros p Hp Hn. destruct (delete_spec m p t Hinv Hp Hn Ht) as (r & tree' & es & -> & Hi & Ho & Hr).
    split; [done|]. split; [done|]. split; [naive_solver|done].
  - intros Hno. apply delete_absent; [done|apply Ht|done].
Qed.
End invariant.
