(* ===== verification/SharedFunc.v ===== *)
(** * Shared functions of tracker and storage ([tracker/fdfs_shared_func.c]).

    The reserved space of a storage path or group: a number of megabytes or a
    ratio.  A C [double] is an IEEE 754 binary64 number of the Standard
    Library's [SpecFloat]. *)

From Stdlib Require Import SpecFloat.
From S2P Require Import Prelude.

(** ** Doubles. *)
Definition double := spec_float.

(** [(double)z]. *)
Definition double_of_Z (z : Z) : double := binary_normalize 53 1024 z 0 false.

Definition double_div (a b : double) : double := SFdiv 53 1024 a b.
Definition double_mul (a b : double) : double := SFmul 53 1024 a b.
Definition double_gt (a b : double) : bool := SFltb b a.

(** [(int)d] of a [double] in the [int] range: truncation toward zero. *)
Definition int_of_double (d : double) : Z :=
  match d with
  | S754_finite s m e =>
      let v := if 0 <=? e then Z.shiftl (Zpos m) e else Z.shiftr (Zpos m) (- e) in
      if s then - v else v
  | _ => 0
  end.

(** The ways to choose a store path. *)
Definition FDFS_STORE_PATH_ROUND_ROBIN : Z := 0.
Definition FDFS_STORE_PATH_LOAD_BALANCE : Z := 2.

(** ** Reserved space.  The union with its flag: [FLAG_MB] or [FLAG_RATIO]. *)
Inductive FDFSStorageReservedSpace :=
  | RESERVED_SPACE_MB (mb : Z)
  | RESERVED_SPACE_RATIO (ratio : double).

Definition FDFS_ONE_MB : Z := 1024 * 1024.
Definition FDFS_DEF_STORAGE_RESERVED_MB : Z := 1024.

Definition fdfs_get_storage_reserved_space_mb (total_mb : Z) (rs : FDFSStorageReservedSpace) : Z :=
  match rs with
  | RESERVED_SPACE_MB mb => mb
  | RESERVED_SPACE_RATIO ratio => int32 (int_of_double (double_mul (double_of_Z total_mb) ratio))
  end.

(** The ratio test [(double)free / (double)total > ratio]. *)
Definition above_ratio (total_mb free_mb : Z) (ratio : double) : bool :=
  if total_mb =? 0 then false
  else double_gt (double_div (double_of_Z free_mb) (double_of_Z total_mb)) ratio.

Definition fdfs_check_reserved_space (total_mb free_mb : Z) (rs : FDFSStorageReservedSpace) : bool :=
  match rs with
  | RESERVED_SPACE_MB mb => mb <? free_mb
  | RESERVED_SPACE_RATIO ratio => above_ratio total_mb free_mb ratio
  end.

Definition fdfs_check_reserved_space_trunk (total_mb free_mb trunk_free_mb : Z)
    (rs : FDFSStorageReservedSpace) : bool :=
  match rs with
  | RESERVED_SPACE_MB mb => mb <? int64 (free_mb + trunk_free_mb)
  | RESERVED_SPACE_RATIO ratio => above_ratio total_mb (int64 (free_mb + trunk_free_mb)) ratio
  end.

Definition fdfs_check_reserved_space_path (total_mb free_mb avg_mb : Z)
    (rs : FDFSStorageReservedSpace) : bool :=
  match rs with
  | RESERVED_SPACE_MB _ => avg_mb <? free_mb
  | RESERVED_SPACE_RATIO ratio => above_ratio total_mb free_mb ratio
  end.
