(* ===== verification/StorePath.v ===== *)
(** * Choosing a store path and a sub directory ([storage/storage_service.c]).

    [storage_get_storage_path_index] picks the store path of a new file or
    trunk file, [storage_get_store_path] its two-level sub directory. *)

From S2P Require Import Prelude FastCommon TrunkShared SharedFunc.

Definition FDFS_FILE_DIST_PATH_ROUND_ROBIN : Z := 0.
Definition FDFS_FILE_DIST_PATH_RANDOM : Z := 1.

(** The settings read here. *)
Record StorePathConf := {
  g_store_path_mode : Z;
  g_fdfs_store_paths : list FDFSStorePathInfo;
  g_avg_storage_reserved_mb : Z;
  g_storage_reserved_space : FDFSStorageReservedSpace;
  g_file_distribute_path_mode : Z;
  g_file_distribute_rotate_count : Z;
  g_subdir_count_per_path : Z;
}.

(** The global variables written here. *)
Record DistState := {
  g_store_path_index : Z;
  g_dist_path_index_high : Z;
  g_dist_path_index_low : Z;
  g_dist_write_file_count : Z;
  g_stat_change_count : Z;
}.

Definition set_store_path_index (i : Z) (d : DistState) : DistState := {|
  g_store_path_index := i;
  g_dist_path_index_high := g_dist_path_index_high d;
  g_dist_path_index_low := g_dist_path_index_low d;
  g_dist_write_file_count := g_dist_write_file_count d;
  g_stat_change_count := g_stat_change_count d;
|}.

Section operations.
Context (conf : StorePathConf).

Definition store_path_count : Z := Z.of_nat (length (g_fdfs_store_paths conf)).

(** [storage_check_reserved_space_path] of the path at index [i]. *)
Definition path_has_space (i : Z) : bool :=
  let p := znth inhabitant (g_fdfs_store_paths conf) i in
  fdfs_check_reserved_space_path (sp_total_mb p) (sp_free_mb p)
    (g_avg_storage_reserved_mb conf) (g_storage_reserved_space conf).

(** [for (i=0; i<count; i++) if (check(i)) ... break;]: the index found. *)
Fixpoint first_with_space (n : nat) (i : Z) : option Z :=
  match n with
  | O => None
  | S n' => if path_has_space i then Some i else first_with_space n' (i + 1)
  end.

(** The result and [*store_path_index]. *)
Definition storage_get_storage_path_index : M DistState (Z * Z) :=
  (let! index := gets g_store_path_index in
   if g_store_path_mode conf =? FDFS_STORE_PATH_LOAD_BALANCE then
     if (index <? 0) || (store_path_count <=? index) then ret (ENOSPC, index) else ret (0, index)
   else
     let index := if store_path_count <=? index then 0 else index in
     let! picked :=
       (if path_has_space index then ret (Some index)
        else match first_with_space (length (g_fdfs_store_paths conf)) 0 with
             | Some i => modify (set_store_path_index i) ;; ret (Some i)
             | None => ret None
             end) in
     match picked with
     | None => ret (ENOSPC, index)
     | Some index =>
         modify (fun d =>
           let next := g_store_path_index d + 1 in
           set_store_path_index (if store_path_count <=? next then 0 else next) d) ;;
         ret (0, index)
     end)%c.

Context `{FastCommon}.

(** The rotation of the two-level directory counters. *)
Definition dist_rotate (d : DistState) : DistState :=
  let low := g_dist_path_index_low d + 1 in
  let wrap_low := g_subdir_count_per_path conf <=? low in
  let high := if wrap_low then
                let h := g_dist_path_index_high d + 1 in
                if g_subdir_count_per_path conf <=? h then 0 else h
              else g_dist_path_index_high d in
  {| g_store_path_index := g_store_path_index d;
     g_dist_path_index_high := high;
     g_dist_path_index_low := if wrap_low then 0 else low;
     g_dist_write_file_count := 0;
     g_stat_change_count := g_stat_change_count d + 1 |}.

Definition set_write_file_count (c : Z) (d : DistState) : DistState := {|
  g_store_path_index := g_store_path_index d;
  g_dist_path_index_high := g_dist_path_index_high d;
  g_dist_path_index_low := g_dist_path_index_low d;
  g_dist_write_file_count := c;
  g_stat_change_count := g_stat_change_count d;
|}.

(** [*sub_path_high] and [*sub_path_low]. *)
Definition storage_get_store_path (filename : bytes) : M DistState (Z * Z) :=
  if g_file_distribute_path_mode conf =? FDFS_FILE_DIST_PATH_ROUND_ROBIN then
    (let! high := gets g_dist_path_index_high in
     let! low := gets g_dist_path_index_low in
     modify (fun d =>
       let count := g_dist_write_file_count d + 1 in
       if g_file_distribute_rotate_count conf <=? count
       then dist_rotate d else set_write_file_count count d) ;;
     ret (high, low))%c
  else
    let n := Z.rem (PJWHash filename) (Z.shiftl 1 16) in
    ret (Z.rem (Z.land (Z.shiftr n 8) 0xFF) (g_subdir_count_per_path conf),
         Z.rem (Z.land n 0xFF) (g_subdir_count_per_path conf)).
End operations.

(** ** Properties. *)

(** The counters stay inside the sub directories of the configuration. *)
Definition dist_ok (conf : StorePathConf) (d : DistState) : Prop :=
  0 <= g_dist_path_index_high d < g_subdir_count_per_path conf /\
  0 <= g_dist_path_index_low d < g_subdir_count_per_path conf /\
  0 <= g_store_path_index d.

Section properties.
Context (conf : StorePathConf).
Implicit Types d : DistState.

Lemma first_with_space_spec n i :
  match first_with_space conf n i with
  | Some j => i <= j < i + Z.of_nat n /\ path_has_space conf j = true /\
              (forall k, i <= k < j -> path_has_space conf k = false)
  | None => forall k, i <= k < i + Z.of_nat n -> path_has_space conf k = false
  end.
Proof.
  revert i. induction n as [|n IH]; intros i; cbn [first_with_space]; [intros k; lia|].
  destruct (path_has_space conf i) eqn:E.
  { split; [lia|]. split; [done|]. intros k ?. lia. }
  specialize (IH (i + 1)). destruct (first_with_space conf n (i + 1)).
  - destruct IH as (? & ? & Hk). split; [lia|]. split; [done|]. intros k ?.
    destruct (decide (k = i)) as [->|]; [done|]. apply Hk. lia.
  - intros k ?. destruct (decide (k = i)) as [->|]; [done|]. apply IH. lia.
Qed.

(** The index after a choice of [i]. *)
Definition next_path_index (i : Z) : Z :=
  if store_path_count conf <=? i + 1 then 0 else i + 1.

Lemma storage_get_storage_path_index_spec d :
  0 <= g_store_path_index d -> 0 < store_path_count conf ->
  let '((r, i), d') := storage_get_storage_path_index conf d in
  (r = 0 \/ r = ENOSPC) /\
  (r = 0 -> 0 <= i < store_path_count conf) /\
  0 <= g_store_path_index d'.
Proof.
  intros H0 Hc. unfold storage_get_storage_path_index. rewrite bind_gets.
  destruct (_ =? FDFS_STORE_PATH_LOAD_BALANCE).
  { destruct (_ || _) eqn:E; simpl; repeat split; try done; try lia; auto. }
  set (idx := if store_path_count conf <=? g_store_path_index d then 0 else g_store_path_index d).
  assert (0 <= idx < store_path_count conf) as Hidx.
  { subst idx. destruct (store_path_count conf <=? g_store_path_index d) eqn:?; lia. }
  destruct (path_has_space conf idx) eqn:E.
  { rewrite bind_ret. unfold bind, modify, ret. simpl. case_match; repeat split; auto; lia. }
  pose proof (first_with_space_spec (length (g_fdfs_store_paths conf)) 0) as Hs.
  destruct (first_with_space _ _ _) as [j|].
  - rewrite bind_assoc, bind_modify, bind_ret. unfold bind, modify, ret. simpl.
    unfold store_path_count in *. case_match; repeat split; auto; lia.
  - simpl. repeat split; auto; lia.
Qed.

Context `{FastCommonLaws}.

Lemma storage_get_store_path_range name d :
  dist_ok conf d -> 0 < g_subdir_count_per_path conf ->
  let '((high, low), d') := storage_get_store_path conf name d in
  0 <= high < g_subdir_count_per_path conf /\ 0 <= low < g_subdir_count_per_path conf /\
  dist_ok conf d'.
Proof.
  intros Hd Hc. unfold storage_get_store_path. destruct (_ =? FDFS_FILE_DIST_PATH_ROUND_ROBIN).
  - unfold bind, gets, modify, ret, dist_ok, dist_rotate, set_write_file_count in *. simpl.
    repeat case_match; simpl in *; lia.
  - unfold ret. set (n := Z.rem (PJWHash name) _).
    assert (0 <= Z.land (Z.shiftr n 8) 0xFF) by (apply Z.land_nonneg; lia).
    assert (0 <= Z.land n 0xFF) by (apply Z.land_nonneg; lia).
    clearbody n. rewrite !Z.rem_mod_nonneg by lia. split; [apply Z.mod_pos_bound; lia|]. split; [apply Z.mod_pos_bound; lia|done].
Qed.

(** C40: choosing a store path.  The choice succeeds with an existing path or
    fails with ENOSPC.  In round robin mode a chosen path has free space
    beyond the reserve, and the choice fails only when no path has; the next
    choice starts behind the chosen path (unless the index was stale). *)
Theorem storage_get_storage_path_index_correct d :
  0 <= g_store_path_index d -> 0 < store_path_count conf ->
  let '((r, i), d') := storage_get_storage_path_index conf d in
  (r = 0 \/ r = ENOSPC) /\ (r = 0 -> 0 <= i < store_path_count conf) /\
  (g_store_path_mode conf <> FDFS_STORE_PATH_LOAD_BALANCE ->
    (r = 0 -> path_has_space conf i = true /\
      (g_store_path_index d < store_path_count conf -> g_store_path_index d' = next_path_index i)) /\
    (r = ENOSPC -> forall k, 0 <= k < store_path_count conf -> path_has_space conf k = false)).
Proof.
  intros Hd0 Hc. pose proof (storage_get_storage_path_index_spec d Hd0 Hc) as Hspec.
  destruct (storage_get_storage_path_index conf d) as [[r i] d'] eqn:E. destruct Hspec as (Hr & Hi & _).
  split; [done|]. split; [done|]. intros Hmode.
  unfold storage_get_storage_path_index in E. rewrite bind_gets in E.
  rewrite (proj2 (Z.eqb_neq _ _) Hmode) in E.
  set (idx := if store_path_count conf <=? g_store_path_index d then 0 else g_store_path_index d) in E.
  assert (0 <= idx < store_path_count conf) as Hidx.
  { subst idx. destruct (store_path_count conf <=? g_store_path_index d) eqn:?; lia. }
  pose proof (first_with_space_spec (length (g_fdfs_store_paths conf)) 0) as Hs.
  destruct (path_has_space conf idx) eqn:Ep.
  - rewrite bind_ret in E. unfold bind, modify, ret in E. injection E as <- <- <-.
    split; [|done]. intros _. split; [done|]. intros Hlt. cbn. unfold next_path_index, idx.
    by rewrite (proj2 (Z.leb_gt _ (g_store_path_index d))) by lia.
  - destruct (first_with_space _ _ _) as [j|].
    + rewrite bind_assoc, bind_modify, bind_ret in E. unfold bind, modify, ret in E. injection E as <- <- <-.
      split; [|done]. intros _. split; [apply Hs|done].
    + injection E as <- <- <-. split; [done|]. intros _ k Hk. apply Hs. unfold store_path_count in Hk. lia.
Qed.

(** The place of the next file in the round of all directories:
    [g_file_distribute_rotate_count] files in each. *)
Definition dist_pos d : Z :=
  (g_dist_path_index_high d * g_subdir_count_per_path conf + g_dist_path_index_low d)
    * g_file_distribute_rotate_count conf + g_dist_write_file_count d.

Definition dist_round : Z :=
  g_subdir_count_per_path conf * g_subdir_count_per_path conf * g_file_distribute_rotate_count conf.

Lemma dist_round_pos :
  0 < g_subdir_count_per_path conf -> 0 < g_file_distribute_rotate_count conf -> 0 < dist_round.
Proof. intros. unfold dist_round. by repeat apply Z.mul_pos_pos. Qed.

Lemma dist_pos_range d :
  dist_ok conf d -> 0 <= g_dist_write_file_count d < g_file_distribute_rotate_count conf ->
  0 <= dist_pos d < dist_round.
Proof.
  unfold dist_ok, dist_pos, dist_round. generalize (g_dist_path_index_high d) (g_dist_path_index_low d)
    (g_dist_write_file_count d) (g_subdir_count_per_path conf) (g_file_distribute_rotate_count conf).
  intros h l w S R (Hh & Hl & _) Hw. assert (0 <= h * S + l < S * S) by nia. nia.
Qed.

(** [k] calls; the directories chosen. *)
Fixpoint choose_paths (k : nat) (d : DistState) : list (Z * Z) :=
  match k with
  | O => []
  | S k' => let '(p, d') := storage_get_store_path conf [] d in p :: choose_paths k' d'
  end.

Lemma div_mod_pair S h l : 0 <= l < S -> (h * S + l) / S = h /\ (h * S + l) `mod` S = l.
Proof.
  intros Hl. split.
  - rewrite Z.div_add_l by lia. rewrite Z.div_small by lia. lia.
  - rewrite Z.add_comm, Z.mod_add by lia. by apply Z.mod_small.
Qed.

Lemma dist_step d :
  g_file_distribute_path_mode conf = FDFS_FILE_DIST_PATH_ROUND_ROBIN ->
  dist_ok conf d -> 0 < g_subdir_count_per_path conf -> 0 < g_file_distribute_rotate_count conf ->
  0 <= g_dist_write_file_count d < g_file_distribute_rotate_count conf ->
  let '((h, l), d') := storage_get_store_path conf [] d in
  h * g_subdir_count_per_path conf + l = dist_pos d / g_file_distribute_rotate_count conf /\
  dist_pos d' = (dist_pos d + 1) `mod` dist_round /\
  dist_ok conf d' /\ 0 <= g_dist_write_file_count d' < g_file_distribute_rotate_count conf.
Proof.
  intros Hm (Hh & Hl & Hi) HS HR Hw. unfold storage_get_store_path. rewrite Hm, Z.eqb_refl.
  rewrite !bind_gets, bind_modify. unfold ret.
  set (S := g_subdir_count_per_path conf) in *. set (R := g_file_distribute_rotate_count conf) in *.
  set (h := g_dist_path_index_high d) in *. set (l := g_dist_path_index_low d) in *.
  set (w := g_dist_write_file_count d) in *.
  assert (dist_pos d = (h * S + l) * R + w) as Hp by done.
  assert (dist_round = S * S * R) as Hround by done.
  split; [rewrite Hp; symmetry; by apply div_mod_pair|].
  assert (forall n, 0 <= n < S * S -> n * R + R <= S * S * R) as Hfit by (intros; nia).
  assert (0 <= h * S + l < S * S) as Hdir by nia.
  destruct (R <=? w + 1) eqn:Ew.
  - assert (w = R - 1) as Hwr by lia. unfold dist_rotate, dist_pos, dist_ok. cbn.
    fold S R h l w. destruct (S <=? l + 1) eqn:El; [destruct (S <=? h + 1) eqn:Eh|]; (split; [|lia]); rewrite Hround.
    + assert (h = S - 1 /\ l = S - 1) as [Eh1 El1] by lia.
      replace ((h * S + l) * R + w + 1) with (S * S * R) by (rewrite Hwr, Eh1, El1; ring).
      rewrite Z.mod_same by nia. ring.
    + assert (l = S - 1) as El1 by lia.
      rewrite Z.mod_small by nia. rewrite Hwr, El1. ring.
    + specialize (Hfit (h * S + l) Hdir).
      rewrite Z.mod_small by nia. rewrite Hwr. ring.
  - unfold set_write_file_count, dist_pos, dist_ok. cbn. fold S R h l w. specialize (Hfit _ Hdir).
    split; [|lia]. rewrite Hround, Z.mod_small by nia. ring.
Qed.

(** directories are used evenly.  In round robin mode the directories of
    consecutive files run through all the two-level directories in order,
    [g_file_distribute_rotate_count] files each, and start over after the
    last one: the k-th file goes to the directory at its place in the round. *)
Theorem storage_get_store_path_round_robin k i d h l :
  g_file_distribute_path_mode conf = FDFS_FILE_DIST_PATH_ROUND_ROBIN ->
  dist_ok conf d -> 0 < g_subdir_count_per_path conf -> 0 < g_file_distribute_rotate_count conf ->
  0 <= g_dist_write_file_count d < g_file_distribute_rotate_count conf ->
  choose_paths k d !! i = Some (h, l) ->
  0 <= h < g_subdir_count_per_path conf /\ 0 <= l < g_subdir_count_per_path conf /\
  h * g_subdir_count_per_path conf + l =
    ((dist_pos d + Z.of_nat i) `mod` dist_round) / g_file_distribute_rotate_count conf.
Proof.
  intros Hm Hd HS HR. revert i d Hd. induction k as [|k IH]; intros i d Hd Hw Hi; [done|].
  cbn [choose_paths] in Hi. pose proof (dist_step d Hm Hd HS HR Hw) as Hstep.
  pose proof (storage_get_store_path_range [] d Hd HS) as Hrange.
  destruct (storage_get_store_path conf [] d) as [[h' l'] d'].
  destruct Hstep as (Hhl & Hpos & Hd' & Hw'). destruct Hrange as (Hh & Hl & _). destruct i as [|i]; cbn in Hi.
  - simplify_eq. split; [done|]. split; [done|]. rewrite Hhl, Z.add_0_r. f_equal. symmetry. apply Z.mod_small.
    by apply dist_pos_range.
  - destruct (IH i d' Hd' Hw' Hi) as (? & ? & ->). split; [done|]. split; [done|]. f_equal.
    rewrite Hpos, Z.add_mod_idemp_l by (pose proof (dist_round_pos HS HR); lia).
    f_equal. lia.
Qed.
End properties.
