(* ===== verification/TrunkBinlog.v ===== *)
(** * The trunk binlog ([storage/trunk_mgr/trunk_sync.c]).

    The writer: records are formatted into a 64 KB cache that is written and
    synced to the binlog file when it is nearly full or when a flush is asked
    for.  The reader: a 64 KB buffer refilled from the file, cut into lines
    that are parsed back into records.  The binlog lock makes every function
    here atomic. *)

From S2P Require Import Prelude FastCommon TrunkShared.

Definition TRUNK_OP_TYPE_ADD_SPACE : Z := 65. (* 'A' *)
Definition TRUNK_OP_TYPE_DEL_SPACE : Z := 68. (* 'D' *)
Definition TRUNK_BINLOG_BUFFER_SIZE : Z := 64 * 1024.
Definition TRUNK_BINLOG_LINE_SIZE : Z := 128.

Record TrunkBinLogRecord := {
  rec_timestamp : Z;
  rec_op_type : Z;
  rec_trunk : FDFSTrunkFullInfo;
}.

(** The outcome of [fc_safe_write] + [fsync]: success; a write that failed
    after some bytes; a failed [fsync] after a complete write. *)
Inductive WriteOutcome :=
  | WriteOk
  | WriteFail (written : nat) (errno : Z)
  | FsyncFail (errno : Z).

(** The cache ([trunk_binlog_write_cache_buff] up to its length), the bytes of
    the file, [trunk_binlog_write_version], and the outcomes of the coming
    writes (an exhausted list is success). *)
Record TrunkBinlog := mkBinlog {
  bl_cache : bytes;
  bl_file : bytes;
  bl_version : Z;
  bl_outcomes : list WriteOutcome;
}.

(** ** The writer. *)

(** [trunk_binlog_fsync_ex] on [buff]; [*length] becomes 0 exactly when the
    result is 0. *)
Definition trunk_binlog_fsync_ex (buff : bytes) : M TrunkBinlog Z :=
  fun b =>
    if bool_decide (buff = []) then
      (0, mkBinlog (bl_cache b) (bl_file b) (bl_version b + 1) (bl_outcomes b))
    else
      match bl_outcomes b with
      | WriteFail n e :: os =>
          (errno_or e EIO, mkBinlog (bl_cache b) (bl_file b ++ take n buff) (bl_version b) os)
      | FsyncFail e :: os =>
          (errno_or e EIO, mkBinlog (bl_cache b) (bl_file b ++ buff) (bl_version b) os)
      | WriteOk :: os => (0, mkBinlog (bl_cache b) (bl_file b ++ buff) (bl_version b + 1) os)
      | [] => (0, mkBinlog (bl_cache b) (bl_file b ++ buff) (bl_version b + 1) [])
      end.

Definition set_cache (c : bytes) (b : TrunkBinlog) : TrunkBinlog :=
  mkBinlog c (bl_file b) (bl_version b) (bl_outcomes b).

(** [trunk_binlog_flush], the macro [trunk_binlog_fsync]. *)
Definition trunk_binlog_flush : M TrunkBinlog Z :=
  (let! cache := gets bl_cache in
   let! r := trunk_binlog_fsync_ex cache in
   (if decide (r = 0) then modify (set_cache []) else ret tt) ;; ret r)%c.

(** The fields of a record: [%d %c %d %d %d %u %d %d\n]. *)
Definition record_fields (timestamp op_type : Z) (t : FDFSTrunkFullInfo) : list bytes :=
  [fmt_d timestamp; [op_type]; fmt_d (store_path_index (ti_path t));
   fmt_d (sub_path_high (ti_path t)); fmt_d (sub_path_low (ti_path t));
   fmt_u 10 (uint32 (tf_id (ti_file t))); fmt_d (tf_offset (ti_file t));
   fmt_d (tf_size (ti_file t)) ++ [10]].

Definition record_line (timestamp op_type : Z) (t : FDFSTrunkFullInfo) : bytes :=
  join 32 (record_fields timestamp op_type t).

Definition trunk_binlog_write (timestamp op_type : Z) (t : FDFSTrunkFullInfo) : M TrunkBinlog Z :=
  (modify (fun b => set_cache (bl_cache b ++ record_line timestamp op_type t) b) ;;
   let! len := gets (fun b => Z.of_nat (length (bl_cache b))) in
   if TRUNK_BINLOG_BUFFER_SIZE - len <? 128 then trunk_binlog_flush else ret 0)%c.

Definition trunk_binlog_write_buffer (buff : bytes) : M TrunkBinlog Z :=
  let len := Z.of_nat (length buff) in
  (let! cache_len := gets (fun b => Z.of_nat (length (bl_cache b))) in
   let! write_ret := (if TRUNK_BINLOG_BUFFER_SIZE - (cache_len + len) <? 128
                      then trunk_binlog_flush else ret 0) in
   if decide (write_ret = 0) then
     if TRUNK_BINLOG_BUFFER_SIZE <=? len then
       let! cache_len := gets (fun b => Z.of_nat (length (bl_cache b))) in
       let! write_ret := (if 0 <? cache_len then trunk_binlog_flush else ret 0) in
       if decide (write_ret = 0) then trunk_binlog_fsync_ex buff else ret write_ret
     else modify (fun b => set_cache (bl_cache b ++ buff) b) ;; ret 0
   else ret write_ret)%c.

(** ** The reader. *)

(** The unread bytes of [binlog_buff] and its version, the position of the
    descriptor, and the offset of the next record. *)
Record TrunkBinLogReader := mkReader {
  rd_buff : bytes;
  rd_version : Z;
  rd_pos : Z;
  rd_binlog_offset : Z;
}.

Definition set_buff (u : bytes) (r : TrunkBinLogReader) : TrunkBinLogReader :=
  mkReader u (rd_version r) (rd_pos r) (rd_binlog_offset r).

(** The reader of [trunk_open_readable_binlog]: an offset past the end of the
    file starts over at 0. *)
Definition trunk_open_readable_binlog (b : TrunkBinlog) (r : TrunkBinLogReader) : TrunkBinLogReader :=
  let off := if Z.of_nat (length (bl_file b)) <? rd_binlog_offset r then 0 else rd_binlog_offset r in
  mkReader (rd_buff r) (rd_version r) (if 0 <? off then off else 0) off.

Definition trunk_binlog_preread (b : TrunkBinlog) (r : TrunkBinLogReader) : Z * TrunkBinLogReader :=
  let len := Z.of_nat (length (rd_buff r)) in
  if (rd_version r =? bl_version b) && (len =? 0) then (ENOENT, r)
  else if len =? TRUNK_BINLOG_BUFFER_SIZE then (0, r)
  else
    let data := take (Z.to_nat (TRUNK_BINLOG_BUFFER_SIZE - len)) (drop (Z.to_nat (rd_pos r)) (bl_file b)) in
    if bool_decide (data = []) then
      (if len =? 0 then ENOENT else 0,
       mkReader (rd_buff r) (bl_version b) (rd_pos r) (rd_binlog_offset r))
    else
      (0, mkReader (rd_buff r ++ data) (rd_version r) (rd_pos r + Z.of_nat (length data))
            (rd_binlog_offset r)).

(** The bytes up to and including the first [c]. *)
Fixpoint upto (c : Z) (s : bytes) : option bytes :=
  match s with
  | [] => None
  | x :: s' => if decide (x = c) then Some [x] else cons x <$> upto c s'
  end.

(** The result, the line with its [*line_length] ([None]: not set) and the reader. *)
Definition trunk_binlog_do_line_read (line_size : Z) (r : TrunkBinLogReader)
    : Z * option bytes * TrunkBinLogReader :=
  if bool_decide (rd_buff r = []) then (ENOENT, None, r)
  else
    match upto 10 (rd_buff r) with
    | None => (ENOENT, None, r)
    | Some line =>
        if line_size <=? Z.of_nat (length line) then (ENOSPC, Some line, r)
        else (0, Some line, set_buff (drop (length line) (rd_buff r)) r)
    end.

Definition trunk_binlog_read_line (b : TrunkBinlog) (line_size : Z) (r : TrunkBinLogReader)
    : Z * option bytes * TrunkBinLogReader :=
  match trunk_binlog_do_line_read line_size r with
  | (result, line, r1) =>
      if decide (result <> ENOENT) then (result, line, r1)
      else
        match trunk_binlog_preread b r1 with
        | (result, r2) =>
            if decide (result <> 0) then (result, None, r2)
            else trunk_binlog_do_line_read line_size r2
        end
  end.

Section read.
Context `{FastCommon}.

(** [splitEx] and the conversions of the eight columns; [status] is the
    field of [*pRecord] that is left as it was. *)
Definition parse_record (status : Z) (line : bytes) : option TrunkBinLogRecord :=
  let cols := splitEx 32 8 line in
  if (length cols <? 8)%nat then None
  else
    let col i := nth i cols [] in
    Some {| rec_timestamp := atoi (col 0%nat);
            rec_op_type := hd 0 (col 1%nat);
            rec_trunk := {|
              ti_status := status;
              ti_path := {| store_path_index := uint8 (atoi (col 2%nat));
                            sub_path_high := uint8 (atoi (col 3%nat));
                            sub_path_low := uint8 (atoi (col 4%nat)) |};
              ti_file := {| tf_id := atoi (col 5%nat); tf_offset := atoi (col 6%nat);
                            tf_size := atoi (col 7%nat) |} |} |}.

(** The result, [*record_length] (0 when not set, as the callers initialise
    it), the record and the reader. *)
Definition trunk_binlog_read (b : TrunkBinlog) (r : TrunkBinLogReader) (rec : TrunkBinLogRecord)
    : Z * Z * TrunkBinLogRecord * TrunkBinLogReader :=
  match trunk_binlog_read_line b TRUNK_BINLOG_LINE_SIZE r with
  | (result, line, r') =>
      let len := match line with Some l => Z.of_nat (length l) | None => 0 end in
      if decide (result <> 0) then (result, len, rec, r')
      else
        match parse_record (ti_status (rec_trunk rec)) (default [] line) with
        | None => (ENOENT, len, rec, r')
        | Some rec' => (0, len, rec', r')
        end
  end.
End read.

(** ** Properties. *)

(** Everything logged so far, on disk or in the cache. *)
Definition bl_log (b : TrunkBinlog) : bytes := bl_file b ++ bl_cache b.

(** The cache of a writer whose last write or flush succeeded has room for a
    record of 128 bytes. *)
Definition cache_ok (b : TrunkBinlog) : Prop :=
  Z.of_nat (length (bl_cache b)) <= TRUNK_BINLOG_BUFFER_SIZE - 128.

Definition writes_ok (b : TrunkBinlog) : Prop := Forall (fun o => o = WriteOk) (bl_outcomes b).

(** A record the text format can carry. *)
Record record_ok (timestamp op_type : Z) (t : FDFSTrunkFullInfo) : Prop := {
  ro_time : is_int32 timestamp;
  ro_op : is_byte op_type /\ op_type <> 32 /\ op_type <> 10;
  ro_index : is_uint8 (store_path_index (ti_path t));
  ro_high : is_uint8 (sub_path_high (ti_path t));
  ro_low : is_uint8 (sub_path_low (ti_path t));
  ro_id : is_int32 (tf_id (ti_file t));
  ro_offset : is_int32 (tf_offset (ti_file t));
  ro_size : is_int32 (tf_size (ti_file t));
}.

(** *** The text of a record. *)
Lemma fmt_no c n : c < 45 -> c ∉ fmt_d n.
Proof. intros Hc Hin. pose proof (fmt_d_chars n) as Hf. rewrite Forall_forall in Hf. specialize (Hf c Hin). lia. Qed.

Lemma fmt_u_no c n : c < 48 -> 0 <= n -> c ∉ fmt_u 10 n.
Proof. intros Hc Hn Hin. pose proof (fmt_u_chars n Hn) as Hf. rewrite Forall_forall in Hf. specialize (Hf c Hin). lia. Qed.

Lemma uint32_nonneg n : 0 <= uint32 n < 2 ^ 32.
Proof. apply Z.mod_pos_bound. lia. Qed.

Lemma record_fields_no_space ts op t :
  record_ok ts op t -> Forall (fun f => 32 ∉ f) (record_fields ts op t).
Proof.
  intros Ho. pose proof (uint32_nonneg (tf_id (ti_file t))).
  pose proof (ro_op _ _ _ Ho) as (_ & ? & _).
  unfold record_fields. repeat (apply Forall_cons; split); try (apply fmt_no; lia); try done.
  - set_solver.
  - apply fmt_u_no; lia.
  - rewrite not_elem_of_app. split; [apply fmt_no; lia|set_solver].
Qed.

(** The line without its newline. *)
Definition record_body (ts op : Z) (t : FDFSTrunkFullInfo) : bytes :=
  join 32 [fmt_d ts; [op]; fmt_d (store_path_index (ti_path t));
   fmt_d (sub_path_high (ti_path t)); fmt_d (sub_path_low (ti_path t));
   fmt_u 10 (uint32 (tf_id (ti_file t))); fmt_d (tf_offset (ti_file t)); fmt_d (tf_size (ti_file t))].

Lemma record_line_body ts op t : record_line ts op t = record_body ts op t ++ [10].
Proof. unfold record_line, record_body, record_fields. cbn [join]. repeat (rewrite <- app_assoc; cbn [app]). done. Qed.

Lemma record_body_no_newline ts op t : record_ok ts op t -> 10 ∉ record_body ts op t.
Proof.
  intros Ho. pose proof (ro_op _ _ _ Ho) as (_ & _ & ?).
  pose proof (uint32_nonneg (tf_id (ti_file t))). unfold record_body. cbn [join].
  repeat (rewrite ?not_elem_of_app, ?not_elem_of_cons); repeat split; try done;
    try (apply fmt_no; lia); try (apply fmt_u_no; lia); apply not_elem_of_nil.
Qed.

Lemma record_line_length ts op t :
  record_ok ts op t -> Z.of_nat (length (record_line ts op t)) < 128.
Proof.
  intros []. unfold is_uint8 in *. pose proof (uint32_nonneg (tf_id (ti_file t))).
  pose proof (fmt_u_length 10 (uint32 (tf_id (ti_file t))) 10 ltac:(lia) ltac:(lia) ltac:(lia)).
  pose proof (fmt_d_length ts ro_time0).
  pose proof (fmt_d_length (store_path_index (ti_path t)) ltac:(unfold is_int32; lia)).
  pose proof (fmt_d_length (sub_path_high (ti_path t)) ltac:(unfold is_int32; lia)).
  pose proof (fmt_d_length (sub_path_low (ti_path t)) ltac:(unfold is_int32; lia)).
  pose proof (fmt_d_length _ ro_offset0). pose proof (fmt_d_length _ ro_size0).
  rewrite record_line_body. unfold record_body. cbn [join].
  repeat (rewrite length_app || cbn [length]). lia.
Qed.

Lemma ends_number_nil : ends_number [].
Proof. intros c [=]. Qed.
Lemma ends_number_newline : ends_number [10].
Proof. intros c [= <-]. done. Qed.

Section roundtrip.
Context `{FastCommonLaws}.

Lemma atoi_field n : is_int32 n -> atoi (fmt_d n) = n.
Proof. intros. rewrite <- (app_nil_r (fmt_d n)). apply atoi_fmt_d; [done|apply ends_number_nil]. Qed.

Lemma parse_record_line status ts op t :
  record_ok ts op t ->
  parse_record status (record_line ts op t) =
  Some {| rec_timestamp := ts; rec_op_type := op;
          rec_trunk := {| ti_status := status; ti_path := ti_path t; ti_file := ti_file t |} |}.
Proof.
  intros Ho. unfold parse_record, record_line.
  rewrite splitEx_join by (by apply record_fields_no_space || done || (simpl; lia)).
  destruct Ho. destruct t as [st [pi ph pl] [id off sz]]. cbn in *. unfold is_uint8 in *.
  rewrite !atoi_field by (done || unfold is_int32; lia).
  rewrite atoi_fmt_d by (done || apply ends_number_newline).
  rewrite <- (app_nil_r (fmt_u _ _)), atoi_fmt_uint32 by (done || apply ends_number_nil).
  by rewrite !uint8_id by (unfold is_uint8; lia).
Qed.
End roundtrip.

Lemma upto_line body rest : 10 ∉ body -> upto 10 ((body ++ [10]) ++ rest) = Some (body ++ [10]).
Proof.
  induction body as [|c body IH]; intros Hn; simpl; [done|].
  apply not_elem_of_cons in Hn as [Hc Hn]. rewrite decide_False by done. by rewrite IH.
Qed.

Lemma upto_app s s' line : upto 10 s = Some line -> upto 10 (s ++ s') = Some line.
Proof.
  revert line. induction s as [|c s IH]; intros line; simpl; [done|].
  case_decide; [done|]. destruct (upto 10 s) as [l|] eqn:E; [|done]. by rewrite (IH l eq_refl).
Qed.

Lemma upto_prefix s line : upto 10 s = Some line -> exists s', s = line ++ s'.
Proof.
  revert line. induction s as [|c s IH]; intros line; simpl; [done|].
  case_decide; [intros [= <-]; by exists s|]. destruct (upto 10 s) as [l|]; [|done].
  intros [= <-]. destruct (IH l eq_refl) as (s' & ->). by exists s'.
Qed.

(** *** The writer. *)

Lemma fsync_ex_ok buff b :
  writes_ok b ->
  exists v os, trunk_binlog_fsync_ex buff b = (0, mkBinlog (bl_cache b) (bl_file b ++ buff) v os) /\
    Forall (fun o => o = WriteOk) os /\ bl_version b < v.
Proof.
  unfold writes_ok, trunk_binlog_fsync_ex. intros Hok. case_bool_decide as E.
  - subst. exists (bl_version b + 1), (bl_outcomes b). rewrite app_nil_r. repeat split; [done|lia].
  - destruct (bl_outcomes b) as [|o os].
    + eexists _, []. split; [done|]. split; [done|lia].
    + apply Forall_cons in Hok as [-> Hok]. eexists _, os. split; [done|]. split; [done|lia].
Qed.

Lemma flush_ok b :
  writes_ok b ->
  exists v os, trunk_binlog_flush b = (0, mkBinlog [] (bl_log b) v os) /\
    Forall (fun o => o = WriteOk) os /\ bl_version b < v.
Proof.
  intros Hok. destruct (fsync_ex_ok (bl_cache b) b Hok) as (v & os & Heq & Hos & Hv).
  exists v, os. unfold trunk_binlog_flush. rewrite bind_gets, (bind_eq _ _ _ _ _ Heq).
  rewrite decide_True by done. done.
Qed.

(** The log grows by the record and the cache keeps its room. *)
Lemma write_ok ts op t b :
  record_ok ts op t -> cache_ok b -> writes_ok b ->
  let '(r, b') := trunk_binlog_write ts op t b in
  r = 0 /\ bl_log b' = bl_log b ++ record_line ts op t /\ cache_ok b' /\ writes_ok b' /\
  bl_version b <= bl_version b'.
Proof.
  intros Ht Hc Hw. unfold trunk_binlog_write. rewrite bind_modify, bind_gets.
  set (b1 := set_cache _ b). destruct (_ <? 128) eqn:E.
  - destruct (flush_ok b1 Hw) as (v & os & -> & Hos & Hv). cbn in Hv.
    split; [done|]. split; [|split; [done|split; [done|cbn; lia]]].
    unfold bl_log. cbn. by rewrite app_nil_r, app_assoc.
  - split; [done|]. split; [|split; [|split; [done|cbn; lia]]].
    + unfold bl_log. cbn. by rewrite app_assoc.
    + unfold cache_ok. lia.
Qed.

(** *** The reader. *)

(** What is left to read. *)
Definition reader_view (b : TrunkBinlog) (r : TrunkBinLogReader) : bytes :=
  rd_buff r ++ drop (Z.to_nat (rd_pos r)) (bl_file b).

(** A reader that has seen the end of this version of the file has read it
    all; the buffer is within its size. *)
Record reader_ok (b : TrunkBinlog) (r : TrunkBinLogReader) : Prop := {
  rk_version : rd_version r = bl_version b -> drop (Z.to_nat (rd_pos r)) (bl_file b) = [];
  rk_buff : Z.of_nat (length (rd_buff r)) <= TRUNK_BINLOG_BUFFER_SIZE;
  rk_pos : 0 <= rd_pos r;
}.

Lemma do_line_read_found body rest r :
  10 ∉ body -> Z.of_nat (length (body ++ [10])) < TRUNK_BINLOG_LINE_SIZE ->
  rd_buff r = (body ++ [10]) ++ rest ->
  trunk_binlog_do_line_read TRUNK_BINLOG_LINE_SIZE r = (0, Some (body ++ [10]), set_buff rest r).
Proof.
  intros Hn Hlen Hb. unfold trunk_binlog_do_line_read.
  rewrite bool_decide_false by (rewrite Hb; by destruct body).
  rewrite Hb, upto_line by done. rewrite (proj2 (Z.leb_gt _ _)) by lia.
  by rewrite drop_app_length.
Qed.

Lemma do_line_read_missing r :
  upto 10 (rd_buff r) = None ->
  trunk_binlog_do_line_read TRUNK_BINLOG_LINE_SIZE r = (ENOENT, None, r).
Proof. intros Hu. unfold trunk_binlog_do_line_read. rewrite Hu. by case_bool_decide. Qed.

(** Refilling keeps what is left to read; afterwards the buffer holds all of
    it or is full. *)
Lemma preread_ok b r :
  reader_ok b r -> reader_view b r <> [] -> Z.of_nat (length (rd_buff r)) < TRUNK_BINLOG_BUFFER_SIZE ->
  exists r', trunk_binlog_preread b r = (0, r') /\ reader_ok b r' /\ reader_view b r' = reader_view b r /\
    (rd_buff r' = reader_view b r' \/ Z.of_nat (length (rd_buff r')) = TRUNK_BINLOG_BUFFER_SIZE) /\
    rd_binlog_offset r' = rd_binlog_offset r.
Proof.
  intros [Hv Hb Hp] Hne Hlt. unfold trunk_binlog_preread, reader_view in *.
  set (len := Z.of_nat (length (rd_buff r))) in *. set (tail := drop (Z.to_nat (rd_pos r)) (bl_file b)) in *.
  destruct (_ && _) eqn:E1.
  { apply andb_true_iff in E1 as [E1%Z.eqb_eq E2%Z.eqb_eq]. destruct Hne.
    rewrite (Hv E1), app_nil_r. apply nil_length_inv. lia. }
  rewrite (proj2 (Z.eqb_neq len _)) by lia. case_bool_decide as E2.
  - assert (tail = []) as Ht.
    { destruct tail; [done|]. destruct (Z.to_nat (TRUNK_BINLOG_BUFFER_SIZE - len)) eqn:?; [lia|done]. }
    rewrite Ht, app_nil_r in Hne |- *.
    destruct (len =? 0) eqn:E3; [destruct Hne; apply nil_length_inv; lia|].
    eexists. split; [reflexivity|]. cbn. split; [split; cbn; [by intros|lia|lia]|].
    fold tail. rewrite Ht, app_nil_r. auto.
  - set (data := take _ tail) in *. eexists. split; [reflexivity|]. cbn.
    assert (length data <= Z.to_nat (TRUNK_BINLOG_BUFFER_SIZE - len))%nat as Hd
      by (unfold data; rewrite length_take; lia).
    assert (tail = data ++ drop (length data) tail) as Htl.
    { unfold data. rewrite length_take. destruct (decide (Z.to_nat (TRUNK_BINLOG_BUFFER_SIZE - len) <= length tail)%nat).
      - rewrite Nat.min_l by done. by rewrite take_drop.
      - rewrite Nat.min_r by lia. rewrite take_ge, drop_ge by lia. by rewrite app_nil_r. }
    assert (drop (Z.to_nat (rd_pos r + Z.of_nat (length data))) (bl_file b) = drop (length data) tail) as Hdrop.
    { unfold tail. rewrite drop_drop. f_equal. lia. }
    split; [split; cbn|].
    + intros Hver. rewrite Hdrop. specialize (Hv Hver). rewrite Hv in Htl.
      by symmetry in Htl; apply app_nil in Htl as [-> _].
    + rewrite length_app. lia.
    + lia.
    + rewrite Hdrop, <- app_assoc, <- Htl. split; [done|]. split; [|done].
      destruct (decide (length tail <= Z.to_nat (TRUNK_BINLOG_BUFFER_SIZE - len))%nat).
      * left. f_equal. unfold data. by rewrite take_ge.
      * right. rewrite length_app. unfold data. rewrite length_take. lia.
Qed.

Lemma read_line_ok b r body rest :
  reader_ok b r -> 10 ∉ body -> Z.of_nat (length (body ++ [10])) < TRUNK_BINLOG_LINE_SIZE ->
  reader_view b r = (body ++ [10]) ++ rest ->
  exists r', trunk_binlog_read_line b TRUNK_BINLOG_LINE_SIZE r = (0, Some (body ++ [10]), r') /\
    reader_ok b r' /\ reader_view b r' = rest /\ rd_binlog_offset r' = rd_binlog_offset r.
Proof.
  intros Hr Hn Hlen Hview. unfold trunk_binlog_read_line.
  (* a buffer that holds the line *)
  assert (forall r1, reader_ok b r1 -> reader_view b r1 = (body ++ [10]) ++ rest ->
    Z.of_nat (length (body ++ [10])) <= Z.of_nat (length (rd_buff r1)) ->
    exists r', trunk_binlog_do_line_read TRUNK_BINLOG_LINE_SIZE r1 = (0, Some (body ++ [10]), r') /\
      reader_ok b r' /\ reader_view b r' = rest /\ rd_binlog_offset r' = rd_binlog_offset r1) as Hhave.
  { intros r1 [Hv Hb Hp] Hv1 Hl1. unfold reader_view in Hv1.
    assert (rd_buff r1 = (body ++ [10]) ++ drop (length (body ++ [10])) (rd_buff r1)) as Hsplit.
    { rewrite <- (take_drop (length (body ++ [10])) (rd_buff r1)) at 1. f_equal.
      apply (f_equal (take (length (body ++ [10])))) in Hv1.
      rewrite take_app_le, take_app_length in Hv1 by lia. done. }
    exists (set_buff (drop (length (body ++ [10])) (rd_buff r1)) r1).
    split; [by apply do_line_read_found|]. split; [|split; [|done]].
    - split; cbn; [done| |done]. rewrite length_drop. lia.
    - unfold reader_view. cbn. rewrite Hsplit, <- app_assoc in Hv1. by apply app_inv_head in Hv1. }
  destruct (decide (Z.of_nat (length (body ++ [10])) <= Z.of_nat (length (rd_buff r)))) as [Hle|Hle].
  { destruct (Hhave r Hr Hview Hle) as (r' & -> & ?). rewrite decide_True by done. eauto. }
  assert (upto 10 (rd_buff r) = None) as Hu.
  { destruct (upto 10 (rd_buff r)) as [l|] eqn:E; [|done].
    pose proof (upto_app _ (drop (Z.to_nat (rd_pos r)) (bl_file b)) _ E) as E'.
    fold (reader_view b r) in E'. rewrite Hview, upto_line in E' by done. injection E' as <-.
    destruct (upto_prefix _ _ E) as (s' & Hs'). apply (f_equal length) in Hs'. rewrite (length_app (body ++ [10])) in Hs'. lia. }
  rewrite (do_line_read_missing r Hu), decide_False by naive_solver.
  destruct (preread_ok b r Hr) as (r2 & -> & Hr2 & Hv2 & Hfull & Hoff).
  { rewrite Hview. by destruct body. }
  { unfold TRUNK_BINLOG_LINE_SIZE, TRUNK_BINLOG_BUFFER_SIZE in *. lia. }
  rewrite decide_False by naive_solver. rewrite <- Hoff. apply Hhave; [done|congruence|].
  destruct Hfull as [Hfull|Hfull].
  - rewrite Hfull, Hv2, Hview, (length_app (body ++ [10])). lia.
  - unfold TRUNK_BINLOG_LINE_SIZE, TRUNK_BINLOG_BUFFER_SIZE in *. lia.
Qed.

Section read_back.
Context `{FastCommonLaws}.

Definition rec_ok (rec : TrunkBinLogRecord) : Prop :=
  record_ok (rec_timestamp rec) (rec_op_type rec) (rec_trunk rec).

(** The line of a record; a record with another status. *)
Definition rec_line (rec : TrunkBinLogRecord) : bytes :=
  record_line (rec_timestamp rec) (rec_op_type rec) (rec_trunk rec).
Definition with_status (status : Z) (rec : TrunkBinLogRecord) : TrunkBinLogRecord := {|
  rec_timestamp := rec_timestamp rec; rec_op_type := rec_op_type rec;
  rec_trunk := {| ti_status := status; ti_path := ti_path (rec_trunk rec);
                  ti_file := ti_file (rec_trunk rec) |} |}.

Lemma read_ok b r rec x rest :
  reader_ok b r -> rec_ok x -> reader_view b r = rec_line x ++ rest ->
  exists r', trunk_binlog_read b r rec
      = (0, Z.of_nat (length (rec_line x)), with_status (ti_status (rec_trunk rec)) x, r') /\
    reader_ok b r' /\ reader_view b r' = rest /\ rd_binlog_offset r' = rd_binlog_offset r.
Proof.
  intros Hr Hx Hv. unfold rec_line in *. pose proof (record_line_length _ _ _ Hx) as Hlen.
  unfold trunk_binlog_read. rewrite record_line_body in Hv, Hlen.
  destruct (read_line_ok b r _ rest Hr (record_body_no_newline _ _ _ Hx) Hlen Hv) as (r' & -> & ?).
  exists r'. rewrite decide_False by naive_solver. unfold default, from_option, id.
  rewrite <- record_line_body, parse_record_line by done. done.
Qed.

Lemma read_end b r rec :
  reader_ok b r -> reader_view b r = [] ->
  exists r', trunk_binlog_read b r rec = (ENOENT, 0, rec, r') /\
    reader_ok b r' /\ reader_view b r' = [] /\ rd_binlog_offset r' = rd_binlog_offset r.
Proof.
  intros Hr [Hb Ht]%app_nil. unfold trunk_binlog_read, trunk_binlog_read_line.
  rewrite do_line_read_missing by (by rewrite Hb). rewrite decide_False by naive_solver.
  unfold trunk_binlog_preread. rewrite Hb. cbn [length]. destruct (_ && _).
  - exists r. split; [done|]. unfold reader_view. by rewrite Hb.
  - cbn. rewrite Ht, take_nil. cbn. eexists. split; [done|].
    split; [split; cbn; [done|done|apply Hr]|]. unfold reader_view. cbn. by rewrite Ht.
Qed.

(** Read records until [trunk_binlog_read] fails: the records and the error. *)
Fixpoint read_records (fuel : nat) (b : TrunkBinlog) (r : TrunkBinLogReader) (rec : TrunkBinLogRecord)
    : list TrunkBinLogRecord * Z :=
  match fuel with
  | O => ([], 0)
  | S f =>
      match trunk_binlog_read b r rec with
      | (result, _, rec', r') =>
          if decide (result <> 0) then ([], result)
          else let '(l, e) := read_records f b r' rec' in (rec' :: l, e)
      end
  end.

Lemma read_records_ok b rs r rec :
  reader_ok b r -> Forall rec_ok rs -> reader_view b r = concat (rec_line <$> rs) ->
  read_records (S (length rs)) b r rec = (with_status (ti_status (rec_trunk rec)) <$> rs, ENOENT).
Proof.
  intros Hr Hrs. revert r rec Hr. induction Hrs as [|x rs Hx Hrs IH]; intros r rec Hr Hv.
  - cbn [read_records length]. destruct (read_end b r rec Hr Hv) as (r' & -> & _). done.
  - cbn [read_records length fmap list_fmap concat] in *.
    destruct (read_ok b r rec x _ Hr Hx Hv) as (r' & -> & Hr' & Hv' & _).
    rewrite decide_False by naive_solver. rewrite IH by done. done.
Qed.

Lemma write_records_ok rs b :
  Forall rec_ok rs -> cache_ok b -> writes_ok b ->
  exists b', for_each (fun x => trunk_binlog_write (rec_timestamp x) (rec_op_type x) (rec_trunk x)) rs b = (0, b') /\
    bl_log b' = bl_log b ++ concat (rec_line <$> rs) /\ cache_ok b' /\ writes_ok b' /\
    bl_version b <= bl_version b'.
Proof.
  intros Hrs. revert b. induction Hrs as [|x rs Hx Hrs IH]; intros b Hc Hw; cbn [for_each].
  - exists b. rewrite app_nil_r. repeat split; try done; lia.
  - pose proof (write_ok _ _ _ b Hx Hc Hw) as Hok. destruct (trunk_binlog_write _ _ _ b) as [r b1] eqn:E.
    destruct Hok as (-> & Hl & Hc1 & Hw1 & Hv1).
    rewrite (bind_eq _ _ _ _ _ E), decide_True by done.
    destruct (IH b1 Hc1 Hw1) as (b' & Heq & Hl' & ? & ? & ?). exists b'. split; [done|].
    split; [|repeat split; try done; lia]. rewrite Hl', Hl, <- app_assoc. done.
Qed.

(** C14: the binlog loses nothing.  Any sequence of records written one by one
    and flushed is read back, in order and field by field, by a reader that
    starts at the former end of the log; the reader then reports the end. *)
Theorem binlog_roundtrip rs b rec :
  Forall rec_ok rs -> cache_ok b -> writes_ok b -> 1 <= bl_version b ->
  exists b',
    (let! r := for_each (fun x => trunk_binlog_write (rec_timestamp x) (rec_op_type x) (rec_trunk x)) rs in
     if decide (r = 0) then trunk_binlog_flush else ret r)%c b = (0, b') /\
    bl_cache b' = [] /\
    read_records (S (length rs)) b'
      (trunk_open_readable_binlog b' (mkReader [] 0 0 (Z.of_nat (length (bl_log b))))) rec
    = (with_status (ti_status (rec_trunk rec)) <$> rs, ENOENT).
Proof.
  intros Hrs Hc Hw Hver. destruct (write_records_ok rs b Hrs Hc Hw) as (b1 & Heq & Hl & Hc1 & Hw1 & Hv1).
  destruct (flush_ok b1 Hw1) as (v & os & Hfl & Hos & Hv). eexists.
  rewrite (bind_eq _ _ _ _ _ Heq), decide_True by done. split; [exact Hfl|]. split; [done|].
  apply read_records_ok; [|done|]; unfold trunk_open_readable_binlog; cbn [bl_file rd_binlog_offset rd_buff rd_version];
    rewrite Hl, length_app, (proj2 (Z.ltb_ge (Z.of_nat (length (bl_log b) + _)) _)) by lia.
  - split; cbn; [intros; exfalso; lia|done|case_match; lia].
  - unfold reader_view. cbn [rd_buff rd_pos bl_file app].
    replace (Z.to_nat _) with (length (bl_log b)); [by rewrite drop_app_length|].
    destruct (0 <? _) eqn:E; lia.
Qed.

(** the write cache never overflows while the syncs succeed; both ways
    of writing keep the cache within its 64 KB buffer. *)
Theorem binlog_cache_bounded b :
  cache_ok b -> writes_ok b ->
  (forall ts op t, record_ok ts op t ->
     Z.of_nat (length (bl_cache b ++ record_line ts op t)) < TRUNK_BINLOG_BUFFER_SIZE /\
     cache_ok (trunk_binlog_write ts op t b).2) /\
  (forall buff, Z.of_nat (length (bl_cache (trunk_binlog_write_buffer buff b).2)) <= TRUNK_BINLOG_BUFFER_SIZE).
Proof.
  intros Hc Hw. split.
  - intros ts op t Ht. split.
    + pose proof (record_line_length _ _ _ Ht). unfold cache_ok in Hc. rewrite length_app. lia.
    + pose proof (write_ok ts op t b Ht Hc Hw) as Hok. destruct (trunk_binlog_write _ _ _ b). apply Hok.
  - intros buff. unfold trunk_binlog_write_buffer. rewrite bind_gets.
    destruct (_ <? 128) eqn:E.
    + destruct (flush_ok b Hw) as (v & os & Hfl & Hos & Hv). rewrite (bind_eq _ _ _ _ _ Hfl), decide_True by done.
      destruct (_ <=? _) eqn:E2.
      * rewrite bind_gets. replace (0 <? _) with false by done. rewrite bind_ret, decide_True by done.
        edestruct (fsync_ex_ok buff (mkBinlog [] (bl_log b) v os)) as (v' & os' & -> & _); [done|]. cbn. done.
      * cbn. lia.
    + rewrite bind_ret, decide_True by done. unfold cache_ok in Hc.
      destruct (_ <=? _) eqn:E2; [lia|]. cbn. rewrite length_app. lia.
Qed.
End read_back.
