(* ===== verification/FileWriter.v ===== *)
(** * The buffered file writer of libfastcommon, as an interface.

    [buffered_file_writer.c] belongs to libfastcommon, which is not in this
    repository.  [FileWriter] lists the three calls [storage_trunk_do_save]
    makes; [FileWriterLaws] what it relies on: only the file of the writer
    changes, a writer that was opened and appended to without an error and
    then closed without an error leaves exactly the appended text in the file,
    and the calls succeed when no system call fails.  [RefWriter] is an
    instance that keeps the text in memory until it is closed. *)

From S2P Require Import Prelude.

(** The files, name to content, and the [errno]s of the coming system calls
    (0 is success, an exhausted list is success). *)
Record Disk := mkDisk { disk_files : gmap bytes bytes; disk_errnos : list Z }.

Class FileWriter (W : Type) := {
  buffered_file_writer_open : bytes -> M Disk (Z * W);
  buffered_file_writer_append : bytes -> W -> M Disk (Z * W);
  buffered_file_writer_close : W -> M Disk Z;
}.

(** [d'] differs from [d] at most in the file [name]. *)
Definition only_file (name : bytes) (d d' : Disk) : Prop :=
  forall n, n <> name -> disk_files d' !! n = disk_files d !! n.

Definition no_errors (d : Disk) : Prop := Forall (fun e => e = 0) (disk_errnos d).

Class FileWriterLaws (W : Type) `{FileWriter W} := {
  writer_name : W -> bytes;
  writer_text : W -> bytes;
  writer_open_spec : forall name d,
    let '((r, w), d') := buffered_file_writer_open name d in
    only_file name d d' /\
    (r = 0 -> writer_name w = name /\ writer_text w = []) /\
    (no_errors d -> r = 0 /\ no_errors d');
  writer_append_spec : forall text w d,
    let '((r, w'), d') := buffered_file_writer_append text w d in
    only_file (writer_name w) d d' /\ writer_name w' = writer_name w /\
    (r = 0 -> writer_text w' = writer_text w ++ text) /\
    (no_errors d -> r = 0 /\ no_errors d');
  writer_close_spec : forall w d,
    let '(r, d') := buffered_file_writer_close w d in
    only_file (writer_name w) d d' /\
    (r = 0 -> disk_files d' !! writer_name w = Some (writer_text w)) /\
    (no_errors d -> r = 0 /\ no_errors d');
}.

Module RefWriter.

(** The name and the text. *)
Definition RefW : Type := bytes * bytes.

Definition next_errno : M Disk Z :=
  fun d => match disk_errnos d with
           | [] => (0, d)
           | e :: es => (e, mkDisk (disk_files d) es)
           end.

#[export] Instance ref_writer : FileWriter RefW := {|
  buffered_file_writer_open name :=
    (let! e := next_errno in ret (e, (name, [])))%c;
  buffered_file_writer_append text w :=
    (let! e := next_errno in ret (e, if decide (e = 0) then (w.1, w.2 ++ text) else w))%c;
  buffered_file_writer_close w :=
    (let! e := next_errno in
     if decide (e = 0)
     then modify (fun d => mkDisk (<[w.1 := w.2]> (disk_files d)) (disk_errnos d)) ;; ret 0
     else ret e)%c;
|}.

Lemma next_errno_spec d :
  exists e es, next_errno d = (e, mkDisk (disk_files d) es) /\
    (no_errors d -> e = 0 /\ Forall (fun e => e = 0) es).
Proof.
  unfold next_errno, no_errors. destruct d as [fs [|e es]]; cbn; [by exists 0, []|].
  exists e, es. split; [done|]. by intros [? ?]%Forall_cons.
Qed.

#[export] Instance ref_writer_laws : FileWriterLaws RefW.
Proof.
  refine {| writer_name := fst; writer_text := snd |}.
  - intros name d. cbn. destruct (next_errno_spec d) as (e & es & Heq & Hok). rewrite (bind_eq _ _ _ _ _ Heq). cbn.
    split; [by intros n|]. split; [done|]. intros Hn. by destruct (Hok Hn) as [-> ?].
  - intros text w d. cbn. destruct (next_errno_spec d) as (e & es & Heq & Hok). rewrite (bind_eq _ _ _ _ _ Heq). cbn.
    split; [by intros n|]. split; [by destruct (decide _)|]. split; [by intros ->|].
    intros Hn. by destruct (Hok Hn) as [-> ?].
  - intros w d. cbn. destruct (next_errno_spec d) as (e & es & Heq & Hok). rewrite (bind_eq _ _ _ _ _ Heq). cbn.
    destruct (decide (e = 0)) as [->|He]; cbn.
    + split; [intros n Hn; cbn; by rewrite lookup_insert_ne|]. split; [intros _; apply lookup_insert_eq|].
      intros Hn. by destruct (Hok Hn).
    + split; [by intros n|]. split; [done|]. intros Hn. by destruct (Hok Hn).
Defined.
End RefWriter.
