(* ===== verification/TrunkMem.v ===== *)
(** * The trunk space allocator ([storage/trunk_mgr/trunk_mem.c]).

    Free and held blocks of the trunk files are nodes of a pool; each node is
    in the chain of its size slot ([tree_info_by_sizes], one tree per store
    path) and in the free block checker ([FreeBlocks]).  Every change is
    logged to the trunk binlog ([TrunkBinlog]).  The functions below run
    under [trunk_mem_lock]. *)

From S2P Require Import Prelude Avl FastCommon TrunkShared FreeBlocks SharedFunc StorePath TrunkBinlog.

Definition STORAGE_TRUNK_INIT_FLAG_NONE : Z := 0.
Definition STORAGE_TRUNK_INIT_FLAG_DESTROYING : Z := 1.
Definition STORAGE_TRUNK_INIT_FLAG_DONE : Z := 2.

(** The settings of the trunk manager. *)
Record TrunkConf := {
  path_conf : StorePathConf;
  g_slot_min_size : Z;
  g_slot_max_size : Z;
  g_trunk_alloc_alignment_size : Z;
  g_trunk_file_size : Z;
  g_trunk_create_file_space_threshold : Z;
  g_if_trunker_self : bool;
  g_trunk_create_file_advance : bool;
  g_current_time : Z;
}.

(** One look of [trunk_wait_file_ready] at a file another thread creates:
    the [errno] of [stat], or the size and modification time with the
    current time. *)
Definition StatObs : Type := Z + (Z * Z * Z).

(** The global variables of the trunk manager, the trunk files on disk (name
    to content), the trunk file id saved in the sync ini file, and what the
    file system will answer: the [errno]s of the coming calls (0 is success)
    and the coming looks at files others create; an exhausted list is
    success. *)
Record TrunkState (T : Type -> Type) := mkState {
  mem : TrunkMemory T;
  g_trunk_total_free_space : Z;
  g_current_trunk_file_id : Z;
  trunk_init_flag : Z;
  binlog : TrunkBinlog;
  dist : DistState;
  ini_trunk_file_id : Z;
  files : gmap bytes bytes;
  syscalls : list Z;
  observations : list StatObs;
}.
Arguments mkState {T}.
Arguments mem {T}.
Arguments g_trunk_total_free_space {T}.
Arguments g_current_trunk_file_id {T}.
Arguments trunk_init_flag {T}.
Arguments binlog {T}.
Arguments dist {T}.
Arguments ini_trunk_file_id {T}.
Arguments files {T}.
Arguments syscalls {T}.
Arguments observations {T}.

Section setters.
Context {T : Type -> Type}.
Implicit Types s : TrunkState T.

Definition set_mem m s : TrunkState T :=
  mkState m (g_trunk_total_free_space s) (g_current_trunk_file_id s) (trunk_init_flag s) (binlog s)
    (dist s) (ini_trunk_file_id s) (files s) (syscalls s) (observations s).
Definition set_total z s : TrunkState T :=
  mkState (mem s) z (g_current_trunk_file_id s) (trunk_init_flag s) (binlog s)
    (dist s) (ini_trunk_file_id s) (files s) (syscalls s) (observations s).
Definition set_file_id z s : TrunkState T :=
  mkState (mem s) (g_trunk_total_free_space s) z (trunk_init_flag s) (binlog s)
    (dist s) (ini_trunk_file_id s) (files s) (syscalls s) (observations s).
Definition set_init_flag z s : TrunkState T :=
  mkState (mem s) (g_trunk_total_free_space s) (g_current_trunk_file_id s) z (binlog s)
    (dist s) (ini_trunk_file_id s) (files s) (syscalls s) (observations s).
Definition set_binlog b s : TrunkState T :=
  mkState (mem s) (g_trunk_total_free_space s) (g_current_trunk_file_id s) (trunk_init_flag s) b
    (dist s) (ini_trunk_file_id s) (files s) (syscalls s) (observations s).
Definition set_dist d s : TrunkState T :=
  mkState (mem s) (g_trunk_total_free_space s) (g_current_trunk_file_id s) (trunk_init_flag s) (binlog s)
    d (ini_trunk_file_id s) (files s) (syscalls s) (observations s).
Definition set_ini z s : TrunkState T :=
  mkState (mem s) (g_trunk_total_free_space s) (g_current_trunk_file_id s) (trunk_init_flag s) (binlog s)
    (dist s) z (files s) (syscalls s) (observations s).
Definition set_files f s : TrunkState T :=
  mkState (mem s) (g_trunk_total_free_space s) (g_current_trunk_file_id s) (trunk_init_flag s) (binlog s)
    (dist s) (ini_trunk_file_id s) f (syscalls s) (observations s).
Definition set_syscalls l s : TrunkState T :=
  mkState (mem s) (g_trunk_total_free_space s) (g_current_trunk_file_id s) (trunk_init_flag s) (binlog s)
    (dist s) (ini_trunk_file_id s) (files s) l (observations s).
Definition set_observations l s : TrunkState T :=
  mkState (mem s) (g_trunk_total_free_space s) (g_current_trunk_file_id s) (trunk_init_flag s) (binlog s)
    (dist s) (ini_trunk_file_id s) (files s) (syscalls s) l.
End setters.

(** [FDFSTrunkFullInfo] with one field changed. *)
Definition with_path (p : FDFSTrunkPathInfo) (t : FDFSTrunkFullInfo) : FDFSTrunkFullInfo :=
  {| ti_status := ti_status t; ti_path := p; ti_file := ti_file t |}.
Definition with_st (st : Z) (t : FDFSTrunkFullInfo) : FDFSTrunkFullInfo :=
  {| ti_status := st; ti_path := ti_path t; ti_file := ti_file t |}.
Definition with_id (id : Z) (t : FDFSTrunkFullInfo) : FDFSTrunkFullInfo :=
  {| ti_status := ti_status t; ti_path := ti_path t;
     ti_file := {| tf_id := id; tf_offset := t_offset t; tf_size := t_size t |} |}.
Definition with_extent (off size : Z) (t : FDFSTrunkFullInfo) : FDFSTrunkFullInfo :=
  {| ti_status := ti_status t; ti_path := ti_path t;
     ti_file := {| tf_id := tf_id (ti_file t); tf_offset := off; tf_size := size |} |}.

Definition storage_trunk_node_compare_size (a b : FDFSTrunkSlot) : Z := sl_size a - sl_size b.

(** A search key of a size tree. *)
Definition size_target (size : Z) : FDFSTrunkSlot := {| sl_size := size; sl_head := [] |}.

(** An address [fast_mblock_alloc] may return: one not in use. *)
Definition fresh_addr (n : gmap Z FDFSTrunkFullInfo) : Z := 1 + foldr Z.max 0 (map_to_list n).*1.

(** The pointers of a chain up to the one that matches, that one, the rest. *)
Fixpoint chain_find (n : gmap Z FDFSTrunkFullInfo) (f : FDFSTrunkFullInfo -> bool)
    (chain : list Z) : option (list Z * Z * list Z) :=
  match chain with
  | [] => None
  | p :: ps =>
      if f (n !!! p) then Some ([], p, ps)
      else match chain_find n f ps with
           | Some (l1, q, l2) => Some (p :: l1, q, l2)
           | None => None
           end
  end.

Section operations.
Context {T : Type -> Type} `{AvlTree T} `{FastCommon} (conf : TrunkConf).

Definition in_mem {A} (c : M (TrunkMemory T) A) : M (TrunkState T) A :=
  fun s => let '(a, m) := c (mem s) in (a, set_mem m s).
Definition in_binlog {A} (c : M TrunkBinlog A) : M (TrunkState T) A :=
  fun s => let '(a, b) := c (binlog s) in (a, set_binlog b s).
Definition in_dist {A} (c : M DistState A) : M (TrunkState T) A :=
  fun s => let '(a, d) := c (dist s) in (a, set_dist d s).

(** The next file system call: its [errno], 0 when it succeeds. *)
Definition syscall_errno : M (TrunkState T) Z :=
  fun s => match syscalls s with
           | [] => (0, s)
           | e :: es => (e, set_syscalls es s)
           end.

(** [fast_mblock_alloc(&free_blocks_man)] and the fill of the node. *)
Definition alloc_node (t : FDFSTrunkFullInfo) : M (TrunkMemory T) (Z + Z) :=
  (let! e := malloc_errno in
   if decide (e <> 0) then ret (inl e)
   else
     let! n := gets nodes in
     let p := fresh_addr n in
     modify (fun m => set_nodes (<[p := t]> (nodes m)) m) ;; ret (inr p))%c.

(** [fast_mblock_free(&free_blocks_man, p)]. *)
Definition free_node (p : Z) : M (TrunkMemory T) unit :=
  modify (fun m => set_nodes (delete p (nodes m)) m).

Definition get_node (p : Z) : M (TrunkMemory T) FDFSTrunkFullInfo := gets (fun m => nodes m !!! p).
Definition put_node (p : Z) (t : FDFSTrunkFullInfo) : M (TrunkMemory T) unit :=
  modify (fun m => set_nodes (<[p := t]> (nodes m)) m).

(** [tree_info_by_sizes + i]. *)
Definition size_tree (i : Z) (m : TrunkMemory T) : T FDFSTrunkSlot :=
  znth avl_init (tree_info_by_sizes m) i.
Definition set_size_tree (i : Z) (t : T FDFSTrunkSlot) (m : TrunkMemory T) : TrunkMemory T :=
  set_by_sizes (<[Z.to_nat i := t]> (tree_info_by_sizes m)) m.

(** Write through the pointer to a slot. *)
Definition store_slot (i : Z) (sl : FDFSTrunkSlot) : M (TrunkMemory T) unit :=
  modify (fun m => set_size_tree i (avl_store storage_trunk_node_compare_size (size_tree i m) sl) m).

Definition trunk_mem_binlog_write (op_type : Z) (t : FDFSTrunkFullInfo) : M (TrunkState T) Z :=
  ((if op_type =? TRUNK_OP_TYPE_ADD_SPACE then
      modify (fun s => set_total (int64 (g_trunk_total_free_space s + t_size t)) s)
    else if op_type =? TRUNK_OP_TYPE_DEL_SPACE then
      modify (fun s => set_total (int64 (g_trunk_total_free_space s - t_size t)) s)
    else ret tt) ;;
   in_binlog (trunk_binlog_write (g_current_time conf) op_type t))%c.

(** Put the node [p] at the head of the chain of its size: 0 or an [errno]. *)
Definition link_node (p : Z) (t : FDFSTrunkFullInfo) : M (TrunkMemory T) Z :=
  let i := store_path_index (ti_path t) in
  (let! chain := gets (fun m => avl_find storage_trunk_node_compare_size (size_tree i m) (size_target (t_size t))) in
   match chain with
   | None =>
       let! e := malloc_errno in  (* fast_mblock_alloc(&tree_nodes_man) *)
       if decide (e <> 0) then ret e
       else
         let! e := malloc_errno in  (* the tree node of avl_tree_insert *)
         if decide (e <> 0) then ret e
         else
           let! tree := gets (size_tree i) in
           let '(r, tree') := avl_insert storage_trunk_node_compare_size tree
                                {| sl_size := t_size t; sl_head := [p] |} in
           if decide (r = 1) then modify (set_size_tree i tree') ;; ret 0
           else ret ENOMEM
   | Some sl => store_slot i {| sl_size := sl_size sl; sl_head := p :: sl_head sl |} ;; ret 0
   end)%c.

Definition trunk_add_free_block_ex (p : Z) (bWriteBinLog : bool) : M (TrunkState T) Z :=
  (let! t := in_mem (get_node p) in
   let! dup := gets (fun s => trunk_free_block_check_duplicate (mem s) t) in
   if decide (dup <> 0) then ret dup
   else
     let! e := in_mem (link_node p t) in
     if decide (e <> 0) then ret e
     else
       let! result :=
         (if bWriteBinLog then trunk_mem_binlog_write TRUNK_OP_TYPE_ADD_SPACE t
          else modify (fun s => set_total (int64 (g_trunk_total_free_space s + t_size t)) s) ;; ret 0) in
       if decide (result = 0) then in_mem (trunk_free_block_insert p)
       else in_mem (trunk_free_block_insert p) ;; ret result)%c.

(** The result and the address of the node. *)
Definition free_space_by_trunk (t : FDFSTrunkFullInfo) (bWriteBinLog : bool)
    : M (TrunkState T) (Z * option Z) :=
  (let! a := in_mem (alloc_node (with_st FDFS_TRUNK_STATUS_FREE t)) in
   match a with
   | inl e => ret (e, None)
   | inr p => let! r := trunk_add_free_block_ex p bWriteBinLog in ret (r, Some p)
   end)%c.

Definition trunk_free_space (t : FDFSTrunkFullInfo) (bWriteBinLog : bool) : M (TrunkState T) Z :=
  if negb (g_if_trunker_self conf) then ret EINVAL
  else
    (let! flag := gets trunk_init_flag in
     if negb (flag =? STORAGE_TRUNK_INIT_FLAG_DONE) && bWriteBinLog then ret EINVAL
     else if t_size t <? g_slot_min_size conf then ret 0
     else let! r := free_space_by_trunk t bWriteBinLog in ret (fst r))%c.

(** The chain of a slot loses a pointer; an empty slot leaves the tree. *)
Definition trunk_delete_size_tree_entry (i : Z) (sl : FDFSTrunkSlot) : M (TrunkMemory T) unit :=
  (let! tree := gets (size_tree i) in
   let '(r, tree') := avl_delete storage_trunk_node_compare_size tree sl in
   if decide (r = 1) then modify (set_size_tree i tree')
   else store_slot i sl)%c.

Definition unlink_node (i : Z) (sl : FDFSTrunkSlot) (rest : list Z) : M (TrunkMemory T) unit :=
  let sl' := {| sl_size := sl_size sl; sl_head := rest |} in
  if bool_decide (rest = []) then trunk_delete_size_tree_entry i sl' else store_slot i sl'.

Definition trunk_delete_space_ex (t : FDFSTrunkFullInfo) (bWriteBinLog : bool) : M (TrunkState T) Z :=
  let i := store_path_index (ti_path t) in
  (let! slot := gets (fun s => avl_find storage_trunk_node_compare_size
                                 (size_tree i (mem s)) (size_target (t_size t))) in
   match slot with
   | None => ret ENOENT
   | Some sl =>
       let! n := gets (fun s => nodes (mem s)) in
       match chain_find n (fun x => bool_decide (x = t)) (sl_head sl) with
       | None => ret ENOENT
       | Some (l1, p, l2) =>
           in_mem (unlink_node i sl (l1 ++ l2)) ;;
           let! cur := in_mem (get_node p) in
           in_mem (trunk_free_block_delete cur) ;;
           let! result :=
             (if bWriteBinLog then trunk_mem_binlog_write TRUNK_OP_TYPE_DEL_SPACE cur
              else modify (fun s => set_total (int64 (g_trunk_total_free_space s - t_size cur)) s) ;; ret 0) in
           in_mem (free_node p) ;; ret result
       end
   end)%c.

Definition trunk_restore_node (t : FDFSTrunkFullInfo) : M (TrunkMemory T) Z :=
  let i := store_path_index (ti_path t) in
  (let! slot := gets (fun m => avl_find storage_trunk_node_compare_size (size_tree i m) (size_target (t_size t))) in
   match slot with
   | None => ret ENOENT
   | Some sl =>
       let! n := gets nodes in
       match chain_find n (fun x => bool_decide (x = t)) (sl_head sl) with
       | None => ret ENOENT
       | Some (_, p, _) => put_node p (with_st FDFS_TRUNK_STATUS_FREE (n !!! p)) ;; ret 0
       end
   end)%c.

Definition trunk_split (p : Z) (size : Z) : M (TrunkState T) Z :=
  (let! t := in_mem (get_node p) in
   if t_size t - size <? g_slot_min_size conf then trunk_mem_binlog_write TRUNK_OP_TYPE_DEL_SPACE t
   else
     let! a := in_mem (alloc_node inhabitant) in
     match a with
     | inl e => ret e
     | inr q =>
         let! result := trunk_mem_binlog_write TRUNK_OP_TYPE_DEL_SPACE t in
         if decide (result <> 0) then in_mem (free_node q) ;; ret result
         else
           in_mem (put_node q (with_st FDFS_TRUNK_STATUS_FREE
                     (with_extent (t_offset t + size) (t_size t - size) t))) ;;
           let! result := trunk_add_free_block_ex q true in
           if decide (result <> 0) then ret result
           else in_mem (put_node p (with_extent (t_offset t) size t)) ;; ret 0
     end)%c.

(** ** Trunk files. *)

(** [storage_write_to_sync_ini_file]: the current id is saved, or an [errno]. *)
Definition storage_write_to_sync_ini_file : M (TrunkState T) Z :=
  (let! e := syscall_errno in
   if decide (e <> 0) then ret e
   else modify (fun s => set_ini (g_current_trunk_file_id s) s) ;; ret 0)%c.

(** The loop of [trunk_wait_file_ready], with the modification time of the
    first look. *)
Fixpoint wait_loop (file_size mtime : Z) (obs : list StatObs) : Z * list StatObs :=
  match obs with
  | [] => (0, [])
  | inl e :: obs' => (errno_or e ENOENT, obs')
  | inr (size, _, now) :: obs' =>
      if file_size <=? size then (0, obs')
      else if 10 <? Z.abs (now - mtime) then (ETIMEDOUT, obs')
      else wait_loop file_size mtime obs'
  end.

Definition trunk_wait_file_ready (file_size : Z) : M (TrunkState T) Z :=
  fun s =>
    let mtime := match observations s with inr (_, m, _) :: _ => m | _ => 0 end in
    let '(r, obs) := wait_loop file_size mtime (observations s) in (r, set_observations obs s).

(** [ftruncate]: cut, or extended with zero bytes. *)
Definition resize (size : Z) (b : bytes) : bytes :=
  take (Z.to_nat size) b ++ replicate (Z.to_nat size - length b) 0.

Definition ftruncate (filename : bytes) (size : Z) : M (TrunkState T) Z :=
  (let! e := syscall_errno in
   if decide (e <> 0) then ret e
   else
     modify (fun s => set_files (alter (resize size) filename (files s)) s) ;; ret 0)%c.

(** [open(O_WRONLY | O_CREAT | O_EXCL)]. *)
Definition open_excl (filename : bytes) : M (TrunkState T) Z :=
  (let! existing := gets (fun s => files s !! filename) in
   match existing with
   | Some _ => ret EEXIST
   | None =>
       let! e := syscall_errno in
       if (e =? 0) || (e =? EEXIST)  (* EEXIST: another process was faster *)
       then modify (fun s => set_files (<[filename := []]> (files s)) s) ;; ret e
       else ret e
   end)%c.

Definition trunk_init_file_ex (filename : bytes) (file_size : Z) : M (TrunkState T) Z :=
  (let! e := open_excl filename in
   if decide (e = 0) then ftruncate filename file_size
   else if e =? EEXIST then trunk_wait_file_ready file_size
   else ret e)%c.

Definition trunk_check_and_init_file_ex (filename : bytes) (file_size : Z) : M (TrunkState T) Z :=
  (let! result := trunk_wait_file_ready file_size in
   if result =? 0 then ret 0
   else if result =? ENOENT then trunk_init_file_ex filename file_size
   else if negb (result =? ETIMEDOUT) then ret result
   else
     let! e := syscall_errno in  (* stat *)
     if decide (e <> 0) then ret e
     else
       let! e := syscall_errno in  (* open *)
       if decide (e <> 0) then ret e
       else ftruncate filename file_size)%c.

Definition trunk_check_size (file_size : Z) : bool := file_size <=? g_slot_max_size conf.

(** Overwrite [len] bytes at [off], extending the file when needed. *)
Definition write_at (off : Z) (data b : bytes) : bytes :=
  let o := Z.to_nat off in
  take o (resize (Z.max off (Z.of_nat (length b))) b) ++ data ++ drop (o + length data) b.

(** The loop of [trunk_file_delete]: zeros in pieces of the zero buffer of
    [zlen] bytes; one system call a piece. *)
Fixpoint zero_loop (fuel : nat) (zlen : Z) (filename : bytes) (off remain : Z) : M (TrunkState T) Z :=
  match fuel with
  | O => ret 0
  | S f =>
      if remain <=? 0 then ret 0
      else
        let n := if zlen <? remain then zlen else remain in
        (let! e := syscall_errno in
         if decide (e <> 0) then ret e
         else
           modify (fun s => set_files (alter (write_at off (replicate (Z.to_nat n) 0)) filename (files s)) s) ;;
           zero_loop f zlen filename (off + n) (remain - n))%c
  end.

Definition trunk_file_delete (zlen : Z) (filename : bytes) (t : FDFSTrunkFullInfo) : M (TrunkState T) Z :=
  (let! existing := gets (fun s => files s !! filename) in
   match existing with
   | None => ret ENOENT
   | Some _ =>
       let! e := syscall_errno in  (* open *)
       if decide (e <> 0) then ret e
       else if t_offset t <? 0 then ret EINVAL  (* lseek *)
       else zero_loop (S (Z.to_nat (t_size t))) zlen filename (t_offset t) (t_size t)
   end)%c.

Definition store_paths : list FDFSStorePathInfo := g_fdfs_store_paths (path_conf conf).

(** One round of the loop of [trunk_create_next_file]: [inl errno], or the
    information with the next id and its sub directory, and the file name. *)
Definition next_file_name (t : FDFSTrunkFullInfo) : M (TrunkState T) (Z + FDFSTrunkFullInfo * bytes) :=
  (modify (fun s => set_file_id (int32 (g_current_trunk_file_id s + 1)) s) ;;
   let! id := gets g_current_trunk_file_id in
   let! result := storage_write_to_sync_ini_file in
   if decide (result <> 0) then ret (inl result)
   else
     let short_filename := base64_encode_ex (int2buff id) in
     let! sub := in_dist (storage_get_store_path (path_conf conf) short_filename) in
     let t' := with_path {| store_path_index := store_path_index (ti_path t);
                            sub_path_high := uint8 (fst sub); sub_path_low := uint8 (snd sub) |}
                 (with_id id t) in
     ret (inr (t', trunk_get_full_filename_ex store_paths t' MAX_PATH_SIZE)))%c.

(** The result and the filled information; [None] is out of fuel. *)
Fixpoint create_next_loop (fuel : nat) (t : FDFSTrunkFullInfo)
    : M (TrunkState T) (option (Z * FDFSTrunkFullInfo)) :=
  match fuel with
  | O => ret None
  | S f =>
      (let! x := next_file_name t in
       match x with
       | inl e => ret (Some (e, t))
       | inr (t', filename) =>
           let! existing := gets (fun s => files s !! filename) in
           match existing with
           | Some _ => create_next_loop f t'
           | None =>
               let! r := trunk_init_file_ex filename (g_trunk_file_size conf) in
               ret (Some (r, t'))
           end
       end)%c
  end.

(** Every round tries another id, so one round more than there are files
    suffices ([create_next_loop_total]). *)
Definition trunk_create_next_file (t : FDFSTrunkFullInfo) : M (TrunkState T) (Z * FDFSTrunkFullInfo) :=
  (let! n := gets (fun s => size (files s)) in
   let! r := create_next_loop (S n) t in
   ret (default (EAGAIN, t) r))%c.

(** [*err_no] (left as it was when the store path cannot be chosen) and the
    node created. *)
Definition trunk_create_trunk_file (index : Z) (err_no : Z) : M (TrunkState T) (Z * option Z) :=
  (let! a := in_mem (alloc_node inhabitant) in
   match a with
   | inl e => ret (e, None)
   | inr p =>
       let! x := (if 0 <=? index then ret (0, index)
                  else in_dist (storage_get_storage_path_index (path_conf conf))) in
       let '(result, i) := x in
       if decide (result <> 0) then ret (err_no, None)
       else
         let t := {| ti_status := FDFS_TRUNK_STATUS_FREE;
                     ti_path := {| store_path_index := uint8 i; sub_path_high := 0; sub_path_low := 0 |};
                     ti_file := {| tf_id := 0; tf_offset := 0; tf_size := g_trunk_file_size conf |} |} in
         let! y := trunk_create_next_file t in
         let '(err, t') := y in
         if decide (err <> 0) then in_mem (free_node p) ;; ret (err, None)
         else
           in_mem (put_node p t') ;;
           let! err := trunk_mem_binlog_write TRUNK_OP_TYPE_ADD_SPACE t' in
           ret (err, Some p)
   end)%c.

(** ** Allocation. *)

Definition STORAGE_TRUNK_CHECK_STATUS (s : TrunkState T) : bool :=
  g_if_trunker_self conf && (trunk_init_flag s =? STORAGE_TRUNK_INIT_FLAG_DONE).

(** The size of the space for a file of [size] bytes. *)
Definition trunk_aligned_size (size : Z) : Z :=
  if size <=? g_slot_min_size conf then g_slot_min_size conf
  else if g_trunk_alloc_alignment_size conf =? 0 then size
  else
    let remain := Z.rem size (g_trunk_alloc_alignment_size conf) in
    if remain =? 0 then size
    else int32 (size + (g_trunk_alloc_alignment_size conf - remain)).

Definition is_free (t : FDFSTrunkFullInfo) : bool := ti_status t =? FDFS_TRUNK_STATUS_FREE.

(** The search loop of [trunk_alloc_space]: the smallest slot of at least
    [size] bytes whose chain has a free node.  [None] is out of fuel. *)
Fixpoint alloc_search (fuel : nat) (n : gmap Z FDFSTrunkFullInfo) (tree : T FDFSTrunkSlot) (size : Z)
    : option (option (FDFSTrunkSlot * (list Z * Z * list Z))) :=
  match fuel with
  | O => None
  | S f =>
      match avl_find_ge storage_trunk_node_compare_size tree (size_target size) with
      | None => Some None
      | Some sl =>
          match chain_find n is_free (sl_head sl) with
          | Some x => Some (Some (sl, x))
          | None => alloc_search f n tree (sl_size sl + 1)
          end
      end
  end.

(** The first critical section: a free node taken out of both indexes, or a
    new trunk file. *)
Definition trunk_take_node (i size : Z) : M (TrunkState T) (Z * option Z) :=
  (let! found := gets (fun s =>
     let tree := size_tree i (mem s) in
     alloc_search (S (length (avl_walk tree))) (nodes (mem s)) tree size) in
   match found with
   | Some (Some (sl, (l1, p, l2))) =>
       in_mem (unlink_node i sl (l1 ++ l2)) ;;
       let! t := in_mem (get_node p) in
       in_mem (trunk_free_block_delete t) ;;
       ret (0, Some p)
   | _ => trunk_create_trunk_file i 0
   end)%c.

(** The result and [*pResult]; [res] is [*pResult] before, of which the
    store path index is read. *)
Definition trunk_alloc_space (size : Z) (res : FDFSTrunkFullInfo) : M (TrunkState T) (Z * FDFSTrunkFullInfo) :=
  (let! ready := gets STORAGE_TRUNK_CHECK_STATUS in
   if negb ready then ret (EINVAL, res)
   else
     let aligned_size := trunk_aligned_size size in
     let! x := trunk_take_node (store_path_index (ti_path res)) aligned_size in
     match snd x with
     | None => ret (fst x, res)
     | Some p =>
         let! result := trunk_split p aligned_size in
         if decide (result <> 0) then ret (result, res)
         else
           in_mem (let! t := get_node p in put_node p (with_st FDFS_TRUNK_STATUS_HOLD t)) ;;
           let! result := trunk_add_free_block_ex p true in
           if decide (result = 0) then let! t := in_mem (get_node p) in ret (0, t)
           else ret (result, res)
     end)%c.

Definition trunk_alloc_confirm (t : FDFSTrunkFullInfo) (status : Z) : M (TrunkState T) Z :=
  (let! ready := gets STORAGE_TRUNK_CHECK_STATUS in
   if negb ready then ret EINVAL
   else
     let target := with_st FDFS_TRUNK_STATUS_HOLD t in
     if (status =? 0) || (status =? EEXIST) then trunk_delete_space_ex target true
     else in_mem (trunk_restore_node target))%c.

(** The loop that creates [count] files; the result so far. *)
Fixpoint create_files (count : nat) (result : Z) : M (TrunkState T) Z :=
  match count with
  | O => ret result
  | S c =>
      (let! x := trunk_create_trunk_file (-1) result in
       match snd x with
       | Some p =>
           let! r := trunk_add_free_block_ex p false in
           if decide (r <> 0) then ret r else create_files c r
       | None => create_files c (fst x)
       end)%c
  end.

Definition trunk_create_trunk_file_advance : M (TrunkState T) Z :=
  if negb (g_trunk_create_file_advance conf) then ret EINVAL
  else if negb (g_if_trunker_self conf) then ret ENOENT
  else
    (let! total := gets g_trunk_total_free_space in
     let alloc_space := g_trunk_create_file_space_threshold conf - total in
     if alloc_space <=? 0 then ret 0
     else
       let total_mb_sum := zsum (sp_total_mb <$> store_paths) in
       let free_mb_sum := zsum (sp_free_mb <$> store_paths) in
       let rs := g_storage_reserved_space (path_conf conf) in
       if negb (fdfs_check_reserved_space_path total_mb_sum (free_mb_sum - alloc_space ÷ FDFS_ONE_MB)
                  (match rs with RESERVED_SPACE_MB mb => mb | RESERVED_SPACE_RATIO _ => 0 end) rs)
       then ret ENOSPC
       else create_files (Z.to_nat (int32 (alloc_space ÷ g_trunk_file_size conf))) 0)%c.
End operations.
