(* ===== verification/TrunkSave.v ===== *)
(** * Saving the free spaces ([storage/trunk_mgr/trunk_mem.c]).

    The data file [storage_trunk.dat] is a snapshot: the size of the binlog at
    the time of the snapshot, then one line per space held, in the format of
    the binlog.  With [g_trunk_free_space_merge] adjacent spaces of a trunk
    file are merged on the way, and a trunk file that has become free as a
    whole is deleted. *)

From S2P Require Import Prelude Avl FastCommon FileWriter TrunkShared FreeBlocks SharedFunc StorePath TrunkBinlog TrunkMem.

Definition STORAGE_TRUNK_DATA_FILENAME : bytes := bs "storage_trunk.dat".

(** The settings of loading and saving. *)
Record SaveConf := {
  trunk_conf : TrunkConf;
  g_fdfs_base_path : bytes;
  g_trunk_free_space_merge : bool;
  g_delete_unused_trunk_files : bool;
  g_trunk_init_check_occupying : bool;
  g_trunk_init_reload_from_binlog : bool;
  g_trunk_compress_binlog_interval : Z;
}.

(** [struct walk_callback_args]: the writer and the array of pointers to
    merge. *)
Record WalkArgs (W : Type) := mkArgs {
  data_writer : W;
  ta_trunks : list Z;
  ta_alloc : Z;
  stats_trunk_count : Z;
  stats_total_size : Z;
}.
Arguments mkArgs {W}.
Arguments data_writer {W}.
Arguments ta_trunks {W}.
Arguments ta_alloc {W}.
Arguments stats_trunk_count {W}.
Arguments stats_total_size {W}.

(** The order of [qsort]: path, file id, offset. *)
Definition path_bytes (t : FDFSTrunkFullInfo) : bytes :=
  [store_path_index (ti_path t); sub_path_high (ti_path t); sub_path_low (ti_path t)].

Definition trunk_compare_path_and_id (a b : FDFSTrunkFullInfo) : Z :=
  let result := memcmp (path_bytes a) (path_bytes b) in
  if decide (result <> 0) then result else int32 (tf_id (ti_file a) - tf_id (ti_file b)).

Definition trunk_compare_id_offset (a b : FDFSTrunkFullInfo) : Z :=
  let result := memcmp (path_bytes a) (path_bytes b) in
  if decide (result <> 0) then result
  else
    let result := int32 (tf_id (ti_file a) - tf_id (ti_file b)) in
    if decide (result <> 0) then result else int32 (t_offset a - t_offset b).

(** The order on pointers [qsort] sorts by. *)
Definition pointer_le (n : gmap Z FDFSTrunkFullInfo) (p q : Z) : Prop :=
  trunk_compare_id_offset (n !!! p) (n !!! q) <= 0.

#[global] Instance pointer_le_dec n p q : Decision (pointer_le n p q).
Proof. unfold pointer_le. apply _. Defined.

Section save.
Context {T : Type -> Type} `{AvlTree T} `{FastCommon} {W : Type} `{FileWriter W} (sconf : SaveConf).
Abbreviation conf := (trunk_conf sconf).
Abbreviation Args := (WalkArgs W).

Definition in_disk {A} (c : M Disk A) : M (TrunkState T) A :=
  fun s => let '(a, d) := c (mkDisk (files s) (syscalls s)) in
           (a, set_syscalls (disk_errnos d) (set_files (disk_files d) s)).

Definition storage_trunk_get_data_filename : bytes :=
  snprintf MAX_PATH_SIZE (g_fdfs_base_path sconf ++ bs "/data/" ++ STORAGE_TRUNK_DATA_FILENAME).

(** The size of the binlog on disk, [-1] with an [errno] when [stat] fails. *)
Definition storage_trunk_get_binlog_size : M (TrunkState T) (Z * Z) :=
  (let! e := syscall_errno in
   if decide (e = 0) then let! size := gets (fun s => Z.of_nat (length (bl_file (binlog s)))) in ret (size, 0)
   else if decide (e = ENOENT) then ret (0, 0)
   else ret (-1, e))%c.

(** The result and the array after [trunk_alloc_trunk_array]. *)
Definition trunk_alloc_trunk_array (a : Args) : M (TrunkState T) (Z * Args) :=
  let alloc := if ta_alloc a =? 0 then 64 * 1024 else ta_alloc a * 2 in
  (let! e := in_mem malloc_errno in
   if decide (e <> 0) then ret (ENOMEM, a)
   else ret (0, mkArgs (data_writer a) (ta_trunks a) alloc (stats_trunk_count a) (stats_total_size a)))%c.

Definition trunk_merge_add_to_array (p : Z) (a : Args) : M (TrunkState T) (Z * Args) :=
  (let! x := (if ta_alloc a <=? Z.of_nat (length (ta_trunks a)) then trunk_alloc_trunk_array a else ret (0, a)) in
   let '(result, a) := x in
   if decide (result <> 0) then ret (result, a)
   else ret (0, mkArgs (data_writer a) (ta_trunks a ++ [p]) (ta_alloc a) (stats_trunk_count a) (stats_total_size a)))%c.

Definition save_one_trunk (t : FDFSTrunkFullInfo) (a : Args) : M (TrunkState T) (Z * Args) :=
  (let! x := in_disk (buffered_file_writer_append
                        (record_line (g_current_time conf) TRUNK_OP_TYPE_ADD_SPACE t) (data_writer a)) in
   ret (fst x, mkArgs (snd x) (ta_trunks a) (ta_alloc a) (stats_trunk_count a) (stats_total_size a)))%c.

(** One more trunk in the statistics. *)
Definition count_trunk (t : FDFSTrunkFullInfo) (a : Args) : Args :=
  mkArgs (data_writer a) (ta_trunks a) (ta_alloc a) (stats_trunk_count a + 1) (stats_total_size a + t_size t).

(** A loop that passes [a] along and stops at the first error. *)
Fixpoint walk {X} (f : X -> Args -> M (TrunkState T) (Z * Args)) (l : list X) (a : Args)
    : M (TrunkState T) (Z * Args) :=
  match l with
  | [] => ret (0, a)
  | x :: l' =>
      (let! y := f x a in
       let '(result, a') := y in
       if decide (result <> 0) then ret (result, a') else walk f l' a')%c
  end.

Definition tree_walk_callback_to_file (sl : FDFSTrunkSlot) : Args -> M (TrunkState T) (Z * Args) :=
  walk (fun p a =>
    (let! t := in_mem (get_node p) in
     let! x := save_one_trunk t a in
     let '(result, a') := x in
     if decide (result <> 0) then ret (result, a') else ret (0, count_trunk t a'))%c) (sl_head sl).

Definition tree_walk_callback_to_list (sl : FDFSTrunkSlot) : Args -> M (TrunkState T) (Z * Args) :=
  walk (fun p a =>
    (let! t := in_mem (get_node p) in
     let! x := trunk_merge_add_to_array p a in
     let '(result, a') := x in
     if decide (result <> 0) then ret (result, a') else ret (0, count_trunk t a'))%c) (sl_head sl).

(** [trunk_delete_space_ex] of the space of a node, unlocked and unlogged. *)
Definition delete_node_space (p : Z) : M (TrunkState T) Z :=
  (let! t := in_mem (get_node p) in trunk_delete_space_ex conf t false)%c.

(** A whole trunk file is free: it is removed when it can be. *)
Definition delete_unused_file (first : Z) (merged_size : Z) : M (TrunkState T) bool :=
  (let! t := in_mem (get_node first) in
   if negb (g_delete_unused_trunk_files sconf) then ret false
   else if negb ((t_offset t =? 0) && (g_trunk_file_size conf <=? merged_size)) then ret false
   else
     let full_filename := trunk_get_full_filename_ex (store_paths conf) t MAX_PATH_SIZE in
     let! e := syscall_errno in  (* stat *)
     let! content := gets (fun s => files s !! full_filename) in
     match content with
     | Some data =>
         if decide (e <> 0) then ret false
         else if negb (merged_size =? Z.of_nat (length data)) then ret false
         else
           let! e := syscall_errno in  (* unlink *)
           if decide (e <> 0 /\ e <> ENOENT) then ret false
           else
             modify (fun s => set_files (delete full_filename (files s)) s) ;;
             let! r := delete_node_space first in ret true
     | None => ret false
     end)%c.

(** The run [first :: rest] of adjacent spaces becomes one: the result and
    [*ppMergeFirst]. *)
Definition trunk_merge_spaces (first : Z) (rest : list Z) : M (TrunkState T) (Z * option Z) :=
  (let! f := in_mem (get_node first) in
   let! l := in_mem (get_node (List.last rest first)) in
   let merged_size := int32 (t_offset l - t_offset f + t_size l) in
   let! r := for_each (fun p => let! r := delete_node_space p in ret 0) rest in
   let! deleted := delete_unused_file first merged_size in
   if (deleted : bool) then ret (0, None)
   else
     let! t := in_mem (get_node first) in
     let trunkInfo := with_extent (t_offset t) merged_size t in
     let! r := delete_node_space first in
     free_space_by_trunk conf trunkInfo false)%c.

(** The end of a run in [trunk_save_merged_spaces]. *)
Definition save_run (first : Z) (rest : list Z) (a : Args) : M (TrunkState T) (Z * Args) :=
  (let! x := (if bool_decide (rest = []) then ret (0, Some first) else trunk_merge_spaces first rest) in
   match snd x with
   | Some p => let! t := in_mem (get_node p) in save_one_trunk t a
   | None => ret (0, a)
   end)%c.

(** The loop over the sorted pointers; [first :: rest] is the current run. *)
Fixpoint merge_loop (first : Z) (rest todo : list Z) (a : Args) : M (TrunkState T) (Z * Args) :=
  match todo with
  | [] => save_run first rest a
  | p :: todo' =>
      (let! previous := in_mem (get_node (List.last rest first)) in
       let! t := in_mem (get_node p) in
       if (trunk_compare_path_and_id previous t =? 0)
          && (int32 (t_offset previous + t_size previous) =? t_offset t)
       then merge_loop first (rest ++ [p]) todo' a
       else
         let! x := save_run first rest a in
         let '(result, a') := x in
         if decide (result <> 0) then ret (result, a') else merge_loop p [] todo' a')%c
  end.

Definition trunk_save_merged_spaces (a : Args) : M (TrunkState T) (Z * Args) :=
  (let! n := gets (fun s => nodes (mem s)) in
   match merge_sort (pointer_le n) (ta_trunks a) with
   | [] => ret (0, a)
   | first :: todo => merge_loop first [] todo a
   end)%c.

(** The temporary file of the writer. *)
Definition trunk_open_file_writers : M (TrunkState T) (Z * Args) :=
  let temp_trunk_filename :=
    snprintf MAX_PATH_SIZE (g_fdfs_base_path sconf ++ bs "/data/." ++ STORAGE_TRUNK_DATA_FILENAME ++ bs ".tmp") in
  (let! x := in_disk (buffered_file_writer_open temp_trunk_filename) in
   ret (fst x, mkArgs (snd x) [] 0 0 0))%c.

(** [rename(2)]. *)
Definition rename (src dst : bytes) : M (TrunkState T) Z :=
  (let! e := syscall_errno in
   if decide (e <> 0) then ret e
   else
     let! content := gets (fun s => files s !! src) in
     match content with
     | None => ret ENOENT
     | Some data => modify (fun s => set_files (<[dst := data]> (delete src (files s))) s) ;; ret 0
     end)%c.

(** [filename] is the name the writer was opened with. *)
Definition trunk_rename_writers_filename : M (TrunkState T) Z :=
  let temp_trunk_filename :=
    snprintf MAX_PATH_SIZE (g_fdfs_base_path sconf ++ bs "/data/." ++ STORAGE_TRUNK_DATA_FILENAME ++ bs ".tmp") in
  (let! r := rename temp_trunk_filename storage_trunk_get_data_filename in
   ret r)%c.

Definition do_save_trunk_data : M (TrunkState T) Z :=
  (let! x := trunk_open_file_writers in
   let '(result, a) := x in
   if decide (result <> 0) then ret result
   else
     in_binlog trunk_binlog_flush ;;
     let! size := storage_trunk_get_binlog_size in
     if fst size <? 0 then ret (if decide (snd size = 0) then EIO else snd size)
     else
       let! x := in_disk (buffered_file_writer_append (fmt_d (fst size) ++ [10]) (data_writer a)) in
       let '(result, w) := x in
       let a := mkArgs w (ta_trunks a) (ta_alloc a) (stats_trunk_count a) (stats_total_size a) in
       if decide (result <> 0) then in_disk (buffered_file_writer_close w) ;; ret result
       else
         let! trees := gets (fun s => tree_info_by_sizes (mem s)) in
         let! x := walk (fun tree =>
                     walk (if g_trunk_free_space_merge sconf then tree_walk_callback_to_list
                           else tree_walk_callback_to_file) (avl_walk tree))
                     trees a in
         let '(result, a) := x in
         let! x := (if g_trunk_free_space_merge sconf && (result =? 0)
                    then trunk_save_merged_spaces a else ret (result, a)) in
         let '(result, a) := x in
         let! close_res := in_disk (buffered_file_writer_close (data_writer a)) in
         if decide (result <> 0) then ret result
         else if decide (close_res <> 0) then ret close_res
         else trunk_rename_writers_filename)%c.

(** [busy]: another thread is saving. *)
Definition storage_trunk_do_save (busy : bool) : M (TrunkState T) Z :=
  if busy then ret EINPROGRESS else do_save_trunk_data.
End save.
