(* ===== verification/TrunkLoad.v ===== *)
(** * Loading the free spaces ([storage/trunk_mgr/trunk_mem.c],
    [storage/storage_dio.c]).

    [storage_trunk_load] reads the snapshot the trunk manager saved
    ([TrunkSave]) through a buffer of 4096 bytes and adds its spaces;
    [storage_trunk_restore] then applies the binlog records behind the offset
    of the snapshot, or rebuilds everything from the binlog when there is no
    snapshot.  [storage_trunk_init] and [storage_trunk_destroy_ex] are the life
    cycle around them. *)

From S2P Require Import Prelude Avl FastCommon FileWriter TrunkShared FreeBlocks SharedFunc StorePath TrunkBinlog TrunkMem TrunkSave.

Definition TRUNK_DATA_NEW_FIELD_COUNT : nat := 8.
Definition TRUNK_DATA_OLD_FIELD_COUNT : nat := 6.
Definition TRUNK_LINE_MAX_LENGTH : Z := 64.
(** [sizeof(buff) - 1] in [storage_trunk_load]. *)
Definition LOAD_BUFFER_SIZE : Z := 4 * 1024.

(** ** A space a file already occupies ([dio_check_trunk_file_ex]). *)

(** [data] is the content of the trunk file from the offset on. *)
Definition dio_check_trunk_file_ex `{FastCommon} (data : bytes) (read_errno : Z) : Z :=
  let old_header := take (Z.to_nat FDFS_TRUNK_FILE_HEADER_SIZE) data in
  let expect_header := replicate (Z.to_nat FDFS_TRUNK_FILE_HEADER_SIZE) 0 in
  if negb (Z.of_nat (length old_header) =? FDFS_TRUNK_FILE_HEADER_SIZE) then errno_or read_errno EIO
  else if memcmp old_header expect_header =? 0 then 0
  else
    let src := trunk_unpack_header old_header in
    let new := {| th_file_type := 0; th_formatted_ext_name := th_formatted_ext_name src;
                  th_alloc_size := 0; th_file_size := 0;
                  th_crc32 := th_crc32 src; th_mtime := th_mtime src |} in
    if memcmp (trunk_pack_header new) expect_header =? 0 then 0 else EEXIST.

(** A node of the tree by offset: its address in the pool and its space. *)
Record OffsetNode := { on_ptr : Z; on_trunk : FDFSTrunkFullInfo }.

Definition storage_trunk_node_compare_offset (a b : OffsetNode) : Z :=
  trunk_compare_id_offset (on_trunk a) (on_trunk b).

Section load.
Context {T : Type -> Type} `{AvlTree T} `{FastCommon} (sconf : SaveConf).
Abbreviation conf := (trunk_conf sconf).

(** [storage_trunk_save], which compresses the binlog or saves a snapshot. *)
Context (storage_trunk_save : M (TrunkState T) Z).

Definition storage_trunk_is_space_occupied (t : FDFSTrunkFullInfo) : M (TrunkState T) bool :=
  let full_filename := trunk_get_full_filename_ex (store_paths conf) t (MAX_PATH_SIZE + 64) in
  (let! e := syscall_errno in  (* open *)
   let! content := gets (fun s => files s !! full_filename) in
   match content with
   | None => ret false
   | Some data =>
       if decide (e <> 0) then ret false
       else
         let! e := (if 0 <? t_offset t then syscall_errno else ret 0) in  (* lseek *)
         if decide (e <> 0) then ret false
         else
           let! e := syscall_errno in  (* read *)
           let data := if decide (e = 0) then drop (Z.to_nat (t_offset t)) data else [] in
           ret (dio_check_trunk_file_ex data e =? EEXIST)
   end)%c.

Definition trunk_add_space_by_trunk (t : FDFSTrunkFullInfo) : M (TrunkState T) Z :=
  (let! result := trunk_free_space conf t false in
   ret (if (result =? 0) || (result =? EEXIST) then 0 else result))%c.

Definition trunk_add_space_by_node (p : Z) : M (TrunkState T) Z :=
  (let! t := in_mem (get_node p) in
   if t_size t <? g_slot_min_size conf then in_mem (free_node p) ;; ret 0
   else
     let! result := trunk_add_free_block_ex conf p false in
     if decide (result = 0) then ret 0
     else in_mem (free_node p) ;; ret (if decide (result = EEXIST) then 0 else result))%c.

Definition storage_trunk_do_add_space (t : FDFSTrunkFullInfo) : M (TrunkState T) Z :=
  (let! occupied := (if g_trunk_init_check_occupying sconf then storage_trunk_is_space_occupied t else ret false) in
   if (occupied : bool) then ret 0 else trunk_add_space_by_trunk t)%c.

(** ** Applying the binlog. *)

(** The reader [trunk_reader_init(NULL, &reader, false)] leaves, or its error. *)
Definition trunk_reader_init (binlog_offset : Z) : M (TrunkState T) (Z + TrunkBinLogReader) :=
  (let! e := in_mem malloc_errno in
   if decide (e <> 0) then ret (inl e)
   else
     let! e := syscall_errno in  (* open *)
     if decide (e <> 0) then ret (inl e)
     else
       let! e := syscall_errno in  (* fstat *)
       if decide (e <> 0) then ret (inl e)
       else
         let! b := gets binlog in
         let r := trunk_open_readable_binlog b (mkReader [] 0 0 binlog_offset) in
         let! e := (if 0 <? rd_binlog_offset r then syscall_errno else ret 0) in  (* lseek *)
         if decide (e <> 0) then ret (inl e)
         else
           let '(result, r') := trunk_binlog_preread b r in
           if decide (result <> 0 /\ result <> ENOENT) then ret (inl result) else ret (inr r'))%c.

(** [tree_info_by_offset] after an addition, or the error it returns with. *)
Definition offset_tree_add (t : FDFSTrunkFullInfo) (tree : T OffsetNode) : M (TrunkState T) (Z + T OffsetNode) :=
  (let! a := in_mem (alloc_node t) in
   match a with
   | inl e => ret (inl e)
   | inr p =>
       let! e := in_mem malloc_errno in  (* the tree node of avl_tree_insert *)
       if decide (e <> 0) then ret (inl e)
       else
         let '(_, tree') := avl_insert storage_trunk_node_compare_offset tree {| on_ptr := p; on_trunk := t |} in
         ret (inr tree')
   end)%c.

(** A deletion frees the node. *)
Definition offset_tree_delete (t : FDFSTrunkFullInfo) (tree : T OffsetNode) : M (TrunkState T) (T OffsetNode) :=
  let target := {| on_ptr := 0; on_trunk := t |} in
  let '(r, tree') := avl_delete storage_trunk_node_compare_offset tree target in
  match avl_find storage_trunk_node_compare_offset tree target with
  | Some x => if decide (r = 1) then (in_mem (free_node (on_ptr x)) ;; ret tree')%c else ret tree'
  | None => ret tree'
  end.

(** One record: [inl] is a return from [storage_trunk_restore], [inr] the
    result (not 0 leaves the loop) and the tree. *)
Definition restore_record (reload : bool) (rec : TrunkBinLogRecord) (tree : T OffsetNode)
    : M (TrunkState T) (Z + (Z * T OffsetNode)) :=
  let t := with_st FDFS_TRUNK_STATUS_FREE (rec_trunk rec) in
  if rec_op_type rec =? TRUNK_OP_TYPE_ADD_SPACE then
    if reload then
      (let! x := offset_tree_add t tree in
       match x with
       | inl e => ret (inl e)
       | inr tree' => ret (inr (0, tree'))
       end)%c
    else (let! result := trunk_add_space_by_trunk t in ret (inr (result, tree)))%c
  else if rec_op_type rec =? TRUNK_OP_TYPE_DEL_SPACE then
    if reload then (let! tree' := offset_tree_delete t tree in ret (inr (0, tree')))%c
    else
      (let! result := trunk_delete_space_ex conf t false in
       ret (inr (if decide (result = ENOENT) then 0 else result, tree)))%c
  else ret (inr (0, tree)).

Definition advance (len : Z) (r : TrunkBinLogReader) : TrunkBinLogReader :=
  mkReader (rd_buff r) (rd_version r) (rd_pos r) (rd_binlog_offset r + len).

(** The loop: [inl] is a return from the function, [inr] the result and the
    tree behind the loop.  Every round takes a line off the binlog. *)
Fixpoint restore_loop (fuel : nat) (reload : bool) (trunk_binlog_size : Z)
    (r : TrunkBinLogReader) (rec : TrunkBinLogRecord) (tree : T OffsetNode)
    : M (TrunkState T) (Z + (Z * T OffsetNode)) :=
  match fuel with
  | O => ret (inl EINVAL)
  | S f =>
      (let! b := gets binlog in
       match trunk_binlog_read b r rec with
       | (result, record_length, rec, r) =>
           if decide (result <> 0) then
             if decide (result = ENOENT) then
               if 0 <? record_length then
                 restore_loop f reload trunk_binlog_size (advance record_length r) rec tree
               else ret (inr (if trunk_binlog_size <=? rd_binlog_offset r then 0 else EINVAL, tree))
             else ret (inr (result, tree))
           else
             let i := store_path_index (ti_path (rec_trunk rec)) in
             if (i <? 0) || (Z.of_nat (length (store_paths conf)) <=? i) then ret (inl EINVAL)
             else
               let! x := restore_record reload rec tree in
               let rec' := {| rec_timestamp := rec_timestamp rec; rec_op_type := rec_op_type rec;
                              rec_trunk := with_st FDFS_TRUNK_STATUS_FREE (rec_trunk rec) |} in
               match x with
               | inl e => ret (inl e)
               | inr (result, tree) =>
                   if decide (result <> 0) then ret (inr (result, tree))
                   else restore_loop f reload trunk_binlog_size (advance record_length r) rec' tree
               end
       end)%c
  end.

(** The record after [memset]. *)
Definition zero_record : TrunkBinLogRecord := {|
  rec_timestamp := 0; rec_op_type := 0;
  rec_trunk := {| ti_status := 0;
                  ti_path := {| store_path_index := 0; sub_path_high := 0; sub_path_low := 0 |};
                  ti_file := {| tf_id := 0; tf_offset := 0; tf_size := 0 |} |} |}.

Definition storage_trunk_restore (restore_offset : Z) : M (TrunkState T) Z :=
  (let! size := storage_trunk_get_binlog_size in
   let '(trunk_binlog_size, e) := size in
   if trunk_binlog_size <? 0 then ret (if decide (e = 0) then EPERM else e)
   else if restore_offset =? trunk_binlog_size then ret 0
   else if trunk_binlog_size <? restore_offset then storage_trunk_save
   else
     let reload := restore_offset =? 0 in
     let! x := trunk_reader_init restore_offset in
     match x with
     | inl e => ret e
     | inr reader =>
         let! n := gets (fun s => length (bl_file (binlog s))) in
         let! x := restore_loop (S (S n)) reload trunk_binlog_size reader zero_record avl_init in
         match x with
         | inl e => ret e
         | inr (result, tree) =>
             let! _ := syscall_errno in  (* unlink of the mark file *)
             if decide (result <> 0) then
               (if reload then for_each (fun x => in_mem (free_node (on_ptr x)) ;; ret 0) (avl_walk tree)
                else ret 0) ;;
               ret result
             else
               let! result := (if reload then for_each (fun x => trunk_add_space_by_node (on_ptr x)) (avl_walk tree)
                               else ret 0) in
               if decide (result = 0) then
                 if g_trunk_compress_binlog_interval sconf =? 0 then storage_trunk_save else ret 0
               else ret result
         end
     end)%c.

(** ** Reading the snapshot. *)

(** A line of the data file, or [None] when the number of columns is wrong.
    The status is not in the file; [trunk_free_space] makes the space free. *)
Definition parse_data_line (line : bytes) : option FDFSTrunkFullInfo :=
  let cols := splitEx 32 TRUNK_DATA_NEW_FIELD_COUNT line in
  let count := length cols in
  if negb (count =? TRUNK_DATA_NEW_FIELD_COUNT)%nat && negb (count =? TRUNK_DATA_OLD_FIELD_COUNT)%nat then None
  else
    let index := if (count =? TRUNK_DATA_OLD_FIELD_COUNT)%nat then 0%nat else 2%nat in
    let col i := atoi (nth (index + i) cols []) in
    Some {| ti_status := FDFS_TRUNK_STATUS_FREE;
            ti_path := {| store_path_index := uint8 (col 0%nat); sub_path_high := uint8 (col 1%nat);
                          sub_path_low := uint8 (col 2%nat) |};
            ti_file := {| tf_id := col 3%nat; tf_offset := col 4%nat; tf_size := col 5%nat |} |}.

(** The loop over the lines: [rest] is the buffer from [pLineStart] on (a NUL
    follows it), [nbytes] is [bytes], [data] what is left of the file.  [inl]
    is an error to return, [inr] the rest of the buffer at the end. *)
Fixpoint load_loop (fuel : nat) (rest : bytes) (nbytes : Z) (data : bytes) : M (TrunkState T) (Z + bytes) :=
  match fuel with
  | O => ret (inl EINVAL)
  | S f =>
      match upto 10 (cstr rest) with
      | Some line =>
          match parse_data_line (removelast line) with
          | None => ret (inl EINVAL)
          | Some t =>
              (let! result := storage_trunk_do_add_space t in
               if decide (result <> 0) then ret (inl result)
               else load_loop f (drop (length line) rest) nbytes data)%c
          end
      | None =>
          if nbytes <? LOAD_BUFFER_SIZE then ret (inr rest)
          else
            let len := Z.of_nat (length (cstr rest)) in
            if TRUNK_LINE_MAX_LENGTH <? len then ret (inl EINVAL)
            else
              (let! e := syscall_errno in  (* read *)
               if decide (e <> 0) then ret (inl e)
               else
                 let chunk := take (Z.to_nat (LOAD_BUFFER_SIZE - len)) data in
                 if bool_decide (chunk = []) then ret (inl ENOENT)
                 else load_loop f (cstr rest ++ chunk) (len + Z.of_nat (length chunk))
                        (drop (length chunk) data))%c
      end
  end.

(** [unlink] of a file. *)
Definition unlink (filename : bytes) : M (TrunkState T) Z :=
  (let! e := syscall_errno in
   if decide (e <> 0) then ret e
   else
     let! content := gets (fun s => files s !! filename) in
     match content with
     | None => ret ENOENT
     | Some _ => modify (fun s => set_files (delete filename (files s)) s) ;; ret 0
     end)%c.

Definition storage_trunk_load : M (TrunkState T) Z :=
  let trunk_data_filename := storage_trunk_get_data_filename sconf in
  if g_trunk_init_reload_from_binlog sconf then
    (let! result := unlink trunk_data_filename in
     if decide (result <> 0 /\ result <> ENOENT) then ret result else storage_trunk_restore 0)%c
  else
    (let! e := syscall_errno in  (* open *)
     let! content := gets (fun s => files s !! trunk_data_filename) in
     match content with
     | None => if decide (e <> 0 /\ e <> ENOENT) then ret e else storage_trunk_restore 0
     | Some data =>
         if decide (e = ENOENT) then storage_trunk_restore 0
         else if decide (e <> 0) then ret e
         else
           let! e := syscall_errno in  (* read *)
           if decide (e <> 0) then ret e
           else
             let buff := take (Z.to_nat LOAD_BUFFER_SIZE) data in
             match upto 10 (cstr buff) with
             | None => ret EINVAL
             | Some line =>
                 let restore_offset := (strtol 10 (removelast line)).1 in
                 let! x := load_loop (S (2 * length data)) (drop (length line) buff)
                             (Z.of_nat (length buff)) (drop (length buff) data) in
                 match x with
                 | inl e => ret e
                 | inr rest =>
                     if negb (hd 0 rest =? 0) then ret EINVAL
                     else storage_trunk_restore restore_offset
                 end
             end
     end)%c.

(** ** The life cycle. *)
Definition storage_trunk_init : M (TrunkState T) Z :=
  if negb (g_if_trunker_self conf) then ret 0
  else
    (let! flag := gets trunk_init_flag in
     if negb (flag =? STORAGE_TRUNK_INIT_FLAG_NONE) then ret 0
     else
       let! e := in_mem malloc_errno in  (* tree_info_by_sizes *)
       if decide (e <> 0) then ret e
       else
         in_mem (modify (fun m => mkMemory ∅ (replicate (length (store_paths conf)) avl_init) avl_init (mallocs m))) ;;
         let! result := storage_trunk_load in
         if decide (result <> 0) then ret result
         else modify (set_init_flag STORAGE_TRUNK_INIT_FLAG_DONE) ;; ret 0)%c.

(** [uptime] is [g_current_time - g_up_time]; [do_save] is
    [storage_trunk_save]. *)
Definition storage_trunk_destroy_ex (uptime : Z) (bSaveData : bool) : M (TrunkState T) Z :=
  (let! flag := gets trunk_init_flag in
   if negb (flag =? STORAGE_TRUNK_INIT_FLAG_DONE) then ret 0
   else
     modify (set_init_flag STORAGE_TRUNK_INIT_FLAG_DESTROYING) ;;
     let! result := (if bSaveData && (3600 <=? uptime) && (g_trunk_compress_binlog_interval sconf =? 0)
                     then storage_trunk_save else ret 0) in
     in_mem (modify (fun m => mkMemory ∅ [] avl_init (mallocs m))) ;;
     modify (set_init_flag STORAGE_TRUNK_INIT_FLAG_NONE) ;; ret result)%c.
End load.
