(* ===== verification/TrunkInv.v ===== *)
(** * The invariant of the trunk allocator.

    The size trees and the free block checker of [TrunkMem] index the same
    nodes; the blocks they hold are disjoint.  Lemmas on the memory
    operations, in terms of the pointers held. *)

From S2P Require Import Prelude Avl FastCommon TrunkShared FreeBlocks SharedFunc StorePath TrunkBinlog TrunkMem.

(** A space the binlog can log and the checker can place. *)
Record space_ok (t : FDFSTrunkFullInfo) : Prop := {
  so_info : info_ok t;
  so_index : is_uint8 (store_path_index (ti_path t));
  so_high : is_uint8 (sub_path_high (ti_path t));
  so_low : is_uint8 (sub_path_low (ti_path t));
}.

Lemma space_record_ok ts op t :
  space_ok t -> is_int32 ts -> op = TRUNK_OP_TYPE_ADD_SPACE \/ op = TRUNK_OP_TYPE_DEL_SPACE ->
  record_ok ts op t.
Proof.
  intros [[Hb Hi] ? ? ?] Hts Hop. unfold block_ok, ident_ok, is_int32, t_offset, t_size in *. simpl in Hi.
  split; try done; unfold is_int32; try lia. destruct Hop as [-> | ->]; done.
Qed.

(** ** Size slots. *)
Definition sz_of (l : list FDFSTrunkSlot) : list Z := concat (sl_head <$> l).

Lemma sz_of_app l1 l2 : sz_of (l1 ++ l2) = sz_of l1 ++ sz_of l2.
Proof. unfold sz_of. by rewrite fmap_app, concat_app. Qed.

Lemma sz_of_middle l1 sl l2 : sz_of (l1 ++ sl :: l2) ≡ₚ sl_head sl ++ sz_of (l1 ++ l2).
Proof. rewrite !sz_of_app. unfold sz_of at 2. cbn. fold (sz_of l2). rewrite !app_assoc. f_equiv. apply Permutation_app_comm. Qed.

Lemma sz_of_perm l l' : l ≡ₚ l' -> sz_of l ≡ₚ sz_of l'.
Proof.
  unfold sz_of. induction 1; cbn; [done|by f_equiv| |by etrans].
  rewrite !app_assoc. f_equiv. apply Permutation_app_comm.
Qed.

Lemma elem_of_sz_of p l : p ∈ sz_of l <-> exists sl, sl ∈ l /\ p ∈ sl_head sl.
Proof.
  unfold sz_of. rewrite list_elem_of_In, in_concat. setoid_rewrite <- list_elem_of_In.
  setoid_rewrite list_elem_of_fmap. naive_solver.
Qed.

Record slot_ok (n : gmap Z FDFSTrunkFullInfo) (i : Z) (sl : FDFSTrunkSlot) : Prop := {
  sk_some : sl_head sl <> [];
  sk_nodes : forall p, p ∈ sl_head sl ->
    exists t, n !! p = Some t /\ t_size t = sl_size sl /\ store_path_index (ti_path t) = i /\ space_ok t;
}.

Lemma compare_size_ordered l : ordered_on storage_trunk_node_compare_size l.
Proof. unfold storage_trunk_node_compare_size. split; intros; lia. Qed.

Section size_trees.
Context {T : Type -> Type} `{AvlLaws T}.
Implicit Types (tr : T FDFSTrunkSlot) (n : gmap Z FDFSTrunkFullInfo).

Record tree_ok n (i : Z) tr : Prop := {
  tk_sorted : ascending storage_trunk_node_compare_size (avl_walk tr);
  tk_slots : Forall (slot_ok n i) (avl_walk tr);
}.

Definition tree_ptrs tr : list Z := sz_of (avl_walk tr).

Lemma size_find tr size :
  ascending storage_trunk_node_compare_size (avl_walk tr) ->
  match avl_find storage_trunk_node_compare_size tr (size_target size) with
  | Some sl => sl_size sl = size /\ exists l1 l2, avl_walk tr = l1 ++ sl :: l2 /\
      Forall (fun x => sl_size x <> size) l1 /\ Forall (fun x => sl_size x <> size) l2
  | None => Forall (fun x => sl_size x <> size) (avl_walk tr)
  end.
Proof.
  intros Hs. rewrite avl_find_spec by (apply compare_size_ordered || done).
  unfold storage_trunk_node_compare_size in *.
  destruct (ref_find _ _ _) as [sl|] eqn:E.
  - destruct (ref_find_Some _ _ _ _ E) as [_ Hc]. cbn in Hc.
    destruct (ref_find_split _ _ _ _ (compare_size_ordered _) Hs E) as (l1 & l2 & Hw & H1 & H2).
    split; [lia|]. exists l1, l2. split; [done|].
    split; (eapply Forall_impl; [eassumption|]); unfold storage_trunk_node_compare_size; cbn; lia.
  - apply ref_find_None in E. eapply Forall_impl; [exact E|]. cbn. lia.
Qed.

Lemma ascending_replace l1 l2 (sl sl' : FDFSTrunkSlot) :
  sl_size sl' = sl_size sl ->
  ascending storage_trunk_node_compare_size (l1 ++ sl :: l2) ->
  ascending storage_trunk_node_compare_size (l1 ++ sl' :: l2).
Proof.
  unfold ascending, storage_trunk_node_compare_size. intros Hsz Hs.
  apply StronglySorted_app in Hs as (Hx & Hs1 & Hs2). apply StronglySorted_app.
  split; [|split; [done|]].
  - intros x y Hx1 [->|Hy]%elem_of_cons; [rewrite Hsz|]; apply Hx; [done|by left|done|by right].
  - inversion_clear Hs2 as [|? ? Hl Hf]. constructor; [done|]. by rewrite Hsz.
Qed.

Lemma size_store tr sl sl' l1 l2 :
  ascending storage_trunk_node_compare_size (avl_walk tr) -> avl_walk tr = l1 ++ sl :: l2 ->
  sl_size sl' = sl_size sl ->
  avl_walk (avl_store storage_trunk_node_compare_size tr sl') = l1 ++ sl' :: l2.
Proof.
  intros Hs Hw Hsz. rewrite avl_store_spec by (apply compare_size_ordered || done). rewrite Hw in *.
  unfold ascending in Hs. apply StronglySorted_app in Hs as (Hx & Hs1 & Hs2).
  inversion_clear Hs2 as [|? ? Hl Hf]. rewrite Forall_forall in Hf.
  apply ref_store_split; unfold storage_trunk_node_compare_size in *; [lia|..];
    apply Forall_forall; intros y Hy.
  - specialize (Hx y sl Hy ltac:(by left)). lia.
  - specialize (Hf y Hy). lia.
Qed.

(** A new head for the chain of a slot. *)
Lemma tree_push n i tr sl p t l1 l2 :
  tree_ok n i tr -> avl_walk tr = l1 ++ sl :: l2 -> n !! p = Some t ->
  t_size t = sl_size sl -> store_path_index (ti_path t) = i -> space_ok t ->
  let tr' := avl_store storage_trunk_node_compare_size tr {| sl_size := sl_size sl; sl_head := p :: sl_head sl |} in
  tree_ok n i tr' /\ tree_ptrs tr' ≡ₚ p :: tree_ptrs tr.
Proof.
  intros [Hs Hf] Hw Hn Hsz Hi Ht tr'.
  pose proof (size_store tr sl {| sl_size := sl_size sl; sl_head := p :: sl_head sl |} l1 l2 Hs Hw eq_refl) as Hw'.
  fold tr' in Hw'. rewrite Hw in Hs, Hf. apply Forall_app in Hf as [Hf1 Hf2]. apply Forall_cons in Hf2 as [Hsl Hf2].
  split; [split; rewrite Hw'|].
  - eapply ascending_replace; [|exact Hs]. done.
  - apply Forall_app. split; [done|]. constructor; [|done]. split; cbn; [done|].
    intros q [->|Hq]%elem_of_cons; [by exists t|by apply Hsl].
  - unfold tree_ptrs. rewrite Hw', Hw, !sz_of_middle. done.
Qed.

(** A new slot. *)
Lemma tree_new_slot n i tr p t :
  tree_ok n i tr -> Forall (fun x => sl_size x <> t_size t) (avl_walk tr) -> n !! p = Some t ->
  store_path_index (ti_path t) = i -> space_ok t ->
  exists tr', avl_insert storage_trunk_node_compare_size tr {| sl_size := t_size t; sl_head := [p] |} = (1, tr') /\
    tree_ok n i tr' /\ tree_ptrs tr' ≡ₚ p :: tree_ptrs tr.
Proof.
  intros [Hs Hf] Hno Hn Hi Ht. set (sl := {| sl_size := t_size t; sl_head := [p] |}).
  assert (ref_find storage_trunk_node_compare_size (avl_walk tr) sl = None) as Hnf.
  { apply ref_find_None. eapply Forall_impl; [exact Hno|]. unfold storage_trunk_node_compare_size. cbn. lia. }
  destruct (avl_insert_new _ storage_trunk_node_compare_size tr sl (compare_size_ordered _) Hs Hnf) as [Hr Hw].
  destruct (avl_insert _ _ _) as [r tr']. cbn in Hr, Hw. subst r. exists tr'. split; [done|].
  split; [split; rewrite Hw|].
  - apply ascending_insert; [apply compare_size_ordered|done..].
  - rewrite ref_insert_perm. constructor; [|done]. split; cbn; [done|].
    intros q ->%list_elem_of_singleton. by exists t.
  - unfold tree_ptrs. rewrite Hw, (sz_of_perm _ _ (ref_insert_perm _ _ _)). done.
Qed.

(** A slot leaves the tree. *)
Lemma tree_delete_slot n i tr sl sl' l1 l2 :
  tree_ok n i tr -> avl_walk tr = l1 ++ sl :: l2 -> sl_size sl' = sl_size sl ->
  exists tr', avl_delete storage_trunk_node_compare_size tr sl' = (1, tr') /\
    tree_ok n i tr' /\ avl_walk tr' = l1 ++ l2.
Proof.
  intros [Hs Hf] Hw Hsz.
  destruct (avl_delete_spec _ storage_trunk_node_compare_size tr sl' (compare_size_ordered _) Hs) as [Hr Hd].
  destruct (avl_delete _ _ _) as [r tr']. cbn [fst snd] in Hr, Hd. exists tr'.
  assert (avl_walk tr' = l1 ++ l2) as Hw'.
  { pose proof Hs as Hs'. rewrite Hw in Hs'. unfold ascending in Hs'.
    apply StronglySorted_app in Hs' as (Hx & Hs1 & Hs2). inversion_clear Hs2 as [|? ? Hl Hfl].
    rewrite Forall_forall in Hfl.
    rewrite Hd, Hw. apply ref_delete_split; unfold storage_trunk_node_compare_size in *; [lia|..];
      apply Forall_forall; intros y Hy.
    - specialize (Hx y sl Hy ltac:(by left)). lia.
    - specialize (Hfl y Hy). lia. }
  split; [|split; [split|done]].
  - destruct (ref_find _ _ _) eqn:E; [by subst|]. apply ref_find_None in E.
    rewrite Hw, Forall_app, Forall_cons in E. unfold storage_trunk_node_compare_size in E.
    destruct E as (_ & E & _). lia.
  - rewrite Hd. by apply ascending_delete.
  - rewrite Hw'. rewrite Hw, Forall_app, Forall_cons in Hf. apply Forall_app. tauto.
Qed.

(** A chain keeps [rest], which is not empty. *)
Lemma tree_shrink n i tr sl rest p l1 l2 :
  tree_ok n i tr -> avl_walk tr = l1 ++ sl :: l2 -> sl_head sl ≡ₚ p :: rest -> rest <> [] ->
  let tr' := avl_store storage_trunk_node_compare_size tr {| sl_size := sl_size sl; sl_head := rest |} in
  tree_ok n i tr' /\ tree_ptrs tr ≡ₚ p :: tree_ptrs tr'.
Proof.
  intros [Hs Hf] Hw Hp Hne tr'.
  pose proof (size_store tr sl {| sl_size := sl_size sl; sl_head := rest |} l1 l2 Hs Hw eq_refl) as Hw'.
  fold tr' in Hw'. rewrite Hw in Hs, Hf. apply Forall_app in Hf as [Hf1 Hf2]. apply Forall_cons in Hf2 as [Hsl Hf2].
  split; [split; rewrite Hw'|].
  - eapply ascending_replace; [|exact Hs]. done.
  - apply Forall_app. split; [done|]. constructor; [|done]. split; cbn; [done|].
    intros q Hq. apply Hsl. rewrite Hp. by right.
  - unfold tree_ptrs. rewrite Hw', Hw, !sz_of_middle. cbn. by rewrite Hp.
Qed.
End size_trees.

(** ** The whole memory. *)
Section memory.
Context {T : Type -> Type} `{AvlLaws T}.
Implicit Types (m : TrunkMemory T) (t : FDFSTrunkFullInfo).

Definition trees_ok (n : gmap Z FDFSTrunkFullInfo) (l : list (T FDFSTrunkSlot)) : Prop :=
  forall i tr, l !! i = Some tr -> tree_ok n (Z.of_nat i) tr.

Definition sz_ptrs_of (l : list (T FDFSTrunkSlot)) : list Z := concat (map tree_ptrs l).
Definition sz_ptrs m : list Z := sz_ptrs_of (tree_info_by_sizes m).

(** Both indexes hold the same pointers, each once. *)
Record tm_inv m : Prop := {
  tm_fb : fb_inv m;
  tm_trees : trees_ok (nodes m) (tree_info_by_sizes m);
  tm_same : sz_ptrs m ≡ₚ fb_ptrs m;
  tm_nodup : NoDup (fb_ptrs m);
}.

(** The store path of a space has a tree. *)
Definition index_ok m (i : Z) : Prop := 0 <= i < Z.of_nat (length (tree_info_by_sizes m)).

Lemma size_tree_lookup m i : index_ok m i -> tree_info_by_sizes m !! Z.to_nat i = Some (size_tree i m).
Proof. intros. unfold size_tree. by apply znth_lookup. Qed.

Lemma size_tree_ok m i : trees_ok (nodes m) (tree_info_by_sizes m) -> index_ok m i -> tree_ok (nodes m) i (size_tree i m).
Proof.
  intros Ht Hi. specialize (Ht _ _ (size_tree_lookup m i Hi)). unfold index_ok in Hi. by rewrite Z2Nat.id in Ht by lia.
Qed.

(** Replacing one tree. *)
Lemma sz_ptrs_set l i tr :
  l !! i = Some tr ->
  exists rest, sz_ptrs_of l ≡ₚ tree_ptrs tr ++ rest /\
    forall tr', sz_ptrs_of (<[i := tr']> l) ≡ₚ tree_ptrs tr' ++ rest.
Proof.
  intros Hl. exists (sz_ptrs_of (take i l) ++ sz_ptrs_of (drop (S i) l)).
  assert (forall x, sz_ptrs_of (take i l ++ x :: drop (S i) l) ≡ₚ
    tree_ptrs x ++ sz_ptrs_of (take i l) ++ sz_ptrs_of (drop (S i) l)) as Hx.
  { intros x. unfold sz_ptrs_of. rewrite map_app, concat_app. cbn.
    rewrite !app_assoc. f_equiv. apply Permutation_app_comm. }
  split.
  - rewrite <- (take_drop_middle _ _ _ Hl) at 1. apply Hx.
  - intros tr'. rewrite insert_take_drop by (by eapply lookup_lt_Some). apply Hx.
Qed.

Lemma trees_ok_set n l i tr :
  trees_ok n l -> tree_ok n (Z.of_nat i) tr -> trees_ok n (<[i := tr]> l).
Proof.
  intros Ht Htr j tr' Hj. destruct (decide (i = j)) as [->|].
  - destruct (decide (j < length l)%nat).
    + rewrite list_lookup_insert_eq in Hj by done. by simplify_eq.
    + apply Ht. by rewrite list_insert_ge in Hj by lia.
  - rewrite list_lookup_insert_ne in Hj by done. by apply Ht.
Qed.

(** What linking a node does, allocation failures included. *)
Lemma link_node_spec m p t :
  trees_ok (nodes m) (tree_info_by_sizes m) -> nodes m !! p = Some t -> space_ok t ->
  index_ok m (store_path_index (ti_path t)) ->
  exists r l' es,
    link_node p t m = (r, mkMemory (nodes m) l' (tree_info_by_id m) es) /\
    (no_oom m -> r = 0 /\ Forall (fun e => e = 0) es) /\
    trees_ok (nodes m) l' /\ length l' = length (tree_info_by_sizes m) /\
    (r = 0 /\ sz_ptrs_of l' ≡ₚ p :: sz_ptrs m \/ r <> 0 /\ l' = tree_info_by_sizes m).
Proof.
  intros Ht Hn Hsp Hi. set (i := store_path_index (ti_path t)) in *.
  pose proof (size_tree_lookup m i Hi) as Hl. pose proof (size_tree_ok m i Ht Hi) as Htr.
  destruct (sz_ptrs_set _ _ _ Hl) as (rest & Hrest & Hset).
  (* a tree that has gained the pointer *)
  assert (forall tr' es, (no_oom m -> Forall (fun e => e = 0) es) ->
    tree_ok (nodes m) i tr' -> tree_ptrs tr' ≡ₚ p :: tree_ptrs (size_tree i m) ->
    exists r l' es', (0, mkMemory (nodes m) (<[Z.to_nat i := tr']> (tree_info_by_sizes m)) (tree_info_by_id m) es)
      = (r, mkMemory (nodes m) l' (tree_info_by_id m) es') /\
    (no_oom m -> r = 0 /\ Forall (fun e => e = 0) es') /\
    trees_ok (nodes m) l' /\ length l' = length (tree_info_by_sizes m) /\
    (r = 0 /\ sz_ptrs_of l' ≡ₚ p :: sz_ptrs m \/ r <> 0 /\ l' = tree_info_by_sizes m)) as Hdone.
  { intros tr' es Hes Htr' Hp. eexists _, _, _. split; [reflexivity|]. split; [auto|].
    split; [apply trees_ok_set; [done|]; unfold index_ok in Hi; by rewrite Z2Nat.id by lia|].
    split; [apply length_insert|]. left. split; [done|]. unfold sz_ptrs. rewrite Hset, Hp, Hrest. done. }
  unfold link_node. fold i. rewrite bind_gets.
  pose proof (size_find (size_tree i m) (t_size t) (tk_sorted _ _ _ Htr)) as Hf.
  destruct (avl_find _ _ _) as [sl|].
  - destruct Hf as (Hsz & l1 & l2 & Hw & _). unfold store_slot. rewrite bind_modify.
    destruct (tree_push (nodes m) i (size_tree i m) sl p t l1 l2 Htr Hw Hn (eq_sym Hsz) eq_refl Hsp) as [Ho Hp].
    by apply Hdone.
  - destruct (malloc_errno_eq m) as (e1 & es1 & Hm1 & Ho1). rewrite (bind_eq _ _ _ _ _ Hm1).
    destruct (decide (e1 <> 0)) as [He1|He1].
    { exists e1, (tree_info_by_sizes m), es1. split; [done|]. split; [naive_solver|]. split; [done|]. split; [done|by right]. }
    destruct (malloc_errno_eq (mkMemory (nodes m) (tree_info_by_sizes m) (tree_info_by_id m) es1)) as (e2 & es2 & Hm2 & Ho2).
    rewrite (bind_eq _ _ _ _ _ Hm2). destruct (decide (e2 <> 0)) as [He2|He2].
    { exists e2, (tree_info_by_sizes m), es2. split; [done|]. split; [naive_solver|]. split; [done|]. split; [done|by right]. }
    rewrite bind_gets. change (size_tree i _) with (size_tree i m).
    destruct (tree_new_slot (nodes m) i (size_tree i m) p t Htr Hf Hn eq_refl Hsp) as (tr' & -> & Ho & Hp).
    rewrite decide_True by done. apply Hdone; [|done..]. intros Hm. apply Ho2. naive_solver.
Qed.

(** What unlinking a node from the chain of its slot does. *)
Lemma unlink_node_spec m i sl p rest l1 l2 :
  trees_ok (nodes m) (tree_info_by_sizes m) -> index_ok m i ->
  avl_walk (size_tree i m) = l1 ++ sl :: l2 -> sl_head sl ≡ₚ p :: rest ->
  exists l', unlink_node i sl rest m = (tt, mkMemory (nodes m) l' (tree_info_by_id m) (mallocs m)) /\
    trees_ok (nodes m) l' /\ length l' = length (tree_info_by_sizes m) /\
    sz_ptrs m ≡ₚ p :: sz_ptrs_of l'.
Proof.
  intros Ht Hi Hw Hp. pose proof (size_tree_lookup m i Hi) as Hl. pose proof (size_tree_ok m i Ht Hi) as Htr.
  destruct (sz_ptrs_set _ _ _ Hl) as (others & Hrest & Hset).
  assert (forall tr', tree_ok (nodes m) i tr' -> tree_ptrs (size_tree i m) ≡ₚ p :: tree_ptrs tr' ->
    let l' := <[Z.to_nat i := tr']> (tree_info_by_sizes m) in
    trees_ok (nodes m) l' /\ length l' = length (tree_info_by_sizes m) /\ sz_ptrs m ≡ₚ p :: sz_ptrs_of l') as Hdone.
  { intros tr' Htr' Hp' l'. split; [apply trees_ok_set; [done|]; unfold index_ok in Hi; by rewrite Z2Nat.id by lia|].
    split; [apply length_insert|]. unfold sz_ptrs, l'. rewrite Hset, Hrest, Hp'. done. }
  unfold unlink_node. case_bool_decide as E.
  - unfold trunk_delete_size_tree_entry. rewrite bind_gets.
    destruct (tree_delete_slot (nodes m) i (size_tree i m) sl {| sl_size := sl_size sl; sl_head := rest |} l1 l2 Htr Hw eq_refl)
      as (tr' & -> & Ho & Hw').
    rewrite decide_True by done. eexists. split; [reflexivity|]. apply Hdone; [done|].
    unfold tree_ptrs. rewrite Hw', Hw, sz_of_middle, Hp, E. done.
  - eexists. split; [reflexivity|].
    destruct (tree_shrink (nodes m) i (size_tree i m) sl rest p l1 l2 Htr Hw Hp E) as [Ho Hp']. by apply Hdone.
Qed.

(** ** The nodes may change outside the pointers held, or in their status. *)
Definition same_place (t t' : FDFSTrunkFullInfo) : Prop := ti_path t = ti_path t' /\ ti_file t = ti_file t'.

Lemma deref_lookup (n : gmap Z FDFSTrunkFullInfo) p t : n !! p = Some t -> n !!! p = t.
Proof. apply lookup_total_correct. Qed.

Lemma space_ok_same_place t t' : same_place t t' -> space_ok t -> space_ok t'.
Proof.
  destruct t as [st p f], t' as [st' p' f']. unfold same_place. cbn. intros [<- <-] [[Hb Hi] ? ? ?].
  split; [split|..]; done.
Qed.

Lemma blocks_ok_same_place l l' :
  Forall2 same_place l l' -> blocks_ok l -> blocks_ok l'.
Proof.
  intros Hl [Hf Hs]. assert (forall a b, same_place a b -> t_offset a = t_offset b /\ t_size a = t_size b) as Hsp.
  { unfold same_place, t_offset, t_size. intros a b [_ ->]. done. }
  split.
  - clear Hs. induction Hl as [|a b l l' Hab Hl IH]; [done|]. apply Forall_cons in Hf as [Ha Hf].
    constructor; [|auto]. destruct (Hsp a b Hab). unfold block_ok in *. lia.
  - clear Hf. induction Hl as [|a b l l' Hab Hl IH]; [done|]. inversion_clear Hs as [|? ? Hs1 Hs2].
    constructor; [auto|]. clear IH Hs1. induction Hl as [|c d l l' Hcd Hl IH]; [done|].
    apply Forall_cons in Hs2 as [Hc Hs2]. constructor; [|auto].
    destruct (Hsp a b Hab), (Hsp c d Hcd). unfold before in *. lia.
Qed.

Lemma tm_inv_nodes m n' :
  tm_inv m ->
  (forall p, p ∈ fb_ptrs m -> exists t t', nodes m !! p = Some t /\ n' !! p = Some t' /\ same_place t t') ->
  tm_inv (set_nodes n' m).
Proof.
  intros [[Hs He] Ht Hsame Hnd] Hn. split; [split; [done|]| |done|done]; cbn [nodes set_nodes tree_info_by_id tree_info_by_sizes].
  - apply Forall_forall. intros e Hin. rewrite Forall_forall in He. specialize (He e Hin).
    assert (forall p, p ∈ ba_blocks (tb_block_array e) -> p ∈ fb_ptrs m) as Hp.
    { intros p Hp. apply elem_of_fb_ptrs_of. eauto. }
    split; [apply He| | |apply He].
    + intros p Hpe. destruct (Hn p (Hp p Hpe)) as (t & t' & H1 & H2 & Hsp & Hsf).
      destruct (eo_live _ _ He p Hpe) as (t0 & H3 & H4). simplify_eq. exists t'. split; [done|].
      unfold FILL_FILE_IDENTIFIER in *. rewrite <- Hsp, <- Hsf. done.
    + eapply blocks_ok_same_place; [|apply He]. unfold deref.
      apply Forall2_fmap_l, Forall2_fmap_r, Forall2_same_length_lookup_2; [done|].
      intros k p q Hk1 Hk2. simplify_eq. destruct (Hn p) as (t & t' & H1 & H2 & Hsp).
      { apply Hp, list_elem_of_lookup. eauto. }
      unfold compose. by rewrite (deref_lookup _ _ _ H1), (deref_lookup _ _ _ H2).
  - intros i tr Hi. specialize (Ht i tr Hi). split; [apply Ht|]. apply Forall_forall. intros sl Hsl.
    pose proof (tk_slots _ _ _ Ht) as Hf. rewrite Forall_forall in Hf. specialize (Hf sl Hsl).
    split; [apply Hf|]. intros p Hp. destruct (sk_nodes _ _ _ Hf p Hp) as (t & H1 & H2 & H3 & H4).
    destruct (Hn p) as (t0 & t' & H5 & H6 & Hp' & Hf').
    { rewrite <- Hsame. unfold sz_ptrs, sz_ptrs_of. apply list_elem_of_In, in_concat.
      exists (tree_ptrs tr). rewrite <- !list_elem_of_In. split.
      - apply list_elem_of_In, in_map, list_elem_of_In. by eapply list_elem_of_lookup_2.
      - apply elem_of_sz_of. eauto. }
    simplify_eq. exists t'. unfold t_size in *. rewrite <- Hf', <- Hp'. split; [done|]. split; [done|].
    split; [done|]. by eapply space_ok_same_place.
Qed.

(** ** Adding to and removing from both indexes. *)

Definition disjoint_from m t : Prop :=
  forall q b, q ∈ fb_ptrs m -> nodes m !! q = Some b -> same_file b t -> ~ overlaps t b.

Lemma add_both m p t :
  tm_inv m -> no_oom m -> nodes m !! p = Some t -> space_ok t ->
  index_ok m (store_path_index (ti_path t)) -> p ∉ fb_ptrs m -> disjoint_from m t ->
  exists m1 m2, link_node p t m = (0, m1) /\ trunk_free_block_insert p m1 = (0, m2) /\
    nodes m2 = nodes m /\ tm_inv m2 /\ no_oom m2 /\ fb_ptrs m2 ≡ₚ p :: fb_ptrs m /\
    length (tree_info_by_sizes m2) = length (tree_info_by_sizes m).
Proof.
  intros [Hfb Ht Hsame Hnd] Hoom Hn Hsp Hi Hp Hdis.
  destruct (link_node_spec m p t Ht Hn Hsp Hi) as (r & l' & es & Heq & Hno & Ht' & Hlen & Hr).
  destruct (Hno Hoom) as [-> Hes]. destruct Hr as [[_ Hsz]|[? _]]; [|done].
  set (m1 := mkMemory (nodes m) l' (tree_info_by_id m) es) in *.
  assert (fb_inv m1) as Hfb1 by (destruct Hfb; by split).
  destruct (insert_spec m1 p t Hfb1 Hn (so_info _ Hsp) Hdis) as (r & tree' & es' & Heq' & Hfb2 & Hno' & Hr').
  destruct (Hno' Hes) as [-> Hes']. destruct Hr' as [[_ Hp']|[? _]]; [|done].
  exists m1. eexists. split; [done|]. split; [exact Heq'|]. split; [done|]. split; [|split; [done|split; [done|done]]].
  split; [done|done| |].
  - unfold sz_ptrs, fb_ptrs at 1. cbn [tree_info_by_sizes tree_info_by_id m1]. rewrite Hsz, Hp', Hsame. done.
  - unfold fb_ptrs at 1. cbn [tree_info_by_id]. rewrite Hp'. by constructor.
Qed.

Lemma remove_both m i sl p t rest l1 l2 :
  tm_inv m -> no_oom m -> index_ok m i ->
  avl_walk (size_tree i m) = l1 ++ sl :: l2 -> sl_head sl ≡ₚ p :: rest -> nodes m !! p = Some t ->
  exists m1 m2, unlink_node i sl rest m = (tt, m1) /\ nodes m1 = nodes m /\
    trunk_free_block_delete t m1 = (0, m2) /\
    nodes m2 = nodes m /\ tm_inv m2 /\ no_oom m2 /\ fb_ptrs m ≡ₚ p :: fb_ptrs m2 /\
    length (tree_info_by_sizes m2) = length (tree_info_by_sizes m).
Proof.
  intros [Hfb Ht Hsame Hnd] Hoom Hi Hw Hp Hn.
  destruct (unlink_node_spec m i sl p rest l1 l2 Ht Hi Hw Hp) as (l' & Heq & Ht' & Hlen & Hsz).
  set (m1 := mkMemory (nodes m) l' (tree_info_by_id m) (mallocs m)) in *.
  assert (fb_inv m1) as Hfb1 by (destruct Hfb; by split).
  assert (p ∈ fb_ptrs m) as Hpin by (rewrite <- Hsame, Hsz; by left).
  assert (info_ok t) as Hinfo.
  { pose proof (size_tree_ok m i Ht Hi) as [_ Hf]. rewrite Hw, Forall_app, Forall_cons in Hf.
    destruct Hf as (_ & Hsl & _). destruct (sk_nodes _ _ _ Hsl p) as (t' & Hn' & _ & _ & Hs); [rewrite Hp; by left|].
    simplify_eq. apply Hs. }
  destruct (delete_spec m1 p t Hfb1 Hpin Hn Hinfo) as (r & tree' & es' & Heq' & Hfb2 & Hno' & Hp').
  destruct (Hno' Hoom) as [-> Hes'].
  exists m1. eexists. split; [done|]. split; [done|]. split; [exact Heq'|]. split; [done|].
  change (fb_ptrs m1) with (fb_ptrs m) in Hp'.
  split; [|split; [done|split; [done|done]]]. split; [done|done| |].
  - unfold sz_ptrs, fb_ptrs at 1. cbn [tree_info_by_sizes tree_info_by_id m1].
    rewrite Hsame, Hp' in Hsz. by apply Permutation_cons_inv in Hsz.
  - rewrite Hp' in Hnd. by apply NoDup_cons in Hnd as [_ ?].
Qed.

(** A node outside the indexes can be added, changed or freed. *)
Lemma tm_inv_other m p (n' : gmap Z FDFSTrunkFullInfo) :
  tm_inv m -> p ∉ fb_ptrs m -> (forall q, q <> p -> n' !! q = nodes m !! q) -> tm_inv (set_nodes n' m).
Proof.
  intros Hinv Hp Hn. apply tm_inv_nodes; [done|]. intros q Hq.
  assert (q <> p) as Hne by congruence.
  destruct (proj1 (elem_of_fb_ptrs_of _ _) Hq) as (e & He & Hqe).
  pose proof (fb_entries _ (tm_fb _ Hinv)) as Hf. rewrite Forall_forall in Hf.
  destruct (eo_live _ _ (Hf e He) q Hqe) as (t & Ht & _). exists t, t. rewrite Hn by done. done.
Qed.

Lemma fb_ptr_live m p : tm_inv m -> p ∈ fb_ptrs m -> exists t, nodes m !! p = Some t /\ space_ok t.
Proof.
  intros Hinv Hp. rewrite <- (tm_same _ Hinv) in Hp. unfold sz_ptrs, sz_ptrs_of in Hp.
  apply list_elem_of_In, in_concat in Hp as (l & (tr & <- & Htr)%in_map_iff & Hp).
  apply list_elem_of_In, elem_of_sz_of in Hp as (sl & Hsl & Hp).
  apply list_elem_of_In, list_elem_of_lookup in Htr as (i & Hi).
  pose proof (tk_slots _ _ _ (tm_trees _ Hinv i tr Hi)) as Hf. rewrite Forall_forall in Hf.
  destruct (sk_nodes _ _ _ (Hf sl Hsl) p Hp) as (t & ? & _ & _ & ?). eauto.
Qed.

(** ** What is held: the blocks, free or on hold, and their total size. *)
Definition spaces m : list FDFSTrunkFullInfo := deref (nodes m) (fb_ptrs m).
Definition space_total m : Z := zsum (t_size <$> spaces m).

Lemma deref_perm (n : gmap Z FDFSTrunkFullInfo) ps qs : ps ≡ₚ qs -> deref n ps ≡ₚ deref n qs.
Proof. intros Hp. unfold deref. by rewrite Hp. Qed.

Lemma spaces_add m m' p t :
  nodes m' = nodes m -> fb_ptrs m' ≡ₚ p :: fb_ptrs m -> nodes m !! p = Some t -> spaces m' ≡ₚ t :: spaces m.
Proof.
  intros Hn Hp Ht. unfold spaces. rewrite Hn, (deref_perm _ _ _ Hp). cbn. by rewrite (deref_lookup _ _ _ Ht).
Qed.

Lemma spaces_other m p (n' : gmap Z FDFSTrunkFullInfo) :
  p ∉ fb_ptrs m -> (forall q, q <> p -> n' !! q = nodes m !! q) -> spaces (set_nodes n' m) = spaces m.
Proof.
  intros Hp Hn. unfold spaces, deref. apply list_fmap_ext. intros i q Hq. cbn.
  rewrite !lookup_total_alt, Hn; [done|]. intros ->. apply Hp, list_elem_of_lookup. eauto.
Qed.

Lemma elem_of_spaces m b : tm_inv m -> b ∈ spaces m <-> exists p, p ∈ fb_ptrs m /\ nodes m !! p = Some b.
Proof.
  intros Hinv. split.
  - intros (p & Hp & <-)%elem_of_deref. destruct (fb_ptr_live m p Hinv Hp) as (t & Ht & _).
    exists p. by rewrite (deref_lookup _ _ _ Ht).
  - intros (p & Hp & Hn). by eapply elem_of_deref_2.
Qed.

Lemma disjoint_from_spaces m t :
  tm_inv m -> disjoint_from m t <-> (forall b, b ∈ spaces m -> same_file b t -> ~ overlaps t b).
Proof.
  intros Hinv. split.
  - intros Hd b (p & Hp & Hn)%elem_of_spaces; [|done]. eauto.
  - intros Hd q b Hq Hn. apply Hd. apply elem_of_spaces; eauto.
Qed.

Lemma fresh_addr_fresh (n : gmap Z FDFSTrunkFullInfo) : n !! fresh_addr n = None.
Proof.
  destruct (n !! fresh_addr n) as [t|] eqn:E; [|done]. exfalso.
  apply elem_of_map_to_list in E.
  assert (fresh_addr n ∈ (map_to_list n).*1) as Hin by (apply list_elem_of_fmap; by exists (fresh_addr n, t)).
  assert (forall x l, x ∈ l -> x <= foldr Z.max 0 l) as Hmax.
  { intros x l. induction 1; simpl; lia. }
  specialize (Hmax _ _ Hin). unfold fresh_addr in Hmax. lia.
Qed.

Lemma fresh_not_held m : tm_inv m -> fresh_addr (nodes m) ∉ fb_ptrs m.
Proof. intros Hinv Hp. destruct (fb_ptr_live m _ Hinv Hp) as (t & Ht & _). by rewrite fresh_addr_fresh in Ht. Qed.

(** Spaces held are disjoint. *)
Lemma held_disjoint m p q a b :
  tm_inv m -> p ∈ fb_ptrs m -> q ∈ fb_ptrs m -> p <> q -> nodes m !! p = Some a -> nodes m !! q = Some b ->
  same_file a b -> ~ overlaps a b.
Proof.
  intros Hinv Hp Hq Hne Ha Hb Hsf. pose proof (tm_fb _ Hinv) as Hfb.
  destruct (fb_ptr_live m q Hinv Hq) as (b' & Hb' & Hbok). simplify_eq. destruct (so_info _ Hbok) as [_ Hid].
  destruct (fb_ptr_entry m b p a Hfb Hid Hp Ha Hsf) as (e & Hf & Hpe).
  destruct (fb_ptr_entry m b q b Hfb Hid Hq Hb eq_refl) as (e1 & Hf1 & Hqe). assert (e1 = e) as -> by congruence.
  destruct (find_by_id_Some m b e Hfb Hid Hf) as (_ & He & _).
  destruct (eo_blocks _ _ He) as [_ Hs].
  apply list_elem_of_lookup in Hpe as (i & Hi). apply list_elem_of_lookup in Hqe as (j & Hj).
  assert (forall k r x, ba_blocks (tb_block_array e) !! k = Some r -> nodes m !! r = Some x ->
    deref (nodes m) (ba_blocks (tb_block_array e)) !! k = Some x) as Hget.
  { intros k r x Hk Hx. unfold deref. rewrite list_lookup_fmap, Hk. cbn. by rewrite (deref_lookup _ _ _ Hx). }
  pose proof (Hget i p a Hi Ha) as Hda. pose proof (Hget j q b Hj Hb) as Hdb. clear Hget.
  set (l := deref _ _) in *. assert (i <> j) as Hij by congruence.
  pose proof (lookup_lt_Some _ _ _ Hda). pose proof (lookup_lt_Some _ _ _ Hdb).
  assert (forall k x, l !! k = Some x -> nth k l inhabitant = x) as Hnth.
  { intros k x Hk. by rewrite nth_lookup, Hk. }
  destruct (Nat.lt_gt_cases i j) as [Hlt _]. destruct (Hlt Hij) as [Hl|Hl].
  - pose proof (StronglySorted_nth before inhabitant l i j Hs Hl ltac:(done)) as Hbe.
    rewrite (Hnth _ _ Hda), (Hnth _ _ Hdb) in Hbe. unfold before, overlaps in *. lia.
  - pose proof (StronglySorted_nth before inhabitant l j i Hs Hl ltac:(done)) as Hbe.
    rewrite (Hnth _ _ Hda), (Hnth _ _ Hdb) in Hbe. unfold before, overlaps in *. lia.
Qed.

(** The spaces at two places of an index share no byte. *)
Lemma ptrs_disjoint m ps i j a b :
  tm_inv m -> ps ≡ₚ fb_ptrs m -> i <> j -> deref (nodes m) ps !! i = Some a -> deref (nodes m) ps !! j = Some b ->
  same_file a b -> ~ overlaps a b.
Proof.
  intros Hm Hps Hij Ha Hb. unfold deref in Ha, Hb. rewrite list_lookup_fmap in Ha, Hb.
  destruct (ps !! i) as [p|] eqn:Hp; [|done]. destruct (ps !! j) as [q|] eqn:Hq; [|done].
  cbn in Ha, Hb. simplify_eq. pose proof (tm_nodup _ Hm) as Hnd. rewrite <- Hps in Hnd.
  assert (p <> q) as Hpq by (intros ->; apply Hij; by eapply (NoDup_lookup _ _ _ _ Hnd)).
  assert (p ∈ fb_ptrs m /\ q ∈ fb_ptrs m) as [Hpi Hqi] by (rewrite <- Hps; split; by eapply list_elem_of_lookup_2).
  destruct (fb_ptr_live _ p Hm Hpi) as (x & Hx & _). destruct (fb_ptr_live _ q Hm Hqi) as (y & Hy & _).
  rewrite (deref_lookup _ _ _ Hx), (deref_lookup _ _ _ Hy). by apply (held_disjoint m p q).
Qed.

(** A space held is valid and its store path has a tree. *)
Lemma held_ok m b : tm_inv m -> b ∈ spaces m -> space_ok b /\ index_ok m (store_path_index (ti_path b)).
Proof.
  intros Hm Hb. apply elem_of_spaces in Hb as (p & Hp & Hn); [|done].
  rewrite <- (tm_same _ Hm) in Hp. unfold sz_ptrs, sz_ptrs_of in Hp.
  apply list_elem_of_In, in_concat in Hp as (l & (tr & <- & Htr)%in_map_iff & Hp).
  apply list_elem_of_In, elem_of_sz_of in Hp as (sl & Hsl & Hp).
  apply list_elem_of_In, list_elem_of_lookup in Htr as (i & Htr).
  pose proof (tk_slots _ _ _ (tm_trees _ Hm i tr Htr)) as Hf. rewrite Forall_forall in Hf.
  destruct (sk_nodes _ _ _ (Hf sl Hsl) p Hp) as (t' & Hn' & _ & Hidx & Hsp). simplify_eq. split; [done|].
  apply lookup_lt_Some in Htr. unfold index_ok. lia.
Qed.

(** The empty memory. *)
Lemma empty_inv n es : tm_inv (mkMemory ∅ (replicate n avl_init) avl_init es).
Proof.
  split; cbn.
  - split; cbn; rewrite avl_init_walk; constructor.
  - intros i tr Hi. apply lookup_replicate in Hi as [-> _]. split; rewrite avl_init_walk; constructor.
  - unfold sz_ptrs, sz_ptrs_of, fb_ptrs. cbn. rewrite avl_init_walk. cbn. induction n as [|n IH]; [done|].
    cbn. unfold tree_ptrs at 1. by rewrite avl_init_walk.
  - unfold fb_ptrs. cbn. rewrite avl_init_walk. constructor.
Qed.

Lemma empty_spaces n es : spaces (mkMemory ∅ (replicate n (avl_init (T := T) (V := FDFSTrunkSlot))) avl_init es) = [].
Proof. unfold spaces, deref, fb_ptrs. cbn. by rewrite avl_init_walk. Qed.
End memory.
