(* ===== verification/TrunkFiles.v ===== *)
(** * Creating trunk files.

    [trunk_create_next_file] of [TrunkMem] tries one id after another until
    the file name is not taken: it ends, the name is new, the id was saved
    before the file is created, and the new file has the configured size. *)

From S2P Require Import Prelude Avl FastCommon TrunkShared FreeBlocks SharedFunc StorePath TrunkBinlog TrunkMem TrunkInv.

(** The settings the storage server accepts. *)
Record conf_ok (conf : TrunkConf) : Prop := {
  ck_min : 0 < g_slot_min_size conf;
  ck_file : g_slot_min_size conf <= g_trunk_file_size conf < 2 ^ 31;
  ck_align : 0 <= g_trunk_alloc_alignment_size conf < 2 ^ 31;
  ck_paths : 0 < Z.of_nat (length (store_paths conf)) <= 256;
  ck_names : Forall (fun p => Z.of_nat (length (sp_path p)) <= 200) (store_paths conf);
  ck_subdirs : 0 < g_subdir_count_per_path (path_conf conf) <= 256;
  ck_time : is_int32 (g_current_time conf);
}.

(** The name of the trunk file a space is in. *)
Definition file_of (conf : TrunkConf) (t : FDFSTrunkFullInfo) : bytes :=
  trunk_get_full_filename_ex (store_paths conf) t MAX_PATH_SIZE.

(** ** Names. *)
Lemma digits_val_zeros k ds : digits_val 10 0 (replicate k 48 ++ ds) = digits_val 10 0 ds.
Proof. induction k as [|k IH]; [done|]. exact IH. Qed.

Lemma fmt_06u_inj a b : is_int32 a -> is_int32 b -> fmt_06u a = fmt_06u b -> a = b.
Proof.
  intros Ha Hb Heq. apply (f_equal (digits_val 10 0)) in Heq. unfold fmt_06u, pad0 in Heq.
  rewrite !digits_val_zeros in Heq. pose proof (uint32_nonneg a) as Ua. pose proof (uint32_nonneg b) as Ub.
  destruct (fmt_u_spec 10 (uint32 a)) as (_ & Va & _); [lia..|].
  destruct (fmt_u_spec 10 (uint32 b)) as (_ & Vb & _); [lia..|].
  rewrite Va, Vb in Heq. unfold uint32, is_int32 in *. dlia.
Qed.

Lemma fmt_06u_length a : (length (fmt_06u a) <= 10)%nat.
Proof.
  unfold fmt_06u, pad0. rewrite length_app, length_replicate. pose proof (uint32_nonneg a).
  pose proof (fmt_u_length 10 (uint32 a) 10 ltac:(lia) ltac:(lia) ltac:(lia)). lia.
Qed.

Lemma fmt_02X_length i : is_uint8 i -> length (fmt_02X i) = 2%nat.
Proof. intros Hi. destruct (fmt_02X_byte i Hi) as (a & b & -> & _). done. Qed.

Section names.
Context (conf : TrunkConf) (Hconf : conf_ok conf).
Implicit Types t : FDFSTrunkFullInfo.

(** Paths of the settings are short enough, so no name is cut. *)
Lemma file_of_full t :
  is_uint8 (sub_path_high (ti_path t)) -> is_uint8 (sub_path_low (ti_path t)) ->
  file_of conf t =
    sp_path (znth inhabitant (store_paths conf) (store_path_index (ti_path t))) ++ bs "/data/" ++
    fmt_02X (sub_path_high (ti_path t)) ++ bs "/" ++ fmt_02X (sub_path_low (ti_path t)) ++ bs "/" ++
    fmt_06u (tf_id (ti_file t)).
Proof.
  intros Hh Hl. unfold file_of, trunk_get_full_filename_ex, snprintf. apply take_ge.
  rewrite !length_app, !fmt_02X_length by done. pose proof (fmt_06u_length (tf_id (ti_file t))).
  assert (length (sp_path (znth inhabitant (store_paths conf) (store_path_index (ti_path t)))) <= 200)%nat.
  { unfold znth. rewrite nth_lookup.
    destruct (store_paths conf !! Z.to_nat (store_path_index (ti_path t))) as [p|] eqn:E; cbn; [|lia].
    pose proof (ck_names _ Hconf) as Hn. rewrite Forall_forall in Hn.
    specialize (Hn p ltac:(by eapply list_elem_of_lookup_2)). lia. }
  change (Z.to_nat (MAX_PATH_SIZE - 1)) with 255%nat. change (length (bs "/data/")) with 6%nat.
  change (length (bs "/")) with 1%nat. lia.
Qed.

(** Files with different ids have different names. *)
Lemma file_of_id t t' :
  is_uint8 (sub_path_high (ti_path t)) -> is_uint8 (sub_path_low (ti_path t)) ->
  is_uint8 (sub_path_high (ti_path t')) -> is_uint8 (sub_path_low (ti_path t')) ->
  store_path_index (ti_path t) = store_path_index (ti_path t') ->
  is_int32 (tf_id (ti_file t)) -> is_int32 (tf_id (ti_file t')) ->
  file_of conf t = file_of conf t' -> tf_id (ti_file t) = tf_id (ti_file t').
Proof.
  intros Hh Hl Hh' Hl' Hi Hid Hid' Heq. rewrite !file_of_full, Hi in Heq by done.
  apply app_inv_head in Heq. apply app_inv_head in Heq.
  apply app_inj_1 in Heq as [_ Heq]; [|by rewrite !fmt_02X_length]. apply app_inv_head in Heq.
  apply app_inj_1 in Heq as [_ Heq]; [|by rewrite !fmt_02X_length]. apply app_inv_head in Heq.
  by apply fmt_06u_inj.
Qed.
End names.

(** ** The loop. *)
Section create.
Context {T : Type -> Type} `{AvlTree T} `{FastCommonLaws} (conf : TrunkConf) (Hconf : conf_ok conf).
Implicit Types (s : TrunkState T) (t : FDFSTrunkFullInfo).

(** What file creation leaves alone. *)
Record same_core s s' : Prop := {
  sc_mem : mem s' = mem s;
  sc_total : g_trunk_total_free_space s' = g_trunk_total_free_space s;
  sc_flag : trunk_init_flag s' = trunk_init_flag s;
  sc_binlog : binlog s' = binlog s;
}.

#[local] Instance same_core_preorder : PreOrder same_core.
Proof. split; [by split|]. intros ? ? ? [] []. split; congruence. Qed.

(** Files already there stay as they are. *)
Definition files_kept s s' : Prop := files s ⊆ files s'.

Lemma files_kept_same s s' : files s' = files s -> files_kept s s'.
Proof. unfold files_kept. by intros ->. Qed.

Lemma files_kept_exist s s' n : files_kept s s' -> is_Some (files s !! n) -> is_Some (files s' !! n).
Proof. intros Hk [data Hd]. exists data. by eapply lookup_weaken. Qed.

Definition syscalls_ok s : Prop := Forall (fun e => e = 0) (syscalls s).

(** The space [t'] is [t] in another file. *)
Record moved_to t t' (id : Z) : Prop := {
  mv_id : tf_id (ti_file t') = id;
  mv_offset : t_offset t' = t_offset t;
  mv_size : t_size t' = t_size t;
  mv_status : ti_status t' = ti_status t;
  mv_index : store_path_index (ti_path t') = store_path_index (ti_path t);
  mv_high : is_uint8 (sub_path_high (ti_path t'));
  mv_low : is_uint8 (sub_path_low (ti_path t'));
}.

Lemma syscall_errno_spec s :
  exists e es, syscall_errno s = (e, set_syscalls es s) /\ (syscalls_ok s -> e = 0 /\ Forall (fun e => e = 0) es).
Proof.
  unfold syscall_errno, syscalls_ok. destruct s as [? ? ? ? ? ? ? ? [|e es] ?]; cbn.
  - exists 0, []. done.
  - exists e, es. split; [done|]. by rewrite Forall_cons.
Qed.

Lemma next_file_name_spec t s :
  dist_ok (path_conf conf) (dist s) ->
  exists x s', next_file_name conf t s = (x, s') /\ same_core s s' /\ files s' = files s /\
    dist_ok (path_conf conf) (dist s') /\
    g_current_trunk_file_id s' = int32 (g_current_trunk_file_id s + 1) /\
    (syscalls_ok s -> syscalls_ok s' /\ exists y, x = inr y) /\
    match x with
    | inl e => e <> 0
    | inr (t', name) => name = file_of conf t' /\ ini_trunk_file_id s' = tf_id (ti_file t') /\
        moved_to t t' (int32 (g_current_trunk_file_id s + 1))
    end.
Proof.
  intros Hd. unfold next_file_name. rewrite bind_modify, bind_gets. cbn [g_current_trunk_file_id set_file_id].
  set (id := int32 (g_current_trunk_file_id s + 1)). set (s1 := set_file_id id s).
  unfold storage_write_to_sync_ini_file. rewrite bind_assoc.
  destruct (syscall_errno_spec s1) as (e & es & Heq & Hok). rewrite (bind_eq _ _ _ _ _ Heq).
  destruct (decide (e <> 0)) as [He|He].
  { exists (inl e), (set_syscalls es s1). rewrite bind_ret, decide_True by done.
    split; [done|]. split; [by split|]. do 3 (split; [done|]). split; [|done]. intros Hs. by destruct (Hok Hs). }
  apply dec_stable in He. subst e.
  rewrite bind_assoc, bind_modify, bind_ret, decide_False by naive_solver. cbn [g_current_trunk_file_id set_syscalls s1 set_file_id].
  set (s2 := set_ini _ _).
  pose proof (storage_get_store_path_range (path_conf conf) (base64_encode_ex (int2buff id)) (dist s) Hd
    ltac:(apply Hconf)) as Hr.
  destruct (storage_get_store_path _ _ (dist s)) as [[hi lo] d'] eqn:Hsp. destruct Hr as (Hhi & Hlo & Hd').
  assert (in_dist (storage_get_store_path (path_conf conf) (base64_encode_ex (int2buff id))) s2 = ((hi, lo), set_dist d' s2)) as Hin.
  { unfold in_dist. change (dist s2) with (dist s). by rewrite Hsp. }
  rewrite (bind_eq _ _ _ _ _ Hin). eexists _, _. split; [reflexivity|].
  split; [by split|]. split; [done|]. split; [done|]. split; [done|].
  split; [intros Hs; split; [apply Hok, Hs|eauto]|]. split; [done|]. split; [done|].
  split; try done; apply uint8_range.
Qed.

Lemma trunk_init_file_spec name s :
  files s !! name = None ->
  exists r s', trunk_init_file_ex name (g_trunk_file_size conf) s = (r, s') /\ same_core s s' /\ files_kept s s' /\
    dist s' = dist s /\ g_current_trunk_file_id s' = g_current_trunk_file_id s /\
    ini_trunk_file_id s' = ini_trunk_file_id s /\
    (r = 0 -> is_Some (files s' !! name)) /\
    (syscalls_ok s -> r = 0 /\ syscalls_ok s' /\
      files s' !! name = Some (replicate (Z.to_nat (g_trunk_file_size conf)) 0)).
Proof.
  intros Hno. unfold trunk_init_file_ex, open_excl. rewrite bind_assoc, bind_gets, Hno, bind_assoc.
  destruct (syscall_errno_spec s) as (e & es & Heq & Hok). rewrite (bind_eq _ _ _ _ _ Heq).
  set (s1 := set_syscalls es s).
  assert (files_kept s (set_files (<[name := []]> (files s1)) s1)) as Hk1.
  { by apply insert_subseteq. }
  destruct ((e =? 0) || (e =? EEXIST)) eqn:E.
  2:{ rewrite bind_ret, decide_False by lia. replace (e =? EEXIST) with false by lia.
      exists e, s1. split; [done|]. split; [by split|]. split; [by apply files_kept_same|]. do 3 (split; [done|]). split; [lia|].
      intros Hs. destruct (Hok Hs). lia. }
  rewrite bind_assoc, bind_modify, bind_ret. set (s2 := set_files _ s1) in *.
  destruct (decide (e = 0)) as [->|He].
  - unfold ftruncate. destruct (syscall_errno_spec s2) as (e2 & es2 & Heq2 & Hok2).
    rewrite (bind_eq _ _ _ _ _ Heq2). destruct (decide (e2 <> 0)) as [He2|He2].
    + exists e2, (set_syscalls es2 s2). split; [done|]. split; [by split|]. split; [exact Hk1|]. do 3 (split; [done|]).
      split; [done|]. intros Hs. destruct (Hok Hs) as [_ Hs2]. by destruct (Hok2 Hs2).
    + eexists 0, _. rewrite bind_modify. split; [reflexivity|]. split; [by split|].
      assert (alter (resize (g_trunk_file_size conf)) name (files s2) !! name
        = Some (replicate (Z.to_nat (g_trunk_file_size conf)) 0)) as Hnew.
      { rewrite lookup_alter_eq. cbn. rewrite lookup_insert_eq. cbn. unfold resize. by rewrite take_nil, Nat.sub_0_r. }
      split; [|do 3 (split; [done|]); split; [|intros Hs; split; [done|split; [|done]]]].
      * unfold files_kept in *. cbn [files set_files set_syscalls s1 s2]. apply map_subseteq_spec. intros n data Hn.
        assert (n <> name) by (intros ->; by rewrite Hno in Hn). rewrite lookup_alter_ne, lookup_insert_ne by done. done.
      * intros _. cbn [files set_files set_syscalls]. by rewrite Hnew.
      * destruct (Hok Hs) as [_ Hs2]. by apply Hok2.
  - replace (e =? EEXIST) with true by lia. unfold trunk_wait_file_ready.
    destruct (wait_loop _ _ _) as [r obs]. exists r, (set_observations obs s2). split; [done|].
    split; [by split|]. split; [exact Hk1|]. repeat (split; [done|]). split.
    + intros _. cbn. by rewrite lookup_insert_eq.
    + intros Hs. destruct (Hok Hs). done.
Qed.

Lemma nodup_keys (l : list bytes) (m : gmap bytes bytes) :
  NoDup l -> (forall x, x ∈ l -> is_Some (m !! x)) -> (length l <= size m)%nat.
Proof.
  intros Hl Hm. rewrite <- (size_list_to_set (C := gset bytes) l Hl), <- (size_dom (D := gset bytes)).
  apply subseteq_size. intros x Hx%elem_of_list_to_set. by apply elem_of_dom, Hm.
Qed.

Lemma moved_to_trans t t1 t2 id1 id2 : moved_to t t1 id1 -> moved_to t1 t2 id2 -> moved_to t t2 id2.
Proof. intros [] []. split; congruence. Qed.

(** The names tried so far: [length tried] files with the ids that follow [c]. *)
Definition tried_ok (index c : Z) s (tried : list bytes) : Prop :=
  NoDup tried /\
  forall n, n ∈ tried -> is_Some (files s !! n) /\
    exists t j, n = file_of conf t /\ 0 < j <= Z.of_nat (length tried) /\ tf_id (ti_file t) = int32 (c + j) /\
      store_path_index (ti_path t) = index /\
      is_uint8 (sub_path_high (ti_path t)) /\ is_uint8 (sub_path_low (ti_path t)).

Lemma int32_inj_near c i j : 0 < i < 2 ^ 32 -> 0 < j < 2 ^ 32 -> int32 (c + i) = int32 (c + j) -> i = j.
Proof. unfold int32. intros. dlia. Qed.

(** What creating the next file guarantees. *)
Record created t s (r : Z) t' s' : Prop := {
  cr_core : same_core s s';
  cr_kept : files_kept s s';
  cr_dist : dist_ok (path_conf conf) (dist s');
  cr_cur : is_int32 (g_current_trunk_file_id s');
  cr_ok : r = 0 -> moved_to t t' (ini_trunk_file_id s') /\ is_int32 (tf_id (ti_file t')) /\
    files s !! file_of conf t' = None /\ is_Some (files s' !! file_of conf t');
  cr_done : syscalls_ok s -> r = 0 /\ syscalls_ok s' /\
    files s' !! file_of conf t' = Some (replicate (Z.to_nat (g_trunk_file_size conf)) 0);
}.

Lemma create_next_loop_spec fuel t s c tried :
  dist_ok (path_conf conf) (dist s) ->
  g_current_trunk_file_id s = int32 (c + Z.of_nat (length tried)) ->
  tried_ok (store_path_index (ti_path t)) c s tried ->
  (size (files s) < length tried + fuel)%nat -> Z.of_nat (length tried + fuel) < 2 ^ 32 ->
  exists r t' s', create_next_loop conf fuel t s = (Some (r, t'), s') /\ created t s r t' s'.
Proof.
  revert t s tried. induction fuel as [|f IH]; intros t s tried Hd Hcur [Hnd Htr] Hlt Hbound.
  { pose proof (nodup_keys tried (files s) Hnd (fun n Hn => proj1 (Htr n Hn))). lia. }
  cbn [create_next_loop].
  destruct (next_file_name_spec t s Hd) as (x & s1 & Heq & Hcore & Hfiles & Hd1 & Hcur1 & Hsys & Hx).
  rewrite (bind_eq _ _ _ _ _ Heq).
  assert (is_int32 (g_current_trunk_file_id s1)) as Hcur32 by (rewrite Hcur1; apply int32_range).
  destruct x as [e|[t1 name]].
  { exists e, t, s1. split; [done|]. split; try done.
    - unfold files_kept. by rewrite Hfiles.
    - intros Hs. destruct (Hsys Hs) as (_ & y & [=]). }
  destruct Hx as (-> & Hini & Hmv). rewrite bind_gets, Hfiles.
  assert (int32 (g_current_trunk_file_id s + 1) = int32 (c + Z.of_nat (length (file_of conf t1 :: tried)))) as Hid.
  { rewrite Hcur. cbn [length]. unfold int32. dlia. }
  destruct (files s !! file_of conf t1) as [old|] eqn:Hold.
  - (* the name is taken: one more tried *)
    destruct (IH t1 s1 (file_of conf t1 :: tried)) as (r & t' & s' & Heq' & Hc).
    + done.
    + by rewrite Hcur1.
    + split.
      * constructor; [|done]. intros Hin. destruct (Htr _ Hin) as (_ & t2 & j & Hn & Hj & Hid2 & Hidx & Hh & Hl).
        assert (tf_id (ti_file t1) = tf_id (ti_file t2)) as He.
        { apply (file_of_id conf Hconf); try done; try apply Hmv.
          - rewrite Hidx. apply Hmv.
          - rewrite (mv_id _ _ _ Hmv). apply int32_range.
          - rewrite Hid2. apply int32_range. }
        rewrite (mv_id _ _ _ Hmv), Hid, Hid2 in He. cbn [length] in *.
        apply int32_inj_near in He; lia.
      * intros n [->|Hn]%elem_of_cons.
        -- rewrite Hfiles, Hold. split; [done|]. exists t1, (Z.of_nat (length (file_of conf t1 :: tried))).
           rewrite <- Hid. split; [done|]. split; [cbn [length]; lia|]. split; [apply Hmv|]. split; [done|].
           split; apply Hmv.
        -- rewrite Hfiles. destruct (Htr n Hn) as (? & t2 & j & ? & ? & ? & Hidx & ?). split; [done|].
           exists t2, j. rewrite (mv_index _ _ _ Hmv). cbn [length]. repeat (split; [done || lia|]). done.
    + rewrite Hfiles. cbn [length]. lia.
    + cbn [length]. lia.
    + exists r, t', s'. split; [done|]. destruct Hc as [Hcore' Hk Hd' Hc32 Hok Hdone]. split; try done.
      * by etrans.
      * unfold files_kept. by rewrite <- Hfiles.
      * intros Hr. destruct (Hok Hr) as (Hm & Hi & Hno & Hyes). rewrite Hfiles in Hno.
        split; [by eapply moved_to_trans|done].
      * intros Hs. apply Hdone, Hsys, Hs.
  - destruct (trunk_init_file_spec (file_of conf t1) s1) as (r & s' & Heq' & Hcore' & Hk & Hd' & Hc' & Hi' & Hr & Hdone).
    { by rewrite Hfiles. }
    rewrite (bind_eq _ _ _ _ _ Heq'). exists r, t1, s'. split; [done|]. split.
    + by etrans.
    + unfold files_kept. by rewrite <- Hfiles.
    + by rewrite Hd'.
    + by rewrite Hc'.
    + intros Hr0. rewrite Hi', Hini. split; [|split; [|split; [done|auto]]].
      * by rewrite (mv_id _ _ _ Hmv).
      * rewrite (mv_id _ _ _ Hmv). apply int32_range.
    + intros Hs. apply Hdone, Hsys, Hs.
Qed.

(** More rounds than it takes change nothing. *)
Lemma create_next_loop_mono f g t s x s' :
  (f <= g)%nat -> create_next_loop conf f t s = (Some x, s') -> create_next_loop conf g t s = (Some x, s').
Proof.
  revert g t s. induction f as [|f IH]; intros [|g] t s Hfg; [done..|lia|]. cbn [create_next_loop]. unfold bind.
  destruct (next_file_name conf t s) as [[e|[t1 name]] s1]; [done|]. unfold gets. destruct (files s1 !! name); [|done].
  apply IH. lia.
Qed.

(** The loop of [trunk_create_next_file] ends: one round more than there are
    files is enough. *)
Lemma create_next_loop_ends t s :
  dist_ok (path_conf conf) (dist s) -> is_int32 (g_current_trunk_file_id s) ->
  Z.of_nat (size (files s)) < 2 ^ 31 ->
  exists r t' s', create_next_loop conf (S (size (files s))) t s = (Some (r, t'), s') /\ created t s r t' s'.
Proof.
  intros Hd Hid Hsz. apply (create_next_loop_spec (S (size (files s))) t s (g_current_trunk_file_id s) []).
  - done.
  - cbn [length]. rewrite Z.add_0_r. by rewrite int32_id.
  - split; [constructor|]. by intros n ?%not_elem_of_nil.
  - cbn [length]. lia.
  - cbn [length]. lia.
Qed.

Lemma create_next_file_spec t s :
  dist_ok (path_conf conf) (dist s) -> is_int32 (g_current_trunk_file_id s) ->
  Z.of_nat (size (files s)) < 2 ^ 31 ->
  exists r t' s', trunk_create_next_file conf t s = ((r, t'), s') /\ created t s r t' s'.
Proof.
  intros Hd Hid Hsz. destruct (create_next_loop_ends t s Hd Hid Hsz) as (r & t' & s' & Heq & Hc).
  unfold trunk_create_next_file. rewrite bind_gets, (bind_eq _ _ _ _ _ Heq). by exists r, t', s'.
Qed.

(** C33: creating the next trunk file always ends, also when system calls fail:
    the loop over the ids comes to its result within one round more than there
    are files, and [trunk_create_next_file] has that result.  On success the file name
    was not in use before and is now, and the id of the file is the one saved
    in the sync ini file beforehand, so it cannot be given out again after a
    restart; when no file system call fails it succeeds, with a file of
    [g_trunk_file_size] zero bytes.  Existing files keep their content, and the
    memory, the binlog and the free space are not touched. *)
Theorem trunk_create_next_file_correct t s :
  dist_ok (path_conf conf) (dist s) -> is_int32 (g_current_trunk_file_id s) ->
  Z.of_nat (size (files s)) < 2 ^ 31 ->
  let '((r, t'), s') := trunk_create_next_file conf t s in
  (forall rounds, (size (files s) < rounds)%nat -> create_next_loop conf rounds t s = (Some (r, t'), s')) /\
  (mem s' = mem s /\ binlog s' = binlog s /\ g_trunk_total_free_space s' = g_trunk_total_free_space s) /\
  files s ⊆ files s' /\
  (r = 0 -> files s !! file_of conf t' = None /\ is_Some (files s' !! file_of conf t') /\
    tf_id (ti_file t') = ini_trunk_file_id s' /\
    t_offset t' = t_offset t /\ t_size t' = t_size t /\
    store_path_index (ti_path t') = store_path_index (ti_path t)) /\
  (Forall (fun e => e = 0) (syscalls s) -> r = 0 /\
    files s' !! file_of conf t' = Some (replicate (Z.to_nat (g_trunk_file_size conf)) 0)).
Proof.
  intros Hd Hid Hsz. destruct (create_next_loop_ends t s Hd Hid Hsz) as (r & t' & s' & Heq & [[] Hk ? ? Hok Hdone]).
  unfold trunk_create_next_file. rewrite bind_gets, (bind_eq _ _ _ _ _ Heq). cbn.
  split; [intros rounds Hr; by eapply create_next_loop_mono|]. split; [done|]. split; [exact Hk|]. split.
  - intros Hr. destruct (Hok Hr) as ([] & ? & ? & ?). done.
  - intros Hs. destruct (Hdone Hs) as (? & _ & ?). done.
Qed.
End create.
