(* ===== verification/TrunkAlloc.v ===== *)
(** * What the trunk allocator guarantees.

    The operations of [TrunkMem] against their specification: the multiset of
    spaces held ([spaces]).  Freeing adds a space, allocating takes the
    smallest free space that is large enough (or a new trunk file) and holds
    the wanted part, confirming removes the held part.  The spaces stay
    disjoint and [g_trunk_total_free_space] stays their total size. *)

From S2P Require Import Prelude Avl FastCommon TrunkShared FreeBlocks SharedFunc StorePath TrunkBinlog TrunkMem TrunkInv TrunkFiles.

(** A smaller filter that loses an element is shorter. *)
Lemma filter_length_lt {A} (P Q : A -> Prop) `{forall x, Decision (P x)} `{forall x, Decision (Q x)} l a :
  a ∈ l -> Q a -> ~ P a -> (forall x, P x -> Q x) ->
  (length (base.filter P l) < length (base.filter Q l))%nat.
Proof.
  intros Ha HQ HP Himp.
  assert (forall l', length (base.filter P l') <= length (base.filter Q l'))%nat as Hle.
  { induction l' as [|x l' IH]; [done|]. rewrite !filter_cons.
    destruct (decide (P x)), (decide (Q x)); simpl; try lia. naive_solver. }
  induction l as [|x l IH]; [by apply not_elem_of_nil in Ha|]. rewrite !filter_cons.
  apply elem_of_cons in Ha as [<-|Ha].
  - rewrite decide_False, decide_True by done. simpl. specialize (Hle l). lia.
  - specialize (IH Ha). destruct (decide (P x)), (decide (Q x)); simpl; try lia. naive_solver.
Qed.

Section allocator.
Context {T : Type -> Type} `{AvlLaws T} `{FastCommonLaws} (conf : TrunkConf).
Implicit Types (s : TrunkState T) (m : TrunkMemory T) (t : FDFSTrunkFullInfo).

(** The invariant of the allocator. *)
Record state_inv s : Prop := {
  si_mem : tm_inv (mem s);
  si_total : g_trunk_total_free_space s = int64 (space_total (mem s));
  si_trees : length (tree_info_by_sizes (mem s)) = length (store_paths conf);
  si_files : forall b, b ∈ spaces (mem s) -> is_Some (files s !! file_of conf b);
  si_dist : dist_ok (path_conf conf) (dist s);
  si_id : is_int32 (g_current_trunk_file_id s);
}.

(** ** Small steps. *)

(** What a binlog record of [op] for [t] leaves: the result and the log. *)
Definition log_write (bw : bool) (op : Z) t (b : TrunkBinlog) : Z * TrunkBinlog :=
  if bw then trunk_binlog_write (g_current_time conf) op t b else (0, b).

Lemma mem_binlog_add t s :
  trunk_mem_binlog_write conf TRUNK_OP_TYPE_ADD_SPACE t s =
  ((log_write true TRUNK_OP_TYPE_ADD_SPACE t (binlog s)).1,
   set_binlog (log_write true TRUNK_OP_TYPE_ADD_SPACE t (binlog s)).2
     (set_total (int64 (g_trunk_total_free_space s + t_size t)) s)).
Proof.
  unfold trunk_mem_binlog_write. rewrite Z.eqb_refl, bind_modify. unfold in_binlog, log_write. cbn [binlog set_total].
  by destruct (trunk_binlog_write (g_current_time conf) TRUNK_OP_TYPE_ADD_SPACE t (binlog s)).
Qed.

Lemma mem_binlog_del t s :
  trunk_mem_binlog_write conf TRUNK_OP_TYPE_DEL_SPACE t s =
  ((log_write true TRUNK_OP_TYPE_DEL_SPACE t (binlog s)).1,
   set_binlog (log_write true TRUNK_OP_TYPE_DEL_SPACE t (binlog s)).2
     (set_total (int64 (g_trunk_total_free_space s - t_size t)) s)).
Proof.
  unfold trunk_mem_binlog_write. replace (_ =? TRUNK_OP_TYPE_ADD_SPACE) with false by done.
  rewrite Z.eqb_refl, bind_modify. unfold in_binlog, log_write. cbn [binlog set_total].
  by destruct (trunk_binlog_write (g_current_time conf) TRUNK_OP_TYPE_DEL_SPACE t (binlog s)).
Qed.

Lemma in_mem_eq {A} (c : M (TrunkMemory T) A) s a m : c (mem s) = (a, m) -> in_mem c s = (a, set_mem m s).
Proof. unfold in_mem. by intros ->. Qed.

Lemma get_node_eq s p t : nodes (mem s) !! p = Some t -> in_mem (get_node p) s = (t, s).
Proof. intros Ht. unfold in_mem, get_node, gets. rewrite (lookup_total_correct _ _ _ Ht). by destruct s. Qed.

Lemma alloc_node_ok m t :
  no_oom m -> exists es,
  alloc_node t m = (inr (fresh_addr (nodes m)),
    mkMemory (<[fresh_addr (nodes m) := t]> (nodes m)) (tree_info_by_sizes m) (tree_info_by_id m) es) /\
  Forall (fun e => e = 0) es.
Proof.
  intros Hoom. destruct (malloc_errno_eq m) as (e & es & Heq & Hes). destruct (Hes Hoom) as [-> ?].
  exists es. unfold alloc_node. rewrite (bind_eq _ _ _ _ _ Heq). done.
Qed.

(** ** Adding a node to the indexes. *)

(** A space that overlaps one already held is refused and nothing changes;
    any other is held, and counted, whatever the binlog answers. *)
Lemma add_free_block_spec s p t bw :
  tm_inv (mem s) -> no_oom (mem s) -> nodes (mem s) !! p = Some t -> space_ok t ->
  index_ok (mem s) (store_path_index (ti_path t)) -> p ∉ fb_ptrs (mem s) ->
  (trunk_add_free_block_ex conf p bw s = (EEXIST, s) /\ ~ disjoint_from (mem s) t) \/
  (disjoint_from (mem s) t /\ exists m',
    trunk_add_free_block_ex conf p bw s =
      ((log_write bw TRUNK_OP_TYPE_ADD_SPACE t (binlog s)).1,
       set_binlog (log_write bw TRUNK_OP_TYPE_ADD_SPACE t (binlog s)).2
         (set_total (int64 (g_trunk_total_free_space s + t_size t)) (set_mem m' s))) /\
    nodes m' = nodes (mem s) /\ tm_inv m' /\ no_oom m' /\ fb_ptrs m' ≡ₚ p :: fb_ptrs (mem s) /\
    length (tree_info_by_sizes m') = length (tree_info_by_sizes (mem s))).
Proof.
  intros Hinv Hoom Hn Hsp Hi Hp. unfold trunk_add_free_block_ex.
  rewrite (bind_eq _ _ _ _ _ (get_node_eq s p t Hn)), bind_gets.
  destruct (check_duplicate_spec (mem s) t (tm_fb _ Hinv) (so_info _ Hsp)) as [Hr Hdup].
  destruct (decide (trunk_free_block_check_duplicate (mem s) t <> 0)) as [Hne|Heq0].
  { left. destruct Hr as [Hr|Hr]; [done|]. rewrite Hr. split; [done|]. intros Hd.
    destruct (proj1 Hdup Hr) as (q & b & Hq & Hb & Hsf & Ho). by apply (Hd q b). }
  right. assert (disjoint_from (mem s) t) as Hd.
  { intros q b Hq Hb Hsf Ho. destruct Hr as [Hr|Hr]; [|destruct Heq0; by rewrite Hr].
    assert (trunk_free_block_check_duplicate (mem s) t = EEXIST) as Hc by (apply Hdup; eauto 6). by rewrite Hc in Hr. }
  split; [done|].
  destruct (add_both (mem s) p t Hinv Hoom Hn Hsp Hi Hp Hd) as (m1 & m2 & Hlink & Hins & Hnodes & Hinv2 & Hoom2 & Hp2 & Hlen).
  exists m2. split; [|done]. rewrite (bind_eq _ _ _ _ _ (in_mem_eq _ _ _ _ Hlink)), decide_False by naive_solver.
  destruct bw.
  - rewrite (bind_eq _ _ _ _ _ (mem_binlog_add t _)). cbn [binlog set_mem g_trunk_total_free_space].
    destruct (log_write _ _ _ _) as [r b']. cbn [fst snd].
    assert (in_mem (trunk_free_block_insert p) (set_binlog b' (set_total (int64 (g_trunk_total_free_space s + t_size t)) (set_mem m1 s)))
      = (0, set_mem m2 (set_binlog b' (set_total (int64 (g_trunk_total_free_space s + t_size t)) (set_mem m1 s))))) as Hi2
      by (apply in_mem_eq; exact Hins).
    destruct (decide (r = 0)) as [->|]; [rewrite Hi2|rewrite (bind_eq _ _ _ _ _ Hi2)]; done.
  - rewrite bind_assoc, bind_modify, bind_ret, decide_True by done. erewrite in_mem_eq; [|exact Hins]. done.
Qed.

(** ** The invariant with [z] bytes in flight: counted in the total, in no
    index (a node taken out and not yet put back, or a new file). *)
Record flight s (z : Z) : Prop := {
  fl_mem : tm_inv (mem s);
  fl_total : g_trunk_total_free_space s = int64 (space_total (mem s) + z);
  fl_trees : length (tree_info_by_sizes (mem s)) = length (store_paths conf);
  fl_files : forall b, b ∈ spaces (mem s) -> is_Some (files s !! file_of conf b);
  fl_dist : dist_ok (path_conf conf) (dist s);
  fl_id : is_int32 (g_current_trunk_file_id s);
  fl_oom : no_oom (mem s);
}.

Lemma flight_0 s : flight s 0 <-> state_inv s /\ no_oom (mem s).
Proof.
  split.
  - intros []. split; [|done]. split; try done. by rewrite Z.add_0_r in fl_total0.
  - intros [[] ?]. split; try done. by rewrite Z.add_0_r.
Qed.

(** A space inside the configured store paths, of an existing file. *)
Record valid_space s t : Prop := {
  vs_ok : space_ok t;
  vs_index : store_path_index (ti_path t) < Z.of_nat (length (store_paths conf));
  vs_file : is_Some (files s !! file_of conf t);
}.

Lemma valid_index s z t : flight s z -> valid_space s t -> index_ok (mem s) (store_path_index (ti_path t)).
Proof. intros Hf [[_ Hi _ _] Hl _]. unfold index_ok. rewrite (fl_trees _ _ Hf). unfold is_uint8 in Hi. lia. Qed.

Lemma space_total_perm m l : spaces m ≡ₚ l -> space_total m = zsum (t_size <$> l).
Proof. intros Hp. unfold space_total. apply zsum_perm. by rewrite Hp. Qed.

Lemma flight_binlog s z b : flight s z -> flight (set_binlog b s) z.
Proof. intros []. by split. Qed.

Lemma flight_log s z d : flight s z -> flight (set_total (int64 (g_trunk_total_free_space s + d)) s) (z + d).
Proof.
  intros []. split; try done. cbn. rewrite fl_total0, int64_add_l. f_equal. cbn. lia.
Qed.

(** Replacing a node outside the indexes. *)
Lemma flight_nodes s z p (n' : gmap Z FDFSTrunkFullInfo) :
  flight s z -> p ∉ fb_ptrs (mem s) -> (forall q, q <> p -> n' !! q = nodes (mem s) !! q) ->
  flight (set_mem (set_nodes n' (mem s)) s) z /\ spaces (set_nodes n' (mem s)) = spaces (mem s).
Proof.
  intros [Hm Ht Hl Hf Hd Hid Ho] Hp Hn. pose proof (spaces_other (mem s) p n' Hp Hn) as Hs. split; [|done].
  split; cbn; try done.
  - by eapply tm_inv_other.
  - unfold space_total. by rewrite Hs.
  - intros b. rewrite Hs. apply Hf.
Qed.

Lemma tm_inv_mallocs m es :
  tm_inv m -> tm_inv (mkMemory (nodes m) (tree_info_by_sizes m) (tree_info_by_id m) es).
Proof. intros [[] ? ? ?]. by split. Qed.

(** A node from the pool. *)
Lemma alloc_node_flight s z t :
  flight s z ->
  exists m1, in_mem (alloc_node t) s = (inr (fresh_addr (nodes (mem s))), set_mem m1 s) /\
    flight (set_mem m1 s) z /\ nodes m1 = <[fresh_addr (nodes (mem s)) := t]> (nodes (mem s)) /\
    fb_ptrs m1 = fb_ptrs (mem s) /\ spaces m1 = spaces (mem s).
Proof.
  intros Hf. set (p := fresh_addr (nodes (mem s))).
  destruct (alloc_node_ok (mem s) t (fl_oom _ _ Hf)) as (es & Ha & Hes). fold p in Ha.
  eexists. split; [apply in_mem_eq; exact Ha|].
  destruct (flight_nodes s z p (<[p := t]> (nodes (mem s))) Hf) as [Hf1 Hs1].
  { apply fresh_not_held, Hf. } { intros q Hq. by rewrite lookup_insert_ne. }
  split; [|split; [done|split; [done|exact Hs1]]].
  destruct Hf1 as [Hm Ht Hl Hfs Hd Hid Ho]. split; try done. by apply (tm_inv_mallocs _ es) in Hm.
Qed.

(** The result of adding, with the invariant. *)
Lemma add_free_block_flight s z p t bw :
  flight s z -> nodes (mem s) !! p = Some t -> valid_space s t -> p ∉ fb_ptrs (mem s) ->
  (trunk_add_free_block_ex conf p bw s = (EEXIST, s) /\ ~ disjoint_from (mem s) t) \/
  (disjoint_from (mem s) t /\ exists s',
    trunk_add_free_block_ex conf p bw s = ((log_write bw TRUNK_OP_TYPE_ADD_SPACE t (binlog s)).1, s') /\
    binlog s' = (log_write bw TRUNK_OP_TYPE_ADD_SPACE t (binlog s)).2 /\
    nodes (mem s') = nodes (mem s) /\ flight s' z /\ fb_ptrs (mem s') ≡ₚ p :: fb_ptrs (mem s) /\
    spaces (mem s') ≡ₚ t :: spaces (mem s) /\ files s' = files s /\ trunk_init_flag s' = trunk_init_flag s).
Proof.
  intros Hf Hn Hv Hp.
  destruct (add_free_block_spec s p t bw (fl_mem _ _ Hf) (fl_oom _ _ Hf) Hn (vs_ok _ _ Hv) (valid_index _ _ _ Hf Hv) Hp)
    as [Hl|(Hd & m' & Heq & Hnodes & Hinv & Hoom & Hp' & Hlen)]; [by left|right].
  split; [done|]. eexists. split; [exact Heq|]. split; [done|]. cbn [mem set_binlog set_total set_mem].
  pose proof (spaces_add _ _ _ _ Hnodes Hp' Hn) as Hs.
  split; [done|]. split; [|done]. destruct Hf. split; cbn; try done.
  - rewrite fl_total0, int64_add_l, (space_total_perm _ _ Hs), fmap_cons, zsum_cons. unfold space_total. f_equal. lia.
  - congruence.
  - intros b. rewrite Hs. intros [->|Hb]%elem_of_cons; [apply Hv|by apply fl_files0].
Qed.

Lemma not_disjoint m t :
  tm_inv m -> info_ok t -> ~ disjoint_from m t -> exists b, b ∈ spaces m /\ same_file b t /\ overlaps t b.
Proof.
  intros Hinv Ht Hnd. destruct (check_duplicate_spec m t (tm_fb _ Hinv) Ht) as [Hr Hd].
  destruct (decide (trunk_free_block_check_duplicate m t = EEXIST)) as [E|E].
  - destruct (proj1 Hd E) as (p & b & Hp & Hb & ?). exists b. split; [|done]. apply elem_of_spaces; eauto.
  - destruct Hnd. intros q b Hq Hb Hsf Ho. apply E, Hd. eauto 6.
Qed.

(** Freeing a space: every outcome. *)
Lemma free_space_flight s t bw :
  flight s 0 -> valid_space s t -> g_slot_min_size conf <= t_size t ->
  g_if_trunker_self conf = true -> (trunk_init_flag s = STORAGE_TRUNK_INIT_FLAG_DONE \/ bw = false) ->
  exists r s', trunk_free_space conf t bw s = (r, s') /\ flight s' 0 /\ trunk_init_flag s' = trunk_init_flag s /\ files s' = files s /\
  ((r = EEXIST /\ spaces (mem s') = spaces (mem s) /\ binlog s' = binlog s /\
    exists b, b ∈ spaces (mem s) /\ same_file b t /\ overlaps t b) \/
   ((r, binlog s') = log_write bw TRUNK_OP_TYPE_ADD_SPACE (with_st FDFS_TRUNK_STATUS_FREE t) (binlog s) /\
    spaces (mem s') ≡ₚ with_st FDFS_TRUNK_STATUS_FREE t :: spaces (mem s) /\
    forall b, b ∈ spaces (mem s) -> same_file b t -> ~ overlaps t b)).
Proof.
  intros Hf Hv Hmin Hself Hflag.
  unfold trunk_free_space. rewrite Hself. cbn [negb]. rewrite bind_gets.
  replace (negb (trunk_init_flag s =? STORAGE_TRUNK_INIT_FLAG_DONE) && bw) with false
    by (destruct Hflag as [-> | ->]; [by destruct bw|by rewrite andb_false_r]).
  rewrite (proj2 (Z.ltb_ge _ _)) by lia.
  unfold free_space_by_trunk. set (t1 := with_st FDFS_TRUNK_STATUS_FREE t). set (p := fresh_addr (nodes (mem s))).
  destruct (alloc_node_flight s 0 t1 Hf) as (m1 & Ha & Hf1 & Hn1 & Hp1 & Hs1). fold p in Ha, Hn1.
  rewrite bind_assoc, (bind_eq _ _ _ _ _ Ha). set (s1 := set_mem m1 s) in *.
  assert (valid_space s1 t1) as Hv1 by (destruct Hv as [[[] ? ? ?] ? ?]; by split).
  destruct (add_free_block_flight s1 0 p t1 bw Hf1) as [[Heq Hnd]|(Hd & s2 & Heq & Hb & _ & Hf2 & _ & Hs2 & Hfi & Hfl)].
  { cbn. by rewrite Hn1, lookup_insert_eq. } { done. } { cbn. rewrite Hp1. apply fresh_not_held, Hf. }
  - rewrite bind_assoc, (bind_eq _ _ _ _ _ Heq), bind_ret. cbn [fst]. exists EEXIST, s1.
    do 4 (split; [done|]). left. split; [done|]. split; [done|]. split; [done|].
    rewrite <- Hs1. apply not_disjoint; [apply (fl_mem _ _ Hf1)|apply Hv1|done].
  - rewrite bind_assoc, (bind_eq _ _ _ _ _ Heq), bind_ret. cbn [fst]. eexists _, s2.
    split; [reflexivity|]. split; [done|]. split; [done|]. split; [done|]. right. rewrite Hb. split; [by destruct (log_write _ _ _ _)|].
    change (mem s1) with m1 in *. rewrite Hs2, Hs1. split; [done|]. rewrite <- Hs1.
    apply (disjoint_from_spaces m1 t1); [apply (fl_mem _ _ Hf1)|done].
Qed.

(** C11: freeing a space of an existing trunk file, while memory can be
    allocated.  A server that is not the trunk server, or is not ready and is
    asked to log, refuses with EINVAL, and a space smaller than the minimal
    slot is dropped; nothing changes in both cases.  Otherwise a space that
    shares a byte with one already held is refused with EEXIST and nothing held
    changes; any other becomes free space and is counted, and logged when
    asked to.  The invariant (one index entry per space in each tree, disjoint
    spaces, exact total) holds afterwards, also when the binlog write fails. *)
Theorem trunk_free_space_correct s t bw :
  state_inv s -> no_oom (mem s) -> valid_space s t ->
  let '(r, s') := trunk_free_space conf t bw s in
  state_inv s' /\ no_oom (mem s') /\
  (if negb (g_if_trunker_self conf) || (bw && negb (trunk_init_flag s =? STORAGE_TRUNK_INIT_FLAG_DONE)) then r = EINVAL /\ s' = s
   else if t_size t <? g_slot_min_size conf then r = 0 /\ s' = s
   else
     (r = EEXIST /\ spaces (mem s') = spaces (mem s) /\ binlog s' = binlog s /\
      exists b, b ∈ spaces (mem s) /\ same_file b t /\ overlaps t b) \/
     ((r, binlog s') = log_write bw TRUNK_OP_TYPE_ADD_SPACE (with_st FDFS_TRUNK_STATUS_FREE t) (binlog s) /\
      spaces (mem s') ≡ₚ with_st FDFS_TRUNK_STATUS_FREE t :: spaces (mem s) /\
      forall b, b ∈ spaces (mem s) -> same_file b t -> ~ overlaps t b)).
Proof.
  intros Hinv Hoom Hv. destruct (g_if_trunker_self conf) eqn:Hself; [cbn [negb orb]|unfold trunk_free_space; by rewrite Hself].
  destruct (bw && _) eqn:Hflag; [unfold trunk_free_space; rewrite Hself; cbn [negb]; by rewrite bind_gets, andb_comm, Hflag|].
  destruct (Z.ltb_spec (t_size t) (g_slot_min_size conf)) as [Hlt|Hmin].
  { unfold trunk_free_space. rewrite Hself. cbn [negb]. by rewrite bind_gets, andb_comm, Hflag, (proj2 (Z.ltb_lt _ _) Hlt). }
  destruct (free_space_flight s t bw (proj2 (flight_0 s) (conj Hinv Hoom)) Hv Hmin Hself)
    as (r & s' & -> & Hf & _ & _ & Hcase); [destruct bw; [left; lia|by right]|]. apply flight_0 in Hf as [? ?]. done.
Qed.

(** ** Finding and removing a node. *)
Lemma chain_find_spec (n : gmap Z FDFSTrunkFullInfo) (f : FDFSTrunkFullInfo -> bool) l :
  match chain_find n f l with
  | Some (l1, p, l2) => l = l1 ++ p :: l2 /\ f (n !!! p) = true
  | None => forall p, p ∈ l -> f (n !!! p) = false
  end.
Proof.
  induction l as [|p l IH]; cbn; [by intros p ?%not_elem_of_nil|].
  destruct (f (n !!! p)) eqn:E; [done|]. destruct (chain_find n f l) as [[[l1 q] l2]|].
  - destruct IH as [-> ?]. done.
  - intros q [->|Hq]%elem_of_cons; auto.
Qed.

Lemma size_tree_of_nat m i tr : tree_info_by_sizes m !! Z.to_nat i = Some tr -> size_tree i m = tr.
Proof. intros Hl. unfold size_tree, znth. by rewrite nth_lookup, Hl. Qed.

(** The slot of a space held. *)
Lemma ptr_slot m p t :
  tm_inv m -> index_ok m (store_path_index (ti_path t)) -> p ∈ fb_ptrs m -> nodes m !! p = Some t ->
  exists sl, sl ∈ avl_walk (size_tree (store_path_index (ti_path t)) m) /\ sl_size sl = t_size t /\ p ∈ sl_head sl.
Proof.
  intros Hinv Hi Hp Hn. rewrite <- (tm_same _ Hinv) in Hp. unfold sz_ptrs, sz_ptrs_of in Hp.
  apply list_elem_of_In, in_concat in Hp as (l & (tr & <- & Htr)%in_map_iff & Hp).
  apply list_elem_of_In, elem_of_sz_of in Hp as (sl & Hsl & Hp).
  apply list_elem_of_In, list_elem_of_lookup in Htr as (i & Htr).
  pose proof (tk_slots _ _ _ (tm_trees _ Hinv i tr Htr)) as Hf. rewrite Forall_forall in Hf.
  destruct (sk_nodes _ _ _ (Hf sl Hsl) p Hp) as (t' & Hn' & Hsz & Hidx & _). simplify_eq.
  rewrite size_tree_of_nat with (tr := tr); [|by rewrite Hidx, Nat2Z.id]. eauto.
Qed.

(** A node that the chain search finds leaves both indexes. *)
Lemma take_node_flight s z i sl l1 l2 p :
  flight s z -> index_ok (mem s) i -> sl ∈ avl_walk (size_tree i (mem s)) -> sl_head sl = l1 ++ p :: l2 ->
  exists t m1 m2, nodes (mem s) !! p = Some t /\
    unlink_node i sl (l1 ++ l2) (mem s) = (tt, m1) /\ nodes m1 = nodes (mem s) /\
    trunk_free_block_delete t m1 = (0, m2) /\
    flight (set_mem m2 s) (z + t_size t) /\ nodes m2 = nodes (mem s) /\
    (p ∉ fb_ptrs m2) /\ spaces (mem s) ≡ₚ t :: spaces m2 /\
    t_size t = sl_size sl /\ store_path_index (ti_path t) = i /\ space_ok t /\
    fb_ptrs (mem s) ≡ₚ p :: fb_ptrs m2.
Proof.
  intros Hf Hi (a & b & Hw)%list_elem_of_split Hsl. pose proof (fl_mem _ _ Hf) as Hinv.
  assert (sl_head sl ≡ₚ p :: l1 ++ l2) as Hperm by (rewrite Hsl; by rewrite Permutation_middle).
  pose proof (size_tree_ok _ _ (tm_trees _ Hinv) Hi) as [_ Hslots].
  rewrite Hw, Forall_app, Forall_cons in Hslots. destruct Hslots as (_ & Hso & _).
  destruct (sk_nodes _ _ _ Hso p) as (t & Hn & Hsz & Hidx & Hsp); [rewrite Hsl; set_solver|].
  destruct (remove_both (mem s) i sl p t (l1 ++ l2) a b Hinv (fl_oom _ _ Hf) Hi Hw Hperm Hn)
    as (m1 & m2 & Hun & Hn1 & Hdel & Hn2 & Hinv2 & Hoom2 & Hp2 & Hlen).
  pose proof (spaces_add m2 (mem s) p t (eq_sym Hn2) Hp2) as Hs. rewrite Hn2 in Hs. specialize (Hs Hn).
  exists t, m1, m2. repeat (split; [done|]). split; [|split; [done|split; [|done]]].
  - destruct Hf as [_ Ht Hl Hfs ? ? ?]. split; cbn; try done.
    + rewrite Ht, (space_total_perm _ _ Hs), fmap_cons, zsum_cons. unfold space_total. f_equal. lia.
    + congruence.
    + intros x Hx. apply Hfs. rewrite Hs. by right.
  - pose proof (tm_nodup _ Hinv) as Hnd. rewrite Hp2 in Hnd. by apply NoDup_cons in Hnd as [? _].
Qed.

(** The search of [trunk_delete_space_ex] and [trunk_restore_node]: the
    space is held exactly when a node of its chain equals it. *)
Lemma find_node m t :
  tm_inv m -> index_ok m (store_path_index (ti_path t)) ->
  let tree := size_tree (store_path_index (ti_path t)) m in
  match avl_find storage_trunk_node_compare_size tree (size_target (t_size t)) with
  | None => t ∉ spaces m
  | Some sl =>
      sl ∈ avl_walk tree /\
      match chain_find (nodes m) (fun x => bool_decide (x = t)) (sl_head sl) with
      | None => t ∉ spaces m
      | Some (l1, p, l2) => sl_head sl = l1 ++ p :: l2 /\ nodes m !! p = Some t
      end
  end.
Proof.
  intros Hinv Hi tree. pose proof (size_tree_ok _ _ (tm_trees _ Hinv) Hi) as [Hs Hslots]. fold tree in Hs, Hslots.
  pose proof (size_find tree (t_size t) Hs) as Hfind. destruct (avl_find _ _ _) as [sl|].
  2:{ intros (p & Hp & Hn)%elem_of_spaces; [|done].
      destruct (ptr_slot m p t Hinv Hi Hp Hn) as (sl & Hsl & Hsz & _).
      rewrite Forall_forall in Hfind. by apply (Hfind sl Hsl). }
  destruct Hfind as (Hsz & a & b & Hw & Ha & Hb). rewrite Forall_forall in Ha, Hb, Hslots.
  assert (sl ∈ avl_walk tree) as Hin by (rewrite Hw; set_solver). split; [done|].
  pose proof (chain_find_spec (nodes m) (fun x => bool_decide (x = t)) (sl_head sl)) as Hc.
  destruct (chain_find _ _ _) as [[[l1 p] l2]|].
  - destruct Hc as [Hsl Heq%bool_decide_eq_true]. split; [done|].
    destruct (sk_nodes _ _ _ (Hslots sl Hin) p) as (t' & Hn & _); [rewrite Hsl; set_solver|].
    by rewrite (deref_lookup _ _ _ Hn) in Heq; subst.
  - intros (p & Hp & Hn)%elem_of_spaces; [|done].
    destruct (ptr_slot m p t Hinv Hi Hp Hn) as (sl' & Hsl' & Hsz' & Hp'). fold tree in Hsl'.
    assert (sl' = sl) as ->.
    { rewrite Hw in Hsl'.
      apply elem_of_app in Hsl' as [Hi'|[->|Hi']%elem_of_cons]; [by destruct (Ha sl' Hi')|done|by destruct (Hb sl' Hi')]. }
    specialize (Hc p Hp'). cbv beta in Hc. rewrite (deref_lookup _ _ _ Hn), bool_decide_true in Hc; done.
Qed.

(** Deleting a space: exactly the space named leaves; an unknown one is
    ENOENT and nothing changes. *)
Lemma delete_space_flight s t bw :
  flight s 0 -> index_ok (mem s) (store_path_index (ti_path t)) ->
  ((t ∉ spaces (mem s)) /\ trunk_delete_space_ex conf t bw s = (ENOENT, s)) \/
  (exists s', trunk_delete_space_ex conf t bw s = ((log_write bw TRUNK_OP_TYPE_DEL_SPACE t (binlog s)).1, s') /\
    binlog s' = (log_write bw TRUNK_OP_TYPE_DEL_SPACE t (binlog s)).2 /\
    flight s' 0 /\ spaces (mem s) ≡ₚ t :: spaces (mem s') /\ files s' = files s /\
    trunk_init_flag s' = trunk_init_flag s).
Proof.
  intros Hf Hi. unfold trunk_delete_space_ex. rewrite bind_gets.
  pose proof (find_node (mem s) t (fl_mem _ _ Hf) Hi) as Hfind. cbv zeta in Hfind.
  destruct (avl_find _ _ _) as [sl|]; [|by left]. destruct Hfind as [Hin Hc]. rewrite bind_gets.
  destruct (chain_find _ _ _) as [[[l1 p] l2]|]; [|by left]. destruct Hc as [Hsl Hn]. right.
  destruct (take_node_flight s 0 _ sl l1 l2 p Hf Hi Hin Hsl)
    as (t' & m1 & m2 & Hn' & Hun & Hn1 & Hdel & Hf2 & Hn2 & Hp2 & Hs & _). simplify_eq.
  rewrite (bind_eq _ _ _ _ _ (in_mem_eq _ _ _ _ Hun)).
  assert (nodes m1 !! p = Some t) as Hnp by (by rewrite Hn1).
  rewrite (bind_eq _ _ _ _ _ (get_node_eq (set_mem m1 s) p t Hnp)).
  assert (in_mem (trunk_free_block_delete t) (set_mem m1 s) = (0, set_mem m2 s)) as Hd
    by (rewrite (in_mem_eq _ (set_mem m1 s) _ _ Hdel); done).
  rewrite (bind_eq _ _ _ _ _ Hd).
  set (s3 := set_binlog (log_write bw TRUNK_OP_TYPE_DEL_SPACE t (binlog s)).2
    (set_total (int64 (g_trunk_total_free_space s - t_size t)) (set_mem m2 s))).
  assert ((if bw then trunk_mem_binlog_write conf TRUNK_OP_TYPE_DEL_SPACE t
           else bind (modify (fun s0 => set_total (int64 (g_trunk_total_free_space s0 - t_size t)) s0)) (fun _ => ret 0))
          (set_mem m2 s) = ((log_write bw TRUNK_OP_TYPE_DEL_SPACE t (binlog s)).1, s3)) as Hlog.
  { destruct bw; [apply mem_binlog_del|done]. }
  rewrite (bind_eq _ _ _ _ _ Hlog).
  assert (flight s3 0) as Hf3.
  { apply flight_binlog. replace 0 with (0 + t_size t + - t_size t) by lia.
    apply (flight_log (set_mem m2 s) (0 + t_size t) (- t_size t) Hf2). }
  destruct (flight_nodes s3 0 p (delete p (nodes m2)) Hf3 Hp2) as [Hf4 Hs4].
  { intros q Hq. by rewrite lookup_delete_ne. }
  eexists. split; [reflexivity|]. split; [done|]. split; [exact Hf4|]. split; [|done].
  etrans; [exact Hs|]. f_equiv. change (spaces m2) with (spaces (mem s3)). rewrite <- Hs4. done.
Qed.

(** Another status for a space held. *)
Lemma update_node_flight s z p t t' :
  flight s z -> p ∈ fb_ptrs (mem s) -> nodes (mem s) !! p = Some t -> same_place t t' ->
  let m' := set_nodes (<[p := t']> (nodes (mem s))) (mem s) in
  flight (set_mem m' s) z /\ exists rest, spaces (mem s) ≡ₚ t :: rest /\ spaces m' ≡ₚ t' :: rest.
Proof.
  intros Hf Hp Hn Hsp m'. pose proof (fl_mem _ _ Hf) as Hinv.
  assert (tm_inv m') as Hinv'.
  { apply tm_inv_nodes; [done|]. intros q Hq. destruct (decide (q = p)) as [->|].
    - exists t, t'. by rewrite lookup_insert_eq.
    - destruct (fb_ptr_live _ q Hinv Hq) as (x & Hx & _). exists x, x. by rewrite lookup_insert_ne. }
  apply list_elem_of_split in Hp as (l1 & l2 & Hp).
  assert (fb_ptrs (mem s) ≡ₚ p :: l1 ++ l2) as Hperm by (rewrite Hp; by rewrite Permutation_middle).
  pose proof (tm_nodup _ Hinv) as Hnd. rewrite Hperm in Hnd. apply NoDup_cons in Hnd as [Hnot _].
  assert (spaces (mem s) ≡ₚ t :: deref (nodes (mem s)) (l1 ++ l2)) as Hs.
  { unfold spaces. rewrite (deref_perm _ _ _ Hperm). cbn. by rewrite (deref_lookup _ _ _ Hn). }
  assert (spaces m' ≡ₚ t' :: deref (nodes (mem s)) (l1 ++ l2)) as Hs'.
  { unfold spaces. change (fb_ptrs m') with (fb_ptrs (mem s)). rewrite (deref_perm _ _ _ Hperm). cbn.
    rewrite lookup_total_insert_eq. f_equiv. unfold deref. erewrite list_fmap_ext; [done|]. intros k q Hq. cbn.
    rewrite lookup_total_insert_ne; [done|]. intros ->. apply Hnot, list_elem_of_lookup. eauto. }
  split; [|by exists (deref (nodes (mem s)) (l1 ++ l2))].
  destruct Hf as [_ Ht Hl Hfs ? ? ?]. split; cbn; try done.
  - rewrite Ht, (space_total_perm _ _ Hs), (space_total_perm _ _ Hs'), !fmap_cons, !zsum_cons.
    destruct Hsp as [_ Hfile]. unfold t_size. by rewrite Hfile.
  - intros b Hb. rewrite Hs' in Hb. apply elem_of_cons in Hb as [->|Hb].
    + replace (file_of conf t') with (file_of conf t); [apply Hfs; rewrite Hs; by left|].
      destruct Hsp as [Hpath Hfile]. unfold file_of, trunk_get_full_filename_ex. by rewrite Hpath, Hfile.
    + apply Hfs. rewrite Hs. by right.
Qed.

Lemma restore_node_flight s t :
  flight s 0 -> index_ok (mem s) (store_path_index (ti_path t)) ->
  ((t ∉ spaces (mem s)) /\ in_mem (trunk_restore_node t) s = (ENOENT, s)) \/
  (exists s' rest, in_mem (trunk_restore_node t) s = (0, s') /\ flight s' 0 /\ binlog s' = binlog s /\
    files s' = files s /\ trunk_init_flag s' = trunk_init_flag s /\
    spaces (mem s) ≡ₚ t :: rest /\ spaces (mem s') ≡ₚ with_st FDFS_TRUNK_STATUS_FREE t :: rest).
Proof.
  intros Hf Hi. unfold trunk_restore_node.
  pose proof (find_node (mem s) t (fl_mem _ _ Hf) Hi) as Hfind. cbv zeta in Hfind.
  unfold in_mem. rewrite bind_gets. destruct (avl_find _ _ _) as [sl|]; [|left; split; [done|by destruct s]].
  destruct Hfind as [Hin Hc]. rewrite bind_gets.
  destruct (chain_find _ _ _) as [[[l1 p] l2]|]; [|left; split; [done|by destruct s]].
  destruct Hc as [Hsl Hn]. right.
  destruct (take_node_flight s 0 _ sl l1 l2 p Hf Hi Hin Hsl)
    as (t' & m1 & m2 & Hn' & _ & _ & _ & _ & Hn2 & _ & Hs & _). simplify_eq.
  assert (p ∈ fb_ptrs (mem s)) as Hp.
  { rewrite <- (tm_same _ (fl_mem _ _ Hf)). unfold sz_ptrs, sz_ptrs_of. apply list_elem_of_In, in_concat.
    exists (tree_ptrs (size_tree (store_path_index (ti_path t)) (mem s))). rewrite <- !list_elem_of_In. split.
    - apply list_elem_of_In, in_map, list_elem_of_In. eapply list_elem_of_lookup_2, size_tree_lookup, Hi.
    - apply elem_of_sz_of. exists sl. rewrite Hsl. set_solver. }
  destruct (update_node_flight s 0 p t (with_st FDFS_TRUNK_STATUS_FREE t) Hf Hp Hn ltac:(done)) as [Hf' (rest & H1' & H2')].
  eexists _, rest. cbn. rewrite (deref_lookup _ _ _ Hn). split; [reflexivity|]. split; [exact Hf'|]. done.
Qed.

(** C12: confirming an allocation.  The answer of the client decides: with
    status 0 (or EEXIST, the space is occupied) the held space leaves the
    allocator and the removal is logged; with any other status it becomes
    free again.  A space that is not on hold is ENOENT and nothing changes. *)
Theorem trunk_alloc_confirm_correct s t status :
  state_inv s -> no_oom (mem s) -> STORAGE_TRUNK_CHECK_STATUS conf s = true ->
  0 <= store_path_index (ti_path t) < Z.of_nat (length (store_paths conf)) ->
  let held := with_st FDFS_TRUNK_STATUS_HOLD t in
  let '(r, s') := trunk_alloc_confirm conf t status s in
  state_inv s' /\ no_oom (mem s') /\
  ((held ∈ spaces (mem s) /\ (status = 0 \/ status = EEXIST) /\
    (r, binlog s') = log_write true TRUNK_OP_TYPE_DEL_SPACE held (binlog s) /\
    spaces (mem s) ≡ₚ held :: spaces (mem s')) \/
   (held ∈ spaces (mem s) /\ status <> 0 /\ status <> EEXIST /\ r = 0 /\ binlog s' = binlog s /\
    exists rest, spaces (mem s) ≡ₚ held :: rest /\ spaces (mem s') ≡ₚ with_st FDFS_TRUNK_STATUS_FREE t :: rest) \/
   ((held ∉ spaces (mem s)) /\ r = ENOENT /\ s' = s)).
Proof.
  intros Hinv Hoom Hst Hidx held. assert (flight s 0) as Hf by (by apply flight_0).
  assert (index_ok (mem s) (store_path_index (ti_path held))) as Hi
    by (unfold index_ok; rewrite (si_trees _ Hinv); done).
  unfold trunk_alloc_confirm. rewrite bind_gets, Hst. cbn [negb]. fold held.
  destruct ((status =? 0) || (status =? EEXIST)) eqn:E.
  - destruct (delete_space_flight s held true Hf Hi) as [[Hno ->]|(s' & -> & Hb & Hf' & Hs & _)].
    + split; [done|]. split; [done|]. auto.
    + apply flight_0 in Hf' as [? ?]. split; [done|]. split; [done|]. left.
      rewrite Hb, Hs. split; [by left|]. split; [lia|]. by destruct (log_write _ _ _ _).
  - destruct (restore_node_flight s held Hf Hi) as [[Hno ->]|(s' & rest & -> & Hf' & Hb & _ & _ & Hs & Hs')].
    + split; [done|]. split; [done|]. auto.
    + apply flight_0 in Hf' as [? ?]. split; [done|]. split; [done|]. right. left.
      rewrite Hs. split; [by left|]. split; [lia|]. split; [lia|]. split; [done|]. split; [done|]. by exists rest.
Qed.

(** ** The search for free space. *)

(** No free space of [lo] to [hi - 1] bytes in the tree. *)
Definition none_free (n : gmap Z FDFSTrunkFullInfo) (l : list FDFSTrunkSlot) (lo hi : Z) : Prop :=
  forall sl p, sl ∈ l -> lo <= sl_size sl < hi -> p ∈ sl_head sl -> is_free (n !!! p) = false.

Lemma alloc_search_spec n (tr : T FDFSTrunkSlot) size fuel :
  ascending storage_trunk_node_compare_size (avl_walk tr) ->
  (length (base.filter (fun sl => (size <= sl_size sl)%Z) (avl_walk tr)) < fuel)%nat ->
  exists r, alloc_search fuel n tr size = Some r /\
    match r with
    | Some (sl, (l1, p, l2)) =>
        sl ∈ avl_walk tr /\ size <= sl_size sl /\ sl_head sl = l1 ++ p :: l2 /\ is_free (n !!! p) = true /\
        none_free n (avl_walk tr) size (sl_size sl)
    | None => forall hi, none_free n (avl_walk tr) size hi
    end.
Proof.
  intros Hs. revert size. induction fuel as [|f IH]; intros size Hlen; [lia|]. cbn [alloc_search].
  rewrite avl_find_ge_spec by (apply compare_size_ordered || done).
  destruct (ref_find_ge _ _ _) as [sl|] eqn:E.
  2:{ apply ref_find_ge_None in E. exists None. split; [done|]. intros hi sl p Hsl Hr _.
      rewrite Forall_forall in E. specialize (E sl Hsl). unfold storage_trunk_node_compare_size in E. cbn in E. lia. }
  destruct (ref_find_ge_spec _ _ _ _ E) as (a & b & Hw & Ha & Hge).
  unfold storage_trunk_node_compare_size in Ha, Hge. cbn in Ha, Hge. rewrite Forall_forall in Ha.
  assert (sl ∈ avl_walk tr) as Hin by (rewrite Hw; set_solver).
  (* slots before [sl] are too small *)
  assert (forall x, x ∈ avl_walk tr -> size <= sl_size x -> sl_size sl <= sl_size x) as Hmin.
  { intros x Hx Hsz. rewrite Hw in Hx, Hs. apply elem_of_app in Hx as [Hx|[->|Hx]%elem_of_cons]; [|lia|].
    - specialize (Ha x Hx). lia.
    - unfold ascending in Hs. apply StronglySorted_app in Hs as (_ & _ & Hs2).
      inversion_clear Hs2 as [|? ? _ Hf]. rewrite Forall_forall in Hf. specialize (Hf x Hx).
      unfold storage_trunk_node_compare_size in Hf. lia. }
  pose proof (chain_find_spec n is_free (sl_head sl)) as Hc.
  destruct (chain_find n is_free (sl_head sl)) as [[[l1 p] l2]|].
  { exists (Some (sl, (l1, p, l2))). split; [done|]. destruct Hc as [? ?]. split; [done|]. split; [lia|].
    split; [done|]. split; [done|]. intros x q Hx Hr _. specialize (Hmin x Hx ltac:(lia)). lia. }
  assert (forall hi, none_free n (avl_walk tr) (sl_size sl + 1) hi -> none_free n (avl_walk tr) size hi) as Hext.
  { intros hi Hnf x q Hx Hr Hq. pose proof (Hmin x Hx ltac:(lia)).
    destruct (decide (sl_size x = sl_size sl)) as [Hsz|]; [|apply (Hnf x q Hx); [lia|done]].
    assert (x = sl) as ->; [|by apply Hc].
    rewrite Hw in Hx, Hs. unfold ascending in Hs. apply StronglySorted_app in Hs as (Hxx & _ & Hs2).
    inversion_clear Hs2 as [|? ? _ Hf]. rewrite Forall_forall in Hf. unfold storage_trunk_node_compare_size in *.
    apply elem_of_app in Hx as [Hx|[->|Hx]%elem_of_cons]; [|done|].
    - specialize (Hxx x sl Hx ltac:(by left)). lia.
    - specialize (Hf x Hx). lia. }
  destruct (IH (sl_size sl + 1)) as (r & Hr & Hpost).
  { enough (length (base.filter (fun x => (sl_size sl + 1 <= sl_size x)%Z) (avl_walk tr)) <
      length (base.filter (fun x => (size <= sl_size x)%Z) (avl_walk tr)))%nat by lia.
    apply filter_length_lt with sl; [done|lia|lia|]. intros x. lia. }
  exists r. split; [done|]. destruct r as [[sl' [[l1 p] l2]]|].
  - destruct Hpost as (? & ? & ? & ? & ?). split; [done|]. split; [lia|]. auto.
  - intros hi. apply Hext, Hpost.
Qed.

(** ** A new trunk file. *)
Lemma flight_created s z t r t' s' : flight s z -> created conf t s r t' s' -> flight s' z.
Proof.
  intros [Hi Ht Hl Hfs Hd Hid Ho] [[Hm Ht' Hfl Hb] Hk Hd' Hc _ _]. split; rewrite ?Hm; try congruence; try done.
  intros b Hin. eapply files_kept_exist; [exact Hk|auto].
Qed.

Lemma put_node_flight s z p t :
  flight s z -> p ∉ fb_ptrs (mem s) ->
  let s' := set_mem (set_nodes (<[p := t]> (nodes (mem s))) (mem s)) s in
  in_mem (put_node p t) s = (tt, s') /\ flight s' z /\ spaces (mem s') = spaces (mem s) /\
  fb_ptrs (mem s') = fb_ptrs (mem s) /\ nodes (mem s') !! p = Some t.
Proof.
  intros Hf Hp s'. split; [done|].
  destruct (flight_nodes s z p (<[p := t]> (nodes (mem s))) Hf Hp) as [Hf' Hs'].
  { intros q Hq. by rewrite lookup_insert_ne. }
  split; [done|]. split; [done|]. split; [done|]. cbn. by rewrite lookup_insert_eq.
Qed.

Lemma free_node_flight s z p :
  flight s z -> p ∉ fb_ptrs (mem s) ->
  let s' := set_mem (set_nodes (delete p (nodes (mem s))) (mem s)) s in
  in_mem (free_node p) s = (tt, s') /\ flight s' z /\ spaces (mem s') = spaces (mem s).
Proof.
  intros Hf Hp s'. split; [done|].
  destruct (flight_nodes s z p (delete p (nodes (mem s))) Hf Hp) as [Hf' Hs'].
  { intros q Hq. by rewrite lookup_delete_ne. }
  done.
Qed.

(** The same path and id name the same file. *)
Lemma same_file_of a b : same_file a b -> file_of conf a = file_of conf b.
Proof.
  unfold same_file, FILL_FILE_IDENTIFIER, file_of, trunk_get_full_filename_ex. intros [= -> ->]. done.
Qed.

(** A node taken out of the indexes (or never in): what is known of it. *)
Record taken s (p : Z) t : Prop := {
  tn_node : nodes (mem s) !! p = Some t;
  tn_out : p ∉ fb_ptrs (mem s);
  tn_valid : valid_space s t;
  tn_free : disjoint_from (mem s) t;
}.

Lemma create_trunk_file_flight s i err0 :
  conf_ok conf -> flight s 0 -> 0 <= i < Z.of_nat (length (store_paths conf)) ->
  Z.of_nat (size (files s)) < 2 ^ 31 ->
  exists e op s', trunk_create_trunk_file conf i err0 s = ((e, op), s') /\
    trunk_init_flag s' = trunk_init_flag s /\ files_kept s s' /\ spaces (mem s') = spaces (mem s) /\
    match op with
    | None => e <> 0 /\ flight s' 0 /\ binlog s' = binlog s /\ ~ syscalls_ok s
    | Some p => exists t, taken s' p t /\ flight s' (t_size t) /\
        t_offset t = 0 /\ t_size t = g_trunk_file_size conf /\ store_path_index (ti_path t) = i /\
        ti_status t = FDFS_TRUNK_STATUS_FREE /\ files s !! file_of conf t = None /\
        binlog s' = (log_write true TRUNK_OP_TYPE_ADD_SPACE t (binlog s)).2 /\
        (syscalls_ok s -> syscalls_ok s')
    end.
Proof.
  intros Hconf Hf Hi Hsz. unfold trunk_create_trunk_file. set (p := fresh_addr (nodes (mem s))).
  destruct (alloc_node_flight s 0 inhabitant Hf) as (m1 & Ha & Hf1 & Hn1 & Hp1 & Hs1). fold p in Ha, Hn1.
  rewrite (bind_eq _ _ _ _ _ Ha). rewrite (proj2 (Z.leb_le 0 i)), bind_ret, decide_False by (lia || naive_solver).
  set (s1 := set_mem m1 s) in *. set (t0 := {| ti_status := FDFS_TRUNK_STATUS_FREE |}).
  destruct (create_next_file_spec conf Hconf t0 s1 (fl_dist _ _ Hf1) (fl_id _ _ Hf1) Hsz) as (r & t' & s2 & Heq & Hc).
  rewrite (bind_eq _ _ _ _ _ Heq). pose proof (flight_created _ _ _ _ _ _ Hf1 Hc) as Hf2.
  pose proof (sc_mem _ _ (cr_core _ _ _ _ _ _ Hc)) as Hm2. change (mem s1) with m1 in Hm2.
  assert (p ∉ fb_ptrs (mem s2)) as Hp2 by (rewrite Hm2, Hp1; apply fresh_not_held, Hf).
  destruct (decide (r <> 0)) as [Hr|Hr].
  { destruct (free_node_flight s2 0 p Hf2 Hp2) as (Hfr & Hf3 & Hs3). rewrite (bind_eq _ _ _ _ _ Hfr).
    eexists r, None, _. split; [reflexivity|]. split; [apply (sc_flag _ _ (cr_core _ _ _ _ _ _ Hc))|].
    split; [exact (cr_kept _ _ _ _ _ _ Hc)|].
    split; [by rewrite Hs3, Hm2|]. split; [done|]. split; [done|]. split; [apply (sc_binlog _ _ (cr_core _ _ _ _ _ _ Hc))|].
    intros Hs. by destruct (cr_done _ _ _ _ _ _ Hc Hs). }
  apply dec_stable in Hr. subst r. destruct (cr_ok _ _ _ _ _ _ Hc eq_refl) as (Hmv & Hid & Hno & Hyes).
  destruct (put_node_flight s2 0 p t' Hf2 Hp2) as (Hput & Hf3 & Hs3 & Hp3 & Hn3).
  rewrite (bind_eq _ _ _ _ _ Hput). set (s3 := set_mem _ s2) in *.
  rewrite (bind_eq _ _ _ _ _ (mem_binlog_add t' s3)). eexists _, (Some p), _. split; [reflexivity|].
  split; [apply (sc_flag _ _ (cr_core _ _ _ _ _ _ Hc))|]. split; [exact (cr_kept _ _ _ _ _ _ Hc)|].
  split; [cbn [mem set_binlog set_total]; by rewrite Hs3, Hm2|].
  exists t'. split; [|split; [apply flight_binlog; apply (flight_log s3 0 (t_size t') Hf3)|]].
  - split; [done|change (p ∉ fb_ptrs (mem s3)); by rewrite Hp3|split|].
    + split; [split|..]; try apply Hmv.
      * unfold block_ok. rewrite (mv_offset _ _ _ Hmv), (mv_size _ _ _ Hmv). cbn.
        pose proof (ck_min _ Hconf). pose proof (ck_file _ Hconf). lia.
      * done.
      * rewrite (mv_index _ _ _ Hmv). cbn. apply uint8_range.
    + rewrite (mv_index _ _ _ Hmv). cbn. pose proof (ck_paths _ Hconf). rewrite uint8_id by (unfold is_uint8; lia). lia.
    + done.
    + apply disjoint_from_spaces; [apply Hf3|]. intros b Hb Hsf. exfalso.
      change (b ∈ spaces (mem s3)) in Hb. rewrite Hs3, Hm2, Hs1 in Hb.
      destruct (fl_files _ _ Hf b Hb) as [x Hx]. rewrite (same_file_of _ _ Hsf) in Hx.
      change (files s1) with (files s) in Hno. congruence.
  - split; [by rewrite (mv_offset _ _ _ Hmv)|]. split; [by rewrite (mv_size _ _ _ Hmv)|].
    split; [rewrite (mv_index _ _ _ Hmv); cbn; pose proof (ck_paths _ Hconf); apply uint8_id; unfold is_uint8; lia|].
    split; [apply Hmv|]. split; [done|]. split.
    + cbn. by rewrite (sc_binlog _ _ (cr_core _ _ _ _ _ _ Hc)).
    + intros Hs. by destruct (cr_done _ _ _ _ _ _ Hc Hs) as (_ & ? & _).
Qed.

(** ** Taking a node. *)

(** [b] is a smallest free space of the store path with at least [size] bytes. *)
Definition best_fit (l : list FDFSTrunkFullInfo) (i size : Z) (b : FDFSTrunkFullInfo) : Prop :=
  b ∈ l /\ store_path_index (ti_path b) = i /\ is_free b = true /\ size <= t_size b /\
  forall x, x ∈ l -> store_path_index (ti_path x) = i -> is_free x = true -> size <= t_size x -> t_size b <= t_size x.

Definition no_fit (l : list FDFSTrunkFullInfo) (i size : Z) : Prop :=
  forall x, x ∈ l -> store_path_index (ti_path x) = i -> is_free x = true -> t_size x < size.

(** The slots of a tree against the spaces held. *)
Lemma none_free_spaces m i lo x :
  tm_inv m -> index_ok m i -> x ∈ spaces m -> store_path_index (ti_path x) = i -> is_free x = true ->
  lo <= t_size x -> ~ none_free (nodes m) (avl_walk (size_tree i m)) lo (t_size x + 1).
Proof.
  intros Hinv Hi (p & Hp & Hn)%elem_of_spaces Hidx Hfree Hlo Hnf; [|done]. subst i.
  destruct (ptr_slot m p x Hinv Hi Hp Hn) as (sl & Hsl & Hsz & Hpe).
  specialize (Hnf sl p Hsl ltac:(lia) Hpe). rewrite (deref_lookup _ _ _ Hn) in Hnf. congruence.
Qed.

Lemma none_free_mono n l lo hi hi' : hi' <= hi -> none_free n l lo hi -> none_free n l lo hi'.
Proof. intros Hle Hnf sl p Hsl Hr. apply Hnf; [done|lia]. Qed.

Lemma filter_length_le {A} (P : A -> Prop) `{forall x, Decision (P x)} l : (length (base.filter P l) <= length l)%nat.
Proof. induction l; [done|]. rewrite filter_cons. destruct (decide _); simpl; lia. Qed.

(** The first critical section of [trunk_alloc_space]. *)
Lemma take_node_spec s i size :
  conf_ok conf -> flight s 0 -> 0 <= i < Z.of_nat (length (store_paths conf)) ->
  Z.of_nat (base.size (files s)) < 2 ^ 31 ->
  exists e op s', trunk_take_node conf i size s = ((e, op), s') /\ trunk_init_flag s' = trunk_init_flag s /\ files_kept s s' /\
    match op with
    | None => e <> 0 /\ flight s' 0 /\ spaces (mem s') = spaces (mem s) /\ ~ syscalls_ok s
    | Some p => exists t, taken s' p t /\ flight s' (t_size t) /\ store_path_index (ti_path t) = i /\
        (syscalls_ok s -> syscalls_ok s') /\
        ((best_fit (spaces (mem s)) i size t /\ spaces (mem s) ≡ₚ t :: spaces (mem s') /\ binlog s' = binlog s) \/
         (no_fit (spaces (mem s)) i size /\ spaces (mem s) = spaces (mem s') /\ files s !! file_of conf t = None /\
          t_offset t = 0 /\ t_size t = g_trunk_file_size conf /\
          binlog s' = (log_write true TRUNK_OP_TYPE_ADD_SPACE t (binlog s)).2))
    end.
Proof.
  intros Hconf Hf Hi Hsz. pose proof (fl_mem _ _ Hf) as Hinv. unfold trunk_take_node. rewrite bind_gets. cbv zeta.
  assert (index_ok (mem s) i) as Hix by (unfold index_ok; rewrite (fl_trees _ _ Hf); done).
  pose proof (size_tree_ok _ _ (tm_trees _ Hinv) Hix) as [Hs _]. set (tree := size_tree i (mem s)) in *.
  destruct (alloc_search_spec (nodes (mem s)) tree size (S (length (avl_walk tree))) Hs) as (r & -> & Hr).
  { pose proof (filter_length_le (fun sl => (size <= sl_size sl)%Z) (avl_walk tree)). lia. }
  destruct r as [[sl [[l1 p] l2]]|].
  - destruct Hr as (Hin & Hge & Hsl & Hfree & Hnf).
    destruct (take_node_flight s 0 i sl l1 l2 p Hf Hix Hin Hsl)
      as (t & m1 & m2 & Hn & Hun & Hn1 & Hdel & Hf2 & Hn2 & Hp2 & Hsp & Htsz & Hidx & Hok & Hptrs).
    rewrite (bind_eq _ _ _ _ _ (in_mem_eq _ _ _ _ Hun)).
    assert (nodes m1 !! p = Some t) as Hnp by (by rewrite Hn1).
    rewrite (bind_eq _ _ _ _ _ (get_node_eq (set_mem m1 s) p t Hnp)).
    assert (in_mem (trunk_free_block_delete t) (set_mem m1 s) = (0, set_mem m2 s)) as Hd
      by (rewrite (in_mem_eq _ (set_mem m1 s) _ _ Hdel); done).
    rewrite (bind_eq _ _ _ _ _ Hd). eexists _, (Some p), _. split; [reflexivity|]. split; [done|]. split; [by apply files_kept_same|].
    exists t. assert (t ∈ spaces (mem s)) as Hts by (rewrite Hsp; by left).
    split; [split|].
    + cbn. by rewrite Hn2.
    + done.
    + split; [done|lia|]. cbn. by apply (fl_files _ _ Hf).
    + intros q b Hq Hb Hsf. cbn in Hq, Hb. rewrite Hn2 in Hb.
      assert (p ∈ fb_ptrs (mem s) /\ q ∈ fb_ptrs (mem s)) as [Hpm Hqm] by (rewrite Hptrs; set_solver).
      intros Ho. apply (held_disjoint (mem s) p q t b Hinv Hpm Hqm); try done. by intros ->.
    + split; [exact Hf2|]. split; [done|]. split; [done|]. left. split; [|done].
      rewrite (deref_lookup _ _ _ Hn) in Hfree. split; [done|]. split; [done|]. split; [done|]. split; [lia|].
      intros x Hx Hxi Hxf Hxs. destruct (decide (t_size t <= t_size x)); [done|]. exfalso.
      eapply (none_free_spaces (mem s) i size x); try done.
      eapply none_free_mono; [|exact Hnf]. lia.
  - destruct (create_trunk_file_flight s i 0 Hconf Hf Hi Hsz) as (e & op & s' & -> & Hfl & Hk & Hsp & Hop).
    exists e, op, s'. split; [done|]. split; [done|]. split; [done|]. destruct op as [p|].
    + destruct Hop as (t & Htk & Hf' & Ho & Hz & Hidx & Hst & Hno & Hb & Hsys).
      exists t. split; [done|]. split; [done|]. split; [done|]. split; [done|]. right.
      split; [|done]. intros x Hx Hxi Hxf. destruct (decide (t_size x < size)); [done|]. exfalso.
      eapply (none_free_spaces (mem s) i size x); try done. lia.
    + destruct Hop as (? & ? & ? & ?). done.
Qed.

(** ** Splitting. *)

(** The binlog takes records. *)
Definition log_ok (b : TrunkBinlog) : Prop := cache_ok b /\ writes_ok b.

(** The text of a list of operations. *)
Definition log_text (l : list (Z * FDFSTrunkFullInfo)) : bytes :=
  concat ((fun x => record_line (g_current_time conf) x.1 x.2) <$> l).

(** [b'] is [b] with the records [l] appended. *)
Definition logged (b : TrunkBinlog) (l : list (Z * FDFSTrunkFullInfo)) (b' : TrunkBinlog) : Prop :=
  log_ok b' /\ bl_log b' = bl_log b ++ log_text l.

Lemma logged_trans b1 b2 b3 l l' : logged b1 l b2 -> logged b2 l' b3 -> logged b1 (l ++ l') b3.
Proof.
  intros [_ E1] [Ho E2]. split; [done|]. rewrite E2, E1, <- app_assoc. unfold log_text. by rewrite fmap_app, concat_app.
Qed.

Lemma log_write_ok op t b :
  is_int32 (g_current_time conf) -> space_ok t -> op = TRUNK_OP_TYPE_ADD_SPACE \/ op = TRUNK_OP_TYPE_DEL_SPACE ->
  log_ok b -> (log_write true op t b).1 = 0 /\ logged b [(op, t)] (log_write true op t b).2.
Proof.
  intros Hts Hsp Hop [Hc Hw]. unfold log_write.
  pose proof (write_ok (g_current_time conf) op t b (space_record_ok _ _ _ Hsp Hts Hop) Hc Hw) as Hok.
  destruct (trunk_binlog_write _ _ _ b) as [r b']. destruct Hok as (-> & Hl & Hc' & Hw' & _). split; [done|].
  split; [by split|]. cbn [snd]. rewrite Hl. unfold log_text. cbn. by rewrite app_nil_r.
Qed.

(** The rest of a space after its first [size] bytes. *)
Definition remainder (t : FDFSTrunkFullInfo) (size : Z) : FDFSTrunkFullInfo :=
  with_st FDFS_TRUNK_STATUS_FREE (with_extent (t_offset t + size) (t_size t - size) t).

Lemma valid_extent s t off size st :
  valid_space s t -> t_offset t <= off -> 0 < size -> off + size <= t_offset t + t_size t ->
  valid_space s (with_st st (with_extent off size t)).
Proof.
  intros [[[Hb Hid] ? ? ?] ? ?] Ho Hs He. split; [|done|done]. split; try done. split; [|done].
  unfold block_ok in *. cbn. unfold t_offset, t_size in *. lia.
Qed.

Lemma disjoint_extent m t off size st :
  disjoint_from m t -> t_offset t <= off -> off + size <= t_offset t + t_size t ->
  disjoint_from m (with_st st (with_extent off size t)).
Proof.
  intros Hd Ho He q b Hq Hb Hsf [H1' H2']. apply (Hd q b Hq Hb Hsf). unfold overlaps, t_offset, t_size in *. cbn in *. lia.
Qed.

Lemma with_extent_same t : with_extent (t_offset t) (t_size t) t = t.
Proof. by destruct t as [st p [id off sz]]. Qed.

Lemma split_spec s p t size :
  conf_ok conf -> taken s p t -> flight s (t_size t) -> 0 < size <= t_size t ->
  exists r s', trunk_split conf p size s = (r, s') /\ flight s' 0 /\ trunk_init_flag s' = trunk_init_flag s /\
    files s' = files s /\
    (r = 0 -> exists size', taken s' p (with_extent (t_offset t) size' t) /\ size <= size' < size + g_slot_min_size conf /\
      ((t_size t - size < g_slot_min_size conf /\ size' = t_size t /\ spaces (mem s') = spaces (mem s)) \/
       (g_slot_min_size conf <= t_size t - size /\ size' = size /\
        spaces (mem s') ≡ₚ remainder t size :: spaces (mem s)))) /\
    (log_ok (binlog s) -> r = 0 /\
      ((t_size t - size < g_slot_min_size conf /\ logged (binlog s) [(TRUNK_OP_TYPE_DEL_SPACE, t)] (binlog s')) \/
       (g_slot_min_size conf <= t_size t - size /\
        logged (binlog s) [(TRUNK_OP_TYPE_DEL_SPACE, t); (TRUNK_OP_TYPE_ADD_SPACE, remainder t size)] (binlog s')))).
Proof.
  intros Hconf [Hn Hp Hv Hd] Hf Hsz. unfold trunk_split. rewrite (bind_eq _ _ _ _ _ (get_node_eq s p t Hn)).
  assert (forall s1, flight s1 (t_size t) -> flight (set_binlog (log_write true TRUNK_OP_TYPE_DEL_SPACE t (binlog s1)).2
     (set_total (int64 (g_trunk_total_free_space s1 - t_size t)) s1)) 0) as Hdel.
  { intros s1 Hf1. apply flight_binlog. replace 0 with (t_size t + - t_size t) by lia.
    apply (flight_log s1 (t_size t) (- t_size t) Hf1). }
  pose proof (log_write_ok TRUNK_OP_TYPE_DEL_SPACE t (binlog s) (ck_time _ Hconf) (vs_ok _ _ Hv) ltac:(auto)) as Hlog1.
  destruct (t_size t - size <? g_slot_min_size conf) eqn:E.
  { rewrite mem_binlog_del. eexists _, _. split; [reflexivity|]. split; [by apply Hdel|]. split; [done|]. split; [done|].
    split.
    - intros _. exists (t_size t). rewrite with_extent_same. split; [split; [done|done|by destruct Hv; split|done]|]. split; [lia|].
      left. split; [lia|done].
    - intros Hlo. destruct (Hlog1 Hlo) as [? ?]. split; [done|]. left. split; [lia|done]. }
  set (q := fresh_addr (nodes (mem s))).
  destruct (alloc_node_flight s _ inhabitant Hf) as (m1 & Ha & Hf1 & Hn1 & Hp1 & Hs1). fold q in Ha, Hn1.
  rewrite (bind_eq _ _ _ _ _ Ha), (bind_eq _ _ _ _ _ (mem_binlog_del t _)).
  set (s1 := set_mem m1 s) in *. specialize (Hdel s1 Hf1). change (binlog s1) with (binlog s) in *.
  set (s2 := set_binlog _ (set_total _ s1)) in *. change (mem s2) with m1 in *.
  assert (q ∉ fb_ptrs m1) as Hq by (rewrite Hp1; apply fresh_not_held, Hf).
  assert (q <> p) as Hqp by (intros <-; unfold q in Hn; by rewrite fresh_addr_fresh in Hn).
  assert (nodes m1 !! p = Some t) as Hn1p by (by rewrite Hn1, lookup_insert_ne).
  destruct (decide ((log_write true TRUNK_OP_TYPE_DEL_SPACE t (binlog s)).1 <> 0)) as [Hr|Hr].
  { destruct (free_node_flight s2 0 q Hdel Hq) as (Hfr & Hf3 & _). rewrite (bind_eq _ _ _ _ _ Hfr).
    eexists _, _. split; [reflexivity|]. split; [done|]. split; [done|]. split; [done|].
    split; [done|]. intros Hlo. by destruct (Hlog1 Hlo). }
  fold (remainder t size).
  destruct (put_node_flight s2 0 q (remainder t size) Hdel Hq) as (Hput & Hf3 & Hs3 & Hp3 & Hn3).
  rewrite (bind_eq _ _ _ _ _ Hput). set (s3 := set_mem _ s2) in *.
  assert (nodes (mem s3) !! p = Some t) as Hn3p by (cbn; by rewrite lookup_insert_ne).
  assert (disjoint_from (mem s3) t) as Hd3.
  { apply disjoint_from_spaces; [apply Hf3|]. rewrite Hs3. change (mem s2) with m1. rewrite Hs1.
    by apply disjoint_from_spaces; [apply Hf|]. }
  assert (valid_space s3 t) as Hv3 by (destruct Hv; by split).
  assert (valid_space s3 (remainder t size)) as Hvr by (pose proof (ck_min _ Hconf); apply valid_extent; [done|lia|lia|lia]).
  pose proof (log_write_ok TRUNK_OP_TYPE_ADD_SPACE (remainder t size) (binlog s3) (ck_time _ Hconf) (vs_ok _ _ Hvr) ltac:(auto)) as Hlog2.
  destruct (add_free_block_flight s3 0 q (remainder t size) true Hf3 Hn3 Hvr) as [[_ Hnd]|(Hdr & s4 & Heq & Hb4 & Hn4 & Hf4 & Hp4 & Hs4 & Hfi4 & Hfl4)].
  { by rewrite Hp3. } { destruct Hnd. apply disjoint_extent; [done|lia|lia]. }
  rewrite (bind_eq _ _ _ _ _ Heq).
  assert (log_ok (binlog s) -> (log_write true TRUNK_OP_TYPE_ADD_SPACE (remainder t size) (binlog s3)).1 = 0 /\
    logged (binlog s) [(TRUNK_OP_TYPE_DEL_SPACE, t); (TRUNK_OP_TYPE_ADD_SPACE, remainder t size)] (binlog s4)) as Hlog.
  { intros Hlo. destruct (Hlog1 Hlo) as [_ Hl1]. destruct (Hlog2 (proj1 Hl1)) as [? Hl2]. split; [done|].
    rewrite Hb4. exact (logged_trans _ _ _ _ _ Hl1 Hl2). }
  destruct (decide (_ <> 0)) as [Hr2|Hr2].
  { eexists _, s4. split; [reflexivity|]. split; [done|]. split; [done|]. split; [done|]. split; [done|].
    intros Hlo. by destruct (Hlog Hlo). }
  assert (p ∉ fb_ptrs (mem s4)) as Hp4p.
  { rewrite Hp4, Hp3. change (mem s2) with m1. rewrite Hp1. apply not_elem_of_cons. done. }
  destruct (put_node_flight s4 0 p (with_extent (t_offset t) size t) Hf4 Hp4p) as (Hput5 & Hf5 & Hs5 & Hp5 & Hn5).
  rewrite (bind_eq _ _ _ _ _ Hput5). set (s5 := set_mem _ s4) in *.
  eexists 0, s5. split; [reflexivity|]. split; [done|]. split; [done|]. split; [done|]. split.
  - intros _. exists size. assert (spaces (mem s5) ≡ₚ remainder t size :: spaces (mem s)) as Hs5'.
    { rewrite Hs5, Hs4, Hs3. change (mem s2) with m1. by rewrite Hs1. }
    split; [split; [done|by rewrite Hp5| |]|split; [pose proof (ck_min _ Hconf); lia|right; split; [lia|done]]].
    + assert (valid_space s5 t) as Hv5 by (destruct Hv3; split; [done|done|change (files s5) with (files s4); by rewrite Hfi4]).
      destruct (valid_extent s5 t (t_offset t) size (ti_status t) Hv5); [lia|lia|lia|]. by split.
    + apply disjoint_from_spaces; [apply Hf5|]. intros b Hb Hsf. rewrite Hs5' in Hb.
      apply elem_of_cons in Hb as [->|Hb].
      * unfold overlaps. cbn. unfold t_offset, t_size. lia.
      * apply (disjoint_extent (mem s) t (t_offset t) size (ti_status t)) in Hd; [|lia|lia].
        apply (proj1 (disjoint_from_spaces _ _ (fl_mem _ _ Hf)) Hd b Hb Hsf).
  - intros Hlo. split; [done|]. right. split; [lia|]. apply Hlog, Hlo.
Qed.

(** ** Allocation. *)
Lemma aligned_size_spec size :
  conf_ok conf -> size + g_trunk_alloc_alignment_size conf < 2 ^ 31 ->
  let a := trunk_aligned_size conf size in
  size <= a /\ g_slot_min_size conf <= a /\
  (a = g_slot_min_size conf \/ a < size + Z.max 1 (g_trunk_alloc_alignment_size conf)) /\
  (g_slot_min_size conf < size -> g_trunk_alloc_alignment_size conf <> 0 ->
   a `mod` g_trunk_alloc_alignment_size conf = 0).
Proof.
  intros Hconf Hsz. pose proof (ck_min _ Hconf). pose proof (ck_align _ Hconf). unfold trunk_aligned_size.
  set (al := g_trunk_alloc_alignment_size conf) in *. set (mn := g_slot_min_size conf) in *.
  destruct (size <=? mn) eqn:E1; [lia|]. destruct (al =? 0) eqn:E2; [lia|].
  assert (Z.rem size al = size `mod` al) as Hrem by (apply Z.rem_mod_nonneg; lia).
  pose proof (Z.mod_pos_bound size al ltac:(lia)) as Hb. rewrite Hrem.
  destruct (size `mod` al =? 0) eqn:E3; [lia|]. rewrite int32_id by (unfold is_int32; lia).
  split; [lia|]. split; [lia|]. split; [lia|]. intros _ _.
  replace (size + (al - size `mod` al)) with ((size / al + 1) * al); [apply Z.mod_mul; lia|].
  pose proof (Z.div_mod size al ltac:(lia)). lia.
Qed.

(** Operations of the binlog on the places of the spaces: the status is not
    logged. *)
Definition erase (t : FDFSTrunkFullInfo) : FDFSTrunkFullInfo := with_st FDFS_TRUNK_STATUS_FREE t.

(** A space the binlog can hold on this server, of a trunk file of [fs]. *)
Record loggable (fs : gmap bytes bytes) t : Prop := {
  lg_ok : space_ok t;
  lg_index : store_path_index (ti_path t) < Z.of_nat (length (store_paths conf));
  lg_file : is_Some (fs !! file_of conf t);
}.

(** [t] shares no byte with a space of [l]. *)
Definition fits (l : list FDFSTrunkFullInfo) t : Prop :=
  forall b, b ∈ l -> same_file b t -> ~ overlaps t b.

(** An addition is of a space that fits and that the server would keep, a
    deletion of a space that is there. *)
Inductive apply_ops (fs : gmap bytes bytes) :
    list (Z * FDFSTrunkFullInfo) -> list FDFSTrunkFullInfo -> list FDFSTrunkFullInfo -> Prop :=
  | apply_nil l l' : l ≡ₚ l' -> apply_ops fs [] l l'
  | apply_add t ops l l' :
      loggable fs t -> g_slot_min_size conf <= t_size t -> fits l t ->
      apply_ops fs ops (erase t :: l) l' -> apply_ops fs ((TRUNK_OP_TYPE_ADD_SPACE, t) :: ops) l l'
  | apply_del t ops l l1 l' :
      loggable fs t ->
      l ≡ₚ erase t :: l1 -> apply_ops fs ops l1 l' -> apply_ops fs ((TRUNK_OP_TYPE_DEL_SPACE, t) :: ops) l l'.

Lemma apply_ops_files fs fs' ops l l' :
  (forall n, is_Some (fs !! n) -> is_Some (fs' !! n)) -> apply_ops fs ops l l' -> apply_ops fs' ops l l'.
Proof.
  intros Hk. induction 1 as [l l' Hp|t ops l l' [] Hm Hf Ha IH|t ops l l1 l' [] Hp Ha IH].
  - by constructor.
  - apply apply_add; [by split; [..|apply Hk]|done..].
  - eapply apply_del; [by split; [..|apply Hk]|done..].
Qed.

Lemma fits_perm l l' t : fits l t -> l ≡ₚ l' -> fits l' t.
Proof. intros Hf Hp b Hb. apply Hf. by rewrite Hp. Qed.

Lemma fits_cons x l t : (same_file x t -> ~ overlaps t x) -> fits l t -> fits (x :: l) t.
Proof. intros Hx Hl b [->|Hb]%elem_of_cons; [done|by apply Hl]. Qed.

(** The status does not matter, and a part of a space fits where the space
    does. *)
Lemma fits_part l t off size st :
  fits l t -> t_offset t <= off -> off + size <= t_offset t + t_size t ->
  fits (erase <$> l) (with_st st (with_extent off size t)).
Proof.
  intros Hf Ho He b Hb Hsf [H1' H2']. apply list_elem_of_fmap in Hb as (x & -> & Hx).
  apply (Hf x Hx Hsf). unfold overlaps, t_offset, t_size in *. cbn in *. lia.
Qed.

Lemma fits_erase l t : fits l t -> fits (erase <$> l) t.
Proof.
  intros Hf. pose proof (fits_part l t (t_offset t) (t_size t) (ti_status t) Hf) as Hp.
  rewrite with_extent_same in Hp. destruct t. apply Hp; lia.
Qed.

Lemma t_size_part t off size st : t_size (with_st st (with_extent off size t)) = size.
Proof. done. Qed.

Lemma valid_loggable s t : valid_space s t -> loggable (files s) t.
Proof. by intros []. Qed.

Lemma loggable_part fs t off size st :
  loggable fs t -> t_offset t <= off -> 0 < size -> off + size <= t_offset t + t_size t ->
  loggable fs (with_st st (with_extent off size t)).
Proof.
  intros [[[Hb Hid] ? ? ?] ? ?] Ho Hs He. split; [|done|done]. split; try done. split; [|done].
  unfold block_ok in *. cbn. unfold t_offset, t_size in *. lia.
Qed.

Lemma apply_ops_perm fs ops l l0 l' : apply_ops fs ops l l' -> l ≡ₚ l0 -> apply_ops fs ops l0 l'.
Proof.
  intros Ha. revert l0. induction Ha as [l l' Hp|t ops l l' Hlg Hm Hf Ha IH|t ops l l1 l' Hlg Hp Ha IH]; intros l0 Hl.
  - constructor. by rewrite <- Hl.
  - constructor; [done|done|by eapply fits_perm|]. apply IH. by rewrite Hl.
  - econstructor; [done|by rewrite <- Hl|done].
Qed.

(** Cutting [need] bytes from the front of [from]: the records of an
    allocation describe its effect. *)
Lemma apply_cut fs from need size' l l' res :
  conf_ok conf -> loggable fs from -> fits l from -> g_slot_min_size conf <= need -> need <= size' ->
  need <= t_size from ->
  (t_size from - need < g_slot_min_size conf /\ size' = t_size from \/
   g_slot_min_size conf <= t_size from - need /\ size' = need) ->
  res = with_st FDFS_TRUNK_STATUS_HOLD (with_extent (t_offset from) size' from) ->
  l' ≡ₚ res :: (if t_size from - need <? g_slot_min_size conf then [] else [remainder from need]) ++ l ->
  apply_ops fs ((TRUNK_OP_TYPE_DEL_SPACE, from) ::
     (if t_size from - need <? g_slot_min_size conf then [] else [(TRUNK_OP_TYPE_ADD_SPACE, remainder from need)]) ++
     [(TRUNK_OP_TYPE_ADD_SPACE, res)]) (erase <$> from :: l) (erase <$> l').
Proof.
  intros Hconf Hlg Hf Hmin Hsz Hge Hcase -> Hl'. pose proof (ck_min _ Hconf).
  eapply apply_del; [done|rewrite fmap_cons; reflexivity|].
  destruct Hcase as [[Hlt ->]|[Hlt ->]].
  - rewrite (proj2 (Z.ltb_lt _ _) Hlt) in *. cbn [app] in *.
    constructor; [apply loggable_part; [done|lia..]|unfold remainder; rewrite t_size_part; lia|apply fits_part; [done|lia..]|].
    constructor. by rewrite Hl'.
  - rewrite (proj2 (Z.ltb_ge _ _) Hlt) in *. cbn [app] in *.
    constructor; [apply loggable_part; [done|lia..]|unfold remainder; rewrite t_size_part; lia|apply fits_part; [done|lia..]|].
    constructor; [apply loggable_part; [done|lia..]|unfold remainder; rewrite t_size_part; lia| |].
    + apply fits_cons; [|apply fits_part; [done|lia..]]. intros _ [Ho1 Ho2].
      unfold t_offset, t_size in Ho1, Ho2. cbn in Ho1, Ho2. unfold t_offset in *. lia.
    + constructor. by rewrite Hl'.
Qed.

(** What a successful allocation does: [from] is the space used, [res] the
    part on hold. *)
Record allocated s (i need : Z) (from res : FDFSTrunkFullInfo) s' : Prop := {
  al_from : (best_fit (spaces (mem s)) i need from /\
             exists rest, spaces (mem s) ≡ₚ from :: rest /\
               spaces (mem s') ≡ₚ res :: (if t_size from - need <? g_slot_min_size conf then [] else [remainder from need]) ++ rest) \/
            (no_fit (spaces (mem s)) i need /\ t_offset from = 0 /\ t_size from = g_trunk_file_size conf /\
             files s !! file_of conf from = None /\
             spaces (mem s') ≡ₚ res :: (if t_size from - need <? g_slot_min_size conf then [] else [remainder from need]) ++ spaces (mem s));
  al_res : res = with_st FDFS_TRUNK_STATUS_HOLD (with_extent (t_offset from) (t_size res) from);
  al_index : store_path_index (ti_path res) = i;
  al_size : need <= t_size res < need + g_slot_min_size conf;
}.

(** The part of [trunk_alloc_space] after the node is taken. *)
Lemma hold_spec s p t size res0 :
  conf_ok conf -> taken s p t -> flight s (t_size t) -> 0 < size <= t_size t ->
  let hold := bind (trunk_split conf p size) (fun result =>
    if decide (result <> 0) then ret (result, res0)
    else bind (in_mem (bind (get_node p) (fun t => put_node p (with_st FDFS_TRUNK_STATUS_HOLD t)))) (fun _ =>
         bind (trunk_add_free_block_ex conf p true) (fun result =>
           if decide (result = 0) then bind (in_mem (get_node p)) (fun t => ret (0, t)) else ret (result, res0)))) in
  exists r res s', hold s = ((r, res), s') /\ flight s' 0 /\ trunk_init_flag s' = trunk_init_flag s /\ files s' = files s /\
    (r = 0 -> exists size', res = with_st FDFS_TRUNK_STATUS_HOLD (with_extent (t_offset t) size' t) /\
      size <= size' < size + g_slot_min_size conf /\
      (t_size t - size < g_slot_min_size conf /\ size' = t_size t \/ g_slot_min_size conf <= t_size t - size /\ size' = size) /\
      spaces (mem s') ≡ₚ res :: (if t_size t - size <? g_slot_min_size conf then [] else [remainder t size]) ++ spaces (mem s)) /\
    (log_ok (binlog s) -> r = 0 /\
      logged (binlog s) ((TRUNK_OP_TYPE_DEL_SPACE, t) ::
        (if t_size t - size <? g_slot_min_size conf then [] else [(TRUNK_OP_TYPE_ADD_SPACE, remainder t size)]) ++
        [(TRUNK_OP_TYPE_ADD_SPACE, res)]) (binlog s')).
Proof.
  intros Hconf Htk Hf Hsz hold. unfold hold.
  destruct (split_spec s p t size Hconf Htk Hf Hsz) as (r & s1 & Heq & Hf1 & Hfl1 & Hfi1 & Hok & Hlog).
  rewrite (bind_eq _ _ _ _ _ Heq). destruct (decide (r <> 0)) as [Hr|Hr].
  { exists r, res0, s1. do 5 (split; [done|]).
    intros Hlo. by destruct (Hlog Hlo). }
  apply dec_stable in Hr. subst r. destruct (Hok eq_refl) as (size' & [Hn Hp Hv Hd] & Hsz' & Hsp).
  set (t1 := with_extent (t_offset t) size' t) in *. set (res := with_st FDFS_TRUNK_STATUS_HOLD t1).
  destruct (put_node_flight s1 0 p res Hf1 Hp) as (Hput & Hf2 & Hs2 & Hp2 & Hn2).
  assert (in_mem (bind (get_node p) (fun t => put_node p (with_st FDFS_TRUNK_STATUS_HOLD t))) s1 =
    (tt, set_mem (set_nodes (<[p := res]> (nodes (mem s1))) (mem s1)) s1)) as Hput'.
  { unfold in_mem, get_node. rewrite bind_gets, (deref_lookup _ _ _ Hn). done. }
  rewrite (bind_eq _ _ _ _ _ Hput'). set (s2 := set_mem _ s1) in *.
  assert (valid_space s2 res) as Hv2 by (destruct Hv as [[[]] ? ?]; by split).
  assert (disjoint_from (mem s2) res) as Hd2.
  { apply disjoint_from_spaces; [apply Hf2|]. rewrite Hs2. intros b Hb Hsf.
    by apply (proj1 (disjoint_from_spaces _ _ (fl_mem _ _ Hf1)) Hd b Hb Hsf). }
  pose proof (log_write_ok TRUNK_OP_TYPE_ADD_SPACE res (binlog s2) (ck_time _ Hconf) (vs_ok _ _ Hv2) ltac:(auto)) as Hl2.
  destruct (add_free_block_flight s2 0 p res true Hf2 Hn2 Hv2) as [[_ Hnd]|(_ & s3 & Heq3 & Hb3 & Hn3 & Hf3 & Hp3 & Hs3 & Hfi3 & Hfl3)];
    [by rewrite Hp2|done|].
  assert (spaces (mem s3) ≡ₚ res :: (if t_size t - size <? g_slot_min_size conf then [] else [remainder t size]) ++ spaces (mem s)) as Hfinal.
  { rewrite Hs3, Hs2. destruct Hsp as [(Hlt & _ & ->)|(Hge & _ & Hsp)].
    - by rewrite (proj2 (Z.ltb_lt _ _) Hlt).
    - by rewrite (proj2 (Z.ltb_ge _ _) Hge), Hsp. }
  rewrite (bind_eq _ _ _ _ _ Heq3).
  assert (log_ok (binlog s) -> (log_write true TRUNK_OP_TYPE_ADD_SPACE res (binlog s2)).1 = 0 /\
    logged (binlog s) ((TRUNK_OP_TYPE_DEL_SPACE, t) ::
        (if t_size t - size <? g_slot_min_size conf then [] else [(TRUNK_OP_TYPE_ADD_SPACE, remainder t size)]) ++
        [(TRUNK_OP_TYPE_ADD_SPACE, res)]) (binlog s3)) as Hlg.
  { intros Hlo. destruct (Hlog Hlo) as [_ Hl1]. change (binlog s2) with (binlog s1) in *.
    assert (log_ok (binlog s1)) as Hlo1 by (by destruct Hl1 as [[_ []]|[_ []]]).
    destruct (Hl2 Hlo1) as [? Hl3]. split; [done|]. rewrite Hb3.
    destruct Hl1 as [[Hlt Hl1]|[Hge Hl1]]; [rewrite (proj2 (Z.ltb_lt _ _) Hlt)|rewrite (proj2 (Z.ltb_ge _ _) Hge)];
      exact (logged_trans _ _ _ _ _ Hl1 Hl3). }
  assert (trunk_init_flag s3 = trunk_init_flag s) as Hfl by (by rewrite Hfl3).
  assert (files s3 = files s) as Hfi by (by rewrite Hfi3, <- Hfi1).
  destruct (decide (_ = 0)) as [Hr0|Hr0].
  - rewrite (bind_eq _ _ _ _ _ (get_node_eq s3 p res ltac:(by rewrite Hn3))). exists 0, res, s3.
    do 4 (split; [done|]). split; [|intros Hlo; split; [done|by apply Hlg]].
    intros _. exists size'. split; [done|]. split; [done|]. split; [|done].
    destruct Hsp as [(? & ? & _)|(? & ? & _)]; auto.
  - eexists _, res0, s3. split; [reflexivity|]. do 4 (split; [done|]).
    intros Hlo. by destruct (Hlg Hlo).
Qed.

(** Everything an allocation guarantees, and what it logs. *)
Lemma alloc_space_spec s size req :
  conf_ok conf -> state_inv s -> no_oom (mem s) -> STORAGE_TRUNK_CHECK_STATUS conf s = true ->
  0 <= store_path_index (ti_path req) < Z.of_nat (length (store_paths conf)) ->
  Z.of_nat (base.size (files s)) < 2 ^ 31 ->
  size + g_trunk_alloc_alignment_size conf < 2 ^ 31 -> trunk_aligned_size conf size <= g_trunk_file_size conf ->
  exists r res s', trunk_alloc_space conf size req s = ((r, res), s') /\
    flight s' 0 /\ trunk_init_flag s' = trunk_init_flag s /\ files_kept s s' /\
    (r = 0 -> exists from, allocated s (store_path_index (ti_path req)) (trunk_aligned_size conf size) from res s') /\
    (syscalls_ok s -> log_ok (binlog s) -> r = 0 /\
      exists ops, logged (binlog s) ops (binlog s') /\ apply_ops (files s') ops (erase <$> spaces (mem s)) (erase <$> spaces (mem s'))).
Proof.
  intros Hconf Hinv Hoom Hst Hi Hfs Hsz Hmax. assert (flight s 0) as Hf by (by apply flight_0).
  destruct (aligned_size_spec size Hconf Hsz) as (_ & Hmin & _). pose proof (ck_min _ Hconf) as Hmin0.
  unfold trunk_alloc_space. rewrite bind_gets, Hst. cbn [negb].
  set (need := trunk_aligned_size conf size) in *. set (i := store_path_index (ti_path req)) in *.
  destruct (take_node_spec s i need Hconf Hf Hi Hfs) as (e & op & s1 & Heq & Hfl1 & Hk1 & Hop).
  rewrite (bind_eq _ _ _ _ _ Heq). cbn [snd fst]. destruct op as [p|].
  2:{ destruct Hop as (He & Hf1 & Hs1 & Hsys). exists e, req, s1. do 4 (split; [done|]).
      split; [done|]. done. }
  destruct Hop as (from & Htk & Hf1 & Hidx & Hsys & Hcase).
  assert (need <= t_size from) as Hge.
  { destruct Hcase as [((_ & _ & _ & ? & _) & _)|(_ & _ & _ & _ & -> & _)]; done. }
  destruct (hold_spec s1 p from need req Hconf Htk Hf1 ltac:(lia)) as (r & res & s2 & Heq2 & Hf2 & Hfl2 & Hfi2 & Hok & Hlog).
  exists r, res, s2. split; [exact Heq2|]. split; [done|]. split; [by rewrite Hfl2|].
  split; [unfold files_kept; by rewrite Hfi2|]. split.
  - intros Hr. destruct (Hok Hr) as (size' & Hres & Hsz' & _ & Hsp). exists from.
    assert (t_size res = size') as Htr by (by rewrite Hres). rewrite <- Htr in Hsz'. split.
    + destruct Hcase as [(Hbf & Hs & _)|(Hnf & Hs & Hno & Ho & Hz & _)]; [left|right].
      * split; [done|]. by exists (spaces (mem s1)).
      * split; [done|]. split; [done|]. split; [done|]. split; [done|]. by rewrite Hs.
    + by rewrite Htr.
    + by rewrite Hres.
    + done.
  - intros Hsy Hlo.
    (* the records of the first part *)
    assert (loggable (files s2) from) as Hlg by (rewrite Hfi2; eapply valid_loggable, Htk).
    pose proof (proj1 (disjoint_from_spaces _ _ (fl_mem _ _ Hf1)) (tn_free _ _ _ Htk)) as Hfit.
    assert (exists ops, logged (binlog s) ops (binlog s1) /\ forall ops' l', apply_ops (files s2) ops' (erase <$> from :: spaces (mem s1)) l' ->
      apply_ops (files s2) (ops ++ ops') (erase <$> spaces (mem s)) l') as (ops & Hl1 & Hap).
    { destruct Hcase as [(_ & Hs & ->)|(_ & Hs & _ & _ & _ & Hb)].
      - exists []. split; [by split; [|unfold log_text; cbn; rewrite app_nil_r]|]. intros ops' l' Ha. cbn.
        eapply apply_ops_perm; [exact Ha|]. by rewrite Hs.
      - exists [(TRUNK_OP_TYPE_ADD_SPACE, from)]. rewrite Hb. split.
        + apply log_write_ok; [apply Hconf|apply Htk|auto|done].
        + intros ops' l' Ha. rewrite Hs. cbn [app]. apply apply_add; [done|lia|by apply fits_erase|done]. }
    destruct (Hlog (proj1 Hl1)) as [-> Hl2]. split; [done|]. eexists. split; [exact (logged_trans _ _ _ _ _ Hl1 Hl2)|].
    apply Hap. destruct (Hok eq_refl) as (size' & Hres & Hsz' & Hsc & Hsp).
    eapply apply_cut; [done|done|exact Hfit|exact Hmin|apply Hsz'|done|exact Hsc|done|exact Hsp].
Qed.

(** the size reserved for a file is at least its size and the minimal
    slot size, exceeds the size by less than the alignment (unless it is the
    minimal slot), and is a multiple of the alignment. *)
Theorem trunk_aligned_size_correct size :
  conf_ok conf -> size + g_trunk_alloc_alignment_size conf < 2 ^ 31 ->
  size <= trunk_aligned_size conf size /\ g_slot_min_size conf <= trunk_aligned_size conf size /\
  (trunk_aligned_size conf size = g_slot_min_size conf \/
   trunk_aligned_size conf size < size + Z.max 1 (g_trunk_alloc_alignment_size conf)) /\
  (g_slot_min_size conf < size -> g_trunk_alloc_alignment_size conf <> 0 ->
   trunk_aligned_size conf size `mod` g_trunk_alloc_alignment_size conf = 0).
Proof. apply aligned_size_spec. Qed.

(** C10: allocating space in a store path, of a size that fits in a trunk file, on
    a trunk server that is ready and can allocate memory.  On success the space on hold is large enough and
    wastes less than a minimal slot; it is cut from the front of a smallest
    free space of the store path that fits, or of a new trunk file when no
    free space fits; the rest of that space stays free and everything else
    is as before.  The invariant (disjoint spaces, exact total) holds
    afterwards also when a file, ini or binlog operation fails, and without
    such failures the allocation succeeds.  (Without memory for the rest of a
    space [trunk_split] breaks the invariant.) *)
Theorem trunk_alloc_space_correct s size req :
  conf_ok conf -> state_inv s -> no_oom (mem s) -> STORAGE_TRUNK_CHECK_STATUS conf s = true ->
  0 <= store_path_index (ti_path req) < Z.of_nat (length (store_paths conf)) ->
  Z.of_nat (base.size (files s)) < 2 ^ 31 ->
  size + g_trunk_alloc_alignment_size conf < 2 ^ 31 -> trunk_aligned_size conf size <= g_trunk_file_size conf ->
  let '((r, res), s') := trunk_alloc_space conf size req s in
  state_inv s' /\ no_oom (mem s') /\
  (r = 0 -> exists from, allocated s (store_path_index (ti_path req)) (trunk_aligned_size conf size) from res s') /\
  (syscalls_ok s -> log_ok (binlog s) -> r = 0).
Proof.
  intros Hconf Hinv Hoom Hst Hi Hfs Hsz Hmax.
  destruct (alloc_space_spec s size req Hconf Hinv Hoom Hst Hi Hfs Hsz Hmax) as (r & res & s' & -> & Hf & _ & _ & Hok & Hlog).
  apply flight_0 in Hf as [? ?]. split; [done|]. split; [done|]. split; [done|].
  intros Hs Hl. by destruct (Hlog Hs Hl).
Qed.

(** ** Sequences of operations. *)

(** A call by a client of the trunk server: freeing a space of an existing
    file, allocating, confirming. *)
Inductive trunk_step : TrunkState T -> TrunkState T -> Prop :=
  | step_free s t r s' :
      valid_space s t -> g_slot_min_size conf <= t_size t ->
      trunk_free_space conf t true s = (r, s') -> trunk_step s s'
  | step_alloc s size req r s' :
      0 <= store_path_index (ti_path req) < Z.of_nat (length (store_paths conf)) ->
      Z.of_nat (base.size (files s)) < 2 ^ 31 ->
      size + g_trunk_alloc_alignment_size conf < 2 ^ 31 -> trunk_aligned_size conf size <= g_trunk_file_size conf ->
      trunk_alloc_space conf size req s = (r, s') -> trunk_step s s'
  | step_confirm s t status r s' :
      0 <= store_path_index (ti_path t) < Z.of_nat (length (store_paths conf)) ->
      trunk_alloc_confirm conf t status s = (r, s') -> trunk_step s s'.

Lemma apply_ops_app fs ops ops' l l1 l2 : apply_ops fs ops l l1 -> apply_ops fs ops' l1 l2 -> apply_ops fs (ops ++ ops') l l2.
Proof.
  induction 1 as [l l' Hp|t ops l l' Hlg Hm Hf Ha IH|t ops l la l' Hlg Hp Ha IH]; intros Hb; cbn.
  - eapply apply_ops_perm; [exact Hb|done].
  - constructor; auto.
  - econstructor; eauto.
Qed.

Lemma logged_nil b : log_ok b -> logged b [] b.
Proof. intros. split; [done|]. unfold log_text. cbn. by rewrite app_nil_r. Qed.

(** One step: the invariant, and the records it logs. *)
Lemma trunk_step_spec s s' :
  conf_ok conf -> flight s 0 -> STORAGE_TRUNK_CHECK_STATUS conf s = true -> trunk_step s s' ->
  flight s' 0 /\ STORAGE_TRUNK_CHECK_STATUS conf s' = true /\ files_kept s s' /\
  (syscalls_ok s -> log_ok (binlog s) -> exists ops, logged (binlog s) ops (binlog s') /\
    apply_ops (files s') ops (erase <$> spaces (mem s)) (erase <$> spaces (mem s'))).
Proof.
  intros Hconf Hf Hst Hstep. pose proof (proj1 (flight_0 s) Hf) as [Hinv Hoom].
  pose proof Hst as [Hself Hflag%Z.eqb_eq]%andb_true_iff.
  destruct Hstep as [s t r s' Hv Hmin Heq|s size req r s' Hi Hfs Hsz Hmax Heq|s t status r s' Hi Heq].
  - destruct (free_space_flight s t true Hf Hv Hmin Hself (or_introl Hflag)) as (r1 & s1 & Heq1 & Hf1 & Hfl & Hfi & Hcase).
    rewrite Heq1 in Heq. injection Heq as <- <-. split; [done|].
    split; [unfold STORAGE_TRUNK_CHECK_STATUS; by rewrite Hself, Hfl, Hflag|].
    split; [by apply files_kept_same|]. intros _ Hlo.
    destruct Hcase as [(_ & Hs & Hb & _)|(Hr & Hs & Hfit)].
    + exists []. rewrite Hb, Hs. split; [by apply logged_nil|by constructor].
    + exists [(TRUNK_OP_TYPE_ADD_SPACE, with_st FDFS_TRUNK_STATUS_FREE t)].
      pose proof (log_write_ok TRUNK_OP_TYPE_ADD_SPACE (with_st FDFS_TRUNK_STATUS_FREE t) (binlog s) (ck_time _ Hconf)) as Hl.
      rewrite <- Hr in Hl. destruct Hl as [_ Hl]; [by destruct (vs_ok _ _ Hv) as [[]]; split|auto|done|].
      split; [done|]. apply apply_add; [destruct Hv as [[[] ? ? ?] ? ?]; split; [by split|done|by rewrite Hfi]|done|by apply (fits_erase _ (with_st FDFS_TRUNK_STATUS_FREE t))|].
      constructor. by rewrite Hs.
  - destruct (alloc_space_spec s size req Hconf Hinv Hoom Hst Hi Hfs Hsz Hmax) as (r1 & res & s1 & Heq1 & Hf1 & Hfl & Hk & _ & Hlog).
    rewrite Heq1 in Heq. injection Heq as <- <-. split; [done|].
    split; [unfold STORAGE_TRUNK_CHECK_STATUS; by rewrite Hself, Hfl, Hflag|]. split; [done|]. intros Hs Hl. by destruct (Hlog Hs Hl).
  - assert (index_ok (mem s) (store_path_index (ti_path (with_st FDFS_TRUNK_STATUS_HOLD t)))) as Hix
      by (unfold index_ok; rewrite (si_trees _ Hinv); done).
    unfold trunk_alloc_confirm in Heq. rewrite bind_gets, Hst in Heq. cbn [negb] in Heq.
    destruct ((status =? 0) || (status =? EEXIST)).
    + destruct (delete_space_flight s _ true Hf Hix) as [[_ Heq1]|(s1 & Heq1 & Hb & Hf1 & Hs & Hfi & Hfl)];
        rewrite Heq1 in Heq; injection Heq as <- <-.
      * split; [done|]. split; [done|]. split; [by apply files_kept_same|]. intros _ Hlo. exists []. split; [by apply logged_nil|by constructor].
      * split; [done|]. split; [unfold STORAGE_TRUNK_CHECK_STATUS; by rewrite Hself, Hfl, Hflag|].
        split; [by apply files_kept_same|]. intros _ Hlo.
        assert (with_st FDFS_TRUNK_STATUS_HOLD t ∈ spaces (mem s)) as Hin by (rewrite Hs; by left).
        pose proof (fl_files _ _ Hf _ Hin) as Hfile.
        assert (space_ok (with_st FDFS_TRUNK_STATUS_HOLD t)) as Hsp.
        {          apply elem_of_spaces in Hin as (p & Hp & Hn); [|apply Hf].
          destruct (fb_ptr_live _ p (fl_mem _ _ Hf) Hp) as (y & Hy & ?). by simplify_eq. }
        eexists. rewrite Hb. split; [apply log_write_ok; [apply Hconf|done|auto|done]|].
        eapply apply_del; [split; [done|apply Hi|by rewrite Hfi]|rewrite Hs, fmap_cons; reflexivity|]. by constructor.
    + destruct (restore_node_flight s _ Hf Hix) as [[_ Heq1]|(s1 & rest & Heq1 & Hf1 & Hb & Hfi & Hfl & Hs & Hs')];
        rewrite Heq1 in Heq; injection Heq as <- <-.
      * split; [done|]. split; [done|]. split; [by apply files_kept_same|]. intros _ Hlo. exists []. split; [by apply logged_nil|by constructor].
      * split; [done|]. split; [unfold STORAGE_TRUNK_CHECK_STATUS; by rewrite Hself, Hfl, Hflag|].
        split; [by apply files_kept_same|]. intros _ Hlo.
        exists []. rewrite Hb. split; [by apply logged_nil|]. constructor. rewrite Hs, Hs'. done.
Qed.

Lemma trunk_steps_flight s s' :
  conf_ok conf -> rtc trunk_step s s' -> flight s 0 -> STORAGE_TRUNK_CHECK_STATUS conf s = true ->
  flight s' 0 /\ STORAGE_TRUNK_CHECK_STATUS conf s' = true.
Proof.
  intros Hconf. induction 1 as [s|s s1 s' Hstep _ IH]; intros Hf Hst; [done|].
  destruct (trunk_step_spec s s1 Hconf Hf Hst Hstep) as (Hf1 & Hst1 & _ & _). auto.
Qed.

(** C1: whatever sequence of frees, allocations and confirmations the clients
    make, and whichever file and binlog operations fail, no two spaces the
    trunk server holds share a byte, and [g_trunk_total_free_space] is the
    sum of their sizes (as a 64-bit number). *)
Theorem trunk_reachable_safe s s' :
  conf_ok conf -> state_inv s -> no_oom (mem s) -> STORAGE_TRUNK_CHECK_STATUS conf s = true ->
  rtc trunk_step s s' ->
  (forall i j a b, i <> j -> spaces (mem s') !! i = Some a -> spaces (mem s') !! j = Some b ->
     same_file a b -> ~ overlaps a b) /\
  g_trunk_total_free_space s' = int64 (zsum (t_size <$> spaces (mem s'))) /\ state_inv s'.
Proof.
  intros Hconf Hinv Hoom Hst Hsteps.
  destruct (trunk_steps_flight s s' Hconf Hsteps (proj2 (flight_0 s) (conj Hinv Hoom)) Hst) as [Hf _].
  apply flight_0 in Hf as [Hinv' _]. split; [|split; [apply (si_total _ Hinv')|done]].
  intros i j a b Hij. apply ptrs_disjoint; [apply (si_mem _ Hinv')|done|done].
Qed.

(** A step during which no file system call fails. *)
Definition io_step s s' : Prop := syscalls_ok s /\ trunk_step s s'.

Lemma io_steps_logged s s' :
  conf_ok conf -> rtc io_step s s' -> flight s 0 -> STORAGE_TRUNK_CHECK_STATUS conf s = true -> log_ok (binlog s) ->
  flight s' 0 /\ files_kept s s' /\ exists ops, logged (binlog s) ops (binlog s') /\
    apply_ops (files s') ops (erase <$> spaces (mem s)) (erase <$> spaces (mem s')).
Proof.
  intros Hconf. induction 1 as [s|s s1 s' [Hs Hstep] _ IH]; intros Hf Hst Hlo.
  - split; [done|]. split; [by apply files_kept_same|]. exists []. split; [by apply logged_nil|by constructor].
  - destruct (trunk_step_spec s s1 Hconf Hf Hst Hstep) as (Hf1 & Hst1 & Hk & Hlog).
    destruct (Hlog Hs Hlo) as (ops & Hl & Ha). destruct (IH Hf1 Hst1 (proj1 Hl)) as (Hf' & Hk' & ops' & Hl' & Ha').
    split; [done|]. split; [unfold files_kept in *; by etrans|]. exists (ops ++ ops').
    split; [exact (logged_trans _ _ _ _ _ Hl Hl')|].
    eapply apply_ops_app; [exact (apply_ops_files _ _ _ _ _ (fun n => files_kept_exist s1 s' n Hk') Ha)|exact Ha'].
Qed.

(** C13: the binlog describes the free space.  After any sequence of
    operations in which neither a system call nor a write of the binlog fails
    and memory can be allocated, the text appended to
    the binlog is a list of additions and deletions that, applied to the
    spaces held before, gives the spaces held now (the status is not
    logged); every addition is of a space of an existing file that shares no
    byte with the spaces held at that point. *)
Theorem trunk_binlog_replays s s' :
  conf_ok conf -> state_inv s -> no_oom (mem s) -> STORAGE_TRUNK_CHECK_STATUS conf s = true ->
  log_ok (binlog s) -> rtc io_step s s' ->
  exists ops, bl_log (binlog s') = bl_log (binlog s) ++ log_text ops /\
    apply_ops (files s') ops (erase <$> spaces (mem s)) (erase <$> spaces (mem s')).
Proof.
  intros Hconf Hinv Hoom Hst Hlo Hsteps.
  destruct (io_steps_logged s s' Hconf Hsteps (proj2 (flight_0 s) (conj Hinv Hoom)) Hst Hlo) as (_ & _ & ops & [_ Hl] & Ha).
  eauto.
Qed.
End allocator.
