(* ===== verification/TrunkSnapshot.v ===== *)
(** * The snapshot of the free spaces is right.

    What [storage_trunk_do_save] writes, for the settings without merging
    ([TrunkMerge] has the others): one line for each space held, behind the
    size of the binlog. *)

From S2P Require Import Prelude Avl FastCommon FileWriter TrunkShared FreeBlocks SharedFunc StorePath TrunkBinlog TrunkMem TrunkSave TrunkInv TrunkFiles TrunkAlloc.

(** ** Names. *)
Section names.
Context (sconf : SaveConf).

Definition temp_data_filename : bytes :=
  snprintf MAX_PATH_SIZE (g_fdfs_base_path sconf ++ bs "/data/." ++ STORAGE_TRUNK_DATA_FILENAME ++ bs ".tmp").

(** The base path is short enough, so no name is cut. *)
Definition base_ok : Prop := Z.of_nat (length (g_fdfs_base_path sconf)) <= 200.

Lemma data_filename_full :
  base_ok -> storage_trunk_get_data_filename sconf = g_fdfs_base_path sconf ++ bs "/data/storage_trunk.dat".
Proof.
  unfold base_ok, storage_trunk_get_data_filename, snprintf. intros Hb.
  change (bs "/data/" ++ STORAGE_TRUNK_DATA_FILENAME) with (bs "/data/storage_trunk.dat"). apply take_ge.
  rewrite length_app. change (length (bs "/data/storage_trunk.dat")) with 23%nat.
  change (Z.to_nat (MAX_PATH_SIZE - 1)) with 255%nat. lia.
Qed.

Lemma temp_filename_full :
  base_ok -> temp_data_filename = g_fdfs_base_path sconf ++ bs "/data/.storage_trunk.dat.tmp".
Proof.
  unfold base_ok, temp_data_filename, snprintf. intros Hb.
  change (bs "/data/." ++ STORAGE_TRUNK_DATA_FILENAME ++ bs ".tmp") with (bs "/data/.storage_trunk.dat.tmp"). apply take_ge.
  rewrite length_app. change (length (bs "/data/.storage_trunk.dat.tmp")) with 28%nat.
  change (Z.to_nat (MAX_PATH_SIZE - 1)) with 255%nat. lia.
Qed.

Lemma temp_not_data : base_ok -> temp_data_filename <> storage_trunk_get_data_filename sconf.
Proof. intros Hb. rewrite temp_filename_full, data_filename_full by done. intros [=]%app_inv_head. Qed.

(** The last byte of a trunk file name is a digit. *)
Lemma trunk_file_last t :
  conf_ok (trunk_conf sconf) -> is_uint8 (sub_path_high (ti_path t)) -> is_uint8 (sub_path_low (ti_path t)) ->
  exists l c, file_of (trunk_conf sconf) t = l ++ [c] /\ 48 <= c <= 57.
Proof.
  intros Hc Hh Hl. rewrite file_of_full by done. unfold fmt_06u, pad0.
  pose proof (uint32_nonneg (tf_id (ti_file t))) as Hu. set (u := uint32 _) in *.
  pose proof (fmt_u_chars u ltac:(lia)) as Hf. destruct (fmt_u_spec 10 u) as (_ & _ & Hne); [lia..|].
  destruct (fmt_u 10 u) as [|d ds] eqn:E using rev_ind; [done|]. clear IHds.
  apply Forall_app in Hf as [_ Hf]. apply Forall_cons in Hf as [Hf _].
  eexists _, d. split; [|exact Hf]. rewrite !app_assoc. reflexivity.
Qed.

Lemma last_byte_ne (l1 l2 : bytes) c d : c <> d -> l1 ++ [c] <> l2 ++ [d].
Proof. by intros Hcd [_ [=]]%app_inj_2. Qed.

Lemma trunk_file_not_data t :
  conf_ok (trunk_conf sconf) -> base_ok -> is_uint8 (sub_path_high (ti_path t)) -> is_uint8 (sub_path_low (ti_path t)) ->
  file_of (trunk_conf sconf) t <> temp_data_filename /\
  file_of (trunk_conf sconf) t <> storage_trunk_get_data_filename sconf.
Proof.
  intros Hc Hb Hh Hl. destruct (trunk_file_last t Hc Hh Hl) as (l & c & -> & Hcd).
  rewrite temp_filename_full, data_filename_full by done.
  change (bs "/data/.storage_trunk.dat.tmp") with (bs "/data/.storage_trunk.dat.tm" ++ [112]).
  change (bs "/data/storage_trunk.dat") with (bs "/data/storage_trunk.da" ++ [116]).
  rewrite !app_assoc. split; apply last_byte_ne; lia.
Qed.
End names.

(** ** Steps that only touch the disk. *)
Section save.
Context {T : Type -> Type} `{AvlLaws T} `{FastCommonLaws} {W : Type} `{FileWriterLaws W} (sconf : SaveConf).
Abbreviation conf := (trunk_conf sconf).
Implicit Types (s : TrunkState T) (a : WalkArgs W).

Record disk_step (names : list bytes) s s' : Prop := {
  ds_eq : s' = set_syscalls (syscalls s') (set_files (files s') s);
  ds_files : forall n, n ∉ names -> files s' !! n = files s !! n;
  ds_sys : syscalls_ok s -> syscalls_ok s';
}.

Lemma disk_step_refl names s : disk_step names s s.
Proof. split; [by destruct s|done..]. Qed.

Lemma disk_step_trans names s1 s2 s3 : disk_step names s1 s2 -> disk_step names s2 s3 -> disk_step names s1 s3.
Proof.
  intros [E1 F1 S1] [E2 F2 S2]. split; [|intros n Hn; by rewrite F2, F1|auto].
  rewrite E2 at 1. rewrite E1. done.
Qed.

Lemma disk_step_weaken names names' s s' : disk_step names s s' -> names ⊆ names' -> disk_step names' s s'.
Proof. intros [E F S] Hs. split; [done| |done]. intros n Hn. apply F. set_solver. Qed.

Lemma disk_step_mem names s s' : disk_step names s s' ->
  mem s' = mem s /\ binlog s' = binlog s /\ g_trunk_total_free_space s' = g_trunk_total_free_space s /\
  trunk_init_flag s' = trunk_init_flag s.
Proof. intros [-> _ _]. done. Qed.

Lemma in_disk_spec {A} (c : M Disk A) s name x d' :
  c (mkDisk (files s) (syscalls s)) = (x, d') ->
  only_file name (mkDisk (files s) (syscalls s)) d' -> (syscalls_ok s -> no_errors d') ->
  exists s', in_disk c s = (x, s') /\ disk_step [name] s s' /\ files s' = disk_files d'.
Proof.
  intros Hc Ho Hn. eexists. unfold in_disk. rewrite Hc. split; [reflexivity|]. split; [|done].
  split; cbn; [done| |done]. intros n Hn'. apply Ho. set_solver.
Qed.

Lemma syscall_step names s :
  exists e s', syscall_errno s = (e, s') /\ disk_step names s s' /\ files s' = files s /\ (syscalls_ok s -> e = 0).
Proof.
  destruct (syscall_errno_spec s) as (e & es & Heq & Hok). eexists e, _. split; [exact Heq|].
  split; [split; [done|done|intros Hs; apply Hok, Hs]|]. split; [done|]. intros Hs. by apply Hok.
Qed.

(** ** Writing the lines. *)

(** The lines of a list of spaces. *)
Definition save_text (l : list FDFSTrunkFullInfo) : bytes :=
  concat (record_line (g_current_time conf) TRUNK_OP_TYPE_ADD_SPACE <$> l).

Lemma save_text_app l1 l2 : save_text (l1 ++ l2) = save_text l1 ++ save_text l2.
Proof. unfold save_text. by rewrite fmap_app, concat_app. Qed.

(** [c] appends [text] to the writer unless it fails. *)
Definition writes (n : gmap Z FDFSTrunkFullInfo) (c : WalkArgs W -> M (TrunkState T) (Z * WalkArgs W)) (text : bytes) : Prop :=
  forall a s, nodes (mem s) = n ->
  exists r a' s', c a s = ((r, a'), s') /\ disk_step [writer_name (data_writer a)] s s' /\
    writer_name (data_writer a') = writer_name (data_writer a) /\
    (r = 0 -> writer_text (data_writer a') = writer_text (data_writer a) ++ text) /\
    (syscalls_ok s -> r = 0).

Lemma save_one_writes n t : writes n (save_one_trunk sconf t) (save_text [t]).
Proof.
  intros a s _. unfold save_one_trunk, save_text. cbn [fmap list_fmap concat]. rewrite app_nil_r.
  set (line := record_line _ _ _).
  pose proof (writer_append_spec line (data_writer a) (mkDisk (files s) (syscalls s))) as Hw.
  destruct (buffered_file_writer_append _ _ _) as [[r w] d'] eqn:E. destruct Hw as (Ho & Hnm & Ht & Hok).
  destruct (in_disk_spec _ s _ _ _ E Ho) as (s' & Heq & Hst & _); [intros Hs; by apply Hok|].
  rewrite (bind_eq _ _ _ _ _ Heq). eexists r, _, s'. split; [reflexivity|]. cbn.
  split; [done|]. split; [done|]. split; [done|]. intros Hs. by apply Hok.
Qed.

Lemma writes_walk {X} n (f : X -> WalkArgs W -> M (TrunkState T) (Z * WalkArgs W)) (g : X -> bytes) l :
  (forall x, x ∈ l -> writes n (f x) (g x)) -> writes n (walk f l) (concat (map g l)).
Proof.
  induction l as [|x l IH]; intros Hf a s Hn; cbn [walk map concat].
  { exists 0, a, s. rewrite app_nil_r. split; [done|]. split; [apply disk_step_refl|done]. }
  destruct (Hf x ltac:(by left) a s Hn) as (r & a1 & s1 & Heq & Hst & Hnm & Ht & Hok).
  rewrite (bind_eq _ _ _ _ _ Heq). destruct (decide (r <> 0)) as [Hr|Hr].
  { exists r, a1, s1. split; [done|]. split; [done|]. split; [done|]. split; [done|]. intros Hs. by destruct (Hr (Hok Hs)). }
  apply dec_stable in Hr. subst r. destruct (disk_step_mem _ _ _ Hst) as (Hm & _).
  destruct (IH ltac:(intros y Hy; apply Hf; by right) a1 s1 ltac:(by rewrite Hm)) as (r & a2 & s2 & Heq2 & Hst2 & Hnm2 & Ht2 & Hok2).
  exists r, a2, s2. split; [done|]. rewrite Hnm in Hst2, Hnm2. split; [by eapply disk_step_trans|]. split; [done|]. split.
  - intros Hr. by rewrite Ht2, Ht, app_assoc by done.
  - intros Hs. apply Hok2, (ds_sys _ _ _ Hst), Hs.
Qed.

Lemma slot_writes n sl : writes n (tree_walk_callback_to_file sconf sl) (save_text (deref n (sl_head sl))).
Proof.
  unfold tree_walk_callback_to_file.
  assert (save_text (deref n (sl_head sl)) = concat (map (fun p => save_text [n !!! p]) (sl_head sl))) as ->.
  { unfold deref. induction (sl_head sl) as [|p l IH]; [done|]. cbn [map concat]. rewrite <- IH, fmap_cons.
    apply (save_text_app [n !!! p]). }
  apply writes_walk. intros p _ a s Hn.
  assert (in_mem (get_node p) s = (n !!! p, s)) as Hg by (unfold in_mem, get_node, gets; rewrite Hn; by destruct s).
  rewrite (bind_eq _ _ _ _ _ Hg).
  destruct (save_one_writes n (n !!! p) a s Hn) as (r & a1 & s1 & Heq & Hst & Hnm & Ht & Hok).
  rewrite (bind_eq _ _ _ _ _ Heq). destruct (decide (r <> 0)) as [Hr|Hr].
  { exists r, a1, s1. split; [done|]. split; [done|]. split; [done|]. split; [done|]. intros Hs. by destruct (Hr (Hok Hs)). }
  apply dec_stable in Hr. subst r. eexists 0, _, s1. split; [reflexivity|]. done.
Qed.

(** The spaces in the order of the size trees. *)
Definition saved_spaces (m : TrunkMemory T) : list FDFSTrunkFullInfo := deref (nodes m) (sz_ptrs m).

Lemma saved_spaces_perm m : tm_inv m -> saved_spaces m ≡ₚ spaces m.
Proof. intros Hm. apply deref_perm, (tm_same _ Hm). Qed.

Lemma trees_write m :
  writes (nodes m) (walk (fun tree => walk (tree_walk_callback_to_file sconf) (avl_walk tree)) (tree_info_by_sizes m))
    (save_text (saved_spaces m)).
Proof.
  unfold saved_spaces, sz_ptrs.
  assert (save_text (deref (nodes m) (sz_ptrs_of (tree_info_by_sizes m))) =
    concat (map (fun tr => concat (map (fun sl => save_text (deref (nodes m) (sl_head sl))) (avl_walk tr)))
      (tree_info_by_sizes m))) as ->.
  { unfold sz_ptrs_of. induction (tree_info_by_sizes m) as [|tr l IH]; [done|]. cbn [map concat].
    unfold deref. rewrite fmap_app, save_text_app. fold (deref (nodes m) (concat (map tree_ptrs l))). rewrite IH. f_equal.
    unfold tree_ptrs, sz_of. induction (avl_walk tr) as [|sl ls IHs]; [done|]. cbn [map concat fmap list_fmap].
    rewrite fmap_app, save_text_app, <- IHs. done. }
  apply writes_walk. intros tr _. apply writes_walk. intros sl _. apply slot_writes.
Qed.

(** ** The save. *)
Lemma rename_spec src dst s :
  src <> dst ->
  exists r s', rename src dst s = (r, s') /\ disk_step [src; dst] s s' /\
    (r = 0 -> files s' !! dst = files s !! src) /\
    (syscalls_ok s -> is_Some (files s !! src) -> r = 0).
Proof.
  intros Hne. unfold rename. destruct (syscall_step [src; dst] s) as (e & s1 & Heq & Hst & Hf & Hok).
  rewrite (bind_eq _ _ _ _ _ Heq). destruct (decide (e <> 0)) as [He|He].
  { exists e, s1. split; [done|]. split; [done|]. split; [done|]. intros Hs. by destruct (He (Hok Hs)). }
  rewrite bind_gets, Hf. destruct (files s !! src) as [data|] eqn:E.
  - eexists 0, _. split; [reflexivity|]. split; [|split; [intros _; cbn; by rewrite lookup_insert_eq|done]].
    eapply disk_step_trans; [exact Hst|]. split; cbn; [by destruct s1|intros n Hn|done].
    rewrite lookup_insert_ne, lookup_delete_ne by set_solver. done.
  - exists ENOENT, s1. split; [done|]. split; [done|]. split; [done|]. by intros _ [].
Qed.

Lemma binlog_size_step names s :
  exists size e s', storage_trunk_get_binlog_size s = ((size, e), s') /\ disk_step names s s' /\ files s' = files s /\
    (size < 0 -> ~ syscalls_ok s) /\
    (size = Z.of_nat (length (bl_file (binlog s))) \/ ~ syscalls_ok s).
Proof.
  unfold storage_trunk_get_binlog_size. destruct (syscall_step names s) as (e & s1 & Heq & Hst & Hf & Hok).
  rewrite (bind_eq _ _ _ _ _ Heq). destruct (disk_step_mem _ _ _ Hst) as (_ & Hb & _).
  destruct (decide (e = 0)) as [He|He].
  { rewrite bind_gets, Hb. eexists _, 0, s1. split; [reflexivity|]. do 2 (split; [done|]). split; [lia|by left]. }
  assert (~ syscalls_ok s) as Hn by (intros Hs; by apply He, Hok).
  destruct (decide (e = ENOENT)) as [He2|He2]; eexists _, _, s1; (split; [reflexivity|]); auto.
Qed.

(** The data file of a snapshot: the binlog size and the lines. *)
Definition snapshot_text (size : Z) (l : list FDFSTrunkFullInfo) : bytes :=
  (fmt_d size ++ [10]) ++ save_text l.

Abbreviation data_names := [temp_data_filename sconf; storage_trunk_get_data_filename sconf].

(** The end of a save: the writer [a] is closed and its file renamed. *)
Lemma finish_save_spec (a : WalkArgs W) result s :
  base_ok sconf -> writer_name (data_writer a) = temp_data_filename sconf ->
  exists r s', (let! close_res := in_disk (buffered_file_writer_close (data_writer a)) in
     if decide (result <> 0) then ret result
     else if decide (close_res <> 0) then ret close_res
     else trunk_rename_writers_filename sconf)%c s = (r, s') /\
    disk_step data_names s s' /\
    (r = 0 -> result = 0 /\ files s' !! storage_trunk_get_data_filename sconf = Some (writer_text (data_writer a))) /\
    (syscalls_ok s -> result = 0 -> r = 0).
Proof.
  intros Hb Hnm. pose proof (writer_close_spec (data_writer a) (mkDisk (files s) (syscalls s))) as Hw.
  destruct (buffered_file_writer_close _ _) as [cr d'] eqn:E. rewrite Hnm in Hw. destruct Hw as (Ho & Htxt & Hok).
  destruct (in_disk_spec _ s _ _ _ E Ho) as (s1 & Heq & Hst & Hf); [intros Hs; by apply Hok|].
  rewrite (bind_eq _ _ _ _ _ Heq).
  assert (disk_step data_names s s1) as Hst' by (eapply disk_step_weaken; [exact Hst|set_solver]).
  destruct (decide (result <> 0)) as [Hr|Hr].
  { exists result, s1. do 2 (split; [done|]). split; [done|]. intros _ ?. done. }
  destruct (decide (cr <> 0)) as [Hc|Hc].
  { exists cr, s1. do 2 (split; [done|]). split; [done|]. intros Hs _. by destruct Hc; apply Hok. }
  apply dec_stable in Hr, Hc. subst. unfold trunk_rename_writers_filename.
  destruct (rename_spec (temp_data_filename sconf) (storage_trunk_get_data_filename sconf) s1 (temp_not_data sconf Hb))
    as (r & s2 & Heq2 & Hst2 & Hfile & Hrok).
  rewrite (bind_eq _ _ _ _ _ Heq2). exists r, s2. split; [done|]. split; [by eapply disk_step_trans|].
  rewrite Hf, (Htxt eq_refl) in Hfile, Hrok. split; [intros Hr; split; [done|by apply Hfile]|].
  intros Hs _. apply Hrok; [apply (ds_sys _ _ _ Hst), Hs|done].
Qed.

(** The state after the flush of [do_save_trunk_data]. *)
Definition flushed s : TrunkState T := set_binlog (trunk_binlog_flush (binlog s)).2 s.

Lemma disk_step_binlog names s s' b : disk_step names s s' -> disk_step names (set_binlog b s) (set_binlog b s').
Proof. intros [E F S]. split; cbn; [by rewrite E at 1|done|done]. Qed.

(** The part of a save behind the first line, with a writer that holds the
    first line. *)
Definition save_body (a : WalkArgs W) : M (TrunkState T) Z :=
  (let! trees := gets (fun s => tree_info_by_sizes (mem s)) in
   let! x := walk (fun tree =>
               walk (if g_trunk_free_space_merge sconf then tree_walk_callback_to_list
                     else tree_walk_callback_to_file sconf) (avl_walk tree))
               trees a in
   let '(result, a) := x in
   let! x := (if g_trunk_free_space_merge sconf && (result =? 0)
              then trunk_save_merged_spaces sconf a else ret (result, a)) in
   let '(result, a) := x in
   let! close_res := in_disk (buffered_file_writer_close (data_writer a)) in
   if decide (result <> 0) then ret result
   else if decide (close_res <> 0) then ret close_res
   else trunk_rename_writers_filename sconf)%c.

(** A save fails before its first line is written, or runs the body. *)
Lemma begin_save_spec s :
  base_ok sconf ->
  (exists r s', do_save_trunk_data (W := W) sconf s = (r, s') /\ r <> 0 /\ ~ syscalls_ok s /\
    (disk_step data_names s s' \/ disk_step data_names (flushed s) s')) \/
  (exists a size s1, do_save_trunk_data (W := W) sconf s = save_body a s1 /\ disk_step data_names (flushed s) s1 /\
    writer_name (data_writer a) = temp_data_filename sconf /\ ta_trunks a = [] /\ ta_alloc a = 0 /\
    writer_text (data_writer a) = fmt_d size ++ [10] /\
    (size = Z.of_nat (length (bl_file (binlog (flushed s)))) \/ ~ syscalls_ok s)).
Proof.
  intros Hb. unfold do_save_trunk_data, trunk_open_file_writers. fold (temp_data_filename sconf).
  pose proof (writer_open_spec (temp_data_filename sconf) (mkDisk (files s) (syscalls s))) as Hw.
  destruct (buffered_file_writer_open _ _) as [[r w] d'] eqn:E. destruct Hw as (Ho & Hnew & Hok).
  destruct (in_disk_spec _ s _ _ _ E Ho) as (s1 & Heq & Hst & _); [intros Hs; by apply Hok|].
  assert (disk_step data_names s s1) as Hst1 by (eapply disk_step_weaken; [exact Hst|set_solver]).
  rewrite bind_assoc, (bind_eq _ _ _ _ _ Heq), bind_ret. cbn [fst snd].
  destruct (decide (r <> 0)) as [Hr|Hr].
  { left. exists r, s1. split; [done|]. split; [done|]. split; [|by left]. intros Hs. by destruct Hr; apply Hok. }
  apply dec_stable in Hr. destruct (Hnew Hr) as [Hnm Htxt]. subst r.
  assert (in_binlog trunk_binlog_flush s1 = ((trunk_binlog_flush (binlog s)).1,
    set_binlog (trunk_binlog_flush (binlog s)).2 s1)) as Hfl.
  { unfold in_binlog. destruct (disk_step_mem _ _ _ Hst) as (_ & -> & _). by destruct (trunk_binlog_flush _). }
  rewrite (bind_eq _ _ _ _ _ Hfl). set (s2 := set_binlog _ s1).
  pose proof (disk_step_binlog _ _ _ (trunk_binlog_flush (binlog s)).2 Hst1) as Hst2. fold (flushed s) in Hst2. fold s2 in Hst2.
  assert (syscalls_ok s -> syscalls_ok s2) as Hs2 by (intros Hs; apply (ds_sys _ _ _ Hst1 Hs)).
  destruct (binlog_size_step data_names s2) as (size & e & s3 & Heq3 & Hst3 & _ & Hneg & Hsize).
  assert (disk_step data_names (flushed s) s3) as Hst13 by (by eapply disk_step_trans).
  rewrite (bind_eq _ _ _ _ _ Heq3). cbn [fst snd]. destruct (size <? 0) eqn:Elt.
  { left. eexists _, s3. split; [reflexivity|]. split; [destruct (decide (e = 0)); done|].
    split; [intros Hs; by apply Hneg; [lia|auto]|by right]. }
  pose proof (writer_append_spec (fmt_d size ++ [10]) w (mkDisk (files s3) (syscalls s3))) as Hw3.
  cbn [data_writer]. destruct (buffered_file_writer_append _ _ _) as [[r w'] d3] eqn:E3.
  destruct Hw3 as (Ho3 & Hnm3 & Ht3 & Hok3). rewrite Hnm in Ho3, Hnm3.
  destruct (in_disk_spec _ s3 _ _ _ E3 Ho3) as (s4 & Heq4 & Hst4 & _); [intros Hs; by apply Hok3|].
  rewrite (bind_eq _ _ _ _ _ Heq4). cbn [ta_trunks ta_alloc stats_trunk_count stats_total_size].
  assert (disk_step data_names (flushed s) s4) as Hst14.
  { eapply disk_step_trans; [exact Hst13|]. eapply disk_step_weaken; [exact Hst4|set_solver]. }
  destruct (decide (r <> 0)) as [Hr|Hr].
  { left. pose proof (writer_close_spec w' (mkDisk (files s4) (syscalls s4))) as Hc.
    destruct (buffered_file_writer_close _ _) as [cr d5] eqn:E5. rewrite Hnm3 in Hc. destruct Hc as (Ho5 & _ & Hok5).
    destruct (in_disk_spec _ s4 _ _ _ E5 Ho5) as (s5 & Heq5 & Hst5 & _); [intros Hs; by apply Hok5|].
    rewrite (bind_eq _ _ _ _ _ Heq5). exists r, s5. split; [done|]. split; [done|]. split.
    - intros Hs. destruct Hr. apply Hok3. apply (ds_sys _ _ _ Hst3). auto.
    - right. eapply disk_step_trans; [exact Hst14|]. eapply disk_step_weaken; [exact Hst5|set_solver]. }
  apply dec_stable in Hr. right. exists (mkArgs w' [] 0 0 0), size, s4. split; [reflexivity|].
  split; [done|]. cbn. split; [done|]. split; [done|]. split; [done|]. split; [by rewrite Ht3, Htxt by done|].
  destruct Hsize as [->|Hn]; [left|right; auto].
  by destruct (disk_step_mem _ _ _ Hst1) as (_ & _).
Qed.

(** A save without merging: every outcome. *)
Lemma do_save_spec s :
  base_ok sconf -> g_trunk_free_space_merge sconf = false -> tm_inv (mem s) ->
  exists r s', storage_trunk_do_save (W := W) sconf false s = (r, s') /\
    (disk_step data_names s s' /\ ~ syscalls_ok s \/ disk_step data_names (flushed s) s') /\
    (r = 0 -> exists size, files s' !! storage_trunk_get_data_filename sconf = Some (snapshot_text size (saved_spaces (mem s))) /\
      (syscalls_ok s -> size = Z.of_nat (length (bl_file (binlog s'))))) /\
    (syscalls_ok s -> r = 0).
Proof.
  intros Hb Hm Hinv. unfold storage_trunk_do_save.
  destruct (begin_save_spec s Hb) as [(r & s' & -> & Hr & Hn & Hst)|(a & size & s1 & -> & Hst & Hnm & _ & _ & Htxt & Hsize)].
  { exists r, s'. split; [done|]. split; [naive_solver|]. done. }
  destruct (disk_step_mem _ _ _ Hst) as (Hmem1 & Hbin1 & Htot1 & _). change (mem (flushed s)) with (mem s) in Hmem1.
  unfold save_body. rewrite bind_gets, Hm, Hmem1.
  destruct (trees_write (mem s) a s1 ltac:(by rewrite Hmem1)) as (r & a2 & s2 & Heq & Hst2 & Hnm2 & Ht2 & Hok2).
  rewrite (bind_eq _ _ _ _ _ Heq). cbn [andb]. rewrite bind_ret.
  rewrite Hnm in Hst2, Hnm2.
  destruct (finish_save_spec a2 r s2 Hb Hnm2) as (r' & s3 & -> & Hst3 & Hr' & Hok').
  assert (disk_step data_names (flushed s) s3) as Hst13.
  { eapply disk_step_trans; [exact Hst|]. eapply disk_step_trans; [|exact Hst3]. eapply disk_step_weaken; [exact Hst2|set_solver]. }
  destruct (disk_step_mem _ _ _ Hst13) as (Hmem3 & Hbin3 & Htot3 & _).
  exists r', s3. split; [done|]. split; [by right|]. split.
  - intros H0'. destruct (Hr' H0') as [Hz Hfile]. exists size. split; [by rewrite Hfile, Ht2, Htxt by done|].
    intros Hs. rewrite Hbin3. by destruct Hsize.
  - intros Hs. assert (syscalls_ok s1) as Hs1 by (apply (ds_sys _ _ _ Hst), Hs).
    apply Hok'; [by apply (ds_sys _ _ _ Hst2)|by apply Hok2].
Qed.

(** C18: a snapshot without merging.  When the save succeeds, the data file
    holds the size of the flushed binlog and one line for each space held;
    the spaces, the total and all other files are as before.  It succeeds
    when no system call fails. *)
Theorem storage_trunk_save_correct s :
  base_ok sconf -> g_trunk_free_space_merge sconf = false -> tm_inv (mem s) ->
  let '(r, s') := storage_trunk_do_save (W := W) sconf false s in
  mem s' = mem s /\ g_trunk_total_free_space s' = g_trunk_total_free_space s /\
  (forall n, n ∉ data_names -> files s' !! n = files s !! n) /\
  (r = 0 -> exists size l, l ≡ₚ spaces (mem s) /\
    files s' !! storage_trunk_get_data_filename sconf = Some (snapshot_text size l) /\
    (syscalls_ok s -> size = Z.of_nat (length (bl_file (binlog s'))))) /\
  (syscalls_ok s -> r = 0).
Proof.
  intros Hb Hm Hinv. destruct (do_save_spec s Hb Hm Hinv) as (r & s' & -> & Hst & Hr & Hok).
  assert (mem s' = mem s /\ g_trunk_total_free_space s' = g_trunk_total_free_space s /\
    (forall n, n ∉ data_names -> files s' !! n = files s !! n)) as (? & ? & ?).
  { destruct Hst as [[Hst _]|Hst]; destruct (disk_step_mem _ _ _ Hst) as (? & _ & ? & _);
      (split; [done|]; split; [done|]; apply (ds_files _ _ _ Hst)). }
  split; [done|]. split; [done|]. split; [done|]. split; [|done].
  intros H0'. destruct (Hr H0') as (size & Hfile & Hsize). exists size, (saved_spaces (mem s)).
  split; [by apply saved_spaces_perm|done].
Qed.
End save.
