(* ===== verification/TrunkRestore.v ===== *)
(** * Loading a snapshot and replaying the binlog give the spaces back.

    The lines of a snapshot are added one by one ([load_loop_spec]); the
    records of the binlog are applied to what was loaded
    ([restore_loop_replays]), or rebuild everything through the tree by offset
    ([reload_loop_rebuilds]). *)

From S2P Require Import Prelude Avl FastCommon FileWriter TrunkShared FreeBlocks SharedFunc StorePath TrunkBinlog TrunkMem TrunkSave TrunkLoad TrunkInv TrunkFiles TrunkAlloc TrunkSnapshot.

(** ** Operations that only touch the memory, the total and the binlog. *)
Section local.
Context {T : Type -> Type} `{AvlTree T} `{FastCommon}.
Implicit Types s : TrunkState T.

Record same_env s s' : Prop := {
  se_files : files s' = files s;
  se_syscalls : syscalls s' = syscalls s;
  se_flag : trunk_init_flag s' = trunk_init_flag s;
  se_id : g_current_trunk_file_id s' = g_current_trunk_file_id s;
  se_ini : ini_trunk_file_id s' = ini_trunk_file_id s;
  se_dist : dist s' = dist s;
}.

#[global] Instance same_env_preorder : PreOrder same_env.
Proof. split; [by split|]. intros ? ? ? [] []. split; congruence. Qed.

Definition local {A} (c : M (TrunkState T) A) : Prop := forall s, same_env s (c s).2.

Lemma local_bind {A B} (c : M (TrunkState T) A) (k : A -> M (TrunkState T) B) :
  local c -> (forall a, local (k a)) -> local (bind c k).
Proof. intros Hc Hk s. unfold bind. specialize (Hc s). destruct (c s) as [a s']. etrans; [exact Hc|apply Hk]. Qed.
Lemma local_ret {A} (a : A) : local (ret a).
Proof. by intros s. Qed.
Lemma local_gets {A} (f : TrunkState T -> A) : local (gets f).
Proof. by intros s. Qed.
Lemma local_in_mem {A} (c : M (TrunkMemory T) A) : local (in_mem c).
Proof. intros s. unfold in_mem. by destruct (c (mem s)). Qed.
Lemma local_in_binlog {A} (c : M TrunkBinlog A) : local (in_binlog c).
Proof. intros s. unfold in_binlog. by destruct (c (binlog s)). Qed.
Lemma local_total f : local (modify (fun s => set_total (f s) s)).
Proof. by intros s. Qed.
End local.

Create HintDb local_db.
#[export] Hint Resolve local_bind local_ret local_gets local_in_mem local_in_binlog local_total : local_db.

(** Prove [local] by following the structure of the code. *)
Ltac solve_local :=
  repeat first
    [ progress intros
    | apply local_bind
    | solve [eauto with local_db]
    | case_match ].

Section local_ops.
Context {T : Type -> Type} `{AvlTree T} `{FastCommon} (conf : TrunkConf).

Lemma local_free_space t bw : local (trunk_free_space (T := T) conf t bw).
Proof.
  unfold trunk_free_space, free_space_by_trunk, trunk_add_free_block_ex, trunk_mem_binlog_write. solve_local.
Qed.

Lemma local_delete_space t bw : local (trunk_delete_space_ex (T := T) conf t bw).
Proof. unfold trunk_delete_space_ex, trunk_mem_binlog_write. solve_local. Qed.

Lemma local_add_by_node p : local (trunk_add_free_block_ex (T := T) conf p false).
Proof. unfold trunk_add_free_block_ex, trunk_mem_binlog_write. solve_local. Qed.
End local_ops.

#[export] Hint Resolve local_free_space local_delete_space local_add_by_node : local_db.

Lemma fmt_d_no_nul n : 0 ∉ fmt_d n.
Proof. apply fmt_no. lia. Qed.

(** ** The lines of the snapshot. *)
Section lines.
Context `{FastCommonLaws}.
Lemma fmt_d_uint8_length n : is_uint8 n -> (length (fmt_d n) <= 3)%nat.
Proof.
  unfold is_uint8, fmt_d. intros. rewrite (proj2 (Z.ltb_ge n 0)) by lia. apply fmt_u_length; lia.
Qed.

Lemma record_line_short ts op t : record_ok ts op t -> Z.of_nat (length (record_line ts op t)) <= TRUNK_LINE_MAX_LENGTH.
Proof.
  intros []. pose proof (uint32_nonneg (tf_id (ti_file t))).
  pose proof (fmt_u_length 10 (uint32 (tf_id (ti_file t))) 10 ltac:(lia) ltac:(lia) ltac:(lia)).
  pose proof (fmt_d_length ts ro_time). pose proof (fmt_d_uint8_length _ ro_index).
  pose proof (fmt_d_uint8_length _ ro_high). pose proof (fmt_d_uint8_length _ ro_low).
  pose proof (fmt_d_length _ ro_offset). pose proof (fmt_d_length _ ro_size).
  rewrite record_line_body. unfold record_body, TRUNK_LINE_MAX_LENGTH. cbn [join].
  repeat (rewrite length_app || cbn [length]). lia.
Qed.

Lemma parse_data_line_ok ts op t :
  record_ok ts op t -> parse_data_line (removelast (record_line ts op t)) = Some (erase t).
Proof.
  intros Ho. rewrite record_line_body, removelast_last. unfold parse_data_line, record_body.
  pose proof (record_fields_no_space _ _ _ Ho) as Hf. unfold record_fields in Hf.
  rewrite splitEx_join; [| |done|cbn; unfold TRUNK_DATA_NEW_FIELD_COUNT; lia].
  2:{ repeat (apply Forall_cons in Hf as [? Hf]). repeat (apply Forall_cons; split); try done.
      apply fmt_no. lia. }
  destruct Ho. destruct t as [st [pi ph pl] [id off sz]]. cbn in *. unfold is_uint8 in *.
  rewrite !atoi_field by (done || unfold is_int32; lia).
  rewrite <- (app_nil_r (fmt_u _ _)), atoi_fmt_uint32 by (done || apply ends_number_nil).
  by rewrite !uint8_id by (unfold is_uint8; lia).
Qed.

Lemma record_line_no_nul ts op t : record_ok ts op t -> op <> 0 -> 0 ∉ record_line ts op t.
Proof.
  intros Ho Hop. rewrite record_line_body. unfold record_body. cbn [join].
  pose proof (uint32_nonneg (tf_id (ti_file t))).
  repeat (rewrite ?not_elem_of_app, ?not_elem_of_cons); repeat split; try done;
    try (apply fmt_d_no_nul); try (apply fmt_u_no; lia); apply not_elem_of_nil.
Qed.

(** The lines of spaces, as written at time [ts]. *)
Definition lines (ts : Z) (l : list FDFSTrunkFullInfo) : bytes :=
  concat (record_line ts TRUNK_OP_TYPE_ADD_SPACE <$> l).

Definition adds (l : list FDFSTrunkFullInfo) : list (Z * FDFSTrunkFullInfo) :=
  (fun t => (TRUNK_OP_TYPE_ADD_SPACE, t)) <$> l.

(** A place in the data file behind a line. *)
Definition boundary (a : bytes) : Prop := a = [] \/ last a = Some 10.

(** A line ends exactly one buffer before the end of the file. *)
Definition buffer_hits_end (text : bytes) : Prop :=
  exists a b, text = a ++ b /\ Z.of_nat (length b) = LOAD_BUFFER_SIZE /\ boundary a.

Lemma upto_None_no (b : bytes) : upto 10 b = None -> 10 ∉ b.
Proof.
  induction b as [|x b IH]; cbn; [intros _; apply not_elem_of_nil|].
  destruct (decide (x = 10)); [done|]. destruct (upto 10 b); [done|]. intros _. apply not_elem_of_cons. auto.
Qed.

Lemma lines_cons ts t l : lines ts (t :: l) = record_line ts TRUNK_OP_TYPE_ADD_SPACE t ++ lines ts l.
Proof. done. Qed.

Lemma lines_no_nul ts l : Forall (fun t => record_ok ts TRUNK_OP_TYPE_ADD_SPACE t) l -> 0 ∉ lines ts l.
Proof.
  unfold lines. induction 1 as [|t l Ht Hl IH]; cbn; [apply not_elem_of_nil|].
  apply not_elem_of_app. split; [|exact IH]. by apply record_line_no_nul.
Qed.
End lines.

(** ** Adding spaces. *)
Section load.
Context {T : Type -> Type} `{AvlLaws T} `{FastCommonLaws} (sconf : SaveConf).
Abbreviation conf := (trunk_conf sconf).
Context (Hconf : conf_ok conf) (Hself : g_if_trunker_self conf = true).
Implicit Types (s : TrunkState T) (t : FDFSTrunkFullInfo).

Lemma erase_idem t : erase (erase t) = erase t.
Proof. done. Qed.

Lemma loggable_valid s t : loggable conf (files s) t -> valid_space conf s t.
Proof. by intros []. Qed.

Lemma loggable_erase fs t : loggable conf fs t -> loggable conf fs (erase t).
Proof. intros [[[] ? ? ?] ? ?]. by split. Qed.

(** The environment of the trunk manager and its binlog are as before. *)
Record loaded s s' : Prop := {
  ld_env : same_env s s';
  ld_binlog : binlog s' = binlog s;
  ld_flight : flight conf s' 0;
}.

Lemma loaded_trans s1 s2 s3 : loaded s1 s2 -> loaded s2 s3 -> loaded s1 s3.
Proof. intros [] []. split; [by etrans|congruence|done]. Qed.

Lemma add_space_spec s t :
  flight conf s 0 -> loggable conf (files s) t -> g_slot_min_size conf <= t_size t -> fits (spaces (mem s)) t ->
  exists s', trunk_add_space_by_trunk sconf t s = (0, s') /\ loaded s s' /\
    spaces (mem s') ≡ₚ erase t :: spaces (mem s).
Proof.
  intros Hf Hlg Hmin Hfit. unfold trunk_add_space_by_trunk.
  destruct (free_space_flight conf s t false Hf (loggable_valid _ _ Hlg) Hmin Hself (or_intror eq_refl))
    as (r & s' & Heq & Hf' & _ & _ & [(_ & _ & _ & b & Hb & Hsf & Ho)|(Hr & Hs & _)]).
  { by destruct (Hfit b Hb Hsf). }
  rewrite (bind_eq _ _ _ _ _ Heq). injection Hr as -> Hb. exists s'. split; [done|]. split; [|done].
  split; [|done|done]. pose proof (local_free_space conf t false s) as Hl. by rewrite Heq in Hl.
Qed.

Lemma delete_space_spec s t l :
  flight conf s 0 -> loggable conf (files s) t -> spaces (mem s) ≡ₚ erase t :: l ->
  exists s', trunk_delete_space_ex conf (erase t) false s = (0, s') /\ loaded s s' /\ spaces (mem s') ≡ₚ l.
Proof.
  intros Hf Hlg Hs.
  assert (index_ok (mem s) (store_path_index (ti_path (erase t)))) as Hi.
  { apply (valid_index conf s 0); [done|]. by apply loggable_valid, loggable_erase. }
  destruct (delete_space_flight conf s (erase t) false Hf Hi) as [[Hno _]|(s' & Heq & Hb & Hf' & Hs' & _)].
  { destruct Hno. rewrite Hs. by left. }
  exists s'. split; [exact Heq|]. split.
  - split; [|exact Hb|done]. pose proof (local_delete_space conf (erase t) false s) as Hl. by rewrite Heq in Hl.
  - rewrite Hs in Hs'. by apply Permutation_cons_inv in Hs'.
Qed.

Lemma fits_spaces l m t : spaces m ≡ₚ erase <$> l -> fits (erase <$> l) t -> fits (spaces m) t.
Proof. intros Hs Hf. by eapply fits_perm. Qed.

Lemma adds_records fs ts l l0 l' :
  is_int32 ts -> apply_ops conf fs (adds l) l0 l' -> Forall (fun t => record_ok ts TRUNK_OP_TYPE_ADD_SPACE t) l.
Proof.
  intros Hts. revert l0. induction l as [|t l IH]; intros l0 Ha; [done|]. inversion_clear Ha as [|? ? ? ? Hlg _ _ Ha'|].
  constructor; [|by eapply IH]. apply space_record_ok; [apply Hlg|done|by left].
Qed.

(** What the loader does with a line of the snapshot. *)
Lemma load_line_spec ts s t l0 :
  is_int32 ts -> g_trunk_init_check_occupying sconf = false ->
  flight conf s 0 -> loggable conf (files s) t -> g_slot_min_size conf <= t_size t -> fits l0 t ->
  spaces (mem s) ≡ₚ l0 ->
  exists s', storage_trunk_do_add_space sconf (erase t) s = (0, s') /\ loaded s s' /\ spaces (mem s') ≡ₚ erase t :: l0.
Proof.
  intros Hts Hocc Hf Hlg Hmin Hfit Hs. unfold storage_trunk_do_add_space. rewrite Hocc, bind_ret.
  destruct (add_space_spec s (erase t) Hf (loggable_erase _ _ Hlg) Hmin) as (s' & Heq & Hl & Hs').
  { apply (fits_perm l0); [|by rewrite Hs]. exact Hfit. }
  exists s'. split; [done|]. split; [done|]. by rewrite Hs', Hs.
Qed.

Lemma load_loop_spec ts fuel l l0 l' rest nbytes data pre s :
  is_int32 ts -> g_trunk_init_check_occupying sconf = false ->
  flight conf s 0 -> syscalls_ok s -> apply_ops conf (files s) (adds l) l0 l' -> spaces (mem s) ≡ₚ l0 ->
  rest ++ data = lines ts l -> nbytes <= LOAD_BUFFER_SIZE -> (nbytes < LOAD_BUFFER_SIZE -> data = []) ->
  boundary pre -> (nbytes = LOAD_BUFFER_SIZE -> buffer_hits_end (pre ++ rest)) ->
  (length rest + 2 * length data < fuel)%nat ->
  exists x s', load_loop sconf fuel rest nbytes data s = (x, s') /\ flight conf s' 0 /\ spaces (mem s') ≡ₚ l' /\
    files s' = files s /\ binlog s' = binlog s /\ trunk_init_flag s' = trunk_init_flag s /\ syscalls_ok s' /\
    (x = inr [] \/ x = inl ENOENT /\ buffer_hits_end (pre ++ lines ts l)) /\
    (data = [] -> nbytes = LOAD_BUFFER_SIZE -> x = inl ENOENT).
Proof.
  intros Hts Hocc. revert l l0 rest nbytes data pre s.
  induction fuel as [|fuel IH]; intros l l0 rest nbytes data pre s Hf Hsys Ha Hs Htext Hn Hd Hpre Hhit Hfuel; [lia|].
  pose proof (adds_records _ _ _ _ _ Hts Ha) as Hrec. pose proof (lines_no_nul _ _ Hrec) as Hnul.
  assert (cstr rest = rest) as Hc.
  { apply cstr_no_nul, Forall_forall. intros c Hin ->. apply Hnul. rewrite <- Htext. by apply elem_of_app; left. }
  cbn [load_loop]. rewrite Hc. destruct (upto 10 rest) as [line|] eqn:Eu.
  - (* a line *)
    destruct l as [|t l].
    { apply app_nil in Htext as [-> _]. done. }
    apply Forall_cons in Hrec as [Ht Hrec].
    pose proof (lines_cons ts t l) as Hcons.
    pose proof (upto_app _ data _ Eu) as Eu2. rewrite Htext, Hcons, record_line_body, upto_line in Eu2
      by (by apply record_body_no_newline). injection Eu2 as <-. rewrite <- record_line_body.
    destruct (upto_prefix _ _ Eu) as (rest' & ->). rewrite <- record_line_body in *.
    rewrite parse_data_line_ok by done. inversion_clear Ha as [|? ? ? ? Hlg Hmin Hfit Ha'|].
    destruct (load_line_spec ts s t l0 Hts Hocc Hf Hlg Hmin Hfit Hs) as (s1 & Heq & Hld & Hs1).
    rewrite (bind_eq _ _ _ _ _ Heq), decide_False by naive_solver. rewrite drop_app_length.
    pose proof (ld_env _ _ Hld) as Henv. pose proof (se_files _ _ Henv) as Hfi.
    rewrite <- app_assoc, Hcons in Htext. apply app_inv_head in Htext.
    destruct (IH l (erase t :: l0) rest' nbytes data (pre ++ record_line ts TRUNK_OP_TYPE_ADD_SPACE t) s1)
      as (x & s2 & Heq2 & Hf2 & Hs2 & Hfi2 & Hb2 & Hfl2 & Hsys2 & Hx & Hexact); try done.
    + apply Hld.
    + unfold syscalls_ok. by rewrite (se_syscalls _ _ Henv).
    + by rewrite Hfi.
    + right. rewrite record_line_body, app_assoc. apply last_snoc.
    + intros E. rewrite <- app_assoc. by apply Hhit.
    + rewrite length_app, record_line_body, length_app in Hfuel. change (length [10]) with 1%nat in Hfuel. lia.
    + exists x, s2. split; [done|]. split; [done|]. split; [done|].
      split; [by rewrite Hfi2|]. split; [by rewrite Hb2, (ld_binlog _ _ Hld)|]. split; [by rewrite Hfl2, (se_flag _ _ Henv)|].
      split; [done|]. split; [|done]. rewrite Hcons, app_assoc. exact Hx.
  - (* no line in the buffer *)
    apply upto_None_no in Eu.
    assert (l = [] /\ rest = [] \/ data <> []) as Hcase.
    { destruct data; [|by right]. left. rewrite app_nil_r in Htext. destruct l as [|t l]; [by rewrite Htext|].
      destruct Eu. rewrite Htext, lines_cons, record_line_body. set_solver. }
    destruct (nbytes <? LOAD_BUFFER_SIZE) eqn:En.
    + destruct Hcase as [[-> ->]|Hne]; [|destruct Hne; apply Hd; lia].
      inversion_clear Ha as [? ? Hp| |]. exists (inr []), s. split; [done|]. split; [done|]. split; [by rewrite Hs|].
      do 4 (split; [done|]). split; [by left|]. intros _ ->. lia.
    + assert (nbytes = LOAD_BUFFER_SIZE) as -> by lia. clear En Hd.
      assert (Z.of_nat (length rest) <= TRUNK_LINE_MAX_LENGTH) as Hlen.
      { destruct l as [|t l]; [apply app_nil in Htext as [-> _]; cbn; unfold TRUNK_LINE_MAX_LENGTH; lia|].
        apply Forall_cons in Hrec as [Ht _]. pose proof (record_line_short _ _ _ Ht) as Hshort.
        destruct (decide (length rest <= length (record_line ts TRUNK_OP_TYPE_ADD_SPACE t))%nat) as [|Hgt]; [lia|].
        destruct Eu. rewrite lines_cons in Htext.
        apply (f_equal (take (length (record_line ts TRUNK_OP_TYPE_ADD_SPACE t)))) in Htext.
        rewrite take_app_le, take_app_length in Htext by lia.
        rewrite <- (take_drop (length (record_line ts TRUNK_OP_TYPE_ADD_SPACE t)) rest), Htext.
        rewrite record_line_body. set_solver. }
      rewrite (proj2 (Z.ltb_ge _ _)) by lia.
      destruct (syscall_step [] s) as (e & s1 & Heq & Hst & Hfi & Hok). rewrite (bind_eq _ _ _ _ _ Heq).
      rewrite (Hok Hsys), decide_False by naive_solver. destruct (disk_step_mem _ _ _ Hst) as (Hm1 & Hb1 & Ht1 & Hfl1).
      pose proof (ds_sys _ _ _ Hst Hsys) as Hsys1.
      assert (flight conf s1 0) as Hf1.
      { destruct Hf. rewrite (ds_eq _ _ _ Hst). split; cbn; rewrite ?Hfi; done. }
      set (k := Z.to_nat (LOAD_BUFFER_SIZE - Z.of_nat (length rest))).
      assert (0 < k)%nat as Hk by (unfold k, LOAD_BUFFER_SIZE, TRUNK_LINE_MAX_LENGTH in *; lia).
      case_bool_decide as Ech.
      * assert (data = []) as -> by (destruct data; [done|]; destruct k; [lia|done]).
        destruct Hcase as [[-> ->]|]; [|done]. inversion_clear Ha as [? ? Hp| |].
        exists (inl ENOENT), s1. split; [done|]. split; [done|]. split; [by rewrite Hm1, Hs|].
        split; [done|]. split; [done|]. split; [done|]. split; [done|]. split; [|done]. right. split; [done|].
        rewrite app_nil_r in Hhit |- *. by apply Hhit.
      * set (chunk := take k data) in *.
        assert (length chunk = Nat.min k (length data)) as Hcl by (unfold chunk; apply length_take).
        assert (chunk ++ drop (length chunk) data = data) as Hcd.
        { rewrite Hcl. unfold chunk. destruct (decide (k <= length data)%nat).
          - rewrite Nat.min_l by done. apply take_drop.
          - rewrite Nat.min_r by lia. rewrite take_ge, drop_ge by lia. apply app_nil_r. }
        assert (chunk <> []) as Hcne by done.
        destruct (IH l l0 (rest ++ chunk) (Z.of_nat (length rest) + Z.of_nat (length chunk)) (drop (length chunk) data) pre s1)
          as (x & s2 & Heq2 & Hf2 & Hs2 & Hfi2 & Hb2 & Hfl2 & Hsys2 & Hx & Hexact); try done.
        -- by rewrite Hfi.
        -- by rewrite Hm1.
        -- by rewrite <- app_assoc, Hcd.
        -- rewrite Hcl. unfold k. lia.
        -- rewrite Hcl. intros Hlt. apply drop_ge. unfold k in *. lia.
        -- intros Hfull. exists pre, (rest ++ chunk). split; [done|]. split; [|done]. rewrite length_app. lia.
        -- rewrite length_app, length_drop. assert (0 < length chunk)%nat by (destruct chunk; [done|cbn; lia]). lia.
        -- exists x, s2. split; [done|]. split; [done|]. split; [done|]. split; [by rewrite Hfi2|].
           split; [by rewrite Hb2|]. split; [by rewrite Hfl2|]. split; [done|]. split; [done|].
           intros ->. by destruct k.
Qed.

(** ** Replaying the binlog. *)

(** The operations of records. *)
Definition ops_of (rs : list TrunkBinLogRecord) : list (Z * FDFSTrunkFullInfo) :=
  (fun x => (rec_op_type x, rec_trunk x)) <$> rs.

Definition times_ok (rs : list TrunkBinLogRecord) : Prop := Forall (fun x => is_int32 (rec_timestamp x)) rs.

Lemma reader_advance b r len :
  reader_ok b r -> reader_ok b (advance len r) /\ reader_view b (advance len r) = reader_view b r.
Proof. intros []. by repeat split. Qed.

(** Reading the next record of the binlog, as the loop does. *)
Lemma restore_loop_step fuel reload size r rec tree s x rs l0 :
  reader_ok (binlog s) r -> rec_ok x -> loggable conf (files s) (rec_trunk x) ->
  reader_view (binlog s) r = concat (rec_line <$> x :: rs) ->
  rd_binlog_offset r + Z.of_nat (length (reader_view (binlog s) r)) = size ->
  spaces (mem s) ≡ₚ l0 ->
  exists rec1 r1, ti_status (rec_trunk rec1) = FDFS_TRUNK_STATUS_FREE /\
    restore_loop sconf (S fuel) reload size r rec tree s =
      (let! y := restore_record sconf reload (with_status (ti_status (rec_trunk rec)) x) tree in
       match y with
       | inl e => ret (inl e)
       | inr (result, tree) =>
           if decide (result <> 0) then ret (inr (result, tree))
           else restore_loop sconf fuel reload size r1 rec1 tree
       end)%c s /\
    reader_ok (binlog s) r1 /\ reader_view (binlog s) r1 = concat (rec_line <$> rs) /\
    rd_binlog_offset r1 + Z.of_nat (length (reader_view (binlog s) r1)) = size.
Proof.
  intros Hr Hx Hlg Hv Hoff Hs. pose proof Hv as Hv'. cbn [fmap list_fmap concat] in Hv'.
  destruct (read_ok (binlog s) r rec x _ Hr Hx Hv') as (r1 & Hread & Hr1 & Hv1 & Ho1).
  destruct (reader_advance _ _ (Z.of_nat (length (rec_line x))) Hr1) as [Hr2 Hv2].
  eexists _, (advance (Z.of_nat (length (rec_line x))) r1). split; [|split].
  2:{ cbn [restore_loop]. rewrite bind_gets, Hread, decide_False by naive_solver.
      replace (_ || _) with false; [reflexivity|].
      destruct Hlg as [[_ Hi _ _] Hlt _]. unfold is_uint8 in Hi.
      cbn [with_status rec_trunk ti_path]. lia. }
  - done.
  - split; [done|]. split; [by rewrite Hv2|]. rewrite Hv2, Hv1. unfold advance. cbn [rd_binlog_offset].
    rewrite Ho1, <- Hoff, Hv', length_app. lia.
Qed.

(** The end of the binlog. *)
Lemma restore_loop_end fuel reload size r rec tree s :
  reader_ok (binlog s) r -> reader_view (binlog s) r = [] -> rd_binlog_offset r = size ->
  restore_loop sconf (S fuel) reload size r rec tree s = (inr (0, tree), s).
Proof.
  intros Hr Hv Ho. cbn [restore_loop]. rewrite bind_gets.
  destruct (read_end _ _ rec Hr Hv) as (r' & -> & _ & _ & Ho'). rewrite decide_True by done.
  rewrite decide_True by done. cbn. by rewrite Ho', Ho, Z.leb_refl.
Qed.

(** Behind a snapshot: every record is applied to the spaces. *)
Lemma restore_loop_replays rs fuel l0 l' size r rec tree s :
  times_ok rs -> flight conf s 0 -> apply_ops conf (files s) (ops_of rs) l0 l' -> spaces (mem s) ≡ₚ l0 ->
  reader_ok (binlog s) r -> reader_view (binlog s) r = concat (rec_line <$> rs) ->
  rd_binlog_offset r + Z.of_nat (length (reader_view (binlog s) r)) = size -> (length rs < fuel)%nat ->
  exists s', restore_loop sconf fuel false size r rec tree s = (inr (0, tree), s') /\ loaded s s' /\
    spaces (mem s') ≡ₚ l'.
Proof.
  revert fuel l0 r rec s. induction rs as [|x rs IH]; intros fuel l0 r rec s Hts Hf Ha Hs Hr Hv Hoff Hfuel;
    (destruct fuel as [|fuel]; [lia|]).
  - inversion_clear Ha as [? ? Hp| |]. exists s. split; [|split; [by split|by rewrite Hs]].
    apply restore_loop_end; [done|done|]. rewrite Hv in Hoff. cbn in Hoff. lia.
  - apply Forall_cons in Hts as [Ht Hts]. cbn [ops_of fmap list_fmap] in Ha. fold (ops_of rs) in Ha.
    assert (loggable conf (files s) (rec_trunk x) /\ (rec_op_type x = TRUNK_OP_TYPE_ADD_SPACE \/ rec_op_type x = TRUNK_OP_TYPE_DEL_SPACE))
      as [Hlg Hop] by (inversion Ha; auto).
    assert (rec_ok x) as Hx by (apply space_record_ok; [apply Hlg|done|done]).
    destruct (restore_loop_step fuel false size r rec tree s x rs l0 Hr Hx Hlg Hv Hoff Hs)
      as (rec1 & r1 & _ & -> & Hr1 & Hv1 & Ho1).
    unfold restore_record. cbn [rec_trunk rec_op_type with_status].
    change (with_st _ _) with (erase (rec_trunk x)).
    assert (forall l1, apply_ops conf (files s) (ops_of rs) l1 l' -> forall s1, loaded s s1 -> spaces (mem s1) ≡ₚ l1 ->
      exists s', restore_loop sconf fuel false size r1 rec1 tree s1 = (inr (0, tree), s') /\ loaded s s' /\
        spaces (mem s') ≡ₚ l') as Hrest.
    { cbn in Hfuel. intros l1 Ha1 s1 Hld Hs1. pose proof (se_files _ _ (ld_env _ _ Hld)) as Hfi. pose proof (ld_binlog _ _ Hld) as Hb.
      destruct (IH fuel l1 r1 rec1 s1) as (s2 & Heq & Hld2 & Hs2); try done; rewrite ?Hb, ?Hfi; try done; [apply Hld|lia|].
      exists s2. split; [done|]. split; [by eapply loaded_trans|done]. }
    inversion Ha as [|t ops l l1' _ Hmin Hfit Ha' Eop|t ops l l1 l1' _ Hp Ha' Eop]; subst.
    + rewrite Z.eqb_refl.
      destruct (add_space_spec s (erase (rec_trunk x)) Hf (loggable_erase _ _ Hlg) Hmin) as (s1 & Heq & Hld & Hs1).
      { apply (fits_perm l0); [exact Hfit|by rewrite Hs]. }
      rewrite bind_assoc, (bind_eq _ _ _ _ _ Heq), bind_ret, decide_False by naive_solver.
      apply (Hrest _ Ha' s1 Hld). by rewrite Hs1, Hs.
    + replace (_ =? TRUNK_OP_TYPE_ADD_SPACE) with false by done. rewrite Z.eqb_refl.
      destruct (delete_space_spec s (rec_trunk x) l1 Hf Hlg) as (s1 & Heq & Hld & Hs1); [by rewrite Hs|].
      rewrite bind_assoc, (bind_eq _ _ _ _ _ Heq), bind_ret, decide_False by naive_solver.
      apply (Hrest _ Ha' s1 Hld). done.
Qed.
End load.
