(* ===== verification/TrunkRestart.v ===== *)
(** * A restart loses no space and invents none.

    [storage_trunk_init] on the files a trunk server left: the snapshot of
    [TrunkSnapshot] is loaded, the binlog records written behind it are
    replayed ([TrunkRestore]), and the spaces are those held before. *)

From S2P Require Import Prelude Avl FastCommon FileWriter TrunkShared FreeBlocks SharedFunc StorePath TrunkBinlog TrunkMem TrunkSave TrunkLoad TrunkInv TrunkFiles TrunkAlloc TrunkSnapshot TrunkRestore.

Section restart.
Context {T : Type -> Type} `{AvlLaws T} `{FastCommonLaws} {W : Type} `{FileWriterLaws W} (sconf : SaveConf).
Abbreviation conf := (trunk_conf sconf).
Context (Hconf : conf_ok conf) (Hself : g_if_trunker_self conf = true) (Hbase : base_ok sconf).
Implicit Types (s : TrunkState T) (t : FDFSTrunkFullInfo).

(** ** System calls and allocations only. *)
Record quiet s s' : Prop := {
  qt_eq : s' = set_syscalls (syscalls s') (set_mem (mkMemory (nodes (mem s)) (tree_info_by_sizes (mem s))
                 (tree_info_by_id (mem s)) (mallocs (mem s'))) s);
  qt_sys : syscalls_ok s -> syscalls_ok s';
  qt_oom : no_oom (mem s) -> no_oom (mem s');
}.

Lemma quiet_refl s : quiet s s.
Proof. split; [by destruct s as [[] ? ? ? ? ? ? ? ? ?]|done|done]. Qed.

Lemma quiet_trans s1 s2 s3 : quiet s1 s2 -> quiet s2 s3 -> quiet s1 s3.
Proof. intros [E1 S1 O1] [E2 S2 O2]. split; [|auto|auto]. rewrite E2 at 1. rewrite E1. done. Qed.

Lemma quiet_syscall s : exists e s', syscall_errno s = (e, s') /\ quiet s s' /\ (syscalls_ok s -> e = 0).
Proof.
  destruct (syscall_errno_spec s) as (e & es & Heq & Hok). eexists _, _. split; [exact Heq|].
  split; [|intros Hs; by apply Hok]. split; [by destruct s as [[] ? ? ? ? ? ? ? ? ?]|intros Hs; apply Hok, Hs|done].
Qed.

Lemma quiet_malloc s : exists e s', in_mem malloc_errno s = (e, s') /\ quiet s s' /\ (no_oom (mem s) -> e = 0).
Proof.
  destruct (malloc_errno_eq (mem s)) as (e & es & Heq & Hok). eexists _, _. split; [apply in_mem_eq, Heq|].
  split; [|intros Hs; by apply Hok]. split; [by destruct s|done|intros Hs; apply Hok, Hs].
Qed.

Lemma quiet_disk s s' : disk_step [] s s' -> files s' = files s -> quiet s s'.
Proof.
  intros [E F S] Hf. split; [|done|]; rewrite E, Hf.
  - by destruct s as [[] ? ? ? ? ? ? ? ? ?].
  - done.
Qed.

Lemma quiet_env s s' : quiet s s' ->
  spaces (mem s') = spaces (mem s) /\ binlog s' = binlog s /\ files s' = files s /\ trunk_init_flag s' = trunk_init_flag s.
Proof. intros [-> _ _]. done. Qed.

Lemma quiet_flight s s' z : quiet s s' -> flight conf s z -> flight conf s' z.
Proof.
  intros [E _ O] []. specialize (O fl_oom). rewrite E in O |- *. split; try done.
  exact (tm_inv_mallocs _ _ fl_mem).
Qed.

(** ** The reader starts at the offset. *)
Lemma reader_init_spec off s :
  flight conf s 0 -> syscalls_ok s -> 1 <= bl_version (binlog s) ->
  0 <= off < Z.of_nat (length (bl_file (binlog s))) ->
  exists r s', trunk_reader_init off s = (inr r, s') /\ quiet s s' /\ reader_ok (binlog s) r /\
    reader_view (binlog s) r = drop (Z.to_nat off) (bl_file (binlog s)) /\ rd_binlog_offset r = off.
Proof.
  intros Hf Hs Hv Hoff. unfold trunk_reader_init.
  destruct (quiet_malloc s) as (e1 & s1 & Heq1 & Hq1 & He1). rewrite (bind_eq _ _ _ _ _ Heq1), He1 by apply Hf.
  rewrite decide_False by naive_solver.
  destruct (quiet_syscall s1) as (e2 & s2 & Heq2 & Hq2 & He2). pose proof (qt_sys _ _ Hq1 Hs) as Hs1.
  rewrite (bind_eq _ _ _ _ _ Heq2), He2, decide_False by naive_solver.
  destruct (quiet_syscall s2) as (e3 & s3 & Heq3 & Hq3 & He3). pose proof (qt_sys _ _ Hq2 Hs1) as Hs2.
  rewrite (bind_eq _ _ _ _ _ Heq3), He3, decide_False by naive_solver. pose proof (qt_sys _ _ Hq3 Hs2) as Hs3.
  pose proof (quiet_trans _ _ _ (quiet_trans _ _ _ Hq1 Hq2) Hq3) as Hq. clear Hq1 Hq2 Hq3.
  destruct (quiet_env _ _ Hq) as (_ & Hb & _). rewrite bind_gets, Hb.
  set (r0 := trunk_open_readable_binlog _ _).
  assert (r0 = mkReader [] 0 off off) as Hr0.
  { unfold r0, trunk_open_readable_binlog. cbn [rd_binlog_offset rd_buff rd_version].
    replace (_ <? off) with false by lia. destruct (0 <? off) eqn:E; [done|]. assert (off = 0) as -> by lia. done. }
  clearbody r0. subst r0. cbn [rd_binlog_offset].
  assert (exists s4, (if 0 <? off then syscall_errno else ret 0) s3 = (0, s4) /\ quiet s3 s4) as (s4 & Heq4 & Hq4).
  { destruct (0 <? off); [|exists s3; split; [done|apply quiet_refl]].
    destruct (quiet_syscall s3) as (e & s4 & -> & Hq4 & He). rewrite He by done. eauto. }
  rewrite (bind_eq _ _ _ _ _ Heq4), decide_False by naive_solver.
  set (r0 := mkReader [] 0 off off).
  assert (reader_ok (binlog s) r0) as Hr0 by (split; cbn; [intros; lia|done|lia]).
  destruct (preread_ok (binlog s) r0 Hr0) as (r & -> & Hr & Hview & _ & Ho).
  { unfold reader_view, r0. cbn [rd_buff rd_pos app]. intros E%(f_equal length). rewrite length_drop in E. cbn in E. lia. }
  { done. }
  rewrite decide_False by naive_solver. exists r, s4. split; [done|]. split; [by eapply quiet_trans|].
  split; [done|]. split; [by rewrite Hview|by rewrite Ho].
Qed.

(** ** A snapshot taken on the way. *)
Context (storage_trunk_save : M (TrunkState T) Z).

(** [storage_trunk_save] takes a snapshot when the binlog is never
    compressed; the spaces are not merged. *)
Definition saves_snapshot : Prop :=
  g_trunk_compress_binlog_interval sconf = 0 ->
  g_trunk_free_space_merge sconf = false /\
  forall s, storage_trunk_save s = storage_trunk_do_save (W := W) sconf false s.

Lemma disk_step_flight s s' :
  disk_step [temp_data_filename sconf; storage_trunk_get_data_filename sconf] s s' -> flight conf s 0 -> flight conf s' 0.
Proof.
  intros Hst Hf. pose proof (ds_files _ _ _ Hst) as Hfi. destruct Hf.
  assert (forall b, b ∈ spaces (mem s) -> is_Some (files s' !! file_of conf b)) as Hfiles.
  { intros b Hb. rewrite Hfi; [by apply fl_files|]. destruct (held_ok _ b fl_mem Hb) as [[_ _ ? ?] _].
    destruct (trunk_file_not_data sconf b) as [? ?]; [done..|]. set_solver. }
  rewrite (ds_eq _ _ _ Hst). by split.
Qed.

Lemma final_save s :
  saves_snapshot -> flight conf s 0 -> syscalls_ok s ->
  exists s', (if g_trunk_compress_binlog_interval sconf =? 0 then storage_trunk_save else ret 0) s = (0, s') /\
    flight conf s' 0 /\ spaces (mem s') = spaces (mem s) /\ trunk_init_flag s' = trunk_init_flag s.
Proof.
  intros Hsave Hf Hs. destruct (_ =? 0) eqn:E; [|by exists s].
  destruct (Hsave ltac:(lia)) as [Hm Heq]. rewrite Heq.
  destruct (do_save_spec (W := W) sconf s Hbase Hm (fl_mem _ _ _ Hf)) as (r & s' & -> & Hst & _ & Hok).
  rewrite (Hok Hs). exists s'. split; [done|].
  destruct Hst as [[_ Hn]|Hst]; [done|]. destruct (disk_step_mem _ _ _ Hst) as (Hm' & _ & _ & Hfl).
  split; [|split; [by rewrite Hm'|by rewrite Hfl]].
  eapply disk_step_flight; [exact Hst|]. by apply flight_binlog.
Qed.

(** ** The records behind the snapshot. *)
Lemma rec_line_nonempty x : rec_line x <> [].
Proof. unfold rec_line. rewrite record_line_body. by destruct (record_body _ _ _). Qed.

Lemma lines_length rs : (length rs <= length (concat (rec_line <$> rs)))%nat.
Proof.
  induction rs as [|x rs IH]; [done|]. cbn [fmap list_fmap concat length]. rewrite length_app.
  pose proof (rec_line_nonempty x). destruct (rec_line x); [done|cbn [length]; lia].
Qed.

Lemma restore_behind_spec off pre rs l0 l' s :
  saves_snapshot -> times_ok rs -> flight conf s 0 -> syscalls_ok s -> 1 <= bl_version (binlog s) ->
  0 < off -> bl_file (binlog s) = pre ++ concat (rec_line <$> rs) -> Z.of_nat (length pre) = off ->
  apply_ops conf (files s) (ops_of rs) l0 l' -> spaces (mem s) ≡ₚ l0 ->
  exists s', storage_trunk_restore sconf storage_trunk_save off s = (0, s') /\ flight conf s' 0 /\
    spaces (mem s') ≡ₚ l' /\ trunk_init_flag s' = trunk_init_flag s.
Proof.
  intros Hsave Hts Hf Hs Hv Hoff Hfile Hpre Ha Hsp. unfold storage_trunk_restore.
  destruct (binlog_size_step (T := T) [] s) as (size & e & s1 & Heq1 & Hst1 & Hfi1 & Hneg & Hsize).
  rewrite (bind_eq _ _ _ _ _ Heq1). pose proof (quiet_disk _ _ Hst1 Hfi1) as Hq1.
  destruct Hsize as [->|Hn]; [|done]. rewrite (proj2 (Z.ltb_ge _ 0)) by lia.
  destruct (quiet_env _ _ Hq1) as (Hsp1 & Hb1 & _ & Hfl1).
  pose proof (quiet_flight _ _ _ Hq1 Hf) as Hf1. pose proof (qt_sys _ _ Hq1 Hs) as Hs1.
  destruct (off =? Z.of_nat (length (bl_file (binlog s)))) eqn:E.
  { exists s1. split; [done|]. split; [done|]. rewrite Hsp1. split; [|done]. rewrite Hsp.
    assert (rs = []) as ->.
    { pose proof (lines_length rs). rewrite Hfile, length_app in E. destruct rs; [done|]. cbn [length] in *. lia. }
    by inversion Ha. }
  assert (off < Z.of_nat (length (bl_file (binlog s)))) as Hlt by (rewrite Hfile, length_app in E |- *; lia).
  rewrite (proj2 (Z.ltb_ge _ off)), (proj2 (Z.eqb_neq off 0)) by lia.
  destruct (reader_init_spec off s1) as (r & s2 & Heq2 & Hq2 & Hr & Hview & Ho); rewrite ?Hb1; try done; [lia|].
  rewrite (bind_eq _ _ _ _ _ Heq2). rewrite Hb1 in Hr, Hview.
  destruct (quiet_env _ _ (quiet_trans _ _ _ Hq1 Hq2)) as (Hsp2 & Hb2 & Hfi2 & Hfl2).
  rewrite bind_gets, Hb2.
  assert (reader_view (binlog s) r = concat (rec_line <$> rs)) as Hview'.
  { rewrite Hview, Hfile. replace (Z.to_nat off) with (length pre) by lia. by rewrite drop_app_length. }
  destruct (restore_loop_replays sconf Hself rs (S (S (length (bl_file (binlog s))))) l0 l'
    (Z.of_nat (length (bl_file (binlog s)))) r zero_record (avl_init : T OffsetNode) s2)
    as (s3 & Heq3 & Hld & Hsp3); rewrite ?Hb2, ?Hfi2, ?Hsp2; try done.
  { by apply (quiet_flight _ _ _ Hq2). }
  { rewrite Hview', Hfile, length_app. lia. }
  { pose proof (lines_length rs). rewrite Hfile, length_app. lia. }
  rewrite (bind_eq _ _ _ _ _ Heq3).
  assert (syscalls_ok s3) as Hs3.
  { unfold syscalls_ok. rewrite (se_syscalls _ _ (ld_env _ _ _ Hld)). apply (qt_sys _ _ Hq2), Hs1. }
  destruct (quiet_syscall s3) as (e4 & s4 & Heq4 & Hq4 & _). rewrite (bind_eq _ _ _ _ _ Heq4), decide_False by naive_solver.
  rewrite bind_ret, decide_True by done.
  destruct (final_save s4 Hsave) as (s5 & Heq5 & Hf5 & Hsp5 & Hfl5).
  { apply (quiet_flight _ _ _ Hq4), Hld. } { by apply (qt_sys _ _ Hq4). }
  destruct (quiet_env _ _ Hq4) as (Hsp4 & _ & _ & Hfl4).
  exists s5. split; [done|]. split; [done|]. rewrite Hsp5, Hsp4. split; [done|].
  by rewrite Hfl5, Hfl4, (se_flag _ _ (ld_env _ _ _ Hld)).
Qed.

(** ** The lines of the snapshot describe the spaces. *)
Lemma apply_ops_result fs ops l l1 l2 : apply_ops conf fs ops l l1 -> l1 ≡ₚ l2 -> apply_ops conf fs ops l l2.
Proof.
  intros Ha Hp. rewrite <- (app_nil_r ops). eapply apply_ops_app; [exact Ha|]. by constructor.
Qed.

Lemma apply_adds fs l l0 :
  Forall (loggable conf fs) l -> Forall (fun t => g_slot_min_size conf <= t_size t) l ->
  (forall i j a b, i <> j -> l !! i = Some a -> l !! j = Some b -> same_file a b -> ~ overlaps a b) ->
  (forall a, a ∈ l -> fits l0 a) ->
  apply_ops conf fs (adds l) l0 ((erase <$> l) ++ l0).
Proof.
  revert l0. induction l as [|t l IH]; intros l0 Hlg Hmin Hd Hf; [by constructor|].
  apply Forall_cons in Hlg as [Ht Hlg]. apply Forall_cons in Hmin as [Hm Hmin].
  apply apply_add; [done|done|apply Hf; by left|].
  eapply apply_ops_result; [apply (IH (erase t :: l0)); try done|].
  - intros i j a b Hij Ha Hb. apply (Hd (S i) (S j)); [lia|done|done].
  - intros a Ha. apply fits_cons; [|apply Hf; by right].
    apply list_elem_of_lookup in Ha as (j & Hj). intros Hsf Ho.
    apply (Hd 0%nat (S j) t a ltac:(lia) eq_refl Hj Hsf). unfold overlaps, t_offset, t_size in *. cbn in Ho. lia.
  - cbn [fmap list_fmap app]. by rewrite <- Permutation_middle.
Qed.

Lemma held_loggable s b : flight conf s 0 -> b ∈ spaces (mem s) -> loggable conf (files s) b.
Proof.
  intros Hf Hb. destruct (held_ok _ b (fl_mem _ _ _ Hf) Hb) as [Hok Hi]. split; [done| |by apply Hf].
  unfold index_ok in Hi. rewrite <- (fl_trees _ _ _ Hf). lia.
Qed.

Definition large_enough s : Prop := Forall (fun t => g_slot_min_size conf <= t_size t) (spaces (mem s)).

Lemma saved_adds s :
  flight conf s 0 -> large_enough s ->
  apply_ops conf (files s) (adds (saved_spaces (mem s))) [] (erase <$> spaces (mem s)).
Proof.
  intros Hf Hmin. pose proof (saved_spaces_perm _ (fl_mem _ _ _ Hf)) as Hp.
  eapply apply_ops_result; [apply apply_adds|].
  - rewrite Hp. apply Forall_forall. intros b Hb. by apply held_loggable.
  - by rewrite Hp.
  - intros i j a b Hij. unfold saved_spaces. apply ptrs_disjoint; [apply Hf|apply (tm_same _ (fl_mem _ _ _ Hf))|done].
  - intros a _ b ?%not_elem_of_nil. done.
  - by rewrite app_nil_r, Hp.
Qed.

(** ** Loading the snapshot. *)
Definition plain_load : Prop :=
  g_trunk_init_check_occupying sconf = false /\ g_trunk_init_reload_from_binlog sconf = false.

Lemma first_line size l :
  0 <= size < 2 ^ 63 -> Forall (fun t => record_ok (g_current_time conf) TRUNK_OP_TYPE_ADD_SPACE t) l ->
  let data := snapshot_text sconf size l in
  let buff := take (Z.to_nat LOAD_BUFFER_SIZE) data in
  upto 10 (cstr buff) = Some (fmt_d size ++ [10]) /\
  exists rest, buff = (fmt_d size ++ [10]) ++ rest.
Proof.
  intros Hsize Hl data buff. assert (length (fmt_d size) <= 19)%nat as Hlen.
  { unfold fmt_d. rewrite (proj2 (Z.ltb_ge size 0)) by lia. apply fmt_u_length; lia. }
  assert (0 ∉ data) as Hnul.
  { unfold data, snapshot_text. rewrite !not_elem_of_app. split; [split; [apply fmt_d_no_nul|set_solver]|].
    exact (lines_no_nul (g_current_time conf) l Hl). }
  assert (exists rest, buff = (fmt_d size ++ [10]) ++ rest) as (rest & Hrest).
  { exists (take (Z.to_nat LOAD_BUFFER_SIZE - length (fmt_d size ++ [10])) (save_text sconf l)).
    unfold buff, data, snapshot_text. rewrite take_app_ge; [done|]. rewrite length_app. cbn [length]. unfold LOAD_BUFFER_SIZE. lia. }
  split; [|by exists rest]. rewrite cstr_no_nul.
  2:{ apply Forall_forall. intros c Hc ->. apply Hnul. apply elem_of_take in Hc as (? & ? & _). by eapply list_elem_of_lookup_2. }
  rewrite Hrest. apply upto_line. apply fmt_no. lia.
Qed.

Lemma load_spec size l pre rs l0 l' s :
  saves_snapshot -> plain_load -> flight conf s 0 -> spaces (mem s) = [] -> syscalls_ok s -> 1 <= bl_version (binlog s) ->
  files s !! storage_trunk_get_data_filename sconf = Some (snapshot_text sconf size l) ->
  ~ buffer_hits_end (snapshot_text sconf size l) -> 0 < size < 2 ^ 63 ->
  bl_file (binlog s) = pre ++ concat (rec_line <$> rs) -> Z.of_nat (length pre) = size -> times_ok rs ->
  apply_ops conf (files s) (adds l) [] l0 -> apply_ops conf (files s) (ops_of rs) l0 l' ->
  exists s', storage_trunk_load sconf storage_trunk_save s = (0, s') /\ flight conf s' 0 /\
    spaces (mem s') ≡ₚ l' /\ trunk_init_flag s' = trunk_init_flag s.
Proof.
  intros Hsave [Hocc Hrel] Hf Hsp Hs Hv Hfile Hhit Hsize Hbl Hpre Hts Ha Ha2.
  unfold storage_trunk_load. rewrite Hrel. pose proof (ck_time _ Hconf) as Htime.
  pose proof (adds_records sconf (files s) (g_current_time conf) l [] l0 Htime Ha) as Hrec.
  destruct (quiet_syscall s) as (e1 & s1 & Heq1 & Hq1 & He1). rewrite (bind_eq _ _ _ _ _ Heq1), He1 by done.
  destruct (quiet_env _ _ Hq1) as (Hsp1 & Hb1 & Hfi1 & Hfl1). rewrite bind_gets, Hfi1, Hfile.
  rewrite !decide_False by naive_solver. pose proof (qt_sys _ _ Hq1 Hs) as Hs1.
  destruct (quiet_syscall s1) as (e2 & s2 & Heq2 & Hq2 & He2). rewrite (bind_eq _ _ _ _ _ Heq2), He2 by done.
  rewrite decide_False by naive_solver. pose proof (qt_sys _ _ Hq2 Hs1) as Hs2.
  pose proof (quiet_trans _ _ _ Hq1 Hq2) as Hq. destruct (quiet_env _ _ Hq) as (Hsp2 & Hb2 & Hfi2 & Hfl2).
  destruct (first_line size l ltac:(lia) Hrec) as [Hup (rest & Hbuff)]. rewrite Hup, removelast_last.
  assert ((strtol 10 (fmt_d size)).1 = size) as Hst.
  { rewrite <- (app_nil_r (fmt_d size)), strtol_fmt_d; [done|unfold is_int64; lia|lia|apply ends_number_nil]. }
  set (data := snapshot_text sconf size l) in *. set (buff := take _ data) in *.
  assert (data = buff ++ drop (length buff) data) as Hsplit.
  { unfold buff. rewrite length_take. destruct (decide (Z.to_nat LOAD_BUFFER_SIZE <= length data)%nat).
    - rewrite Nat.min_l by done. by rewrite take_drop.
    - rewrite Nat.min_r, take_ge, drop_ge by lia. by rewrite app_nil_r. }
  assert (length buff = Nat.min (Z.to_nat LOAD_BUFFER_SIZE) (length data)) as Hlen by apply length_take.
  replace (drop (length (fmt_d size ++ [10])) buff) with rest by (by rewrite Hbuff, drop_app_length).
  destruct (load_loop_spec sconf Hconf Hself (g_current_time conf) (S (2 * length data)) l [] l0 rest (Z.of_nat (length buff))
    (drop (length buff) data) (fmt_d size ++ [10]) s2)
    as (x & s3 & Heq3 & Hf3 & Hsp3 & Hfi3 & Hb3 & Hfl3 & Hs3 & Hx & _); rewrite ?Hfi2, ?Hsp2; try done.
  { by apply (quiet_flight _ _ _ Hq). } { by rewrite Hsp. }
  { apply (app_inv_head (fmt_d size ++ [10])). by rewrite app_assoc, <- Hbuff, <- Hsplit. }
  { rewrite Hlen. unfold LOAD_BUFFER_SIZE. lia. }
  { intros Hlt. apply drop_ge. rewrite Hlen in Hlt |- *. unfold LOAD_BUFFER_SIZE in *. lia. }
  { right. apply last_snoc. }
  { intros Hfull. exists [], buff. split; [by rewrite Hbuff|]. split; [done|by left]. }
  { rewrite length_drop, Hlen. pose proof (f_equal length Hbuff) as E. rewrite (length_app (_ ++ _)) in E. lia. }
  rewrite (bind_eq _ _ _ _ _ Heq3). destruct Hx as [->|[_ Hh]]; [|by destruct Hhit].
  cbn [hd]. cbn [negb Z.eqb]. rewrite Hst.
  destruct (restore_behind_spec size pre rs l0 l' s3) as (s4 & Heq4 & Hf4 & Hsp4 & Hfl4);
    rewrite ?Hb3, ?Hb2, ?Hfi3, ?Hfi2; try done; [lia|].
  exists s4. split; [done|]. split; [done|]. split; [done|]. by rewrite Hfl4, Hfl3.
Qed.

(** a data file of exactly one read buffer (4096 bytes) cannot be loaded.
    The file is a correct snapshot, no system call fails, and still the load
    ends with ENOENT: the loop takes the full buffer for an unfinished file
    and the read that follows finds nothing.  The trunk server does not
    start. *)
Theorem load_at_buffer_end size l l0 s :
  plain_load -> flight conf s 0 -> spaces (mem s) = [] -> syscalls_ok s -> 0 <= size < 2 ^ 63 ->
  files s !! storage_trunk_get_data_filename sconf = Some (snapshot_text sconf size l) ->
  Z.of_nat (length (snapshot_text sconf size l)) = LOAD_BUFFER_SIZE -> apply_ops conf (files s) (adds l) [] l0 ->
  (storage_trunk_load sconf storage_trunk_save s).1 = ENOENT.
Proof.
  intros [Hocc Hrel] Hf Hsp Hs Hsize Hfile Hfull Ha.
  unfold storage_trunk_load. rewrite Hrel. pose proof (ck_time _ Hconf) as Htime.
  pose proof (adds_records sconf (files s) (g_current_time conf) l [] l0 Htime Ha) as Hrec.
  destruct (quiet_syscall s) as (e1 & s1 & Heq1 & Hq1 & He1). rewrite (bind_eq _ _ _ _ _ Heq1), He1 by done.
  destruct (quiet_env _ _ Hq1) as (Hsp1 & _ & Hfi1 & _). rewrite bind_gets, Hfi1, Hfile.
  rewrite !decide_False by naive_solver. pose proof (qt_sys _ _ Hq1 Hs) as Hs1.
  destruct (quiet_syscall s1) as (e2 & s2 & Heq2 & Hq2 & He2). rewrite (bind_eq _ _ _ _ _ Heq2), He2 by done.
  rewrite decide_False by naive_solver. pose proof (qt_sys _ _ Hq2 Hs1) as Hs2.
  pose proof (quiet_trans _ _ _ Hq1 Hq2) as Hq. destruct (quiet_env _ _ Hq) as (Hsp2 & _ & Hfi2 & _).
  destruct (first_line size l Hsize Hrec) as [Hup (rest & Hbuff)]. rewrite Hup, removelast_last.
  set (data := snapshot_text sconf size l) in *.
  rewrite take_ge in Hbuff |- * by (unfold LOAD_BUFFER_SIZE in *; lia).
  replace (drop (length (fmt_d size ++ [10])) data) with rest by (by rewrite Hbuff, drop_app_length).
  destruct (load_loop_spec sconf Hconf Hself (g_current_time conf) (S (2 * length data)) l [] l0 rest (Z.of_nat (length data))
    (drop (length data) data) (fmt_d size ++ [10]) s2)
    as (x & s3 & Heq3 & _ & _ & _ & _ & _ & _ & _ & Hx); rewrite ?Hfi2, ?Hsp2; try done.
  { by apply (quiet_flight _ _ _ Hq). } { by rewrite Hsp. }
  { rewrite drop_all, app_nil_r. by apply app_inv_head in Hbuff. }
  { lia. } { lia. } { right. apply last_snoc. }
  { intros _. exists [], data. split; [by rewrite Hbuff|]. split; [done|by left]. }
  { rewrite length_drop. pose proof (f_equal length Hbuff) as E. rewrite (length_app (_ ++ _)) in E. lia. }
  rewrite (bind_eq _ _ _ _ _ Heq3), Hx; [done|by rewrite drop_all|done].
Qed.

(** ** Starting the trunk manager. *)
Lemma init_spec size l pre rs l0 l' s :
  saves_snapshot -> plain_load -> trunk_init_flag s = STORAGE_TRUNK_INIT_FLAG_NONE -> g_trunk_total_free_space s = 0 ->
  no_oom (mem s) -> dist_ok (path_conf conf) (dist s) -> is_int32 (g_current_trunk_file_id s) ->
  syscalls_ok s -> 1 <= bl_version (binlog s) ->
  files s !! storage_trunk_get_data_filename sconf = Some (snapshot_text sconf size l) ->
  ~ buffer_hits_end (snapshot_text sconf size l) -> 0 < size < 2 ^ 63 ->
  bl_file (binlog s) = pre ++ concat (rec_line <$> rs) -> Z.of_nat (length pre) = size -> times_ok rs ->
  apply_ops conf (files s) (adds l) [] l0 -> apply_ops conf (files s) (ops_of rs) l0 l' ->
  exists s', storage_trunk_init sconf storage_trunk_save s = (0, s') /\ state_inv conf s' /\
    spaces (mem s') ≡ₚ l' /\ STORAGE_TRUNK_CHECK_STATUS conf s' = true.
Proof.
  intros Hsave Hplain Hflag Htot Hoom Hdist Hid Hs Hv Hfile Hhit Hsize Hbl Hpre Hts Ha Ha2.
  unfold storage_trunk_init. rewrite Hself. cbn [negb]. rewrite bind_gets, Hflag. cbn [negb Z.eqb STORAGE_TRUNK_INIT_FLAG_NONE].
  destruct (quiet_malloc s) as (e & s1 & Heq1 & Hq1 & He). rewrite (bind_eq _ _ _ _ _ Heq1), He by done.
  rewrite decide_False by naive_solver. pose proof (qt_oom _ _ Hq1 Hoom) as Hoom1. pose proof (qt_sys _ _ Hq1 Hs) as Hs1.
  set (m := mkMemory ∅ (replicate (length (store_paths conf)) avl_init) avl_init (mallocs (mem s1))).
  assert (in_mem (modify (fun m => mkMemory ∅ (replicate (length (store_paths conf)) avl_init) avl_init (mallocs m))) s1
    = (tt, set_mem m s1)) as Heq2 by done.
  rewrite (bind_eq _ _ _ _ _ Heq2). set (s2 := set_mem m s1).
  destruct (load_spec size l pre rs l0 l' s2) as (s3 & Heq3 & Hf3 & Hsp3 & Hfl3); try done;
    try (unfold s2; rewrite (qt_eq _ _ Hq1); done).
  { assert (flight conf s2 0) as Hf; [|exact Hf]. unfold s2. rewrite (qt_eq _ _ Hq1). split; cbn.
    - apply empty_inv.
    - rewrite Htot. unfold space_total, m. by rewrite (empty_spaces (length (store_paths conf)) _).
    - apply length_replicate.
    - unfold m. rewrite (empty_spaces (length (store_paths conf)) _). by intros b ?%not_elem_of_nil.
    - done.
    - done.
    - done. }
  { apply empty_spaces. }
  rewrite (bind_eq _ _ _ _ _ Heq3), decide_False, bind_modify by naive_solver. eexists. split; [reflexivity|].
  split; [|split; [done|unfold STORAGE_TRUNK_CHECK_STATUS; by rewrite Hself]].
  assert (flight conf (set_init_flag STORAGE_TRUNK_INIT_FLAG_DONE s3) 0) as Hf by (destruct Hf3; by split).
  by apply flight_0 in Hf as [? _].
Qed.

(** ** The round trip. *)

(** The state of a trunk server that starts on the files of [s]: the binlog
    was flushed, the memory is empty. *)
Record restarted s s2 : Prop := {
  rt_files : files s2 = files s;
  rt_binlog : bl_file (binlog s2) = bl_log (binlog s);
  rt_version : 1 <= bl_version (binlog s2);
  rt_flag : trunk_init_flag s2 = STORAGE_TRUNK_INIT_FLAG_NONE;
  rt_total : g_trunk_total_free_space s2 = 0;
  rt_oom : no_oom (mem s2);
  rt_dist : dist_ok (path_conf conf) (dist s2);
  rt_id : is_int32 (g_current_trunk_file_id s2);
  rt_sys : syscalls_ok s2;
}.

(** The records of operations. *)
Definition records_of (ops : list (Z * FDFSTrunkFullInfo)) : list TrunkBinLogRecord :=
  (fun x => {| rec_timestamp := g_current_time conf; rec_op_type := x.1; rec_trunk := x.2 |}) <$> ops.

Lemma records_of_spec ops :
  concat (rec_line <$> records_of ops) = log_text conf ops /\ ops_of (records_of ops) = ops /\ times_ok (records_of ops).
Proof.
  unfold records_of, ops_of, times_ok, log_text. rewrite <- !list_fmap_compose. split; [done|]. split.
  - induction ops as [|[] ops IH]; [done|]. cbn. by rewrite IH.
  - apply Forall_fmap, Forall_forall. intros x _. apply Hconf.
Qed.

Lemma save_ok_spec s :
  g_trunk_free_space_merge sconf = false -> flight conf s 0 -> log_ok (binlog s) -> syscalls_ok s ->
  exists s0, storage_trunk_do_save (W := W) sconf false s = (0, s0) /\ flight conf s0 0 /\ mem s0 = mem s /\
    trunk_init_flag s0 = trunk_init_flag s /\ log_ok (binlog s0) /\
    bl_file (binlog s0) = bl_log (binlog s) /\ bl_log (binlog s0) = bl_log (binlog s) /\
    files s0 !! storage_trunk_get_data_filename sconf =
      Some (snapshot_text sconf (Z.of_nat (length (bl_log (binlog s)))) (saved_spaces (mem s))).
Proof.
  intros Hm Hf Hlog Hs. destruct (do_save_spec (W := W) sconf s Hbase Hm (fl_mem _ _ _ Hf)) as (r & s0 & Heq & Hst & Hr & Hok).
  rewrite (Hok Hs) in Heq, Hr. destruct (Hr eq_refl) as (size & Hfile & Hsize). rewrite (Hsize Hs) in Hfile.
  destruct Hst as [[_ Hn]|Hst]; [done|]. destruct (disk_step_mem _ _ _ Hst) as (Hm0 & Hb0 & _ & Hfl0).
  destruct (flush_ok (binlog s) (proj2 Hlog)) as (v & os & Hfl & Hos & _).
  assert (binlog s0 = mkBinlog [] (bl_log (binlog s)) v os) as Hb by (rewrite Hb0; unfold flushed; by rewrite Hfl).
  exists s0. split; [done|]. split; [eapply disk_step_flight; [exact Hst|by apply flight_binlog]|].
  split; [done|]. split; [done|]. rewrite Hb in Hfile |- *. split; [by split|]. split; [done|]. split; [|done].
  unfold bl_log. cbn. apply app_nil_r.
Qed.

(** C15: a restart gives the same spaces.  A server takes a snapshot, serves
    any sequence of frees, allocations and confirmations, flushes its binlog
    and stops; a server that starts on the files it left loads the snapshot,
    replays the records behind it and holds exactly the spaces held at the
    stop, all of them free now (what was allocated and not confirmed is free
    again), with the invariant restored.  This is without failures of system
    calls and memory, with the options for merging spaces, checking them and
    reloading from the binlog off, for a binlog that is not empty at the
    snapshot and spaces of at least the minimal slot, and when the snapshot does
    not end one read buffer behind the end of a line: then the start fails
    ([load_at_buffer_end]). *)
Theorem storage_trunk_restart_correct s s1 s2 :
  saves_snapshot -> plain_load -> g_trunk_free_space_merge sconf = false ->
  state_inv conf s -> no_oom (mem s) -> STORAGE_TRUNK_CHECK_STATUS conf s = true ->
  log_ok (binlog s) -> syscalls_ok s -> large_enough s ->
  0 < Z.of_nat (length (bl_log (binlog s))) < 2 ^ 63 ->
  rtc (io_step conf) (storage_trunk_do_save (W := W) sconf false s).2 s1 -> restarted s1 s2 ->
  (forall text, files s1 !! storage_trunk_get_data_filename sconf = Some text -> ~ buffer_hits_end text) ->
  exists s3, storage_trunk_init sconf storage_trunk_save s2 = (0, s3) /\ state_inv conf s3 /\
    spaces (mem s3) ≡ₚ erase <$> spaces (mem s1) /\ STORAGE_TRUNK_CHECK_STATUS conf s3 = true.
Proof.
  intros Hsave Hplain Hm Hinv Hoom Hst Hlog Hs Hlarge Hsize Hsteps [] Hhit.
  destruct (save_ok_spec s Hm (proj2 (flight_0 conf s) (conj Hinv Hoom)) Hlog Hs)
    as (s0 & Heq & Hf0 & Hm0 & Hfl0 & Hlog0 & Hbf0 & Hbl0 & Hfile0).
  rewrite Heq in Hsteps. cbn [snd] in Hsteps.
  assert (STORAGE_TRUNK_CHECK_STATUS conf s0 = true) as Hst0 by (unfold STORAGE_TRUNK_CHECK_STATUS in *; by rewrite Hfl0).
  destruct (io_steps_logged conf s0 s1 Hconf Hsteps Hf0 Hst0 Hlog0) as (_ & Hk & ops & [_ Hl] & Ha).
  destruct (records_of_spec ops) as (Htxt & Hops & Hts).
  assert (large_enough s0) as Hlarge0 by (unfold large_enough; by rewrite Hm0).
  pose proof (apply_ops_files conf _ _ _ _ _ (fun n => files_kept_exist s0 s1 n Hk) (saved_adds s0 Hf0 Hlarge0)) as Hsaved.
  pose proof (lookup_weaken _ _ _ _ Hfile0 Hk) as Hfile1. rewrite <- Hm0 in Hfile1.
  apply (init_spec (Z.of_nat (length (bl_log (binlog s)))) (saved_spaces (mem s0)) (bl_log (binlog s)) (records_of ops)
    (erase <$> spaces (mem s0))); try done; rewrite ?rt_files0, ?Hops, ?Htxt; try done.
  - by apply Hhit.
  - by rewrite rt_binlog0, Hl, Hbl0.
Qed.
End restart.
