(* ===== verification/TrunkCompress.v ===== *)
(** * Compressing the trunk binlog ([storage/trunk_mgr/trunk_sync.c],
    [storage/trunk_mgr/trunk_mem.c]).

    The binlog grows without bound; from time to time [storage_trunk_compress]
    replaces it by the lines of a snapshot.  The steps are renames, unlinks and
    writes of five files, and the stage reached is saved in the sync ini file,
    so that [storage_trunk_binlog_compress_check_recovery] can finish or undo
    a compression that a crash cut short.

    A function here may die at any system call: its result is then [None] and
    the state is what the disk holds. *)

From S2P Require Import Prelude TrunkShared TrunkBinlog.

Definition STORAGE_TRUNK_COMPRESS_STAGE_NONE : Z := 0.
Definition STORAGE_TRUNK_COMPRESS_STAGE_COMPRESS_BEGIN : Z := 1.
Definition STORAGE_TRUNK_COMPRESS_STAGE_APPLY_DONE : Z := 2.
Definition STORAGE_TRUNK_COMPRESS_STAGE_SAVE_DONE : Z := 3.
Definition STORAGE_TRUNK_COMPRESS_STAGE_COMMIT_MERGING : Z := 4.
Definition STORAGE_TRUNK_COMPRESS_STAGE_COMMIT_MERGE_DONE : Z := 5.
Definition STORAGE_TRUNK_COMPRESS_STAGE_COMPRESS_SUCCESS : Z := 6.
Definition STORAGE_TRUNK_COMPRESS_STAGE_ROLLBACK_MERGING : Z := 7.
Definition STORAGE_TRUNK_COMPRESS_STAGE_ROLLBACK_MERGE_DONE : Z := 8.
Definition STORAGE_TRUNK_COMPRESS_STAGE_FINISHED : Z := 9.

(** ** The files. *)

(** [data/trunk/binlog], [binlog.tmp], [binlog.rollback],
    [data/storage_trunk.dat] and [storage_trunk.dat.rollback]. *)
Inductive TrunkFile := Binlog | BinlogTmp | BinlogRollback | TrunkData | DataRollback.

Record TrunkDir := mkDir {
  f_binlog : option bytes;
  f_tmp : option bytes;
  f_rollback : option bytes;
  f_data : option bytes;
  f_data_rollback : option bytes;
}.

Definition get_file (f : TrunkFile) (d : TrunkDir) : option bytes :=
  match f with
  | Binlog => f_binlog d
  | BinlogTmp => f_tmp d
  | BinlogRollback => f_rollback d
  | TrunkData => f_data d
  | DataRollback => f_data_rollback d
  end.

Definition set_file (f : TrunkFile) (x : option bytes) (d : TrunkDir) : TrunkDir :=
  match f with
  | Binlog => mkDir x (f_tmp d) (f_rollback d) (f_data d) (f_data_rollback d)
  | BinlogTmp => mkDir (f_binlog d) x (f_rollback d) (f_data d) (f_data_rollback d)
  | BinlogRollback => mkDir (f_binlog d) (f_tmp d) x (f_data d) (f_data_rollback d)
  | TrunkData => mkDir (f_binlog d) (f_tmp d) (f_rollback d) x (f_data_rollback d)
  | DataRollback => mkDir (f_binlog d) (f_tmp d) (f_rollback d) (f_data d) x
  end.

(** What the next system call does: it succeeds; it fails with an [errno],
    after [written] bytes when it is a write; or the process dies in it, after
    [written] bytes of a write.  An exhausted list is success. *)
Inductive Outcome :=
  | Done
  | Fail (written : nat) (errno : Z)
  | Die (written : nat).

(** [c_marks] are the mark files of the sync threads; [c_history] is a history
    variable, every byte that ever reached the file of the binlog writer. *)
Record CompressState := mkC {
  c_dir : TrunkDir;
  c_marks : list bytes;
  c_ini_stage : Z;
  c_outcomes : list Outcome;
  g_trunk_binlog_compress_stage : Z;
  trunk_binlog_fd : bool;
  trunk_binlog_write_cache : bytes;
  trunk_binlog_write_version : Z;
  last_write_version : Z;
  g_trunk_last_compress_time : Z;
  c_trunker_self : bool;
  c_history : bytes;
}.

Definition set_dir x s := mkC x (c_marks s) (c_ini_stage s) (c_outcomes s) (g_trunk_binlog_compress_stage s) (trunk_binlog_fd s) (trunk_binlog_write_cache s) (trunk_binlog_write_version s) (last_write_version s) (g_trunk_last_compress_time s) (c_trunker_self s) (c_history s).
Definition set_marks x s := mkC (c_dir s) x (c_ini_stage s) (c_outcomes s) (g_trunk_binlog_compress_stage s) (trunk_binlog_fd s) (trunk_binlog_write_cache s) (trunk_binlog_write_version s) (last_write_version s) (g_trunk_last_compress_time s) (c_trunker_self s) (c_history s).
Definition set_ini_stage x s := mkC (c_dir s) (c_marks s) x (c_outcomes s) (g_trunk_binlog_compress_stage s) (trunk_binlog_fd s) (trunk_binlog_write_cache s) (trunk_binlog_write_version s) (last_write_version s) (g_trunk_last_compress_time s) (c_trunker_self s) (c_history s).
Definition set_outcomes x s := mkC (c_dir s) (c_marks s) (c_ini_stage s) x (g_trunk_binlog_compress_stage s) (trunk_binlog_fd s) (trunk_binlog_write_cache s) (trunk_binlog_write_version s) (last_write_version s) (g_trunk_last_compress_time s) (c_trunker_self s) (c_history s).
Definition set_stage x s := mkC (c_dir s) (c_marks s) (c_ini_stage s) (c_outcomes s) x (trunk_binlog_fd s) (trunk_binlog_write_cache s) (trunk_binlog_write_version s) (last_write_version s) (g_trunk_last_compress_time s) (c_trunker_self s) (c_history s).
Definition set_fd x s := mkC (c_dir s) (c_marks s) (c_ini_stage s) (c_outcomes s) (g_trunk_binlog_compress_stage s) x (trunk_binlog_write_cache s) (trunk_binlog_write_version s) (last_write_version s) (g_trunk_last_compress_time s) (c_trunker_self s) (c_history s).
Definition set_log_cache x v s := mkC (c_dir s) (c_marks s) (c_ini_stage s) (c_outcomes s) (g_trunk_binlog_compress_stage s) (trunk_binlog_fd s) x v (last_write_version s) (g_trunk_last_compress_time s) (c_trunker_self s) (c_history s).
Definition set_compressed v t s := mkC (c_dir s) (c_marks s) (c_ini_stage s) (c_outcomes s) (g_trunk_binlog_compress_stage s) (trunk_binlog_fd s) (trunk_binlog_write_cache s) (trunk_binlog_write_version s) v t (c_trunker_self s) (c_history s).
Definition set_trunker_self x s := mkC (c_dir s) (c_marks s) (c_ini_stage s) (c_outcomes s) (g_trunk_binlog_compress_stage s) (trunk_binlog_fd s) (trunk_binlog_write_cache s) (trunk_binlog_write_version s) (last_write_version s) (g_trunk_last_compress_time s) x (c_history s).
Definition set_history x s := mkC (c_dir s) (c_marks s) (c_ini_stage s) (c_outcomes s) (g_trunk_binlog_compress_stage s) (trunk_binlog_fd s) (trunk_binlog_write_cache s) (trunk_binlog_write_version s) (last_write_version s) (g_trunk_last_compress_time s) (c_trunker_self s) x.

(** ** Computations that may die. *)
Definition K (A : Type) : Type := M CompressState (option A).

Definition kret {A} (a : A) : K A := ret (Some a).
Definition kbind {A B} (c : K A) (k : A -> K B) : K B :=
  fun s => match c s with
           | (Some a, s') => k a s'
           | (None, s') => (None, s')
           end.
Definition kgets {A} (f : CompressState -> A) : K A := fun s => (Some (f s), s).
Definition kmodify (f : CompressState -> CompressState) : K unit := fun s => (Some tt, f s).

Declare Scope k_scope.
Delimit Scope k_scope with k.
Notation "'let*' x := c 'in' k" := (kbind c (fun x => k))
  (at level 10, x name, c at level 200, k at level 200) : k_scope.
Notation "c ';;' k" := (kbind c (fun _ => k))
  (at level 100, k at level 200, right associativity) : k_scope.

Local Open Scope k_scope.

(** ** System calls: [None], or [Some errno]. *)
Definition sys : K (option Z) := fun s =>
  match c_outcomes s with
  | [] => (Some None, s)
  | Done :: os => (Some None, set_outcomes os s)
  | Fail _ e :: os => (Some (Some e), set_outcomes os s)
  | Die _ :: os => (None, set_outcomes os s)
  end.

Definition file (f : TrunkFile) : K (option bytes) := kgets (fun s => get_file f (c_dir s)).
Definition store (f : TrunkFile) (x : option bytes) : K unit := kmodify (fun s => set_dir (set_file f x (c_dir s)) s).

(** [access] and [stat]. *)
Definition sys_access (f : TrunkFile) : K (option Z) :=
  let* e := sys in
  match e with
  | Some e => kret (Some e)
  | None => let* x := file f in kret (match x with Some _ => None | None => Some ENOENT end)
  end.

Definition sys_unlink (f : TrunkFile) : K (option Z) :=
  let* e := sys in
  match e with
  | Some e => kret (Some e)
  | None =>
      let* x := file f in
      match x with
      | None => kret (Some ENOENT)
      | Some _ => store f None ;; kret None
      end
  end.

Definition sys_rename (src dst : TrunkFile) : K (option Z) :=
  let* e := sys in
  match e with
  | Some e => kret (Some e)
  | None =>
      let* x := file src in
      match x with
      | None => kret (Some ENOENT)
      | Some _ => store src None ;; store dst x ;; kret None
      end
  end.

(** [open] for reading: the content, or an [errno]. *)
Definition sys_open_read (f : TrunkFile) : K (Z + bytes) :=
  let* e := sys in
  match e with
  | Some e => kret (inl e)
  | None => let* x := file f in kret (match x with Some b => inr b | None => inl ENOENT end)
  end.

(** [open] with [O_CREAT | O_TRUNC], and with [O_CREAT | O_APPEND]. *)
Definition sys_create (f : TrunkFile) : K (option Z) :=
  let* e := sys in
  match e with
  | Some e => kret (Some e)
  | None => store f (Some []) ;; kret None
  end.
Definition sys_append (f : TrunkFile) : K (option Z) :=
  let* e := sys in
  match e with
  | Some e => kret (Some e)
  | None => let* x := file f in store f (Some (default [] x)) ;; kret None
  end.

(** Bytes at the end of a file; the binlog writer keeps the history. *)
Definition extend (f : TrunkFile) (b : bytes) (s : CompressState) : CompressState :=
  set_dir (set_file f (Some (default [] (get_file f (c_dir s)) ++ b)) (c_dir s))
    (match f with Binlog => set_history (c_history s ++ b) s | _ => s end).

(** [fc_safe_write]. *)
Definition sys_write (f : TrunkFile) (b : bytes) : K (option Z) := fun s =>
  match c_outcomes s with
  | [] => (Some None, extend f b s)
  | Done :: os => (Some None, extend f b (set_outcomes os s))
  | Fail n e :: os => (Some (Some e), extend f (take n b) (set_outcomes os s))
  | Die n :: os => (None, extend f (take n b) (set_outcomes os s))
  end.

(** [writeToFile] of libfastcommon. *)
Definition writeToFile (f : TrunkFile) (b : bytes) : K Z :=
  let* e := sys in
  match e with
  | Some e => kret (errno_or e EIO)
  | None => store f (Some b) ;; kret 0
  end.

(** The stage in the sync ini file; the rest of that file is not used here. *)
Definition write_stage : K Z :=
  let* e := sys in
  match e with
  | Some e => kret (errno_or e EIO)
  | None => kmodify (fun s => set_ini_stage (g_trunk_binlog_compress_stage s) s) ;; kret 0
  end.

Definition enter_stage (stage : Z) : K Z := kmodify (set_stage stage) ;; write_stage.

(** ** The binlog writer. *)
Definition trunk_binlog_open_writer : K Z :=
  let* e := sys_append Binlog in
  match e with
  | Some e => kmodify (set_fd false) ;; kret (errno_or e EACCES)
  | None => kmodify (set_fd true) ;; kret 0
  end.

(** [trunk_binlog_fsync] of the write cache. *)
Definition compress_fsync : K Z :=
  let* cache := kgets trunk_binlog_write_cache in
  let synced := kmodify (fun s => set_log_cache [] (trunk_binlog_write_version s + 1) s) ;; kret 0 in
  if bool_decide (cache = []) then synced
  else
    let* fd := kgets trunk_binlog_fd in
    if negb fd then kret EBADF
    else
      let* e := sys_write Binlog cache in
      match e with
      | Some e => kret (errno_or e EIO)
      | None =>
          let* e := sys in
          match e with
          | Some e => kret (errno_or e EIO)
          | None => synced
          end
      end.

Definition trunk_binlog_close_writer : K Z :=
  let* cache := kgets trunk_binlog_write_cache in
  let* result := (if bool_decide (cache = []) then kret 0 else compress_fsync) in
  if decide (result <> 0) then kret result else kmodify (set_fd false) ;; kret 0.

(** [if (need_open_binlog) trunk_binlog_close_writer(false);] *)
Definition close_if (need_open_binlog : bool) : K unit :=
  if need_open_binlog then trunk_binlog_close_writer ;; kret tt else kret tt.

(** ** The rollback files. *)
Definition trunk_binlog_delete_rollback_file (f : TrunkFile) : K Z :=
  let* e := sys_access f in
  match e with
  | None =>
      let* e := sys_unlink f in
      match e with
      | Some e => let result := errno_or e EPERM in kret (if decide (result = ENOENT) then 0 else result)
      | None => kret 0
      end
  | Some e => let result := errno_or e EPERM in kret (if decide (result = ENOENT) then 0 else result)
  end.

Definition trunk_binlog_rename_file (src dst : TrunkFile) : K Z :=
  let* e := sys_access src in
  match e with
  | None =>
      let* e := sys_rename src dst in
      kret (match e with Some e => errno_or e EIO | None => 0 end)
  | Some e => kret (errno_or e EIO)
  end.

Section compress.
(** [fd_gets(fd, buff, size, once)] of libfastcommon: the bytes it takes from
    a file to skip the first line. *)
Context (fd_gets : Z -> bytes -> nat).

(** The file names with [.rollback] fit in [MAX_PATH_SIZE]. *)
Context (binlog_name_fits data_name_fits : bool).

Definition trunk_binlog_compress_delete_binlog_rollback_file : K Z :=
  if negb binlog_name_fits then kret ENAMETOOLONG else trunk_binlog_delete_rollback_file BinlogRollback.

Definition trunk_binlog_compress_delete_rollback_files : K Z :=
  let* result := trunk_binlog_compress_delete_binlog_rollback_file in
  if decide (result <> 0) then kret result
  else if negb data_name_fits then kret ENAMETOOLONG
  else trunk_binlog_delete_rollback_file DataRollback.

(** [trunk_binlog_open_read]: the [errno] of [open], or what is read from the
    file. *)
Definition trunk_binlog_open_read (f : TrunkFile) (skipFirstLine : bool) : K (Z + bytes) :=
  let* x := sys_open_read f in
  kret (match x with
        | inl e => inl e
        | inr b => inr (if skipFirstLine then drop (fd_gets 32 b) b else b)
        end).

Definition MERGE_BUFFER_SIZE : nat := Z.to_nat (64 * 1024).

(** The loop that copies [content] to the temporary file; a failed read ends
    it like the end of the file. *)
Fixpoint copy_loop (fuel : nat) (content : bytes) : K Z :=
  match fuel with
  | O => kret 0
  | S n =>
      let* e := sys in  (* fc_safe_read *)
      match e with
      | Some _ => kret 0
      | None =>
          let buff := take MERGE_BUFFER_SIZE content in
          if bool_decide (buff = []) then kret 0
          else
            let* e := sys_write BinlogTmp buff in
            match e with
            | Some e => kret (errno_or e EACCES)
            | None => copy_loop n (drop MERGE_BUFFER_SIZE content)
            end
      end
  end.

(** [old] is what the descriptor [old_fd] reads. *)
Definition trunk_binlog_merge_file (old : bytes) (stage : Z) : K Z :=
  let* e := sys_create BinlogTmp in
  match e with
  | Some e => kret (errno_or e EACCES)
  | None =>
      let* result := copy_loop (S (length old)) old in
      if decide (result <> 0) then kret result
      else
        let* e := sys_access Binlog in
        let* result :=
          (match e with
           | Some _ => kret 0
           | None =>
               let* x := trunk_binlog_open_read Binlog false in
               match x with
               | inl e => kret (errno_or e EPERM)
               | inr content => copy_loop (S (length content)) content
               end
           end) in
        if decide (result <> 0) then kret result
        else
          let* e := sys in  (* fsync *)
          match e with
          | Some e => kret (errno_or e EIO)
          | None =>
              enter_stage stage ;;
              let* e := sys_rename BinlogTmp Binlog in
              kret (match e with Some e => errno_or e EPERM | None => 0 end)
          end
  end.

Definition trunk_compress_rollback_data_file : K Z :=
  let* e := sys_access DataRollback in  (* stat *)
  match e with
  | Some e => let result := errno_or e EPERM in kret (if decide (result = ENOENT) then 0 else result)
  | None =>
      let* size := kgets (fun s => length (default [] (f_data_rollback (c_dir s)))) in
      let* e := sys_unlink TrunkData in
      let result := match e with Some e => errno_or e EPERM | None => 0 end in
      if decide (result <> 0 /\ result <> ENOENT) then kret result
      else if (size =? 0)%nat then sys_unlink DataRollback ;; kret 0
      else
        let* e := sys_rename DataRollback TrunkData in
        match e with
        | Some e => let result := errno_or e EPERM in kret (if decide (result = ENOENT) then 0 else result)
        | None => kret 0
        end
  end.

Definition trunk_compress_rollback_binlog_file : K Z :=
  let* e := sys_access BinlogRollback in  (* stat *)
  match e with
  | Some e => let result := errno_or e ENOENT in kret (if decide (result = ENOENT) then 0 else result)
  | None =>
      let* size := kgets (fun s => length (default [] (f_rollback (c_dir s)))) in
      if (size =? 0)%nat then sys_unlink BinlogRollback ;; kret 0
      else
        let* e := sys_access Binlog in
        match e with
        | Some e =>
            if decide (errno_or e EPERM = ENOENT) then
              let* e := sys_rename BinlogRollback Binlog in
              match e with
              | Some e => let result := errno_or e EPERM in kret (if decide (result <> ENOENT) then result else 0)
              | None => kret 0
              end
            else kret (errno_or e EPERM)
        | None =>
            let* x := trunk_binlog_open_read BinlogRollback false in
            match x with
            | inl e => let result := errno_or e EPERM in kret (if decide (result = ENOENT) then 0 else result)
            | inr rollback =>
                let* result := trunk_binlog_merge_file rollback STORAGE_TRUNK_COMPRESS_STAGE_ROLLBACK_MERGING in
                enter_stage STORAGE_TRUNK_COMPRESS_STAGE_ROLLBACK_MERGE_DONE ;;
                sys_unlink BinlogRollback ;;
                kret result
            end
        end
  end.

Definition trunk_binlog_compress_delete_temp_files_after_commit : K Z :=
  let* e := sys_unlink TrunkData in
  let result := match e with Some e => errno_or e ENOENT | None => 0 end in
  if decide (result <> 0 /\ result <> ENOENT) then kret result
  else trunk_binlog_compress_delete_rollback_files.

(** ** The steps of a compression. *)
Definition trunk_binlog_compress_apply : K Z :=
  if negb binlog_name_fits then kret ENAMETOOLONG
  else if negb data_name_fits then kret ENAMETOOLONG
  else
    let* e := sys_access Binlog in
    match e with
    | Some e => kret (errno_or e EPERM)
    | None =>
        let* need_open_binlog := kgets trunk_binlog_fd in
        close_if need_open_binlog ;;
        let* result := trunk_binlog_rename_file TrunkData DataRollback in
        let* result := (if decide (result = ENOENT) then writeToFile DataRollback [] else kret result) in
        let* result :=
          (if decide (result <> 0) then kret result
           else
             let* result := trunk_binlog_rename_file Binlog BinlogRollback in
             if decide (result <> 0) then trunk_compress_rollback_data_file ;; kret result else kret 0) in
        if need_open_binlog then
          let* open_res := trunk_binlog_open_writer in
          if decide (open_res <> 0) then
            trunk_binlog_rename_file BinlogRollback Binlog ;;
            trunk_compress_rollback_data_file ;;
            kret (if decide (result = 0) then open_res else result)
          else kret result
        else kret result
    end.

Definition trunk_binlog_compress_commit : K Z :=
  let* need_open_binlog := kgets trunk_binlog_fd in
  let* x := trunk_binlog_open_read TrunkData true in
  match x with
  | inl e => kret (errno_or e ENOENT)
  | inr lines =>
      close_if need_open_binlog ;;
      let* result := trunk_binlog_merge_file lines STORAGE_TRUNK_COMPRESS_STAGE_COMMIT_MERGING in
      if decide (result <> 0) then kret result
      else
        enter_stage STORAGE_TRUNK_COMPRESS_STAGE_COMMIT_MERGE_DONE ;;
        let* result := trunk_binlog_compress_delete_temp_files_after_commit in
        if decide (result <> 0) then kret result
        else
          enter_stage STORAGE_TRUNK_COMPRESS_STAGE_COMPRESS_SUCCESS ;;
          if need_open_binlog then trunk_binlog_open_writer else kret 0
  end.

Definition do_compress_rollback : K Z :=
  let* need_open_binlog := kgets trunk_binlog_fd in
  close_if need_open_binlog ;;
  let* result := trunk_compress_rollback_binlog_file in
  if decide (result <> 0) then kret result
  else
    let* result := trunk_compress_rollback_data_file in
    if decide (result <> 0) then kret result
    else if need_open_binlog then trunk_binlog_open_writer else kret 0.

Definition trunk_binlog_compress_rollback : K Z :=
  let* result := do_compress_rollback in
  if decide (result = 0) then enter_stage STORAGE_TRUNK_COMPRESS_STAGE_FINISHED ;; kret 0 else kret result.

(** The loop over the directory entries that end in [.mark]. *)
Fixpoint unlink_marks (l : list bytes) : K Z :=
  match l with
  | [] => kret 0
  | m :: l' =>
      let* e := sys in
      match e with
      | Some e =>
          let result := errno_or e EPERM in
          if decide (result = ENOENT) then unlink_marks l' else kret result
      | None => kmodify (fun s => set_marks (base.filter (fun x => x <> m) (c_marks s)) s) ;; unlink_marks l'
      end
  end.

Definition trunk_unlink_all_mark_files : K Z :=
  let* e := sys in  (* opendir *)
  match e with
  | Some e => kret (errno_or e EPERM)
  | None => let* marks := kgets c_marks in unlink_marks marks
  end.

(** ** A compression. *)

(** What [storage_trunk_do_save] does to these files
    ([TrunkSnapshot.storage_trunk_save_correct]): the binlog is flushed and a
    snapshot with its size takes the place of the data file in one rename. *)
Definition save_snapshot (lines : bytes) : K Z :=
  compress_fsync ;;
  let* e := sys in  (* stat of the binlog *)
  match e with
  | Some e => kret (errno_or e EIO)
  | None =>
      let* size := kgets (fun s => Z.of_nat (length (default [] (f_binlog (c_dir s))))) in
      let* e := sys in  (* the temporary file *)
      match e with
      | Some e => kret (errno_or e EIO)
      | None =>
          let* e := sys in  (* rename *)
          match e with
          | Some e => kret (errno_or e EIO)
          | None => store TrunkData (Some ((fmt_d size ++ [10]) ++ lines)) ;; kret 0
          end
      end
  end.

(** Records other threads log in the meantime; [trunk_binlog_write] flushes
    them when the buffer is full. *)
Definition other_writes (w : bytes * bool) : K unit :=
  kmodify (fun s => set_log_cache (trunk_binlog_write_cache s ++ w.1) (trunk_binlog_write_version s) s) ;;
  if w.2 then compress_fsync ;; kret tt else kret tt.

(** The body of [storage_trunk_compress]; [w1] and [w2] are what the other
    threads log before the save and before the commit, [lines] the spaces at
    the save. *)
Definition compress_steps (now : Z) (w1 w2 : bytes * bool) (lines : bytes) : K Z :=
  let* current_write_version := kgets trunk_binlog_write_version in
  let* result := trunk_binlog_compress_delete_rollback_files in
  if decide (result <> 0) then kret result
  else
    enter_stage STORAGE_TRUNK_COMPRESS_STAGE_COMPRESS_BEGIN ;;
    let* result := trunk_binlog_compress_apply in
    if decide (result <> 0) then kret result
    else
      enter_stage STORAGE_TRUNK_COMPRESS_STAGE_APPLY_DONE ;;
      other_writes w1 ;;
      let* result := save_snapshot lines in
      if decide (result <> 0) then trunk_binlog_compress_rollback ;; kret result
      else
        enter_stage STORAGE_TRUNK_COMPRESS_STAGE_SAVE_DONE ;;
        other_writes w2 ;;
        let* result := trunk_binlog_compress_commit in
        if decide (result <> 0) then trunk_binlog_compress_rollback ;; kret result
        else
          kmodify (set_compressed current_write_version now) ;;
          trunk_unlink_all_mark_files.

(** [busy]: another thread is compressing.  When the compression is left
    unfinished the server gives up the trunk role
    ([TrunkLoad.storage_trunk_destroy_ex]). *)
Definition storage_trunk_compress (uptime now : Z) (busy : bool) (w1 w2 : bytes * bool) (lines : bytes) : K Z :=
  let* stage := kgets g_trunk_binlog_compress_stage in
  if negb ((stage =? STORAGE_TRUNK_COMPRESS_STAGE_NONE) || (stage =? STORAGE_TRUNK_COMPRESS_STAGE_FINISHED)) then kret EAGAIN
  else if uptime <? 600 then kret EAGAIN
  else
    let* unchanged := kgets (fun s => trunk_binlog_write_version s =? last_write_version s) in
    if (unchanged : bool) then kret EALREADY
    else if busy then kret EINPROGRESS
    else
      let* result := compress_steps now w1 w2 lines in
      let* stage := kgets g_trunk_binlog_compress_stage in
      if decide (result <> 0 /\ stage <> STORAGE_TRUNK_COMPRESS_STAGE_FINISHED)
      then kmodify (set_trunker_self false) ;; kret result
      else kret result.

(** [min_interval] is [g_trunk_compress_binlog_min_interval]. *)
Definition storage_trunk_save (min_interval uptime now : Z) (busy : bool) (w1 w2 : bytes * bool) (lines : bytes) : K Z :=
  let* last := kgets g_trunk_last_compress_time in
  if negb ((0 <? min_interval) && (min_interval <? now - last)) then
    if busy then kret 0 else save_snapshot lines
  else
    let* result := storage_trunk_compress uptime now busy w1 w2 lines in
    if decide (result = 0) then enter_stage STORAGE_TRUNK_COMPRESS_STAGE_FINISHED
    else kret (if decide (result = EAGAIN \/ result = EALREADY \/ result = EINPROGRESS) then 0 else result).

(** The scheduled task; the sync threads are told to start over. *)
Definition trunk_binlog_compress_func (uptime now : Z) (busy : bool) (w1 w2 : bytes * bool) (lines : bytes) : K Z :=
  let* self := kgets c_trunker_self in
  if negb self then kret 0
  else
    let* result := storage_trunk_compress uptime now busy w1 w2 lines in
    if decide (result <> 0) then kret result
    else enter_stage STORAGE_TRUNK_COMPRESS_STAGE_FINISHED.

(** ** Recovery at the next start. *)

(** A merge whose temporary file is gone has been renamed into place. *)
Definition check_merged (merging done : Z) : K unit :=
  let* stage := kgets g_trunk_binlog_compress_stage in
  if stage =? merging then
    let* e := sys_access BinlogTmp in
    match e with
    | Some e => if decide (e = ENOENT) then kmodify (set_stage done) else kret tt
    | None => kret tt
    end
  else kret tt.

Definition finish_recovery : K Z :=
  let* result := trunk_unlink_all_mark_files in
  if decide (result = 0) then enter_stage STORAGE_TRUNK_COMPRESS_STAGE_FINISHED else kret result.

Definition storage_trunk_binlog_compress_check_recovery : K Z :=
  let* stage := kgets g_trunk_binlog_compress_stage in
  if (stage =? STORAGE_TRUNK_COMPRESS_STAGE_NONE) || (stage =? STORAGE_TRUNK_COMPRESS_STAGE_FINISHED) then kret 0
  else
    check_merged STORAGE_TRUNK_COMPRESS_STAGE_COMMIT_MERGING STORAGE_TRUNK_COMPRESS_STAGE_COMMIT_MERGE_DONE ;;
    check_merged STORAGE_TRUNK_COMPRESS_STAGE_ROLLBACK_MERGING STORAGE_TRUNK_COMPRESS_STAGE_ROLLBACK_MERGE_DONE ;;
    let* stage := kgets g_trunk_binlog_compress_stage in
    if (stage =? STORAGE_TRUNK_COMPRESS_STAGE_COMPRESS_BEGIN) || (stage =? STORAGE_TRUNK_COMPRESS_STAGE_APPLY_DONE)
       || (stage =? STORAGE_TRUNK_COMPRESS_STAGE_SAVE_DONE) || (stage =? STORAGE_TRUNK_COMPRESS_STAGE_COMMIT_MERGING)
       || (stage =? STORAGE_TRUNK_COMPRESS_STAGE_ROLLBACK_MERGING)
    then trunk_binlog_compress_rollback
    else if stage =? STORAGE_TRUNK_COMPRESS_STAGE_ROLLBACK_MERGE_DONE then
      let* result := trunk_binlog_compress_delete_binlog_rollback_file in
      if decide (result = 0) then trunk_binlog_compress_rollback else kret result
    else if stage =? STORAGE_TRUNK_COMPRESS_STAGE_COMMIT_MERGE_DONE then
      let* result := trunk_binlog_compress_delete_temp_files_after_commit in
      if decide (result <> 0) then kret result else finish_recovery
    else if stage =? STORAGE_TRUNK_COMPRESS_STAGE_COMPRESS_SUCCESS then finish_recovery
    else kret 0.
End compress.

(** The next start of the process on what the disk holds: the stage is read
    from the sync ini file; [opened] when [trunk_sync_init] has opened the
    binlog before the recovery. *)
Definition reboot (opened : bool) (os : list Outcome) (s : CompressState) : CompressState :=
  let d := c_dir s in
  mkC (if opened then set_file Binlog (Some (default [] (f_binlog d))) d else d)
    (c_marks s) (c_ini_stage s) os (c_ini_stage s) opened [] 1 0 (g_trunk_last_compress_time s) (c_trunker_self s) (c_history s).
