(* ===== verification/CompressSafe.v ===== *)
(** * Crash safety of the binlog compression.

    A weakest precondition calculus for the computations of [TrunkCompress]
    (the process may die in every system call; the files keep what was written),
    the invariant of what the disk
    holds at every instant of a compression and of its recovery, and the
    theorem that a recovery always ends with the old binlog or with the
    compressed one. *)

From S2P Require Import Prelude TrunkShared TrunkBinlog TrunkCompress.

Local Open Scope k_scope.

(** ** A weakest precondition. *)

(** Nothing but crashes. *)
Definition only_crashes (os : list Outcome) : Prop :=
  Forall (fun o => match o with Fail _ _ => False | _ => True end) os.

(** A property of what survives a crash: the files, the marks, the stage in
    the ini file and the history. *)
Abbreviation durable_prop := (TrunkDir -> list bytes -> Z -> bytes -> Prop).

Definition durable (C : durable_prop) (s : CompressState) : Prop :=
  C (c_dir s) (c_marks s) (c_ini_stage s) (c_history s).

(** [c] from [s] returns with [Q], or dies with [C] on the disk. *)
Definition wp {A} (c : K A) (s : CompressState) (Q : A -> CompressState -> Prop) (C : durable_prop) : Prop :=
  match c s with
  | (Some a, s') => Q a s'
  | (None, s') => durable C s'
  end.

(** The parts of the state a compression depends on. *)
Record state_is (d : TrunkDir) (m : list bytes) (i st : Z) (fd : bool) (ca h : bytes) (s : CompressState) : Prop := {
  is_dir : c_dir s = d;
  is_marks : c_marks s = m;
  is_ini : c_ini_stage s = i;
  is_stage : g_trunk_binlog_compress_stage s = st;
  is_fd : trunk_binlog_fd s = fd;
  is_cache : trunk_binlog_write_cache s = ca;
  is_history : c_history s = h;
  is_crashes : only_crashes (c_outcomes s);
}.

Lemma wp_ret {A} C (a : A) s (Q : A -> CompressState -> Prop) : Q a s -> wp (kret a) s Q C.
Proof. done. Qed.

Lemma wp_bind {A B} C (c : K A) (k : A -> K B) s Q :
  wp c s (fun a s' => wp (k a) s' Q C) C -> wp (kbind c k) s Q C.
Proof. unfold wp, kbind. by destruct (c s) as [[a|] s']. Qed.

Lemma wp_gets {A} C (f : CompressState -> A) s (Q : A -> CompressState -> Prop) : Q (f s) s -> wp (kgets f) s Q C.
Proof. done. Qed.

Lemma wp_modify C f s (Q : unit -> CompressState -> Prop) : Q tt (f s) -> wp (kmodify f) s Q C.
Proof. done. Qed.

Section rules.
Context {d : TrunkDir} {m : list bytes} {i st : Z} {fd : bool} {ca h : bytes} {s : CompressState}.
Context (Hs : state_is d m i st fd ca h s).
Context {C : durable_prop}.

Lemma wp_sys (Q : option Z -> CompressState -> Prop) :
  C d m i h ->
  (forall s', state_is d m i st fd ca h s' -> Q None s') ->
  wp sys s Q C.
Proof using Hs.
  intros HC HQ. unfold wp, sys. destruct Hs as [<- <- <- <- <- <- <- Hos].
  destruct (c_outcomes s) as [|[|n e|n] os] eqn:E.
  - apply HQ. split; try done. by rewrite E.
  - apply HQ. by split; [..|inversion Hos].
  - by inversion Hos.
  - done.
Qed.

Lemma wp_access f (Q : option Z -> CompressState -> Prop) :
  C d m i h ->
  (forall s', state_is d m i st fd ca h s' -> Q (match get_file f d with Some _ => None | None => Some ENOENT end) s') ->
  wp (sys_access f) s Q C.
Proof using Hs.
  intros HC HQ. unfold sys_access, store, file. apply wp_bind, wp_sys; [done|]. intros s' Hs'. apply wp_bind, wp_gets.
  rewrite (is_dir _ _ _ _ _ _ _ _ Hs'). apply wp_ret. by apply HQ.
Qed.

Lemma wp_unlink f (Q : option Z -> CompressState -> Prop) :
  C d m i h ->
  (forall s', match get_file f d with
     | Some _ => state_is (set_file f None d) m i st fd ca h s' -> Q None s'
     | None => state_is d m i st fd ca h s' -> Q (Some ENOENT) s'
     end) ->
  wp (sys_unlink f) s Q C.
Proof using Hs.
  intros HC HQ. unfold sys_unlink, store, file. apply wp_bind, wp_sys; [done|]. intros s' Hs'. apply wp_bind, wp_gets.
  rewrite (is_dir _ _ _ _ _ _ _ _ Hs'). destruct (get_file f d) as [x|].
  - apply wp_bind, wp_modify, wp_ret. apply HQ. destruct Hs' as [<- <- <- <- <- <- <- Hos]. by split.
  - apply wp_ret. by apply HQ.
Qed.

(** Removing a file that may be missing. *)
Lemma wp_remove f (Q : option Z -> CompressState -> Prop) :
  C d m i h ->
  (forall s' e, e = None \/ e = Some ENOENT -> state_is (set_file f None d) m i st fd ca h s' -> Q e s') ->
  wp (sys_unlink f) s Q C.
Proof using Hs.
  intros HC HQ. apply wp_unlink; [done|]. intros s'. destruct (get_file f d) eqn:E; intros Hs'; apply HQ; auto.
  replace (set_file f None d) with d; [done|]. destruct f, d; cbn in *; by rewrite E.
Qed.

Lemma wp_rename f g (Q : option Z -> CompressState -> Prop) :
  C d m i h ->
  (forall s', match get_file f d with
     | Some x => state_is (set_file g (Some x) (set_file f None d)) m i st fd ca h s' -> Q None s'
     | None => state_is d m i st fd ca h s' -> Q (Some ENOENT) s'
     end) ->
  wp (sys_rename f g) s Q C.
Proof using Hs.
  intros HC HQ. unfold sys_rename, store, file. apply wp_bind, wp_sys; [done|]. intros s' Hs'. apply wp_bind, wp_gets.
  rewrite (is_dir _ _ _ _ _ _ _ _ Hs'). destruct (get_file f d) as [x|].
  - apply wp_bind, wp_modify, wp_bind, wp_modify, wp_ret. apply HQ. destruct Hs' as [<- <- <- <- <- <- <- Hos]. by split.
  - apply wp_ret. by apply HQ.
Qed.

Lemma wp_open_read f (Q : Z + bytes -> CompressState -> Prop) :
  C d m i h ->
  (forall s', state_is d m i st fd ca h s' -> Q (match get_file f d with Some b => inr b | None => inl ENOENT end) s') ->
  wp (sys_open_read f) s Q C.
Proof using Hs.
  intros HC HQ. unfold sys_open_read, store, file. apply wp_bind, wp_sys; [done|]. intros s' Hs'. apply wp_bind, wp_gets.
  rewrite (is_dir _ _ _ _ _ _ _ _ Hs'). apply wp_ret. by apply HQ.
Qed.

Lemma wp_create f (Q : option Z -> CompressState -> Prop) :
  C d m i h ->
  (forall s', state_is (set_file f (Some []) d) m i st fd ca h s' -> Q None s') ->
  wp (sys_create f) s Q C.
Proof using Hs.
  intros HC HQ. unfold sys_create, store, file. apply wp_bind, wp_sys; [done|]. intros s' [<- <- <- <- <- <- <- Hos].
  apply wp_bind, wp_modify, wp_ret. apply HQ. by split.
Qed.

Lemma wp_append f (Q : option Z -> CompressState -> Prop) :
  C d m i h ->
  (forall s', state_is (set_file f (Some (default [] (get_file f d))) d) m i st fd ca h s' -> Q None s') ->
  wp (sys_append f) s Q C.
Proof using Hs.
  intros HC HQ. unfold sys_append, store, file. apply wp_bind, wp_sys; [done|]. intros s' [<- <- <- <- <- <- <- Hos].
  apply wp_bind, wp_gets, wp_bind, wp_modify, wp_ret. apply HQ. by split.
Qed.

Lemma wp_writeToFile f b (Q : Z -> CompressState -> Prop) :
  C d m i h ->
  (forall s', state_is (set_file f (Some b) d) m i st fd ca h s' -> Q 0 s') ->
  wp (writeToFile f b) s Q C.
Proof using Hs.
  intros HC HQ. unfold writeToFile, store. apply wp_bind, wp_sys; [done|]. intros s' [<- <- <- <- <- <- <- Hos].
  apply wp_bind, wp_modify, wp_ret. apply HQ. by split.
Qed.

Lemma wp_enter_stage x (Q : Z -> CompressState -> Prop) :
  C d m i h ->
  (forall s', state_is d m x x fd ca h s' -> Q 0 s') ->
  wp (enter_stage x) s Q C.
Proof using Hs.
  intros HC HQ. destruct Hs as [<- <- <- <- <- <- <- Hos]. unfold wp, enter_stage, write_stage, kbind, kmodify, sys.
  cbn. destruct (c_outcomes s) as [|[|n e|n] os] eqn:E; inversion Hos; subst; try done.
  all: apply HQ; split; try done; cbn; by rewrite ?E.
Qed.

(** A write may stop anywhere when the process dies. *)
Lemma wp_write_tmp b (Q : option Z -> CompressState -> Prop) :
  (forall n, C (set_file BinlogTmp (Some (default [] (f_tmp d) ++ take n b)) d) m i h) ->
  (forall s', state_is (set_file BinlogTmp (Some (default [] (f_tmp d) ++ b)) d) m i st fd ca h s' -> Q None s') ->
  wp (sys_write BinlogTmp b) s Q C.
Proof using Hs.
  intros HC HQ. destruct Hs as [<- <- <- <- <- <- <- Hos]. unfold wp, sys_write.
  destruct (c_outcomes s) as [|[|n e|n] os] eqn:E; inversion Hos; subst; try done.
  - apply HQ; split; try done; cbn. by rewrite E.
  - by apply HQ.
  - apply HC.
Qed.

Lemma wp_write_log b (Q : option Z -> CompressState -> Prop) :
  (forall n, C (set_file Binlog (Some (default [] (f_binlog d) ++ take n b)) d) m i (h ++ take n b)) ->
  (forall s', state_is (set_file Binlog (Some (default [] (f_binlog d) ++ b)) d) m i st fd ca (h ++ b) s' -> Q None s') ->
  wp (sys_write Binlog b) s Q C.
Proof using Hs.
  intros HC HQ. destruct Hs as [<- <- <- <- <- <- <- Hos]. unfold wp, sys_write.
  destruct (c_outcomes s) as [|[|n e|n] os] eqn:E; inversion Hos; subst; try done.
  - apply HQ; split; try done; cbn. by rewrite E.
  - by apply HQ.
  - apply HC.
Qed.
End rules.

#[local] Hint Resolve Forall_nil : core.

Lemma set_file_set_file f x y d : set_file f x (set_file f y d) = set_file f x d.
Proof. by destruct f, d. Qed.

Lemma set_file_id f d : set_file f (get_file f d) d = d.
Proof. by destruct f, d. Qed.

Lemma set_binlog_id d b : f_binlog d = Some b -> set_file Binlog (Some b) d = d.
Proof. intros <-. apply (set_file_id Binlog). Qed.

Lemma get_set_file f x d : get_file f (set_file f x d) = x.
Proof. by destruct f, d. Qed.

Lemma durable_is {d m i st fd ca h s} {C : durable_prop} : state_is d m i st fd ca h s -> C d m i h -> durable C s.
Proof. by intros [<- <- <- _ _ _ <- _]. Qed.

Lemma state_is_set_fd {d m i st fd ca h s} x : state_is d m i st fd ca h s -> state_is d m i st x ca h (set_fd x s).
Proof. by intros []; split. Qed.

Lemma state_is_set_log_cache {d m i st fd ca h s} x v :
  state_is d m i st fd ca h s -> state_is d m i st fd x h (set_log_cache x v s).
Proof. by intros []; split. Qed.

#[local] Hint Resolve state_is_set_fd state_is_set_log_cache : core.

(** ** The writer. *)
Section writer.
Context {d : TrunkDir} {m : list bytes} {i st : Z} {ca h b : bytes} {s : CompressState}.
Context {C : durable_prop}.
Context (Hb : f_binlog d = Some b).

Lemma wp_fsync (Q : Z -> CompressState -> Prop) :
  state_is d m i st true ca h s ->
  (forall n, C (set_file Binlog (Some (b ++ take n ca)) d) m i (h ++ take n ca)) ->
  (forall s', state_is (set_file Binlog (Some (b ++ ca)) d) m i st true [] (h ++ ca) s' -> Q 0 s') ->
  wp compress_fsync s Q C.
Proof using Hb.
  intros Hs HC HQ. unfold compress_fsync. apply wp_bind, wp_gets. rewrite (is_cache _ _ _ _ _ _ _ _ Hs).
  case_bool_decide as Hca.
  - subst ca. apply wp_bind, wp_modify, wp_ret, HQ. rewrite !app_nil_r, set_binlog_id by done. eauto.
  - apply wp_bind, wp_gets. rewrite (is_fd _ _ _ _ _ _ _ _ Hs). cbn.
    apply wp_bind, (wp_write_log Hs); rewrite Hb; cbn; [done|]. intros s1 Hs1.
    apply wp_bind, (wp_sys Hs1); [specialize (HC (length ca)); by rewrite firstn_all in HC|].
    intros s2 Hs2. apply wp_bind, wp_modify, wp_ret, HQ. eauto.
Qed.

Lemma wp_close fd (Q : unit -> CompressState -> Prop) :
  state_is d m i st fd ca h s ->
  (fd = false -> ca = []) ->
  (forall n, C (set_file Binlog (Some (b ++ take n ca)) d) m i (h ++ take n ca)) ->
  (forall s', state_is (set_file Binlog (Some (b ++ ca)) d) m i st false [] (h ++ ca) s' -> Q tt s') ->
  wp (close_if fd) s Q C.
Proof using Hb.
  intros Hs Hca HC HQ. unfold close_if. destruct fd.
  - apply wp_bind. unfold trunk_binlog_close_writer. apply wp_bind, wp_gets.
    rewrite (is_cache _ _ _ _ _ _ _ _ Hs). apply wp_bind. case_bool_decide as E.
    + subst ca. apply wp_ret, wp_bind, wp_modify, wp_ret, wp_ret, HQ. rewrite !app_nil_r, set_binlog_id by done. eauto.
    + apply (wp_fsync _ Hs); [done|]. intros s1 Hs1.
      apply wp_bind, wp_modify, wp_ret, wp_ret, HQ. eauto.
  - rewrite Hca in * by done. apply wp_ret, HQ. by rewrite !app_nil_r, set_binlog_id by done.
Qed.
End writer.

(** A writer with nothing to flush. *)
Lemma wp_close_empty {d m i st fd h s} {C : durable_prop} (Q : unit -> CompressState -> Prop) :
  state_is d m i st fd [] h s ->
  (forall s', state_is d m i st false [] h s' -> Q tt s') ->
  wp (close_if fd) s Q C.
Proof.
  intros Hs HQ. unfold close_if. destruct fd; [|by apply wp_ret, HQ].
  apply wp_bind. unfold trunk_binlog_close_writer. apply wp_bind, wp_gets.
  rewrite (is_cache _ _ _ _ _ _ _ _ Hs), bool_decide_true by done. apply wp_bind, wp_ret, wp_bind, wp_modify, wp_ret, wp_ret, HQ.
  eauto.
Qed.

Lemma wp_open_writer {d m i st fd ca h s} {C : durable_prop} (Q : Z -> CompressState -> Prop) :
  state_is d m i st fd ca h s ->
  C d m i h ->
  (forall s', state_is (set_file Binlog (Some (default [] (f_binlog d))) d) m i st true ca h s' -> Q 0 s') ->
  wp trunk_binlog_open_writer s Q C.
Proof.
  intros Hs HC HQ. unfold trunk_binlog_open_writer. apply wp_bind, (wp_append Hs); [done|].
  intros s1 Hs1. apply wp_bind, wp_modify, wp_ret, HQ. eauto.
Qed.

(** ** The merge. *)
Lemma wp_copy_loop {m i st fd ca h} {C : durable_prop} (Q : Z -> CompressState -> Prop) fuel :
  forall content x d s,
  state_is (set_file BinlogTmp (Some x) d) m i st fd ca h s ->
  (length content < fuel)%nat ->
  (forall y, C (set_file BinlogTmp (Some y) d) m i h) ->
  (forall s', state_is (set_file BinlogTmp (Some (x ++ content)) d) m i st fd ca h s' -> Q 0 s') ->
  wp (copy_loop fuel content) s Q C.
Proof.
  induction fuel as [|n IH]; intros content x d s Hs Hfuel HC HQ; [lia|]. cbn [copy_loop].
  apply wp_bind, (wp_sys Hs); [done|]. intros s1 Hs1.
  assert (Hsize : (0 < MERGE_BUFFER_SIZE)%nat) by (unfold MERGE_BUFFER_SIZE; lia).
  case_bool_decide as E.
  - apply wp_ret, HQ. destruct content; [by rewrite app_nil_r|]. by destruct MERGE_BUFFER_SIZE; [lia|].
  - assert (length content <> 0%nat) by (destruct content; cbn; [by rewrite take_nil in E|done]).
    apply wp_bind, (wp_write_tmp Hs1); [intros; rewrite set_file_set_file; apply HC|].
    intros s2 Hs2. rewrite set_file_set_file in Hs2. apply (IH _ _ _ _ Hs2).
    + rewrite length_drop. lia.
    + done.
    + intros s' Hs'. apply HQ. rewrite <- app_assoc, take_drop in Hs'. done.
Qed.

Section recovery.
Context (fd_gets : Z -> bytes -> nat).

Lemma wp_merge_file {d m i st fd ca h s} {C : durable_prop} (Q : Z -> CompressState -> Prop) old stage all :
  state_is d m i st fd ca h s ->
  all = old ++ default [] (f_binlog d) ->
  C d m i h ->
  (forall y, C (set_file BinlogTmp (Some y) d) m i h) ->
  C (set_file BinlogTmp (Some all) d) m stage h ->
  (forall s', state_is (set_file Binlog (Some all) (set_file BinlogTmp None d)) m stage stage fd ca h s' -> Q 0 s') ->
  wp (trunk_binlog_merge_file fd_gets old stage) s Q C.
Proof.
  intros Hs -> HC Hany Hall HQ. unfold trunk_binlog_merge_file.
  apply wp_bind, (wp_create Hs); [done|]. intros s1 Hs1.
  apply wp_bind, (wp_copy_loop _ _ _ _ _ _ Hs1); [lia|done|]. intros s2 Hs2. cbn [app] in Hs2.
  rewrite decide_False by lia. apply wp_bind, (wp_access Hs2); [apply Hany|]. intros s3 Hs3. clear s1 Hs1 s2 Hs2.
  apply wp_bind. unfold get_file at 1. replace (f_binlog (set_file BinlogTmp (Some old) d)) with (f_binlog d) by done.
  assert (Hcopied : forall s', state_is (set_file BinlogTmp (Some (old ++ default [] (f_binlog d))) d) m i st fd ca h s' ->
    wp (if decide (0 <> 0) then kret 0 else
        let* e := sys in
        match e with
        | Some e => kret (errno_or e EIO)
        | None =>
            enter_stage stage ;;
            let* e := sys_rename BinlogTmp Binlog in
            kret (match e with Some e => errno_or e EPERM | None => 0 end)
        end) s' Q C).
  { intros s4 Hs4. rewrite decide_False by lia. apply wp_bind, (wp_sys Hs4); [apply Hany|]. intros s5 Hs5.
    apply wp_bind, (wp_enter_stage Hs5); [apply Hany|]. intros s6 Hs6.
    apply wp_bind, (wp_rename Hs6); [done|]. intros s7. rewrite get_set_file, set_file_set_file. intros Hs7.
    by apply wp_ret, HQ. }
  destruct (f_binlog d) as [b|] eqn:Eb; cbn [default] in *.
  - apply wp_bind. unfold trunk_binlog_open_read. apply wp_bind, (wp_open_read Hs3); [apply Hany|].
    intros s4 Hs4. unfold get_file. replace (f_binlog (set_file BinlogTmp (Some old) d)) with (f_binlog d) by done.
    rewrite Eb. apply wp_ret, (wp_copy_loop _ _ _ _ _ _ Hs4); [lia|done|]. intros s5 Hs5. by apply Hcopied.
  - apply wp_ret, Hcopied. by rewrite app_nil_r.
Qed.

(** ** What the disk holds. *)

(** [D0] is the snapshot before the compression and [M0] are the marks then;
    [H1] is the log when the compression sets it aside, [lines] is the
    snapshot that replaces it. *)
Context (D0 : option bytes) (M0 : list bytes) (H1 lines : bytes).
Context (HD0 : D0 <> Some []).

Definition old_log (d : TrunkDir) (m : list bytes) (h : bytes) : Prop :=
  default [] (f_binlog d) = h /\ f_data d = D0 /\ m = M0.

(** The records since then follow the lines of the snapshot. *)
Definition new_log (d : TrunkDir) (h : bytes) : Prop :=
  exists tail, h = H1 ++ tail /\ f_binlog d = Some (lines ++ tail).

(** The old snapshot, in place or set aside. *)
Definition data_kept (d : TrunkDir) : Prop :=
  (f_data_rollback d = None /\ f_data d = D0) \/ f_data_rollback d = Some (default [] D0).

Definition idle (i : Z) : Prop :=
  i = STORAGE_TRUNK_COMPRESS_STAGE_NONE \/ i = STORAGE_TRUNK_COMPRESS_STAGE_FINISHED.

(** The stages a recovery undoes, while the log that was set aside has not
    been merged back. *)
Definition rolls_back (i : Z) (d : TrunkDir) : Prop :=
  i = STORAGE_TRUNK_COMPRESS_STAGE_COMPRESS_BEGIN \/ i = STORAGE_TRUNK_COMPRESS_STAGE_APPLY_DONE
  \/ i = STORAGE_TRUNK_COMPRESS_STAGE_SAVE_DONE
  \/ ((i = STORAGE_TRUNK_COMPRESS_STAGE_COMMIT_MERGING \/ i = STORAGE_TRUNK_COMPRESS_STAGE_ROLLBACK_MERGING)
      /\ f_tmp d <> None).

Definition rolled_back (i : Z) (d : TrunkDir) : Prop :=
  (i = STORAGE_TRUNK_COMPRESS_STAGE_ROLLBACK_MERGING /\ f_tmp d = None)
  \/ i = STORAGE_TRUNK_COMPRESS_STAGE_ROLLBACK_MERGE_DONE.

Definition committed (i : Z) (d : TrunkDir) : Prop :=
  (i = STORAGE_TRUNK_COMPRESS_STAGE_COMMIT_MERGING /\ f_tmp d = None)
  \/ i = STORAGE_TRUNK_COMPRESS_STAGE_COMMIT_MERGE_DONE
  \/ (i = STORAGE_TRUNK_COMPRESS_STAGE_COMPRESS_SUCCESS /\ f_data d = None).

Lemma rolls_back_not_rolled_back i d : rolls_back i d -> ~ rolled_back i d.
Proof using Type.
  unfold rolls_back, rolled_back. intros Hi Hx.
  destruct Hx as [[-> Ht]| ->]; destruct Hi as [Hi|[Hi|[Hi|[[Hi|Hi] Hn]]]]; done.
Qed.

Definition undone (d : TrunkDir) (m : list bytes) (i : Z) (h : bytes) : Prop := idle i /\ old_log d m h.
Definition finished (d : TrunkDir) (m : list bytes) (i : Z) (h : bytes) : Prop :=
  i = STORAGE_TRUNK_COMPRESS_STAGE_FINISHED /\ new_log d h /\ f_data d = None /\ m = [].

Inductive recoverable (d : TrunkDir) (m : list bytes) (i : Z) (h : bytes) : Prop :=
  | Undone : undone d m i h -> recoverable d m i h
  | RollsBack : rolls_back i d -> default [] (f_rollback d) ++ default [] (f_binlog d) = h ->
      data_kept d -> m = M0 -> recoverable d m i h
  | RolledBack : rolled_back i d -> f_binlog d = Some h -> data_kept d -> m = M0 -> recoverable d m i h
  | Committed : committed i d -> new_log d h -> recoverable d m i h
  | Finished : finished d m i h -> recoverable d m i h.

Definition settled (d : TrunkDir) (m : list bytes) (i : Z) (h : bytes) : Prop := undone d m i h \/ finished d m i h.

Definition ends_settled (r : Z) (s : CompressState) : Prop := r = 0 /\ durable settled s.

(** A log that only needs the snapshot back. *)
Definition log_back (d : TrunkDir) (m : list bytes) (i : Z) (h : bytes) : Prop :=
  (rolls_back i d \/ rolled_back i d) /\ f_rollback d = None /\ default [] (f_binlog d) = h
  /\ (rolled_back i d -> f_binlog d = Some h) /\ m = M0.

Lemma log_back_recoverable d m i h : log_back d m i h -> data_kept d -> recoverable d m i h.
Proof using Type.
  intros ([Hi|Hi] & Hr & Hb & Hb' & Hm) Hd.
  - apply RollsBack; try done. by rewrite Hr.
  - apply RolledBack; auto.
Qed.

(** ** Undoing. *)
Lemma wp_rollback_data_file {d m i st fd ca h s} (Q : Z -> CompressState -> Prop) :
  state_is d m i st fd ca h s -> log_back d m i h -> data_kept d ->
  (forall d' s', state_is d' m i st fd ca h s' -> log_back d' m i h -> f_data d' = D0 -> data_kept d' -> Q 0 s') ->
  wp trunk_compress_rollback_data_file s Q recoverable.
Proof using HD0.
  intros Hs Hlog Hd HQ. unfold trunk_compress_rollback_data_file.
  apply wp_bind, (wp_access Hs); [by apply log_back_recoverable|]. intros s1 Hs1. cbn [get_file].
  destruct (f_data_rollback d) as [old|] eqn:Er.
  2: { destruct Hd as [[_ Hd]|Hd]; [|by rewrite Er in Hd]. apply wp_ret, (HQ d s1); auto. left. auto. }
  destruct Hd as [[Hd _]|Hd]; rewrite Er in Hd; [done|]. injection Hd as ->.
  apply wp_bind, wp_gets. rewrite (is_dir _ _ _ _ _ _ _ _ Hs1), Er. change (default [] (Some (default [] D0))) with (default [] D0).
  apply wp_bind, (wp_remove Hs1); [apply log_back_recoverable; [done|by right]|]. intros s2 e He Hs2.
  set (d2 := set_file TrunkData None d) in Hs2.
  assert (Hlog2 : log_back d2 m i h) by (by subst d2; destruct d).
  assert (Hr2 : f_data_rollback d2 = Some (default [] D0)) by (by subst d2; destruct d).
  assert (Hn2 : f_data d2 = None) by (by subst d2; destruct d).
  rewrite decide_False by (destruct He as [-> | ->]; cbn; lia).
  assert (Hrec : recoverable d2 m i h) by (apply log_back_recoverable; [done|by right]).
  clearbody d2. destruct (Nat.eqb_spec (length (default [] D0)) 0) as [E|E].
  - apply wp_bind, (wp_unlink Hs2); [done|]. cbn [get_file]. rewrite Hr2.
    intros s3 Hs3. assert (HD : D0 = None) by (clear - E HD0; by destruct D0 as [[|]|]).
    apply wp_ret, (HQ _ _ Hs3); [by destruct d2| |left]; rewrite HD; by destruct d2.
  - apply wp_bind, (wp_rename Hs2); [done|]. cbn [get_file]. rewrite Hr2.
    intros s3 Hs3. assert (HD : Some (default [] D0) = D0) by (clear - E; by destruct D0). rewrite HD in Hs3.
    apply wp_ret, (HQ _ _ Hs3); [by destruct d2|by destruct d2|left; by destruct d2].
Qed.

Definition to_roll_back (d : TrunkDir) (m : list bytes) (i : Z) (h : bytes) : Prop :=
  rolls_back i d /\ default [] (f_rollback d) ++ default [] (f_binlog d) = h /\ data_kept d /\ m = M0.

Lemma to_roll_back_recoverable d m i h : to_roll_back d m i h -> recoverable d m i h.
Proof using Type. intros (? & ? & ? & ?). by apply RollsBack. Qed.

(** The log that was set aside comes back in front of the records since. *)
Lemma wp_rollback_merge {d m i st fd ca h s} (Q : Z -> CompressState -> Prop) r b :
  state_is d m i st fd ca h s -> to_roll_back d m i h -> f_rollback d = Some r -> f_binlog d = Some b ->
  (forall d' i' st' s', state_is d' m i' st' fd ca h s' -> log_back d' m i' h -> data_kept d' -> Q 0 s') ->
  wp (let* x := trunk_binlog_open_read fd_gets BinlogRollback false in
      match x with
      | inl e => let result := errno_or e EPERM in kret (if decide (result = ENOENT) then 0 else result)
      | inr rollback =>
          let* result := trunk_binlog_merge_file fd_gets rollback STORAGE_TRUNK_COMPRESS_STAGE_ROLLBACK_MERGING in
          enter_stage STORAGE_TRUNK_COMPRESS_STAGE_ROLLBACK_MERGE_DONE ;;
          sys_unlink BinlogRollback ;;
          kret result
      end) s Q recoverable.
Proof using HD0.
  intros Hs Hback Hr Hb HQ. pose proof (to_roll_back_recoverable _ _ _ _ Hback) as Hrec.
  destruct Hback as (Hi & Hh & Hd & Hm). rewrite Hr, Hb in Hh.
  apply wp_bind. unfold trunk_binlog_open_read. apply wp_bind, (wp_open_read Hs); [done|]. intros s1 Hs1.
  cbn [get_file]. rewrite Hr. apply wp_ret, wp_bind, (wp_merge_file _ _ _ h Hs1); [by rewrite Hb|done|..].
  - intros y. apply RollsBack; [|by destruct d; cbn in *; subst|by destruct d|done].
    destruct Hi as [?|[?|[?|[? _]]]]; [by left|by right; left|by do 2 right; left|].
    do 3 right. split; [done|by destruct d].
  - apply RollsBack; [|by destruct d; cbn in *; subst|by destruct d|done].
    do 3 right. split; [by right|by destruct d].
  - intros s2 Hs2. set (d2 := set_file _ _ _) in Hs2.
    assert (Hd2 : f_binlog d2 = Some h /\ f_tmp d2 = None /\ data_kept d2) by (by subst d2; destruct d).
    clearbody d2. destruct Hd2 as (Hb2 & Ht2 & Hk2).
    apply wp_bind, (wp_enter_stage Hs2); [by apply RolledBack; [left| | |]|]. intros s3 Hs3.
    apply wp_bind, (wp_remove Hs3); [by apply RolledBack; [right| | |]|]. intros s4 e _ Hs4.
    apply wp_ret, (HQ _ _ _ _ Hs4); [|by destruct d2].
    split; [by right; right|]. destruct d2; cbn in *; subst. auto.
Qed.

Lemma wp_rollback_binlog_file {d m i st fd ca h s} (Q : Z -> CompressState -> Prop) :
  state_is d m i st fd ca h s -> to_roll_back d m i h \/ (log_back d m i h /\ data_kept d) ->
  (forall d' i' st' s', state_is d' m i' st' fd ca h s' -> log_back d' m i' h -> data_kept d' -> Q 0 s') ->
  wp (trunk_compress_rollback_binlog_file fd_gets) s Q recoverable.
Proof using HD0.
  intros Hs Hpre HQ. unfold trunk_compress_rollback_binlog_file.
  assert (Hrec : recoverable d m i h).
  { destruct Hpre as [?|[? ?]]; [by apply to_roll_back_recoverable|by apply log_back_recoverable]. }
  apply wp_bind, (wp_access Hs); [done|]. intros s1 Hs1. cbn [get_file].
  destruct (f_rollback d) as [r|] eqn:Er.
  2: { apply wp_ret, (HQ _ _ _ _ Hs1); destruct Hpre as [(Hi & Hh & Hd & Hm)|[Hl Hd]]; try done.
       rewrite Er in Hh. split; [by left|]. split; [done|]. split; [done|]. split; [|done].
       intros Hx. by destruct (rolls_back_not_rolled_back _ _ Hi). }
  destruct Hpre as [Hback|[(_ & Hn & _) _]]; [|by rewrite Hn in Er].
  apply wp_bind, wp_gets. rewrite (is_dir _ _ _ _ _ _ _ _ Hs1), Er.
  change (default [] (Some r)) with r. destruct (Nat.eqb_spec (length r) 0) as [E|E].
  { apply wp_bind, (wp_remove Hs1); [done|]. intros s2 e _ Hs2. apply nil_length_inv in E as ->.
    destruct Hback as (Hi & Hh & Hd & Hm). rewrite Er in Hh.
    apply wp_ret, (HQ _ _ _ _ Hs2); [|by destruct d]. split; [by left; destruct d|].
    destruct d; cbn in *. repeat (split; [done|]). split; [|done].
    intros Hx. by destruct (rolls_back_not_rolled_back _ _ Hi). }
  apply wp_bind, (wp_access Hs1); [done|]. intros s2 Hs2. cbn [get_file].
  destruct (f_binlog d) as [b|] eqn:Eb; [by apply (wp_rollback_merge _ r b Hs2)|].
  rewrite decide_True by done. apply wp_bind, (wp_rename Hs2); [done|]. cbn [get_file]. rewrite Er. intros s3 Hs3.
  destruct Hback as (Hi & Hh & Hd & Hm). rewrite Er, Eb in Hh. cbn in Hh. rewrite app_nil_r in Hh. subst r.
  apply wp_ret, (HQ _ _ _ _ Hs3); [|by destruct d]. split; [by left; destruct d|]. by destruct d.
Qed.

(** What a recovery has to do once the rollback is decided. *)
Lemma wp_rollback {d m i st fd h s} :
  state_is d m i st fd [] h s -> to_roll_back d m i h \/ (log_back d m i h /\ data_kept d) ->
  wp (trunk_binlog_compress_rollback fd_gets) s ends_settled recoverable.
Proof using HD0.
  intros Hs Hpre. unfold trunk_binlog_compress_rollback, do_compress_rollback.
  apply wp_bind, wp_bind, wp_gets, wp_bind. rewrite (is_fd _ _ _ _ _ _ _ _ Hs).
  apply (wp_close_empty _ Hs). intros s1 Hs1. apply wp_bind, (wp_rollback_binlog_file _ Hs1 Hpre).
  intros d2 i2 st2 s2 Hs2 Hl2 Hk2. rewrite decide_False by lia.
  apply wp_bind, (wp_rollback_data_file _ Hs2 Hl2 Hk2).
  intros d3 s3 Hs3 Hl3 Hd3 Hk3. rewrite decide_False by lia.
  assert (Hend : forall fd' d' s', state_is d' m i2 st2 fd' [] h s' -> log_back d' m i2 h -> f_data d' = D0 -> data_kept d' ->
    wp (if decide (0 = 0) then enter_stage STORAGE_TRUNK_COMPRESS_STAGE_FINISHED ;; kret 0 else kret 0) s' ends_settled recoverable).
  { intros fd' d' s' Hs' Hl Hd Hk. rewrite decide_True by done.
    apply wp_bind, (wp_enter_stage Hs'); [by apply log_back_recoverable|]. intros s4 [<- <- Hi4 _ _ _ <- _].
    apply wp_ret. split; [done|]. left. split; [by right|]. by destruct Hl as (_ & _ & ? & _ & ?). }
  destruct fd; [|by apply wp_ret, (Hend _ _ _ Hs3)].
  apply (wp_open_writer _ Hs3); [by apply log_back_recoverable|]. intros s4 Hs4.
  apply (Hend _ _ _ Hs4); [|by destruct d3|by destruct d3].
  destruct Hl3 as ([?|?] & ? & Hh & Hb & ?); destruct d3; cbn in *; (split; [first [by left|by right]|]);
    (split; [done|]); (split; [done|]); (split; [|done]); intros Hx; by rewrite Hb.
Qed.

(** ** Finishing. *)
Lemma wp_delete_rollback_file {d m i st fd ca h s} {C : durable_prop} f (Q : Z -> CompressState -> Prop) :
  state_is d m i st fd ca h s -> C d m i h ->
  (forall s', state_is (set_file f None d) m i st fd ca h s' -> Q 0 s') ->
  wp (trunk_binlog_delete_rollback_file f) s Q C.
Proof using Type.
  intros Hs HC HQ. unfold trunk_binlog_delete_rollback_file.
  apply wp_bind, (wp_access Hs); [done|]. intros s1 Hs1.
  destruct (get_file f d) as [x|] eqn:E.
  - apply wp_bind, (wp_remove Hs1); [done|]. intros s2 e [-> | ->] Hs2; by apply wp_ret, HQ.
  - apply wp_ret, HQ. replace (set_file f None d) with d; [done|]. destruct f, d; cbn in *; by rewrite E.
Qed.

Lemma wp_delete_rollback_files {d m i st fd ca h s} {C : durable_prop} (Q : Z -> CompressState -> Prop) :
  state_is d m i st fd ca h s -> C d m i h -> C (set_file BinlogRollback None d) m i h ->
  (forall s', state_is (set_file DataRollback None (set_file BinlogRollback None d)) m i st fd ca h s' -> Q 0 s') ->
  wp (trunk_binlog_compress_delete_rollback_files true true) s Q C.
Proof using Type.
  intros Hs HC HC1 HQ. apply wp_bind, (wp_delete_rollback_file _ _ Hs); [done|]. intros s1 Hs1.
  rewrite decide_False by lia. apply (wp_delete_rollback_file _ _ Hs1); [done|]. done.
Qed.

Lemma new_log_set f d h : f <> Binlog -> new_log d h -> new_log (set_file f None d) h.
Proof using Type. by destruct f, d. Qed.

Lemma wp_delete_temp_files {d m i st fd ca h s} (Q : Z -> CompressState -> Prop) :
  state_is d m i st fd ca h s -> new_log d h -> committed i d ->
  (forall d' s', state_is d' m i st fd ca h s' -> new_log d' h -> committed i d' -> f_data d' = None -> Q 0 s') ->
  wp (trunk_binlog_compress_delete_temp_files_after_commit true true) s Q recoverable.
Proof using Type.
  intros Hs Hnew Hi HQ. apply wp_bind, (wp_remove Hs); [by apply Committed|]. intros s1 e He Hs1.
  set (d1 := set_file TrunkData None d) in Hs1.
  assert (Hd1 : new_log d1 h /\ committed i d1 /\ f_data d1 = None).
  { subst d1. split_and!; [by apply new_log_set| |by destruct d]. destruct Hi as [[? ?]|[?|[? ?]]]; [left|by right; left|by do 2 right; destruct d].
    by destruct d. }
  clearbody d1. destruct Hd1 as (Hn1 & Hi1 & He1).
  rewrite decide_False by (destruct He as [-> | ->]; cbn; lia).
  apply (wp_delete_rollback_files _ Hs1).
  - by apply Committed.
  - apply Committed; [by destruct d1|by apply new_log_set].
  - intros s2 Hs2. apply (HQ _ _ Hs2); [by do 2 (apply new_log_set; [done|])|by destruct d1|by destruct d1].
Qed.

Lemma wp_unlink_marks {d i st fd ca h} {C : durable_prop} (Q : Z -> CompressState -> Prop) l : forall m s,
  state_is d m i st fd ca h s -> (forall m', C d m' i h) ->
  (forall m' s', state_is d m' i st fd ca h s' -> (forall x, x ∈ m' -> x ∈ m /\ x ∉ l) -> Q 0 s') ->
  wp (unlink_marks l) s Q C.
Proof using Type.
  induction l as [|x l IH]; intros m s Hs HC HQ; cbn [unlink_marks].
  - apply wp_ret, (HQ _ _ Hs). intros x Hx. split; [done|]. apply not_elem_of_nil.
  - apply wp_bind, (wp_sys Hs); [done|]. intros s1 Hs1. apply wp_bind, wp_modify.
    apply (IH (base.filter (fun y => y <> x) m)); [|done|].
    + by destruct Hs1 as [? <- ? ? ? ? ? ?]; split.
    + intros m' s' Hs' Hm'. apply (HQ _ _ Hs'). intros y Hy. apply Hm' in Hy as [Hy Hl].
      apply list_elem_of_filter in Hy as [? ?]. split; [done|]. by rewrite not_elem_of_cons.
Qed.

Lemma wp_unlink_all_mark_files {d m i st fd ca h s} (Q : Z -> CompressState -> Prop) :
  state_is d m i st fd ca h s -> new_log d h -> committed i d ->
  (forall s', state_is d [] i st fd ca h s' -> Q 0 s') ->
  wp trunk_unlink_all_mark_files s Q recoverable.
Proof using Type.
  intros Hs Hnew Hi HQ. apply wp_bind, (wp_sys Hs); [by apply Committed|]. intros s1 Hs1.
  apply wp_bind, wp_gets. rewrite (is_marks _ _ _ _ _ _ _ _ Hs1).
  apply (wp_unlink_marks _ _ _ _ Hs1); [by intros; apply Committed|]. intros m2 s2 Hs2 Hm2. apply HQ.
  assert (m2 = []) as ->; [|done]. apply elem_of_nil_inv. intros x Hx. by destruct (Hm2 x Hx).
Qed.

Lemma wp_finish_recovery {d m i st fd ca h s} :
  state_is d m i st fd ca h s -> new_log d h -> committed i d -> f_data d = None ->
  wp finish_recovery s ends_settled recoverable.
Proof using Type.
  intros Hs Hnew Hi Hd. apply wp_bind, (wp_unlink_all_mark_files _ Hs); [done..|]. intros s1 Hs1.
  rewrite decide_True by done. apply (wp_enter_stage Hs1); [by apply Committed|].
  intros s2 [<- Hm Hi2 _ _ _ <- _]. split; [done|]. right. by rewrite Hm, Hi2.
Qed.

Lemma wp_check_merged {d m i st fd ca h s} {C : durable_prop} merging merged (Q : unit -> CompressState -> Prop) :
  state_is d m i st fd ca h s -> C d m i h ->
  (forall s', state_is d m i (if bool_decide (st = merging /\ f_tmp d = None) then merged else st) fd ca h s' -> Q tt s') ->
  wp (check_merged merging merged) s Q C.
Proof using Type.
  intros Hs HC HQ. apply wp_bind, wp_gets. rewrite (is_stage _ _ _ _ _ _ _ _ Hs).
  destruct (Z.eqb_spec st merging) as [E|E].
  - apply wp_bind, (wp_access Hs); [done|]. intros s1 Hs1. cbn [get_file].
    destruct (f_tmp d) eqn:Et.
    + apply wp_ret, HQ. rewrite bool_decide_false; [done|]. by intros [_ ?].
    + rewrite decide_True by done. apply wp_modify, HQ. rewrite bool_decide_true by done.
      by destruct Hs1; split.
  - apply wp_ret, HQ. rewrite bool_decide_false; [done|]. by intros [? _].
Qed.

(** A test on a known stage. *)
Ltac stage_if :=
  match goal with
  | |- wp (if ?b then _ else _) _ _ _ =>
      let v := eval vm_compute in b in replace b with v by (vm_compute; reflexivity); cbv iota
  end.

Lemma wp_recovery_rolls_back {d m i st fd h s} :
  state_is d m i st fd [] h s -> to_roll_back d m i h -> st = i ->
  wp (storage_trunk_binlog_compress_check_recovery fd_gets true true) s ends_settled recoverable.
Proof using HD0.
  intros Hs Hback ->. unfold storage_trunk_binlog_compress_check_recovery.
  apply wp_bind, wp_gets. rewrite (is_stage _ _ _ _ _ _ _ _ Hs).
  pose proof (to_roll_back_recoverable _ _ _ _ Hback) as Hrec. destruct (Hback) as (Hi & _).
  destruct Hi as [-> | [-> | [-> | [[-> | ->] Ht]]]]; stage_if.
  all: apply wp_bind, (wp_check_merged _ _ _ Hs); [done|]; intros s1 Hs1.
  all: rewrite bool_decide_false in Hs1 by (intros [??]; done).
  all: apply wp_bind, (wp_check_merged _ _ _ Hs1); [done|]; intros s2 Hs2.
  all: rewrite bool_decide_false in Hs2 by (intros [??]; done).
  all: apply wp_bind, wp_gets; rewrite (is_stage _ _ _ _ _ _ _ _ Hs2); stage_if; eapply wp_rollback; eauto.
Qed.

Lemma wp_recovery_rolled_back {d m i st fd h s} :
  state_is d m i st fd [] h s -> rolled_back i d -> f_binlog d = Some h -> data_kept d -> m = M0 -> st = i ->
  wp (storage_trunk_binlog_compress_check_recovery fd_gets true true) s ends_settled recoverable.
Proof using HD0.
  intros Hs Hi Hb Hd Hm ->. unfold storage_trunk_binlog_compress_check_recovery.
  apply wp_bind, wp_gets. rewrite (is_stage _ _ _ _ _ _ _ _ Hs).
  assert (Hrec : recoverable d m i h) by by apply RolledBack.
  assert (Hgo : forall st' s', state_is d m i st' fd [] h s' -> st' = STORAGE_TRUNK_COMPRESS_STAGE_ROLLBACK_MERGE_DONE ->
    wp (let* result := trunk_binlog_compress_delete_binlog_rollback_file true in
        if decide (result = 0) then trunk_binlog_compress_rollback fd_gets else kret result) s' ends_settled recoverable).
  { intros st' s' Hs' _. apply wp_bind, (wp_delete_rollback_file _ _ Hs'); [done|]. intros s1 Hs1.
    rewrite decide_True by done. apply (wp_rollback Hs1). right.
    split; [|by destruct d]. split; [by right; destruct Hi as [[? ?]|?]; [left; destruct d|right]|].
    destruct d; cbn in *; subst; auto. }
  destruct Hi as [[-> Ht] | ->]; stage_if.
  all: apply wp_bind, (wp_check_merged _ _ _ Hs); [done|]; intros s1 Hs1.
  all: rewrite bool_decide_false in Hs1 by (intros [??]; done).
  all: apply wp_bind, (wp_check_merged _ _ _ Hs1); [done|]; intros s2 Hs2.
  all: first [rewrite bool_decide_true in Hs2 by done | rewrite bool_decide_false in Hs2 by (intros [??]; done)].
  all: apply wp_bind, wp_gets; rewrite (is_stage _ _ _ _ _ _ _ _ Hs2); do 2 stage_if; by apply (Hgo _ _ Hs2).
Qed.

Lemma wp_recovery_committed {d m i st fd h s} :
  state_is d m i st fd [] h s -> committed i d -> new_log d h -> st = i ->
  wp (storage_trunk_binlog_compress_check_recovery fd_gets true true) s ends_settled recoverable.
Proof using Type.
  intros Hs Hi Hnew ->. unfold storage_trunk_binlog_compress_check_recovery.
  apply wp_bind, wp_gets. rewrite (is_stage _ _ _ _ _ _ _ _ Hs).
  assert (Hrec : recoverable d m i h) by by apply Committed.
  assert (Hgo : forall st' s', state_is d m i st' fd [] h s' ->
    wp (let* result := trunk_binlog_compress_delete_temp_files_after_commit true true in
        if decide (result <> 0) then kret result else finish_recovery) s' ends_settled recoverable).
  { intros st' s' Hs'. apply wp_bind, (wp_delete_temp_files _ Hs'); [done..|]. intros d1 s1 Hs1 Hn1 Hi1 Hd1.
    rewrite decide_False by lia. by apply (wp_finish_recovery Hs1). }
  destruct (Hi) as [[-> Ht] | [-> | [-> Hd]]]; stage_if.
  all: apply wp_bind, (wp_check_merged _ _ _ Hs); [done|]; intros s1 Hs1.
  all: first [rewrite bool_decide_true in Hs1 by done | rewrite bool_decide_false in Hs1 by (intros [??]; done)].
  all: apply wp_bind, (wp_check_merged _ _ _ Hs1); [done|]; intros s2 Hs2.
  all: rewrite bool_decide_false in Hs2 by (intros [??]; done).
  all: apply wp_bind, wp_gets; rewrite (is_stage _ _ _ _ _ _ _ _ Hs2); do 3 stage_if.
  1,2: by apply (Hgo _ _ Hs2).
  stage_if. by apply (wp_finish_recovery Hs2).
Qed.

Lemma wp_recovery {d m i fd h s} :
  state_is d m i i fd [] h s -> recoverable d m i h ->
  wp (storage_trunk_binlog_compress_check_recovery fd_gets true true) s ends_settled recoverable.
Proof using HD0.
  intros Hs Hrec.
  assert (Hidle : idle i -> settled d m i h ->
    wp (storage_trunk_binlog_compress_check_recovery fd_gets true true) s ends_settled recoverable).
  { intros Hi Hset. apply wp_bind, wp_gets. rewrite (is_stage _ _ _ _ _ _ _ _ Hs).
    destruct Hi as [-> | ->]; stage_if; apply wp_ret; (split; [done|]); by apply (durable_is Hs). }
  destruct Hrec as [[Hi H]|? ? ? ?|? ? ? ?|? ?|[-> H]].
  - apply Hidle; [done|]. by left.
  - by apply (wp_recovery_rolls_back Hs).
  - by apply (wp_recovery_rolled_back Hs).
  - by apply (wp_recovery_committed Hs).
  - apply Hidle; [by right|]. by right.
Qed.

(** ** Compressing. *)

(** The log and the snapshot are set aside; the binlog has the records since. *)
Definition set_aside (d : TrunkDir) (h : bytes) : Prop :=
  f_rollback d = Some H1 /\ f_data_rollback d = Some (default [] D0)
  /\ exists b, f_binlog d = Some b /\ h = H1 ++ b.

Lemma set_aside_recoverable d i h :
  set_aside d h -> rolls_back i d -> recoverable d M0 i h.
Proof using Type.
  intros (Hr & Hd & b & Hb & ->) Hi. apply RollsBack; [done| |by right|done]. by rewrite Hr, Hb.
Qed.

Lemma rolls_back_set i f x d : f <> BinlogTmp -> rolls_back i d -> rolls_back i (set_file f x d).
Proof using Type. by destruct f, d. Qed.

Lemma set_aside_more d h b x : set_aside d h -> f_binlog d = Some b -> set_aside (set_file Binlog (Some (b ++ x)) d) (h ++ x).
Proof using Type.
  intros (Hr & Hd & b' & Hb & ->) Hb'. destruct d; cbn in *; subst. injection Hb' as <-.
  split_and!; [done..|]. exists (b' ++ x). by rewrite app_assoc.
Qed.

Lemma wp_other_writes {d i st ca h s} w (Q : unit -> CompressState -> Prop) :
  state_is d M0 i st true ca h s -> set_aside d h -> rolls_back i d ->
  (forall d' ca' h' s', state_is d' M0 i st true ca' h' s' -> set_aside d' h' -> rolls_back i d' ->
    h' ++ ca' = h ++ ca ++ w.1 -> f_data d' = f_data d -> Q tt s') ->
  wp (other_writes w) s Q recoverable.
Proof using Type.
  intros Hs Hd Hi HQ. apply wp_bind, wp_modify. rewrite (is_cache _ _ _ _ _ _ _ _ Hs).
  apply (state_is_set_log_cache (ca ++ w.1) (trunk_binlog_write_version s)) in Hs.
  destruct (w.2); [|by apply wp_ret, (HQ _ _ _ _ Hs)].
  destruct (Hd) as (_ & _ & b & Hb & _). apply wp_bind, (wp_fsync Hb _ Hs).
  - intros n. apply set_aside_recoverable; [by apply set_aside_more|by apply rolls_back_set].
  - intros s1 Hs1. apply wp_ret, (HQ _ _ _ _ Hs1); [by apply set_aside_more|by apply rolls_back_set| |by destruct d].
    by rewrite app_nil_r.
Qed.

Context (Hgets : forall l rest, 10 ∉ l -> (length l + 1 < 32)%nat -> fd_gets 32 ((l ++ [10]) ++ rest) = S (length l)).

Definition snapshot_of (d : TrunkDir) : Prop :=
  exists x, f_data d = Some x /\ drop (fd_gets 32 x) x = lines.

Lemma wp_save_snapshot {d i st ca h s} (Q : Z -> CompressState -> Prop) :
  state_is d M0 i st true ca h s -> set_aside d h -> rolls_back i d ->
  Z.of_nat (length (h ++ ca)) < 2 ^ 63 ->
  (forall d' ca' h' s', state_is d' M0 i st true ca' h' s' -> set_aside d' h' -> rolls_back i d' -> snapshot_of d' -> Q 0 s') ->
  wp (save_snapshot lines) s Q recoverable.
Proof using Hgets.
  intros Hs Hd Hi Hsize HQ. destruct (Hd) as (_ & _ & b & Hb & Hh). apply wp_bind, (wp_fsync Hb _ Hs).
  { intros n. apply set_aside_recoverable; [by apply set_aside_more|by apply rolls_back_set]. }
  intros s1 Hs1. set (d1 := set_file Binlog (Some (b ++ ca)) d) in Hs1.
  assert (Hd1 : set_aside d1 (h ++ ca)) by by apply set_aside_more.
  assert (Hi1 : rolls_back i d1) by by apply rolls_back_set.
  assert (Hb1 : f_binlog d1 = Some (b ++ ca)) by by destruct d. clearbody d1.
  pose proof (set_aside_recoverable _ _ _ Hd1 Hi1) as Hrec.
  apply wp_bind, (wp_sys Hs1); [done|]. intros s2 Hs2. apply wp_bind, wp_gets.
  rewrite (is_dir _ _ _ _ _ _ _ _ Hs2), Hb1. change (default [] (Some (b ++ ca))) with (b ++ ca).
  apply wp_bind, (wp_sys Hs2); [done|]. intros s3 Hs3. apply wp_bind, (wp_sys Hs3); [done|]. intros s4 Hs4.
  apply wp_bind, wp_modify, wp_ret.
  eapply (HQ (set_file TrunkData (Some ((fmt_d (Z.of_nat (length (b ++ ca))) ++ [10]) ++ lines)) d1)).
  - destruct Hs4 as [-> ? ? ? ? ? ? ?]. by split.
  - by destruct d1.
  - by apply rolls_back_set.
  - eexists. split; [by destruct d1|]. rewrite Hgets; [|by apply fmt_no|].
    + replace (S (length (fmt_d (Z.of_nat (length (b ++ ca))))))
        with (length (fmt_d (Z.of_nat (length (b ++ ca))) ++ [10])) by (rewrite length_app; cbn; lia).
      by rewrite drop_app_length.
    + rewrite Hh, !length_app in Hsize. rewrite length_app.
      unfold fmt_d. rewrite (proj2 (Z.ltb_ge _ 0)) by lia.
      pose proof (fmt_u_length 10 (Z.of_nat (length b + length ca)) 19 ltac:(lia)). lia.
Qed.

Lemma wp_commit {d st ca h s} (Q : Z -> CompressState -> Prop) :
  state_is d M0 STORAGE_TRUNK_COMPRESS_STAGE_SAVE_DONE st true ca h s ->
  set_aside d h -> snapshot_of d ->
  (forall d' ca' h' s' i', state_is d' M0 i' i' true ca' h' s' -> new_log d' h' -> committed i' d' -> f_data d' = None -> Q 0 s') ->
  wp (trunk_binlog_compress_commit fd_gets true true) s Q recoverable.
Proof using Type.
  intros Hs Hd (x & Hx & Hl) HQ. assert (Hi : rolls_back STORAGE_TRUNK_COMPRESS_STAGE_SAVE_DONE d) by (do 2 right; by left).
  apply wp_bind, wp_gets. rewrite (is_fd _ _ _ _ _ _ _ _ Hs).
  apply wp_bind. unfold trunk_binlog_open_read. apply wp_bind, (wp_open_read Hs); [by apply set_aside_recoverable|].
  intros s1 Hs1. cbn [get_file]. rewrite Hx, Hl. apply wp_ret. destruct (Hd) as (_ & _ & b & Hb & Hh).
  apply wp_bind, (wp_close Hb _ _ Hs1); [done| |].
  { intros n. apply set_aside_recoverable; [by apply set_aside_more|by apply rolls_back_set]. }
  intros s2 Hs2. set (d2 := set_file _ _ _) in Hs2.
  assert (Hd2 : set_aside d2 (h ++ ca)) by by apply set_aside_more.
  assert (Hb2 : f_binlog d2 = Some (b ++ ca)) by by destruct d. clearbody d2.
  assert (Hany : forall y i, rolls_back i (set_file BinlogTmp (Some y) d2) ->
    recoverable (set_file BinlogTmp (Some y) d2) M0 i (h ++ ca)).
  { intros y i. apply set_aside_recoverable. by destruct d2. }
  apply wp_bind, (wp_merge_file _ _ _ (lines ++ b ++ ca) Hs2).
  { by rewrite Hb2. }
  { apply set_aside_recoverable; [done|]. do 2 right. by left. }
  { intros y. apply Hany. do 2 right. by left. }
  { apply Hany. do 3 right. split; [by left|by destruct d2]. }
  intros s3 Hs3. set (d3 := set_file Binlog _ _) in Hs3. rewrite decide_False by lia.
  assert (Hn3 : new_log d3 (h ++ ca)).
  { exists (b ++ ca). rewrite Hh, app_assoc. by destruct d2. }
  assert (Ht3 : f_tmp d3 = None) by by destruct d2. clearbody d3.
  apply wp_bind, (wp_enter_stage Hs3); [by apply Committed; [left|]|]. intros s4 Hs4.
  apply wp_bind, (wp_delete_temp_files _ Hs4); [done|by right; left|]. intros d5 s5 Hs5 Hn5 Hi5 He5.
  rewrite decide_False by lia. apply wp_bind, (wp_enter_stage Hs5); [by apply Committed|]. intros s6 Hs6.
  assert (Hi6 : committed STORAGE_TRUNK_COMPRESS_STAGE_COMPRESS_SUCCESS d5) by (by do 2 right).
  apply (wp_open_writer _ Hs6); [by apply Committed|]. intros s7 Hs7.
  destruct Hn5 as (tail & Ht & Hb5). rewrite Hb5 in Hs7.
  change (default [] (Some (lines ++ tail))) with (lines ++ tail) in Hs7. rewrite set_binlog_id in Hs7 by done.
  apply (HQ _ _ _ _ _ Hs7); [by exists tail|done|done].
Qed.

(** Setting the snapshot aside, then the log. *)
Lemma wp_apply {d st ca h s} (Q : Z -> CompressState -> Prop) :
  state_is d M0 STORAGE_TRUNK_COMPRESS_STAGE_COMPRESS_BEGIN st true ca h s ->
  f_binlog d = Some h -> f_data d = D0 -> f_rollback d = None -> f_data_rollback d = None -> H1 = h ++ ca ->
  (forall d' s', state_is d' M0 STORAGE_TRUNK_COMPRESS_STAGE_COMPRESS_BEGIN st true [] H1 s' -> set_aside d' H1 -> Q 0 s') ->
  wp (trunk_binlog_compress_apply true true) s Q recoverable.
Proof using HD0.
  intros Hs Hb HD Hr Hdr HH HQ.
  assert (Hi : forall d', rolls_back STORAGE_TRUNK_COMPRESS_STAGE_COMPRESS_BEGIN d') by by left.
  assert (Hin : forall n, recoverable (set_file Binlog (Some (h ++ take n ca)) d) M0
      STORAGE_TRUNK_COMPRESS_STAGE_COMPRESS_BEGIN (h ++ take n ca)).
  { intros n. apply RollsBack; [apply Hi| |left|done]; destruct d; cbn in *; by subst. }
  apply wp_bind, (wp_access Hs).
  { specialize (Hin 0%nat). rewrite take_0, app_nil_r, set_binlog_id in Hin; done. }
  intros s1 Hs1. cbn [get_file]. rewrite Hb. apply wp_bind, wp_gets. rewrite (is_fd _ _ _ _ _ _ _ _ Hs1).
  apply wp_bind, (wp_close Hb _ _ Hs1); [done..|]. intros s2 Hs2. rewrite <- HH in Hs2.
  set (d2 := set_file Binlog (Some H1) d) in Hs2.
  assert (Hd2 : f_binlog d2 = Some H1 /\ f_data d2 = D0 /\ f_rollback d2 = None /\ f_data_rollback d2 = None) by by destruct d.
  clearbody d2. clear d Hb HD Hr Hdr Hin Hs Hs1. destruct Hd2 as (Hb & HD & Hr & Hdr).
  assert (Hrec : recoverable d2 M0 STORAGE_TRUNK_COMPRESS_STAGE_COMPRESS_BEGIN H1).
  { apply RollsBack; [apply Hi|by rewrite Hr, Hb|by left|done]. }
  assert (Hrest : forall d3 s3, state_is d3 M0 STORAGE_TRUNK_COMPRESS_STAGE_COMPRESS_BEGIN st false [] H1 s3 ->
      f_binlog d3 = Some H1 -> f_rollback d3 = None -> f_data_rollback d3 = Some (default [] D0) ->
      wp (let* result := (let* result := trunk_binlog_rename_file Binlog BinlogRollback in
             if decide (result <> 0) then trunk_compress_rollback_data_file ;; kret result else kret 0) in
          let* open_res := trunk_binlog_open_writer in
          if decide (open_res <> 0) then
            trunk_binlog_rename_file BinlogRollback Binlog ;;
            trunk_compress_rollback_data_file ;;
            kret (if decide (result = 0) then open_res else result)
          else kret result) s3 Q recoverable).
  { intros d3 s3 Hs3 Hb3 Hr3 Hd3.
    assert (Hrec3 : recoverable d3 M0 STORAGE_TRUNK_COMPRESS_STAGE_COMPRESS_BEGIN H1).
    { apply RollsBack; [apply Hi|by rewrite Hr3, Hb3|by right|done]. }
    apply wp_bind, wp_bind, wp_bind, (wp_access Hs3); [done|]. intros s4 Hs4. cbn [get_file]. rewrite Hb3.
    apply wp_bind, (wp_rename Hs4); [done|]. intros s5. cbn [get_file]. rewrite Hb3. intros Hs5.
    apply wp_ret. rewrite decide_False by lia. apply wp_ret, wp_bind, (wp_open_writer _ Hs5).
    { apply RollsBack; [apply Hi| |by right; destruct d3|done]. destruct d3; cbn. by rewrite app_nil_r. }
    intros s6 Hs6. rewrite decide_False by lia. apply wp_ret, (HQ _ _ Hs6).
    split; [by destruct d3|]. split; [by destruct d3|]. exists []. rewrite app_nil_r. by destruct d3. }
  apply wp_bind, wp_bind, (wp_access Hs2); [done|]. intros s3 Hs3. cbn [get_file]. rewrite HD.
  destruct D0 as [x|] eqn:ED.
  - apply wp_bind, (wp_rename Hs3); [done|]. intros s4. cbn [get_file]. rewrite HD. intros Hs4.
    apply wp_ret. rewrite decide_False by done. apply wp_bind, wp_ret. cbv beta. rewrite decide_False by lia.
    by apply (Hrest _ _ Hs4); destruct d2.
  - apply wp_ret. rewrite decide_True by done. apply wp_bind, (wp_writeToFile Hs3); [done|]. intros s4 Hs4.
    rewrite decide_False by lia. by apply (Hrest _ _ Hs4); destruct d2.
Qed.

Definition compressed_or_unchanged (starts : Prop) (r : Z) (s : CompressState) : Prop :=
  durable settled s /\ (starts -> r = 0) /\ (r = 0 -> durable finished s).

(** Nothing stands in the way of a compression. *)
Definition starts (uptime : Z) (busy : bool) (s : CompressState) : Prop :=
  600 <= uptime /\ trunk_binlog_write_version s <> last_write_version s /\ busy = false.

Lemma wp_compress_steps {d i st ca h s} now w1 w2 (Q : Z -> CompressState -> Prop) :
  state_is d M0 i st true ca h s -> idle i ->
  f_binlog d = Some h -> f_data d = D0 -> H1 = h ++ ca ->
  Z.of_nat (length (H1 ++ w1.1)) < 2 ^ 63 ->
  (forall d' ca' h' s' i', state_is d' [] i' i' true ca' h' s' -> new_log d' h' -> committed i' d' -> f_data d' = None -> Q 0 s') ->
  wp (compress_steps fd_gets true true now w1 w2 lines) s Q recoverable.
Proof using HD0 Hgets.
  intros Hs Hi Hb HD HH Hsize HQ. unfold compress_steps. apply wp_bind, wp_gets, wp_bind.
  assert (Hun : forall d', f_binlog d' = Some h -> f_data d' = D0 -> recoverable d' M0 i h).
  { intros d' Hb' Hd'. apply Undone. split; [done|]. split_and!; [by rewrite Hb'|done..]. }
  apply (wp_delete_rollback_files _ Hs); [by apply Hun|by apply Hun; destruct d|]. intros s1 Hs1.
  set (d1 := set_file DataRollback _ _) in Hs1.
  assert (Hd1 : f_binlog d1 = Some h /\ f_data d1 = D0 /\ f_rollback d1 = None /\ f_data_rollback d1 = None) by by destruct d.
  clearbody d1. destruct Hd1 as (Hb1 & HD1 & Hr1 & Hdr1). rewrite decide_False by lia.
  apply wp_bind, (wp_enter_stage Hs1); [by apply Hun|]. intros s2 Hs2.
  apply wp_bind, (wp_apply _ Hs2); [done..|]. intros d3 s3 Hs3 Ha3. rewrite decide_False by lia.
  apply wp_bind, (wp_enter_stage Hs3); [by apply set_aside_recoverable; [|left]|]. intros s4 Hs4.
  apply wp_bind, (wp_other_writes _ _ Hs4); [done|by right; left|]. intros d5 ca5 h5 s5 Hs5 Ha5 Hi5 H5 _.
  apply wp_bind, (wp_save_snapshot _ Hs5); [done|done|by rewrite H5|].
  intros d6 ca6 h6 s6 Hs6 Ha6 Hi6 Hn6. rewrite decide_False by lia.
  apply wp_bind, (wp_enter_stage Hs6); [by apply set_aside_recoverable|]. intros s7 Hs7.
  apply wp_bind, (wp_other_writes _ _ Hs7); [done|by do 2 right; left|]. intros d8 ca8 h8 s8 Hs8 Ha8 _ _ E8.
  assert (Hn8 : snapshot_of d8) by (unfold snapshot_of; by rewrite E8).
  apply wp_bind, (wp_commit _ Hs8); [done..|]. intros d9 ca9 h9 s9 i9 Hs9 Hn9 Hi9 He9. rewrite decide_False by lia.
  apply wp_bind, wp_modify.
  assert (Hs10 : state_is d9 M0 i9 i9 true ca9 h9 (set_compressed (trunk_binlog_write_version s) now s9)).
  { destruct Hs9. by split. }
  apply (wp_unlink_all_mark_files _ Hs10); [done..|]. intros s11 Hs11. by apply (HQ _ _ _ _ _ Hs11).
Qed.

(** [storage_trunk_compress] compresses, or does nothing. *)
Lemma wp_compress {d i ca h s} uptime now busy w1 w2 (Q : Z -> CompressState -> Prop) :
  state_is d M0 i i true ca h s -> idle i ->
  f_binlog d = Some h -> f_data d = D0 -> H1 = h ++ ca ->
  Z.of_nat (length (H1 ++ w1.1)) < 2 ^ 63 ->
  (uptime < 600 \/ trunk_binlog_write_version s = last_write_version s \/ busy = true -> forall r, r <> 0 -> Q r s) ->
  (forall d' ca' h' s' i', state_is d' [] i' i' true ca' h' s' -> new_log d' h' -> committed i' d' -> f_data d' = None -> Q 0 s') ->
  wp (storage_trunk_compress fd_gets true true uptime now busy w1 w2 lines) s Q recoverable.
Proof using HD0 Hgets.
  intros Hs Hi Hb HD HH Hsize Hno HQ. apply wp_bind, wp_gets. rewrite (is_stage _ _ _ _ _ _ _ _ Hs).
  replace (_ || _) with true by (by destruct Hi as [-> | ->]). cbv beta iota delta [negb].
  destruct (Z.ltb_spec uptime 600); [by apply wp_ret, Hno; [left|]|]. apply wp_bind, wp_gets.
  destruct (Z.eqb_spec (trunk_binlog_write_version s) (last_write_version s)); [by apply wp_ret, Hno; [right; left|]|].
  destruct busy; [by apply wp_ret, Hno; [do 2 right|]|].
  apply wp_bind, (wp_compress_steps _ _ _ _ Hs); [done..|]. intros d1 ca1 h1 s1 i1 Hs1 Hn1 Hi1 He1.
  apply wp_bind, wp_gets. rewrite decide_False by (intros [? _]; done). by apply wp_ret, (HQ _ _ _ _ _ Hs1).
Qed.

(** [trunk_binlog_compress_func] enters the stage FINISHED then. *)
Lemma wp_compress_func {d i ca h s} uptime now busy w1 w2 :
  state_is d M0 i i true ca h s -> idle i -> c_trunker_self s = true ->
  f_binlog d = Some h -> f_data d = D0 -> H1 = h ++ ca ->
  Z.of_nat (length (H1 ++ w1.1)) < 2 ^ 63 ->
  wp (trunk_binlog_compress_func fd_gets true true uptime now busy w1 w2 lines) s
    (compressed_or_unchanged (starts uptime busy s)) recoverable.
Proof using HD0 Hgets.
  intros Hs Hi Hself Hb HD HH Hsize. apply wp_bind, wp_gets. rewrite Hself. cbv beta iota delta [negb].
  apply wp_bind, (wp_compress _ _ _ _ _ _ Hs); [done..| |].
  - intros Hno r Hr. rewrite decide_True by done. apply wp_ret. split; [|split; [|done]].
    2: { intros (? & ? & ->). naive_solver lia. }
    apply (durable_is Hs). left. split; [done|]. by split_and!; [rewrite Hb| |].
  - intros d1 ca1 h1 s1 i1 Hs1 Hn1 Hi1 He1. rewrite decide_False by lia.
    apply (wp_enter_stage Hs1); [by apply Committed|]. intros s2 Hs2.
    assert (Hf : durable finished s2) by (by apply (durable_is Hs2)). by split; [right|].
Qed.
End recovery.

(** ** Crashes and restarts. *)

(** Without crashes a computation returns. *)
Definition total {A} (c : K A) : Prop :=
  forall s, c_outcomes s = [] -> exists a s', c s = (Some a, s') /\ c_outcomes s' = [].

Lemma total_bind {A B} (c : K A) (k : A -> K B) : total c -> (forall a, total (k a)) -> total (kbind c k).
Proof.
  intros Hc Hk s Hs. destruct (Hc s Hs) as (a & s1 & E & Hs1). unfold kbind. rewrite E. by apply Hk.
Qed.

Lemma total_ret {A} (a : A) : total (kret a).
Proof. intros s Hs. by exists a, s. Qed.

Lemma total_gets {A} (f : CompressState -> A) : total (kgets f).
Proof. intros s Hs. by exists (f s), s. Qed.

Lemma total_modify f : (forall s, c_outcomes (f s) = c_outcomes s) -> total (kmodify f).
Proof. intros Hf s Hs. exists tt, (f s). split; [done|]. by rewrite Hf. Qed.

Lemma total_sys : total sys.
Proof. intros s Hs. exists None, s. unfold sys. by rewrite Hs. Qed.

Lemma total_write f b : total (sys_write f b).
Proof. intros s Hs. unfold sys_write. rewrite Hs. exists None, (extend f b s). by destruct f. Qed.

Create HintDb total.
#[local] Hint Resolve total_ret total_gets total_sys total_write : total.

Ltac total_head t := lazymatch t with ?f _ => total_head f | _ => t end.
Ltac total_step :=
  match goal with
  | |- total (kbind _ _) => apply total_bind; [|intros ?]
  | |- total (kmodify _) => apply total_modify; intros ?; reflexivity
  | |- total (match ?x with _ => _ end) => destruct x
  | |- total (let _ := _ in _) => cbv zeta
  | |- _ => solve [auto with total]
  | |- total ?t => let h := total_head t in unfold h
  end.
Ltac total_solve := repeat total_step.

Lemma total_copy_loop n : forall content, total (copy_loop n content).
Proof. induction n as [|n IH]; intros content; cbn [copy_loop]; total_solve. Qed.

Lemma total_unlink_marks l : total (unlink_marks l).
Proof. induction l as [|x l IH]; cbn [unlink_marks]; total_solve. Qed.

#[local] Hint Resolve total_copy_loop total_unlink_marks : total.

Lemma total_rollback fd_gets : total (trunk_binlog_compress_rollback fd_gets).
Proof. total_solve. Qed.

#[local] Hint Resolve total_rollback : total.

Lemma total_recovery fd_gets b1 b2 : total (storage_trunk_binlog_compress_check_recovery fd_gets b1 b2).
Proof. total_solve. Qed.

Lemma total_commit fd_gets b1 b2 : total (trunk_binlog_compress_commit fd_gets b1 b2).
Proof. total_solve. Qed.

Lemma total_apply b1 b2 : total (trunk_binlog_compress_apply b1 b2).
Proof. total_solve. Qed.

#[local] Hint Resolve total_commit total_apply : total.

Lemma total_compress_func fd_gets b1 b2 uptime now busy w1 w2 lines :
  total (trunk_binlog_compress_func fd_gets b1 b2 uptime now busy w1 w2 lines).
Proof. total_solve. Qed.

Lemma total_wp {A} (c : K A) s Q C : total c -> c_outcomes s = [] -> wp c s Q C -> exists a s', c s = (Some a, s') /\ Q a s'.
Proof. intros Hc Hs Hwp. destruct (Hc s Hs) as (a & s' & E & _). exists a, s'. unfold wp in Hwp. by rewrite E in *. Qed.

Lemma recoverable_open_binlog D0 M0 H1 lines d m i h :
  recoverable D0 M0 H1 lines d m i h ->
  recoverable D0 M0 H1 lines (set_file Binlog (Some (default [] (f_binlog d))) d) m i h.
Proof.
  destruct d as [b t r x y]. intros [[Hi H]|? Hh ? ?|? Hb ? ?|? (tail & ? & Hb)|[-> ((tail & ? & Hb) & ? & ?)]]; cbn in *.
  - by apply Undone.
  - by apply RollsBack.
  - rewrite Hb in *. by apply RolledBack.
  - rewrite Hb in *. apply Committed; [done|by exists tail].
  - rewrite Hb in *. apply Finished. split; [done|]. split; [by exists tail|done].
Qed.

(** A trunk server about to compress: the binlog has every record that was
    flushed, and no compression is under way. *)
Record can_compress (s : CompressState) : Prop := {
  cc_log : f_binlog (c_dir s) = Some (c_history s);
  cc_data : f_data (c_dir s) <> Some [];
  cc_open : trunk_binlog_fd s = true;
  cc_idle : idle (c_ini_stage s);
  cc_stage : g_trunk_binlog_compress_stage s = c_ini_stage s;
  cc_self : c_trunker_self s = true;
}.

Section crashes.
Context (fd_gets : Z -> bytes -> nat).
Context (Hgets : forall l rest, 10 ∉ l -> (length l + 1 < 32)%nat -> fd_gets 32 ((l ++ [10]) ++ rest) = S (length l)).
Context (uptime now : Z) (busy : bool) (w1 w2 : bytes * bool) (lines : bytes) (s0 : CompressState).
Context (Hs0 : can_compress s0).

(** The records logged before the compression and by the other threads fit in a file. *)
Context (Hsize : Z.of_nat (length ((c_history s0 ++ trunk_binlog_write_cache s0) ++ w1.1)) < 2 ^ 63).

(** What a run of the compression and any number of recoveries, each but the
    last cut short by a crash, can leave on the disk. *)
Inductive after_crash : CompressState -> Prop :=
  | crash_in_compress os s :
      only_crashes os ->
      trunk_binlog_compress_func fd_gets true true uptime now busy w1 w2 lines (set_outcomes os s0) = (None, s) ->
      after_crash s
  | crash_in_recovery s opened os s' :
      after_crash s -> only_crashes os ->
      storage_trunk_binlog_compress_check_recovery fd_gets true true (reboot opened os s) = (None, s') ->
      after_crash s'.

(** The old snapshot, marks and log, every record included; or the compressed
    log: the lines of the snapshot, then the records since the compression
    began. *)
Definition old_or_new (s : CompressState) : Prop :=
  (idle (c_ini_stage s) /\ f_data (c_dir s) = f_data (c_dir s0) /\ c_marks s = c_marks s0
   /\ default [] (f_binlog (c_dir s)) = c_history s) \/
  (c_ini_stage s = STORAGE_TRUNK_COMPRESS_STAGE_FINISHED /\ f_data (c_dir s) = None /\ c_marks s = [] /\
   exists tail, c_history s = (c_history s0 ++ trunk_binlog_write_cache s0) ++ tail /\ f_binlog (c_dir s) = Some (lines ++ tail)).

Abbreviation recoverable' :=
  (recoverable (f_data (c_dir s0)) (c_marks s0) (c_history s0 ++ trunk_binlog_write_cache s0) lines).
Abbreviation settled' :=
  (settled (f_data (c_dir s0)) (c_marks s0) (c_history s0 ++ trunk_binlog_write_cache s0) lines).

Lemma settled_old_or_new s : durable settled' s -> old_or_new s.
Proof using Type.
  intros [[Hi (Hb & Hd & Hm)]|(Hi & Hn & Hd & Hm)]; [left|right]; done.
Qed.

Lemma reboot_is opened os s :
  only_crashes os -> durable recoverable' s ->
  exists d, state_is d (c_marks s) (c_ini_stage s) (c_ini_stage s) opened [] (c_history s) (reboot opened os s)
    /\ recoverable' d (c_marks s) (c_ini_stage s) (c_history s).
Proof using Type.
  intros Hos Hrec. exists (c_dir (reboot opened os s)). split; [by split|].
  destruct opened; cbn; [by apply recoverable_open_binlog|done].
Qed.

Lemma compress_wp os :
  only_crashes os ->
  wp (trunk_binlog_compress_func fd_gets true true uptime now busy w1 w2 lines) (set_outcomes os s0)
    (compressed_or_unchanged (f_data (c_dir s0)) (c_marks s0) (c_history s0 ++ trunk_binlog_write_cache s0) lines (starts uptime busy s0))
    recoverable'.
Proof using Hgets Hs0 Hsize.
  intros Hos. destruct Hs0.
  apply (wp_compress_func (d := c_dir s0) (i := c_ini_stage s0) (ca := trunk_binlog_write_cache s0) (h := c_history s0)
    (s := set_outcomes os s0) fd_gets _ _ _ _ cc_data0 Hgets uptime now busy w1 w2); by try split.
Qed.

Lemma recovery_wp opened os s :
  only_crashes os -> durable recoverable' s ->
  wp (storage_trunk_binlog_compress_check_recovery fd_gets true true) (reboot opened os s)
    (fun r s' => r = 0 /\ durable settled' s') recoverable'.
Proof using Hs0.
  intros Hos Hrec. destruct (reboot_is opened os s Hos Hrec) as (d & Hd & Hr). destruct Hs0.
  by apply (wp_recovery fd_gets _ _ _ _ cc_data0 Hd).
Qed.

Lemma after_crash_recoverable s : after_crash s -> durable recoverable' s.
Proof using Hgets Hs0 Hsize.
  induction 1 as [os s Hos E|s opened os s' _ IH Hos E].
  - pose proof (compress_wp os Hos) as H. unfold wp in H. by rewrite E in H.
  - pose proof (recovery_wp opened os s Hos IH) as H. unfold wp in H. by rewrite E in H.
Qed.
End crashes.

(** C19: Whatever crashes cut short a compression of the trunk binlog and the
    recoveries that follow, a recovery that completes leaves either the old
    snapshot with the binlog of every record ever written to the log, or the compressed
    binlog: the lines of the new snapshot followed by every record written
    since the compression began. *)
Theorem compress_crash_safe fd_gets uptime now busy w1 w2 lines s0 s opened os r s' :
  (forall l rest, 10 ∉ l -> (length l + 1 < 32)%nat -> fd_gets 32 ((l ++ [10]) ++ rest) = S (length l)) ->
  can_compress s0 ->
  Z.of_nat (length ((c_history s0 ++ trunk_binlog_write_cache s0) ++ w1.1)) < 2 ^ 63 ->
  after_crash fd_gets uptime now busy w1 w2 lines s0 s ->
  only_crashes os ->
  storage_trunk_binlog_compress_check_recovery fd_gets true true (reboot opened os s) = (Some r, s') ->
  r = 0 /\ old_or_new lines s0 s'.
Proof.
  intros Hgets Hs0 Hsize Hcrash Hos E.
  pose proof (after_crash_recoverable _ Hgets _ _ _ _ _ _ _ Hs0 Hsize _ Hcrash) as Hrec.
  pose proof (recovery_wp fd_gets lines s0 Hs0 opened os s Hos Hrec) as H. unfold wp in H. rewrite E in H.
  destruct H as [Hr H]. split; [done|]. by apply settled_old_or_new.
Qed.

(** C20: A recovery that no crash interrupts completes, whatever crashes came
    before it. *)
Theorem compress_recovery_completes fd_gets uptime now busy w1 w2 lines s0 s opened :
  (forall l rest, 10 ∉ l -> (length l + 1 < 32)%nat -> fd_gets 32 ((l ++ [10]) ++ rest) = S (length l)) ->
  can_compress s0 ->
  Z.of_nat (length ((c_history s0 ++ trunk_binlog_write_cache s0) ++ w1.1)) < 2 ^ 63 ->
  after_crash fd_gets uptime now busy w1 w2 lines s0 s ->
  exists s', storage_trunk_binlog_compress_check_recovery fd_gets true true (reboot opened [] s) = (Some 0, s')
    /\ old_or_new lines s0 s'.
Proof.
  intros Hgets Hs0 Hsize Hcrash.
  pose proof (after_crash_recoverable _ Hgets _ _ _ _ _ _ _ Hs0 Hsize _ Hcrash) as Hrec.
  destruct (total_wp _ (reboot opened [] s) _ _ (total_recovery fd_gets true true) eq_refl
    (recovery_wp fd_gets lines s0 Hs0 opened [] s (Forall_nil_2 _) Hrec)) as (r & s' & E & -> & H).
  exists s'. split; [done|]. by apply settled_old_or_new.
Qed.

(** C21: A compression that no crash or failure interrupts replaces the binlog by
    the lines of the snapshot followed by the records written since it began,
    removes the snapshot and the marks, and enters the stage FINISHED. *)
Theorem trunk_binlog_compress_func_correct fd_gets uptime now busy w1 w2 lines s0 :
  (forall l rest, 10 ∉ l -> (length l + 1 < 32)%nat -> fd_gets 32 ((l ++ [10]) ++ rest) = S (length l)) ->
  can_compress s0 -> c_outcomes s0 = [] -> starts uptime busy s0 ->
  Z.of_nat (length ((c_history s0 ++ trunk_binlog_write_cache s0) ++ w1.1)) < 2 ^ 63 ->
  exists s', trunk_binlog_compress_func fd_gets true true uptime now busy w1 w2 lines s0 = (Some 0, s')
    /\ c_ini_stage s' = STORAGE_TRUNK_COMPRESS_STAGE_FINISHED /\ f_data (c_dir s') = None /\ c_marks s' = []
    /\ exists tail, c_history s' = (c_history s0 ++ trunk_binlog_write_cache s0) ++ tail
         /\ f_binlog (c_dir s') = Some (lines ++ tail).
Proof.
  intros Hgets Hs0 Hos Hstarts Hsize.
  pose proof (compress_wp fd_gets Hgets uptime now busy w1 w2 lines s0 Hs0 Hsize [] (Forall_nil_2 _)) as Hwp.
  replace (set_outcomes [] s0) with s0 in Hwp by (destruct s0; cbn in *; by rewrite Hos).
  destruct (total_wp _ s0 _ _ (total_compress_func _ _ _ _ _ _ _ _ _) Hos Hwp) as (r & s' & E & _ & Hr & Hf).
  specialize (Hr Hstarts) as ->. exists s'. split; [done|].
  destruct (Hf eq_refl) as (Hi & Hn & Hd & Hm). done.
Qed.

(** When the first write of the merge that undoes a compression fails, the
    log that was set aside is deleted although it was not merged: only the
    records since the compression began are left. *)
Theorem rollback_merge_failure fd_gets s r b n e :
  f_rollback (c_dir s) = Some r -> r <> [] -> f_binlog (c_dir s) = Some b ->
  c_outcomes s = [Done; Done; Done; Done; Done; Fail n e] ->
  exists s', trunk_compress_rollback_binlog_file fd_gets s = (Some (errno_or e EACCES), s')
    /\ f_rollback (c_dir s') = None /\ f_binlog (c_dir s') = Some b
    /\ c_ini_stage s' = STORAGE_TRUNK_COMPRESS_STAGE_ROLLBACK_MERGE_DONE.
Proof.
  intros Hr Hne Hb Hos. destruct s as [d m i os st fd ca v lv t self h]. destruct d as [bl tmp rb da dr].
  cbn in Hr, Hb, Hos. subst bl rb os.
  assert (Hsize : (length r =? 0)%nat = false) by (by destruct r).
  assert (Hbuff : bool_decide (take MERGE_BUFFER_SIZE r = []) = false).
  { apply bool_decide_eq_false. destruct r; [done|]. unfold MERGE_BUFFER_SIZE. intros Ht.
    apply (f_equal length) in Ht. rewrite length_take in Ht. cbn [length] in Ht. lia. }
  assert (He : errno_or e EACCES <> 0).
  { unfold errno_or, EACCES. destruct (Z.eqb_spec e 0); lia. }
  eexists. split.
  - unfold trunk_compress_rollback_binlog_file, sys_access, file, kbind, kgets. cbn. rewrite Hsize. cbn.
    rewrite Hbuff. cbn. rewrite decide_True by done. cbn. reflexivity.
  - done.
Qed.
