(* ===== verification/TrackerTypes.v ===== *)
(** * Types shared by trackers and storage servers ([tracker/tracker_types.h]). *)

From S2P Require Import Prelude.

(** ** The status of a storage server. *)
Definition FDFS_STORAGE_STATUS_INIT : Z := 0.
Definition FDFS_STORAGE_STATUS_WAIT_SYNC : Z := 1.
Definition FDFS_STORAGE_STATUS_SYNCING : Z := 2.
Definition FDFS_STORAGE_STATUS_IP_CHANGED : Z := 3.
Definition FDFS_STORAGE_STATUS_DELETED : Z := 4.
Definition FDFS_STORAGE_STATUS_OFFLINE : Z := 5.
Definition FDFS_STORAGE_STATUS_ONLINE : Z := 6.
Definition FDFS_STORAGE_STATUS_ACTIVE : Z := 7.
Definition FDFS_STORAGE_STATUS_RECOVERY : Z := 9.
Definition FDFS_STORAGE_STATUS_NONE : Z := 99.

(** ** Requests of every kind ([tracker/tracker_proto.h]). *)
Definition FDFS_PROTO_PKG_LEN_SIZE : Z := 8.
Definition FDFS_PROTO_CMD_QUIT : Z := 82.
Definition FDFS_PROTO_CMD_ACTIVE_TEST : Z := 111.

(** A storage server in a message. *)
Record FDFSStorageBrief := mkBrief {
  b_status : Z;
  b_id : bytes;
  b_ip_addr : bytes;
}.
