(* ===== verification/ServerInfo.v ===== *)
(** * Server addresses ([tracker/fdfs_shared_func.c]).

    A tracker or storage server is known by one or more addresses; the
    functions here compare servers and find a server in a group. *)

From S2P Require Import Prelude.

(** [ConnectionInfo] without the socket. *)
Record ConnectionInfo := mkConn {
  ip_addr : bytes;
  port : Z;
}.

#[export] Instance ConnectionInfo_eq_dec : EqDecision ConnectionInfo.
Proof. solve_decision. Defined.

(** [TrackerServerInfo]: the first [count] entries of [connections]. *)
Abbreviation TrackerServerInfo := (list ConnectionInfo).

(** The macro [FC_CONNECTION_SERVER_EQUAL] of libfastcommon and what the
    sources rely on. *)
Class Connections := {
  FC_CONNECTION_SERVER_EQUAL : ConnectionInfo -> bytes -> Z -> bool;
}.

Class ConnectionsLaws `{Connections} : Prop := {
  server_equal_spec : forall c ip p,
    FC_CONNECTION_SERVER_EQUAL c ip p = true <-> ip_addr c = ip /\ port c = p;
}.

Section servers.
Context `{CN : Connections}.

Definition fdfs_server_contain (pServerInfo : TrackerServerInfo) (target_ip : bytes) (target_port : Z) : bool :=
  match pServerInfo with
  | [c] => FC_CONNECTION_SERVER_EQUAL c target_ip target_port
  | [c; c'] => FC_CONNECTION_SERVER_EQUAL c target_ip target_port || FC_CONNECTION_SERVER_EQUAL c' target_ip target_port
  | l => existsb (fun c => FC_CONNECTION_SERVER_EQUAL c target_ip target_port) l
  end.

(** [fdfs_server_contain1]. *)
Definition fdfs_server_contain1 (pServerInfo : TrackerServerInfo) (target : ConnectionInfo) : bool :=
  fdfs_server_contain pServerInfo (ip_addr target) (port target).

(** One of the addresses of [pServer1] is an address of [pServer2]. *)
Definition fdfs_server_contain_ex (pServer1 pServer2 : TrackerServerInfo) : bool :=
  match pServer1 with
  | [c] => fdfs_server_contain1 pServer2 c
  | [c; c'] => if fdfs_server_contain1 pServer2 c then true else fdfs_server_contain1 pServer2 c'
  | l => existsb (fdfs_server_contain1 pServer2) l
  end.

Definition fdfs_server_equal (pServer1 pServer2 : TrackerServerInfo) : bool :=
  if negb (length pServer1 =? length pServer2)%nat then false
  else
    match pServer1, pServer2 with
    | [c], c' :: _ => (port c =? port c') && (memcmp (ip_addr c) (ip_addr c') =? 0)
    | l, _ => forallb (fdfs_server_contain1 pServer2) l
    end.

(** [local_ips] are the addresses [get_first_local_ip] and
    [get_next_local_ip] run through. *)
Definition fdfs_server_contain_local_service (local_ips : list bytes) (pServerInfo : TrackerServerInfo)
    (target_port : Z) : bool :=
  existsb (fun ip => fdfs_server_contain pServerInfo ip target_port) local_ips.

Fixpoint leader_index_from (i : Z) (servers : list TrackerServerInfo) (leaderIp : bytes) (leaderPort : Z) : Z :=
  match servers with
  | [] => -1
  | s :: l => if fdfs_server_contain s leaderIp leaderPort then i else leader_index_from (i + 1) l leaderIp leaderPort
  end.

Definition fdfs_get_tracker_leader_index_ex (servers : list TrackerServerInfo) (leaderIp : bytes) (leaderPort : Z) : Z :=
  leader_index_from 0 servers leaderIp leaderPort.

(** ** Lemmas. *)
Context {CNL : ConnectionsLaws}.

Lemma contain_spec s ip p : fdfs_server_contain s ip p = true <-> exists c, c ∈ s /\ ip_addr c = ip /\ port c = p.
Proof using CNL.
  transitivity (existsb (fun c => FC_CONNECTION_SERVER_EQUAL c ip p) s = true).
  { unfold fdfs_server_contain. destruct s as [|c [|c' [|]]]; [done| | |done]; cbn; by rewrite ?orb_false_r. }
  rewrite existsb_exists. setoid_rewrite server_equal_spec. by setoid_rewrite list_elem_of_In.
Qed.

Lemma contain1_spec s c : fdfs_server_contain1 s c = true <-> c ∈ s.
Proof using CNL.
  unfold fdfs_server_contain1. rewrite contain_spec. split; [|by exists c].
  intros ([] & Hin & E1 & E2). destruct c; cbn in *. by subst.
Qed.

Lemma contain_ex_spec s1 s2 : fdfs_server_contain_ex s1 s2 = true <-> exists c, c ∈ s1 /\ c ∈ s2.
Proof using CNL.
  transitivity (existsb (fdfs_server_contain1 s2) s1 = true).
  { unfold fdfs_server_contain_ex. destruct s1 as [|c [|c' [|]]]; [done| | |done]; cbn; rewrite ?orb_false_r; [done|].
    by destruct (fdfs_server_contain1 s2 c). }
  rewrite existsb_exists. setoid_rewrite contain1_spec. by setoid_rewrite list_elem_of_In.
Qed.

Lemma contain_local_spec ips s p :
  fdfs_server_contain_local_service ips s p = true <-> exists c, c ∈ s /\ ip_addr c ∈ ips /\ port c = p.
Proof using CNL.
  unfold fdfs_server_contain_local_service. rewrite existsb_exists. setoid_rewrite contain_spec.
  setoid_rewrite <- list_elem_of_In. naive_solver.
Qed.

Lemma leader_index_from_spec l ip p : forall i,
  (leader_index_from i l ip p = -1 /\ forall s, s ∈ l -> fdfs_server_contain s ip p = false) \/
  exists k s, leader_index_from i l ip p = i + Z.of_nat k /\ l !! k = Some s /\ fdfs_server_contain s ip p = true.
Proof using Type.
  induction l as [|s l IH]; intros i; cbn [leader_index_from].
  { left. split; [done|]. intros s Hs. by apply not_elem_of_nil in Hs. }
  destruct (fdfs_server_contain s ip p) eqn:E.
  { right. exists 0%nat, s. split_and!; [lia|done..]. }
  destruct (IH (i + 1)) as [[-> H]|(k & s' & -> & Hk & Hs)].
  - left. split; [done|]. intros s' Hs. apply elem_of_cons in Hs as [->|Hs]; auto.
  - right. exists (S k), s'. split_and!; [lia|done..].
Qed.

(** [fdfs_server_equal] on servers without repeated addresses holds exactly
    when they have the same addresses, in any order. *)
Theorem fdfs_server_equal_correct s1 s2 :
  NoDup s1 -> NoDup s2 -> fdfs_server_equal s1 s2 = true <-> s1 ≡ₚ s2.
Proof using CNL.
  intros H1 H2.
  assert (Hall : length s1 = length s2 -> Forall (fun c => c ∈ s2) s1 <-> s1 ≡ₚ s2).
  { intros Hl. rewrite Forall_forall. split; [|by intros Hp x; rewrite Hp].
    intros Hsub. apply submseteq_length_Permutation; [by apply NoDup_submseteq|lia]. }
  unfold fdfs_server_equal. destruct (Nat.eqb_spec (length s1) (length s2)) as [E|E]; cbn [negb].
  2: { split; [done|]. intros Hp. by apply Permutation_length in Hp. }
  specialize (Hall E). rewrite <- Hall.
  transitivity (forallb (fdfs_server_contain1 s2) s1 = true).
  { destruct s1 as [|c [|c' l]], s2 as [|d [|d' l']]; try done. destruct c as [ip p], d as [ip' p']. cbn [forallb port ip_addr].
    rewrite andb_true_r, contain1_spec, list_elem_of_singleton, andb_true_iff, Z.eqb_eq, Z.eqb_eq, memcmp_eq_0.
    naive_solver. }
  rewrite forallb_forall, Forall_forall. setoid_rewrite contain1_spec. by setoid_rewrite list_elem_of_In.
Qed.
End servers.
