(* ===== verification/TrackerElection.v ===== *)
(** * Leader election among the trackers ([tracker/tracker_relationship.c],
    the handlers of [tracker/tracker_service.c] it talks to,
    [tracker_calc_running_times] of [tracker/tracker_mem.c] and
    [fdfs_get_tracker_status] of [tracker/tracker_proto.c]).

    Every tracker runs the thread [relationship_thread_entrance]: without a
    leader it asks all trackers for their status, and if it ranks first it
    notifies all of them and then commits; with a leader it pings it.  The
    state of a tracker is a [TrackerNode], the handlers change it, and [step]
    interleaves the remote calls of the threads, which may fail, with crashes
    and restarts. *)

From S2P Require Import Prelude TrunkShared FastCommon ServerInfo.

Definition EOPNOTSUPP : Z := 95.
Definition TRACKER_SYNC_STATUS_FILE_INTERVAL : Z := 300.

(** [pTrackerServer] is the index of the server in [g_tracker_servers]. *)
Record TrackerRunningStatus := mkStatus {
  pTrackerServer : nat;
  running_time : Z;
  restart_interval : Z;
  if_leader : bool;
}.

(** What a tracker is configured with: [g_tracker_servers], its port, its own
    addresses and [is_local_host_ip] of libfastcommon. *)
Record TrackerConf := {
  servers : list TrackerServerInfo;
  g_server_port : Z;
  local_ips : list bytes;
  is_local_host_ip : bytes -> bool;
}.

(** Where [relationship_thread_entrance] stands: between two rounds, or before
    the remote call to the server of index [k]. *)
Inductive Thread :=
  | Sleeping
  | GettingStatus (k : nat) (trackerStatus : list TrackerRunningStatus) (result : Z)
  | Notifying (k : nat) (leader : TrackerRunningStatus) (success_count : Z) (bConnectFail : bool)
  | Committing (k : nat) (leader : TrackerRunningStatus) (success_count : Z) (bConnectFail : bool).

(** [leader_index] is [g_tracker_servers.leader_index], [groups_count] is
    [g_groups.count], [last_check_time] is that of [g_tracker_last_status]. *)
Record TrackerNode := mkNode {
  up : bool;
  leader_index : Z;
  g_next_leader_index : Z;
  g_if_leader_self : bool;
  g_tracker_leader_chg_count : Z;
  fail_count : Z;
  g_current_time : Z;
  g_up_time : Z;
  last_check_time : Z;
  groups_count : Z;
  thread : Thread;
}.

Definition set_leader_index x n := mkNode (up n) x (g_next_leader_index n) (g_if_leader_self n) (g_tracker_leader_chg_count n) (fail_count n) (g_current_time n) (g_up_time n) (last_check_time n) (groups_count n) (thread n).
Definition set_next_leader_index x n := mkNode (up n) (leader_index n) x (g_if_leader_self n) (g_tracker_leader_chg_count n) (fail_count n) (g_current_time n) (g_up_time n) (last_check_time n) (groups_count n) (thread n).
Definition set_if_leader_self x n := mkNode (up n) (leader_index n) (g_next_leader_index n) x (g_tracker_leader_chg_count n) (fail_count n) (g_current_time n) (g_up_time n) (last_check_time n) (groups_count n) (thread n).
Definition count_leader_chg n := mkNode (up n) (leader_index n) (g_next_leader_index n) (g_if_leader_self n) (int32 (g_tracker_leader_chg_count n + 1)) (fail_count n) (g_current_time n) (g_up_time n) (last_check_time n) (groups_count n) (thread n).
Definition set_fail_count x n := mkNode (up n) (leader_index n) (g_next_leader_index n) (g_if_leader_self n) (g_tracker_leader_chg_count n) x (g_current_time n) (g_up_time n) (last_check_time n) (groups_count n) (thread n).
Definition set_thread x n := mkNode (up n) (leader_index n) (g_next_leader_index n) (g_if_leader_self n) (g_tracker_leader_chg_count n) (fail_count n) (g_current_time n) (g_up_time n) (last_check_time n) (groups_count n) x.

Local Open Scope c_scope.

(** ** The status of a tracker. *)
Definition FDFS_TRIM_TIME (t i : Z) : Z := t ÷ i * i.

Definition tracker_calc_running_times (n : TrackerNode) : Z * Z :=
  (FDFS_TRIM_TIME (int32 (g_current_time n - g_up_time n)) TRACKER_SYNC_STATUS_FILE_INTERVAL,
   FDFS_TRIM_TIME (if last_check_time n =? 0 then 0 else int32 (g_up_time n - last_check_time n))
     TRACKER_SYNC_STATUS_FILE_INTERVAL).

Section trackers.
Context `{FC : FastCommon} `{CN : Connections}.

(** [IP_ADDRESS_SIZE] of libfastcommon. *)
Context (IP_ADDRESS_SIZE : Z).
Definition FDFS_PROTO_IP_PORT_SIZE : nat := Z.to_nat (IP_ADDRESS_SIZE + 6).
Definition pkg_len_size : nat := 8.

(** The handler of [TRACKER_GET_STATUS]: a status code or the response body. *)
Definition tracker_deal_get_tracker_status (n : TrackerNode) : Z + bytes :=
  if groups_count n <=? 0 then inl ENOENT
  else
    let '(running, interval) := tracker_calc_running_times n in
    inr ((if g_if_leader_self n then 1 else 0) :: long2buff running ++ long2buff interval).

(** What [fdfs_get_tracker_status] makes of the response. *)
Definition parse_status (k : nat) (body : bytes) : Z + TrackerRunningStatus :=
  if negb (length body =? 1 + 2 * pkg_len_size)%nat then inl EINVAL
  else inr (mkStatus k (int32 (buff2long (drop 1 body))) (int32 (buff2long (drop (1 + pkg_len_size) body)))
              (negb (hd 0 body =? 0))).

Section thread.
Context (conf : TrackerConf).

Definition pLeader (st : TrackerRunningStatus) : ConnectionInfo :=
  hd (mkConn [] 0) (nth (pTrackerServer st) (servers conf) []).

Definition relationship_cmp_tracker_status (pStatus1 pStatus2 : TrackerRunningStatus) : Z :=
  let sub := (if if_leader pStatus1 then 1 else 0) - (if if_leader pStatus2 then 1 else 0) in
  if negb (sub =? 0) then sub
  else
    let sub := int32 (running_time pStatus1 - running_time pStatus2) in
    if negb (sub =? 0) then sub
    else
      let sub := int32 (restart_interval pStatus2 - restart_interval pStatus1) in
      if negb (sub =? 0) then sub
      else
        let sub := memcmp (ip_addr (pLeader pStatus1)) (ip_addr (pLeader pStatus2)) in
        if negb (sub =? 0) then sub
        else int32 (port (pLeader pStatus1) - port (pLeader pStatus2)).

Definition status_le (a b : TrackerRunningStatus) : Prop := relationship_cmp_tracker_status a b <= 0.

#[export] Instance status_le_dec : RelDecision status_le.
Proof. intros a b. unfold status_le. apply _. Defined.

(** The status chosen by [relationship_get_tracker_leader]: the last after the
    [qsort]. *)
Definition relationship_get_tracker_leader (trackerStatus : list TrackerRunningStatus) (result : Z)
    : Z + TrackerRunningStatus :=
  match last (merge_sort status_le trackerStatus) with
  | None => inl (if result =? 0 then ENOENT else result)
  | Some st => inr st
  end.

Definition contain_local (k : nat) : bool :=
  match servers conf !! k with
  | Some s => fdfs_server_contain_local_service (local_ips conf) s (g_server_port conf)
  | None => false
  end.

(** The end of [relationship_select_leader] once the statuses are known.
    [uninit] is the value of the uninitialised [bConnectFail]. *)
Definition relationship_select_leader (trackerStatus : list TrackerRunningStatus) (result : Z) (uninit : bool)
    : M TrackerNode Z :=
  match relationship_get_tracker_leader trackerStatus result with
  | inl e => modify (set_thread Sleeping) ;; ret e
  | inr st =>
      if contain_local (pTrackerServer st) then modify (set_thread (Notifying 0 st 0 uninit)) ;; ret 0
      else
        (if if_leader st then modify (set_leader_index (Z.of_nat (pTrackerServer st))) else ret tt) ;;
        modify (set_thread Sleeping) ;;
        let! index := gets leader_index in
        ret (if 0 <=? index then 0 else ENOENT)
  end.

(** [relationship_get_tracker_status] of server [k] answered. *)
Definition status_answered (k : nat) (trackerStatus : list TrackerRunningStatus) (result : Z) (uninit : bool)
    (r : Z + TrackerRunningStatus) : M TrackerNode Z :=
  let trackerStatus := match r with inl _ => trackerStatus | inr st => trackerStatus ++ [st] end in
  let result := match r with inl e => if e =? ENOENT then result else e | inr _ => result end in
  if (S k <? length (servers conf))%nat then modify (set_thread (GettingStatus (S k) trackerStatus result)) ;; ret 0
  else relationship_select_leader trackerStatus result uninit.

(** [relationship_get_tracker_status] of this tracker itself. *)
Definition local_status (k : nat) (n : TrackerNode) : TrackerRunningStatus :=
  let '(running, interval) := tracker_calc_running_times n in mkStatus k running interval (g_if_leader_self n).

Definition relationship_set_tracker_leader (server_index : Z) (leader_self : bool) : M TrackerNode unit :=
  modify (set_leader_index server_index) ;;
  modify (set_next_leader_index (-1)) ;;
  if leader_self then modify (set_if_leader_self true) ;; modify count_leader_chg else ret tt.

(** [relationship_notify_next_leader] and [relationship_commit_next_leader] of
    the candidate itself. *)
Definition notify_self (k : nat) : M TrackerNode Z := modify (set_next_leader_index (Z.of_nat k)) ;; ret 0.

Definition commit_self (k : nat) : M TrackerNode Z :=
  let! server_index := gets g_next_leader_index in
  if negb (server_index =? Z.of_nat k) then modify (set_next_leader_index (-1)) ;; ret EBUSY
  else relationship_set_tracker_leader server_index true ;; ret 0.

(** The loops of [relationship_notify_leader_changed], one call at a time. *)
Definition notified (k : nat) (st : TrackerRunningStatus) (success_count result : Z) (bConnectFail : bool)
    : M TrackerNode Z :=
  if negb (result =? 0) && negb bConnectFail then modify (set_thread Sleeping) ;; ret result
  else
    let success_count := if result =? 0 then success_count + 1 else success_count in
    if (S k <? length (servers conf))%nat then modify (set_thread (Notifying (S k) st success_count bConnectFail)) ;; ret 0
    else if success_count =? 0 then modify (set_thread Sleeping) ;; ret result
    else modify (set_thread (Committing 0 st 0 bConnectFail)) ;; ret 0.

Definition commit_done (k : nat) (st : TrackerRunningStatus) (success_count result : Z) (bConnectFail : bool)
    : M TrackerNode Z :=
  if negb (result =? 0) && negb bConnectFail then modify (set_thread Sleeping) ;; ret result
  else
    let success_count := if result =? 0 then success_count + 1 else success_count in
    if (S k <? length (servers conf))%nat then modify (set_thread (Committing (S k) st success_count bConnectFail)) ;; ret 0
    else modify (set_thread Sleeping) ;; ret (if success_count =? 0 then result else 0).

(** [relationship_thread_entrance] after a ping. *)
Definition pinged (r : Z) : M TrackerNode unit :=
  if r =? 0 then modify (set_fail_count 0)
  else
    let! count := gets fail_count in
    if 3 <=? count + 1 then modify (set_leader_index (-1)) ;; modify (set_fail_count 0)
    else modify (set_fail_count (count + 1)).

(** ** The handlers. *)

(** The body [do_notify_leader_changed] sends. *)
Definition leader_message (leader : ConnectionInfo) : bytes :=
  zero_pad FDFS_PROTO_IP_PORT_SIZE (ip_addr leader ++ ch ":" :: fmt_d (port leader)).

(** The start of both handlers: the leader named in the body. *)
Definition parse_leader (body : bytes) : option ConnectionInfo :=
  if negb (length body =? FDFS_PROTO_IP_PORT_SIZE)%nat then None
  else
    match splitEx (ch ":") 2 (cstr body) with
    | [ip; p] => Some (mkConn ip (atoi p))
    | _ => None
    end.

Definition is_self (leader : ConnectionInfo) : bool :=
  (port leader =? g_server_port conf) && is_local_host_ip conf (ip_addr leader).

Definition tracker_deal_notify_next_leader (body : bytes) : M TrackerNode Z :=
  match parse_leader body with
  | None => ret EINVAL
  | Some leader =>
      let server_index := fdfs_get_tracker_leader_index_ex (servers conf) (ip_addr leader) (port leader) in
      if server_index <? 0 then ret ENOENT
      else
        let! self := gets g_if_leader_self in
        if self && negb (is_self leader) then
          modify (set_if_leader_self false) ;;
          modify (set_leader_index (-1)) ;;
          modify count_leader_chg ;;
          ret EINVAL
        else modify (set_next_leader_index server_index) ;; ret 0
  end.

Definition tracker_deal_commit_next_leader (body : bytes) : M TrackerNode Z :=
  match parse_leader body with
  | None => ret EINVAL
  | Some leader =>
      let server_index := fdfs_get_tracker_leader_index_ex (servers conf) (ip_addr leader) (port leader) in
      if server_index <? 0 then ret ENOENT
      else
        let! next := gets g_next_leader_index in
        if negb (server_index =? next) then ret EINVAL
        else relationship_set_tracker_leader server_index (is_self leader) ;; ret 0
  end.

(** [fits]: the trunk servers of all groups fit in the response. *)
Definition tracker_deal_ping_leader (fits : bool) (n : TrackerNode) : Z :=
  if negb (g_if_leader_self n) then EOPNOTSUPP else if fits then 0 else ENOSPC.

Definition tracker_deal_reselect_leader : M TrackerNode Z :=
  let! self := gets g_if_leader_self in
  if negb self then ret EOPNOTSUPP
  else
    modify (set_if_leader_self false) ;;
    modify (set_leader_index (-1)) ;;
    modify count_leader_chg ;;
    ret 0.
End thread.

(** ** The trackers and the network. *)

(** Trackers are numbered; [confs] and the state list them in that order. *)
Context (confs : list TrackerConf).
Abbreviation Cluster := (list TrackerNode).

(** Server [s] of some list is tracker [m]. *)
Definition is_server (s : TrackerServerInfo) (m : nat) : Prop :=
  exists conf, confs !! m = Some conf /\ fdfs_server_contain_local_service (local_ips conf) s (g_server_port conf) = true.

(** What becomes of a request on an open connection: it is not sent, its
    response is lost, or it is answered. *)
Inductive Wire := NotSent (e : Z) | Lost (e : Z) | Answered.

Definition wire_ok (w : Wire) : Prop := match w with NotSent e | Lost e => 0 < e | Answered => True end.

(** The error a caller sees, and what the handler does to its tracker. *)
Definition rpc_result (w : Wire) (r : Z) : Z :=
  match w with
  | NotSent e => if e =? ENOENT then EACCES else e
  | Lost e => e
  | Answered => r
  end.

Definition rpc_target (w : Wire) (handler : M TrackerNode Z) (y : TrackerNode) : Z * TrackerNode :=
  match w with NotSent _ => (0, y) | _ => handler y end.

Definition status_reply (k : nat) (w : Wire) (y : TrackerNode) : Z + TrackerRunningStatus :=
  match w with
  | Answered => match tracker_deal_get_tracker_status y with inl e => inl e | inr body => parse_status k body end
  | _ => inl (rpc_result w 0)
  end.

(** [partition]: connections to running trackers can fail, too. *)
Context (partition : bool).

Definition connect_fails (c : Cluster) (s : TrackerServerInfo) (e : Z) : Prop :=
  0 < e /\ (partition = true \/ forall m y, is_server s m -> c !! m = Some y -> up y = false).

Definition new_node (time last groups : Z) : TrackerNode := mkNode true (-1) (-1) false 0 0 time time last groups Sleeping.

(** Tracker [n] runs with configuration [conf]. *)
Definition runs (c : Cluster) (n : nat) (conf : TrackerConf) (x : TrackerNode) : Prop :=
  confs !! n = Some conf /\ c !! n = Some x /\ up x = true.

(** Tracker [n] does [op] after a remote call changed tracker [m] to [y]. *)
Definition after_call (c : Cluster) (n m : nat) (y : TrackerNode) (op : M TrackerNode Z) : Cluster :=
  let c1 := <[m := y]> c in
  match c1 !! n with Some x => <[n := (op x).2]> c1 | None => c1 end.

Inductive step (c : Cluster) : Cluster -> Prop :=
  | step_select n conf x :
      runs c n conf x -> thread x = Sleeping -> leader_index x < 0 -> servers conf <> [] ->
      step c (<[n := set_thread (GettingStatus 0 [] 0) x]> c)
  | step_status_local n conf x k got result uninit :
      runs c n conf x -> thread x = GettingStatus k got result -> contain_local conf k = true ->
      step c (<[n := (status_answered conf k got result uninit (inr (local_status k x)) x).2]> c)
  | step_status_fails n conf x k got result uninit s e :
      runs c n conf x -> thread x = GettingStatus k got result -> contain_local conf k = false ->
      servers conf !! k = Some s -> connect_fails c s e ->
      step c (<[n := (status_answered conf k got result uninit (inl e) x).2]> c)
  | step_status n conf x k got result uninit s m y w :
      runs c n conf x -> thread x = GettingStatus k got result -> contain_local conf k = false ->
      servers conf !! k = Some s -> is_server s m -> c !! m = Some y -> up y = true -> wire_ok w ->
      step c (<[n := (status_answered conf k got result uninit (status_reply k w y) x).2]> c)
  | step_notify_self n conf x k st sc bcf :
      runs c n conf x -> thread x = Notifying k st sc bcf -> pTrackerServer st = k ->
      step c (<[n := ((let! r := notify_self k in notified conf k st sc r bcf) x).2]> c)
  | step_notify_fails n conf x k st sc bcf s e :
      runs c n conf x -> thread x = Notifying k st sc bcf -> pTrackerServer st <> k ->
      servers conf !! k = Some s -> connect_fails c s e ->
      step c (<[n := (notified conf k st sc e true x).2]> c)
  | step_notify n conf x k st sc bcf s m confm y w r y' :
      runs c n conf x -> thread x = Notifying k st sc bcf -> pTrackerServer st <> k ->
      servers conf !! k = Some s -> is_server s m -> runs c m confm y -> wire_ok w ->
      rpc_target w (tracker_deal_notify_next_leader confm (leader_message (pLeader conf st))) y = (r, y') ->
      step c (after_call c n m y' (notified conf k st sc (rpc_result w r) false))
  | step_commit_self n conf x k st sc bcf :
      runs c n conf x -> thread x = Committing k st sc bcf -> pTrackerServer st = k ->
      step c (<[n := ((let! r := commit_self k in commit_done conf k st sc r bcf) x).2]> c)
  | step_commit_fails n conf x k st sc bcf s e :
      runs c n conf x -> thread x = Committing k st sc bcf -> pTrackerServer st <> k ->
      servers conf !! k = Some s -> connect_fails c s e ->
      step c (<[n := (commit_done conf k st sc e true x).2]> c)
  | step_commit n conf x k st sc bcf s m confm y w r y' :
      runs c n conf x -> thread x = Committing k st sc bcf -> pTrackerServer st <> k ->
      servers conf !! k = Some s -> is_server s m -> runs c m confm y -> wire_ok w ->
      rpc_target w (tracker_deal_commit_next_leader confm (leader_message (pLeader conf st))) y = (r, y') ->
      step c (after_call c n m y' (commit_done conf k st sc (rpc_result w r) false))
  | step_ping_self n conf x :
      runs c n conf x -> thread x = Sleeping -> 0 <= leader_index x -> g_if_leader_self x = true ->
      step c (<[n := (pinged 0 x).2]> c)
  | step_ping_fails n conf x s e :
      runs c n conf x -> thread x = Sleeping -> 0 <= leader_index x -> g_if_leader_self x = false ->
      servers conf !! Z.to_nat (leader_index x) = Some s -> connect_fails c s e ->
      step c (<[n := (pinged e x).2]> c)
  | step_ping n conf x s m y w fits body_ok :
      runs c n conf x -> thread x = Sleeping -> 0 <= leader_index x -> g_if_leader_self x = false ->
      servers conf !! Z.to_nat (leader_index x) = Some s -> is_server s m -> c !! m = Some y -> up y = true -> wire_ok w ->
      step c (<[n := (pinged (rpc_result w (if tracker_deal_ping_leader fits y =? 0
        then (if body_ok : bool then 0 else EINVAL) else tracker_deal_ping_leader fits y)) x).2]> c)
  | step_reselect n conf x :
      runs c n conf x -> step c (<[n := (tracker_deal_reselect_leader x).2]> c)
  | step_time n x t g :
      c !! n = Some x ->
      step c (<[n := mkNode (up x) (leader_index x) (g_next_leader_index x) (g_if_leader_self x) (g_tracker_leader_chg_count x)
        (fail_count x) t (g_up_time x) (last_check_time x) g (thread x)]> c)
  | step_crash n x :
      c !! n = Some x ->
      step c (<[n := mkNode false (-1) (-1) false 0 0 (g_current_time x) (g_up_time x) (last_check_time x) (groups_count x) Sleeping]> c)
  | step_start n x time last groups :
      c !! n = Some x -> up x = false -> step c (<[n := new_node time last groups]> c).

(** All trackers are down at the beginning. *)
Definition down_node (x : TrackerNode) : Prop := exists last groups, x = mkNode false (-1) (-1) false 0 0 0 0 last groups Sleeping.

Inductive reachable : Cluster -> Prop :=
  | reach_start c : length c = length confs -> Forall down_node c -> reachable c
  | reach_step c c' : reachable c -> step c c' -> reachable c'.
End trackers.
