(* ===== verification/TrackerSafe.v ===== *)
(** * At most one tracker is the leader.

    The invariant of the election protocol of [TrackerElection] under any
    interleaving of its remote calls, lost messages, crashes and restarts, as
    long as connections to running trackers succeed. *)

From S2P Require Import Prelude TrunkShared FastCommon TrunkBinlog ServerInfo TrackerElection.

Local Open Scope c_scope.

(** ** The configuration. *)
Section safe.
Context `{FCL : FastCommonLaws} `{CNL : ConnectionsLaws}.
Context (IP_ADDRESS_SIZE : Z).
Context (confs : list TrackerConf).

(** An address the messages can carry. *)
Definition conn_ok (c : ConnectionInfo) : Prop :=
  (ch ":" ∉ ip_addr c) /\ Forall (fun b => b <> 0) (ip_addr c) /\ is_int32 (port c) /\
  (length (ip_addr c) + 1 + length (fmt_d (port c)) <= FDFS_PROTO_IP_PORT_SIZE IP_ADDRESS_SIZE)%nat.

(** Index [k] of the list of tracker [n] is tracker [m]. *)
Definition entry (n m k : nat) : Prop :=
  exists conf s, confs !! n = Some conf /\ servers conf !! k = Some s /\ is_server confs s m.

(** Every tracker lists every tracker exactly once, under its own addresses,
    and nothing else. *)
Record cluster_ok : Prop := {
  ok_local_ip : forall n conf ip, confs !! n = Some conf -> is_local_host_ip conf ip = true <-> ip ∈ local_ips conf;
  ok_owner : forall n conf k s, confs !! n = Some conf -> servers conf !! k = Some s -> exists m, is_server confs s m;
  ok_owner_unique : forall n m m' k, entry n m k -> entry n m' k -> m = m';
  ok_listed : forall n m, (n < length confs)%nat -> (m < length confs)%nat -> exists k, entry n m k;
  ok_listed_once : forall n m k k', entry n m k -> entry n m k' -> k = k';
  ok_addresses : forall n conf k s m confm c,
    confs !! n = Some conf -> servers conf !! k = Some s -> is_server confs s m -> confs !! m = Some confm -> c ∈ s ->
    conn_ok c /\ (ip_addr c ∈ local_ips confm) /\ port c = g_server_port confm;
}.

Context (Hok : cluster_ok).

Lemma is_server_spec s m :
  is_server confs s m <-> exists conf c, confs !! m = Some conf /\ (c ∈ s) /\ (ip_addr c ∈ local_ips conf) /\ port c = g_server_port conf.
Proof using CNL.
  unfold is_server. setoid_rewrite contain_local_spec. naive_solver.
Qed.

Lemma contain_local_entry n conf k : confs !! n = Some conf -> contain_local conf k = true <-> entry n n k.
Proof using CNL.
  intros Hc. unfold contain_local, entry. split.
  - destruct (servers conf !! k) as [s|] eqn:E; [|done]. intros Hl. exists conf, s. split; [done|]. split; [done|]. by exists conf.
  - intros (conf' & s & Hc' & Hs & conf'' & Hc'' & Hl). simplify_eq. by rewrite Hs.
Qed.

(** ** The messages. *)
Lemma parse_leader_message c : conn_ok c -> parse_leader IP_ADDRESS_SIZE (leader_message IP_ADDRESS_SIZE c) = Some c.
Proof using FCL.
  intros (Hip & Hnul & Hport & Hlen). unfold parse_leader, leader_message.
  set (msg := ip_addr c ++ ch ":" :: fmt_d (port c)).
  assert (Hl : length msg = (length (ip_addr c) + 1 + length (fmt_d (port c)))%nat).
  { unfold msg. rewrite length_app. cbn [length]. lia. }
  assert (Hz : Forall (fun b => b <> 0) msg).
  { unfold msg. apply Forall_app. split; [done|]. constructor; [done|].
    eapply Forall_impl; [apply fmt_d_chars|]. cbn. lia. }
  unfold zero_pad. rewrite length_app, length_replicate.
  replace (_ =? _)%nat with true by (symmetry; apply Nat.eqb_eq; lia). cbn [negb].
  rewrite cstr_zeros by done. change msg with (join (ch ":") [ip_addr c; fmt_d (port c)]).
  rewrite splitEx_join; [|constructor; [done|constructor; [|done]]|done|cbn; lia].
  - rewrite <- (app_nil_r (fmt_d (port c))), atoi_fmt_d by done. by destruct c.
  - intros Hin. pose proof (fmt_d_chars (port c)) as Hf. rewrite Forall_forall in Hf. specialize (Hf _ Hin).
    cbn in Hf. lia.
Qed.

(** An address of tracker [n], looked up by tracker [m]: its entry, or none. *)
Lemma lookup_leader m confm k conf a s n c :
  confs !! m = Some confm -> confs !! k = Some conf -> servers conf !! a = Some s -> is_server confs s n -> c ∈ s ->
  let index := fdfs_get_tracker_leader_index_ex (servers confm) (ip_addr c) (port c) in
  index = -1 \/ exists j, index = Z.of_nat j /\ entry m n j.
Proof using Hok CNL.
  intros Hm Hk Hs Hn Hc. cbn.
  destruct (leader_index_from_spec (servers confm) (ip_addr c) (port c) 0) as [[E _]|(j & s' & E & Hj & Hs')]; [by left|right].
  exists j. split; [by unfold fdfs_get_tracker_leader_index_ex; rewrite E|]. exists confm, s'. split_and!; [done..|].
  apply is_server_spec. apply contain_spec in Hs' as (c' & Hc' & Eip & Ep).
  destruct (Hn) as (confn & Hn' & _). exists confn, c'. rewrite Eip, Ep.
  by destruct (ok_addresses Hok _ _ _ _ _ _ _ Hk Hs Hn Hn' Hc) as (_ & ? & ?).
Qed.

Lemma of_nat_not_negative j : (Z.of_nat j <? 0) = false.
Proof using Type. apply Z.ltb_ge. lia. Qed.

(** Only tracker [a] takes an address of [a] for its own. *)
Lemma is_self_other n conf k s a c m confm :
  confs !! n = Some conf -> servers conf !! k = Some s -> is_server confs s a -> c ∈ s ->
  confs !! m = Some confm -> is_self confm c = true -> m = a.
Proof using Hok CNL.
  intros Hn Hs Ha Hc Hm Hself. unfold is_self in Hself. apply andb_true_iff in Hself as [Hp Hip].
  apply Z.eqb_eq in Hp. apply (ok_local_ip Hok _ _ _ Hm) in Hip.
  apply (ok_owner_unique Hok n m a k); exists conf, s; split_and!; try done.
  apply is_server_spec. by exists confm, c.
Qed.

(** The leader a candidate names is itself. *)
Lemma candidate_leader n conf st :
  confs !! n = Some conf -> entry n n (pTrackerServer st) ->
  exists s, servers conf !! pTrackerServer st = Some s /\ is_server confs s n /\ pLeader conf st ∈ s.
Proof using CNL.
  intros Hn (conf' & s & Hn' & Hs & Hown). simplify_eq. exists s. split_and!; [done..|].
  unfold pLeader. rewrite (nth_lookup_Some _ _ _ _ Hs). apply is_server_spec in Hown as (? & c & _ & Hc & _).
  destruct s; [by apply not_elem_of_nil in Hc|]. left.
Qed.

(** ** What a message does to another tracker. *)
Lemma rpc_result_nonzero w r : wire_ok w -> r <> 0 -> rpc_result w r <> 0.
Proof using Type. destruct w; cbn; intros; try lia. destruct (Z.eqb_spec e ENOENT); unfold EACCES; lia. Qed.

Inductive notify_effect (m n : nat) (y : TrackerNode) (R : Z) : TrackerNode -> Prop :=
  | notify_nothing : R <> 0 -> notify_effect m n y R y
  | notify_steps_down : g_if_leader_self y = true -> R <> 0 ->
      notify_effect m n y R (count_leader_chg (set_leader_index (-1) (set_if_leader_self false y)))
  | notify_accepted j : g_if_leader_self y = false -> entry m n j ->
      notify_effect m n y R (set_next_leader_index (Z.of_nat j) y).

Lemma notify_effect_spec n conf st m confm y w r y' :
  confs !! n = Some conf -> entry n n (pTrackerServer st) -> m <> n -> confs !! m = Some confm -> wire_ok w ->
  rpc_target w (tracker_deal_notify_next_leader IP_ADDRESS_SIZE confm (leader_message IP_ADDRESS_SIZE (pLeader conf st))) y = (r, y') ->
  notify_effect m n y (rpc_result w r) y'.
Proof using Hok FCL CNL.
  intros Hn He Hmn Hm Hw E. destruct (candidate_leader n conf st Hn He) as (s & Hs & Hown & Hc).
  destruct (ok_addresses Hok _ _ _ _ n conf _ Hn Hs Hown Hn Hc) as (Hcok & _).
  assert (Hself : is_self confm (pLeader conf st) = false).
  { apply not_true_is_false. intros Hself. by apply Hmn, (is_self_other n conf (pTrackerServer st) s n (pLeader conf st) m confm). }
  destruct w as [e|e|]; cbn in E, Hw; [simplify_eq; constructor; cbn; destruct (Z.eqb_spec e ENOENT); unfold EACCES; lia|..].
  all: unfold tracker_deal_notify_next_leader in E; rewrite (parse_leader_message _ Hcok) in E; cbv zeta beta delta [ret bind gets modify] in E.
  all: destruct (lookup_leader m confm n conf _ s n _ Hm Hn Hs Hown Hc) as [Ei|(j & Ei & Hj)]; rewrite Ei in E.
  all: rewrite ?of_nat_not_negative in E; cbn in E; try (simplify_eq; by constructor; cbn; unfold ENOENT; lia).
  all: destruct (g_if_leader_self y) eqn:El; cbn in E.
  all: rewrite ?Hself in E; cbn in E; simplify_eq.
  all: first [by apply notify_accepted|apply notify_steps_down; [done|cbn; unfold EINVAL; lia]].
Qed.

Inductive commit_effect (m n : nat) (y : TrackerNode) (R : Z) : TrackerNode -> Prop :=
  | commit_nothing : R <> 0 -> commit_effect m n y R y
  | commit_accepted j : entry m n j -> g_next_leader_index y = Z.of_nat j ->
      commit_effect m n y R (set_next_leader_index (-1) (set_leader_index (Z.of_nat j) y)).

Lemma commit_effect_spec n conf st m confm y w r y' :
  confs !! n = Some conf -> entry n n (pTrackerServer st) -> m <> n -> confs !! m = Some confm -> wire_ok w ->
  rpc_target w (tracker_deal_commit_next_leader IP_ADDRESS_SIZE confm (leader_message IP_ADDRESS_SIZE (pLeader conf st))) y = (r, y') ->
  commit_effect m n y (rpc_result w r) y'.
Proof using Hok FCL CNL.
  intros Hn He Hmn Hm Hw E. destruct (candidate_leader n conf st Hn He) as (s & Hs & Hown & Hc).
  destruct (ok_addresses Hok _ _ _ _ n conf _ Hn Hs Hown Hn Hc) as (Hcok & _).
  assert (Hself : is_self confm (pLeader conf st) = false).
  { apply not_true_is_false. intros Hself. by apply Hmn, (is_self_other n conf (pTrackerServer st) s n (pLeader conf st) m confm). }
  destruct w as [e|e|]; cbn in E, Hw; [simplify_eq; constructor; cbn; destruct (Z.eqb_spec e ENOENT); unfold EACCES; lia|..].
  all: unfold tracker_deal_commit_next_leader in E; rewrite (parse_leader_message _ Hcok) in E; cbv zeta beta delta [ret bind gets modify] in E.
  all: destruct (lookup_leader m confm n conf _ s n _ Hm Hn Hs Hown Hc) as [Ei|(j & Ei & Hj)]; rewrite Ei in E.
  all: rewrite ?of_nat_not_negative in E; cbn in E; try (simplify_eq; by constructor; cbn; unfold ENOENT; lia).
  all: destruct (Z.eqb_spec (Z.of_nat j) (g_next_leader_index y)) as [Enext|]; cbn in E;
    [|simplify_eq; constructor; cbn; unfold EINVAL; lia].
  all: rewrite Hself in E; cbn in E; simplify_eq; by apply commit_accepted.
Qed.

(** ** The invariant. *)

(** In its present round candidate [n] has notified tracker [m], has
    committed tracker [m]; tracker [n] is to follow [a]. *)
Definition notified_to (n : nat) (x : TrackerNode) (m : nat) : Prop :=
  match thread x with
  | Notifying k _ _ _ => exists j, entry n m j /\ (j < k)%nat
  | Committing _ _ _ _ => True
  | _ => False
  end.
Definition committed_to (n : nat) (x : TrackerNode) (m : nat) : Prop :=
  match thread x with
  | Committing k _ _ _ => exists j, entry n m j /\ (j < k)%nat
  | _ => False
  end.
Definition next_is (n : nat) (x : TrackerNode) (a : nat) : Prop :=
  exists j, entry n a j /\ g_next_leader_index x = Z.of_nat j.
Definition before (n a b : nat) : Prop := exists i j, entry n a i /\ entry n b j /\ (i < j)%nat.

(** Candidate [n] cannot become the leader in this round: it must still commit
    [m], or itself, and has been overtaken there. *)
Definition doomed (n : nat) (x : TrackerNode) (m : nat) (y : TrackerNode) : Prop :=
  (notified_to n x m /\ ~ committed_to n x m /\ ~ next_is m y n /\ before n m n) \/
  (notified_to n x n /\ ~ committed_to n x n /\ ~ next_is n x n).

Definition resting (x : TrackerNode) : Prop :=
  match thread x with Sleeping | GettingStatus _ _ _ => True | _ => False end.

(** What holds of one tracker: the candidate of a round is the tracker itself,
    and a leader follows itself and is not in a round it may still win. *)
Record node_ok (n : nat) (x : TrackerNode) : Prop := {
  node_candidate : forall k st sc bcf, thread x = Notifying k st sc bcf \/ thread x = Committing k st sc bcf ->
    entry n n (pTrackerServer st);
  node_range : forall k st sc bcf conf, thread x = Notifying k st sc bcf \/ thread x = Committing k st sc bcf ->
    confs !! n = Some conf -> (k < length (servers conf))%nat;
  node_leader : g_if_leader_self x = true ->
    up x = true /\ g_next_leader_index x = -1 /\ (exists j, entry n n j /\ leader_index x = Z.of_nat j) /\
    (thread x = Sleeping \/ committed_to n x n);
  node_down : up x = false -> thread x = Sleeping;
}.

Record pair_ok (n : nat) (x : TrackerNode) (m : nat) (y : TrackerNode) : Prop := {
  pair_one : g_if_leader_self x = true -> g_if_leader_self y = true -> False;
  pair_left : g_if_leader_self x = true -> notified_to m y n -> ~ committed_to m y m -> doomed m y n x;
  pair_right : g_if_leader_self y = true -> notified_to n x m -> ~ committed_to n x n -> doomed n x m y;
  pair_both : notified_to n x n -> notified_to n x m -> ~ committed_to n x n ->
    notified_to m y m -> notified_to m y n -> ~ committed_to m y m -> doomed n x m y \/ doomed m y n x;
}.

Lemma pair_ok_sym n x m y : pair_ok n x m y -> pair_ok m y n x.
Proof using Type. intros [P1 P2 P3 P4]. split; [by eauto|done|done|]. intros. apply or_comm. auto. Qed.

Lemma entry_unique n m k k' : entry n m k -> entry n m k' -> k = k'.
Proof using Hok. apply (ok_listed_once Hok). Qed.

(** A change that only a third tracker causes, or that ends the round. *)
Record quiet (n : nat) (x x' : TrackerNode) (m : nat) : Prop := {
  quiet_leader : g_if_leader_self x' = true -> g_if_leader_self x = true;
  quiet_round : resting x' \/ (forall a, a = n \/ a = m ->
    (notified_to n x' a <-> notified_to n x a) /\ (committed_to n x' a <-> committed_to n x a));
  quiet_next : forall a, a = n \/ a = m -> next_is n x' a -> next_is n x a;
}.

Lemma resting_notified n x a : resting x -> ~ notified_to n x a.
Proof using Type. unfold resting, notified_to. destruct (thread x); tauto. Qed.

Lemma resting_doomed n x m y : resting x -> ~ doomed n x m y.
Proof using Type. intros Hr [[Hx _]|[Hx _]]; by apply (resting_notified _ _ _ Hr) in Hx. Qed.

Lemma pair_ok_quiet n x x' m y : quiet n x x' m -> pair_ok n x m y -> pair_ok n x' m y.
Proof using Type.
  intros [HL Hround Hnext] [P1 P2 P3 P4].
  assert (Hd : doomed m y n x -> doomed m y n x') by (intros [(?&?&Hn&?)|?]; [left|by right]; split_and!; auto).
  destruct Hround as [Hr|Hround].
  { split; [by auto|by auto|..].
    - intros _ Hx. by apply (resting_notified _ _ _ Hr) in Hx.
    - intros Hx. by apply (resting_notified _ _ _ Hr) in Hx. }
  destruct (Hround n) as [Nn Cn]; [by left|]. destruct (Hround m) as [Nm Cm]; [by right|].
  assert (Hd' : doomed n x m y -> doomed n x' m y).
  { unfold doomed. rewrite Nn, Nm, Cn, Cm. intros [?|(?&?&Hx)]; [by left|right]. split_and!; [done..|].
    intros Hx'. apply Hx, Hnext; auto. }
  split; rewrite ?Nn, ?Nm, ?Cn; intros; [by eauto|by eauto|by eauto|].
  destruct P4; auto.
Qed.

(** Nothing is required of a tracker that rests and is not the leader, but that
    its partner be as it was. *)
Lemma pair_ok_idle n x m y : resting y -> g_if_leader_self y = false -> pair_ok n x m y.
Proof using Type.
  intros Hr HL. split; rewrite ?HL; try done.
  - intros _ Hx. by apply (resting_notified _ _ _ Hr) in Hx.
  - intros _ _ _ Hx. by apply (resting_notified _ _ _ Hr) in Hx.
Qed.

(** ** A candidate goes on. *)
Definition stops (R : Z) (bcf : bool) : bool := negb (R =? 0) && negb bcf.

Inductive notify_next (len k : nat) (st : TrackerRunningStatus) : Thread -> Prop :=
  | notify_stop : notify_next len k st Sleeping
  | notify_more sc bcf : (S k < len)%nat -> notify_next len k st (Notifying (S k) st sc bcf)
  | notify_end bcf : (len <= S k)%nat -> notify_next len k st (Committing 0 st 0 bcf).

Inductive commit_next (len k : nat) (st : TrackerRunningStatus) : Thread -> Prop :=
  | commit_stop : commit_next len k st Sleeping
  | commit_more sc bcf : (S k < len)%nat -> commit_next len k st (Committing (S k) st sc bcf).

Lemma notified_next conf k st sc R bcf x :
  exists t, (notified conf k st sc R bcf x).2 = set_thread t x
    /\ notify_next (length (servers conf)) k st t /\ (stops R bcf = true -> t = Sleeping).
Proof using Type.
  unfold notified, stops. destruct (negb (R =? 0) && negb bcf); [exists Sleeping; split_and!; try done; constructor|].
  destruct (Nat.ltb_spec (S k) (length (servers conf))); [eexists; split_and!; try done; by constructor|].
  destruct (_ =? 0); (eexists; split_and!; try done; by constructor).
Qed.

Lemma commit_done_next conf k st sc R bcf x :
  exists t, (commit_done conf k st sc R bcf x).2 = set_thread t x
    /\ commit_next (length (servers conf)) k st t /\ (stops R bcf = true -> t = Sleeping).
Proof using Type.
  unfold commit_done, stops. destruct (negb (R =? 0) && negb bcf); [exists Sleeping; split_and!; try done; constructor|].
  destruct (Nat.ltb_spec (S k) (length (servers conf))); (eexists; split_and!; try done; by constructor).
Qed.

Lemma entry_lt n m k conf : confs !! n = Some conf -> entry n m k -> (k < length (servers conf))%nat.
Proof using Type. intros Hn (? & s & ? & Hs & _). simplify_eq. by eapply lookup_lt_Some. Qed.

Lemma notify_round n conf p k st sc bcf x x' :
  confs !! n = Some conf -> thread x = Notifying k st sc bcf -> entry n p k ->
  notify_next (length (servers conf)) k st (thread x') ->
  resting x' \/ forall a, (a < length confs)%nat ->
    (notified_to n x' a <-> notified_to n x a \/ a = p) /\ ~ committed_to n x' a /\ ~ committed_to n x a.
Proof using Hok.
  intros Hn Hx Hp Hnext. unfold resting, notified_to, committed_to. rewrite Hx.
  destruct Hnext as [|sc' bcf' Hlt|bcf' Hle]; [by left|right..]; intros a Ha.
  - split; [|tauto]. split.
    + intros (j & Hj & Hlt'). destruct (decide (j = k)) as [->|]; [right|left; exists j; split; [done|lia]].
      by apply (ok_owner_unique Hok n _ _ k).
    + intros [(j & Hj & Hlt')| ->]; [exists j|exists k]; (split; [done|lia]).
  - split; [|split; [intros (j & _ & Hj); lia|tauto]]. split; [intros _|done].
    apply lookup_lt_Some in Hn as Hnl. destruct (ok_listed Hok n a Hnl Ha) as (j & Hj).
    pose proof (entry_lt _ _ _ _ Hn Hj). destruct (decide (j = k)) as [->|]; [right|left; exists j; split; [done|lia]].
    by apply (ok_owner_unique Hok n _ _ k).
Qed.

Lemma commit_round n conf p k st sc bcf x x' :
  thread x = Committing k st sc bcf -> entry n p k ->
  commit_next (length (servers conf)) k st (thread x') ->
  resting x' \/ forall a,
    notified_to n x' a /\ notified_to n x a /\ (committed_to n x' a <-> committed_to n x a \/ a = p).
Proof using Hok.
  intros Hx Hp Hnext. unfold resting, notified_to, committed_to. rewrite Hx.
  destruct Hnext as [|sc' bcf' Hlt]; [by left|right]; intros a. split_and!; [done..|]. split.
  - intros (j & Hj & Hlt'). destruct (decide (j = k)) as [->|]; [right|left; exists j; split; [done|lia]].
    by apply (ok_owner_unique Hok n _ _ k).
  - intros [(j & Hj & Hlt')| ->]; [exists j|exists k]; (split; [done|lia]).
Qed.

(** Calls to a third tracker are quiet. *)
Lemma quiet_notify n conf p k st sc bcf x x' m :
  confs !! n = Some conf -> thread x = Notifying k st sc bcf -> entry n p k ->
  notify_next (length (servers conf)) k st (thread x') ->
  g_if_leader_self x' = g_if_leader_self x -> g_next_leader_index x' = g_next_leader_index x ->
  (n < length confs)%nat -> (m < length confs)%nat -> p <> n -> p <> m -> quiet n x x' m.
Proof using Hok.
  intros Hn Hx Hp Hnext HL Hg Hnl Hml Hpn Hpm. split; [by rewrite HL| |].
  - destruct (notify_round n conf p k st sc bcf x x' Hn Hx Hp Hnext) as [|Hr]; [by left|right].
    intros a Ha. destruct (Hr a) as (Hna & Hc & Hc'); [by destruct Ha; subst|]. rewrite Hna. naive_solver.
  - intros a _. unfold next_is. by rewrite Hg.
Qed.

Lemma quiet_commit n conf p k st sc bcf x x' m :
  thread x = Committing k st sc bcf -> entry n p k ->
  commit_next (length (servers conf)) k st (thread x') ->
  g_if_leader_self x' = g_if_leader_self x -> g_next_leader_index x' = g_next_leader_index x ->
  p <> n -> p <> m -> quiet n x x' m.
Proof using Hok.
  intros Hx Hp Hnext HL Hg Hpn Hpm. split; [by rewrite HL| |].
  - destruct (commit_round n conf p k st sc bcf x x' Hx Hp Hnext) as [|Hr]; [by left|right].
    intros a Ha. destruct (Hr a) as (Hna & Hna' & Hc). rewrite Hc. naive_solver.
  - intros a _. unfold next_is. by rewrite Hg.
Qed.

(** A tracker that another one notifies or commits, seen from the rest. *)
Lemma quiet_same_thread n x x' m :
  thread x' = thread x -> (g_if_leader_self x' = true -> g_if_leader_self x = true) ->
  (forall a, a = n \/ a = m -> next_is n x' a -> next_is n x a) -> quiet n x x' m.
Proof using Type. intros Ht HL Hn. split; [done| |done]. right. intros a _. unfold notified_to, committed_to. by rewrite Ht. Qed.

(** ** The four ways two trackers meet. *)

(** Before its own commit a candidate is not the leader. *)
Lemma candidate_not_leader n x :
  node_ok n x -> ~ resting x -> ~ committed_to n x n -> g_if_leader_self x = false.
Proof using Type.
  intros Hx Hr Hc. destruct (g_if_leader_self x) eqn:E; [|done].
  destruct (node_leader _ _ Hx E) as (_ & _ & _ & [Ht|?]); [|done].
  exfalso. apply Hr. unfold resting. by rewrite Ht.
Qed.

Lemma next_is_set n x a j : g_next_leader_index x = Z.of_nat j -> entry n a j -> forall b, next_is n x b <-> b = a.
Proof using Hok.
  intros Hg Hj b. split.
  - intros (j' & Hj' & E). rewrite Hg in E. apply Nat2Z.inj in E as <-. by apply (ok_owner_unique Hok n _ _ j).
  - intros ->. by exists j.
Qed.

Lemma next_is_none n x : g_next_leader_index x = -1 -> forall b, ~ next_is n x b.
Proof using Type. intros Hg b (j & _ & E). lia. Qed.

Lemma pair_notify_self n conf k st sc bcf x x' m y :
  confs !! n = Some conf -> thread x = Notifying k st sc bcf -> entry n n k ->
  notify_next (length (servers conf)) k st (thread x') ->
  g_if_leader_self x' = g_if_leader_self x -> g_next_leader_index x' = Z.of_nat k ->
  (n < length confs)%nat -> (m < length confs)%nat -> n <> m ->
  node_ok n x -> pair_ok n x m y -> pair_ok n x' m y.
Proof using Hok.
  intros Hn Hx Hk Hnext HL Hg Hnl Hml Hnm Hok_x [P1 P2 P3 P4].
  assert (HLx : g_if_leader_self x = false).
  { apply (candidate_not_leader n x Hok_x); unfold resting, committed_to; rewrite Hx; tauto. }
  rewrite HLx in HL. pose proof (next_is_set n x' n k Hg Hk) as Hn'.
  destruct (notify_round n conf n k st sc bcf x x' Hn Hx Hk Hnext) as [Hr|Hround]; [by apply pair_ok_sym, pair_ok_idle|].
  destruct (Hround n Hnl) as (Nn & Cn & Cn'). destruct (Hround m Hml) as (Nm & Cm & Cm').
  assert (Nm' : notified_to n x' m <-> notified_to n x m) by naive_solver.
  assert (Nn' : ~ notified_to n x n).
  { unfold notified_to. rewrite Hx. intros (j & Hj & Hlt). rewrite (entry_unique _ _ _ _ Hj Hk) in Hlt. lia. }
  split; rewrite ?HL; try done.
  - rewrite Nm'. intros HLy HN _. destruct (P3 HLy HN Cn') as [(?&?&?&?)|(? & _)]; [left|done]. by rewrite Nm'.
  - rewrite Nm'. intros _ HN _ HNm HNn HCm.
    assert (Hdec : next_is m y n \/ ~ next_is m y n).
    { destruct (ok_listed Hok m n Hml Hnl) as (j & Hj). destruct (decide (g_next_leader_index y = Z.of_nat j)); [left; by exists j|right].
      intros (j' & Hj' & E). by rewrite (entry_unique _ _ _ _ Hj' Hj) in E. }
    destruct Hdec as [(j & Hj & E)|Hno].
    + right. right. split_and!; [done..|]. by rewrite (next_is_set m y n j E Hj).
    + left. left. rewrite Nm'. split_and!; [done..|]. unfold notified_to in HN. rewrite Hx in HN.
      destruct HN as (j & Hj & Hlt). exists j, k. done.
Qed.

Lemma pair_notify n conf k st sc bcf x x' m y y' R :
  confs !! n = Some conf -> thread x = Notifying k st sc bcf -> entry n m k ->
  notify_next (length (servers conf)) k st (thread x') -> (R <> 0 -> thread x' = Sleeping) ->
  g_if_leader_self x' = g_if_leader_self x -> g_next_leader_index x' = g_next_leader_index x ->
  (n < length confs)%nat -> (m < length confs)%nat -> n <> m ->
  node_ok n x -> notify_effect m n y R y' -> pair_ok n x m y -> pair_ok n x' m y'.
Proof using Hok.
  intros Hn Hx Hk Hnext Hstop HL Hg Hnl Hml Hnm Hok_x Heff [P1 P2 P3 P4].
  assert (HLx : g_if_leader_self x = false).
  { apply (candidate_not_leader n x Hok_x); unfold resting, committed_to; rewrite Hx; tauto. }
  rewrite HLx in HL.
  destruct (notify_round n conf m k st sc bcf x x' Hn Hx Hk Hnext) as [Hr|Hround]; [by apply pair_ok_sym, pair_ok_idle|].
  destruct Heff as [HR|_ HR|j HLy Hj].
  1,2: apply pair_ok_sym, pair_ok_idle; [|done]; unfold resting; by rewrite Hstop.
  destruct (Hround n Hnl) as (Nn & Cn & Cn').
  pose proof (next_is_set m (set_next_leader_index (Z.of_nat j) y) n j eq_refl Hj) as Hm'.
  split; rewrite ?HL; try done; [cbn; by rewrite HLy|].
  intros _ _ _ HNm HNn HCm. right. right. split_and!; [done..|]. by rewrite Hm'.
Qed.

Lemma pair_commit_self n conf k st sc bcf x x' m y :
  confs !! n = Some conf -> thread x = Committing k st sc bcf -> entry n n k ->
  commit_next (length (servers conf)) k st (thread x') ->
  ((g_next_leader_index x = Z.of_nat k /\ g_if_leader_self x' = true) \/ g_if_leader_self x' = g_if_leader_self x) ->
  g_next_leader_index x' = -1 -> (n < length confs)%nat -> (m < length confs)%nat -> n <> m ->
  node_ok n x -> pair_ok n x m y -> pair_ok n x' m y.
Proof using Hok.
  intros Hn Hx Hk Hnext HL Hg Hnl Hml Hnm Hok_x [P1 P2 P3 P4]. pose proof (next_is_none n x' Hg) as Hno.
  assert (Hcx : ~ committed_to n x n).
  { unfold committed_to. rewrite Hx. intros (j & Hj & Hlt). rewrite (entry_unique _ _ _ _ Hj Hk) in Hlt. lia. }
  assert (HLx : g_if_leader_self x = false).
  { apply (candidate_not_leader n x Hok_x); [unfold resting; by rewrite Hx; tauto|done]. }
  assert (HNx : forall a, notified_to n x a) by (intros; unfold notified_to; by rewrite Hx).
  destruct HL as [[Hgx HL]|HL].
  - assert (Hself : ~ doomed n x m y).
    { intros [(_ & Hc & _ & i & j & Hi & Hj & Hlt)|(_ & _ & Hnn)].
      - apply Hc. unfold committed_to. rewrite Hx. exists i. split; [done|]. by rewrite (entry_unique _ _ _ _ Hk Hj).
      - apply Hnn. by exists k. }
    assert (HLy : g_if_leader_self y = false).
    { destruct (g_if_leader_self y) eqn:E; [|done]. exfalso. apply Hself. by apply P3. }
    assert (Hleft : notified_to m y n -> ~ committed_to m y m -> doomed m y n x').
    { intros HN HC. assert (Hdec : notified_to m y m \/ ~ notified_to m y m).
      { unfold notified_to. destruct (thread y) as [| |k' ? ? ?|]; try tauto.
        destruct (ok_listed Hok m m Hml Hml) as (j & Hj). destruct (decide (j < k')%nat); [left; by exists j|right].
        intros (j' & Hj' & ?). by rewrite (entry_unique _ _ _ _ Hj' Hj) in *. }
      destruct Hdec as [Hm|Hm].
      - destruct (P4 (HNx n) (HNx m) Hcx Hm HN HC) as [?|[(?&?&?&?)|?]]; [done|left|by right]. by split_and!.
      - left. split; [done|]. unfold notified_to, committed_to in *. destruct (thread y) as [| |k' ? ? ?|]; try tauto.
        split; [tauto|]. split; [done|]. destruct HN as (i & Hi & Hlt). destruct (ok_listed Hok m m Hml Hml) as (j & Hj).
        exists i, j. split_and!; [done..|]. destruct (decide (j < k')%nat); [|lia]. exfalso. apply Hm. by exists j. }
    destruct (commit_round n conf n k st sc bcf x x' Hx Hk Hnext) as [Hr|Hround].
    { split; rewrite ?HL, ?HLy; try done. intros Hx'. by apply (resting_notified _ _ _ Hr) in Hx'. }
    destruct (Hround n) as (_ & _ & Cn).
    split; rewrite ?HL, ?HLy; try done. intros _ _ HC. exfalso. apply HC, Cn. by right.
  - rewrite HLx in HL. destruct (commit_round n conf n k st sc bcf x x' Hx Hk Hnext) as [Hr|Hround]; [by apply pair_ok_sym, pair_ok_idle|].
    destruct (Hround n) as (_ & _ & Cn).
    split; rewrite ?HL; try done.
    + intros _ _ HC. exfalso. apply HC, Cn. by right.
    + intros _ _ HC. exfalso. apply HC, Cn. by right.
Qed.

Lemma pair_commit n conf k st sc bcf x x' m y y' R :
  confs !! n = Some conf -> thread x = Committing k st sc bcf -> entry n m k ->
  commit_next (length (servers conf)) k st (thread x') -> (R <> 0 -> thread x' = Sleeping) ->
  g_if_leader_self x' = g_if_leader_self x -> g_next_leader_index x' = g_next_leader_index x ->
  n <> m -> node_ok n x -> commit_effect m n y R y' -> pair_ok n x m y -> pair_ok n x' m y'.
Proof using Hok.
  intros Hn Hx Hk Hnext Hstop HL Hg Hnm Hok_x Heff Hpair.
  destruct Heff as [HR|j Hj Hgy].
  { eapply pair_ok_quiet; [|done]. split; [by rewrite HL|left; unfold resting; by rewrite Hstop|].
    intros a _. unfold next_is. by rewrite Hg. }
  set (y' := set_next_leader_index _ _).
  assert (Hy' : pair_ok n x m y').
  { apply pair_ok_sym, pair_ok_quiet with y; [|by apply pair_ok_sym]. apply quiet_same_thread; [done|done|].
    intros a _ Ha. by apply next_is_none in Ha. }
  destruct (commit_round n conf m k st sc bcf x x' Hx Hk Hnext) as [Hr|Hround].
  { eapply pair_ok_quiet; [|done]. split; [by rewrite HL|by left|]. intros a _. unfold next_is. by rewrite Hg. }
  destruct Hpair as [P1 P2 P3 P4], Hy' as [Q1 Q2 Q3 Q4].
  destruct (Hround n) as (Nn & Nn' & Cn). destruct (Hround m) as (Nm & Nm' & Cm).
  assert (Cn' : committed_to n x' n <-> committed_to n x n) by naive_solver.
  assert (Hnx : forall a, next_is n x' a <-> next_is n x a) by (intros; unfold next_is; by rewrite Hg).
  assert (Hdoomed : doomed n x m y -> doomed n x' m y').
  { intros [(_ & _ & Hc & _)|(?&?&?)]; [exfalso; apply Hc; by exists j|right]. by rewrite Cn', Hnx. }
  assert (Hdoomed' : doomed m y n x -> doomed m y' n x').
  { intros [(?&?&?&?)|(?&?&?)]; [left|right]; split_and!; try done; [by rewrite Hnx|].
    intros Hc. by apply next_is_none in Hc. }
  split; rewrite ?HL, ?Cn'; [done|..].
  - intros HLx HN HC. apply Hdoomed'. by apply P2.
  - intros HLy HN HC. apply Hdoomed. by apply P3.
  - intros _ _ HC HN HN' HC'. destruct (P4 Nn' Nm' HC HN HN' HC'); auto.
Qed.

(** ** Every step keeps the invariant. *)
Record inv (c : list TrackerNode) : Prop := {
  inv_length : length c = length confs;
  inv_node : forall n x, c !! n = Some x -> node_ok n x;
  inv_pair : forall n m x y, n <> m -> c !! n = Some x -> c !! m = Some y -> pair_ok n x m y;
}.

Lemma inv_lt c n x : inv c -> c !! n = Some x -> (n < length confs)%nat.
Proof using Type. intros Hc Hn. rewrite <- (inv_length _ Hc). by eapply lookup_lt_Some. Qed.

Lemma inv_update c n x x' :
  inv c -> c !! n = Some x -> node_ok n x' ->
  (forall m y, m <> n -> c !! m = Some y -> pair_ok n x' m y) -> inv (<[n := x']> c).
Proof using Type.
  intros Hc Hn Hx' Hpair. split.
  - by rewrite length_insert, (inv_length _ Hc).
  - intros m y Hm. apply list_lookup_insert_Some in Hm as [(<- & <- & _)|[_ Hm]]; [done|by apply (inv_node _ Hc)].
  - intros a b y z Hab Ha Hb. apply list_lookup_insert_Some in Ha as [(<- & <- & _)|[Hna Ha]];
      apply list_lookup_insert_Some in Hb as [(<- & <- & _)|[Hnb Hb]]; try done.
    + by apply Hpair.
    + by apply pair_ok_sym, Hpair.
    + by apply (inv_pair _ Hc).
Qed.

Lemma inv_update2 c n p x x' y y' :
  inv c -> n <> p -> c !! n = Some x -> c !! p = Some y -> node_ok n x' -> node_ok p y' -> pair_ok n x' p y' ->
  (forall m z, m <> n -> m <> p -> c !! m = Some z -> pair_ok n x' m z /\ pair_ok p y' m z) ->
  inv (<[n := x']> (<[p := y']> c)).
Proof using Type.
  intros Hc Hnp Hn Hp Hx' Hy' Hxy Hpair. split.
  - by rewrite !length_insert, (inv_length _ Hc).
  - intros m z Hm. apply list_lookup_insert_Some in Hm as [(<- & <- & _)|[_ Hm]]; [done|].
    apply list_lookup_insert_Some in Hm as [(<- & <- & _)|[_ Hm]]; [done|by apply (inv_node _ Hc)].
  - intros a b u v Hab Ha Hb.
    apply list_lookup_insert_Some in Ha as [(<- & <- & _)|[Hna Ha]];
      apply list_lookup_insert_Some in Hb as [(<- & <- & _)|[Hnb Hb]]; try done.
    + apply list_lookup_insert_Some in Hb as [(<- & <- & _)|[Hpb Hb]]; [done|]. by apply Hpair.
    + apply list_lookup_insert_Some in Ha as [(<- & <- & _)|[Hpa Ha]]; [by apply pair_ok_sym|].
      by apply pair_ok_sym, Hpair.
    + apply list_lookup_insert_Some in Ha as [(<- & <- & _)|[Hpa Ha]];
        apply list_lookup_insert_Some in Hb as [(<- & <- & _)|[Hpb Hb]]; try done.
      * by apply Hpair.
      * by apply pair_ok_sym, Hpair.
      * by apply (inv_pair _ Hc).
Qed.

(** A quiet change of one tracker. *)
Lemma inv_quiet c n x x' :
  inv c -> c !! n = Some x -> node_ok n x' ->
  (forall m, m <> n -> (m < length confs)%nat -> quiet n x x' m) -> inv (<[n := x']> c).
Proof using Type.
  intros Hc Hn Hx' Hq. apply (inv_update c n x x' Hc Hn Hx'). intros m y Hm Hy.
  apply pair_ok_quiet with x; [apply Hq; [done|by eapply inv_lt]|]. by apply (inv_pair _ Hc).
Qed.

(** The fields that matter are unchanged. *)
Lemma node_ok_same n x x' :
  node_ok n x -> up x' = up x -> thread x' = thread x -> leader_index x' = leader_index x ->
  g_next_leader_index x' = g_next_leader_index x -> g_if_leader_self x' = g_if_leader_self x -> node_ok n x'.
Proof using Type.
  intros [H1 H2 H3 H4] Eu Et El En Es. split; unfold committed_to in *; rewrite ?Eu, ?Et, ?El, ?En, ?Es in *; done.
Qed.

Lemma node_ok_idle n x : g_if_leader_self x = false -> thread x = Sleeping -> node_ok n x.
Proof using Type. intros HL Ht. split; rewrite ?HL, ?Ht; try done; naive_solver. Qed.

(** A step down, or what is set in a tracker that is not the leader. *)
Lemma node_ok_follow n x x' :
  node_ok n x -> up x' = up x -> thread x' = thread x -> g_if_leader_self x' = false -> node_ok n x'.
Proof using Type.
  intros [H1 H2 H3 H4] Eu Et Es. split; rewrite ?Eu, ?Et, ?Es in *; done.
Qed.

Lemma notify_effect_node n m y y' R : node_ok m y -> notify_effect m n y R y' -> node_ok m y'.
Proof using Type. intros Hy [HR|_ HR|j HL Hj]; [done|by apply (node_ok_follow m y)..]. Qed.

Lemma commit_effect_node n m y y' R : node_ok m y -> commit_effect m n y R y' -> node_ok m y'.
Proof using Type.
  intros Hy [HR|j Hj Hg]; [done|]. destruct (g_if_leader_self y) eqn:HL; [|by apply (node_ok_follow m y)].
  destruct (node_leader _ _ Hy HL) as (_ & E & _). lia.
Qed.

Lemma notify_effect_quiet n m y y' R a :
  notify_effect m n y R y' -> a <> n -> quiet m y y' a \/ n = m.
Proof using Hok.
  intros Heff Han. destruct (decide (n = m)) as [|Hnm]; [by right|left].
  destruct Heff as [HR|_ HR|j HL Hj]; apply quiet_same_thread; try done.
  intros b Hb Hnb. apply (next_is_set m (set_next_leader_index (Z.of_nat j) y) n j eq_refl Hj) in Hnb. naive_solver.
Qed.

Lemma commit_effect_quiet n m y y' R a : commit_effect m n y R y' -> quiet m y y' a.
Proof using Type.
  intros [HR|j Hj Hg]; apply quiet_same_thread; try done.
  intros b _ Hnb. by apply next_is_none in Hnb.
Qed.

(** A candidate that goes on is still the candidate of its round. *)
Lemma node_ok_notify n conf k st sc bcf x x' :
  node_ok n x -> confs !! n = Some conf -> thread x = Notifying k st sc bcf ->
  notify_next (length (servers conf)) k st (thread x') -> up x' = up x -> g_if_leader_self x' = g_if_leader_self x ->
  node_ok n x'.
Proof using Type.
  intros Hx Hn Ht Hnext Eu HL.
  assert (HLx : g_if_leader_self x = false).
  { apply (candidate_not_leader n x Hx); unfold resting, committed_to; rewrite Ht; tauto. }
  pose proof (node_candidate _ _ Hx k st sc bcf (or_introl Ht)) as Hcand.
  pose proof (node_range _ _ Hx k st sc bcf conf (or_introl Ht) Hn) as Hrange.
  split; rewrite ?HL, ?HLx, ?Eu; try done.
  - intros k' st' sc' bcf' [E|E]; rewrite E in Hnext; by inversion Hnext; subst.
  - intros k' st' sc' bcf' conf' [E|E] Hn'; simplify_eq; rewrite E in Hnext; inversion Hnext; subst; [done|lia].
  - intros Hd. by rewrite (node_down _ _ Hx Hd) in Ht.
Qed.

Lemma node_ok_commit n conf k st sc bcf x x' :
  node_ok n x -> confs !! n = Some conf -> thread x = Committing k st sc bcf ->
  commit_next (length (servers conf)) k st (thread x') -> up x' = up x ->
  (g_if_leader_self x' = true -> up x = true /\ g_next_leader_index x' = -1 /\
    (exists j, entry n n j /\ leader_index x' = Z.of_nat j) /\ (committed_to n x n \/ entry n n k)) ->
  node_ok n x'.
Proof using Type.
  intros Hx Hn Ht Hnext Eu HL.
  pose proof (node_candidate _ _ Hx k st sc bcf (or_intror Ht)) as Hcand.
  split; rewrite ?Eu; try done.
  - intros k' st' sc' bcf' [E|E]; rewrite E in Hnext; by inversion Hnext; subst.
  - intros k' st' sc' bcf' conf' [E|E] Hn'; simplify_eq; rewrite E in Hnext; by inversion Hnext; subst.
  - intros HLx'. destruct (HL HLx') as (Hu & Hg & Hj & Hc). split_and!; try done.
    inversion Hnext as [|sc' bcf' Hlt E]; [by left|right]. unfold committed_to in *. rewrite Ht in Hc. rewrite <- E.
    destruct Hc as [(j & Hj' & Hlt')|Hk]; [exists j|exists k]; (split; [done|lia]).
  - intros Hd. by rewrite (node_down _ _ Hx Hd) in Ht.
Qed.

(** A leader that commits the others remains what it is. *)
Lemma node_ok_commit_other n conf k st sc bcf x t :
  node_ok n x -> confs !! n = Some conf -> thread x = Committing k st sc bcf ->
  commit_next (length (servers conf)) k st t -> node_ok n (set_thread t x).
Proof using Type.
  intros Hx Hn Ht Hnext. apply (node_ok_commit n conf k st sc bcf x); [done..|]. cbn. intros HL.
  destruct (node_leader _ _ Hx HL) as (Hu & Hg & Hj & Hc). split_and!; try done.
  destruct Hc as [E|Hc]; [by rewrite E in Ht|by left].
Qed.

(** The status phase. *)
Definition fresh (x : TrackerNode) : Prop :=
  match thread x with Sleeping | GettingStatus _ _ _ | Notifying 0 _ _ _ => True | _ => False end.

Lemma fresh_notified n x a : fresh x -> ~ notified_to n x a /\ ~ committed_to n x a.
Proof using Type.
  unfold fresh, notified_to, committed_to. destruct (thread x) as [| |[|k] ? ? ?|]; try tauto.
  intros _. split; [|tauto]. intros (j & _ & Hj). lia.
Qed.

Lemma quiet_fresh n x x' m :
  fresh x -> fresh x' -> (g_if_leader_self x' = true -> g_if_leader_self x = true) ->
  (g_next_leader_index x' = g_next_leader_index x \/ g_next_leader_index x' = -1) -> quiet n x x' m.
Proof using Type.
  intros Hf Hf' HL Hg. split; [done| |].
  - right. intros a _. pose proof (fresh_notified n x a Hf). pose proof (fresh_notified n x' a Hf'). tauto.
  - intros a _ Ha. destruct Hg as [Hg|Hg]; [unfold next_is in *; by rewrite Hg in Ha|by apply next_is_none in Ha].
Qed.

Lemma status_answered_spec n conf k got result uninit r x :
  confs !! n = Some conf -> node_ok n x -> thread x = GettingStatus k got result ->
  let x' := (status_answered conf k got result uninit r x).2 in
  node_ok n x' /\ fresh x' /\ g_if_leader_self x' = g_if_leader_self x /\ g_next_leader_index x' = g_next_leader_index x.
Proof using CNL.
  intros Hn Hx Ht. cbn zeta.
  assert (HL : g_if_leader_self x = false).
  { destruct (g_if_leader_self x) eqn:E; [|done]. destruct (node_leader _ _ Hx E) as (_ & _ & _ & [E'|E']); [by rewrite E' in Ht|].
    unfold committed_to in E'. by rewrite Ht in E'. }
  assert (Hup : up x = true) by (destruct (up x) eqn:E; [done|]; by rewrite (node_down _ _ Hx E) in Ht).
  assert (Hgo : forall x', g_if_leader_self x' = false -> up x' = true -> resting x' -> g_next_leader_index x' = g_next_leader_index x ->
    node_ok n x' /\ fresh x' /\ g_if_leader_self x' = g_if_leader_self x /\ g_next_leader_index x' = g_next_leader_index x).
  { intros x' HL' Hu' Hr Hg. split_and!; [|by unfold fresh, resting in *; destruct (thread x')|by rewrite HL|done].
    unfold resting in Hr. split; rewrite ?HL', ?Hu'; try done; destruct (thread x'); naive_solver. }
  unfold status_answered. destruct (Nat.ltb_spec (S k) (length (servers conf))); [by apply Hgo|].
  unfold relationship_select_leader. destruct (relationship_get_tracker_leader _ _ _) as [e|st]; [by apply Hgo|].
  destruct (contain_local conf (pTrackerServer st)) eqn:El.
  - apply (contain_local_entry _ _ _ Hn) in El. cbn. split_and!; [|done..].
    split; cbn; rewrite ?HL, ?Hup; try done.
    + intros k' st' sc' bcf' [E|E]; by simplify_eq.
    + intros k' st' sc' bcf' conf' [E|E] Hn'; simplify_eq. apply (entry_lt _ _ _ _ Hn) in El. lia.
  - destruct (if_leader st); by apply Hgo.
Qed.

(** ** The calls of a round. *)
Section call.
Context (c : list TrackerNode) (n : nat) (conf : TrackerConf) (x : TrackerNode).
Context (Hc : inv c) (Hrun : runs confs c n conf x).

Lemma run_facts : confs !! n = Some conf /\ c !! n = Some x /\ (n < length confs)%nat /\ node_ok n x.
Proof using Hc Hrun.
  destruct Hrun as (Hn & Hx & _). split_and!; try done; [by eapply lookup_lt_Some|by apply (inv_node _ Hc)].
Qed.

(** The server of index [k] is another tracker of the cluster. *)
Lemma other_server k st s :
  entry n n (pTrackerServer st) -> pTrackerServer st <> k -> servers conf !! k = Some s ->
  forall p, is_server confs s p -> entry n p k /\ p <> n.
Proof using Hok Hrun.
  intros Hcand Hk Hs p Hp. destruct Hrun as (Hn & _). assert (He : entry n p k) by (by exists conf, s).
  split; [done|]. intros ->. by apply Hk, (entry_unique n n).
Qed.

Lemma inv_notify_self k st sc bcf :
  thread x = Notifying k st sc bcf -> pTrackerServer st = k ->
  inv (<[n := ((let! r := notify_self k in notified conf k st sc r bcf) x).2]> c).
Proof using Hok Hc Hrun.
  intros Ht Hk. destruct run_facts as (Hn & Hx & Hnl & Hok_x).
  pose proof (node_candidate _ _ Hok_x k st sc bcf (or_introl Ht)) as Hcand. rewrite Hk in Hcand.
  destruct (notified_next conf k st sc 0 bcf (set_next_leader_index (Z.of_nat k) x)) as (t & E & Hnext & _).
  change ((bind (notify_self k) _ x).2) with ((notified conf k st sc 0 bcf (set_next_leader_index (Z.of_nat k) x)).2).
  rewrite E. apply (inv_update c n x _ Hc Hx).
  - by apply (node_ok_notify n conf k st sc bcf x).
  - intros m y Hm Hy. apply (pair_notify_self n conf k st sc bcf x); try done; [by eapply inv_lt|by apply (inv_pair _ Hc)].
Qed.

Lemma inv_notify_fails k st sc bcf s e :
  thread x = Notifying k st sc bcf -> pTrackerServer st <> k -> servers conf !! k = Some s -> connect_fails confs false c s e ->
  inv (<[n := (notified conf k st sc e true x).2]> c).
Proof using Hok Hc Hrun.
  intros Ht Hk Hs (_ & [Hf|Hdown]); [done|]. destruct run_facts as (Hn & Hx & Hnl & Hok_x).
  pose proof (node_candidate _ _ Hok_x k st sc bcf (or_introl Ht)) as Hcand.
  destruct (ok_owner Hok _ _ _ _ Hn Hs) as (p & Hp). destruct (other_server k st s Hcand Hk Hs p Hp) as (He & Hpn).
  destruct (notified_next conf k st sc e true x) as (t & E & Hnext & _). rewrite E.
  apply (inv_update c n x _ Hc Hx); [by apply (node_ok_notify n conf k st sc bcf x)|].
  intros m y Hm Hy. assert (Hok_y : node_ok m y) by by apply (inv_node _ Hc).
  destruct (decide (m = p)) as [->|Hmp].
  - specialize (Hdown p y Hp Hy). apply pair_ok_idle.
    + unfold resting. by rewrite (node_down _ _ Hok_y Hdown).
    + destruct (g_if_leader_self y) eqn:HL; [|done]. destruct (node_leader _ _ Hok_y HL) as (Hu & _). by rewrite Hdown in Hu.
  - apply pair_ok_quiet with x; [|by apply (inv_pair _ Hc)].
    apply (quiet_notify n conf p k st sc bcf); try done. by eapply inv_lt.
Qed.

Lemma inv_notify k st sc bcf s m confm y w r y' :
  thread x = Notifying k st sc bcf -> pTrackerServer st <> k -> servers conf !! k = Some s -> is_server confs s m ->
  runs confs c m confm y -> wire_ok w ->
  rpc_target w (tracker_deal_notify_next_leader IP_ADDRESS_SIZE confm (leader_message IP_ADDRESS_SIZE (pLeader conf st))) y = (r, y') ->
  inv (after_call c n m y' (notified conf k st sc (rpc_result w r) false)).
Proof using Hok Hc Hrun FCL CNL.
  intros Ht Hk Hs Hm (Hcm & Hy & _) Hw E. destruct run_facts as (Hn & Hx & Hnl & Hok_x).
  pose proof (node_candidate _ _ Hok_x k st sc bcf (or_introl Ht)) as Hcand.
  destruct (other_server k st s Hcand Hk Hs m Hm) as (He & Hmn).
  pose proof (notify_effect_spec n conf st m confm y w r y' Hn Hcand Hmn Hcm Hw E) as Heff.
  unfold after_call. rewrite list_lookup_insert_ne, Hx by done.
  destruct (notified_next conf k st sc (rpc_result w r) false x) as (t & Et & Hnext & Hstop). rewrite Et.
  assert (Hok_y : node_ok m y) by by apply (inv_node _ Hc).
  apply (inv_update2 c n m x _ y); try done.
  - by apply (node_ok_notify n conf k st sc bcf x).
  - by eapply notify_effect_node.
  - apply (pair_notify n conf k st sc bcf x _ m y y' (rpc_result w r)); try done.
    + intros HR. cbn. apply Hstop. unfold stops. destruct (Z.eqb_spec (rpc_result w r) 0); [done|by rewrite andb_true_r].
    + by eapply inv_lt.
    + by apply (inv_pair _ Hc).
  - intros a z Han Ham Hz. pose proof (inv_lt _ _ _ Hc Hz). split.
    + apply pair_ok_quiet with x; [|by apply (inv_pair _ Hc)]. by apply (quiet_notify n conf m k st sc bcf).
    + destruct (notify_effect_quiet n m y y' _ a Heff Han) as [Hq|]; [|done].
      apply pair_ok_quiet with y; [done|]. by apply (inv_pair _ Hc).
Qed.

Lemma inv_commit_self k st sc bcf :
  thread x = Committing k st sc bcf -> pTrackerServer st = k ->
  inv (<[n := ((let! r := commit_self k in commit_done conf k st sc r bcf) x).2]> c).
Proof using Hok Hc Hrun.
  intros Ht Hk. destruct run_facts as (Hn & Hx & Hnl & Hok_x). destruct (Hrun) as (_ & _ & Hup).
  pose proof (node_candidate _ _ Hok_x k st sc bcf (or_intror Ht)) as Hcand. rewrite Hk in Hcand.
  assert (Hgo : forall x1 R, up x1 = up x -> g_next_leader_index x1 = -1 ->
    (g_next_leader_index x = Z.of_nat k /\ g_if_leader_self x1 = true /\ leader_index x1 = Z.of_nat k) \/ g_if_leader_self x1 = g_if_leader_self x ->
    inv (<[n := (commit_done conf k st sc R bcf x1).2]> c)).
  { intros x1 R Hu1 Hg1 HL1. destruct (commit_done_next conf k st sc R bcf x1) as (t & E & Hnext & _). rewrite E.
    apply (inv_update c n x _ Hc Hx).
    - apply (node_ok_commit n conf k st sc bcf x); try done. cbn. intros HL. split_and!; [done|done| |by right].
      destruct HL1 as [(_ & _ & Hl)|HL1]; [by exists k|]. exfalso. rewrite HL1 in HL.
      destruct (node_leader _ _ Hok_x HL) as (_ & _ & _ & [E'|Hcx]); [by rewrite E' in Ht|].
      unfold committed_to in Hcx. rewrite Ht in Hcx. destruct Hcx as (j & Hj & Hlt).
      rewrite (entry_unique _ _ _ _ Hj Hcand) in Hlt. lia.
    - intros m y Hm Hy. apply (pair_commit_self n conf k st sc bcf x); try done.
      + cbn. destruct HL1 as [(? & ? & _)|]; [by left|by right].
      + by eapply inv_lt.
      + by apply (inv_pair _ Hc). }
  unfold commit_self, relationship_set_tracker_leader. unfold bind at 1 2. cbn [gets].
  destruct (Z.eqb_spec (g_next_leader_index x) (Z.of_nat k)) as [Eg|Eg]; cbn [negb].
  - apply (Hgo (count_leader_chg (set_if_leader_self true (set_next_leader_index (-1) (set_leader_index (g_next_leader_index x) x)))) 0); try done.
    left. done.
  - apply (Hgo (set_next_leader_index (-1) x) EBUSY); try done. by right.
Qed.

Lemma inv_commit_fails k st sc bcf s e :
  thread x = Committing k st sc bcf -> pTrackerServer st <> k -> servers conf !! k = Some s -> connect_fails confs false c s e ->
  inv (<[n := (commit_done conf k st sc e true x).2]> c).
Proof using Hok Hc Hrun.
  intros Ht Hk Hs (_ & [Hf|Hdown]); [done|]. destruct run_facts as (Hn & Hx & Hnl & Hok_x).
  pose proof (node_candidate _ _ Hok_x k st sc bcf (or_intror Ht)) as Hcand.
  destruct (ok_owner Hok _ _ _ _ Hn Hs) as (p & Hp). destruct (other_server k st s Hcand Hk Hs p Hp) as (He & Hpn).
  destruct (commit_done_next conf k st sc e true x) as (t & E & Hnext & _). rewrite E.
  apply (inv_update c n x _ Hc Hx); [by apply (node_ok_commit_other n conf k st sc bcf x)|].
  intros m y Hm Hy. assert (Hok_y : node_ok m y) by by apply (inv_node _ Hc).
  destruct (decide (m = p)) as [->|Hmp].
  - specialize (Hdown p y Hp Hy). apply pair_ok_idle.
    + unfold resting. by rewrite (node_down _ _ Hok_y Hdown).
    + destruct (g_if_leader_self y) eqn:HL; [|done]. destruct (node_leader _ _ Hok_y HL) as (Hu & _). by rewrite Hdown in Hu.
  - apply pair_ok_quiet with x; [|by apply (inv_pair _ Hc)]. by apply (quiet_commit n conf p k st sc bcf).
Qed.

Lemma inv_commit k st sc bcf s m confm y w r y' :
  thread x = Committing k st sc bcf -> pTrackerServer st <> k -> servers conf !! k = Some s -> is_server confs s m ->
  runs confs c m confm y -> wire_ok w ->
  rpc_target w (tracker_deal_commit_next_leader IP_ADDRESS_SIZE confm (leader_message IP_ADDRESS_SIZE (pLeader conf st))) y = (r, y') ->
  inv (after_call c n m y' (commit_done conf k st sc (rpc_result w r) false)).
Proof using Hok Hc Hrun FCL CNL.
  intros Ht Hk Hs Hm (Hcm & Hy & _) Hw E. destruct run_facts as (Hn & Hx & Hnl & Hok_x).
  pose proof (node_candidate _ _ Hok_x k st sc bcf (or_intror Ht)) as Hcand.
  destruct (other_server k st s Hcand Hk Hs m Hm) as (He & Hmn).
  pose proof (commit_effect_spec n conf st m confm y w r y' Hn Hcand Hmn Hcm Hw E) as Heff.
  unfold after_call. rewrite list_lookup_insert_ne, Hx by done.
  destruct (commit_done_next conf k st sc (rpc_result w r) false x) as (t & Et & Hnext & Hstop). rewrite Et.
  assert (Hok_y : node_ok m y) by by apply (inv_node _ Hc).
  apply (inv_update2 c n m x _ y); try done.
  - by apply (node_ok_commit_other n conf k st sc bcf x).
  - by eapply commit_effect_node.
  - apply (pair_commit n conf k st sc bcf x _ m y y' (rpc_result w r)); try done.
    + intros HR. cbn. apply Hstop. unfold stops. destruct (Z.eqb_spec (rpc_result w r) 0); [done|by rewrite andb_true_r].
    + by apply (inv_pair _ Hc).
  - intros a z Han Ham Hz. split.
    + apply pair_ok_quiet with x; [|by apply (inv_pair _ Hc)]. by apply (quiet_commit n conf m k st sc bcf).
    + apply pair_ok_quiet with y; [by eapply commit_effect_quiet|]. by apply (inv_pair _ Hc).
Qed.
End call.

(** The changes of one tracker that no pair depends on. *)
Lemma inv_plain c n x x' :
  inv c -> c !! n = Some x -> node_ok n x' -> thread x' = thread x -> g_next_leader_index x' = g_next_leader_index x ->
  (g_if_leader_self x' = true -> g_if_leader_self x = true) -> inv (<[n := x']> c).
Proof using Type.
  intros Hc Hx Hx' Ht Hg HL. apply (inv_quiet c n x x' Hc Hx Hx'). intros m _ _. apply quiet_same_thread; [done..|].
  intros a _. unfold next_is. by rewrite Hg.
Qed.

Lemma inv_idle c n x x' :
  inv c -> c !! n = Some x -> g_if_leader_self x' = false -> thread x' = Sleeping -> inv (<[n := x']> c).
Proof using Type.
  intros Hc Hx HL Ht. apply (inv_update c n x x' Hc Hx); [by apply node_ok_idle|].
  intros m y _ _. apply pair_ok_sym, pair_ok_idle; [|done]. unfold resting. by rewrite Ht.
Qed.

Lemma inv_status c n conf x k got result uninit r :
  inv c -> runs confs c n conf x -> thread x = GettingStatus k got result ->
  inv (<[n := (status_answered conf k got result uninit r x).2]> c).
Proof using CNL.
  intros Hc (Hn & Hx & _) Ht. pose proof (inv_node _ Hc _ _ Hx) as Hok_x.
  destruct (status_answered_spec n conf k got result uninit r x Hn Hok_x Ht) as (H1 & H2 & H3 & H4).
  apply (inv_quiet c n x _ Hc Hx H1). intros m _ _. apply quiet_fresh; [unfold fresh; by rewrite Ht|done|by rewrite H3|by left].
Qed.

Lemma inv_pinged c n conf x r :
  inv c -> runs confs c n conf x -> (r = 0 \/ g_if_leader_self x = false) -> inv (<[n := (pinged r x).2]> c).
Proof using Type.
  intros Hc (Hn & Hx & _) Hr. pose proof (inv_node _ Hc _ _ Hx) as Hok_x. unfold pinged.
  destruct (Z.eqb_spec r 0) as [->|Hne].
  - apply (inv_plain c n x _ Hc Hx); try done. by apply (node_ok_same n x).
  - destruct Hr as [?|HL]; [done|]. unfold bind at 1. cbn [gets].
    destruct (3 <=? _); (apply (inv_plain c n x _ Hc Hx); try done; by apply (node_ok_follow n x)).
Qed.

Lemma inv_step c c' : inv c -> step IP_ADDRESS_SIZE confs false c c' -> inv c'.
Proof using Hok FCL CNL.
  intros Hc Hstep. destruct Hstep as
    [n conf x Hrun Ht HL Hs|n conf x k got result uninit Hrun Ht Hl|n conf x k got result uninit s e Hrun Ht Hl Hs Hf
    |n conf x k got result uninit s m y w Hrun Ht Hl Hs Hm Hy Hu Hw|n conf x k st sc bcf Hrun Ht Hk
    |n conf x k st sc bcf s e Hrun Ht Hk Hs Hf|n conf x k st sc bcf s m confm y w r y' Hrun Ht Hk Hs Hm Hy Hw E
    |n conf x k st sc bcf Hrun Ht Hk|n conf x k st sc bcf s e Hrun Ht Hk Hs Hf
    |n conf x k st sc bcf s m confm y w r y' Hrun Ht Hk Hs Hm Hy Hw E|n conf x Hrun Ht Hi HL
    |n conf x s e Hrun Ht Hi HL Hs Hf|n conf x s m y w fits body_ok Hrun Ht Hi HL Hs Hm Hy Hu Hw|n conf x Hrun
    |n x t g Hx|n x Hx|n x time last groups Hx Hu].
  - destruct (Hrun) as (Hn & Hx & Hu). pose proof (inv_node _ Hc _ _ Hx) as Hok_x.
    assert (HLx : g_if_leader_self x = false).
    { destruct (g_if_leader_self x) eqn:E; [|done]. destruct (node_leader _ _ Hok_x E) as (_ & _ & (j & _ & Ej) & _). lia. }
    apply (inv_quiet c n x _ Hc Hx).
    + split; cbn; rewrite ?HLx, ?Hu; naive_solver.
    + intros m _ _. apply quiet_fresh; [unfold fresh; by rewrite Ht|done|done|by left].
  - by eapply inv_status.
  - by eapply inv_status.
  - by eapply inv_status.
  - by eapply inv_notify_self.
  - by eapply inv_notify_fails.
  - by eapply inv_notify.
  - by eapply inv_commit_self.
  - by eapply inv_commit_fails.
  - by eapply inv_commit.
  - eapply inv_pinged; eauto.
  - eapply inv_pinged; eauto.
  - eapply inv_pinged; eauto.
  - destruct (Hrun) as (Hn & Hx & Hu). pose proof (inv_node _ Hc _ _ Hx) as Hok_x.
    unfold tracker_deal_reselect_leader. unfold bind at 1. cbn [gets].
    destruct (g_if_leader_self x) eqn:HL; cbn [negb]; (apply (inv_plain c n x _ Hc Hx); [|done|done|done]); [|done].
    by apply (node_ok_follow n x).
  - apply (inv_plain c n x _ Hc Hx); try done. apply (node_ok_same n x); try done. by apply (inv_node _ Hc).
  - by apply (inv_idle c n x).
  - by apply (inv_idle c n x).
Qed.

Lemma inv_reachable c : reachable IP_ADDRESS_SIZE confs false c -> inv c.
Proof using Hok FCL CNL.
  induction 1 as [c Hl Hd|c c' _ IH Hstep]; [|by eapply inv_step].
  assert (Hdown : forall n x, c !! n = Some x -> g_if_leader_self x = false /\ thread x = Sleeping).
  { intros n x Hx. rewrite Forall_lookup in Hd. by destruct (Hd n x Hx) as (last & groups & ->). }
  split; [done|..].
  - intros n x Hx. by apply node_ok_idle; apply (Hdown n x Hx).
  - intros n m x y _ _ Hy. destruct (Hdown m y Hy) as [HL Ht]. apply pair_ok_idle; [|done]. unfold resting. by rewrite Ht.
Qed.
End safe.

(** C22: When every tracker lists every tracker once and connections to running
    trackers succeed, at most one tracker is the leader at any time: in every
    interleaving of elections, pings, lost requests and responses, crashes and
    restarts. *)
Theorem one_tracker_leader `{FastCommonLaws} `{ConnectionsLaws} IP_ADDRESS_SIZE confs c n m x y :
  cluster_ok IP_ADDRESS_SIZE confs ->
  reachable IP_ADDRESS_SIZE confs false c ->
  c !! n = Some x -> c !! m = Some y -> g_if_leader_self x = true -> g_if_leader_self y = true -> n = m.
Proof.
  intros Hok Hc Hx Hy HLx HLy. destruct (decide (n = m)) as [|Hnm]; [done|]. exfalso.
  by apply (pair_one _ _ _ _ _ (inv_pair _ _ (inv_reachable _ _ Hok c Hc) n m x y Hnm Hx Hy)).
Qed.
