(* ===== verification/TrackerChoice.v ===== *)
(** * Which tracker is chosen.

    [relationship_get_tracker_leader] picks a status of the highest rank, and
    trackers that collect the same statuses pick the same tracker, whatever
    the order of their server lists. *)

From S2P Require Import Prelude TrunkShared FastCommon ServerInfo TrackerElection.

(** ** Sorting with an order that is transitive on the values at hand. *)
Section sorted.
Context {A : Type} (R : A -> A -> Prop) (P : A -> Prop).
Context (Htrans : forall a b c, P a -> P b -> P c -> R a b -> R b c -> R a c).

Lemma Sorted_last_above l x : Sorted R l -> Forall P l -> last l = Some x -> forall y, y ∈ l -> y = x \/ R y x.
Proof using Htrans.
  induction 1 as [|a l Hs IH Hhd]; intros HP Hl y Hy; [done|].
  apply Forall_cons in HP as [Pa HP]. destruct l as [|b l].
  { simplify_eq/=. apply list_elem_of_singleton in Hy. by left. }
  rewrite last_cons_cons in Hl. specialize (IH HP Hl).
  assert (Px : P x).
  { rewrite Forall_forall in HP. apply HP. by apply last_Some_elem_of. }
  apply elem_of_cons in Hy as [->|Hy]; [right|auto]. apply HdRel_inv in Hhd.
  destruct (IH b (list_elem_of_here _ _)) as [<-|Hb]; [done|]. apply Forall_cons in HP as [Pb _]. by apply (Htrans a b x).
Qed.
End sorted.

Section choice.
Context `{CN : Connections}.

(** What the rank of a status depends on. *)
Definition rank (conf : TrackerConf) (st : TrackerRunningStatus) : bool * Z * Z * ConnectionInfo :=
  (if_leader st, running_time st, restart_interval st, pLeader conf st).

Definition status_ok (conf : TrackerConf) (st : TrackerRunningStatus) : Prop :=
  0 <= running_time st < 2 ^ 31 /\ 0 <= restart_interval st < 2 ^ 31 /\ 0 <= port (pLeader conf st) < 65536.

Definition addr_below (a b : ConnectionInfo) : Prop :=
  memcmp (ip_addr a) (ip_addr b) < 0 \/ (ip_addr a = ip_addr b /\ port a <= port b).

(** A leader ranks above the others, then who runs longer, who was down less
    long, and last the address decides. *)
Definition ranks_below (a b : bool * Z * Z * ConnectionInfo) : Prop :=
  let '(la, ra, ia, ca) := a in
  let '(lb, rb, ib, cb) := b in
  (la = false /\ lb = true) \/
  (la = lb /\ (ra < rb \/ (ra = rb /\ (ib < ia \/ (ia = ib /\ addr_below ca cb))))).

Lemma addr_below_trans a b c : addr_below a b -> addr_below b c -> addr_below a c.
Proof using Type.
  unfold addr_below. intros [H1|[E1 H1]] [H2|[E2 H2]]; [left; by eapply memcmp_trans|left; by rewrite <- E2|left; by rewrite E1|right].
  split; [congruence|lia].
Qed.

Lemma ranks_below_trans a b c : ranks_below a b -> ranks_below b c -> ranks_below a c.
Proof using Type.
  destruct a as [[[la ra] ia] ca], b as [[[lb rb] ib] cb], c as [[[lc rc] ic] cc]. unfold ranks_below.
  intros [[-> ->]|[-> H1]] [[E ->]|[-> H2]]; try (exfalso; congruence); [by left|by left|right]. split; [done|].
  destruct H1 as [?|[-> [?|[-> ?]]]], H2 as [?|[-> [?|[-> ?]]]]; try (by left; lia); [right|right|right|right];
    (split; [done|]); [left; lia|by left|by left|right]. split; [done|]. by eapply addr_below_trans.
Qed.

Lemma ranks_below_antisym a b : ranks_below a b -> ranks_below b a -> a = b.
Proof using Type.
  destruct a as [[[la ra] ia] [ipa pa]], b as [[[lb rb] ib] [ipb pb]]. unfold ranks_below, addr_below. cbn.
  intros [[-> ->]|[-> H1]] [[E ?]|[El H2]]; try (exfalso; congruence).
  destruct H1 as [Hr|[-> [Hi|[-> Ha]]]], H2 as [Hr2|[Er [Hi2|[Ei Hb]]]]; try lia. clear Er Ei.
  destruct Ha as [H1|[E1 Hp]].
  - destruct Hb as [H2|[E2 Hp2]]; [apply memcmp_antisym in H2; lia|]. rewrite E2, memcmp_refl in H1. lia.
  - destruct Hb as [H2|[E2 Hp2]]; [rewrite E1, memcmp_refl in H2; lia|]. subst. by replace pa with pb by lia.
Qed.

Lemma cmp_rank conf a b :
  status_ok conf a -> status_ok conf b -> relationship_cmp_tracker_status conf a b <= 0 <-> ranks_below (rank conf a) (rank conf b).
Proof using Type.
  intros (Ra & Ia & Pa) (Rb & Ib & Pb). unfold relationship_cmp_tracker_status, ranks_below, rank, addr_below.
  rewrite !int32_id by (unfold is_int32; lia).
  assert (Hm : memcmp (ip_addr (pLeader conf a)) (ip_addr (pLeader conf b)) = 0 <->
    ip_addr (pLeader conf a) = ip_addr (pLeader conf b)) by apply memcmp_eq_0.
  set (d := memcmp _ _) in *. clearbody d.
  destruct (if_leader a), (if_leader b); cbn [negb Z.sub Z.opp Z.add Z.eqb Z.pos_sub]; try naive_solver lia.
  all: destruct (Z.eqb_spec (running_time a - running_time b) 0), (Z.eqb_spec (restart_interval b - restart_interval a) 0), (Z.eqb_spec d 0);
    cbn [negb]; naive_solver lia.
Qed.

Lemma int32_sub_total u v :
  (int32 (u - v) = 0 /\ int32 (v - u) = 0) \/
  (int32 (u - v) <> 0 /\ int32 (v - u) <> 0 /\ (int32 (u - v) <= 0 \/ int32 (v - u) <= 0)).
Proof using Type.
  unfold int32. replace (v - u) with (- (u - v)) by lia. generalize (u - v). intros d.
  change (2 ^ 31) with 2147483648. change (2 ^ 32) with 4294967296.
  pose proof (Z.div_mod (d + 2147483648) 4294967296 ltac:(lia)). pose proof (Z.div_mod (- d + 2147483648) 4294967296 ltac:(lia)).
  pose proof (Z.mod_pos_bound (d + 2147483648) 4294967296). pose proof (Z.mod_pos_bound (- d + 2147483648) 4294967296).
  lia.
Qed.

Lemma status_le_total conf : Total (status_le conf).
Proof using Type.
  intros a b. unfold status_le, relationship_cmp_tracker_status.
  destruct (if_leader a), (if_leader b);
    change (1 - 1 =? 0) with true; change (0 - 0 =? 0) with true; change (1 - 0 =? 0) with false;
    change (0 - 1 =? 0) with false; cbn [negb]; try lia.
  all: destruct (int32_sub_total (running_time a) (running_time b)) as [[-> ->]|(H1 & H2 & H3)];
    [cbn [negb Z.eqb]|by rewrite (proj2 (Z.eqb_neq _ _) H1), (proj2 (Z.eqb_neq _ _) H2)].
  all: destruct (int32_sub_total (restart_interval b) (restart_interval a)) as [[-> ->]|(H1 & H2 & H3)];
    [cbn [negb Z.eqb]|by rewrite (proj2 (Z.eqb_neq _ _) H1), (proj2 (Z.eqb_neq _ _) H2)].
  all: set (ca := ip_addr (pLeader conf a)); set (cb := ip_addr (pLeader conf b)).
  all: pose proof (memcmp_antisym ca cb); pose proof (memcmp_antisym cb ca).
  all: destruct (Z.eqb_spec (memcmp ca cb) 0) as [E|E], (Z.eqb_spec (memcmp cb ca) 0) as [E'|E']; cbn [negb]; try lia.
  all: destruct (int32_sub_total (port (pLeader conf a)) (port (pLeader conf b))); lia.
Qed.

(** The tracker chosen ranks highest. *)
Lemma leader_highest conf l r st :
  Forall (status_ok conf) l -> relationship_get_tracker_leader conf l r = inr st ->
  st ∈ l /\ forall st', st' ∈ l -> ranks_below (rank conf st') (rank conf st).
Proof using Type.
  intros Hl E. unfold relationship_get_tracker_leader in E.
  destruct (last (merge_sort (status_le conf) l)) as [x|] eqn:Hlast; [|done]. injection E as ->.
  pose proof (merge_sort_Permutation (status_le conf) l) as Hperm.
  assert (Hst : st ∈ l) by (rewrite <- Hperm; by apply last_Some_elem_of).
  split; [done|]. intros st' Hin.
  assert (Hle : st' = st \/ status_le conf st' st).
  { apply (Sorted_last_above (status_le conf) (status_ok conf)) with (merge_sort (status_le conf) l).
    - intros a b c Ha Hb Hc. unfold status_le. rewrite !cmp_rank by done. apply ranks_below_trans.
    - pose proof (status_le_total conf). apply Sorted_merge_sort; apply _.
    - by rewrite Hperm.
    - done.
    - by rewrite Hperm. }
  rewrite Forall_forall in Hl. destruct Hle as [->|Hle].
  - destruct (rank conf st) as [[[? ?] ?] ?]. right. split; [done|]. right. split; [done|]. right. split; [done|].
    right. split; [done|lia].
  - apply cmp_rank; auto.
Qed.

Lemma rank_shared conf conf' l l' st :
  rank conf <$> l ≡ₚ rank conf' <$> l' -> st ∈ l -> exists x, rank conf st = rank conf' x /\ x ∈ l'.
Proof using Type. intros Hperm Hin. apply list_elem_of_fmap_1. rewrite <- Hperm. by apply list_elem_of_fmap_2. Qed.

(** C24: Two trackers that have collected the same statuses, with their server
    lists in any order, choose the same tracker, and it ranks highest: a leader
    before the others, then the longest running, then the one down the least,
    then by address. *)
Theorem relationship_get_tracker_leader_agree conf conf' l l' r r' st st' :
  Forall (status_ok conf) l -> Forall (status_ok conf') l' -> rank conf <$> l ≡ₚ rank conf' <$> l' ->
  relationship_get_tracker_leader conf l r = inr st -> relationship_get_tracker_leader conf' l' r' = inr st' ->
  rank conf st = rank conf' st' /\ forall x, x ∈ l -> ranks_below (rank conf x) (rank conf st).
Proof using Type.
  intros Hl Hl' Hperm E E'. destruct (leader_highest _ _ _ _ Hl E) as [Hin Hmax].
  destruct (leader_highest _ _ _ _ Hl' E') as [Hin' Hmax']. split; [|done].
  destruct (rank_shared conf conf' l l' st Hperm Hin) as (x & Ex & Hx).
  destruct (rank_shared conf' conf l' l st' (symmetry Hperm) Hin') as (y & Ey & Hy).
  apply ranks_below_antisym; [rewrite Ex; by apply Hmax'|rewrite Ey; by apply Hmax].
Qed.
End choice.
