(* ===== verification/TrackerRound.v ===== *)
(** * An undisturbed election.

    A candidate whose calls are all answered, and that no other candidate
    overtakes, becomes the leader of every tracker. *)

From S2P Require Import Prelude TrunkShared FastCommon TrunkBinlog ServerInfo TrackerElection TrackerSafe.

Local Open Scope c_scope.

(** A deterministic relation that ends comes to its end from everywhere. *)
Lemma rtc_det {A} (R : relation A) x y z :
  (forall a b b', R a b -> R a b' -> b = b') -> rtc R x z -> (forall w, ~ R z w) -> rtc R x y -> rtc R y z.
Proof.
  intros Hdet Hz Hend Hy. revert Hz. induction Hy as [x|x x1 y H1 _ IH]; [done|]. intros Hz.
  destruct Hz as [x|x x2 z H2 Hz]; [by destruct (Hend x1)|]. rewrite (Hdet x x1 x2) in IH by done. auto.
Qed.

Section round.
Context `{FCL : FastCommonLaws} `{CNL : ConnectionsLaws}.
Context (IP_ADDRESS_SIZE : Z) (confs : list TrackerConf).
Context (Hok : cluster_ok IP_ADDRESS_SIZE confs).

(** All trackers know a tracker by the same addresses. *)
Definition same_addresses : Prop := forall n m a k k' confn confm s s',
  confs !! n = Some confn -> confs !! m = Some confm -> servers confn !! k = Some s -> servers confm !! k' = Some s' ->
  is_server confs s a -> is_server confs s' a -> s = s'.
Context (Hsame : same_addresses).

(** The next call of the election thread of tracker [n], answered: what the
    steps of [step] are without failures of the network. *)
Inductive answered_call (n : nat) (c : list TrackerNode) : list TrackerNode -> Prop :=
  | call_notify_self conf x k st sc bcf :
      runs confs c n conf x -> thread x = Notifying k st sc bcf -> pTrackerServer st = k ->
      answered_call n c (<[n := ((let! r := notify_self k in notified conf k st sc r bcf) x).2]> c)
  | call_notify conf x k st sc bcf s m confm y r y' :
      runs confs c n conf x -> thread x = Notifying k st sc bcf -> pTrackerServer st <> k ->
      servers conf !! k = Some s -> is_server confs s m -> runs confs c m confm y ->
      tracker_deal_notify_next_leader IP_ADDRESS_SIZE confm (leader_message IP_ADDRESS_SIZE (pLeader conf st)) y = (r, y') ->
      answered_call n c (after_call c n m y' (notified conf k st sc r false))
  | call_commit_self conf x k st sc bcf :
      runs confs c n conf x -> thread x = Committing k st sc bcf -> pTrackerServer st = k ->
      answered_call n c (<[n := ((let! r := commit_self k in commit_done conf k st sc r bcf) x).2]> c)
  | call_commit conf x k st sc bcf s m confm y r y' :
      runs confs c n conf x -> thread x = Committing k st sc bcf -> pTrackerServer st <> k ->
      servers conf !! k = Some s -> is_server confs s m -> runs confs c m confm y ->
      tracker_deal_commit_next_leader IP_ADDRESS_SIZE confm (leader_message IP_ADDRESS_SIZE (pLeader conf st)) y = (r, y') ->
      answered_call n c (after_call c n m y' (commit_done conf k st sc r false)).

Lemma answered_call_step partition n c c' : answered_call n c c' -> step IP_ADDRESS_SIZE confs partition c c'.
Proof.
  intros [conf x k st sc bcf Hr Ht E|conf x k st sc bcf s m confm y r y' Hr Ht E Hs Hm Hy Hd|conf x k st sc bcf Hr Ht E|
    conf x k st sc bcf s m confm y r y' Hr Ht E Hs Hm Hy Hd].
  - by apply (step_notify_self IP_ADDRESS_SIZE confs partition c n conf x).
  - by apply (step_notify IP_ADDRESS_SIZE confs partition c n conf x k st sc bcf s m confm y Answered r y').
  - by apply (step_commit_self IP_ADDRESS_SIZE confs partition c n conf x).
  - by apply (step_commit IP_ADDRESS_SIZE confs partition c n conf x k st sc bcf s m confm y Answered r y').
Qed.

(** The calls leave no choice. *)
Lemma answered_call_det n c c1 c2 : answered_call n c c1 -> answered_call n c c2 -> c1 = c2.
Proof using Hok.
  assert (forall conf x s k m m', runs confs c n conf x -> servers conf !! k = Some s -> is_server confs s m -> is_server confs s m' -> m = m') as Hown.
  { intros conf x s k m m' (Hn & _) Hs Hm Hm'. apply (ok_owner_unique _ _ Hok n _ _ k); by exists conf, s. }
  intros [conf x k st sc bcf Hr Ht E|conf x k st sc bcf s m confm y r y' Hr Ht E Hs Hm Hy Hd|conf x k st sc bcf Hr Ht E|
    conf x k st sc bcf s m confm y r y' Hr Ht E Hs Hm Hy Hd];
  intros [conf' x' k' st' sc' bcf' Hr' Ht' E'|conf' x' k' st' sc' bcf' s' m' confm' z r' z' Hr' Ht' E' Hs' Hm' Hy' Hd'|conf' x' k' st' sc' bcf' Hr' Ht' E'|
    conf' x' k' st' sc' bcf' s' m' confm' z r' z' Hr' Ht' E' Hs' Hm' Hy' Hd'];
  pose proof Hr as (Hn & Hx & _); pose proof Hr' as (Hn' & Hx' & _); simplify_eq; rewrite Ht in Ht'; simplify_eq; try done.
  - assert (m' = m) as -> by (by eapply Hown). destruct Hy as (? & ? & _), Hy' as (? & ? & _).
    assert (confm' = confm) as -> by congruence. assert (z = y) as -> by congruence. rewrite Hd in Hd'. by injection Hd' as -> ->.
  - assert (m' = m) as -> by (by eapply Hown). destruct Hy as (? & ? & _), Hy' as (? & ? & _).
    assert (confm' = confm) as -> by congruence. assert (z = y) as -> by congruence. rewrite Hd in Hd'. by injection Hd' as -> ->.
Qed.

Lemma answered_call_sleeping n c x c' : c !! n = Some x -> thread x = Sleeping -> ~ answered_call n c c'.
Proof. intros Hx Ht Hc. destruct Hc as [? ? ? ? ? ? Hr Ht2|? ? ? ? ? ? ? ? ? ? ? ? Hr Ht2|? ? ? ? ? ? Hr Ht2|? ? ? ? ? ? ? ? ? ? ? ? Hr Ht2]; destruct Hr as (_ & Hx2 & _); rewrite Hx in Hx2; injection Hx2 as <-; by rewrite Ht in Ht2. Qed.

(** Tracker [m] takes [n] for the leader. *)
Definition follows (m : nat) (y : TrackerNode) (n : nat) : Prop :=
  exists j, entry confs m n j /\ leader_index y = Z.of_nat j.

Lemma next_is_dec m y n : (m < length confs)%nat -> (n < length confs)%nat ->
  exists j, entry confs m n j /\ (next_is confs m y n <-> g_next_leader_index y = Z.of_nat j).
Proof using Hok.
  intros Hm Hn. destruct (ok_listed _ _ Hok m n Hm Hn) as (j & Hj). exists j. split; [done|]. split; [|by exists j].
  intros (j' & Hj' & E). by rewrite (entry_unique _ _ Hok _ _ _ _ Hj Hj').
Qed.

(** The address of a candidate is found by every tracker. *)
Lemma lookup_candidate n conf st m confm :
  confs !! n = Some conf -> entry confs n n (pTrackerServer st) -> confs !! m = Some confm ->
  exists j, fdfs_get_tracker_leader_index_ex (servers confm) (ip_addr (pLeader conf st)) (port (pLeader conf st)) = Z.of_nat j
    /\ entry confs m n j.
Proof using Hok Hsame CNL.
  intros Hn Hown Hm. destruct (candidate_leader confs n conf st Hn Hown) as (s & Hs & Hsn & Hc).
  destruct (lookup_leader _ _ Hok m confm n conf _ s n _ Hm Hn Hs Hsn Hc) as [E|?]; [exfalso|done].
  apply lookup_lt_Some in Hm as Hml. apply lookup_lt_Some in Hn as Hnl.
  destruct (ok_listed _ _ Hok m n Hml Hnl) as (j & confm' & s' & Hm' & Hs' & Hsn'). simplify_eq.
  assert (s' = s) as -> by by eapply (Hsame m n).
  destruct (leader_index_from_spec (servers confm) (ip_addr (pLeader conf st)) (port (pLeader conf st)) 0) as [[_ Hno]|(i & ? & Ei & _)].
  - specialize (Hno s (list_elem_of_lookup_2 _ _ _ Hs')). apply not_true_iff_false in Hno. apply Hno, contain_spec. by eexists.
  - unfold fdfs_get_tracker_leader_index_ex in E. lia.
Qed.

Section candidate.
Context (n : nat) (conf : TrackerConf) (st : TrackerRunningStatus).
Context (Hn : confs !! n = Some conf) (Hown : entry confs n n (pTrackerServer st)).

Lemma candidate_address : conn_ok IP_ADDRESS_SIZE (pLeader conf st).
Proof using Hok Hn Hown CNL.
  destruct (candidate_leader confs n conf st Hn Hown) as (s & Hs & Hsn & Hc).
  by destruct (ok_addresses _ _ Hok _ _ _ _ _ _ _ Hn Hs Hsn Hn Hc).
Qed.

Lemma other_is_not_self m confm : m <> n -> confs !! m = Some confm -> is_self confm (pLeader conf st) = false.
Proof using Hok Hn Hown CNL.
  intros Hmn Hm. destruct (candidate_leader confs n conf st Hn Hown) as (s & Hs & Hsn & Hc).
  apply not_true_is_false. intros Hself. by apply Hmn, (is_self_other _ _ Hok n conf _ s n _ m confm Hn Hs Hsn Hc Hm).
Qed.

Lemma notify_other m confm y :
  m <> n -> confs !! m = Some confm -> g_if_leader_self y = false ->
  exists j, entry confs m n j /\
    tracker_deal_notify_next_leader IP_ADDRESS_SIZE confm (leader_message IP_ADDRESS_SIZE (pLeader conf st)) y
      = (0, set_next_leader_index (Z.of_nat j) y).
Proof using Hok Hsame Hn Hown FCL CNL.
  intros Hmn Hm HL. destruct (lookup_candidate n conf st m confm Hn Hown Hm) as (j & E & Hj). exists j. split; [done|].
  unfold tracker_deal_notify_next_leader. rewrite (parse_leader_message _ _ candidate_address), E, of_nat_not_negative.
  unfold bind at 1. cbn [gets]. by rewrite HL.
Qed.

Lemma commit_other m confm y :
  m <> n -> confs !! m = Some confm -> next_is confs m y n ->
  exists j, entry confs m n j /\
    tracker_deal_commit_next_leader IP_ADDRESS_SIZE confm (leader_message IP_ADDRESS_SIZE (pLeader conf st)) y
      = (0, set_next_leader_index (-1) (set_leader_index (Z.of_nat j) y)).
Proof using Hok Hsame Hn Hown FCL CNL.
  intros Hmn Hm (j' & Hj' & Eg). destruct (lookup_candidate n conf st m confm Hn Hown Hm) as (j & E & Hj). exists j. split; [done|].
  unfold tracker_deal_commit_next_leader. rewrite (parse_leader_message _ _ candidate_address), E, of_nat_not_negative.
  unfold bind at 1. cbn [gets]. rewrite (entry_unique _ _ Hok _ _ _ _ Hj' Hj) in Eg. rewrite Eg, Z.eqb_refl. cbn [negb].
  by rewrite (other_is_not_self m confm).
Qed.

(** ** The first loop. *)
Definition quiet_cluster (c : list TrackerNode) : Prop :=
  length c = length confs /\ forall m y, c !! m = Some y -> up y = true /\ g_if_leader_self y = false.

Definition notified_below (k : nat) (c : list TrackerNode) : Prop :=
  forall m j y, entry confs n m j -> (j < k)%nat -> c !! m = Some y -> next_is confs m y n.

(** The next state of the candidate after call [k] succeeded. *)
Definition after_notify (k : nat) (bcf : bool) : Thread :=
  if (S k <? length (servers conf))%nat then Notifying (S k) st (Z.of_nat (S k)) bcf else Committing 0 st 0 bcf.

Lemma notified_success k bcf x : notified conf k st (Z.of_nat k) 0 bcf x = (0, set_thread (after_notify k bcf) x).
Proof using Type.
  unfold notified, after_notify. cbn [negb Z.eqb andb]. destruct (S k <? _)%nat.
  - replace (Z.of_nat k + 1) with (Z.of_nat (S k)) by lia. done.
  - by rewrite (proj2 (Z.eqb_neq (Z.of_nat k + 1) 0)) by lia.
Qed.

Lemma quiet_insert c m y : quiet_cluster c -> up y = true -> g_if_leader_self y = false -> quiet_cluster (<[m := y]> c).
Proof using Type.
  intros [Hlen Hq] Hu HL. split; [by rewrite length_insert|].
  intros a z Ha. apply list_lookup_insert_Some in Ha as [(<- & <- & _)|[_ Ha]]; eauto.
Qed.

Lemma below_insert k c m y y' :
  notified_below k c -> c !! m = Some y -> (next_is confs m y n -> next_is confs m y' n) -> notified_below k (<[m := y']> c).
Proof using Type.
  intros Hb Hm Hy a j z Hj Hlt Ha. apply list_lookup_insert_Some in Ha as [(<- & <- & _)|[_ Ha]]; eauto.
Qed.

Lemma below_S k c m :
  notified_below k c -> entry confs n m k -> (forall y, c !! m = Some y -> next_is confs m y n) -> notified_below (S k) c.
Proof using Hok.
  intros Hb Hk Hy a j z Hj Hlt Ha. destruct (decide (j = k)) as [->|]; [|by apply (Hb a j); [|lia|]].
  rewrite (ok_owner_unique _ _ Hok n _ _ _ Hj Hk) in *. auto.
Qed.

(** The tracker called, as changed, and the candidate, gone on. *)
Lemma notify_call c x k bcf :
  quiet_cluster c -> notified_below k c -> c !! n = Some x -> thread x = Notifying k st (Z.of_nat k) bcf ->
  (k < length (servers conf))%nat ->
  exists c' x' bcf', answered_call n c c' /\ quiet_cluster c' /\ notified_below (S k) c' /\
    c' !! n = Some x' /\ thread x' = after_notify k bcf'.
Proof using Hok Hsame Hn Hown FCL CNL.
  intros [Hlen Hq] Hbelow Hx Ht Hk. destruct (Hq n x Hx) as [Hux HLx].
  assert (Hrun : runs confs c n conf x) by done. apply lookup_lt_Some in Hx as Hnc.
  destruct (decide (pTrackerServer st = k)) as [Ek|Ek].
  - set (x' := set_thread (after_notify k bcf) (set_next_leader_index (Z.of_nat k) x)).
    exists (<[n := x']> c), x', bcf. split_and!; [|by apply quiet_insert| |by rewrite list_lookup_insert_eq|done].
    + pose proof (call_notify_self n c conf x k st (Z.of_nat k) bcf Hrun Ht Ek) as Hstep.
      change ((bind (notify_self k) _ x).2) with ((notified conf k st (Z.of_nat k) 0 bcf (set_next_leader_index (Z.of_nat k) x)).2) in Hstep.
      by rewrite notified_success in Hstep.
    + rewrite Ek in Hown. apply below_S with n; [|done|].
      * apply below_insert with x; [done|done|]. intros _. by exists k.
      * intros y Hy. rewrite list_lookup_insert_eq in Hy by done. injection Hy as <-. by exists k.
  - destruct (lookup_lt_is_Some_2 _ _ Hk) as (s & Hs). destruct (ok_owner _ _ Hok _ _ _ _ Hn Hs) as (m & Hm).
    destruct (other_server _ _ Hok c n conf x Hrun k st s Hown Ek Hs m Hm) as (He & Hmn).
    destruct (Hm) as (confm & Hcm & _). apply lookup_lt_Some in Hcm as Hml. rewrite <- Hlen in Hml.
    destruct (lookup_lt_is_Some_2 _ _ Hml) as (y & Hy). destruct (Hq m y Hy) as [Huy HLy].
    destruct (notify_other m confm y Hmn Hcm HLy) as (j & Hj & E).
    set (y' := set_next_leader_index (Z.of_nat j) y) in E. set (x' := set_thread (after_notify k false) x).
    exists (<[n := x']> (<[m := y']> c)), x', false.
    assert (Hq1 : quiet_cluster (<[m := y']> c)) by by apply quiet_insert.
    split_and!; [|by apply quiet_insert| |by rewrite list_lookup_insert_eq; rewrite ?length_insert|done].
    + pose proof (call_notify n c conf x k st (Z.of_nat k) bcf s m confm y 0 y'
        Hrun Ht Ek Hs Hm ltac:(done) E) as Hstep.
      unfold after_call in Hstep. rewrite list_lookup_insert_ne, Hx in Hstep by done. by rewrite notified_success in Hstep.
    + apply below_S with m; [|done|].
      * apply below_insert with x; [|by rewrite list_lookup_insert_ne|done]. apply below_insert with y; [done|done|].
        intros _. by exists j.
      * intros z Hz. rewrite list_lookup_insert_ne, list_lookup_insert_eq in Hz by done. simplify_eq. by exists j.
Qed.

Lemma notify_loop d : forall c x k bcf,
  (k + d = length (servers conf))%nat -> (0 < d)%nat ->
  quiet_cluster c -> notified_below k c -> c !! n = Some x -> thread x = Notifying k st (Z.of_nat k) bcf ->
  exists c' x' bcf', nsteps (answered_call n) d c c' /\ quiet_cluster c' /\ notified_below (length (servers conf)) c' /\
    c' !! n = Some x' /\ thread x' = Committing 0 st 0 bcf'.
Proof using Hok Hsame Hn Hown FCL CNL.
  induction d as [|d IH]; intros c x k bcf Hd Hpos Hq Hb Hx Ht; [lia|].
  destruct (notify_call c x k bcf Hq Hb Hx Ht ltac:(lia)) as (c1 & x1 & b1 & Hstep & Hq1 & Hb1 & Hx1 & Ht1).
  unfold after_notify in Ht1. destruct (Nat.ltb_spec (S k) (length (servers conf))) as [Hlt|Hge].
  - destruct (IH c1 x1 (S k) b1 ltac:(lia) ltac:(lia) Hq1 Hb1 Hx1 Ht1) as (c2 & x2 & b2 & Hsteps & H2).
    exists c2, x2, b2. split; [by eapply nsteps_l|done].
  - exists c1, x1, b1. replace (length (servers conf)) with (S k) by lia. split; [|done]. assert (d = 0%nat) as -> by lia. by apply nsteps_once.
Qed.

(** ** The second loop. *)
Definition committed_below (k : nat) (m : nat) (y : TrackerNode) : Prop :=
  up y = true /\ (g_if_leader_self y = true <-> m = n /\ (pTrackerServer st < k)%nat) /\
  forall j, entry confs n m j -> if decide (j < k)%nat then follows m y n else next_is confs m y n.

Definition committing (k : nat) (c : list TrackerNode) : Prop :=
  length c = length confs /\ forall m y, c !! m = Some y -> committed_below k m y.

Definition after_commit (k : nat) (bcf : bool) : Thread :=
  if (S k <? length (servers conf))%nat then Committing (S k) st (Z.of_nat (S k)) bcf else Sleeping.

Lemma commit_success k bcf x : commit_done conf k st (Z.of_nat k) 0 bcf x = (0, set_thread (after_commit k bcf) x).
Proof using Type.
  unfold commit_done, after_commit. cbn [negb Z.eqb andb]. destruct (S k <? _)%nat.
  - replace (Z.of_nat k + 1) with (Z.of_nat (S k)) by lia. done.
  - by rewrite (proj2 (Z.eqb_neq (Z.of_nat k + 1) 0)) by lia.
Qed.

(** The trackers that call [k] does not reach are as before. *)
Lemma committed_below_S k m y p : entry confs n p k -> m <> p -> m <> n -> committed_below k m y -> committed_below (S k) m y.
Proof using Hok.
  intros Hp Hmp Hmn (Hu & HL & Hj). split; [done|]. split; [split; [by intros [? _]%HL|by intros [? _]]|].
  intros j Hm. specialize (Hj j Hm). assert (j <> k) by (intros ->; by apply Hmp, (ok_owner_unique _ _ Hok n _ _ k)).
  destruct (decide (j < k)%nat), (decide (j < S k)%nat); done || lia.
Qed.

Lemma committing_insert k c c' m :
  committing k c -> length c' = length c -> entry confs n m k ->
  (forall a y, c' !! a = Some y -> a = m \/ a = n \/ c !! a = Some y) ->
  (forall y, c' !! m = Some y -> committed_below (S k) m y) ->
  (forall y, c' !! n = Some y -> committed_below (S k) n y) -> committing (S k) c'.
Proof using Hok.
  intros [Hlen Hc] Hlen' Hk Hother Hm Hn'. split; [by rewrite Hlen'|]. intros a y Ha.
  destruct (decide (a = m)) as [->|Ham]; [auto|]. destruct (decide (a = n)) as [->|Han]; [auto|].
  destruct (Hother a y Ha) as [?|[?|Ha']]; [done..|]. apply (committed_below_S k a y m); auto.
Qed.

Lemma commit_call c x k bcf :
  committing k c -> c !! n = Some x -> thread x = Committing k st (Z.of_nat k) bcf -> (k < length (servers conf))%nat ->
  exists c' x' bcf', answered_call n c c' /\ committing (S k) c' /\
    c' !! n = Some x' /\ thread x' = after_commit k bcf'.
Proof using Hok Hsame Hn Hown FCL CNL.
  intros Hc Hx Ht Hk. destruct (Hc) as [Hlen Hall]. destruct (Hall n x Hx) as (Hux & HLx & Hjx).
  assert (Hrun : runs confs c n conf x) by done. apply lookup_lt_Some in Hx as Hnc.
  destruct (decide (pTrackerServer st = k)) as [Ek|Ek].
  - assert (Hkn : entry confs n n k) by by rewrite <- Ek.
    set (x1 := count_leader_chg (set_if_leader_self true (set_next_leader_index (-1) (set_leader_index (Z.of_nat k) x)))).
    set (x' := set_thread (after_commit k bcf) x1).
    exists (<[n := x']> c), x', bcf.
    assert (Eg : g_next_leader_index x = Z.of_nat k).
    { specialize (Hjx k Hkn). rewrite decide_False in Hjx by lia. destruct Hjx as (j & Hj & E).
      by rewrite (entry_unique _ _ Hok _ _ _ _ Hj Hkn) in E. }
    split_and!; [| |by rewrite list_lookup_insert_eq|done].
    + pose proof (call_commit_self n c conf x k st (Z.of_nat k) bcf Hrun Ht Ek) as Hstep.
      assert (E : commit_self k x = (0, x1)).
      { unfold commit_self, bind at 1. cbn [gets]. by rewrite Eg, Z.eqb_refl. }
      unfold bind at 1 in Hstep. rewrite E in Hstep. by rewrite commit_success in Hstep.
    + assert (Hx' : forall y, <[n := x']> c !! n = Some y -> committed_below (S k) n y).
      { intros y Hy. rewrite list_lookup_insert_eq in Hy by done. injection Hy as <-. split; [done|].
        split; [by split; [split; [done|lia]|]|]. intros j Hj. rewrite (entry_unique _ _ Hok _ _ _ _ Hj Hkn).
        rewrite decide_True by lia. by exists k. }
      apply (committing_insert k c _ n); try done; [by rewrite length_insert|].
      intros a y Ha. apply list_lookup_insert_Some in Ha as [(<- & _)|[_ Ha]]; auto.
  - destruct (lookup_lt_is_Some_2 _ _ Hk) as (s & Hs). destruct (ok_owner _ _ Hok _ _ _ _ Hn Hs) as (m & Hm).
    destruct (other_server _ _ Hok c n conf x Hrun k st s Hown Ek Hs m Hm) as (He & Hmn).
    destruct (Hm) as (confm & Hcm & _). apply lookup_lt_Some in Hcm as Hml. rewrite <- Hlen in Hml.
    destruct (lookup_lt_is_Some_2 _ _ Hml) as (y & Hy). destruct (Hall m y Hy) as (Huy & HLy & Hjy).
    assert (Hnext : next_is confs m y n) by (specialize (Hjy k He); by rewrite decide_False in Hjy by lia).
    destruct (commit_other m confm y Hmn Hcm Hnext) as (j & Hj & E).
    set (y' := set_next_leader_index (-1) _) in E. set (x' := set_thread (after_commit k false) x).
    exists (<[n := x']> (<[m := y']> c)), x', false.
    split_and!; [| |by rewrite list_lookup_insert_eq; rewrite ?length_insert|done].
    + pose proof (call_commit n c conf x k st (Z.of_nat k) bcf s m confm y 0 y'
        Hrun Ht Ek Hs Hm ltac:(done) E) as Hstep.
      unfold after_call in Hstep. rewrite list_lookup_insert_ne, Hx in Hstep by done. by rewrite commit_success in Hstep.
    + apply (committing_insert k c _ m); try done; [by rewrite !length_insert|..].
      * intros a z Ha. apply list_lookup_insert_Some in Ha as [(<- & _)|[_ Ha]]; [auto|].
        apply list_lookup_insert_Some in Ha as [(<- & _)|[_ Ha]]; auto.
      * intros z Hz. rewrite list_lookup_insert_ne, list_lookup_insert_eq in Hz by done. injection Hz as <-.
        split; [done|]. split; [split; [by intros [? _]%HLy|by intros [? _]]|].
        intros i Hi. rewrite (entry_unique _ _ Hok _ _ _ _ Hi He), decide_True by lia. by exists j.
      * intros z Hz. rewrite list_lookup_insert_eq in Hz by (by rewrite length_insert). injection Hz as <-.
        split; [done|]. split; [cbn; rewrite HLx; split; intros [? ?]; (split; [done|lia])|].
        intros i Hi. rewrite (entry_unique _ _ Hok _ _ _ _ Hi Hown). specialize (Hjx _ Hown).
        destruct (decide (pTrackerServer st < k)%nat), (decide (pTrackerServer st < S k)%nat); done || lia.
Qed.

Lemma commit_loop d : forall c x k bcf,
  (k + d = length (servers conf))%nat -> (0 < d)%nat ->
  committing k c -> c !! n = Some x -> thread x = Committing k st (Z.of_nat k) bcf ->
  exists c' x', nsteps (answered_call n) d c c' /\ committing (length (servers conf)) c' /\ c' !! n = Some x' /\ thread x' = Sleeping.
Proof using Hok Hsame Hn Hown FCL CNL.
  induction d as [|d IH]; intros c x k bcf Hd Hpos Hc Hx Ht; [lia|].
  destruct (commit_call c x k bcf Hc Hx Ht ltac:(lia)) as (c1 & x1 & b1 & Hstep & Hc1 & Hx1 & Ht1).
  unfold after_commit in Ht1. destruct (Nat.ltb_spec (S k) (length (servers conf))) as [Hlt|Hge].
  - destruct (IH c1 x1 (S k) b1 ltac:(lia) ltac:(lia) Hc1 Hx1 Ht1) as (c2 & x2 & Hsteps & H2).
    exists c2, x2. split; [by eapply nsteps_l|done].
  - exists c1, x1. replace (length (servers conf)) with (S k) by lia. split; [|done]. assert (d = 0%nat) as -> by lia. by apply nsteps_once.
Qed.
End candidate.
End round.

(** C23: A candidate whose calls are all answered, in a cluster where all
    trackers run and none is the leader, with nothing else going on meanwhile,
    becomes the leader, the only one, and every tracker follows it: this takes two calls for each tracker of the list,
    and wherever the calls have got to, going on with them leads there. *)
Theorem undisturbed_election `{FastCommonLaws} `{ConnectionsLaws} IP_ADDRESS_SIZE confs c n conf x st bcf :
  cluster_ok IP_ADDRESS_SIZE confs -> same_addresses confs ->
  quiet_cluster confs c -> runs confs c n conf x ->
  thread x = Notifying 0 st 0 bcf -> contain_local conf (pTrackerServer st) = true ->
  let call := answered_call IP_ADDRESS_SIZE confs n in
  exists c' x', nsteps call (2 * length (servers conf)) c c' /\ (forall c1, rtc call c c1 -> rtc call c1 c') /\
    c' !! n = Some x' /\ thread x' = Sleeping /\
    forall m y, c' !! m = Some y -> follows confs m y n /\ (g_if_leader_self y = true <-> m = n).
Proof.
  intros Hok Hsame Hq (Hn & Hx & _) Ht Hown. apply (contain_local_entry _ _ _ _ Hn) in Hown.
  pose proof (entry_lt _ _ _ _ _ Hn Hown) as Hlt. cbv zeta.
  destruct (notify_loop IP_ADDRESS_SIZE confs Hok Hsame n conf st Hn Hown (length (servers conf)) c x 0 bcf)
    as (c1 & x1 & b1 & Hsteps1 & Hq1 & Hb1 & Hx1 & Ht1); try done; [lia|intros ??? ?; lia|].
  assert (Hc1 : committing confs n st 0 c1).
  { destruct Hq1 as [Hlen1 Hq1]. split; [done|]. intros m y Hy. destruct (Hq1 m y Hy) as [Hu HL].
    split; [done|]. split; [rewrite HL; split; [done|lia]|]. intros j Hj. rewrite decide_False by lia.
    apply (Hb1 m j); [done|by apply (entry_lt _ _ _ _ _ Hn Hj)|done]. }
  destruct (commit_loop IP_ADDRESS_SIZE confs Hok Hsame n conf st Hn Hown (length (servers conf)) c1 x1 0 b1)
    as (c2 & x2 & Hsteps2 & [Hlen2 Hc2] & Hx2 & Ht2); try done; [lia|].
  assert (nsteps (answered_call IP_ADDRESS_SIZE confs n) (2 * length (servers conf)) c c2) as Hsteps.
  { replace (2 * length (servers conf))%nat with (length (servers conf) + length (servers conf))%nat by lia. by eapply nsteps_trans. }
  exists c2, x2. split_and!; [done| |done|done|].
  - intros c3 Hc3. eapply (rtc_det (answered_call IP_ADDRESS_SIZE confs n)); [|apply rtc_nsteps; by eexists| |done].
    + by apply answered_call_det.
    + intros c4. by eapply answered_call_sleeping.
  - intros m y Hy. destruct (Hc2 m y Hy) as (_ & HL & Hj).
    apply lookup_lt_Some in Hy as Hm. rewrite Hlen2 in Hm. apply lookup_lt_Some in Hn as Hnl.
    destruct (ok_listed _ _ Hok n m Hnl Hm) as (j & Hnm). specialize (Hj j Hnm).
    pose proof (entry_lt _ _ _ _ _ Hn Hnm). rewrite decide_True in Hj by lia. split; [done|]. rewrite HL. naive_solver lia.
Qed.
