(* ===== verification/SortedArray.v ===== *)
(** * Sorted arrays of records.

    Groups, storage servers and storage ids are kept in arrays sorted by a
    key and searched with [bsearch] of the C library.  [KeyOrder] is what a
    comparison function promises, [sorted_by] is the order of such an array,
    and the lemmas are what the searches, insertions, removals and sorts of
    the sources rely on. *)

From S2P Require Import Prelude.

Section search.
Context {A : Type}.

(** glibc's [bsearch]: the index of an element [x] with [cmp x = 0], where
    [cmp x] compares the key with [x].  Each round halves [hi - lo], so
    [S (length l)] rounds are enough. *)
Fixpoint bsearch_go (fuel : nat) (cmp : A -> Z) (l : list A) (lo hi : nat) : option nat :=
  match fuel with
  | O => None
  | S f =>
      if (lo <? hi)%nat then
        let idx := ((lo + hi) / 2)%nat in
        match l !! idx with
        | None => None
        | Some x =>
            if cmp x <? 0 then bsearch_go f cmp l lo idx
            else if 0 <? cmp x then bsearch_go f cmp l (S idx) hi
            else Some idx
        end
      else None
  end.

Definition bsearch (cmp : A -> Z) (l : list A) : option nat := bsearch_go (S (length l)) cmp l 0 (length l).

(** Elements left of a match are not greater than the key, those right of it
    not smaller. *)
Definition searchable (cmp : A -> Z) (l : list A) : Prop :=
  forall i j x y, (i < j)%nat -> l !! i = Some x -> l !! j = Some y ->
    (cmp x < 0 -> cmp y < 0) /\ (0 < cmp y -> 0 < cmp x).

Lemma bsearch_go_sound fuel cmp l lo hi i :
  bsearch_go fuel cmp l lo hi = Some i -> exists x, l !! i = Some x /\ cmp x = 0.
Proof.
  revert lo hi. induction fuel as [|f IH]; intros lo hi; cbn [bsearch_go]; [done|].
  intros H. destruct (lo <? hi)%nat; [|done].
  destruct (l !! ((lo + hi) / 2)%nat) as [x|] eqn:E; [|done].
  destruct (Z.ltb_spec (cmp x) 0); [by eapply IH|]. destruct (Z.ltb_spec 0 (cmp x)); [by eapply IH|].
  injection H as <-. exists x. split; [done|lia].
Qed.

Lemma bsearch_sound cmp l i : bsearch cmp l = Some i -> exists x, l !! i = Some x /\ cmp x = 0.
Proof. apply bsearch_go_sound. Qed.

Lemma bsearch_go_complete fuel cmp l lo hi i x :
  searchable cmp l -> l !! i = Some x -> cmp x = 0 ->
  (lo <= i < hi)%nat -> (hi <= length l)%nat -> (hi - lo < fuel)%nat ->
  exists j, bsearch_go fuel cmp l lo hi = Some j.
Proof.
  intros Hs Hi Hx. revert lo hi. induction fuel as [|f IH]; intros lo hi Hlo Hhi Hf; [lia|]. cbn [bsearch_go].
  rewrite (proj2 (Nat.ltb_lt lo hi)) by lia.
  assert (lo <= (lo + hi) / 2 < hi)%nat as Hm.
  { split; [apply Nat.div_le_lower_bound; lia|apply Nat.Div0.div_lt_upper_bound; lia]. }
  set (m := ((lo + hi) / 2)%nat) in *.
  destruct (lookup_lt_is_Some_2 l m ltac:(lia)) as [y Hy]. rewrite Hy.
  destruct (decide (m = i)) as [->|Hne].
  { simplify_eq. rewrite Hx. by eexists. }
  destruct (Z.ltb_spec (cmp y) 0) as [Hneg|Hnn].
  - apply IH; [|lia..]. split; [lia|]. destruct (Nat.lt_ge_cases i m); [done|].
    destruct (Hs m i y x) as [Hc _]; [lia|done..|]. lia.
  - destruct (Z.ltb_spec 0 (cmp y)) as [Hpos|]; [|by eexists]. apply IH; [|lia..]. split; [|lia].
    destruct (Nat.le_gt_cases (S m) i); [done|]. destruct (Hs i m x y) as [_ Hc]; [lia|done..|]. lia.
Qed.

Lemma bsearch_complete cmp l i x :
  searchable cmp l -> l !! i = Some x -> cmp x = 0 -> exists j, bsearch cmp l = Some j.
Proof.
  intros. eapply bsearch_go_complete; [done..| | |]; [|lia..].
  split; [lia|]. by eapply lookup_lt_Some.
Qed.
End search.

(** ** Keys with a comparison function. *)
Class KeyOrder {K : Type} (kcmp : K -> K -> Z) : Prop := {
  cmp_eq_0 : forall a b, kcmp a b = 0 <-> a = b;
  cmp_antisym : forall a b, 0 < kcmp a b <-> kcmp b a < 0;
  cmp_trans : forall a b c, kcmp a b < 0 -> kcmp b c < 0 -> kcmp a c < 0;
}.

#[global] Arguments cmp_eq_0 {K} kcmp {_}.
#[global] Arguments cmp_antisym {K} kcmp {_}.
#[global] Arguments cmp_trans {K} kcmp {_}.

#[export] Instance memcmp_order : KeyOrder memcmp.
Proof. split; [apply memcmp_eq_0|apply memcmp_antisym|apply memcmp_trans]. Qed.

#[export] Instance sub_order : KeyOrder Z.sub.
Proof. split; intros; lia. Qed.

Section pair_order.
Context {K L : Type} (c1 : K -> K -> Z) (c2 : L -> L -> Z) `{!KeyOrder c1} `{!KeyOrder c2}.

(** Compare a second field when the first is equal. *)
Definition pair_cmp (p q : K * L) : Z :=
  let result := c1 p.1 q.1 in if negb (result =? 0) then result else c2 p.2 q.2.

#[export] Instance pair_cmp_order : KeyOrder pair_cmp.
Proof using All.
  unfold pair_cmp. split.
  - intros [a x] [b y]. cbn. destruct (Z.eqb_spec (c1 a b) 0) as [E|E]; cbn [negb].
    + apply (cmp_eq_0 c1) in E as ->. rewrite (cmp_eq_0 c2). naive_solver.
    + split; [done|]. intros [= -> ->]. destruct E. by apply (cmp_eq_0 c1).
  - intros [a x] [b y]. cbn. destruct (Z.eqb_spec (c1 a b) 0) as [E|E], (Z.eqb_spec (c1 b a) 0) as [E'|E']; cbn [negb].
    + apply (cmp_antisym c2).
    + apply (cmp_eq_0 c1) in E as ->. destruct E'. by apply (cmp_eq_0 c1).
    + apply (cmp_eq_0 c1) in E' as ->. destruct E. by apply (cmp_eq_0 c1).
    + apply (cmp_antisym c1).
  - intros [a x] [b y] [d z]. cbn.
    destruct (Z.eqb_spec (c1 a b) 0) as [E|E], (Z.eqb_spec (c1 b d) 0) as [E'|E']; cbn [negb]; intros H1 H2.
    + apply (cmp_eq_0 c1) in E as ->. rewrite (proj2 (Z.eqb_eq _ _) E'). cbn. by apply (cmp_trans c2 _ y).
    + apply (cmp_eq_0 c1) in E as ->. by rewrite (proj2 (Z.eqb_neq _ _) E').
    + apply (cmp_eq_0 c1) in E' as ->. by rewrite (proj2 (Z.eqb_neq _ _) E).
    + assert (c1 a d < 0) by (by apply (cmp_trans c1 _ b)). rewrite (proj2 (Z.eqb_neq (c1 a d) 0)) by lia. done.
Qed.
End pair_order.

(** ** Sorted arrays. *)
Section sorted.
Context {K : Type} (kcmp : K -> K -> Z) `{!KeyOrder kcmp} {A : Type} (key : A -> K).

Lemma cmp_refl a : kcmp a a = 0.
Proof. by apply (cmp_eq_0 kcmp). Qed.

Definition key_lt (x y : A) : Prop := kcmp (key x) (key y) < 0.
Definition sorted_by (l : list A) : Prop := StronglySorted key_lt l.

Lemma key_lt_trans x y z : key_lt x y -> key_lt y z -> key_lt x z.
Proof. apply (cmp_trans kcmp). Qed.

Lemma key_lt_irrefl x y : key x = key y -> ~ key_lt x y.
Proof. unfold key_lt. intros ->. rewrite cmp_refl. lia. Qed.

Lemma sorted_by_lookup l i j x y :
  sorted_by l -> (i < j)%nat -> l !! i = Some x -> l !! j = Some y -> key_lt x y.
Proof.
  intros H. revert i j. induction H as [|a l Hl IH Ha]; intros i j Hij Hi Hj; [done|].
  destruct j as [|j]; [lia|]. destruct i as [|i]; cbn in *.
  - simplify_eq. rewrite Forall_forall in Ha. apply Ha. by eapply list_elem_of_lookup_2.
  - eapply IH; [|done..]. lia.
Qed.

Lemma sorted_by_inj l i j x y :
  sorted_by l -> l !! i = Some x -> l !! j = Some y -> key x = key y -> i = j.
Proof.
  intros Hl Hi Hj E. destruct (Nat.lt_trichotomy i j) as [H|[H|H]]; [|done|].
  - destruct (key_lt_irrefl x y E). by eapply sorted_by_lookup.
  - destruct (key_lt_irrefl y x (symmetry E)). by eapply sorted_by_lookup.
Qed.

Lemma sorted_by_NoDup l : sorted_by l -> NoDup l.
Proof.
  intros Hl. apply NoDup_alt. intros i j x Hi Hj. by eapply sorted_by_inj.
Qed.

Lemma sorted_by_keys_NoDup l : sorted_by l -> NoDup (key <$> l).
Proof.
  intros Hl. apply NoDup_alt. intros i j k Hi Hj.
  apply list_lookup_fmap_Some in Hi as (x & -> & Hi). apply list_lookup_fmap_Some in Hj as (y & E & Hj).
  by apply (sorted_by_inj l i j x y).
Qed.

Lemma sorted_by_searchable l t : sorted_by l -> searchable (fun x => kcmp t (key x)) l.
Proof.
  intros Hl i j x y Hij Hi Hj. pose proof (sorted_by_lookup l i j x y Hl Hij Hi Hj) as H. unfold key_lt in H. split.
  - intros Hx. by apply (cmp_trans kcmp _ (key x)).
  - rewrite (cmp_antisym kcmp). intros Hy. apply (cmp_antisym kcmp). by apply (cmp_trans kcmp _ (key y)).
Qed.

(** What [bsearch] answers on a sorted array. *)
Lemma bsearch_sorted l t i :
  sorted_by l -> bsearch (fun x => kcmp t (key x)) l = Some i <-> exists x, l !! i = Some x /\ key x = t.
Proof.
  intros Hl. split.
  - intros H. apply bsearch_sound in H as (x & Hx & E). cbn in E. apply (cmp_eq_0 kcmp) in E. by exists x.
  - intros (x & Hx & E).
    destruct (bsearch_complete (fun x => kcmp t (key x)) l i x) as [j Hj];
      [by apply sorted_by_searchable|done|by apply (cmp_eq_0 kcmp)|].
    rewrite Hj. apply bsearch_sound in Hj as (y & Hy & E'). cbn in E'. apply (cmp_eq_0 kcmp) in E'.
    f_equal. eapply sorted_by_inj; [done..|]. congruence.
Qed.

Lemma bsearch_sorted_None l t :
  sorted_by l -> bsearch (fun x => kcmp t (key x)) l = None <-> forall x, x ∈ l -> key x <> t.
Proof.
  intros Hl. destruct (bsearch _ l) as [i|] eqn:E.
  - split; [done|]. intros H. apply (bsearch_sorted l t i Hl) in E as (x & Hx & Ek).
    destruct (H x); [by eapply list_elem_of_lookup_2|done].
  - split; [|done]. intros _ x Hx Ek. apply list_elem_of_lookup in Hx as [i Hi].
    assert (bsearch (fun x => kcmp t (key x)) l = Some i); [|congruence].
    apply bsearch_sorted; [done|]. by exists x.
Qed.

(** Moving the elements not below [x] one slot up, from the end, and storing
    [x] in the gap. *)
Fixpoint insert_from_end (x : A) (rl : list A) : list A :=
  match rl with
  | [] => [x]
  | y :: rl' => if 0 <? kcmp (key x) (key y) then x :: y :: rl' else y :: insert_from_end x rl'
  end.

Definition insert_sorted (x : A) (l : list A) : list A := rev (insert_from_end x (rev l)).

Lemma insert_from_end_perm x rl : insert_from_end x rl ≡ₚ x :: rl.
Proof.
  induction rl as [|y rl IH]; cbn; [done|]. case_match; [done|]. rewrite IH. apply Permutation_swap.
Qed.

Lemma insert_sorted_perm x l : insert_sorted x l ≡ₚ x :: l.
Proof.
  unfold insert_sorted. rewrite <- Permutation_rev, insert_from_end_perm. f_equiv. symmetry. apply Permutation_rev.
Qed.

Lemma sorted_by_snoc l x : sorted_by (l ++ [x]) <-> sorted_by l /\ Forall (fun y => key_lt y x) l.
Proof.
  unfold sorted_by. induction l as [|a l IH]; cbn.
  { split; [by repeat constructor|]. intros _. by repeat constructor. }
  split.
  - intros H. apply StronglySorted_inv in H as [H Ha]. apply IH in H as [Hl Hx]. apply Forall_app in Ha as [Ha Hax].
    rewrite Forall_singleton in Hax. split; [by apply SSorted_cons|by apply Forall_cons].
  - intros [H Hx]. apply StronglySorted_inv in H as [Hl Ha]. apply Forall_cons in Hx as [Hax Hx].
    constructor; [by apply IH|]. apply Forall_app. split; [done|]. by constructor.
Qed.

Lemma insert_from_end_sorted x rl :
  sorted_by (rev rl) -> (forall y, y ∈ rev rl -> key y <> key x) -> sorted_by (rev (insert_from_end x rl)).
Proof.
  induction rl as [|y rl IH]; cbn [insert_from_end rev]; intros Hl Hk; [by apply SSorted_cons; constructor|].
  apply sorted_by_snoc in Hl as [Hl Hy].
  destruct (Z.ltb_spec 0 (kcmp (key x) (key y))) as [Hlt|Hge]; cbn [rev].
  - apply sorted_by_snoc. split; [by apply sorted_by_snoc|]. apply (cmp_antisym kcmp) in Hlt.
    apply Forall_app. split; [|by constructor]. eapply Forall_impl; [exact Hy|]. intros z Hz. by apply (key_lt_trans z y x).
  - apply sorted_by_snoc. split; [apply IH; [done|]|].
    { intros z Hz. apply Hk. apply elem_of_app. by left. }
    assert (key_lt x y) as Hxy.
    { unfold key_lt. destruct (decide (kcmp (key x) (key y) = 0)) as [E|]; [|lia].
      apply (cmp_eq_0 kcmp) in E. destruct (Hk y); [|done]. apply elem_of_app. right. by apply list_elem_of_singleton. }
    apply Forall_forall. intros z Hz. apply list_elem_of_In, in_rev, list_elem_of_In in Hz.
    rewrite insert_from_end_perm in Hz.
    apply elem_of_cons in Hz as [->|Hz]; [done|]. rewrite Forall_forall in Hy. apply Hy.
    apply list_elem_of_In. apply in_rev. rewrite rev_involutive. by apply list_elem_of_In.
Qed.

Lemma insert_sorted_sorted x l :
  sorted_by l -> (forall y, y ∈ l -> key y <> key x) -> sorted_by (insert_sorted x l).
Proof. intros. apply insert_from_end_sorted; by rewrite rev_involutive. Qed.

Lemma sorted_by_delete l i : sorted_by l -> sorted_by (delete i l).
Proof.
  unfold sorted_by. intros H. revert i. induction H as [|a l Hl IH Ha]; intros [|i]; cbn; [constructor..|done|].
  constructor; [apply IH|]. apply Forall_forall. rewrite Forall_forall in Ha. intros x Hx. apply Ha.
  eapply elem_of_submseteq; [exact Hx|]. apply sublist_submseteq, sublist_delete.
Qed.

(** [qsort] with the comparison function. *)
Definition key_le (x y : A) : Prop := kcmp (key x) (key y) <= 0.

#[export] Instance key_le_dec : RelDecision key_le.
Proof. intros x y. unfold key_le. apply _. Defined.

#[export] Instance key_le_total : Total key_le.
Proof.
  intros x y. unfold key_le. destruct (Z.le_gt_cases (kcmp (key x) (key y)) 0) as [|H]; [by left|right].
  assert (kcmp (key y) (key x) < 0) by (apply (cmp_antisym kcmp); lia). lia.
Qed.

#[export] Instance key_le_trans : Transitive key_le.
Proof.
  intros x y z. unfold key_le. intros H1 H2.
  destruct (decide (kcmp (key x) (key y) = 0)) as [->%(cmp_eq_0 kcmp)|]; [done|].
  destruct (decide (kcmp (key y) (key z) = 0)) as [<-%(cmp_eq_0 kcmp)|]; [done|].
  assert (kcmp (key x) (key z) < 0) by (eapply (cmp_trans kcmp) with (key y); lia). lia.
Qed.

Definition qsort (l : list A) : list A := merge_sort key_le l.

Lemma qsort_perm l : qsort l ≡ₚ l.
Proof. apply merge_sort_Permutation. Qed.

Lemma qsort_StronglySorted l : StronglySorted key_le (qsort l).
Proof. apply Sorted_StronglySorted; [apply _|]. apply Sorted_merge_sort. apply _. Qed.

Lemma key_le_lt t x y : key_le x y -> (kcmp t (key x) < 0 -> kcmp t (key y) < 0) /\ (0 < kcmp t (key y) -> 0 < kcmp t (key x)).
Proof.
  unfold key_le. intros Hxy. destruct (decide (kcmp (key x) (key y) = 0)) as [E%(cmp_eq_0 kcmp)|]; [by rewrite E|].
  split; [intros Hx; apply (cmp_trans kcmp _ (key x)); [done|lia]|].
  rewrite !(cmp_antisym kcmp t). intros Hy. apply (cmp_trans kcmp _ (key y)); [lia|done].
Qed.

Lemma StronglySorted_lookup l i j x y :
  StronglySorted key_le l -> (i < j)%nat -> l !! i = Some x -> l !! j = Some y -> key_le x y.
Proof.
  intros H. revert i j. induction H as [|a l Hl IH Ha]; intros i j Hij Hi Hj; [done|].
  destruct j as [|j]; [lia|]. destruct i as [|i]; cbn in *.
  - simplify_eq. rewrite Forall_forall in Ha. apply Ha. by eapply list_elem_of_lookup_2.
  - eapply IH; [|done..]. lia.
Qed.

(** What [bsearch] answers on an array that [qsort] has sorted, with repeated
    keys or not. *)
Lemma bsearch_qsort_Some l t i :
  bsearch (fun x => kcmp t (key x)) (qsort l) = Some i -> exists x, qsort l !! i = Some x /\ x ∈ l /\ key x = t.
Proof.
  intros H. apply bsearch_sound in H as (x & Hx & E). cbn in E. apply (cmp_eq_0 kcmp) in E. exists x. split_and!; [done| |done].
  rewrite <- (qsort_perm l). by eapply list_elem_of_lookup_2.
Qed.

Lemma bsearch_qsort_None l t :
  bsearch (fun x => kcmp t (key x)) (qsort l) = None <-> forall x, x ∈ l -> key x <> t.
Proof.
  split.
  - intros Hn x Hx Ek. rewrite <- (qsort_perm l) in Hx. apply list_elem_of_lookup in Hx as [i Hi].
    destruct (bsearch_complete (fun x => kcmp t (key x)) (qsort l) i x) as [j Hj]; [|done|by apply (cmp_eq_0 kcmp)|congruence].
    intros i' j' a b Hij Ha Hb. apply key_le_lt. by apply (StronglySorted_lookup (qsort l) i' j'); [apply qsort_StronglySorted|..].
  - intros H. destruct (bsearch _ _) as [i|] eqn:E; [|done]. apply bsearch_qsort_Some in E as (x & _ & Hx & Ek).
    by destruct (H x Hx).
Qed.

Lemma qsort_sorted l : NoDup (key <$> l) -> sorted_by (qsort l).
Proof.
  intros Hnd. pose proof (qsort_StronglySorted l) as Hs.
  rewrite <- (qsort_perm l) in Hnd. induction Hs as [|a l' Hl IH Ha]; [constructor|].
  apply NoDup_cons in Hnd as [Hn Hnd]. constructor; [by apply IH|].
  rewrite Forall_forall in Ha. apply Forall_forall. intros x Hx. specialize (Ha x Hx). unfold key_le, key_lt in *.
  destruct (decide (kcmp (key a) (key x) = 0)) as [E|]; [|lia].
  apply (cmp_eq_0 kcmp) in E. destruct Hn. apply list_elem_of_fmap. by exists x.
Qed.
End sorted.

(** The order depends on the keys only. *)
Lemma sorted_by_ext {K A} (kcmp : K -> K -> Z) (key key' : A -> K) l :
  (forall x, x ∈ l -> key x = key' x) -> sorted_by kcmp key l -> sorted_by kcmp key' l.
Proof.
  intros He H. unfold sorted_by in *. induction H as [|a l Hl IH Ha]; constructor.
  - apply IH. intros x Hx. apply He. by apply list_elem_of_further.
  - apply Forall_forall. rewrite Forall_forall in Ha. intros x Hx. unfold key_lt.
    rewrite <- (He a (list_elem_of_here _ _)), <- (He x (list_elem_of_further _ _ _ Hx)). by apply Ha.
Qed.
