(* ===== verification/StorageIds.v ===== *)
(** * Storage ids and servers with several addresses
    ([tracker/fdfs_server_id_func.c], the address functions of
    [tracker/fdfs_shared_func.c]).

    [storage_ids.conf] gives every storage server an id, a group and one or two
    addresses.  [fdfs_load_storage_ids] reads it into three sorted arrays, the
    other functions search them. *)

From S2P Require Import Prelude FastCommon SortedArray.

Definition FDFS_STORAGE_ID_MAX_SIZE : Z := 16.
Definition FDFS_GROUP_NAME_MAX_LEN : Z := 16.
Definition FDFS_MAX_SERVER_ID : Z := 2 ^ 24 - 1.
Definition FDFS_ID_TYPE_SERVER_ID : Z := 1.
Definition FDFS_ID_TYPE_IP_ADDRESS : Z := 2.
Definition FDFS_MULTI_IP_INDEX_INNER : nat := 0.
Definition FDFS_MULTI_IP_INDEX_OUTER : nat := 1.
Definition FDFS_MULTI_IP_MAX_COUNT : nat := 2.
Definition FDFS_IP_TYPE_UNKNOWN : Z := 0.
Definition FDFS_IP_TYPE_PRIVATE_10 : Z := 1.
Definition FDFS_IP_TYPE_PRIVATE_172 : Z := 2.
Definition FDFS_IP_TYPE_PRIVATE_192 : Z := 3.
Definition FDFS_IP_TYPE_OUTER : Z := 4.

(** [split] and [trim] of libfastcommon, and the name resolution
    [getIpaddrByName], which answers no address for an unknown host. *)
Class TextTools := {
  split : bytes -> Z -> list bytes;
  trim : bytes -> bytes;
  getIpaddrByName : bytes -> option bytes;
}.

(** ** Addresses. *)
Record FDFSIPInfo := mkIP {
  ip_type : Z;
  address : bytes;
}.

(** [count] is the length of [ips], [mi_index] the entry in use. *)
Record FDFSMultiIP := mkMultiIP {
  mi_index : nat;
  ips : list FDFSIPInfo;
}.

#[export] Instance FDFSIPInfo_inhabited : Inhabited FDFSIPInfo := populate (mkIP 0 []).

#[export] Instance FDFSIPInfo_eq_dec : EqDecision FDFSIPInfo.
Proof. solve_decision. Defined.
#[export] Instance FDFSMultiIP_eq_dec : EqDecision FDFSMultiIP.
Proof. solve_decision. Defined.

Definition FDFS_CURRENT_IP_ADDR (m : FDFSMultiIP) : bytes := address (ips m !!! mi_index m).

Definition fdfs_get_ip_type (ip : bytes) : Z :=
  if (length ip <? 8)%nat then FDFS_IP_TYPE_UNKNOWN
  else if decide (take 3 ip = bs "10.") then FDFS_IP_TYPE_PRIVATE_10
  else if decide (take 8 ip = bs "192.168.") then FDFS_IP_TYPE_PRIVATE_192
  else if decide (take 4 ip = bs "172.") then
    let b := atoi (drop 4 ip) in
    if (16 <=? b) && (b <? 32) then FDFS_IP_TYPE_PRIVATE_172 else FDFS_IP_TYPE_OUTER
  else FDFS_IP_TYPE_OUTER.

(** The address of a server that a client at [client_ip] is told. *)
Definition fdfs_get_ipaddr_by_peer_ip (ip_addrs : FDFSMultiIP) (client_ip : bytes) : bytes :=
  match ips ip_addrs with
  | [] => []
  | [ip] => address ip
  | l =>
      let ip_type0 := fdfs_get_ip_type client_ip in
      let index := if ip_type (l !!! FDFS_MULTI_IP_INDEX_OUTER) =? ip_type0
        then FDFS_MULTI_IP_INDEX_OUTER else FDFS_MULTI_IP_INDEX_INNER in
      address (l !!! index)
  end.

Fixpoint index_of_address (l : list FDFSIPInfo) (target_ip : bytes) : option nat :=
  match l with
  | [] => None
  | ip :: l' => if memcmp (address ip) target_ip =? 0 then Some 0%nat else S <$> index_of_address l' target_ip
  end.

Definition fdfs_set_multi_ip_index (multi_ip : FDFSMultiIP) (target_ip : bytes) : FDFSMultiIP :=
  if (length (ips multi_ip) <=? 1)%nat then multi_ip
  else match index_of_address (ips multi_ip) target_ip with
       | Some i => mkMultiIP i (ips multi_ip)
       | None => multi_ip
       end.

Definition fdfs_get_server_id_type (id : Z) : Z :=
  if (0 <? id) && (id <=? FDFS_MAX_SERVER_ID) then FDFS_ID_TYPE_SERVER_ID else FDFS_ID_TYPE_IP_ADDRESS.

Definition fdfs_is_server_id_valid (id : bytes) : bool :=
  match id with
  | [] => false
  | _ =>
      let '(n, endptr) := strtol 10 id in
      match endptr with
      | _ :: _ => false
      | [] =>
          if (n <=? 0) || (FDFS_MAX_SERVER_ID <? n) then false
          else memcmp (snprintf FDFS_STORAGE_ID_MAX_SIZE (fmt_d n)) id =? 0
      end
  end.

(** ** The table. *)
Record FDFSStorageIdInfo := mkIdInfo {
  si_id : bytes;
  si_group_name : bytes;
  si_ip_addrs : FDFSMultiIP;
  si_port : Z;
}.

#[export] Instance FDFSStorageIdInfo_eq_dec : EqDecision FDFSStorageIdInfo.
Proof. solve_decision. Defined.

Record FDFSStorageIdMap := mkIdMap {
  im_group_name : bytes;
  im_ip_addr : bytes;
  im_port : Z;
  idInfo : FDFSStorageIdInfo;
}.

(** [g_storage_ids_by_id], [g_storage_ids_by_ip], [g_storage_ids_by_ip_port]. *)
Record StorageIds := mkStorageIds {
  by_id : list FDFSStorageIdInfo;
  by_ip : list FDFSStorageIdMap;
  by_ip_port : list FDFSStorageIdMap;
}.

Definition group_name_and_ip (m : FDFSStorageIdMap) : bytes * bytes := (im_group_name m, im_ip_addr m).
Definition fdfs_cmp_group_name_and_ip : bytes * bytes -> bytes * bytes -> Z := pair_cmp memcmp memcmp.
Definition fdfs_cmp_server_id : bytes -> bytes -> Z := memcmp.
Definition ip_and_port (m : FDFSStorageIdMap) : bytes * Z := (im_ip_addr m, im_port m).
Definition fdfs_cmp_ip_and_port : bytes * Z -> bytes * Z -> Z := pair_cmp memcmp Z.sub.

Definition fdfs_get_storage_id_by_ip (t : StorageIds) (group_name pIpAddr : bytes) : option FDFSStorageIdInfo :=
  i ← bsearch (fun m => fdfs_cmp_group_name_and_ip (group_name, pIpAddr) (group_name_and_ip m)) (by_ip t);
  idInfo <$> by_ip t !! i.

Definition fdfs_get_storage_by_id (t : StorageIds) (id : bytes) : option FDFSStorageIdInfo :=
  let target := snprintf FDFS_STORAGE_ID_MAX_SIZE id in
  i ← bsearch (fun s => fdfs_cmp_server_id target (si_id s)) (by_id t);
  by_id t !! i.

(** One round of the loop over the reported port and 0. *)
Definition search_ip_port (t : StorageIds) (pIpAddr : bytes) (port : Z) : option FDFSStorageIdInfo :=
  i ← bsearch (fun m => fdfs_cmp_ip_and_port (pIpAddr, port) (ip_and_port m)) (by_ip_port t);
  idInfo <$> by_ip_port t !! i.

Definition fdfs_get_storage_id_by_ip_port (t : StorageIds) (pIpAddr : bytes) (port : Z) : option FDFSStorageIdInfo :=
  match search_ip_port t pIpAddr port with
  | Some info => Some info
  | None => search_ip_port t pIpAddr 0
  end.

Definition fdfs_check_storage_id (t : StorageIds) (group_name id : bytes) : Z :=
  match fdfs_get_storage_by_id t id with
  | None => ENOENT
  | Some pFound => if memcmp (si_group_name pFound) group_name =? 0 then 0 else EINVAL
  end.

(** ** Loading. *)

(** The maps [fdfs_init_ip_array] fills in, before [qsort]. *)
Definition ip_maps (ids : list FDFSStorageIdInfo) : list FDFSStorageIdMap :=
  mjoin ((fun info => (fun ip => mkIdMap (si_group_name info) (address ip) (si_port info) info) <$> ips (si_ip_addrs info)) <$> ids).

(** Neighbours with the same key in a sorted array. *)
Fixpoint neighbours_equal {A} (same : A -> A -> bool) (l : list A) : bool :=
  match l with
  | [] => false
  | previous :: l' =>
      match l' with [] => false | current :: _ => same current previous || neighbours_equal same l' end
  end.

Definition fdfs_check_id_duplicated (ids : list FDFSStorageIdInfo) : Z :=
  if neighbours_equal (fun a b => memcmp (si_id a) (si_id b) =? 0) ids then EEXIST else 0.

Definition fdfs_check_ip_port (ids : list FDFSStorageIdInfo) (maps : list FDFSStorageIdMap) : Z :=
  let port_count := length (filter (fun s => 0 < si_port s) ids) in
  if negb (port_count =? 0)%nat && negb (port_count =? length ids)%nat then EINVAL
  else if neighbours_equal (fun a b => fdfs_cmp_ip_and_port (ip_and_port a) (ip_and_port b) =? 0) maps then EEXIST
  else 0.

Definition is_blank (c : Z) : bool := (c =? 32) || (c =? 9).

(** The characters up to the first blank, and the rest. *)
Fixpoint token (s : bytes) : bytes * bytes :=
  match s with
  | [] => ([], [])
  | c :: s' => if is_blank c then ([], s) else let '(t, r) := token s' in (c :: t, r)
  end.

Fixpoint skip_blanks (s : bytes) : bytes :=
  match s with
  | c :: s' => if is_blank c then skip_blanks s' else s
  | [] => []
  end.

(** [strchr(s, c)]: what is before it and behind it. *)
Fixpoint strchr (c : Z) (s : bytes) : option (bytes * bytes) :=
  match s with
  | [] => None
  | x :: s' => if x =? c then Some ([], s') else '(a, b) ← strchr c s'; Some (x :: a, b)
  end.

Section load.
Context `{FastCommon} `{TextTools}.

(** The loop of [fdfs_parse_multi_ips_ex] with [resolve]. *)
Fixpoint resolve_hosts (hosts : list bytes) : option (list FDFSIPInfo) :=
  match hosts with
  | [] => Some []
  | h :: hosts' =>
      match getIpaddrByName h with
      | None => None
      | Some ip =>
          if fdfs_get_ip_type ip =? FDFS_IP_TYPE_UNKNOWN then None
          else l ← resolve_hosts hosts'; Some (mkIP (fdfs_get_ip_type ip) ip :: l)
      end
  end.

Definition fdfs_parse_multi_ips (ip_str : bytes) : option FDFSMultiIP :=
  mkMultiIP 0 <$> resolve_hosts (splitEx (ch ",") FDFS_MULTI_IP_MAX_COUNT ip_str).

Definition fdfs_check_and_format_ips (ip_addrs : FDFSMultiIP) : option FDFSMultiIP :=
  match ips ip_addrs with
  | [_] => Some ip_addrs
  | [a; b] =>
      if ip_type a =? ip_type b then None
      else if ip_type a =? FDFS_IP_TYPE_OUTER then Some (mkMultiIP (mi_index ip_addrs) [b; a])
      else Some ip_addrs
  | _ => None
  end.

(** A line of the file that is neither empty nor a comment. *)
Definition load_line (line : bytes) : option FDFSStorageIdInfo :=
  let '(id, r) := token line in
  let '(group_name, r) := token (skip_blanks (tail r)) in
  match r with
  | [] => None
  | _ :: r =>
      let pHost := skip_blanks r in
      let '(host, port) := match strchr (ch ":") pHost with Some (h, p) => (h, atoi p) | None => (pHost, 0) end in
      ip_addrs ← fdfs_parse_multi_ips host;
      ip_addrs ← fdfs_check_and_format_ips ip_addrs;
      if fdfs_is_server_id_valid id then
        Some (mkIdInfo (snprintf FDFS_STORAGE_ID_MAX_SIZE id) (snprintf (FDFS_GROUP_NAME_MAX_LEN + 8) group_name) ip_addrs port)
      else None
  end.

Definition is_entry (line : bytes) : bool :=
  match line with [] => false | c :: _ => negb (c =? ch "#") end.

(** Every failure of a line is [EINVAL]; the result is the table. *)
Definition fdfs_load_storage_ids (content : bytes) : Z + StorageIds :=
  let lines := filter is_entry (trim <$> split content 10) in
  match lines with
  | [] => inl ENOENT
  | _ =>
      match mapM load_line lines with
      | None => inl EINVAL
      | Some ids =>
          let ids := qsort fdfs_cmp_server_id si_id ids in
          let maps := qsort fdfs_cmp_group_name_and_ip group_name_and_ip (ip_maps ids) in
          let port_maps := qsort fdfs_cmp_ip_and_port ip_and_port (ip_maps ids) in
          if fdfs_check_id_duplicated ids =? 0 then
            let r := fdfs_check_ip_port ids port_maps in
            if r =? 0 then inr (mkStorageIds ids maps port_maps) else inl r
          else inl EEXIST
      end
  end.
End load.

(** ** What the searches find. *)
Section lookup.
Context `{FastCommon} `{TextTools}.

Lemma neighbours_sorted {K A} (kcmp : K -> K -> Z) `{!KeyOrder kcmp} (key : A -> K) l :
  neighbours_equal (fun a b => kcmp (key a) (key b) =? 0) (qsort kcmp key l) = false -> sorted_by kcmp key (qsort kcmp key l).
Proof.
  intros Hn. pose proof (qsort_StronglySorted kcmp key l) as Hs. revert Hn Hs. generalize (qsort kcmp key l). clear l.
  intros l Hn Hs. revert Hn. induction Hs as [|a l Hl IH Ha]; intros Hn; [constructor|].
  destruct l as [|b l]; [apply SSorted_cons; constructor|]. cbn in Hn. apply orb_false_iff in Hn as [Hab Hn].
  specialize (IH Hn). apply SSorted_cons; [done|]. apply Forall_cons in Ha as [Hle _].
  assert (key_lt kcmp key a b) as Hlt.
  { unfold key_lt, key_le in *. apply Z.eqb_neq in Hab.
    destruct (decide (kcmp (key a) (key b) = 0)) as [E|]; [|lia]. apply (cmp_eq_0 kcmp) in E. destruct Hab. rewrite E. by apply (cmp_eq_0 kcmp). }
  apply Forall_cons. split; [done|]. apply StronglySorted_inv in IH as [_ Hb]. eapply Forall_impl; [exact Hb|].
  intros x Hx. by apply (key_lt_trans kcmp key a b x).
Qed.

(** The entries of a file, in its order. *)
Definition entries (content : bytes) : option (list FDFSStorageIdInfo) :=
  mapM load_line (filter is_entry (trim <$> split content 10)).

Lemma load_inv content t :
  fdfs_load_storage_ids content = inr t ->
  exists ids, entries content = Some ids /\ ids <> [] /\
    t = mkStorageIds (qsort fdfs_cmp_server_id si_id ids)
          (qsort fdfs_cmp_group_name_and_ip group_name_and_ip (ip_maps (qsort fdfs_cmp_server_id si_id ids)))
          (qsort fdfs_cmp_ip_and_port ip_and_port (ip_maps (qsort fdfs_cmp_server_id si_id ids))) /\
    sorted_by fdfs_cmp_server_id si_id (by_id t) /\ sorted_by fdfs_cmp_ip_and_port ip_and_port (by_ip_port t).
Proof.
  unfold fdfs_load_storage_ids, entries. intros Hl. destruct (filter is_entry _) as [|line lines] eqn:El; [done|].
  destruct (mapM load_line (line :: lines)) as [ids|] eqn:Em; [|done]. exists ids.
  unfold fdfs_check_id_duplicated, fdfs_check_ip_port in Hl.
  destruct (neighbours_equal _ (qsort fdfs_cmp_server_id si_id ids)) eqn:E1; [done|]. cbn [Z.eqb] in Hl.
  destruct (negb _ && negb _); [done|].
  destruct (neighbours_equal _ (qsort fdfs_cmp_ip_and_port _ _)) eqn:E2; [done|]. cbn in Hl. simplify_eq.
  split_and!; [done| |done|..].
  - intros ->. apply mapM_Some in Em. by apply Forall2_nil_inv_r in Em.
  - apply (neighbours_sorted memcmp). exact E1.
  - apply (neighbours_sorted (pair_cmp memcmp Z.sub)). exact E2.
Qed.

Definition addresses (info : FDFSStorageIdInfo) : list bytes := address <$> ips (si_ip_addrs info).

Lemma elem_of_ip_maps ids m :
  m ∈ ip_maps ids <-> exists info ip, info ∈ ids /\ ip ∈ addresses info /\ m = mkIdMap (si_group_name info) ip (si_port info) info.
Proof.
  unfold ip_maps, addresses. rewrite list_elem_of_join. setoid_rewrite list_elem_of_fmap. split.
  - intros (x & Hm & info & -> & Hi). apply list_elem_of_fmap in Hm as (i & -> & Hin).
    exists info, (address i). split_and!; [done| |done]. by exists i.
  - intros (info & ip & Hi & (i & -> & Hin) & ->). eexists. split; [|by exists info].
    apply list_elem_of_fmap. by exists i.
Qed.

Section found.
Context (ids : list FDFSStorageIdInfo) (t : StorageIds).
Context (Hid : by_id t = qsort fdfs_cmp_server_id si_id ids).
Context (Hip : by_ip t = qsort fdfs_cmp_group_name_and_ip group_name_and_ip (ip_maps (by_id t))).
Context (Hport : by_ip_port t = qsort fdfs_cmp_ip_and_port ip_and_port (ip_maps (by_id t))).
Context (Hsorted : sorted_by fdfs_cmp_server_id si_id (by_id t)).

Local Instance cmp_id_order : KeyOrder fdfs_cmp_server_id := memcmp_order.
Local Instance cmp_ip_order : KeyOrder fdfs_cmp_group_name_and_ip := pair_cmp_order memcmp memcmp.
Local Instance cmp_port_order : KeyOrder fdfs_cmp_ip_and_port := pair_cmp_order memcmp Z.sub.

Lemma elem_of_by_id info : info ∈ by_id t <-> info ∈ ids.
Proof using Hid. rewrite Hid. by rewrite (qsort_perm _ _ ids). Qed.

Lemma get_by_id_Some id info :
  fdfs_get_storage_by_id t id = Some info <-> info ∈ ids /\ si_id info = snprintf FDFS_STORAGE_ID_MAX_SIZE id.
Proof using Hid Hsorted.
  unfold fdfs_get_storage_by_id. set (k := snprintf _ id). rewrite <- elem_of_by_id. split.
  - destruct (bsearch _ _) as [i|] eqn:E; [|done]. cbn. intros Hi.
    apply (bsearch_sorted fdfs_cmp_server_id si_id) in E as (x & Hx & Ek); [|done]. simplify_eq.
    split; [by eapply list_elem_of_lookup_2|done].
  - intros [Hin Ek]. apply list_elem_of_lookup in Hin as [i Hi].
    rewrite (proj2 (bsearch_sorted fdfs_cmp_server_id si_id (by_id t) k i Hsorted)) by (by exists info). exact Hi.
Qed.

Lemma get_by_ip_correct g ip :
  match fdfs_get_storage_id_by_ip t g ip with
  | Some info => info ∈ ids /\ si_group_name info = g /\ ip ∈ addresses info
  | None => forall info, info ∈ ids -> si_group_name info = g -> ip ∉ addresses info
  end.
Proof using Hid Hip.
  unfold fdfs_get_storage_id_by_ip. rewrite Hip. destruct (bsearch _ _) as [i|] eqn:E; cbn.
  - apply bsearch_qsort_Some in E as (m & Hm & Hin & Ek); [|apply _]. rewrite Hm. cbn.
    apply elem_of_ip_maps in Hin as (info & a & Hi & Ha & ->). unfold group_name_and_ip in Ek. cbn in *. simplify_eq.
    split_and!; [by apply elem_of_by_id|done..].
  - intros info Hi <- Ha.
    apply (bsearch_qsort_None fdfs_cmp_group_name_and_ip group_name_and_ip) with
      (x := mkIdMap (si_group_name info) ip (si_port info) info) in E; [done|].
    apply elem_of_ip_maps. exists info, ip. split_and!; [by apply elem_of_by_id|done..].
Qed.

Lemma search_ip_port_correct ip p :
  match search_ip_port t ip p with
  | Some info => info ∈ ids /\ si_port info = p /\ ip ∈ addresses info
  | None => forall info, info ∈ ids -> si_port info = p -> ip ∉ addresses info
  end.
Proof using Hid Hport.
  unfold search_ip_port. rewrite Hport. destruct (bsearch _ _) as [i|] eqn:E; cbn.
  - apply bsearch_qsort_Some in E as (m & Hm & Hin & Ek); [|apply _]. rewrite Hm. cbn.
    apply elem_of_ip_maps in Hin as (info & a & Hi & Ha & ->). unfold ip_and_port in Ek. cbn in *. simplify_eq.
    split_and!; [by apply elem_of_by_id|done..].
  - intros info Hi <- Ha.
    apply (bsearch_qsort_None fdfs_cmp_ip_and_port ip_and_port) with
      (x := mkIdMap (si_group_name info) ip (si_port info) info) in E; [done|].
    apply elem_of_ip_maps. exists info, ip. split_and!; [by apply elem_of_by_id|done..].
Qed.
End found.

(** C30: A storage ids file that loads has one entry per id, and the three
    searches find exactly its entries: by id, by group and address, and by
    address and port, where an entry without a port matches every port. *)
Theorem fdfs_load_storage_ids_correct content t :
  fdfs_load_storage_ids content = inr t ->
  exists ids, entries content = Some ids /\ NoDup (si_id <$> ids) /\
    (forall id info, fdfs_get_storage_by_id t id = Some info <->
       info ∈ ids /\ si_id info = snprintf FDFS_STORAGE_ID_MAX_SIZE id) /\
    (forall g ip, match fdfs_get_storage_id_by_ip t g ip with
       | Some info => info ∈ ids /\ si_group_name info = g /\ ip ∈ addresses info
       | None => forall info, info ∈ ids -> si_group_name info = g -> ip ∉ addresses info
       end) /\
    (forall ip p, match fdfs_get_storage_id_by_ip_port t ip p with
       | Some info => info ∈ ids /\ (si_port info = p \/ si_port info = 0) /\ ip ∈ addresses info
       | None => forall info, info ∈ ids -> si_port info = p \/ si_port info = 0 -> ip ∉ addresses info
       end).
Proof.
  intros Hl. apply load_inv in Hl as (ids & He & _ & Ht & Hs & _). exists ids.
  assert (by_id t = qsort fdfs_cmp_server_id si_id ids) as Hid by (by rewrite Ht).
  split_and!; [done| |by apply get_by_id_Some|apply get_by_ip_correct; [done|by rewrite Ht]|].
  - rewrite <- (qsort_perm fdfs_cmp_server_id si_id ids), <- Hid. apply sorted_by_keys_NoDup in Hs; [done|apply memcmp_order].
  - intros ip p. unfold fdfs_get_storage_id_by_ip_port.
    pose proof (search_ip_port_correct ids t Hid ltac:(by rewrite Ht) ip) as H1.
    pose proof (H1 p) as Hp. destruct (search_ip_port t ip p); [naive_solver|].
    pose proof (H1 0) as Hz. destruct (search_ip_port t ip 0); naive_solver.
Qed.
End lookup.
