(* ===== verification/TrackerMem.v ===== *)
(** * The memory of the tracker ([tracker/tracker_mem.c]).

    Groups of storage servers, their arrays sorted by name and id, the servers
    that are active, and the server of each group that is the trunk server.

    A group is a record in [heap], [FDFSGroups] holds its address; a storage
    server is an index into [all_servers] of its group, which only grows.  The
    functions run under [mem_thread_lock] or are called by one handler; a call
    is one step here.  The build is the default one, without [WITH_HTTPD]. *)

From S2P Require Import Prelude FastCommon SharedFunc SortedArray StorageIds TrackerTypes.

Definition ENONET : Z := 64.
Definition EOPNOTSUPP : Z := 95.

Definition FDFS_STORE_LOOKUP_ROUND_ROBIN : Z := 0.
Definition FDFS_STORE_LOOKUP_SPEC_GROUP : Z := 1.
Definition FDFS_STORE_LOOKUP_LOAD_BALANCE : Z := 2.
Definition FDFS_STORE_SERVER_ROUND_ROBIN : Z := 0.
Definition FDFS_STORE_SERVER_FIRST_BY_IP : Z := 1.
Definition FDFS_STORE_SERVER_FIRST_BY_PRI : Z := 2.

Definition FDFS_MAX_SERVERS_EACH_GROUP : nat := 32.
Definition TRACKER_MEM_ALLOC_ONCE : nat := 2.

(** ** Data. *)

(** [stat_counters] are the counters and times from [total_upload_count] to
    [last_sync_update], in the order of the struct. *)
Record FDFSStorageStat := mkStat {
  connection : Z * Z * Z;
  stat_counters : list Z;
  last_synced_timestamp : Z;
  last_heart_beat_time : Z;
}.

(** [psync_src_server] is a server of the same group. *)
Record FDFSStorageDetail := mkStorage {
  s_status : Z;
  s_id : bytes;
  s_ip_addrs : FDFSMultiIP;
  s_version : bytes;
  s_domain_name : bytes;
  s_psync_src_server : option nat;
  s_path_total_mbs : list Z;
  s_path_free_mbs : list Z;
  s_total_mb : Z;
  s_free_mb : Z;
  s_changelog_offset : Z;
  s_sync_until_timestamp : Z;
  s_join_time : Z;
  s_up_time : Z;
  s_store_path_count : Z;
  s_subdir_count_per_path : Z;
  s_upload_priority : Z;
  s_storage_port : Z;
  s_storage_http_port : Z;
  s_current_write_path : Z;
  s_chg_count : Z;
  s_trunk_chg_count : Z;
  s_stat : FDFSStorageStat;
}.

Definition set_s_status x s := mkStorage x (s_id s) (s_ip_addrs s) (s_version s) (s_domain_name s) (s_psync_src_server s) (s_path_total_mbs s)
  (s_path_free_mbs s) (s_total_mb s) (s_free_mb s) (s_changelog_offset s) (s_sync_until_timestamp s) (s_join_time s) (s_up_time s) (s_store_path_count
  s) (s_subdir_count_per_path s) (s_upload_priority s) (s_storage_port s) (s_storage_http_port s) (s_current_write_path s) (s_chg_count s)
  (s_trunk_chg_count s) (s_stat s).
Definition set_s_id x s := mkStorage (s_status s) x (s_ip_addrs s) (s_version s) (s_domain_name s) (s_psync_src_server s) (s_path_total_mbs s)
  (s_path_free_mbs s) (s_total_mb s) (s_free_mb s) (s_changelog_offset s) (s_sync_until_timestamp s) (s_join_time s) (s_up_time s) (s_store_path_count
  s) (s_subdir_count_per_path s) (s_upload_priority s) (s_storage_port s) (s_storage_http_port s) (s_current_write_path s) (s_chg_count s)
  (s_trunk_chg_count s) (s_stat s).
Definition set_s_ip_addrs x s := mkStorage (s_status s) (s_id s) x (s_version s) (s_domain_name s) (s_psync_src_server s) (s_path_total_mbs s)
  (s_path_free_mbs s) (s_total_mb s) (s_free_mb s) (s_changelog_offset s) (s_sync_until_timestamp s) (s_join_time s) (s_up_time s) (s_store_path_count
  s) (s_subdir_count_per_path s) (s_upload_priority s) (s_storage_port s) (s_storage_http_port s) (s_current_write_path s) (s_chg_count s)
  (s_trunk_chg_count s) (s_stat s).
Definition set_s_version x s := mkStorage (s_status s) (s_id s) (s_ip_addrs s) x (s_domain_name s) (s_psync_src_server s) (s_path_total_mbs s)
  (s_path_free_mbs s) (s_total_mb s) (s_free_mb s) (s_changelog_offset s) (s_sync_until_timestamp s) (s_join_time s) (s_up_time s) (s_store_path_count
  s) (s_subdir_count_per_path s) (s_upload_priority s) (s_storage_port s) (s_storage_http_port s) (s_current_write_path s) (s_chg_count s)
  (s_trunk_chg_count s) (s_stat s).
Definition set_s_domain_name x s := mkStorage (s_status s) (s_id s) (s_ip_addrs s) (s_version s) x (s_psync_src_server s) (s_path_total_mbs s)
  (s_path_free_mbs s) (s_total_mb s) (s_free_mb s) (s_changelog_offset s) (s_sync_until_timestamp s) (s_join_time s) (s_up_time s) (s_store_path_count
  s) (s_subdir_count_per_path s) (s_upload_priority s) (s_storage_port s) (s_storage_http_port s) (s_current_write_path s) (s_chg_count s)
  (s_trunk_chg_count s) (s_stat s).
Definition set_s_psync_src_server x s := mkStorage (s_status s) (s_id s) (s_ip_addrs s) (s_version s) (s_domain_name s) x (s_path_total_mbs s)
  (s_path_free_mbs s) (s_total_mb s) (s_free_mb s) (s_changelog_offset s) (s_sync_until_timestamp s) (s_join_time s) (s_up_time s) (s_store_path_count
  s) (s_subdir_count_per_path s) (s_upload_priority s) (s_storage_port s) (s_storage_http_port s) (s_current_write_path s) (s_chg_count s)
  (s_trunk_chg_count s) (s_stat s).
Definition set_s_path_total_mbs x s := mkStorage (s_status s) (s_id s) (s_ip_addrs s) (s_version s) (s_domain_name s) (s_psync_src_server s) x
  (s_path_free_mbs s) (s_total_mb s) (s_free_mb s) (s_changelog_offset s) (s_sync_until_timestamp s) (s_join_time s) (s_up_time s) (s_store_path_count
  s) (s_subdir_count_per_path s) (s_upload_priority s) (s_storage_port s) (s_storage_http_port s) (s_current_write_path s) (s_chg_count s)
  (s_trunk_chg_count s) (s_stat s).
Definition set_s_path_free_mbs x s := mkStorage (s_status s) (s_id s) (s_ip_addrs s) (s_version s) (s_domain_name s) (s_psync_src_server s)
  (s_path_total_mbs s) x (s_total_mb s) (s_free_mb s) (s_changelog_offset s) (s_sync_until_timestamp s) (s_join_time s) (s_up_time s)
  (s_store_path_count s) (s_subdir_count_per_path s) (s_upload_priority s) (s_storage_port s) (s_storage_http_port s) (s_current_write_path s)
  (s_chg_count s) (s_trunk_chg_count s) (s_stat s).
Definition set_s_total_mb x s := mkStorage (s_status s) (s_id s) (s_ip_addrs s) (s_version s) (s_domain_name s) (s_psync_src_server s)
  (s_path_total_mbs s) (s_path_free_mbs s) x (s_free_mb s) (s_changelog_offset s) (s_sync_until_timestamp s) (s_join_time s) (s_up_time s)
  (s_store_path_count s) (s_subdir_count_per_path s) (s_upload_priority s) (s_storage_port s) (s_storage_http_port s) (s_current_write_path s)
  (s_chg_count s) (s_trunk_chg_count s) (s_stat s).
Definition set_s_free_mb x s := mkStorage (s_status s) (s_id s) (s_ip_addrs s) (s_version s) (s_domain_name s) (s_psync_src_server s)
  (s_path_total_mbs s) (s_path_free_mbs s) (s_total_mb s) x (s_changelog_offset s) (s_sync_until_timestamp s) (s_join_time s) (s_up_time s)
  (s_store_path_count s) (s_subdir_count_per_path s) (s_upload_priority s) (s_storage_port s) (s_storage_http_port s) (s_current_write_path s)
  (s_chg_count s) (s_trunk_chg_count s) (s_stat s).
Definition set_s_changelog_offset x s := mkStorage (s_status s) (s_id s) (s_ip_addrs s) (s_version s) (s_domain_name s) (s_psync_src_server s)
  (s_path_total_mbs s) (s_path_free_mbs s) (s_total_mb s) (s_free_mb s) x (s_sync_until_timestamp s) (s_join_time s) (s_up_time s) (s_store_path_count
  s) (s_subdir_count_per_path s) (s_upload_priority s) (s_storage_port s) (s_storage_http_port s) (s_current_write_path s) (s_chg_count s)
  (s_trunk_chg_count s) (s_stat s).
Definition set_s_sync_until_timestamp x s := mkStorage (s_status s) (s_id s) (s_ip_addrs s) (s_version s) (s_domain_name s) (s_psync_src_server s)
  (s_path_total_mbs s) (s_path_free_mbs s) (s_total_mb s) (s_free_mb s) (s_changelog_offset s) x (s_join_time s) (s_up_time s) (s_store_path_count s)
  (s_subdir_count_per_path s) (s_upload_priority s) (s_storage_port s) (s_storage_http_port s) (s_current_write_path s) (s_chg_count s)
  (s_trunk_chg_count s) (s_stat s).
Definition set_s_join_time x s := mkStorage (s_status s) (s_id s) (s_ip_addrs s) (s_version s) (s_domain_name s) (s_psync_src_server s)
  (s_path_total_mbs s) (s_path_free_mbs s) (s_total_mb s) (s_free_mb s) (s_changelog_offset s) (s_sync_until_timestamp s) x (s_up_time s)
  (s_store_path_count s) (s_subdir_count_per_path s) (s_upload_priority s) (s_storage_port s) (s_storage_http_port s) (s_current_write_path s)
  (s_chg_count s) (s_trunk_chg_count s) (s_stat s).
Definition set_s_up_time x s := mkStorage (s_status s) (s_id s) (s_ip_addrs s) (s_version s) (s_domain_name s) (s_psync_src_server s)
  (s_path_total_mbs s) (s_path_free_mbs s) (s_total_mb s) (s_free_mb s) (s_changelog_offset s) (s_sync_until_timestamp s) (s_join_time s) x
  (s_store_path_count s) (s_subdir_count_per_path s) (s_upload_priority s) (s_storage_port s) (s_storage_http_port s) (s_current_write_path s)
  (s_chg_count s) (s_trunk_chg_count s) (s_stat s).
Definition set_s_store_path_count x s := mkStorage (s_status s) (s_id s) (s_ip_addrs s) (s_version s) (s_domain_name s) (s_psync_src_server s)
  (s_path_total_mbs s) (s_path_free_mbs s) (s_total_mb s) (s_free_mb s) (s_changelog_offset s) (s_sync_until_timestamp s) (s_join_time s) (s_up_time
  s) x (s_subdir_count_per_path s) (s_upload_priority s) (s_storage_port s) (s_storage_http_port s) (s_current_write_path s) (s_chg_count s)
  (s_trunk_chg_count s) (s_stat s).
Definition set_s_subdir_count_per_path x s := mkStorage (s_status s) (s_id s) (s_ip_addrs s) (s_version s) (s_domain_name s) (s_psync_src_server s)
  (s_path_total_mbs s) (s_path_free_mbs s) (s_total_mb s) (s_free_mb s) (s_changelog_offset s) (s_sync_until_timestamp s) (s_join_time s) (s_up_time
  s) (s_store_path_count s) x (s_upload_priority s) (s_storage_port s) (s_storage_http_port s) (s_current_write_path s) (s_chg_count s)
  (s_trunk_chg_count s) (s_stat s).
Definition set_s_upload_priority x s := mkStorage (s_status s) (s_id s) (s_ip_addrs s) (s_version s) (s_domain_name s) (s_psync_src_server s)
  (s_path_total_mbs s) (s_path_free_mbs s) (s_total_mb s) (s_free_mb s) (s_changelog_offset s) (s_sync_until_timestamp s) (s_join_time s) (s_up_time
  s) (s_store_path_count s) (s_subdir_count_per_path s) x (s_storage_port s) (s_storage_http_port s) (s_current_write_path s) (s_chg_count s)
  (s_trunk_chg_count s) (s_stat s).
Definition set_s_storage_port x s := mkStorage (s_status s) (s_id s) (s_ip_addrs s) (s_version s) (s_domain_name s) (s_psync_src_server s)
  (s_path_total_mbs s) (s_path_free_mbs s) (s_total_mb s) (s_free_mb s) (s_changelog_offset s) (s_sync_until_timestamp s) (s_join_time s) (s_up_time
  s) (s_store_path_count s) (s_subdir_count_per_path s) (s_upload_priority s) x (s_storage_http_port s) (s_current_write_path s) (s_chg_count s)
  (s_trunk_chg_count s) (s_stat s).
Definition set_s_storage_http_port x s := mkStorage (s_status s) (s_id s) (s_ip_addrs s) (s_version s) (s_domain_name s) (s_psync_src_server s)
  (s_path_total_mbs s) (s_path_free_mbs s) (s_total_mb s) (s_free_mb s) (s_changelog_offset s) (s_sync_until_timestamp s) (s_join_time s) (s_up_time
  s) (s_store_path_count s) (s_subdir_count_per_path s) (s_upload_priority s) (s_storage_port s) x (s_current_write_path s) (s_chg_count s)
  (s_trunk_chg_count s) (s_stat s).
Definition set_s_current_write_path x s := mkStorage (s_status s) (s_id s) (s_ip_addrs s) (s_version s) (s_domain_name s) (s_psync_src_server s)
  (s_path_total_mbs s) (s_path_free_mbs s) (s_total_mb s) (s_free_mb s) (s_changelog_offset s) (s_sync_until_timestamp s) (s_join_time s) (s_up_time
  s) (s_store_path_count s) (s_subdir_count_per_path s) (s_upload_priority s) (s_storage_port s) (s_storage_http_port s) x (s_chg_count s)
  (s_trunk_chg_count s) (s_stat s).
Definition set_s_chg_count x s := mkStorage (s_status s) (s_id s) (s_ip_addrs s) (s_version s) (s_domain_name s) (s_psync_src_server s)
  (s_path_total_mbs s) (s_path_free_mbs s) (s_total_mb s) (s_free_mb s) (s_changelog_offset s) (s_sync_until_timestamp s) (s_join_time s) (s_up_time
  s) (s_store_path_count s) (s_subdir_count_per_path s) (s_upload_priority s) (s_storage_port s) (s_storage_http_port s) (s_current_write_path s) x
  (s_trunk_chg_count s) (s_stat s).
Definition set_s_trunk_chg_count x s := mkStorage (s_status s) (s_id s) (s_ip_addrs s) (s_version s) (s_domain_name s) (s_psync_src_server s)
  (s_path_total_mbs s) (s_path_free_mbs s) (s_total_mb s) (s_free_mb s) (s_changelog_offset s) (s_sync_until_timestamp s) (s_join_time s) (s_up_time
  s) (s_store_path_count s) (s_subdir_count_per_path s) (s_upload_priority s) (s_storage_port s) (s_storage_http_port s) (s_current_write_path s)
  (s_chg_count s) x (s_stat s).
Definition set_s_stat x s := mkStorage (s_status s) (s_id s) (s_ip_addrs s) (s_version s) (s_domain_name s) (s_psync_src_server s) (s_path_total_mbs
  s) (s_path_free_mbs s) (s_total_mb s) (s_free_mb s) (s_changelog_offset s) (s_sync_until_timestamp s) (s_join_time s) (s_up_time s)
  (s_store_path_count s) (s_subdir_count_per_path s) (s_upload_priority s) (s_storage_port s) (s_storage_http_port s) (s_current_write_path s)
  (s_chg_count s) (s_trunk_chg_count s) x.

(** The fields of a group; [sorted_servers] and [active_servers] are the first
    [count] and [active_count] entries of the arrays. *)
Record FDFSGroupInfo := mkGroup {
  g_group_name : bytes;
  g_total_mb : Z;
  g_free_mb : Z;
  g_trunk_free_mb : Z;
  g_alloc_size : nat;
  g_storage_port : Z;
  g_storage_http_port : Z;
  g_current_trunk_file_id : Z;
  g_all_servers : list FDFSStorageDetail;
  g_sorted_servers : list nat;
  g_active_servers : list nat;
  g_pStoreServer : option nat;
  g_pTrunkServer : option nat;
  g_last_trunk_server_id : bytes;
  g_current_read_server : Z;
  g_current_write_server : Z;
  g_store_path_count : Z;
  g_subdir_count_per_path : Z;
  g_last_sync_timestamps : list (list Z);
  g_chg_count : Z;
  g_trunk_chg_count : Z;
}.

Definition set_g_group_name x s := mkGroup x (g_total_mb s) (g_free_mb s) (g_trunk_free_mb s) (g_alloc_size s) (g_storage_port s) (g_storage_http_port
  s) (g_current_trunk_file_id s) (g_all_servers s) (g_sorted_servers s) (g_active_servers s) (g_pStoreServer s) (g_pTrunkServer s)
  (g_last_trunk_server_id s) (g_current_read_server s) (g_current_write_server s) (g_store_path_count s) (g_subdir_count_per_path s)
  (g_last_sync_timestamps s) (g_chg_count s) (g_trunk_chg_count s).
Definition set_g_total_mb x s := mkGroup (g_group_name s) x (g_free_mb s) (g_trunk_free_mb s) (g_alloc_size s) (g_storage_port s) (g_storage_http_port
  s) (g_current_trunk_file_id s) (g_all_servers s) (g_sorted_servers s) (g_active_servers s) (g_pStoreServer s) (g_pTrunkServer s)
  (g_last_trunk_server_id s) (g_current_read_server s) (g_current_write_server s) (g_store_path_count s) (g_subdir_count_per_path s)
  (g_last_sync_timestamps s) (g_chg_count s) (g_trunk_chg_count s).
Definition set_g_free_mb x s := mkGroup (g_group_name s) (g_total_mb s) x (g_trunk_free_mb s) (g_alloc_size s) (g_storage_port s) (g_storage_http_port
  s) (g_current_trunk_file_id s) (g_all_servers s) (g_sorted_servers s) (g_active_servers s) (g_pStoreServer s) (g_pTrunkServer s)
  (g_last_trunk_server_id s) (g_current_read_server s) (g_current_write_server s) (g_store_path_count s) (g_subdir_count_per_path s)
  (g_last_sync_timestamps s) (g_chg_count s) (g_trunk_chg_count s).
Definition set_g_trunk_free_mb x s := mkGroup (g_group_name s) (g_total_mb s) (g_free_mb s) x (g_alloc_size s) (g_storage_port s) (g_storage_http_port
  s) (g_current_trunk_file_id s) (g_all_servers s) (g_sorted_servers s) (g_active_servers s) (g_pStoreServer s) (g_pTrunkServer s)
  (g_last_trunk_server_id s) (g_current_read_server s) (g_current_write_server s) (g_store_path_count s) (g_subdir_count_per_path s)
  (g_last_sync_timestamps s) (g_chg_count s) (g_trunk_chg_count s).
Definition set_g_alloc_size x s := mkGroup (g_group_name s) (g_total_mb s) (g_free_mb s) (g_trunk_free_mb s) x (g_storage_port s) (g_storage_http_port
  s) (g_current_trunk_file_id s) (g_all_servers s) (g_sorted_servers s) (g_active_servers s) (g_pStoreServer s) (g_pTrunkServer s)
  (g_last_trunk_server_id s) (g_current_read_server s) (g_current_write_server s) (g_store_path_count s) (g_subdir_count_per_path s)
  (g_last_sync_timestamps s) (g_chg_count s) (g_trunk_chg_count s).
Definition set_g_storage_port x s := mkGroup (g_group_name s) (g_total_mb s) (g_free_mb s) (g_trunk_free_mb s) (g_alloc_size s) x (g_storage_http_port
  s) (g_current_trunk_file_id s) (g_all_servers s) (g_sorted_servers s) (g_active_servers s) (g_pStoreServer s) (g_pTrunkServer s)
  (g_last_trunk_server_id s) (g_current_read_server s) (g_current_write_server s) (g_store_path_count s) (g_subdir_count_per_path s)
  (g_last_sync_timestamps s) (g_chg_count s) (g_trunk_chg_count s).
Definition set_g_storage_http_port x s := mkGroup (g_group_name s) (g_total_mb s) (g_free_mb s) (g_trunk_free_mb s) (g_alloc_size s) (g_storage_port
  s) x (g_current_trunk_file_id s) (g_all_servers s) (g_sorted_servers s) (g_active_servers s) (g_pStoreServer s) (g_pTrunkServer s)
  (g_last_trunk_server_id s) (g_current_read_server s) (g_current_write_server s) (g_store_path_count s) (g_subdir_count_per_path s)
  (g_last_sync_timestamps s) (g_chg_count s) (g_trunk_chg_count s).
Definition set_g_current_trunk_file_id x s := mkGroup (g_group_name s) (g_total_mb s) (g_free_mb s) (g_trunk_free_mb s) (g_alloc_size s)
  (g_storage_port s) (g_storage_http_port s) x (g_all_servers s) (g_sorted_servers s) (g_active_servers s) (g_pStoreServer s) (g_pTrunkServer s)
  (g_last_trunk_server_id s) (g_current_read_server s) (g_current_write_server s) (g_store_path_count s) (g_subdir_count_per_path s)
  (g_last_sync_timestamps s) (g_chg_count s) (g_trunk_chg_count s).
Definition set_g_all_servers x s := mkGroup (g_group_name s) (g_total_mb s) (g_free_mb s) (g_trunk_free_mb s) (g_alloc_size s) (g_storage_port s)
  (g_storage_http_port s) (g_current_trunk_file_id s) x (g_sorted_servers s) (g_active_servers s) (g_pStoreServer s) (g_pTrunkServer s)
  (g_last_trunk_server_id s) (g_current_read_server s) (g_current_write_server s) (g_store_path_count s) (g_subdir_count_per_path s)
  (g_last_sync_timestamps s) (g_chg_count s) (g_trunk_chg_count s).
Definition set_g_sorted_servers x s := mkGroup (g_group_name s) (g_total_mb s) (g_free_mb s) (g_trunk_free_mb s) (g_alloc_size s) (g_storage_port s)
  (g_storage_http_port s) (g_current_trunk_file_id s) (g_all_servers s) x (g_active_servers s) (g_pStoreServer s) (g_pTrunkServer s)
  (g_last_trunk_server_id s) (g_current_read_server s) (g_current_write_server s) (g_store_path_count s) (g_subdir_count_per_path s)
  (g_last_sync_timestamps s) (g_chg_count s) (g_trunk_chg_count s).
Definition set_g_active_servers x s := mkGroup (g_group_name s) (g_total_mb s) (g_free_mb s) (g_trunk_free_mb s) (g_alloc_size s) (g_storage_port s)
  (g_storage_http_port s) (g_current_trunk_file_id s) (g_all_servers s) (g_sorted_servers s) x (g_pStoreServer s) (g_pTrunkServer s)
  (g_last_trunk_server_id s) (g_current_read_server s) (g_current_write_server s) (g_store_path_count s) (g_subdir_count_per_path s)
  (g_last_sync_timestamps s) (g_chg_count s) (g_trunk_chg_count s).
Definition set_g_pStoreServer x s := mkGroup (g_group_name s) (g_total_mb s) (g_free_mb s) (g_trunk_free_mb s) (g_alloc_size s) (g_storage_port s)
  (g_storage_http_port s) (g_current_trunk_file_id s) (g_all_servers s) (g_sorted_servers s) (g_active_servers s) x (g_pTrunkServer s)
  (g_last_trunk_server_id s) (g_current_read_server s) (g_current_write_server s) (g_store_path_count s) (g_subdir_count_per_path s)
  (g_last_sync_timestamps s) (g_chg_count s) (g_trunk_chg_count s).
Definition set_g_pTrunkServer x s := mkGroup (g_group_name s) (g_total_mb s) (g_free_mb s) (g_trunk_free_mb s) (g_alloc_size s) (g_storage_port s)
  (g_storage_http_port s) (g_current_trunk_file_id s) (g_all_servers s) (g_sorted_servers s) (g_active_servers s) (g_pStoreServer s) x
  (g_last_trunk_server_id s) (g_current_read_server s) (g_current_write_server s) (g_store_path_count s) (g_subdir_count_per_path s)
  (g_last_sync_timestamps s) (g_chg_count s) (g_trunk_chg_count s).
Definition set_g_last_trunk_server_id x s := mkGroup (g_group_name s) (g_total_mb s) (g_free_mb s) (g_trunk_free_mb s) (g_alloc_size s)
  (g_storage_port s) (g_storage_http_port s) (g_current_trunk_file_id s) (g_all_servers s) (g_sorted_servers s) (g_active_servers s) (g_pStoreServer
  s) (g_pTrunkServer s) x (g_current_read_server s) (g_current_write_server s) (g_store_path_count s) (g_subdir_count_per_path s)
  (g_last_sync_timestamps s) (g_chg_count s) (g_trunk_chg_count s).
Definition set_g_current_read_server x s := mkGroup (g_group_name s) (g_total_mb s) (g_free_mb s) (g_trunk_free_mb s) (g_alloc_size s) (g_storage_port
  s) (g_storage_http_port s) (g_current_trunk_file_id s) (g_all_servers s) (g_sorted_servers s) (g_active_servers s) (g_pStoreServer s)
  (g_pTrunkServer s) (g_last_trunk_server_id s) x (g_current_write_server s) (g_store_path_count s) (g_subdir_count_per_path s)
  (g_last_sync_timestamps s) (g_chg_count s) (g_trunk_chg_count s).
Definition set_g_current_write_server x s := mkGroup (g_group_name s) (g_total_mb s) (g_free_mb s) (g_trunk_free_mb s) (g_alloc_size s)
  (g_storage_port s) (g_storage_http_port s) (g_current_trunk_file_id s) (g_all_servers s) (g_sorted_servers s) (g_active_servers s) (g_pStoreServer
  s) (g_pTrunkServer s) (g_last_trunk_server_id s) (g_current_read_server s) x (g_store_path_count s) (g_subdir_count_per_path s)
  (g_last_sync_timestamps s) (g_chg_count s) (g_trunk_chg_count s).
Definition set_g_store_path_count x s := mkGroup (g_group_name s) (g_total_mb s) (g_free_mb s) (g_trunk_free_mb s) (g_alloc_size s) (g_storage_port s)
  (g_storage_http_port s) (g_current_trunk_file_id s) (g_all_servers s) (g_sorted_servers s) (g_active_servers s) (g_pStoreServer s) (g_pTrunkServer
  s) (g_last_trunk_server_id s) (g_current_read_server s) (g_current_write_server s) x (g_subdir_count_per_path s) (g_last_sync_timestamps s)
  (g_chg_count s) (g_trunk_chg_count s).
Definition set_g_subdir_count_per_path x s := mkGroup (g_group_name s) (g_total_mb s) (g_free_mb s) (g_trunk_free_mb s) (g_alloc_size s)
  (g_storage_port s) (g_storage_http_port s) (g_current_trunk_file_id s) (g_all_servers s) (g_sorted_servers s) (g_active_servers s) (g_pStoreServer
  s) (g_pTrunkServer s) (g_last_trunk_server_id s) (g_current_read_server s) (g_current_write_server s) (g_store_path_count s) x
  (g_last_sync_timestamps s) (g_chg_count s) (g_trunk_chg_count s).
Definition set_g_last_sync_timestamps x s := mkGroup (g_group_name s) (g_total_mb s) (g_free_mb s) (g_trunk_free_mb s) (g_alloc_size s)
  (g_storage_port s) (g_storage_http_port s) (g_current_trunk_file_id s) (g_all_servers s) (g_sorted_servers s) (g_active_servers s) (g_pStoreServer
  s) (g_pTrunkServer s) (g_last_trunk_server_id s) (g_current_read_server s) (g_current_write_server s) (g_store_path_count s)
  (g_subdir_count_per_path s) x (g_chg_count s) (g_trunk_chg_count s).
Definition set_g_chg_count x s := mkGroup (g_group_name s) (g_total_mb s) (g_free_mb s) (g_trunk_free_mb s) (g_alloc_size s) (g_storage_port s)
  (g_storage_http_port s) (g_current_trunk_file_id s) (g_all_servers s) (g_sorted_servers s) (g_active_servers s) (g_pStoreServer s) (g_pTrunkServer
  s) (g_last_trunk_server_id s) (g_current_read_server s) (g_current_write_server s) (g_store_path_count s) (g_subdir_count_per_path s)
  (g_last_sync_timestamps s) x (g_trunk_chg_count s).
Definition set_g_trunk_chg_count x s := mkGroup (g_group_name s) (g_total_mb s) (g_free_mb s) (g_trunk_free_mb s) (g_alloc_size s) (g_storage_port s)
  (g_storage_http_port s) (g_current_trunk_file_id s) (g_all_servers s) (g_sorted_servers s) (g_active_servers s) (g_pStoreServer s) (g_pTrunkServer
  s) (g_last_trunk_server_id s) (g_current_read_server s) (g_current_write_server s) (g_store_path_count s) (g_subdir_count_per_path s)
  (g_last_sync_timestamps s) (g_chg_count s) x.

Definition zero_stat : FDFSStorageStat := mkStat (0, 0, 0) (replicate 40 0) 0 0.
Definition zero_storage : FDFSStorageDetail :=
  mkStorage 0 [] (mkMultiIP 0 []) [] [] None [] [] 0 0 0 0 0 0 0 0 0 0 0 0 0 0 zero_stat.
Definition zero_group : FDFSGroupInfo := mkGroup [] 0 0 0 0 0 0 0 [] [] [] None None [] 0 0 0 0 [] 0 0.

#[export] Instance FDFSStorageDetail_inhabited : Inhabited FDFSStorageDetail := populate zero_storage.
#[export] Instance FDFSGroupInfo_inhabited : Inhabited FDFSGroupInfo := populate zero_group.

(** The globals.  [groups] are all the slots of the array, [count] of them in
    use; [changelog] is the changelog file, [syscalls] the results of the coming
    allocations and file operations (0 is success, an exhausted list too), and
    [binlog_sizes] what a storage server answers to the question for the size
    of its trunk binlog. *)
Record TrackerMem := mkTrackerMem {
  heap : gmap nat FDFSGroupInfo;
  groups : list nat;
  count : nat;
  sorted_groups : list nat;
  pStoreGroup : option nat;
  current_write_group : Z;
  g_trunk_server_chg_count : Z;
  changelog : bytes;
  g_changelog_fsize : Z;
  g_storage_sync_time_chg_count : Z;
  g_storage_stat_chg_count : Z;
  g_if_leader_self : bool;
  g_tracker_leader_chg_count : Z;
  g_current_time : Z;
  syscalls : list Z;
  binlog_sizes : bytes -> Z -> Z + Z;
}.

Definition set_heap x s := mkTrackerMem x (groups s) (count s) (sorted_groups s) (pStoreGroup s) (current_write_group s) (g_trunk_server_chg_count s)
  (changelog s) (g_changelog_fsize s) (g_storage_sync_time_chg_count s) (g_storage_stat_chg_count s) (g_if_leader_self s) (g_tracker_leader_chg_count
  s) (g_current_time s) (syscalls s) (binlog_sizes s).
Definition set_groups x s := mkTrackerMem (heap s) x (count s) (sorted_groups s) (pStoreGroup s) (current_write_group s) (g_trunk_server_chg_count s)
  (changelog s) (g_changelog_fsize s) (g_storage_sync_time_chg_count s) (g_storage_stat_chg_count s) (g_if_leader_self s) (g_tracker_leader_chg_count
  s) (g_current_time s) (syscalls s) (binlog_sizes s).
Definition set_count x s := mkTrackerMem (heap s) (groups s) x (sorted_groups s) (pStoreGroup s) (current_write_group s) (g_trunk_server_chg_count s)
  (changelog s) (g_changelog_fsize s) (g_storage_sync_time_chg_count s) (g_storage_stat_chg_count s) (g_if_leader_self s) (g_tracker_leader_chg_count
  s) (g_current_time s) (syscalls s) (binlog_sizes s).
Definition set_sorted_groups x s := mkTrackerMem (heap s) (groups s) (count s) x (pStoreGroup s) (current_write_group s) (g_trunk_server_chg_count s)
  (changelog s) (g_changelog_fsize s) (g_storage_sync_time_chg_count s) (g_storage_stat_chg_count s) (g_if_leader_self s) (g_tracker_leader_chg_count
  s) (g_current_time s) (syscalls s) (binlog_sizes s).
Definition set_pStoreGroup x s := mkTrackerMem (heap s) (groups s) (count s) (sorted_groups s) x (current_write_group s) (g_trunk_server_chg_count s)
  (changelog s) (g_changelog_fsize s) (g_storage_sync_time_chg_count s) (g_storage_stat_chg_count s) (g_if_leader_self s) (g_tracker_leader_chg_count
  s) (g_current_time s) (syscalls s) (binlog_sizes s).
Definition set_current_write_group x s := mkTrackerMem (heap s) (groups s) (count s) (sorted_groups s) (pStoreGroup s) x (g_trunk_server_chg_count s)
  (changelog s) (g_changelog_fsize s) (g_storage_sync_time_chg_count s) (g_storage_stat_chg_count s) (g_if_leader_self s) (g_tracker_leader_chg_count
  s) (g_current_time s) (syscalls s) (binlog_sizes s).
Definition set_g_trunk_server_chg_count x s := mkTrackerMem (heap s) (groups s) (count s) (sorted_groups s) (pStoreGroup s) (current_write_group s) x
  (changelog s) (g_changelog_fsize s) (g_storage_sync_time_chg_count s) (g_storage_stat_chg_count s) (g_if_leader_self s) (g_tracker_leader_chg_count
  s) (g_current_time s) (syscalls s) (binlog_sizes s).
Definition set_changelog x s := mkTrackerMem (heap s) (groups s) (count s) (sorted_groups s) (pStoreGroup s) (current_write_group s)
  (g_trunk_server_chg_count s) x (g_changelog_fsize s) (g_storage_sync_time_chg_count s) (g_storage_stat_chg_count s) (g_if_leader_self s)
  (g_tracker_leader_chg_count s) (g_current_time s) (syscalls s) (binlog_sizes s).
Definition set_g_changelog_fsize x s := mkTrackerMem (heap s) (groups s) (count s) (sorted_groups s) (pStoreGroup s) (current_write_group s)
  (g_trunk_server_chg_count s) (changelog s) x (g_storage_sync_time_chg_count s) (g_storage_stat_chg_count s) (g_if_leader_self s)
  (g_tracker_leader_chg_count s) (g_current_time s) (syscalls s) (binlog_sizes s).
Definition set_g_storage_sync_time_chg_count x s := mkTrackerMem (heap s) (groups s) (count s) (sorted_groups s) (pStoreGroup s) (current_write_group
  s) (g_trunk_server_chg_count s) (changelog s) (g_changelog_fsize s) x (g_storage_stat_chg_count s) (g_if_leader_self s) (g_tracker_leader_chg_count
  s) (g_current_time s) (syscalls s) (binlog_sizes s).
Definition set_g_storage_stat_chg_count x s := mkTrackerMem (heap s) (groups s) (count s) (sorted_groups s) (pStoreGroup s) (current_write_group s)
  (g_trunk_server_chg_count s) (changelog s) (g_changelog_fsize s) (g_storage_sync_time_chg_count s) x (g_if_leader_self s)
  (g_tracker_leader_chg_count s) (g_current_time s) (syscalls s) (binlog_sizes s).
Definition set_g_if_leader_self x s := mkTrackerMem (heap s) (groups s) (count s) (sorted_groups s) (pStoreGroup s) (current_write_group s)
  (g_trunk_server_chg_count s) (changelog s) (g_changelog_fsize s) (g_storage_sync_time_chg_count s) (g_storage_stat_chg_count s) x
  (g_tracker_leader_chg_count s) (g_current_time s) (syscalls s) (binlog_sizes s).
Definition set_g_tracker_leader_chg_count x s := mkTrackerMem (heap s) (groups s) (count s) (sorted_groups s) (pStoreGroup s) (current_write_group s)
  (g_trunk_server_chg_count s) (changelog s) (g_changelog_fsize s) (g_storage_sync_time_chg_count s) (g_storage_stat_chg_count s) (g_if_leader_self s)
  x (g_current_time s) (syscalls s) (binlog_sizes s).
Definition set_g_current_time x s := mkTrackerMem (heap s) (groups s) (count s) (sorted_groups s) (pStoreGroup s) (current_write_group s)
  (g_trunk_server_chg_count s) (changelog s) (g_changelog_fsize s) (g_storage_sync_time_chg_count s) (g_storage_stat_chg_count s) (g_if_leader_self s)
  (g_tracker_leader_chg_count s) x (syscalls s) (binlog_sizes s).
Definition set_syscalls x s := mkTrackerMem (heap s) (groups s) (count s) (sorted_groups s) (pStoreGroup s) (current_write_group s)
  (g_trunk_server_chg_count s) (changelog s) (g_changelog_fsize s) (g_storage_sync_time_chg_count s) (g_storage_stat_chg_count s) (g_if_leader_self s)
  (g_tracker_leader_chg_count s) (g_current_time s) x (binlog_sizes s).
Definition set_binlog_sizes x s := mkTrackerMem (heap s) (groups s) (count s) (sorted_groups s) (pStoreGroup s) (current_write_group s)
  (g_trunk_server_chg_count s) (changelog s) (g_changelog_fsize s) (g_storage_sync_time_chg_count s) (g_storage_stat_chg_count s) (g_if_leader_self s)
  (g_tracker_leader_chg_count s) (g_current_time s) (syscalls s) x.

(** The settings. *)
Record TrackerMemConf := {
  IP_ADDRESS_SIZE : Z;
  store_lookup : Z;
  store_server : Z;
  download_server : Z;
  store_path : Z;
  store_group : bytes;
  g_if_use_trunk_file : bool;
  g_use_storage_id : bool;
  storage_ids : StorageIds;
  g_storage_reserved_space : FDFSStorageReservedSpace;
  g_check_active_interval : Z;
  g_storage_sync_file_max_delay : Z;
  g_storage_sync_file_max_time : Z;
  g_trunk_init_check_occupying : bool;
  g_trunk_init_reload_from_binlog : bool;
}.

Local Open Scope c_scope.

Definition syscall : M TrackerMem Z :=
  fun s => match syscalls s with [] => (0, s) | e :: l => (e, set_syscalls l s) end.

(** What a pointer to a group points at; a change of it; a change of one of its
    servers. *)
Definition group (p : nat) : M TrackerMem FDFSGroupInfo := gets (fun s => heap s !!! p).
Definition with_group (p : nat) (f : FDFSGroupInfo -> FDFSGroupInfo) : M TrackerMem unit :=
  modify (fun s => set_heap (<[p := f (heap s !!! p)]> (heap s)) s).
Definition server (g : FDFSGroupInfo) (i : nat) : FDFSStorageDetail := g_all_servers g !!! i.
Definition with_server (i : nat) (f : FDFSStorageDetail -> FDFSStorageDetail) (g : FDFSGroupInfo) : FDFSGroupInfo :=
  set_g_all_servers (alter f i (g_all_servers g)) g.
Definition inc_chg_count (g : FDFSGroupInfo) : FDFSGroupInfo := set_g_chg_count (int32 (g_chg_count g + 1)) g.
Definition inc_trunk_chg_count (g : FDFSGroupInfo) : FDFSGroupInfo := set_g_trunk_chg_count (int32 (g_trunk_chg_count g + 1)) g.
Definition inc_trunk_server_chg_count : M TrackerMem unit :=
  modify (fun s => set_g_trunk_server_chg_count (int32 (g_trunk_server_chg_count s + 1)) s).

(** [tracker_save_groups], [tracker_save_storages], [tracker_save_sys_files]:
    the files are not modelled. *)
Definition save_files : M TrackerMem Z := syscall.

Section tracker_mem.
Context (conf : TrackerMemConf).

(** ** Searches. *)
Definition server_id (g : FDFSGroupInfo) (i : nat) : bytes := s_id (server g i).
Definition tracker_mem_cmp_by_storage_id : bytes -> bytes -> Z := memcmp.
Definition tracker_mem_cmp_by_group_name : bytes -> bytes -> Z := memcmp.

Definition search_servers (g : FDFSGroupInfo) (l : list nat) (id : bytes) : option nat :=
  k ← bsearch (fun i => tracker_mem_cmp_by_storage_id id (server_id g i)) l; l !! k.

Definition tracker_mem_get_storage (g : FDFSGroupInfo) (id : bytes) : option nat := search_servers g (g_sorted_servers g) id.

Definition tracker_mem_get_active_storage_by_id (g : FDFSGroupInfo) (id : bytes) : option nat :=
  search_servers g (g_active_servers g) id.

Definition tracker_mem_get_active_storage_by_ip (g : FDFSGroupInfo) (ip_addr : bytes) : option nat :=
  if negb (g_use_storage_id conf) then tracker_mem_get_active_storage_by_id g ip_addr
  else
    pStorageId ← fdfs_get_storage_id_by_ip (storage_ids conf) (g_group_name g) ip_addr;
    tracker_mem_get_active_storage_by_id g (si_id pStorageId).

Definition tracker_mem_get_storage_by_ip (g : FDFSGroupInfo) (ip_addr : bytes) : option nat :=
  if g_use_storage_id conf then
    pStorageIdInfo ← fdfs_get_storage_id_by_ip (storage_ids conf) (g_group_name g) ip_addr;
    tracker_mem_get_storage g (si_id pStorageIdInfo)
  else tracker_mem_get_storage g ip_addr.

Definition group_name (s : TrackerMem) (p : nat) : bytes := g_group_name (heap s !!! p).

Definition tracker_mem_get_group_ex (name : bytes) (s : TrackerMem) : option nat :=
  k ← bsearch (fun p => tracker_mem_cmp_by_group_name name (group_name s p)) (sorted_groups s);
  sorted_groups s !! k.

Definition tracker_get_group_sync_src_server (g : FDFSGroupInfo) (pDestServer : nat) : option nat :=
  head (filter (fun i => server_id g i <> server_id g pDestServer) (g_active_servers g)).

(** ** The changelog. *)
Definition changelog_line (now : Z) (g : FDFSGroupInfo) (i : nat) (arg : bytes) : bytes :=
  snprintf 256 (fmt_d now ++ 32 :: g_group_name g ++ 32 :: server_id g i ++ 32 :: fmt_d (s_status (server g i)) ++ 32 :: arg ++ [10]).

Definition tracker_write_to_changelog (p i : nat) (arg : bytes) : M TrackerMem Z :=
  let! g := group p in
  let! now := gets g_current_time in
  let buff := changelog_line now g i arg in
  let! e := syscall in
  if negb (e =? 0) then ret e
  else
    modify (fun s => set_g_changelog_fsize (g_changelog_fsize s + Z.of_nat (length buff)) (set_changelog (changelog s ++ buff) s)) ;;
    syscall.

(** ** The server for uploads and the trunk server. *)
Definition tracker_mem_find_store_server (g : FDFSGroupInfo) : FDFSGroupInfo :=
  match g_active_servers g with
  | [] => set_g_pStoreServer None g
  | p :: l =>
      if store_server conf =? FDFS_STORE_SERVER_FIRST_BY_PRI then
        set_g_pStoreServer (Some (foldl (fun pMin i =>
          if s_upload_priority (server g i) <? s_upload_priority (server g pMin) then i else pMin) p l)) g
      else set_g_pStoreServer (Some p) g
  end.

Definition current_ip (g : FDFSGroupInfo) (i : nat) : bytes := FDFS_CURRENT_IP_ADDR (s_ip_addrs (server g i)).

Definition tracker_mem_get_trunk_binlog_size (g : FDFSGroupInfo) (i : nat) : M TrackerMem (Z + Z) :=
  gets (fun s => binlog_sizes s (current_ip g i) (g_storage_port g)).

(** [tracker_set_trunk_server_and_log] without the text it writes to the trunk
    server changelog. *)
Definition tracker_set_trunk_server_and_log (p : nat) (pNewTrunkServer : option nat) : M TrackerMem Z :=
  with_group p (set_g_pTrunkServer pNewTrunkServer) ;;
  let! g := group p in
  match pNewTrunkServer with
  | None => let! result := syscall in with_group p (set_g_last_trunk_server_id []) ;; ret result
  | Some i =>
      if negb (memcmp (server_id g i) (g_last_trunk_server_id g) =? 0) then
        let! result := syscall in with_group p (set_g_last_trunk_server_id (server_id g i)) ;; ret result
      else ret 0
  end.

(** [fdfs_deal_no_body_cmd_ex] asks the new trunk server to delete its binlog
    marks. *)
Definition tracker_mem_do_set_trunk_server (p i : nat) (save : bool) : M TrackerMem Z :=
  let! g := group p in
  let! result :=
    (if negb (memcmp (g_last_trunk_server_id g) [] =? 0) && negb (memcmp (server_id g i) (g_last_trunk_server_id g) =? 0)
     then syscall else ret 0) in
  if negb (result =? 0) then ret result
  else
    tracker_set_trunk_server_and_log p (Some i) ;;
    with_group p inc_trunk_chg_count ;;
    inc_trunk_server_chg_count ;;
    if save then save_files else ret 0.

(** The loop over the active servers. *)
Fixpoint larger_binlog (g : FDFSGroupInfo) (max_file_size : Z) (pStoreServer : nat) (l : list nat) : M TrackerMem nat :=
  match l with
  | [] => ret pStoreServer
  | i :: l' =>
      if (i =? pStoreServer)%nat then larger_binlog g max_file_size pStoreServer l'
      else
        let! r := tracker_mem_get_trunk_binlog_size g i in
        match r with
        | inl _ => larger_binlog g max_file_size pStoreServer l'
        | inr file_size => larger_binlog g max_file_size (if max_file_size <? file_size then i else pStoreServer) l'
        end
  end.

Definition tracker_mem_find_trunk_server (p : nat) (save : bool) : M TrackerMem Z :=
  let! g := group p in
  match g_pStoreServer g with
  | None => ret ENOENT
  | Some i =>
      let! r := tracker_mem_get_trunk_binlog_size g i in
      match r with
      | inl e => ret e
      | inr max_file_size =>
          let! i := larger_binlog g max_file_size i (g_active_servers g) in
          tracker_mem_do_set_trunk_server p i save
      end
  end.

Definition status_of (g : FDFSGroupInfo) (o : option nat) : Z :=
  match o with Some i => s_status (server g i) | None => FDFS_STORAGE_STATUS_NONE end.

(** The result code and the trunk server. *)
Definition tracker_mem_set_trunk_server (p : nat) (pStroageId : bytes) : M TrackerMem (Z * option nat) :=
  let! leader := gets g_if_leader_self in
  if negb (leader && g_if_use_trunk_file conf) then ret (EOPNOTSUPP, None)
  else
    let! g := group p in
    let active := status_of g (g_pTrunkServer g) =? FDFS_STORAGE_STATUS_ACTIVE in
    match pStroageId with
    | [] =>
        if active then ret (0, g_pTrunkServer g)
        else
          let! result := tracker_mem_find_trunk_server p true in
          if negb (result =? 0) then ret (result, None)
          else let! g := group p in ret (0, g_pTrunkServer g)
    | _ =>
        if active then
          ret (if memcmp pStroageId (default [] (server_id g <$> g_pTrunkServer g)) =? 0 then EALREADY else EEXIST,
               g_pTrunkServer g)
        else
          match tracker_mem_get_storage g pStroageId with
          | None => ret (ENOENT, None)
          | Some i =>
              if negb (s_status (server g i) =? FDFS_STORAGE_STATUS_ACTIVE) then ret (ENONET, None)
              else
                let! result := tracker_mem_do_set_trunk_server p i true in
                let! g := group p in
                ret (result, if result =? 0 then g_pTrunkServer g else None)
          end
    end.

Fixpoint find_trunk_servers_of (l : list nat) : M TrackerMem unit :=
  match l with
  | [] => ret tt
  | p :: l' =>
      let! g := group p in
      match g_pTrunkServer g with
      | None => tracker_mem_find_trunk_server p true ;; find_trunk_servers_of l'
      | Some _ => find_trunk_servers_of l'
      end
  end.

Definition tracker_mem_find_trunk_servers : M TrackerMem unit :=
  let! leader := gets g_if_leader_self in
  if negb (leader && g_if_use_trunk_file conf) then ret tt
  else
    let! l := gets (fun s => take (count s) (groups s)) in
    find_trunk_servers_of l ;;
    inc_trunk_server_chg_count.

(** ** Adding groups and servers. *)

(** [tracker_malloc_last_sync_timestamps] and the copy of the old rows. *)
Definition grow_timestamps (new_size : nat) (m : list (list Z)) : list (list Z) :=
  resize new_size (replicate new_size 0) ((fun row => resize new_size 0 row) <$> m).

(** The group after the reallocation. *)
Definition grow_group (inc_count : nat) (g : FDFSGroupInfo) : FDFSGroupInfo :=
  let new_size := (g_alloc_size g + inc_count + TRACKER_MEM_ALLOC_ONCE)%nat in
  tracker_mem_find_store_server
    (set_g_last_sync_timestamps (grow_timestamps new_size (g_last_sync_timestamps g)) (set_g_alloc_size new_size g)).

(** The allocations come first and change nothing when one fails. *)
Definition tracker_mem_realloc_store_servers (p inc_count : nat) : M TrackerMem Z :=
  let! e := syscall in
  if negb (e =? 0) then ret e
  else
    with_group p (grow_group inc_count) ;;
    let! leader := gets g_if_leader_self in
    (if leader && g_if_use_trunk_file conf then tracker_mem_find_trunk_server p true else ret 0) ;;
    ret 0.

(** The slot behind the servers in use, all zero but for the disk arrays. *)
Definition new_storage (g : FDFSGroupInfo) (id : bytes) (ip_addrs : FDFSMultiIP) : FDFSStorageDetail :=
  let n := Z.to_nat (g_store_path_count g) in
  set_s_id (snprintf FDFS_STORAGE_ID_MAX_SIZE id)
    (set_s_ip_addrs ip_addrs (set_s_path_total_mbs (replicate n 0) (set_s_path_free_mbs (replicate n 0) zero_storage))).

Definition tracker_mem_insert_into_sorted_servers (g : FDFSGroupInfo) (i : nat) (l : list nat) : list nat :=
  insert_sorted tracker_mem_cmp_by_storage_id (server_id g) i l.

(** The id and the addresses of the server at [ip_addr] that calls itself
    [id]. *)
Definition storage_id_and_ips (g : FDFSGroupInfo) (id : option bytes) (ip_addr : bytes) : Z + (bytes * FDFSMultiIP) :=
  let single := mkMultiIP 0 [mkIP 0 ip_addr] in
  match id with
  | Some id =>
      if g_use_storage_id conf then
        match fdfs_get_storage_by_id (storage_ids conf) id with
        | None => inl ENOENT
        | Some info =>
            if negb (memcmp (si_group_name info) (g_group_name g) =? 0) then inl EINVAL
            else inr (id, si_ip_addrs info)
        end
      else inr (id, single)
  | None =>
      if g_use_storage_id conf then
        match fdfs_get_storage_id_by_ip (storage_ids conf) (g_group_name g) ip_addr with
        | None => inl ENOENT
        | Some info => inr (si_id info, si_ip_addrs info)
        end
      else inr (ip_addr, single)
  end.

(** [*ppStorageServer] and [*bInserted], or the error. *)
Definition _tracker_mem_add_storage (p : nat) (id : option bytes) (ip_addr : bytes) : M TrackerMem (Z + nat * bool) :=
  match ip_addr with
  | [] => ret (inl EINVAL)
  | _ =>
      let! g := group p in
      match storage_id_and_ips g id ip_addr with
      | inl e => ret (inl e)
      | inr (storage_id, multi_ip) =>
          let set_index (st : FDFSStorageDetail) :=
            if g_use_storage_id conf then set_s_ip_addrs (fdfs_set_multi_ip_index (s_ip_addrs st) ip_addr) st else st in
          match tracker_mem_get_storage g storage_id with
          | Some i =>
              with_group p (with_server i set_index) ;;
              with_group p (with_server i (fun st =>
                if (s_status st =? FDFS_STORAGE_STATUS_DELETED) || (s_status st =? FDFS_STORAGE_STATUS_IP_CHANGED)
                then set_s_status FDFS_STORAGE_STATUS_INIT st else st)) ;;
              ret (inr (i, false))
          | None =>
              let! result :=
                (if (g_alloc_size g <=? length (g_all_servers g))%nat then tracker_mem_realloc_store_servers p 1 else ret 0) in
              if negb (result =? 0) then ret (inl result)
              else
                let i := length (g_all_servers g) in
                with_group p (fun g => set_g_all_servers (g_all_servers g ++ [set_index (new_storage g storage_id multi_ip)]) g) ;;
                with_group p (fun g => set_g_sorted_servers (tracker_mem_insert_into_sorted_servers g i (g_sorted_servers g)) g) ;;
                with_group p inc_chg_count ;;
                ret (inr (i, true))
          end
      end
  end.

(** [tracker_mem_init_group]: an allocation that fails leaves an empty group. *)
Definition tracker_mem_init_group (p : nat) : M TrackerMem Z :=
  let n := TRACKER_MEM_ALLOC_ONCE in
  with_group p (fun g =>
    set_g_alloc_size n (set_g_all_servers [] (set_g_sorted_servers [] (set_g_active_servers []
      (set_g_last_sync_timestamps (replicate n (replicate n 0)) g))))) ;;
  syscall.

(** A new address. *)
Definition fresh_group (h : gmap nat FDFSGroupInfo) : nat := S (max_list (map_to_list h).*1).

Fixpoint malloc_groups (n : nat) : M TrackerMem (list nat) :=
  match n with
  | O => ret []
  | S n' =>
      let! p := gets (fun s => fresh_group (heap s)) in
      modify (fun s => set_heap (<[p := zero_group]> (heap s)) s) ;;
      let! l := malloc_groups n' in
      ret (p :: l)
  end.

Definition tracker_mem_realloc_groups : M TrackerMem Z :=
  let! e := syscall in
  if negb (e =? 0) then ret e
  else
    let! n := gets (fun s => (length (groups s) + TRACKER_MEM_ALLOC_ONCE - count s)%nat) in
    let! l := malloc_groups n in
    modify (fun s => set_groups (take (count s) (groups s) ++ l) s) ;;
    ret 0.

Definition tracker_mem_insert_into_sorted_groups (p : nat) (s : TrackerMem) : list nat :=
  insert_sorted tracker_mem_cmp_by_group_name (group_name s) p (sorted_groups s).

(** [pClientInfo->pGroup] and [*bInserted], or the error. *)
Definition tracker_mem_add_group_ex (name : bytes) : M TrackerMem (Z + nat * bool) :=
  let! found := gets (tracker_mem_get_group_ex name) in
  match found with
  | Some p => ret (inr (p, false))
  | None =>
      let! full := gets (fun s => (length (groups s) <=? count s)%nat) in
      let! result := (if full : bool then tracker_mem_realloc_groups else ret 0) in
      if negb (result =? 0) then ret (inl result)
      else
        let! p := gets (fun s => groups s !!! count s) in
        let! result := tracker_mem_init_group p in
        if negb (result =? 0) then ret (inl result)
        else
          with_group p (set_g_group_name name) ;;
          modify (fun s => set_sorted_groups (tracker_mem_insert_into_sorted_groups p s) s) ;;
          modify (fun s => set_count (S (count s)) s) ;;
          let! none := gets (fun s => bool_decide (pStoreGroup s = None)) in
          (if (store_lookup conf =? FDFS_STORE_LOOKUP_SPEC_GROUP) && none && (memcmp (store_group conf) name =? 0)
           then modify (set_pStoreGroup (Some p)) else ret tt) ;;
          ret (inr (p, true))
  end.

(** ** Deleting. *)

(** The entries behind the group move one slot to the left; the last slot in
    use keeps its pointer. *)
Fixpoint remove_from_slots (p : nat) (used : list nat) : option (list nat) :=
  match used with
  | [] => None
  | q :: l => if (q =? p)%nat then Some (l ++ match last used with Some r => [r] | None => [] end)
              else cons q <$> remove_from_slots p l
  end.

Definition tracker_mem_remove_group (used : list nat) (p : nat) : option (list nat) := remove_from_slots p used.

Definition tracker_mem_delete_group (name : bytes) : M TrackerMem Z :=
  let! found := gets (tracker_mem_get_group_ex name) in
  match found with
  | None => ret ENOENT
  | Some p =>
      let! g := group p in
      if negb (length (g_all_servers g) =? 0)%nat then ret EBUSY
      else
        let! s := gets id in
        match tracker_mem_remove_group (take (count s) (groups s)) p with
        | None => ret ENOENT
        | Some l =>
            modify (set_groups (l ++ drop (count s) (groups s))) ;;
            match tracker_mem_remove_group (sorted_groups s) p with
            | None => ret ENOENT
            | Some l =>
                (if decide (pStoreGroup s = Some p) then modify (set_pStoreGroup None) else ret tt) ;;
                modify (set_count (pred (count s))) ;;
                modify (set_sorted_groups (take (pred (count s)) l)) ;;
                modify (fun s => set_heap (delete p (heap s)) s) ;;
                save_files
            end
        end
  end.

(** The disk arrays are cleared up to the [store_path_count] of the server. *)
Definition tracker_mem_clear_storage_fields (st : FDFSStorageDetail) : FDFSStorageDetail :=
  let clear l := imap (fun k x => if Z.of_nat k <? s_store_path_count st then 0 else x) l in
  mkStorage (s_status st) (s_id st) (s_ip_addrs st) (s_version st) (s_domain_name st) None
    (clear (s_path_total_mbs st)) (clear (s_path_free_mbs st)) 0 0 0 0 (s_join_time st) (s_up_time st) 0 0 0
    (s_storage_port st) (s_storage_http_port st) 0 (s_chg_count st) (s_trunk_chg_count st) zero_stat.

Definition is_online (status : Z) : bool :=
  (status =? FDFS_STORAGE_STATUS_ONLINE) || (status =? FDFS_STORAGE_STATUS_ACTIVE) || (status =? FDFS_STORAGE_STATUS_RECOVERY).

(** Servers that sync from the one with this id forget their source. *)
Definition forget_sync_src (g : FDFSGroupInfo) (id : bytes) (st : FDFSStorageDetail) : FDFSStorageDetail :=
  match s_psync_src_server st with
  | Some j => if memcmp (server_id g j) id =? 0 then set_s_psync_src_server None st else st
  | None => st
  end.

Definition tracker_mem_delete_storage (p : nat) (id : bytes) : M TrackerMem Z :=
  let! g := group p in
  match tracker_mem_get_storage g id with
  | None => ret ENOENT
  | Some i =>
      let status := s_status (server g i) in
      if status =? FDFS_STORAGE_STATUS_IP_CHANGED then ret ENOENT
      else if is_online status then ret EBUSY
      else if status =? FDFS_STORAGE_STATUS_DELETED then ret EALREADY
      else
        with_group p (fun g => set_g_all_servers (forget_sync_src g id <$> g_all_servers g) g) ;;
        with_group p (with_server i (fun st => set_s_status FDFS_STORAGE_STATUS_DELETED (tracker_mem_clear_storage_fields st))) ;;
        with_group p inc_chg_count ;;
        tracker_write_to_changelog p i [] ;;
        ret 0
  end.

Definition set_first_address (ip : bytes) (m : FDFSMultiIP) : FDFSMultiIP :=
  mkMultiIP (mi_index m) (alter (fun a => mkIP (ip_type a) (snprintf (IP_ADDRESS_SIZE conf) ip)) 0%nat (ips m)).

(** The old server takes the new address, the server just added the old one. *)
Definition exchange_ips (i j : nat) (old_ip new_ip : bytes) (g : FDFSGroupInfo) : FDFSGroupInfo :=
  let rename ip st := set_s_ip_addrs (set_first_address ip (s_ip_addrs st)) (set_s_id (snprintf FDFS_STORAGE_ID_MAX_SIZE ip) st) in
  let g := with_server i (rename new_ip) g in
  let g := with_server j (fun st => set_s_status FDFS_STORAGE_STATUS_IP_CHANGED
    (rename old_ip (set_s_ip_addrs (mkMultiIP (mi_index (s_ip_addrs st)) (take 1 (ips (s_ip_addrs st)))) st))) g in
  let g := inc_chg_count g in
  set_g_sorted_servers (qsort tracker_mem_cmp_by_storage_id (server_id g) (g_sorted_servers g)) g.

Definition tracker_mem_storage_ip_changed (p : nat) (old_storage_ip new_storage_ip : bytes) : M TrackerMem Z :=
  if g_use_storage_id conf then ret EOPNOTSUPP
  else
    let! g := group p in
    match tracker_mem_get_storage g old_storage_ip with
    | None => ret ENOENT
    | Some i =>
        let status := s_status (server g i) in
        if status =? FDFS_STORAGE_STATUS_DELETED then ret ENOENT
        else if is_online status then ret EBUSY
        else if status =? FDFS_STORAGE_STATUS_IP_CHANGED then ret EALREADY
        else
          let new_status := status_of g (tracker_mem_get_storage g new_storage_ip) in
          if negb (bool_decide (tracker_mem_get_storage g new_storage_ip = None) || (new_status =? FDFS_STORAGE_STATUS_DELETED)) then ret EEXIST
          else
            let! r := _tracker_mem_add_storage p (Some new_storage_ip) new_storage_ip in
            match r with
            | inl e => ret e
            | inr (_, false) => ret EEXIST
            | inr (j, true) =>
                with_group p (exchange_ips i j old_storage_ip new_storage_ip) ;;
                tracker_write_to_changelog p j new_storage_ip ;;
                save_files
            end
    end.

(** ** Statuses reported by other trackers. *)
Definition sync_one_storage (p : nat) (b : FDFSStorageBrief) (result : Z) : M TrackerMem Z :=
  if b_status b =? FDFS_STORAGE_STATUS_NONE then ret result
  else
    let! g := group p in
    match tracker_mem_get_storage g (b_id b) with
    | Some i =>
        let status := s_status (server g i) in
        let change := with_group p (fun g => inc_chg_count (with_server i (set_s_status (b_status b)) g)) ;; ret result in
        if (status =? b_status b) || (status =? FDFS_STORAGE_STATUS_INIT) || is_online status then ret result
        else if (b_status b =? FDFS_STORAGE_STATUS_DELETED) || (b_status b =? FDFS_STORAGE_STATUS_IP_CHANGED) then change
        else if status <? b_status b then change
        else ret result
    | None =>
        if (b_status b =? FDFS_STORAGE_STATUS_DELETED) || (b_status b =? FDFS_STORAGE_STATUS_IP_CHANGED) then ret result
        else if (b_status b =? FDFS_STORAGE_STATUS_ACTIVE) || (b_status b =? FDFS_STORAGE_STATUS_ONLINE) then ret result
        else
          let! r := _tracker_mem_add_storage p (Some (b_id b)) (b_ip_addr b) in
          match r with
          | inl e => ret e
          | inr (i, true) => with_group p (with_server i (set_s_status (b_status b))) ;; ret 0
          | inr (_, false) => ret 0
          end
    end.

Fixpoint sync_storages_from (p : nat) (l : list FDFSStorageBrief) (result : Z) : M TrackerMem Z :=
  match l with
  | [] => ret result
  | b :: l' => let! result := sync_one_storage p b result in sync_storages_from p l' result
  end.

Definition tracker_mem_sync_storages (p : nat) (briefServers : list FDFSStorageBrief) : M TrackerMem Z :=
  sync_storages_from p briefServers 0.

(** ** Servers coming and going. *)
Definition search_active (g : FDFSGroupInfo) (i : nat) : option nat :=
  bsearch (fun j => tracker_mem_cmp_by_storage_id (server_id g i) (server_id g j)) (g_active_servers g).

Definition tracker_mem_deactive_store_server (i : nat) (g : FDFSGroupInfo) : FDFSGroupInfo :=
  let g :=
    match search_active g i with
    | Some k =>
        let g := with_server (g_active_servers g !!! k) (fun st => set_s_trunk_chg_count 0 (set_s_chg_count 0 st)) g in
        inc_chg_count (set_g_active_servers (delete k (g_active_servers g)) g)
    | None => g
    end in
  tracker_mem_find_store_server g.

Definition no_activation (status : Z) : bool :=
  (status =? FDFS_STORAGE_STATUS_WAIT_SYNC) || (status =? FDFS_STORAGE_STATUS_SYNCING) ||
  (status =? FDFS_STORAGE_STATUS_IP_CHANGED) || (status =? FDFS_STORAGE_STATUS_INIT).

Definition tracker_mem_active_store_server (p i : nat) : M TrackerMem Z :=
  let! g := group p in
  if no_activation (s_status (server g i)) then ret 0
  else
    with_group p (with_server i (set_s_status FDFS_STORAGE_STATUS_ACTIVE)) ;;
    let! g := group p in
    match search_active g i with
    | Some _ => ret 0
    | None =>
        with_group p (fun g => set_g_active_servers (tracker_mem_insert_into_sorted_servers g i (g_active_servers g)) g) ;;
        with_group p inc_chg_count ;;
        with_group p tracker_mem_find_store_server ;;
        let! g := group p in
        let! leader := gets g_if_leader_self in
        (if leader && g_if_use_trunk_file conf && bool_decide (g_pTrunkServer g = None)
         then tracker_mem_find_trunk_server p true else ret 0) ;;
        ret 0
    end.

Definition tracker_mem_offline_store_server (p i : nat) : M TrackerMem Z :=
  with_group p (with_server i (set_s_up_time 0)) ;;
  let! g := group p in
  let status := s_status (server g i) in
  if (status =? FDFS_STORAGE_STATUS_WAIT_SYNC) || (status =? FDFS_STORAGE_STATUS_SYNCING) ||
     (status =? FDFS_STORAGE_STATUS_INIT) || (status =? FDFS_STORAGE_STATUS_DELETED) ||
     (status =? FDFS_STORAGE_STATUS_IP_CHANGED) || (status =? FDFS_STORAGE_STATUS_RECOVERY) then ret 0
  else
    with_group p (with_server i (set_s_status FDFS_STORAGE_STATUS_OFFLINE)) ;;
    with_group p (tracker_mem_deactive_store_server i) ;;
    ret 0.

Definition tracker_get_writable_storage (p : nat) : M TrackerMem (option nat) :=
  let! g := group p in
  let n := Z.of_nat (length (g_active_servers g)) in
  if store_server conf =? FDFS_STORE_SERVER_ROUND_ROBIN then
    let write_server_index := g_current_write_server g in
    with_group p (set_g_current_write_server (if n <=? write_server_index + 1 then 0 else write_server_index + 1)) ;;
    ret (g_active_servers g !! Z.to_nat (if n <=? write_server_index then 0 else write_server_index))
  else ret (g_pStoreServer g).

(** ** The check for silent servers. *)
Definition idle_servers (now : Z) (g : FDFSGroupInfo) : list nat :=
  take FDFS_MAX_SERVERS_EACH_GROUP
    (filter (fun i => g_check_active_interval conf < now - last_heart_beat_time (s_stat (server g i))) (g_active_servers g)).

Definition deactivate_idle (i : nat) (g : FDFSGroupInfo) : FDFSGroupInfo :=
  tracker_mem_deactive_store_server i (with_server i (set_s_status FDFS_STORAGE_STATUS_OFFLINE) g).

Fixpoint check_idle (now : Z) (l : list nat) : M TrackerMem unit :=
  match l with
  | [] => ret tt
  | p :: l' =>
      with_group p (fun g => foldl (fun g i => deactivate_idle i g) g (idle_servers now g)) ;;
      check_idle now l'
  end.

Definition check_trunk_times (now up_time : Z) : Z :=
  if now - up_time <=? 10 * g_check_active_interval conf then
    let times := if g_trunk_init_check_occupying conf then 5 else 3 in
    if g_trunk_init_reload_from_binlog conf then times * 2 else times
  else 2.

(** The trunk server of the group is silent. *)
Definition replace_trunk_server (p : nat) : M TrackerMem Z :=
  with_group p (set_g_pTrunkServer None) ;;
  tracker_mem_find_trunk_server p false ;;
  let! g := group p in
  (if decide (g_pTrunkServer g = None) then tracker_set_trunk_server_and_log p None else ret 0) ;;
  with_group p inc_trunk_chg_count ;;
  inc_trunk_server_chg_count ;;
  save_files.

Fixpoint check_trunk_servers (now : Z) (l : list nat) : M TrackerMem unit :=
  match l with
  | [] => ret tt
  | p :: l' =>
      let! g := group p in
      match g_pTrunkServer g with
      | None => tracker_mem_find_trunk_server p true ;; check_trunk_servers now l'
      | Some i =>
          let last_beat_interval := int32 (now - last_heart_beat_time (s_stat (server g i))) in
          let check_trunk_interval := int32 (check_trunk_times now (s_up_time (server g i)) * g_check_active_interval conf) in
          if check_trunk_interval <? last_beat_interval then
            replace_trunk_server p ;;
            check_trunk_servers now l'
          else check_trunk_servers now l'
      end
  end.

Definition tracker_mem_check_alive : M TrackerMem Z :=
  let! now := gets g_current_time in
  let! l := gets (fun s => take (count s) (groups s)) in
  check_idle now l ;;
  let! leader := gets g_if_leader_self in
  if negb leader || negb (g_if_use_trunk_file conf) then ret 0
  else check_trunk_servers now l ;; ret 0.

(** [tracker_mem_get_storage_index]: servers are pointers into [all_servers]. *)
Definition tracker_mem_get_storage_index (g : FDFSGroupInfo) (pStorage : nat) : Z :=
  if (pStorage <? length (g_all_servers g))%nat then Z.of_nat pStorage else -1.

(** [tracker_mem_init_groups] before the data files are loaded. *)
Definition tracker_mem_init_groups : M TrackerMem unit :=
  let! l := malloc_groups TRACKER_MEM_ALLOC_ONCE in
  modify (fun s => set_groups l (set_count 0%nat (set_sorted_groups [] (set_pStoreGroup None (set_current_write_group 0 s))))).
End tracker_mem.
