(* ===== verification/TrackerMemInv.v ===== *)
(** * The invariant of the tracker memory.

    [group_ok] is the shape of a group that the code relies on: arrays sorted
    by id without duplicates, active servers among all servers, pointers that
    point to servers of the group, disk arrays of the right length.
    [state_ok] adds the sorted array of groups.  The lemmas show that every
    function of [TrackerMem] keeps it. *)

From S2P Require Import Prelude SortedArray StorageIds TrackerTypes TrackerMem.

Local Open Scope c_scope.


Lemma elem_of_take_in {A} (x : A) n l : x ∈ take n l -> x ∈ l.
Proof. intros H. rewrite <- (take_drop n l). apply elem_of_app. by left. Qed.

(** ** The shape of a group. *)
Definition server_ok (n : nat) (paths : Z) (st : FDFSStorageDetail) : Prop :=
  length (s_path_total_mbs st) = Z.to_nat paths /\ length (s_path_free_mbs st) = Z.to_nat paths /\
  (forall j, s_psync_src_server st = Some j -> (j < n)%nat) /\ (length (s_id st) < 16)%nat /\ 0 <= s_current_write_path st.

Record group_ok (g : FDFSGroupInfo) : Prop := {
  ok_servers : Forall (server_ok (length (g_all_servers g)) (g_store_path_count g)) (g_all_servers g);
  ok_perm : g_sorted_servers g ≡ₚ seq 0 (length (g_all_servers g));
  ok_sorted : sorted_by memcmp (server_id g) (g_sorted_servers g);
  ok_active_in : Forall (fun i => (i < length (g_all_servers g))%nat) (g_active_servers g);
  ok_active : sorted_by memcmp (server_id g) (g_active_servers g);
  ok_store : match g_pStoreServer g with Some i => i ∈ g_active_servers g | None => g_active_servers g = [] end;
  ok_trunk : forall i, g_pTrunkServer g = Some i -> (i < length (g_all_servers g))%nat;
  ok_alloc : (length (g_all_servers g) <= g_alloc_size g)%nat;
  ok_rows : length (g_last_sync_timestamps g) = g_alloc_size g;
  ok_columns : Forall (fun row => length row = g_alloc_size g) (g_last_sync_timestamps g);
  ok_read : 0 <= g_current_read_server g;
  ok_write : 0 <= g_current_write_server g;
}.

Lemma zero_group_ok : group_ok zero_group.
Proof. split; cbn; try done; try constructor. Qed.

Lemma group_ok_lookup g i : group_ok g -> (i < length (g_all_servers g))%nat ->
  server_ok (length (g_all_servers g)) (g_store_path_count g) (server g i).
Proof.
  intros Hg Hi. apply lookup_lt_is_Some_2 in Hi as [st Hst]. unfold server.
  rewrite (list_lookup_total_correct _ _ _ Hst). by eapply Forall_lookup_1; [apply ok_servers|].
Qed.

Lemma sorted_elem g i : group_ok g -> i ∈ g_sorted_servers g <-> (i < length (g_all_servers g))%nat.
Proof. intros Hg. rewrite (ok_perm g Hg), elem_of_seq. lia. Qed.

Lemma active_elem g i : group_ok g -> i ∈ g_active_servers g -> (i < length (g_all_servers g))%nat.
Proof. intros Hg Hi. pose proof (ok_active_in g Hg) as H. rewrite Forall_forall in H. by apply H. Qed.

(** ** Searches. *)
Lemma search_servers_spec g l id i :
  sorted_by memcmp (server_id g) l -> search_servers g l id = Some i <-> i ∈ l /\ server_id g i = id.
Proof.
  intros Hl. unfold search_servers, tracker_mem_cmp_by_storage_id. split.
  - destruct (bsearch _ l) as [k|] eqn:E; [|done]. cbn. intros Hk.
    apply (bsearch_sorted memcmp (server_id g)) in E as (x & Hx & Ek); [|done]. simplify_eq.
    split; [by eapply list_elem_of_lookup_2|done].
  - intros [Hin Ek]. apply list_elem_of_lookup in Hin as [k Hk].
    rewrite (proj2 (bsearch_sorted memcmp (server_id g) l id k Hl)) by (by exists i). exact Hk.
Qed.

Lemma search_servers_None g l id :
  sorted_by memcmp (server_id g) l -> search_servers g l id = None <-> forall i, i ∈ l -> server_id g i <> id.
Proof.
  intros Hl. split.
  - intros Hn i Hi E. assert (search_servers g l id = Some i) by (by apply search_servers_spec). congruence.
  - intros H. destruct (search_servers g l id) as [i|] eqn:E; [|done].
    apply search_servers_spec in E as [Hi E]; [|done]. by destruct (H i).
Qed.

(** The ids of a group are distinct, and a search finds the server with the id. *)
Lemma server_id_inj g i j :
  group_ok g -> (i < length (g_all_servers g))%nat -> (j < length (g_all_servers g))%nat -> server_id g i = server_id g j -> i = j.
Proof.
  intros Hg Hi Hj E. apply (sorted_elem g) in Hi, Hj; [|done..].
  apply list_elem_of_lookup in Hi as [a Ha]. apply list_elem_of_lookup in Hj as [b Hb].
  pose proof (sorted_by_inj memcmp (server_id g) _ a b i j (ok_sorted g Hg) Ha Hb E). simplify_eq. done.
Qed.

Lemma get_storage_spec g id i :
  group_ok g -> tracker_mem_get_storage g id = Some i <-> (i < length (g_all_servers g))%nat /\ server_id g i = id.
Proof.
  intros Hg. unfold tracker_mem_get_storage. rewrite search_servers_spec by apply (ok_sorted g Hg). by rewrite sorted_elem.
Qed.

Lemma get_storage_None g id :
  group_ok g -> tracker_mem_get_storage g id = None <-> forall i, (i < length (g_all_servers g))%nat -> server_id g i <> id.
Proof.
  intros Hg. unfold tracker_mem_get_storage. rewrite search_servers_None by apply (ok_sorted g Hg).
  by setoid_rewrite (sorted_elem g); [|done].
Qed.

Lemma search_active_spec g i k :
  group_ok g -> (i < length (g_all_servers g))%nat -> search_active g i = Some k <-> g_active_servers g !! k = Some i.
Proof.
  intros Hg Hi. unfold search_active, tracker_mem_cmp_by_storage_id. rewrite (bsearch_sorted memcmp (server_id g)) by apply (ok_active g Hg).
  split; [|by exists i]. intros (j & Hj & E).
  replace i with j; [done|]. apply (server_id_inj g); [done| |done|done].
  apply active_elem; [done|]. by eapply list_elem_of_lookup_2.
Qed.

Lemma search_active_None g i :
  group_ok g -> (i < length (g_all_servers g))%nat -> search_active g i = None <-> (i ∉ g_active_servers g).
Proof.
  intros Hg Hi. split.
  - intros Hn Hin. apply list_elem_of_lookup in Hin as [k Hk]. apply search_active_spec in Hk; [|done..]. congruence.
  - intros Hn. destruct (search_active g i) as [k|] eqn:E; [|done]. apply search_active_spec in E; [|done..].
    destruct Hn. by eapply list_elem_of_lookup_2.
Qed.

(** ** Changes of one server. *)

(** A change that keeps the id, the disk arrays' lengths and, or drops, the
    source of the synchronisation. *)
Definition tame (f : FDFSStorageDetail -> FDFSStorageDetail) : Prop :=
  forall st, s_id (f st) = s_id st /\ length (s_path_total_mbs (f st)) = length (s_path_total_mbs st) /\
    length (s_path_free_mbs (f st)) = length (s_path_free_mbs st) /\
    (s_psync_src_server (f st) = s_psync_src_server st \/ s_psync_src_server (f st) = None) /\
    (0 <= s_current_write_path st -> 0 <= s_current_write_path (f st)).

Lemma server_with_server f i g j :
  server (with_server i f g) j =
    if decide (j = i /\ (i < length (g_all_servers g))%nat) then f (server g i) else server g j.
Proof.
  unfold server, with_server. cbn. rewrite !list_lookup_total_alt.
  destruct (decide (j = i)) as [->|Hne].
  - rewrite list_lookup_alter, decide_True by done. destruct (decide (i < length (g_all_servers g))%nat) as [Hi|Hi].
    + rewrite decide_True by done. apply lookup_lt_is_Some_2 in Hi as [st ->]. done.
    + rewrite decide_False by naive_solver. by rewrite lookup_ge_None_2 by lia.
  - rewrite list_lookup_alter_ne by done. rewrite decide_False by naive_solver. done.
Qed.

Lemma length_with_server i f g : length (g_all_servers (with_server i f g)) = length (g_all_servers g).
Proof. apply length_alter. Qed.

Lemma server_id_tame f i g j : tame f -> server_id (with_server i f g) j = server_id g j.
Proof.
  intros Hf. unfold server_id. rewrite server_with_server. case_decide as H; [|done]. destruct H as [-> _]. apply Hf.
Qed.

(** What a group keeps when its servers change tamely. *)
Lemma group_ok_paths g l m :
  group_ok g -> length l = length (g_all_servers g) ->
  (forall i, (i < length (g_all_servers g))%nat -> s_id (l !!! i) = server_id g i) ->
  Forall (server_ok (length l) m) l -> group_ok (set_g_store_path_count m (set_g_all_servers l g)).
Proof.
  intros Hg Hlen Hids Hl. set (g' := set_g_store_path_count m (set_g_all_servers l g)).
  assert (forall i, i ∈ g_sorted_servers g -> server_id g i = server_id g' i) as Hs.
  { intros i Hi. symmetry. apply Hids. by apply sorted_elem. }
  assert (forall i, i ∈ g_active_servers g -> server_id g i = server_id g' i) as Ha.
  { intros i Hi. symmetry. apply Hids. by apply active_elem. }
  split; cbn; rewrite ?Hlen; try apply Hg; [by rewrite <- Hlen| |];
    (eapply sorted_by_ext; [|apply Hg]; done).
Qed.

Lemma group_ok_servers g l :
  group_ok g -> length l = length (g_all_servers g) ->
  (forall i, (i < length (g_all_servers g))%nat -> s_id (l !!! i) = server_id g i) ->
  Forall (server_ok (length l) (g_store_path_count g)) l -> group_ok (set_g_all_servers l g).
Proof. intros Hg Hlen Hids Hl. apply (group_ok_paths g l (g_store_path_count g) Hg Hlen Hids Hl). Qed.

Lemma tame_ok n paths f st : tame f -> server_ok n paths st -> server_ok n paths (f st).
Proof.
  intros Hf (H1 & H2 & H3 & H4 & H5). destruct (Hf st) as (Eid & E1 & E2 & E3 & E4). unfold server_ok. rewrite Eid, E1, E2.
  split_and!; try done; [|auto]. intros j Hj. destruct E3 as [E|E]; rewrite E in Hj; [by apply H3|done].
Qed.

Lemma with_server_ok i f g : tame f -> group_ok g -> group_ok (with_server i f g).
Proof.
  intros Hf Hg. apply group_ok_servers; [done|by rewrite length_alter| |].
  - intros j Hj. apply (server_id_tame f i g j Hf).
  - rewrite length_alter. apply Forall_alter; [|intros st _; by apply tame_ok]. apply Hg.
Qed.

Lemma fmap_servers_ok f g : tame f -> group_ok g -> group_ok (set_g_all_servers (f <$> g_all_servers g) g).
Proof.
  intros Hf Hg. apply group_ok_servers; [done|by rewrite length_fmap| |].
  - intros i Hi. apply lookup_lt_is_Some_2 in Hi as [st Hst]. unfold server_id, server.
    rewrite !list_lookup_total_alt, list_lookup_fmap, Hst. cbn. apply Hf.
  - rewrite length_fmap. apply Forall_fmap. eapply Forall_impl; [apply Hg|]. intros st. by apply tame_ok.
Qed.

Lemma tame_compose f h : tame f -> tame h -> tame (fun st => f (h st)).
Proof.
  intros Hf Hh st. destruct (Hf (h st)) as (E1 & E2 & E3 & E4 & E5), (Hh st) as (F1 & F2 & F3 & F4 & F5).
  rewrite E1, E2, E3. split_and!; try done; [|auto]. destruct E4 as [->|]; [done|by right].
Qed.

Ltac solve_tame := intros ?; repeat split; cbn; rewrite ?length_imap; auto with lia.

(** ** The store server and the active servers. *)
Definition store_ok (o : option nat) (l : list nat) : Prop := match o with Some i => i ∈ l | None => l = [] end.

Lemma set_store_ok g o o' :
  group_ok (set_g_pStoreServer o g) -> store_ok o' (g_active_servers g) -> group_ok (set_g_pStoreServer o' g).
Proof. intros [] Ho. by split. Qed.

(** [g] up to its store server. *)
Definition group_ok_but_store (g : FDFSGroupInfo) : Prop := group_ok (set_g_pStoreServer (head (g_active_servers g)) g).

Lemma head_store_ok l : store_ok (head l) l.
Proof. destruct l; cbn; [done|]. apply list_elem_of_here. Qed.

Lemma group_ok_weaken g : group_ok g -> group_ok_but_store g.
Proof. intros Hg. apply (set_store_ok g (g_pStoreServer g)); [by destruct g|apply head_store_ok]. Qed.

Lemma foldl_choice {A} (f : A -> A -> A) x l : (forall a b, f a b = a \/ f a b = b) -> foldl f x l ∈ x :: l.
Proof.
  intros Hf. revert x. induction l as [|y l IH]; intros x; cbn; [apply list_elem_of_here|].
  specialize (IH (f x y)). apply elem_of_cons in IH as [->|Hin]; [|set_solver].
  destruct (Hf x y) as [-> | ->]; set_solver.
Qed.

Section ops.
Context (conf : TrackerMemConf).

Lemma find_store_server_ok g : group_ok_but_store g -> group_ok (tracker_mem_find_store_server conf g).
Proof.
  intros Hg. unfold tracker_mem_find_store_server.
  destruct (g_active_servers g) as [|p l] eqn:E.
  - apply (set_store_ok g (head (g_active_servers g))); [done|]. by rewrite E.
  - case_match; (apply (set_store_ok g (head (g_active_servers g))); [done|]; rewrite E; cbn); [|apply list_elem_of_here].
    apply foldl_choice. intros a b. case_match; [by right|by left].
Qed.

(** Fields that [find_store_server] leaves alone. *)
Definition core (g : FDFSGroupInfo) :=
  (g_group_name g, g_all_servers g, g_sorted_servers g, g_active_servers g, g_store_path_count g, g_alloc_size g).

Lemma find_store_server_core g : core (tracker_mem_find_store_server conf g) = core g.
Proof. unfold tracker_mem_find_store_server. by repeat case_match. Qed.

Lemma find_store_server_name g : g_group_name (tracker_mem_find_store_server conf g) = g_group_name g.
Proof. pose proof (find_store_server_core g) as Hc. unfold core in Hc. by injection Hc as ->. Qed.

Lemma insert_active_ok g i :
  group_ok g -> (i < length (g_all_servers g))%nat -> (i ∉ g_active_servers g) ->
  group_ok_but_store (set_g_active_servers (tracker_mem_insert_into_sorted_servers g i (g_active_servers g)) g).
Proof.
  intros Hg Hi Hn. unfold group_ok_but_store. set (l := tracker_mem_insert_into_sorted_servers _ _ _).
  assert (l ≡ₚ i :: g_active_servers g) as Hl by apply (insert_sorted_perm tracker_mem_cmp_by_storage_id).
  split; cbn; try apply Hg; [| |apply head_store_ok].
  - rewrite Hl. constructor; [done|apply Hg].
  - apply (insert_sorted_sorted memcmp (server_id g) i); [apply Hg|].
    intros j Hj E. apply (server_id_inj g) in E as ->; [done..|by apply active_elem|done].
Qed.

Lemma delete_active_ok g k : group_ok g -> group_ok_but_store (set_g_active_servers (delete k (g_active_servers g)) g).
Proof.
  intros Hg. split; cbn; try apply Hg; [| |apply head_store_ok].
  - apply Forall_forall. intros i Hi. apply (active_elem g i Hg).
    eapply elem_of_submseteq; [exact Hi|]. apply sublist_submseteq, sublist_delete.
  - apply sorted_by_delete, Hg.
Qed.

Lemma inc_chg_count_ok g : group_ok g -> group_ok (inc_chg_count g).
Proof. intros []. by split. Qed.

Lemma deactive_ok g i : group_ok g -> group_ok (tracker_mem_deactive_store_server conf i g).
Proof.
  intros Hg. unfold tracker_mem_deactive_store_server. apply find_store_server_ok.
  destruct (search_active g i) as [k|]; [|by apply group_ok_weaken].
  set (g1 := with_server _ _ g). assert (group_ok g1) as H1 by (apply with_server_ok; [solve_tame|done]).
  pose proof (delete_active_ok g1 k H1) as H2. destruct H2. by split.
Qed.

Lemma deactivate_idle_ok g i : group_ok g -> group_ok (deactivate_idle conf i g).
Proof. intros Hg. apply deactive_ok, with_server_ok; [solve_tame|done]. Qed.

Lemma deactivate_all_ok l g : group_ok g -> group_ok (foldl (fun g i => deactivate_idle conf i g) g l).
Proof. revert g. induction l as [|i l IH]; intros g Hg; cbn; [done|]. by apply IH, deactivate_idle_ok. Qed.

Lemma deactivate_name g i : g_group_name (tracker_mem_deactive_store_server conf i g) = g_group_name g.
Proof.
  unfold tracker_mem_deactive_store_server. rewrite find_store_server_name. by case_match.
Qed.

Lemma deactivate_all_name l g : g_group_name (foldl (fun g i => deactivate_idle conf i g) g l) = g_group_name g.
Proof.
  revert g. induction l as [|i l IH]; intros g; cbn; [done|]. rewrite IH. unfold deactivate_idle.
  by rewrite deactivate_name.
Qed.

(** ** A new server. *)
Lemma grow_timestamps_ok n m :
  length (grow_timestamps n m) = n /\ Forall (fun row => length row = n) (grow_timestamps n m).
Proof.
  unfold grow_timestamps. split; [by rewrite length_resize|]. apply Forall_resize; [by rewrite length_replicate|].
  apply Forall_fmap. apply Forall_forall. intros row _. cbn. by rewrite length_resize.
Qed.

Lemma grow_group_ok g k : group_ok g -> group_ok (grow_group conf k g).
Proof.
  intros Hg. apply find_store_server_ok, group_ok_weaken. set (n := (_ + TRACKER_MEM_ALLOC_ONCE)%nat).
  destruct (grow_timestamps_ok n (g_last_sync_timestamps g)) as [H1 H2]. destruct Hg. split; cbn; try done. lia.
Qed.

Definition set_alloc_size (n : nat) (c : bytes * list FDFSStorageDetail * list nat * list nat * Z * nat) := (c.1, n).

Lemma grow_group_core g k : core (grow_group conf k g) = set_alloc_size (g_alloc_size g + k + TRACKER_MEM_ALLOC_ONCE) (core g).
Proof. unfold grow_group. by rewrite find_store_server_core. Qed.

Definition add_server (st : FDFSStorageDetail) (g : FDFSGroupInfo) : FDFSGroupInfo :=
  set_g_all_servers (g_all_servers g ++ [st]) g.

Lemma add_server_server g st i : (i < length (g_all_servers g))%nat -> server (add_server st g) i = server g i.
Proof. intros Hi. unfold server, add_server. cbn. by rewrite lookup_total_app_l. Qed.

Lemma add_server_last g st : server (add_server st g) (length (g_all_servers g)) = st.
Proof. unfold server, add_server. cbn. by rewrite lookup_total_app_r, Nat.sub_diag by lia. Qed.

Lemma add_server_ok g st :
  group_ok g -> (length (g_all_servers g) < g_alloc_size g)%nat ->
  server_ok (length (g_all_servers g)) (g_store_path_count g) st ->
  (forall i, (i < length (g_all_servers g))%nat -> server_id g i <> s_id st) ->
  let g1 := add_server st g in
  group_ok (set_g_sorted_servers (tracker_mem_insert_into_sorted_servers g1 (length (g_all_servers g)) (g_sorted_servers g1)) g1).
Proof.
  intros Hg Halloc Hst Hnew g1. set (n := length (g_all_servers g)) in *.
  assert (forall i, (i < n)%nat -> server_id g i = server_id g1 i) as Hid.
  { intros i Hi. symmetry. by apply (f_equal s_id), add_server_server. }
  assert (forall l, Forall (fun i => (i < n)%nat) l -> sorted_by memcmp (server_id g) l -> sorted_by memcmp (server_id g1) l) as Hs.
  { intros l Hl. rewrite Forall_forall in Hl. apply sorted_by_ext. intros i Hi. apply Hid. by apply Hl. }
  assert (Forall (fun i => (i < n)%nat) (g_sorted_servers g)) as Hlt by (apply Forall_forall; intros i; by apply sorted_elem).
  set (l := tracker_mem_insert_into_sorted_servers _ _ _).
  assert (l ≡ₚ n :: g_sorted_servers g) as Hl by apply (insert_sorted_perm tracker_mem_cmp_by_storage_id).
  assert (length (g_all_servers g1) = S n) as Hlen by (cbn; rewrite length_app; cbn; lia).
  split; cbn [set_g_sorted_servers g_all_servers g_store_path_count g_sorted_servers g_active_servers g_pStoreServer
    g_pTrunkServer g_alloc_size g_last_sync_timestamps g_current_read_server g_current_write_server]; rewrite ?Hlen; try apply Hg.
  - cbn. apply Forall_app. split; [|constructor; [|done]].
    + eapply Forall_impl; [apply (ok_servers g Hg)|]. intros x (? & ? & Hj & ? & ?). split_and!; try done.
      intros j E. specialize (Hj j E). lia.
    + destruct Hst as (? & ? & Hj & ? & ?). split_and!; try done. intros j E. specialize (Hj j E). lia.
  - rewrite Hl, (ok_perm g Hg), seq_S. cbn. by rewrite Permutation_cons_append.
  - apply (insert_sorted_sorted memcmp (server_id g1) n); [by apply Hs, Hg|].
    intros i Hi E. rewrite Forall_forall in Hlt. specialize (Hlt i Hi). apply (Hnew i Hlt).
    rewrite Hid by done. rewrite E. apply (f_equal s_id), add_server_last.
  - eapply Forall_impl; [apply (ok_active_in g Hg)|]. cbn. intros. fold n in H. lia.
  - apply Hs; apply Hg.
  - cbn. intros i Hi. pose proof (ok_trunk g Hg i Hi). fold n in H. lia.
  - exact Halloc.
Qed.
End ops.

(** ** The invariant of the whole state. *)
Record state_ok (s : TrackerMem) : Prop := {
  ok_heap : forall p g, heap s !! p = Some g -> group_ok g;
  ok_slots : NoDup (groups s);
  ok_allocated : Forall (fun p => p ∈ dom (heap s)) (groups s);
  ok_count : (count s <= length (groups s))%nat;
  ok_groups_perm : sorted_groups s ≡ₚ take (count s) (groups s);
  ok_groups_sorted : sorted_by memcmp (group_name s) (sorted_groups s);
  ok_store_group : forall p, pStoreGroup s = Some p -> p ∈ sorted_groups s;
  ok_write_group : 0 <= current_write_group s;
  ok_spare : Forall (fun p => g_pStoreServer (heap s !!! p) = None /\ g_pTrunkServer (heap s !!! p) = None) (drop (count s) (groups s));
}.

Lemma heap_group_ok s p : state_ok s -> group_ok (heap s !!! p).
Proof.
  intros Hs. rewrite lookup_total_alt. destruct (heap s !! p) as [g|] eqn:E; [by apply (ok_heap s Hs p)|].
  apply zero_group_ok.
Qed.

(** What the invariant depends on. *)
Definition same_groups (s s' : TrackerMem) : Prop :=
  heap s' = heap s /\ groups s' = groups s /\ count s' = count s /\ sorted_groups s' = sorted_groups s /\
  pStoreGroup s' = pStoreGroup s /\ current_write_group s' = current_write_group s.

Lemma state_ok_same s s' : same_groups s s' -> state_ok s -> state_ok s'.
Proof.
  intros (E1 & E2 & E3 & E4 & E5 & E6) []. split; rewrite ?E1, ?E2, ?E3, ?E4, ?E5, ?E6; try done.
  eapply sorted_by_ext; [|done]. intros p _. unfold group_name. by rewrite E1.
Qed.

(** [P] holds before and after. *)
Definition keeps {A} (P : TrackerMem -> Prop) (c : M TrackerMem A) : Prop := forall s, P s -> P (c s).2.

Create HintDb keeps.

Lemma keeps_ret {A} P (a : A) : keeps P (ret a).
Proof. by intros s. Qed.
Lemma keeps_bind {A B} P (c : M TrackerMem A) (k : A -> M TrackerMem B) :
  keeps P c -> (forall a, keeps P (k a)) -> keeps P (bind c k).
Proof. intros Hc Hk s Hs. unfold bind. specialize (Hc s Hs). destruct (c s) as [a s']. by apply Hk. Qed.
Lemma keeps_gets {A} P (f : TrackerMem -> A) : keeps P (gets f).
Proof. by intros s. Qed.
Lemma keeps_if {A} P (b : bool) (c d : M TrackerMem A) : keeps P c -> keeps P d -> keeps P (if b then c else d).
Proof. by destruct b. Qed.

#[export] Hint Resolve keeps_ret keeps_gets : keeps.

(** The state is in order and group [p] has the servers of [c]. *)
Definition frame (p : nat) c (s : TrackerMem) : Prop := state_ok s /\ p ∈ sorted_groups s /\ core (heap s !!! p) = c.

Lemma frame_same p c s s' : same_groups s s' -> frame p c s -> frame p c s'.
Proof. intros Hsame (Hs & Hp & Hc). split; [by eapply state_ok_same|]. destruct Hsame as (-> & _ & _ & -> & _). done. Qed.

Lemma frame_modify p c f : (forall s, same_groups s (f s)) -> keeps (frame p c) (modify f).
Proof. intros Hf s Hs. eapply frame_same; [apply Hf|done]. Qed.

Lemma frame_syscall p c : keeps (frame p c) syscall.
Proof. intros s Hs. unfold syscall. destruct (syscalls s); [done|]. by apply (frame_same p c s). Qed.

Lemma with_group_heap p f s q :
  heap (with_group p f s).2 !!! q = if decide (q = p) then f (heap s !!! p) else heap s !!! q.
Proof.
  cbn. destruct (decide (q = p)) as [->|H]; [by rewrite lookup_total_insert_eq|by rewrite lookup_total_insert_ne].
Qed.

Lemma in_use_spare s p q : state_ok s -> p ∈ sorted_groups s -> q ∈ drop (count s) (groups s) -> q <> p.
Proof.
  intros Hs Hp Hq ->. rewrite (ok_groups_perm s Hs) in Hp. pose proof (ok_slots s Hs) as Hn.
  rewrite <- (take_drop (count s) (groups s)) in Hn. apply NoDup_app in Hn as (_ & Hn & _). by apply (Hn p).
Qed.

Lemma in_use_spare' s p q : state_ok s -> q ∈ sorted_groups s -> p ∈ drop (count s) (groups s) -> q <> p.
Proof. intros Hs Hq Hp ->. by apply (in_use_spare s p p Hs Hq Hp). Qed.

Lemma with_group_ok p f s :
  state_ok s -> p ∈ sorted_groups s -> group_ok (f (heap s !!! p)) -> g_group_name (f (heap s !!! p)) = g_group_name (heap s !!! p) ->
  state_ok (with_group p f s).2.
Proof.
  intros Hs Hp Hf Hname. pose proof (with_group_heap p f s) as Hh. split; try apply Hs.
  - cbn. intros q g Hq. apply lookup_insert_Some in Hq as [[<- <-]|[_ Hq]]; [done|by apply (ok_heap s Hs q)].
  - cbn. eapply Forall_impl; [apply (ok_allocated s Hs)|]. intros q. cbn. rewrite dom_insert. set_solver.
  - eapply sorted_by_ext; [|apply (ok_groups_sorted s Hs)]. intros q _. unfold group_name. rewrite Hh.
    case_decide; [by subst|done].
  - apply Forall_forall. intros q Hq. rewrite Hh, decide_False by (by eapply in_use_spare).
    pose proof (ok_spare s Hs) as H. rewrite Forall_forall in H. by apply H.
Qed.

Lemma frame_with_group p c f :
  (forall g, group_ok g -> core g = c -> group_ok (f g) /\ core (f g) = c) -> keeps (frame p c) (with_group p f).
Proof.
  intros Hf s (Hs & Hp & Hc). destruct (Hf _ (heap_group_ok s p Hs) Hc) as [Hok Hcore]. split_and!.
  - apply with_group_ok; [done..|]. unfold core in *. congruence.
  - done.
  - by rewrite with_group_heap, decide_True.
Qed.

Lemma frame_group {A} p c (k : FDFSGroupInfo -> M TrackerMem A) :
  (forall g, group_ok g -> core g = c -> keeps (frame p c) (k g)) -> keeps (frame p c) (bind (group p) k).
Proof. intros Hk s (Hs & Hp & Hc). apply (Hk (heap s !!! p)); [by apply heap_group_ok|done..]. Qed.

(** The servers of a group in [c]. *)
Definition c_servers (c : bytes * list FDFSStorageDetail * list nat * list nat * Z * nat) : list FDFSStorageDetail := c.1.1.1.1.2.

Lemma core_servers g c : core g = c -> g_all_servers g = c_servers c.
Proof. by intros <-. Qed.

Section ops.
Context (conf : TrackerMemConf).

Ltac framed := intros ? ? ?; split; [|by subst]; match goal with H : group_ok _ |- _ => destruct H; by split end.
Ltac keep := repeat first [apply keeps_ret | apply keeps_gets | apply keeps_if | apply frame_syscall |
  apply frame_with_group; framed | apply frame_modify; done | apply keeps_bind; [|intros ?]].

Lemma set_trunk_and_log_frame p c o :
  (forall i, o = Some i -> (i < length (c_servers c))%nat) -> keeps (frame p c) (tracker_set_trunk_server_and_log p o).
Proof.
  intros Ho. unfold tracker_set_trunk_server_and_log. apply keeps_bind.
  { apply frame_with_group. intros g Hg Hc. split; [|by subst]. rewrite <- (core_servers g c Hc) in Ho. destruct Hg. by split. }
  intros _. apply frame_group. intros g _ _. destruct o as [i|]; [case_match|]; keep.
Qed.

Lemma do_set_trunk_frame p c i save :
  (i < length (c_servers c))%nat -> keeps (frame p c) (tracker_mem_do_set_trunk_server p i save).
Proof.
  intros Hi. unfold tracker_mem_do_set_trunk_server. apply frame_group. intros g Hg Hc.
  apply keeps_bind; [by keep|]. intros r. apply keeps_if; [by keep|].
  apply keeps_bind; [apply set_trunk_and_log_frame; naive_solver|intros _]. by keep.
Qed.

Lemma larger_binlog_spec g m i l s : (larger_binlog g m i l s).2 = s /\ (larger_binlog g m i l s).1 ∈ i :: l.
Proof.
  revert i. induction l as [|j l IH]; intros i; cbn [larger_binlog]; [split; [done|apply list_elem_of_here]|].
  assert (forall k, k = i \/ k = j -> (larger_binlog g m k l s).2 = s /\ (larger_binlog g m k l s).1 ∈ i :: j :: l) as H.
  { intros k Hk. destruct (IH k) as [H1 H2]. split; [done|]. set_solver. }
  case_match; [by apply H; left|]. unfold bind, tracker_mem_get_trunk_binlog_size, gets.
  destruct (binlog_sizes s _ _); apply H; [by left|]. case_match; [by right|by left].
Qed.

Lemma find_trunk_frame p c save : keeps (frame p c) (tracker_mem_find_trunk_server p save).
Proof.
  unfold tracker_mem_find_trunk_server. apply frame_group. intros g Hg Hc. pose proof (ok_store g Hg) as Hst.
  destruct (g_pStoreServer g) as [i|]; [|apply keeps_ret]. apply keeps_bind; [apply keeps_gets|].
  intros [e|m]; [apply keeps_ret|]. intros s Hs. unfold bind. destruct (larger_binlog_spec g m i (g_active_servers g) s) as [H1 H2].
  destruct (larger_binlog g m i (g_active_servers g) s) as [j s']. cbn in H1, H2. subst s'.
  apply do_set_trunk_frame; [|done]. rewrite <- (core_servers g c Hc). apply active_elem; [done|]. set_solver.
Qed.

(** *** Adding a server. *)
Lemma realloc_store_servers_spec p k s r s' :
  state_ok s -> p ∈ sorted_groups s -> tracker_mem_realloc_store_servers conf p k s = (r, s') ->
  state_ok s' /\ p ∈ sorted_groups s' /\
  core (heap s' !!! p) = (if r =? 0 then set_alloc_size (g_alloc_size (heap s !!! p) + k + TRACKER_MEM_ALLOC_ONCE) else id)
    (core (heap s !!! p)).
Proof.
  intros Hs Hp. unfold tracker_mem_realloc_store_servers. unfold bind at 1.
  pose proof (frame_syscall p (core (heap s !!! p)) s (conj Hs (conj Hp eq_refl))) as Hsys. destruct (syscall s) as [e s1]. cbn [snd] in Hsys.
  destruct Hsys as (H1 & Hp1 & Hc1). destruct (Z.eqb_spec e 0) as [->|He]; cbn [negb].
  2: { intros [= <- <-]. rewrite (proj2 (Z.eqb_neq e 0)) by done. done. }
  set (c := set_alloc_size (g_alloc_size (heap s !!! p) + k + TRACKER_MEM_ALLOC_ONCE) (core (heap s !!! p))).
  assert (frame p c (with_group p (grow_group conf k) s1).2) as Hf.
  { pose proof (grow_group_core conf (heap s1 !!! p) k) as Hg. split_and!; [|done|].
    - apply with_group_ok; [done|done|apply grow_group_ok; by apply heap_group_ok|]. unfold core in Hg. by injection Hg as ->.
    - rewrite with_group_heap, decide_True, Hg by done. unfold c, core in *. by injection Hc1 as -> -> -> -> -> ->. }
  unfold bind at 1. destruct (with_group p (grow_group conf k) s1) as [[] s2]. cbn [snd] in Hf. intros Hrun.
  assert (keeps (frame p c) (bind (gets g_if_leader_self) (fun leader =>
    bind (if leader && g_if_use_trunk_file conf then tracker_mem_find_trunk_server p true else ret 0) (fun _ => ret 0)))) as Hk.
  { apply keeps_bind; [apply keeps_gets|intros b]. apply keeps_bind; [|intros ?; apply keeps_ret].
    apply keeps_if; [apply find_trunk_frame|apply keeps_ret]. }
  specialize (Hk s2 Hf). rewrite Hrun in Hk. destruct Hk as (Hs' & Hp' & Hc'). split; [done|]. split; [done|]. cbn in Hc'.
  assert (r = 0) as ->; [|done]. unfold bind, gets in Hrun.
  destruct ((if g_if_leader_self s2 && g_if_use_trunk_file conf then tracker_mem_find_trunk_server p true else ret 0) s2).
  by injection Hrun.
Qed.

(** The ids of the configuration fit in a server. *)
Definition ids_short : Prop := Forall (fun info => (length (si_id info) < 16)%nat) (by_id (storage_ids conf)) /\
  Forall (fun m => (length (si_id (idInfo m)) < 16)%nat) (by_ip (storage_ids conf)).

Lemma storage_id_short g id ip sid ips :
  ids_short -> (length ip < 16)%nat -> (forall i, id = Some i -> (length i < 16)%nat) ->
  storage_id_and_ips conf g id ip = inr (sid, ips) -> (length sid < 16)%nat.
Proof.
  intros [_ Hip] Hl Hid. unfold storage_id_and_ips. destruct id as [id|].
  - specialize (Hid id eq_refl). repeat case_match; naive_solver.
  - case_match; [|naive_solver]. unfold fdfs_get_storage_id_by_ip. destruct (bsearch _ _) as [k|]; [|done]. cbn.
    destruct (by_ip (storage_ids conf) !! k) as [m|] eqn:E; [|done]. cbn. intros [= <- <-].
    by eapply (Forall_lookup_1 _ _ _ _ Hip).
Qed.

Lemma snprintf_fits size s : (length s < Z.to_nat size)%nat -> snprintf size s = s.
Proof. intros. apply snprintf_short. lia. Qed.

Lemma new_storage_ok g n sid ips (f : FDFSStorageDetail -> FDFSStorageDetail) :
  tame f -> (length sid < 16)%nat -> server_ok n (g_store_path_count g) (f (new_storage g sid ips)) /\ s_id (f (new_storage g sid ips)) = sid.
Proof.
  intros Hf Hl. destruct (Hf (new_storage g sid ips)) as (E1 & E2 & E3 & E4 & E5).
  assert (s_id (new_storage g sid ips) = sid) as E by (cbn; by apply snprintf_fits).
  split; [|congruence]. unfold server_ok. rewrite E1, E2, E3, E. cbn. rewrite length_replicate. split_and!; try done; [|by apply E5].
  intros j Hj. destruct E4 as [E4|E4]; rewrite E4 in Hj; done.
Qed.

(** What a call of [_tracker_mem_add_storage] does to the group. *)
Definition added (c c' : bytes * list FDFSStorageDetail * list nat * list nat * Z * nat) (r : Z + nat * bool) : Prop :=
  c'.1.1.1.1.1 = c.1.1.1.1.1 /\ c'.1.1.2 = c.1.1.2 /\ c'.1.2 = c.1.2 /\
  match r with
  | inl _ => c_servers c' = c_servers c
  | inr (i, true) => i = length (c_servers c) /\ exists st, c_servers c' = c_servers c ++ [st] /\ s_status st = 0
  | inr (i, false) => (i < length (c_servers c))%nat /\ length (c_servers c') = length (c_servers c)
  end.

Lemma added_fst c d c' r : c.1 = d.1 -> added c c' r -> added d c' r.
Proof. unfold added, c_servers. by intros ->. Qed.

(** Two tame changes of one server. *)
Lemma with_two_ok p i f h s :
  tame f -> tame h -> state_ok s -> p ∈ sorted_groups s -> let s' := (with_group p (with_server i h) (with_group p (with_server i f) s).2).2 in
  state_ok s' /\ core (heap s' !!! p) = core (with_server i h (with_server i f (heap s !!! p))).
Proof.
  intros Hf Hh Hs Hp s'. unfold s'.
  assert (state_ok (with_group p (with_server i f) s).2) as H1.
  { apply with_group_ok; [done..|by apply with_server_ok; [|apply heap_group_ok]|done]. }
  split; [|by rewrite !with_group_heap, !decide_True by done].
  apply with_group_ok; [done..|by apply with_server_ok; [|apply heap_group_ok]|done].
Qed.

(** The part of [_tracker_mem_add_storage] behind the reallocation. *)
Definition append_server (p : nat) (st : FDFSStorageDetail) (s : TrackerMem) : TrackerMem :=
  let i := length (g_all_servers (heap s !!! p)) in
  let s1 := (with_group p (fun g => set_g_all_servers (g_all_servers g ++ [st]) g) s).2 in
  let s2 := (with_group p (fun g => set_g_sorted_servers (tracker_mem_insert_into_sorted_servers g i (g_sorted_servers g)) g) s1).2 in
  (with_group p inc_chg_count s2).2.

Lemma append_server_ok p st s :
  let g := heap s !!! p in
  state_ok s -> p ∈ sorted_groups s -> (length (g_all_servers g) < g_alloc_size g)%nat ->
  server_ok (length (g_all_servers g)) (g_store_path_count g) st ->
  (forall i, (i < length (g_all_servers g))%nat -> server_id g i <> s_id st) ->
  state_ok (append_server p st s) /\
  server_id (heap (append_server p st s) !!! p) (length (g_all_servers g)) = s_id st /\
  (s_status st = 0 -> added (core g) (core (heap (append_server p st s) !!! p)) (inr (length (g_all_servers g), true))).
Proof.
  intros g Hs Hp Halloc Hst Hnew.
  pose proof (add_server_ok g st (heap_group_ok s p Hs) Halloc Hst Hnew) as Hok. unfold add_server in Hok. cbn zeta in Hok.
  set (g2 := set_g_sorted_servers _ _) in Hok.
  assert (heap (append_server p st s) !!! p = inc_chg_count g2) as E.
  { unfold append_server. rewrite !with_group_heap, !decide_True by done. done. }
  split; [|split; [rewrite E; apply (f_equal s_id), add_server_last|intros E0; rewrite E; cbn; split_and!; [done..|]; by exists st]].
  assert (append_server p st s = (with_group p (fun _ => inc_chg_count g2) s).2) as ->.
  { unfold append_server, with_group, modify. cbn. rewrite !lookup_total_insert_eq, !insert_insert_eq. done. }
  apply with_group_ok; [done|done|by apply inc_chg_count_ok|done].
Qed.

Lemma add_storage_spec p id ip s r s' :
  ids_short -> (length ip < 16)%nat -> (forall i, id = Some i -> (length i < 16)%nat) ->
  state_ok s -> p ∈ sorted_groups s -> _tracker_mem_add_storage conf p id ip s = (r, s') ->
  state_ok s' /\ p ∈ sorted_groups s' /\ added (core (heap s !!! p)) (core (heap s' !!! p)) r /\
  (forall i, r = inr (i, true) -> exists m, storage_id_and_ips conf (heap s !!! p) id ip = inr (server_id (heap s' !!! p) i, m)).
Proof.
  intros Hconf Hip Hid Hs Hp. unfold _tracker_mem_add_storage. destruct ip as [|a ip']; [by intros [= <- <-]|].
  set (ip := a :: ip') in *. unfold bind at 1, group at 1, gets at 1. pose proof (heap_group_ok s p Hs) as Hg.
  destruct (storage_id_and_ips conf (heap s !!! p) id ip) as [e|[sid m]] eqn:Esid; [by intros [= <- <-]|].
  pose proof (storage_id_short _ _ _ _ _ Hconf Hip Hid Esid) as Hlen.
  set (set_index := fun st => if g_use_storage_id conf then set_s_ip_addrs (fdfs_set_multi_ip_index (s_ip_addrs st) ip) st else st).
  assert (tame set_index) as Htame by (unfold set_index; destruct (g_use_storage_id conf); solve_tame).
  destruct (tracker_mem_get_storage (heap s !!! p) sid) as [i|] eqn:Eget.
  - intros [= <- <-]. apply get_storage_spec in Eget as [Hi _]; [|done].
    match goal with |- context [with_server i ?h] => assert (tame h) as Hh by (intros st; case_match; by repeat split; auto) end.
    match type of Hh with tame ?h => destruct (with_two_ok p i set_index h s Htame Hh Hs Hp) as [Hok Hc] end.
    split; [exact Hok|]. split; [exact Hp|].
    match type of Hc with core ?g' = _ => assert (added (core (heap s !!! p)) (core g') (inr (i, false))) as Hadd end; [|split; [exact Hadd|naive_solver]].
    rewrite Hc. split_and!; try done. etrans; [apply length_alter|apply length_alter].
  - pose proof (proj1 (get_storage_None _ sid Hg) Eget) as Hnew.
    destruct (new_storage_ok (heap s !!! p) (length (g_all_servers (heap s !!! p))) sid m set_index Htame Hlen) as [Hok Hsid].
    set (st := set_index (new_storage (heap s !!! p) sid m)) in *.
    unfold bind at 1.
    match goal with |- context [let '(_, _) := ?c s in _] => destruct (c s) as [e s1] eqn:Ealloc end.
    assert (state_ok s1 /\ p ∈ sorted_groups s1 /\ (core (heap s1 !!! p)).1 = (core (heap s !!! p)).1 /\
      (e = 0 -> (length (g_all_servers (heap s1 !!! p)) < g_alloc_size (heap s1 !!! p))%nat)) as (H1 & Hp1 & Hc1 & Hsize).
    { destruct (Nat.leb_spec (g_alloc_size (heap s !!! p)) (length (g_all_servers (heap s !!! p)))) as [Hle|Hlt].
      - apply realloc_store_servers_spec in Ealloc as (H1 & Hp1 & Hc); [|done..]. split; [done|]. split; [done|]. rewrite Hc.
        split; [by destruct (e =? 0)|]. intros ->. cbn in Hc. unfold core in Hc. injection Hc as _ -> _ _ _ ->.
        pose proof (ok_alloc _ Hg). unfold TRACKER_MEM_ALLOC_ONCE. lia.
      - injection Ealloc as <- <-. done. }
    pose proof Hc1 as Hc2. unfold core in Hc2. cbn in Hc2. injection Hc2 as Ename Eall Esorted Eactive Epaths.
    destruct (Z.eqb_spec e 0) as [->|He]; cbn [negb].
    2: { intros [= <- <-]. split; [done|]. split; [done|]. split; [by apply (added_fst (core (heap s1 !!! p)))|done]. }
    assert (with_group p (fun g => set_g_all_servers (g_all_servers g ++ [set_index (new_storage g sid m)]) g) s1 =
      (tt, (with_group p (fun g => set_g_all_servers (g_all_servers g ++ [st]) g) s1).2)) as Enew.
    { unfold with_group, modify, st. cbn. do 6 f_equal. unfold new_storage. by rewrite Epaths. }
    cbn zeta. erewrite bind_eq; [|exact Enew]. intros [= <- <-]. destruct (append_server_ok p st s1) as (Hok' & Hlast & Hadd); [done|done|by apply Hsize|by rewrite Eall, Epaths| |].
    { unfold server_id, server. rewrite Eall. rewrite Hsid. exact Hnew. }
    unfold append_server in Hok', Hadd. rewrite Eall in Hok', Hadd. split; [exact Hok'|]. split; [exact Hp1|].
    assert (s_status st = 0) as Est by (unfold st, set_index; by destruct (g_use_storage_id conf)). specialize (Hadd Est).
    split; [by eapply added_fst|]. intros i [= <-]. exists m.
    do 2 f_equal. etrans; [symmetry; exact Hsid|]. symmetry. unfold append_server in Hlast. rewrite Eall in Hlast. exact Hlast.
Qed.

(** *** Adding a group. *)
Lemma fresh_group_new h : h !! fresh_group h = None.
Proof.
  destruct (h !! fresh_group h) as [g|] eqn:E; [|done]. exfalso.
  assert (fresh_group h ∈ (map_to_list h).*1) as Hin.
  { apply list_elem_of_fmap. exists (fresh_group h, g). split; [done|]. by apply elem_of_map_to_list. }
  apply max_list_elem_of_le in Hin. unfold fresh_group in Hin. lia.
Qed.

Lemma malloc_groups_spec n s :
  let '(l, s') := malloc_groups n s in
  length l = n /\ NoDup l /\ Forall (fun p => p ∉ dom (heap s)) l /\ Forall (fun p => heap s' !! p = Some zero_group) l /\
  (forall q, q ∉ l -> heap s' !! q = heap s !! q) /\ s' = set_heap (heap s') s.
Proof.
  revert s. induction n as [|n IH]; intros s; [cbn; split_and!; try done; [constructor|by destruct s]|].
  cbn [malloc_groups]. unfold bind, gets, modify. set (p := fresh_group (heap s)).
  specialize (IH (set_heap (<[p:=zero_group]> (heap s)) s)).
  destruct (malloc_groups n _) as [l s']. cbn [ret heap set_heap] in *. destruct IH as (H1 & H2 & H3 & H4 & H5 & H6).
  rewrite Forall_forall in H3. setoid_rewrite dom_insert in H3.
  assert (p ∉ l) as Hp by (intros Hp; specialize (H3 p Hp); set_solver).
  split_and!; [cbn; lia|by constructor| | | |].
  - constructor; [apply not_elem_of_dom, fresh_group_new|]. apply Forall_forall. intros q Hq. specialize (H3 q Hq). set_solver.
  - constructor; [|done]. rewrite H5 by done. apply lookup_insert_eq.
  - intros q Hq. apply not_elem_of_cons in Hq as [Hq Hl]. rewrite H5 by done. by apply lookup_insert_ne.
  - rewrite H6. done.
Qed.

(** More slots. *)
Lemma realloc_groups_spec s r s' :
  state_ok s -> count s = length (groups s) -> tracker_mem_realloc_groups s = (r, s') ->
  state_ok s' /\ sorted_groups s' = sorted_groups s /\ count s' = count s /\
  (forall p, p ∈ sorted_groups s -> heap s' !!! p = heap s !!! p) /\ (r = 0 -> (count s' < length (groups s'))%nat).
Proof.
  intros Hs Hfull. unfold tracker_mem_realloc_groups. unfold bind at 1, syscall.
  assert (exists e s1, match syscalls s with [] => (0, s) | e :: l => (e, set_syscalls l s) end = (e, s1) /\ same_groups s s1) as (e & s1 & -> & Hsame).
  { destruct (syscalls s) as [|e l]; eexists _, _; (split; [reflexivity|done]). }
  pose proof (state_ok_same _ _ Hsame Hs) as H1. destruct Hsame as (E1 & E2 & E3 & E4 & E5 & E6).
  destruct (Z.eqb_spec e 0) as [->|He]; cbn [negb].
  2: { intros [= <- <-]. split_and!; try done. by rewrite E1. }
  unfold bind, gets, modify, ret. rewrite E2, E3, Hfull.
  pose proof (malloc_groups_spec (length (groups s) + TRACKER_MEM_ALLOC_ONCE - length (groups s)) s1) as Hm.
  destruct (malloc_groups _ s1) as [l s2]. destruct Hm as (Hl & Hnd & Hnew & Hz & Hother & E). intros [= <- <-].
  assert (length l = TRACKER_MEM_ALLOC_ONCE) as Hlen by lia.
  assert (forall p, p ∈ groups s -> heap s2 !! p = heap s !! p) as Hold.
  { intros p Hp. rewrite Hother, E1; [done|]. intros Hin. rewrite Forall_forall in Hnew. apply (Hnew p Hin). rewrite E1.
    pose proof (ok_allocated s Hs) as Ha. rewrite Forall_forall in Ha. by apply Ha. }
  assert (count s2 = length (groups s)) as Ec by (rewrite E; cbn; congruence).
  assert (groups s2 = groups s) as Eg by (rewrite E; cbn; congruence).
  assert (sorted_groups s2 = sorted_groups s) as Es by (rewrite E; cbn; congruence).
  assert (forall p, p ∈ sorted_groups s -> heap s2 !!! p = heap s !!! p) as Htot.
  { intros p Hp. rewrite !lookup_total_alt, Hold; [done|]. rewrite (ok_groups_perm s Hs) in Hp. by eapply elem_of_take_in. }
  cbn. rewrite Ec, Eg. split_and!; [|done|done|exact Htot|rewrite length_app, length_take; intros _; unfold TRACKER_MEM_ALLOC_ONCE in *; lia].
  split; cbn; rewrite ?Ec, ?Eg, ?Es, ?take_ge by lia.
  - intros p g Hg. destruct (decide (p ∈ l)) as [Hin|Hin].
    + rewrite Forall_forall in Hz. rewrite (Hz p Hin) in Hg. simplify_eq. apply zero_group_ok.
    + rewrite Hother in Hg by done. by apply (ok_heap s1 H1 p).
  - apply NoDup_app. split_and!; [apply Hs| |done]. intros p Hp Hin. rewrite Forall_forall in Hnew. apply (Hnew p Hin). rewrite E1.
    pose proof (ok_allocated s Hs) as Ha. rewrite Forall_forall in Ha. by apply Ha.
  - apply Forall_app. split.
    + apply Forall_forall. intros p Hp. apply elem_of_dom. rewrite Hold by done. apply elem_of_dom.
      pose proof (ok_allocated s Hs) as Ha. rewrite Forall_forall in Ha. by apply Ha.
    + eapply Forall_impl; [exact Hz|]. intros p Hp. apply elem_of_dom. by rewrite Hp.
  - rewrite length_app. lia.
  - rewrite (ok_groups_perm s Hs), Hfull, (take_ge (groups s)) by lia. by rewrite take_app_length.
  - eapply sorted_by_ext; [|apply (ok_groups_sorted s Hs)]. intros p Hp. unfold group_name. by rewrite Htot.
  - rewrite E. cbn. rewrite E5. apply Hs.
  - rewrite E. cbn. rewrite E6. apply Hs.
  - rewrite drop_app_length. eapply Forall_impl; [exact Hz|]. intros p Hp. cbn. rewrite lookup_total_alt, Hp. done.
Qed.

Lemma get_group_spec s name p :
  state_ok s -> tracker_mem_get_group_ex name s = Some p <-> p ∈ sorted_groups s /\ group_name s p = name.
Proof.
  intros Hs. unfold tracker_mem_get_group_ex, tracker_mem_cmp_by_group_name. split.
  - destruct (bsearch _ _) as [k|] eqn:E; [|done]. cbn. intros Hk.
    apply (bsearch_sorted memcmp (group_name s)) in E as (x & Hx & Ek); [|apply Hs]. simplify_eq.
    split; [by eapply list_elem_of_lookup_2|done].
  - intros [Hin Ek]. apply list_elem_of_lookup in Hin as [k Hk].
    rewrite (proj2 (bsearch_sorted memcmp (group_name s) (sorted_groups s) name k (ok_groups_sorted s Hs))) by (by exists p). exact Hk.
Qed.

Lemma get_group_None s name :
  state_ok s -> tracker_mem_get_group_ex name s = None -> forall p, p ∈ sorted_groups s -> group_name s p <> name.
Proof.
  intros Hs Hn p Hp E. assert (tracker_mem_get_group_ex name s = Some p) by (by apply get_group_spec). congruence.
Qed.

(** A group in a slot that is not in use. *)
Lemma set_spare_ok s p g :
  state_ok s -> p ∈ drop (count s) (groups s) -> group_ok g -> g_pStoreServer g = None -> g_pTrunkServer g = None ->
  state_ok (set_heap (<[p := g]> (heap s)) s).
Proof.
  intros Hs Hp Hg Hst Htr. split; cbn; try apply Hs.
  - intros q h Hq. apply lookup_insert_Some in Hq as [[<- <-]|[_ Hq]]; [done|by apply (ok_heap s Hs q)].
  - eapply Forall_impl; [apply (ok_allocated s Hs)|]. intros q. rewrite dom_insert. set_solver.
  - eapply sorted_by_ext; [|apply (ok_groups_sorted s Hs)]. intros q Hq. unfold group_name. cbn.
    rewrite lookup_total_insert_ne; [done|]. intros ->. by eapply in_use_spare.
  - eapply Forall_impl; [apply (ok_spare s Hs)|]. intros q Hq. destruct (decide (p = q)) as [->|Hne].
    + by rewrite lookup_total_insert_eq.
    + by rewrite lookup_total_insert_ne.
Qed.

(** The first slot behind those in use is taken. *)
Lemma use_slot_ok s p :
  state_ok s -> groups s !! count s = Some p -> (forall q, q ∈ sorted_groups s -> group_name s q <> group_name s p) ->
  state_ok (set_count (S (count s)) (set_sorted_groups (tracker_mem_insert_into_sorted_groups p s) s)).
Proof.
  intros Hs Hp Hname. unfold tracker_mem_insert_into_sorted_groups.
  pose proof (insert_sorted_perm tracker_mem_cmp_by_group_name (group_name s) p (sorted_groups s)) as Hperm.
  split; cbn; try apply Hs.
  - by apply lookup_lt_Some in Hp.
  - rewrite Hperm, (ok_groups_perm s Hs), (take_S_r _ _ _ Hp). by rewrite Permutation_cons_append.
  - apply (insert_sorted_sorted memcmp (group_name s)); [apply Hs|done].
  - intros q Hq. rewrite Hperm. apply elem_of_cons. right. by apply (ok_store_group s Hs).
  - eapply Forall_forall. intros q Hq. pose proof (ok_spare s Hs) as H. rewrite Forall_forall in H. apply H.
    rewrite (drop_S _ _ _ Hp). by apply elem_of_cons; right.
Qed.

(** What a new group looks like. *)
Definition init_group (g : FDFSGroupInfo) : FDFSGroupInfo :=
  let n := TRACKER_MEM_ALLOC_ONCE in
  set_g_alloc_size n (set_g_all_servers [] (set_g_sorted_servers [] (set_g_active_servers []
    (set_g_last_sync_timestamps (replicate n (replicate n 0)) g)))).

Lemma init_group_ok g :
  group_ok g -> g_pStoreServer g = None -> g_pTrunkServer g = None -> group_ok (init_group g).
Proof.
  intros Hg E1 E2. split; cbn; rewrite ?E1, ?E2; try done; try apply Hg; repeat constructor.
Qed.

(** [s'] differs from [s] in group [p], a slot that is not in use. *)
Definition changes_slot (p : nat) (s s' : TrackerMem) : Prop :=
  groups s' = groups s /\ count s' = count s /\ sorted_groups s' = sorted_groups s /\
  g_pStoreServer (heap s' !!! p) = None /\ g_pTrunkServer (heap s' !!! p) = None /\
  (forall q, q <> p -> heap s' !!! q = heap s !!! q).

Lemma spare_None s p :
  state_ok s -> p ∈ drop (count s) (groups s) -> g_pStoreServer (heap s !!! p) = None /\ g_pTrunkServer (heap s !!! p) = None.
Proof. intros Hs Hp. pose proof (ok_spare s Hs) as H. rewrite Forall_forall in H. by apply H. Qed.

Lemma init_slot_spec s p e s' :
  state_ok s -> p ∈ drop (count s) (groups s) -> tracker_mem_init_group p s = (e, s') -> state_ok s' /\ changes_slot p s s'.
Proof.
  intros Hs Hp. destruct (spare_None s p Hs Hp) as [E1 E2]. unfold tracker_mem_init_group, bind, with_group, modify.
  set (s2 := set_heap (<[p := init_group (heap s !!! p)]> (heap s)) s).
  assert (state_ok s2) as H2.
  { apply set_spare_ok; [done..|apply init_group_ok; [by apply heap_group_ok|done..]|done|done]. }
  assert (changes_slot p s s2) as Hc.
  { split_and!; try done; cbn; rewrite ?lookup_total_insert_eq; try done. intros q Hq. by rewrite lookup_total_insert_ne. }
  change (syscall s2 = (e, s') -> state_ok s' /\ changes_slot p s s').
  unfold syscall. destruct (syscalls s2); intros [= <- <-]; [done|]. split; [by apply (state_ok_same s2)|done].
Qed.

Lemma name_slot_spec s p name :
  state_ok s -> groups s !! count s = Some p -> (forall q, q ∈ sorted_groups s -> group_name s q <> name) ->
  let s1 := (with_group p (set_g_group_name name) s).2 in
  let s2 := set_count (S (count s1)) (set_sorted_groups (tracker_mem_insert_into_sorted_groups p s1) s1) in
  state_ok s2 /\ (forall q, q ∈ sorted_groups s2 <-> q = p \/ q ∈ sorted_groups s) /\ group_name s2 p = name /\
  (forall q, q <> p -> heap s2 !!! q = heap s !!! q).
Proof.
  intros Hs Hp Hnew s1 s2.
  assert (p ∈ drop (count s) (groups s)) as Hin by (rewrite (drop_S _ _ _ Hp); apply list_elem_of_here).
  assert (state_ok s1) as H1.
  { destruct (spare_None s p Hs Hin) as [E1 E2]. apply set_spare_ok; [done..| |done|done].
    pose proof (heap_group_ok s p Hs) as []. by split. }
  assert (group_name s1 p = name) as Hname by (unfold group_name; cbn; by rewrite lookup_total_insert_eq).
  assert (forall q, q <> p -> heap s1 !!! q = heap s !!! q) as Hq.
  { intros q Hq. cbn. by rewrite lookup_total_insert_ne. }
  split_and!; [apply use_slot_ok; [done|exact Hp|]| |exact Hname|exact Hq].
  - rewrite Hname. intros q Hqin. unfold group_name. rewrite Hq; [by apply Hnew|]. exact (in_use_spare' s p q Hs Hqin Hin).
  - intros q. unfold s2. cbn [sorted_groups set_count set_sorted_groups].
    pose proof (insert_sorted_perm tracker_mem_cmp_by_group_name (group_name s1) p (sorted_groups s1)) as Hperm.
    unfold tracker_mem_insert_into_sorted_groups. rewrite Hperm, elem_of_cons. done.
Qed.

Lemma add_group_spec name s r s' :
  state_ok s -> tracker_mem_add_group_ex conf name s = (r, s') ->
  state_ok s' /\ (forall q, q ∈ sorted_groups s -> q ∈ sorted_groups s' /\ heap s' !!! q = heap s !!! q) /\
  match r with inr (p, _) => p ∈ sorted_groups s' /\ group_name s' p = name | inl _ => True end.
Proof.
  intros Hs. unfold tracker_mem_add_group_ex. unfold bind at 1, gets at 1.
  destruct (tracker_mem_get_group_ex name s) as [p|] eqn:Eget.
  { intros [= <- <-]. split; [done|]. split; [done|]. by apply get_group_spec. }
  pose proof (get_group_None s name Hs Eget) as Hnew.
  unfold bind at 1, gets at 1. unfold bind at 1.
  match goal with |- context [let '(_, _) := ?c s in _] => destruct (c s) as [e s1] eqn:Ealloc end.
  assert (state_ok s1 /\ sorted_groups s1 = sorted_groups s /\ (forall q, q ∈ sorted_groups s -> heap s1 !!! q = heap s !!! q) /\
    (e = 0 -> (count s1 < length (groups s1))%nat)) as (H1 & Es & Hq & Hfree).
  { destruct (Nat.leb_spec (length (groups s)) (count s)) as [Hle|Hlt].
    - pose proof (ok_count s Hs). apply realloc_groups_spec in Ealloc as (H1 & E1 & E2 & E3 & E4); [|done|lia]. done.
    - injection Ealloc as <- <-. done. }
  destruct (Z.eqb_spec e 0) as [->|He]; cbn [negb].
  2: { intros [= <- <-]. split; [done|]. split; [|done]. intros q Hin. rewrite Es. auto. }
  specialize (Hfree eq_refl). apply lookup_lt_is_Some_2 in Hfree as [p Hp].
  unfold bind at 1, gets at 1. rewrite (list_lookup_total_correct _ _ _ Hp).
  assert (p ∈ drop (count s1) (groups s1)) as Hspare by (rewrite (drop_S _ _ _ Hp); apply list_elem_of_here).
  assert (forall q, q ∈ sorted_groups s -> q <> p) as Hne by (intros q Hin; apply (in_use_spare' s1); [done|by rewrite Es|done]).
  unfold bind at 1. destruct (tracker_mem_init_group p s1) as [e s3] eqn:Einit.
  apply init_slot_spec in Einit as [H3 (F1 & F2 & F3 & F4 & F5 & F6)]; [|done..].
  destruct (Z.eqb_spec e 0) as [->|He]; cbn [negb].
  2: { intros [= <- <-]. split; [done|]. split; [|done]. intros q Hin. rewrite F3, Es, F6, Hq; auto. }
  destruct (name_slot_spec s3 p name) as (H5 & Hin5 & Hname5 & Hq5); [done|by rewrite F1, F2| |].
  { rewrite F3, Es. intros q Hin. unfold group_name. rewrite F6, Hq by auto. by apply Hnew. }
  unfold bind, with_group, modify, gets. cbn in H5, Hin5, Hname5, Hq5 |- *.
  match type of H5 with state_ok ?s => set (s5 := s) in * end. intros Hrun.
  assert (r = inr (p, true) /\ (s' = s5 \/ s' = set_pStoreGroup (Some p) s5)) as [-> Hs'].
  { destruct (_ && _) in Hrun; injection Hrun as <- <-; auto. }
  assert (state_ok s') as Hok.
  { destruct Hs' as [-> | ->]; [done|]. destruct H5. split; try done. cbn. intros q [= <-]. apply Hin5. by left. }
  split; [done|]. assert (sorted_groups s3 = sorted_groups s) as Es3 by (by rewrite F3).
  destruct Hs' as [-> | ->]; (split; [intros q Hin; split; [apply Hin5; right; by rewrite Es3|cbn; rewrite Hq5, F6, Hq; auto]|split; [apply Hin5; by left|exact Hname5]]).
Qed.

(** *** The other operations on one group. *)
Definition in_use (p : nat) (s : TrackerMem) : Prop := state_ok s /\ p ∈ sorted_groups s.

Lemma frame_in_use {A} p (c : M TrackerMem A) : (forall k, keeps (frame p k) c) -> keeps (in_use p) c.
Proof. intros Hc s [Hs Hp]. destruct (Hc (core (heap s !!! p)) s) as (H1 & H2 & _); done. Qed.

Lemma in_use_same p s s' : same_groups s s' -> in_use p s -> in_use p s'.
Proof. intros Hsame [Hs Hp]. split; [by eapply state_ok_same|]. destruct Hsame as (_ & _ & _ & -> & _). done. Qed.

Lemma in_use_modify p f : (forall s, same_groups s (f s)) -> keeps (in_use p) (modify f).
Proof. intros Hf s Hs. eapply in_use_same; [apply Hf|done]. Qed.

Lemma in_use_syscall p : keeps (in_use p) syscall.
Proof. apply frame_in_use. intros c. apply frame_syscall. Qed.

(** A change of the group that keeps its shape and its name. *)
Definition good (f : FDFSGroupInfo -> FDFSGroupInfo) : Prop :=
  forall g, group_ok g -> group_ok (f g) /\ g_group_name (f g) = g_group_name g.

Lemma in_use_with_group p f : good f -> keeps (in_use p) (with_group p f).
Proof.
  intros Hf s [Hs Hp]. destruct (Hf (heap s !!! p) (heap_group_ok s p Hs)) as [H1 H2]. split; [by apply with_group_ok|done].
Qed.

Lemma in_use_group {A} p (k : FDFSGroupInfo -> M TrackerMem A) :
  (forall g, group_ok g -> keeps (in_use p) (k g)) -> keeps (in_use p) (bind (group p) k).
Proof. intros Hk s [Hs Hp]. apply (Hk (heap s !!! p)); [by apply heap_group_ok|done..]. Qed.

Lemma with_group_twice {A} p f h (k : M TrackerMem A) s :
  bind (with_group p f) (fun _ => bind (with_group p h) (fun _ => k)) s = bind (with_group p (fun g => h (f g))) (fun _ => k) s.
Proof. unfold bind, with_group, modify. cbn. by rewrite lookup_total_insert_eq, insert_insert_eq. Qed.

Lemma good_server i f : tame f -> good (with_server i f).
Proof. intros Hf g Hg. split; [by apply with_server_ok|done]. Qed.

Lemma good_inc_chg : good inc_chg_count.
Proof. intros g Hg. split; [by apply inc_chg_count_ok|done]. Qed.

Ltac good_field := intros g []; split; [by split|done].
Ltac used := repeat first [solve [auto 2 with keeps] | apply keeps_if | apply in_use_syscall |
  apply in_use_with_group; first [apply good_inc_chg | apply good_server; solve_tame | good_field] |
  apply in_use_modify; done | apply in_use_group; intros ? ? | apply keeps_bind; [|intros ?]].

Lemma write_to_changelog_keeps p i arg : keeps (in_use p) (tracker_write_to_changelog p i arg).
Proof. unfold tracker_write_to_changelog. used. Qed.

Lemma find_trunk_keeps p save : keeps (in_use p) (tracker_mem_find_trunk_server p save).
Proof. apply frame_in_use. intros c. apply find_trunk_frame. Qed.

#[local] Hint Resolve in_use_syscall write_to_changelog_keeps find_trunk_keeps : keeps.

Lemma forget_tame g id : tame (forget_sync_src g id).
Proof. intros st. unfold forget_sync_src. repeat case_match; repeat split; cbn; auto. Qed.

Lemma delete_storage_keeps p id : keeps (in_use p) (tracker_mem_delete_storage p id).
Proof.
  unfold tracker_mem_delete_storage. apply in_use_group. intros g Hg. destruct (tracker_mem_get_storage g id) as [i|]; [|used].
  used. apply in_use_with_group. intros h Hh. split; [|done].
  apply fmap_servers_ok; [apply forget_tame|done].
Qed.

Lemma set_trunk_server_keeps p id : keeps (in_use p) (tracker_mem_set_trunk_server conf p id).
Proof.
  apply frame_in_use. intros c. unfold tracker_mem_set_trunk_server. apply keeps_bind; [apply keeps_gets|intros leader].
  apply keeps_if; [apply keeps_ret|]. apply frame_group. intros g Hg Hc.
  destruct id as [|a id]; (apply keeps_if; [apply keeps_ret|]).
  - apply keeps_bind; [apply find_trunk_frame|intros r]. apply keeps_if; [apply keeps_ret|]. apply frame_group. intros; apply keeps_ret.
  - destruct (tracker_mem_get_storage g _) as [i|] eqn:E; [|apply keeps_ret]. apply keeps_if; [apply keeps_ret|].
    apply get_storage_spec in E as [Hi _]; [|done]. rewrite (core_servers g c Hc) in Hi.
    apply keeps_bind; [by apply do_set_trunk_frame|intros r]. apply frame_group. intros; apply keeps_ret.
Qed.

(** [i] is a server of group [p]. *)
Definition has_server (p i : nat) (s : TrackerMem) : Prop := in_use p s /\ (i < length (g_all_servers (heap s !!! p)))%nat.

Lemma has_server_keeps {A} p i (c : M TrackerMem A) :
  keeps (in_use p) c -> (forall s, in_use p s -> length (g_all_servers (heap (c s).2 !!! p)) = length (g_all_servers (heap s !!! p))) ->
  keeps (has_server p i) c.
Proof. intros Hc Hl s [Hs Hi]. split; [by apply Hc|]. by rewrite Hl. Qed.

(** [find_store_server] completes a change. *)
Lemma good_find_store f :
  (forall g, group_ok g -> group_ok_but_store (f g) /\ g_group_name (f g) = g_group_name g) ->
  good (fun g => tracker_mem_find_store_server conf (f g)).
Proof.
  intros Hf g Hg. destruct (Hf g Hg) as [H1 H2]. split; [by apply find_store_server_ok|].
  pose proof (find_store_server_core conf (f g)) as Hc. unfold core in Hc. injection Hc as -> _ _ _ _ _. done.
Qed.

Lemma active_store_server_keeps p i s : has_server p i s -> in_use p (tracker_mem_active_store_server conf p i s).2.
Proof.
  intros [[Hs Hp] Hi]. unfold tracker_mem_active_store_server. unfold bind at 1, group at 1, gets at 1.
  destruct (no_activation _); [done|]. unfold bind at 1. set (s1 := (with_group p (with_server i (set_s_status FDFS_STORAGE_STATUS_ACTIVE)) s).2).
  assert (in_use p s1) as H1 by (apply (in_use_with_group p); [apply good_server; solve_tame|done]).
  change (with_group p _ s) with (tt, s1). cbn beta iota. unfold bind at 1, group at 1, gets at 1.
  assert (i < length (g_all_servers (heap s1 !!! p)))%nat as Hi1.
  { unfold s1. rewrite with_group_heap, decide_True by done. by rewrite length_with_server. }
  pose proof (heap_group_ok s1 p (proj1 H1)) as Hg1.
  destruct (search_active _ _) as [k|] eqn:E; [done|]. apply search_active_None in E; [|done..].
  rewrite with_group_twice, with_group_twice.
  match goal with |- in_use p (bind (with_group p ?f) ?k s1).2 => set (f0 := f); set (k0 := k) end.
  assert (in_use p (with_group p f0 s1).2) as H2.
  { destruct H1 as [H1 Hp1]. split; [|done]. apply with_group_ok; [done..| |].
    - apply find_store_server_ok. pose proof (insert_active_ok _ _ Hg1 Hi1 E) as H. destruct H. by split.
    - etrans; [apply find_store_server_name|done]. }
  unfold bind at 1. destruct (with_group p f0 s1) as [[] s2]. cbn [snd] in H2.
  assert (keeps (in_use p) (k0 tt)) as Hk; [|by apply Hk]. unfold k0. used.
Qed.

Lemma offline_store_server_keeps p i : keeps (in_use p) (tracker_mem_offline_store_server conf p i).
Proof.
  unfold tracker_mem_offline_store_server. used. apply in_use_with_group. intros h Hh.
  split; [by apply deactive_ok|apply deactivate_name].
Qed.

Lemma set_write_server_ok g x : group_ok g -> 0 <= x -> group_ok (set_g_current_write_server x g).
Proof. intros [] Hx. by split. Qed.

Lemma get_writable_storage_keeps p : keeps (in_use p) (tracker_get_writable_storage conf p).
Proof.
  intros s [Hs Hp]. unfold tracker_get_writable_storage. unfold bind at 1, group, gets. case_match; [|done].
  unfold bind, ret. cbn [snd]. split; [|done]. apply with_group_ok; [done..| |done].
  pose proof (heap_group_ok s p Hs) as Hg. pose proof (ok_write _ Hg).
  apply set_write_server_ok; [done|]. destruct (_ <=? _); lia.
Qed.

(** *** A change of address. *)
Lemma exchange_ids g i j old_ip new_ip k :
  (i < length (g_all_servers g))%nat -> (j < length (g_all_servers g))%nat -> i <> j ->
  (length old_ip < 16)%nat -> (length new_ip < 16)%nat ->
  server_id (exchange_ips conf i j old_ip new_ip g) k =
    if decide (k = i) then new_ip else if decide (k = j) then old_ip else server_id g k.
Proof.
  intros Hi Hj Hne Ho Hn. unfold exchange_ips. cbn zeta. set (f := fun st => set_s_ip_addrs _ (set_s_id _ st)).
  set (h := fun st => set_s_status _ _). unfold server_id. cbn [server set_g_sorted_servers inc_chg_count].
  change (s_id (server (with_server j h (with_server i f g)) k) = if decide (k = i) then new_ip else if decide (k = j) then old_ip else s_id (server g k)).
  rewrite !server_with_server, !length_with_server.
  destruct (decide (k = i)) as [->|Hk].
  - rewrite decide_False by naive_solver. rewrite decide_True by done. unfold f. cbn. by apply snprintf_fits.
  - destruct (decide (k = j)) as [->|Hk'].
    + rewrite decide_True by done. unfold h. cbn. by apply snprintf_fits.
    + rewrite decide_False by naive_solver. rewrite decide_False by naive_solver. done.
Qed.

Lemma NoDup_fmap_swap {A} `{EqDecision B} (f h : B -> A) (l : list B) i j :
  NoDup l -> (forall a b, a ∈ l -> b ∈ l -> f a = f b -> a = b) -> i ∈ l -> j ∈ l ->
  (forall k, h k = if decide (k = i) then f j else if decide (k = j) then f i else f k) -> NoDup (h <$> l).
Proof.
  intros Hl Hinj Hi Hj Hh. apply NoDup_fmap_2_strong; [|done]. intros a b Ha Hb. rewrite !Hh.
  repeat case_decide; subst; intros E; try done; repeat (apply Hinj in E; [|done..]); by subst.
Qed.

Lemma exchange_ok g i j old_ip new_ip :
  group_ok g -> (i < length (g_all_servers g))%nat -> (j < length (g_all_servers g))%nat -> i <> j ->
  server_id g i = old_ip -> server_id g j = new_ip -> (i ∉ g_active_servers g) -> (j ∉ g_active_servers g) ->
  group_ok (exchange_ips conf i j old_ip new_ip g).
Proof.
  intros Hg Hi Hj Hne Eo En Hia Hja.
  assert (length old_ip < 16 /\ length new_ip < 16)%nat as [Ho Hn].
  { rewrite <- Eo, <- En. split; apply group_ok_lookup; done. }
  pose proof (fun k => exchange_ids g i j old_ip new_ip k Hi Hj Hne Ho Hn) as Hids.
  set (g' := exchange_ips conf i j old_ip new_ip g) in *.
  assert (length (g_all_servers g') = length (g_all_servers g)) as Hlen.
  { etrans; [apply length_with_server|apply length_with_server]. }
  assert (g_sorted_servers g' ≡ₚ g_sorted_servers g) as Hperm by apply (qsort_perm tracker_mem_cmp_by_storage_id).
  split; rewrite ?Hlen; try apply Hg.
  - change (g_store_path_count g') with (g_store_path_count g).
    assert (forall st ip, (length ip < 16)%nat -> server_ok (length (g_all_servers g)) (g_store_path_count g) st ->
      server_ok (length (g_all_servers g)) (g_store_path_count g) (set_s_id (snprintf FDFS_STORAGE_ID_MAX_SIZE ip) st)) as Hid.
    { intros st ip Hip (H1 & H2 & H3 & _ & H5). split_and!; try done. cbn. by rewrite snprintf_fits. }
    cbn. apply Forall_alter; [apply Forall_alter; [apply Hg|]|]; intros st _ Hst; by apply (Hid st _).
  - by rewrite Hperm, (ok_perm g Hg).
  - change (sorted_by memcmp (server_id g') (qsort memcmp (server_id g') (g_sorted_servers g))).
    apply qsort_sorted; [apply memcmp_order|].
    apply (NoDup_fmap_swap (server_id g) _ _ i j); [eapply sorted_by_NoDup; [apply memcmp_order|apply Hg]| |by apply sorted_elem..|].
    + intros a b Ha Hb. apply server_id_inj; [done|by apply sorted_elem..].
    + intros k. by rewrite Hids, Eo, En.
  - eapply sorted_by_ext; [|apply (ok_active g Hg)]. intros k Hk. rewrite Hids.
    rewrite decide_False by (by intros ->). by rewrite decide_False by (by intros ->).
Qed.

(** The code checks the status of the old server only, the order of
    [active_servers] needs that it is not one of them. *)
Lemma storage_ip_changed_keeps p old_ip new_ip s :
  ids_short -> (length new_ip < 16)%nat ->
  (forall i, tracker_mem_get_storage (heap s !!! p) old_ip = Some i -> i ∉ g_active_servers (heap s !!! p)) ->
  in_use p s -> in_use p (tracker_mem_storage_ip_changed conf p old_ip new_ip s).2.
Proof.
  intros Hconf Hl Hact [Hs Hp]. pose proof (heap_group_ok s p Hs) as Hg. unfold tracker_mem_storage_ip_changed.
  destruct (g_use_storage_id conf) eqn:Euse; [done|].
  unfold bind at 1, group at 1, gets at 1.
  destruct (tracker_mem_get_storage (heap s !!! p) old_ip) as [i|] eqn:Ei; [|done].
  destruct (_ =? FDFS_STORAGE_STATUS_DELETED); [done|]. destruct (is_online _); [done|].
  destruct (_ =? FDFS_STORAGE_STATUS_IP_CHANGED); [done|]. destruct (negb _); [done|]. unfold bind at 1.
  destruct (_tracker_mem_add_storage conf p (Some new_ip) new_ip s) as [r s1] eqn:Eadd.
  destruct (add_storage_spec p (Some new_ip) new_ip s r s1) as (H1 & Hp1 & Hc & Hsid); [done|done|naive_solver|done..|].
  destruct r as [e|[j []]]; [done| |done]. destruct Hc as (Hname & Hactive & Hpaths & Hj & st & Hall & _).
  pose proof (heap_group_ok s1 p H1) as Hg1.
  apply get_storage_spec in Ei as [Hi Eo]; [|done]. specialize (Hact i eq_refl).
  unfold core, c_servers in *. cbn in Hname, Hactive, Hpaths, Hj, Hall.
  assert (in_use p (with_group p (exchange_ips conf i j old_ip new_ip) s1).2) as H2.
  { split; [|done]. apply with_group_ok; [done..| |done]. apply exchange_ok; [done|..].
    - rewrite Hall, length_app. lia.
    - rewrite Hall, Hj, length_app. cbn. lia.
    - lia.
    - unfold server_id, server. rewrite Hall, lookup_total_app_l by done. exact Eo.
    - destruct (Hsid j eq_refl) as [m Hm]. unfold storage_id_and_ips in Hm. rewrite Euse in Hm. by injection Hm.
    - by rewrite Hactive.
    - rewrite Hactive. intros Hin. apply (active_elem _ _ Hg) in Hin. lia. }
  assert (keeps (in_use p) (bind (tracker_write_to_changelog p j new_ip) (fun _ => save_files))) as Hk by used.
  apply (Hk _ H2).
Qed.

(** *** Statuses from other trackers. *)
Definition brief_ok (b : FDFSStorageBrief) : Prop := (length (b_id b) < 16)%nat /\ (length (b_ip_addr b) < 16)%nat.

Lemma sync_one_storage_keeps p b result : ids_short -> brief_ok b -> keeps (in_use p) (sync_one_storage conf p b result).
Proof.
  intros Hconf [H1 H2]. unfold sync_one_storage. apply keeps_if; [used|]. apply in_use_group. intros g Hg.
  destruct (tracker_mem_get_storage g (b_id b)) as [i|].
  - assert (keeps (in_use p) (bind (with_group p (fun g => inc_chg_count (with_server i (set_s_status (b_status b)) g))) (fun _ => ret result))) as Hc.
    { apply keeps_bind; [|intros ?; used]. apply in_use_with_group. intros h Hh.
      split; [apply inc_chg_count_ok, with_server_ok; [solve_tame|done]|done]. }
    cbn zeta. repeat (apply keeps_if; [by used|]). by used.
  - repeat (apply keeps_if; [by used|]). apply keeps_bind.
    + intros s [Hs Hp]. destruct (_tracker_mem_add_storage conf p (Some (b_id b)) (b_ip_addr b) s) as [r s'] eqn:E.
      apply add_storage_spec in E as (Hs' & Hp' & _); [done|done|done|naive_solver|done|done].
    + intros [e|[i []]]; used.
Qed.

Lemma sync_storages_keeps p l : ids_short -> Forall brief_ok l -> keeps (in_use p) (tracker_mem_sync_storages conf p l).
Proof.
  intros Hconf Hl. unfold tracker_mem_sync_storages. generalize 0. induction Hl as [|b l Hb Hl IH]; intros result; cbn; [used|].
  apply keeps_bind; [by apply sync_one_storage_keeps|]. intros r. apply IH.
Qed.

(** *** Sweeps over all groups. *)
Definition all_in_use (l : list nat) (s : TrackerMem) : Prop := state_ok s /\ Forall (fun p => p ∈ sorted_groups s) l.

Lemma all_in_use_groups s : state_ok s -> all_in_use (take (count s) (groups s)) s.
Proof. intros Hs. split; [done|]. apply Forall_forall. intros p Hp. by rewrite (ok_groups_perm s Hs). Qed.

(** [sorted_groups] is not changed. *)
Definition steady {A} (c : M TrackerMem A) : Prop := forall s, sorted_groups (c s).2 = sorted_groups s.

Lemma all_in_use_keeps {A} l p (c : M TrackerMem A) :
  p ∈ l -> steady c -> keeps (in_use p) c -> keeps (all_in_use l) c.
Proof.
  intros Hin Hst Hc s [Hs Hl]. pose proof Hl as Hl'. rewrite Forall_forall in Hl'.
  destruct (Hc s (conj Hs (Hl' p Hin))) as [H1 _]. split; [done|]. by rewrite Hst.
Qed.

Lemma steady_bind {A B} (c : M TrackerMem A) (k : A -> M TrackerMem B) : steady c -> (forall a, steady (k a)) -> steady (bind c k).
Proof. intros Hc Hk s. unfold bind. specialize (Hc s). destruct (c s) as [a s1]. by rewrite Hk. Qed.

Lemma steady_ret {A} (a : A) : steady (ret a).
Proof. done. Qed.
Lemma steady_gets {A} (f : TrackerMem -> A) : steady (gets f).
Proof. done. Qed.
Lemma steady_modify f : (forall s, sorted_groups (f s) = sorted_groups s) -> steady (modify f).
Proof. intros Hf s. apply Hf. Qed.
Lemma steady_syscall : steady syscall.
Proof. intros s. unfold syscall. by destruct (syscalls s). Qed.
Lemma steady_if {A} (b : bool) (c d : M TrackerMem A) : steady c -> steady d -> steady (if b then c else d).
Proof. by destruct b. Qed.

Ltac steadily := repeat first [apply steady_ret | apply steady_gets | apply steady_syscall | apply steady_modify; done |
  apply steady_if | apply steady_bind; [|intros ?]].

Lemma find_trunk_steady p save : steady (tracker_mem_find_trunk_server p save).
Proof.
  unfold tracker_mem_find_trunk_server. apply steady_bind; [done|intros g]. destruct (g_pStoreServer g) as [i|]; [|done].
  apply steady_bind; [done|]. intros [e|m]; [done|]. apply steady_bind; [intros s; by destruct (larger_binlog_spec g m i (g_active_servers g) s) as [-> _]|].
  intros j. unfold tracker_mem_do_set_trunk_server, tracker_set_trunk_server_and_log. by steadily.
Qed.

Lemma find_trunk_servers_keeps : keeps state_ok (tracker_mem_find_trunk_servers conf).
Proof.
  unfold tracker_mem_find_trunk_servers. apply keeps_bind; [apply keeps_gets|intros b]. apply keeps_if; [apply keeps_ret|].
  assert (forall l s, all_in_use l s -> state_ok (find_trunk_servers_of l s).2) as Hl.
  { induction l as [|p l IH]; intros s Hs; [apply Hs|]. cbn [find_trunk_servers_of]. unfold bind at 1, group at 1, gets at 1.
    assert (all_in_use l s) as Htail by (destruct Hs as [Hs Hl]; split; [done|by apply Forall_cons in Hl as [_ Hl]]).
    destruct (g_pTrunkServer _); [by apply IH|]. unfold bind.
    pose proof (all_in_use_keeps (p :: l) p _ (list_elem_of_here _ _) (find_trunk_steady p true) (find_trunk_keeps p true) s Hs) as H.
    destruct (tracker_mem_find_trunk_server p true s) as [r s']. cbn [snd] in H. apply IH. destruct H as [H Hl]. split; [done|by apply Forall_cons in Hl as [_ Hl]]. }
  intros s Hs. unfold bind at 1, gets at 1. unfold bind at 1.
  pose proof (Hl _ s (all_in_use_groups s Hs)) as H. destruct (find_trunk_servers_of _ s) as [r s']. cbn [snd] in H.
  by apply (state_ok_same s').
Qed.

(** A sweep is a loop over groups in use. *)
Lemma check_idle_keeps now l : keeps (all_in_use l) (check_idle conf now l).
Proof.
  assert (forall l s, all_in_use l s -> state_ok (check_idle conf now l s).2 /\ sorted_groups (check_idle conf now l s).2 = sorted_groups s) as H.
  { clear l. induction l as [|p l IH]; intros s Hs; cbn [check_idle]; [by destruct Hs|].
    set (f := fun g => foldl _ g _). rewrite (bind_eq _ _ s tt (with_group p f s).2) by done.
    assert (all_in_use (p :: l) (with_group p f s).2) as [H1 H2].
    { apply (all_in_use_keeps (p :: l) p); [apply list_elem_of_here|done|apply in_use_with_group|done].
      intros g Hg. split; [by apply deactivate_all_ok|apply deactivate_all_name]. }
    apply Forall_cons in H2 as [_ H2]. destruct (IH _ (conj H1 H2)) as [H3 H4]. split; [done|]. by rewrite H4. }
  intros s Hs. destruct (H l s Hs) as [H1 H2]. split; [done|]. rewrite H2. apply Hs.
Qed.

Lemma set_trunk_and_log_none p : keeps (in_use p) (tracker_set_trunk_server_and_log p None).
Proof. apply frame_in_use. intros c. by apply set_trunk_and_log_frame. Qed.

#[local] Hint Resolve set_trunk_and_log_none : keeps.

Lemma set_trunk_and_log_steady p o : steady (tracker_set_trunk_server_and_log p o).
Proof. unfold tracker_set_trunk_server_and_log. apply steady_bind; [done|intros _]. apply steady_bind; [done|intros g]. destruct o; steadily. Qed.

Lemma replace_trunk_server_keeps p : keeps (in_use p) (replace_trunk_server p).
Proof. unfold replace_trunk_server. used; [case_decide; used|]. apply in_use_with_group. intros h []; split; [by split|done]. Qed.

Lemma replace_trunk_server_steady p : steady (replace_trunk_server p).
Proof.
  unfold replace_trunk_server. apply steady_bind; [done|intros _]. apply steady_bind; [apply find_trunk_steady|intros _].
  apply steady_bind; [done|intros g]. apply steady_bind; [|intros _; steadily]. case_decide; [apply set_trunk_and_log_steady|steadily].
Qed.

Lemma all_in_use_tail p l s : all_in_use (p :: l) s -> all_in_use l s.
Proof. intros [Hs Hl]. split; [done|]. by apply Forall_cons in Hl as [_ Hl]. Qed.

Lemma check_trunk_servers_keeps now l s : all_in_use l s -> state_ok (check_trunk_servers conf now l s).2.
Proof.
  revert s. induction l as [|p l IH]; intros s Hs; [apply Hs|]. cbn [check_trunk_servers]. unfold bind at 1, group at 1, gets at 1.
  destruct (g_pTrunkServer (heap s !!! p)) as [i|].
  - cbn zeta. case_match; [|by apply IH, (all_in_use_tail p)].
    pose proof (all_in_use_keeps (p :: l) p _ (list_elem_of_here _ _) (replace_trunk_server_steady p) (replace_trunk_server_keeps p) s Hs) as Hk.
    unfold bind at 1. destruct (replace_trunk_server p s) as [r s']. apply IH. by apply (all_in_use_tail p).
  - pose proof (all_in_use_keeps (p :: l) p _ (list_elem_of_here _ _) (find_trunk_steady p true) (find_trunk_keeps p true) s Hs) as Hk.
    unfold bind at 1. destruct (tracker_mem_find_trunk_server p true s) as [r s']. apply IH. by apply (all_in_use_tail p).
Qed.

Lemma check_alive_keeps : keeps state_ok (tracker_mem_check_alive conf).
Proof.
  intros s Hs. unfold tracker_mem_check_alive. unfold bind at 1, gets at 1. unfold bind at 1, gets at 1.
  pose proof (check_idle_keeps (g_current_time s) _ s (all_in_use_groups s Hs)) as H1. unfold bind at 1.
  destruct (check_idle conf (g_current_time s) _ s) as [[] s1]. cbn [snd] in H1. unfold bind at 1, gets at 1.
  destruct (_ || _); [apply H1|]. unfold bind. pose proof (check_trunk_servers_keeps (g_current_time s) _ s1 H1) as H2.
  destruct (check_trunk_servers _ _ _ s1) as [[] s2]. exact H2.
Qed.

(** The start of the tracker. *)
Lemma init_groups_ok s : heap s = ∅ -> state_ok (tracker_mem_init_groups s).2.
Proof.
  intros Hh. unfold tracker_mem_init_groups, bind, modify. pose proof (malloc_groups_spec TRACKER_MEM_ALLOC_ONCE s) as Hm.
  destruct (malloc_groups _ s) as [l s1]. destruct Hm as (Hl & Hn & _ & Hz & Hother & _).
  split; cbn; try done; try lia; [|apply Forall_forall|constructor|rewrite drop_0; apply Forall_forall]; rewrite ?Forall_forall in Hz.
  - intros p g Hg. destruct (decide (p ∈ l)) as [Hin|Hin]; [rewrite (Hz p Hin) in Hg; simplify_eq; apply zero_group_ok|].
    rewrite Hother, Hh, lookup_empty in Hg by done. done.
  - intros p Hp. apply elem_of_dom. by rewrite (Hz p Hp).
  - intros p Hp. by rewrite lookup_total_alt, (Hz p Hp).
Qed.
End ops.
