(* ===== verification/TrackerService.v ===== *)
(** * Requests of storage servers ([tracker/tracker_service.c]).

    A handler gets the body of a request behind the header and answers with a
    status and a body; the header is put around it by [tracker_deal_task].  A
    connection has a record of its own, [TrackerClientInfo], filled in by the
    request to join. *)

From S2P Require Import Prelude FastCommon SharedFunc SortedArray StorageIds ServerInfo TrackerTypes TrackerMem.

Definition FDFS_CHANGE_FLAG_TRACKER_LEADER : Z := 1.
Definition FDFS_CHANGE_FLAG_TRUNK_SERVER : Z := 2.
Definition FDFS_CHANGE_FLAG_GROUP_SERVER : Z := 4.
Definition TRACKER_SYNC_TO_FILE_FREQ : Z := 1000.
Definition TRACKER_MAX_PACKAGE_SIZE : Z := 8 * 1024.
Definition sizeof_TrackerHeader : Z := 10.
Definition sizeof_TrackerStorageSyncReqBody : nat := 24.
Definition sizeof_TrackerStatReportReqBody : nat := 16.
Definition sizeof_FDFSStorageStatBuff : nat := 348.

(** [pGroup], [pStorage] and [chg_count.tracker_leader]. *)
Record TrackerClientInfo := mkClient {
  ci_pGroup : option nat;
  ci_pStorage : option nat;
  ci_tracker_leader : Z;
}.

Local Open Scope c_scope.

(** Status and body.  What the code leaves behind the terminator of a string in
    an answer is taken as zeros. *)
Definition reply : Type := Z * bytes.
Definition answer (status : Z) : M TrackerMem reply := ret (status, []).

(** A field of fixed width in a body. *)
Definition pad (n : nat) (b : bytes) : bytes := take n (b ++ replicate n 0).

(** The first [k] records of [size] bytes. *)
Fixpoint records (size k : nat) (b : bytes) : list bytes :=
  match k with
  | O => []
  | S k' => take size b :: records size k' (drop size b)
  end.

(** [FDFS_GROUP_NAME_MAX_LEN] bytes, then an id of at most 15. *)
Definition body_group_name (body : bytes) : bytes := cstr (take 16 body).
Definition body_id (body : bytes) : bytes := cstr (take 15 (drop 16 body)).

Section service.
Context `{FastCommon} (conf : TrackerMemConf).
(** The peer of the connection, the leader in [g_tracker_servers] and the
    size of the buffer of a task. *)
Context (client_ip : bytes) (leader : option ConnectionInfo) (task_size : Z).

Definition sizeof_FDFSStorageBrief : nat := 21 + Z.to_nat (IP_ADDRESS_SIZE conf).

Definition brief_bytes (status port : Z) (id ip : bytes) : bytes :=
  uint8 status :: int2buff port ++ pad 16 id ++ pad (Z.to_nat (IP_ADDRESS_SIZE conf)) ip.

(** [status], [id] and [ip_addr] of a brief in a request, the strings ended by
    [tracker_mem_sync_storages]; the status is a [char]. *)
Definition brief_of_bytes (b : bytes) : FDFSStorageBrief :=
  {| b_status := int8 (hd 0 b); b_id := cstr (take 15 (drop 5 b));
     b_ip_addr := cstr (take (Z.to_nat (IP_ADDRESS_SIZE conf) - 1) (drop 21 b)) |}.

Definition server_brief (g : FDFSGroupInfo) (i : nat) : bytes :=
  brief_bytes (s_status (server g i)) (g_storage_port g) (server_id g i)
    (fdfs_get_ipaddr_by_peer_ip (s_ip_addrs (server g i)) client_ip).

Definition in_group {A} (name : bytes) (k : nat -> M TrackerMem (Z * A)) (none : A) : M TrackerMem (Z * A) :=
  let! found := gets (tracker_mem_get_group_ex name) in
  match found with
  | None => ret (ENOENT, none)
  | Some p => k p
  end.

(** ** What changed since the last answer. *)
Definition leader_brief : bytes :=
  match leader with
  | None => replicate sizeof_FDFSStorageBrief 0
  | Some conn => brief_bytes 0 (port conn) (snprintf FDFS_STORAGE_ID_MAX_SIZE (ip_addr conn)) (ip_addr conn)
  end.

Definition leader_change (c : TrackerClientInfo) : M TrackerMem (TrackerClientInfo * Z * bytes) :=
  let! n := gets g_tracker_leader_chg_count in
  if ci_tracker_leader c =? n then ret (c, 0, [])
  else ret (mkClient (ci_pGroup c) (ci_pStorage c) n, FDFS_CHANGE_FLAG_TRACKER_LEADER, leader_brief).

Definition trunk_change (p i : nat) : M TrackerMem (Z * bytes) :=
  let! g := group p in
  if s_trunk_chg_count (server g i) =? g_trunk_chg_count g then ret (0, [])
  else
    with_group p (with_server i (set_s_trunk_chg_count (g_trunk_chg_count g))) ;;
    ret (FDFS_CHANGE_FLAG_TRUNK_SERVER,
         match g_pTrunkServer g with Some k => server_brief g k | None => replicate sizeof_FDFSStorageBrief 0 end).

Definition group_change (p i : nat) : M TrackerMem (Z * bytes) :=
  let! g := group p in
  if s_chg_count (server g i) =? g_chg_count g then ret (0, [])
  else
    with_group p (with_server i (set_s_chg_count (g_chg_count g))) ;;
    ret (FDFS_CHANGE_FLAG_GROUP_SERVER, mjoin (server_brief g <$> g_sorted_servers g)).

(** Called for a client that has joined. *)
Definition tracker_check_and_sync (c : TrackerClientInfo) (status : Z) : M TrackerMem (TrackerClientInfo * reply) :=
  if negb (status =? 0) then ret (c, (status, []))
  else
    match ci_pGroup c, ci_pStorage c with
    | Some p, Some i =>
        let! self := gets g_if_leader_self in
        if (self : bool) then
          let! r1 := leader_change c in
          let! r2 := trunk_change p i in
          let! r3 := group_change p i in
          ret (r1.1.1, (status, Z.lor (Z.lor r1.1.2 r2.1) r3.1 :: r1.2 ++ r2.2 ++ r3.2))
        else ret (c, (status, [0]))
    | _, _ => ret (c, (status, []))
    end.

(** ** The changelog. *)

(** [open], [lseek] and [read] of the changelog file: the bytes or an error. *)
Definition read_changelog (offset chg_len : Z) : M TrackerMem (Z + bytes) :=
  let! e := syscall in
  if negb (e =? 0) then ret (inl e)
  else
    let! e := (if 0 <? offset then syscall else ret 0) in
    if negb (e =? 0) then ret (inl e)
    else
      let! e := syscall in
      let! log := gets changelog in
      let data := take (Z.to_nat chg_len) (drop (Z.to_nat offset) log) in
      if negb (e =? 0) then ret (inl e)
      else if negb (Z.of_nat (length data) =? chg_len) then ret (inl EIO)
      else ret (inr data).

Definition tracker_changelog_response (p i : nat) : M TrackerMem reply :=
  let! changelog_fsize := gets g_changelog_fsize in
  let! g := group p in
  let offset := s_changelog_offset (server g i) in
  let chg_len := Z.max 0 (int32 (changelog_fsize - offset)) in
  if chg_len =? 0 then answer 0
  else
    let chg_len := if sizeof_TrackerHeader + TRACKER_MAX_PACKAGE_SIZE <? chg_len
      then TRACKER_MAX_PACKAGE_SIZE - sizeof_TrackerHeader else chg_len in
    let! r := read_changelog offset chg_len in
    match r with
    | inl e => answer e
    | inr data =>
        with_group p (with_server i (set_s_changelog_offset (offset + chg_len))) ;;
        save_files ;;
        ret (0, data)
    end.

Definition tracker_deal_changelog_req (c : TrackerClientInfo) (body : bytes) : M TrackerMem reply :=
  match ci_pGroup c, ci_pStorage c with
  | Some p, Some i =>
      if negb (length body =? 0)%nat then answer EINVAL
      else tracker_changelog_response p i
  | _, _ =>
      if negb (length body =? 32)%nat then answer EINVAL
      else
        in_group (body_group_name body) (fun p =>
          let! g := group p in
          match tracker_mem_get_storage g (body_id body) with
          | None => answer ENOENT
          | Some i => tracker_changelog_response p i
          end) []
  end.

(** ** Trunk files. *)
Definition tracker_deal_get_trunk_fid (p : nat) (body : bytes) : M TrackerMem reply :=
  if negb (length body =? 0)%nat then answer EINVAL
  else let! g := group p in ret (0, int2buff (g_current_trunk_file_id g)).

Definition tracker_deal_report_trunk_fid (p i : nat) (body : bytes) : M TrackerMem reply :=
  if negb (length body =? 4)%nat then answer EINVAL
  else
    let current_trunk_fid := buff2int body in
    if current_trunk_fid <? 0 then answer EINVAL
    else
      let! g := group p in
      if negb (bool_decide (g_pTrunkServer g = Some i)) then answer EINVAL
      else if g_current_trunk_file_id g <? current_trunk_fid then
        with_group p (set_g_current_trunk_file_id current_trunk_fid) ;;
        let! e := save_files in
        answer e
      else answer 0.

(** ** The group for the next upload. *)
Definition tracker_check_reserved_space (g : FDFSGroupInfo) : bool :=
  fdfs_check_reserved_space (g_total_mb g) (g_free_mb g) (g_storage_reserved_space conf).
Definition tracker_check_reserved_space_trunk (g : FDFSGroupInfo) : bool :=
  fdfs_check_reserved_space_trunk (g_total_mb g) (g_free_mb g) (g_trunk_free_mb g) (g_storage_reserved_space conf).
Definition tracker_check_reserved_space_path (total_mb free_mb avg_mb : Z) : bool :=
  fdfs_check_reserved_space_path total_mb free_mb avg_mb (g_storage_reserved_space conf).

(** The entry [k] of [sorted_groups]. *)
Definition sorted_group (s : TrackerMem) (k : nat) : FDFSGroupInfo := heap s !!! (sorted_groups s !!! k).

Definition has_active (g : FDFSGroupInfo) : bool := (0 <? length (g_active_servers g))%nat.

(** The first entry with the largest value among the groups with active
    servers. *)
Definition ppMaxGroup (value : FDFSGroupInfo -> Z) (s : TrackerMem) : option nat :=
  foldl (fun best k =>
    if has_active (sorted_group s k) then
      match best with
      | None => Some k
      | Some m => if value (sorted_group s m) <? value (sorted_group s k) then Some k else best
      end
    else best) None (seq 0 (length (sorted_groups s))).

Definition tracker_find_max_free_space_group (s : TrackerMem) : TrackerMem :=
  if negb (store_lookup conf =? FDFS_STORE_LOOKUP_LOAD_BALANCE) then s
  else
    match ppMaxGroup g_free_mb s with
    | None => s
    | Some k =>
        if tracker_check_reserved_space (sorted_group s k) || negb (g_if_use_trunk_file conf)
        then set_current_write_group (Z.of_nat k) s
        else match ppMaxGroup g_trunk_free_mb s with
             | None => s
             | Some k => set_current_write_group (Z.of_nat k) s
             end
    end.

Definition tracker_find_min_free_space (g : FDFSGroupInfo) : FDFSGroupInfo :=
  match g_active_servers g with
  | [] => g
  | i :: l =>
      foldl (fun g j => if s_free_mb (server g j) <? g_free_mb g
                        then set_g_free_mb (s_free_mb (server g j)) (set_g_total_mb (s_total_mb (server g j)) g) else g)
        (set_g_free_mb (s_free_mb (server g i)) (set_g_total_mb (s_total_mb (server g i)) g)) l
  end.

Definition tracker_deal_report_trunk_free_space (p i : nat) (body : bytes) : M TrackerMem reply :=
  if negb (length body =? 8)%nat then answer EINVAL
  else
    let trunk_free_space := buff2long body in
    if trunk_free_space <? 0 then answer EINVAL
    else
      let! g := group p in
      if negb (bool_decide (g_pTrunkServer g = Some i)) then answer EINVAL
      else
        with_group p (set_g_trunk_free_mb trunk_free_space) ;;
        modify tracker_find_max_free_space_group ;;
        answer 0.

(** ** Statuses. *)
Definition tracker_deal_storage_replica_chg (p : nat) (body : bytes) : M TrackerMem reply :=
  let n := length body in
  if (n =? 0)%nat || negb (n mod sizeof_FDFSStorageBrief =? 0)%nat then answer EINVAL
  else
    let server_count := (n / sizeof_FDFSStorageBrief)%nat in
    if (FDFS_MAX_SERVERS_EACH_GROUP <? server_count)%nat then answer EINVAL
    else
      let! self := gets g_if_leader_self in
      if (self : bool) then answer 0
      else
        let! e := tracker_mem_sync_storages conf p (brief_of_bytes <$> records sizeof_FDFSStorageBrief server_count body) in
        answer e.

Definition tracker_deal_storage_report_status (body : bytes) : M TrackerMem reply :=
  if negb (length body =? 16 + sizeof_FDFSStorageBrief)%nat then answer EINVAL
  else
    in_group (body_group_name body) (fun p =>
      let! e := tracker_mem_sync_storages conf p [brief_of_bytes (drop 16 body)] in
      answer e) [].

Definition FDFS_IS_AVAILABLE_STATUS (status : Z) : bool :=
  (status =? FDFS_STORAGE_STATUS_OFFLINE) || (status =? FDFS_STORAGE_STATUS_ONLINE) || (status =? FDFS_STORAGE_STATUS_ACTIVE).

Definition tracker_deal_storage_change_status (p i : nat) (body : bytes) : M TrackerMem reply :=
  if negb (length body =? 1)%nat then answer EINVAL
  else
    let! g := group p in
    let old_status := s_status (server g i) in
    let new_status := int8 (hd 0 body) in
    if (old_status =? new_status) || (FDFS_IS_AVAILABLE_STATUS old_status && FDFS_IS_AVAILABLE_STATUS new_status) then answer 0
    else
      let new_status := if (new_status =? FDFS_STORAGE_STATUS_ONLINE) || (new_status =? FDFS_STORAGE_STATUS_ACTIVE)
        then FDFS_STORAGE_STATUS_OFFLINE else new_status in
      with_group p (with_server i (set_s_status new_status)) ;;
      save_files ;;
      answer 0.

(** The address in a request, or that of the client. *)
Definition body_ip (body : bytes) : bytes :=
  if (length body =? 16)%nat then client_ip
  else cstr (take (Z.to_nat (IP_ADDRESS_SIZE conf) - 1) (drop 16 body)).

Definition tracker_deal_server_get_storage_status (body : bytes) : M TrackerMem reply :=
  if (length body <? 16)%nat then answer EINVAL
  else
    in_group (body_group_name body) (fun p =>
      let! g := group p in
      match tracker_mem_get_storage_by_ip conf g (body_ip body) with
      | None => answer ENOENT
      | Some i =>
          let st := server g i in
          ret (0, brief_bytes (s_status st) (g_storage_port g) (s_id st) (address (ips (s_ip_addrs st) !!! 0%nat)))
      end) [].

(** ** Ids and addresses. *)
Definition tracker_deal_get_storage_id (body : bytes) : M TrackerMem reply :=
  if (length body <? 16)%nat then answer EINVAL
  else if g_use_storage_id conf then
    match fdfs_get_storage_id_by_ip (storage_ids conf) (body_group_name body) (body_ip body) with
    | None => answer ENOENT
    | Some info => ret (0, si_id info)
    end
  else ret (0, body_ip body).

Definition fdfs_multi_ips_to_string (ip_addrs : FDFSMultiIP) : bytes := join (ch ",") (address <$> ips ip_addrs).

Definition tracker_deal_get_my_ip (body : bytes) : M TrackerMem reply :=
  if negb (length body =? 16)%nat then answer EINVAL
  else if g_use_storage_id conf then
    match fdfs_get_storage_id_by_ip (storage_ids conf) (body_group_name body) client_ip with
    | None => ret (0, client_ip)
    | Some info => ret (0, fdfs_multi_ips_to_string (si_ip_addrs info))
    end
  else ret (0, client_ip).

Definition tracker_deal_get_storage_group_name (body : bytes) : M TrackerMem reply :=
  if negb (g_use_storage_id conf) then answer EOPNOTSUPP
  else if (length body <? 4)%nat then answer EINVAL
  else
    let ip_len := (length body - 4)%nat in
    if (0 <? ip_len)%nat && (Z.to_nat (IP_ADDRESS_SIZE conf) <=? ip_len)%nat then answer ENAMETOOLONG
    else
      let ip := if (ip_len =? 0)%nat then client_ip else cstr (take ip_len body) in
      match fdfs_get_storage_id_by_ip_port (storage_ids conf) ip (buff2int (drop ip_len body)) with
      | None => answer ENOENT
      | Some info => ret (0, pad 16 (si_group_name info))
      end.

(** A line of the answer of [tracker_deal_fetch_storage_ids]. *)
Definition id_line (info : FDFSStorageIdInfo) : bytes :=
  si_id info ++ 32 :: si_group_name info ++ 32 :: fdfs_multi_ips_to_string (si_ip_addrs info) ++
  (if 0 <? si_port info then ch ":" :: fmt_d (si_port info) else []) ++ [10].

(** The lines that fit when [used] bytes of the buffer are taken. *)
Fixpoint id_lines (used : Z) (l : list FDFSStorageIdInfo) : list bytes :=
  match l with
  | [] => []
  | info :: l' =>
      if task_size - 64 <? used then []
      else id_line info :: id_lines (used + Z.of_nat (length (id_line info))) l'
  end.

Definition tracker_deal_fetch_storage_ids (body : bytes) : M TrackerMem reply :=
  let ids := by_id (storage_ids conf) in
  let n := Z.of_nat (length ids) in
  if negb (g_use_storage_id conf) then answer EOPNOTSUPP
  else if negb (length body =? 4)%nat then answer EINVAL
  else
    let start_index := buff2int body in
    if (start_index <? 0) || (n <=? start_index) then answer EINVAL
    else
      let lines := id_lines (sizeof_TrackerHeader + 8) (drop (Z.to_nat start_index) ids) in
      ret (0, int2buff n ++ int2buff (Z.of_nat (length lines)) ++ mjoin lines).

Definition tracker_deal_active_test (body : bytes) : M TrackerMem reply :=
  if negb (length body =? 0)%nat then answer EINVAL else answer 0.

(** ** Requests of the operator. *)
Definition tracker_deal_server_delete_group (body : bytes) : M TrackerMem reply :=
  if negb (length body =? 16)%nat then answer EINVAL
  else
    let! e := tracker_mem_delete_group (body_group_name body) in
    answer e.

Definition tracker_deal_server_delete_storage (body : bytes) : M TrackerMem reply :=
  if (length body <=? 16)%nat || (32 <=? length body)%nat then answer EINVAL
  else
    in_group (body_group_name body) (fun p =>
      let! e := tracker_mem_delete_storage p (body_id body) in
      answer e) [].

Definition tracker_deal_server_set_trunk_server (body : bytes) : M TrackerMem reply :=
  if (length body <? 16)%nat || (32 <=? length body)%nat then answer EINVAL
  else
    in_group (body_group_name body) (fun p =>
      let! r := tracker_mem_set_trunk_server conf p (body_id body) in
      let! g := group p in
      match r with
      | (result, Some i) => if result =? 0 then ret (0, server_id g i ++ [0]) else answer result
      | (result, None) => answer (if result =? 0 then ENOENT else result)
      end) [].

(** A cluster with server ids refuses the request and sends it back. *)
Definition tracker_deal_storage_report_ip_changed (body : bytes) : M TrackerMem reply :=
  let size := Z.to_nat (IP_ADDRESS_SIZE conf) in
  if g_use_storage_id conf then ret (EOPNOTSUPP, body)
  else if negb (length body =? 16 + 2 * size)%nat then answer EINVAL
  else
    let pOldIpAddr := cstr (take (size - 1) (drop 16 body)) in
    let pNewIpAddr := cstr (take (size - 1) (drop (16 + size) body)) in
    in_group (body_group_name body) (fun p =>
      if negb (memcmp pNewIpAddr client_ip =? 0) then answer EINVAL
      else
        let! e := tracker_mem_storage_ip_changed conf p pOldIpAddr pNewIpAddr in
        answer e) [].

(** ** The source of the first synchronisation of a server. *)
Definition sync_req_body (src_id : bytes) (until_timestamp : Z) : bytes := pad 16 src_id ++ long2buff until_timestamp.

(** Without a storage server in the connection the handler follows a null
    pointer: [None].  [sync_until_timestamp] is an [int]. *)
Definition tracker_deal_storage_sync_notify (c : TrackerClientInfo) (body : bytes) : M TrackerMem (option reply) :=
  let answer e := ret (Some (e, [])) in
  if negb (length body =? sizeof_TrackerStorageSyncReqBody)%nat then answer EINVAL
  else
    match ci_pGroup c, ci_pStorage c with
    | Some p, Some i =>
        let! g := group p in
        let st := server g i in
        let set_status x := with_group p (fun g => inc_chg_count (with_server i (set_s_status x) g)) in
        let init := s_status st =? FDFS_STORAGE_STATUS_INIT in
        if hd 0 body =? 0 then
          (if init || (s_status st =? FDFS_STORAGE_STATUS_WAIT_SYNC) || (s_status st =? FDFS_STORAGE_STATUS_SYNCING)
           then set_status FDFS_STORAGE_STATUS_ONLINE ;; save_files else ret 0) ;;
          answer 0
        else
          (if init then set_status FDFS_STORAGE_STATUS_WAIT_SYNC else ret tt) ;;
          match s_psync_src_server st with
          | Some _ => (if init then save_files else ret 0) ;; answer 0
          | None =>
              let src := tracker_mem_get_storage g (cstr (take 15 body)) in
              with_group p (with_server i (set_s_psync_src_server src)) ;;
              let! g := group p in
              let src_status := status_of g src in
              if bool_decide (src = None) || (src_status =? FDFS_STORAGE_STATUS_DELETED) ||
                 (src_status =? FDFS_STORAGE_STATUS_IP_CHANGED) then answer ENOENT
              else
                with_group p (with_server i (set_s_sync_until_timestamp (int32 (buff2long (drop 16 body))))) ;;
                save_files ;;
                answer 0
          end
    | _, _ => ret None
    end.

Definition may_be_source (status : Z) : bool :=
  FDFS_IS_AVAILABLE_STATUS status || (status =? FDFS_STORAGE_STATUS_RECOVERY).

Definition tracker_deal_storage_sync_src_req (body : bytes) : M TrackerMem reply :=
  if negb (length body =? 32)%nat then answer EINVAL
  else
    in_group (body_group_name body) (fun p =>
      let! g := group p in
      match tracker_mem_get_storage g (body_id body) with
      | None => answer ENOENT
      | Some i =>
          let status := s_status (server g i) in
          if (status =? FDFS_STORAGE_STATUS_INIT) || (status =? FDFS_STORAGE_STATUS_DELETED) ||
             (status =? FDFS_STORAGE_STATUS_IP_CHANGED) then answer ENOENT
          else
            match s_psync_src_server (server g i) with
            | None => answer 0
            | Some j =>
                if may_be_source (s_status (server g j))
                then ret (0, sync_req_body (server_id g j) (s_sync_until_timestamp (server g i)))
                else
                  with_group p (with_server i (set_s_psync_src_server None)) ;;
                  save_files ;;
                  answer 0
            end
      end) [].

(** The other servers that can be a source. *)
Definition source_count (g : FDFSGroupInfo) (i : nat) : nat :=
  length (filter (fun j => server_id g j <> server_id g i /\ FDFS_IS_AVAILABLE_STATUS (s_status (server g j)) = true)
    (seq 0 (length (g_all_servers g)))).

Definition tracker_deal_storage_sync_dest_req (p i : nat) (body : bytes) : M TrackerMem reply :=
  let! sync_until_timestamp := gets (fun s => int32 (g_current_time s)) in
  let! g := group p in
  let set_server f := with_group p (fun g => inc_chg_count (with_server i f g)) ;; save_files in
  if negb (length body =? 0)%nat then answer EINVAL
  else if (length (g_all_servers g) <=? 1)%nat || (source_count g i =? 0)%nat then
    set_server (set_s_status FDFS_STORAGE_STATUS_ONLINE) ;;
    answer 0
  else
    match tracker_get_group_sync_src_server g i with
    | None => answer ENOENT
    | Some j =>
        set_server (fun st => set_s_status FDFS_STORAGE_STATUS_WAIT_SYNC
          (set_s_sync_until_timestamp sync_until_timestamp (set_s_psync_src_server (Some j) st))) ;;
        ret (0, sync_req_body (server_id g j) sync_until_timestamp)
    end.

(** As [tracker_deal_storage_sync_notify], [None] is a null pointer. *)
Definition tracker_deal_storage_sync_dest_query (c : TrackerClientInfo) (body : bytes) : M TrackerMem (option reply) :=
  if negb (length body =? 0)%nat then ret (Some (EINVAL, []))
  else
    match ci_pGroup c, ci_pStorage c with
    | Some p, Some i =>
        let! g := group p in
        match s_psync_src_server (server g i) with
        | Some j => ret (Some (0, sync_req_body (server_id g j) (s_sync_until_timestamp (server g i))))
        | None => ret (Some (0, []))
        end
    | _, _ => ret None
    end.

(** ** Reports. *)

(** An id and a time of [tracker_deal_storage_sync_report]. *)
Definition sync_record (b : bytes) : bytes * Z := (cstr (take 15 b), buff2int (drop 16 b)).

(** The index of the source of a record that counts. *)
Definition sync_source (g : FDFSGroupInfo) (dest_index : nat) (r : bytes * Z) : option nat :=
  if r.2 <=? 0 then None
  else
    match tracker_mem_get_storage g r.1 with
    | None => None
    | Some src_index =>
        if negb (s_status (server g src_index) =? FDFS_STORAGE_STATUS_ACTIVE) || (src_index =? dest_index)%nat then None
        else Some src_index
    end.

Definition set_last_sync_timestamp (src_index dest_index : nat) (t : Z) (g : FDFSGroupInfo) : FDFSGroupInfo :=
  set_g_last_sync_timestamps (alter (<[dest_index := t]>) src_index (g_last_sync_timestamps g)) g.

(** The loop over the records: [f] is the running minimum or maximum. *)
Fixpoint sync_records (f : Z -> Z -> Z) (p dest_index : nat) (acc : Z) (l : list (bytes * Z)) : M TrackerMem Z :=
  match l with
  | [] => ret acc
  | r :: l' =>
      let! g := group p in
      match sync_source g dest_index r with
      | None => sync_records f p dest_index acc l'
      | Some src_index =>
          with_group p (set_last_sync_timestamp src_index dest_index r.2) ;;
          sync_records f p dest_index (f acc r.2) l'
      end
  end.

Definition min_synced (min_synced_timestamp t : Z) : Z :=
  if min_synced_timestamp =? 0 then t else if t <? min_synced_timestamp then t else min_synced_timestamp.
Definition max_synced (max_synced_timestamp t : Z) : Z := if max_synced_timestamp <? t then t else max_synced_timestamp.

Definition set_last_synced (t : Z) (st : FDFSStorageDetail) : FDFSStorageDetail :=
  set_s_stat (mkStat (connection (s_stat st)) (stat_counters (s_stat st)) t (last_heart_beat_time (s_stat st))) st.

(** [++count % TRACKER_SYNC_TO_FILE_FREQ == 0]. *)
Definition save_now (count : Z) : bool := Z.rem count TRACKER_SYNC_TO_FILE_FREQ =? 0.

Definition tracker_deal_storage_sync_report (c : TrackerClientInfo) (p i : nat) (body : bytes) : M TrackerMem (TrackerClientInfo * reply) :=
  let n := length body in
  if (n =? 0)%nat || negb (n mod 20 =? 0)%nat then ret (c, (EINVAL, []))
  else
    let! g := group p in
    let! status :=
      (if tracker_mem_get_storage_index g i <? 0 then ret 0
       else
         let l := sync_record <$> records 20 (n / 20) body in
         (if store_server conf =? FDFS_STORE_SERVER_ROUND_ROBIN then
            let! t := sync_records min_synced p i 0 l in
            if 0 <? t then with_group p (with_server i (set_last_synced t)) else ret tt
          else
            let! t := sync_records max_synced p i (int32 (last_synced_timestamp (s_stat (server g i)))) l in
            with_group p (with_server i (set_last_synced t))) ;;
         modify (fun s => set_g_storage_sync_time_chg_count (int32 (g_storage_sync_time_chg_count s + 1)) s) ;;
         let! n := gets g_storage_sync_time_chg_count in
         if save_now n then save_files else ret 0) in
    tracker_check_and_sync c status.

(** One disk of [tracker_deal_storage_df_report].  A [current_write_path] that
    is left from more disks points behind the array, to memory that is not
    modelled: 0 here. *)
Definition report_path (k : nat) (b : bytes) (st : FDFSStorageDetail) : FDFSStorageDetail :=
  let total := buff2long b in
  let free := buff2long (drop 8 b) in
  let st := set_s_path_total_mbs (<[k := total]> (s_path_total_mbs st)) st in
  let st := set_s_path_free_mbs (<[k := free]> (s_path_free_mbs st)) st in
  let st := set_s_total_mb (int64 (s_total_mb st + total)) st in
  let st := set_s_free_mb (int64 (s_free_mb st + free)) st in
  if (store_path conf =? FDFS_STORE_PATH_LOAD_BALANCE) && (znth 0 (s_path_free_mbs st) (s_current_write_path st) <? free)
  then set_s_current_write_path (Z.of_nat k) st else st.

Definition report_paths (l : list bytes) (st : FDFSStorageDetail) : FDFSStorageDetail :=
  foldl (fun st '(k, b) => report_path k b st) (set_s_free_mb 0 (set_s_total_mb 0 st)) (imap pair l).

Definition tracker_deal_storage_df_report (c : TrackerClientInfo) (p i : nat) (body : bytes) : M TrackerMem (TrackerClientInfo * reply) :=
  let! g := group p in
  let n := Z.to_nat (g_store_path_count g) in
  if negb (length body =? sizeof_TrackerStatReportReqBody * n)%nat then ret (c, (EINVAL, []))
  else
    let old_free_mb := s_free_mb (server g i) in
    with_group p (with_server i (report_paths (records sizeof_TrackerStatReportReqBody n body))) ;;
    with_group p (fun g =>
      let st := server g i in
      if (g_free_mb g =? 0) || (s_free_mb st <? g_free_mb g) then set_g_free_mb (s_free_mb st) (set_g_total_mb (s_total_mb st) g)
      else if old_free_mb <? s_free_mb st then tracker_find_min_free_space g
      else g) ;;
    modify tracker_find_max_free_space_group ;;
    tracker_mem_active_store_server conf p i ;;
    tracker_check_and_sync c 0.

Definition stat_of_bytes (b : bytes) (st : FDFSStorageStat) : FDFSStorageStat :=
  mkStat (buff2int b, buff2int (drop 4 b), buff2int (drop 8 b)) (buff2long <$> records 8 40 (drop 12 b))
    (last_synced_timestamp st) (last_heart_beat_time st).

Definition set_last_heart_beat (t : Z) (st : FDFSStorageDetail) : FDFSStorageDetail :=
  set_s_stat (mkStat (connection (s_stat st)) (stat_counters (s_stat st)) (last_synced_timestamp (s_stat st)) t) st.

Definition tracker_deal_storage_beat (c : TrackerClientInfo) (p i : nat) (body : bytes) : M TrackerMem (TrackerClientInfo * reply) :=
  let! status :=
    (if (length body =? 0)%nat then ret 0
     else if negb (length body =? sizeof_FDFSStorageStatBuff)%nat then ret EINVAL
     else
       with_group p (with_server i (fun st => set_s_stat (stat_of_bytes body (s_stat st)) st)) ;;
       modify (fun s => set_g_storage_stat_chg_count (int32 (g_storage_stat_chg_count s + 1)) s) ;;
       let! n := gets g_storage_stat_chg_count in
       if save_now n then save_files else ret 0) in
  (if status =? 0 then
     tracker_mem_active_store_server conf p i ;;
     let! now := gets g_current_time in
     with_group p (with_server i (set_last_heart_beat now))
   else ret tt) ;;
  tracker_check_and_sync c status.
End service.
