(* ===== verification/TrackerJoin.v ===== *)
(** * A storage server joins ([tracker_deal_storage_join] and
    [tracker_mem_add_group_and_storage]).

    The request is checked field by field, then the group and the server are
    added or found, and their ports, number of disks and subdirectories are
    brought in line or refused. *)

From S2P Require Import Prelude FastCommon SharedFunc SortedArray StorageIds ServerInfo TrackerTypes TrackerMem TrackerService.

Definition EFAULT : Z := 14.
Definition FDFS_MAX_TRACKERS : Z := 16.
Definition FDFS_TRACKER_SERVER_DEF_PORT : Z := 22122.
Definition FDFS_VERSION_SIZE : Z := 6.
Definition FDFS_DOMAIN_NAME_MAX_SIZE : Z := 128.

Record FDFSStorageJoinBody := mkJoinBody {
  j_storage_port : Z;
  j_storage_http_port : Z;
  j_store_path_count : Z;
  j_subdir_count_per_path : Z;
  j_upload_priority : Z;
  j_join_time : Z;
  j_up_time : Z;
  j_version : bytes;
  j_group_name : bytes;
  j_domain_name : bytes;
  j_init_flag : Z;
  j_status : Z;
  j_tracker_servers : list TrackerServerInfo;
}.

Local Open Scope c_scope.

Definition is_name_char (c : Z) : bool :=
  ((ch "a" <=? c) && (c <=? ch "z")) || ((ch "A" <=? c) && (c <=? ch "Z")) || ((ch "0" <=? c) && (c <=? ch "9")).

Definition fdfs_validate_group_name (group_name : bytes) : Z :=
  match group_name with
  | [] => EINVAL
  | _ => if forallb is_name_char group_name then 0 else EINVAL
  end.

(** [strrchr(s, c)]: what is before the last [c] and behind it. *)
Definition strrchr (c : Z) (s : bytes) : option (bytes * bytes) :=
  '(a, b) ← strchr c (reverse s); Some (reverse b, reverse a).

Section join.
Context `{FastCommon} (conf : TrackerMemConf).

(** [fdfs_parse_server_info_ex] without name resolution. *)
Definition fdfs_parse_server_info (server_str : bytes) (default_port : Z) : TrackerServerInfo :=
  let '(hosts, port) := match strrchr (ch ":") server_str with Some (h, p) => (h, atoi p) | None => (server_str, default_port) end in
  (fun h => mkConn (snprintf (IP_ADDRESS_SIZE conf) h) port) <$> splitEx (ch ",") FDFS_MULTI_IP_MAX_COUNT hosts.

Definition FDFS_PROTO_MULTI_IP_PORT_SIZE : nat := 2 * Z.to_nat (IP_ADDRESS_SIZE conf) + 8.
Definition sizeof_TrackerStorageJoinBody : nat := 217 + Z.to_nat (IP_ADDRESS_SIZE conf).

(** A number of 8 bytes that is put in an [int]. *)
Definition int_at (body : bytes) (off : nat) : Z := int32 (buff2long (drop off body)).

(** The checks of the handler: the first error, or the join body. *)
Definition parse_join_body (body : bytes) : Z + FDFSStorageJoinBody :=
  let n := length body in
  let tracker_count := int_at body (209 + Z.to_nat (IP_ADDRESS_SIZE conf)) in
  let group_name := cstr (take 16 body) in
  let storage_port := int_at body 17 in
  let storage_http_port := int_at body 25 in
  let store_path_count := int_at body 33 in
  let subdir_count_per_path := int_at body 41 in
  if (n <? sizeof_TrackerStorageJoinBody)%nat then inl EINVAL
  else if (tracker_count <=? 0) || (FDFS_MAX_TRACKERS <? tracker_count) then inl EINVAL
  else if negb (n =? sizeof_TrackerStorageJoinBody + Z.to_nat tracker_count * FDFS_PROTO_MULTI_IP_PORT_SIZE)%nat then inl EINVAL
  else if negb (fdfs_validate_group_name group_name =? 0) then inl (fdfs_validate_group_name group_name)
  else if storage_port <=? 0 then inl EINVAL
  else if storage_http_port <? 0 then inl EINVAL
  else if (store_path_count <=? 0) || (256 <? store_path_count) then inl EINVAL
  else if (subdir_count_per_path <=? 0) || (256 <? subdir_count_per_path) then inl EINVAL
  else
    inr {| j_storage_port := storage_port; j_storage_http_port := storage_http_port;
           j_store_path_count := store_path_count; j_subdir_count_per_path := subdir_count_per_path;
           j_upload_priority := int_at body 49; j_join_time := int_at body 57; j_up_time := int_at body 65;
           j_version := cstr (take 5 (drop 73 body)); j_group_name := group_name;
           j_domain_name := cstr (take 127 (drop 79 body)); j_init_flag := int8 (nth 207 body 0);
           j_status := int8 (nth 208 body 0);
           j_tracker_servers :=
             (fun r => fdfs_parse_server_info (cstr (take (FDFS_PROTO_MULTI_IP_PORT_SIZE - 1) r)) FDFS_TRACKER_SERVER_DEF_PORT) <$>
               records FDFS_PROTO_MULTI_IP_PORT_SIZE (Z.to_nat tracker_count) (drop sizeof_TrackerStorageJoinBody body) |}.

(** [c], and [k] when it has no error. *)
Definition unless_error (c k : M TrackerMem Z) : M TrackerMem Z :=
  let! e := c in if negb (e =? 0) then ret e else k.

(** The server with this id, found by a walk through [all_servers]. *)
Definition update_by_id (id : bytes) (f : FDFSStorageDetail -> FDFSStorageDetail) (g : FDFSGroupInfo) : FDFSGroupInfo :=
  match list_find (fun st => s_id st = id) (g_all_servers g) with
  | Some (i, _) => with_server i f g
  | None => g
  end.

(** A port of the group: taken from the first server, and changed when all
    servers have the new one; [differs] is the result when they do not. *)
Definition adjust_port (p : nat) (g_port : FDFSGroupInfo -> Z) (set_g_port : Z -> FDFSGroupInfo -> FDFSGroupInfo)
    (s_port : FDFSStorageDetail -> Z) (set_s_port : Z -> FDFSStorageDetail -> FDFSStorageDetail)
    (storage_id : bytes) (new_port differs : Z) : M TrackerMem Z :=
  let! g := group p in
  if g_port g =? 0 then with_group p (set_g_port new_port) ;; save_files
  else if g_port g =? new_port then ret 0
  else
    with_group p (update_by_id storage_id (set_s_port new_port)) ;;
    let! g := group p in
    if forallb (fun st => s_port st =? new_port) (g_all_servers g) then with_group p (set_g_port new_port) ;; save_files
    else ret differs.

Definition adjust_storage_port (p : nat) (storage_id : bytes) (new_port : Z) : M TrackerMem Z :=
  adjust_port p g_storage_port set_g_storage_port s_storage_port set_s_storage_port storage_id new_port EINVAL.
Definition adjust_storage_http_port (p : nat) (storage_id : bytes) (new_port : Z) : M TrackerMem Z :=
  adjust_port p g_storage_http_port set_g_storage_http_port s_storage_http_port set_s_storage_http_port storage_id new_port 0.

(** What the server tells about itself. *)
Definition join_details (b : FDFSStorageJoinBody) (st : FDFSStorageDetail) : FDFSStorageDetail :=
  set_s_store_path_count (j_store_path_count b) (set_s_subdir_count_per_path (j_subdir_count_per_path b)
    (set_s_upload_priority (j_upload_priority b) (set_s_join_time (j_join_time b) (set_s_up_time (j_up_time b)
      (set_s_version (snprintf FDFS_VERSION_SIZE (j_version b)) (set_s_domain_name (snprintf FDFS_DOMAIN_NAME_MAX_SIZE (j_domain_name b))
        (set_s_storage_port (j_storage_port b) (set_s_storage_http_port (j_storage_http_port b) st)))))))).

(** [tracker_malloc_group_path_mbs], [tracker_realloc_group_path_mbs]; the
    allocations of the disk arrays succeed. *)
Definition tracker_malloc_group_path_mbs (g : FDFSGroupInfo) : FDFSGroupInfo :=
  let n := Z.to_nat (g_store_path_count g) in
  set_g_all_servers ((fun st => set_s_path_total_mbs (replicate n 0) (set_s_path_free_mbs (replicate n 0) st)) <$> g_all_servers g) g.

Definition tracker_realloc_group_path_mbs (new_store_path_count : Z) (g : FDFSGroupInfo) : FDFSGroupInfo :=
  let n := Z.to_nat new_store_path_count in
  set_g_store_path_count new_store_path_count
    (set_g_all_servers ((fun st => set_s_path_total_mbs (resize n 0 (s_path_total_mbs st))
       (set_s_path_free_mbs (resize n 0 (s_path_free_mbs st)) st)) <$> g_all_servers g) g).

Definition adjust_store_path_count (p : nat) (new_count : Z) : M TrackerMem Z :=
  let! g := group p in
  if g_store_path_count g =? 0 then
    with_group p (fun g => tracker_malloc_group_path_mbs (set_g_store_path_count new_count g)) ;;
    save_files
  else if g_store_path_count g =? new_count then ret 0
  else if forallb (fun st => (s_status st =? FDFS_STORAGE_STATUS_DELETED) || (s_store_path_count st =? new_count)) (g_all_servers g) then
    with_group p (tracker_realloc_group_path_mbs new_count) ;;
    save_files
  else ret (if new_count <? g_store_path_count g then EINVAL else 0).

Definition adjust_subdir_count (p : nat) (new_count : Z) : M TrackerMem Z :=
  let! g := group p in
  if g_subdir_count_per_path g =? 0 then with_group p (set_g_subdir_count_per_path new_count) ;; save_files
  else if g_subdir_count_per_path g =? new_count then ret 0
  else if forallb (fun st => s_subdir_count_per_path st =? new_count) (g_all_servers g) then
    with_group p (set_g_subdir_count_per_path new_count) ;; save_files
  else ret EINVAL.

(** The status of a server that is new here but not new to the cluster. *)
Definition join_status (b : FDFSStorageJoinBody) (st : FDFSStorageDetail) : FDFSStorageDetail :=
  if (j_init_flag b =? 0) && (0 <? j_status b)
  then set_s_status (if j_status b =? FDFS_STORAGE_STATUS_ACTIVE then FDFS_STORAGE_STATUS_ONLINE else j_status b) st
  else st.

Definition joined (fsize : Z) (st : FDFSStorageDetail) : FDFSStorageDetail :=
  if (s_status st =? FDFS_STORAGE_STATUS_OFFLINE) || (s_status st =? FDFS_STORAGE_STATUS_RECOVERY)
  then set_s_status FDFS_STORAGE_STATUS_ONLINE st
  else if s_status st =? FDFS_STORAGE_STATUS_INIT then set_s_changelog_offset fsize st
  else st.

(** Server [i] of group [p] behind [tracker_mem_add_storage]. *)
Definition join_storage (p i : nat) (bStorageInserted : bool) (b : FDFSStorageJoinBody) : M TrackerMem Z :=
  with_group p (with_server i (join_details b)) ;;
  unless_error (adjust_store_path_count p (j_store_path_count b)) (
  unless_error (adjust_subdir_count p (j_subdir_count_per_path b)) (
  unless_error (if bStorageInserted then with_group p (with_server i (join_status b)) ;; save_files else ret 0) (
    let! fsize := gets g_changelog_fsize in
    with_group p (with_server i (joined fsize)) ;;
    ret 0))).

(** A status that a server which is not in the group must not report. *)
Definition bad_join_status (b : FDFSStorageJoinBody) : bool :=
  (j_init_flag b =? 0) && ((j_status b <? 0) || (j_status b =? FDFS_STORAGE_STATUS_DELETED) ||
    (j_status b =? FDFS_STORAGE_STATUS_IP_CHANGED) || (j_status b =? FDFS_STORAGE_STATUS_NONE)).

(** [storage_id]. *)
Definition join_id (g : FDFSGroupInfo) (ip : bytes) : option bytes :=
  if g_use_storage_id conf then si_id <$> fdfs_get_storage_id_by_ip (storage_ids conf) (g_group_name g) ip else Some ip.

(** [tracker_mem_add_group_and_storage] behind [tracker_mem_file_unlock]: the
    files of other trackers have been fetched and [g_tracker_servers] has the
    trackers of the request. *)
Definition tracker_mem_add_group_and_storage (c : TrackerClientInfo) (ip : bytes) (b : FDFSStorageJoinBody) : M TrackerMem (TrackerClientInfo * Z) :=
  let! r := tracker_mem_add_group_ex conf (j_group_name b) in
  match r with
  | inl e => ret (c, e)
  | inr (p, bGroupInserted) =>
      let c := mkClient (Some p) (ci_pStorage c) (ci_tracker_leader c) in
      let! e := (if bGroupInserted : bool then save_files else ret 0) in
      if negb (e =? 0) then ret (c, e)
      else
        let! g := group p in
        match join_id g ip with
        | None => ret (c, ENOENT)
        | Some storage_id =>
            let! e := unless_error (adjust_storage_port p storage_id (j_storage_port b))
                        (adjust_storage_http_port p storage_id (j_storage_http_port b)) in
            if negb (e =? 0) then ret (c, e)
            else
              let! g := group p in
              if bool_decide (tracker_mem_get_storage g storage_id = None) && bad_join_status b then ret (c, EFAULT)
              else
                let! r := _tracker_mem_add_storage conf p (Some storage_id) ip in
                match r with
                | inl e => ret (c, e)
                | inr (i, bStorageInserted) =>
                    let! e := join_storage p i bStorageInserted b in
                    ret (mkClient (Some p) (Some i) (ci_tracker_leader c), e)
                end
        end
  end.

(** The addresses of this tracker that the request tells are not kept here. *)
Definition tracker_deal_storage_join (client_ip : bytes) (c : TrackerClientInfo) (body : bytes) : M TrackerMem (TrackerClientInfo * reply) :=
  match parse_join_body body with
  | inl e => ret (c, (e, []))
  | inr b =>
      let! r := tracker_mem_add_group_and_storage c client_ip b in
      match r with
      | (c, e) =>
          if negb (e =? 0) then ret (c, (e, []))
          else
            match ci_pGroup c, ci_pStorage c with
            | Some p, Some i =>
                let! g := group p in
                let src_id := match s_psync_src_server (server g i) with Some j => server_id g j | None => [] end in
                ret (c, (0, uint8 (s_status (server g i)) :: pad 16 src_id))
            | _, _ => ret (c, (e, []))
            end
      end
  end.
End join.
