(* ===== verification/TrackerStore.v ===== *)
(** * The group, server and disk for an upload
    ([tracker_deal_service_query_storage]).

    The group is the one of the request, the next one with space in the order
    of names, or the configured one; its server and disk follow, and with
    trunk files the free space inside of trunk files counts too. *)

From S2P Require Import Prelude FastCommon SharedFunc SortedArray StorageIds ServerInfo TrackerTypes TrackerMem TrackerService.


Local Open Scope c_scope.

Section store.
Context `{FastCommon} (conf : TrackerMemConf) (client_ip : bytes).

(** The group has space, with trunk files or without. *)
Definition enough_space (g : FDFSGroupInfo) : bool :=
  tracker_check_reserved_space conf g || (g_if_use_trunk_file conf && tracker_check_reserved_space_trunk conf g).

Definition group_fits (g : FDFSGroupInfo) : Z :=
  if negb (has_active g) then ENOENT else if enough_space g then 0 else ENOSPC.

(** A loop that stops at the first index that fits. *)
Fixpoint first_such (fits : nat -> bool) (l : list nat) : option nat :=
  match l with
  | [] => None
  | k :: l' => if fits k then Some k else first_such fits l'
  end.

(** An entry of [sorted_groups] with active servers that satisfies [fits]. *)
Definition group_at (fits : FDFSGroupInfo -> bool) (s : TrackerMem) (k : nat) : bool :=
  let g := sorted_group s k in has_active g && fits g.

(** The choice without a group in the request: the entry of [sorted_groups],
    and if it becomes the current one. *)
Definition choose_group (s : TrackerMem) : Z + nat * bool :=
  let n := length (sorted_groups s) in
  let write_group_index := if Z.of_nat n <=? current_write_group s then 0%nat else Z.to_nat (current_write_group s) in
  let found := sorted_group s write_group_index in
  if has_active found && (tracker_check_reserved_space conf found ||
       (g_if_use_trunk_file conf && (store_lookup conf =? FDFS_STORE_LOOKUP_LOAD_BALANCE) && tracker_check_reserved_space_trunk conf found))
  then inr (write_group_index, false)
  else
    match first_such (group_at (tracker_check_reserved_space conf) s) (seq (S write_group_index) (n - S write_group_index)) with
    | Some k => inr (k, true)
    | None =>
        match first_such (group_at (tracker_check_reserved_space conf) s) (seq 0 write_group_index) with
        | Some k => inr (k, true)
        | None =>
            if negb (existsb (fun k => has_active (sorted_group s k)) (seq 0 n)) then inl ENOENT
            else if negb (g_if_use_trunk_file conf) then inl ENOSPC
            else
              match first_such (group_at (tracker_check_reserved_space_trunk conf) s) (seq 0 n) with
              | Some k => inr (k, true)
              | None => inl ENOSPC
              end
        end
    end.

(** Indexes into arrays are below their lengths, so that adding 1 to an [int]
    does not overflow. *)
Definition next_group (s : TrackerMem) : TrackerMem :=
  let k := current_write_group s + 1 in
  set_current_write_group (if Z.of_nat (count s) <=? k then 0 else k) s.

(** The group for a request with a group name or without one. *)
Definition pick_group (name : option bytes) : M TrackerMem (Z + nat) :=
  let! s := gets id in
  match name with
  | Some group_name =>
      match tracker_mem_get_group_ex group_name s with
      | None => ret (inl ENOENT)
      | Some p =>
          let e := group_fits (heap s !!! p) in
          ret (if e =? 0 then inr p else inl e)
      end
  | None =>
      if (store_lookup conf =? FDFS_STORE_LOOKUP_ROUND_ROBIN) || (store_lookup conf =? FDFS_STORE_LOOKUP_LOAD_BALANCE) then
        match choose_group s with
        | inl e => ret (inl e)
        | inr (k, current) =>
            (if current : bool then modify (set_current_write_group (Z.of_nat k)) else ret tt) ;;
            (if store_lookup conf =? FDFS_STORE_LOOKUP_ROUND_ROBIN then modify next_group else ret tt) ;;
            ret (inr (sorted_groups s !!! k))
        end
      else if store_lookup conf =? FDFS_STORE_LOOKUP_SPEC_GROUP then
        match pStoreGroup s with
        | None => ret (inl ENOENT)
        | Some p =>
            let e := group_fits (heap s !!! p) in
            ret (if e =? 0 then inr p else inl e)
        end
      else ret (inl EINVAL)
  end.

(** ** The disk. *)

(** Disk [i] has space; with trunk files the free space in them counts. *)
Definition path_fits (st : FDFSStorageDetail) (avg_reserved_mb i : Z) : bool :=
  tracker_check_reserved_space_path conf (znth 0 (s_path_total_mbs st) i) (znth 0 (s_path_free_mbs st) i) avg_reserved_mb.
Definition path_fits_trunk (st : FDFSStorageDetail) (trunk_free_mb avg_reserved_mb i : Z) : bool :=
  tracker_check_reserved_space_path conf (znth 0 (s_path_total_mbs st) i)
    (int64 (znth 0 (s_path_free_mbs st) i + trunk_free_mb)) avg_reserved_mb.

(** [g_storage_reserved_space.rs.mb]: of the union of an [int] and a [double];
    with a ratio it is not used. *)
Definition rs_mb : Z := match g_storage_reserved_space conf with RESERVED_SPACE_MB mb => mb | RESERVED_SPACE_RATIO _ => 0 end.

(** The disk and the new [current_write_path], if it is set.  The test behind
    the last loop compares with the index that the loop has just changed. *)
Definition choose_path (g : FDFSGroupInfo) (st : FDFSStorageDetail) : (Z + Z) * option Z :=
  let n := Z.to_nat (g_store_path_count g) in
  let write_path_index := if g_store_path_count g <=? s_current_write_path st then 0 else s_current_write_path st in
  let avg_reserved_mb := Z.quot rs_mb (g_store_path_count g) in
  if path_fits st avg_reserved_mb write_path_index then (inr write_path_index, None)
  else
    match first_such (fun i => path_fits st avg_reserved_mb (Z.of_nat i)) (seq 0 n) with
    | Some i => (inr (Z.of_nat i), Some (Z.of_nat i))
    | None =>
        if negb (g_if_use_trunk_file conf) then (inl ENOSPC, None)
        else
          let fits i := path_fits_trunk st (g_trunk_free_mb g) avg_reserved_mb (Z.of_nat i) in
          let k := Z.to_nat write_path_index in
          match first_such fits (seq k (n - k)) with
          | Some i => (inr (Z.of_nat i), Some (Z.of_nat i))
          | None => (inl ENOSPC, Z.of_nat <$> first_such fits (seq 0 k))
          end
    end.

Definition next_path (n : Z) (st : FDFSStorageDetail) : FDFSStorageDetail :=
  let k := s_current_write_path st + 1 in
  set_s_current_write_path (if n <=? k then 0 else k) st.

Definition address_of (g : FDFSGroupInfo) (i : nat) : bytes :=
  pad (Z.to_nat (IP_ADDRESS_SIZE conf) - 1) (fdfs_get_ipaddr_by_peer_ip (s_ip_addrs (server g i)) client_ip).

(** Group, servers and disk of the answer. *)
Record StoreAnswer := mkStoreAnswer {
  sa_group : nat;
  sa_servers : list nat;
  sa_path : Z;
}.

(** [with_group]: the body has a name; [all]: all servers are listed. *)
Definition query_storage (name : option bytes) (all : bool) : M TrackerMem (Z + StoreAnswer) :=
  let! none := gets (fun s => (count s =? 0)%nat) in
  if none : bool then ret (inl ENOENT)
  else
    let! r := pick_group name in
    match r with
    | inl e => ret (inl e)
    | inr p =>
        let! g := group p in
        if g_store_path_count g <=? 0 then ret (inl ENOENT)
        else
          let! o := (if all then ret (head (g_active_servers g)) else tracker_get_writable_storage conf p) in
          match o with
          | None => ret (inl ENOENT)
          | Some i =>
              let '(r, current) := choose_path g (server g i) in
              (match current with Some k => with_group p (with_server i (set_s_current_write_path k)) | None => ret tt end) ;;
              match r with
              | inl e => ret (inl e)
              | inr write_path_index =>
                  (if store_path conf =? FDFS_STORE_PATH_ROUND_ROBIN
                   then with_group p (with_server i (next_path (g_store_path_count g))) else ret tt) ;;
                  ret (inr (mkStoreAnswer p (if all then g_active_servers g else [i]) write_path_index))
              end
          end
    end.

Definition store_answer_bytes (s : TrackerMem) (a : StoreAnswer) : bytes :=
  let g := heap s !!! sa_group a in
  pad 16 (g_group_name g) ++ mjoin ((fun i => address_of g i ++ long2buff (g_storage_port g)) <$> sa_servers a) ++ [uint8 (sa_path a)].

Definition tracker_deal_service_query_storage (with_name all : bool) (body : bytes) : M TrackerMem reply :=
  if negb (length body =? if with_name then 16 else 0)%nat then answer EINVAL
  else
    let! r := query_storage (if with_name then Some (cstr body) else None) all in
    match r with
    | inl e => answer e
    | inr a => let! s := gets id in ret (0, store_answer_bytes s a)
    end.
End store.
