(* ===== verification/TrackerFetch.v ===== *)
(** * The servers that can give a file ([tracker_mem_get_storage_by_filename]
    and [tracker_deal_service_query_fetch_update]).

    The name of a file tells the server that made it and the time; a server of
    the group that is synchronised up to then has the file too. *)

From S2P Require Import Prelude FastCommon SharedFunc TrunkShared SortedArray StorageIds ServerInfo TrackerTypes TrackerMem TrackerService TrackerStore.

Definition FDFS_DOWNLOAD_SERVER_ROUND_ROBIN : Z := 0.
Definition FDFS_DOWNLOAD_SERVER_SOURCE_FIRST : Z := 1.
Definition TRACKER_PROTO_CMD_SERVICE_QUERY_FETCH_ONE : Z := 102.
Definition TRACKER_PROTO_CMD_SERVICE_QUERY_UPDATE : Z := 103.
Definition TRACKER_PROTO_CMD_SERVICE_QUERY_FETCH_ALL : Z := 105.
Definition FDFS_NORMAL_LOGIC_FILENAME_LENGTH : Z :=
  FDFS_LOGIC_FILE_PATH_LEN + FDFS_FILENAME_BASE64_LENGTH + FDFS_FILE_EXT_NAME_MAX_LEN + 1.
(** [INADDR_NONE] in an [int]. *)
Definition INADDR_NONE : Z := -1.

Local Open Scope c_scope.

(** [ntohl] of a little-endian machine, in an [int]. *)
Definition byte_of (z : Z) (k : Z) : Z := Z.land (Z.shiftr (uint32 z) (8 * k)) 255.
Definition ntohl (z : Z) : Z :=
  int32 (byte_of z 0 * 2 ^ 24 + byte_of z 1 * 2 ^ 16 + byte_of z 2 * 2 ^ 8 + byte_of z 3).

(** [inet_ntop(AF_INET)] of an address in network byte order. *)
Definition inet_ntop (s_addr : Z) : bytes :=
  fmt_u 10 (byte_of s_addr 0) ++ ch "." :: fmt_u 10 (byte_of s_addr 1) ++ ch "." ::
  fmt_u 10 (byte_of s_addr 2) ++ ch "." :: fmt_u 10 (byte_of s_addr 3).

(** What the name of a file tells. *)
Record FileOrigin := mkOrigin {
  storage_ip : Z;
  storage_id : bytes;
  file_timestamp : Z;
  bNormalFile : bool;
}.

Section fetch.
Context `{FastCommon} (conf : TrackerMemConf) (client_ip : bytes).
(** The mark in the size of appender files, a constant of libfastcommon. *)
Context (INFINITE_FILE_SIZE : Z).

Definition IS_APPENDER_FILE (file_size : Z) : bool := negb (Z.land file_size INFINITE_FILE_SIZE =? 0).

Definition IS_SLAVE_FILE (filename_len file_size : Z) : bool :=
  (FDFS_TRUNK_LOGIC_FILENAME_LENGTH <? filename_len) ||
  ((FDFS_NORMAL_LOGIC_FILENAME_LENGTH <? filename_len) && negb (IS_TRUNK_FILE file_size)).

Definition file_origin (filename : bytes) : FileOrigin :=
  let filename_len := Z.of_nat (length filename) in
  if filename_len <? 32 + (FDFS_FILE_EXT_NAME_MAX_LEN + 1) then mkOrigin INADDR_NONE [] 0 true
  else
    let name_buff := base64_decode_auto (take (Z.to_nat FDFS_FILENAME_BASE64_LENGTH) (drop (Z.to_nat FDFS_LOGIC_FILE_PATH_LEN) filename)) in
    let storage_ip := ntohl (buff2int name_buff) in
    let file_size := buff2long (drop 8 name_buff) in
    mkOrigin storage_ip
      (if fdfs_get_server_id_type storage_ip =? FDFS_ID_TYPE_SERVER_ID then fmt_d storage_ip else [])
      (buff2int (drop 4 name_buff))
      (negb (IS_SLAVE_FILE filename_len file_size || IS_APPENDER_FILE file_size)).

(** The server that made the file, if it is active. *)
Definition source_server (g : FDFSGroupInfo) (o : FileOrigin) : option nat :=
  match storage_id o with
  | [] => tracker_mem_get_active_storage_by_ip conf g (inet_ntop (storage_ip o))
  | id => tracker_mem_get_active_storage_by_id g id
  end.

(** The server is old enough in its synchronisation to have a normal file. *)
Definition is_synced (now : Z) (o : FileOrigin) (st : FDFSStorageDetail) : bool :=
  let t := last_synced_timestamp (s_stat st) in
  (file_timestamp o <? now - g_storage_sync_file_max_delay conf) ||
  (file_timestamp o <? t) ||
  ((file_timestamp o <=? t + 1) && (g_storage_sync_file_max_time conf <? now - file_timestamp o)) ||
  ((storage_ip o =? INADDR_NONE) && (store_server conf =? FDFS_STORE_SERVER_ROUND_ROBIN)).

(** The server [i], next in turn, made the file. *)
Definition is_source (g : FDFSGroupInfo) (o : FileOrigin) (i : nat) : bool :=
  match storage_id o with
  | [] => memcmp (inet_ntop (storage_ip o)) (current_ip g i) =? 0
  | id => memcmp id (server_id g i) =? 0
  end.

(** The server for a download, [i] is next in turn. *)
Definition read_server (now : Z) (g : FDFSGroupInfo) (o : FileOrigin) (pGroupStoreServer i : nat) : nat :=
  if bNormalFile o && is_synced now o (server g i) then i
  else if bNormalFile o && (storage_ip o =? INADDR_NONE) then pGroupStoreServer
  else if is_source g o i then i
  else
    let other := if negb (store_server conf =? FDFS_STORE_SERVER_ROUND_ROBIN) then pGroupStoreServer else i in
    if download_server conf =? FDFS_DOWNLOAD_SERVER_ROUND_ROBIN then default other (source_server g o) else other.

Definition next_read_server (g : FDFSGroupInfo) : FDFSGroupInfo :=
  let k := g_current_read_server g + 1 in
  set_g_current_read_server (if Z.of_nat (length (g_active_servers g)) <=? k then 0 else k) g.

Definition fetch_one (p : nat) (o : FileOrigin) (pGroupStoreServer : nat) : M TrackerMem (list nat) :=
  let! now := gets g_current_time in
  let! g := group p in
  match (if download_server conf =? FDFS_DOWNLOAD_SERVER_SOURCE_FIRST then source_server g o else None) with
  | Some i => ret [i]
  | None =>
      let read_server_index := if Z.of_nat (length (g_active_servers g)) <=? g_current_read_server g then 0 else g_current_read_server g in
      let i := g_active_servers g !!! Z.to_nat read_server_index in
      with_group p next_read_server ;;
      ret [read_server now g o pGroupStoreServer i]
  end.

Definition query_update (p : nat) (o : FileOrigin) : M TrackerMem (list nat) :=
  let! g := group p in
  match (if storage_ip o =? INADDR_NONE then None else source_server g o) with
  | Some i => ret [i]
  | None => let! w := tracker_get_writable_storage conf p in ret (option_list w)
  end.

(** The address of the source of a normal file, empty without one; the id is
    not looked at. *)
Definition fetch_all (now : Z) (g : FDFSGroupInfo) (o : FileOrigin) (pGroupStoreServer : nat) : list nat :=
  let szIpAddr := if storage_ip o =? INADDR_NONE then [] else inet_ntop (storage_ip o) in
  let l :=
    if bNormalFile o then
      filter (fun i => is_synced now o (server g i) = true \/ memcmp (current_ip g i) szIpAddr = 0) (g_active_servers g)
    else
      option_list (match storage_id o with
                   | [] => tracker_mem_get_active_storage_by_ip conf g szIpAddr
                   | id => tracker_mem_get_active_storage_by_id g id
                   end) in
  match l with [] => [pGroupStoreServer] | _ => l end.

(** The group and the servers. *)
Definition tracker_mem_get_storage_by_filename (cmd : Z) (group_name filename : bytes) : M TrackerMem (Z + nat * list nat) :=
  let! found := gets (tracker_mem_get_group_ex group_name) in
  match found with
  | None => ret (inl ENOENT)
  | Some p =>
      let! g := group p in
      match g_active_servers g, g_pStoreServer g with
      | _ :: _, Some pGroupStoreServer =>
          let o := file_origin filename in
          let! l :=
            (if cmd =? TRACKER_PROTO_CMD_SERVICE_QUERY_FETCH_ONE then fetch_one p o pGroupStoreServer
             else if cmd =? TRACKER_PROTO_CMD_SERVICE_QUERY_UPDATE then query_update p o
             else let! now := gets g_current_time in ret (fetch_all now g o pGroupStoreServer)) in
          ret (match l with [] => inl ENOENT | _ => inr (p, l) end)
      | _, _ => ret (inl ENOENT)
      end
  end.

Definition fetch_answer_bytes (g : FDFSGroupInfo) (l : list nat) : bytes :=
  match l with
  | [] => []
  | i :: l => pad 16 (g_group_name g) ++ address_of conf client_ip g i ++ long2buff (g_storage_port g) ++ mjoin (address_of conf client_ip g <$> l)
  end.

Definition tracker_deal_service_query_fetch_update (cmd : Z) (body : bytes) : M TrackerMem reply :=
  if (length body <? 16 + 22)%nat || (16 + 128 <=? length body)%nat then answer EINVAL
  else
    let! r := tracker_mem_get_storage_by_filename cmd (body_group_name body) (drop 16 body) in
    match r with
    | inl e => answer e
    | inr (p, l) => let! g := group p in ret (0, fetch_answer_bytes g l)
    end.
End fetch.
