(* ===== verification/TrackerList.v ===== *)
(** * The lists of groups and servers for the monitor
    ([tracker_deal_server_list_one_group], [tracker_deal_server_list_all_groups],
    [tracker_deal_server_list_group_storages]). *)

From S2P Require Import Prelude FastCommon SharedFunc SortedArray StorageIds ServerInfo TrackerTypes TrackerMem TrackerService TrackerJoin.

Local Open Scope c_scope.

Section list.
Context `{FastCommon} (conf : TrackerMemConf) (client_ip : bytes).
(** [g_min_buff_size] and [g_max_buff_size]. *)
Context (g_min_buff_size g_max_buff_size : Z).

Definition sizeof_TrackerGroupStat : Z := 17 + 11 * 8.

Definition group_stat (g : FDFSGroupInfo) : bytes :=
  pad 17 (g_group_name g) ++
  mjoin (long2buff <$> [g_total_mb g; g_free_mb g; g_trunk_free_mb g; Z.of_nat (length (g_all_servers g)); g_storage_port g;
    g_storage_http_port g; Z.of_nat (length (g_active_servers g)); g_current_write_server g; g_store_path_count g;
    g_subdir_count_per_path g; g_current_trunk_file_id g]).

Definition tracker_deal_server_list_one_group (body : bytes) : M TrackerMem reply :=
  if negb (length body =? 16)%nat then answer EINVAL
  else in_group (body_group_name body) (fun p => let! g := group p in ret (0, group_stat g)) [].

(** A larger buffer is allocated for a long list. *)
Definition tracker_deal_server_list_all_groups (body : bytes) : M TrackerMem reply :=
  if negb (length body =? 0)%nat then answer EINVAL
  else
    let! s := gets id in
    let expect_size := sizeof_TrackerHeader + Z.of_nat (count s) * sizeof_TrackerGroupStat in
    let! e :=
      (if expect_size <=? g_min_buff_size then ret 0
       else if expect_size <=? g_max_buff_size then syscall
       else ret ENOSPC) in
    if negb (e =? 0) then answer e
    else ret (0, mjoin ((fun p => group_stat (heap s !!! p)) <$> sorted_groups s)).

Definition stat_bytes (st : FDFSStorageStat) : bytes :=
  let '(alloc_count, current_count, max_count) := connection st in
  int2buff alloc_count ++ int2buff current_count ++ int2buff max_count ++ mjoin (long2buff <$> stat_counters st) ++
  long2buff (last_synced_timestamp st) ++ long2buff (last_heart_beat_time st).

(** A [TrackerStorageStat]. *)
Definition storage_stat (g : FDFSGroupInfo) (i : nat) : bytes :=
  let st := server g i in
  uint8 (s_status st) :: pad 16 (s_id st) ++
  pad (Z.to_nat (IP_ADDRESS_SIZE conf)) (fdfs_get_ipaddr_by_peer_ip (s_ip_addrs st) client_ip) ++
  pad (Z.to_nat FDFS_DOMAIN_NAME_MAX_SIZE) (s_domain_name st) ++
  pad 16 (match s_psync_src_server st with Some j => server_id g j | None => [] end) ++
  pad (Z.to_nat FDFS_VERSION_SIZE) (s_version st) ++
  mjoin (long2buff <$> [s_join_time st; s_up_time st; s_total_mb st; s_free_mb st; s_upload_priority st; s_store_path_count st;
    s_subdir_count_per_path st; s_current_write_path st; s_storage_port st; s_storage_http_port st]) ++
  stat_bytes (s_stat st) ++ [if decide (g_pTrunkServer g = Some i) then 1 else 0].

(** The answer is written without a look at the size of the buffer. *)
Definition tracker_deal_server_list_group_storages (body : bytes) : M TrackerMem reply :=
  if (length body <? 16)%nat || (32 <=? length body)%nat then answer EINVAL
  else
    in_group (body_group_name body) (fun p =>
      let! g := group p in
      let all := (length body =? 16)%nat in
      let l := filter (fun i => all = true \/ server_id g i = body_id body) (g_sorted_servers g) in
      if negb all && (length l =? 0)%nat then answer ENOENT
      else ret (0, mjoin (storage_stat g <$> l))) [].
End list.
