(* ===== verification/TrackerTask.v ===== *)
(** * The tracker as a server ([tracker_deal_task], [task_finish_clean_up]).

    A connection sends requests until it is closed; the tracker is a sequence
    of such steps and of its timers.  [step] is one of them. *)

From S2P Require Import Prelude FastCommon SharedFunc SortedArray StorageIds ServerInfo TrackerTypes TrackerMem TrackerService TrackerJoin TrackerStore TrackerFetch TrackerList.

Definition TRACKER_PROTO_CMD_STORAGE_GET_MY_IP : Z := 60.
Definition TRACKER_PROTO_CMD_STORAGE_CHANGE_STATUS : Z := 59.
Definition TRACKER_PROTO_CMD_STORAGE_FETCH_STORAGE_IDS : Z := 69.
Definition TRACKER_PROTO_CMD_STORAGE_GET_SERVER_ID : Z := 70.
Definition TRACKER_PROTO_CMD_STORAGE_GET_STATUS : Z := 71.
Definition TRACKER_PROTO_CMD_STORAGE_FETCH_TRUNK_FID : Z := 72.
Definition TRACKER_PROTO_CMD_STORAGE_REPORT_TRUNK_FID : Z := 73.
Definition TRACKER_PROTO_CMD_STORAGE_REPORT_TRUNK_FREE : Z := 74.
Definition TRACKER_PROTO_CMD_STORAGE_REPORT_STATUS : Z := 76.
Definition TRACKER_PROTO_CMD_STORAGE_CHANGELOG_REQ : Z := 77.
Definition TRACKER_PROTO_CMD_STORAGE_REPORT_IP_CHANGED : Z := 78.
Definition TRACKER_PROTO_CMD_STORAGE_SYNC_DEST_QUERY : Z := 79.
Definition TRACKER_PROTO_CMD_STORAGE_JOIN : Z := 81.
Definition TRACKER_PROTO_CMD_STORAGE_BEAT : Z := 83.
Definition TRACKER_PROTO_CMD_STORAGE_REPORT_DISK_USAGE : Z := 84.
Definition TRACKER_PROTO_CMD_STORAGE_REPLICA_CHG : Z := 85.
Definition TRACKER_PROTO_CMD_STORAGE_SYNC_SRC_REQ : Z := 86.
Definition TRACKER_PROTO_CMD_STORAGE_SYNC_DEST_REQ : Z := 87.
Definition TRACKER_PROTO_CMD_STORAGE_SYNC_NOTIFY : Z := 88.
Definition TRACKER_PROTO_CMD_STORAGE_SYNC_REPORT : Z := 89.
Definition TRACKER_PROTO_CMD_SERVER_LIST_ONE_GROUP : Z := 90.
Definition TRACKER_PROTO_CMD_SERVER_LIST_ALL_GROUPS : Z := 91.
Definition TRACKER_PROTO_CMD_SERVER_LIST_STORAGE : Z := 92.
Definition TRACKER_PROTO_CMD_SERVER_DELETE_STORAGE : Z := 93.
Definition TRACKER_PROTO_CMD_SERVER_SET_TRUNK_SERVER : Z := 94.
Definition TRACKER_PROTO_CMD_SERVICE_QUERY_STORE_WITHOUT_GROUP_ONE : Z := 101.
Definition TRACKER_PROTO_CMD_SERVICE_QUERY_STORE_WITH_GROUP_ONE : Z := 104.
Definition TRACKER_PROTO_CMD_SERVICE_QUERY_STORE_WITHOUT_GROUP_ALL : Z := 106.
Definition TRACKER_PROTO_CMD_SERVICE_QUERY_STORE_WITH_GROUP_ALL : Z := 107.
Definition TRACKER_PROTO_CMD_SERVER_DELETE_GROUP : Z := 108.
Definition TRACKER_PROTO_CMD_STORAGE_GET_GROUP_NAME : Z := 109.

(** What the code leaves: an answer, a closed connection, or a null pointer
    that is followed. *)
Inductive Outcome :=
  | Answered (c : TrackerClientInfo) (r : reply)
  | Closed
  | NullPointer.

Local Open Scope c_scope.

Section task.
Context `{FastCommon} (conf : TrackerMemConf).
Context (INFINITE_FILE_SIZE g_min_buff_size g_max_buff_size : Z).

Definition task_finish_clean_up (c : TrackerClientInfo) : M TrackerMem unit :=
  match ci_pGroup c, ci_pStorage c with
  | Some p, Some i => tracker_mem_offline_store_server conf p i ;; ret tt
  | _, _ => ret tt
  end.

(** The handlers of [tracker_deal_task] by command.  The requests between
    trackers, the system files and the parameters are not among them:
    [None]. *)
Definition tracker_deal_task (client_ip : bytes) (leader : option ConnectionInfo) (cmd : Z) (c : TrackerClientInfo) (body : bytes) :
    option (M TrackerMem Outcome) :=
  let same m := Some (let! r := m in ret (Answered c r)) in
  let changed m := Some (let! r := m in ret (Answered r.1 r.2)) in
  let unsafe m := Some (let! r := m in ret (match r with Some r => Answered c r | None => NullPointer end)) in
  let logined k := match ci_pGroup c, ci_pStorage c with
                   | Some p, Some i => k p i
                   | _, _ => same (answer EACCES)
                   end in
  if cmd =? TRACKER_PROTO_CMD_STORAGE_BEAT then logined (fun p i => changed (tracker_deal_storage_beat conf client_ip leader c p i body))
  else if cmd =? TRACKER_PROTO_CMD_STORAGE_SYNC_REPORT then logined (fun p i => changed (tracker_deal_storage_sync_report conf client_ip leader c p i body))
  else if cmd =? TRACKER_PROTO_CMD_STORAGE_REPORT_DISK_USAGE then logined (fun p i => changed (tracker_deal_storage_df_report conf client_ip leader c p i body))
  else if cmd =? TRACKER_PROTO_CMD_STORAGE_JOIN then changed (tracker_deal_storage_join conf client_ip c body)
  else if cmd =? TRACKER_PROTO_CMD_STORAGE_REPORT_STATUS then same (tracker_deal_storage_report_status conf body)
  else if cmd =? TRACKER_PROTO_CMD_STORAGE_CHANGE_STATUS then logined (fun p i => same (tracker_deal_storage_change_status p i body))
  else if cmd =? TRACKER_PROTO_CMD_STORAGE_GET_STATUS then same (tracker_deal_server_get_storage_status conf client_ip body)
  else if cmd =? TRACKER_PROTO_CMD_STORAGE_GET_SERVER_ID then same (tracker_deal_get_storage_id conf client_ip body)
  else if cmd =? TRACKER_PROTO_CMD_STORAGE_GET_MY_IP then same (tracker_deal_get_my_ip conf client_ip body)
  else if cmd =? TRACKER_PROTO_CMD_STORAGE_GET_GROUP_NAME then same (tracker_deal_get_storage_group_name conf client_ip body)
  else if cmd =? TRACKER_PROTO_CMD_STORAGE_FETCH_STORAGE_IDS then same (tracker_deal_fetch_storage_ids conf g_min_buff_size body)
  else if cmd =? TRACKER_PROTO_CMD_STORAGE_REPLICA_CHG then logined (fun p i => same (tracker_deal_storage_replica_chg conf p body))
  else if (cmd =? TRACKER_PROTO_CMD_SERVICE_QUERY_FETCH_ONE) || (cmd =? TRACKER_PROTO_CMD_SERVICE_QUERY_UPDATE) ||
          (cmd =? TRACKER_PROTO_CMD_SERVICE_QUERY_FETCH_ALL)
  then same (tracker_deal_service_query_fetch_update conf client_ip INFINITE_FILE_SIZE cmd body)
  else if cmd =? TRACKER_PROTO_CMD_SERVICE_QUERY_STORE_WITHOUT_GROUP_ONE then same (tracker_deal_service_query_storage conf client_ip false false body)
  else if cmd =? TRACKER_PROTO_CMD_SERVICE_QUERY_STORE_WITH_GROUP_ONE then same (tracker_deal_service_query_storage conf client_ip true false body)
  else if cmd =? TRACKER_PROTO_CMD_SERVICE_QUERY_STORE_WITHOUT_GROUP_ALL then same (tracker_deal_service_query_storage conf client_ip false true body)
  else if cmd =? TRACKER_PROTO_CMD_SERVICE_QUERY_STORE_WITH_GROUP_ALL then same (tracker_deal_service_query_storage conf client_ip true true body)
  else if cmd =? TRACKER_PROTO_CMD_SERVER_LIST_ONE_GROUP then same (tracker_deal_server_list_one_group body)
  else if cmd =? TRACKER_PROTO_CMD_SERVER_LIST_ALL_GROUPS then same (tracker_deal_server_list_all_groups g_min_buff_size g_max_buff_size body)
  else if cmd =? TRACKER_PROTO_CMD_SERVER_LIST_STORAGE then same (tracker_deal_server_list_group_storages conf client_ip body)
  else if cmd =? TRACKER_PROTO_CMD_STORAGE_SYNC_SRC_REQ then same (tracker_deal_storage_sync_src_req body)
  else if cmd =? TRACKER_PROTO_CMD_STORAGE_SYNC_DEST_REQ then logined (fun p i => same (tracker_deal_storage_sync_dest_req p i body))
  else if cmd =? TRACKER_PROTO_CMD_STORAGE_SYNC_NOTIFY then unsafe (tracker_deal_storage_sync_notify c body)
  else if cmd =? TRACKER_PROTO_CMD_STORAGE_SYNC_DEST_QUERY then unsafe (tracker_deal_storage_sync_dest_query c body)
  else if cmd =? TRACKER_PROTO_CMD_SERVER_DELETE_GROUP then same (tracker_deal_server_delete_group body)
  else if cmd =? TRACKER_PROTO_CMD_SERVER_DELETE_STORAGE then same (tracker_deal_server_delete_storage body)
  else if cmd =? TRACKER_PROTO_CMD_SERVER_SET_TRUNK_SERVER then same (tracker_deal_server_set_trunk_server conf body)
  else if cmd =? TRACKER_PROTO_CMD_STORAGE_REPORT_IP_CHANGED then same (tracker_deal_storage_report_ip_changed conf client_ip body)
  else if cmd =? TRACKER_PROTO_CMD_STORAGE_CHANGELOG_REQ then same (tracker_deal_changelog_req c body)
  else if cmd =? FDFS_PROTO_CMD_QUIT then Some (task_finish_clean_up c ;; ret Closed)
  else if cmd =? FDFS_PROTO_CMD_ACTIVE_TEST then same (tracker_deal_active_test body)
  else if cmd =? TRACKER_PROTO_CMD_STORAGE_REPORT_TRUNK_FID then logined (fun p i => same (tracker_deal_report_trunk_fid p i body))
  else if cmd =? TRACKER_PROTO_CMD_STORAGE_FETCH_TRUNK_FID then logined (fun p i => same (tracker_deal_get_trunk_fid p body))
  else if cmd =? TRACKER_PROTO_CMD_STORAGE_REPORT_TRUNK_FREE then logined (fun p i => same (tracker_deal_report_trunk_free_space conf p i body))
  else None.
End task.
