(* ===== verification/TrackerTaskInv.v ===== *)
(** * Every reachable tracker state is well formed.

    [since s0 s]: [s] is in order, and has the groups and servers of [s0] at
    the same addresses, so that the pointers in a connection stay valid.
    Every handler keeps it. *)

From S2P Require Import Prelude FastCommon SharedFunc SortedArray StorageIds ServerInfo TrackerTypes TrackerMem TrackerMemInv TrackerService TrackerJoin TrackerStore TrackerFetch TrackerList TrackerTask.

Local Open Scope c_scope.

(** ** Groups and servers stay. *)
Definition grows (s s' : TrackerMem) : Prop :=
  (forall p, p ∈ sorted_groups s -> p ∈ sorted_groups s') /\
  (forall p, p ∈ sorted_groups s -> (length (g_all_servers (heap s !!! p)) <= length (g_all_servers (heap s' !!! p)))%nat).

#[export] Instance grows_preorder : PreOrder grows.
Proof.
  split; [by intros s; split|]. intros s1 s2 s3 [H1 H2] [H3 H4]. split; [auto|]. intros p Hp.
  etrans; [by apply H2|]. apply H4. by apply H1.
Qed.

Lemma grows_same s s' : same_groups s s' -> grows s s'.
Proof. intros (E1 & _ & _ & E2 & _). split; intros p Hp; [by rewrite E2|by rewrite E1]. Qed.

Definition growing {A} (c : M TrackerMem A) : Prop := forall s, grows s (c s).2.

Create HintDb growing.

Lemma growing_ret {A} (a : A) : growing (ret a).
Proof. intros s. reflexivity. Qed.
Lemma growing_gets {A} (f : TrackerMem -> A) : growing (gets f).
Proof. intros s. reflexivity. Qed.
Lemma growing_bind {A B} (c : M TrackerMem A) (k : A -> M TrackerMem B) : growing c -> (forall a, growing (k a)) -> growing (bind c k).
Proof. intros Hc Hk s. unfold bind. specialize (Hc s). destruct (c s) as [a s']. etrans; [exact Hc|apply Hk]. Qed.
Lemma growing_if {A} (b : bool) (c d : M TrackerMem A) : growing c -> growing d -> growing (if b then c else d).
Proof. by destruct b. Qed.
Lemma growing_modify f : (forall s, same_groups s (f s)) -> growing (modify f).
Proof. intros Hf s. apply grows_same, Hf. Qed.
Lemma growing_syscall : growing syscall.
Proof. intros s. unfold syscall. destruct (syscalls s); [reflexivity|by apply grows_same]. Qed.

(** A change that keeps the number of servers, or adds one. *)
Definition grows_group (f : FDFSGroupInfo -> FDFSGroupInfo) : Prop :=
  forall g, (length (g_all_servers g) <= length (g_all_servers (f g)))%nat.

Lemma growing_with_group p f : grows_group f -> growing (with_group p f).
Proof.
  intros Hf s. split; [done|]. intros q Hq. rewrite with_group_heap. case_decide as E; [subst; apply Hf|done].
Qed.

Lemma grows_with_server i f : grows_group (with_server i f).
Proof. intros g. by rewrite length_with_server. Qed.

(** A change with the same servers. *)
Lemma grows_field f : (forall g, g_all_servers (f g) = g_all_servers g) -> grows_group f.
Proof. intros Hf g. by rewrite Hf. Qed.

Lemma grows_compose f h : grows_group f -> grows_group h -> grows_group (fun g => f (h g)).
Proof. intros Hf Hh g. etrans; [apply Hh|apply Hf]. Qed.

Lemma find_store_servers conf g : g_all_servers (tracker_mem_find_store_server conf g) = g_all_servers g.
Proof. pose proof (find_store_server_core conf g) as Hc. unfold core in Hc. by injection Hc. Qed.

#[export] Hint Resolve growing_ret growing_gets growing_syscall : growing.

Ltac grow := repeat first [solve [auto 2 with growing] | apply growing_if | apply growing_modify; done |
  apply growing_with_group; solve [apply grows_with_server | apply grows_field; done |
    intros ?; cbn; rewrite ?length_alter, ?length_fmap, ?length_app, ?length_alter; lia] |
  apply growing_bind; [|intros ?] | progress cbn zeta |
  match goal with |- growing (match ?x with _ => _ end) => destruct x end].

Section ops.
Context (conf : TrackerMemConf).

Lemma larger_binlog_growing g m i l : growing (larger_binlog g m i l).
Proof. intros s. destruct (larger_binlog_spec g m i l s) as [-> _]. reflexivity. Qed.
#[local] Hint Resolve larger_binlog_growing : growing.

Lemma set_trunk_and_log_growing p o : growing (tracker_set_trunk_server_and_log p o).
Proof. unfold tracker_set_trunk_server_and_log. grow. Qed.
#[local] Hint Resolve set_trunk_and_log_growing : growing.

Lemma do_set_trunk_growing p i save : growing (tracker_mem_do_set_trunk_server p i save).
Proof. unfold tracker_mem_do_set_trunk_server, inc_trunk_server_chg_count, save_files. grow. Qed.
#[local] Hint Resolve do_set_trunk_growing : growing.

Lemma find_trunk_growing p save : growing (tracker_mem_find_trunk_server p save).
Proof. unfold tracker_mem_find_trunk_server, tracker_mem_get_trunk_binlog_size. grow. Qed.
#[local] Hint Resolve find_trunk_growing : growing.

Lemma deactive_servers i g : length (g_all_servers (tracker_mem_deactive_store_server conf i g)) = length (g_all_servers g).
Proof.
  unfold tracker_mem_deactive_store_server. rewrite find_store_servers. case_match; [|done]. cbn. by rewrite length_alter.
Qed.

Lemma realloc_store_growing p k : growing (tracker_mem_realloc_store_servers conf p k).
Proof.
  unfold tracker_mem_realloc_store_servers. grow. apply growing_with_group, grows_field. intros g. unfold grow_group. by rewrite find_store_servers.
Qed.
#[local] Hint Resolve realloc_store_growing : growing.

Lemma add_storage_growing p id ip : growing (_tracker_mem_add_storage conf p id ip).
Proof. unfold _tracker_mem_add_storage. grow. Qed.

Lemma write_to_changelog_growing p i arg : growing (tracker_write_to_changelog p i arg).
Proof. unfold tracker_write_to_changelog. grow. Qed.
#[local] Hint Resolve write_to_changelog_growing add_storage_growing : growing.

Lemma delete_storage_growing p id : growing (tracker_mem_delete_storage p id).
Proof. unfold tracker_mem_delete_storage. grow. Qed.

Lemma storage_ip_changed_growing p old_ip new_ip : growing (tracker_mem_storage_ip_changed conf p old_ip new_ip).
Proof. unfold tracker_mem_storage_ip_changed, save_files. grow. Qed.

Lemma sync_storages_growing p l : growing (tracker_mem_sync_storages conf p l).
Proof.
  unfold tracker_mem_sync_storages. generalize 0. induction l as [|b l IH]; intros r; cbn [sync_storages_from]; [grow|].
  apply growing_bind; [|intros ?; apply IH]. unfold sync_one_storage. grow.
Qed.

Lemma active_store_server_growing p i : growing (tracker_mem_active_store_server conf p i).
Proof. unfold tracker_mem_active_store_server. grow. apply growing_with_group, grows_field. intros g. apply find_store_servers. Qed.

Lemma offline_store_server_growing p i : growing (tracker_mem_offline_store_server conf p i).
Proof. unfold tracker_mem_offline_store_server. grow. apply growing_with_group. intros g. by rewrite deactive_servers. Qed.

Lemma set_trunk_server_growing p id : growing (tracker_mem_set_trunk_server conf p id).
Proof. unfold tracker_mem_set_trunk_server. grow. Qed.

Lemma get_writable_growing p : growing (tracker_get_writable_storage conf p).
Proof. unfold tracker_get_writable_storage. grow. Qed.

Lemma deactivate_all_growing l : grows_group (fun g => foldl (fun g i => deactivate_idle conf i g) g l).
Proof.
  induction l as [|i l IH]; intros g; [done|]. cbn. etrans; [|apply IH]. unfold deactivate_idle. by rewrite deactive_servers, length_with_server.
Qed.

Lemma check_idle_growing now l : growing (check_idle conf now l).
Proof.
  induction l as [|p l IH]; cbn [check_idle]; [grow|]. apply growing_bind; [|intros ?; apply IH].
  apply growing_with_group. intros g. apply deactivate_all_growing.
Qed.

Lemma replace_trunk_server_growing p : growing (replace_trunk_server p).
Proof. unfold replace_trunk_server, inc_trunk_server_chg_count, save_files. grow. Qed.
#[local] Hint Resolve check_idle_growing replace_trunk_server_growing : growing.

Lemma check_trunk_servers_growing now l : growing (check_trunk_servers conf now l).
Proof. induction l as [|p l IH]; cbn [check_trunk_servers]; grow. Qed.
#[local] Hint Resolve check_trunk_servers_growing : growing.

Lemma check_alive_growing : growing (tracker_mem_check_alive conf).
Proof. unfold tracker_mem_check_alive. grow. Qed.

Lemma find_trunk_servers_growing : growing (tracker_mem_find_trunk_servers conf).
Proof.
  assert (forall l, growing (find_trunk_servers_of l)) as H by (induction l as [|p l IH]; cbn [find_trunk_servers_of]; grow).
  unfold tracker_mem_find_trunk_servers, inc_trunk_server_chg_count. grow.
Qed.
End ops.

(** ** What a handler keeps. *)

(** Group [p] is in use and has [n] servers. *)
Definition valid (p n : nat) (s : TrackerMem) : Prop := in_use p s /\ (n <= length (g_all_servers (heap s !!! p)))%nat.

Definition since (s0 s : TrackerMem) : Prop := state_ok s /\ grows s0 s.

Lemma valid_has p i s : valid p (S i) s <-> has_server p i s.
Proof. done. Qed.

Lemma valid_in_use p s : in_use p s -> valid p 0 s.
Proof. intros H. split; [done|lia]. Qed.

Lemma valid_ok p n s : valid p n s -> state_ok s.
Proof. by intros [[] _]. Qed.

Lemma valid_group p n s : valid p n s -> group_ok (heap s !!! p).
Proof. intros Hv. by eapply heap_group_ok, valid_ok. Qed.

Lemma since_refl s : state_ok s -> since s s.
Proof. by split. Qed.

Lemma since_trans s1 s2 s3 : since s1 s2 -> since s2 s3 -> since s1 s3.
Proof. intros [_ H1] [H2 H3]. split; [done|]. by etrans. Qed.

Lemma since_valid p n s0 s : valid p n s0 -> since s0 s -> valid p n s.
Proof.
  intros [[_ Hp] Hn] [Hs [H1 H2]]. split; [split; auto|]. etrans; [exact Hn|by apply H2].
Qed.

(** A call that keeps the state in order from any state that it may start in. *)
Lemma since_run {A} p n (c : M TrackerMem A) s0 : (valid p n s0 -> keeps (since s0) c) -> valid p n s0 -> since s0 (c s0).2.
Proof. intros Hc Hv. apply Hc; [done|]. by eapply since_refl, valid_ok. Qed.

Lemma since_restart {A} s0 (c : M TrackerMem A) : (forall s, since s0 s -> since s (c s).2) -> keeps (since s0) c.
Proof. intros Hc s Hs. eapply since_trans; [exact Hs|]. by apply Hc. Qed.

Lemma since_op {A} p n s0 (c : M TrackerMem A) : valid p n s0 -> keeps (in_use p) c -> growing c -> keeps (since s0) c.
Proof.
  intros Hv Hc Hg s Hs. pose proof (since_valid _ _ _ _ Hv Hs) as [Hu _]. destruct Hs as [Hs Hgr].
  split; [by apply Hc|]. etrans; [exact Hgr|apply Hg].
Qed.

Lemma since_syscall s0 : keeps (since s0) syscall.
Proof.
  intros s [Hs Hg]. split; [|etrans; [exact Hg|apply growing_syscall]]. unfold syscall. destruct (syscalls s); [done|].
  by apply (state_ok_same s).
Qed.

Lemma since_modify s0 f : (forall s, same_groups s (f s)) -> keeps (since s0) (modify f).
Proof.
  intros Hf s [Hs Hg]. split; [by apply (state_ok_same s); [apply Hf|]|]. etrans; [exact Hg|]. by apply grows_same.
Qed.

(** A change of the group that keeps its shape when it has [n] servers. *)
Definition good_at (n : nat) (f : FDFSGroupInfo -> FDFSGroupInfo) : Prop :=
  forall g, group_ok g -> (n <= length (g_all_servers g))%nat ->
    group_ok (f g) /\ g_group_name (f g) = g_group_name g /\ (length (g_all_servers g) <= length (g_all_servers (f g)))%nat.

Lemma since_with_group p n s0 f : valid p n s0 -> good_at n f -> keeps (since s0) (with_group p f).
Proof.
  intros Hv Hf s Hs. pose proof (since_valid _ _ _ _ Hv Hs) as [[Hok Hp] Hn].
  destruct (Hf _ (heap_group_ok s p Hok) Hn) as (H1 & H2 & H3). eapply since_trans; [exact Hs|]. split; [by apply with_group_ok|].
  split; [done|]. intros q Hq. rewrite with_group_heap. case_decide; [by subst|done].
Qed.

Lemma since_group {A} p n s0 (k : FDFSGroupInfo -> M TrackerMem A) :
  valid p n s0 -> (forall s, valid p n s -> keeps (since s) (k (heap s !!! p))) -> keeps (since s0) (bind (group p) k).
Proof.
  intros Hv Hk. apply since_restart. intros s Hs. apply (Hk s); [by eapply since_valid|].
  by apply since_refl, Hs.
Qed.

Lemma good_at_server n i f : tame f -> good_at n (with_server i f).
Proof. intros Hf g Hg Hn. split; [by apply with_server_ok|]. split; [done|]. by rewrite length_with_server. Qed.

Lemma good_at_compose n f h : good_at n f -> good_at n h -> good_at n (fun g => f (h g)).
Proof.
  intros Hf Hh g Hg Hn. destruct (Hh g Hg Hn) as (H1 & H2 & H3). destruct (Hf (h g) H1) as (H4 & H5 & H6); [lia|].
  split; [done|]. split; [congruence|lia].
Qed.

Lemma good_at_inc n : good_at n inc_chg_count.
Proof. intros g Hg Hn. split; [by apply inc_chg_count_ok|done]. Qed.

Create HintDb since.
#[export] Hint Resolve keeps_ret keeps_gets since_syscall good_at_inc : since.

(** Fields that the shape of a group does not depend on. *)
Ltac plain_field := intros g [] ?; split; [by split|split; [done|cbn; lia]].
Ltac good_change := first [apply good_at_inc | apply good_at_server; solve_tame | plain_field |
  apply good_at_compose; [apply good_at_inc|apply good_at_server; solve_tame]].
Ltac kept := repeat first [solve [auto 2 with since] | simple apply keeps_if | simple apply since_modify; done |
  simple eapply since_with_group; [eassumption|good_change] |
  simple eapply since_group; [eassumption|intros ? ?] |
  simple apply keeps_bind; [|intros ?] | progress cbn zeta |
  match goal with |- keeps _ (match ?x with _ => _ end) => destruct x end].

(** ** What a query for an upload chooses. *)
Section choice.
Context (conf : TrackerMemConf).

Lemma first_such_Some fits l k : first_such fits l = Some k -> k ∈ l /\ fits k = true.
Proof.
  induction l as [|x l IH]; cbn; [done|]. destruct (fits x) eqn:E; [intros [= <-]; split; [apply list_elem_of_here|done]|].
  intros Hk. destruct (IH Hk). split; [by apply elem_of_cons; right|done].
Qed.

Lemma choose_group_range s k current :
  (0 < length (sorted_groups s))%nat -> choose_group conf s = inr (k, current) -> (k < length (sorted_groups s))%nat.
Proof.
  intros Hn. unfold choose_group. set (n := length (sorted_groups s)) in *. cbn zeta.
  set (w := if Z.of_nat n <=? current_write_group s then 0%nat else Z.to_nat (current_write_group s)).
  assert (w < n)%nat as Hw by (unfold w; destruct (Z.leb_spec (Z.of_nat n) (current_write_group s)); lia).
  destruct (_ && _); [by intros [= <- _]|].
  destruct (first_such _ (seq (S w) _)) eqn:E1; [apply first_such_Some in E1 as [E1%elem_of_seq _]; intros [= <- _]; lia|].
  destruct (first_such _ (seq 0 w)) eqn:E2; [apply first_such_Some in E2 as [E2%elem_of_seq _]; intros [= <- _]; lia|].
  destruct (negb _); [done|]. destruct (negb _); [done|].
  destruct (first_such _ (seq 0 n)) eqn:E3; [apply first_such_Some in E3 as [E3%elem_of_seq _]; intros [= <- _]; lia|done].
Qed.

Lemma sorted_group_in s k : (k < length (sorted_groups s))%nat -> sorted_groups s !!! k ∈ sorted_groups s.
Proof. intros Hk. apply lookup_lt_is_Some_2 in Hk as [p Hp]. rewrite (list_lookup_total_correct _ _ _ Hp). by eapply list_elem_of_lookup_2. Qed.

(** The current group changes, nothing else. *)
Lemma write_group_ok s x : 0 <= x -> state_ok s -> state_ok (set_current_write_group x s).
Proof. intros Hx []. by split. Qed.

Lemma pick_group_spec name s :
  (0 < count s)%nat -> state_ok s ->
  let '(r, s') := pick_group conf name s in
  (exists x, 0 <= x /\ s' = set_current_write_group x s) /\ forall p, r = inr p -> in_use p s.
Proof.
  intros Hn Hs.
  assert (0 < length (sorted_groups s))%nat as Hlen.
  { rewrite (ok_groups_perm s Hs), length_take. pose proof (ok_count s Hs). lia. }
  assert (exists x, 0 <= x /\ s = set_current_write_group x s) as Hsame.
  { exists (current_write_group s). split; [apply Hs|by destruct s]. }
  unfold pick_group. unfold bind at 1, gets at 1. destruct name as [name|].
  - destruct (tracker_mem_get_group_ex name (id s)) as [p|] eqn:E; [|done]. cbn. split; [done|].
    intros q Hq. case_match; [|done]. simplify_eq. apply get_group_spec in E as [Hp _]; [|done]. by split.
  - destruct (_ || _).
    + destruct (choose_group conf (id s)) as [e|[k current]] eqn:E; [done|]. apply choose_group_range in E; [|done].
      assert (forall q, (inr (sorted_groups s !!! k) : Z + nat) = inr q -> in_use q s) as Hq.
      { intros q [= <-]. split; [done|by apply sorted_group_in]. }
      pose proof (ok_write_group s Hs). unfold bind, modify, ret, next_group, id.
      destruct current, (store_lookup conf =? FDFS_STORE_LOOKUP_ROUND_ROBIN); (split; [|exact Hq]); try exact Hsame;
        (eexists; split; [|by destruct s]); cbn; try (destruct (_ <=? _)); lia.
    + destruct (store_lookup conf =? FDFS_STORE_LOOKUP_SPEC_GROUP); [|done].
      destruct (pStoreGroup (id s)) as [p|] eqn:E; [|done]. cbn. split; [done|].
      intros q Hq. case_match; [|done]. simplify_eq. split; [done|by apply (ok_store_group s Hs)].
Qed.

Lemma choose_path_current g st r current k : choose_path conf g st = (r, current) -> current = Some k -> 0 <= k.
Proof.
  unfold choose_path. cbn zeta. repeat case_match; intros [= <- <-] Hk; try done; [injection Hk as <-; lia..|].
  apply fmap_Some in Hk as (i & _ & ->). lia.
Qed.

Lemma next_path_tame n : tame (next_path n).
Proof. intros st. unfold next_path. repeat split; cbn; auto. intros ?. destruct (_ <=? _); lia. Qed.
End choice.

Section handlers.
Context `{FastCommon} (conf : TrackerMemConf) (client_ip : bytes) (leader : option ConnectionInfo) (task_size : Z).
Context (Hids : ids_short conf) (Hip : IP_ADDRESS_SIZE conf = 16) (Hclient : (length client_ip < 16)%nat).

(** A handler that starts with the name of a group. *)
Definition sound {A} (c : M TrackerMem A) : Prop := forall s, state_ok s -> since s (c s).2.

Lemma sound_same {A} (c : M TrackerMem A) : (forall s, (c s).2 = s) -> sound c.
Proof. intros Hc s Hs. rewrite Hc. by apply since_refl. Qed.

Lemma in_group_sound {A} name (k : nat -> M TrackerMem (Z * A)) none :
  (forall p s, valid p 0 s -> keeps (since s) (k p)) -> sound (in_group name k none).
Proof.
  intros Hk s Hs. unfold in_group. unfold bind at 1, gets at 1.
  destruct (tracker_mem_get_group_ex name s) as [p|] eqn:E; [|by apply since_refl].
  apply get_group_spec in E as [Hp _]; [|done]. apply (Hk p); [by apply valid_in_use|by apply since_refl].
Qed.

Lemma check_and_sync_keeps c status p i s0 :
  ci_pGroup c = Some p -> ci_pStorage c = Some i -> valid p (S i) s0 -> keeps (since s0) (tracker_check_and_sync conf client_ip leader c status).
Proof.
  intros Ep Ei Hv. unfold tracker_check_and_sync, leader_change, trunk_change, group_change. rewrite Ep, Ei. kept.
Qed.

Lemma changelog_response_keeps p i s0 : valid p 0 s0 -> keeps (since s0) (tracker_changelog_response p i).
Proof. intros Hv. unfold tracker_changelog_response, read_changelog, save_files, answer. kept. Qed.

(** *** Functions of the tracker memory. *)
Lemma active_keeps p i s0 : valid p (S i) s0 -> keeps (since s0) (tracker_mem_active_store_server conf p i).
Proof.
  intros Hv s Hs. pose proof (since_valid _ _ _ _ Hv Hs) as Hh. eapply since_trans; [exact Hs|].
  split; [by apply active_store_server_keeps|apply active_store_server_growing].
Qed.

Lemma save_keeps s0 : keeps (since s0) save_files.
Proof. apply since_syscall. Qed.

Lemma cstr_take_length n l : (length (cstr (take n l)) <= n)%nat.
Proof.
  assert (forall b, (length (cstr b) <= length b)%nat) as H0.
  { intros b. induction b as [|x b IH]; cbn [cstr]; [done|]. case_decide; cbn; lia. }
  etrans; [apply H0|]. rewrite length_take. lia.
Qed.

Lemma brief_of_bytes_ok b : brief_ok (brief_of_bytes conf b).
Proof.
  split; cbn; (eapply Nat.le_lt_trans; [apply cstr_take_length|]); rewrite ?Hip; lia.
Qed.

Lemma briefs_ok l : Forall brief_ok (brief_of_bytes conf <$> l).
Proof. apply Forall_fmap, Forall_forall. intros b _. apply brief_of_bytes_ok. Qed.

Lemma max_group_keeps s0 : keeps (since s0) (modify (tracker_find_max_free_space_group conf)).
Proof.
  assert (forall k s, since s0 s -> since s0 (set_current_write_group (Z.of_nat k) s)) as Hset.
  { intros k s [Hs Hg]. split; [destruct Hs; split; try done; cbn; lia|]. etrans; [exact Hg|]. split; done. }
  intros s Hs. cbn. unfold tracker_find_max_free_space_group. repeat case_match; auto.
Qed.
#[local] Hint Resolve save_keeps max_group_keeps : since.

(** *** Handlers that name a group. *)
Lemma replica_chg_keeps p body s0 : valid p 0 s0 -> keeps (since s0) (tracker_deal_storage_replica_chg conf p body).
Proof.
  intros Hv. unfold tracker_deal_storage_replica_chg, answer. kept.
  eapply since_op; [eassumption|apply sync_storages_keeps; [done|apply briefs_ok]|apply sync_storages_growing].
Qed.

Lemma report_status_sound body : sound (tracker_deal_storage_report_status conf body).
Proof.
  unfold tracker_deal_storage_report_status, answer. case_match; [by apply sound_same|]. apply in_group_sound. intros p s Hv.
  apply keeps_bind; [|intros ?; kept]. eapply since_op; [eassumption|apply sync_storages_keeps; [done|apply (briefs_ok [_])]|apply sync_storages_growing].
Qed.

Lemma delete_storage_sound body : sound (tracker_deal_server_delete_storage body).
Proof.
  unfold tracker_deal_server_delete_storage, answer. case_match; [by apply sound_same|]. apply in_group_sound. intros p s Hv. kept.
  eapply since_op; [eassumption|apply delete_storage_keeps|apply delete_storage_growing].
Qed.

Lemma set_trunk_server_sound body : sound (tracker_deal_server_set_trunk_server conf body).
Proof.
  unfold tracker_deal_server_set_trunk_server, answer. case_match; [by apply sound_same|]. apply in_group_sound. intros p s Hv.
  apply keeps_bind; [eapply since_op; [eassumption|apply set_trunk_server_keeps|apply set_trunk_server_growing]|]. intros [e o]. kept.
Qed.

Lemma get_status_sound body : sound (tracker_deal_server_get_storage_status conf client_ip body).
Proof. unfold tracker_deal_server_get_storage_status, answer. case_match; [by apply sound_same|]. apply in_group_sound. intros p s Hv. kept. Qed.

(** The code does not check that the old address is of no active server. *)
Definition ip_change_safe (body : bytes) (s : TrackerMem) : Prop :=
  forall p i, tracker_mem_get_group_ex (body_group_name body) s = Some p ->
    tracker_mem_get_storage (heap s !!! p) (cstr (take 15 (drop 16 body))) = Some i -> i ∉ g_active_servers (heap s !!! p).

Lemma report_ip_changed_sound body s :
  ip_change_safe body s -> state_ok s -> since s (tracker_deal_storage_report_ip_changed conf client_ip body s).2.
Proof.
  intros Hsafe Hs. unfold tracker_deal_storage_report_ip_changed, answer. cbn zeta. rewrite Hip.
  destruct (g_use_storage_id conf); [by apply since_refl|]. case_match; [by apply since_refl|].
  unfold in_group. unfold bind at 1, gets at 1. destruct (tracker_mem_get_group_ex _ s) as [p|] eqn:E; [|by apply since_refl].
  destruct (memcmp _ _ =? 0) eqn:Eip; cbn [negb]; [|by apply since_refl].
  apply Z.eqb_eq, memcmp_eq_0 in Eip. unfold bind, ret.
  pose proof (storage_ip_changed_growing conf p (cstr (take (Z.to_nat 16 - 1) (drop 16 body))) (cstr (take (Z.to_nat 16 - 1) (drop (16 + Z.to_nat 16) body))) s) as Hg.
  assert (in_use p s) as Hu by (apply get_group_spec in E as [Hp _]; done).
  assert (in_use p (tracker_mem_storage_ip_changed conf p (cstr (take (Z.to_nat 16 - 1) (drop 16 body))) (cstr (take (Z.to_nat 16 - 1) (drop (16 + Z.to_nat 16) body))) s).2) as [Hok _].
  { apply storage_ip_changed_keeps; [done|by rewrite Eip| |done]. intros i Hi. by apply (Hsafe p i). }
  destruct (tracker_mem_storage_ip_changed _ _ _ _ _) as [e s']. by split.
Qed.

(** *** Handlers of a server that has joined. *)
Lemma report_trunk_fid_keeps p i body s0 : valid p 0 s0 -> keeps (since s0) (tracker_deal_report_trunk_fid p i body).
Proof. intros Hv. unfold tracker_deal_report_trunk_fid, answer. kept. Qed.

Lemma report_trunk_free_keeps p i body s0 : valid p 0 s0 -> keeps (since s0) (tracker_deal_report_trunk_free_space conf p i body).
Proof. intros Hv. unfold tracker_deal_report_trunk_free_space, answer. kept. Qed.

Lemma change_status_keeps p i body s0 : valid p 0 s0 -> keeps (since s0) (tracker_deal_storage_change_status p i body).
Proof. intros Hv. unfold tracker_deal_storage_change_status, answer. kept. Qed.

(** A server gets another one as its source. *)
Lemma good_at_source n i o (f : FDFSStorageDetail -> FDFSStorageDetail) :
  (forall j, o = Some j -> (j < n)%nat) -> tame f ->
  good_at n (fun g => inc_chg_count (with_server i (fun st => f (set_s_psync_src_server o st)) g)) /\
  good_at n (with_server i (set_s_psync_src_server o)).
Proof.
  intros Ho Hf.
  assert (forall h, tame h -> good_at n (with_server i (fun st => h (set_s_psync_src_server o st)))) as Hgood.
  { intros h Hh g Hg Hn. split; [|split; [done|by rewrite length_with_server]]. apply group_ok_servers; [done|by rewrite length_alter| |].
    - intros j Hj. change (server_id (with_server i (fun st => h (set_s_psync_src_server o st)) g) j = server_id g j).
      unfold server_id. rewrite server_with_server. case_decide as E; [|done]. destruct E as [-> _].
      by destruct (Hh (set_s_psync_src_server o (server g i))) as [-> _].
    - rewrite length_alter. apply Forall_alter; [apply Hg|]. intros st _ Hst. apply (tame_ok _ _ h); [done|].
      destruct Hst as (H1 & H2 & _ & H4 & H5). split_and!; try done. cbn. intros j Hj. specialize (Ho j Hj). lia. }
  split; [|apply (Hgood id); solve_tame]. apply (good_at_compose n inc_chg_count); [apply good_at_inc|by apply Hgood].
Qed.

Lemma sync_notify_keeps c body s0 :
  (forall p i, ci_pGroup c = Some p -> ci_pStorage c = Some i -> valid p (S i) s0) -> keeps (since s0) (tracker_deal_storage_sync_notify c body).
Proof.
  intros Hv. unfold tracker_deal_storage_sync_notify. cbn zeta. apply keeps_if; [kept|].
  destruct (ci_pGroup c) as [p|]; [|kept]. destruct (ci_pStorage c) as [i|]; [|kept]. specialize (Hv p i eq_refl eq_refl).
  eapply since_group; [exact Hv|]. intros s Hs. apply keeps_if; [kept|]. apply keeps_bind; [kept|]. intros _.
  destruct (s_psync_src_server _); [kept|]. set (src := tracker_mem_get_storage _ _). apply keeps_bind.
  - assert (forall j, src = Some j -> (j < length (g_all_servers (heap s !!! p)))%nat) as Hsrc.
    { intros j Hj. apply get_storage_spec in Hj as [Hj _]; [done|by eapply valid_group]. }
    eapply (since_with_group p (length (g_all_servers (heap s !!! p)))); [split; [apply Hs|done]|].
    apply (good_at_source _ i src id); [done|solve_tame].
  - intros _. kept.
Qed.

Lemma sync_src_req_sound body : sound (tracker_deal_storage_sync_src_req body).
Proof.
  unfold tracker_deal_storage_sync_src_req, answer. case_match; [by apply sound_same|]. apply in_group_sound. intros p s Hv. kept.
Qed.

Lemma sync_src_server_ok g i j : group_ok g -> tracker_get_group_sync_src_server g i = Some j -> (j < length (g_all_servers g))%nat.
Proof.
  intros Hg E. unfold tracker_get_group_sync_src_server in E. apply head_Some_elem_of in E. apply list_elem_of_filter in E as [_ E].
  by apply active_elem.
Qed.

Lemma sync_dest_req_keeps p i body s0 : valid p (S i) s0 -> keeps (since s0) (tracker_deal_storage_sync_dest_req p i body).
Proof.
  intros Hv. unfold tracker_deal_storage_sync_dest_req, answer. apply keeps_bind; [kept|]. intros t.
  eapply since_group; [exact Hv|]. intros s Hs. cbn zeta. apply keeps_if; [kept|]. apply keeps_if; [kept|].
  destruct (tracker_get_group_sync_src_server _ i) as [j|] eqn:E; [|kept]. apply sync_src_server_ok in E; [|by eapply valid_group].
  repeat (apply keeps_bind; [|intros ?]); [|kept..].
  eapply (since_with_group p (length (g_all_servers (heap s !!! p)))); [split; [apply Hs|done]|].
  apply (good_at_source _ i (Some j) (fun st => set_s_status FDFS_STORAGE_STATUS_WAIT_SYNC (set_s_sync_until_timestamp t st))); [naive_solver|solve_tame].
Qed.

(** *** Reports. *)
Lemma good_at_timestamp n i j t : good_at n (set_last_sync_timestamp i j t).
Proof.
  intros g [] Hn. split; [|done]. split; try done; cbn; [by rewrite length_alter|].
  apply Forall_alter; [done|]. intros row _ Hrow. by rewrite length_insert.
Qed.

Lemma sync_records_keeps f p i l acc s0 : valid p 0 s0 -> keeps (since s0) (sync_records f p i acc l).
Proof.
  revert acc s0. induction l as [|r l IH]; intros acc s0 Hv; cbn [sync_records]; [kept|].
  eapply since_group; [exact Hv|]. intros s Hs. destruct (sync_source _ i r) as [j|]; [|by apply IH].
  apply keeps_bind; [|intros ?; by apply IH]. eapply since_with_group; [exact Hs|apply good_at_timestamp].
Qed.

Lemma valid_le p n m s : (m <= n)%nat -> valid p n s -> valid p m s.
Proof. intros Hm [Hu Hn]. split; [done|lia]. Qed.

(** The client of a request has joined as server [i] of group [p]. *)
Definition logined (c : TrackerClientInfo) (p i : nat) : Prop := ci_pGroup c = Some p /\ ci_pStorage c = Some i.

Lemma sync_report_keeps c p i body s0 :
  logined c p i -> valid p (S i) s0 -> keeps (since s0) (tracker_deal_storage_sync_report conf client_ip leader c p i body).
Proof.
  intros [Ep Ei] Hv. unfold tracker_deal_storage_sync_report. cbn zeta. apply keeps_if; [kept|].
  eapply since_group; [exact Hv|]. intros s Hs. apply keeps_bind; [|intros ?; by eapply check_and_sync_keeps].
  apply keeps_if; [kept|]. pose proof (valid_le p (S i) 0 s ltac:(lia) Hs) as H0.
  apply keeps_bind; [|intros ?; kept]. apply keeps_if; (apply keeps_bind; [by apply sync_records_keeps|intros t; kept]).
Qed.

Lemma report_path_tame k b : tame (report_path conf k b).
Proof. intros st. unfold report_path. cbn zeta. case_match; repeat split; cbn; rewrite ?length_insert; auto with lia. Qed.

Lemma report_paths_tame l : tame (report_paths conf l).
Proof.
  unfold report_paths. generalize (imap pair l). intros l'. set (step := fun st '(k, b) => report_path conf k b st).
  apply (tame_compose (fun st => foldl step st l') (fun st => set_s_free_mb 0 (set_s_total_mb 0 st))); [|solve_tame].
  induction l' as [|[k b] l' IH]; [solve_tame|]. cbn [foldl].
  apply (tame_compose (fun st => foldl step st l') (report_path conf k b)); [exact IH|apply report_path_tame].
Qed.

Definition free_space (a b : Z) (g : FDFSGroupInfo) : FDFSGroupInfo := set_g_free_mb a (set_g_total_mb b g).

Lemma find_min_free g : exists a b, tracker_find_min_free_space g = free_space a b g.
Proof.
  unfold tracker_find_min_free_space. destruct (g_active_servers g) as [|i l]; [exists (g_free_mb g), (g_total_mb g); by destruct g|].
  change (set_g_free_mb ?a (set_g_total_mb ?b g)) with (free_space a b g). generalize (s_free_mb (server g i)) (s_total_mb (server g i)).
  induction l as [|j l IH]; intros a b; [by exists a, b|]. cbn [foldl].
  case_match; [apply (IH (s_free_mb (server g j)) (s_total_mb (server g j)))|apply IH].
Qed.

Lemma good_at_free n f : (forall g, exists a b, f g = free_space a b g) -> good_at n f.
Proof. intros Hf g [] Hn. destruct (Hf g) as (a & b & ->). split; [by split|done]. Qed.

Lemma df_report_keeps c p i body s0 :
  logined c p i -> valid p (S i) s0 -> keeps (since s0) (tracker_deal_storage_df_report conf client_ip leader c p i body).
Proof.
  intros [Ep Ei] Hv. unfold tracker_deal_storage_df_report. eapply since_group; [exact Hv|]. intros s Hs. cbn zeta.
  apply keeps_if; [kept|]. apply keeps_bind; [eapply since_with_group; [exact Hs|apply good_at_server, report_paths_tame]|intros _].
  apply keeps_bind.
  { eapply since_with_group; [exact Hs|]. apply good_at_free. intros g. case_match; [by eexists _, _|]. case_match; [apply find_min_free|].
    exists (g_free_mb g), (g_total_mb g). by destruct g. }
  intros _. apply keeps_bind; [kept|intros _]. apply keeps_bind; [by apply active_keeps|intros _]. by eapply check_and_sync_keeps.
Qed.

Lemma beat_keeps c p i body s0 :
  logined c p i -> valid p (S i) s0 -> keeps (since s0) (tracker_deal_storage_beat conf client_ip leader c p i body).
Proof.
  intros [Ep Ei] Hv. unfold tracker_deal_storage_beat. apply keeps_bind; [kept|intros e].
  apply keeps_bind; [|intros _; by eapply check_and_sync_keeps]. apply keeps_if; [|kept].
  apply keeps_bind; [by apply active_keeps|intros _]. kept.
Qed.

Lemma changelog_req_sound c body s :
  (forall p i, ci_pGroup c = Some p -> ci_pStorage c = Some i -> valid p (S i) s) -> state_ok s -> since s (tracker_deal_changelog_req c body s).2.
Proof.
  intros Hv Hs. unfold tracker_deal_changelog_req, answer.
  assert (sound (if negb (length body =? 32)%nat then ret (EINVAL, []) else
    in_group (body_group_name body) (fun p => bind (group p) (fun g => match tracker_mem_get_storage g (body_id body) with
      | None => ret (ENOENT, []) | Some i => tracker_changelog_response p i end)) [])) as Hlook.
  { case_match; [by apply sound_same|]. apply in_group_sound. intros p s1 Hs1. eapply since_group; [exact Hs1|]. intros s2 Hs2.
    case_match; [by apply changelog_response_keeps|kept]. }
  destruct (ci_pGroup c) as [p|]; [|by apply Hlook]. destruct (ci_pStorage c) as [i|]; [|by apply Hlook].
  destruct (negb (length body =? 0)%nat); [by apply since_refl|]. specialize (Hv p i eq_refl eq_refl). apply (changelog_response_keeps p i s); [|by apply since_refl].
  by eapply valid_le; [|exact Hv]; lia.
Qed.

(** *** Queries of clients. *)
Lemma get_writable_since p s0 : valid p 0 s0 -> keeps (since s0) (tracker_get_writable_storage conf p).
Proof. intros Hv. eapply since_op; [exact Hv|apply get_writable_storage_keeps|apply get_writable_growing]. Qed.

Lemma query_storage_sound name all : sound (query_storage conf name all).
Proof.
  intros s Hs. unfold query_storage. unfold bind at 1, gets at 1. destruct (Nat.eqb_spec (count s) 0); [by apply since_refl|].
  pose proof (pick_group_spec conf name s ltac:(lia) Hs) as Hpick. unfold bind at 1. destruct (pick_group conf name s) as [r s1].
  destruct Hpick as [(x & Hx & ->) Hp]. assert (since s (set_current_write_group x s)) as H1 by (split; [by apply write_group_ok|done]).
  destruct r as [e|p]; [done|]. eapply since_trans; [exact H1|].
  assert (valid p 0 (set_current_write_group x s)) as Hv.
  { apply valid_in_use. split; [by apply write_group_ok|]. by apply (Hp p). }
  set (s1 := set_current_write_group x s) in *. clearbody s1. apply (since_run p 0); [|exact Hv]. intros _.
  eapply since_group; [exact Hv|]. intros s2 Hs2. apply keeps_if; [kept|].
  apply keeps_bind; [apply keeps_if; [kept|by apply get_writable_since]|]. intros [i|]; [|kept].
  destruct (choose_path conf _ _) as [r current] eqn:E. pose proof (fun k => choose_path_current conf _ _ _ _ k E) as Hcur.
  apply keeps_bind; [destruct current as [k|]; [|kept]; eapply since_with_group; [exact Hs2|]; specialize (Hcur k eq_refl);
    apply good_at_server; solve_tame|intros _].
  destruct r as [e|k]; [kept|]. apply keeps_bind; [apply keeps_if; [|kept]|intros _; kept].
  eapply since_with_group; [exact Hs2|apply good_at_server, next_path_tame].
Qed.

Lemma deal_query_storage_sound with_name all body : sound (tracker_deal_service_query_storage conf client_ip with_name all body).
Proof.
  intros s Hs. unfold tracker_deal_service_query_storage, answer. destruct (negb _); [by apply since_refl|].
  pose proof (query_storage_sound (if with_name then Some (cstr body) else None) all s Hs) as H1. unfold bind at 1.
  destruct (query_storage _ _ _ s) as [[e|a] s1]; exact H1.
Qed.

Lemma good_at_read n : good_at n next_read_server.
Proof.
  intros g [] Hn. split; [|done]. split; try done. cbn. destruct (_ <=? _); lia.
Qed.

Context (INFINITE_FILE_SIZE : Z).

Lemma deal_fetch_sound cmd body : sound (tracker_deal_service_query_fetch_update conf client_ip INFINITE_FILE_SIZE cmd body).
Proof.
  unfold tracker_deal_service_query_fetch_update, answer. destruct (_ || _); [by apply sound_same|].
  assert (forall name filename, sound (tracker_mem_get_storage_by_filename conf INFINITE_FILE_SIZE cmd name filename)) as Hf.
  { intros name filename s Hs. unfold tracker_mem_get_storage_by_filename. unfold bind at 1, gets at 1.
    destruct (tracker_mem_get_group_ex name s) as [p|] eqn:E; [|by apply since_refl]. apply get_group_spec in E as [Hp _]; [|done].
    assert (valid p 0 s) as Hv by (by apply valid_in_use). apply (since_run p 0); [|exact Hv]. intros _.
    eapply since_group; [exact Hv|]. intros s1 Hs1. destruct (g_active_servers _); [kept|]. destruct (g_pStoreServer _) as [w|]; [|kept].
    cbn zeta. apply keeps_bind; [|intros ?; kept]. unfold fetch_one, query_update.
    apply keeps_if; [|apply keeps_if].
    - apply keeps_bind; [kept|intros now]. eapply since_group; [exact Hs1|]. intros s2 Hs2. case_match; [kept|].
      cbn zeta. apply keeps_bind; [|intros ?; kept]. eapply since_with_group; [exact Hs2|apply good_at_read].
    - eapply since_group; [exact Hs1|]. intros s2 Hs2. case_match; [kept|].
      apply keeps_bind; [by apply get_writable_since|intros ?; kept].
    - kept. }
  intros s Hs. specialize (Hf (body_group_name body) (drop 16 body) s Hs). unfold bind at 1.
  destruct (tracker_mem_get_storage_by_filename _ _ _ _ _ s) as [[e|[p l]] s1]; exact Hf.
Qed.

(** *** A server that joins. *)
Lemma set_by_id_good n sid f : tame f -> good_at n (update_by_id sid f).
Proof.
  intros Hf g Hg Hn. unfold update_by_id. destruct (list_find _ _) as [[i st]|]; [|done]. by apply (good_at_server n i f Hf).
Qed.

Lemma unless_error_keeps s0 (c k : M TrackerMem Z) : keeps (since s0) c -> keeps (since s0) k -> keeps (since s0) (unless_error c k).
Proof. intros Hc Hk. unfold unless_error. apply keeps_bind; [done|]. intros e. by apply keeps_if; [apply keeps_ret|]. Qed.

Lemma adjust_storage_port_keeps p sid new_port s0 : valid p 0 s0 -> keeps (since s0) (adjust_storage_port p sid new_port).
Proof.
  intros Hv. unfold adjust_storage_port, adjust_port. eapply since_group; [exact Hv|]. intros s Hs.
  apply keeps_if; [kept|]. apply keeps_if; [kept|]. apply keeps_bind; [|intros _; kept].
  eapply since_with_group; [exact Hs|]. apply set_by_id_good. solve_tame.
Qed.

Lemma adjust_http_port_keeps p sid new_port s0 : valid p 0 s0 -> keeps (since s0) (adjust_storage_http_port p sid new_port).
Proof.
  intros Hv. unfold adjust_storage_http_port, adjust_port. eapply since_group; [exact Hv|]. intros s Hs.
  apply keeps_if; [kept|]. apply keeps_if; [kept|]. apply keeps_bind; [|intros _; kept].
  eapply since_with_group; [exact Hs|]. apply set_by_id_good. solve_tame.
Qed.

(** New disk arrays for all servers. *)
Lemma good_at_paths n m (f : FDFSStorageDetail -> FDFSStorageDetail) :
  (forall st, s_id (f st) = s_id st /\ length (s_path_total_mbs (f st)) = Z.to_nat m /\ length (s_path_free_mbs (f st)) = Z.to_nat m /\
    s_psync_src_server (f st) = s_psync_src_server st /\ s_current_write_path (f st) = s_current_write_path st) ->
  good_at n (fun g => set_g_store_path_count m (set_g_all_servers (f <$> g_all_servers g) g)).
Proof.
  intros Hf g Hg Hn. split; [|split; [done|cbn; by rewrite length_fmap]]. apply group_ok_paths; [done|by rewrite length_fmap| |].
  - intros i Hi. apply lookup_lt_is_Some_2 in Hi as [st Hst]. unfold server_id, server.
    rewrite !list_lookup_total_alt, list_lookup_fmap, Hst. cbn. apply Hf.
  - rewrite length_fmap. apply Forall_fmap. eapply Forall_impl; [apply (ok_servers g Hg)|].
    intros st (_ & _ & H3 & H4). destruct (Hf st) as (E1 & E2 & E3 & E4 & E5). unfold compose, server_ok. by rewrite E1, E2, E3, E4, E5.
Qed.

Lemma adjust_store_path_count_keeps p m s0 : valid p 0 s0 -> keeps (since s0) (adjust_store_path_count p m).
Proof.
  intros Hv. unfold adjust_store_path_count. eapply since_group; [exact Hv|]. intros s Hs.
  apply keeps_if; [|apply keeps_if; [kept|apply keeps_if; [|kept]]]; (apply keeps_bind; [eapply since_with_group; [exact Hs|]|intros _; kept]).
  - apply (good_at_paths 0 m (fun st => set_s_path_total_mbs (replicate (Z.to_nat m) 0) (set_s_path_free_mbs (replicate (Z.to_nat m) 0) st))).
    intros st. cbn. by rewrite length_replicate.
  - apply (good_at_paths 0 m (fun st => set_s_path_total_mbs (resize (Z.to_nat m) 0 (s_path_total_mbs st))
      (set_s_path_free_mbs (resize (Z.to_nat m) 0 (s_path_free_mbs st)) st))).
    intros st. cbn. by rewrite !length_resize.
Qed.

Lemma adjust_subdir_count_keeps p m s0 : valid p 0 s0 -> keeps (since s0) (adjust_subdir_count p m).
Proof. intros Hv. unfold adjust_subdir_count. kept. Qed.

Lemma join_status_tame b : tame (join_status b).
Proof. intros st. unfold join_status. case_match; repeat split; auto. Qed.

Lemma joined_tame fsize : tame (joined fsize).
Proof. intros st. unfold joined. repeat case_match; repeat split; auto. Qed.

Lemma join_storage_keeps p i inserted b s0 : valid p 0 s0 -> keeps (since s0) (join_storage p i inserted b).
Proof.
  intros Hv. unfold join_storage. apply keeps_bind; [kept|intros _].
  apply unless_error_keeps; [by apply adjust_store_path_count_keeps|]. apply unless_error_keeps; [by apply adjust_subdir_count_keeps|].
  apply unless_error_keeps.
  - destruct inserted; [|kept]. apply keeps_bind; [|intros _; kept]. eapply since_with_group; [exact Hv|apply good_at_server, join_status_tame].
  - apply keeps_bind; [kept|intros fsize]. apply keeps_bind; [|intros _; kept].
    eapply since_with_group; [exact Hv|apply good_at_server, joined_tame].
Qed.

(** The pointers of a connection. *)
Definition client_ok (s : TrackerMem) (c : TrackerClientInfo) : Prop :=
  (ci_pGroup c = None -> ci_pStorage c = None) /\
  (forall p, ci_pGroup c = Some p -> in_use p s) /\
  (forall p i, ci_pGroup c = Some p -> ci_pStorage c = Some i -> valid p (S i) s).

Lemma add_storage_valid p sid s r s' :
  (length sid < 16)%nat -> valid p 0 s -> _tracker_mem_add_storage conf p (Some sid) client_ip s = (r, s') ->
  since s s' /\ forall i ins, r = inr (i, ins) -> valid p (S i) s'.
Proof.
  intros Hl [[Hs Hp] _] E. pose proof (add_storage_growing conf p (Some sid) client_ip s) as Hg.
  pose proof E as E'. apply add_storage_spec in E as (H1 & H2 & H3 & _); [|done..|naive_solver|done|done].
  rewrite E' in Hg. split; [by split|]. intros i ins ->. split; [done|]. destruct H3 as (_ & _ & _ & H3).
  unfold core, c_servers in H3. cbn in H3. destruct ins.
  - destruct H3 as [-> (st & Hst & _)]. rewrite Hst, length_app. cbn. lia.
  - destruct H3 as [H3 H4]. lia.
Qed.


Lemma client_ok_since s s' c : since s s' -> client_ok s c -> client_ok s' c.
Proof.
  intros Hs (H0 & H1 & H2). split; [done|]. split; [|intros p i Ep Ei; eapply since_valid; [by eapply H2|done]].
  intros p Ep. by apply (since_valid p 0 s s' (valid_in_use _ _ (H1 p Ep)) Hs).
Qed.

(** A connection that has joined does not join another group. *)
Definition rejoin_safe (c : TrackerClientInfo) (body : bytes) (s : TrackerMem) : Prop :=
  forall p i, ci_pGroup c = Some p -> ci_pStorage c = Some i -> group_name s p = cstr (take 16 body).

Lemma add_group_since name s r s' :
  state_ok s -> tracker_mem_add_group_ex conf name s = (r, s') ->
  since s s' /\ forall p ins, r = inr (p, ins) -> valid p 0 s' /\ group_name s' p = name.
Proof.
  intros Hs E. apply add_group_spec in E as (H1 & H2 & H3); [|done]. split.
  - split; [done|]. split; intros p Hp; destruct (H2 p Hp) as [H4 H5]; [done|by rewrite H5].
  - intros p ins ->. destruct H3 as [H3 H4]. split; [|done]. by apply valid_in_use.
Qed.

Lemma parse_join_name body b : parse_join_body conf body = inr b -> j_group_name b = cstr (take 16 body).
Proof. unfold parse_join_body. cbn zeta. repeat (destruct (_ : bool); [done|]). by intros [= <-]. Qed.

Lemma join_id_short g sid : join_id conf g client_ip = Some sid -> (length sid < 16)%nat.
Proof.
  unfold join_id. destruct (g_use_storage_id conf) eqn:E; [|by intros [= <-]]. intros Hsid.
  destruct (fdfs_get_storage_id_by_ip (storage_ids conf) (g_group_name g) client_ip) as [info|] eqn:Ei; [|done]. cbn in Hsid. injection Hsid as <-.
  apply (storage_id_short conf g None client_ip (si_id info) (si_ip_addrs info)); [done..|]. unfold storage_id_and_ips. by rewrite E, Ei.
Qed.

(** A step of a longer computation. *)
Lemma since_step {A} s0 (c : M TrackerMem A) s r s' : keeps (since s0) c -> since s0 s -> c s = (r, s') -> since s0 s'.
Proof. intros Hc Hs E. specialize (Hc s Hs). by rewrite E in Hc. Qed.

Lemma join_group_ok c p name s s1 :
  client_ok s c -> since s s1 -> valid p 0 s1 -> group_name s1 p = name ->
  (forall q, q ∈ sorted_groups s -> heap s1 !!! q = heap s !!! q) ->
  (forall q i, ci_pGroup c = Some q -> ci_pStorage c = Some i -> group_name s q = name) ->
  client_ok s1 (mkClient (Some p) (ci_pStorage c) (ci_tracker_leader c)).
Proof.
  intros (H0 & H1 & H2) Hs Hv Hname Hsame Hsafe. split; [done|]. split; [intros q [= <-]; apply Hv|]. cbn. intros q i [= <-] Ei.
  destruct (ci_pGroup c) as [q|]; [|by rewrite H0 in Ei]. specialize (Hsafe q i eq_refl Ei). specialize (H1 q eq_refl).
  assert (Some q = Some p) as [= ->]; [|eapply since_valid; [by apply H2|done]].
  transitivity (tracker_mem_get_group_ex name s1); [symmetry|]; (apply get_group_spec; [by eapply valid_ok|]).
  - destruct H1 as [_ Hq]. split; [by apply Hs|]. unfold group_name. by rewrite Hsame.
  - split; [apply Hv|done].
Qed.

Lemma join_ok c b s :
  client_ok s c -> state_ok s ->
  (forall p i, ci_pGroup c = Some p -> ci_pStorage c = Some i -> group_name s p = j_group_name b) ->
  let '((c', e), s') := tracker_mem_add_group_and_storage conf c client_ip b s in since s s' /\ client_ok s' c'.
Proof.
  intros Hc Hs Hsafe. unfold tracker_mem_add_group_and_storage. unfold bind at 1.
  destruct (tracker_mem_add_group_ex conf (j_group_name b) s) as [r s1] eqn:E1. pose proof E1 as E.
  apply add_group_since in E1 as [H1 Hr]; [|done]. destruct r as [e|[p ins]]; [split; [done|by eapply client_ok_since]|].
  destruct (Hr p ins eq_refl) as [Hv Hname]. apply add_group_spec in E as (_ & Hsame & _); [|done].
  pose proof (join_group_ok c p _ s s1 Hc H1 Hv Hname (fun q Hq => proj2 (Hsame q Hq)) Hsafe) as Hc1.
  set (c1 := mkClient (Some p) (ci_pStorage c) (ci_tracker_leader c)) in *.
  assert (forall s', since s1 s' -> since s s' /\ client_ok s' c1) as Hdone.
  { intros s' Hs'. split; [by eapply since_trans|by eapply client_ok_since]. }
  pose proof (since_refl s1 (valid_ok _ _ _ Hv)) as Hs1. cbn zeta. unfold bind at 1.
  destruct ((if ins then save_files else ret 0) s1) as [e s2] eqn:E2.
  apply (since_step s1) in E2; [|apply keeps_if; kept|done]. destruct (negb (e =? 0)); [by apply Hdone|].
  unfold bind at 1, group at 1, gets at 1. destruct (join_id conf (heap s2 !!! p) client_ip) as [sid|] eqn:Esid; [|by apply Hdone].
  apply join_id_short in Esid. unfold bind at 1.
  destruct (unless_error _ _ s2) as [e2 s3] eqn:E3.
  apply (since_step s1) in E3; [|apply unless_error_keeps; [by apply adjust_storage_port_keeps|by apply adjust_http_port_keeps]|done].
  destruct (negb (e2 =? 0)); [by apply Hdone|]. unfold bind at 1, group at 1, gets at 1. destruct (_ && _); [by apply Hdone|].
  unfold bind at 1. destruct (_tracker_mem_add_storage conf p (Some sid) client_ip s3) as [r s4] eqn:E4.
  apply add_storage_valid in E4 as [H4 Hi]; [|done|by eapply since_valid]. pose proof (since_trans _ _ _ E3 H4) as H14.
  destruct r as [e3|[i inserted]]; [by apply Hdone|]. specialize (Hi i inserted eq_refl).
  unfold bind at 1. destruct (join_storage p i inserted b s4) as [e4 s5] eqn:E5.
  apply (since_step s4) in E5; [|by apply join_storage_keeps, (valid_le p (S i)); [lia|]|by apply since_refl, (valid_ok p (S i))].
  destruct (Hdone s5 (since_trans _ _ _ H14 E5)) as [H5 _]. split; [done|]. split; [done|]. split; [intros q [= <-]|intros q k [= <-] [= <-]].
  - apply (since_valid p 0 s1 s5 Hv). by eapply since_trans.
  - by apply (since_valid p (S i) s4 s5).
Qed.

Lemma deal_join_ok c body s :
  client_ok s c -> state_ok s -> rejoin_safe c body s ->
  let '((c', r), s') := tracker_deal_storage_join conf client_ip c body s in since s s' /\ client_ok s' c'.
Proof.
  intros Hc Hs Hsafe. unfold tracker_deal_storage_join. destruct (parse_join_body conf body) as [e|b] eqn:Eb; [by split; [apply since_refl|]|].
  apply parse_join_name in Eb. unfold bind at 1.
  pose proof (join_ok c b s Hc Hs) as Hj. destruct (tracker_mem_add_group_and_storage conf c client_ip b s) as [[c' e] s'].
  rewrite Eb in Hj. specialize (Hj Hsafe). destruct (negb (e =? 0)); [done|]. destruct (ci_pGroup c'), (ci_pStorage c'); exact Hj.
Qed.

(** *** The dispatcher. *)

(** Every result satisfies [P]. *)
Definition returns {A} (P : A -> Prop) (m : M TrackerMem A) : Prop := forall s, P (m s).1.

Lemma returns_bind {A B} P Q (c : M TrackerMem A) (k : A -> M TrackerMem B) :
  returns P c -> (forall a, P a -> returns Q (k a)) -> returns Q (bind c k).
Proof. intros Hc Hk s. unfold bind. specialize (Hc s). destruct (c s) as [a s']. by apply Hk. Qed.

Lemma returns_any {A} (c : M TrackerMem A) : returns (fun _ => True) c.
Proof. by intros s. Qed.

Definition same_pointers (c c' : TrackerClientInfo) : Prop := ci_pGroup c' = ci_pGroup c /\ ci_pStorage c' = ci_pStorage c.

Lemma leader_change_pointers c : returns (fun r => same_pointers c r.1.1) (leader_change conf leader c).
Proof.
  unfold leader_change. eapply returns_bind; [apply returns_any|]. intros n _. by case_match; intros s.
Qed.

Lemma check_and_sync_pointers c status : returns (fun r => same_pointers c r.1) (tracker_check_and_sync conf client_ip leader c status).
Proof.
  unfold tracker_check_and_sync. destruct (negb _); [by intros s|]. destruct (ci_pGroup c) as [p|] eqn:Ep; [|by intros s].
  destruct (ci_pStorage c) as [i|] eqn:Ei; [|by intros s]. eapply returns_bind; [apply returns_any|]. intros [] _; [|by intros s].
  eapply returns_bind; [apply leader_change_pointers|]. intros r1 Hr1.
  do 2 (eapply returns_bind; [apply returns_any|]; intros ? _). by intros s.
Qed.

Lemma beat_pointers c p i body : returns (fun r => same_pointers c r.1) (tracker_deal_storage_beat conf client_ip leader c p i body).
Proof.
  unfold tracker_deal_storage_beat. do 2 (eapply returns_bind; [apply returns_any|]; intros ? _). apply check_and_sync_pointers.
Qed.

Lemma sync_report_pointers c p i body : returns (fun r => same_pointers c r.1) (tracker_deal_storage_sync_report conf client_ip leader c p i body).
Proof.
  unfold tracker_deal_storage_sync_report. cbn zeta. destruct (_ || _); [by intros s|].
  do 2 (eapply returns_bind; [apply returns_any|]; intros ? _). apply check_and_sync_pointers.
Qed.

Lemma df_report_pointers c p i body : returns (fun r => same_pointers c r.1) (tracker_deal_storage_df_report conf client_ip leader c p i body).
Proof.
  unfold tracker_deal_storage_df_report. eapply returns_bind; [apply returns_any|]. intros g _. cbn zeta. destruct (negb _); [by intros s|].
  do 4 (eapply returns_bind; [apply returns_any|]; intros ? _). apply check_and_sync_pointers.
Qed.

(** One command of the dispatcher. *)
Lemma if_some {A} (b : bool) (x y : option A) (z : A) (P : Prop) :
  (b = true -> x = Some z -> P) -> (b = false -> y = Some z -> P) -> (if b then x else y) = Some z -> P.
Proof. destruct b; auto. Qed.

Definition task_ok (c : TrackerClientInfo) (m : M TrackerMem Outcome) (s : TrackerMem) : Prop :=
  let '(o, s') := m s in since s s' /\ match o with Answered c' _ => client_ok s' c' | _ => True end.

Lemma task_same c (m : M TrackerMem reply) s :
  client_ok s c -> since s (m s).2 -> task_ok c (bind m (fun r => ret (Answered c r))) s.
Proof.
  intros Hc Hm. unfold task_ok, bind. destruct (m s) as [r s']. split; [done|]. by eapply client_ok_since.
Qed.

Lemma task_changed c (m : M TrackerMem (TrackerClientInfo * reply)) s :
  client_ok s c -> since s (m s).2 -> returns (fun r => same_pointers c r.1) m -> task_ok c (bind m (fun r => ret (Answered r.1 r.2))) s.
Proof.
  intros Hc Hm Hr. specialize (Hr s). unfold task_ok, bind. destruct (m s) as [[c' r] s']. split; [done|]. destruct Hr as [E1 E2]. cbn in E1, E2.
  apply (client_ok_since s s') in Hc; [|done]. unfold client_ok, ret. cbn. by rewrite E1, E2.
Qed.

Lemma task_unsafe c (m : M TrackerMem (option reply)) s :
  client_ok s c -> since s (m s).2 -> task_ok c (bind m (fun r => ret (match r with Some r => Answered c r | None => NullPointer end))) s.
Proof.
  intros Hc Hm. unfold task_ok, bind. destruct (m s) as [[r|] s']; (split; [done|]); [by eapply client_ok_since|done].
Qed.

(** A connection that is closed. *)
Lemma clean_up_since c s : client_ok s c -> state_ok s -> since s (task_finish_clean_up conf c s).2.
Proof.
  intros (_ & Hc & _) Hs. unfold task_finish_clean_up. destruct (ci_pGroup c) as [p|]; [|by apply since_refl].
  destruct (ci_pStorage c) as [i|]; [|by apply since_refl]. apply (since_run p 0); [|by apply valid_in_use, Hc]. intros Hv.
  apply keeps_bind; [|intros ?; apply keeps_ret].
  eapply since_op; [exact Hv|apply offline_store_server_keeps|apply offline_store_server_growing].
Qed.

(** What a request must not do for the model to follow it: delete a group,
    join another group, or move the address of a server that is active. *)
Definition request_safe (cmd : Z) (c : TrackerClientInfo) (body : bytes) (s : TrackerMem) : Prop :=
  cmd <> TRACKER_PROTO_CMD_SERVER_DELETE_GROUP /\
  (cmd = TRACKER_PROTO_CMD_STORAGE_JOIN -> rejoin_safe c body s) /\
  (cmd = TRACKER_PROTO_CMD_STORAGE_REPORT_IP_CHANGED -> ip_change_safe body s).

Context (g_min_buff_size g_max_buff_size : Z).

Lemma sync_dest_query_same c body : sound (tracker_deal_storage_sync_dest_query c body).
Proof.
  apply sound_same. intros s. unfold tracker_deal_storage_sync_dest_query. destruct (negb _); [done|].
  destruct (ci_pGroup c), (ci_pStorage c); try done. unfold bind, group, gets. by destruct (s_psync_src_server _).
Qed.

Lemma list_one_group_same body : sound (tracker_deal_server_list_one_group body).
Proof. unfold tracker_deal_server_list_one_group, answer. destruct (negb _); [by apply sound_same|]. apply in_group_sound. intros p s Hv. kept. Qed.

Lemma list_all_groups_same body : sound (tracker_deal_server_list_all_groups g_min_buff_size g_max_buff_size body).
Proof. intros s Hs. unfold tracker_deal_server_list_all_groups, answer. apply keeps_if; [kept| |by apply since_refl]. kept. Qed.

Lemma list_storages_same body : sound (tracker_deal_server_list_group_storages conf client_ip body).
Proof. unfold tracker_deal_server_list_group_storages, answer. destruct (_ || _); [by apply sound_same|]. apply in_group_sound. intros p s Hv. kept. Qed.

(** Handlers that change nothing. *)
Ltac unchanged := apply task_same; [done|]; apply sound_same; [|done]; intros ?;
  unfold tracker_deal_get_storage_id, tracker_deal_get_my_ip, tracker_deal_get_storage_group_name, tracker_deal_fetch_storage_ids,
    tracker_deal_active_test, tracker_deal_get_trunk_fid, answer, bind, group, gets; cbn zeta; by repeat case_match.

Lemma deal_task_ok cmd c body s m :
  tracker_deal_task conf INFINITE_FILE_SIZE g_min_buff_size g_max_buff_size client_ip leader cmd c body = Some m ->
  request_safe cmd c body s -> client_ok s c -> state_ok s -> task_ok c m s.
Proof.
  intros Hm (Hdel & Hjoin & Hip') Hc Hs.
  assert (forall k, (forall p i, logined c p i -> valid p (S i) s -> k p i = Some m -> task_ok c m s) ->
    match ci_pGroup c, ci_pStorage c with
    | Some p, Some i => k p i
    | _, _ => Some (bind (answer EACCES) (fun r => ret (Answered c r)))
    end = Some m -> task_ok c m s) as Hlogin.
  { intros k Hk. pose proof Hc as (_ & _ & Hc2). unfold logined in Hk.
    assert (task_ok c (bind (answer EACCES) (fun r => ret (Answered c r))) s) as Hno by (apply task_same; [done|by apply since_refl]).
    destruct (ci_pGroup c) as [p|]; [|by intros [= <-]]. destruct (ci_pStorage c) as [i|]; [|by intros [= <-]].
    apply (Hk p i); [done|]. by apply Hc2. }
  assert (forall p i, ci_pGroup c = Some p -> ci_pStorage c = Some i -> valid p (S i) s) as Hv by apply Hc.
  unfold tracker_deal_task in Hm. cbn zeta in Hm.
  assert (forall m', sound m' -> task_ok c (bind m' (fun r => ret (Answered c r))) s) as Hsame by (intros m' Hm'; apply task_same; auto).
  assert (forall p i m', valid p (S i) s -> (valid p 0 s -> keeps (since s) m') -> task_ok c (bind m' (fun r => ret (Answered c r))) s) as Hkeep.
  { intros p i m' H0 Hm'. apply task_same; [done|]. apply (since_run p 0 m' s Hm'). by apply (valid_le p (S i)); [lia|]. }
  revert Hm. repeat (apply if_some; [intros Ecmd|intros _]); [..|done].
  - apply Hlogin. intros p i Hl Hpi [= <-]. apply task_changed; [done|by apply (since_run p (S i)); [apply beat_keeps|]|apply beat_pointers].
  - apply Hlogin. intros p i Hl Hpi [= <-]. apply task_changed; [done|by apply (since_run p (S i)); [apply sync_report_keeps|]|apply sync_report_pointers].
  - apply Hlogin. intros p i Hl Hpi [= <-]. apply task_changed; [done|by apply (since_run p (S i)); [apply df_report_keeps|]|apply df_report_pointers].
  - intros [= <-]. pose proof (deal_join_ok c body s Hc Hs (Hjoin ltac:(by apply Z.eqb_eq))) as Hj. unfold task_ok, bind.
    destruct (tracker_deal_storage_join _ _ _ _ s) as [[c' r] s']. exact Hj.
  - intros [= <-]. apply Hsame, report_status_sound.
  - apply Hlogin. intros p i Hl Hpi [= <-]. apply (Hkeep p i); [done|apply change_status_keeps].
  - intros [= <-]. apply Hsame, get_status_sound.
  - intros [= <-]. unchanged.
  - intros [= <-]. unchanged.
  - intros [= <-]. unchanged.
  - intros [= <-]. unchanged.
  - apply Hlogin. intros p i Hl Hpi [= <-]. apply (Hkeep p i); [done|apply replica_chg_keeps].
  - intros [= <-]. apply Hsame, deal_fetch_sound.
  - intros [= <-]. apply Hsame, deal_query_storage_sound.
  - intros [= <-]. apply Hsame, deal_query_storage_sound.
  - intros [= <-]. apply Hsame, deal_query_storage_sound.
  - intros [= <-]. apply Hsame, deal_query_storage_sound.
  - intros [= <-]. apply Hsame, list_one_group_same.
  - intros [= <-]. apply Hsame, list_all_groups_same.
  - intros [= <-]. apply Hsame, list_storages_same.
  - intros [= <-]. apply Hsame, sync_src_req_sound.
  - apply Hlogin. intros p i Hl Hpi [= <-]. apply task_same; [done|]. by apply (since_run p (S i)); [apply sync_dest_req_keeps|].
  - intros [= <-]. apply task_unsafe; [done|]. apply sync_notify_keeps; [done|by apply since_refl].
  - intros [= <-]. apply task_unsafe; [done|]. by apply sync_dest_query_same.
  - by apply Z.eqb_eq in Ecmd.
  - intros [= <-]. apply Hsame, delete_storage_sound.
  - intros [= <-]. apply Hsame, set_trunk_server_sound.
  - intros [= <-]. apply task_same; [done|]. apply report_ip_changed_sound; [|done]. apply Hip'. by apply Z.eqb_eq.
  - intros [= <-]. apply task_same; [done|]. by apply changelog_req_sound.
  - intros [= <-]. unfold task_ok, bind. pose proof (clean_up_since c s Hc Hs) as Hu.
    destruct (task_finish_clean_up conf c s) as [u s']. by split.
  - intros [= <-]. unchanged.
  - apply Hlogin. intros p i Hl Hpi [= <-]. apply (Hkeep p i); [done|apply report_trunk_fid_keeps].
  - apply Hlogin. intros p i Hl Hpi [= <-]. unchanged.
  - apply Hlogin. intros p i Hl Hpi [= <-]. apply (Hkeep p i); [done|apply report_trunk_free_keeps].
Qed.
End handlers.
