(* ===== verification/TrackerReach.v ===== *)
(** * Runs of the tracker.

    The tracker starts with empty memory and goes from step to step: a
    connection is opened, asks, is closed; a timer runs; another part of the
    program changes a value that the memory of groups does not depend on. *)

From S2P Require Import Prelude FastCommon SharedFunc SortedArray StorageIds ServerInfo TrackerTypes TrackerMem TrackerMemInv TrackerService TrackerJoin TrackerTask TrackerTaskInv.

(** The memory and the connections. *)
Record Tracker := mkTracker {
  t_mem : TrackerMem;
  t_clients : gmap nat TrackerClientInfo;
}.

Definition new_client : TrackerClientInfo := mkClient None None 0.

Section reach.
Context `{FastCommon} (conf : TrackerMemConf).
Context (INFINITE_FILE_SIZE g_min_buff_size g_max_buff_size : Z).

Inductive step : Tracker -> Tracker -> Prop :=
  | step_accept m cs k : cs !! k = None -> step (mkTracker m cs) (mkTracker m (<[k := new_client]> cs))
  | step_request m cs k c client_ip leader cmd body run c' r m' :
      cs !! k = Some c -> (length client_ip < 16)%nat ->
      tracker_deal_task conf INFINITE_FILE_SIZE g_min_buff_size g_max_buff_size client_ip leader cmd c body = Some run ->
      request_safe cmd c body m -> run m = (Answered c' r, m') ->
      step (mkTracker m cs) (mkTracker m' (<[k := c']> cs))
  | step_close m cs k c :
      cs !! k = Some c -> step (mkTracker m cs) (mkTracker (task_finish_clean_up conf c m).2 (delete k cs))
  | step_check_alive m cs : step (mkTracker m cs) (mkTracker (tracker_mem_check_alive conf m).2 cs)
  | step_find_trunk_servers m cs : step (mkTracker m cs) (mkTracker (tracker_mem_find_trunk_servers conf m).2 cs)
  | step_world m m' cs : same_groups m m' -> step (mkTracker m cs) (mkTracker m' cs).

(** [world] has the values of the other parts, as the clock. *)
Definition start (world : TrackerMem) : Tracker := mkTracker (tracker_mem_init_groups (set_heap ∅ world)).2 ∅.

Definition reachable (t : Tracker) : Prop := exists world, rtc step (start world) t.

(** The state is in order and the pointers of the connections are valid. *)
Definition tracker_ok (t : Tracker) : Prop :=
  state_ok (t_mem t) /\ map_Forall (fun _ c => client_ok (t_mem t) c) (t_clients t).

Context (Hids : ids_short conf) (Hip : IP_ADDRESS_SIZE conf = 16).

Lemma clients_since m m' (cs : gmap nat TrackerClientInfo) :
  since m m' -> map_Forall (fun _ c => client_ok m c) cs -> map_Forall (fun _ c => client_ok m' c) cs.
Proof. intros Hs Hc. eapply map_Forall_impl; [exact Hc|]. intros k c. by apply client_ok_since. Qed.

Lemma tracker_ok_since m m' cs : since m m' -> tracker_ok (mkTracker m cs) -> tracker_ok (mkTracker m' cs).
Proof. intros Hs [H1 H2]. split; [apply Hs|]. by eapply clients_since. Qed.

Lemma step_ok t t' : tracker_ok t -> step t t' -> tracker_ok t'.
Proof.
  intros Hok Hstep. destruct Hstep as [m cs k Hk|m cs k c client_ip leader cmd body run c' r m' Hk Hl Hrun Hsafe E|m cs k c Hk|m cs|m cs|m m' cs Hsame].
  - destruct Hok as [H1 H2]. split; [done|]. by apply map_Forall_insert_2.
  - pose proof Hok as [H1 H2]. apply (deal_task_ok conf client_ip leader Hids Hip Hl _ _ _ _ _ _ m) in Hrun; [|done|by apply (H2 k)|done].
    unfold task_ok in Hrun. rewrite E in Hrun. destruct Hrun as [H3 H4]. pose proof (tracker_ok_since m m' cs H3 Hok) as [H5 H6].
    split; [done|]. by apply map_Forall_insert_2.
  - pose proof Hok as [H1 H2]. pose proof (clean_up_since conf c m (H2 k c Hk) H1) as Hs.
    pose proof (tracker_ok_since m _ cs Hs Hok) as [H3 H4]. split; [done|]. by apply map_Forall_delete.
  - apply (tracker_ok_since m); [|done]. split; [by apply check_alive_keeps, Hok|apply check_alive_growing].
  - apply (tracker_ok_since m); [|done]. split; [by apply find_trunk_servers_keeps, Hok|apply find_trunk_servers_growing].
  - apply (tracker_ok_since m); [|done]. split; [by eapply state_ok_same; [|apply Hok]|by apply grows_same].
Qed.

Lemma start_ok world : tracker_ok (start world).
Proof. split; [|apply map_Forall_empty]. by apply init_groups_ok. Qed.

Lemma steps_ok t t' : rtc step t t' -> tracker_ok t -> tracker_ok t'.
Proof. intros Hrun. induction Hrun as [t|t1 t2 t3 Hstep _ IH]; [done|]. intros Hok. apply IH. by eapply step_ok. Qed.

(** C25: In every state the tracker gets to, by requests that do not delete a
    group, join another group on a connection that has joined one, or report
    the change of the address of an active server (after these the code breaks
    its own order, see [request_safe]), by timers and by closing connections,
    the arrays of every group are
    sorted by id without duplicates, the active servers are servers of the
    group, the store server is an active one and exists when there is one, the
    pointers of the connections and between servers are valid, the disk arrays
    and the table of synchronisation times have their sizes, and the groups are
    sorted by name without duplicates. *)
Theorem tracker_state_ok t : reachable t -> tracker_ok t.
Proof.
  intros (world & Hrun). eapply steps_ok; [exact Hrun|apply start_ok].
Qed.
End reach.
