(* ===== verification/TrackerQuery.v ===== *)
(** * What the tracker tells a client that uploads.

    The group, the servers and the disk of an answer fit the request; errors
    are given when nothing fits; round robin reaches every group. *)

From S2P Require Import Prelude FastCommon SharedFunc SortedArray StorageIds ServerInfo TrackerTypes TrackerMem TrackerMemInv TrackerService TrackerStore TrackerTaskInv.

Section query.
Context `{FastCommon} (conf : TrackerMemConf).

(** ** The loops. *)
Lemma first_such_None fits l : first_such fits l = None <-> forall k, k ∈ l -> fits k = false.
Proof.
  induction l as [|x l IH]; cbn; [split; [intros _ k Hk; by apply elem_of_nil in Hk|done]|]. destruct (fits x) eqn:E.
  - split; [done|]. intros Hall. rewrite Hall in E; [done|apply list_elem_of_here].
  - rewrite IH. split; intros Hall k Hk; [apply elem_of_cons in Hk as [->|Hk]; auto|apply Hall; by apply elem_of_cons; right].
Qed.

Lemma first_such_app fits l l' :
  first_such fits (l ++ l') = match first_such fits l with Some k => Some k | None => first_such fits l' end.
Proof. induction l as [|x l IH]; cbn; [done|]. by destruct (fits x). Qed.

(** ** The choice of the group. *)

(** The indexes in the order of the search from [w] on. *)
Definition rotation (w n : nat) : list nat := seq w (n - w) ++ seq 0 w.

Lemma elem_of_rotation w n k : (w <= n)%nat -> k ∈ rotation w n <-> (k < n)%nat.
Proof. intros Hw. unfold rotation. rewrite elem_of_app, !elem_of_seq. lia. Qed.

Lemma rotation_lookup w n d : (w < n)%nat -> (d < n)%nat -> rotation w n !! d = Some ((w + d) mod n)%nat.
Proof.
  intros Hw Hd. unfold rotation. destruct (decide (d < n - w)%nat) as [Hlt|Hge].
  - rewrite lookup_app_l by (rewrite length_seq; lia). rewrite lookup_seq_lt by done. by rewrite Nat.mod_small by lia.
  - rewrite lookup_app_r by (rewrite length_seq; lia). rewrite length_seq, lookup_seq_lt by lia. f_equal.
    replace (w + d)%nat with (d - (n - w) + 1 * n)%nat by lia. rewrite Nat.Div0.mod_add, Nat.mod_small; lia.
Qed.

Definition write_index (s : TrackerMem) : nat :=
  if Z.of_nat (length (sorted_groups s)) <=? current_write_group s then 0%nat else Z.to_nat (current_write_group s).

Lemma write_index_lt s : (0 < length (sorted_groups s))%nat -> (write_index s < length (sorted_groups s))%nat.
Proof. intros Hn. unfold write_index. destruct (Z.leb_spec (Z.of_nat (length (sorted_groups s))) (current_write_group s)); lia. Qed.

(** Without a look at trunk files the choice is the first fit of the
    rotation. *)
Lemma choose_group_fit s k :
  (0 < length (sorted_groups s))%nat ->
  first_such (group_at (tracker_check_reserved_space conf) s) (rotation (write_index s) (length (sorted_groups s))) = Some k ->
  store_lookup conf = FDFS_STORE_LOOKUP_ROUND_ROBIN ->
  choose_group conf s = inr (k, negb (k =? write_index s)%nat).
Proof.
  intros Hn Hk Hrr. pose proof (write_index_lt s Hn) as Hw. unfold choose_group. fold (write_index s). set (w := write_index s) in *.
  set (n := length (sorted_groups s)) in *. cbn zeta.
  rewrite Hrr. replace (FDFS_STORE_LOOKUP_ROUND_ROBIN =? FDFS_STORE_LOOKUP_LOAD_BALANCE) with false by done.
  rewrite andb_false_r, andb_false_l, orb_false_r.
  assert (rotation w n = w :: seq (S w) (n - S w) ++ seq 0 w) as Hrot.
  { unfold rotation. replace (n - w)%nat with (S (n - S w)) by lia. done. }
  rewrite Hrot in Hk. cbn in Hk. unfold group_at in Hk at 1. cbn zeta in Hk. destruct (_ && _) eqn:Ehere.
  { injection Hk as <-. by rewrite Nat.eqb_refl. }
  rewrite first_such_app in Hk. assert (k ∈ seq (S w) (n - S w) ++ seq 0 w) as Hin.
  { apply elem_of_app. destruct (first_such _ (seq (S w) _)) eqn:E; [injection Hk as <-; left|right]; by eapply first_such_Some. }
  assert ((k =? w)%nat = false) as Hne by (apply Nat.eqb_neq; rewrite elem_of_app, !elem_of_seq in Hin; lia).
  rewrite Hne. destruct (first_such _ (seq (S w) _)) as [k'|]; [by injection Hk as ->|]. by rewrite Hk.
Qed.

Lemma choose_group_spec s :
  (0 < length (sorted_groups s))%nat ->
  let active k := has_active (sorted_group s k) in
  match choose_group conf s with
  | inr (k, _) => (k < length (sorted_groups s))%nat /\ active k = true /\ enough_space conf (sorted_group s k) = true
  | inl e => forall k, (k < length (sorted_groups s))%nat -> active k = true -> e = ENOSPC /\ enough_space conf (sorted_group s k) = false
  end /\
  (choose_group conf s = inl ENOSPC -> exists k, (k < length (sorted_groups s))%nat /\ active k = true) /\
  (forall e, choose_group conf s = inl e -> e = ENOENT \/ e = ENOSPC).
Proof.
  intros Hn active. pose proof (write_index_lt s Hn) as Hw. unfold choose_group. fold (write_index s). set (w := write_index s) in *.
  set (n := length (sorted_groups s)) in *. cbn zeta. unfold enough_space.
  destruct (_ && _) eqn:E0.
  { split; [|done]. split; [done|]. apply andb_true_iff in E0 as [E1 E2]. split; [done|].
    apply orb_true_iff in E2 as [->|E2]; [done|]. apply andb_true_iff in E2 as [E2 ->]. apply andb_true_iff in E2 as [-> _].
    apply orb_true_r. }
  assert (forall fits k l, first_such (group_at fits s) l = Some k -> k ∈ l /\ active k = true /\ fits (sorted_group s k) = true) as Hsome.
  { intros fits k l Hk. apply first_such_Some in Hk as [Hk Hf]. by apply andb_true_iff in Hf. }
  destruct (first_such _ (seq (S w) _)) as [k|] eqn:E1.
  { split; [|done]. apply Hsome in E1 as (E1%elem_of_seq & -> & ->). split; [lia|done]. }
  destruct (first_such _ (seq 0 w)) as [k|] eqn:E2.
  { split; [|done]. apply Hsome in E2 as (E2%elem_of_seq & -> & ->). split; [lia|done]. }
  assert (forall k, (k < n)%nat -> active k = true -> tracker_check_reserved_space conf (sorted_group s k) = false) as Hnone.
  { intros k Hk Ha. rewrite first_such_None in E1, E2. unfold active in Ha. destruct (decide (k = w)) as [->|Hne].
    - rewrite Ha in E0. cbn in E0. by apply orb_false_iff in E0 as [-> _].
    - assert (group_at (tracker_check_reserved_space conf) s k = false) as Hf.
      { destruct (decide (k < w)%nat); [apply E2|apply E1]; apply elem_of_seq; lia. }
      unfold group_at in Hf. cbn zeta in Hf. by rewrite Ha in Hf. }
  destruct (existsb _ (seq 0 n)) eqn:E3; cbn [negb].
  2: { split; [|split; [done|intros e [= <-]; by left]]. intros k Hk Ha. exfalso. apply not_true_iff_false in E3. apply E3, existsb_exists.
       exists k. split; [by apply in_seq; lia|done]. }
  apply existsb_exists in E3 as (k0 & Hk0 & Ha0). apply in_seq in Hk0.
  assert (exists k, (k < n)%nat /\ active k = true) as Hex by (exists k0; split; [lia|done]).
  destruct (g_if_use_trunk_file conf); cbn [negb].
  2: { split; [|split; [done|intros e [= <-]; by right]]. intros k Hk Ha. split; [done|]. by rewrite Hnone. }
  destruct (first_such _ (seq 0 n)) as [k|] eqn:E4.
  { split; [|done]. apply Hsome in E4 as (E4%elem_of_seq & -> & ->). split; [lia|]. by rewrite orb_true_r. }
  split; [|split; [done|intros e [= <-]; by right]]. intros k Hk Ha. split; [done|]. rewrite Hnone by done. cbn.
  rewrite first_such_None in E4. specialize (E4 k ltac:(apply elem_of_seq; lia)). unfold group_at in E4. cbn zeta in E4. unfold active in Ha. by rewrite Ha in E4.
Qed.

Lemma elem_of_sorted_groups s p :
  p ∈ sorted_groups s <-> exists k, (k < length (sorted_groups s))%nat /\ sorted_groups s !!! k = p.
Proof.
  split; [|intros (k & Hk & <-); by apply sorted_group_in]. intros Hp. apply list_elem_of_lookup in Hp as [k Hk].
  exists k. split; [by apply lookup_lt_Some in Hk|by apply list_lookup_total_correct].
Qed.

Lemma sorted_groups_length s : state_ok s -> length (sorted_groups s) = count s.
Proof. intros Hs. rewrite (ok_groups_perm s Hs), length_take. pose proof (ok_count s Hs). lia. Qed.

(** [pick_group] of a request without a group name goes by [choose_group]. *)
Lemma pick_group_choose s :
  store_lookup conf = FDFS_STORE_LOOKUP_ROUND_ROBIN \/ store_lookup conf = FDFS_STORE_LOOKUP_LOAD_BALANCE ->
  (pick_group conf None s).1 = match choose_group conf s with inl e => inl e | inr (k, _) => inr (sorted_groups s !!! k) end.
Proof.
  intros Hl. unfold pick_group. unfold bind at 1, gets at 1, id.
  replace ((store_lookup conf =? FDFS_STORE_LOOKUP_ROUND_ROBIN) || (store_lookup conf =? FDFS_STORE_LOOKUP_LOAD_BALANCE)) with true
    by (destruct Hl as [-> | ->]; done).
  destruct (choose_group conf s) as [e|[k current]]; [done|]. unfold bind, modify. by destruct current, (_ =? _).
Qed.

(** C28: When there are groups, with round robin or load balance, the choice of a group for an upload
    that names none fails only for a reason: [ENOENT] when
    no group has an active server, [ENOSPC] when some have but none of these
    has space, in the group or, with trunk files, in the trunk files too; in
    all other cases a group with an active server and space is found.  (With a
    configured group, only that one is looked at; and the path may still be
    refused, see [query_storage_correct].) *)
Theorem pick_group_errors s r s' :
  state_ok s -> (0 < count s)%nat ->
  store_lookup conf = FDFS_STORE_LOOKUP_ROUND_ROBIN \/ store_lookup conf = FDFS_STORE_LOOKUP_LOAD_BALANCE ->
  pick_group conf None s = (r, s') ->
  let active p := has_active (heap s !!! p) = true in
  let fits p := enough_space conf (heap s !!! p) = true in
  (r = inl ENOENT <-> forall p, p ∈ sorted_groups s -> ~ active p) /\
  (r = inl ENOSPC <-> (exists p, p ∈ sorted_groups s /\ active p) /\ forall p, p ∈ sorted_groups s -> active p -> ~ fits p) /\
  ((exists p, p ∈ sorted_groups s /\ active p /\ fits p) -> exists p, r = inr p /\ p ∈ sorted_groups s /\ active p /\ fits p).
Proof.
  intros Hs Hn Hl Hrun active fits. pose proof (pick_group_choose s Hl) as Hr. rewrite Hrun in Hr. cbn in Hr. subst r. clear Hrun.
  assert (0 < length (sorted_groups s))%nat as Hlen by (by rewrite sorted_groups_length).
  destruct (choose_group_spec s Hlen) as (Hspec & Hsome & Herr). cbn zeta in *. unfold sorted_group in Hspec, Hsome.
  destruct (choose_group conf s) as [e|[k current]].
  - assert (forall p, p ∈ sorted_groups s -> active p -> e = ENOSPC /\ ~ fits p) as Hnone.
    { intros p Hp Ha. apply elem_of_sorted_groups in Hp as (k & Hk & <-). destruct (Hspec k Hk Ha) as [-> Hf]. split; [done|]. unfold fits. by rewrite Hf. }
    assert (e = ENOSPC -> exists p, p ∈ sorted_groups s /\ active p) as Hex.
    { intros ->. destruct (Hsome eq_refl) as (k & Hk & Ha). exists (sorted_groups s !!! k). split; [by apply sorted_group_in|done]. }
    split_and!.
    + split; [intros [= ->] p Hp Ha; by destruct (Hnone p Hp Ha)|]. intros Hno. destruct (Herr e eq_refl) as [->| ->]; [done|].
      destruct (Hex eq_refl) as (p & Hp & Ha). by destruct (Hno p Hp).
    + split; [intros [= ->]; split; [by apply Hex|]; intros p Hp Ha; by apply (Hnone p)|]. intros [(p & Hp & Ha) _]. by destruct (Hnone p Hp Ha) as [-> _].
    + intros (p & Hp & Ha & Hf). by destruct (Hnone p Hp Ha).
  - destruct Hspec as (Hk & Ha & Hf). assert (sorted_groups s !!! k ∈ sorted_groups s) as Hin by (by apply sorted_group_in).
    split_and!.
    + split; [done|]. intros Hno. by destruct (Hno _ Hin).
    + split; [done|]. intros [_ Hno]. by destruct (Hno _ Hin).
    + intros _. by exists (sorted_groups s !!! k).
Qed.

(** ** Round robin. *)
Fixpoint picks (n : nat) : M TrackerMem (list (Z + nat)) :=
  match n with
  | O => ret []
  | S n' => bind (pick_group conf None) (fun r => bind (picks n') (fun l => ret (r :: l)))
  end.

Lemma pick_next s k :
  state_ok s -> store_lookup conf = FDFS_STORE_LOOKUP_ROUND_ROBIN -> (0 <= current_write_group s < Z.of_nat (count s)) ->
  first_such (group_at (tracker_check_reserved_space conf) s) (rotation (Z.to_nat (current_write_group s)) (count s)) = Some k ->
  pick_group conf None s = (inr (sorted_groups s !!! k), set_current_write_group (Z.of_nat (S k mod count s)) s).
Proof.
  intros Hs Hrr Hw Hk. pose proof (sorted_groups_length s Hs) as Hlen.
  assert (write_index s = Z.to_nat (current_write_group s)) as Hwi.
  { unfold write_index. rewrite Hlen. destruct (Z.leb_spec (Z.of_nat (count s)) (current_write_group s)); lia. }
  assert (k < count s)%nat as Hkn by (apply first_such_Some in Hk as [Hk _]; by apply elem_of_rotation in Hk; [|lia]).
  rewrite <- Hwi, <- Hlen in Hk. apply choose_group_fit in Hk; [|lia|done].
  assert (next_group (set_current_write_group (Z.of_nat k) s) = set_current_write_group (Z.of_nat (S k mod count s)) s) as Hnext.
  { change (set_current_write_group (if Z.of_nat (count s) <=? Z.of_nat k + 1 then 0 else Z.of_nat k + 1) s =
      set_current_write_group (Z.of_nat (S k mod count s)) s). f_equal. destruct (decide (S k = count s)) as [E|E].
    - rewrite <- E, Nat.Div0.mod_same. destruct (Z.leb_spec (Z.of_nat (S k)) (Z.of_nat k + 1)); lia.
    - rewrite Nat.mod_small by lia. destruct (Z.leb_spec (Z.of_nat (count s)) (Z.of_nat k + 1)); lia. }
  unfold pick_group. unfold bind at 1, gets at 1, id. rewrite Hrr. cbn [orb]. rewrite Z.eqb_refl. cbn [orb]. rewrite Hk.
  destruct (Nat.eqb_spec k (write_index s)) as [E|E]; cbn [negb]; unfold bind, modify, ret; rewrite <- Hnext; [|done].
  do 2 f_equal. rewrite E, Hwi, Z2Nat.id by lia. by destruct s.
Qed.

Lemma first_such_rotation fits l d x :
  l !! d = Some x -> fits x = true -> exists e y, (e <= d)%nat /\ l !! e = Some y /\ first_such fits l = Some y.
Proof.
  revert d. induction l as [|z l IH]; intros d Hd Hx; [done|]. cbn. destruct (fits z) eqn:E; [exists 0%nat, z; split; [lia|done]|].
  destruct d as [|d]; cbn in Hd; [simplify_eq; congruence|]. destruct (IH d Hd Hx) as (e & y & He & Hy & ->).
  exists (S e), y. split; [lia|done].
Qed.

Lemma round_robin_from m s t d :
  state_ok s -> store_lookup conf = FDFS_STORE_LOOKUP_ROUND_ROBIN -> (0 <= current_write_group s < Z.of_nat (count s)) ->
  group_at (tracker_check_reserved_space conf) s t = true -> (d < count s)%nat -> (d < m)%nat ->
  t = ((Z.to_nat (current_write_group s) + d) mod count s)%nat ->
  inr (sorted_groups s !!! t) ∈ (picks m s).1.
Proof.
  revert s d. induction m as [|m IH]; intros s d Hs Hrr Hw Ht Hd Hm E; [lia|].
  destruct (first_such_rotation (group_at (tracker_check_reserved_space conf) s) (rotation (Z.to_nat (current_write_group s)) (count s)) d t)
    as (e & k & He & Hk & Hfirst); [by rewrite E; apply rotation_lookup; lia|done|].
  rewrite rotation_lookup in Hk by lia. injection Hk as Hk.
  pose proof (pick_next s k Hs Hrr Hw Hfirst) as Hpick. cbn [picks]. erewrite bind_eq; [|exact Hpick].
  set (s1 := set_current_write_group (Z.of_nat (S k mod count s)) s). unfold bind.
  destruct (picks m s1) as [l s2] eqn:Epicks. cbn. destruct (decide (e = d)) as [->|Hne].
  { rewrite <- E in Hk. subst k. apply list_elem_of_here. }
  apply elem_of_cons. right. replace l with (picks m s1).1 by (by rewrite Epicks).
  assert (S k mod count s < count s)%nat as Hlt by (apply Nat.mod_upper_bound; lia).
  apply (IH s1 (d - S e)%nat); [apply write_group_ok; [lia|done]|done|cbn; lia|done|cbn; lia|lia|].
  cbn. rewrite Nat2Z.id, Nat.Div0.add_mod_idemp_l, <- Hk. rewrite E.
  replace (S ((Z.to_nat (current_write_group s) + e) mod count s) + (d - S e))%nat
    with ((Z.to_nat (current_write_group s) + e) mod count s + (d - e))%nat by lia.
  rewrite Nat.Div0.add_mod_idemp_l. f_equal. lia.
Qed.

(** C29: Round robin reaches every group: of as many uploads in a row as there
    are groups one goes to any given group that has an active server and
    space. *)
Theorem round_robin_reaches s p :
  state_ok s -> store_lookup conf = FDFS_STORE_LOOKUP_ROUND_ROBIN -> 0 <= current_write_group s < Z.of_nat (count s) ->
  p ∈ sorted_groups s -> has_active (heap s !!! p) = true -> tracker_check_reserved_space conf (heap s !!! p) = true ->
  inr p ∈ (picks (count s) s).1.
Proof.
  intros Hs Hrr Hw Hp Ha Hf. apply elem_of_sorted_groups in Hp as (t & Ht & <-). rewrite sorted_groups_length in Ht by done.
  set (w := Z.to_nat (current_write_group s)). apply (round_robin_from (count s) s t ((t + (count s - w)) mod count s)%nat); [done..| | | |].
  - unfold group_at, sorted_group. cbn zeta. by rewrite Ha, Hf.
  - apply Nat.mod_upper_bound. lia.
  - apply Nat.mod_upper_bound. lia.
  - fold w. rewrite Nat.Div0.add_mod_idemp_r. replace (w + (t + (count s - w)))%nat with (t + 1 * count s)%nat by lia.
    by rewrite Nat.Div0.mod_add, Nat.mod_small.
Qed.

(** ** The whole answer. *)

Lemma group_fits_spec g : group_fits conf g = 0 -> has_active g = true /\ enough_space conf g = true.
Proof. unfold group_fits. by destruct (has_active g), (enough_space conf g). Qed.

(** A group that is picked is in use, has the name that is asked for, an
    active server and space. *)
Lemma pick_group_fits name s p s' :
  state_ok s -> (0 < count s)%nat -> pick_group conf name s = (inr p, s') ->
  heap s' = heap s /\ p ∈ sorted_groups s /\ (forall n, name = Some n -> group_name s p = n) /\
  has_active (heap s !!! p) = true /\ enough_space conf (heap s !!! p) = true.
Proof.
  intros Hs Hn Hrun. pose proof (pick_group_spec conf name s Hn Hs) as Hspec. rewrite Hrun in Hspec.
  destruct Hspec as [(x & _ & Hs') Hin]. specialize (Hin p eq_refl) as [_ Hin]. split; [by rewrite Hs'|]. split; [done|].
  assert (forall q, (if group_fits conf (heap s !!! q) =? 0 then inr q else inl (group_fits conf (heap s !!! q)) : Z + nat) = inr p ->
    has_active (heap s !!! p) = true /\ enough_space conf (heap s !!! p) = true) as Hfit.
  { intros q. destruct (Z.eqb_spec (group_fits conf (heap s !!! q)) 0) as [E|E]; [|done]. intros [= ->]. by apply group_fits_spec. }
  destruct name as [name|].
  - unfold pick_group in Hrun. unfold bind at 1, gets at 1, id in Hrun. destruct (tracker_mem_get_group_ex name s) as [q|] eqn:Eq; [|done].
    unfold ret in Hrun. injection Hrun as Hq Hs2. specialize (Hfit q Hq). split; [|done]. intros n [= <-].
    destruct (group_fits conf _ =? 0); [|done]. injection Hq as ->. by apply get_group_spec in Eq as [_ Eq].
  - split; [done|]. destruct (decide (store_lookup conf = FDFS_STORE_LOOKUP_ROUND_ROBIN \/ store_lookup conf = FDFS_STORE_LOOKUP_LOAD_BALANCE)) as [Hl|Hl].
    + pose proof (pick_group_choose s Hl) as Hr. rewrite Hrun in Hr. cbn in Hr.
      destruct (choose_group_spec s) as (Hc & _ & _); [by rewrite sorted_groups_length|]. cbn zeta in Hc.
      destruct (choose_group conf s) as [e|[k current]]; [done|]. injection Hr as ->. unfold sorted_group in Hc. naive_solver.
    + unfold pick_group in Hrun. unfold bind at 1, gets at 1, id in Hrun.
      destruct (Z.eqb_spec (store_lookup conf) FDFS_STORE_LOOKUP_ROUND_ROBIN); [tauto|].
      destruct (Z.eqb_spec (store_lookup conf) FDFS_STORE_LOOKUP_LOAD_BALANCE); [tauto|]. cbn [orb] in Hrun.
      destruct (_ =? _); [|done]. destruct (pStoreGroup s) as [q|]; [|done]. unfold ret in Hrun. injection Hrun as Hq _. by apply (Hfit q).
Qed.

(** A disk with space, or with trunk files enough space inside of them. *)
Definition path_ok (g : FDFSGroupInfo) (st : FDFSStorageDetail) (i : Z) : Prop :=
  let avg_reserved_mb := Z.quot (rs_mb conf) (g_store_path_count g) in
  0 <= i < g_store_path_count g /\
  (path_fits conf st avg_reserved_mb i = true \/
   g_if_use_trunk_file conf = true /\ path_fits_trunk conf st (g_trunk_free_mb g) avg_reserved_mb i = true).

Lemma choose_path_ok g st i current :
  0 < g_store_path_count g -> 0 <= s_current_write_path st -> choose_path conf g st = (inr i, current) -> path_ok g st i.
Proof.
  intros Hn Hw. unfold choose_path, path_ok. cbn zeta. set (avg := Z.quot _ _).
  set (w := if g_store_path_count g <=? s_current_write_path st then 0 else s_current_write_path st).
  assert (0 <= w < g_store_path_count g) as Hwn by (unfold w; destruct (Z.leb_spec (g_store_path_count g) (s_current_write_path st)); lia).
  destruct (path_fits conf st avg w) eqn:E; [intros [= <- _]; by auto|].
  destruct (first_such (fun i => path_fits conf st avg (Z.of_nat i)) _) as [k|] eqn:E1.
  { apply first_such_Some in E1 as [E1%elem_of_seq ?]. intros [= <- _]. split; [lia|by left]. }
  destruct (g_if_use_trunk_file conf) eqn:Et; cbn [negb]; [|done].
  destruct (first_such _ (seq (Z.to_nat w) _)) as [k|] eqn:E2; [|done].
  apply first_such_Some in E2 as [E2%elem_of_seq ?]. intros [= <- _]. split; [lia|by right].
Qed.

(** A server for an upload: an active one, nothing of the groups changes but
    whose turn it is. *)
Lemma get_writable_spec p s i s1 :
  state_ok s -> has_active (heap s !!! p) = true -> tracker_get_writable_storage conf p s = (Some i, s1) ->
  i ∈ g_active_servers (heap s !!! p) /\ g_all_servers (heap s1 !!! p) = g_all_servers (heap s !!! p).
Proof.
  intros Hs Ha. pose proof (heap_group_ok s p Hs) as Hg. unfold tracker_get_writable_storage. unfold bind at 1, group at 1, gets at 1.
  destruct (store_server conf =? FDFS_STORE_SERVER_ROUND_ROBIN).
  - cbn zeta. erewrite bind_eq; [|reflexivity]. intros [= Hi <-]. split; [by eapply list_elem_of_lookup_2|].
    change (g_all_servers ((with_group p (set_g_current_write_server (if Z.of_nat (length (g_active_servers (heap s !!! p))) <=?
      g_current_write_server (heap s !!! p) + 1 then 0 else g_current_write_server (heap s !!! p) + 1)) s).2.(heap) !!! p) = g_all_servers (heap s !!! p)).
    by rewrite with_group_heap, decide_True.
  - intros [= Hi <-]. pose proof (ok_store _ Hg) as Hst. by rewrite Hi in Hst.
Qed.

(** C26: The answer to a client that uploads names a group in use, the one it
    asked for if it asked for one, with an active server and space; all servers
    of the answer are active servers of the group, all of them when the list
    was asked for; and the path is a disk of the first of them with space, the
    free space of the trunk files included when they are used. *)
Theorem query_storage_correct name all s a s' :
  state_ok s -> query_storage conf name all s = (inr a, s') ->
  let p := sa_group a in
  let g := heap s !!! p in
  p ∈ sorted_groups s /\ (forall n, name = Some n -> group_name s p = n) /\
  has_active g = true /\ enough_space conf g = true /\
  (exists i l, sa_servers a = i :: l /\ path_ok g (server g i) (sa_path a)) /\
  Forall (fun i => i ∈ g_active_servers g) (sa_servers a) /\ (all = true -> sa_servers a = g_active_servers g).
Proof.
  intros Hs. unfold query_storage. unfold bind at 1, gets at 1. destruct (Nat.eqb_spec (count s) 0) as [|Hn]; [done|].
  unfold bind at 1. destruct (pick_group conf name s) as [[e|p] s1] eqn:Epick; [done|].
  assert (state_ok s1) as H1.
  { pose proof (pick_group_spec conf name s ltac:(lia) Hs) as Hspec. rewrite Epick in Hspec. destruct Hspec as [(x & Hx & ->) _]. by apply write_group_ok. }
  apply pick_group_fits in Epick as (Eheap & Hp & Hname & Ha & Hf); [|done|lia].
  unfold bind at 1, group at 1, gets at 1. rewrite Eheap. set (g := heap s !!! p) in *.
  destruct (Z.leb_spec (g_store_path_count g) 0) as [|Hpaths]; [done|].
  unfold bind at 1. destruct ((if all then ret (head (g_active_servers g)) else tracker_get_writable_storage conf p) s1) as [o s2] eqn:Eserver.
  destruct o as [i|]; [|done]. assert (i ∈ g_active_servers g) as Hi.
  { destruct all; [by injection Eserver as Hi _; apply head_Some_elem_of|]. apply get_writable_spec in Eserver as [Hi _]; rewrite ?Eheap in *; done. }
  destruct (choose_path conf g (server g i)) as [r current] eqn:Epath. unfold bind at 1.
  match goal with |- context [let '(_, _) := ?c s2 in _] => destruct (c s2) as [[] s3] end.
  destruct r as [e|k]; [done|]. unfold bind at 1.
  match goal with |- context [let '(_, _) := ?c s3 in _] => destruct (c s3) as [[] s4] end.
  intros [= <- <-]. cbn [sa_group sa_servers sa_path]. fold g.
  pose proof (heap_group_ok s p Hs) as Hg. apply choose_path_ok in Epath; [|done|].
  2: { pose proof (group_ok_lookup _ i Hg (active_elem _ _ Hg Hi)) as (_ & _ & _ & _ & Hw). exact Hw. }
  split_and!; try done; destruct all; try done.
  - destruct (g_active_servers g) as [|j l] eqn:E; [done|]. injection Eserver as <- _. by exists j, l.
  - by exists i, [].
  - apply Forall_forall. auto.
  - by apply Forall_singleton.
Qed.

Lemma first_such_seq_none fits a n :
  first_such fits (seq a n) = None <-> forall k, (a <= k < a + n)%nat -> fits k = false.
Proof. rewrite first_such_None. setoid_rewrite elem_of_seq. naive_solver. Qed.

(** The search finds a disk in front of the current one, and forgets it. *)
Lemma choose_path_wrapped g st j :
  let avg := Z.quot (rs_mb conf) (g_store_path_count g) in
  g_if_use_trunk_file conf = true -> 0 <= s_current_write_path st < g_store_path_count g ->
  (forall k, 0 <= k < g_store_path_count g -> path_fits conf st avg k = false) ->
  (forall k, s_current_write_path st <= k < g_store_path_count g -> path_fits_trunk conf st (g_trunk_free_mb g) avg k = false) ->
  first_such (fun k => path_fits_trunk conf st (g_trunk_free_mb g) avg (Z.of_nat k)) (seq 0 (Z.to_nat (s_current_write_path st))) = Some j ->
  choose_path conf g st = (inl ENOSPC, Some (Z.of_nat j)) /\
  choose_path conf g (set_s_current_write_path (Z.of_nat j) st) = (inr (Z.of_nat j), Some (Z.of_nat j)).
Proof.
  intros avg Ht Hw Hno Hlate Hj. pose proof Hj as [Hin Hjf]%first_such_Some. apply elem_of_seq in Hin.
  set (n := Z.to_nat (g_store_path_count g)).
  assert (first_such (fun i => path_fits conf st avg (Z.of_nat i)) (seq 0 n) = None) as Hnone.
  { apply first_such_seq_none. intros k Hk. apply Hno. lia. }
  unfold choose_path. cbn zeta. fold avg n. rewrite Ht. cbn [negb]. split.
  - destruct (Z.leb_spec (g_store_path_count g) (s_current_write_path st)) as [|_]; [lia|]. rewrite Hno, Hnone by lia.
    replace (first_such _ (seq (Z.to_nat (s_current_write_path st)) _)) with (@None nat); [by rewrite Hj|].
    symmetry. apply first_such_seq_none. intros k Hk. apply Hlate. lia.
  - cbn [s_current_write_path set_s_current_write_path]. destruct (Z.leb_spec (g_store_path_count g) (Z.of_nat j)) as [|_]; [lia|].
    change (path_fits conf (set_s_current_write_path (Z.of_nat j) st)) with (path_fits conf st).
    change (path_fits_trunk conf (set_s_current_write_path (Z.of_nat j) st)) with (path_fits_trunk conf st).
    rewrite Hno, Hnone, Nat2Z.id by lia. replace (n - j)%nat with (S (n - S j)) by lia. cbn. by rewrite Hjf.
Qed.

(** The group of a request with a name when the state changes in a server. *)
Lemma pick_group_again name s p i f :
  state_ok s -> tame f -> pick_group conf (Some name) s = (inr p, s) ->
  let s1 := (with_group p (with_server i f) s).2 in pick_group conf (Some name) s1 = (inr p, s1).
Proof.
  intros Hs Hf Hpick s1. unfold pick_group in *. unfold bind at 1, gets at 1, id in Hpick. unfold bind at 1, gets at 1, id.
  destruct (tracker_mem_get_group_ex name s) as [q|] eqn:E; [|done]. unfold ret in Hpick. injection Hpick as Hq.
  destruct (Z.eqb_spec (group_fits conf (heap s !!! q)) 0) as [E0|]; [|done]. injection Hq as ->.
  apply get_group_spec in E as [Hp Hname]; [|done].
  assert (state_ok s1) as H1 by (apply with_group_ok; [done..|by apply with_server_ok; [|apply heap_group_ok]|done]).
  assert (heap s1 !!! p = with_server i f (heap s !!! p)) as Eh by (unfold s1; by rewrite with_group_heap, decide_True).
  replace (tracker_mem_get_group_ex name s1) with (Some p).
  - rewrite Eh. change (group_fits conf (with_server i f (heap s !!! p))) with (group_fits conf (heap s !!! p)). by rewrite E0.
  - symmetry. apply get_group_spec; [done|]. split; [done|]. unfold group_name. by rewrite Eh.
Qed.

(** With trunk files the search for a disk refuses a disk it has just
    found: when only disks in front of the current one have space in their
    trunk files, an upload is answered with [ENOSPC] although the disk [j] fits,
    and the same request right afterwards is answered with disk [j]. *)
Theorem wrapped_search_refuses name s p i j :
  state_ok s -> (0 < count s)%nat -> pick_group conf (Some name) s = (inr p, s) ->
  store_server conf <> FDFS_STORE_SERVER_ROUND_ROBIN -> g_if_use_trunk_file conf = true ->
  let g := heap s !!! p in
  let st := server g i in
  let avg := Z.quot (rs_mb conf) (g_store_path_count g) in
  g_pStoreServer g = Some i -> 0 <= s_current_write_path st < g_store_path_count g ->
  (forall k, 0 <= k < g_store_path_count g -> path_fits conf st avg k = false) ->
  (forall k, s_current_write_path st <= k < g_store_path_count g -> path_fits_trunk conf st (g_trunk_free_mb g) avg k = false) ->
  first_such (fun k => path_fits_trunk conf st (g_trunk_free_mb g) avg (Z.of_nat k)) (seq 0 (Z.to_nat (s_current_write_path st))) = Some j ->
  let '(r1, s1) := query_storage conf (Some name) false s in
  r1 = inl ENOSPC /\ (query_storage conf (Some name) false s1).1 = inr (mkStoreAnswer p [i] (Z.of_nat j)).
Proof.
  intros Hs Hn Hpick Hserver Ht g st avg Hst Hw Hno Hlate Hj.
  destruct (choose_path_wrapped g st j Ht Hw Hno Hlate Hj) as [Hp1 Hp2].
  assert (group_ok g) as Hg by (by apply heap_group_ok).
  assert (i < length (g_all_servers g))%nat as Hi.
  { apply (active_elem g i Hg). pose proof (ok_store g Hg) as H0. by rewrite Hst in H0. }
  set (f := set_s_current_write_path (Z.of_nat j)). assert (tame f) as Hf by (unfold f; solve_tame).
  pose proof (pick_group_again name s p i f Hs Hf Hpick) as Hpick1. cbn zeta in Hpick1. set (s1 := (with_group p (with_server i f) s).2) in *.
  assert (heap s1 !!! p = with_server i f g) as Eh by (unfold s1; by rewrite with_group_heap, decide_True).
  assert (forall s', (0 < count s')%nat -> pick_group conf (Some name) s' = (inr p, s') -> 0 < g_store_path_count (heap s' !!! p) ->
    g_pStoreServer (heap s' !!! p) = Some i ->
    query_storage conf (Some name) false s' =
      (let '(r, current) := choose_path conf (heap s' !!! p) (server (heap s' !!! p) i) in
       bind (match current with Some k => with_group p (with_server i (set_s_current_write_path k)) | None => ret tt end) (fun _ =>
       match r with
       | inl e => ret (inl e)
       | inr k => bind (if store_path conf =? FDFS_STORE_PATH_ROUND_ROBIN
                        then with_group p (with_server i (next_path (g_store_path_count (heap s' !!! p)))) else ret tt)
                    (fun _ => ret (inr (mkStoreAnswer p [i] k)))
       end)) s') as Hrun.
  { intros s' Hn' Hp' Hc' Hst'. unfold query_storage. unfold bind at 1, gets at 1. destruct (Nat.eqb_spec (count s') 0); [lia|].
    erewrite bind_eq; [|exact Hp']. unfold bind at 1, group at 1, gets at 1.
    destruct (Z.leb_spec (g_store_path_count (heap s' !!! p)) 0); [lia|].
    assert (tracker_get_writable_storage conf p s' = (Some i, s')) as Hw'.
    { unfold tracker_get_writable_storage, bind, group, gets. apply Z.eqb_neq in Hserver. rewrite Hserver. by rewrite Hst'. }
    erewrite bind_eq; [|exact Hw']. cbn beta iota. destruct (choose_path _ _ _) as [r current]. reflexivity. }
  rewrite (Hrun s); [|done|done|fold g; lia|done]. fold g st. rewrite Hp1. cbn beta iota.
  erewrite bind_eq; [|reflexivity]. unfold ret at 1. split; [done|].
  change ((query_storage conf (Some name) false s1).1 = inr (mkStoreAnswer p [i] (Z.of_nat j))).
  rewrite (Hrun s1); [|done|done|by rewrite Eh; cbn; lia|by rewrite Eh].
  assert (choose_path conf (heap s1 !!! p) (server (heap s1 !!! p) i) = (inr (Z.of_nat j), Some (Z.of_nat j))) as Hp3.
  { rewrite Eh, server_with_server, decide_True by done. exact Hp2. }
  rewrite Hp3. unfold bind, with_group, modify, ret. by destruct (_ =? _).
Qed.
End query.
