(* ===== verification/TrackerDownload.v ===== *)
(** * What the tracker tells a client that downloads.

    The servers of an answer are active servers of the group; a single one has
    the file, as far as the tracker can know.  The list of all servers forgets
    the id of the server that made the file. *)

From S2P Require Import Prelude FastCommon SharedFunc TrunkShared SortedArray StorageIds ServerInfo TrackerTypes TrackerMem TrackerMemInv TrackerService TrackerStore TrackerFetch TrackerTaskInv TrackerQuery.

Section download.
Context `{FastCommon} (conf : TrackerMemConf) (INFINITE_FILE_SIZE : Z).

Lemma search_active_by_id g id i :
  group_ok g -> tracker_mem_get_active_storage_by_id g id = Some i <-> i ∈ g_active_servers g /\ server_id g i = id.
Proof. intros Hg. unfold tracker_mem_get_active_storage_by_id. apply search_servers_spec, Hg. Qed.

Lemma search_active_by_ip g ip i : group_ok g -> tracker_mem_get_active_storage_by_ip conf g ip = Some i -> i ∈ g_active_servers g.
Proof.
  intros Hg. unfold tracker_mem_get_active_storage_by_ip. destruct (negb _); [by intros [Hi _]%search_active_by_id|].
  intros (info & _ & Hi)%bind_Some. by apply search_active_by_id in Hi as [Hi _].
Qed.

Lemma source_active g o i : group_ok g -> source_server conf g o = Some i -> i ∈ g_active_servers g.
Proof.
  intros Hg. unfold source_server. destruct (storage_id o); [by apply search_active_by_ip|]. by intros [Hi _]%search_active_by_id.
Qed.

(** A server has a file when the file is older than the longest delay of
    synchronisation, or older than what the server is synchronised up to, to
    the second if it is not quite new; a file whose name tells no address is
    taken to be everywhere when uploads go to all servers in turn. *)
Definition synced (now : Z) (o : FileOrigin) (st : FDFSStorageDetail) : Prop :=
  let t := last_synced_timestamp (s_stat st) in
  file_timestamp o < now - g_storage_sync_file_max_delay conf \/
  file_timestamp o < t \/
  (file_timestamp o <= t + 1 /\ g_storage_sync_file_max_time conf < now - file_timestamp o) \/
  (storage_ip o = INADDR_NONE /\ store_server conf = FDFS_STORE_SERVER_ROUND_ROBIN).

Lemma is_synced_spec now o st : is_synced conf now o st = true <-> synced now o st.
Proof.
  unfold is_synced, synced. cbn zeta. rewrite !orb_true_iff, !andb_true_iff, !Z.ltb_lt, Z.leb_le, !Z.eqb_eq. tauto.
Qed.

(** A reason to send a client to server [i]. *)
Definition may_have_file (now : Z) (g : FDFSGroupInfo) (o : FileOrigin) (i : nat) : Prop :=
  (bNormalFile o = true /\ synced now o (server g i)) \/
  is_source g o i = true \/ source_server conf g o = Some i.

(** The tracker cannot do better: the server that made the file is not active,
    or the name does not tell it. *)
Definition source_unknown (g : FDFSGroupInfo) (o : FileOrigin) : Prop :=
  source_server conf g o = None \/ (bNormalFile o = true /\ storage_ip o = INADDR_NONE).

Lemma read_server_ok now g o w i :
  download_server conf = FDFS_DOWNLOAD_SERVER_ROUND_ROBIN \/ source_server conf g o = None ->
  let r := read_server conf now g o w i in
  (r = i \/ r = w \/ source_server conf g o = Some r) /\ (may_have_file now g o r \/ source_unknown g o).
Proof.
  intros Hd r. unfold r, read_server, may_have_file, source_unknown. clear r.
  destruct (bNormalFile o && is_synced conf now o (server g i)) eqn:E1.
  { apply andb_true_iff in E1 as [E1 E2%is_synced_spec]. split; [by left|]. left. by left. }
  destruct (bNormalFile o && (storage_ip o =? INADDR_NONE)) eqn:E2.
  { apply andb_true_iff in E2 as [E2 E3]. apply Z.eqb_eq in E3. split; [right; by left|]. right. by right. }
  destruct (is_source g o i) eqn:E3; [split; [by left|]; left; right; by left|]. cbn zeta.
  destruct (source_server conf g o) as [k|] eqn:Ek.
  - destruct Hd as [Hd|Hd]; [|done]. rewrite Hd, Z.eqb_refl. cbn. split; [right; by right|]. left. right. by right.
  - split; [|right; by left]. destruct (_ =? FDFS_DOWNLOAD_SERVER_ROUND_ROBIN); cbn; destruct (negb _); auto.
Qed.

Lemma fetch_one_ok p o w s l s' :
  state_ok s -> has_active (heap s !!! p) = true -> g_pStoreServer (heap s !!! p) = Some w ->
  download_server conf = FDFS_DOWNLOAD_SERVER_ROUND_ROBIN \/ download_server conf = FDFS_DOWNLOAD_SERVER_SOURCE_FIRST ->
  fetch_one conf p o w s = (l, s') ->
  exists i, l = [i] /\ i ∈ g_active_servers (heap s !!! p) /\
    (may_have_file (g_current_time s) (heap s !!! p) o i \/ source_unknown (heap s !!! p) o).
Proof.
  intros Hs Ha Hw Hd. unfold fetch_one. unfold bind at 1, gets at 1. unfold bind at 1, group at 1, gets at 1.
  set (g := heap s !!! p) in *. pose proof (heap_group_ok s p Hs) as Hg. fold g in Hg.
  destruct (if download_server conf =? FDFS_DOWNLOAD_SERVER_SOURCE_FIRST then source_server conf g o else None) as [i|] eqn:E.
  - intros [= <- _]. destruct (_ =? FDFS_DOWNLOAD_SERVER_SOURCE_FIRST) in E; [|done]. exists i. split; [done|]. split; [by eapply source_active|].
    left. right. by right.
  - cbn zeta. set (i := g_active_servers g !!! _). erewrite bind_eq; [|reflexivity]. intros [= <- _].
    assert (i ∈ g_active_servers g) as Hi.
    { pose proof (ok_read g Hg). unfold i, has_active in *. apply Nat.ltb_lt in Ha.
      set (k := Z.to_nat _). assert (k < length (g_active_servers g))%nat as Hk.
      { unfold k. destruct (Z.leb_spec (Z.of_nat (length (g_active_servers g))) (g_current_read_server g)); lia. }
      apply lookup_lt_is_Some_2 in Hk as [j Hj]. rewrite (list_lookup_total_correct _ _ _ Hj). by eapply list_elem_of_lookup_2. }
    assert (download_server conf = FDFS_DOWNLOAD_SERVER_ROUND_ROBIN \/ source_server conf g o = None) as Hd'.
    { destruct Hd as [Hd|Hd]; [by left|right]. by rewrite Hd, Z.eqb_refl in E. }
    destruct (read_server_ok (g_current_time s) g o w i Hd') as [Hr Hok]. eexists. split; [done|]. split; [|exact Hok].
    destruct Hr as [-> |[-> |Hr]]; [done| |by eapply source_active]. pose proof (ok_store g Hg) as Hst. by rewrite Hw in Hst.
Qed.

(** C27: The servers that a client is told for a file are active servers of the
    group that the file is in.  The one that is told for a download is taken for
    one that has the file ([may_have_file]): its synchronisation has passed the
    time in the file's name, or the file is older than the longest delay that the
    configuration takes synchronisation to have, or it made the file itself, or,
    for a name without address, uploads go to all servers in turn; any other
    server is told only when the one that made the file is not active or not
    known from the name. *)
Theorem download_servers_correct cmd name filename s p l s' :
  state_ok s ->
  download_server conf = FDFS_DOWNLOAD_SERVER_ROUND_ROBIN \/ download_server conf = FDFS_DOWNLOAD_SERVER_SOURCE_FIRST ->
  tracker_mem_get_storage_by_filename conf INFINITE_FILE_SIZE cmd name filename s = (inr (p, l), s') ->
  let g := heap s !!! p in
  p ∈ sorted_groups s /\ g_group_name g = name /\ l <> [] /\ Forall (fun i => i ∈ g_active_servers g) l /\
  (cmd = TRACKER_PROTO_CMD_SERVICE_QUERY_FETCH_ONE ->
   exists i, l = [i] /\
     (may_have_file (g_current_time s) g (file_origin INFINITE_FILE_SIZE filename) i \/
      source_unknown g (file_origin INFINITE_FILE_SIZE filename))).
Proof.
  intros Hs Hd. unfold tracker_mem_get_storage_by_filename. unfold bind at 1, gets at 1.
  destruct (tracker_mem_get_group_ex name s) as [q|] eqn:E; [|done]. apply get_group_spec in E as [Hq Hname]; [|done].
  unfold bind at 1, group at 1, gets at 1. pose proof (heap_group_ok s q Hs) as Hg.
  destruct (g_active_servers (heap s !!! q)) as [|i0 l0] eqn:Eact; [done|]. destruct (g_pStoreServer (heap s !!! q)) as [w|] eqn:Ew; [|done].
  assert (has_active (heap s !!! q) = true) as Ha by (unfold has_active; by rewrite Eact).
  assert (w ∈ g_active_servers (heap s !!! q)) as Hw by (pose proof (ok_store _ Hg) as Hst; by rewrite Ew in Hst).
  clear Eact. cbn zeta. set (o := file_origin INFINITE_FILE_SIZE filename). unfold bind at 1.
  match goal with |- context [let '(_, _) := ?c s in _] => destruct (c s) as [l1 s1] eqn:Erun end.
  destruct l1 as [|i1 l1]; [done|]. intros [= <- <- <-].
  assert (cmd = TRACKER_PROTO_CMD_SERVICE_QUERY_FETCH_ONE -> exists i, i1 :: l1 = [i] /\ i ∈ g_active_servers (heap s !!! q) /\
    (may_have_file (g_current_time s) (heap s !!! q) o i \/ source_unknown (heap s !!! q) o)) as Hone.
  { intros ->. rewrite Z.eqb_refl in Erun. by apply fetch_one_ok in Erun. }
  split; [done|]. split; [done|]. split; [done|]. split; [|intros Hcmd; destruct (Hone Hcmd) as (i & Hi & _ & Hok); by exists i].
  destruct (Z.eqb_spec cmd TRACKER_PROTO_CMD_SERVICE_QUERY_FETCH_ONE) as [Hcmd|_].
  { destruct (Hone Hcmd) as (i & -> & Hi & _). by apply Forall_singleton. }
  destruct (cmd =? TRACKER_PROTO_CMD_SERVICE_QUERY_UPDATE).
  - unfold query_update in Erun. unfold bind at 1, group at 1, gets at 1 in Erun.
    destruct (if storage_ip o =? INADDR_NONE then None else source_server conf (heap s !!! q) o) as [i|] eqn:E.
    + injection Erun as <- <- _. apply Forall_singleton. destruct (_ =? INADDR_NONE) in E; [done|]. by eapply source_active.
    + unfold bind in Erun. destruct (tracker_get_writable_storage conf q s) as [[i|] s2] eqn:Ewr; [|done]. injection Erun as <- <- _.
      apply Forall_singleton. by apply get_writable_spec in Ewr as [Hi _].
  - unfold bind, gets, ret in Erun. injection Erun as Erun _. unfold fetch_all in Erun. cbn zeta in Erun. apply Forall_forall. intros i Hi.
    rewrite <- Erun in Hi. clear Erun.
    match type of Hi with _ ∈ match ?l with _ => _ end => assert (forall j, j ∈ l -> j ∈ g_active_servers (heap s !!! q)) as Hl end.
    { intros j Hj. destruct (bNormalFile o); [by apply list_elem_of_filter in Hj as [_ Hj]|].
      destruct (storage_id o); (match type of Hj with _ ∈ option_list ?x => destruct x as [k|] eqn:Ek; [|by apply elem_of_nil in Hj] end);
        apply list_elem_of_singleton in Hj as ->; [by eapply search_active_by_ip|by apply search_active_by_id in Ek as [Ek _]]. }
    destruct (if bNormalFile o then _ else _); [by apply list_elem_of_singleton in Hi as ->|by apply Hl].
Qed.

(** In a cluster with server ids the list of all servers for a new file
    misses the server that has it: a single server is found by the id in the
    file name, whoever is in turn, but the list compares addresses, and with no
    server synchronised yet it consists of the group's store server only. *)
Theorem fetch_all_misses_source now g o i w :
  group_ok g -> bNormalFile o = true -> storage_id o <> [] -> source_server conf g o = Some i -> w <> i -> storage_ip o <> INADDR_NONE ->
  download_server conf = FDFS_DOWNLOAD_SERVER_ROUND_ROBIN ->
  (forall k, k ∈ g_active_servers g -> ~ synced now o (server g k) /\ current_ip g k <> inet_ntop (storage_ip o)) ->
  fetch_all conf now g o w = [w] /\ forall k, k ∈ g_active_servers g -> read_server conf now g o w k = i.
Proof.
  intros Hg Hn Hid Hsrc Hw Hip Hd Hall. split.
  - unfold fetch_all. cbn zeta. rewrite Hn. apply Z.eqb_neq in Hip. rewrite Hip.
    match goal with |- context [filter ?P ?l] => destruct (filter P l) as [|k ks] eqn:Ef; [done|exfalso] end.
    assert (k ∈ k :: ks) as Hk by left. rewrite <- Ef in Hk. apply list_elem_of_filter in Hk as [HP Hk]. revert k Hk HP Ef.
    intros k Hk [E%is_synced_spec|E] _; destruct (Hall k Hk) as [H1 H2]; [done|]. by apply memcmp_eq_0 in E.
  - intros k Hk. destruct (Hall k Hk) as [H1 _]. rewrite <- is_synced_spec, not_true_iff_false in H1. unfold read_server. rewrite Hn, H1. cbn [andb]. apply Z.eqb_neq in Hip. rewrite Hip.
    unfold is_source. destruct (storage_id o) as [|c id] eqn:E; [done|].
    assert (i ∈ g_active_servers g /\ server_id g i = c :: id) as [Hi Ei].
    { unfold source_server in Hsrc. rewrite E in Hsrc. by apply search_active_by_id. }
    destruct (Z.eqb_spec (memcmp (c :: id) (server_id g k)) 0) as [Ek|Ek].
    + apply memcmp_eq_0 in Ek. apply (server_id_inj g); [done|by apply active_elem..|congruence].
    + rewrite Hd, Z.eqb_refl, Hsrc. done.
Qed.
End download.
