(* ===== verification/Metadata.v ===== *)
(** * The metadata of a file ([tracker_proto.c], and the merge in
    [storage_do_set_metadata] of [storage_service.c]).

    Metadata is a text of records with a name and a value each.  A storage
    server keeps it sorted by name, and merges what a client sends into it. *)

From S2P Require Import Prelude FastCommon SortedArray StorageIds.

Definition FDFS_RECORD_SEPERATOR : Z := 1.
Definition FDFS_FIELD_SEPERATOR : Z := 2.
Definition FDFS_MAX_META_NAME_LEN : Z := 64.
Definition FDFS_MAX_META_VALUE_LEN : Z := 256.

Record FDFSMetaData := mkMeta { md_name : bytes; md_value : bytes }.

#[export] Instance FDFSMetaData_eq_dec : EqDecision FDFSMetaData.
Proof. solve_decision. Defined.

(** [qsort] with [metadata_cmp_by_name]. *)
Definition sort_metadata : list FDFSMetaData -> list FDFSMetaData := qsort memcmp md_name.

Section text.
Context `{FastCommon}.

(** The columns of [meta_buff]; every separator ends one. *)
Definition meta_rows (meta_buff : bytes) : list bytes :=
  let s := cstr meta_buff in
  splitEx FDFS_RECORD_SEPERATOR (S (count_occ Z.eq_dec s FDFS_RECORD_SEPERATOR)) s.

(** A record without a separator is left out, long fields are cut off. *)
Definition meta_row (row : bytes) : option FDFSMetaData :=
  '(name, value) ← strchr FDFS_FIELD_SEPERATOR row;
  Some (mkMeta (take (Z.to_nat FDFS_MAX_META_NAME_LEN) name) (take (Z.to_nat FDFS_MAX_META_VALUE_LEN) value)).

Definition fdfs_split_metadata (meta_buff : bytes) : list FDFSMetaData := omap meta_row (meta_rows meta_buff).

Definition meta_text (m : FDFSMetaData) : bytes := md_name m ++ FDFS_FIELD_SEPERATOR :: md_value m.

(** [None]: without a record the NUL is written in front of the buffer. *)
Definition fdfs_pack_metadata (l : list FDFSMetaData) : option bytes :=
  match l with
  | [] => None
  | _ => Some (join FDFS_RECORD_SEPERATOR (meta_text <$> l))
  end.

(** What is left of [meta_buff], whose columns [splitEx] ended with NULs, after
    its records were sorted in it. *)
Definition storage_sort_metadata_buff (meta_buff : bytes) : bytes :=
  let split := join 0 (meta_rows meta_buff) ++ drop (length (cstr meta_buff)) meta_buff in
  match fdfs_pack_metadata (sort_metadata (fdfs_split_metadata meta_buff)) with
  | None => split
  | Some packed => take (length meta_buff) (packed ++ 0 :: drop (S (length packed)) split)
  end.

End text.

(** Both lists in the order of their names; of two records with the same name
    the new one is taken. *)
Fixpoint merge_metadata (old : list FDFSMetaData) : list FDFSMetaData -> list FDFSMetaData :=
  fix merge_new new :=
    match old, new with
    | [], _ => new
    | _, [] => old
    | o :: old', n :: new' =>
        let result := memcmp (md_name o) (md_name n) in
        if result <? 0 then o :: merge_metadata old' new
        else if result =? 0 then n :: merge_metadata old' new'
        else n :: merge_new new'
    end.

(** ** The text of a list is read back as that list. *)
Record meta_ok (m : FDFSMetaData) : Prop := {
  mo_name : Forall (fun c => c <> 0 /\ c <> FDFS_RECORD_SEPERATOR /\ c <> FDFS_FIELD_SEPERATOR) (md_name m);
  mo_value : Forall (fun c => c <> 0 /\ c <> FDFS_RECORD_SEPERATOR) (md_value m);
  mo_name_len : Z.of_nat (length (md_name m)) <= FDFS_MAX_META_NAME_LEN;
  mo_value_len : Z.of_nat (length (md_value m)) <= FDFS_MAX_META_VALUE_LEN;
}.

Lemma strchr_app c a b : c ∉ a -> strchr c (a ++ c :: b) = Some (a, b).
Proof.
  induction a as [|x a IH]; cbn; intros Hc.
  { by rewrite Z.eqb_refl. }
  apply not_elem_of_cons in Hc as [Hx Hc]. rewrite (proj2 (Z.eqb_neq x c) (not_eq_sym Hx)). by rewrite IH.
Qed.

Lemma meta_row_text m : meta_ok m -> meta_row (meta_text m) = Some m.
Proof.
  intros [Hn Hv Ln Lv]. unfold meta_row, meta_text. rewrite strchr_app.
  - cbn. rewrite !firstn_all2 by lia. by destruct m.
  - intros Hin. rewrite Forall_forall in Hn. by destruct (Hn _ Hin) as (_ & _ & ?).
Qed.

Lemma meta_text_clean m : meta_ok m -> Forall (fun c => c <> 0 /\ c <> FDFS_RECORD_SEPERATOR) (meta_text m).
Proof.
  intros [Hn Hv _ _]. apply Forall_app. split; [|constructor; [done|done]].
  eapply Forall_impl; [exact Hn|]. intros c (? & ? & ?). done.
Qed.

Lemma count_join sep l : l <> [] -> Forall (fun f => sep ∉ f) l -> S (count_occ Z.eq_dec (join sep l) sep) = length l.
Proof.
  intros Hl Hf. induction Hf as [|x l Hx Hf IH]; [done|]. destruct l as [|y l].
  - cbn. f_equal. apply count_occ_not_In. by rewrite <- list_elem_of_In.
  - change (join sep (x :: y :: l)) with (x ++ sep :: join sep (y :: l)). rewrite count_occ_app.
    replace (count_occ Z.eq_dec x sep) with 0%nat by (symmetry; apply count_occ_not_In; by rewrite <- list_elem_of_In).
    cbn [count_occ Nat.add]. destruct (Z.eq_dec sep sep); [|done]. cbn [length]. f_equal. by apply IH.
Qed.

Lemma join_no_nul sep l : sep <> 0 -> Forall (Forall (fun c => c <> 0)) l -> Forall (fun c => c <> 0) (join sep l).
Proof.
  intros Hs Hl. induction Hl as [|x l Hx Hl IH]; [constructor|]. destruct l as [|y l]; [done|].
  change (join sep (x :: y :: l)) with (x ++ sep :: join sep (y :: l)). apply Forall_app. by split; [|constructor].
Qed.

Section roundtrip.
Context `{FastCommonLaws}.

Lemma meta_rows_pack l rest : l <> [] -> Forall meta_ok l ->
  meta_rows (join FDFS_RECORD_SEPERATOR (meta_text <$> l) ++ 0 :: rest) = meta_text <$> l.
Proof.
  intros Hl Hok. unfold meta_rows.
  assert (Forall (Forall (fun c => c <> 0 /\ c <> FDFS_RECORD_SEPERATOR)) (meta_text <$> l)) as Hc.
  { apply Forall_fmap. eapply Forall_impl; [exact Hok|]. apply meta_text_clean. }
  assert (cstr (join FDFS_RECORD_SEPERATOR (meta_text <$> l) ++ 0 :: rest) = join FDFS_RECORD_SEPERATOR (meta_text <$> l)) as ->.
  { apply cstr_app_nul. apply join_no_nul; [done|]. eapply Forall_impl; [exact Hc|]. intros t Ht.
    eapply Forall_impl; [exact Ht|]. by intros c []. }
  assert (Forall (fun f => FDFS_RECORD_SEPERATOR ∉ f) (meta_text <$> l)) as Hs.
  { eapply Forall_impl; [exact Hc|]. intros t Ht Hin. rewrite Forall_forall in Ht. by destruct (Ht _ Hin) as [_ ?]. }
  assert (meta_text <$> l <> []) as Hne by (by destruct l).
  rewrite splitEx_join; [done|done|done|]. rewrite count_join by done. lia.
Qed.

(** C34: metadata that was packed is read back as it was, whatever follows it in
    its buffer. *)
Theorem metadata_roundtrip l rest : l <> [] -> Forall meta_ok l ->
  exists packed, fdfs_pack_metadata l = Some packed /\ fdfs_split_metadata (packed ++ 0 :: rest) = l.
Proof.
  intros Hl Hok. exists (join FDFS_RECORD_SEPERATOR (meta_text <$> l)). split; [by destruct l|].
  unfold fdfs_split_metadata. rewrite meta_rows_pack by done. clear Hl.
  induction Hok as [|m l Hm Hok IH]; [done|]. cbn. rewrite meta_row_text by done. cbn. by rewrite IH.
Qed.
End roundtrip.

(** ** The merge of two sorted lists, name by name. *)
Definition sorted_metadata : list FDFSMetaData -> Prop := StronglySorted (key_le memcmp md_name).

(** The records of a name, in their order. *)
Definition named (k : bytes) (l : list FDFSMetaData) : list FDFSMetaData := filter (fun m => md_name m = k) l.

Lemma merge_metadata_nil_r old : merge_metadata old [] = old.
Proof. by destruct old. Qed.

Lemma merge_metadata_nil_l new : merge_metadata [] new = new.
Proof. by destruct new. Qed.

Lemma merge_metadata_cons o old n new :
  merge_metadata (o :: old) (n :: new) =
    (let result := memcmp (md_name o) (md_name n) in
     if result <? 0 then o :: merge_metadata old (n :: new)
     else if result =? 0 then n :: merge_metadata old new
     else n :: merge_metadata (o :: old) new).
Proof. reflexivity. Qed.

Lemma merge_metadata_elem x old new : x ∈ merge_metadata old new -> x ∈ old \/ x ∈ new.
Proof.
  revert new. induction old as [|o old IH]; intros new; [rewrite merge_metadata_nil_l; by right|]. induction new as [|n new IHn]; [rewrite merge_metadata_nil_r; by left|].
  rewrite merge_metadata_cons. cbn zeta. destruct (_ <? 0); [|destruct (_ =? 0)]; rewrite !elem_of_cons.
  - intros [->|Hx]; [auto|]. apply IH in Hx. rewrite elem_of_cons in Hx. tauto.
  - intros [->|Hx]; [auto|]. apply IH in Hx. tauto.
  - intros [->|Hx]; [auto|]. apply IHn in Hx. rewrite elem_of_cons in Hx. tauto.
Qed.

Lemma name_le_trans a b c : memcmp a b <= 0 -> memcmp b c <= 0 -> memcmp a c <= 0.
Proof.
  intros Hab Hbc. destruct (Z.eq_dec (memcmp a b) 0) as [->%memcmp_eq_0|]; [done|].
  destruct (Z.eq_dec (memcmp b c) 0) as [<-%memcmp_eq_0|]; [lia|].
  pose proof (memcmp_trans a b c). lia.
Qed.

Lemma sorted_cons m l : sorted_metadata (m :: l) <-> sorted_metadata l /\ forall x, x ∈ l -> memcmp (md_name m) (md_name x) <= 0.
Proof.
  unfold sorted_metadata. split.
  - intros [Hl Hm]%StronglySorted_inv. by rewrite Forall_forall in Hm.
  - intros [Hl Hm]. constructor; [done|]. by apply Forall_forall.
Qed.

Lemma named_cons k m l : named k (m :: l) = if decide (md_name m = k) then m :: named k l else named k l.
Proof. unfold named. rewrite filter_cons. done. Qed.

Lemma named_nil k l : (forall x, x ∈ l -> md_name x <> k) -> named k l = [].
Proof.
  intros Hl. induction l as [|m l IH]; [done|]. rewrite named_cons, decide_False by (apply Hl; left).
  apply IH. intros x Hx. apply Hl. by right.
Qed.

(** A name in front of a sorted list is not in it. *)
Lemma named_before k m l : sorted_metadata (m :: l) -> memcmp k (md_name m) < 0 -> named k (m :: l) = [].
Proof.
  intros [_ Hm]%sorted_cons Hk. apply named_nil. intros x Hx <-.
  assert (memcmp (md_name m) (md_name x) <= 0) as Hle by (apply elem_of_cons in Hx as [->|Hx]; [rewrite memcmp_refl; lia|auto]).
  destruct (Z.eq_dec (memcmp (md_name m) (md_name x)) 0) as [E|]; [apply memcmp_eq_0 in E; rewrite E, memcmp_refl in Hk; lia|].
  pose proof (memcmp_antisym (md_name x) (md_name m)). lia.
Qed.

Lemma merge_sorted old new : sorted_metadata old -> sorted_metadata new -> sorted_metadata (merge_metadata old new).
Proof.
  revert new. induction old as [|o old IH]; intros new Ho Hn; [by rewrite merge_metadata_nil_l|].
  induction new as [|n new IHn]; [done|]. rewrite merge_metadata_cons. cbn zeta.
  pose proof Ho as [Ho' Hoa]%sorted_cons. pose proof Hn as [Hn' Hna]%sorted_cons.
  destruct (Z.ltb_spec (memcmp (md_name o) (md_name n)) 0) as [Hlt|Hge]; [|destruct (Z.eqb_spec (memcmp (md_name o) (md_name n)) 0) as [E|Hne]];
    apply sorted_cons; (split; [auto|]); intros x Hx%merge_metadata_elem.
  - destruct Hx as [Hx|[->|Hx]%elem_of_cons]; [auto|lia|]. apply (name_le_trans _ (md_name n)); [lia|auto].
  - destruct Hx as [Hx|Hx]; [|auto]. apply memcmp_eq_0 in E. rewrite <- E. auto.
  - pose proof (memcmp_antisym (md_name o) (md_name n)). destruct Hx as [[->|Hx]%elem_of_cons|Hx]; [lia| |auto].
    apply (name_le_trans _ (md_name o)); [lia|auto].
Qed.

Lemma merge_named k old new : sorted_metadata old -> sorted_metadata new ->
  named k (merge_metadata old new) = named k new ++ drop (length (named k new)) (named k old).
Proof.
  revert new. induction old as [|o old IH]; intros new Ho Hn; [rewrite merge_metadata_nil_l; cbn; by rewrite drop_nil, app_nil_r|].
  induction new as [|n new IHn]; [done|]. rewrite merge_metadata_cons. cbn zeta.
  pose proof Ho as [Ho' Hoa]%sorted_cons. pose proof Hn as [Hn' Hna]%sorted_cons.
  destruct (Z.ltb_spec (memcmp (md_name o) (md_name n)) 0) as [Hlt|Hge]; [|destruct (Z.eqb_spec (memcmp (md_name o) (md_name n)) 0) as [E|Hne]].
  - rewrite (named_cons k o), (named_cons k o), IH by done. case_decide as Hk; [|done].
    by rewrite (named_before k n new) by (done || by rewrite <- Hk).
  - apply memcmp_eq_0 in E. rewrite (named_cons k n), (named_cons k n), (named_cons k o), E, IH by done. by case_decide.
  - rewrite (named_cons k n), (named_cons k n), IHn by done. case_decide as Hk; [|done].
    rewrite (named_before k o old); [by rewrite !drop_nil|done|]. rewrite <- Hk. apply memcmp_antisym. lia.
Qed.

(** One record per name. *)
Lemma names_NoDup l : NoDup (md_name <$> l) <-> forall k, (length (named k l) <= 1)%nat.
Proof.
  induction l as [|m l IH]; [split; [intros _ k; cbn; lia|constructor]|].
  rewrite fmap_cons, NoDup_cons. split.
  - intros [Hm Hl] k. rewrite named_cons. case_decide as Hk; [|by apply IH].
    cbn. enough (named k l = []) as -> by (cbn; lia). apply named_nil. intros x Hx Ex.
    apply Hm. rewrite Hk, <- Ex. by apply list_elem_of_fmap_2.
  - intros Hk. split.
    + intros (x & Ex & Hx)%list_elem_of_fmap. specialize (Hk (md_name m)). rewrite named_cons, decide_True in Hk by done. cbn in Hk.
      assert (x ∈ named (md_name m) l) as Hin by (by apply list_elem_of_filter). destruct (named (md_name m) l); [by apply elem_of_nil in Hin|cbn in Hk; lia].
    + apply IH. intros k. specialize (Hk k). rewrite named_cons in Hk. case_decide; [cbn in Hk; lia|done].
Qed.

(** C35: merging what a client sent, whatever it is, into stored metadata, which
    is sorted by name, keeps it sorted.  A name has the records the client sent
    for it, and behind them what is left of its stored records when as many of
    them are taken away; so when neither side has two records for a name, the
    result has none either, and a name has the new value if one was sent, else
    the value it had. *)
Theorem merge_metadata_correct old received : sorted_metadata old ->
  let merged := merge_metadata old (sort_metadata received) in
  sorted_metadata merged /\
  (forall k, exists sent, sent ≡ₚ named k received /\ named k merged = sent ++ drop (length sent) (named k old)) /\
  (NoDup (md_name <$> old) -> NoDup (md_name <$> received) ->
    NoDup (md_name <$> merged) /\
    forall k, named k merged = if decide (k ∈ md_name <$> received) then named k received else named k old).
Proof.
  intros Ho. cbv zeta. assert (sorted_metadata (sort_metadata received)) as Hs by exact (qsort_StronglySorted memcmp md_name received).
  assert (forall k, named k (sort_metadata received) ≡ₚ named k received) as Hp by (intros k; unfold named, sort_metadata; by rewrite qsort_perm).
  pose proof (fun k => merge_named k _ _ Ho Hs) as Hm. split; [by apply merge_sorted|].
  split; [intros k; exists (named k (sort_metadata received)); by split|].
  intros Hno Hnr. rewrite !names_NoDup in *.
  assert (forall k, named k (sort_metadata received) = named k received) as He.
  { intros k. specialize (Hp k). specialize (Hnr k). destruct (named k received) as [|x [|y l]]; [by apply Permutation_nil_r in Hp|by apply Permutation_singleton_r in Hp|cbn in Hnr; lia]. }
  assert (forall k, named k (merge_metadata old (sort_metadata received)) =
    if decide (k ∈ md_name <$> received) then named k received else named k old) as Hkey.
  { intros k. rewrite Hm, He. specialize (Hno k). case_decide as Hk.
    - apply list_elem_of_fmap in Hk as (x & -> & Hx). assert (x ∈ named (md_name x) received) as Hin by (by apply list_elem_of_filter).
      destruct (named (md_name x) received); [by apply elem_of_nil in Hin|]. rewrite drop_ge by (cbn; lia). apply app_nil_r.
    - enough (named k received = []) as -> by done. apply named_nil. intros x Hx Ex.
      apply Hk. rewrite <- Ex. by apply list_elem_of_fmap_2. }
  split; [|done]. intros k. rewrite Hkey. by case_decide.
Qed.

(** ** Examples. *)
Import RefCommon.

Definition two_records : list FDFSMetaData := [mkMeta (bs "height") (bs "80"); mkMeta (bs "width") (bs "160")].
Definition new_records : list FDFSMetaData := [mkMeta (bs "author") (bs "me"); mkMeta (bs "width") (bs "320")].

Example merge_two_records :
  merge_metadata two_records new_records =
    [mkMeta (bs "author") (bs "me"); mkMeta (bs "height") (bs "80"); mkMeta (bs "width") (bs "320")].
Proof. reflexivity. Qed.

Lemma two_records_ok : Forall meta_ok two_records.
Proof. repeat constructor; cbn; done || lia. Qed.

Lemma two_records_sorted : sorted_metadata two_records.
Proof. repeat constructor; vm_compute; discriminate. Qed.

Lemma metadata_roundtrip_witness :
  exists packed, fdfs_pack_metadata two_records = Some packed /\ fdfs_split_metadata (packed ++ 0 :: bs "rest") = two_records.
Proof. apply metadata_roundtrip; [done|exact two_records_ok]. Defined.

Lemma merge_metadata_correct_witness :
  NoDup (md_name <$> merge_metadata two_records (sort_metadata new_records)) /\
  named (bs "width") (merge_metadata two_records (sort_metadata new_records)) = [mkMeta (bs "width") (bs "320")] /\
  named (bs "height") (merge_metadata two_records (sort_metadata new_records)) = [mkMeta (bs "height") (bs "80")].
Proof.
  destruct (merge_metadata_correct two_records new_records two_records_sorted) as (_ & _ & Hu).
  destruct Hu as [Hd Hk]; [apply (bool_decide_unpack _); vm_compute; exact I..|].
  split; [exact Hd|]. split; [rewrite (Hk (bs "width")); vm_compute; reflexivity|rewrite (Hk (bs "height")); vm_compute; reflexivity].
Defined.

(** A name sent twice is stored twice, and a later change of it takes only one
    of the two away. *)
Example name_stored_twice :
  let twice := merge_metadata two_records (sort_metadata [mkMeta (bs "width") (bs "1"); mkMeta (bs "width") (bs "2")]) in
  named (bs "width") twice = [mkMeta (bs "width") (bs "1"); mkMeta (bs "width") (bs "2")] /\
  named (bs "width") (merge_metadata twice (sort_metadata [mkMeta (bs "width") (bs "3")])) =
    [mkMeta (bs "width") (bs "3"); mkMeta (bs "width") (bs "2")].
Proof. vm_compute. split; reflexivity. Qed.
