(* ===== verification/FileSys.v ===== *)
(** * Files, and the calls of libfastcommon on them.

    A file system maps names to inodes, so that a descriptor keeps its file
    when the name goes away; a descriptor open for appending or reading is an
    inode number.  Every system call takes the next of [fs_faults]: an [errno]
    (0 is success, an exhausted list is success) and, for a write that fails,
    the number of bytes written before.

    [safeWriteToFile], [writeToFile], [getExecResult] and the ini file reader
    belong to libfastcommon; they are the class [FastFiles], with the laws the
    sources rely on in [FastFilesLaws].  [RefFiles] is an instance. *)

From S2P Require Import Prelude TrunkShared.

Record FileSys := mkFS {
  fs_names : gmap bytes nat;
  fs_inodes : list bytes;
  fs_dirs : gset bytes;
  fs_mtimes : gmap bytes Z;
  fs_clock : Z;
  fs_faults : list (Z * nat);
}.

Definition fs_set_names x s := mkFS x (fs_inodes s) (fs_dirs s) (fs_mtimes s) (fs_clock s) (fs_faults s).
Definition fs_set_inodes x s := mkFS (fs_names s) x (fs_dirs s) (fs_mtimes s) (fs_clock s) (fs_faults s).
Definition fs_set_dirs x s := mkFS (fs_names s) (fs_inodes s) x (fs_mtimes s) (fs_clock s) (fs_faults s).
Definition fs_set_mtimes x s := mkFS (fs_names s) (fs_inodes s) (fs_dirs s) x (fs_clock s) (fs_faults s).
Definition fs_set_clock x s := mkFS (fs_names s) (fs_inodes s) (fs_dirs s) (fs_mtimes s) x (fs_faults s).
Definition fs_set_faults x s := mkFS (fs_names s) (fs_inodes s) (fs_dirs s) (fs_mtimes s) (fs_clock s) x.

(** What a file holds. *)
Definition fs_text (s : FileSys) (name : bytes) : option bytes := fs_names s !! name ≫= fun i => fs_inodes s !! i.

(** A new inode for a name. *)
Definition fs_create (name text : bytes) (s : FileSys) : FileSys :=
  fs_set_inodes (fs_inodes s ++ [text]) (fs_set_names (<[name := length (fs_inodes s)]> (fs_names s)) s).

Definition fs_remove (name : bytes) (s : FileSys) : FileSys := fs_set_names (delete name (fs_names s)) s.

(** ** System calls. *)
Definition sys_fault : M FileSys (Z * nat) := fun s =>
  match fs_faults s with
  | [] => ((0, 0%nat), s)
  | f :: l => (f, fs_set_faults l s)
  end.

(** [access(name, F_OK)]: 0 or the errno. *)
Definition sys_access (name : bytes) : M FileSys Z :=
  (let! f := sys_fault in
   if decide (f.1 <> 0) then ret f.1
   else gets (fun s => match fs_names s !! name with Some _ => 0 | None => ENOENT end))%c.

Definition fileExists (name : bytes) : M FileSys bool :=
  (let! e := sys_access name in ret (e =? 0))%c.

Definition dirExists (name : bytes) : M FileSys bool :=
  gets (fun s => bool_decide (name ∈ fs_dirs s)).

Definition sys_mkdir (name : bytes) : M FileSys Z :=
  (let! f := sys_fault in
   if decide (f.1 <> 0) then ret f.1
   else modify (fun s => fs_set_dirs ({[name]} ∪ fs_dirs s) s) ;; ret 0)%c.

Definition sys_unlink (name : bytes) : M FileSys Z :=
  (let! f := sys_fault in
   if decide (f.1 <> 0) then ret f.1
   else
     let! i := gets (fun s => fs_names s !! name) in
     match i with
     | None => ret ENOENT
     | Some _ => modify (fs_remove name) ;; ret 0
     end)%c.

Definition sys_rename (old new : bytes) : M FileSys Z :=
  (let! f := sys_fault in
   if decide (f.1 <> 0) then ret f.1
   else
     let! i := gets (fun s => fs_names s !! old) in
     match i with
     | None => ret ENOENT
     | Some n => modify (fun s => fs_set_names (<[new := n]> (delete old (fs_names s))) s) ;; ret 0
     end)%c.

(** [open(name, O_RDONLY)]. *)
Definition sys_open_read (name : bytes) : M FileSys (Z + nat) :=
  (let! f := sys_fault in
   if decide (f.1 <> 0) then ret (inl f.1)
   else gets (fun s => match fs_names s !! name with Some i => inr i | None => inl ENOENT end))%c.

(** [open(name, O_WRONLY | O_CREAT | O_APPEND)]. *)
Definition sys_open_append (name : bytes) : M FileSys (Z + nat) :=
  (let! f := sys_fault in
   if decide (f.1 <> 0) then ret (inl f.1)
   else
     let! i := gets (fun s => fs_names s !! name) in
     match i with
     | Some i => ret (inr i)
     | None =>
         let! i := gets (fun s => length (fs_inodes s)) in
         modify (fs_create name []) ;; ret (inr i)
     end)%c.

(** [open(name, O_WRONLY | O_CREAT | O_TRUNC)]. *)
Definition sys_open_trunc (name : bytes) : M FileSys (Z + nat) :=
  (let! f := sys_fault in
   if decide (f.1 <> 0) then ret (inl f.1)
   else
     let! i := gets (fun s => fs_names s !! name) in
     match i with
     | Some i => modify (fun s => fs_set_inodes (<[i := []]> (fs_inodes s)) s) ;; ret (inr i)
     | None =>
         let! i := gets (fun s => length (fs_inodes s)) in
         modify (fs_create name []) ;; ret (inr i)
     end)%c.

(** [fc_safe_write] at the end of a file: 0, or the errno of a write that wrote only a part. *)
Definition fc_safe_write (fd : option nat) (data : bytes) : M FileSys Z :=
  match fd with
  | None => ret EBADF
  | Some i =>
      (let! f := sys_fault in
       let written := if decide (f.1 <> 0) then take f.2 data else data in
       modify (fun s => fs_set_inodes (alter (fun t => t ++ written) i (fs_inodes s)) s) ;; ret f.1)%c
  end.

Definition sys_fsync (fd : option nat) : M FileSys Z :=
  match fd with
  | None => ret EBADF
  | Some _ => (let! f := sys_fault in ret f.1)%c
  end.

(** The size of an open file: [lseek(fd, 0, SEEK_END)]. *)
Definition sys_seek_end (fd : nat) : M FileSys (Z + Z) :=
  (let! f := sys_fault in
   if decide (f.1 <> 0) then ret (inl f.1)
   else gets (fun s => inr (Z.of_nat (length (default [] (fs_inodes s !! fd))))))%c.

(** [fc_safe_read(fd, buff, count)] at a position.  [read] of a regular
    file fails neither with [ENOENT] nor with [EINVAL]; these faults stand for
    [EIO] here. *)
Definition fc_safe_read (fd : option nat) (pos count : Z) : M FileSys (Z + bytes) :=
  match fd with
  | None => ret (inl EBADF)
  | Some i =>
      (let! f := sys_fault in
       if decide (f.1 <> 0) then ret (inl (if decide (f.1 = ENOENT \/ f.1 = EINVAL) then EIO else f.1))
       else gets (fun s => inr (take (Z.to_nat count) (drop (Z.to_nat pos) (default [] (fs_inodes s !! i))))))%c
  end.

(** [stat(name, ...)], for the time of the last modification. *)
Definition sys_stat_mtime (name : bytes) : M FileSys (option Z) :=
  (let! f := sys_fault in
   if decide (f.1 <> 0) then ret None
   else gets (fun s => fs_names s !! name ≫= fun _ => Some (default 0 (fs_mtimes s !! name))))%c.

(** ** Calls of libfastcommon. *)
Class FastFiles := {
  safeWriteToFile : bytes -> bytes -> M FileSys Z;
  writeToFile : bytes -> bytes -> M FileSys Z;
  (** [getExecResult(command, output, size)]: the exit status and the output. *)
  getExecResult : bytes -> M FileSys (Z * bytes);
  get_gzip_command_filename : bytes;
  IniContext : Type;
  iniLoadFromText : bytes -> Z + IniContext;
  ini_global_count : IniContext -> Z;
  iniGetIntValue : bytes -> IniContext -> Z -> Z;
  iniGetInt64Value : bytes -> IniContext -> Z -> Z;
  iniGetBoolValue : bytes -> IniContext -> bool -> bool;
}.

(** [iniLoadFromFile]: it reads the whole file. *)
Definition iniLoadFromFile `{FastFiles} (name : bytes) : M FileSys (Z + IniContext) :=
  (let! f := sys_fault in
   if decide (f.1 <> 0) then ret (inl f.1)
   else
     let! t := gets (fun s => fs_text s name) in
     ret (match t with None => inl ENOENT | Some t => iniLoadFromText t end))%c.

(** The text of an ini file without sections: a line per item. *)
Definition ini_line (kv : bytes * bytes) : bytes := kv.1 ++ bs "=" ++ kv.2 ++ [10].
Definition ini_text (items : list (bytes * bytes)) : bytes := concat (map ini_line items).

(** Keys and values made of letters, digits, [-], [_] and [.]. *)
Definition ini_char (c : Z) : bool :=
  ((48 <=? c) && (c <=? 57)) || ((65 <=? c) && (c <=? 90)) || ((97 <=? c) && (c <=? 122)) ||
  (c =? 45) || (c =? 95) || (c =? 46).
Definition ini_word (b : bytes) : Prop := b <> [] /\ Forall (fun c => ini_char c = true) b.

Definition ini_true (v : bytes) : bool :=
  bool_decide (v = bs "1") || bool_decide (v = bs "true") || bool_decide (v = bs "yes") || bool_decide (v = bs "on").

(** At most the files of the list differ; a name gets a new inode, or one that
    a file of the list had. *)
Record only_files (l : list bytes) (s s' : FileSys) : Prop := {
  of_names : forall n, n ∉ l -> fs_names s' !! n = fs_names s !! n;
  of_fresh : forall n i, n ∈ l -> fs_names s' !! n = Some i ->
    (exists m, m ∈ l /\ fs_names s !! m = Some i) \/ (length (fs_inodes s) <= i)%nat;
  of_range : (length (fs_inodes s) <= length (fs_inodes s'))%nat;
  of_inodes : forall i t, fs_inodes s !! i = Some t ->
    (forall n, n ∈ l -> fs_names s !! n <> Some i) -> fs_inodes s' !! i = Some t;
}.

(** No name got the inode of another one. *)
Definition fresh_names (s s' : FileSys) : Prop :=
  forall n i, fs_names s' !! n = Some i -> fs_names s !! n = Some i \/ (length (fs_inodes s) <= i)%nat.

Definition same_files (s s' : FileSys) : Prop :=
  fs_names s' = fs_names s /\ fs_inodes s' = fs_inodes s.

Definition no_faults (s : FileSys) : Prop := Forall (fun f => f.1 = 0) (fs_faults s).

(** Absolute names without characters that a shell treats specially. *)
Definition plain_path (name : bytes) : Prop :=
  head name = Some 47 /\ Forall (fun c => ini_char c || (c =? 47) = true) name.

(** Every name has an inode, and no two names have the same (no hard links). *)
Record fs_wf (s : FileSys) : Prop := {
  wf_range : forall n i, fs_names s !! n = Some i -> (i < length (fs_inodes s))%nat;
  wf_inj : forall n m i, fs_names s !! n = Some i -> fs_names s !! m = Some i -> n = m;
}.

Class FastFilesLaws `{FastFiles} := {
  (** The text that [gzip] makes of a text. *)
  gzip_text : bytes -> bytes;
  gzip_text_inj : forall a b, gzip_text a = gzip_text b -> a = b;
  safeWriteToFile_spec : forall name buff s,
    let '(r, s') := safeWriteToFile name buff s in
    only_files [name; name ++ bs ".tmp"] s s' /\ (fs_wf s -> fs_wf s') /\
    (forall i t, fs_inodes s !! i = Some t -> fs_inodes s' !! i = Some t) /\
    fs_text s' name = (if decide (r = 0) then Some buff else fs_text s name) /\
    (no_faults s -> r = 0 /\ no_faults s');
  writeToFile_spec : forall name buff s,
    let '(r, s') := writeToFile name buff s in
    only_files [name] s s' /\ (fs_wf s -> fs_wf s') /\
    (r = 0 -> fs_text s' name = Some buff /\ fs_mtimes s' !! name = Some (fs_clock s)) /\
    (no_faults s -> r = 0 /\ no_faults s');
  (** A compression replaces the file and touches no other, and no inode that
      someone has open. *)
  gzip_spec : forall name s,
    plain_path name ->
    let '((r, _), s') := getExecResult (get_gzip_command_filename ++ bs " " ++ name ++ bs " 2>&1") s in
    only_files [name; name ++ bs ".gz"] s s' /\ fresh_names s s' /\ (fs_wf s -> fs_wf s') /\
    (forall i t, fs_inodes s !! i = Some t -> fs_inodes s' !! i = Some t) /\
    (forall t, fs_text s name = Some t -> fs_names s !! (name ++ bs ".gz") = None ->
       if decide (r = 0)
       then fs_names s' !! name = None /\ fs_text s' (name ++ bs ".gz") = Some (gzip_text t)
       else fs_text s' name = Some t /\ fs_names s' !! (name ++ bs ".gz") = None) /\
    (fs_text s name = None \/ fs_names s !! (name ++ bs ".gz") <> None -> same_files s s') /\
    (no_faults s -> no_faults s');
  gunzip_spec : forall name s,
    plain_path name ->
    let '((r, _), s') := getExecResult (get_gzip_command_filename ++ bs " -d " ++ name ++ bs ".gz" ++ bs " 2>&1") s in
    only_files [name; name ++ bs ".gz"] s s' /\ fresh_names s s' /\ (fs_wf s -> fs_wf s') /\
    (forall i t, fs_inodes s !! i = Some t -> fs_inodes s' !! i = Some t) /\
    (forall t, fs_text s (name ++ bs ".gz") = Some (gzip_text t) -> fs_names s !! name = None ->
       (if decide (r = 0)
        then fs_text s' name = Some t /\ fs_names s' !! (name ++ bs ".gz") = None
        else fs_names s' !! name = None /\ fs_text s' (name ++ bs ".gz") = Some (gzip_text t)) /\
       (no_faults s -> r = 0)) /\
    (fs_text s (name ++ bs ".gz") = None \/ fs_names s !! name <> None -> same_files s s') /\
    (no_faults s -> no_faults s');
  ini_spec : forall items,
    NoDup (items.*1) -> Forall (fun kv => ini_word kv.1 /\ ini_word kv.2) items ->
    exists c, iniLoadFromText (ini_text items) = inr c /\
      ini_global_count c = Z.of_nat (length items) /\
      forall k v, (k, v) ∈ items ->
        (forall d, iniGetIntValue k c d = atoi v) /\
        (forall d, iniGetInt64Value k c d = (strtol 10 v).1) /\
        (forall d, iniGetBoolValue k c d = ini_true v);
}.

(** ** Frame lemmas. *)

Lemma sys_fault_spec s :
  let '(f, s') := sys_fault s in
  fs_names s' = fs_names s /\ fs_inodes s' = fs_inodes s /\ fs_dirs s' = fs_dirs s /\
  fs_clock s' = fs_clock s /\ fs_mtimes s' = fs_mtimes s /\
  (no_faults s -> f.1 = 0 /\ no_faults s').
Proof.
  unfold sys_fault, no_faults. destruct (fs_faults s) as [|f l] eqn:E; simpl.
  - rewrite E. done.
  - split_and!; try done. intros Hf. by apply Forall_cons in Hf.
Qed.

Lemma fs_text_create name t s : fs_text (fs_create name t s) name = Some t.
Proof.
  unfold fs_text, fs_create. cbn. rewrite lookup_insert_eq. cbn.
  rewrite lookup_app_r by lia. by rewrite Nat.sub_diag.
Qed.

Lemma inodes_create name t s i u :
  fs_inodes s !! i = Some u -> fs_inodes (fs_create name t s) !! i = Some u.
Proof. intros Hi. cbn. rewrite lookup_app_l; [done|]. by eapply lookup_lt_Some. Qed.

Lemma wf_create name t s : fs_wf s -> fs_wf (fs_create name t s).
Proof.
  intros [Hr Hi]. split.
  - intros n i. cbn. rewrite length_app. cbn. rewrite lookup_insert_Some. intros [[_ <-]|[_ Hn]]; [lia|].
    apply Hr in Hn. lia.
  - intros n m i. cbn. rewrite !lookup_insert_Some.
    intros [[<- Hn]|[Hn1 Hn]] [[<- Hm]|[Hm1 Hm]]; try done; [| |by eapply Hi].
    + apply Hr in Hm. lia.
    + apply Hr in Hn. lia.
Qed.

Lemma wf_remove name s : fs_wf s -> fs_wf (fs_remove name s).
Proof.
  intros [Hr Hi]. split.
  - intros n i. cbn. rewrite lookup_delete_Some. intros [_ Hn]. by apply Hr in Hn.
  - intros n m i. cbn. rewrite !lookup_delete_Some. intros [_ Hn] [_ Hm]. by eapply Hi.
Qed.

Lemma wf_same s s' : fs_names s' = fs_names s -> fs_inodes s' = fs_inodes s -> fs_wf s -> fs_wf s'.
Proof. intros Hn Hi [? ?]. split; rewrite Hn; [by rewrite Hi|done]. Qed.

Lemma only_same l s s' :
  fs_names s' = fs_names s -> fs_inodes s' = fs_inodes s -> only_files l s s'.
Proof. intros Hn Hi. split; rewrite ?Hn, ?Hi; try done. intros n i Hl Hl'. left. by exists n. Qed.

Lemma only_create name t s : only_files [name] s (fs_create name t s).
Proof.
  split; cbn; try done.
  - intros n Hnot. apply lookup_insert_ne. set_solver.
  - intros n i ->%list_elem_of_singleton. rewrite lookup_insert_eq. intros [= <-]. by right.
  - rewrite length_app. lia.
  - intros i u Hi _. rewrite lookup_app_l; [done|by eapply lookup_lt_Some].
Qed.

Lemma only_remove name s : only_files [name] s (fs_remove name s).
Proof.
  split; cbn; try done.
  - intros n Hnot. apply lookup_delete_ne. set_solver.
  - intros n i ->%list_elem_of_singleton. by rewrite lookup_delete_eq.
Qed.

Lemma of_sub l l' s s' : l ⊆ l' -> only_files l s s' -> only_files l' s s'.
Proof.
  intros Hl []. split; try done; [eauto| |eauto].
  intros n i Hn Hi. destruct (decide (n ∈ l)) as [Hin|Hout].
  - destruct (of_fresh0 n i Hin Hi) as [(m & Hm & ?)|?]; [|by right]. left. exists m. auto.
  - rewrite of_names0 in Hi by done. left. by exists n.
Qed.

Lemma of_trans l s s' s'' : fs_wf s -> only_files l s s' -> only_files l s' s'' -> only_files l s s''.
Proof.
  intros Hwf [] []. split; try congruence; try lia.
  - intros n Hn. rewrite of_names1, of_names0; done.
  - intros n i Hn Hi. destruct (of_fresh1 n i Hn Hi) as [(m & Hm & Hi')|?]; [|right; lia]. by apply (of_fresh0 m i).
  - intros i t Hi Hnot. assert (i < length (fs_inodes s))%nat by (by eapply lookup_lt_Some).
    apply of_inodes1; [by apply of_inodes0|]. intros n Hn Hin.
    destruct (of_fresh0 n i Hn Hin) as [(m & Hm & Hi')|?]; [by apply (Hnot m Hm)|lia].
Qed.

(** *** Operations that touch at most the files of a list. *)
Definition fs_only {A} (l : list bytes) (c : M FileSys A) : Prop :=
  forall s, fs_wf s -> only_files l s (c s).2 /\ fs_wf (c s).2.

Lemma only_ret {A} l (a : A) : fs_only l (ret a).
Proof. intros s Hwf. split; [by apply only_same|done]. Qed.

Lemma only_gets {A} l (f : FileSys -> A) : fs_only l (gets f).
Proof. intros s Hwf. split; [by apply only_same|done]. Qed.

Lemma only_bind {A B} l (c : M FileSys A) (k : A -> M FileSys B) :
  fs_only l c -> (forall a, fs_only l (k a)) -> fs_only l (bind c k).
Proof.
  intros Hc Hk s Hwf. unfold bind. destruct (Hc s Hwf) as [Ho Hwf']. destruct (c s) as [a s'].
  destruct (Hk a s' Hwf') as [Ho' Hwf'']. split; [by eapply of_trans|done].
Qed.

Lemma only_sub {A} l l' (c : M FileSys A) : l ⊆ l' -> fs_only l c -> fs_only l' c.
Proof. intros Hl Hc s Hwf. destruct (Hc s Hwf). split; [by eapply of_sub|done]. Qed.

Lemma only_fault l : fs_only l sys_fault.
Proof.
  intros s Hwf. pose proof (sys_fault_spec s) as Hs. destruct (sys_fault s) as [f s'].
  destruct Hs as (Hn & Hi & _). split; [by apply only_same|by apply (wf_same s)].
Qed.

Lemma only_modify_create l name t : name ∈ l -> fs_only l (modify (fs_create name t)).
Proof. intros Hin s Hwf. split; [|by apply wf_create]. eapply of_sub; [|apply only_create]. set_solver. Qed.

Lemma only_modify_remove l name : name ∈ l -> fs_only l (modify (fs_remove name)).
Proof. intros Hin s Hwf. split; [|by apply wf_remove]. eapply of_sub; [|apply only_remove]. set_solver. Qed.

(** Splits an operation into its calls. *)
Ltac fs_only :=
  repeat match goal with
    | |- fs_only _ (bind _ _) => apply only_bind; [|intros ?]
    | |- fs_only _ (ret _) => apply only_ret
    | |- fs_only _ (gets _) => apply only_gets
    | |- fs_only _ sys_fault => apply only_fault
    | |- fs_only _ (if _ then _ else _) => case_match
    | |- fs_only _ (match _ with _ => _ end) => case_match
    end.

Lemma only_access l name : fs_only l (sys_access name).
Proof. unfold sys_access. fs_only. Qed.

Lemma only_exists l name : fs_only l (fileExists name).
Proof. unfold fileExists. fs_only. apply only_access. Qed.

Lemma only_unlink l name : name ∈ l -> fs_only l (sys_unlink name).
Proof. intros Hin. unfold sys_unlink. fs_only. by apply only_modify_remove. Qed.

Lemma only_open_read l name : fs_only l (sys_open_read name).
Proof. unfold sys_open_read. fs_only. Qed.

Lemma only_open_append l name : name ∈ l -> fs_only l (sys_open_append name).
Proof. intros Hin. unfold sys_open_append. fs_only. by apply only_modify_create. Qed.

Lemma only_fsync l fd : fs_only l (sys_fsync fd).
Proof. unfold sys_fsync. fs_only. Qed.

Lemma only_seek_end l fd : fs_only l (sys_seek_end fd).
Proof. unfold sys_seek_end. fs_only. Qed.

Lemma only_read l fd pos n : fs_only l (fc_safe_read fd pos n).
Proof. unfold fc_safe_read. fs_only. Qed.

Lemma only_stat l name : fs_only l (sys_stat_mtime name).
Proof. unfold sys_stat_mtime. fs_only. Qed.

(** [open] for truncation, and a write through the descriptor it gave. *)
Lemma only_rewrite l name data :
  name ∈ l ->
  fs_only l (let! fd := sys_open_trunc name in
             match fd with inl e => ret (errno_or e ENOENT) | inr fd => fc_safe_write (Some fd) data end)%c.
Proof.
  intros Hin s Hwf. unfold sys_open_trunc, fc_safe_write, bind, ret, gets, modify.
  pose proof (only_fault l s Hwf) as Hf. destruct (sys_fault s) as [[e n] s1]. cbn in Hf. destruct Hf as [Ho1 Hwf1].
  assert (forall i text g, fs_names s1 !! name = Some i ->
    only_files l s1 (fs_set_inodes (alter g i (<[i:=text]> (fs_inodes s1))) s1) /\
    fs_wf (fs_set_inodes (alter g i (<[i:=text]> (fs_inodes s1))) s1)) as Hset.
  { intros i text g Hi. split; split; cbn [fs_set_inodes fs_names fs_inodes]; try done.
    - intros m j Hm Hj. left. by exists m.
    - by rewrite length_alter, length_insert.
    - intros j t Hj Hnot. assert (i <> j) by (intros ->; by apply (Hnot name)).
      by rewrite list_lookup_alter_ne, list_lookup_insert_ne.
    - intros m j Hm. rewrite length_alter, length_insert. by eapply wf_range.
    - apply (wf_inj _ Hwf1). }
  cbn [fst snd]. case_decide; cbn; [by split|].
  destruct (fs_names s1 !! name) as [i|] eqn:Ei.
  - set (s2 := fs_set_inodes (<[i:=[]]> (fs_inodes s1)) s1).
    assert (only_files l s1 s2 /\ fs_wf s2) as [Ho2 Hwf2].
    { destruct (Hset i [] (fun t => t) eq_refl) as [Ho Hw].
      assert (alter (fun t : bytes => t) i (<[i:=[]]> (fs_inodes s1)) = <[i:=[]]> (fs_inodes s1)) as E.
      { apply list_eq. intros j. rewrite list_lookup_alter. case_decide; [subst; apply option_fmap_id|done]. }
      by rewrite E in Ho, Hw. }
    pose proof (only_fault l s2 Hwf2) as Hf3. destruct (sys_fault s2) as [[e3 n3] s3] eqn:E3.
    cbn in Hf3. destruct Hf3 as [Ho3 Hwf3]. cbn.
    pose proof (sys_fault_spec s2) as Hsp. rewrite E3 in Hsp. destruct Hsp as (Hn3 & Hi3 & _).
    set (g := fun t => t ++ _). set (s4 := fs_set_inodes (alter g i (fs_inodes s3)) s3).
    assert (only_files l s1 s4 /\ fs_wf s4) as [Ho4 Hwf4].
    { destruct (Hset i [] g eq_refl) as [[O1 O2 O3 O4] [W1 W2]]. split; split; unfold s4; cbn [fs_set_inodes fs_names fs_inodes] in *;
        rewrite ?Hn3, ?Hi3; assumption. }
    split; [by eapply of_trans|done].
  - set (s2 := fs_create name [] s1).
    assert (fs_wf s2) as Hwf2 by (by apply wf_create).
    assert (only_files l s1 s2) as Ho2 by (eapply of_sub; [|apply only_create]; set_solver).
    pose proof (sys_fault_spec s2) as Hsp. destruct (sys_fault s2) as [[e3 n3] s3]. destruct Hsp as (Hn3 & Hi3 & _). cbn.
    set (g := fun t => t ++ _). set (s4 := fs_set_inodes (alter g _ (fs_inodes s3)) s3).
    assert (fs_names s4 = fs_names s2) as Hn4 by done.
    assert (only_files l s1 s4 /\ fs_wf s4) as [Ho4 Hwf4].
    { destruct Ho2 as [O1 O2 O3 O4]. destruct Hwf2 as [W1 W2].
      split; split; rewrite ?Hn4; unfold s4; cbn [fs_set_inodes fs_inodes]; rewrite ?length_alter, ?Hi3; try assumption.
      intros j t Hj Hnot. rewrite list_lookup_alter_ne; [by apply O4|]. apply lookup_lt_Some in Hj. lia. }
    split; [by eapply of_trans|done].
Qed.

(** *** Calls that do not fail. *)
Section quiet.
Context (s : FileSys) (Hs : fs_faults s = []).

Lemma fault_none : sys_fault s = ((0, 0%nat), s).
Proof. unfold sys_fault. by rewrite Hs. Qed.

Ltac quiet := unfold bind, gets, modify, ret; rewrite fault_none; cbn [fst snd];
  rewrite ?(decide_False (P := 0 <> 0)) by lia; cbn [fst snd].

Lemma access_none name :
  sys_access name s = (match fs_names s !! name with Some _ => 0 | None => ENOENT end, s).
Proof. unfold sys_access. by quiet. Qed.

Lemma exists_none name : fileExists name s = (bool_decide (is_Some (fs_names s !! name)), s).
Proof.
  unfold fileExists, bind. rewrite access_none. unfold ret. by destruct (fs_names s !! name).
Qed.

Lemma unlink_none name :
  sys_unlink name s =
  match fs_names s !! name with Some _ => (0, fs_remove name s) | None => (ENOENT, s) end.
Proof. unfold sys_unlink. quiet. by destruct (fs_names s !! name). Qed.

Lemma open_read_none name :
  sys_open_read name s = (match fs_names s !! name with Some i => inr i | None => inl ENOENT end, s).
Proof. unfold sys_open_read. by quiet. Qed.

Lemma open_append_none name :
  sys_open_append name s =
  match fs_names s !! name with
  | Some i => (inr i, s)
  | None => (inr (length (fs_inodes s)), fs_create name [] s)
  end.
Proof. unfold sys_open_append. quiet. by destruct (fs_names s !! name). Qed.

Lemma write_none i data :
  fc_safe_write (Some i) data s = (0, fs_set_inodes (alter (fun t => t ++ data) i (fs_inodes s)) s).
Proof. unfold fc_safe_write. by quiet. Qed.

Lemma fsync_none i : sys_fsync (Some i) s = (0, s).
Proof. unfold sys_fsync. by quiet. Qed.

Lemma seek_end_none i : sys_seek_end i s = (inr (Z.of_nat (length (default [] (fs_inodes s !! i)))), s).
Proof. unfold sys_seek_end. by quiet. Qed.

Lemma read_none i pos n :
  fc_safe_read (Some i) pos n s = (inr (take (Z.to_nat n) (drop (Z.to_nat pos) (default [] (fs_inodes s !! i)))), s).
Proof. unfold fc_safe_read. by quiet. Qed.

Lemma ini_none `{FastFiles} name :
  iniLoadFromFile name s = (match fs_text s name with None => inl ENOENT | Some t => iniLoadFromText t end, s).
Proof. unfold iniLoadFromFile. by quiet. Qed.
End quiet.

Section only.
Context `{FastFilesLaws}.

Lemma only_safe_write l name buff : name ∈ l -> name ++ bs ".tmp" ∈ l -> fs_only l (safeWriteToFile name buff).
Proof.
  intros H1 H2 s Hwf. pose proof (safeWriteToFile_spec name buff s) as Hs.
  destruct (safeWriteToFile name buff s) as [r s']. destruct Hs as (Ho & Hw & _). cbn.
  split; [|auto]. eapply of_sub; [|exact Ho]. set_solver.
Qed.

Lemma only_write_file l name buff : name ∈ l -> fs_only l (writeToFile name buff).
Proof.
  intros H1 s Hwf. pose proof (writeToFile_spec name buff s) as Hs.
  destruct (writeToFile name buff s) as [r s']. destruct Hs as (Ho & Hw & _). cbn.
  split; [|auto]. eapply of_sub; [|exact Ho]. set_solver.
Qed.

Lemma only_ini l name : fs_only l (iniLoadFromFile name).
Proof. unfold iniLoadFromFile. fs_only. Qed.
End only.

(** ** An instance: [gzip] keeps the text, the commands are told apart by
    their arguments, and an ini file is split at newlines and [=]. *)
Module RefFiles.

Fixpoint split_at (c : Z) (s : bytes) : bytes * option bytes :=
  match s with
  | [] => ([], None)
  | x :: s' =>
      if decide (x = c) then ([], Some s')
      else let '(a, b) := split_at c s' in (x :: a, b)
  end.

(** The items of a text; every line is shorter than the text. *)
Fixpoint ini_items (fuel : nat) (s : bytes) : list (bytes * bytes) :=
  match fuel with
  | O => []
  | S fuel =>
      match split_at 10 s with
      | (line, rest) =>
          let tail := match rest with Some r => ini_items fuel r | None => [] end in
          match split_at (ch "=") line with
          | (k, Some v) => (k, v) :: tail
          | (_, None) => tail
          end
      end
  end.

Definition get (k : bytes) (c : list (bytes * bytes)) : option bytes :=
  snd <$> find (fun kv => bool_decide (kv.1 = k)) c.

(** Commands: [gzip NAME 2>&1] and [gzip -d NAME.gz 2>&1]. *)
Definition strip_suffix (suffix s : bytes) : option bytes :=
  if bool_decide (drop (length s - length suffix) s = suffix)
  then Some (take (length s - length suffix) s) else None.

Definition strip_prefix (p s : bytes) : option bytes :=
  if bool_decide (take (length p) s = p) then Some (drop (length p) s) else None.

(** Replaces [from], holding some text, by [to] with the same text. *)
Definition recode (from to : bytes) : M FileSys (Z * bytes) :=
  (let! f := sys_fault in
   if decide (f.1 <> 0) then ret (f.1, [])
   else
     let! t := gets (fun s => fs_text s from) in
     let! old := gets (fun s => fs_names s !! to) in
     match t, old with
     | Some t, None => modify (fun s => fs_remove from (fs_create to t s)) ;; ret (0, [])
     | _, _ => ret (1, [])
     end)%c.

Definition store_new (name buff : bytes) : M FileSys Z :=
  (let! f := sys_fault in
   if decide (f.1 <> 0) then ret f.1
   else modify (fun s => fs_set_mtimes (<[name := fs_clock s]> (fs_mtimes s)) (fs_create name buff s)) ;; ret 0)%c.

Definition exec (command : bytes) : M FileSys (Z * bytes) :=
  match strip_suffix (bs " 2>&1") command with
  | None => ret (127, [])
  | Some c =>
      match strip_prefix (bs "gzip -d ") c with
      | Some gz => match strip_suffix (bs ".gz") gz with
                   | Some name => recode gz name
                   | None => ret (1, [])
                   end
      | None => match strip_prefix (bs "gzip ") c with
                | Some name => recode name (name ++ bs ".gz")
                | None => ret (127, [])
                end
      end
  end.

#[export] Instance ref_files : FastFiles := {|
  safeWriteToFile := store_new;
  writeToFile := store_new;
  getExecResult := exec;
  get_gzip_command_filename := bs "gzip";
  IniContext := list (bytes * bytes);
  iniLoadFromText t := inr (ini_items (S (length t)) t);
  ini_global_count c := Z.of_nat (length c);
  iniGetIntValue k c d := match get k c with Some v => atoi v | None => d end;
  iniGetInt64Value k c d := match get k c with Some v => (strtol 10 v).1 | None => d end;
  iniGetBoolValue k c d := match get k c with Some v => ini_true v | None => d end;
|}.

Lemma split_at_spec c a b : c ∉ a -> split_at c (a ++ c :: b) = (a, Some b).
Proof.
  induction a as [|x a IH]; intros Hn; simpl; [by rewrite decide_True|].
  apply not_elem_of_cons in Hn as [Hx Hn]. rewrite decide_False by done. by rewrite IH.
Qed.

Lemma ini_word_no c b : ini_char c = false -> ini_word b -> c ∉ b.
Proof. intros Hc [_ Hb] Hin. rewrite Forall_forall in Hb. apply Hb in Hin. congruence. Qed.

Lemma ini_items_text items fuel :
  Forall (fun kv => ini_word kv.1 /\ ini_word kv.2) items -> (length items < fuel)%nat ->
  ini_items fuel (ini_text items) = items.
Proof.
  intros Hw. revert fuel. induction Hw as [|[k v] items [Hk Hv] Hw IH]; intros fuel Hf.
  - destruct fuel as [|fuel]; [done|]. done.
  - destruct fuel as [|fuel]; [simpl in Hf; lia|].
    replace (ini_text ((k, v) :: items)) with ((k ++ bs "=" ++ v) ++ 10 :: ini_text items)
      by (unfold ini_text, ini_line; simpl; rewrite <- !app_assoc; simpl; rewrite <- !app_assoc; done).
    cbn [ini_items]. rewrite split_at_spec.
    + change (bs "=" ++ v) with (ch "=" :: v). rewrite split_at_spec by (by apply ini_word_no).
      rewrite IH by (simpl in Hf; lia). done.
    + rewrite !not_elem_of_app. split_and!; [by apply ini_word_no| |by apply ini_word_no].
      intros Hin. apply list_elem_of_singleton in Hin. done.
Qed.

Lemma ini_text_length items : (length items <= length (ini_text items))%nat.
Proof.
  induction items as [|kv items IH]; [done|]. unfold ini_text in *. simpl. rewrite length_app.
  unfold ini_line at 1. rewrite !length_app. simpl. lia.
Qed.

Lemma get_elem k v items : NoDup (items.*1) -> (k, v) ∈ items -> get k items = Some v.
Proof.
  unfold get. induction items as [|[k' v'] items IH]; intros Hnd Hin; [by apply not_elem_of_nil in Hin|].
  apply NoDup_cons in Hnd as [Hnot Hnd]. cbn [find fst].
  case_bool_decide as E; cbn in E.
  - subst k'. apply elem_of_cons in Hin as [[= ->]|Hin]; [done|].
    exfalso. apply Hnot. apply list_elem_of_fmap. exists (k, v). done.
  - apply elem_of_cons in Hin as [[= -> ->]|Hin]; [done|]. by apply IH.
Qed.

Lemma store_new_spec name buff s :
  let '(r, s') := store_new name buff s in
  only_files [name] s s' /\ (fs_wf s -> fs_wf s') /\
  (forall i t, fs_inodes s !! i = Some t -> fs_inodes s' !! i = Some t) /\
  fs_text s' name = (if decide (r = 0) then Some buff else fs_text s name) /\
  (r = 0 -> fs_mtimes s' !! name = Some (fs_clock s)) /\
  (no_faults s -> r = 0 /\ no_faults s').
Proof.
  unfold store_new, bind, ret, modify. pose proof (sys_fault_spec s) as Hs.
  destruct (sys_fault s) as [f s1]. destruct Hs as (Hn & Hi & Hd & Hc & Hm & Hf).
  assert (forall i t, fs_inodes s !! i = Some t -> fs_inodes s1 !! i = Some t) as Hk by (by rewrite Hi).
  case_decide as E; cbn [fst snd].
  - split_and!; [by apply only_same|by apply wf_same|done
      |rewrite decide_False by done; unfold fs_text; by rewrite Hn, Hi|done|by intros []%Hf].
  - set (s2 := fs_create name buff s1).
    assert (only_files [name] s s2) as Ho.
    { destruct (only_create name buff s1) as [O1 O2 O3 O4]. rewrite Hn in O1, O4.
      rewrite Hi in O3. split; try done; fold s2 in O1, O2, O3, O4.
      - intros n i Hl Hin. destruct (O2 n i Hl Hin) as [(m & ? & ?)|?]; [left; exists m; by rewrite <- Hn|right; by rewrite <- Hi].
      - intros i t Hit Hnot. apply O4; [by apply Hk|done]. }
    split_and!.
    + destruct Ho. by split.
    + intros Hwf. apply (wf_same s2); [done|done|]. apply wf_create. by apply (wf_same s).
    + intros. apply inodes_create. auto.
    + rewrite decide_True by done. apply (fs_text_create name buff s1).
    + intros _. cbn. by rewrite lookup_insert_eq, Hc.
    + intros []%Hf. by split.
Qed.

Lemma recode_spec from to s :
  from <> to ->
  let '((r, _), s') := recode from to s in
  only_files [from; to] s s' /\ fresh_names s s' /\ (fs_wf s -> fs_wf s') /\
  (forall i t, fs_inodes s !! i = Some t -> fs_inodes s' !! i = Some t) /\
  (forall t, fs_text s from = Some t -> fs_names s !! to = None ->
     (if decide (r = 0)
      then fs_names s' !! from = None /\ fs_text s' to = Some t
      else fs_text s' from = Some t /\ fs_names s' !! to = None) /\
     (no_faults s -> r = 0)) /\
  (fs_text s from = None \/ fs_names s !! to <> None -> same_files s s') /\
  (no_faults s -> no_faults s').
Proof.
  intros Hne. unfold recode, bind, ret, modify, gets. pose proof (sys_fault_spec s) as Hs.
  destruct (sys_fault s) as [f s1]. destruct Hs as (Hn & Hi & Hd & Hc & Hm & Hf).
  assert (fs_text s1 from = fs_text s from) as Ht by (unfold fs_text; by rewrite Hn, Hi).
  assert (forall i t, fs_inodes s !! i = Some t -> fs_inodes s1 !! i = Some t) as Hk by (by rewrite Hi).
  assert (forall r : Z, r <> 0 ->
    only_files [from; to] s s1 /\ fresh_names s s1 /\ (fs_wf s -> fs_wf s1) /\
    (forall i t, fs_inodes s !! i = Some t -> fs_inodes s1 !! i = Some t) /\
    (forall t, fs_text s from = Some t -> fs_names s !! to = None ->
       (if decide (r = 0) then fs_names s1 !! from = None /\ fs_text s1 to = Some t
        else fs_text s1 from = Some t /\ fs_names s1 !! to = None)) /\
    same_files s s1 /\
    (no_faults s -> no_faults s1)) as Hsame.
  { intros r Hr. split_and!; [by apply only_same|intros n i Hni; left; by rewrite <- Hn|by apply wf_same|done
      |intros; rewrite decide_False by done; split; congruence|done|by intros []%Hf]. }
  case_decide as E; cbn [fst snd].
  - destruct (Hsame f.1 E) as (? & ? & ? & ? & H4 & ? & ?). split_and!; try done.
    intros t Ht1 Ht2. split; [by apply H4|]. by intros []%Hf.
  - rewrite Ht, Hn. destruct (fs_text s from) as [t|] eqn:Et; [destruct (fs_names s !! to) as [j|] eqn:Ej|].
    + destruct (Hsame 1 ltac:(done)) as (? & ? & ? & ? & H4 & ? & ?). split_and!; try done.
    + assert (forall i t, fs_inodes s !! i = Some t -> fs_inodes (fs_create to t s1) !! i = Some t) as Hk2.
      { intros. apply inodes_create. auto. }
      assert (only_files [from; to] (fs_create to t s1) (fs_remove from (fs_create to t s1))) as Ho2.
      { eapply of_sub; [|apply only_remove]. set_solver. }
      assert (only_files [from; to] s1 (fs_create to t s1)) as Ho1.
      { eapply of_sub; [|apply only_create]. set_solver. }
      assert (only_files [from; to] s s1) as Ho0 by (by apply only_same).
      split_and!.
      * split; cbn; try congruence.
        -- intros n Hnot. rewrite lookup_delete_ne by set_solver. rewrite lookup_insert_ne by set_solver. by rewrite Hn.
        -- intros n i Hl. rewrite lookup_delete_Some, lookup_insert_Some, Hn, Hi.
           intros [? [[-> <-]|[? Hin]]]; [by right|]. left. by exists n.
        -- rewrite length_app, Hi. lia.
        -- intros i u Hiu _. rewrite Hi. rewrite lookup_app_l; [done|by eapply lookup_lt_Some].
      * intros n i. cbn. rewrite lookup_delete_Some, lookup_insert_Some, Hn, Hi.
        intros [? [[-> <-]|[? Hin]]]; [by right|by left].
      * intros Hwf. apply wf_remove, wf_create. by apply (wf_same s).
      * intros i u Hiu. cbn. rewrite Hi, lookup_app_l; [done|by eapply lookup_lt_Some].
      * intros u [= <-] _. split; [|done]. rewrite decide_True by done. split.
        -- cbn. by rewrite lookup_delete_eq.
        -- unfold fs_text. cbn. rewrite lookup_delete_ne, lookup_insert_eq by done. cbn.
           rewrite lookup_app_r by lia. by rewrite Nat.sub_diag.
      * by intros [?|?].
      * intros []%Hf. done.
    + destruct (Hsame 1 ltac:(done)) as (? & ? & ? & ? & H4 & ? & ?). split_and!; try done.
Qed.

Lemma strip_suffix_app a b : strip_suffix b (a ++ b) = Some a.
Proof.
  unfold strip_suffix. rewrite length_app. replace (length a + length b - length b)%nat with (length a) by lia.
  rewrite drop_app_length, take_app_length. by rewrite bool_decide_true.
Qed.

Lemma strip_prefix_app p a : strip_prefix p (p ++ a) = Some a.
Proof. unfold strip_prefix. rewrite take_app_length, drop_app_length. by rewrite bool_decide_true. Qed.

Lemma exec_gzip name : plain_path name ->
  exec (bs "gzip" ++ bs " " ++ name ++ bs " 2>&1") = recode name (name ++ bs ".gz").
Proof.
  intros [Hh _]. unfold exec.
  replace (bs "gzip" ++ bs " " ++ name ++ bs " 2>&1") with ((bs "gzip " ++ name) ++ bs " 2>&1")
    by (by rewrite <- app_assoc).
  rewrite strip_suffix_app. destruct name as [|c name]; [done|]. injection Hh as ->.
  change (strip_prefix (bs "gzip -d ") (bs "gzip " ++ 47 :: name)) with (@None bytes).
  by rewrite strip_prefix_app.
Qed.

Lemma exec_gunzip name :
  exec (bs "gzip" ++ bs " -d " ++ name ++ bs ".gz" ++ bs " 2>&1") = recode (name ++ bs ".gz") name.
Proof.
  unfold exec.
  replace (bs "gzip" ++ bs " -d " ++ name ++ bs ".gz" ++ bs " 2>&1")
    with ((bs "gzip -d " ++ name ++ bs ".gz") ++ bs " 2>&1") by (by rewrite <- !app_assoc).
  by rewrite strip_suffix_app, strip_prefix_app, strip_suffix_app.
Qed.

Lemma gz_ne (name : bytes) : name <> name ++ bs ".gz".
Proof. intros E. apply (f_equal length) in E. rewrite length_app in E. simpl in E. lia. Qed.

#[export] Instance ref_files_laws : FastFilesLaws.
Proof.
  refine {| gzip_text t := t |}; [done|..].
  - intros name buff s. pose proof (store_new_spec name buff s) as Hs. cbn [safeWriteToFile ref_files].
    destruct (store_new name buff s) as [r s']. destruct Hs as (Ho & ? & ? & ? & _ & ?).
    split_and!; try done. eapply of_sub; [|done]. set_solver.
  - intros name buff s. pose proof (store_new_spec name buff s) as Hs. cbn [writeToFile ref_files].
    destruct (store_new name buff s) as [r s']. destruct Hs as (Ho & ? & ? & Ht & Hm & ?).
    split_and!; try done. intros Hr. rewrite decide_True in Ht by done. auto.
  - intros name s Hp. cbn [getExecResult get_gzip_command_filename ref_files]. rewrite exec_gzip by done.
    pose proof (recode_spec name (name ++ bs ".gz") s (gz_ne name)) as Hs.
    destruct (recode _ _ s) as [[r o] s']. destruct Hs as (? & ? & ? & ? & Ht & ? & ?). split_and!; try done.
    intros t Ht1 Ht2. by apply Ht.
  - intros name s Hp. cbn [getExecResult get_gzip_command_filename ref_files]. rewrite exec_gunzip.
    pose proof (recode_spec (name ++ bs ".gz") name s (not_eq_sym (gz_ne name))) as Hs.
    destruct (recode _ _ s) as [[r o] s']. destruct Hs as (Ho & ? & ? & ? & Ht & ? & ?). split_and!; try done.
    + eapply of_sub; [|done]. set_solver.
    + intros t Ht1 Ht2. destruct (Ht t Ht1 Ht2) as [Ht3 Ht4]. split; [|done]. case_decide; naive_solver.
  - intros items Hnd Hw. eexists. split; [done|]. cbn [ini_global_count ref_files].
    rewrite ini_items_text by (try done; pose proof (ini_text_length items); lia). split; [done|].
    intros k v Hin. cbn. rewrite (get_elem k v) by done. done.
Qed.
End RefFiles.
