(* ===== verification/SyncBinlog.v ===== *)
(** * The binlog of a storage server ([storage/storage_sync.c], the writer).

    Every change of a file is a line of the binlog: [timestamp op filename],
    with the source file behind the name for links and renames.  Lines gather
    in a cache of 16 KB that is written to the file with the highest index;
    a file that reaches 1 GB is closed and the next one begins.  The index of
    the file in use and the index up to which files are compressed are kept in
    [binlog_index.dat].  [sync_thread_lock] makes the writes and flushes atomic. *)

From S2P Require Import Prelude TrunkShared FileSys.

Definition SYNC_BINLOG_FILE_MAX_SIZE : Z := 1024 * 1024 * 1024.
Definition SYNC_BINLOG_FILE_PREFIX : bytes := bs "binlog".
Definition SYNC_BINLOG_INDEX_FILENAME_OLD : bytes := SYNC_BINLOG_FILE_PREFIX ++ bs ".index".
Definition SYNC_BINLOG_INDEX_FILENAME : bytes := SYNC_BINLOG_FILE_PREFIX ++ bs "_index.dat".
Definition SYNC_MARK_FILE_EXT : bytes := bs ".mark".
Definition SYNC_DIR_NAME : bytes := bs "sync".
Definition MARK_ITEM_BINLOG_FILE_INDEX : bytes := bs "binlog_index".
Definition MARK_ITEM_BINLOG_FILE_OFFSET : bytes := bs "binlog_offset".
Definition MARK_ITEM_NEED_SYNC_OLD : bytes := bs "need_sync_old".
Definition MARK_ITEM_SYNC_OLD_DONE : bytes := bs "sync_old_done".
Definition MARK_ITEM_UNTIL_TIMESTAMP : bytes := bs "until_timestamp".
Definition MARK_ITEM_SCAN_ROW_COUNT : bytes := bs "scan_row_count".
Definition MARK_ITEM_SYNC_ROW_COUNT : bytes := bs "sync_row_count".
Definition SYNC_BINLOG_WRITE_BUFF_SIZE : Z := 16 * 1024.
Definition BINLOG_INDEX_ITEM_CURRENT_WRITE : bytes := bs "current_write".
Definition BINLOG_INDEX_ITEM_CURRENT_COMPRESS : bytes := bs "current_compress".

Definition STORAGE_BINLOG_BUFFER_SIZE : Z := 64 * 1024.
Definition STORAGE_BINLOG_LINE_SIZE : Z := 256.

(** The settings the binlog depends on. *)
Record SyncConf := {
  g_fdfs_base_path : bytes;
  g_use_storage_id : bool;
  g_server_port : Z;
  g_write_mark_file_freq : Z;
  g_file_sync_skip_invalid_record : bool;
  g_store_paths : list FDFSStorePathInfo;
}.

(** The files and the globals of the writer; a descriptor is an inode. *)
Record SyncState := mkSync {
  ss_fs : FileSys;
  g_binlog_fd : option nat;
  g_binlog_index : Z;
  binlog_file_size : Z;
  binlog_compress_index : Z;
  binlog_write_cache : bytes;
  binlog_write_version : Z;
  g_continue_flag : bool;
  g_current_time : Z;
}.

Definition set_ss_fs x s := mkSync x (g_binlog_fd s) (g_binlog_index s) (binlog_file_size s) (binlog_compress_index s) (binlog_write_cache s) (binlog_write_version s) (g_continue_flag s) (g_current_time s).
Definition set_binlog_fd x s := mkSync (ss_fs s) x (g_binlog_index s) (binlog_file_size s) (binlog_compress_index s) (binlog_write_cache s) (binlog_write_version s) (g_continue_flag s) (g_current_time s).
Definition set_binlog_index x s := mkSync (ss_fs s) (g_binlog_fd s) x (binlog_file_size s) (binlog_compress_index s) (binlog_write_cache s) (binlog_write_version s) (g_continue_flag s) (g_current_time s).
Definition set_binlog_file_size x s := mkSync (ss_fs s) (g_binlog_fd s) (g_binlog_index s) x (binlog_compress_index s) (binlog_write_cache s) (binlog_write_version s) (g_continue_flag s) (g_current_time s).
Definition set_binlog_compress_index x s := mkSync (ss_fs s) (g_binlog_fd s) (g_binlog_index s) (binlog_file_size s) x (binlog_write_cache s) (binlog_write_version s) (g_continue_flag s) (g_current_time s).
Definition set_binlog_write_cache x s := mkSync (ss_fs s) (g_binlog_fd s) (g_binlog_index s) (binlog_file_size s) (binlog_compress_index s) x (binlog_write_version s) (g_continue_flag s) (g_current_time s).
Definition set_binlog_write_version x s := mkSync (ss_fs s) (g_binlog_fd s) (g_binlog_index s) (binlog_file_size s) (binlog_compress_index s) (binlog_write_cache s) x (g_continue_flag s) (g_current_time s).
Definition set_continue_flag x s := mkSync (ss_fs s) (g_binlog_fd s) (g_binlog_index s) (binlog_file_size s) (binlog_compress_index s) (binlog_write_cache s) (binlog_write_version s) x (g_current_time s).

(** A system call as a step of the server. *)
Definition sys {A} (c : M FileSys A) : M SyncState A := fun s =>
  let '(a, fs) := c (ss_fs s) in (a, set_ss_fs fs s).

(** [%03d]. *)
Definition fmt_03d (n : Z) : bytes :=
  if n <? 0 then 45 :: pad0 2 (fmt_u 10 (- n)) else pad0 3 (fmt_u 10 n).

Section binlog.
Context `{FastFiles} (conf : SyncConf).

Definition sync_path : bytes := g_fdfs_base_path conf ++ bs "/data/" ++ SYNC_DIR_NAME.

(** ** File names. *)
Definition get_writable_binlog_filename1 (binlog_index : Z) : bytes :=
  snprintf MAX_PATH_SIZE (sync_path ++ bs "/" ++ SYNC_BINLOG_FILE_PREFIX ++ bs "." ++ fmt_03d binlog_index).

Definition get_writable_binlog_filename (s : SyncState) : bytes :=
  get_writable_binlog_filename1 (g_binlog_index s).

Definition get_binlog_readable_filename_ex (binlog_index : Z) : bytes :=
  snprintf MAX_PATH_SIZE (sync_path ++ bs "/" ++ SYNC_BINLOG_FILE_PREFIX ++ bs "." ++ fmt_03d binlog_index).

Definition index_filename : bytes := snprintf MAX_PATH_SIZE (sync_path ++ bs "/" ++ SYNC_BINLOG_INDEX_FILENAME).
Definition index_filename_old : bytes := snprintf MAX_PATH_SIZE (sync_path ++ bs "/" ++ SYNC_BINLOG_INDEX_FILENAME_OLD).

(** ** The index file. *)
Definition index_items (binlog_index compress_index : Z) : list (bytes * bytes) :=
  [(BINLOG_INDEX_ITEM_CURRENT_WRITE, fmt_d binlog_index);
   (BINLOG_INDEX_ITEM_CURRENT_COMPRESS, fmt_d compress_index)].

Definition write_to_binlog_index (binlog_index : Z) : M SyncState Z :=
  (let! compress_index := gets binlog_compress_index in
   sys (let! fd := sys_open_trunc index_filename in
        match fd with
        | inl e => ret (errno_or e ENOENT)
        | inr fd => fc_safe_write (Some fd) (ini_text (index_items binlog_index compress_index))
        end))%c.

Definition get_binlog_index_from_file_old : M SyncState Z :=
  (let! fd := sys (sys_open_read index_filename_old) in
   match fd with
   | inl _ => modify (set_binlog_index 0) ;; ret 0
   | inr fd =>
       let! b := sys (fc_safe_read (Some fd) 0 63) in
       match b with
       | inl e => ret (errno_or e EIO)
       | inr [] => ret EIO
       | inr file_buff =>
           modify (set_binlog_index (atoi (cstr file_buff))) ;;
           let! i := gets g_binlog_index in
           ret (if i <? 0 then EINVAL else 0)
       end
   end)%c.

Definition get_binlog_index_from_file : M SyncState Z :=
  (let! e := sys (sys_access index_filename) in
   if decide (e = ENOENT) then
     let! result := get_binlog_index_from_file_old in
     if decide (result = 0) then let! i := gets g_binlog_index in write_to_binlog_index i
     else ret result
   else
     let! ini := sys (iniLoadFromFile index_filename) in
     match ini with
     | inl result => ret result
     | inr c =>
         modify (set_binlog_index (iniGetIntValue BINLOG_INDEX_ITEM_CURRENT_WRITE c 0)) ;;
         modify (set_binlog_compress_index (iniGetIntValue BINLOG_INDEX_ITEM_CURRENT_COMPRESS c 0)) ;;
         ret 0
     end)%c.

(** ** Writing. *)
Definition open_next_writable_binlog : M SyncState Z :=
  (modify (set_binlog_fd None) ;;
   let! i := gets g_binlog_index in
   let full_filename := get_writable_binlog_filename1 (i + 1) in
   let! exist := sys (fileExists full_filename) in
   let! e := (if exist then sys (sys_unlink full_filename) else ret 0) in
   if decide (e <> 0) then ret e
   else
     let! fd := sys (sys_open_append full_filename) in
     match fd with
     | inl e => ret (errno_or e EACCES)
     | inr fd =>
         modify (set_binlog_fd (Some fd)) ;; modify (set_binlog_index (i + 1)) ;; ret 0
     end)%c.

(** What follows a flush that brought the file to its maximal size. *)
Definition rotate_binlog : M SyncState Z :=
  (let! i := gets g_binlog_index in
   let! write_ret := write_to_binlog_index (i + 1) in
   let! write_ret := (if decide (write_ret = 0) then open_next_writable_binlog else ret write_ret) in
   modify (set_binlog_file_size 0) ;;
   (if decide (write_ret <> 0) then modify (set_continue_flag false) else ret tt) ;;
   ret write_ret)%c.

Definition storage_binlog_fsync : M SyncState Z :=
  (let! cache := gets binlog_write_cache in
   let! fd := gets g_binlog_fd in
   let! write_ret :=
     (if bool_decide (cache = []) then ret 0
      else
        let! e := sys (fc_safe_write fd cache) in
        if decide (e <> 0) then ret e
        else
          let! e := sys (sys_fsync fd) in
          if decide (e <> 0) then ret e
          else
            let! size := gets (fun s => binlog_file_size s + Z.of_nat (length cache)) in
            modify (set_binlog_file_size size) ;;
            (if SYNC_BINLOG_FILE_MAX_SIZE <=? size then rotate_binlog else ret 0)) in
   modify (fun s => set_binlog_write_version (binlog_write_version s + 1) s) ;;
   modify (set_binlog_write_cache []) ;;
   ret write_ret)%c.

Definition fdfs_binlog_sync_func : M SyncState Z :=
  (let! cache := gets binlog_write_cache in
   if bool_decide (cache = []) then ret 0 else storage_binlog_fsync)%c.

(** The line of a record: [%d %c %s %s\n] or [%d %c %s\n]. *)
Definition binlog_line (timestamp op_type : Z) (filename : bytes) (extra : option bytes) : bytes :=
  fmt_d timestamp ++ [32; op_type; 32] ++ filename ++
  match extra with Some x => 32 :: x | None => [] end ++ [10].

Definition storage_binlog_write_ex (timestamp op_type : Z) (filename : bytes) (extra : option bytes)
    : M SyncState Z :=
  (modify (fun s => set_binlog_write_cache (binlog_write_cache s ++ binlog_line timestamp op_type filename extra) s) ;;
   let! len := gets (fun s => Z.of_nat (length (binlog_write_cache s))) in
   if SYNC_BINLOG_WRITE_BUFF_SIZE - len <? 256 then storage_binlog_fsync else ret 0)%c.

Definition storage_binlog_write (timestamp op_type : Z) (filename : bytes) : M SyncState Z :=
  storage_binlog_write_ex timestamp op_type filename None.

(** ** Start and end. *)
Definition make_dir (path : bytes) : M SyncState Z :=
  (let! exist := sys (dirExists path) in
   if exist then ret 0
   else let! e := sys (sys_mkdir path) in ret (if decide (e <> 0) then errno_or e ENOENT else 0))%c.

Definition storage_sync_destroy : M SyncState Z :=
  (let! fd := gets g_binlog_fd in
   (match fd with
    | Some _ => let! _ := storage_binlog_fsync in modify (set_binlog_fd None)
    | None => ret tt
    end) ;;
   ret 0)%c.

(** The cache is fresh memory; [EACCES], [EIO] when the error has no number. *)
Definition storage_sync_init : M SyncState Z :=
  (let! result := make_dir (snprintf MAX_PATH_SIZE (g_fdfs_base_path conf ++ bs "/data")) in
   if decide (result <> 0) then ret result
   else
     let! result := make_dir (snprintf MAX_PATH_SIZE sync_path) in
     if decide (result <> 0) then ret result
     else
       modify (set_binlog_write_cache []) ;;
       let! result := get_binlog_index_from_file in
       if decide (result <> 0) then ret result
       else
         let! full_filename := gets get_writable_binlog_filename in
         let! fd := sys (sys_open_append full_filename) in
         match fd with
         | inl e => modify (set_binlog_fd None) ;; ret (errno_or e EACCES)
         | inr fd =>
             modify (set_binlog_fd (Some fd)) ;;
             let! size := sys (sys_seek_end fd) in
             match size with
             | inl e => let! _ := storage_sync_destroy in ret (errno_or e EIO)
             | inr size => modify (set_binlog_file_size size) ;; ret 0
             end
         end)%c.

End binlog.
