(* ===== verification/Net.v ===== *)
(** * Requests and answers over a connection ([tracker/tracker_proto.c], the
    client's side).

    A connection keeps the bytes sent and the bytes still to come from the
    peer.  Sending, and asking for memory, take the next of [n_errnos] (0 is
    success, an exhausted list is success); a receive that finds too few bytes
    fails with [n_broken]. *)

From S2P Require Import Prelude FastCommon TrunkShared StorageIds TrackerTypes.

Definition TRACKER_PROTO_CMD_RESP : Z := 100.
Definition STORAGE_PROTO_CMD_REPORT_SERVER_ID : Z := 9.
Definition STORAGE_PROTO_CMD_UPLOAD_FILE : Z := 11.
Definition STORAGE_PROTO_CMD_DELETE_FILE : Z := 12.
Definition STORAGE_PROTO_CMD_SET_METADATA : Z := 13.
Definition STORAGE_PROTO_CMD_DOWNLOAD_FILE : Z := 14.
Definition STORAGE_PROTO_CMD_GET_METADATA : Z := 15.
Definition STORAGE_PROTO_CMD_SYNC_CREATE_FILE : Z := 16.
Definition STORAGE_PROTO_CMD_SYNC_DELETE_FILE : Z := 17.
Definition STORAGE_PROTO_CMD_SYNC_UPDATE_FILE : Z := 18.
Definition STORAGE_PROTO_CMD_SYNC_CREATE_LINK : Z := 19.
Definition STORAGE_PROTO_CMD_CREATE_LINK : Z := 20.
Definition STORAGE_PROTO_CMD_UPLOAD_SLAVE_FILE : Z := 21.
Definition STORAGE_PROTO_CMD_QUERY_FILE_INFO : Z := 22.
Definition STORAGE_PROTO_CMD_UPLOAD_APPENDER_FILE : Z := 23.
Definition STORAGE_PROTO_CMD_APPEND_FILE : Z := 24.
Definition STORAGE_PROTO_CMD_SYNC_APPEND_FILE : Z := 25.
Definition STORAGE_PROTO_CMD_MODIFY_FILE : Z := 34.
Definition STORAGE_PROTO_CMD_SYNC_MODIFY_FILE : Z := 35.
Definition STORAGE_PROTO_CMD_TRUNCATE_FILE : Z := 36.
Definition STORAGE_PROTO_CMD_SYNC_TRUNCATE_FILE : Z := 37.
Definition STORAGE_PROTO_CMD_REGENERATE_APPENDER_FILENAME : Z := 38.
Definition STORAGE_PROTO_CMD_SYNC_RENAME_FILE : Z := 40.

Record Net := mkNet {
  n_sent : bytes;
  n_incoming : bytes;
  n_broken : Z;
  n_errnos : list Z;
}.

Section net.
Context `{FastCommon}.

Definition net_errno : M Net Z := fun n =>
  match n_errnos n with
  | [] => (0, n)
  | e :: l => (e, mkNet (n_sent n) (n_incoming n) (n_broken n) l)
  end.

(** [tcpsenddata_nb]. *)
Definition tcpsenddata_nb (data : bytes) : M Net Z :=
  (let! e := net_errno in
   if decide (e <> 0) then ret e
   else modify (fun n => mkNet (n_sent n ++ data) (n_incoming n) (n_broken n) (n_errnos n)) ;; ret 0)%c.

(** [tcprecvdata_nb]. *)
Definition tcprecvdata_nb (size : Z) : M Net (Z + bytes) := fun n =>
  if Z.of_nat (length (n_incoming n)) <? size then (inl (errno_or (n_broken n) ENOTCONN), n)
  else (inr (take (Z.to_nat size) (n_incoming n)),
        mkNet (n_sent n) (drop (Z.to_nat size) (n_incoming n)) (n_broken n) (n_errnos n)).

(** [TrackerHeader]: the length of the body, the command and the status. *)
Definition TrackerHeader (pkg_len cmd status : Z) : bytes := long2buff pkg_len ++ [uint8 cmd; uint8 status].

(** The result and [*in_bytes]. *)
Definition fdfs_recv_header_ex : M Net (Z * Z) :=
  (let! resp := tcprecvdata_nb 10 in
   match resp with
   | inl e => ret (e, 0)
   | inr resp =>
       let status := int8 (znth 0 resp 9) in
       if decide (status <> 0) then ret (status, 0)
       else
         let in_bytes := buff2long resp in
         if in_bytes <? 0 then ret (EINVAL, 0) else ret (status, in_bytes)
   end)%c.

(** The result and the body; [buff_size] is [None] when the buffer is to be
    allocated. *)
Definition fdfs_recv_response (buff_size : option Z) : M Net (Z * bytes) :=
  (let! h := fdfs_recv_header_ex in
   match h with
   | (result, in_bytes) =>
       if decide (result <> 0) then ret (result, [])
       else if in_bytes =? 0 then ret (0, [])
       else
         let! e := (match buff_size with
                    | None => let! e := net_errno in ret (if decide (e <> 0) then errno_or e ENOMEM else 0)
                    | Some size => ret (if size <? in_bytes then ENOSPC else 0)
                    end) in
         if decide (e <> 0) then ret (e, [])
         else
           let! body := tcprecvdata_nb in_bytes in
           match body with
           | inl e => ret (e, [])
           | inr body => ret (0, body)
           end
   end)%c.

Definition fdfs_quit : M Net Z := tcpsenddata_nb (TrackerHeader 0 FDFS_PROTO_CMD_QUIT 0).

Definition fdfs_deal_no_body_cmd (cmd : Z) : M Net Z :=
  (let! result := tcpsenddata_nb (TrackerHeader 0 cmd 0) in
   if decide (result <> 0) then ret result
   else
     let! h := fdfs_recv_header_ex in
     if decide (h.1 <> 0) then ret h.1 else ret (if h.2 =? 0 then 0 else EINVAL))%c.

Definition fdfs_active_test : M Net Z := fdfs_deal_no_body_cmd FDFS_PROTO_CMD_ACTIVE_TEST.

(** A request and its answer. *)
Definition send_and_recv (data : bytes) (buff_size : option Z) : M Net (Z * bytes) :=
  (let! result := tcpsenddata_nb data in
   if decide (result <> 0) then ret (result, []) else fdfs_recv_response buff_size)%c.

End net.
