(* ===== verification/SyncReader.v ===== *)
(** * Reading the binlog ([storage/storage_sync.c], the readers).

    A sync thread reads the binlog files in the order of their indexes and
    keeps in a mark file how far it got.  Files that all readers are past are
    compressed; a reader that comes back to one has it uncompressed first.

    A reader takes no lock: between its system calls and its looks at
    [g_binlog_index], records are written.  [interrupt] marks these places; it
    runs the next batch of writes of the world's schedule. *)

From S2P Require Import Prelude FastCommon TrunkShared TrunkBinlog TrackerTypes FileSys SyncBinlog Net.

Record StorageBinLogReader := mkSyncReader {
  sr_storage_id : bytes;
  sr_mark_filename : bytes;
  sr_need_sync_old : bool;
  sr_sync_old_done : bool;
  sr_last_file_exist : bool;
  sr_buff : bytes;
  sr_version : Z;
  sr_until_timestamp : Z;
  sr_binlog_index : Z;
  sr_binlog_fd : option nat;
  sr_pos : Z;
  sr_binlog_offset : Z;
  sr_scan_row_count : Z;
  sr_sync_row_count : Z;
  sr_last_scan_rows : Z;
  sr_last_sync_rows : Z;
}.

Definition set_sr_need_sync_old x r := mkSyncReader (sr_storage_id r) (sr_mark_filename r) x (sr_sync_old_done r) (sr_last_file_exist r) (sr_buff r) (sr_version r) (sr_until_timestamp r) (sr_binlog_index r) (sr_binlog_fd r) (sr_pos r) (sr_binlog_offset r) (sr_scan_row_count r) (sr_sync_row_count r) (sr_last_scan_rows r) (sr_last_sync_rows r).
Definition set_sr_sync_old_done x r := mkSyncReader (sr_storage_id r) (sr_mark_filename r) (sr_need_sync_old r) x (sr_last_file_exist r) (sr_buff r) (sr_version r) (sr_until_timestamp r) (sr_binlog_index r) (sr_binlog_fd r) (sr_pos r) (sr_binlog_offset r) (sr_scan_row_count r) (sr_sync_row_count r) (sr_last_scan_rows r) (sr_last_sync_rows r).
Definition set_sr_last_file_exist x r := mkSyncReader (sr_storage_id r) (sr_mark_filename r) (sr_need_sync_old r) (sr_sync_old_done r) x (sr_buff r) (sr_version r) (sr_until_timestamp r) (sr_binlog_index r) (sr_binlog_fd r) (sr_pos r) (sr_binlog_offset r) (sr_scan_row_count r) (sr_sync_row_count r) (sr_last_scan_rows r) (sr_last_sync_rows r).
Definition set_sr_buff x r := mkSyncReader (sr_storage_id r) (sr_mark_filename r) (sr_need_sync_old r) (sr_sync_old_done r) (sr_last_file_exist r) x (sr_version r) (sr_until_timestamp r) (sr_binlog_index r) (sr_binlog_fd r) (sr_pos r) (sr_binlog_offset r) (sr_scan_row_count r) (sr_sync_row_count r) (sr_last_scan_rows r) (sr_last_sync_rows r).
Definition set_sr_version x r := mkSyncReader (sr_storage_id r) (sr_mark_filename r) (sr_need_sync_old r) (sr_sync_old_done r) (sr_last_file_exist r) (sr_buff r) x (sr_until_timestamp r) (sr_binlog_index r) (sr_binlog_fd r) (sr_pos r) (sr_binlog_offset r) (sr_scan_row_count r) (sr_sync_row_count r) (sr_last_scan_rows r) (sr_last_sync_rows r).
Definition set_sr_until_timestamp x r := mkSyncReader (sr_storage_id r) (sr_mark_filename r) (sr_need_sync_old r) (sr_sync_old_done r) (sr_last_file_exist r) (sr_buff r) (sr_version r) x (sr_binlog_index r) (sr_binlog_fd r) (sr_pos r) (sr_binlog_offset r) (sr_scan_row_count r) (sr_sync_row_count r) (sr_last_scan_rows r) (sr_last_sync_rows r).
Definition set_sr_binlog_index x r := mkSyncReader (sr_storage_id r) (sr_mark_filename r) (sr_need_sync_old r) (sr_sync_old_done r) (sr_last_file_exist r) (sr_buff r) (sr_version r) (sr_until_timestamp r) x (sr_binlog_fd r) (sr_pos r) (sr_binlog_offset r) (sr_scan_row_count r) (sr_sync_row_count r) (sr_last_scan_rows r) (sr_last_sync_rows r).
Definition set_sr_binlog_fd x r := mkSyncReader (sr_storage_id r) (sr_mark_filename r) (sr_need_sync_old r) (sr_sync_old_done r) (sr_last_file_exist r) (sr_buff r) (sr_version r) (sr_until_timestamp r) (sr_binlog_index r) x (sr_pos r) (sr_binlog_offset r) (sr_scan_row_count r) (sr_sync_row_count r) (sr_last_scan_rows r) (sr_last_sync_rows r).
Definition set_sr_pos x r := mkSyncReader (sr_storage_id r) (sr_mark_filename r) (sr_need_sync_old r) (sr_sync_old_done r) (sr_last_file_exist r) (sr_buff r) (sr_version r) (sr_until_timestamp r) (sr_binlog_index r) (sr_binlog_fd r) x (sr_binlog_offset r) (sr_scan_row_count r) (sr_sync_row_count r) (sr_last_scan_rows r) (sr_last_sync_rows r).
Definition set_sr_binlog_offset x r := mkSyncReader (sr_storage_id r) (sr_mark_filename r) (sr_need_sync_old r) (sr_sync_old_done r) (sr_last_file_exist r) (sr_buff r) (sr_version r) (sr_until_timestamp r) (sr_binlog_index r) (sr_binlog_fd r) (sr_pos r) x (sr_scan_row_count r) (sr_sync_row_count r) (sr_last_scan_rows r) (sr_last_sync_rows r).
Definition set_sr_scan_row_count x r := mkSyncReader (sr_storage_id r) (sr_mark_filename r) (sr_need_sync_old r) (sr_sync_old_done r) (sr_last_file_exist r) (sr_buff r) (sr_version r) (sr_until_timestamp r) (sr_binlog_index r) (sr_binlog_fd r) (sr_pos r) (sr_binlog_offset r) x (sr_sync_row_count r) (sr_last_scan_rows r) (sr_last_sync_rows r).
Definition set_sr_sync_row_count x r := mkSyncReader (sr_storage_id r) (sr_mark_filename r) (sr_need_sync_old r) (sr_sync_old_done r) (sr_last_file_exist r) (sr_buff r) (sr_version r) (sr_until_timestamp r) (sr_binlog_index r) (sr_binlog_fd r) (sr_pos r) (sr_binlog_offset r) (sr_scan_row_count r) x (sr_last_scan_rows r) (sr_last_sync_rows r).
Definition set_sr_last_scan_rows x r := mkSyncReader (sr_storage_id r) (sr_mark_filename r) (sr_need_sync_old r) (sr_sync_old_done r) (sr_last_file_exist r) (sr_buff r) (sr_version r) (sr_until_timestamp r) (sr_binlog_index r) (sr_binlog_fd r) (sr_pos r) (sr_binlog_offset r) (sr_scan_row_count r) (sr_sync_row_count r) x (sr_last_sync_rows r).
Definition set_sr_last_sync_rows x r := mkSyncReader (sr_storage_id r) (sr_mark_filename r) (sr_need_sync_old r) (sr_sync_old_done r) (sr_last_file_exist r) (sr_buff r) (sr_version r) (sr_until_timestamp r) (sr_binlog_index r) (sr_binlog_fd r) (sr_pos r) (sr_binlog_offset r) (sr_scan_row_count r) (sr_sync_row_count r) (sr_last_scan_rows r) x.

Record StorageBinLogRecord := mkSyncRecord {
  bl_timestamp : Z;
  bl_op_type : Z;
  bl_filename : bytes;
  bl_true_filename : bytes;
  bl_src_filename : bytes;
  bl_filename_len : Z;
  bl_true_filename_len : Z;
  bl_src_filename_len : Z;
  bl_store_path_index : Z;
}.

(** What sending a change ([SyncPeer]) works on: the connection to the peer, the
    fields of the reader and the record that it changes, and the traffic counters of [g_storage_stat]. *)
Record PeerState := mkPeer {
  p_net : Net;
  p_last_file_exist : bool;
  p_record : StorageBinLogRecord;
  p_total_sync_out_bytes : Z;
  p_success_sync_out_bytes : Z;
}.

(** What sending reads and does not change: the store paths and files of
    this server ([peer_readlink] is [readlink]), its group and id, and what
    stack memory holds before it is written. *)
Record PeerView := {
  peer_paths : list FDFSStorePathInfo;
  peer_files : FileView;
  peer_readlink : bytes -> Z + bytes;
  peer_group_name : bytes;
  peer_server_id : bytes;
  peer_stack : bytes;
  (** a macro of libfastcommon: 16, or 46 for IPv6 *)
  peer_IP_ADDRESS_SIZE : Z;
}.

(** What other threads do to the binlog while a reader is at work. *)
Inductive WriteCall :=
  | WriteRecord (timestamp op_type : Z) (filename : bytes) (extra : option bytes)
  | FlushRecords.

(** The answers of [tracker_sync_src_req] to come: the connection failed; the
    tracker answered with a result and, in a good answer, the id of the source
    and the timestamp, or an empty body; the server is being stopped. *)
Inductive SrcReply :=
  | ConnectFailed
  | SrcError (result : Z)
  | SrcEmpty
  | SrcAnswer (src_id_is_mine : bool) (until_timestamp : Z)
  | Stopping.

(** What was done with a record: it was sent, with all that sending started
    from; the reader went past it, for it is from before the time the peer is to
    be synchronised from, or it cannot be parsed. *)
Inductive Handled :=
  | Sent (v : PeerView) (r : StorageBinLogReader) (p : PeerState)
  | BeforeStart (until_timestamp : Z)
  | Invalid.

(** [w_history] is a history variable: the file index and offset of the records
    something was done with. *)
Record SyncWorld := mkWorld {
  w_sync : SyncState;
  w_reader : StorageBinLogReader;
  w_schedule : list (list WriteCall);
  w_src_replies : list SrcReply;
  w_history : list (Z * Z * Handled);
}.

Definition set_w_sync x w := mkWorld x (w_reader w) (w_schedule w) (w_src_replies w) (w_history w).
Definition set_w_reader x w := mkWorld (w_sync w) x (w_schedule w) (w_src_replies w) (w_history w).
Definition set_w_schedule x w := mkWorld (w_sync w) (w_reader w) x (w_src_replies w) (w_history w).
Definition set_w_src_replies x w := mkWorld (w_sync w) (w_reader w) (w_schedule w) x (w_history w).
Definition set_w_history x w := mkWorld (w_sync w) (w_reader w) (w_schedule w) (w_src_replies w) x.

Definition rget {A} (f : StorageBinLogReader -> A) : M SyncWorld A := gets (fun w => f (w_reader w)).
Definition rset (f : StorageBinLogReader -> StorageBinLogReader) : M SyncWorld unit :=
  modify (fun w => set_w_reader (f (w_reader w)) w).
Definition sget {A} (f : SyncState -> A) : M SyncWorld A := gets (fun w => f (w_sync w)).

(** The record the reader is at. *)
Definition past (h : Handled) : M SyncWorld unit :=
  modify (fun w => set_w_history ((sr_binlog_index (w_reader w), sr_binlog_offset (w_reader w), h) :: w_history w) w).

(** A step of the server in the world. *)
Definition srv {A} (c : M SyncState A) : M SyncWorld A := fun w =>
  let '(a, s) := c (w_sync w) in (a, set_w_sync s w).

Section reader.
Context `{FastCommon, FastFiles} (conf : SyncConf).

(** ** Writes in between. *)
Definition write_call (c : WriteCall) : M SyncState Z :=
  match c with
  | WriteRecord ts op filename extra => storage_binlog_write_ex conf ts op filename extra
  | FlushRecords => fdfs_binlog_sync_func conf
  end.

Fixpoint write_calls (l : list WriteCall) : M SyncState unit :=
  match l with
  | [] => ret tt
  | c :: l' => (let! _ := write_call c in write_calls l')%c
  end.

Definition interrupt : M SyncWorld unit := fun w =>
  match w_schedule w with
  | [] => (tt, w)
  | l :: rest => (srv (write_calls l) ;; modify (set_w_schedule rest))%c w
  end.

(** ** Compressed files. *)

(** The last [/] splits a path: the directory with it, and the rest. *)
Fixpoint split_dir (path : bytes) : option (bytes * bytes) :=
  match path with
  | [] => None
  | c :: path' =>
      match split_dir path' with
      | Some (d, f) => Some (c :: d, f)
      | None => if decide (c = 47) then Some ([47], path') else None
      end
  end.

Definition get_binlog_flag_file (filepath : bytes) (size : Z) : bytes :=
  match split_dir filepath with
  | None => snprintf size (bs "." ++ filepath ++ bs ".flag")
  | Some (d, filename) => snprintf size (d ++ bs "." ++ filename ++ bs ".flag")
  end.

(** A flag file younger than an hour: the work is in progress elsewhere. *)
Definition flag_in_progress (flag_filename : bytes) : M SyncState bool :=
  (let! t := sys (sys_stat_mtime flag_filename) in
   let! now := gets g_current_time in
   ret (match t with Some mtime => negb (3600 <? now - mtime) | None => false end))%c.

(** The flag, the command, and the flag removed. *)
Definition exec_flagged (flag_filename flag command : bytes) : M SyncState Z :=
  (let! result := sys (writeToFile flag_filename flag) in
   if decide (result <> 0) then ret result
   else
     let! out := sys (getExecResult (snprintf MAX_PATH_SIZE command)) in
     let! _ := sys (sys_unlink flag_filename) in
     ret out.1)%c.

(** [reader_index] is [pReader->binlog_index]. *)
Definition uncompress_binlog_file (reader_index : Z) (filename : bytes) : M SyncState Z :=
  (let gzip_filename := snprintf MAX_PATH_SIZE (filename ++ bs ".gz") in
   let! e := sys (sys_access gzip_filename) in
   if decide (e <> 0) then ret (errno_or e ENOENT)
   else
     let flag_filename := get_binlog_flag_file filename MAX_PATH_SIZE in
     let! busy := flag_in_progress flag_filename in
     if (busy : bool) then ret EINPROGRESS
     else
       let! result := exec_flagged flag_filename (bs "unzip")
                        (get_gzip_command_filename ++ bs " -d " ++ gzip_filename ++ bs " 2>&1") in
       if decide (result <> 0) then ret result
       else
         let! exist := sys (fileExists filename) in
         let! ci := gets binlog_compress_index in
         (if exist && (reader_index <? ci) then
            modify (set_binlog_compress_index reader_index) ;;
            let! i := gets g_binlog_index in
            let! _ := write_to_binlog_index conf i in ret tt
          else ret tt) ;;
         ret 0)%c.

Definition compress_binlog_file (filename : bytes) : M SyncState Z :=
  (let gzip_filename := snprintf MAX_PATH_SIZE (filename ++ bs ".gz") in
   let! gz := sys (fileExists gzip_filename) in
   if (gz : bool) then ret 0
   else
     let! e := sys (sys_access filename) in
     if decide (e <> 0) then ret (errno_or e ENOENT)
     else
       let flag_filename := get_binlog_flag_file filename MAX_PATH_SIZE in
       let! busy := flag_in_progress flag_filename in
       if (busy : bool) then ret EINPROGRESS
       else
         exec_flagged flag_filename (bs "zip")
           (get_gzip_command_filename ++ bs " " ++ filename ++ bs " 2>&1"))%c.

(** The least index a reader with an open file is at. *)
Definition calc_compress_until_binlog_index (readers : list StorageBinLogReader) (g_index : Z) : Z :=
  foldl (fun min_index r =>
           if bool_decide (is_Some (sr_binlog_fd r)) && (0 <=? sr_binlog_index r) &&
              (sr_binlog_index r <? min_index)
           then sr_binlog_index r else min_index)
        g_index readers.

Fixpoint compress_loop (n : nat) (bindex : Z) : M SyncState Z :=
  match n with
  | O => ret 0
  | S n' =>
      (let! result := compress_binlog_file (get_binlog_readable_filename_ex conf bindex) in
       if decide (result = 0 \/ result = ENOENT) then
         modify (set_binlog_compress_index (bindex + 1)) ;;
         let! i := gets g_binlog_index in
         let! _ := write_to_binlog_index conf i in
         compress_loop n' (bindex + 1)
       else ret 0)%c
  end.

Definition fdfs_binlog_compress_func (readers : list StorageBinLogReader) : M SyncState Z :=
  (let! ci := gets binlog_compress_index in
   let! i := gets g_binlog_index in
   if i <=? ci then ret 0
   else
     let until_index := calc_compress_until_binlog_index readers i in
     compress_loop (Z.to_nat (until_index - ci)) ci)%c.

(** ** Opening. *)
Definition get_binlog_readable_filename (r : StorageBinLogReader) : bytes :=
  get_binlog_readable_filename_ex conf (sr_binlog_index r).

Definition storage_open_readable_binlog (filename_func : StorageBinLogReader -> bytes) : M SyncWorld Z :=
  (let! full_filename := rget filename_func in
   let! e := srv (sys (sys_access full_filename)) in
   let! index := rget sr_binlog_index in
   (if decide (e = ENOENT) then let! _ := srv (uncompress_binlog_file index full_filename) in ret tt
    else ret tt) ;;
   let! fd := srv (sys (sys_open_read full_filename)) in
   match fd with
   | inl e => rset (set_sr_binlog_fd None) ;; ret (errno_or e ENOENT)
   | inr fd =>
       rset (set_sr_binlog_fd (Some fd)) ;;
       rset (set_sr_pos 0) ;;
       let! off := rget sr_binlog_offset in
       if 0 <? off then
         let! f := srv (sys sys_fault) in
         if decide (f.1 <> 0) then rset (set_sr_binlog_fd None) ;; ret f.1
         else rset (set_sr_pos off) ;; ret 0
       else ret 0
   end)%c.

(** ** Mark files. *)
Definition get_mark_filename_by_id_and_port (storage_id : bytes) (port : Z) : bytes :=
  snprintf MAX_PATH_SIZE
    (if g_use_storage_id conf
     then sync_path conf ++ bs "/" ++ storage_id ++ SYNC_MARK_FILE_EXT
     else sync_path conf ++ bs "/" ++ storage_id ++ bs "_" ++ fmt_d port ++ SYNC_MARK_FILE_EXT).

Definition get_mark_filename_by_ip_and_port (ip_addr : bytes) (port : Z) : bytes :=
  snprintf MAX_PATH_SIZE
    (sync_path conf ++ bs "/" ++ ip_addr ++ bs "_" ++ fmt_d port ++ SYNC_MARK_FILE_EXT).

Definition get_mark_filename_by_reader (storage_id : bytes) : bytes :=
  get_mark_filename_by_id_and_port storage_id (g_server_port conf).

Definition get_mark_filename_by_id (storage_id : bytes) : bytes :=
  get_mark_filename_by_id_and_port storage_id (g_server_port conf).

Definition fmt_bool (b : bool) : bytes := fmt_d (if b then 1 else 0).

Definition mark_items (r : StorageBinLogReader) : list (bytes * bytes) :=
  [(MARK_ITEM_BINLOG_FILE_INDEX, fmt_d (sr_binlog_index r));
   (MARK_ITEM_BINLOG_FILE_OFFSET, fmt_d (sr_binlog_offset r));
   (MARK_ITEM_NEED_SYNC_OLD, fmt_bool (sr_need_sync_old r));
   (MARK_ITEM_SYNC_OLD_DONE, fmt_bool (sr_sync_old_done r));
   (MARK_ITEM_UNTIL_TIMESTAMP, fmt_d (int32 (sr_until_timestamp r)));
   (MARK_ITEM_SCAN_ROW_COUNT, fmt_d (sr_scan_row_count r));
   (MARK_ITEM_SYNC_ROW_COUNT, fmt_d (sr_sync_row_count r))].

Definition mark_text (r : StorageBinLogReader) : bytes := ini_text (mark_items r).

Definition storage_write_to_mark_file : M SyncWorld Z :=
  (let! r := rget id in
   let! result := srv (sys (safeWriteToFile (sr_mark_filename r) (mark_text r))) in
   (if decide (result = 0) then
      rset (set_sr_last_scan_rows (sr_scan_row_count r)) ;;
      rset (set_sr_last_sync_rows (sr_sync_row_count r))
    else ret tt) ;;
   ret result)%c.

Definition rewind_to_prev_rec_end : M SyncWorld Z :=
  (let! r := rget id in
   let! f := srv (sys (match sr_binlog_fd r with Some _ => sys_fault | None => ret (EBADF, 0%nat) end)) in
   if decide (f.1 <> 0) then ret f.1
   else
     rset (set_sr_pos (sr_binlog_offset r)) ;;
     rset (set_sr_buff []) ;; ret 0)%c.

(** ** Reading lines. *)
Definition storage_binlog_preread : M SyncWorld Z :=
  (let! r := rget id in
   let! version := sget binlog_write_version in
   if (sr_version r =? version) && bool_decide (sr_buff r = []) then ret ENOENT
   else
     interrupt ;;
     let! b := srv (sys (fc_safe_read (sr_binlog_fd r) (sr_pos r)
                           (STORAGE_BINLOG_BUFFER_SIZE - Z.of_nat (length (sr_buff r))))) in
     match b with
     | inl e => ret (errno_or e EIO)
     | inr [] => rset (set_sr_version version) ;; ret ENOENT
     | inr data =>
         rset (set_sr_buff (sr_buff r ++ data)) ;;
         rset (set_sr_pos (sr_pos r + Z.of_nat (length data))) ;;
         ret 0
     end)%c.

(** The result, the line, and the bytes left in the buffer. *)
Definition storage_binlog_do_line_read (line_size : Z) (buff : bytes) : Z * bytes * bytes :=
  if bool_decide (buff = []) then (ENOENT, [], buff)
  else
    match upto 10 buff with
    | None => (ENOENT, [], buff)
    | Some line =>
        if line_size <=? Z.of_nat (length line) then (ENOSPC, line, buff)
        else (0, line, drop (length line) buff)
    end.

Definition line_read_step (line_size : Z) : M SyncWorld (Z * bytes) :=
  (let! buff := rget sr_buff in
   match storage_binlog_do_line_read line_size buff with
   | (result, line, rest) => rset (set_sr_buff rest) ;; ret (result, line)
   end)%c.

Definition storage_binlog_read_line (line_size : Z) : M SyncWorld (Z * bytes) :=
  (let! rl := line_read_step line_size in
   if decide (rl.1 <> ENOENT) then ret rl
   else
     let! result := storage_binlog_preread in
     if decide (result <> 0) then ret (result, [])
     else line_read_step line_size)%c.

(** ** Records. *)
Definition STORAGE_OP_TYPE_SOURCE_CREATE_FILE : Z := 67. (* 'C' *)
Definition STORAGE_OP_TYPE_SOURCE_APPEND_FILE : Z := 65. (* 'A' *)
Definition STORAGE_OP_TYPE_SOURCE_DELETE_FILE : Z := 68. (* 'D' *)
Definition STORAGE_OP_TYPE_SOURCE_UPDATE_FILE : Z := 85. (* 'U' *)
Definition STORAGE_OP_TYPE_SOURCE_MODIFY_FILE : Z := 77. (* 'M' *)
Definition STORAGE_OP_TYPE_SOURCE_TRUNCATE_FILE : Z := 84. (* 'T' *)
Definition STORAGE_OP_TYPE_SOURCE_CREATE_LINK : Z := 76. (* 'L' *)
Definition STORAGE_OP_TYPE_SOURCE_RENAME_FILE : Z := 82. (* 'R' *)
Definition STORAGE_OP_TYPE_REPLICA_CREATE_FILE : Z := 99. (* 'c' *)
Definition STORAGE_OP_TYPE_REPLICA_APPEND_FILE : Z := 97. (* 'a' *)
Definition STORAGE_OP_TYPE_REPLICA_DELETE_FILE : Z := 100. (* 'd' *)
Definition STORAGE_OP_TYPE_REPLICA_UPDATE_FILE : Z := 117. (* 'u' *)
Definition STORAGE_OP_TYPE_REPLICA_MODIFY_FILE : Z := 109. (* 'm' *)
Definition STORAGE_OP_TYPE_REPLICA_TRUNCATE_FILE : Z := 116. (* 't' *)
Definition STORAGE_OP_TYPE_REPLICA_CREATE_LINK : Z := 108. (* 'l' *)
Definition STORAGE_OP_TYPE_REPLICA_RENAME_FILE : Z := 114. (* 'r' *)

Definition has_src_filename (op_type : Z) : bool :=
  (op_type =? STORAGE_OP_TYPE_SOURCE_CREATE_LINK) || (op_type =? STORAGE_OP_TYPE_REPLICA_CREATE_LINK) ||
  (op_type =? STORAGE_OP_TYPE_SOURCE_RENAME_FILE) || (op_type =? STORAGE_OP_TYPE_REPLICA_RENAME_FILE).

(** The first space splits a name from its source; without one there is no source. *)
Fixpoint split_src (filename : bytes) : option (bytes * bytes) :=
  match filename with
  | [] => None
  | c :: filename' =>
      if decide (c = 32) then Some ([], filename')
      else match split_src filename' with Some (a, b) => Some (c :: a, b) | None => None end
  end.

(** The parse of [storage_binlog_read] into [*pRecord], which may be left half filled. *)
Definition parse_sync_record (line : bytes) (rec : StorageBinLogRecord) : Z * StorageBinLogRecord :=
  match splitEx 32 3 (cstr line) with
  | c0 :: c1 :: c2 :: _ =>
      let op := hd 0 c1 in
      let len := Z.of_nat (length c2) - 1 in
      if (len <? 0) || (127 <? len) then
        (EINVAL, mkSyncRecord (atoi c0) op (bl_filename rec) (bl_true_filename rec) (bl_src_filename rec)
                   len (bl_true_filename_len rec) (bl_src_filename_len rec) (bl_store_path_index rec))
      else
        let name := take (Z.to_nat len) c2 in
        let '(filename, src) :=
          (if has_src_filename op
           then match split_src name with Some (a, b) => (a, b) | None => (name, []) end
           else (name, [])) in
        let flen := Z.of_nat (length filename) in
        let rec' true_filename true_len index :=
          mkSyncRecord (atoi c0) op filename true_filename src flen true_len (Z.of_nat (length src)) index in
        match storage_split_filename_ex (g_store_paths conf) filename flen with
        | inl e => (e, rec' (bl_true_filename rec) flen (bl_store_path_index rec))
        | inr (true_len, true_filename, index) => (0, rec' true_filename true_len index)
        end
  | _ => (EINVAL, rec)
  end.

(** The loop over the files: a line, or the error that ends the loop.  [EAGAIN]
    stands for no more fuel. *)
Fixpoint next_line (fuel : nat) : M SyncWorld (Z * bytes) :=
  match fuel with
  | O => ret (EAGAIN, [])
  | S fuel' =>
      (let! rl := storage_binlog_read_line STORAGE_BINLOG_LINE_SIZE in
       if decide (rl.1 <> ENOENT) then ret rl
       else
         interrupt ;;
         let! g_index := sget g_binlog_index in
         let! r := rget id in
         if g_index <=? sr_binlog_index r then ret (ENOENT, [])
         else if negb (bool_decide (sr_buff r = [])) then ret (ENOENT, [])
         else
           rset (fun r => set_sr_binlog_index (sr_binlog_index r + 1) r) ;;
           rset (set_sr_binlog_offset 0) ;;
           rset (set_sr_version 0) ;;
           let! result := storage_open_readable_binlog get_binlog_readable_filename in
           if decide (result <> 0) then ret (result, [])
           else
             let! result := storage_write_to_mark_file in
             if decide (result <> 0) then ret (result, [])
             else next_line fuel')%c
  end.

(** Enough for the files there are and those the schedule can add. *)
Definition read_fuel (w : SyncWorld) : nat :=
  S (Z.to_nat (g_binlog_index (w_sync w) - sr_binlog_index (w_reader w)) + length (concat (w_schedule w))).

(** The result, [*record_length] and [*pRecord]. *)
Definition storage_binlog_read (rec : StorageBinLogRecord) : M SyncWorld (Z * Z * StorageBinLogRecord) :=
  (let! fuel := gets read_fuel in
   let! rl := next_line fuel in
   match rl with
   | (result, line) =>
       let len := Z.of_nat (length line) in
       if decide (result <> 0) then ret (result, len, rec)
       else let '(e, rec') := parse_sync_record line rec in ret (e, len, rec')
   end)%c.

(** All the bytes a reader can come to. *)
Definition call_bytes (c : WriteCall) : nat :=
  match c with
  | WriteRecord ts op filename extra => length (binlog_line ts op filename extra)
  | FlushRecords => 0
  end.

Definition log_bytes (w : SyncWorld) : nat :=
  (length (concat (fs_inodes (ss_fs (w_sync w)))) + length (binlog_write_cache (w_sync w)) +
   sum_list_with call_bytes (concat (w_schedule w)))%nat.

(** [record] is uninitialised at first, so the caller gives what it holds. *)
Fixpoint skip_loop (fuel : nat) (record : StorageBinLogRecord) : M SyncWorld Z :=
  match fuel with
  | O => ret EAGAIN
  | S fuel' =>
      (let! x := storage_binlog_read record in
       match x with
       | (result, record_len, record) =>
           if decide (result = ENOENT) then ret 0
           else if negb (result =? 0) && negb ((result =? EINVAL) && g_file_sync_skip_invalid_record conf)
           then ret result
           else
             let! r := rget id in
             if sr_until_timestamp r <=? bl_timestamp record then rewind_to_prev_rec_end
             else
               past (if result =? 0 then BeforeStart (sr_until_timestamp r) else Invalid) ;;
               rset (set_sr_binlog_offset (sr_binlog_offset r + record_len)) ;;
               skip_loop fuel' record
       end)%c
  end.

Definition storage_binlog_reader_skip (record : StorageBinLogRecord) : M SyncWorld Z :=
  (let! n := gets log_bytes in skip_loop (S n) record)%c.

(** ** The start of a reader. *)
Fixpoint sync_init_loop (result : Z) (l : list SrcReply) : M SyncWorld Z :=
  match l with
  | [] | Stopping :: _ =>
      (modify (set_w_src_replies (tail l)) ;;
       srv (modify (set_continue_flag false)) ;; ret result)%c
  | ConnectFailed :: l' => sync_init_loop ENOTCONN l'
  | SrcError e :: l' => sync_init_loop e l'
  | SrcEmpty :: l' =>
      (modify (set_w_src_replies l') ;;
       rset (set_sr_need_sync_old false) ;; rset (set_sr_until_timestamp 0) ;; ret 0)%c
  | SrcAnswer mine until :: l' =>
      (modify (set_w_src_replies l') ;;
       rset (set_sr_need_sync_old mine) ;; rset (set_sr_until_timestamp until) ;; ret 0)%c
  end.

Definition storage_reader_sync_init_req : M SyncWorld Z :=
  (let! l := gets w_src_replies in sync_init_loop EINTR l)%c.

Definition fresh_reader (storage_id : bytes) : StorageBinLogReader :=
  mkSyncReader storage_id (get_mark_filename_by_reader storage_id)
    false false false [] 0 0 0 None 0 0 0 0 0 0.

(** The mark file of the reader, brought over from the days of ip addresses. *)
Definition find_mark_file (storage : FDFSStorageBrief) (mark_filename : bytes) : M SyncWorld (Z * bool) :=
  (let! bFileExist := srv (sys (fileExists mark_filename)) in
   if negb bFileExist && g_use_storage_id conf then
     let old := get_mark_filename_by_ip_and_port (b_ip_addr storage) (g_server_port conf) in
     let! exist := srv (sys (fileExists old)) in
     if (exist : bool) then
       let! e := srv (sys (sys_rename old mark_filename)) in
       ret (if decide (e <> 0) then (errno_or e EACCES, false) else (0, true))
     else ret (0, false)
   else ret (0, bFileExist))%c.

Definition load_mark (c : IniContext) : M SyncWorld Z :=
  (rset (set_sr_binlog_index (iniGetIntValue MARK_ITEM_BINLOG_FILE_INDEX c (-1))) ;;
   rset (set_sr_binlog_offset (iniGetInt64Value MARK_ITEM_BINLOG_FILE_OFFSET c (-1))) ;;
   rset (set_sr_sync_old_done (iniGetBoolValue MARK_ITEM_SYNC_OLD_DONE c false)) ;;
   rset (set_sr_until_timestamp (iniGetIntValue MARK_ITEM_UNTIL_TIMESTAMP c (-1))) ;;
   rset (set_sr_scan_row_count (iniGetInt64Value MARK_ITEM_SCAN_ROW_COUNT c 0)) ;;
   rset (set_sr_sync_row_count (iniGetInt64Value MARK_ITEM_SYNC_ROW_COUNT c 0)) ;;
   let! r := rget id in
   ret (if sr_binlog_index r <? 0 then EINVAL else if sr_binlog_offset r <? 0 then EINVAL else 0))%c.

(** The part of [storage_reader_init] that reads the mark file: the error, and
    [bFileExist] afterwards. *)
Definition init_from_mark (storage : FDFSStorageBrief) : M SyncWorld (Z * bool) :=
  (let! r := rget id in
   let! ini := srv (sys (iniLoadFromFile (sr_mark_filename r))) in
   match ini with
   | inl result => ret (result, true)
   | inr c =>
       if ini_global_count c <? 7 then ret (ENOENT, true)
       else
         let bNeedSyncOld := iniGetBoolValue MARK_ITEM_NEED_SYNC_OLD c false in
         let! re := (if b_status storage =? FDFS_STORAGE_STATUS_SYNCING then
                       let! result := storage_reader_sync_init_req in
                       let! need := rget sr_need_sync_old in
                       ret (result, negb (need && negb bNeedSyncOld))
                     else ret (0, true)) in
         if decide (re.1 <> 0) then ret (re.1, true)
         else if (re.2 : bool) then
           rset (set_sr_need_sync_old bNeedSyncOld) ;;
           let! result := load_mark c in ret (result, true)
         else ret (0, false)
   end)%c.

(** [storage_reader_init] for a storage server; [record] is what the record of
    [storage_binlog_reader_skip] holds before it is read. *)
Definition storage_reader_init (storage : FDFSStorageBrief) (record : StorageBinLogRecord) : M SyncWorld Z :=
  (rset (fun _ => fresh_reader (b_id storage)) ;;
   let! f := srv (sys sys_fault) in
   if decide (f.1 <> 0) then ret f.1
   else
     let! r := rget id in
     let! re := (if b_status storage <=? FDFS_STORAGE_STATUS_WAIT_SYNC then ret (0, false)
                 else find_mark_file storage (sr_mark_filename r)) in
     if decide (re.1 <> 0) then ret re.1
     else
       let! result := (if (re.2 : bool) then ret 0 else storage_reader_sync_init_req) in
       if decide (result <> 0) then ret result
       else
         let! re := (if (re.2 : bool) then init_from_mark storage else ret (0, false)) in
         if decide (re.1 <> 0) then ret re.1
         else
           rset (fun r => set_sr_last_scan_rows (sr_scan_row_count r) r) ;;
           rset (fun r => set_sr_last_sync_rows (sr_sync_row_count r) r) ;;
           let! result := storage_open_readable_binlog get_binlog_readable_filename in
           if decide (result <> 0) then ret result
           else
             let! result :=
               (if (re.2 : bool) then ret 0
                else
                  let! r := rget id in
                  let! result :=
                    (if negb (sr_need_sync_old r) && (0 <? sr_until_timestamp r)
                     then storage_binlog_reader_skip record else ret 0) in
                  if decide (result <> 0) then ret result else storage_write_to_mark_file) in
             if decide (result <> 0) then ret result
             else
               let! result := storage_binlog_preread in
               ret (if decide (result <> 0 /\ result <> ENOENT) then result else 0))%c.

Definition storage_reader_destroy : M SyncWorld unit :=
  (rset (set_sr_binlog_fd None) ;; rset (set_sr_buff []))%c.

(** ** Mark files of servers that leave or change. *)

(** The fields of [struct tm] from [localtime_r], as numbers of the calendar. *)
Record Tm := mkTm { tm_year : Z; tm_mon : Z; tm_mday : Z; tm_hour : Z; tm_min : Z; tm_sec : Z }.

Definition fmt_0d (w : nat) (n : Z) : bytes := pad0 w (fmt_d n).

Definition storage_unlink_mark_file (localtime : Z -> Tm) (storage_id : bytes) : M SyncState Z :=
  (let! now := gets g_current_time in
   let tm := localtime now in
   let old_filename := get_mark_filename_by_id storage_id in
   let! exist := sys (fileExists old_filename) in
   if negb exist then ret ENOENT
   else
     let new_filename := snprintf MAX_PATH_SIZE
       (old_filename ++ bs "." ++ fmt_0d 4 (tm_year tm + 1900) ++ fmt_0d 2 (tm_mon tm + 1) ++
        fmt_0d 2 (tm_mday tm) ++ fmt_0d 2 (tm_hour tm) ++ fmt_0d 2 (tm_min tm) ++ fmt_0d 2 (tm_sec tm)) in
     let! e := sys (sys_rename old_filename new_filename) in
     ret (if decide (e <> 0) then errno_or e EACCES else 0))%c.

Definition storage_rename_mark_file (old_ip_addr : bytes) (old_port : Z) (new_ip_addr : bytes) (new_port : Z)
    : M SyncState Z :=
  (let old_filename := get_mark_filename_by_id_and_port old_ip_addr old_port in
   let! exist := sys (fileExists old_filename) in
   if negb exist then ret ENOENT
   else
     let new_filename := get_mark_filename_by_id_and_port new_ip_addr new_port in
     let! exist := sys (fileExists new_filename) in
     if (exist : bool) then ret EEXIST
     else
       let! e := sys (sys_rename old_filename new_filename) in
       ret (if decide (e <> 0) then errno_or e EACCES else 0))%c.

End reader.
