(* ===== verification/SyncPeer.v ===== *)
(** * Sending changes to another storage server ([storage/storage_sync.c], the
    [storage_sync_*_file] functions).

    Each function looks at the file of a binlog record, tells the peer what to
    do in one request and reads the answer.  A file that is not there any more
    needs nothing: a later record tells of its deletion. *)

From S2P Require Import Prelude FastCommon TrunkShared StorageIds TrackerTypes FileSys SyncBinlog SyncReader Net.

Definition S_ISLNK (mode : Z) : bool := Z.land mode 0xF000 =? S_IFLNK.

Definition set_p_net x s := mkPeer x (p_last_file_exist s) (p_record s) (p_total_sync_out_bytes s) (p_success_sync_out_bytes s).
Definition set_p_last_file_exist x s := mkPeer (p_net s) x (p_record s) (p_total_sync_out_bytes s) (p_success_sync_out_bytes s).
Definition set_p_record x s := mkPeer (p_net s) (p_last_file_exist s) x (p_total_sync_out_bytes s) (p_success_sync_out_bytes s).
Definition set_p_bytes total success s := mkPeer (p_net s) (p_last_file_exist s) (p_record s) total success.

Definition net {A} (c : M Net A) : M PeerState A := fun s =>
  let '(a, n) := c (p_net s) in (a, set_p_net n s).

Section peer.
Context `{FastCommon} (v : PeerView).

(** [sprintf(p, "%s", g_group_name)] into a field of the stack. *)
Definition group_field : bytes :=
  zero_pad 16 (take 16 (peer_group_name v ++ 0 :: peer_stack v)).

(** [tcpsendfile_ex]: the result and the bytes sent.  A failure half way leaves
    a part of the file sent. *)
Definition tcpsendfile_ex (filename : bytes) (offset size : Z) : M Net (Z * Z) :=
  match sys_read (peer_files v) filename with
  | inl e => ret (errno_or e ENOENT, 0)
  | inr data =>
      (let part := take (Z.to_nat size) (drop (Z.to_nat offset) data) in
       let! e := net_errno in
       let! n := (if decide (e <> 0) then net_errno else ret (Z.of_nat (length part))) in
       let sent := take (Z.to_nat n) part in
       modify (fun c => mkNet (n_sent c ++ sent) (n_incoming c) (n_broken c) (n_errnos c)) ;;
       ret (if decide (e <> 0) then e
            else if Z.of_nat (length part) <? size then EIO else 0, Z.of_nat (length sent)))%c
  end.

Definition count_sync_out (result total_send_bytes : Z) : M PeerState unit :=
  modify (fun s => set_p_bytes (p_total_sync_out_bytes s + total_send_bytes)
                     (if decide (result = 0) then p_success_sync_out_bytes s + total_send_bytes
                      else p_success_sync_out_bytes s) s).

(** [storage_query_file_info_ex] on the open connection; of its answer only
    the size is used. *)
Definition storage_query_file_info_ex (filename : bytes) (bSilence : bool) : M PeerState (Z * Z) :=
  (let filename_len := Z.of_nat (length filename) in
   let field := zero_pad 16 (take 16 (peer_group_name v)) ++ snprintf 128 filename in
   let in_size := 3 * FDFS_PROTO_PKG_LEN_SIZE + peer_IP_ADDRESS_SIZE v in
   let! r := net (send_and_recv
                   (TrackerHeader (FDFS_GROUP_NAME_MAX_LEN + filename_len) STORAGE_PROTO_CMD_QUERY_FILE_INFO
                      (if bSilence then ENOENT else 0) ++ field)
                   (Some in_size)) in
   match r with
   | (result, body) =>
       if decide (result <> 0) then ret (result, 0)
       else if negb (Z.of_nat (length body) =? in_size) then ret (EINVAL, 0)
       else ret (0, buff2long body)
   end)%c.

(** The request of a copy: file name length, size, timestamp, group and name,
    and the content behind it. *)
Definition copy_header (rec : StorageBinLogRecord) (proto_cmd size : Z) (need_sync_file : bool) : bytes :=
  TrackerHeader (2 * FDFS_PROTO_PKG_LEN_SIZE + 4 + FDFS_GROUP_NAME_MAX_LEN + bl_filename_len rec +
                 (if need_sync_file then size else 0))
    proto_cmd (if need_sync_file then 0 else EEXIST) ++
  long2buff (bl_filename_len rec) ++ long2buff size ++ int2buff (int32 (bl_timestamp rec)) ++
  group_field ++ take (Z.to_nat (bl_filename_len rec)) (bl_filename rec).

Definition no_trunk : FDFSTrunkFullInfo :=
  {| ti_status := 0; ti_path := {| store_path_index := 0; sub_path_high := 0; sub_path_low := 0 |};
     ti_file := {| tf_id := 0; tf_offset := 0; tf_size := 0 |} |}.
Definition no_header : FDFSTrunkHeader :=
  {| th_file_type := 0; th_alloc_size := 0; th_file_size := 0; th_crc32 := 0; th_mtime := 0;
     th_formatted_ext_name := [] |}.

Definition full_path (rec : StorageBinLogRecord) : bytes :=
  sp_path (znth inhabitant (peer_paths v) (bl_store_path_index rec)) ++ bs "/data/" ++ bl_true_filename rec.

(** The request and its answer, in the [do ... while (0)] of the sources. *)
Definition send_copy (rec : StorageBinLogRecord) (proto_cmd size : Z) (need_sync_file : bool)
    (full_filename : bytes) (file_offset : Z) : M PeerState (Z * Z) :=
  (let! result := net (tcpsenddata_nb (copy_header rec proto_cmd size need_sync_file)) in
   if decide (result <> 0) then ret (result, 0)
   else
     let! rt := (if need_sync_file && (0 <? size)
                 then net (tcpsendfile_ex full_filename file_offset size) else ret (0, 0)) in
     if decide (rt.1 <> 0) then ret rt
     else
       let! resp := net (fdfs_recv_response (Some 0)) in
       ret (resp.1, rt.2))%c.

Definition storage_sync_copy_file (proto_cmd : Z) : M PeerState Z :=
  (let! rec := gets p_record in
   match trunk_file_stat_func_ex (peer_files v) (peer_paths v) (bl_store_path_index rec) (bl_true_filename rec)
           (bl_true_filename_len rec) FDFS_STAT_FUNC_STAT false no_trunk no_header with
   | inl result => ret (if decide (result = ENOENT) then 0 else result)
   | inr (stat_buf, trunkInfo, _, _) =>
       let! last_file_exist := gets p_last_file_exist in
       let! q := (if last_file_exist && (proto_cmd =? STORAGE_PROTO_CMD_SYNC_CREATE_FILE) then
                    let! fi := storage_query_file_info_ex (bl_filename rec) true in
                    ret (if decide (fi.1 = 0) then
                           if fi.2 =? st_size stat_buf then (0, false, proto_cmd)
                           else (0, true, STORAGE_PROTO_CMD_SYNC_UPDATE_FILE)
                         else if decide (fi.1 <> ENOENT) then (fi.1, true, proto_cmd)
                         else (0, true, proto_cmd))
                  else ret (0, true, proto_cmd)) in
       match q with
       | (result, need_sync_file, proto_cmd) =>
           if decide (result <> 0) then ret result
           else
             let file := if IS_TRUNK_FILE_BY_ID trunkInfo
                         then (trunk_get_full_filename_ex (peer_paths v) trunkInfo MAX_PATH_SIZE,
                               FDFS_TRUNK_FILE_HEADER_SIZE + tf_offset (ti_file trunkInfo))
                         else (full_path rec, 0) in
             let! rt := send_copy rec proto_cmd (st_size stat_buf) need_sync_file file.1 file.2 in
             count_sync_out rt.1 rt.2 ;;
             (if decide (rt.1 = EEXIST) then modify (set_p_last_file_exist true) ;; ret 0
              else if decide (rt.1 = 0) then modify (set_p_last_file_exist false) ;; ret 0
              else ret rt.1)
       end
   end)%c.

(** The name and the two numbers of an append, modify or truncate record; the
    name replaces the text in [*pRecord]. *)
Definition split_range (rec : StorageBinLogRecord) : Z + (Z * Z * StorageBinLogRecord) :=
  match splitEx 32 3 (bl_filename rec) with
  | f0 :: f1 :: f2 :: _ =>
      let len := Z.of_nat (length f0) in
      let rec' true_filename true_len index :=
        mkSyncRecord (bl_timestamp rec) (bl_op_type rec) f0 true_filename (bl_src_filename rec)
          len true_len (bl_src_filename_len rec) index in
      match storage_split_filename_ex (peer_paths v) f0 len with
      | inl e => inl e
      | inr (true_len, true_filename, index) =>
          inr ((strtol 10 f1).1, (strtol 10 f2).1, rec' true_filename true_len index)
      end
  | _ => inl EINVAL
  end.

(** The head of a request with the name length, two numbers, timestamp, group
    and name; [body_extra] bytes follow it. *)
Definition range_header (rec : StorageBinLogRecord) (cmd a b body_extra : Z) : bytes :=
  TrackerHeader (3 * FDFS_PROTO_PKG_LEN_SIZE + 4 + FDFS_GROUP_NAME_MAX_LEN + bl_filename_len rec + body_extra) cmd 0 ++
  long2buff (bl_filename_len rec) ++ long2buff a ++ long2buff b ++ int2buff (int32 (bl_timestamp rec)) ++
  group_field ++ take (Z.to_nat (bl_filename_len rec)) (bl_filename rec).

Definition storage_sync_modify_file (cmd : Z) : M PeerState Z :=
  (let! rec := gets p_record in
   match split_range rec with
   | inl e => ret e
   | inr (start_offset, modify_length, rec) =>
       modify (set_p_record rec) ;;
       let full_filename := snprintf MAX_PATH_SIZE (full_path rec) in
       match sys_lstat (peer_files v) full_filename with
       | inl e => ret (if decide (e = ENOENT) then 0 else errno_or e EPERM)
       | inr stat_buf =>
           if st_size stat_buf <? start_offset + modify_length then ret 0
           else
             let! result := net (tcpsenddata_nb (range_header rec cmd start_offset modify_length modify_length)) in
             let! rt := (if decide (result <> 0) then ret (result, 0)
                         else
                           let! rt := net (tcpsendfile_ex full_filename start_offset modify_length) in
                           if decide (rt.1 <> 0) then ret rt
                           else let! resp := net (fdfs_recv_response (Some 0)) in ret (resp.1, rt.2)) in
             count_sync_out rt.1 rt.2 ;;
             ret (if decide (rt.1 = EEXIST) then 0 else rt.1)
       end
   end)%c.

Definition storage_sync_truncate_file : M PeerState Z :=
  (let! rec := gets p_record in
   match split_range rec with
   | inl e => ret e
   | inr (old_file_size, new_file_size, rec) =>
       modify (set_p_record rec) ;;
       let full_filename := snprintf MAX_PATH_SIZE (full_path rec) in
       match sys_lstat (peer_files v) full_filename with
       | inl e => ret (if decide (e = ENOENT) then 0 else errno_or e EPERM)
       | inr stat_buf =>
           let! r := net (send_and_recv
             (range_header rec STORAGE_PROTO_CMD_SYNC_TRUNCATE_FILE old_file_size new_file_size 0) (Some 0)) in
           ret (if decide (r.1 = EEXIST) then 0 else r.1)
       end
   end)%c.

(** A missing file is what the peer is to have. *)
Definition storage_sync_delete_file : M PeerState Z :=
  (let! rec := gets p_record in
   match trunk_file_stat_func_ex (peer_files v) (peer_paths v) (bl_store_path_index rec) (bl_true_filename rec)
           (bl_true_filename_len rec) FDFS_STAT_FUNC_STAT false no_trunk no_header with
   | inr _ => ret 0
   | inl _ =>
       let! r := net (send_and_recv
         (TrackerHeader (4 + FDFS_GROUP_NAME_MAX_LEN + bl_filename_len rec) STORAGE_PROTO_CMD_SYNC_DELETE_FILE 0 ++
          int2buff (int32 (bl_timestamp rec)) ++ zero_pad 16 (take 16 (peer_group_name v)) ++
          take (Z.to_nat (bl_filename_len rec)) (bl_filename rec)) (Some 0)) in
       ret (if decide (r.1 = ENOENT) then 0 else r.1)
   end)%c.

Definition storage_report_my_server_id : M PeerState Z :=
  (let! r := net (send_and_recv
     (TrackerHeader (peer_IP_ADDRESS_SIZE v) STORAGE_PROTO_CMD_REPORT_SERVER_ID 0 ++
      zero_pad 16 (take 16 (peer_server_id v))) (Some 0)) in
   ret r.1)%c.

(** The request of a link or a rename: both names. *)
Definition names_request (rec : StorageBinLogRecord) (cmd : Z) : bytes :=
  TrackerHeader (2 * FDFS_PROTO_PKG_LEN_SIZE + 4 + FDFS_GROUP_NAME_MAX_LEN + bl_filename_len rec +
                 bl_src_filename_len rec) cmd 0 ++
  long2buff (bl_filename_len rec) ++ long2buff (bl_src_filename_len rec) ++
  int2buff (int32 (bl_timestamp rec)) ++ zero_pad 16 (take 16 (peer_group_name v)) ++
  take (Z.to_nat (bl_filename_len rec)) (bl_filename rec) ++
  take (Z.to_nat (bl_src_filename_len rec)) (bl_src_filename rec).

(** The text behind the first occurrence of [needle], with the text before. *)
Fixpoint strstr (s needle : bytes) : option (bytes * bytes) :=
  if bool_decide (take (length needle) s = needle) then Some ([], drop (length needle) s)
  else match s with
       | [] => None
       | c :: s' => match strstr s' needle with Some (a, b) => Some (c :: a, b) | None => None end
       end.

(** The loop over [/data/]: the text before the last one found, and behind it. *)
Fixpoint last_data (fuel : nat) (before rest : bytes) : bytes * bytes :=
  match fuel with
  | O => (before, rest)
  | S fuel' =>
      match strstr rest (bs "/data/") with
      | None => (before, rest)
      | Some (a, b) => last_data fuel' (before ++ bs "/data/" ++ a) b
      end
  end.

Fixpoint find_path (paths : list FDFSStorePathInfo) (path : bytes) (i : Z) : option Z :=
  match paths with
  | [] => None
  | p :: paths' => if bool_decide (sp_path p = path) then Some i else find_path paths' path (i + 1)
  end.

(** The logic name of the file a symbolic link points at. *)
Definition link_source (src_full_filename : bytes) : Z + bytes :=
  match strstr src_full_filename (bs "/data/") with
  | None => inl EINVAL
  | Some (a, b) =>
      let '(before, rest) := last_data (length b) a b in
      let index := if (length (peer_paths v) =? 1)%nat then Some 0 else find_path (peer_paths v) before 0 in
      match index with
      | None => inl EINVAL
      | Some index =>
          if 128 <=? Z.of_nat (length rest) + 4 then inl EINVAL
          else inr (FDFS_STORAGE_STORE_PATH_PREFIX_CHAR :: fmt_02X index ++ bs "/" ++ rest)
      end
  end.

(** [*pRecord] with its source; [None] when the record is to be skipped. *)
Definition record_source (rec : StorageBinLogRecord) (st : Stat) (trunkInfo : FDFSTrunkFullInfo)
    (fd : option Fd) : Z + option StorageBinLogRecord :=
  let with_src src len :=
    mkSyncRecord (bl_timestamp rec) (bl_op_type rec) (bl_filename rec) (bl_true_filename rec) src
      (bl_filename_len rec) (bl_true_filename_len rec) len (bl_store_path_index rec) in
  if 0 <? bl_src_filename_len rec then inr (Some rec)
  else if IS_TRUNK_FILE_BY_ID trunkInfo then
    match trunk_file_get_content_ex (peer_files v) (peer_paths v) trunkInfo (st_size st) fd 128 with
    | inl _ => inr None
    | inr (content, _) => inr (Some (with_src content (st_size st)))
    end
  else
    match peer_readlink v (snprintf MAX_PATH_SIZE (full_path rec)) with
    | inl _ => inr None
    | inr [] => inr None
    | inr target =>
        match link_source (take (Z.to_nat (MAX_PATH_SIZE - 1)) target) with
        | inl e => inl e
        | inr src => inr (Some (with_src src (Z.of_nat (length src))))
        end
    end.

Definition storage_sync_link_file : M PeerState Z :=
  (let! rec := gets p_record in
   match trunk_file_do_lstat_func_ex (peer_files v) (peer_paths v) (bl_store_path_index rec) (bl_true_filename rec)
           (bl_true_filename_len rec) FDFS_STAT_FUNC_LSTAT no_trunk no_header with
   | inl _ => ret 0
   | inr (st, trunkInfo, _, fd) =>
       if negb (S_ISLNK (st_mode st)) then ret 0
       else
         match record_source rec st trunkInfo fd with
         | inl e => ret e
         | inr None => ret 0
         | inr (Some rec) =>
             modify (set_p_record rec) ;;
             let! r := net (send_and_recv (names_request rec STORAGE_PROTO_CMD_SYNC_CREATE_LINK) (Some 0)) in
             ret (if decide (r.1 = ENOENT) then 0 else r.1)
         end
   end)%c.

Definition storage_sync_rename_file : M PeerState Z :=
  (let! rec := gets p_record in
   if bl_op_type rec =? STORAGE_OP_TYPE_REPLICA_RENAME_FILE
   then storage_sync_copy_file STORAGE_PROTO_CMD_SYNC_CREATE_FILE
   else
     match sys_lstat (peer_files v) (snprintf MAX_PATH_SIZE (full_path rec)) with
     | inl e => ret (if decide (e = ENOENT) then 0 else errno_or e EPERM)
     | inr _ =>
         let! r := net (send_and_recv (names_request rec STORAGE_PROTO_CMD_SYNC_RENAME_FILE) (Some 0)) in
         if decide (r.1 = ENOENT) then storage_sync_copy_file STORAGE_PROTO_CMD_SYNC_CREATE_FILE
         else ret (if decide (r.1 = EEXIST) then 0 else r.1)
     end)%c.

(** Records of changes received from other servers are passed on only to a new
    server, and only those from before it joined. *)
Definition STARAGE_CHECK_IF_NEED_SYNC_OLD (r : StorageBinLogReader) (rec : StorageBinLogRecord) : bool :=
  negb (sr_need_sync_old r) || sr_sync_old_done r || (sr_until_timestamp r <? bl_timestamp rec).

(** The [switch] of [storage_sync_data]: [None] for a record to be passed over
    ([return 0] in the sources). *)
Definition sync_to_peer (r : StorageBinLogReader) : M PeerState (option Z) :=
  (let! rec := gets p_record in
   let op := bl_op_type rec in
   let done {A} (c : M PeerState A) := let! x := c in ret (Some x) in
   let old c := if STARAGE_CHECK_IF_NEED_SYNC_OLD r rec then ret None else done c in
   let resync cmd :=
     (let! result := storage_sync_modify_file cmd in
      if decide (result = ENOENT) then storage_sync_copy_file STORAGE_PROTO_CMD_SYNC_UPDATE_FILE
      else ret result) in
   if op =? STORAGE_OP_TYPE_SOURCE_CREATE_FILE then done (storage_sync_copy_file STORAGE_PROTO_CMD_SYNC_CREATE_FILE)
   else if op =? STORAGE_OP_TYPE_SOURCE_DELETE_FILE then done storage_sync_delete_file
   else if op =? STORAGE_OP_TYPE_SOURCE_UPDATE_FILE then done (storage_sync_copy_file STORAGE_PROTO_CMD_SYNC_UPDATE_FILE)
   else if op =? STORAGE_OP_TYPE_SOURCE_APPEND_FILE then done (resync STORAGE_PROTO_CMD_SYNC_APPEND_FILE)
   else if op =? STORAGE_OP_TYPE_SOURCE_MODIFY_FILE then done (resync STORAGE_PROTO_CMD_SYNC_MODIFY_FILE)
   else if op =? STORAGE_OP_TYPE_SOURCE_TRUNCATE_FILE then done storage_sync_truncate_file
   else if op =? STORAGE_OP_TYPE_SOURCE_RENAME_FILE then done storage_sync_rename_file
   else if op =? STORAGE_OP_TYPE_SOURCE_CREATE_LINK then done storage_sync_link_file
   else if op =? STORAGE_OP_TYPE_REPLICA_CREATE_FILE then old (storage_sync_copy_file STORAGE_PROTO_CMD_SYNC_CREATE_FILE)
   else if op =? STORAGE_OP_TYPE_REPLICA_DELETE_FILE then old storage_sync_delete_file
   else if op =? STORAGE_OP_TYPE_REPLICA_UPDATE_FILE then old (storage_sync_copy_file STORAGE_PROTO_CMD_SYNC_UPDATE_FILE)
   else if op =? STORAGE_OP_TYPE_REPLICA_CREATE_LINK then old storage_sync_link_file
   else if op =? STORAGE_OP_TYPE_REPLICA_RENAME_FILE then old storage_sync_rename_file
   else if (op =? STORAGE_OP_TYPE_REPLICA_APPEND_FILE) || (op =? STORAGE_OP_TYPE_REPLICA_MODIFY_FILE) ||
           (op =? STORAGE_OP_TYPE_REPLICA_TRUNCATE_FILE) then ret None
   else done (ret EINVAL))%c.

End peer.
