(* ===== verification/SyncThread.v ===== *)
(** * The sync threads ([storage/storage_sync.c], [storage/storage_sync_func.c]).

    For every other storage server of the group a thread reads the binlog and
    sends the changes.  [pStorage->status], set by the thread that talks to the
    trackers, says whether the peer takes part; the thread itself moves a new
    server from [WAIT_SYNC] over [SYNCING] to [OFFLINE], from where the peer
    goes on by itself.

    [sync_thread_step] runs the thread up to its next wait or to the end of an
    iteration of a loop; between two steps the rest of the world changes. *)

From S2P Require Import Prelude FastCommon TrunkShared StorageIds TrackerTypes FileSys SyncBinlog SyncReader Net SyncPeer.

Record TimeInfo := { ti_hour : Z; ti_minute : Z }.

Record ThreadConf := {
  tc_sync : SyncConf;
  g_sync_part_time : bool;
  g_sync_start_time : TimeInfo;
  g_sync_end_time : TimeInfo;
  g_heart_beat_interval : Z;
  tc_storage_ids : option StorageIds;
  (** [localtime_r] and [mktime], which know the time zone. *)
  localtime : Z -> Tm;
  mktime : Tm -> Z;
  is_local_host_ip : bytes -> bool;
}.

(** Results of [socketCreateExAuto] and [connectserverbyip_nb] to come. *)
Inductive ConnectResult :=
  | SocketFail
  | ConnectFail (errno : Z)
  | Connected (conn : Net).

(** Where the thread is. *)
Inductive ThreadPc :=
  | P_Outer | P_WaitReady | P_WaitTime | P_Connect | P_WaitActive | P_Start | P_Loop | P_LoopEnd | P_End | P_Done.

Record SyncThread := mkThread {
  t_pc : ThreadPc;
  t_world : SyncWorld;
  t_storage : FDFSStorageBrief;
  t_sock : option Net;
  t_connects : list ConnectResult;
  t_view : PeerView;
  t_record : StorageBinLogRecord;
  t_total_sync_out_bytes : Z;
  t_success_sync_out_bytes : Z;
  t_reports : list Z;
  t_current_time : Z;
  t_start_time : Z;
  t_end_time : Z;
  t_last_keep_alive_time : Z;
  t_sync_result : Z;
}.

Definition set_t_pc x t := mkThread x (t_world t) (t_storage t) (t_sock t) (t_connects t) (t_view t) (t_record t) (t_total_sync_out_bytes t) (t_success_sync_out_bytes t) (t_reports t) (t_current_time t) (t_start_time t) (t_end_time t) (t_last_keep_alive_time t) (t_sync_result t).
Definition set_t_world x t := mkThread (t_pc t) x (t_storage t) (t_sock t) (t_connects t) (t_view t) (t_record t) (t_total_sync_out_bytes t) (t_success_sync_out_bytes t) (t_reports t) (t_current_time t) (t_start_time t) (t_end_time t) (t_last_keep_alive_time t) (t_sync_result t).
Definition set_t_storage x t := mkThread (t_pc t) (t_world t) x (t_sock t) (t_connects t) (t_view t) (t_record t) (t_total_sync_out_bytes t) (t_success_sync_out_bytes t) (t_reports t) (t_current_time t) (t_start_time t) (t_end_time t) (t_last_keep_alive_time t) (t_sync_result t).
Definition set_t_sock x t := mkThread (t_pc t) (t_world t) (t_storage t) x (t_connects t) (t_view t) (t_record t) (t_total_sync_out_bytes t) (t_success_sync_out_bytes t) (t_reports t) (t_current_time t) (t_start_time t) (t_end_time t) (t_last_keep_alive_time t) (t_sync_result t).
Definition set_t_connects x t := mkThread (t_pc t) (t_world t) (t_storage t) (t_sock t) x (t_view t) (t_record t) (t_total_sync_out_bytes t) (t_success_sync_out_bytes t) (t_reports t) (t_current_time t) (t_start_time t) (t_end_time t) (t_last_keep_alive_time t) (t_sync_result t).
Definition set_t_view x t := mkThread (t_pc t) (t_world t) (t_storage t) (t_sock t) (t_connects t) x (t_record t) (t_total_sync_out_bytes t) (t_success_sync_out_bytes t) (t_reports t) (t_current_time t) (t_start_time t) (t_end_time t) (t_last_keep_alive_time t) (t_sync_result t).
Definition set_t_record x t := mkThread (t_pc t) (t_world t) (t_storage t) (t_sock t) (t_connects t) (t_view t) x (t_total_sync_out_bytes t) (t_success_sync_out_bytes t) (t_reports t) (t_current_time t) (t_start_time t) (t_end_time t) (t_last_keep_alive_time t) (t_sync_result t).
Definition set_t_total_sync_out_bytes x t := mkThread (t_pc t) (t_world t) (t_storage t) (t_sock t) (t_connects t) (t_view t) (t_record t) x (t_success_sync_out_bytes t) (t_reports t) (t_current_time t) (t_start_time t) (t_end_time t) (t_last_keep_alive_time t) (t_sync_result t).
Definition set_t_success_sync_out_bytes x t := mkThread (t_pc t) (t_world t) (t_storage t) (t_sock t) (t_connects t) (t_view t) (t_record t) (t_total_sync_out_bytes t) x (t_reports t) (t_current_time t) (t_start_time t) (t_end_time t) (t_last_keep_alive_time t) (t_sync_result t).
Definition set_t_reports x t := mkThread (t_pc t) (t_world t) (t_storage t) (t_sock t) (t_connects t) (t_view t) (t_record t) (t_total_sync_out_bytes t) (t_success_sync_out_bytes t) x (t_current_time t) (t_start_time t) (t_end_time t) (t_last_keep_alive_time t) (t_sync_result t).
Definition set_t_current_time x t := mkThread (t_pc t) (t_world t) (t_storage t) (t_sock t) (t_connects t) (t_view t) (t_record t) (t_total_sync_out_bytes t) (t_success_sync_out_bytes t) (t_reports t) x (t_start_time t) (t_end_time t) (t_last_keep_alive_time t) (t_sync_result t).
Definition set_t_start_time x t := mkThread (t_pc t) (t_world t) (t_storage t) (t_sock t) (t_connects t) (t_view t) (t_record t) (t_total_sync_out_bytes t) (t_success_sync_out_bytes t) (t_reports t) (t_current_time t) x (t_end_time t) (t_last_keep_alive_time t) (t_sync_result t).
Definition set_t_end_time x t := mkThread (t_pc t) (t_world t) (t_storage t) (t_sock t) (t_connects t) (t_view t) (t_record t) (t_total_sync_out_bytes t) (t_success_sync_out_bytes t) (t_reports t) (t_current_time t) (t_start_time t) x (t_last_keep_alive_time t) (t_sync_result t).
Definition set_t_last_keep_alive_time x t := mkThread (t_pc t) (t_world t) (t_storage t) (t_sock t) (t_connects t) (t_view t) (t_record t) (t_total_sync_out_bytes t) (t_success_sync_out_bytes t) (t_reports t) (t_current_time t) (t_start_time t) (t_end_time t) x (t_sync_result t).
Definition set_t_sync_result x t := mkThread (t_pc t) (t_world t) (t_storage t) (t_sock t) (t_connects t) (t_view t) (t_record t) (t_total_sync_out_bytes t) (t_success_sync_out_bytes t) (t_reports t) (t_current_time t) (t_start_time t) (t_end_time t) (t_last_keep_alive_time t) x.

(** A step of the reader. *)
Definition rdr {A} (c : M SyncWorld A) : M SyncThread A := fun t =>
  let '(a, w) := c (t_world t) in (a, set_t_world w t).

Definition tget {A} (f : SyncThread -> A) : M SyncThread A := gets f.
Definition goto (pc : ThreadPc) : M SyncThread unit := modify (set_t_pc pc).
Definition t_status (t : SyncThread) : Z := b_status (t_storage t).
Definition set_t_status (status : Z) (t : SyncThread) : SyncThread :=
  set_t_storage (mkBrief status (b_id (t_storage t)) (b_ip_addr (t_storage t))) t.
Definition t_continue (t : SyncThread) : bool := g_continue_flag (w_sync (t_world t)).
Definition stop_program : M SyncThread unit := rdr (srv (modify (set_continue_flag false))).

(** A status of a server that is gone. *)
Definition status_gone (status : Z) : bool :=
  (status =? FDFS_STORAGE_STATUS_DELETED) || (status =? FDFS_STORAGE_STATUS_IP_CHANGED) ||
  (status =? FDFS_STORAGE_STATUS_NONE).

Section thread.
Context `{FastCommon, FastFiles} (tc : ThreadConf).

Let conf := tc_sync tc.

(** [sync_to_peer] with the connection, the flag and the record of the thread;
    the history tells of it. *)
Definition send_record : M SyncThread (option Z) := fun t =>
  let r := w_reader (t_world t) in
  let p := mkPeer (default (mkNet [] [] EBADF [EBADF]) (t_sock t)) (sr_last_file_exist r) (t_record t)
             (t_total_sync_out_bytes t) (t_success_sync_out_bytes t) in
  let '(res, p') := sync_to_peer (t_view t) r p in
  (res,
   set_t_sock (match t_sock t with Some _ => Some (p_net p') | None => None end)
     (set_t_world (set_w_reader (set_sr_last_file_exist (p_last_file_exist p') r)
                     ((past (Sent (t_view t) r p)) (t_world t)).2)
        (set_t_record (p_record p')
           (set_t_total_sync_out_bytes (p_total_sync_out_bytes p')
              (set_t_success_sync_out_bytes (p_success_sync_out_bytes p') t))))).

Definition storage_sync_data : M SyncThread Z :=
  (let! res := send_record in
   match res with
   | None => ret 0
   | Some result =>
       if decide (result = 0) then
         rdr (rset (fun r => set_sr_sync_row_count (sr_sync_row_count r + 1) r)) ;;
         let! r := rdr (rget id) in
         if g_write_mark_file_freq conf <=? sr_sync_row_count r - sr_last_sync_rows r then
           let! result := rdr storage_write_to_mark_file in
           (if decide (result <> 0) then stop_program else ret tt) ;;
           ret result
         else ret 0
       else ret result
   end)%c.

(** ** Connecting. *)

(** The addresses of the peer. *)
Definition peer_ips (storage : FDFSStorageBrief) : list bytes :=
  match (if g_use_storage_id conf then tc_storage_ids tc ≫= fun t => fdfs_get_storage_by_id t (b_id storage) else None) with
  | Some info => address <$> ips (si_ip_addrs info)
  | None => [b_ip_addr storage]
  end.

(** One round of [storage_sync_connect_storage_server_ex] over the addresses. *)
Fixpoint connect_round (ip_addrs : list bytes) : M SyncThread unit :=
  match ip_addrs with
  | [] => ret tt
  | _ :: rest =>
      (let! l := tget t_connects in
       match l with
       | [] => ret tt
       | SocketFail :: l' => modify (set_t_connects l') ;; stop_program
       | Connected conn :: l' => modify (set_t_connects l') ;; modify (set_t_sock (Some conn))
       | ConnectFail _ :: l' => modify (set_t_connects l') ;; connect_round rest
       end)%c
  end.

Definition close_sock : M SyncThread unit := modify (set_t_sock None).

(** ** The daily times. *)
Definition storage_sync_get_start_end_times (current_time : Z) (pStartTime pEndTime : TimeInfo) : Z * Z :=
  let at_time (tm : Tm) (t : TimeInfo) := mkTm (tm_year tm) (tm_mon tm) (tm_mday tm) (ti_hour t) (ti_minute t) 0 in
  let tm := localtime tc current_time in
  let start_time := mktime tc (at_time tm pStartTime) in
  let tm := if (ti_hour pEndTime <? ti_hour pStartTime) ||
               ((ti_hour pEndTime =? ti_hour pStartTime) && (ti_minute pEndTime <? ti_minute pStartTime))
            then localtime tc (current_time + 24 * 3600) else tm in
  (start_time, mktime tc (at_time tm pEndTime)).

Definition server_time (t : SyncThread) : Z := g_current_time (w_sync (t_world t)).

Definition report_status : M SyncThread unit :=
  modify (fun t => set_t_reports (t_reports t ++ [t_status t]) t).

(** ** The parts of [storage_sync_thread_entrance]. *)

Definition step_outer : M SyncThread unit :=
  (let! t := tget id in
   if t_continue t && negb (status_gone (t_status t)) then goto P_WaitReady else goto P_End)%c.

Definition step_wait_ready : M SyncThread unit :=
  (let! t := tget id in
   let st := t_status t in
   if t_continue t && ((st =? FDFS_STORAGE_STATUS_INIT) || (st =? FDFS_STORAGE_STATUS_OFFLINE) ||
                       (st =? FDFS_STORAGE_STATUS_ONLINE))
   then ret tt (* sleep(1) *)
   else if negb (t_continue t) || status_gone st then goto P_End
   else if g_sync_part_time tc then
     let now := server_time t in
     let '(s, e) := storage_sync_get_start_end_times now (g_sync_end_time tc) (g_sync_start_time tc) in
     modify (set_t_current_time now) ;; modify (set_t_start_time (s + 60)) ;;
     modify (set_t_end_time (e - 60)) ;; goto P_WaitTime
   else modify (set_t_sock None) ;; goto P_Connect)%c.

Definition step_wait_time : M SyncThread unit :=
  (let! t := tget id in
   if t_continue t && (t_start_time t <=? t_current_time t) && (t_current_time t <=? t_end_time t)
   then modify (set_t_current_time (server_time t)) (* sleep(1) *)
   else modify (set_t_sock None) ;; goto P_Connect)%c.

(** Between the connection and the first wait behind it. *)
Definition after_connect (record : StorageBinLogRecord) : M SyncThread unit :=
  (let! t := tget id in
   let st := t_status t in
   if negb (t_continue t) || status_gone st then goto P_End
   else if negb (st =? FDFS_STORAGE_STATUS_ACTIVE) && negb (st =? FDFS_STORAGE_STATUS_WAIT_SYNC) &&
           negb (st =? FDFS_STORAGE_STATUS_SYNCING)
   then close_sock ;; goto P_Outer
   else
     let! result := rdr (storage_reader_init conf (t_storage t) record) in
     if decide (result <> 0) then stop_program ;; goto P_End
     else
       let! need := rdr (rget sr_need_sync_old) in
       if (need : bool) then goto P_Start else goto P_WaitActive)%c.

Definition step_connect (record : StorageBinLogRecord) : M SyncThread unit :=
  (let! t := tget id in
   if t_continue t && negb (status_gone (t_status t)) then
     connect_round (peer_ips (t_storage t)) ;;
     let! t := tget id in
     if bool_decide (is_Some (t_sock t)) || negb (t_continue t) then after_connect record else ret tt
   else after_connect record)%c.

Definition step_wait_active : M SyncThread unit :=
  (let! t := tget id in
   let st := t_status t in
   if t_continue t && negb (st =? FDFS_STORAGE_STATUS_ACTIVE) && negb (status_gone st) then ret tt
   else if negb (st =? FDFS_STORAGE_STATUS_ACTIVE)
   then close_sock ;; rdr storage_reader_destroy ;; goto P_Outer
   else goto P_Start)%c.

(** [storage_report_my_server_id] on the connection of the thread. *)
Definition report_my_id : M SyncThread Z := fun t =>
  let r := w_reader (t_world t) in
  let p := mkPeer (default (mkNet [] [] EBADF [EBADF]) (t_sock t)) (sr_last_file_exist r) (t_record t)
             (t_total_sync_out_bytes t) (t_success_sync_out_bytes t) in
  let '(res, p') := storage_report_my_server_id (t_view t) p in
  (res, set_t_sock (match t_sock t with Some _ => Some (p_net p') | None => None end) t).

Definition step_start : M SyncThread unit :=
  (let! t := tget id in
   if bool_decide (b_id (t_storage t) = peer_server_id (t_view t)) || is_local_host_ip tc (b_ip_addr (t_storage t))
   then close_sock ;; goto P_End
   else
     let! result := report_my_id in
     if decide (result <> 0) then close_sock ;; rdr storage_reader_destroy ;; goto P_Outer
     else
       (if t_status t =? FDFS_STORAGE_STATUS_WAIT_SYNC
        then modify (set_t_status FDFS_STORAGE_STATUS_SYNCING) ;; report_status else ret tt) ;;
       let! t := tget id in
       let r := w_reader (t_world t) in
       (if (t_status t =? FDFS_STORAGE_STATUS_SYNCING) && sr_need_sync_old r && sr_sync_old_done r
        then modify (set_t_status FDFS_STORAGE_STATUS_OFFLINE) ;; report_status else ret tt) ;;
       (if g_sync_part_time tc then
          let now := server_time t in
          let '(s, e) := storage_sync_get_start_end_times now (g_sync_start_time tc) (g_sync_end_time tc) in
          modify (set_t_current_time now) ;; modify (set_t_start_time s) ;; modify (set_t_end_time e)
        else ret tt) ;;
       modify (set_t_sync_result 0) ;; goto P_Loop)%c.

(** The branch of the loop for the end of the binlog: [true] to go on. *)
Definition at_log_end : M SyncThread bool :=
  (let! r := rdr (rget id) in
   let! ok :=
     (if sr_need_sync_old r && negb (sr_sync_old_done r) then
        rdr (rset (set_sr_sync_old_done true)) ;;
        let! result := rdr storage_write_to_mark_file in
        if decide (result <> 0) then stop_program ;; ret false
        else
          let! t := tget id in
          (if t_status t =? FDFS_STORAGE_STATUS_SYNCING
           then modify (set_t_status FDFS_STORAGE_STATUS_OFFLINE) ;; report_status else ret tt) ;;
          ret true
      else ret true) in
   if negb ok then ret false
   else
     let! r := rdr (rget id) in
     let! ok :=
       (if negb (sr_last_scan_rows r =? sr_scan_row_count r) then
          let! result := rdr storage_write_to_mark_file in
          if decide (result <> 0) then stop_program ;; ret false else ret true
        else ret true) in
     if negb ok then ret false
     else
       let! t := tget id in
       let now := server_time t in
       modify (set_t_current_time now) ;;
       if g_heart_beat_interval tc <=? now - t_last_keep_alive_time t then
         let '(result, conn) := fdfs_active_test (default (mkNet [] [] EBADF [EBADF]) (t_sock t)) in
         modify (set_t_sock (match t_sock t with Some _ => Some conn | None => None end)) ;;
         if decide (result <> 0) then ret false
         else modify (set_t_last_keep_alive_time now) ;; ret true
       else ret true)%c.

(** The record is done. *)
Definition advance_record (record_len : Z) : M SyncThread unit :=
  (rdr (rset (fun r => set_sr_binlog_offset (sr_binlog_offset r + record_len) r)) ;;
   rdr (rset (fun r => set_sr_scan_row_count (sr_scan_row_count r + 1) r)))%c.

Definition step_loop : M SyncThread unit :=
  (let! t := tget id in
   let st := t_status t in
   if negb (t_continue t &&
            (negb (g_sync_part_time tc) ||
             ((t_start_time t <=? t_current_time t) && (t_current_time t <=? t_end_time t))) &&
            ((st =? FDFS_STORAGE_STATUS_ACTIVE) || (st =? FDFS_STORAGE_STATUS_SYNCING)))
   then goto P_LoopEnd
   else
     let! x := rdr (storage_binlog_read conf (t_record t)) in
     match x with
     | (read_result, record_len, record) =>
         modify (set_t_record record) ;;
         if decide (read_result = ENOENT) then
           let! ok := at_log_end in
           if (ok : bool) then ret tt else goto P_LoopEnd
         else
           (if g_sync_part_time tc
            then let! t := tget id in modify (set_t_current_time (server_time t)) else ret tt) ;;
           if decide (read_result <> 0) then
             if (read_result =? EINVAL) && g_file_sync_skip_invalid_record conf
             then rdr (past Invalid) ;; advance_record record_len
             else goto P_LoopEnd (* sleep(5) *)
           else
             let! sync_result := storage_sync_data in
             modify (set_t_sync_result sync_result) ;;
             if decide (sync_result <> 0) then
               let! result := rdr rewind_to_prev_rec_end in
               (if decide (result <> 0) then stop_program else ret tt) ;;
               goto P_LoopEnd
             else advance_record record_len
     end)%c.

Definition step_loop_end : M SyncThread unit :=
  (let! r := rdr (rget id) in
   let! result := (if negb (sr_last_scan_rows r =? sr_scan_row_count r)
                   then rdr storage_write_to_mark_file else ret 0) in
   if decide (result <> 0) then stop_program ;; goto P_End
   else
     close_sock ;; rdr storage_reader_destroy ;;
     let! t := tget id in
     if t_continue t then goto P_Outer else goto P_End)%c.

Definition step_end : M SyncThread unit :=
  (close_sock ;; rdr storage_reader_destroy ;;
   let! t := tget id in
   let st := t_status t in
   (if (st =? FDFS_STORAGE_STATUS_DELETED) || (st =? FDFS_STORAGE_STATUS_IP_CHANGED)
    then modify (set_t_status FDFS_STORAGE_STATUS_NONE) else ret tt) ;;
   goto P_Done)%c.

(** [record] is what the uninitialised record of [storage_binlog_reader_skip] holds. *)
Definition sync_thread_step (record : StorageBinLogRecord) : M SyncThread unit :=
  (let! pc := tget t_pc in
   match pc with
   | P_Outer => step_outer
   | P_WaitReady => step_wait_ready
   | P_WaitTime => step_wait_time
   | P_Connect => step_connect record
   | P_WaitActive => step_wait_active
   | P_Start => step_start
   | P_Loop => step_loop
   | P_LoopEnd => step_loop_end
   | P_End => step_end
   | P_Done => ret tt
   end)%c.

(** [storage_sync_thread_start]: whether a thread is started. *)
Definition storage_sync_thread_start (storage : FDFSStorageBrief) (my_server_id : bytes) : bool :=
  if status_gone (b_status storage) then false
  else if bool_decide (b_id storage = my_server_id) || is_local_host_ip tc (b_ip_addr storage) then false
  else true.

End thread.
