(* ===== verification/SyncFiles.v ===== *)
(** * The files of the binlog (proofs).

    The names of the binlog files, their compressed forms, the flag files, the
    index file and the mark files differ.  [log_inv] says what the files hold:
    the text of every binlog file, plain or compressed, the file the writer
    appends to, and the file a reader has open.  Every operation of the server
    keeps it and only extends the log. *)

From S2P Require Import Prelude FastCommon TrunkShared TrunkBinlog TrackerTypes FileSys SyncBinlog SyncReader.

(** ** Names. *)
Record conf_ok (conf : SyncConf) : Prop := {
  ok_length : (length (g_fdfs_base_path conf) <= 128)%nat;
  ok_path : plain_path (g_fdfs_base_path conf);
}.

Definition index_ok (i : Z) : Prop := 0 <= i <= 2 ^ 31.

Lemma digits_zeros n s : digits_val 10 0 (replicate n 48 ++ s) = digits_val 10 0 s.
Proof. induction n as [|n IH]; [done|]. exact IH. Qed.

Lemma fmt_03d_inj i j : 0 <= i -> 0 <= j -> fmt_03d i = fmt_03d j -> i = j.
Proof.
  intros Hi Hj. unfold fmt_03d. rewrite (proj2 (Z.ltb_ge i 0)), (proj2 (Z.ltb_ge j 0)) by lia.
  intros E. apply (f_equal (digits_val 10 0)) in E. unfold pad0 in E. rewrite !digits_zeros in E.
  pose proof (fmt_u_spec 10 i ltac:(lia) Hi) as (_ & Hvi & _).
  pose proof (fmt_u_spec 10 j ltac:(lia) Hj) as (_ & Hvj & _).
  rewrite Hvi, Hvj in E. lia.
Qed.

Lemma fmt_03d_digits i : 0 <= i -> Forall (fun c => 48 <= c <= 57) (fmt_03d i).
Proof.
  intros Hi. unfold fmt_03d, pad0. rewrite (proj2 (Z.ltb_ge i 0)) by lia. apply Forall_app. split.
  - apply Forall_replicate. lia.
  - by apply fmt_u_chars.
Qed.

Lemma fmt_03d_length i : index_ok i -> (length (fmt_03d i) <= 10)%nat /\ fmt_03d i <> [].
Proof.
  intros Hi. unfold fmt_03d, pad0, index_ok in *. rewrite (proj2 (Z.ltb_ge i 0)) by lia.
  pose proof (fmt_u_length 10 i 10 ltac:(lia) ltac:(lia) ltac:(lia)).
  pose proof (fmt_u_spec 10 i ltac:(lia) ltac:(lia)) as (_ & _ & Hne).
  split.
  - rewrite length_app, length_replicate. lia.
  - intros E. apply app_eq_nil in E as [_ E]. done.
Qed.

Section names.
Context (conf : SyncConf) (Hconf : conf_ok conf).
(** A mark file. *)
Context (mname : bytes) (Hmname : last mname = Some (ch "k")).

Abbreviation bname := (get_binlog_readable_filename_ex conf).

Definition binlog_prefix : bytes := sync_path conf ++ bs "/binlog.".

Lemma sync_path_length : (length (sync_path conf) <= 138)%nat.
Proof. unfold sync_path. rewrite !length_app. pose proof (ok_length _ Hconf). simpl. lia. Qed.

Lemma bname_eq i : index_ok i -> bname i = binlog_prefix ++ fmt_03d i.
Proof.
  intros Hi. unfold get_binlog_readable_filename_ex. rewrite snprintf_short.
  - unfold binlog_prefix. rewrite <- app_assoc. done.
  - pose proof sync_path_length. pose proof (fmt_03d_length i Hi) as [? _]. unfold MAX_PATH_SIZE.
    rewrite !length_app. simpl. lia.
Qed.

Lemma bname_inj i j : index_ok i -> index_ok j -> bname i = bname j -> i = j.
Proof.
  intros Hi Hj. rewrite !bname_eq by done. intros E%app_inv_head.
  unfold index_ok in *. apply fmt_03d_inj; [lia..|done].
Qed.

Definition gz_filename (i : Z) : bytes := bname i ++ bs ".gz".

Abbreviation gzname := gz_filename.

(** The last character tells the kinds of files apart. *)
Definition log_name (n : bytes) : Prop :=
  n = mname \/ exists j, index_ok j /\ (n = bname j \/ n = gzname j).

Lemma last_bname i : index_ok i -> exists c, last (bname i) = Some c /\ 48 <= c <= 57.
Proof.
  intros Hi. rewrite bname_eq by done. pose proof (fmt_03d_length i Hi) as [_ Hne].
  assert (0 <= i) as Hd%fmt_03d_digits by (unfold index_ok in Hi; lia).
  destruct (fmt_03d i) as [|c l _] using rev_ind; [done|].
  exists c. split; [by rewrite app_assoc, last_snoc|]. by apply Forall_app in Hd as [_ [? _]%Forall_cons].
Qed.

Lemma last_app_bs a (b : bytes) : b <> [] -> last (a ++ b) = last b.
Proof. destruct b as [|c b _] using rev_ind; [done|]. intros _. by rewrite app_assoc, !last_snoc. Qed.

Lemma last_gzname i : last (gzname i) = Some (ch "z").
Proof. unfold gz_filename. by rewrite last_app_bs. Qed.

Lemma not_log_name n c :
  last n = Some c -> ~ 48 <= c <= 57 -> c <> ch "z" -> c <> ch "k" -> ~ log_name n.
Proof.
  intros Hl Hc Hz Hk [-> |(j & Hj & [-> | ->])].
  - rewrite Hmname in Hl. congruence.
  - destruct (last_bname j Hj) as (d & Hd & ?). rewrite Hl in Hd. naive_solver.
  - rewrite last_gzname in Hl. naive_solver.
Qed.

Lemma gzname_inj i j : index_ok i -> index_ok j -> gzname i = gzname j -> i = j.
Proof. intros Hi Hj E%app_inv_tail. by apply bname_inj. Qed.

Lemma bname_gzname i j : index_ok i -> bname i <> gzname j.
Proof.
  intros Hi E. destruct (last_bname i Hi) as (c & Hc & Hr). rewrite E, last_gzname in Hc.
  injection Hc as <-. unfold ch in Hr. cbn in Hr. lia.
Qed.

(** A name that a directory, a file name and an ending make. *)
Lemma other_name file c :
  (length file <= 100)%nat -> last file = Some c -> ~ 48 <= c <= 57 -> c <> ch "z" -> c <> ch "k" ->
  ~ log_name (snprintf MAX_PATH_SIZE (sync_path conf ++ bs "/" ++ file)).
Proof.
  intros Hlen Hl Hc Hz Hk. pose proof sync_path_length.
  rewrite snprintf_short by (unfold MAX_PATH_SIZE; rewrite !length_app; simpl; lia).
  apply (not_log_name _ c); [|done..].
  rewrite !last_app_bs; [done|by destruct file|by destruct file].
Qed.

Lemma index_not_log : ~ log_name (index_filename conf).
Proof. apply (other_name _ (ch "t")); [cbn; lia|done|unfold ch; cbn; lia|done|done]. Qed.

Lemma split_dir_app p d f : split_dir p = Some (d, f) -> p = d ++ f.
Proof.
  revert d f. induction p as [|c p IH]; intros d f; [done|]. simpl.
  destruct (split_dir p) as [[d' f']|] eqn:E.
  - intros [= <- <-]. simpl. by rewrite (IH d' f').
  - case_decide; [|done]. by intros [= <- <-]; subst.
Qed.

Lemma flag_not_log p :
  (length p <= 200)%nat -> ~ log_name (get_binlog_flag_file p MAX_PATH_SIZE).
Proof.
  intros Hp. apply (not_log_name _ (ch "g")); [|unfold ch; cbn; lia|done|done].
  unfold get_binlog_flag_file. destruct (split_dir p) as [[d f]|] eqn:E.
  - apply split_dir_app in E as ->. rewrite length_app in Hp.
    rewrite snprintf_short by (unfold MAX_PATH_SIZE; rewrite !length_app; simpl; lia).
    rewrite !last_app_bs; done || (destruct f; done).
  - rewrite snprintf_short by (unfold MAX_PATH_SIZE; rewrite !length_app; simpl; lia).
    rewrite !last_app_bs; done || (destruct p; done).
Qed.

Lemma mname_not i : index_ok i -> mname <> bname i /\ mname <> gzname i.
Proof.
  intros Hi. split; intros E; rewrite E in Hmname.
  - destruct (last_bname i Hi) as (c & Hc & ?). rewrite Hmname in Hc. injection Hc as <-. unfold ch in *. cbn in *. lia.
  - by rewrite last_gzname in Hmname.
Qed.

Lemma bname_length i : index_ok i -> (length (bname i) <= 160)%nat.
Proof.
  intros Hi. rewrite bname_eq by done. unfold binlog_prefix. rewrite !length_app.
  pose proof sync_path_length. pose proof (fmt_03d_length i Hi) as [? _]. simpl. lia.
Qed.

Lemma gzname_eq i : index_ok i -> snprintf MAX_PATH_SIZE (bname i ++ bs ".gz") = gzname i.
Proof.
  intros Hi. apply snprintf_short. pose proof (bname_length i Hi). unfold MAX_PATH_SIZE.
  unfold gz_filename. rewrite length_app. simpl. lia.
Qed.

Lemma bname_plain i : index_ok i -> plain_path (bname i).
Proof.
  intros Hi. destruct (ok_path _ Hconf) as [Hh Hc]. rewrite bname_eq by done.
  assert (0 <= i) as Hd%fmt_03d_digits by (unfold index_ok in Hi; lia).
  unfold binlog_prefix, sync_path. rewrite <- !app_assoc. split.
  - by destruct (g_fdfs_base_path conf).
  - apply Forall_app. split; [done|]. repeat (apply Forall_app; split);
      try (repeat constructor; fail).
    eapply Forall_impl; [exact Hd|]. intros c Hcd. cbn in Hcd. unfold ini_char.
    rewrite (proj2 (Z.leb_le 48 c)), (proj2 (Z.leb_le c 57)) by lia. done.
Qed.
End names.

(** Operations that never change a field. *)
Definition same {A B} (f : SyncState -> B) (c : M SyncState A) : Prop := forall s, f (c s).2 = f s.

Lemma same_bind {A B C} (f : SyncState -> C) (c : M SyncState A) (k : A -> M SyncState B) :
  same f c -> (forall a, same f (k a)) -> same f (bind c k).
Proof. intros Hc Hk s. unfold bind. specialize (Hc s). destruct (c s) as [a s1]. by rewrite (Hk a s1). Qed.

Lemma same_sys {A B} (f : SyncState -> B) (c : M FileSys A) :
  (forall fs s, f (set_ss_fs fs s) = f s) -> same f (sys c).
Proof. intros Hf s. unfold sys. destruct (c (ss_fs s)). apply Hf. Qed.

Ltac same :=
  repeat match goal with
    | |- same _ (bind _ _) => apply same_bind; [|intros ?]
    | |- same _ (ret _) => intros ?; reflexivity
    | |- same _ (gets _) => intros ?; reflexivity
    | |- same _ (sys _) => apply same_sys; reflexivity
    | |- same _ (if _ then _ else _) => case_match
    | |- same _ (match _ with _ => _ end) => case_match
    | |- same _ (modify _) => intros ?; reflexivity
    end.

(** ** What the files hold. *)
Section inv.
Context `{FastFilesLaws} (conf : SyncConf) (Hconf : conf_ok conf).
Context (mname : bytes) (Hmname : last mname = Some (ch "k")).

Abbreviation bname := (get_binlog_readable_filename_ex conf).
Abbreviation gzname := (gz_filename conf).
Abbreviation log_name := (log_name conf mname).

(** The text of a binlog file, plain or compressed. *)
Definition holds (fs : FileSys) (i : Z) (t : bytes) : Prop :=
  fs_text fs (bname i) = Some t \/
  (fs_names fs !! bname i = None /\ fs_text fs (gzname i) = Some (gzip_text t)).

(** The index and the descriptor of a reader with an open file, and what the
    mark file holds. *)
Record Reading := mkReading { rd_file : option (Z * nat); rd_mark : option bytes }.

(** [g] is the index of the file in use, [wfd] the descriptor of the writer. *)
Record files_inv (log : Z -> bytes) (fs : FileSys) (g : Z) (wfd : option nat) (rd : Reading) : Prop := {
  fi_wf : fs_wf fs;
  fi_g : 0 <= g;
  fi_current : exists w, fs_names fs !! bname g = Some w /\ fs_inodes fs !! w = Some (log g) /\
    (wfd = None \/ wfd = Some w);
  fi_holds : forall i, 0 <= i < g -> holds fs i (log i);
  fi_mark : fs_text fs mname = rd_mark rd;
  fi_reader : forall i n, rd_file rd = Some (i, n) ->
    0 <= i <= g /\ fs_inodes fs !! n = Some (log i) /\
    (forall a, fs_names fs !! a = Some n -> a = bname i) /\
    (i = g -> fs_names fs !! bname g = Some n);
}.

(** A log that grew: the files below [g] are the same, that of [g] is longer. *)
Record extends (g : Z) (log : Z -> bytes) (g' : Z) (log' : Z -> bytes) : Prop := {
  ex_g : g <= g';
  ex_old : forall i, 0 <= i < g -> log' i = log i;
  ex_current : exists d, log' g = log g ++ d;
}.

Lemma extends_refl g log : extends g log g log.
Proof. split; [lia|done|]. exists []. by rewrite app_nil_r. Qed.

Lemma extends_trans g log g' log' g'' log'' :
  0 <= g -> extends g log g' log' -> extends g' log' g'' log'' -> extends g log g'' log''.
Proof.
  intros Hg [? Ho [d Hd]] [? Ho' [d' Hd']]. split; [lia| |].
  - intros i Hi. rewrite Ho' by lia. by apply Ho.
  - destruct (decide (g = g')) as [<-|].
    + exists (d ++ d'). by rewrite Hd', Hd, app_assoc.
    + exists d. by rewrite Ho' by lia.
Qed.

(** Operations on other files. *)
Lemma frame_text_eq l fs fs' n : fs_wf fs -> only_files l fs fs' -> n ∉ l -> fs_text fs' n = fs_text fs n.
Proof.
  intros [Hra Hinj] [] Hn. unfold fs_text. rewrite of_names by done.
  destruct (fs_names fs !! n) as [i|] eqn:E; [|done]. cbn.
  destruct (lookup_lt_is_Some_2 (fs_inodes fs) i) as [t Ht]; [by eapply Hra|]. rewrite Ht.
  apply of_inodes; [done|]. intros m Hm Em. apply Hn. by rewrite (Hinj _ _ _ E Em).
Qed.

Lemma frame_text l fs fs' n :
  fs_wf fs -> only_files l fs fs' -> n ∉ l -> forall t, fs_text fs n = Some t -> fs_text fs' n = Some t.
Proof.
  intros [_ Hinj] [] Hn t. unfold fs_text. rewrite of_names by done.
  destruct (fs_names fs !! n) as [i|] eqn:E; [|done]. cbn. intros Ht. apply of_inodes; [done|].
  intros m Hm Em. apply Hn. by rewrite (Hinj _ _ _ E Em).
Qed.

Lemma files_frame_mark l log fs fs' g wfd rd :
  (forall i, 0 <= i <= g -> bname i ∉ l /\ gzname i ∉ l) -> only_files l fs fs' -> fs_wf fs' ->
  files_inv log fs g wfd rd -> files_inv log fs' g wfd (mkReading (rd_file rd) (fs_text fs' mname)).
Proof.
  intros Hnot Ho Hwf' [Hwf Hg0 (w & Hw & Hwt & Hfd) Hh Hmk Hr].
  assert (forall i n t, 0 <= i <= g -> fs_names fs !! bname i = Some n -> fs_inodes fs !! n = Some t ->
          fs_names fs' !! bname i = Some n /\ fs_inodes fs' !! n = Some t) as Hkeep.
  { intros i n t Hi Hn Ht. destruct Ho. destruct (Hnot i Hi) as [Hb _]. split; [by rewrite of_names|].
    apply of_inodes; [done|]. intros m Hm Em. apply Hb. by rewrite (wf_inj _ Hwf _ _ _ Hn Em). }
  split; try done.
  - exists w. destruct (Hkeep g w (log g) ltac:(lia) Hw Hwt). auto.
  - intros i Hi. destruct (Hh i Hi) as [Ht|[Hn Ht]]; destruct (Hnot i ltac:(lia)) as [Hb Hz].
    + left. by eapply frame_text.
    + right. split; [by rewrite (of_names _ _ _ Ho)|]. by eapply frame_text.
  - intros i n E. destruct (Hr i n E) as (Hi & Ht & Ha & Hig). split_and!; [lia..| | |].
    + apply (of_inodes _ _ _ Ho); [done|]. intros m Hm Em. apply Ha in Em as ->.
      by destruct (Hnot i Hi).
    + intros a Ea. destruct (decide (a ∈ l)) as [Hin|Hout].
      * destruct (of_fresh _ _ _ Ho a n Hin Ea) as [(m & Hm & Em)|Hlen].
        -- apply Ha in Em as ->. by destruct (Hnot i Hi).
        -- apply lookup_lt_Some in Ht. lia.
      * rewrite (of_names _ _ _ Ho) in Ea by done. auto.
    + intros ->. destruct (Hkeep g n (log g) ltac:(lia) (Hig eq_refl) Ht). done.
Qed.

Lemma files_frame l log fs fs' g wfd rd :
  mname ∉ l -> (forall i, 0 <= i <= g -> bname i ∉ l /\ gzname i ∉ l) -> only_files l fs fs' -> fs_wf fs' ->
  files_inv log fs g wfd rd -> files_inv log fs' g wfd rd.
Proof.
  intros Hmnot Hnot Ho Hwf' Hinv. pose proof (files_frame_mark l log fs fs' g wfd rd Hnot Ho Hwf' Hinv) as Hinv'.
  rewrite (frame_text_eq l fs fs' mname (fi_wf _ _ _ _ _ Hinv) Ho Hmnot), (fi_mark _ _ _ _ _ Hinv) in Hinv'.
  by destruct rd.
Qed.

(** Writing at the end of the file in use. *)
Lemma files_append log fs g w data rd :
  index_ok g ->
  files_inv log fs g (Some w) rd ->
  let log' i := if decide (i = g) then log g ++ data else log i in
  files_inv log' (fs_set_inodes (alter (fun t => t ++ data) w (fs_inodes fs)) fs) g (Some w) rd /\
  extends g log g log'.
Proof.
  intros Hg [Hwf Hg0 (w' & Hw & Hwt & [|[= ->]]) Hh Hmk Hr] log'; [done|].
  assert (forall a n, fs_names fs !! a = Some n -> a <> bname g -> n <> w') as Hne.
  { intros a n Hn Ha ->. apply Ha. by apply (wf_inj _ Hwf _ _ _ Hn Hw). }
  assert (forall i, 0 <= i < g -> bname i <> bname g) as Hb.
  { unfold index_ok in Hg. intros i Hi E. apply bname_inj in E; [lia|done|unfold index_ok; lia..]. }
  assert (forall i a, 0 <= i < g -> (a = bname i \/ a = gzname i) -> a <> bname g) as Hb'.
  { unfold index_ok in Hg. intros i a Hi [-> | ->]; [by apply Hb|].
    intros E. symmetry in E. apply bname_gzname in E; [done|done|unfold index_ok; lia]. }
  assert (forall a, a <> bname g ->
    fs_text (fs_set_inodes (alter (fun t => t ++ data) w' (fs_inodes fs)) fs) a = fs_text fs a) as Htext.
  { intros a Ha. unfold fs_text. cbn [fs_set_inodes fs_inodes fs_names]. destruct (fs_names fs !! a) as [n|] eqn:E; [|done]. cbn [mbind option_bind].
    rewrite list_lookup_alter_ne; [done|]. intros <-. by apply (Hne a w'). }
  split; [split|split].
  - destruct Hwf as [Hra Hinj]. split; cbn [fs_set_inodes fs_inodes fs_names]; [|done]. intros n i. rewrite length_alter. apply Hra.
  - done.
  - exists w'. cbn [fs_set_inodes fs_inodes fs_names]. split_and!; [done| |auto]. rewrite list_lookup_alter_eq, Hwt. cbn [fmap option_fmap option_map].
    unfold log'. by rewrite decide_True.
  - intros i Hi. unfold log'. rewrite decide_False by lia. destruct (Hh i Hi) as [Ht|[Hn Ht]].
    + left. by rewrite Htext by (eapply Hb'; eauto).
    + right. split; [done|]. by rewrite Htext by (eapply Hb'; eauto).
  - rewrite Htext; [done|]. by apply (mname_not conf Hconf mname Hmname).
  - intros i n E. destruct (Hr i n E) as (Hi & Ht & Ha & Hig). split_and!; [lia..| |done|done].
    cbn [fs_set_inodes fs_inodes fs_names]. unfold log'. destruct (decide (i = g)) as [->|Hig'].
    + rewrite (Hig eq_refl) in Hw. injection Hw as ->. rewrite list_lookup_alter_eq, Ht. done.
    + rewrite list_lookup_alter_ne; [done|]. intros <-. apply Ha in Hw. by apply (Hb i); [lia|].
  - lia.
  - intros i Hi. unfold log'. by rewrite decide_False by lia.
  - exists data. unfold log'. by rewrite decide_True.
Qed.

(** The next file, created anew. *)
Lemma files_next log fs g wfd rd :
  index_ok (g + 1) -> fs_names fs !! bname (g + 1) = None ->
  files_inv log fs g wfd rd ->
  let log' i := if decide (i = g + 1) then [] else log i in
  files_inv log' (fs_create (bname (g + 1)) [] fs) (g + 1) (Some (length (fs_inodes fs))) rd /\
  extends g log (g + 1) log'.
Proof.
  intros Hg Hnone [Hwf Hg0 (w & Hw & Hwt & _) Hh Hmk Hr] log'.
  assert (forall i, 0 <= i <= g -> bname i <> bname (g + 1) /\ gzname i <> bname (g + 1)) as Hb.
  { unfold index_ok in Hg. intros i Hi. split; intros E.
    - apply bname_inj in E; [lia|done|unfold index_ok; lia..].
    - symmetry in E. apply bname_gzname in E; [done|done|unfold index_ok; lia]. }
  assert (forall a, a <> bname (g + 1) ->
    fs_text (fs_create (bname (g + 1)) [] fs) a = fs_text fs a) as Htext.
  { intros a Ha. unfold fs_text. cbn. rewrite lookup_insert_ne by done.
    destruct (fs_names fs !! a) as [n|] eqn:E; [|done]. cbn.
    rewrite lookup_app_l; [done|by eapply (wf_range _ Hwf)]. }
  split; [split|split].
  - by apply wf_create.
  - lia.
  - exists (length (fs_inodes fs)). cbn. rewrite lookup_insert_eq, lookup_app_r, Nat.sub_diag by lia.
    unfold log'. rewrite decide_True by done. auto.
  - intros i Hi. unfold log'. rewrite decide_False by lia. destruct (decide (i = g)) as [->|].
    + left. rewrite Htext by (by apply Hb; lia). unfold fs_text. by rewrite Hw.
    + destruct (Hh i ltac:(lia)) as [Ht|[Hn Ht]].
      * left. by rewrite Htext by (by apply Hb; lia).
      * right. split; [|by rewrite Htext by (by apply Hb; lia)].
        cbn. rewrite lookup_insert_ne; [done|]. intros E. destruct (Hb i ltac:(lia)). done.
  - rewrite Htext; [done|]. by apply (mname_not conf Hconf mname Hmname).
  - intros i n E. destruct (Hr i n E) as (Hi & Ht & Ha & Hig). assert (n < length (fs_inodes fs))%nat by (by eapply lookup_lt_Some).
    split_and!; [lia..| | |lia].
    + cbn. rewrite lookup_app_l by done. unfold log'. by rewrite decide_False by lia.
    + intros a. cbn. rewrite lookup_insert_Some. intros [[_ Hn]|[_ Hn]]; [lia|auto].
  - lia.
  - intros i Hi. unfold log'. by rewrite decide_False by lia.
  - exists []. unfold log'. by rewrite decide_False, app_nil_r by lia.
Qed.

(** Compressing or uncompressing a file that is not in use. *)
Lemma files_recode i log fs fs' g wfd rd :
  index_ok g -> 0 <= i < g -> only_files [bname i; gzname i] fs fs' -> fresh_names fs fs' -> fs_wf fs' ->
  (forall n t, fs_inodes fs !! n = Some t -> fs_inodes fs' !! n = Some t) -> holds fs' i (log i) ->
  files_inv log fs g wfd rd -> files_inv log fs' g wfd rd.
Proof.
  intros Hg Hi Ho Hf Hwf' Hk Hhi [Hwf Hg0 (w & Hw & Hwt & Hfd) Hh Hmk Hr].
  assert (forall j, 0 <= j <= g -> j <> i -> bname j ∉ [bname i; gzname i] /\ gzname j ∉ [bname i; gzname i]) as Hnot.
  { unfold index_ok in Hg. intros j Hj Hne. rewrite !not_elem_of_cons.
    assert (index_ok i /\ index_ok j) as [Hoi Hoj] by (unfold index_ok; lia).
    split_and!; try apply not_elem_of_nil; intros E.
    - by apply bname_inj in E.
    - by apply bname_gzname in E.
    - symmetry in E. by apply bname_gzname in E.
    - by apply gzname_inj in E. }
  assert (forall a t, a ∉ [bname i; gzname i] -> fs_text fs a = Some t -> fs_text fs' a = Some t) as Htext.
  { intros a t Ha Ht. by eapply frame_text. }
  split; try done.
  - exists w. destruct (Hnot g ltac:(lia) ltac:(lia)) as [Hb _].
    rewrite (of_names _ _ _ Ho) by done. auto.
  - intros j Hj. destruct (decide (j = i)) as [->|Hne]; [done|].
    destruct (Hnot j ltac:(lia) Hne) as [Hb Hz]. destruct (Hh j Hj) as [Ht|[Hn Ht]].
    + left. auto.
    + right. rewrite (of_names _ _ _ Ho) by done. auto.
  - rewrite <- Hmk. eapply frame_text_eq; [done|done|].
    assert (index_ok i) as Hoi by (unfold index_ok in *; lia).
    destruct (mname_not conf Hconf mname Hmname i Hoi). set_solver.
  - intros j n E. destruct (Hr j n E) as (Hj & Ht & Ha & Hig). split_and!; [lia..|by apply Hk| |].
    + intros a Ea. destruct (Hf a n Ea) as [?|?]; [auto|]. apply lookup_lt_Some in Ht. lia.
    + intros ->. destruct (Hnot g ltac:(lia) ltac:(lia)) as [Hb _].
      rewrite (of_names _ _ _ Ho) by done. auto.
Qed.

Lemma others_frame l g : index_ok g -> Forall (fun n => ~ log_name n) l ->
  mname ∉ l /\ forall i, 0 <= i <= g -> bname i ∉ l /\ gzname i ∉ l.
Proof.
  intros Hg Hl. rewrite Forall_forall in Hl. unfold index_ok in Hg. split.
  - intros Hin. apply (Hl _ Hin). by left.
  - intros i Hi. split; intros Hin; apply (Hl _ Hin); right; exists i; (split; [unfold index_ok; lia|auto]).
Qed.

(** An existing next file. *)
Lemma files_next_existing log fs g wfd rd n t :
  index_ok (g + 1) -> fs_names fs !! bname (g + 1) = Some n -> fs_inodes fs !! n = Some t ->
  files_inv log fs g wfd rd ->
  let log' i := if decide (i = g + 1) then t else log i in
  files_inv log' fs (g + 1) (Some n) rd /\ extends g log (g + 1) log'.
Proof.
  intros Hg Hn Ht [Hwf Hg0 (w & Hw & Hwt & _) Hh Hmk Hr] log'. split; [split|split]; [done|lia|..].
  - exists n. unfold log'. rewrite decide_True by done. auto.
  - intros i Hi. unfold log'. rewrite decide_False by lia. destruct (decide (i = g)) as [->|].
    + left. unfold fs_text. by rewrite Hw.
    + apply Hh. lia.
  - done.
  - intros i m E. destruct (Hr i m E) as (Hi & Hmt & Ha & _). split_and!; [lia..| |done|lia].
    unfold log'. by rewrite decide_False by lia.
  - lia.
  - intros i Hi. unfold log'. by rewrite decide_False by lia.
  - exists []. unfold log'. by rewrite decide_False, app_nil_r by lia.
Qed.

(** ** The operations of the server. *)
Definition log_inv (log : Z -> bytes) (s : SyncState) (rd : Reading) : Prop :=
  files_inv log (ss_fs s) (g_binlog_index s) (g_binlog_fd s) rd /\ 0 <= binlog_compress_index s.

(** From [s] the operation only extends the log, as long as the index of the
    file in use is an [int]. *)
Definition grows (s s' : SyncState) : Prop :=
  g_binlog_index s <= g_binlog_index s' /\
  forall log rd, g_binlog_index s' < 2 ^ 31 -> log_inv log s rd ->
    exists log', log_inv log' s' rd /\ extends (g_binlog_index s) log (g_binlog_index s') log'.

Definition keeps {A} (c : M SyncState A) (s : SyncState) : Prop := grows s (c s).2.

Lemma keeps_log_bind {A B} (c : M SyncState A) (k : A -> M SyncState B) s :
  keeps c s -> keeps (k (c s).1) (c s).2 -> keeps (bind c k) s.
Proof.
  unfold keeps, grows, bind. destruct (c s) as [a s1]. cbn [fst snd]. intros [Hg1 Hc] [Hg2 Hk].
  split; [lia|]. intros log rd Hok Hi.
  assert (0 <= g_binlog_index s) by (apply (fi_g _ _ _ _ _ (proj1 Hi))).
  destruct (Hc log rd ltac:(lia) Hi) as (log1 & Hi1 & He1).
  destruct (Hk log1 rd Hok Hi1) as (log2 & Hi2 & He2).
  exists log2. split; [done|]. by eapply extends_trans.
Qed.

(** Nothing the invariant speaks of changes. *)
Lemma keeps_same {A} (c : M SyncState A) s :
  ss_fs (c s).2 = ss_fs s -> g_binlog_index (c s).2 = g_binlog_index s -> g_binlog_fd (c s).2 = g_binlog_fd s ->
  (0 <= binlog_compress_index s -> 0 <= binlog_compress_index (c s).2) ->
  keeps c s.
Proof.
  intros Hf Hg Hw Hc. split; [lia|]. intros log rd _ [Hi Hci]. exists log. unfold log_inv in *. rewrite Hf, Hg, Hw.
  split; [auto|apply extends_refl].
Qed.

Lemma keeps_close s : keeps (modify (set_binlog_fd None)) s.
Proof.
  split; [cbn; lia|]. intros log rd _ [[Hwf Hg0 (w & ? & ? & _) Hh Hmk Hr] Hci]. exists log. split; [|apply extends_refl].
  split; [|done]. split; try done. exists w. auto.
Qed.

(** The operation leaves the log and the version of the writer as they are. *)
Definition frames {A} (c : M SyncState A) (s : SyncState) : Prop :=
  let s' := (c s).2 in
  g_binlog_index s' = g_binlog_index s /\ g_binlog_fd s' = g_binlog_fd s /\
  binlog_write_version s' = binlog_write_version s /\
  forall log rd, g_binlog_index s < 2 ^ 31 -> log_inv log s rd -> log_inv log s' rd.

Lemma keeps_of_frames {A} (c : M SyncState A) s : frames c s -> keeps c s.
Proof.
  intros (Hg & _ & _ & Hl). split; [lia|]. intros log rd Hb Hi. exists log. rewrite Hg in *.
  split; [by apply Hl|apply extends_refl].
Qed.

Lemma frames_bind {A B} (c : M SyncState A) (k : A -> M SyncState B) s :
  frames c s -> frames (k (c s).1) (c s).2 -> frames (bind c k) s.
Proof.
  unfold frames, bind. destruct (c s) as [a s1]. cbn [fst snd]. intros (Hg1 & Hf1 & Hv1 & Hl1) (Hg2 & Hf2 & Hv2 & Hl2).
  split_and!; [congruence..|]. intros log rd Hb Hi. apply Hl2; [lia|]. by apply Hl1.
Qed.

Lemma frames_same {A} (c : M SyncState A) s :
  ss_fs (c s).2 = ss_fs s -> g_binlog_index (c s).2 = g_binlog_index s -> g_binlog_fd (c s).2 = g_binlog_fd s ->
  binlog_write_version (c s).2 = binlog_write_version s ->
  (0 <= binlog_compress_index s -> 0 <= binlog_compress_index (c s).2) ->
  frames c s.
Proof.
  intros Hf Hg Hw Hv Hc. split_and!; [done..|]. intros log rd _ [Hi Hci]. unfold log_inv in *. rewrite Hf, Hg, Hw. auto.
Qed.

Lemma frames_ret {A} (a : A) s : frames (ret a) s.
Proof. by apply frames_same. Qed.

Lemma frames_gets {A} (f : SyncState -> A) s : frames (gets f) s.
Proof. by apply frames_same. Qed.

Lemma frames_sys {A} l (c : M FileSys A) s :
  (forall g, 0 <= g < 2 ^ 31 -> g = g_binlog_index s ->
     mname ∉ l /\ forall i, 0 <= i <= g -> bname i ∉ l /\ gzname i ∉ l) ->
  fs_only l c -> frames (sys c) s.
Proof.
  intros Hl Hc. unfold frames, sys, log_inv. pose proof (Hc (ss_fs s)) as Hs. destruct (c (ss_fs s)) as [a fs].
  cbn in *. split_and!; [done..|]. intros log rd Hg [Hi Hci]. split; [|done].
  destruct (Hs (fi_wf _ _ _ _ _ Hi)) as [Ho Hw]. pose proof (fi_g _ _ _ _ _ Hi).
  destruct (Hl _ ltac:(split; [done|lia]) eq_refl). by eapply files_frame.
Qed.

Lemma frames_sys_other {A} l (c : M FileSys A) s :
  Forall (fun n => ~ log_name n) l -> fs_only l c -> frames (sys c) s.
Proof.
  intros Hl Hc. eapply frames_sys; [|done]. intros g Hg _. apply others_frame; [unfold index_ok; lia|done].
Qed.

Lemma frames_sys_read {A} (c : M FileSys A) s : fs_only [] c -> frames (sys c) s.
Proof. apply frames_sys_other. constructor. Qed.

Lemma keeps_sys_read {A} (c : M FileSys A) s : fs_only [] c -> keeps (sys c) s.
Proof. intros. by apply keeps_of_frames, frames_sys_read. Qed.

Lemma keeps_log_ret {A} (a : A) s : keeps (ret a) s.
Proof. by apply keeps_same. Qed.

Lemma keeps_log_gets {A} (f : SyncState -> A) s : keeps (gets f) s.
Proof. by apply keeps_same. Qed.

Lemma keeps_log_if {A} (b : bool) (c d : M SyncState A) s : keeps c s -> keeps d s -> keeps (if b then c else d) s.
Proof. by destruct b. Qed.

Lemma frames_index_file i s : frames (write_to_binlog_index conf i) s.
Proof.
  unfold write_to_binlog_index. apply frames_bind; [apply frames_gets|]. cbn [gets fst snd].
  apply (frames_sys_other [index_filename conf]).
  - constructor; [|done]. by apply index_not_log.
  - apply only_rewrite. set_solver.
Qed.

Lemma next_name g : 0 <= g < 2 ^ 31 ->
  mname ∉ [bname (g + 1)] /\ forall i, 0 <= i <= g -> bname i ∉ [bname (g + 1)] /\ gzname i ∉ [bname (g + 1)].
Proof.
  intros Hg. split.
  { rewrite list_elem_of_singleton. apply (mname_not conf Hconf mname Hmname). unfold index_ok. lia. }
  intros i Hi. rewrite !list_elem_of_singleton. split; intros E.
  - apply bname_inj in E; [lia|done|unfold index_ok; lia..].
  - symmetry in E. apply bname_gzname in E; [done|done|unfold index_ok; lia].
Qed.

(** Opening the next file, after its old version is gone. *)
Lemma open_next_inv log s rd :
  0 <= g_binlog_index s < 2 ^ 31 -> log_inv log s rd -> g_binlog_fd s = None ->
  binlog_compress_index (sys (sys_open_append (bname (g_binlog_index s + 1))) s).2 = binlog_compress_index s /\
  let '(fd, s') := sys (sys_open_append (bname (g_binlog_index s + 1))) s in
  match fd with
  | inl _ => log_inv log s' rd /\ g_binlog_index s' = g_binlog_index s
  | inr n =>
      exists log', files_inv log' (ss_fs s') (g_binlog_index s + 1) (Some n) rd /\
        extends (g_binlog_index s) log (g_binlog_index s + 1) log'
  end.
Proof.
  intros Hg [Hi Hci] Hfd. unfold log_inv in *. rewrite Hfd in Hi.
  split; [unfold sys; by destruct (sys_open_append _ _)|]. unfold sys, sys_open_append, bind, ret, gets, modify.
  pose proof (only_fault [] (ss_fs s) (fi_wf _ _ _ _ _ Hi)) as Hf. destruct (sys_fault (ss_fs s)) as [f fs1].
  cbn in Hf. destruct Hf as [Ho Hwf].
  assert (files_inv log fs1 (g_binlog_index s) None rd) as Hi1.
  { eapply files_frame; [apply not_elem_of_nil| |done..]. intros i _. split; apply not_elem_of_nil. }
  case_decide; cbn [fst snd]; [split; [split; [cbn; by rewrite Hfd|done]|done]|].
  destruct (fs_names fs1 !! bname (g_binlog_index s + 1)) as [n|] eqn:En; cbn.
  - destruct (lookup_lt_is_Some_2 (fs_inodes fs1) n) as [t Ht]; [by eapply wf_range|].
    eexists. by eapply files_next_existing; [unfold index_ok; lia|..].
  - eexists. by eapply files_next; [unfold index_ok; lia|..].
Qed.

Lemma sys_globals {A} (c : M FileSys A) s :
  g_binlog_index (sys c s).2 = g_binlog_index s /\ g_binlog_fd (sys c s).2 = g_binlog_fd s.
Proof. unfold sys. by destruct (c (ss_fs s)). Qed.

(** A step of a proof that some operation keeps the log: its first call does. *)
Lemma keeps_sys_bind {A B} (c : M FileSys A) (k : A -> M SyncState B) s :
  keeps (sys c) s ->
  (forall a s1, g_binlog_index s1 = g_binlog_index s -> g_binlog_fd s1 = g_binlog_fd s -> keeps (k a) s1) ->
  keeps (bind (sys c) k) s.
Proof. intros Hc Hk. apply keeps_log_bind; [done|]. destruct (sys_globals c s). by apply Hk. Qed.

Lemma frames_sys_bind {A B} (c : M FileSys A) (k : A -> M SyncState B) s :
  frames (sys c) s -> (forall a s1, g_binlog_index s1 = g_binlog_index s -> frames (k a) s1) ->
  frames (bind (sys c) k) s.
Proof. intros Hc Hk. apply frames_bind; [done|]. destruct (sys_globals c s). by apply Hk. Qed.

Lemma keeps_open_next s :
  g_binlog_fd s = None ->
  keeps (let! fd := sys (sys_open_append (bname (g_binlog_index s + 1))) in
         match fd with
         | inl e => ret (errno_or e EACCES)
         | inr fd => modify (set_binlog_fd (Some fd)) ;; modify (set_binlog_index (g_binlog_index s + 1)) ;; ret 0
         end)%c s.
Proof.
  intros Hfd. pose proof (fun log rd => open_next_inv log s rd) as Hop. unfold keeps, bind at 1. destruct (sys_globals (sys_open_append (bname (g_binlog_index s + 1))) s) as [Hg _].
  destruct (sys (sys_open_append _) s) as [[e|n] s']; cbn in *.
  - split; [lia|]. intros log rd Hb Hi. exists log. pose proof (fi_g _ _ _ _ _ (proj1 Hi)).
    destruct (Hop log rd ltac:(lia) Hi Hfd) as (_ & Hi' & _). split; [done|]. rewrite Hg. apply extends_refl.
  - split; [cbn; lia|]. intros log rd Hb Hi. cbn in Hb. pose proof (fi_g _ _ _ _ _ (proj1 Hi)).
    destruct (Hop log rd ltac:(lia) Hi Hfd) as (Hci & log' & Hi' & He). exists log'.
    split; [|done]. split; [done|]. cbn. rewrite Hci. apply Hi.
Qed.

Lemma keeps_next s : keeps (open_next_writable_binlog conf) s.
Proof.
  unfold open_next_writable_binlog. apply keeps_log_bind; [apply keeps_close|].
  cbn [modify fst snd]. set (s0 := set_binlog_fd None s).
  apply keeps_log_bind; [apply keeps_log_gets|]. cbn [gets fst snd].
  change (get_writable_binlog_filename1 conf (g_binlog_index s0 + 1)) with (bname (g_binlog_index s0 + 1)).
  apply keeps_sys_bind; [apply keeps_sys_read, only_exists|]. intros exist s1 Hg1 Hf1.
  assert (forall s2 e, g_binlog_index s2 = g_binlog_index s0 -> g_binlog_fd s2 = None ->
    keeps (if decide (e <> 0) then ret e
           else let! fd := sys (sys_open_append (bname (g_binlog_index s0 + 1))) in
                match fd with
                | inl e => ret (errno_or e EACCES)
                | inr fd => modify (set_binlog_fd (Some fd)) ;; modify (set_binlog_index (g_binlog_index s0 + 1)) ;; ret 0
                end)%c s2) as Hrest.
  { intros s2 e Hg2 Hf2. case_decide; [apply keeps_log_ret|]. rewrite <- Hg2. by apply keeps_open_next. }
  destruct exist.
  - apply keeps_sys_bind.
    + eapply keeps_of_frames, frames_sys; [|apply only_unlink, list_elem_of_singleton; reflexivity].
      intros g Hg E. subst g. rewrite Hg1. apply next_name. by rewrite <- Hg1.
    + intros e s2 Hg2 Hf2. apply Hrest; [by rewrite Hg2|by rewrite Hf2].
  - apply keeps_log_bind; [apply keeps_log_ret|]. by apply Hrest.
Qed.

Lemma keeps_rotate s : keeps (rotate_binlog conf) s.
Proof.
  unfold rotate_binlog. apply keeps_log_bind; [apply keeps_log_gets|]. apply keeps_log_bind; [apply keeps_of_frames, frames_index_file|].
  apply keeps_log_bind; [case_decide; [apply keeps_next|apply keeps_log_ret]|].
  apply keeps_log_bind; [by apply keeps_same|]. apply keeps_log_bind; [|apply keeps_log_ret].
  case_decide; by apply keeps_same.
Qed.

(** A write through the descriptor of the writer. *)
Lemma keeps_append data s : keeps (sys (fc_safe_write (g_binlog_fd s) data)) s.
Proof.
  destruct (g_binlog_fd s) as [w|] eqn:Efd; [|by apply keeps_same].
  unfold keeps, grows, sys, fc_safe_write, bind, modify, ret.
  pose proof (sys_fault_spec (ss_fs s)) as Hf. destruct (sys_fault (ss_fs s)) as [[e n] fs1].
  destruct Hf as (Hn & Hi & _). cbn [fst snd set_ss_fs g_binlog_index ss_fs g_binlog_fd].
  set (written := if decide (e <> 0) then take n data else data).
  split; [lia|]. intros log rd Hg [Hinv Hci]. unfold log_inv in *.
  cbn [set_ss_fs g_binlog_index ss_fs g_binlog_fd binlog_compress_index].
  rewrite Efd in *. pose proof (fi_g _ _ _ _ _ Hinv).
  assert (files_inv log fs1 (g_binlog_index s) (Some w) rd) as Hinv1.
  { eapply (files_frame []); [apply not_elem_of_nil| |by apply only_same| |done].
    - intros i _. split; apply not_elem_of_nil.
    - apply (wf_same (ss_fs s)); [done..|]. apply (fi_wf _ _ _ _ _ Hinv). }
  destruct (files_append log fs1 (g_binlog_index s) w written rd) as [Hi' He]; [unfold index_ok; lia|done|].
  eexists. split; [split; [exact Hi'|done]|exact He].
Qed.

Lemma keeps_fsync s : keeps (storage_binlog_fsync conf) s.
Proof.
  unfold storage_binlog_fsync. apply keeps_log_bind; [apply keeps_log_gets|]. apply keeps_log_bind; [apply keeps_log_gets|].
  cbn [gets fst snd]. apply keeps_log_bind.
  - case_bool_decide; [apply keeps_log_ret|]. apply keeps_log_bind; [apply keeps_append|].
    case_decide; [apply keeps_log_ret|]. apply keeps_log_bind; [apply keeps_sys_read, only_fsync|].
    case_decide; [apply keeps_log_ret|]. apply keeps_log_bind; [apply keeps_log_gets|].
    apply keeps_log_bind; [by apply keeps_same|]. case_match; [apply keeps_rotate|apply keeps_log_ret].
  - apply keeps_log_bind; [by apply keeps_same|]. apply keeps_log_bind; [by apply keeps_same|]. apply keeps_log_ret.
Qed.

Lemma keeps_sync_func s : keeps (fdfs_binlog_sync_func conf) s.
Proof.
  unfold fdfs_binlog_sync_func. apply keeps_log_bind; [apply keeps_log_gets|].
  case_bool_decide; [apply keeps_log_ret|apply keeps_fsync].
Qed.

Lemma keeps_write ts op filename extra s : keeps (storage_binlog_write_ex conf ts op filename extra) s.
Proof.
  unfold storage_binlog_write_ex. apply keeps_log_bind; [by apply keeps_same|].
  apply keeps_log_bind; [apply keeps_log_gets|]. case_match; [apply keeps_fsync|apply keeps_log_ret].
Qed.

Lemma keeps_write_calls l s : keeps (write_calls conf l) s.
Proof.
  revert s. induction l as [|c l IH]; intros s; [apply keeps_log_ret|]. cbn [write_calls].
  apply keeps_log_bind; [|apply IH]. destruct c; [apply keeps_write|apply keeps_sync_func].
Qed.

(** *** Compressing. *)
Lemma frames_set_compress i s : 0 <= i -> frames (modify (set_binlog_compress_index i)) s.
Proof. intros Hi. by apply frames_same. Qed.

Lemma frames_in_progress flag s : frames (flag_in_progress flag) s.
Proof.
  unfold flag_in_progress. apply frames_bind; [apply frames_sys_read, only_stat|].
  apply frames_bind; [apply frames_gets|apply frames_ret].
Qed.

(** A command that recodes a file below the one in use. *)
Lemma frames_recode {A} i (c : M FileSys A) s :
  0 <= i < g_binlog_index s ->
  (forall log fs, fs_wf fs -> holds fs i (log i) ->
     let fs' := (c fs).2 in
     only_files [bname i; gzname i] fs fs' /\ fresh_names fs fs' /\ fs_wf fs' /\
     (forall n t, fs_inodes fs !! n = Some t -> fs_inodes fs' !! n = Some t) /\ holds fs' i (log i)) ->
  frames (sys c) s.
Proof.
  intros Hi Hc. unfold frames, sys, log_inv.
  pose proof (fun log => Hc log (ss_fs s)) as Hs. destruct (c (ss_fs s)) as [a fs]. cbn in *.
  split_and!; [done..|]. intros log rd Hg [Hinv Hci]. split; [|done].
  destruct (Hs log (fi_wf _ _ _ _ _ Hinv)) as (? & ? & ? & ? & ?); [by apply (fi_holds _ _ _ _ _ Hinv)|].
  eapply files_recode; [| |done..]; [unfold index_ok; lia|lia].
Qed.

Lemma same_holds fs fs' i t : same_files fs fs' -> holds fs i t -> holds fs' i t.
Proof. intros [Hn Hi]. unfold holds, fs_text. by rewrite Hn, Hi. Qed.

Lemma gzip_command_short i tail : index_ok i -> (length tail <= 20)%nat ->
  (length get_gzip_command_filename <= 60)%nat ->
  snprintf MAX_PATH_SIZE (get_gzip_command_filename ++ bs " " ++ bname i ++ tail) =
  get_gzip_command_filename ++ bs " " ++ bname i ++ tail.
Proof.
  intros Hi Ht Hz. apply snprintf_short. pose proof (bname_length conf Hconf i Hi).
  unfold MAX_PATH_SIZE. rewrite !length_app. simpl. lia.
Qed.

Context (Hgz : (length get_gzip_command_filename <= 60)%nat).

Lemma gzip_recodes i log fs :
  index_ok i -> fs_wf fs -> holds fs i (log i) ->
  let fs' := (getExecResult (snprintf MAX_PATH_SIZE (get_gzip_command_filename ++ bs " " ++ bname i ++ bs " 2>&1")) fs).2 in
  only_files [bname i; gzname i] fs fs' /\ fresh_names fs fs' /\ fs_wf fs' /\
  (forall n t, fs_inodes fs !! n = Some t -> fs_inodes fs' !! n = Some t) /\ holds fs' i (log i).
Proof.
  intros Hi Hwf Hh. rewrite gzip_command_short by (done || (simpl; lia)).
  pose proof (gzip_spec (bname i) fs (bname_plain conf Hconf i Hi)) as Hs.
  destruct (getExecResult _ fs) as [[r out] fs']. cbn. destruct Hs as (Ho & Hf & Hw & Hk & Ht & Hsame & _).
  split_and!; [done|done|auto|done|].
  destruct (fs_names fs !! gzname i) as [z|] eqn:Ez.
  { eapply same_holds; [|exact Hh]. apply Hsame. right. unfold gz_filename in Ez. by rewrite Ez. }
  destruct Hh as [Htext|[_ Htext]].
  - specialize (Ht _ Htext Ez). case_decide.
    + right. apply Ht.
    + left. apply Ht.
  - exfalso. unfold fs_text in Htext. by rewrite Ez in Htext.
Qed.

Lemma gunzip_recodes i log fs :
  index_ok i -> fs_wf fs -> holds fs i (log i) ->
  let fs' := (getExecResult (snprintf MAX_PATH_SIZE (get_gzip_command_filename ++ bs " -d " ++ gzname i ++ bs " 2>&1")) fs).2 in
  only_files [bname i; gzname i] fs fs' /\ fresh_names fs fs' /\ fs_wf fs' /\
  (forall n t, fs_inodes fs !! n = Some t -> fs_inodes fs' !! n = Some t) /\ holds fs' i (log i).
Proof.
  intros Hi Hwf Hh. unfold gz_filename at 1.
  rewrite snprintf_short.
  2:{ pose proof (bname_length conf Hconf i Hi). unfold MAX_PATH_SIZE. rewrite !length_app. simpl. lia. }
  rewrite <- (app_assoc (bname i)).
  pose proof (gunzip_spec (bname i) fs (bname_plain conf Hconf i Hi)) as Hs.
  destruct (getExecResult _ fs) as [[r out] fs']. cbn. destruct Hs as (Ho & Hf & Hw & Hk & Ht & Hsame & _).
  split_and!; [done|done|auto|done|].
  destruct Hh as [Htext|[Hn Htext]].
  - eapply same_holds; [|by left]. apply Hsame. right. unfold fs_text in Htext. by destruct (fs_names fs !! bname i).
  - destruct (Ht _ Htext Hn) as [Ht' _]. case_decide.
    + left. apply Ht'.
    + right. apply Ht'.
Qed.

Lemma frames_flagged flag_file flag command s :
  ~ log_name flag_file ->
  (forall s1, g_binlog_index s1 = g_binlog_index s -> frames (sys (getExecResult (snprintf MAX_PATH_SIZE command))) s1) ->
  frames (exec_flagged flag_file flag command) s.
Proof.
  intros Hflag Hc. unfold exec_flagged. apply frames_sys_bind.
  { apply (frames_sys_other [flag_file]); [by constructor|]. apply only_write_file. set_solver. }
  intros result s1 Hg1. case_decide; [apply frames_ret|].
  apply frames_sys_bind; [by apply Hc|]. intros out s2 _.
  apply frames_sys_bind; [|intros; apply frames_ret].
  apply (frames_sys_other [flag_file]); [by constructor|]. apply only_unlink. set_solver.
Qed.

(** The file in use is there, so it is not uncompressed. *)
Lemma frames_gunzip_current s :
  g_binlog_index s < 2 ^ 31 -> 0 <= g_binlog_index s ->
  frames (sys (getExecResult (snprintf MAX_PATH_SIZE (get_gzip_command_filename ++ bs " -d " ++ gzname (g_binlog_index s) ++ bs " 2>&1")))) s.
Proof.
  intros Hg Hg0. set (i := g_binlog_index s). assert (index_ok i) as Hi by (unfold index_ok; lia).
  unfold gz_filename. rewrite snprintf_short.
  2:{ pose proof (bname_length conf Hconf i Hi). unfold MAX_PATH_SIZE. rewrite !length_app. simpl. lia. }
  rewrite <- (app_assoc (bname i)).
  pose proof (gunzip_spec (bname i) (ss_fs s) (bname_plain conf Hconf i Hi)) as Hs.
  unfold frames, sys, log_inv. destruct (getExecResult _ (ss_fs s)) as [[r out] fs'].
  destruct Hs as (_ & _ & Hw & _ & _ & Hsame & _). cbn. split_and!; [done..|].
  intros log rd _ [Hinv Hci]. split; [|done].
  destruct (fi_current _ _ _ _ _ Hinv) as (w & Hw1 & _ & _). fold i in Hw1.
  destruct Hsame as [Hn Hino]; [right; by rewrite Hw1|].
  eapply (files_frame []); [apply not_elem_of_nil| |by apply only_same|apply Hw, (fi_wf _ _ _ _ _ Hinv)|done].
  intros j _. split; apply not_elem_of_nil.
Qed.

Section same_field.
Context {B} (f : SyncState -> B) (Hfs : forall fs s, f (set_ss_fs fs s) = f s)
  (Hci : forall i s, f (set_binlog_compress_index i s) = f s).

Ltac same_f := same; try (apply same_sys, Hfs); try (intros ?; apply Hci).

Lemma same_index_file i : same f (write_to_binlog_index conf i).
Proof. unfold write_to_binlog_index. same_f. Qed.

Lemma same_compress name : same f (compress_binlog_file name).
Proof. unfold compress_binlog_file, flag_in_progress, exec_flagged. same_f. Qed.

Lemma same_uncompress i name : same f (uncompress_binlog_file conf i name).
Proof. unfold uncompress_binlog_file, flag_in_progress, exec_flagged, write_to_binlog_index. same_f. Qed.

Lemma same_in_progress flag : same f (flag_in_progress flag).
Proof. unfold flag_in_progress. same_f. Qed.
End same_field.

(** So the bound on the index holds from the start. *)
Lemma frames_small {A} (c : M SyncState A) s :
  same g_binlog_index c -> same g_binlog_fd c -> same binlog_write_version c ->
  (g_binlog_index s < 2 ^ 31 -> frames c s) -> frames c s.
Proof.
  intros Hc Hf Hv Hk. split_and!; [apply Hc|apply Hf|apply Hv|]. intros log rd Hg Hi. by apply (Hk Hg).
Qed.

Lemma frames_compress i s : 0 <= i < g_binlog_index s -> frames (compress_binlog_file (bname i)) s.
Proof.
  intros Hi. apply frames_small; [apply same_compress; done..|]. intros Hg.
  assert (index_ok i) as Hok by (unfold index_ok; lia). pose proof (bname_length conf Hconf i Hok).
  unfold compress_binlog_file. apply frames_sys_bind; [apply frames_sys_read, only_exists|]. intros gz s1 Hg1.
  case_match; [apply frames_ret|]. apply frames_sys_bind; [apply frames_sys_read, only_access|]. intros e s2 Hg2.
  case_decide; [apply frames_ret|]. apply frames_bind; [apply frames_in_progress|].
  case_match; [apply frames_ret|]. apply frames_flagged.
  - apply flag_not_log; [done|done|lia].
  - intros s3 Hg3. apply (frames_recode i); [|intros log fs Hwf Hh; by apply gzip_recodes].
    rewrite Hg3, (same_in_progress g_binlog_index) by done. lia.
Qed.

Lemma frames_uncompress i s : 0 <= i <= g_binlog_index s -> frames (uncompress_binlog_file conf i (bname i)) s.
Proof.
  intros Hi. apply frames_small; [apply same_uncompress; done..|]. intros Hg.
  assert (index_ok i) as Hok by (unfold index_ok; lia). pose proof (bname_length conf Hconf i Hok).
  unfold uncompress_binlog_file. rewrite gzname_eq by done.
  apply frames_sys_bind; [apply frames_sys_read, only_access|]. intros e s1 Hg1.
  case_decide; [apply frames_ret|]. apply frames_bind; [apply frames_in_progress|].
  case_match; [apply frames_ret|].
  apply frames_bind.
  - apply frames_flagged; [apply flag_not_log; [done|done|lia]|]. intros s3 Hg3. rewrite (same_in_progress g_binlog_index), Hg1 in Hg3 by done.
    destruct (decide (i = g_binlog_index s)) as [->|Hne].
    + rewrite <- Hg3. apply frames_gunzip_current; lia.
    + apply (frames_recode i); [lia|]. intros log fs Hwf Hh. by apply gunzip_recodes.
  - case_decide; [apply frames_ret|]. apply frames_sys_bind; [apply frames_sys_read, only_exists|]. intros exist s3 Hg3.
    apply frames_bind; [apply frames_gets|]. cbn [gets fst snd]. apply frames_bind; [|apply frames_ret].
    case_match; [|apply frames_ret]. apply frames_bind; [apply frames_set_compress; lia|].
    apply frames_bind; [apply frames_gets|]. apply frames_bind; [apply frames_index_file|apply frames_ret].
Qed.

Lemma frames_compress_loop n i s :
  0 <= i -> i + Z.of_nat n <= g_binlog_index s -> frames (compress_loop conf n i) s.
Proof.
  revert i s. induction n as [|n IH]; intros i s Hi Hn; [apply frames_ret|]. cbn [compress_loop].
  apply frames_bind; [apply frames_compress; lia|]. case_decide; [|apply frames_ret].
  apply frames_bind; [apply frames_set_compress; lia|]. apply frames_bind; [apply frames_gets|].
  apply frames_bind; [apply frames_index_file|]. apply IH; [lia|]. cbn [gets modify fst snd].
  rewrite (same_index_file g_binlog_index) by done. cbn. rewrite (same_compress g_binlog_index) by done. lia.
Qed.

Lemma calc_le readers g : calc_compress_until_binlog_index readers g <= g.
Proof.
  unfold calc_compress_until_binlog_index. revert g. induction readers as [|r readers IH]; intros g; cbn; [lia|].
  etransitivity; [apply IH|]. case_match; lia.
Qed.

Lemma frames_compress_func readers s : 0 <= binlog_compress_index s -> frames (fdfs_binlog_compress_func conf readers) s.
Proof.
  intros Hci. unfold fdfs_binlog_compress_func. apply frames_bind; [apply frames_gets|].
  apply frames_bind; [apply frames_gets|]. cbn [gets fst snd]. case_match; [apply frames_ret|].
  pose proof (calc_le readers (g_binlog_index s)).
  destruct (Z.le_gt_cases (calc_compress_until_binlog_index readers (g_binlog_index s)) (binlog_compress_index s)).
  - replace (Z.to_nat _) with 0%nat by lia. apply frames_ret.
  - apply frames_compress_loop; lia.
Qed.

(** *** What a batch of writes does. *)
Lemma version_fsync s : binlog_write_version (storage_binlog_fsync conf s).2 = binlog_write_version s + 1.
Proof.
  unfold storage_binlog_fsync. rewrite !bind_snd. cbn [gets modify ret fst snd set_binlog_write_cache set_binlog_write_version binlog_write_version].
  f_equal. generalize (binlog_write_cache s) as cache. generalize (g_binlog_fd s) as fd. intros fd cache.
  match goal with |- binlog_write_version (?c s).2 = _ => assert (same binlog_write_version c) as Hc; [|apply Hc] end.
  unfold rotate_binlog, write_to_binlog_index, open_next_writable_binlog. same.
Qed.

Lemma same_compress_fsync : same binlog_compress_index (storage_binlog_fsync conf).
Proof. unfold storage_binlog_fsync, rotate_binlog, write_to_binlog_index, open_next_writable_binlog. same. Qed.

(** The files, the index and the descriptor are as before, or the version is higher. *)
Definition touched (s s' : SyncState) : Prop :=
  binlog_write_version s < binlog_write_version s' \/
  (binlog_write_version s' = binlog_write_version s /\ ss_fs s' = ss_fs s /\
   g_binlog_index s' = g_binlog_index s /\ g_binlog_fd s' = g_binlog_fd s).

Lemma touched_call c s : touched s (write_call conf c s).2.
Proof.
  destruct c as [ts op filename extra|]; cbn [write_call].
  - unfold storage_binlog_write_ex. rewrite !bind_snd. cbn [gets modify fst snd].
    case_match; [left; rewrite version_fsync; cbn; lia|by right].
  - unfold fdfs_binlog_sync_func. rewrite bind_snd. cbn [gets fst snd].
    case_bool_decide; [by right|left; rewrite version_fsync; lia].
Qed.

Lemma touched_calls l s : touched s (write_calls conf l s).2.
Proof.
  revert s. induction l as [|c l IH]; intros s; [by right|]. cbn [write_calls]. rewrite bind_snd.
  pose proof (touched_call c s) as [Hc|Hc]; destruct (IH (write_call conf c s).2) as [Hl|Hl]; unfold touched.
  - left. lia.
  - left. destruct Hl as (-> & _). lia.
  - left. destruct Hc as (E & _). lia.
  - right. destruct Hc as (? & ? & ? & ?), Hl as (? & ? & ? & ?). split_and!; congruence.
Qed.

Lemma same_compress_calls l : same binlog_compress_index (write_calls conf l).
Proof.
  induction l as [|c l IH]; [done|]. cbn [write_calls]. apply same_bind; [|done].
  destruct c; cbn [write_call].
  - unfold storage_binlog_write_ex. same. apply same_compress_fsync.
  - unfold fdfs_binlog_sync_func. same. apply same_compress_fsync.
Qed.

(** As long as no version was counted, the log is the same. *)
Lemma write_calls_log l log s rd :
  let s' := (write_calls conf l s).2 in
  g_binlog_index s' < 2 ^ 31 -> log_inv log s rd ->
  exists log', log_inv log' s' rd /\ extends (g_binlog_index s) log (g_binlog_index s') log' /\
    (binlog_write_version s < binlog_write_version s' \/
     (binlog_write_version s' = binlog_write_version s /\ log' = log)).
Proof.
  intros s' Hg Hi. destruct (touched_calls l s) as [Hv|(Hv & Hf & Hgi & Hfd)]; fold s' in Hv.
  - destruct (keeps_write_calls l s) as [_ Hk]. destruct (Hk log rd Hg Hi) as (log' & Hi' & He). exists log'. auto.
  - fold s' in Hf, Hgi, Hfd. exists log. split; [|split; [|by right]].
    + unfold log_inv in *. unfold s' in *. rewrite Hf, Hgi, Hfd, (same_compress_calls l s). done.
    + rewrite Hgi. apply extends_refl.
Qed.

(** ** A new start. *)
Lemma files_close log fs g wfd rd : files_inv log fs g wfd rd -> files_inv log fs g None rd.
Proof. intros [Hwf Hg (w & ? & ? & _) Hh Hmk Hr]. split; try done. exists w. auto. Qed.

Lemma files_like log fs fs' g wfd rd : same_files fs fs' -> files_inv log fs g wfd rd -> files_inv log fs' g wfd rd.
Proof.
  intros [Hn Hi] Hinv. eapply (files_frame []); [apply not_elem_of_nil| |by apply only_same| |done].
  - intros j _. split; apply not_elem_of_nil.
  - apply (wf_same fs); [done..|]. apply (fi_wf _ _ _ _ _ Hinv).
Qed.

Lemma make_dir_none path s :
  fs_faults (ss_fs s) = [] ->
  exists fs, make_dir path s = (0, set_ss_fs fs s) /\ same_files (ss_fs s) fs /\ fs_faults fs = [].
Proof.
  intros Hnf. unfold make_dir, sys, dirExists, gets, bind, ret. cbn.
  case_bool_decide; cbn; [exists (ss_fs s); by destruct s|].
  unfold sys_mkdir, bind. rewrite fault_none by done. cbn. by eexists.
Qed.

(** The index file names the file in use, or the next one when the last change
    of files stopped half way. *)
Definition index_intact (s : SyncState) (i c : Z) : Prop :=
  fs_text (ss_fs s) (index_filename conf) = Some (ini_text (index_items i c)) /\
  (i = g_binlog_index s \/ i = g_binlog_index s + 1) /\ 0 <= c < 2 ^ 31.

Definition dead (s : SyncState) : SyncState :=
  mkSync (ss_fs s) None 0 0 0 [] 1 true (g_current_time s).

Lemma fmt_ini_word n : ini_word (fmt_d n).
Proof. clear Hgz.
  split.
  - unfold fmt_d. case_match; [done|]. apply fmt_u_spec; lia.
  - unfold fmt_d. case_match.
    + constructor; [done|]. eapply Forall_impl; [apply fmt_u_chars; lia|]. intros c Hc. cbn in Hc.
      unfold ini_char. rewrite (proj2 (Z.leb_le 48 c)), (proj2 (Z.leb_le c 57)) by lia. done.
    + eapply Forall_impl; [apply fmt_u_chars; lia|]. intros c Hc. cbn in Hc.
      unfold ini_char. rewrite (proj2 (Z.leb_le 48 c)), (proj2 (Z.leb_le c 57)) by lia. done.
Qed.

Lemma atoi_fmt n : is_int32 n -> atoi (fmt_d n) = n.
Proof. clear Hgz. intros. rewrite <- (app_nil_r (fmt_d n)). apply atoi_fmt_d; [done|apply ends_number_nil]. Qed.

Lemma index_file_loads i c :
  index_ok i -> i < 2 ^ 31 -> 0 <= c < 2 ^ 31 ->
  exists ctx, iniLoadFromText (ini_text (index_items i c)) = inr ctx /\
    iniGetIntValue BINLOG_INDEX_ITEM_CURRENT_WRITE ctx 0 = i /\
    iniGetIntValue BINLOG_INDEX_ITEM_CURRENT_COMPRESS ctx 0 = c.
Proof.
  intros Hi Hi' Hc. unfold index_ok in Hi.
  destruct (ini_spec (index_items i c)) as (ctx & Hl & _ & Hget).
  - unfold index_items. cbn [fmap list_fmap fst]. repeat constructor; set_solver.
  - repeat constructor; try done; apply fmt_ini_word.
  - exists ctx. split; [done|]. split.
    + destruct (Hget BINLOG_INDEX_ITEM_CURRENT_WRITE (fmt_d i)) as [-> _]; [left|].
      apply atoi_fmt. unfold is_int32. lia.
    + destruct (Hget BINLOG_INDEX_ITEM_CURRENT_COMPRESS (fmt_d c)) as [-> _]; [right; left|].
      apply atoi_fmt. unfold is_int32. lia.
Qed.

Lemma sys_eq {A} (c : M FileSys A) s a fs : c (ss_fs s) = (a, fs) -> sys c s = (a, set_ss_fs fs s).
Proof. unfold sys. by intros ->. Qed.

Lemma set_ss_fs_id s : set_ss_fs (ss_fs s) s = s.
Proof. by destruct s. Qed.

Lemma read_index s i c :
  fs_faults (ss_fs s) = [] -> fs_text (ss_fs s) (index_filename conf) = Some (ini_text (index_items i c)) ->
  0 <= i < 2 ^ 31 -> 0 <= c < 2 ^ 31 ->
  get_binlog_index_from_file conf s = (0, set_binlog_compress_index c (set_binlog_index i s)).
Proof.
  intros Hnf Ht Hi Hc. unfold get_binlog_index_from_file, bind.
  rewrite (sys_eq _ _ _ _ (access_none _ Hnf _)), set_ss_fs_id.
  assert (exists n, fs_names (ss_fs s) !! index_filename conf = Some n) as [n En].
  { unfold fs_text in Ht. destruct (fs_names _ !! _); [by eexists|done]. }
  rewrite En, decide_False by done. rewrite (sys_eq _ _ _ _ (ini_none _ Hnf _)), set_ss_fs_id, Ht.
  destruct (index_file_loads i c) as (ctx & -> & Hi' & Hc'); [unfold index_ok; lia|lia|done|].
  unfold modify, ret. by rewrite Hi', Hc'.
Qed.

(** Opening the file that the index file names. *)
Lemma open_index_inv log fs g i wfd rd :
  fs_faults fs = [] -> 0 <= i < 2 ^ 31 -> (i = g \/ i = g + 1) -> files_inv log fs g wfd rd -> rd_file rd = None ->
  exists w fs', sys_open_append (bname i) fs = (inr w, fs') /\ fs_faults fs' = [] /\
    exists log', files_inv log' fs' i (Some w) rd /\ extends g log i log'.
Proof.
  intros Hnf Hi31 Hi Hinv Hrd. rewrite open_append_none by done. pose proof (fi_g _ _ _ _ _ Hinv) as Hg0.
  destruct Hi as [-> | ->].
  - destruct (fi_current _ _ _ _ _ Hinv) as (w & Hw & Hwt & _). rewrite Hw. exists w, fs. split_and!; [done..|].
    exists log. split; [|apply extends_refl]. destruct Hinv. split; try done. exists w. auto.
  - destruct (fs_names fs !! bname (g + 1)) as [n|] eqn:En.
    + destruct (lookup_lt_is_Some_2 (fs_inodes fs) n) as [t Ht].
      { apply (wf_range _ (fi_wf _ _ _ _ _ Hinv) _ _ En). }
      exists n, fs. split_and!; [done..|]. eexists.
      by eapply files_next_existing; [unfold index_ok; lia|..].
    + eexists _, _. split_and!; [done..|]. eexists. by eapply files_next; [unfold index_ok; lia|..].
Qed.

(** The server starts again on the files it left: no record is lost but those
    in the cache. *)
Lemma storage_sync_init_inv log s i c rd :
  fs_faults (ss_fs s) = [] -> index_intact s i c -> 0 <= i < 2 ^ 31 ->
  log_inv log s rd -> rd_file rd = None ->
  exists s', storage_sync_init conf (dead s) = (0, s') /\ g_binlog_index s' = i /\ fs_faults (ss_fs s') = [] /\
    binlog_write_version s' = 1 /\
    exists log', log_inv log' s' rd /\ extends (g_binlog_index s) log i log'.
Proof.
  intros Hnf (Ht & Hi & Hc) Hi31 [Hinv Hci] Hrd. unfold storage_sync_init.
  destruct (make_dir_none (snprintf MAX_PATH_SIZE (g_fdfs_base_path conf ++ bs "/data")) (dead s) Hnf) as (fs1 & E1 & Hs1 & Hn1).
  unfold bind at 1. rewrite E1, (decide_False (P := 0 <> 0)) by lia.
  destruct (make_dir_none (snprintf MAX_PATH_SIZE (sync_path conf)) (set_ss_fs fs1 (dead s)) Hn1) as (fs2 & E2 & Hs2 & Hn2).
  unfold bind at 1. rewrite E2, (decide_False (P := 0 <> 0)) by lia. cbn [ss_fs set_ss_fs] in Hs2.
  unfold bind at 1, modify at 1. unfold bind at 1.
  assert (same_files (ss_fs s) fs2) as Hsame by (destruct Hs1, Hs2; split; cbn in *; congruence).
  rewrite (read_index _ i c); [|exact Hn2| |lia|lia].
  2:{ destruct Hsame as [Hn Hino]. unfold fs_text in *. cbn. by rewrite Hn, Hino. }
  rewrite (decide_False (P := 0 <> 0)) by lia. unfold bind at 1, gets at 1.
  assert (files_inv log fs2 (g_binlog_index s) None rd) as Hinv2.
  { eapply files_like; [exact Hsame|]. by eapply files_close. }
  destruct (open_index_inv log fs2 (g_binlog_index s) i None rd Hn2 Hi31 Hi Hinv2 Hrd) as (w & fs3 & E3 & Hn3 & log' & Hinv3 & He).
  unfold bind at 1.
  match goal with |- context [sys (sys_open_append (get_writable_binlog_filename conf ?s3))] =>
    change (get_writable_binlog_filename conf s3) with (bname i) end.
  match goal with |- context [sys (sys_open_append (bname i)) ?s3] => rewrite (sys_eq _ s3 _ _ E3) end.
  unfold bind, modify, ret.
  match goal with |- context [sys (sys_seek_end w) ?s4] => rewrite (sys_eq _ s4 _ _ (seek_end_none fs3 Hn3 w)) end.
  eexists. split; [done|]. split; [done|]. split; [done|]. split; [done|]. exists log'. split; [split; [done|cbn; lia]|done].
Qed.
End inv.
