(* ===== verification/SyncPlace.v ===== *)
(** * Lines, places and the steps of a reader (proofs).

    A place in the log is a position with every complete line before it dealt
    with: for each line there is an entry of the history with a reason that
    fits it.  [wp] specifies an operation from a state on, where the log may
    grow while it runs. *)

From S2P Require Import Prelude FastCommon TrunkShared TrunkBinlog TrackerTypes FileSys SyncBinlog SyncReader Net SyncPeer SyncFiles.

(** ** Lines. *)

(** A complete line [l] of a text begins at [x]. *)
Definition line_at (t : bytes) (x : nat) (l : bytes) : Prop :=
  (x = 0%nat \/ t !! (x - 1)%nat = Some 10) /\ upto 10 (drop x t) = Some l.

Definition ends_line (t : bytes) : Prop := t = [] \/ last t = Some 10.

Lemma upto_spec s l : upto 10 s = Some l -> exists body rest, 10 ∉ body /\ l = body ++ [10] /\ s = l ++ rest.
Proof.
  revert l. induction s as [|c s IH]; intros l; [done|]. cbn [upto]. case_decide.
  - intros [= <-]. exists [], s. subst. set_solver.
  - destruct (upto 10 s) as [l'|]; [|done]. intros [= <-]. destruct (IH l' eq_refl) as (body & rest & Hn & -> & ->).
    exists (c :: body), rest. split; [|done]. set_solver.
Qed.

Lemma upto_none s : upto 10 s = None -> 10 ∉ s.
Proof.
  induction s as [|c s IH]; [set_solver|]. cbn [upto]. case_decide; [done|].
  destruct (upto 10 s); [done|]. intros _. specialize (IH eq_refl). set_solver.
Qed.

Lemma upto_in s : 10 ∈ s -> exists l, upto 10 s = Some l.
Proof. destruct (upto 10 s) eqn:E; [by eexists|]. by apply upto_none in E. Qed.

(** A line that begins in a text of whole lines ends in it. *)
Lemma line_at_prefix t t2 x l : ends_line t -> (x < length t)%nat -> line_at (t ++ t2) x l -> line_at t x l.
Proof.
  intros Ht Hlt [Hx Hu]. split.
  - destruct Hx as [?|Hx]; [by left|right]. rewrite lookup_app_l in Hx by lia. done.
  - rewrite drop_app_le in Hu by lia. destruct Ht as [->|Ht]; [simpl in Hlt; lia|].
    destruct (upto_in (drop x t)) as [l1 E].
    { apply last_Some in Ht as [t0 ->]. rewrite length_app in Hlt. simpl in Hlt.
      rewrite drop_app_le by lia. set_solver. }
    rewrite E. rewrite (upto_app _ _ _ E) in Hu. done.
Qed.

(** Behind whole lines another line begins. *)
Lemma line_at_app t l x l' :
  ends_line t -> upto 10 l = Some l -> line_at (t ++ l) x l' ->
  (line_at t x l' \/ (x = length t /\ l' = l)).
Proof.
  intros Ht Hl Hline. destruct (upto_spec _ _ Hl) as (body & rest & Hb & El & _). subst l.
  destruct (lt_eq_lt_dec x (length t)) as [[Hlt|Heq]|Hgt]; [left; by eapply line_at_prefix|..].
  all: destruct Hline as [Hx Hu].
  - right. split; [done|]. rewrite drop_app_length' in Hu by done. rewrite Hl in Hu. by injection Hu.
  - exfalso. destruct Hx as [->|Hx]; [lia|]. rewrite lookup_app_r in Hx by lia.
    assert (x - 1 - length t = length body)%nat as E.
    { rewrite lookup_app in Hx. destruct (body !! _) as [c|] eqn:Ec.
      - injection Hx as ->. apply list_elem_of_lookup_2 in Ec. done.
      - apply lookup_ge_None in Ec. apply lookup_lt_Some in Hx. simpl in Hx. lia. }
    rewrite drop_ge in Hu; [done|]. rewrite !length_app. simpl. lia.
Qed.

Lemma ends_line_app t l : upto 10 l = Some l -> ends_line (t ++ l).
Proof.
  intros Hl. destruct (upto_spec _ _ Hl) as (body & rest & _ & E & _). right.
  rewrite E, app_assoc. apply last_snoc.
Qed.

(** ** What was done with the lines. *)
Definition blank_record : StorageBinLogRecord := mkSyncRecord 0 0 [] [] [] 0 0 0 0.

Section lines.
Context `{FastCommon} (conf : SyncConf).

(** The change is with the peer, or the peer does not get it from this server. *)
Definition done_for_peer (result : option Z) : Prop := result = Some 0 \/ result = None.

(** What [h] tells is a reason to go past the line. *)
Definition fits (h : Handled) (line : bytes) : Prop :=
  let '(e, rec) := parse_sync_record conf line blank_record in
  match h with
  | Sent v r p => e = 0 /\ p_record p = rec /\ done_for_peer (sync_to_peer v r p).1
  | BeforeStart until => e = 0 /\ bl_timestamp rec < until
  | Invalid => e = EINVAL
  end.

(** A record that is read whole does not depend on what the record held before. *)
Lemma split_filename_error paths name len e : storage_split_filename_ex paths name len = inl e -> e = EINVAL.
Proof. unfold storage_split_filename_ex, SPLIT_FILENAME_BODY. repeat case_match; congruence. Qed.

Lemma parse_blank line rec :
  (parse_sync_record conf line rec).1 = (parse_sync_record conf line blank_record).1 /\
  ((parse_sync_record conf line rec).1 = 0 -> parse_sync_record conf line rec = parse_sync_record conf line blank_record).
Proof.
  unfold parse_sync_record. destruct (splitEx 32 3 (cstr line)) as [|c0 [|c1 [|c2 l]]]; try (split; [done|discriminate]).
  case_match; [split; [done|discriminate]|].
  match goal with |- context [if has_src_filename ?op then ?a else ?b] =>
    destruct (if has_src_filename op then a else b) as [filename src] end.
  destruct (storage_split_filename_ex _ filename _) as [e|[[a b] c]] eqn:E; [|done].
  apply split_filename_error in E as ->. split; [done|discriminate].
Qed.

Lemma parse_error line rec : (parse_sync_record conf line rec).1 <> 0 -> (parse_sync_record conf line rec).1 = EINVAL.
Proof.
  unfold parse_sync_record. destruct (splitEx 32 3 (cstr line)) as [|c0 [|c1 [|c2 l]]]; try done.
  case_match; [done|].
  match goal with |- context [if has_src_filename ?op then ?a else ?b] =>
    destruct (if has_src_filename op then a else b) as [filename src] end.
  destruct (storage_split_filename_ex _ filename _) as [e|[[a b] c]] eqn:E; [|done].
  by apply split_filename_error in E as ->.
Qed.

(** ** Positions. *)
Context (past_records : list (Z * Z * Handled)).

(** Every complete line of the text of file [j] was dealt with. *)
Definition dealt (j : Z) (t : bytes) : Prop :=
  forall x l, line_at t x l -> exists h, (j, Z.of_nat x, h) ∈ past_records /\ fits h l.

(** Everything before offset [o] of file [i] was dealt with. *)
Record place (log : Z -> bytes) (i o : Z) : Prop := {
  pl_index : 0 <= i;
  pl_offset : 0 <= o <= Z.of_nat (length (log i));
  pl_start : ends_line (take (Z.to_nat o) (log i));
  pl_before : forall j, 0 <= j < i -> dealt j (log j);
  pl_here : dealt i (take (Z.to_nat o) (log i));
}.

Lemma dealt_nil j : dealt j [].
Proof. intros x l [_ Hu]. by rewrite drop_nil in Hu. Qed.

Lemma dealt_app j t l h :
  ends_line t -> upto 10 l = Some l -> dealt j t -> (j, Z.of_nat (length t), h) ∈ past_records -> fits h l -> dealt j (t ++ l).
Proof.
  intros Ht Hl Hd Hin Hf x l' Hx. apply line_at_app in Hx as [Hx|[-> ->]]; [by apply Hd|by exists h|done..].
Qed.

Lemma place_extends g log g' log' i o : i <= g -> extends g log g' log' -> place log i o -> place log' i o.
Proof.
  intros Hi [Hg Hold [d Hd]] [Hi0 Ho Hs Hb Hh].
  assert (log' i = log i \/ exists d, log' i = log i ++ d) as Hlog.
  { destruct (decide (i = g)) as [->|]; [right; by exists d|left; apply Hold; lia]. }
  assert (take (Z.to_nat o) (log' i) = take (Z.to_nat o) (log i) /\ Z.of_nat (length (log i)) <= Z.of_nat (length (log' i))) as [Et El].
  { destruct Hlog as [->|[d' ->]]; [done|]. rewrite take_app_le, length_app by lia. split; [done|lia]. }
  split; [done|lia|by rewrite Et| |by rewrite Et].
  intros j Hj. rewrite Hold by lia. by apply Hb.
Qed.

(** The next line. *)
Lemma place_line log i o l h :
  place log i o -> (exists rest, drop (Z.to_nat o) (log i) = l ++ rest) -> upto 10 l = Some l ->
  (i, o, h) ∈ past_records -> fits h l -> place log i (o + Z.of_nat (length l)).
Proof.
  intros [Hi Ho Hs Hb Hh] [rest Hrest] Hl Hin Hf.
  assert (take (Z.to_nat (o + Z.of_nat (length l))) (log i) = take (Z.to_nat o) (log i) ++ l) as Et.
  { replace (Z.to_nat (o + Z.of_nat (length l))) with (Z.to_nat o + length l)%nat by lia.
    rewrite <- (take_drop (Z.to_nat o) (log i)) at 1. rewrite Hrest.
    rewrite take_app_add' by (rewrite length_take; lia). by rewrite take_app_length. }
  assert (Z.of_nat (length (log i)) = o + Z.of_nat (length l) + Z.of_nat (length rest)) as El.
  { apply (f_equal length) in Hrest. rewrite length_drop, length_app in Hrest. lia. }
  split; [done|lia|rewrite Et; by apply ends_line_app|done|]. rewrite Et. eapply dealt_app; try done.
  rewrite length_take. by replace (Z.of_nat (Z.to_nat o `min` length (log i))) with o by lia.
Qed.

(** The next file, when this one is read to its end. *)
Lemma place_next log i : place log i (Z.of_nat (length (log i))) -> place log (i + 1) 0.
Proof.
  intros [Hi Ho Hs Hb Hh]. rewrite Nat2Z.id, take_ge in Hh by lia. split; [lia|lia|by left| |apply dealt_nil].
  intros j Hj. destruct (decide (j = i)) as [->|]; [done|apply Hb; lia].
Qed.

Lemma place_zero log : place log 0 0.
Proof. split; [lia|lia|by left|lia|apply dealt_nil]. Qed.
End lines.

Lemma dealt_sub `{FastCommon} conf H1 H2 j t : H1 ⊆ H2 -> dealt conf H1 j t -> dealt conf H2 j t.
Proof. intros Hs Hd x l Hl. destruct (Hd x l Hl) as (h & Hin & Hf). exists h. auto. Qed.

Lemma place_sub `{FastCommon} conf H1 H2 log i o : H1 ⊆ H2 -> place conf H1 log i o -> place conf H2 log i o.
Proof. intros Hs []. split; try done; [intros j Hj|]; eapply dealt_sub; eauto. Qed.

(** ** The reader and the log. *)
Definition gidx (w : SyncWorld) : Z := g_binlog_index (w_sync w).
Definition version (w : SyncWorld) : Z := binlog_write_version (w_sync w).

(** The open file of a reader. *)
Definition file_of (r : StorageBinLogReader) : option (Z * nat) := pair (sr_binlog_index r) <$> sr_binlog_fd r.

(** *** Specifications of operations.  The index of the file in use never
    falls; [wp] speaks of an operation during which it stays the same, so that
    no rotation falls into it. *)
Section wp.
Context {S : Type} (wd : S -> SyncWorld).

Definition mono {A} (c : M S A) : Prop := forall s, gidx (wd s) <= gidx (wd (c s).2).

Lemma mono_bind {A B} (c : M S A) (k : A -> M S B) : mono c -> (forall a, mono (k a)) -> mono (bind c k).
Proof.
  intros Hc Hk s. unfold bind. specialize (Hc s). destruct (c s) as [a s']. specialize (Hk a s'). cbn in *. lia.
Qed.

Lemma mono_ret {A} (a : A) : mono (ret a).
Proof. intros s. apply Z.le_refl. Qed.

Lemma mono_gets {A} (f : S -> A) : mono (gets f).
Proof. intros s. apply Z.le_refl. Qed.

Definition wp {A} (log : Z -> bytes) (s : S) (c : M S A) (Q : A -> (Z -> bytes) -> S -> Prop) : Prop :=
  gidx (wd s) < 2 ^ 31 -> gidx (wd (c s).2) = gidx (wd s) ->
  exists log', extends (gidx (wd s)) log (gidx (wd s)) log' /\ Q (c s).1 log' (c s).2.

Lemma logwp_ret {A} log s (a : A) Q : Q a log s -> wp log s (ret a) Q.
Proof. intros HQ _ _. exists log. split; [apply extends_refl|done]. Qed.

Lemma logwp_gets {A} log s (f : S -> A) Q : Q (f s) log s -> wp log s (gets f) Q.
Proof. intros HQ _ _. exists log. split; [apply extends_refl|done]. Qed.

Lemma logwp_modify log s f Q : Q tt log (f s) -> wp log s (modify f) Q.
Proof. intros HQ _ _. exists log. split; [apply extends_refl|done]. Qed.

Lemma logwp_bind {A B} log s (c : M S A) (k : A -> M S B) Q :
  mono c -> (forall a, mono (k a)) -> wp log s c (fun a log' s' => wp log' s' (k a) Q) -> wp log s (bind c k) Q.
Proof.
  intros Hmc Hmk Hc Hg. unfold bind. specialize (Hmc s). unfold wp in Hc. destruct (c s) as [a s1]. cbn [fst snd] in *.
  intros E. pose proof (Hmk a s1) as Hm. assert (gidx (wd s1) = gidx (wd s)) as E1 by lia.
  destruct (Hc Hg E1) as (log1 & He1 & Hk). rewrite E1 in Hk. destruct (Hk Hg E) as (log2 & He2 & HQ).
  exists log2. split; [|done]. destruct He1 as [_ Ho1 [d1 Hd1]], He2 as [_ Ho2 [d2 Hd2]]. split; [lia| |].
  - intros i Hi. rewrite Ho2, Ho1; done.
  - exists (d1 ++ d2). by rewrite Hd2, Hd1, app_assoc.
Qed.

Lemma wp_conseq {A} log s (c : M S A) (Q Q' : A -> (Z -> bytes) -> S -> Prop) :
  wp log s c Q -> (forall a log' s', Q a log' s' -> Q' a log' s') -> wp log s c Q'.
Proof. intros Hc HQ Hg E. destruct (Hc Hg E) as (log' & He & Hq). exists log'. auto. Qed.

Lemma wp_small {A} log s (c : M S A) Q : (gidx (wd s) < 2 ^ 31 -> wp log s c Q) -> wp log s c Q.
Proof. intros Hc Hg. by apply Hc. Qed.
End wp.

Abbreviation rmono := (mono (fun w : SyncWorld => w)).
Abbreviation rwp := (wp (fun w : SyncWorld => w)).

Lemma mono_srv {A} (c : M SyncState A) : same g_binlog_index c -> rmono (srv c).
Proof. intros Hc w. unfold srv, gidx. specialize (Hc (w_sync w)). destruct (c (w_sync w)). cbn in *. lia. Qed.

Lemma mono_world f : (forall w, gidx (f w) = gidx w) -> rmono (modify f).
Proof. intros Hf w. cbn. rewrite Hf. lia. Qed.

(** Proves that an operation never lets the index fall. *)
Ltac mono :=
  cbv zeta;
  repeat match goal with
    | |- mono _ (bind _ _) => apply mono_bind; [|intros ?]
    | |- mono _ (ret _) => apply mono_ret
    | |- mono _ (gets _) => apply mono_gets
    | |- mono _ (rget _) => apply mono_gets
    | |- mono _ (sget _) => apply mono_gets
    | |- mono _ (modify _) => apply mono_world; reflexivity
    | |- mono _ (rset _) => apply mono_world; reflexivity
    | |- mono _ (past _) => apply mono_world; reflexivity
    | |- mono _ (srv (sys _)) => apply mono_srv, same_sys; reflexivity
    | |- mono _ (srv (modify _)) => apply mono_srv; intros ?; reflexivity
    | |- mono _ (if _ then _ else _) => case_match
    | |- mono _ (match _ with _ => _ end) => case_match
    | |- _ => solve [eauto with mono]
    end.

Create HintDb mono discriminated.
