(* ===== verification/SyncReading.v ===== *)
(** * The reader and the log (proofs).

    [viewing] relates the buffer and the open file of a reader to the log, and
    [here] says that it is at a place.  Every operation of the reader is
    specified from them: a line read, a file left at its end, a mark written, a
    start from a mark file. *)

From S2P Require Import Prelude FastCommon TrunkShared TrunkBinlog TrackerTypes FileSys SyncBinlog SyncReader SyncFiles SyncPlace.

Section reader.
Context `{FastCommon, FastFilesLaws} (conf : SyncConf) (Hconf : conf_ok conf).
Context (mname : bytes) (Hmname : last mname = Some (ch "k")).

Abbreviation bname := (get_binlog_readable_filename_ex conf).
Abbreviation log_inv := (log_inv conf mname).
Abbreviation place := (place conf).

Definition mark_of (w : SyncWorld) : option bytes := fs_text (ss_fs (w_sync w)) mname.

(** The mark file tells a place. *)
Definition mark_ok (log : Z -> bytes) (w : SyncWorld) : Prop :=
  forall t, mark_of w = Some t ->
    exists r, t = mark_text r /\ sr_binlog_index r <= gidx w /\
      place (w_history w) log (sr_binlog_index r) (sr_binlog_offset r).

(** What holds while the reader does not read. *)
Record based (log : Z -> bytes) (w : SyncWorld) : Prop := {
  b_log : log_inv log (w_sync w) (mkReading None (mark_of w));
  b_mark : mark_ok log w;
  b_version : 0 < version w;
}.

(** The reader is at a place. *)
Record here (log : Z -> bytes) (w : SyncWorld) : Prop := {
  h_based : based log w;
  h_name : sr_mark_filename (w_reader w) = mname;
  h_index : sr_binlog_index (w_reader w) <= gidx w;
  h_place : place (w_history w) log (sr_binlog_index (w_reader w)) (sr_binlog_offset (w_reader w));
}.

(** The line [pend] just read, the buffer and the rest of the file are what
    follows the place. *)
Definition in_view (pend : bytes) (log : Z -> bytes) (r : StorageBinLogReader) : Prop :=
  0 <= sr_pos r <= Z.of_nat (length (log (sr_binlog_index r))) /\
  pend ++ sr_buff r ++ drop (Z.to_nat (sr_pos r)) (log (sr_binlog_index r)) =
    drop (Z.to_nat (sr_binlog_offset r)) (log (sr_binlog_index r)).

(** No line is to be had, and the file has ended or the buffer is full. *)
Definition at_end (log : Z -> bytes) (r : StorageBinLogReader) : Prop :=
  sr_binlog_fd r <> None /\ 10 ∉ sr_buff r /\
  (sr_pos r = Z.of_nat (length (log (sr_binlog_index r))) \/ STORAGE_BINLOG_BUFFER_SIZE <= Z.of_nat (length (sr_buff r))).

Record viewing (pend : bytes) (log : Z -> bytes) (w : SyncWorld) : Prop := {
  v_here : here log w;
  v_file : log_inv log (w_sync w) (mkReading (file_of (w_reader w)) (mark_of w));
  v_closed : sr_binlog_fd (w_reader w) = None -> sr_buff (w_reader w) = [];
  v_view : sr_binlog_fd (w_reader w) <> None -> in_view pend log (w_reader w);
  v_version : sr_version (w_reader w) <= version w;
  v_eof : sr_version (w_reader w) = version w -> at_end log (w_reader w);
  v_pend : pend <> [] -> sr_binlog_fd (w_reader w) <> None /\ sr_version (w_reader w) < version w;
}.

Lemma log_inv_none log s f m : log_inv log s (mkReading f m) -> log_inv log s (mkReading None m).
Proof. intros [[] ?]. split; [|done]. by split. Qed.

Lemma mark_same log s w f : log_inv log s (mkReading f (mark_of w)) -> fs_text (ss_fs s) mname = mark_of w.
Proof. intros [[] _]. done. Qed.

(** The log grows while the reader rests. *)
Lemma based_grows log log' w s' f :
  log_inv log' s' (mkReading f (mark_of w)) -> binlog_write_version (w_sync w) <= binlog_write_version s' ->
  extends (gidx w) log (g_binlog_index s') log' -> based log w -> based log' (set_w_sync s' w).
Proof.
  intros Hl Hv He [_ Hm Hb]. pose proof (mark_same _ _ _ _ Hl) as Em. split.
  - unfold mark_of. cbn. rewrite Em. by eapply log_inv_none.
  - intros t Ht. unfold mark_of in Ht. cbn in Ht. rewrite Em in Ht. destruct (Hm t Ht) as (r0 & E0 & Hi & Hp).
    exists r0. split; [done|]. split; [destruct He; unfold gidx in *; cbn; lia|]. by eapply place_extends.
  - unfold version in *. cbn. lia.
Qed.

Lemma here_grows log log' w s' f :
  log_inv log' s' (mkReading f (mark_of w)) -> binlog_write_version (w_sync w) <= binlog_write_version s' ->
  extends (gidx w) log (g_binlog_index s') log' -> here log w -> here log' (set_w_sync s' w).
Proof.
  intros Hl Hv He [Hb Hn Hi Hp]. split; [by eapply based_grows|done| |by eapply place_extends].
  destruct He. unfold gidx in *. cbn. lia.
Qed.

Lemma viewing_grows pend log log' w s' :
  log_inv log' s' (mkReading (file_of (w_reader w)) (mark_of w)) ->
  binlog_write_version (w_sync w) < binlog_write_version s' \/
    (binlog_write_version s' = binlog_write_version (w_sync w) /\ log' = log) ->
  extends (gidx w) log (g_binlog_index s') log' -> viewing pend log w -> viewing pend log' (set_w_sync s' w).
Proof.
  intros Hl Hv He [Hh Hf Hcl Hvw Hver Heof Hpe]. set (r := w_reader w) in *.
  assert (exists d, log' (sr_binlog_index r) = log (sr_binlog_index r) ++ d) as [d Hd].
  { destruct (decide (sr_binlog_index r = gidx w)) as [->|Hne]; [apply He|]. exists [].
    rewrite app_nil_r. apply He. pose proof (h_index _ _ Hh) as Hi. pose proof (pl_index _ _ _ _ _ (h_place _ _ Hh)) as Hi0.
    fold r in Hi, Hi0. lia. }
  pose proof (pl_offset _ _ _ _ _ (h_place _ _ Hh)) as Ho. fold r in Ho.
  split; cbn [set_w_sync w_reader w_sync]; fold r; unfold version in *.
  - eapply here_grows; [exact Hl|lia|done|done].
  - unfold mark_of. cbn. by rewrite (mark_same _ _ _ _ Hl).
  - done.
  - intros Hfd. destruct (Hvw Hfd) as [Hpos E]. unfold in_view. rewrite Hd, length_app. split; [lia|].
    rewrite !drop_app_le by lia. rewrite <- E, <- !app_assoc. done.
  - cbn. lia.
  - cbn. intros E. destruct Hv as [Hv|[Hv ->]]; [lia|]. apply Heof. lia.
  - intros Hne. destruct (Hpe Hne). split; [done|]. cbn. lia.
Qed.

(** *** Changes of the reader. *)
Lemma here_reader log w r :
  here log w -> sr_mark_filename r = sr_mark_filename (w_reader w) -> sr_binlog_index r = sr_binlog_index (w_reader w) ->
  sr_binlog_offset r = sr_binlog_offset (w_reader w) -> here log (set_w_reader r w).
Proof.
  intros [[Hl Hm Hb] Hn Hi Hp] E1 E2 E3. split; [by split|..]; cbn [w_reader set_w_reader]; rewrite ?E1, ?E2, ?E3; done.
Qed.

(** Fields that have nothing to do with the position. *)
Definition other_fields (r r' : StorageBinLogReader) : Prop :=
  sr_mark_filename r = sr_mark_filename r' /\ sr_binlog_index r = sr_binlog_index r' /\
  sr_binlog_offset r = sr_binlog_offset r' /\ sr_binlog_fd r = sr_binlog_fd r' /\ sr_buff r = sr_buff r' /\
  sr_pos r = sr_pos r' /\ sr_version r = sr_version r'.

Lemma viewing_reader pend log w r : viewing pend log w -> other_fields r (w_reader w) -> viewing pend log (set_w_reader r w).
Proof.
  intros [Hh Hf Hcl Hvw Hver Heof Hpe] (E1 & E2 & E3 & E4 & E5 & E6 & E7).
  split; [by apply here_reader|..]; unfold file_of, in_view, at_end, version in *; cbn [w_reader w_sync set_w_reader];
    rewrite ?E1, ?E2, ?E3, ?E4, ?E5, ?E6, ?E7; done.
Qed.

(** *** Calls of the server that leave the log as it is. *)
Definition stable (P : (Z -> bytes) -> SyncWorld -> Prop) : Prop :=
  forall log w s', P log w -> g_binlog_index s' = gidx w -> binlog_write_version s' = version w ->
    (forall rd, log_inv log (w_sync w) rd -> log_inv log s' rd) -> P log (set_w_sync s' w).

Lemma stable_based : stable based.
Proof.
  intros log w s' HP Hg Hv Hl. eapply based_grows; [apply Hl, HP|unfold version in *; lia| |done].
  rewrite Hg. apply extends_refl.
Qed.

Lemma stable_here : stable here.
Proof.
  intros log w s' HP Hg Hv Hl. eapply here_grows; [apply Hl, HP|unfold version in *; lia| |done].
  rewrite Hg. apply extends_refl.
Qed.

Lemma stable_viewing pend : stable (viewing pend).
Proof.
  intros log w s' HP Hg Hv Hl. eapply viewing_grows; [apply Hl, HP|right; done| |done].
  rewrite Hg. apply extends_refl.
Qed.

Lemma wp_srv {A} P log w (c : M SyncState A) Q :
  stable P -> frames conf mname c (w_sync w) -> P log w ->
  (P log (set_w_sync (c (w_sync w)).2 w) -> Q (c (w_sync w)).1 log (set_w_sync (c (w_sync w)).2 w)) ->
  rwp log w (srv c) Q.
Proof.
  intros Hst (Hg & _ & Hv & Hl) HP HQ. intros Hb _. exists log. split; [apply extends_refl|].
  unfold srv. destruct (c (w_sync w)) as [a s'] eqn:E. cbn [fst snd] in *. apply HQ. apply Hst; try done.
  intros rd Hrd. by apply Hl.
Qed.

(** *** The index never falls. *)
Context (Hgz : (length get_gzip_command_filename <= 60)%nat).
Lemma mono_interrupt : rmono (interrupt conf).
Proof.
  intros w. unfold interrupt. destruct (w_schedule w) as [|l rest]; [apply Z.le_refl|].
  unfold bind, srv, modify, gidx. pose proof (keeps_write_calls conf Hconf mname Hmname l (w_sync w)) as [Hg _].
  destruct (write_calls conf l (w_sync w)). done.
Qed.
#[local] Hint Resolve mono_interrupt : mono.

Lemma mono_preread : rmono (storage_binlog_preread conf).
Proof. unfold storage_binlog_preread. mono. Qed.
#[local] Hint Resolve mono_preread : mono.

Lemma mono_read_line n : rmono (storage_binlog_read_line conf n).
Proof. unfold storage_binlog_read_line, line_read_step. mono. Qed.
#[local] Hint Resolve mono_read_line : mono.

Lemma mono_uncompress i name : rmono (srv (uncompress_binlog_file conf i name)).
Proof. apply mono_srv, same_uncompress; done. Qed.
#[local] Hint Resolve mono_uncompress : mono.

Lemma mono_open f : rmono (storage_open_readable_binlog conf f).
Proof. unfold storage_open_readable_binlog. mono. Qed.
#[local] Hint Resolve mono_open : mono.

Lemma mono_write_mark : rmono storage_write_to_mark_file.
Proof. unfold storage_write_to_mark_file. mono. Qed.
#[local] Hint Resolve mono_write_mark : mono.

Lemma mono_rewind : rmono rewind_to_prev_rec_end.
Proof. unfold rewind_to_prev_rec_end. mono. Qed.
#[local] Hint Resolve mono_rewind : mono.

Lemma mono_next_line n : rmono (next_line conf n).
Proof. induction n as [|n IH]; cbn [next_line]; mono. Qed.
#[local] Hint Resolve mono_next_line : mono.

Lemma mono_read rec : rmono (storage_binlog_read conf rec).
Proof. unfold storage_binlog_read. mono. Qed.
#[local] Hint Resolve mono_read : mono.

Lemma mono_skip_loop n rec : rmono (skip_loop conf n rec).
Proof. revert rec. induction n as [|n IH]; intros rec; cbn [skip_loop]; mono; apply IH. Qed.
#[local] Hint Resolve mono_skip_loop : mono.

Lemma mono_sync_init_loop e l : rmono (sync_init_loop e l).
Proof. revert e. induction l as [|[] l IH]; intros e; cbn [sync_init_loop]; mono; apply IH. Qed.
#[local] Hint Resolve mono_sync_init_loop : mono.

Lemma mono_sync_init_req : rmono storage_reader_sync_init_req.
Proof. unfold storage_reader_sync_init_req. mono. Qed.
#[local] Hint Resolve mono_sync_init_req : mono.

Lemma mono_init storage rec : rmono (storage_reader_init conf storage rec).
Proof.
  unfold storage_reader_init, find_mark_file, init_from_mark, load_mark, storage_binlog_reader_skip.
  mono.
Qed.
#[local] Hint Resolve mono_init : mono.

(** *** Reading. *)

(** The writes of other threads. *)
Lemma wp_interrupt pend log w (Q : unit -> (Z -> bytes) -> SyncWorld -> Prop) :
  viewing pend log w ->
  (forall log' w', viewing pend log' w' -> w_reader w' = w_reader w -> gidx w' = gidx w ->
     extends (gidx w) log (gidx w) log' -> version w < version w' \/ (version w' = version w /\ log' = log) ->
     Q tt log' w') ->
  rwp log w (interrupt conf) Q.
Proof.
  intros Hv HQ Hb. unfold interrupt. destruct (w_schedule w) as [|l rest].
  - intros _. exists log. split; [apply extends_refl|]. apply HQ; [done..|apply extends_refl|by right].
  - unfold bind, srv, modify. pose proof (write_calls_log conf Hconf mname Hmname Hgz l log (w_sync w)
      (mkReading (file_of (w_reader w)) (mark_of w))) as Hw.
    destruct (write_calls conf l (w_sync w)) as [u s']. cbn [snd fst] in *. unfold gidx at 1. cbn. intros Eg.
    destruct Hw as (log' & Hl & He & Hver); [unfold gidx in *; lia|apply Hv|].
    assert (extends (gidx w) log (g_binlog_index s') log') as He' by exact He. rewrite Eg in He.
    exists log'. split; [exact He|].
    assert (viewing pend log' (set_w_sync s' w)) as Hv' by (eapply viewing_grows; [exact Hl|exact Hver|exact He'|done]).
    apply HQ; [|done|done|exact He|exact Hver].
    destruct Hv' as [[[] ] ]. repeat (split; try assumption).
Qed.

(** What a failed or empty read of a line leaves. *)
Definition file_read (log : Z -> bytes) (w : SyncWorld) : Prop :=
  sr_buff (w_reader w) = [] -> sr_binlog_offset (w_reader w) = Z.of_nat (length (log (sr_binlog_index (w_reader w)))).

Lemma errno_or_ne e d x : e <> x -> d <> x -> errno_or e d <> x.
Proof. unfold errno_or. by case_match. Qed.

(** At the end of the file the place is its end. *)
Lemma view_end log r o :
  in_view [] log r -> sr_buff r = [] -> Z.of_nat (length (log (sr_binlog_index r))) <= sr_pos r -> sr_binlog_offset r = o ->
  0 <= o <= Z.of_nat (length (log (sr_binlog_index r))) -> o = Z.of_nat (length (log (sr_binlog_index r))).
Proof.
  intros [Hp E] Hb Hpos <- Ho. rewrite Hb, (drop_ge _ (Z.to_nat (sr_pos r))) in E by lia.
  apply (f_equal length) in E. rewrite length_drop in E. cbn in E. lia.
Qed.

Lemma take_more {A} n p (t : list A) :
  take n (drop p t) ++ drop (p + length (take n (drop p t))) t = drop p t.
Proof.
  rewrite <- drop_drop. set (u := drop p t). rewrite length_take. destruct (le_lt_dec n (length u)).
  - by rewrite Nat.min_l, take_drop.
  - rewrite Nat.min_r, drop_all, app_nil_r, take_ge by lia. done.
Qed.

(** Reading more of the file into the buffer. *)
Lemma view_more log r n :
  in_view [] log r -> let data := take n (drop (Z.to_nat (sr_pos r)) (log (sr_binlog_index r))) in
  in_view [] log (set_sr_pos (sr_pos r + Z.of_nat (length data)) (set_sr_buff (sr_buff r ++ data) r)).
Proof.
  intros [Hp E] data. split; cbn.
  - assert (length data <= length (log (sr_binlog_index r)) - Z.to_nat (sr_pos r))%nat as Hl.
    { unfold data. rewrite length_take, length_drop. lia. }
    lia.
  - rewrite <- E. cbn [app]. rewrite <- app_assoc. f_equal.
    replace (Z.to_nat (sr_pos r + Z.of_nat (length data))) with (Z.to_nat (sr_pos r) + length data)%nat by lia.
    apply take_more.
Qed.

(** A look at the file that a reader has open. *)
Lemma open_text pend log w i n :
  viewing pend log w -> sr_binlog_fd (w_reader w) = Some n -> i = sr_binlog_index (w_reader w) ->
  fs_inodes (ss_fs (w_sync w)) !! n = Some (log i).
Proof.
  intros Hv Hfd ->. destruct (v_file _ _ _ Hv) as [Hi _].
  destruct (fi_reader _ _ _ _ _ _ _ Hi (sr_binlog_index (w_reader w)) n) as (_ & Ht & _); [|done].
  unfold file_of. by rewrite Hfd.
Qed.

Lemma read_cases fd pos n fs :
  match (fc_safe_read fd pos n fs).1 with
  | inl e => e <> ENOENT /\ e <> EINVAL
  | inr data => exists i, fd = Some i /\ data = take (Z.to_nat n) (drop (Z.to_nat pos) (default [] (fs_inodes fs !! i)))
  end.
Proof.
  destruct fd as [i|]; [|done]. unfold fc_safe_read, bind, ret, gets. pose proof (sys_fault_spec fs) as Hf.
  destruct (sys_fault fs) as [f fs']. destruct Hf as (_ & Hi & _). case_decide; cbn; [case_decide; [done|by split; intros E; auto]|].
  exists i. by rewrite Hi.
Qed.

(** The reader in the middle of a read of its file. *)
Lemma viewing_read log w v data :
  viewing [] log w -> 10 ∉ sr_buff (w_reader w) -> sr_binlog_fd (w_reader w) <> None -> v <= version w ->
  let r := w_reader w in
  data = take (Z.to_nat (STORAGE_BINLOG_BUFFER_SIZE - Z.of_nat (length (sr_buff r))))
           (drop (Z.to_nat (sr_pos r)) (log (sr_binlog_index r))) ->
  if decide (data = [])
  then viewing [] log (set_w_reader (set_sr_version v r) w) /\ file_read log w
  else viewing [] log (set_w_reader (set_sr_pos (sr_pos r + Z.of_nat (length data)) (set_sr_buff (sr_buff r ++ data) r)) w).
Proof.
  intros Hv Hno Hfd Hver r Edata. pose proof (v_view _ _ _ Hv Hfd) as Hview. fold r in Hview, Hfd.
  pose proof (pl_offset _ _ _ _ _ (h_place _ _ (v_here _ _ _ Hv))) as Ho. fold r in Ho.
  assert (data = [] -> sr_pos r = Z.of_nat (length (log (sr_binlog_index r))) \/
            STORAGE_BINLOG_BUFFER_SIZE <= Z.of_nat (length (sr_buff r))) as Hend.
  { intros ->. apply (f_equal length) in Edata. rewrite length_take, length_drop in Edata. cbn in Edata.
    destruct Hview. lia. }
  case_decide as Hd.
  - split.
    + destruct Hv as [Hh Hf Hcl Hvw Hvv Heof Hpe]. split; [by apply here_reader|exact Hf|done|done|done| |done].
      intros _. split_and!; auto.
    + intros Hb. fold r in Hb. eapply (view_end log r); [done|done| |done|done]. destruct (Hend Hd) as [Ep|Hfull]; [lia|].
      rewrite Hb in Hfull. done.
  - destruct Hv as [Hh Hf Hcl Hvw Hvv Heof Hpe]. split; [by apply here_reader|exact Hf|done| |done| |done].
    + intros _. rewrite Edata. by apply view_more.
    + intros E. destruct (Heof E) as (_ & _ & Hpos). fold r in Hpos. exfalso. apply Hd. rewrite Edata.
      destruct Hpos as [Ep|Hfull]; [rewrite drop_ge by lia; apply take_nil|].
      by replace (Z.to_nat (_ - _)) with 0%nat by lia.
Qed.

Lemma wp_preread log w :
  viewing [] log w -> 10 ∉ sr_buff (w_reader w) ->
  rwp log w (storage_binlog_preread conf) (fun res log' w' =>
    viewing [] log' w' /\ (res = ENOENT -> 10 ∉ sr_buff (w_reader w') /\ file_read log' w') /\
    (res = 0 -> sr_buff (w_reader w') <> []) /\ res <> EINVAL).
Proof.
  intros Hv Hno. unfold storage_binlog_preread. apply logwp_bind; [mono|intros; mono|]. apply logwp_gets.
  apply logwp_bind; [mono|intros; mono|]. apply logwp_gets. set (r := w_reader w). cbn [id].
  pose proof (pl_offset _ _ _ _ _ (h_place _ _ (v_here _ _ _ Hv))) as Ho. fold r in Ho.
  destruct ((sr_version r =? binlog_write_version (w_sync w)) && bool_decide (sr_buff r = [])) eqn:Eq.
  { apply andb_prop in Eq as [Ev%Z.eqb_eq Eb%bool_decide_eq_true]. apply logwp_ret. split; [done|]. split; [|done].
    intros _. split; [done|]. intros _. fold r. destruct (v_eof _ _ _ Hv Ev) as (Hfd & _ & Hpos). fold r in Hpos.
    eapply view_end; [by apply (v_view _ _ _ Hv)|done| |done|done].
    destruct Hpos as [->|Hfull]; [fold r; lia|]. rewrite Eb in Hfull. done. }
  apply logwp_bind; [mono|intros; mono|]. eapply wp_interrupt; [done|].
  intros log1 w1 Hv1 Er Eg He Hver. fold r in Er, Hno. clearbody r. subst r. set (r := w_reader w1) in *.
  assert (frames conf mname (sys (fc_safe_read (sr_binlog_fd r) (sr_pos r)
            (STORAGE_BINLOG_BUFFER_SIZE - Z.of_nat (length (sr_buff r))))) (w_sync w1)) as Hfr.
  { apply frames_sys_read; [done..|]. apply only_read. }
  apply logwp_bind; [mono|intros; mono|]. eapply (wp_srv (viewing [])); [apply stable_viewing|done|done|].
  pose proof (read_cases (sr_binlog_fd r) (sr_pos r) (STORAGE_BINLOG_BUFFER_SIZE - Z.of_nat (length (sr_buff r))) (ss_fs (w_sync w1))) as Hc.
  destruct Hfr as (Eg2 & _ & Ev2 & _). unfold sys in *.
  destruct (fc_safe_read _ _ _ (ss_fs (w_sync w1))) as [res fs2]. cbn [fst snd] in *.
  set (w2 := set_w_sync (set_ss_fs fs2 (w_sync w1)) w1). intros Hv2.
  assert (version w <= version w2) as Hvw by (unfold version in *; cbn in *; lia).
  assert (v_res : binlog_write_version (w_sync w) = version w) by done. rewrite v_res. clear v_res.
  destruct res as [e|data].
  { destruct Hc as [Hc1 Hc2]. apply logwp_ret. split; [done|]. split; [|split].
    - intros E. exfalso. revert E. by apply errno_or_ne.
    - intros E. exfalso. revert E. unfold errno_or. case_match; unfold EIO; lia.
    - by apply errno_or_ne. }
  destruct Hc as (i & Efd & Edata). assert (fs_inodes (ss_fs (w_sync w1)) !! i = Some (log1 (sr_binlog_index r))) as Ht.
  { by eapply open_text. }
  rewrite Ht in Edata. cbn [default] in Edata. unfold id in Edata.
  pose proof (viewing_read log1 w2 (version w) data Hv2) as Hread. 
  assert (sr_binlog_fd r <> None) as Hopen by (by rewrite Efd). specialize (Hread Hno Hopen Hvw Edata). case_decide as Hd.
  - rewrite Hd. destruct Hread as [Hr1 Hr2]. apply logwp_bind; [mono|intros; mono|]. apply logwp_modify. apply logwp_ret.
    split; [exact Hr1|]. split; [|done]. intros _. split; [done|]. exact Hr2.
  - destruct data as [|c data]; [done|]. apply logwp_bind; [mono|intros; mono|]. apply logwp_modify.
    apply logwp_bind; [mono|intros; mono|]. apply logwp_modify. apply logwp_ret. split; [exact Hread|]. split; [done|].
    split; [|done]. intros _. cbn. by destruct (sr_buff r).
Qed.

(** A line out of the buffer. *)
Lemma wp_line_read log w n :
  viewing [] log w ->
  rwp log w (line_read_step n) (fun rl log' w' =>
    if decide (rl.1 = 0) then viewing rl.2 log' w' /\ upto 10 rl.2 = Some rl.2
    else viewing [] log' w' /\ (rl.1 = ENOENT -> 10 ∉ sr_buff (w_reader w') /\ sr_buff (w_reader w') = sr_buff (w_reader w)) /\
      rl.1 <> EINVAL).
Proof.
  intros Hv. unfold line_read_step. apply logwp_bind; [mono|intros; mono|]. apply logwp_gets. set (r := w_reader w).
  assert (viewing [] log (set_w_reader (set_sr_buff (sr_buff r) r) w)) as Hsame by (by apply viewing_reader).
  unfold storage_binlog_do_line_read. case_bool_decide as Hb.
  { apply logwp_bind; [mono|intros; mono|]. apply logwp_modify, logwp_ret. cbn. split; [exact Hsame|]. fold r.
    split; [|done]. intros _. rewrite Hb. split; [apply not_elem_of_nil|done]. }
  destruct (upto 10 (sr_buff r)) as [line|] eqn:Eu.
  2:{ apply logwp_bind; [mono|intros; mono|]. apply logwp_modify, logwp_ret. cbn. split; [exact Hsame|]. fold r.
      split; [|done]. intros _. split; [by apply upto_none|done]. }
  destruct (n <=? Z.of_nat (length line)).
  { apply logwp_bind; [mono|intros; mono|]. apply logwp_modify, logwp_ret. cbn. split; [exact Hsame|]. split; discriminate. }
  apply logwp_bind; [mono|intros; mono|]. apply logwp_modify, logwp_ret. cbn [fst snd]. rewrite decide_True by done.
  destruct (upto_spec _ _ Eu) as (body & rest & Hbody & El & Erest).
  assert (upto 10 line = Some line) as Hline.
  { rewrite El at 1. rewrite <- (app_nil_r (body ++ [10])), upto_line by done. by rewrite El. }
  split; [|done]. destruct Hv as [Hh Hf Hcl Hvw Hver Heof Hpe]. fold r in Hcl, Hvw, Hver, Heof.
  assert (sr_binlog_fd r <> None) as Hfd by (intros E; by apply Hb, Hcl).
  assert (sr_version r < version w) as Hlt.
  { destruct (decide (sr_version r = version w)) as [E|]; [|lia]. destruct (Heof E) as (_ & Hno & _).
    rewrite Erest, El in Hno. set_solver. }
  rewrite Erest, drop_app_length. split; [by apply here_reader|exact Hf| | |exact Hver| |done].
  - intros E. by apply Hfd in E.
  - intros _. destruct (Hvw Hfd) as [Hp E]. split; [exact Hp|]. cbn. fold r. rewrite <- E, Erest. cbn [app]. by rewrite <- app_assoc.
  - intros E. cbn in E. change (sr_version r = version w) in E. lia.
Qed.

Lemma wp_read_line log w n :
  viewing [] log w ->
  rwp log w (storage_binlog_read_line conf n) (fun rl log' w' =>
    if decide (rl.1 = 0) then viewing rl.2 log' w' /\ upto 10 rl.2 = Some rl.2
    else viewing [] log' w' /\ (rl.1 = ENOENT -> 10 ∉ sr_buff (w_reader w') /\ file_read log' w') /\
      rl.1 <> EINVAL).
Proof.
  intros Hv. unfold storage_binlog_read_line. apply logwp_bind; [unfold line_read_step; mono|intros; unfold line_read_step; mono|].
  eapply wp_conseq; [by apply wp_line_read|]. intros [res line] log1 w1. cbn [fst snd]. case_decide as Hres.
  { intros [Hv1 Hl]. rewrite decide_True by (rewrite Hres; done). apply logwp_ret. cbn. by rewrite decide_True. }
  intros (Hv1 & Hno & Hinv1). case_decide as Hne.
  { apply logwp_ret. cbn. rewrite decide_False by done. split; [done|]. split; [|done]. intros E. by rewrite E in Hne. }
  apply logwp_bind; [mono|intros; unfold line_read_step; mono|]. assert (res = ENOENT) as -> by lia.
  destruct (Hno eq_refl) as [Hno1 _].
  eapply wp_conseq; [by apply wp_preread|]. intros res log2 w2 (Hv2 & He2 & Hd2 & Hi2). case_decide as Hr2.
  { apply logwp_ret. cbn. by rewrite decide_False. }
  eapply wp_conseq; [by apply wp_line_read|]. intros [res3 line3] log3 w3. cbn [fst snd]. case_decide; [done|].
  intros (Hv3 & Hno3 & Hinv3). split; [done|]. split; [|done]. intros E. destruct (Hno3 E) as [Hno4 Eb]. split; [done|].
  intros Eb'. rewrite Eb in Eb'. exfalso. apply Hd2; [lia|done].
Qed.

(** *** Opening a file. *)
Lemma open_read_names name fs :
  match (sys_open_read name fs).1 with
  | inl _ => True
  | inr n => fs_names (sys_open_read name fs).2 !! name = Some n
  end.
Proof.
  unfold sys_open_read, bind, ret, gets. destruct (sys_fault fs) as [f fs']. case_decide; cbn; [done|].
  by destruct (fs_names fs' !! name) eqn:E.
Qed.

Lemma open_file_inv log s m i n :
  log_inv log s (mkReading None m) -> 0 <= i <= g_binlog_index s -> g_binlog_index s < 2 ^ 31 ->
  fs_names (ss_fs s) !! bname i = Some n -> log_inv log s (mkReading (Some (i, n)) m).
Proof.
  intros [[Hwf Hg Hc Hh Hm _] Hci] Hi Hb Hn. split; [|done]. split; try done.
  intros j k [= <- <-]. split; [done|]. split; [|split; [|by intros ->]].
  - destruct (decide (i = g_binlog_index s)) as [->|Hne].
    + destruct Hc as (x & Hx & Ht & _). congruence.
    + destruct (Hh i ltac:(lia)) as [Ht|[Hnone _]]; [|congruence]. unfold fs_text in Ht. by rewrite Hn in Ht.
  - intros a Ha. by apply (wf_inj _ Hwf _ _ _ Ha Hn).
Qed.

(** A reader that has just opened its file. *)
Lemma viewing_opened log w fd pos :
  here log w -> sr_buff (w_reader w) = [] -> sr_version (w_reader w) = 0 ->
  match fd with
  | Some n => log_inv log (w_sync w) (mkReading (Some (sr_binlog_index (w_reader w), n)) (mark_of w)) /\
      pos = sr_binlog_offset (w_reader w)
  | None => True
  end ->
  viewing [] log (set_w_reader (set_sr_pos pos (set_sr_binlog_fd fd (w_reader w))) w).
Proof.
  intros Hh Hb Hv Hfd. pose proof Hh as [Hbase Hn Hi Hp]. set (r := w_reader w) in *.
  pose proof (pl_offset _ _ _ _ _ Hp) as Ho. pose proof (pl_index _ _ _ _ _ Hp) as Hi0.
  split; [by apply here_reader| |done| | | |done].
  - unfold file_of, mark_of. cbn. destruct fd as [n|]; [|apply Hbase].
    by destruct Hfd.
  - destruct fd as [n|]; [|done]. intros _. destruct Hfd as [_ ->]. split; cbn; [done|]. by rewrite Hb.
  - pose proof (b_version _ _ Hbase). unfold version in *. cbn. rewrite Hv. lia.
  - pose proof (b_version _ _ Hbase). unfold version in *. cbn. rewrite Hv. lia.
Qed.

Lemma viewing_failed log w :
  here log w -> sr_buff (w_reader w) = [] -> sr_version (w_reader w) = 0 ->
  viewing [] log (set_w_reader (set_sr_binlog_fd None (w_reader w)) w).
Proof.
  intros Hh Hb Hv. pose proof (viewing_opened log w None (sr_pos (w_reader w)) Hh Hb Hv I) as Hr.
  by destruct w as [s [] sch rep h].
Qed.

(** A file opened, but nothing known of the position in it. *)
Definition holding (n : nat) (log : Z -> bytes) (w : SyncWorld) : Prop :=
  here log w /\ log_inv log (w_sync w) (mkReading (Some (sr_binlog_index (w_reader w), n)) (mark_of w)).

Lemma stable_holding n : stable (holding n).
Proof.
  intros log w s' [HP Hf] Hg Hv Hl. split; [by apply stable_here|]. apply Hl in Hf. unfold mark_of. cbn.
  by rewrite (mark_same _ _ _ _ Hf).
Qed.

Lemma wp_open log w :
  here log w -> sr_buff (w_reader w) = [] -> sr_version (w_reader w) = 0 ->
  rwp log w (storage_open_readable_binlog conf (get_binlog_readable_filename conf)) (fun res log' w' =>
    viewing [] log' w' /\ sr_buff (w_reader w') = [] /\ sr_version (w_reader w') = 0).
Proof.
  intros Hh Hb Hv. apply wp_small. intros Hg. unfold storage_open_readable_binlog, get_binlog_readable_filename.
  apply logwp_bind; [mono|intros; mono|]. apply logwp_gets. set (r := w_reader w).
  assert (0 <= sr_binlog_index r <= gidx w) as Hidx.
  { split; [apply (pl_index _ _ _ _ _ (h_place _ _ Hh))|apply (h_index _ _ Hh)]. }
  apply logwp_bind; [mono|intros; mono|]. eapply (wp_srv here); [apply stable_here|by apply frames_sys_read, only_access|done|].
  intros Hh1. set (w1 := set_w_sync _ w) in *. set (e := (sys _ _).1). assert (gidx w1 = gidx w) as Eg1 by apply sys_globals.
  apply logwp_bind; [mono|intros; mono|]. apply logwp_gets. apply logwp_bind; [mono|intros; mono|].
  eapply (wp_conseq _ _ _ _ (fun _ log' w' => here log' w' /\ w_reader w' = r /\ gidx w' = gidx w)).
  { case_decide; [|by apply logwp_ret]. apply logwp_bind; [mono|intros; mono|].
    eapply (wp_srv here); [apply stable_here| |done|].
    - apply frames_uncompress; [done..|]. change (g_binlog_index (w_sync w1)) with (gidx w1). rewrite Eg1. exact Hidx.
    - intros Hh2. apply logwp_ret. split; [done|]. split; [done|]. rewrite <- Eg1. unfold gidx at 1. cbn [w_sync set_w_sync].
      by rewrite (same_uncompress conf g_binlog_index). }
  intros _ log2 w2 (Hh2 & Er2 & Eg2). apply logwp_bind; [mono|intros; mono|].
  eapply (wp_srv here); [apply stable_here|by apply frames_sys_read, only_open_read|done|]. intros Hh3.
  pose proof (open_read_names (bname (sr_binlog_index r)) (ss_fs (w_sync w2))) as Hname.
  pose proof (sys_globals (sys_open_read (bname (sr_binlog_index r))) (w_sync w2)) as [Eg3 _].
  destruct (sys_open_read _ _) as [fd fs3] eqn:Eop. rewrite (sys_eq _ _ _ _ Eop) in *. cbn [fst snd] in *.
  set (w3 := set_w_sync _ w2) in *. assert (w_reader w3 = r) as Er3 by done.
  assert (ss_fs (w_sync w3) = fs3) as Efs by done. assert (gidx w3 = gidx w) as Eg by (rewrite <- Eg2; done).
  clearbody w3. clear dependent w2 w1. fold r in Hb, Hv. clearbody r. subst r fs3.
  destruct fd as [err|n].
  { apply logwp_bind; [mono|intros; mono|]. apply logwp_modify, logwp_ret. split; [by apply viewing_failed|done]. }
  assert (holding n log2 w3) as Hhold.
  { split; [done|]. apply open_file_inv; [apply Hh3| |unfold gidx in *; lia|done]. unfold gidx in *. lia. }
  apply logwp_bind; [mono|intros; mono|]. apply logwp_modify. apply logwp_bind; [mono|intros; mono|]. apply logwp_modify.
  apply logwp_bind; [mono|intros; mono|]. apply logwp_gets. cbn [w_reader set_w_reader].
  pose proof (pl_offset _ _ _ _ _ (h_place _ _ Hh3)) as Ho.
  destruct (0 <? sr_binlog_offset (set_sr_pos 0 (set_sr_binlog_fd (Some n) (w_reader w3)))) eqn:E0; cbn in E0.
  2:{ apply logwp_ret. split; [|done].
      apply (viewing_opened log2 w3 (Some n) 0); [done..|]. destruct Hhold. split; [done|lia]. }
  apply logwp_bind; [mono|intros; mono|].
  set (w4 := set_w_reader _ _). assert (holding n log2 w4) as Hhold4.
  { destruct Hhold as [_ Hf]. split; [by apply (here_reader log2 w3)|exact Hf]. }
  eapply (wp_srv (holding n)); [apply stable_holding|apply frames_sys_read; [done..|apply only_fault]|done|]. intros [Hh5 Hf5].
  case_decide.
  - apply logwp_bind; [mono|intros; mono|]. apply logwp_modify, logwp_ret. split; [|done].
    by apply viewing_failed.
  - apply logwp_bind; [mono|intros; mono|]. apply logwp_modify, logwp_ret. split; [|done].
    set (w5 := set_w_sync _ w4) in *.
    pose proof (viewing_opened log2 w5 (Some n) (sr_binlog_offset (w_reader w3)) Hh5 Hb Hv (conj Hf5 eq_refl)) as Hv5.
    exact Hv5.
Qed.

(** *** The mark file. *)
Lemma tmp_not_log : ~ log_name conf mname (mname ++ bs ".tmp").
Proof. apply (not_log_name conf Hconf mname Hmname _ (ch "p")); [by rewrite last_app_bs|unfold ch; cbn; lia|done|done]. Qed.

Lemma mark_names i : index_ok i ->
  bname i ∉ [mname; mname ++ bs ".tmp"] /\ gz_filename conf i ∉ [mname; mname ++ bs ".tmp"].
Proof.
  intros Hi. destruct (mname_not conf Hconf mname Hmname i Hi) as [Hb Hz].
  pose proof tmp_not_log as Ht. unfold log_name in Ht. rewrite !not_elem_of_cons.
  split_and!; try apply not_elem_of_nil; try done; intros E; apply Ht; right; exists i; rewrite <- E; auto.
Qed.

Lemma mark_written log w :
  gidx w < 2 ^ 31 -> here log w ->
  let '(res, s') := sys (safeWriteToFile mname (mark_text (w_reader w))) (w_sync w) in
  g_binlog_index s' = gidx w /\ binlog_write_version s' = version w /\
  (forall f, log_inv log (w_sync w) (mkReading f (mark_of w)) -> log_inv log s' (mkReading f (mark_of (set_w_sync s' w)))) /\
  mark_ok log (set_w_sync s' w).
Proof.
  intros Hg Hh. pose proof Hh as [[Hl Hm _] _ Hi Hp]. unfold sys.
  pose proof (safeWriteToFile_spec mname (mark_text (w_reader w)) (ss_fs (w_sync w))) as Hs.
  destruct (safeWriteToFile _ _ (ss_fs (w_sync w))) as [res fs']. destruct Hs as (Ho & Hwf & _ & Ht & _).
  split; [done|]. split; [done|]. split.
  - intros f [Hf Hci]. split; [|done].
    eapply (files_frame_mark conf _ [mname; mname ++ bs ".tmp"]) in Hf; [exact Hf| |done|].
    + intros i Hi'. apply mark_names. unfold index_ok, gidx in *. lia.
    + apply Hwf. by destruct Hl as [[] _].
  - intros t Hmark. unfold mark_of in Hmark. cbn in Hmark. rewrite Ht in Hmark. case_decide.
    + injection Hmark as <-. by exists (w_reader w).
    + by apply Hm.
Qed.

Lemma here_marked log w s' :
  here log w -> g_binlog_index s' = gidx w -> binlog_write_version s' = version w ->
  log_inv log s' (mkReading None (mark_of (set_w_sync s' w))) -> mark_ok log (set_w_sync s' w) -> here log (set_w_sync s' w).
Proof.
  intros [[_ _ Hv] Hn Hi Hp] Hg Hver Hl Hm. split; [split|..]; try done.
  - unfold version in *. cbn. lia.
  - unfold gidx in *. cbn. lia.
Qed.

Lemma viewing_marked pend log w s' :
  viewing pend log w -> g_binlog_index s' = gidx w -> binlog_write_version s' = version w ->
  (forall f, log_inv log (w_sync w) (mkReading f (mark_of w)) -> log_inv log s' (mkReading f (mark_of (set_w_sync s' w)))) ->
  mark_ok log (set_w_sync s' w) -> viewing pend log (set_w_sync s' w).
Proof.
  intros [Hh Hf Hcl Hvw Hver Heof Hpe] Hg Hv Hl Hm.
  split; [apply here_marked; [done..|apply Hl, Hh|done]|by apply Hl|done|done|..]; unfold version in *; cbn; rewrite Hv; done.
Qed.

(** [P] is [here] or [viewing pend]. *)
Lemma wp_write_mark_in P log w :
  (P log w -> here log w) ->
  (forall s', P log w -> g_binlog_index s' = gidx w -> binlog_write_version s' = version w ->
     (forall f, log_inv log (w_sync w) (mkReading f (mark_of w)) -> log_inv log s' (mkReading f (mark_of (set_w_sync s' w)))) ->
     mark_ok log (set_w_sync s' w) -> P log (set_w_sync s' w)) ->
  (forall w' r, P log w' -> other_fields r (w_reader w') -> P log (set_w_reader r w')) ->
  P log w ->
  rwp log w storage_write_to_mark_file (fun _ log' w' => P log' w' /\ other_fields (w_reader w') (w_reader w)).
Proof.
  intros Hhere Hmark Hfields HP. apply wp_small. intros Hg. unfold storage_write_to_mark_file.
  apply logwp_bind; [mono|intros; mono|]. apply logwp_gets. cbn [id]. rewrite (h_name _ _ (Hhere HP)).
  pose proof (mark_written log w Hg (Hhere HP)) as Hs.
  apply logwp_bind; [mono|intros; mono|]. intros _ _. exists log. split; [apply extends_refl|].
  unfold srv. destruct (sys _ (w_sync w)) as [res s']. destruct Hs as (Hg' & Hv' & Hl' & Hm').
  cbn [fst snd]. pose proof (Hmark s' HP Hg' Hv' Hl' Hm') as HP'.
  apply logwp_bind; [mono|intros; mono|]. case_decide.
  - apply logwp_bind; [mono|intros; mono|]. apply logwp_modify. apply logwp_modify. apply logwp_ret. split; [|done].
    apply (Hfields (set_w_sync s' w) (set_sr_last_sync_rows _ (set_sr_last_scan_rows _ (w_reader w)))); done.
  - apply logwp_ret. apply logwp_ret. split; [exact HP'|done].
Qed.

Lemma wp_write_mark log w : here log w ->
  rwp log w storage_write_to_mark_file (fun _ log' w' => here log' w' /\ other_fields (w_reader w') (w_reader w)).
Proof.
  intros Hh. apply (wp_write_mark_in here); [done| | |done].
  - intros s' _ Hg Hv Hl Hm. apply here_marked; [done..|apply Hl, Hh|done].
  - intros w' r Hh' (E1 & E2 & E3 & _). by apply here_reader.
Qed.

Lemma wp_write_mark_view pend log w : viewing pend log w ->
  rwp log w storage_write_to_mark_file (fun _ log' w' => viewing pend log' w' /\ other_fields (w_reader w') (w_reader w)).
Proof.
  intros Hv. apply (wp_write_mark_in (viewing pend)); [apply v_here|intros s'; apply viewing_marked| |done].
  intros w' r Hv' Hr. by apply viewing_reader.
Qed.

(** *** Going back to the start of the line just read. *)
Lemma wp_rewind pend log w : viewing pend log w -> sr_version (w_reader w) < version w ->
  rwp log w rewind_to_prev_rec_end (fun res log' w' =>
    here log' w' /\ (res = 0 -> viewing [] log' w' /\ sr_buff (w_reader w') = [])).
Proof.
  intros Hv Hlt. unfold rewind_to_prev_rec_end. apply logwp_bind; [mono|intros; mono|]. apply logwp_gets. cbn [id].
  set (r := w_reader w). apply logwp_bind; [mono|intros; mono|].
  eapply (wp_srv (viewing pend)); [apply stable_viewing| |done|].
  { apply frames_sys_read; [done..|]. case_match; [apply only_fault|apply only_ret]. }
  intros Hv1. set (w1 := set_w_sync _ w) in *.
  assert (version w1 = version w) as Evw by (unfold version; cbn; by apply (same_sys binlog_write_version)).
  case_decide as Hf; [apply logwp_ret; split; [apply Hv1|done]|].
  apply logwp_bind; [mono|intros; mono|]. apply logwp_modify. apply logwp_bind; [mono|intros; mono|]. apply logwp_modify, logwp_ret.
  assert (w_reader w1 = r) as Er by done.
  set (r' := set_sr_buff [] (set_sr_pos (sr_binlog_offset r) r)).
  assert (viewing [] log (set_w_reader r' w1)) as Hv2.
  { destruct Hv1 as [Hh Hfile Hcl Hvw Hver Heof Hpe].
    pose proof (pl_offset _ _ _ _ _ (h_place _ _ Hh)) as Ho.
    split; [by apply here_reader|exact Hfile|done| |exact Hver| |done].
    - intros _. split; [exact Ho|done].
    - intros E. change (sr_version (w_reader w) = version w1) in E. lia. }
  split; [apply Hv2|]. intros _. by split.
Qed.

(** *** The next line of the log.  A file is left at its end, which cannot move
    any more: while the reader reads, no new file begins. *)
Lemma wp_next_line fuel log w :
  viewing [] log w ->
  rwp log w (next_line conf fuel) (fun rl log' w' =>
    if decide (rl.1 = 0) then viewing rl.2 log' w' /\ upto 10 rl.2 = Some rl.2
    else viewing [] log' w' /\ (rl.1 = ENOENT -> 10 ∉ sr_buff (w_reader w')) /\
      (rl.1 = EINVAL -> rl.2 = [] /\ sr_version (w_reader w') = 0)).
Proof.
  revert log w. induction fuel as [|fuel IH]; intros log w Hv; cbn [next_line].
  { apply logwp_ret. cbn. split; [done|]. split; discriminate. }
  apply logwp_bind; [mono|intros; mono|]. eapply wp_conseq; [by apply wp_read_line|].
  intros [res line] log1 w1. cbn [fst snd]. case_decide as Hres.
  { intros Hl. rewrite decide_True by (rewrite Hres; done). apply logwp_ret. cbn. by rewrite decide_True. }
  intros (Hv1 & Hend & Hinv1). case_decide as Hne.
  { apply logwp_ret. cbn. rewrite decide_False by done. split; [done|]. split; [by intros ->|done]. }
  destruct Hend as [Hno Hread]; [lia|]. apply logwp_bind; [mono|intros; mono|].
  eapply wp_interrupt; [done|]. intros log2 w2 Hv2 Er Eg He Hver.
  apply logwp_bind; [mono|intros; mono|]. apply logwp_gets. apply logwp_bind; [mono|intros; mono|]. apply logwp_gets. cbn [id].
  destruct (Z.leb_spec (g_binlog_index (w_sync w2)) (sr_binlog_index (w_reader w2))) as [Hle|Hlt].
  { apply logwp_ret. cbn. split; [done|]. split; [by rewrite Er|done]. }
  case_bool_decide as Hb; cbn [negb].
  2:{ apply logwp_ret. cbn. split; [done|]. split; [by rewrite Er|done]. }
  pose proof (pl_index _ _ _ _ _ (h_place _ _ (v_here _ _ _ Hv2))) as Hi0.
  set (w3 := set_w_reader (set_sr_version 0 (set_sr_binlog_offset 0
               (set_sr_binlog_index (sr_binlog_index (w_reader w2) + 1) (w_reader w2)))) w2).
  assert (here log2 w3) as Hh3.
  { destruct Hv2 as [[[Hl2 Hm2 Hb2] Hn2 Hx2 Hp2] _ _ _ _ _ _]. split; [by split|done|unfold gidx in *; cbn; lia|].
    cbn. apply place_next. rewrite Er in Hp2, Hi0, Hlt, Hb |- *. specialize (Hread Hb).
    replace (log2 (sr_binlog_index (w_reader w1))) with (log1 (sr_binlog_index (w_reader w1))).
    2:{ symmetry. apply He. unfold gidx in *. lia. }
    rewrite <- Hread. exact Hp2. }
  apply logwp_bind; [mono|intros; mono|]. apply logwp_modify. apply logwp_bind; [mono|intros; mono|]. apply logwp_modify.
  apply logwp_bind; [mono|intros; mono|]. apply logwp_modify. apply logwp_bind; [mono|intros; mono|].
  eapply wp_conseq; [apply (wp_open log2 w3); done|]. intros res2 log3 w4 (Hv4 & Hb4 & Hz4). case_decide.
  { apply logwp_ret. cbn. rewrite decide_False by done. split; [done|]. split; [|by split]. rewrite Hb4. intros _. apply not_elem_of_nil. }
  apply logwp_bind; [mono|intros; mono|]. eapply wp_conseq; [by apply wp_write_mark_view|].
  intros res3 log4 w5 (Hv5 & _ & _ & _ & _ & Eb & _ & Ev). case_decide.
  { apply logwp_ret. cbn. rewrite decide_False by done. split; [done|]. split; [|rewrite Ev; by split]. rewrite Eb, Hb4. intros _. apply not_elem_of_nil. }
  by apply IH.
Qed.

(** *** Records.  The result of a read: a whole line, parsed; or none. *)
Definition read_post (rec : StorageBinLogRecord) (x : Z * Z * StorageBinLogRecord) (log : Z -> bytes) (w : SyncWorld) : Prop :=
  let '(res, len, rec') := x in
  (exists line, viewing line log w /\ upto 10 line = Some line /\ len = Z.of_nat (length line) /\
     parse_sync_record conf line rec = (res, rec')) \/
  (viewing [] log w /\ res <> 0 /\ (res = ENOENT -> 10 ∉ sr_buff (w_reader w)) /\
     (res = EINVAL -> len = 0 /\ sr_version (w_reader w) = 0)).

Lemma wp_read rec log w :
  viewing [] log w -> rwp log w (storage_binlog_read conf rec) (read_post rec).
Proof.
  intros Hv. unfold storage_binlog_read. apply logwp_bind; [mono|intros; mono|]. apply logwp_gets.
  apply logwp_bind; [mono|intros; mono|]. eapply wp_conseq; [by apply wp_next_line|].
  intros [res line] log1 w1. cbn [fst snd]. case_decide as Hres.
  - subst res. intros [Hv1 Hl]. cbn zeta. rewrite (decide_False (P := 0 <> 0)) by lia.
    destruct (parse_sync_record conf line rec) as [e rec'] eqn:Ep. apply logwp_ret. left. by exists line.
  - intros (Hv1 & Hno & Hinv). cbn zeta. rewrite decide_True by done. apply logwp_ret. right.
    split_and!; [done..|]. intros E. destruct (Hinv E) as [-> ?]. done.
Qed.

(** The history grows. *)
Definition remembered (h : Handled) (w : SyncWorld) : SyncWorld :=
  set_w_history ((sr_binlog_index (w_reader w), sr_binlog_offset (w_reader w), h) :: w_history w) w.

Lemma viewing_remembered pend log w h : viewing pend log w -> viewing pend log (remembered h w).
Proof.
  intros [[[Hl Hm Hb] Hn Hi Hp] Hfile Hcl Hvw Hver Heof Hpe]. unfold remembered. set (e := (_, _, h)).
  assert (w_history w ⊆ e :: w_history w) as Hsub by set_solver.
  split; [split; [split|..]|..]; cbn; try done.
  - intros t Ht. destruct (Hm t Ht) as (r0 & ? & ? & ?). exists r0. split_and!; [done..|]. by eapply place_sub.
  - by eapply place_sub.
Qed.

(** Going past the line just read. *)
Definition advanced (len : Z) (w : SyncWorld) : SyncWorld :=
  set_w_reader (set_sr_binlog_offset (sr_binlog_offset (w_reader w) + len) (w_reader w)) w.

Definition passed (h : Handled) (len : Z) (w : SyncWorld) : SyncWorld := advanced len (remembered h w).

(** A reason to go past the line is known. *)
Definition dealing (line : bytes) (log : Z -> bytes) (w : SyncWorld) : Prop :=
  viewing line log w /\
  exists h, (sr_binlog_index (w_reader w), sr_binlog_offset (w_reader w), h) ∈ w_history w /\ fits conf h line.

Lemma stable_dealing line : stable (dealing line).
Proof. intros log w s' [HP Hh] Hg Hv Hl. split; [by apply stable_viewing|exact Hh]. Qed.

Lemma dealing_reader line log w r : dealing line log w -> other_fields r (w_reader w) -> dealing line log (set_w_reader r w).
Proof.
  intros [Hv (h & Hh & Hf)] Hr. split; [by apply viewing_reader|]. exists h. split; [|done]. cbn.
  destruct Hr as (_ & -> & -> & _). exact Hh.
Qed.

Lemma wp_write_mark_dealing line log w : dealing line log w ->
  rwp log w storage_write_to_mark_file (fun _ log' w' => dealing line log' w').
Proof.
  intros Hd. eapply wp_conseq; [apply (wp_write_mark_in (dealing line))|by intros ? ? ? []]; [by intros [[] _]| | |done].
  - intros s' [Hv Hh] ? ? ? ?. split; [by apply viewing_marked|exact Hh].
  - intros w' r. apply dealing_reader.
Qed.

Lemma advanced_line line log w :
  dealing line log w -> upto 10 line = Some line -> viewing [] log (advanced (Z.of_nat (length line)) w).
Proof.
  intros [[[[Hl Hm Hb] Hn Hi Hp] Hfile Hcl Hvw Hver Heof Hpe] (h & Hin & Hfit)] Hu. unfold advanced. set (r := w_reader w) in *.
  assert (line <> []) as Hne by (intros ->; done). destruct (Hpe Hne) as [Hfd Hlt].
  destruct (Hvw Hfd) as [Hpos E]. pose proof (pl_offset _ _ _ _ _ Hp) as Ho.
  assert (length (line ++ sr_buff r ++ drop (Z.to_nat (sr_pos r)) (log (sr_binlog_index r))) =
          length (drop (Z.to_nat (sr_binlog_offset r)) (log (sr_binlog_index r)))) as El by (by rewrite E).
  rewrite length_drop, length_app in El.
  split; [split; [split|..]|..]; cbn; try done.
  - eapply place_line; [done| |done..]. eexists. symmetry. exact E.
  - intros _. split; [done|]. cbn. fold r.
    replace (Z.to_nat (sr_binlog_offset r + Z.of_nat (length line))) with (Z.to_nat (sr_binlog_offset r) + length line)%nat by lia.
    by rewrite <- drop_drop, <- E, drop_app_length.
Qed.

Lemma passed_line line log w h :
  viewing line log w -> upto 10 line = Some line -> fits conf h line ->
  viewing [] log (passed h (Z.of_nat (length line)) w).
Proof.
  intros Hv Hu Hf. apply advanced_line; [|done]. split; [by apply viewing_remembered|]. exists h. split; [left|done].
Qed.

(** A failure of another kind that is taken for an invalid record. *)
Lemma passed_none log w h : viewing [] log w -> viewing [] log (passed h 0 w).
Proof.
  intros Hv. apply (viewing_remembered [] log w h) in Hv. revert Hv. unfold passed. generalize (remembered h w). clear w. intros w.
  unfold advanced. rewrite Z.add_0_r. intros [[[Hl Hm Hb] Hn Hi Hp] Hfile Hcl Hvw Hver Heof Hpe].
  by split; [split; [split|..]|..].
Qed.

(** What a record that was read tells of its line. *)
Lemma parse_fits line rec res rec' :
  parse_sync_record conf line rec = (res, rec') ->
  if decide (res = 0) then parse_sync_record conf line blank_record = (0, rec') /\
    (forall until, bl_timestamp rec' < until -> fits conf (BeforeStart until) line)
  else res = EINVAL /\ fits conf Invalid line.
Proof.
  intros E. destruct (parse_blank conf line rec) as [E1 E2]. unfold fits. rewrite E in E1, E2. cbn in E1, E2. case_decide as Hr.
  - rewrite <- (E2 Hr). split; [by rewrite Hr|]. by auto.
  - pose proof (parse_error conf line rec) as He. rewrite E in He. cbn in He. specialize (He Hr). split; [done|].
    destruct (parse_sync_record conf line blank_record) as [e r0]. cbn in E1. congruence.
Qed.

(** *** Skipping what the peer has. *)
Lemma wp_skip fuel rec log w :
  viewing [] log w ->
  rwp log w (skip_loop conf fuel rec) (fun res log' w' =>
    here log' w' /\ (res = 0 -> viewing [] log' w' /\ 10 ∉ sr_buff (w_reader w'))).
Proof.
  revert rec log w. induction fuel as [|fuel IH]; intros rec log w Hv; cbn [skip_loop].
  { apply logwp_ret. split; [apply Hv|discriminate]. }
  apply logwp_bind; [mono|intros; mono|]. eapply wp_conseq; [by apply wp_read|].
  intros [[res len] rec'] log1 w1 Hpost. case_decide as Hen.
  { apply logwp_ret. destruct Hpost as [(line & Hv1 & _ & _ & Ep)|(Hv1 & _ & Hno & _)].
    - exfalso. apply parse_fits in Ep. case_decide; [by subst|]. destruct Ep as [Ep _]. by rewrite Ep in Hen.
    - split; [apply Hv1|]. auto. }
  assert (here log1 w1) as Hh1 by (by destruct Hpost as [(line & [] & _)|[[] _]]).
  case_match eqn:Est; [apply logwp_ret; split; [done|]; intros ->; done|].
  apply logwp_bind; [mono|intros; mono|]. apply logwp_gets. cbn [id].
  destruct Hpost as [(line & Hv1 & Hu & -> & Ep)|(Hv1 & Hres & Hno & Hlen)].
  - apply parse_fits in Ep. assert (sr_version (w_reader w1) < version w1) as Hlt by (apply (v_pend _ _ _ Hv1); by intros ->).
    destruct (Z.leb_spec (sr_until_timestamp (w_reader w1)) (bl_timestamp rec')) as [Hle|Hbefore].
    + eapply wp_conseq; [by eapply wp_rewind|]. intros res2 log2 w2 [Hh2 Hv2]. split; [done|]. intros E.
      destruct (Hv2 E) as [? ->]. split; [done|apply not_elem_of_nil].
    + apply logwp_bind; [mono|intros; mono; apply mono_skip_loop|]. apply logwp_modify.
      apply logwp_bind; [mono|intros; mono|]. apply logwp_modify. apply (IH rec' log1 (passed _ _ w1)).
      apply passed_line; [done..|]. case_decide as Hres.
      * subst res. apply Ep. lia.
      * rewrite (proj2 (Z.eqb_neq _ _)) by done. apply Ep.
  - destruct Hlen as [-> Hz]; [unfold EINVAL in *; lia|].
    assert (sr_version (w_reader w1) < version w1) as Hlt by (rewrite Hz; apply Hh1).
    destruct (Z.leb_spec (sr_until_timestamp (w_reader w1)) (bl_timestamp rec')) as [Hle|Hbefore].
    + eapply wp_conseq; [by apply (wp_rewind [])|]. intros res2 log2 w2 [Hh2 Hv2]. split; [done|]. intros E.
      destruct (Hv2 E) as [? ->]. split; [done|apply not_elem_of_nil].
    + apply logwp_bind; [mono|intros; mono; apply mono_skip_loop|]. apply logwp_modify.
      apply logwp_bind; [mono|intros; mono|]. apply logwp_modify. apply (IH rec' log1 (passed _ _ w1)).
      by apply passed_none.
Qed.

(** *** The start of a reader. *)

(** The offset read from the mark file is less than [LONG_MAX], so it is the
    one that was written. *)
Definition small_mark (w : SyncWorld) : Prop :=
  forall t c, mark_of w = Some t -> iniLoadFromText t = inr c ->
    iniGetInt64Value MARK_ITEM_BINLOG_FILE_OFFSET c (-1) < 2 ^ 63 - 1.

(** [dest] is another place. *)
Section starting.
Context (dest : Z * Z).

Record starting (log : Z -> bytes) (w : SyncWorld) : Prop := {
  st_here : here log w;
  st_buff : sr_buff (w_reader w) = [];
  st_version : sr_version (w_reader w) = 0;
  st_small : small_mark w;
  st_dest : dest.1 <= gidx w /\ place (w_history w) log dest.1 dest.2;
}.

Lemma stable_starting : stable starting.
Proof.
  intros log w s' [Hh Hb Hv Hs Hd] Hg Hver Hl. split; [by apply stable_here|done|done| |].
  - unfold small_mark, mark_of in *. cbn. by rewrite (mark_same _ _ _ _ (Hl _ (b_log _ _ (h_based _ _ Hh)))).
  - unfold gidx in *. cbn. by rewrite Hg.
Qed.

Lemma starting_reader log w r :
  starting log w -> sr_mark_filename r = sr_mark_filename (w_reader w) -> sr_buff r = [] -> sr_version r = 0 ->
  sr_binlog_index r <= gidx w -> place (w_history w) log (sr_binlog_index r) (sr_binlog_offset r) ->
  starting log (set_w_reader r w).
Proof.
  intros [[[Hl Hm Hb] Hn Hi Hp] Hbuff Hv Hs Hd] E1 E2 E3 Hi' Hp'.
  split; [split; [by split|..]|..]; cbn; try done. congruence.
Qed.

Lemma wp_sync_init_loop e l log w :
  starting log w -> rwp log w (sync_init_loop e l) (fun _ log' w' => starting log' w').
Proof.
  revert e log w. induction l as [|reply l IH]; intros e log w Hst; [|destruct reply as [|e'| |mine until|]]; cbn [sync_init_loop].
  2, 3: by apply IH.
  all: apply logwp_bind; [mono|intros; mono|]; apply logwp_modify.
  all: assert (forall l', starting log (set_w_src_replies l' w)) as Hst'
    by (intros l'; destruct Hst as [[[] ] ]; repeat (split; try assumption)).
  1, 4: apply logwp_bind; [mono|intros; mono|]; eapply (wp_srv starting);
    [apply stable_starting|by apply frames_same|apply Hst'|]; intros Hst1; by apply logwp_ret.
  all: repeat (apply logwp_bind; [mono|intros; mono|]; apply logwp_modify); apply logwp_ret.
  - apply (starting_reader log (set_w_src_replies l w) (set_sr_until_timestamp 0 (set_sr_need_sync_old false (w_reader w))));
      by destruct Hst as [[] ].
  - apply (starting_reader log (set_w_src_replies l w) (set_sr_until_timestamp until (set_sr_need_sync_old mine (w_reader w))));
      by destruct Hst as [[] ].
Qed.
End starting.

(** The numbers of a mark file. *)
Lemma mark_loads r :
  0 <= sr_binlog_index r < 2 ^ 31 -> 0 <= sr_binlog_offset r ->
  exists c, iniLoadFromText (mark_text r) = inr c /\
    iniGetIntValue MARK_ITEM_BINLOG_FILE_INDEX c (-1) = sr_binlog_index r /\
    iniGetInt64Value MARK_ITEM_BINLOG_FILE_OFFSET c (-1) = Z.min (2 ^ 63 - 1) (sr_binlog_offset r).
Proof.
  intros Hi Ho. destruct (ini_spec (mark_items r)) as (c & Hl & _ & Hget).
  - unfold mark_items. cbn [fmap list_fmap fst]. repeat (constructor; [set_solver|]). constructor.
  - repeat constructor; try done; first [apply fmt_ini_word | unfold fmt_bool; apply fmt_ini_word].
  - exists c. split; [done|]. split.
    + destruct (Hget MARK_ITEM_BINLOG_FILE_INDEX (fmt_d (sr_binlog_index r))) as [-> _]; [left|].
      apply atoi_fmt. unfold is_int32. lia.
    + destruct (Hget MARK_ITEM_BINLOG_FILE_OFFSET (fmt_d (sr_binlog_offset r))) as (_ & -> & _); [right; left|].
      destruct (fmt_u_spec 10 (sr_binlog_offset r)) as (Hds & Hv & Hne); [lia..|].
      unfold fmt_d. rewrite (proj2 (Z.ltb_ge _ _)), <- (app_nil_r (fmt_u _ _)) by lia.
      rewrite strtol_digits by (done || lia). rewrite Hv. cbn. unfold clamp_long. lia.
Qed.

(** The place that the mark file tells, as the code reads it. *)
Lemma mark_place log w t c :
  gidx w < 2 ^ 31 -> mark_ok log w -> small_mark w -> mark_of w = Some t -> iniLoadFromText t = inr c ->
  iniGetIntValue MARK_ITEM_BINLOG_FILE_INDEX c (-1) <= gidx w /\
  place (w_history w) log (iniGetIntValue MARK_ITEM_BINLOG_FILE_INDEX c (-1)) (iniGetInt64Value MARK_ITEM_BINLOG_FILE_OFFSET c (-1)).
Proof.
  intros Hg Hm Hs Ht Hc. pose proof (Hs t c Ht Hc) as Ho. destruct (Hm t Ht) as (r & -> & Hi & Hp).
  pose proof (pl_index _ _ _ _ _ Hp). pose proof (pl_offset _ _ _ _ _ Hp).
  destruct (mark_loads r) as (c' & Hc' & Ei & Eo); [lia|lia|]. rewrite Hc in Hc'. injection Hc' as <-.
  rewrite Ei, Eo in *. rewrite Z.min_r in * by lia. done.
Qed.

Context (Hid : g_use_storage_id conf = false).

Lemma wp_find_mark_file dest storage name log w :
  starting dest log w -> rwp log w (find_mark_file conf storage name) (fun _ log' w' => starting dest log' w').
Proof.
  intros Hst. unfold find_mark_file. rewrite Hid. apply logwp_bind; [mono|intros; mono|].
  eapply (wp_srv (starting dest)); [apply stable_starting|by apply frames_sys_read, only_exists|done|]. intros Hst1.
  rewrite andb_false_r. by apply logwp_ret.
Qed.

Lemma starting_zero dest log w : starting dest log w -> starting (0, 0) log w.
Proof.
  intros [Hh Hb Hv Hs _]. split; try done. split; [|apply place_zero]. destruct Hh as [[[[] _]] ]. done.
Qed.

(** The place that a mark file which is there tells. *)
Lemma mark_dest dest log w t c :
  gidx w < 2 ^ 31 -> starting dest log w -> mark_of w = Some t -> iniLoadFromText t = inr c ->
  starting (iniGetIntValue MARK_ITEM_BINLOG_FILE_INDEX c (-1), iniGetInt64Value MARK_ITEM_BINLOG_FILE_OFFSET c (-1)) log w.
Proof.
  intros Hg [Hh Hb Hv Hs _] Ht Hc. split; try done. eapply mark_place; [done|apply Hh|done..].
Qed.

Lemma wp_load_mark c log w :
  starting (iniGetIntValue MARK_ITEM_BINLOG_FILE_INDEX c (-1), iniGetInt64Value MARK_ITEM_BINLOG_FILE_OFFSET c (-1)) log w ->
  rwp log w (load_mark c) (fun _ log' w' => starting (0, 0) log' w').
Proof.
  intros Hst. unfold load_mark. repeat (apply logwp_bind; [mono|intros; mono|]; apply logwp_modify).
  apply logwp_bind; [mono|intros; mono|]. apply logwp_gets, logwp_ret.
  eapply starting_zero. destruct Hst as [[[Hl Hm Hb] Hn Hi Hp] Hbuff Hv Hs Hd].
  split; [split; [by split|..]|..]; cbn; try done; apply Hd.
Qed.

Lemma wp_init_from_mark storage log w :
  starting (0, 0) log w -> rwp log w (init_from_mark storage) (fun _ log' w' => starting (0, 0) log' w').
Proof.
  intros Hst. apply wp_small. intros Hg. unfold init_from_mark.
  apply logwp_bind; [mono|intros; unfold load_mark; mono|]. apply logwp_gets. cbn [id].
  apply logwp_bind; [mono|intros; unfold load_mark; mono|]. rewrite (h_name _ _ (st_here _ _ _ Hst)).
  assert (match (sys (iniLoadFromFile mname) (w_sync w)).1 with
          | inl _ => True
          | inr c => exists t, mark_of w = Some t /\ iniLoadFromText t = inr c
          end) as Hini.
  { unfold sys, iniLoadFromFile, bind, ret, gets, mark_of. pose proof (sys_fault_spec (ss_fs (w_sync w))) as Hf.
    destruct (sys_fault (ss_fs (w_sync w))) as [f fs1]. destruct Hf as (Hn & Hi & _). case_decide; cbn; [done|].
    unfold fs_text. rewrite Hn, Hi. destruct (_ ≫= _) as [t|]; [|done]. destruct (iniLoadFromText t) eqn:E; [done|by exists t]. }
  destruct (sys (iniLoadFromFile mname) (w_sync w)).1 as [e|c] eqn:Eini.
  { eapply (wp_srv (starting (0, 0))); [apply stable_starting|by apply frames_sys_read, only_ini|done|].
    intros Hst1. rewrite Eini. by apply logwp_ret. }
  destruct Hini as (t & Ht & Hload). pose proof (mark_dest _ _ _ _ _ Hg Hst Ht Hload) as Hdest.
  eapply (wp_srv (starting _)); [apply stable_starting|by apply frames_sys_read, only_ini|exact Hdest|].
  intros Hst1. rewrite Eini. case_match; [by eapply logwp_ret, starting_zero|].
  apply logwp_bind; [mono|intros; unfold load_mark; mono|].
  set (dest := (iniGetIntValue _ _ _, _)) in *.
  eapply (wp_conseq _ _ _ _ (fun _ log' w' => starting dest log' w')).
  - case_match; [|by apply logwp_ret]. apply logwp_bind; [mono|intros; mono|]. unfold storage_reader_sync_init_req.
    apply logwp_bind; [mono|intros; mono|]. apply logwp_gets. eapply wp_conseq; [by apply wp_sync_init_loop|].
    intros res log2 w2 Hst2. apply logwp_bind; [mono|intros; mono|]. apply logwp_gets. by apply logwp_ret.
  - intros [res exist] log2 w2 Hst2. cbn [fst snd]. case_decide; [by eapply logwp_ret, starting_zero|].
    destruct exist; [|by eapply logwp_ret, starting_zero].
    apply logwp_bind; [mono|intros; unfold load_mark; mono|]. apply logwp_modify.
    apply logwp_bind; [unfold load_mark; mono|intros; mono|].
    eapply wp_conseq; [apply wp_load_mark|intros res2 log3 w3 Hst3; by apply logwp_ret].
    destruct Hst2 as [[[Hl Hm Hb] Hn Hi Hp] Hbuff Hv Hs Hd]. by split; [split; [by split|..]|..].
Qed.

Ltac start_bind :=
  apply logwp_bind;
  [ unfold find_mark_file, init_from_mark, load_mark, storage_binlog_reader_skip; mono
  | intros; unfold find_mark_file, init_from_mark, load_mark, storage_binlog_reader_skip; mono | ].

Lemma wp_init storage rec log w :
  mname = get_mark_filename_by_reader conf (b_id storage) -> based log w -> small_mark w ->
  rwp log w (storage_reader_init conf storage rec) (fun res log' w' =>
    here log' w' /\ (res = 0 -> viewing [] log' w')).
Proof.
  intros Hmn Hb Hs. unfold storage_reader_init. start_bind. apply logwp_modify.
  set (w0 := set_w_reader _ w).
  assert (starting (0, 0) log w0) as Hst.
  { assert (0 <= gidx w) by (destruct Hb as [[[] _]]; done). destruct Hb as [Hl Hm Hv].
    split; [split; [by split|by rewrite Hmn|done|apply place_zero]|done|done|done|]. split; [done|apply place_zero]. }
  clearbody w0. start_bind.
  eapply (wp_srv (starting (0, 0))); [apply stable_starting|by apply frames_sys_read, only_fault|done|]. intros Hst1.
  set (w1 := set_w_sync _ w0) in *. clearbody w1. case_decide; [apply logwp_ret; split; [apply Hst1|done]|].
  start_bind. apply logwp_gets. cbn [id]. start_bind.
  eapply (wp_conseq _ _ _ _ (fun _ log' w' => starting (0, 0) log' w')).
  { case_match; [by apply logwp_ret|by apply wp_find_mark_file]. }
  clear dependent w0 w1. intros [e exist] log1 w1 Hst. cbn [fst snd]. case_decide; [apply logwp_ret; split; [apply Hst|done]|].
  start_bind. eapply (wp_conseq _ _ _ _ (fun _ log' w' => starting (0, 0) log' w')).
  { destruct exist; [by apply logwp_ret|]. unfold storage_reader_sync_init_req.
    start_bind. apply logwp_gets. by apply wp_sync_init_loop. }
  clear dependent w1. intros e1 log2 w2 Hst. case_decide; [apply logwp_ret; split; [apply Hst|done]|].
  start_bind. eapply (wp_conseq _ _ _ _ (fun _ log' w' => starting (0, 0) log' w')).
  { destruct exist; [by apply wp_init_from_mark|by apply logwp_ret]. }
  clear dependent w2 exist. intros [e2 exist] log3 w3 Hst. cbn [fst snd]. case_decide; [apply logwp_ret; split; [apply Hst|done]|].
  start_bind. apply logwp_modify. start_bind. apply logwp_modify. set (w4 := set_w_reader _ (set_w_reader _ w3)).
  assert (starting (0, 0) log3 w4) as Hst4.
  { destruct Hst as [[[Hl Hm Hv] Hn Hi Hp] Hbuff Hver Hsm Hd]. by split; [split; [by split|..]|..]. }
  clearbody w4. start_bind. eapply wp_conseq; [apply wp_open; apply Hst4|]. intros e5 log5 w5 (Hv5 & Hb5 & _).
  case_decide; [apply logwp_ret; split; [apply Hv5|done]|]. start_bind.
  eapply (wp_conseq _ _ _ _ (fun res log' w' => here log' w' /\ (res = 0 -> viewing [] log' w' /\ 10 ∉ sr_buff (w_reader w')))).
  { assert (10 ∉ sr_buff (w_reader w5)) as Hno by (rewrite Hb5; apply not_elem_of_nil).
    destruct exist; [apply logwp_ret; split; [apply Hv5|done]|]. start_bind. apply logwp_gets. cbn [id]. start_bind.
    eapply (wp_conseq _ _ _ _ (fun res log' w' => here log' w' /\ (res = 0 -> viewing [] log' w' /\ 10 ∉ sr_buff (w_reader w')))).
    { case_match; [|apply logwp_ret; split; [apply Hv5|done]]. unfold storage_binlog_reader_skip. start_bind.
      apply logwp_gets. by apply wp_skip. }
    intros e6 log6 w6 [Hh6 Hv6]. case_decide as He6; [apply logwp_ret; split; [done|by intros ->]|].
    destruct Hv6 as [Hv6 Hno6]; [lia|]. eapply wp_conseq; [by apply wp_write_mark_view|].
    intros e7 log7 w7 (Hv7 & _ & _ & _ & _ & Eb7 & _). split; [apply Hv7|]. intros _. by rewrite Eb7. }
  intros e8 log8 w8 [Hh8 Hv8]. case_decide as He8; [apply logwp_ret; split; [done|by intros ->]|].
  destruct Hv8 as [Hv8 Hno8]; [lia|]. start_bind. eapply wp_conseq; [by apply wp_preread|].
  intros e9 log9 w9 (Hv9 & _). apply logwp_ret. split; [apply Hv9|done].
Qed.
End reader.

#[export] Hint Resolve mono_interrupt mono_preread mono_read_line mono_uncompress mono_open mono_write_mark mono_rewind mono_next_line mono_read mono_skip_loop mono_sync_init_loop mono_sync_init_req mono_init : mono.
