(* ===== verification/SyncSafe.v ===== *)
(** * No record is passed over (proofs).

    A mark file says how far the changes of this server are known to a peer.
    The main theorem: for every complete line of the binlog before the position
    of the mark there was a reason to go past it, and the reason is true of the
    line.  It holds through writes, flushes, changes of files, compression,
    failing system calls, lost connections and restarts. *)

From S2P Require Import Prelude FastCommon TrunkShared TrunkBinlog TrackerTypes FileSys SyncBinlog SyncReader Net SyncPeer SyncThread SyncFiles SyncPlace SyncReading.

Section thread.
Context `{FastCommon, FastFilesLaws} (conf : SyncConf) (Hconf : conf_ok conf).
Context (mname : bytes) (Hmname : last mname = Some (ch "k")).
Context (Hgz : (length get_gzip_command_filename <= 60)%nat).
Context (Hid : g_use_storage_id conf = false).

Abbreviation bname := (get_binlog_readable_filename_ex conf).
Abbreviation log_inv := (log_inv conf mname).
Abbreviation place := (place conf).
Abbreviation based := (based conf mname).
Abbreviation here := (here conf mname).
Abbreviation viewing := (viewing conf mname).
Abbreviation dealing := (dealing conf mname).
Abbreviation stable := (stable conf mname).
Abbreviation small_mark := (small_mark mname).
Abbreviation mark_of := (mark_of mname).

(** ** The thread. *)
Context (tc : ThreadConf) (Htc : tc_sync tc = conf).

Abbreviation tmono := (mono t_world).
Abbreviation twp := (wp t_world).

Lemma mono_thread f : (forall t, gidx (t_world (f t)) = gidx (t_world t)) -> tmono (modify f).
Proof. intros Hf t. cbn. rewrite Hf. lia. Qed.

Lemma mono_rdr {A} (c : M SyncWorld A) : rmono c -> tmono (rdr c).
Proof. intros Hc t. unfold rdr. specialize (Hc (t_world t)). by destruct (c (t_world t)). Qed.

Lemma wp_rdr {A} log t (c : M SyncWorld A) Q :
  rwp log (t_world t) c (fun a log' w' => Q a log' (set_t_world w' t)) -> twp log t (rdr c) Q.
Proof.
  intros Hc Hg. unfold rdr. unfold wp in Hc. destruct (c (t_world t)) as [a w']. cbn in *. intros E.
  destruct (Hc Hg E) as (log' & He & HQ). by exists log'.
Qed.

Ltac tmono :=
  cbv zeta; unfold tget, goto, stop_program, close_sock, report_status;
  repeat match goal with
    | |- mono _ (bind _ _) => apply mono_bind; [|intros ?]
    | |- mono _ (ret _) => apply mono_ret
    | |- mono _ (gets _) => apply mono_gets
    | |- mono _ (modify _) => apply mono_thread; reflexivity
    | |- mono _ (rdr _) => apply mono_rdr; mono
    | |- mono _ (if _ then _ else _) => case_match
    | |- mono _ (match _ with _ => _ end) => case_match
    | |- _ => solve [eauto with mono]
    end.

Definition id_ok (t : SyncThread) : Prop := mname = get_mark_filename_by_reader conf (b_id (t_storage t)).

(** What holds of the reader where the thread is. *)
Definition pc_inv (log : Z -> bytes) (t : SyncThread) : Prop :=
  match t_pc t with
  | P_WaitActive | P_Start | P_Loop => viewing [] log (t_world t)
  | P_LoopEnd => here log (t_world t)
  | _ => based log (t_world t)
  end.

Definition thread_inv (log : Z -> bytes) (t : SyncThread) : Prop := pc_inv log t /\ id_ok t.

(** [P] holds of the world of the thread. *)
Definition inside (P : (Z -> bytes) -> SyncWorld -> Prop) (log : Z -> bytes) (t : SyncThread) : Prop :=
  P log (t_world t) /\ id_ok t.

Lemma inside_based P log t : (forall log w, P log w -> based log w) -> inside P log t -> inside based log t.
Proof. intros HP [Ht Hi]. split; auto. Qed.

Lemma viewing_based pend log w : viewing pend log w -> based log w.
Proof. intros Hv. apply Hv. Qed.

Lemma based_reader log w r : based log w -> based log (set_w_reader r w).
Proof. intros []. by split. Qed.

Lemma wp_stop P log t Q :
  stable P -> inside P log t -> (forall t', inside P log t' -> t_pc t' = t_pc t -> Q tt log t') -> twp log t stop_program Q.
Proof.
  intros Hst [HP Hi] HQ. unfold stop_program. apply wp_rdr.
  eapply (wp_srv conf mname P); [done|by apply frames_same|done|]. intros HP'. apply HQ; [by split|done].
Qed.

(** Leaving for [pc]. *)
Definition allows (pc : ThreadPc) (P : (Z -> bytes) -> SyncWorld -> Prop) : Prop :=
  forall log w, P log w -> match pc with
    | P_WaitActive | P_Start | P_Loop => viewing [] log w
    | P_LoopEnd => here log w
    | _ => based log w
    end.

Lemma inside_inv P log t : inside P log t -> allows (t_pc t) P -> thread_inv log t.
Proof. intros [HP Hi] Hpc. split; [|done]. unfold pc_inv. specialize (Hpc _ _ HP). by destruct (t_pc t). Qed.

Lemma wp_goto P log t pc : inside P log t -> allows pc P -> twp log t (goto pc) (fun _ => thread_inv).
Proof. intros HP Hpc. apply logwp_modify. by apply (inside_inv P). Qed.

Lemma wp_stay P log t : inside P log t -> allows (t_pc t) P -> twp log t (ret tt) (fun _ => thread_inv).
Proof. intros HP Hpc. apply logwp_ret. by apply (inside_inv P). Qed.

Lemma allows_based pc : (match pc with P_WaitActive | P_Start | P_Loop | P_LoopEnd => False | _ => True end) -> allows pc based.
Proof. intros Hpc log w Hb. by destruct pc. Qed.

Lemma step_outer_inv log t : inside based log t -> twp log t step_outer (fun _ => thread_inv).
Proof.
  intros Hb. unfold step_outer. apply logwp_bind; [tmono|intros; tmono|]. apply logwp_gets.
  case_match; apply (wp_goto based); try done; by apply allows_based.
Qed.

Lemma step_wait_ready_inv log t : inside based log t -> t_pc t = P_WaitReady -> twp log t (step_wait_ready tc) (fun _ => thread_inv).
Proof.
  intros Hb Hpc. unfold step_wait_ready. apply logwp_bind; [tmono|intros; tmono|]. apply logwp_gets. cbn [id].
  case_match; [apply (wp_stay based); [done|rewrite Hpc; by apply allows_based]|].
  case_match; [by apply (wp_goto based); [|apply allows_based]|].
  case_match.
  - case_match. repeat (apply logwp_bind; [tmono|intros; tmono|]; apply logwp_modify).
    apply (wp_goto based); [exact Hb|by apply allows_based].
  - apply logwp_bind; [tmono|intros; tmono|]. apply logwp_modify. apply (wp_goto based); [exact Hb|by apply allows_based].
Qed.

Lemma step_wait_time_inv log t : inside based log t -> t_pc t = P_WaitTime -> twp log t step_wait_time (fun _ => thread_inv).
Proof.
  intros Hb Hpc. unfold step_wait_time. apply logwp_bind; [tmono|intros; tmono|]. apply logwp_gets. cbn [id]. case_match.
  - apply logwp_modify. apply (inside_inv based); [exact Hb|]. cbn. rewrite Hpc. by apply allows_based.
  - apply logwp_bind; [tmono|intros; tmono|]. apply logwp_modify. apply (wp_goto based); [exact Hb|by apply allows_based].
Qed.

Lemma after_connect_inv rec log t :
  inside based log t -> small_mark (t_world t) -> twp log t (after_connect tc rec) (fun _ => thread_inv).
Proof.
  intros Hb Hs. unfold after_connect. rewrite Htc. apply logwp_bind; [tmono|intros; tmono|]. apply logwp_gets. cbn [id].
  case_match; [by apply (wp_goto based); [|apply allows_based]|].
  case_match.
  { apply logwp_bind; [tmono|intros; tmono|]. apply logwp_modify. apply (wp_goto based); [exact Hb|by apply allows_based]. }
  apply logwp_bind; [tmono|intros; tmono|]. apply wp_rdr. destruct Hb as [Hb Hi].
  eapply wp_conseq; [by apply wp_init|]. intros res log1 w1 [Hh Hv]. case_decide as Hres.
  - apply logwp_bind; [tmono|intros; tmono|]. apply (wp_stop here); [apply stable_here|by split|].
    intros t' [Hh' Hi'] _. apply (wp_goto based); [split; [apply Hh'|done]|by apply allows_based].
  - apply logwp_bind; [tmono|intros; tmono|]. apply wp_rdr, logwp_gets. specialize (Hv ltac:(lia)).
    case_match; apply (wp_goto (viewing [])); first [by split | by intros ? ? ?].
Qed.

Lemma mono_connect_round l : tmono (connect_round l).
Proof. induction l as [|a l IH]; cbn [connect_round]; tmono; apply IH. Qed.

Lemma wp_connect_round l log t :
  inside based log t -> small_mark (t_world t) ->
  twp log t (connect_round l) (fun _ log' t' => inside based log' t' /\ small_mark (t_world t') /\ t_pc t' = t_pc t).
Proof.
  revert t. induction l as [|a l IH]; intros t Hb Hs; cbn [connect_round]; [by apply logwp_ret|].
  pose proof mono_connect_round as Hmono.
  apply logwp_bind; [tmono|intros; tmono; apply Hmono|]. apply logwp_gets. destruct (t_connects t) as [|[|e|conn] cs]; [by apply logwp_ret|..].
  - apply logwp_bind; [tmono|intros; tmono|]. apply logwp_modify.
    apply (wp_stop (fun log w => based log w /\ small_mark w)); [|by destruct Hb|].
    + intros log' w s' [Hb' Hs'] Hg Hv Hl. split; [by apply stable_based|]. unfold small_mark, mark_of in *. cbn.
      by rewrite (mark_same _ _ _ _ _ _ (Hl _ (b_log _ _ _ _ Hb'))).
    + intros t' [[Hb' Hs'] Hi'] Hpc. by split; [split|].
  - apply logwp_bind; [tmono|intros; apply Hmono|]. apply logwp_modify. eapply wp_conseq; [by apply IH|].
    intros _ log' t' (? & ? & ?). by split.
  - apply logwp_bind; [tmono|intros; tmono|]. apply logwp_modify, logwp_modify. by split.
Qed.

Lemma step_connect_inv rec log t :
  inside based log t -> small_mark (t_world t) -> t_pc t = P_Connect -> twp log t (step_connect tc rec) (fun _ => thread_inv).
Proof.
  intros Hb Hs Hpc. pose proof mono_connect_round as Hmono.
  assert (tmono (after_connect tc rec)) as Hac by (unfold after_connect; rewrite Htc; tmono).
  unfold step_connect. apply logwp_bind; [tmono|intros; tmono; apply Hmono|]. apply logwp_gets. cbn [id].
  case_match; [|by apply after_connect_inv]. apply logwp_bind; [apply Hmono|intros; tmono|].
  eapply wp_conseq; [by apply wp_connect_round|]. intros _ log1 t1 (Hb1 & Hs1 & Hpc1).
  apply logwp_bind; [tmono|intros; tmono|]. apply logwp_gets. cbn [id]. case_match; [by apply after_connect_inv|].
  apply (wp_stay based); [done|]. rewrite Hpc1, Hpc. by apply allows_based.
Qed.

Lemma mono_destroy : rmono storage_reader_destroy.
Proof. unfold storage_reader_destroy. mono. Qed.
#[local] Hint Resolve mono_destroy : mono.

(** Giving the reader up. *)
Lemma wp_destroy log t Q :
  inside based log t -> (forall t', inside based log t' -> t_pc t' = t_pc t -> Q tt log t') ->
  twp log t (rdr storage_reader_destroy) Q.
Proof.
  intros [Hb Hi] HQ. apply wp_rdr. unfold storage_reader_destroy. apply logwp_bind; [mono|intros; mono|].
  apply logwp_modify, logwp_modify. apply HQ; [|done]. split; [|done]. cbn. by apply based_reader, based_reader.
Qed.

(** Closing the connection and going to [pc]. *)
Lemma close_destroy_goto pc P log t :
  inside P log t -> allows P_Outer P -> allows pc based ->
  twp log t (close_sock ;; rdr storage_reader_destroy ;; goto pc)%c (fun _ => thread_inv).
Proof.
  intros [HP Hi] Hout Hpc. apply logwp_bind; [tmono|intros; tmono|]. apply logwp_modify.
  apply logwp_bind; [tmono|intros; tmono|].
  apply wp_destroy; [split; [by apply Hout|done]|]. intros t' Ht' _. by apply (wp_goto based).
Qed.

Lemma viewing_allows_based pc : (match pc with P_WaitActive | P_Start | P_Loop | P_LoopEnd => False | _ => True end) -> allows pc (viewing []).
Proof. intros Hpc log w Hv. pose proof (viewing_based _ _ _ Hv). by destruct pc. Qed.

Lemma step_wait_active_inv log t :
  inside (viewing []) log t -> t_pc t = P_WaitActive -> twp log t step_wait_active (fun _ => thread_inv).
Proof.
  intros Hv Hpc. unfold step_wait_active. apply logwp_bind; [tmono|intros; tmono|]. apply logwp_gets. cbn [id].
  case_match; [apply (wp_stay (viewing [])); [done|rewrite Hpc; by intros ? ? ?]|].
  case_match.
  - apply (close_destroy_goto _ (viewing [])); [done|by apply viewing_allows_based|by apply allows_based].
  - apply (wp_goto (viewing [])); [done|by intros ? ? ?].
Qed.

(** Steps that change fields of the thread only. *)
Definition side_step {A} (c : M SyncThread A) : Prop :=
  forall t, t_world (c t).2 = t_world t /\ b_id (t_storage (c t).2) = b_id (t_storage t) /\ t_pc (c t).2 = t_pc t.

Lemma wp_side {A} P log t (c : M SyncThread A) (Q : A -> (Z -> bytes) -> SyncThread -> Prop) :
  side_step c -> inside P log t -> (forall a t', inside P log t' -> t_pc t' = t_pc t -> Q a log t') -> twp log t c Q.
Proof.
  intros Hc [HP Hi] HQ _ _. exists log. split; [apply extends_refl|]. destruct (Hc t) as (Ew & Ei & Ep).
  apply HQ; [|done]. split; [by rewrite Ew|]. unfold id_ok in *. by rewrite Ei.
Qed.

Lemma mono_side {A} (c : M SyncThread A) : side_step c -> tmono c.
Proof. intros Hc t. destruct (Hc t) as (-> & _). lia. Qed.

Lemma side_report : side_step report_my_id.
Proof. intros t. unfold report_my_id. by destruct (storage_report_my_server_id _ _). Qed.

Lemma side_ret {A} (a : A) : side_step (ret a).
Proof. done. Qed.

Lemma side_bind {A B} (c : M SyncThread A) (k : A -> M SyncThread B) : side_step c -> (forall a, side_step (k a)) -> side_step (bind c k).
Proof.
  intros Hc Hk t. unfold bind. specialize (Hc t). destruct (c t) as [a t1]. specialize (Hk a t1).
  cbn in Hc. destruct Hc as (? & ? & ?), Hk as (? & ? & ?). split_and!; congruence.
Qed.

Ltac side :=
  unfold report_status;
  repeat match goal with
    | |- side_step (bind _ _) => apply side_bind; [|intros ?]
    | |- side_step (ret _) => apply side_ret
    | |- side_step (modify _) => intros ?; split_and!; reflexivity
    | |- side_step (tget _) => intros ?; split_and!; reflexivity
    | |- side_step (if _ then _ else _) => case_match
    | |- side_step (match _ with _ => _ end) => case_match
    end.

Lemma step_start_inv log t :
  inside (viewing []) log t -> twp log t (step_start tc) (fun _ => thread_inv).
Proof.
  intros Hv. pose proof (mono_side _ side_report) as Hmr. unfold step_start.
  apply logwp_bind; [tmono|intros; tmono|]. apply logwp_gets. cbn [id].
  case_match.
  { apply logwp_bind; [tmono|intros; tmono|]. apply logwp_modify. apply (wp_goto (viewing [])); [exact Hv|by apply viewing_allows_based]. }
  apply logwp_bind; [tmono|intros; tmono|]. apply (wp_side (viewing [])); [apply side_report|done|].
  intros res t1 Hv1 _. destruct (decide (res <> 0)) as [Hne|Heq].
  { apply (close_destroy_goto _ (viewing [])); [done|by apply viewing_allows_based|by apply allows_based]. }
  apply logwp_bind; [tmono|intros; tmono|]. apply (wp_side (viewing [])); [side|done|]. intros _ t2 Hv2 _.
  apply logwp_bind; [tmono|intros; tmono|]. apply logwp_gets. cbn [id].
  apply logwp_bind; [tmono|intros; tmono|]. apply (wp_side (viewing [])); [side|done|]. intros _ t3 Hv3 _.
  apply logwp_bind; [tmono|intros; tmono|]. apply (wp_side (viewing [])); [side|done|]. intros _ t4 Hv4 _.
  apply logwp_bind; [tmono|intros; tmono|]. apply logwp_modify. apply (wp_goto (viewing [])); [exact Hv4|by intros ? ? ?].
Qed.

Lemma step_loop_end_inv log t :
  inside here log t -> twp log t step_loop_end (fun _ => thread_inv).
Proof.
  intros Hh. unfold step_loop_end. apply logwp_bind; [tmono|intros; tmono|]. apply wp_rdr, logwp_gets. cbn [id].
  apply logwp_bind; [tmono|intros; tmono|].
  apply (wp_conseq _ _ _ _ (fun _ log' t' => inside here log' t')).
  { case_match; [|by apply logwp_ret]. apply wp_rdr. destruct Hh as [Hh Hi]. eapply wp_conseq; [by apply wp_write_mark|].
    intros _ log' w' [Hh' _]. by split. }
  intros res log1 t1 Hh1. case_decide.
  - apply logwp_bind; [tmono|intros; tmono|]. apply (wp_stop here); [apply stable_here|done|].
    intros t2 [Hh2 Hi2] _. apply (wp_goto based); [split; [apply Hh2|done]|by apply allows_based].
  - apply logwp_bind; [tmono|intros; tmono|]. apply logwp_modify. apply logwp_bind; [tmono|intros; tmono|].
    apply wp_destroy; [destruct Hh1 as [Hh1 Hi1]; split; [apply Hh1|done]|]. intros t2 Hb2 _.
    apply logwp_bind; [tmono|intros; tmono|]. apply logwp_gets. case_match; apply (wp_goto based); done || by apply allows_based.
Qed.

Lemma step_end_inv log t : inside based log t -> twp log t step_end (fun _ => thread_inv).
Proof.
  intros Hb. unfold step_end. apply logwp_bind; [tmono|intros; tmono|]. apply logwp_modify. apply logwp_bind; [tmono|intros; tmono|].
  apply wp_destroy; [exact Hb|]. intros t2 Hb2 _. apply logwp_bind; [tmono|intros; tmono|]. apply logwp_gets. cbn [id].
  apply logwp_bind; [tmono|intros; tmono|]. apply (wp_side based); [side|done|]. intros _ t3 Hb3 _.
  apply (wp_goto based); [done|by apply allows_based].
Qed.

Lemma mono_send : tmono send_record.
Proof. intros t. unfold send_record. destruct (sync_to_peer _ _ _). apply Z.le_refl. Qed.
#[local] Hint Resolve mono_send : mono.

(** Sending does not move the reader. *)
Lemma wp_send line log t :
  inside (viewing line) log t -> parse_sync_record conf line blank_record = (0, t_record t) ->
  twp log t send_record (fun res log' t' =>
    inside (viewing line) log' t' /\ t_pc t' = t_pc t /\ (done_for_peer res -> inside (dealing line) log' t')).
Proof.
  intros [Hv Hi] Ep _ _. exists log. split; [apply extends_refl|]. unfold send_record.
  match goal with |- context [sync_to_peer ?v ?r ?p] => destruct (sync_to_peer v r p) as [res p'] eqn:E; set (h := Sent v r p) in * end.
  cbn -[sync_to_peer] in *. pose proof (viewing_remembered conf Hconf mname Hmname Hgz line log _ h Hv) as Hv1.
  match goal with |- context [set_w_reader ?r ?w] => assert (other_fields r (w_reader w)) as Hr by done end.
  split_and!; [split; [by apply viewing_reader|exact Hi]|done|]. intros Hd. split; [|exact Hi].
  apply dealing_reader; [|done]. split; [done|]. exists h. split; [left|]. unfold fits. rewrite Ep. unfold h. by rewrite E.
Qed.

Lemma mono_sync_data : tmono (storage_sync_data tc).
Proof. unfold storage_sync_data. tmono. Qed.
#[local] Hint Resolve mono_sync_data : mono.

Lemma wp_sync_data line log t :
  inside (viewing line) log t -> parse_sync_record conf line blank_record = (0, t_record t) ->
  twp log t (storage_sync_data tc) (fun res log' t' =>
    inside (viewing line) log' t' /\ t_pc t' = t_pc t /\ (res = 0 -> inside (dealing line) log' t')).
Proof.
  intros Hv Ep. unfold storage_sync_data. apply logwp_bind; [tmono|intros; tmono|].
  eapply wp_conseq; [by apply wp_send|]. intros [result|] log1 t1 (Hv1 & Hpc & Hd).
  2:{ apply logwp_ret. split_and!; [done..|]. intros _. apply Hd. by right. }
  case_decide as Hres; [|by apply logwp_ret]. subst result. specialize (Hd (or_introl eq_refl)).
  apply logwp_bind; [tmono|intros; tmono|]. apply wp_rdr, logwp_modify. set (t2 := set_t_world _ t1).
  assert (inside (dealing line) log1 t2) as Hd2 by (destruct Hd as [Hd Hi1]; split; [by apply dealing_reader|exact Hi1]).
  assert (forall log t' res, inside (dealing line) log t' -> t_pc t' = t_pc t ->
    inside (viewing line) log t' /\ t_pc t' = t_pc t /\ (res = 0 -> inside (dealing line) log t')) as Hpost.
  { intros log' t' res Hd' Hpc'. split_and!; [|done..]. by destruct Hd' as [[] ]. }
  apply logwp_bind; [tmono|intros; tmono|]. apply wp_rdr, logwp_gets. case_match; [|apply logwp_ret; by apply Hpost].
  apply logwp_bind; [tmono|intros; tmono|]. apply wp_rdr. destruct Hd2 as [Hd2 Hi2].
  eapply wp_conseq; [by apply wp_write_mark_dealing|]. intros res log3 w3 Hd3.
  apply logwp_bind; [tmono|intros; tmono|]. case_decide.
  - apply (wp_stop (dealing line)); [apply stable_dealing|by split|]. intros t4 Hd4 Hpc4. apply logwp_ret, Hpost; [done|].
    rewrite Hpc4. exact Hpc.
  - apply logwp_ret, logwp_ret, Hpost; [by split|exact Hpc].
Qed.

Lemma mono_at_log_end : tmono (at_log_end tc).
Proof. unfold at_log_end. tmono. Qed.
#[local] Hint Resolve mono_at_log_end : mono.

(** The mark is written, or the program stops. *)
Lemma wp_mark_or_stop (k : M SyncThread bool) (Q : bool -> (Z -> bytes) -> SyncThread -> Prop) log t :
  inside (viewing []) log t -> tmono k ->
  (forall log' t', inside (viewing []) log' t' -> t_pc t' = t_pc t -> twp log' t' k Q) ->
  (forall log' t', inside (viewing []) log' t' -> t_pc t' = t_pc t -> Q false log' t') ->
  twp log t (let! result := rdr storage_write_to_mark_file in
             if decide (result <> 0) then stop_program ;; ret false else k)%c Q.
Proof.
  intros [Hv Hi] Hmk Hk Hf. apply logwp_bind; [tmono|intros; tmono|]. apply wp_rdr.
  eapply wp_conseq; [by apply wp_write_mark_view|]. intros res log1 w1 [Hv1 _]. case_decide.
  - apply logwp_bind; [tmono|intros; tmono|]. apply (wp_stop (viewing [])); [apply stable_viewing|by split|].
    intros t2 Hv2 Hpc2. apply logwp_ret. by apply Hf.
  - by apply Hk.
Qed.

Lemma wp_at_log_end log t :
  inside (viewing []) log t -> t_pc t = P_Loop ->
  twp log t (at_log_end tc) (fun _ log' t' => inside (viewing []) log' t' /\ t_pc t' = P_Loop).
Proof.
  intros Hv Hpc. unfold at_log_end. apply logwp_bind; [tmono|intros; tmono|]. apply wp_rdr, logwp_gets. cbn [id].
  apply logwp_bind; [tmono|intros; tmono|].
  apply (wp_conseq _ _ _ _ (fun _ log' t' => inside (viewing []) log' t' /\ t_pc t' = P_Loop)).
  { case_match; [|by apply logwp_ret]. apply logwp_bind; [tmono|intros; tmono|]. apply wp_rdr, logwp_modify.
    apply wp_mark_or_stop; [|tmono| |].
    - destruct Hv as [Hv Hi]. split; [by apply viewing_reader|exact Hi].
    - intros log1 t1 Hv1 Hpc1. apply logwp_bind; [tmono|intros; tmono|]. apply logwp_gets. cbn [id].
      apply logwp_bind; [tmono|intros; tmono|]. apply (wp_side (viewing [])); [side|done|]. intros _ t2 Hv2 Hpc2.
      apply logwp_ret. split; [done|]. by rewrite Hpc2, Hpc1.
    - intros log1 t1 Hv1 Hpc1. split; [done|]. by rewrite Hpc1. }
  intros ok log1 t1 [Hv1 Hpc1]. destruct ok; cbn [negb]; [|by apply logwp_ret].
  apply logwp_bind; [tmono|intros; tmono|]. apply wp_rdr, logwp_gets. cbn [id]. apply logwp_bind; [tmono|intros; tmono|].
  apply (wp_conseq _ _ _ _ (fun _ log' t' => inside (viewing []) log' t' /\ t_pc t' = P_Loop)).
  { case_match; [|apply logwp_ret; split; [exact Hv1|exact Hpc1]]. apply wp_mark_or_stop; [exact Hv1|tmono| |].
    - intros log2 t2 Hv2 Hpc2. apply logwp_ret. split; [done|]. by rewrite Hpc2.
    - intros log2 t2 Hv2 Hpc2. split; [done|]. by rewrite Hpc2. }
  intros ok log2 t2 [Hv2 Hpc2]. destruct ok; cbn [negb]; [|by apply logwp_ret].
  apply logwp_bind; [tmono|intros; tmono|]. apply logwp_gets. cbn [id]. apply logwp_bind; [tmono|intros; tmono|]. apply logwp_modify.
  case_match; [|by apply logwp_ret]. destruct (fdfs_active_test _) as [res conn].
  apply logwp_bind; [tmono|intros; tmono|]. apply logwp_modify. case_decide; [by apply logwp_ret|].
  apply logwp_bind; [tmono|intros; tmono|]. apply logwp_modify. by apply logwp_ret.
Qed.

(** Going past a record. *)
Lemma mono_advance len : tmono (advance_record len).
Proof. unfold advance_record. tmono. Qed.
#[local] Hint Resolve mono_advance : mono.

Lemma wp_advance len log t :
  inside (fun log w => viewing [] log (advanced len w)) log t -> t_pc t = P_Loop ->
  twp log t (advance_record len) (fun _ => thread_inv).
Proof.
  intros [Hv Hi] Hpc. unfold advance_record. apply logwp_bind; [tmono|intros; tmono|].
  apply wp_rdr, logwp_modify. apply wp_rdr, logwp_modify.
  apply (inside_inv (viewing [])); [|cbn; rewrite Hpc; by intros ? ? ?]. split; [|exact Hi].
  apply (viewing_reader conf mname [] log (advanced len (t_world t))); [exact Hv|done].
Qed.

(** Going past a record that is none. *)
Lemma wp_pass_invalid len log t :
  inside (fun log w => viewing [] log (passed Invalid len w)) log t -> t_pc t = P_Loop ->
  twp log t (rdr (past Invalid) ;; advance_record len)%c (fun _ => thread_inv).
Proof.
  intros [Hv Hi] Hpc. apply logwp_bind; [tmono|intros; apply mono_advance|]. apply wp_rdr, logwp_modify.
  apply wp_advance; [by split|done].
Qed.

Lemma step_loop_inv log t :
  inside (viewing []) log t -> t_pc t = P_Loop -> twp log t (step_loop tc) (fun _ => thread_inv).
Proof.
  intros Hv Hpc. unfold step_loop. rewrite Htc. apply logwp_bind; [tmono|intros; tmono|]. apply logwp_gets. cbn [id].
  case_match; [apply (wp_goto (viewing [])); [done|by intros ? ? [? _]]|].
  pose proof (fun rec => mono_read conf Hconf mname Hmname rec) as Hmr.
  assert (allows P_LoopEnd (viewing [])) as Hend by (intros ? ? [? _]; done).
  apply logwp_bind; [tmono|intros; tmono|]. apply wp_rdr. destruct Hv as [Hv Hi].
  eapply wp_conseq; [by apply wp_read|]. intros [[res len] rec'] log1 w1 Hpost.
  apply logwp_bind; [tmono|intros; tmono|]. apply logwp_modify.
  set (t1 := set_t_record rec' (set_t_world w1 t)). assert (t_world t1 = w1 /\ t_pc t1 = P_Loop /\ id_ok t1 /\ t_record t1 = rec') as (Ew & Hpc1 & Hi1 & Er) by done.
  clearbody t1. remember (t_record t) as rec0 eqn:Erec in Hpost. clear dependent t. destruct (decide (res = ENOENT)) as [Hen|Hen].
  { destruct Hpost as [(line & Hv1 & _ & _ & Ep)|(Hv1 & _)].
    - exfalso. apply parse_fits in Ep. case_decide; [by subst|]. destruct Ep as [Ep _]. by rewrite Ep in Hen.
    - apply logwp_bind; [tmono|intros; tmono|]. eapply wp_conseq; [apply wp_at_log_end; [by split; [rewrite Ew|]|done]|].
      intros ok log2 t2 [Hv2 Hpc2]. destruct ok; [apply (wp_stay (viewing [])); [done|rewrite Hpc2; by intros ? ? ?]|].
      by apply (wp_goto (viewing [])). }
  assert (forall P, inside P log1 t1 -> twp log1 t1
      (if g_sync_part_time tc then let! t0 := tget id in modify (set_t_current_time (server_time t0)) else ret tt)%c
      (fun _ log' t' => inside P log' t' /\ t_pc t' = P_Loop /\ t_record t' = rec')) as Hclock.
  { intros P HP. case_match; [|by apply logwp_ret]. apply logwp_bind; [tmono|intros; tmono|]. apply logwp_gets, logwp_modify. by split. }
  destruct Hpost as [(line & Hv1 & Hu & -> & Ep)|(Hv1 & Hres & _ & Hlen)]; (apply logwp_bind; [tmono|intros; tmono|]).
  - apply parse_fits in Ep. eapply wp_conseq; [apply (Hclock (viewing line)); by split; [rewrite Ew|]|].
    intros _ log2 t2 (Hv2 & Hpc2 & Er2). clear dependent t1. destruct (decide (res <> 0)) as [Hres|Hres].
    + rewrite decide_False in Ep by done. destruct Ep as [-> Hfit].
      case_match; [|apply (wp_goto (viewing line)); [done|by intros ? ? [? _]]].
      apply wp_pass_invalid; [|done]. destruct Hv2 as [Hv2 Hi2]. split; [by apply passed_line|exact Hi2].
    + rewrite decide_True in Ep by lia. apply logwp_bind; [tmono|intros; tmono|].
      eapply wp_conseq; [apply (wp_sync_data line); [done|rewrite Er2; apply Ep]|]. intros res2 log3 t3 (Hv3 & Hpc3 & Hd3).
      apply logwp_bind; [tmono|intros; tmono|]. apply logwp_modify. set (t4 := set_t_sync_result _ t3).
      assert (inside (viewing line) log3 t4 /\ t_pc t4 = P_Loop /\ (res2 = 0 -> inside (dealing line) log3 t4))
        as (Hv4 & Hpc4 & Hd4) by (split_and!; [exact Hv3|cbn; congruence|exact Hd3]).
      clearbody t4. destruct (decide (res2 <> 0)) as [Hr2|Hr2].
      * apply logwp_bind; [tmono|intros; tmono|]. apply wp_rdr. destruct Hv4 as [Hv4 Hi4].
        eapply wp_conseq; [apply (wp_rewind conf mname Hgz line); [done|]|].
        { apply (v_pend _ _ _ _ _ Hv4). by intros ->. }
        intros res5 log5 w5 [Hh5 _]. apply logwp_bind; [tmono|intros; tmono|].
        eapply (wp_conseq _ _ _ _ (fun _ log' t' => inside here log' t')).
        { case_decide; [|by apply logwp_ret]. apply (wp_stop here); [apply stable_here|by split|]. done. }
        intros _ log6 t6 Hh6. apply (wp_goto here); [done|by intros ? ? ?].
      * apply wp_advance; [|done]. destruct Hd4 as [Hd4 Hi4]; [lia|]. split; [by apply advanced_line|exact Hi4].
  - eapply wp_conseq; [apply (Hclock (viewing [])); by split; [rewrite Ew|]|].
    intros _ log2 t2 (Hv2 & Hpc2 & Er2). rewrite decide_True by done.
    destruct ((res =? EINVAL) && g_file_sync_skip_invalid_record conf) eqn:Eskip; [|by apply (wp_goto (viewing []))].
    destruct Hlen as [-> _]; [unfold EINVAL in *; lia|]. apply wp_pass_invalid; [|done].
    destruct Hv2 as [Hv2 Hi2]. split; [by apply passed_none|exact Hi2].
Qed.

(** ** One step of the thread. *)
Lemma mono_step rec pc :
  tmono (match pc with
   | P_Outer => step_outer | P_WaitReady => step_wait_ready tc | P_WaitTime => step_wait_time | P_Connect => step_connect tc rec
   | P_WaitActive => step_wait_active | P_Start => step_start tc | P_Loop => step_loop tc | P_LoopEnd => step_loop_end
   | P_End => step_end | P_Done => ret tt
   end).
Proof.
  pose proof mono_connect_round as Hmono. pose proof (mono_side _ side_report) as Hmr.
  assert (tmono (after_connect tc rec)) as Hac by (unfold after_connect; rewrite Htc; tmono).
  destruct pc.
  - unfold step_outer. tmono.
  - unfold step_wait_ready. tmono.
  - unfold step_wait_time. tmono.
  - unfold step_connect. tmono.
  - unfold step_wait_active. tmono.
  - unfold step_start. tmono.
  - unfold step_loop. rewrite Htc. tmono.
  - unfold step_loop_end. tmono.
  - unfold step_end. tmono.
  - tmono.
Qed.

Lemma thread_step_inv rec log t :
  thread_inv log t -> small_mark (t_world t) -> twp log t (sync_thread_step tc rec) (fun _ => thread_inv).
Proof.
  intros [Hpc Hi] Hs. unfold sync_thread_step. unfold pc_inv in Hpc.
  apply logwp_bind; [tmono|intros pc; apply mono_step|].
  apply logwp_gets. destruct (t_pc t) eqn:Epc.
  - apply step_outer_inv. by split.
  - apply step_wait_ready_inv; [by split|done].
  - apply step_wait_time_inv; [by split|done].
  - by apply step_connect_inv; [split|..].
  - apply step_wait_active_inv; [by split|done].
  - apply step_start_inv. by split.
  - apply step_loop_inv; [by split|done].
  - apply step_loop_end_inv. by split.
  - apply step_end_inv. by split.
  - apply logwp_ret. split; [|done]. unfold pc_inv. by rewrite Epc.
Qed.

(** ** The server runs. *)

(** What the rest of the machine and of the network may change: time, the
    errors to come, the batches of writes that will fall into a read, the
    answers to come and the status of the peer. *)
Record surroundings := {
  su_faults : list (Z * nat);
  su_dirs : gset bytes;
  su_mtimes : gmap bytes Z;
  su_clock : Z;
  su_now : Z;
  su_continue : bool;
  su_schedule : list (list WriteCall);
  su_replies : list SrcReply;
  su_status : Z;
  su_ip_addr : bytes;
  su_view : PeerView;
  su_connects : list ConnectResult;
}.

Definition changed_fs (u : surroundings) (fs : FileSys) : FileSys :=
  mkFS (fs_names fs) (fs_inodes fs) (su_dirs u) (su_mtimes u) (su_clock u) (su_faults u).

Definition changed_sync (u : surroundings) (s : SyncState) : SyncState :=
  mkSync (changed_fs u (ss_fs s)) (g_binlog_fd s) (g_binlog_index s) (binlog_file_size s) (binlog_compress_index s)
    (binlog_write_cache s) (binlog_write_version s) (su_continue u) (su_now u).

Definition changed (u : surroundings) (t : SyncThread) : SyncThread :=
  let w := t_world t in
  set_t_connects (su_connects u) (set_t_view (su_view u)
    (set_t_storage (mkBrief (su_status u) (b_id (t_storage t)) (su_ip_addr u))
      (set_t_world (mkWorld (changed_sync u (w_sync w)) (w_reader w) (su_schedule u) (su_replies u) (w_history w)) t))).

Definition on_server (s : SyncState) (t : SyncThread) : SyncThread := set_t_world (set_w_sync s (t_world t)) t.

(** The server and one of its sync threads.  The step of the thread must not
    meet the start of a new file: a reader that saw the end of a file moves on
    to the next one and leaves what was flushed in between. *)
Inductive sync_step (t : SyncThread) : SyncThread -> Prop :=
  | step_thread rec :
      g_binlog_index (w_sync (t_world (sync_thread_step tc rec t).2)) = g_binlog_index (w_sync (t_world t)) ->
      sync_step t (sync_thread_step tc rec t).2
  | step_write calls : sync_step t (on_server (write_calls conf calls (w_sync (t_world t))).2 t)
  | step_compress readers : sync_step t (on_server (fdfs_binlog_compress_func conf readers (w_sync (t_world t))).2 t)
  | step_uncompress i : (* by another thread *)
      0 <= i <= g_binlog_index (w_sync (t_world t)) ->
      sync_step t (on_server (uncompress_binlog_file conf i (bname i) (w_sync (t_world t))).2 t)
  | step_other_mark name text :
      ~ log_name conf mname name -> ~ log_name conf mname (name ++ bs ".tmp") ->
      sync_step t (on_server (sys (safeWriteToFile name text) (w_sync (t_world t))).2 t)
  | step_changed u : sync_step t (changed u t)
  | step_restart i c s' t' :
      fs_faults (ss_fs (w_sync (t_world t))) = [] -> index_intact conf (w_sync (t_world t)) i c ->
      storage_sync_init conf (dead (w_sync (t_world t))) = (0, s') ->
      w_sync (t_world t') = s' -> w_history (t_world t') = w_history (t_world t) ->
      t_pc t' = P_Outer -> b_id (t_storage t') = b_id (t_storage t) ->
      sync_step t t'.

(** Runs in which the index of the file in use and the offset in the mark file
    are numbers of their types. *)
Inductive sync_reach (t0 : SyncThread) : SyncThread -> Prop :=
  | reach_start : sync_reach t0 t0
  | reach_step t t' :
      sync_reach t0 t -> small_mark (t_world t) -> sync_step t t' ->
      g_binlog_index (w_sync (t_world t')) < 2 ^ 31 - 1 -> sync_reach t0 t'.

(** A server whose thread has not run yet: no mark file, no history. *)
Definition sync_fresh (t : SyncThread) : Prop :=
  t_pc t = P_Outer /\ w_history (t_world t) = [] /\ mark_of (t_world t) = None /\ id_ok t /\
  0 < binlog_write_version (w_sync (t_world t)) /\ g_binlog_index (w_sync (t_world t)) < 2 ^ 31 - 1 /\
  exists log, log_inv log (w_sync (t_world t)) (mkReading None None).

Lemma pc_grows log t s' :
  thread_inv log t ->
  (forall rd, log_inv log (w_sync (t_world t)) rd ->
     exists log', log_inv log' s' rd /\ extends (gidx (t_world t)) log (g_binlog_index s') log' /\
       (version (t_world t) < binlog_write_version s' \/ (binlog_write_version s' = version (t_world t) /\ log' = log))) ->
  exists log', thread_inv log' (on_server s' t) /\ extends (gidx (t_world t)) log (g_binlog_index s') log'.
Proof.
  intros [Hpc Hi] Hs. unfold thread_inv, pc_inv in *.
  assert (forall P : (Z -> bytes) -> SyncWorld -> Prop,
    P log (t_world t) -> (exists f, log_inv log (w_sync (t_world t)) (mkReading f (mark_of (t_world t))) /\
      forall log', log_inv log' s' (mkReading f (mark_of (t_world t))) -> extends (gidx (t_world t)) log (g_binlog_index s') log' ->
        version (t_world t) < binlog_write_version s' \/ (binlog_write_version s' = version (t_world t) /\ log' = log) ->
        P log' (set_w_sync s' (t_world t))) ->
    exists log', P log' (set_w_sync s' (t_world t)) /\ extends (gidx (t_world t)) log (g_binlog_index s') log') as Hgrow.
  { intros P HP (f & Hf & Hk). destruct (Hs _ Hf) as (log' & Hl & He & Hver). exists log'. auto. }
  assert (viewing [] log (t_world t) -> exists log', viewing [] log' (set_w_sync s' (t_world t)) /\
    extends (gidx (t_world t)) log (g_binlog_index s') log') as Hv.
  { intros Hv. apply (Hgrow (viewing [])); [done|]. exists (file_of (w_reader (t_world t))). split; [apply Hv|]. intros log' Hl He Hver. by eapply viewing_grows. }
  assert (here log (t_world t) -> exists log', here log' (set_w_sync s' (t_world t)) /\
    extends (gidx (t_world t)) log (g_binlog_index s') log') as Hh.
  { intros Hh. apply (Hgrow here); [done|]. exists None. split; [apply Hh|]. intros log' Hl He Hver.
    eapply here_grows; [exact Hl| |exact He|done]. unfold version in *. lia. }
  assert (based log (t_world t) -> exists log', based log' (set_w_sync s' (t_world t)) /\
    extends (gidx (t_world t)) log (g_binlog_index s') log') as Hb.
  { intros Hb. apply (Hgrow based); [done|]. exists None. split; [apply Hb|]. intros log' Hl He Hver.
    eapply based_grows; [exact Hl| |exact He|done]. unfold version in *. lia. }
  cbn [on_server t_pc set_t_world t_world].
  destruct (t_pc t); first [destruct (Hv Hpc) as (log' & Hr & He) | destruct (Hh Hpc) as (log' & Hr & He) | destruct (Hb Hpc) as (log' & Hr & He)];
    exists log'; by split.
Qed.

Lemma pc_frames {A} log t (c : M SyncState A) :
  frames conf mname c (w_sync (t_world t)) -> gidx (t_world t) < 2 ^ 31 -> thread_inv log t ->
  exists log', thread_inv log' (on_server (c (w_sync (t_world t))).2 t) /\
    extends (gidx (t_world t)) log (g_binlog_index (c (w_sync (t_world t))).2) log'.
Proof.
  intros (Hg & _ & Hv & Hl) Hb Hinv. eapply pc_grows; [exact Hinv|]. intros rd Hrd. exists log.
  split; [by apply Hl|]. rewrite Hg. split; [apply extends_refl|by right].
Qed.

Lemma changed_inv u log t : thread_inv log t -> gidx (t_world t) < 2 ^ 31 -> thread_inv log (changed u t).
Proof.
  intros [Hpc Hi] Hg. assert (thread_inv log (on_server (changed_sync u (w_sync (t_world t))) t)) as [Hpc' Hi'].
  { split; [|done]. unfold pc_inv in *. cbn [on_server t_pc set_t_world t_world].
    assert (forall rd, log_inv log (w_sync (t_world t)) rd -> log_inv log (changed_sync u (w_sync (t_world t))) rd) as Hl.
    { intros rd [Hf Hc]. split; [|exact Hc]. eapply files_like; [|exact Hf]. done. }
    destruct (t_pc t); first [by apply stable_viewing | by apply stable_here | by apply stable_based]. }
  split; [|exact Hi']. unfold pc_inv in *. cbn [changed on_server t_pc set_t_connects set_t_view set_t_storage set_t_world t_world] in *.
  destruct (t_pc t).
  all: destruct Hpc' as [[[] ] ]; repeat (split; try assumption).
Qed.

Lemma thread_based log t : thread_inv log t -> based log (t_world t).
Proof. intros [Hpc _]. unfold pc_inv in Hpc. destruct (t_pc t); first [done | apply Hpc]. Qed.

Lemma sync_step_inv log t t' :
  sync_step t t' -> thread_inv log t -> small_mark (t_world t) -> gidx (t_world t) < 2 ^ 31 - 1 ->
  gidx (t_world t') < 2 ^ 31 - 1 ->
  exists log', thread_inv log' t' /\ extends (gidx (t_world t)) log (gidx (t_world t')) log'.
Proof.
  intros Hstep Hinv Hs Hg Hg'. pose proof (thread_based _ _ Hinv) as Hb. pose proof (b_log _ _ _ _ Hb) as Hl.
  assert (gidx (t_world t) < 2 ^ 31) as Hg31 by lia. assert (0 <= gidx (t_world t)) as Hg0 by (by destruct Hl as [[] _]).
  destruct Hstep as [rec Eg|calls|readers|i Hi|name text Hn1 Hn2|u|i c s' t' Hnf Hindex Hinit Es Eh Epc Eid].
  - destruct (thread_step_inv rec log t Hinv Hs Hg31 Eg) as (log' & He & Hr). exists log'. split; [done|]. unfold gidx in *. by rewrite Eg.
  - eapply pc_grows; [exact Hinv|]. intros rd Hrd. apply (write_calls_log conf Hconf mname Hmname Hgz); [|done].
    unfold gidx in Hg'. cbn in Hg'. lia.
  - eapply pc_frames; [|done|done]. apply frames_compress_func; [done..|]. apply Hl.
  - eapply pc_frames; [|done|done]. by apply frames_uncompress.
  - eapply pc_frames; [|done|done]. apply (frames_sys_other conf mname [name; name ++ bs ".tmp"]).
    + by repeat constructor.
    + apply only_safe_write; set_solver.
  - exists log. split; [by apply changed_inv|apply extends_refl].
  - assert (0 <= i < 2 ^ 31) as Hi31 by (unfold gidx in *; destruct Hindex as (_ & Hi & _); lia).
    destruct (storage_sync_init_inv conf Hconf mname Hmname Hgz log (w_sync (t_world t)) i c (mkReading None (mark_of (t_world t))))
      as (s2 & E2 & Egi & _ & Ev & log' & Hl' & He); [done..|].
    rewrite Hinit in E2. injection E2 as <-. exists log'.
    pose proof (mark_same _ _ _ _ _ _ Hl') as Em. destruct Hinv as [_ Hid'].
    assert (based log' (t_world t')) as Hb'.
    { split.
      - unfold mark_of. rewrite Es, Em. exact Hl'.
      - intros txt Ht. unfold mark_of in Ht. rewrite Es, Em in Ht. destruct (b_mark _ _ _ _ Hb txt Ht) as (r & -> & Hir & Hp).
        exists r. split; [done|]. rewrite Eh. unfold gidx. rewrite Es. split; [destruct He; unfold gidx in *; lia|].
        by eapply place_extends.
      - unfold version. rewrite Es, Ev. lia. }
    split; [split; [unfold pc_inv; by rewrite Epc|unfold id_ok in *; by rewrite Eid]|].
    unfold gidx at 2. by rewrite Es, Egi.
Qed.

Lemma sync_reach_inv t0 t :
  sync_fresh t0 -> sync_reach t0 t -> gidx (t_world t) < 2 ^ 31 - 1 /\
  exists log0 log, log_inv log0 (w_sync (t_world t0)) (mkReading None None) /\ thread_inv log t /\
    extends (gidx (t_world t0)) log0 (gidx (t_world t)) log.
Proof.
  intros (Hpc & Hh & Hm & Hi & Hv & Hg & log0 & Hl). induction 1 as [|t t' _ [Hgt (log0' & log & Hl' & Hinv & He)] Hs Hstep Hg'].
  - split; [done|]. exists log0, log0. split; [done|]. split; [|apply extends_refl]. split; [|done]. unfold pc_inv. rewrite Hpc.
    split; [by rewrite Hm| |done]. intros t Ht. by rewrite Hm in Ht.
  - split; [done|]. destruct (sync_step_inv _ _ _ Hstep Hinv Hs Hgt Hg') as (log' & Hinv' & He'). exists log0', log'.
    split_and!; [done..|]. eapply extends_trans; [|done..]. by destruct Hl' as [[] _].
Qed.

(** What a file holds is what the log says. *)
Lemma holds_unique log s rd i body :
  log_inv log s rd -> 0 <= i <= g_binlog_index s -> holds conf (ss_fs s) i body -> body = log i.
Proof.
  intros [[_ _ (x & Hx & Ht & _) Hh _ _] _] Hi Hb. destruct (decide (i = g_binlog_index s)) as [->|Hne].
  - destruct Hb as [Hb|[Hn _]]; [|congruence]. unfold fs_text in Hb. rewrite Hx in Hb. cbn in Hb. congruence.
  - destruct (Hh i ltac:(lia)) as [Ht'|[Hn' Ht']], Hb as [Hb|[Hn Hb]].
    + congruence.
    + unfold fs_text in Ht'. by rewrite Hn in Ht'.
    + unfold fs_text in Hb. by rewrite Hn' in Hb.
    + rewrite Ht' in Hb. injection Hb as Hb. symmetry. by apply gzip_text_inj.
Qed.

(** C2: In every state a run can reach, whatever system calls and
    connections fail on the way and whenever the server is restarted, as long
    as no new binlog file begins within one step of the thread (there the code
    loses records), servers are known by address, restarts find the index file
    whole and no failing system call, and numbers fit their types, all complete lines of the binlog in front of the position in
    the mark file were dealt with: the history has a call of [sync_to_peer] with
    the record of the line and one of the two results that mean it is settled
    (see [sync_confirmed] and [sync_passed_over]), or the record is older than
    what the peer was started from, or the line is not a record. *)
Theorem no_record_passed_over t0 t text c j body x l :
  sync_fresh t0 -> sync_reach t0 t -> small_mark (t_world t) ->
  mark_of (t_world t) = Some text -> iniLoadFromText text = inr c ->
  holds conf (ss_fs (w_sync (t_world t))) j body -> line_at body x l ->
  let i := iniGetIntValue MARK_ITEM_BINLOG_FILE_INDEX c (-1) in
  let o := iniGetInt64Value MARK_ITEM_BINLOG_FILE_OFFSET c (-1) in
  0 <= j < i \/ (j = i /\ Z.of_nat x < o) ->
  exists h, (j, Z.of_nat x, h) ∈ w_history (t_world t) /\ fits conf h l.
Proof.
  intros Hf Hr Hs Ht Hc Hbody Hline i o Hpos. destruct (sync_reach_inv _ _ Hf Hr) as (Hg & _ & log & _ & Hinv & _).
  pose proof (thread_based _ _ Hinv) as [Hl Hm _].
  destruct (mark_place conf Hconf mname Hmname Hgz log (t_world t) text c) as [Hi Hp]; [lia|done..|]. fold i o in Hi, Hp.
  pose proof (pl_index _ _ _ _ _ Hp). rewrite (holds_unique _ _ _ j body Hl ltac:(unfold gidx in *; lia) Hbody) in Hline.
  destruct Hpos as [Hj|[-> Hx]]; [by apply (pl_before _ _ _ _ _ Hp j Hj)|].
  apply (pl_here _ _ _ _ _ Hp). pose proof (pl_offset _ _ _ _ _ Hp).
  apply (line_at_prefix _ (drop (Z.to_nat o) (log i))); [apply Hp| |by rewrite take_drop].
  rewrite length_take. lia.
Qed.

(** C16: What is in the binlog files stays there: in every state a run can
    reach, whatever system calls fail, as long as no new file begins within one
    step of the sync thread, servers are known by address, and restarts find the
    index file whole and no failing system call (a start with a damaged index
    file writes over the binlog), a file of the beginning
    still holds its text, plain or compressed; only
    the file that was in use may have got more text behind it. *)
Theorem binlog_text_stays t0 t j body :
  sync_fresh t0 -> sync_reach t0 t ->
  0 <= j <= g_binlog_index (w_sync (t_world t0)) -> holds conf (ss_fs (w_sync (t_world t0))) j body ->
  exists more, holds conf (ss_fs (w_sync (t_world t))) j (body ++ more) /\
    (j < g_binlog_index (w_sync (t_world t0)) -> more = []).
Proof.
  intros Hf Hr Hj Hbody. destruct (sync_reach_inv _ _ Hf Hr) as (_ & log0 & log & Hl0 & Hinv & [Hg Ho [d Hd]]).
  rewrite (holds_unique _ _ _ j body Hl0 Hj Hbody).
  assert (holds conf (ss_fs (w_sync (t_world t))) j (log j)) as Hhold.
  { destruct (thread_based _ _ Hinv) as [[[_ _ (x & Hx & Hxt & _) Hh _ _] _] _ _]. unfold gidx in *.
    destruct (decide (j = g_binlog_index (w_sync (t_world t)))) as [->|]; [|apply Hh; lia].
    left. unfold fs_text. by rewrite Hx. }
  destruct (decide (j = g_binlog_index (w_sync (t_world t0)))) as [->|Hne].
  - exists d. unfold gidx in *. rewrite <- Hd. split; [done|lia].
  - exists []. rewrite app_nil_r, <- (Ho j) by (unfold gidx; lia). done.
Qed.
End thread.
