(* ===== verification/SyncRecords.v ===== *)
(** * Records of the binlog: written and read back (proofs). *)

From S2P Require Import Prelude FastCommon TrunkShared TrunkBinlog FileSys SyncBinlog SyncReader SyncFiles.

Lemma split_src_some a b : 32 ∉ a -> split_src (a ++ 32 :: b) = Some (a, b).
Proof.
  induction a as [|c a IH]; [done|]. intros Hn. apply not_elem_of_cons in Hn as [Hc Hn]. cbn [app split_src].
  rewrite decide_False by done. by rewrite IH.
Qed.

Lemma split_src_none a : 32 ∉ a -> split_src a = None.
Proof.
  induction a as [|c a IH]; [done|]. intros Hn. apply not_elem_of_cons in Hn as [Hc Hn]. cbn [split_src].
  rewrite decide_False by done. by rewrite IH.
Qed.

Section records.
Context `{FastCommonLaws} (conf : SyncConf).

(** The text behind the operation. *)
Definition record_text (filename : bytes) (extra : option bytes) : bytes :=
  filename ++ match extra with Some x => 32 :: x | None => [] end.

(** What a caller of [storage_binlog_write_ex] has: a time, a letter, a name in
    an existing store path and, for links and renames, a source; for other
    operations what follows the name stays part of it. *)
Record record_ok (ts op i : Z) (name : bytes) (extra : option bytes) : Prop := {
  ro_ts : is_int32 ts;
  ro_op : op <> 0 /\ op <> 10 /\ op <> 32;
  ro_path : is_uint8 i /\ i < Z.of_nat (length (g_store_paths conf));
  ro_name : (6 < length name)%nat;
  ro_text : Forall (fun c => c <> 0 /\ c <> 10) (record_text name extra);
  ro_space : has_src_filename op = true -> 32 ∉ name;
  ro_length : (length (record_text (logic_name i name) extra) <= 127)%nat;
}.

Lemma logic_name_text i name extra : record_text (logic_name i name) extra = logic_name i (record_text name extra).
Proof. unfold record_text, logic_name. by rewrite !app_assoc. Qed.

Lemma binlog_line_text ts op filename extra :
  binlog_line ts op filename extra = join 32 ([fmt_d ts; [op]] ++ [record_text filename extra ++ [10]]).
Proof. unfold binlog_line, record_text. cbn. by rewrite <- !app_assoc. Qed.

Lemma fmt_d_plain n c : c ∈ fmt_d n -> c <> 0 /\ c <> 10 /\ c <> 32.
Proof.
  intros Hc. pose proof (fmt_d_chars n) as Hf. rewrite Forall_forall in Hf. apply Hf in Hc. lia.
Qed.

Lemma logic_prefix_chars i c : is_uint8 i -> c ∈ bs "M" ++ fmt_02X i ++ bs "/" -> c <> 0 /\ c <> 10 /\ c <> 32.
Proof.
  intros Hi Hc. assert (forallb (fun i => forallb (fun c => negb (c =? 0) && negb (c =? 10) && negb (c =? 32))
    (bs "M" ++ fmt_02X (Z.of_nat i) ++ bs "/")) (seq 0 256) = true) as Hall by (vm_compute; reflexivity).
  rewrite forallb_forall in Hall. unfold is_uint8 in Hi. specialize (Hall (Z.to_nat i)). rewrite Z2Nat.id in Hall by lia.
  rewrite forallb_forall in Hall. specialize (Hall ltac:(apply in_seq; lia) c ltac:(by apply list_elem_of_In)). lia.
Qed.

(** C17: the line that [storage_binlog_write_ex] appends for a record is what
    [storage_binlog_read] gets back, whole and with its fields: the line reader
    finds its end in whatever follows it, and the parser returns the time, the
    operation, the name with its store path and the source. *)
Theorem binlog_record_roundtrip ts op i name extra rest rec :
  record_ok ts op i name extra ->
  let filename := logic_name i name in
  let line := binlog_line ts op filename extra in
  let len b := Z.of_nat (length b) in
  storage_binlog_do_line_read STORAGE_BINLOG_LINE_SIZE (line ++ rest) = (0, line, rest) /\
  parse_sync_record conf line rec =
    (0, if has_src_filename op
        then mkSyncRecord ts op filename name (default [] extra) (len filename) (len name) (len (default [] extra)) i
        else let whole := record_text name extra in
             mkSyncRecord ts op (logic_name i whole) whole [] (len (logic_name i whole)) (len whole) 0 i).
Proof.
  intros [Hts (Hop0 & Hop1 & Hop2) [Hi Hip] Hname Htext Hspace Hlen] filename line len. rewrite Forall_forall in Htext.
  assert (forall c, c ∈ record_text filename extra -> c <> 0 /\ c <> 10) as Hchars.
  { intros c. unfold filename. rewrite logic_name_text. unfold logic_name. rewrite !app_assoc, elem_of_app, <- app_assoc.
    intros [Hc|Hc]; [apply logic_prefix_chars in Hc; tauto|by apply Htext]. }
  set (body := fmt_d ts ++ [32; op; 32] ++ record_text filename extra).
  assert (line = body ++ [10]) as El.
  { unfold line, body, binlog_line, record_text. by rewrite <- !app_assoc. }
  assert (forall c, c ∈ body -> c <> 0 /\ c <> 10) as Hbody.
  { intros c. unfold body. rewrite !elem_of_app, !elem_of_cons, elem_of_nil.
    intros [Hc|[[->|[->|[->|[]]]]|Hc]]; [apply fmt_d_plain in Hc; tauto|lia..|by apply Hchars]. }
  assert (10 ∉ body) as Hnl by (intros Hc; by destruct (Hbody _ Hc)).
  pose proof (fmt_d_length ts Hts) as Hfd.
  assert (length line <= 142)%nat as Hll.
  { rewrite El. unfold body. rewrite !length_app. cbn [length]. fold filename in Hlen. lia. }
  split.
  - unfold storage_binlog_do_line_read. rewrite bool_decide_eq_false_2 by (rewrite El; by destruct body).
    rewrite El, upto_line, <- El, drop_app_length by done. rewrite (proj2 (Z.leb_gt _ _)); [done|].
    unfold STORAGE_BINLOG_LINE_SIZE. lia.
  - unfold parse_sync_record. rewrite cstr_no_nul.
    2:{ rewrite El. apply Forall_app. split; [|by repeat constructor]. apply Forall_forall. intros c Hc. by apply Hbody. }
    unfold line. rewrite binlog_line_text, splitEx_rest.
    2:{ repeat constructor; [intros Hc; apply fmt_d_plain in Hc; tauto|]. intros [Hc|Hc]%elem_of_cons; [congruence|by apply elem_of_nil in Hc]. }
    2:{ done. }
    cbn [app hd]. set (text := record_text filename extra) in *.
    replace (Z.of_nat (length (text ++ [10])) - 1) with (Z.of_nat (length text)) by (rewrite length_app; cbn; lia).
    fold filename in Hlen. fold text in Hlen. rewrite (proj2 (Z.ltb_ge _ 0)), (proj2 (Z.ltb_ge 127 _)) by lia. cbn [orb].
    rewrite Nat2Z.id, take_app_length, atoi_fmt by done. unfold storage_split_filename_ex.
    destruct (has_src_filename op).
    + specialize (Hspace eq_refl). assert (32 ∉ filename) as Hsp.
      { unfold filename, logic_name. rewrite !app_assoc, elem_of_app, <- app_assoc. intros [Hc|Hc]; [|done].
        apply logic_prefix_chars in Hc; [tauto|done]. }
      assert (split_src text = match extra with Some x => Some (filename, x) | None => None end) as ->.
      { unfold text, record_text. destruct extra as [x|]; [by apply split_src_some|]. rewrite app_nil_r. by apply split_src_none. }
      destruct extra as [x|]; cbn [default]; [|unfold text, record_text; rewrite app_nil_r];
        unfold filename; by rewrite split_body_logic_name.
    + assert (text = logic_name i (record_text name extra)) as Et by apply logic_name_text. clearbody text. subst text.
      rewrite split_body_logic_name; [done|done|unfold record_text; rewrite length_app; lia|done].
Qed.
End records.

(** ** The cache of the writer. *)
Section cache.
Context `{FastFiles} (conf : SyncConf).

Lemma fsync_empties s : binlog_write_cache (storage_binlog_fsync conf s).2 = [].
Proof. unfold storage_binlog_fsync. rewrite !bind_snd. done. Qed.

Definition cache_len (s : SyncState) : Z := Z.of_nat (length (binlog_write_cache s)).

(** Room for one more line. *)
Definition has_room (s : SyncState) : Prop := cache_len s <= SYNC_BINLOG_WRITE_BUFF_SIZE - 256.

Lemma room_after_call c s : has_room s -> has_room (write_call conf c s).2.
Proof.
  unfold has_room, cache_len. intros Hs. destruct c as [ts op filename extra|]; cbn [write_call].
  - unfold storage_binlog_write_ex. rewrite !bind_snd. cbn [gets modify fst snd].
    destruct (Z.ltb_spec (SYNC_BINLOG_WRITE_BUFF_SIZE -
      Z.of_nat (length (binlog_write_cache (set_binlog_write_cache (binlog_write_cache s ++ binlog_line ts op filename extra) s)))) 256).
    + rewrite fsync_empties. done.
    + cbn [ret snd]. lia.
  - unfold fdfs_binlog_sync_func. rewrite bind_snd. cbn [gets fst snd].
    case_bool_decide; [done|]. by rewrite fsync_empties.
Qed.

Lemma room_after_calls l s : has_room s -> has_room (write_calls conf l s).2.
Proof.
  revert s. induction l as [|c l IH]; intros s Hs; [done|]. cbn [write_calls]. rewrite bind_snd. by apply IH, room_after_call.
Qed.

(** C39: the 16 KB of the write cache are enough.  Whatever was written before,
    and whether the flushes in between succeeded or failed, the next line of
    less than 256 bytes fits behind what the cache holds, with the NUL that
    [sprintf] puts behind it. *)
Theorem write_cache_fits l s ts op filename extra :
  has_room s -> (length (binlog_line ts op filename extra) < 256)%nat ->
  cache_len (write_calls conf l s).2 + Z.of_nat (length (binlog_line ts op filename extra)) + 1 <= SYNC_BINLOG_WRITE_BUFF_SIZE.
Proof. intros Hs Hl. pose proof (room_after_calls l s Hs). unfold has_room in *. lia. Qed.
End cache.
