(* ===== verification/DataFiles.v ===== *)
(** * The files of a store path.

    Names lead to inodes; an inode is a regular file, a symbolic link or a
    directory.  A system call takes the next of [d_faults]: an errno (0 for
    success; an exhausted list is success) and, for a write, how many bytes are
    written before it fails.  A fault also stands for what is not modelled, such
    as missing directories, permissions and full disks. *)

From S2P Require Import Prelude FastCommon TrunkShared.

Inductive Node := Regular (data : bytes) | Symlink (target : bytes) | Directory.

Record Inode := mkInode { i_node : Node; i_mtime : Z }.

Record DataFs := mkDataFs {
  d_names : gmap bytes nat;
  d_inodes : list Inode;
  d_clock : Z;
  d_faults : list (Z * nat);
}.

Definition set_d_names x s := mkDataFs x (d_inodes s) (d_clock s) (d_faults s).
Definition set_d_inodes x s := mkDataFs (d_names s) x (d_clock s) (d_faults s).
Definition set_d_faults x s := mkDataFs (d_names s) (d_inodes s) (d_clock s) x.

Definition S_IFDIR : Z := 0x4000.
Definition S_IFMT : Z := 0xF000.
Definition S_ISREG (mode : Z) : bool := Z.land mode S_IFMT =? S_IFREG.

Definition EISDIR : Z := 21.
Definition ELOOP : Z := 40.

(** ** Looking. *)
Definition inode_of (s : DataFs) (name : bytes) : option Inode := d_names s !! name ≫= fun i => d_inodes s !! i.

(** What a regular file holds. *)
Definition content (s : DataFs) (name : bytes) : option bytes :=
  inode_of s name ≫= fun i => match i_node i with Regular data => Some data | _ => None end.

Definition stat_of (i : Inode) : Stat :=
  match i_node i with
  | Regular data => {| st_mode := S_IFREG; st_size := Z.of_nat (length data); st_mtime := i_mtime i |}
  | Symlink target => {| st_mode := S_IFLNK; st_size := Z.of_nat (length target); st_mtime := i_mtime i |}
  | Directory => {| st_mode := S_IFDIR; st_size := 0; st_mtime := i_mtime i |}
  end.

(** The name at the end of a chain of symbolic links. *)
Fixpoint follow (fuel : nat) (s : DataFs) (name : bytes) : Z + bytes :=
  match inode_of s name with
  | Some (mkInode (Symlink target) _) =>
      match fuel with O => inl ELOOP | S fuel' => follow fuel' s target end
  | _ => inr name
  end.

Definition max_links : nat := 40.

Definition found (o : option Inode) : Z + Stat :=
  match o with Some i => inr (stat_of i) | None => inl ENOENT end.

(** The files as they are now, where looking fails with [e] and opening for
    reading with [e']. *)
Definition view_with (e e' : Z) (s : DataFs) : FileView := {|
  sys_stat name := if decide (e <> 0) then inl e
                   else match follow max_links s name with inl e => inl e | inr n => found (inode_of s n) end;
  sys_lstat name := if decide (e <> 0) then inl e else found (inode_of s name);
  sys_read name := if decide (e' <> 0) then inl e'
                   else match follow max_links s name with
                        | inl e => inl e
                        | inr n => match inode_of s n with
                                   | Some (mkInode (Regular data) _) => inr data
                                   | Some _ => inl EISDIR
                                   | None => inl ENOENT
                                   end
                        end;
|}.

Definition data_call : M DataFs (Z * nat) := fun s =>
  match d_faults s with
  | [] => ((0, 0%nat), s)
  | f :: l => (f, set_d_faults l s)
  end.

(** A lookup of several calls. *)
Definition data_view : M DataFs FileView :=
  (let! f := data_call in let! g := data_call in gets (view_with f.1 g.1))%c.

Definition data_lstat (name : bytes) : M DataFs (Z + Stat) :=
  (let! f := data_call in gets (fun s => sys_lstat (view_with f.1 0 s) name))%c.

Definition data_stat (name : bytes) : M DataFs (Z + Stat) :=
  (let! f := data_call in gets (fun s => sys_stat (view_with f.1 0 s) name))%c.

(** [access(name, F_OK)]. *)
Definition data_access (name : bytes) : M DataFs Z :=
  (let! st := data_stat name in ret (match st with inl e => e | inr _ => 0 end))%c.

(** ** Descriptors. *)
Record OpenFile := mkOpen { of_inode : nat; of_pos : Z; of_append : bool }.

(** The access mode is left out: every descriptor is used as it was opened. *)
Record OpenFlags := { fl_create : bool; fl_trunc : bool; fl_append : bool }.
Definition O_RDONLY : OpenFlags := {| fl_create := false; fl_trunc := false; fl_append := false |}.
Definition O_WRONLY : OpenFlags := O_RDONLY.
Definition O_RDWR : OpenFlags := O_RDONLY.
Definition O_WRONLY_CREAT_TRUNC : OpenFlags := {| fl_create := true; fl_trunc := true; fl_append := false |}.
Definition O_WRONLY_APPEND : OpenFlags := {| fl_create := false; fl_trunc := false; fl_append := true |}.

Definition create_inode (name : bytes) (n : Node) (s : DataFs) : DataFs :=
  set_d_inodes (d_inodes s ++ [mkInode n (d_clock s)]) (set_d_names (<[name := length (d_inodes s)]> (d_names s)) s).

Definition put_data (i : nat) (data : bytes) (s : DataFs) : DataFs :=
  set_d_inodes (<[i := mkInode (Regular data) (d_clock s)]> (d_inodes s)) s.

Definition file_data (s : DataFs) (i : nat) : bytes :=
  match d_inodes s !! i with Some (mkInode (Regular data) _) => data | _ => [] end.

Definition data_open (name : bytes) (flags : OpenFlags) : M DataFs (Z + OpenFile) :=
  (let! f := data_call in
   if decide (f.1 <> 0) then ret (inl f.1)
   else
     let! s := gets id in
     match follow max_links s name with
     | inl e => ret (inl e)
     | inr name =>
         match d_names s !! name with
         | Some i =>
             match d_inodes s !! i with
             | Some (mkInode (Regular _) _) =>
                 (if fl_trunc flags then modify (put_data i []) else ret tt) ;;
                 ret (inr (mkOpen i 0 (fl_append flags)))
             | _ => ret (inl EISDIR)
             end
         | None =>
             if fl_create flags then
               modify (create_inode name (Regular [])) ;;
               ret (inr (mkOpen (length (d_inodes s)) 0 (fl_append flags)))
             else ret (inl ENOENT)
         end
     end)%c.

(** [open(name, O_WRONLY | O_CREAT | O_EXCL)]. *)
Definition data_open_excl (name : bytes) : M DataFs (Z + OpenFile) :=
  (let! f := data_call in
   if decide (f.1 <> 0) then ret (inl f.1)
   else
     let! s := gets id in
     match d_names s !! name with
     | Some _ => ret (inl EEXIST)
     | None => modify (create_inode name (Regular [])) ;; ret (inr (mkOpen (length (d_inodes s)) 0 false))
     end)%c.

(** Bytes put into a file at [off], with zeros up to there. *)
Definition put_at (off : Z) (data b : bytes) : bytes :=
  let o := Z.to_nat off in
  take o (b ++ replicate (o - length b) 0) ++ data ++ drop (o + length data) b.

(** [lseek(fd, off, SEEK_SET)]. *)
Definition data_seek (fd : OpenFile) (off : Z) : M DataFs (Z + OpenFile) :=
  (let! f := data_call in
   ret (if decide (f.1 <> 0) then inl f.1 else if off <? 0 then inl EINVAL
        else inr (mkOpen (of_inode fd) off (of_append fd))))%c.

(** [fc_safe_write]: the errno, 0 when all was written. *)
Definition data_write (fd : OpenFile) (data : bytes) : M DataFs (Z * OpenFile) :=
  (let! f := data_call in
   let written := if decide (f.1 <> 0) then take f.2 data else data in
   let! old := gets (fun s => file_data s (of_inode fd)) in
   let off := if of_append fd then Z.of_nat (length old) else of_pos fd in
   modify (put_data (of_inode fd) (put_at off written old)) ;;
   ret (f.1, mkOpen (of_inode fd) (off + Z.of_nat (length written)) (of_append fd)))%c.

(** [fc_safe_read]: what there is, up to [count] bytes. *)
Definition data_read (fd : OpenFile) (count : Z) : M DataFs (Z + bytes * OpenFile) :=
  (let! f := data_call in
   if decide (f.1 <> 0) then ret (inl f.1)
   else
     let! old := gets (fun s => file_data s (of_inode fd)) in
     let part := take (Z.to_nat (Z.min count (Z.of_nat (length old)))) (drop (Z.to_nat (of_pos fd)) old) in
     ret (inr (part, mkOpen (of_inode fd) (of_pos fd + Z.of_nat (length part)) (of_append fd))))%c.

Definition data_ftruncate (fd : OpenFile) (size : Z) : M DataFs Z :=
  (let! f := data_call in
   if decide (f.1 <> 0) then ret f.1
   else if size <? 0 then ret EINVAL
   else modify (fun s => let old := file_data s (of_inode fd) in
          put_data (of_inode fd) (take (Z.to_nat size) old ++ replicate (Z.to_nat size - length old) 0) s) ;;
        ret 0)%c.

(** ** Names. *)
Definition is_directory (s : DataFs) (name : bytes) : bool :=
  match inode_of s name with Some (mkInode Directory _) => true | _ => false end.

Definition data_unlink (name : bytes) : M DataFs Z :=
  (let! f := data_call in
   if decide (f.1 <> 0) then ret f.1
   else
     let! s := gets id in
     match d_names s !! name with
     | None => ret ENOENT
     | Some _ => if is_directory s name then ret EISDIR
                 else modify (fun s => set_d_names (delete name (d_names s)) s) ;; ret 0
     end)%c.

Definition data_rename (old new : bytes) : M DataFs Z :=
  (let! f := data_call in
   if decide (f.1 <> 0) then ret f.1
   else
     let! s := gets id in
     match d_names s !! old with
     | None => ret ENOENT
     | Some i =>
         if is_directory s new then ret EISDIR
         else modify (fun s => set_d_names (<[new := i]> (delete old (d_names s))) s) ;; ret 0
     end)%c.

Definition data_symlink (target name : bytes) : M DataFs Z :=
  (let! f := data_call in
   if decide (f.1 <> 0) then ret f.1
   else
     let! s := gets id in
     match d_names s !! name with
     | Some _ => ret EEXIST
     | None => modify (create_inode name (Symlink target)) ;; ret 0
     end)%c.

(** [readlink] into [size] bytes. *)
Definition data_readlink (name : bytes) (size : Z) : M DataFs (Z + bytes) :=
  (let! f := data_call in
   if decide (f.1 <> 0) then ret (inl f.1)
   else
     let! i := gets (fun s => inode_of s name) in
     ret (match i with
          | Some (mkInode (Symlink target) _) => inr (take (Z.to_nat size) target)
          | Some _ => inl EINVAL
          | None => inl ENOENT
          end))%c.

(** [writeToFile] and [getFileContent]. *)
Definition data_put_file (name : bytes) (buff : bytes) : M DataFs Z :=
  (let! fd := data_open name O_WRONLY_CREAT_TRUNC in
   match fd with
   | inl e => ret (errno_or e EIO)
   | inr fd => let! w := data_write fd buff in ret (if decide (w.1 <> 0) then errno_or w.1 EIO else 0)
   end)%c.

Definition data_get_file (name : bytes) : M DataFs (Z + bytes) :=
  (let! fd := data_open name O_RDONLY in
   match fd with
   | inl e => ret (inl (errno_or e EIO))
   | inr fd =>
       let! size := gets (fun s => Z.of_nat (length (file_data s (of_inode fd)))) in
       let! r := data_read fd size in
       ret (match r with inl e => inl (errno_or e EIO) | inr (b, _) => inr b end)
   end)%c.

(** [set_file_utimes]: its failure is not looked at. *)
Definition data_utimes (name : bytes) (time : Z) : M DataFs unit :=
  (let! f := data_call in
   if decide (f.1 <> 0) then ret tt
   else modify (fun s => match follow max_links s name with
          | inr n => match d_names s !! n with
                     | Some i => set_d_inodes (alter (fun x => mkInode (i_node x) time) i (d_inodes s)) s
                     | None => s
                     end
          | inl _ => s
          end))%c.
