(* ===== verification/StorageTask.v ===== *)
(** * A request of a storage server ([storage_nio.h], [storage_nio.c]).

    A task is one connection: its buffer, how much of the request has arrived,
    and the file it works on.  A request is received in pieces of at most the
    buffer's size; the first goes to [storage_deal_task], the others to the
    function the first one left behind.  Function pointers are names here. *)

From S2P Require Import Prelude FastCommon TrunkShared SharedFunc StorePath TrunkMem TrackerTypes StorageIds FileSys SyncBinlog Net DataFiles.

Definition FDFS_STORAGE_STAGE_NIO_INIT : Z := 0.
Definition FDFS_STORAGE_STAGE_NIO_RECV : Z := 1.
Definition FDFS_STORAGE_STAGE_NIO_SEND : Z := 2.
Definition FDFS_STORAGE_STAGE_NIO_CLOSE : Z := 4.
Definition FDFS_STORAGE_STAGE_DIO_THREAD : Z := 8.

Definition FDFS_STORAGE_FILE_OP_READ : Z := ch "R".
Definition FDFS_STORAGE_FILE_OP_WRITE : Z := ch "W".
Definition FDFS_STORAGE_FILE_OP_APPEND : Z := ch "A".
Definition FDFS_STORAGE_FILE_OP_DELETE : Z := ch "D".
Definition FDFS_STORAGE_FILE_OP_DISCARD : Z := ch "d".

Definition FILE_TYPE_APPENDER : Z := 1.
Definition FILE_TYPE_TRUNK : Z := 2.
Definition FILE_TYPE_SLAVE : Z := 4.
Definition FILE_TYPE_REGULAR : Z := 8.
Definition FILE_TYPE_LINK : Z := 16.

Definition STORAGE_STATUE_DEAL_FILE : Z := 123456.

(** The functions that the pointers of the sources lead to. *)
Inductive DealFunc :=
  | Deal_dio_read_file | Deal_dio_write_file | Deal_dio_truncate_file | Deal_dio_discard_file
  | Deal_dio_delete_normal_file | Deal_dio_delete_trunk_file | Deal_storage_do_sync_link_file
  | Deal_storage_do_set_metadata | Deal_storage_do_create_link.

Inductive CleanFunc :=
  | Clean_dio_read | Clean_dio_write | Clean_dio_append | Clean_dio_modify | Clean_dio_trunk_write.

Inductive DoneCallback :=
  | Done_sync_delete_file | Done_sync_truncate_file | Done_sync_copy_file | Done_sync_modify_file
  | Done_get_metadata | Done_download_file | Done_delete_fdfs_file | Done_upload_file | Done_append_file
  | Done_modify_file | Done_do_truncate_file | Done_trunk_create_link_file
  | Done_calc_crc32_for_query_finfo | Done_calc_crc32_for_regenerate.

Inductive ContinueCallback := Continue_nio_notify | Continue_calc_crc32.
Inductive BeforeOpen := Check_trunk_file_when_upload | Check_trunk_file_when_sync.
Inductive BeforeClose := Write_chunk_header.

Record StorageUploadInfo := mkUpload {
  up_if_gen_filename : bool;
  up_file_type : Z;
  up_if_sub_path_alloced : bool;
  up_master_filename : bytes;
  up_file_ext_name : bytes;
  up_formatted_ext_name : bytes;
  up_prefix_name : bytes;
  up_group_name : bytes;
  up_start_time : Z;
  up_trunk_info : FDFSTrunkFullInfo;
  up_before_open_callback : option BeforeOpen;
  up_before_close_callback : option BeforeClose;
}.

Definition set_up_if_gen_filename (x : bool) r := mkUpload x (up_file_type r) (up_if_sub_path_alloced r) (up_master_filename r) (up_file_ext_name r) (up_formatted_ext_name r) (up_prefix_name r) (up_group_name r) (up_start_time r) (up_trunk_info r) (up_before_open_callback r) (up_before_close_callback r).
Definition set_up_file_type (x : Z) r := mkUpload (up_if_gen_filename r) x (up_if_sub_path_alloced r) (up_master_filename r) (up_file_ext_name r) (up_formatted_ext_name r) (up_prefix_name r) (up_group_name r) (up_start_time r) (up_trunk_info r) (up_before_open_callback r) (up_before_close_callback r).
Definition set_up_if_sub_path_alloced (x : bool) r := mkUpload (up_if_gen_filename r) (up_file_type r) x (up_master_filename r) (up_file_ext_name r) (up_formatted_ext_name r) (up_prefix_name r) (up_group_name r) (up_start_time r) (up_trunk_info r) (up_before_open_callback r) (up_before_close_callback r).
Definition set_up_master_filename (x : bytes) r := mkUpload (up_if_gen_filename r) (up_file_type r) (up_if_sub_path_alloced r) x (up_file_ext_name r) (up_formatted_ext_name r) (up_prefix_name r) (up_group_name r) (up_start_time r) (up_trunk_info r) (up_before_open_callback r) (up_before_close_callback r).
Definition set_up_file_ext_name (x : bytes) r := mkUpload (up_if_gen_filename r) (up_file_type r) (up_if_sub_path_alloced r) (up_master_filename r) x (up_formatted_ext_name r) (up_prefix_name r) (up_group_name r) (up_start_time r) (up_trunk_info r) (up_before_open_callback r) (up_before_close_callback r).
Definition set_up_formatted_ext_name (x : bytes) r := mkUpload (up_if_gen_filename r) (up_file_type r) (up_if_sub_path_alloced r) (up_master_filename r) (up_file_ext_name r) x (up_prefix_name r) (up_group_name r) (up_start_time r) (up_trunk_info r) (up_before_open_callback r) (up_before_close_callback r).
Definition set_up_prefix_name (x : bytes) r := mkUpload (up_if_gen_filename r) (up_file_type r) (up_if_sub_path_alloced r) (up_master_filename r) (up_file_ext_name r) (up_formatted_ext_name r) x (up_group_name r) (up_start_time r) (up_trunk_info r) (up_before_open_callback r) (up_before_close_callback r).
Definition set_up_group_name (x : bytes) r := mkUpload (up_if_gen_filename r) (up_file_type r) (up_if_sub_path_alloced r) (up_master_filename r) (up_file_ext_name r) (up_formatted_ext_name r) (up_prefix_name r) x (up_start_time r) (up_trunk_info r) (up_before_open_callback r) (up_before_close_callback r).
Definition set_up_start_time (x : Z) r := mkUpload (up_if_gen_filename r) (up_file_type r) (up_if_sub_path_alloced r) (up_master_filename r) (up_file_ext_name r) (up_formatted_ext_name r) (up_prefix_name r) (up_group_name r) x (up_trunk_info r) (up_before_open_callback r) (up_before_close_callback r).
Definition set_up_trunk_info (x : FDFSTrunkFullInfo) r := mkUpload (up_if_gen_filename r) (up_file_type r) (up_if_sub_path_alloced r) (up_master_filename r) (up_file_ext_name r) (up_formatted_ext_name r) (up_prefix_name r) (up_group_name r) (up_start_time r) x (up_before_open_callback r) (up_before_close_callback r).
Definition set_up_before_open_callback (x : option BeforeOpen) r := mkUpload (up_if_gen_filename r) (up_file_type r) (up_if_sub_path_alloced r) (up_master_filename r) (up_file_ext_name r) (up_formatted_ext_name r) (up_prefix_name r) (up_group_name r) (up_start_time r) (up_trunk_info r) x (up_before_close_callback r).
Definition set_up_before_close_callback (x : option BeforeClose) r := mkUpload (up_if_gen_filename r) (up_file_type r) (up_if_sub_path_alloced r) (up_master_filename r) (up_file_ext_name r) (up_formatted_ext_name r) (up_prefix_name r) (up_group_name r) (up_start_time r) (up_trunk_info r) (up_before_open_callback r) x.

Record StorageSetMetaInfo := mkSetMeta { sm_op_flag : Z; sm_meta_buff : bytes }.

Record StorageFileContext := mkFileContext {
  fc_filename : bytes;
  fc_fname2log : bytes;
  fc_op : Z;
  fc_sync_flag : Z;
  fc_calc_crc32 : bool;
  fc_open_flags : OpenFlags;
  fc_crc32 : Z;
  fc_upload : StorageUploadInfo;
  fc_setmeta : StorageSetMetaInfo;
  fc_dio_thread_index : Z;
  fc_timestamp2log : Z;
  fc_delete_flag : Z;
  fc_create_flag : Z;
  fc_buff_offset : Z;
  fc_fd : option OpenFile;
  fc_start : Z;
  fc_end : Z;
  fc_offset : Z;
  fc_continue_callback : ContinueCallback;
  fc_done_callback : option DoneCallback;
}.

Definition set_fc_filename (x : bytes) r := mkFileContext x (fc_fname2log r) (fc_op r) (fc_sync_flag r) (fc_calc_crc32 r) (fc_open_flags r) (fc_crc32 r) (fc_upload r) (fc_setmeta r) (fc_dio_thread_index r) (fc_timestamp2log r) (fc_delete_flag r) (fc_create_flag r) (fc_buff_offset r) (fc_fd r) (fc_start r) (fc_end r) (fc_offset r) (fc_continue_callback r) (fc_done_callback r).
Definition set_fc_fname2log (x : bytes) r := mkFileContext (fc_filename r) x (fc_op r) (fc_sync_flag r) (fc_calc_crc32 r) (fc_open_flags r) (fc_crc32 r) (fc_upload r) (fc_setmeta r) (fc_dio_thread_index r) (fc_timestamp2log r) (fc_delete_flag r) (fc_create_flag r) (fc_buff_offset r) (fc_fd r) (fc_start r) (fc_end r) (fc_offset r) (fc_continue_callback r) (fc_done_callback r).
Definition set_fc_op (x : Z) r := mkFileContext (fc_filename r) (fc_fname2log r) x (fc_sync_flag r) (fc_calc_crc32 r) (fc_open_flags r) (fc_crc32 r) (fc_upload r) (fc_setmeta r) (fc_dio_thread_index r) (fc_timestamp2log r) (fc_delete_flag r) (fc_create_flag r) (fc_buff_offset r) (fc_fd r) (fc_start r) (fc_end r) (fc_offset r) (fc_continue_callback r) (fc_done_callback r).
Definition set_fc_sync_flag (x : Z) r := mkFileContext (fc_filename r) (fc_fname2log r) (fc_op r) x (fc_calc_crc32 r) (fc_open_flags r) (fc_crc32 r) (fc_upload r) (fc_setmeta r) (fc_dio_thread_index r) (fc_timestamp2log r) (fc_delete_flag r) (fc_create_flag r) (fc_buff_offset r) (fc_fd r) (fc_start r) (fc_end r) (fc_offset r) (fc_continue_callback r) (fc_done_callback r).
Definition set_fc_calc_crc32 (x : bool) r := mkFileContext (fc_filename r) (fc_fname2log r) (fc_op r) (fc_sync_flag r) x (fc_open_flags r) (fc_crc32 r) (fc_upload r) (fc_setmeta r) (fc_dio_thread_index r) (fc_timestamp2log r) (fc_delete_flag r) (fc_create_flag r) (fc_buff_offset r) (fc_fd r) (fc_start r) (fc_end r) (fc_offset r) (fc_continue_callback r) (fc_done_callback r).
Definition set_fc_open_flags (x : OpenFlags) r := mkFileContext (fc_filename r) (fc_fname2log r) (fc_op r) (fc_sync_flag r) (fc_calc_crc32 r) x (fc_crc32 r) (fc_upload r) (fc_setmeta r) (fc_dio_thread_index r) (fc_timestamp2log r) (fc_delete_flag r) (fc_create_flag r) (fc_buff_offset r) (fc_fd r) (fc_start r) (fc_end r) (fc_offset r) (fc_continue_callback r) (fc_done_callback r).
Definition set_fc_crc32 (x : Z) r := mkFileContext (fc_filename r) (fc_fname2log r) (fc_op r) (fc_sync_flag r) (fc_calc_crc32 r) (fc_open_flags r) x (fc_upload r) (fc_setmeta r) (fc_dio_thread_index r) (fc_timestamp2log r) (fc_delete_flag r) (fc_create_flag r) (fc_buff_offset r) (fc_fd r) (fc_start r) (fc_end r) (fc_offset r) (fc_continue_callback r) (fc_done_callback r).
Definition set_fc_upload (x : StorageUploadInfo) r := mkFileContext (fc_filename r) (fc_fname2log r) (fc_op r) (fc_sync_flag r) (fc_calc_crc32 r) (fc_open_flags r) (fc_crc32 r) x (fc_setmeta r) (fc_dio_thread_index r) (fc_timestamp2log r) (fc_delete_flag r) (fc_create_flag r) (fc_buff_offset r) (fc_fd r) (fc_start r) (fc_end r) (fc_offset r) (fc_continue_callback r) (fc_done_callback r).
Definition set_fc_setmeta (x : StorageSetMetaInfo) r := mkFileContext (fc_filename r) (fc_fname2log r) (fc_op r) (fc_sync_flag r) (fc_calc_crc32 r) (fc_open_flags r) (fc_crc32 r) (fc_upload r) x (fc_dio_thread_index r) (fc_timestamp2log r) (fc_delete_flag r) (fc_create_flag r) (fc_buff_offset r) (fc_fd r) (fc_start r) (fc_end r) (fc_offset r) (fc_continue_callback r) (fc_done_callback r).
Definition set_fc_dio_thread_index (x : Z) r := mkFileContext (fc_filename r) (fc_fname2log r) (fc_op r) (fc_sync_flag r) (fc_calc_crc32 r) (fc_open_flags r) (fc_crc32 r) (fc_upload r) (fc_setmeta r) x (fc_timestamp2log r) (fc_delete_flag r) (fc_create_flag r) (fc_buff_offset r) (fc_fd r) (fc_start r) (fc_end r) (fc_offset r) (fc_continue_callback r) (fc_done_callback r).
Definition set_fc_timestamp2log (x : Z) r := mkFileContext (fc_filename r) (fc_fname2log r) (fc_op r) (fc_sync_flag r) (fc_calc_crc32 r) (fc_open_flags r) (fc_crc32 r) (fc_upload r) (fc_setmeta r) (fc_dio_thread_index r) x (fc_delete_flag r) (fc_create_flag r) (fc_buff_offset r) (fc_fd r) (fc_start r) (fc_end r) (fc_offset r) (fc_continue_callback r) (fc_done_callback r).
Definition set_fc_delete_flag (x : Z) r := mkFileContext (fc_filename r) (fc_fname2log r) (fc_op r) (fc_sync_flag r) (fc_calc_crc32 r) (fc_open_flags r) (fc_crc32 r) (fc_upload r) (fc_setmeta r) (fc_dio_thread_index r) (fc_timestamp2log r) x (fc_create_flag r) (fc_buff_offset r) (fc_fd r) (fc_start r) (fc_end r) (fc_offset r) (fc_continue_callback r) (fc_done_callback r).
Definition set_fc_create_flag (x : Z) r := mkFileContext (fc_filename r) (fc_fname2log r) (fc_op r) (fc_sync_flag r) (fc_calc_crc32 r) (fc_open_flags r) (fc_crc32 r) (fc_upload r) (fc_setmeta r) (fc_dio_thread_index r) (fc_timestamp2log r) (fc_delete_flag r) x (fc_buff_offset r) (fc_fd r) (fc_start r) (fc_end r) (fc_offset r) (fc_continue_callback r) (fc_done_callback r).
Definition set_fc_buff_offset (x : Z) r := mkFileContext (fc_filename r) (fc_fname2log r) (fc_op r) (fc_sync_flag r) (fc_calc_crc32 r) (fc_open_flags r) (fc_crc32 r) (fc_upload r) (fc_setmeta r) (fc_dio_thread_index r) (fc_timestamp2log r) (fc_delete_flag r) (fc_create_flag r) x (fc_fd r) (fc_start r) (fc_end r) (fc_offset r) (fc_continue_callback r) (fc_done_callback r).
Definition set_fc_fd (x : option OpenFile) r := mkFileContext (fc_filename r) (fc_fname2log r) (fc_op r) (fc_sync_flag r) (fc_calc_crc32 r) (fc_open_flags r) (fc_crc32 r) (fc_upload r) (fc_setmeta r) (fc_dio_thread_index r) (fc_timestamp2log r) (fc_delete_flag r) (fc_create_flag r) (fc_buff_offset r) x (fc_start r) (fc_end r) (fc_offset r) (fc_continue_callback r) (fc_done_callback r).
Definition set_fc_start (x : Z) r := mkFileContext (fc_filename r) (fc_fname2log r) (fc_op r) (fc_sync_flag r) (fc_calc_crc32 r) (fc_open_flags r) (fc_crc32 r) (fc_upload r) (fc_setmeta r) (fc_dio_thread_index r) (fc_timestamp2log r) (fc_delete_flag r) (fc_create_flag r) (fc_buff_offset r) (fc_fd r) x (fc_end r) (fc_offset r) (fc_continue_callback r) (fc_done_callback r).
Definition set_fc_end (x : Z) r := mkFileContext (fc_filename r) (fc_fname2log r) (fc_op r) (fc_sync_flag r) (fc_calc_crc32 r) (fc_open_flags r) (fc_crc32 r) (fc_upload r) (fc_setmeta r) (fc_dio_thread_index r) (fc_timestamp2log r) (fc_delete_flag r) (fc_create_flag r) (fc_buff_offset r) (fc_fd r) (fc_start r) x (fc_offset r) (fc_continue_callback r) (fc_done_callback r).
Definition set_fc_offset (x : Z) r := mkFileContext (fc_filename r) (fc_fname2log r) (fc_op r) (fc_sync_flag r) (fc_calc_crc32 r) (fc_open_flags r) (fc_crc32 r) (fc_upload r) (fc_setmeta r) (fc_dio_thread_index r) (fc_timestamp2log r) (fc_delete_flag r) (fc_create_flag r) (fc_buff_offset r) (fc_fd r) (fc_start r) (fc_end r) x (fc_continue_callback r) (fc_done_callback r).
Definition set_fc_continue_callback (x : ContinueCallback) r := mkFileContext (fc_filename r) (fc_fname2log r) (fc_op r) (fc_sync_flag r) (fc_calc_crc32 r) (fc_open_flags r) (fc_crc32 r) (fc_upload r) (fc_setmeta r) (fc_dio_thread_index r) (fc_timestamp2log r) (fc_delete_flag r) (fc_create_flag r) (fc_buff_offset r) (fc_fd r) (fc_start r) (fc_end r) (fc_offset r) x (fc_done_callback r).
Definition set_fc_done_callback (x : option DoneCallback) r := mkFileContext (fc_filename r) (fc_fname2log r) (fc_op r) (fc_sync_flag r) (fc_calc_crc32 r) (fc_open_flags r) (fc_crc32 r) (fc_upload r) (fc_setmeta r) (fc_dio_thread_index r) (fc_timestamp2log r) (fc_delete_flag r) (fc_create_flag r) (fc_buff_offset r) (fc_fd r) (fc_start r) (fc_end r) (fc_offset r) (fc_continue_callback r) x.

(** Where a task is: it waits for its socket, for a disk thread, for its own
    thread (in the pipe), it is to be closed or closed; [Elsewhere] is a handler
    that is not modelled, [Overrun] one that has written behind an array. *)
Inductive Place := AtSocket | InDio | InPipe | Closing | Closed | Elsewhere | Overrun.

(** What [extra_arg] points to: [StorageFileInfoForCRC32], or
    [TrunkCreateLinkArg] (without the signature, which is for FastDHT). *)
Inductive ExtraArg :=
  | Extra_file_info (storage_id fsize mtime : Z)
  | Extra_create_link (src_true_filename : bytes) (need_response : bool).

(** The buffer has [tk_size] bytes; [tk_sent] is all that was answered. *)
Record Task := mkTask {
  tk_data : bytes;
  tk_size : Z;
  tk_length : Z;
  tk_offset : Z;
  tk_fd : Z;
  tk_client_ip : bytes;
  tk_place : Place;
  tk_sent : bytes;
  ci_stage : Z;
  ci_storage_server_id : bytes;
  ci_file_context : StorageFileContext;
  ci_total_length : Z;
  ci_total_offset : Z;
  ci_pSrcStorage : option bytes;
  ci_extra_arg : option ExtraArg;
  ci_deal_func : option DealFunc;
  ci_clean_func : option CleanFunc;
}.

Definition set_tk_data (x : bytes) r := mkTask x (tk_size r) (tk_length r) (tk_offset r) (tk_fd r) (tk_client_ip r) (tk_place r) (tk_sent r) (ci_stage r) (ci_storage_server_id r) (ci_file_context r) (ci_total_length r) (ci_total_offset r) (ci_pSrcStorage r) (ci_extra_arg r) (ci_deal_func r) (ci_clean_func r).
Definition set_tk_size (x : Z) r := mkTask (tk_data r) x (tk_length r) (tk_offset r) (tk_fd r) (tk_client_ip r) (tk_place r) (tk_sent r) (ci_stage r) (ci_storage_server_id r) (ci_file_context r) (ci_total_length r) (ci_total_offset r) (ci_pSrcStorage r) (ci_extra_arg r) (ci_deal_func r) (ci_clean_func r).
Definition set_tk_length (x : Z) r := mkTask (tk_data r) (tk_size r) x (tk_offset r) (tk_fd r) (tk_client_ip r) (tk_place r) (tk_sent r) (ci_stage r) (ci_storage_server_id r) (ci_file_context r) (ci_total_length r) (ci_total_offset r) (ci_pSrcStorage r) (ci_extra_arg r) (ci_deal_func r) (ci_clean_func r).
Definition set_tk_offset (x : Z) r := mkTask (tk_data r) (tk_size r) (tk_length r) x (tk_fd r) (tk_client_ip r) (tk_place r) (tk_sent r) (ci_stage r) (ci_storage_server_id r) (ci_file_context r) (ci_total_length r) (ci_total_offset r) (ci_pSrcStorage r) (ci_extra_arg r) (ci_deal_func r) (ci_clean_func r).
Definition set_tk_fd (x : Z) r := mkTask (tk_data r) (tk_size r) (tk_length r) (tk_offset r) x (tk_client_ip r) (tk_place r) (tk_sent r) (ci_stage r) (ci_storage_server_id r) (ci_file_context r) (ci_total_length r) (ci_total_offset r) (ci_pSrcStorage r) (ci_extra_arg r) (ci_deal_func r) (ci_clean_func r).
Definition set_tk_client_ip (x : bytes) r := mkTask (tk_data r) (tk_size r) (tk_length r) (tk_offset r) (tk_fd r) x (tk_place r) (tk_sent r) (ci_stage r) (ci_storage_server_id r) (ci_file_context r) (ci_total_length r) (ci_total_offset r) (ci_pSrcStorage r) (ci_extra_arg r) (ci_deal_func r) (ci_clean_func r).
Definition set_tk_place (x : Place) r := mkTask (tk_data r) (tk_size r) (tk_length r) (tk_offset r) (tk_fd r) (tk_client_ip r) x (tk_sent r) (ci_stage r) (ci_storage_server_id r) (ci_file_context r) (ci_total_length r) (ci_total_offset r) (ci_pSrcStorage r) (ci_extra_arg r) (ci_deal_func r) (ci_clean_func r).
Definition set_tk_sent (x : bytes) r := mkTask (tk_data r) (tk_size r) (tk_length r) (tk_offset r) (tk_fd r) (tk_client_ip r) (tk_place r) x (ci_stage r) (ci_storage_server_id r) (ci_file_context r) (ci_total_length r) (ci_total_offset r) (ci_pSrcStorage r) (ci_extra_arg r) (ci_deal_func r) (ci_clean_func r).
Definition set_ci_stage (x : Z) r := mkTask (tk_data r) (tk_size r) (tk_length r) (tk_offset r) (tk_fd r) (tk_client_ip r) (tk_place r) (tk_sent r) x (ci_storage_server_id r) (ci_file_context r) (ci_total_length r) (ci_total_offset r) (ci_pSrcStorage r) (ci_extra_arg r) (ci_deal_func r) (ci_clean_func r).
Definition set_ci_storage_server_id (x : bytes) r := mkTask (tk_data r) (tk_size r) (tk_length r) (tk_offset r) (tk_fd r) (tk_client_ip r) (tk_place r) (tk_sent r) (ci_stage r) x (ci_file_context r) (ci_total_length r) (ci_total_offset r) (ci_pSrcStorage r) (ci_extra_arg r) (ci_deal_func r) (ci_clean_func r).
Definition set_ci_file_context (x : StorageFileContext) r := mkTask (tk_data r) (tk_size r) (tk_length r) (tk_offset r) (tk_fd r) (tk_client_ip r) (tk_place r) (tk_sent r) (ci_stage r) (ci_storage_server_id r) x (ci_total_length r) (ci_total_offset r) (ci_pSrcStorage r) (ci_extra_arg r) (ci_deal_func r) (ci_clean_func r).
Definition set_ci_total_length (x : Z) r := mkTask (tk_data r) (tk_size r) (tk_length r) (tk_offset r) (tk_fd r) (tk_client_ip r) (tk_place r) (tk_sent r) (ci_stage r) (ci_storage_server_id r) (ci_file_context r) x (ci_total_offset r) (ci_pSrcStorage r) (ci_extra_arg r) (ci_deal_func r) (ci_clean_func r).
Definition set_ci_total_offset (x : Z) r := mkTask (tk_data r) (tk_size r) (tk_length r) (tk_offset r) (tk_fd r) (tk_client_ip r) (tk_place r) (tk_sent r) (ci_stage r) (ci_storage_server_id r) (ci_file_context r) (ci_total_length r) x (ci_pSrcStorage r) (ci_extra_arg r) (ci_deal_func r) (ci_clean_func r).
Definition set_ci_pSrcStorage (x : option bytes) r := mkTask (tk_data r) (tk_size r) (tk_length r) (tk_offset r) (tk_fd r) (tk_client_ip r) (tk_place r) (tk_sent r) (ci_stage r) (ci_storage_server_id r) (ci_file_context r) (ci_total_length r) (ci_total_offset r) x (ci_extra_arg r) (ci_deal_func r) (ci_clean_func r).
Definition set_ci_extra_arg (x : option ExtraArg) r := mkTask (tk_data r) (tk_size r) (tk_length r) (tk_offset r) (tk_fd r) (tk_client_ip r) (tk_place r) (tk_sent r) (ci_stage r) (ci_storage_server_id r) (ci_file_context r) (ci_total_length r) (ci_total_offset r) (ci_pSrcStorage r) x (ci_deal_func r) (ci_clean_func r).
Definition set_ci_deal_func (x : option DealFunc) r := mkTask (tk_data r) (tk_size r) (tk_length r) (tk_offset r) (tk_fd r) (tk_client_ip r) (tk_place r) (tk_sent r) (ci_stage r) (ci_storage_server_id r) (ci_file_context r) (ci_total_length r) (ci_total_offset r) (ci_pSrcStorage r) (ci_extra_arg r) x (ci_clean_func r).
Definition set_ci_clean_func (x : option CleanFunc) r := mkTask (tk_data r) (tk_size r) (tk_length r) (tk_offset r) (tk_fd r) (tk_client_ip r) (tk_place r) (tk_sent r) (ci_stage r) (ci_storage_server_id r) (ci_file_context r) (ci_total_length r) (ci_total_offset r) (ci_pSrcStorage r) (ci_extra_arg r) (ci_deal_func r) x.

(** What the tasks of a server share: the files, the writer of the binlog,
    [temp_file_sequence], the counters of [g_storage_stat] by name, the last
    change seen from each server of the group, what [stat] reports while a
    trunk file is waited for, the results of taking memory, the choice of store
    paths and directories, what [rand] will return, and what the trunk server
    will answer. *)
Record Service := mkService {
  s_files : DataFs;
  s_binlog : SyncState;
  s_temp_file_sequence : Z;
  s_counts : gmap bytes Z;
  s_sources : gmap bytes Z;
  s_observations : list StatObs;
  s_errnos : list Z;
  s_dist : DistState;
  s_rands : list Z;
  s_trunk_answers : list (Z + FDFSTrunkFullInfo);
}.

Definition set_s_files (x : DataFs) r := mkService x (s_binlog r) (s_temp_file_sequence r) (s_counts r) (s_sources r) (s_observations r) (s_errnos r) (s_dist r) (s_rands r) (s_trunk_answers r).
Definition set_s_binlog (x : SyncState) r := mkService (s_files r) x (s_temp_file_sequence r) (s_counts r) (s_sources r) (s_observations r) (s_errnos r) (s_dist r) (s_rands r) (s_trunk_answers r).
Definition set_s_temp_file_sequence (x : Z) r := mkService (s_files r) (s_binlog r) x (s_counts r) (s_sources r) (s_observations r) (s_errnos r) (s_dist r) (s_rands r) (s_trunk_answers r).
Definition set_s_counts (x : gmap bytes Z) r := mkService (s_files r) (s_binlog r) (s_temp_file_sequence r) x (s_sources r) (s_observations r) (s_errnos r) (s_dist r) (s_rands r) (s_trunk_answers r).
Definition set_s_sources (x : gmap bytes Z) r := mkService (s_files r) (s_binlog r) (s_temp_file_sequence r) (s_counts r) x (s_observations r) (s_errnos r) (s_dist r) (s_rands r) (s_trunk_answers r).
Definition set_s_observations (x : list StatObs) r := mkService (s_files r) (s_binlog r) (s_temp_file_sequence r) (s_counts r) (s_sources r) x (s_errnos r) (s_dist r) (s_rands r) (s_trunk_answers r).
Definition set_s_errnos (x : list Z) r := mkService (s_files r) (s_binlog r) (s_temp_file_sequence r) (s_counts r) (s_sources r) (s_observations r) x (s_dist r) (s_rands r) (s_trunk_answers r).
Definition set_s_dist (x : DistState) r := mkService (s_files r) (s_binlog r) (s_temp_file_sequence r) (s_counts r) (s_sources r) (s_observations r) (s_errnos r) x (s_rands r) (s_trunk_answers r).
Definition set_s_rands (x : list Z) r := mkService (s_files r) (s_binlog r) (s_temp_file_sequence r) (s_counts r) (s_sources r) (s_observations r) (s_errnos r) (s_dist r) x (s_trunk_answers r).
Definition set_s_trunk_answers (x : list (Z + FDFSTrunkFullInfo)) r := mkService (s_files r) (s_binlog r) (s_temp_file_sequence r) (s_counts r) (s_sources r) (s_observations r) (s_errnos r) (s_dist r) (s_rands r) x.

(** The settings the requests depend on. *)
Record StorageConf := {
  st_sync : SyncConf;
  st_group_name : bytes;
  st_trunk_file_size : Z;
  st_zero_buffer_length : Z;
  g_disk_rw_separated : bool;
  g_disk_reader_threads : Z;
  g_disk_writer_threads : Z;
  st_place : StorePathConf;
  st_if_use_trunk_file : bool;
  st_slot_max_size : Z;
  st_store_slave_file_use_link : bool;
  st_server_id_in_filename : Z;
  st_storage_ids : option StorageIds;
  st_INFINITE_FILE_SIZE : Z;
  st_IP_ADDRESS_SIZE : Z;
}.

Record Serving := mkServing { s_service : Service; s_task : Task }.

Definition set_service x s := mkServing x (s_task s).
Definition set_task x s := mkServing (s_service s) x.

Notation "'fail_if' b 'with' e ;;; k" := (if b then ret e else k)
  (at level 200, e at level 10, k at level 200, right associativity) : c_scope.

(** A value, or an early return with the errno. *)
Notation "'let?' p := c 'in' k" := (bind c (fun r => match r with inl e => ret e | inr p => k end))
  (at level 200, p pattern, c at level 100, k at level 200, right associativity) : c_scope.

Local Open Scope c_scope.

Definition files {A} (c : M DataFs A) : M Serving A := fun s =>
  let '(a, x) := c (s_files (s_service s)) in (a, set_service (set_s_files x (s_service s)) s).

Definition binlog {A} (c : M SyncState A) : M Serving A := fun s =>
  let '(a, x) := c (s_binlog (s_service s)) in (a, set_service (set_s_binlog x (s_service s)) s).

Definition service (f : Service -> Service) : M Serving unit := modify (fun s => set_service (f (s_service s)) s).
Definition task (f : Task -> Task) : M Serving unit := modify (fun s => set_task (f (s_task s)) s).
Definition file (f : StorageFileContext -> StorageFileContext) : M Serving unit :=
  task (fun t => set_ci_file_context (f (ci_file_context t)) t).
Definition upload (f : StorageUploadInfo -> StorageUploadInfo) : M Serving unit :=
  file (fun c => set_fc_upload (f (fc_upload c)) c).

Definition the_task {A} (f : Task -> A) : M Serving A := gets (fun s => f (s_task s)).
Definition the_file {A} (f : StorageFileContext -> A) : M Serving A := the_task (fun t => f (ci_file_context t)).
Definition now : M Serving Z := gets (fun s => g_current_time (s_binlog (s_service s))).

Definition next_errno : M Serving Z := fun s =>
  match s_errnos (s_service s) with
  | [] => (0, s)
  | e :: l => (e, set_service (set_s_errnos l (s_service s)) s)
  end.

(** ** Counters. *)
Definition counter (name : bytes) (s : Service) : Z := default 0 (s_counts s !! name).
Definition count (name : bytes) (n : Z) : M Serving unit :=
  service (fun s => set_s_counts (<[name := counter name s + n]> (s_counts s)) s).
Definition set_counter (name : bytes) (n : Z) : M Serving unit :=
  service (fun s => set_s_counts (<[name := n]> (s_counts s)) s).

(** The source of the changes: the server whose id the connection told. *)
Definition get_storage_server (storage_server_id : bytes) (s : Service) : option bytes :=
  match s_sources s !! storage_server_id with Some _ => Some storage_server_id | None => None end.

Definition CHECK_AND_WRITE_TO_STAT_FILE1 : M Serving unit :=
  modify (fun s => set_task (match ci_pSrcStorage (s_task s) with
                             | None => set_ci_pSrcStorage (get_storage_server (ci_storage_server_id (s_task s)) (s_service s)) (s_task s)
                             | Some _ => s_task s
                             end) s) ;;
  let! src := the_task ci_pSrcStorage in
  let! timestamp := the_file fc_timestamp2log in
  (match src with
   | Some id => service (fun s => set_s_sources (<[id := timestamp]> (s_sources s)) s) ;;
                count (bs "g_sync_change_count") 1
   | None => ret tt
   end) ;;
  let! t := now in
  set_counter (bs "last_sync_update") t ;;
  count (bs "g_stat_change_count") 1.

Definition CHECK_AND_WRITE_TO_STAT_FILE1_WITH_BYTES (total success : bytes) (n : Z) : M Serving unit :=
  CHECK_AND_WRITE_TO_STAT_FILE1 ;; count total n ;; count success n.

(** A request of a client was served: the counters and the time, if the counter
    has one, and the bytes. *)
Definition CHECK_AND_WRITE_TO_STAT_FILE2 (total_count success_count : bytes) : M Serving unit :=
  count total_count 1 ;; count success_count 1 ;; count (bs "g_stat_change_count") 1.

Definition CHECK_AND_WRITE_TO_STAT_FILE2_WITH_BYTES (total_count success_count total_bytes success_bytes : bytes) (n : Z) :
    M Serving unit :=
  CHECK_AND_WRITE_TO_STAT_FILE2 total_count success_count ;; count total_bytes n ;; count success_bytes n.

Definition CHECK_AND_WRITE_TO_STAT_FILE3 (total_count success_count : bytes) : M Serving unit :=
  let! t := now in
  CHECK_AND_WRITE_TO_STAT_FILE2 total_count success_count ;; set_counter (bs "last_source_update") t.

Definition CHECK_AND_WRITE_TO_STAT_FILE3_WITH_BYTES (total_count success_count total_bytes success_bytes : bytes) (n : Z) :
    M Serving unit :=
  CHECK_AND_WRITE_TO_STAT_FILE3 total_count success_count ;; count total_bytes n ;; count success_bytes n.

(** ** What is decided elsewhere. *)

(** [rand()]. *)
Definition RAND_MAX : Z := 2147483647.
Definition rand : M Serving Z := fun s =>
  match s_rands (s_service s) with
  | [] => (0, s)
  | r :: l => (r, set_service (set_s_rands l (s_service s)) s)
  end.

(** The store paths and directories, which count their changes too. *)
Definition with_changes (n : Z) (d : DistState) : DistState := {|
  g_store_path_index := g_store_path_index d;
  g_dist_path_index_high := g_dist_path_index_high d;
  g_dist_path_index_low := g_dist_path_index_low d;
  g_dist_write_file_count := g_dist_write_file_count d;
  g_stat_change_count := n;
|}.

Definition dist {A} (c : M DistState A) : M Serving A := fun s =>
  let '(a, d) := c (with_changes (counter (bs "g_stat_change_count") (s_service s)) (s_dist (s_service s))) in
  (a, set_service (set_s_dist d (set_s_counts (<[bs "g_stat_change_count" := g_stat_change_count d]> (s_counts (s_service s)))
                                   (s_service s))) s).

(** [trunk_client.c]: what the trunk server answers, an errno or a
    space. *)
Definition trunk_answer : M Serving (Z + FDFSTrunkFullInfo) := fun s =>
  match s_trunk_answers (s_service s) with
  | [] => (inl EAGAIN, s)
  | x :: l => (x, set_service (set_s_trunk_answers l (s_service s)) s)
  end.

(** ** Handing a task over. *)
Definition move (p : Place) : M Serving unit :=
  task (fun t => match tk_place t with Closing | Closed | Elsewhere | Overrun => t | _ => set_tk_place p t end).

Definition storage_dio_queue_push : M Serving Z :=
  task (fun t => set_ci_stage (Z.lor (ci_stage t) FDFS_STORAGE_STAGE_DIO_THREAD) t) ;;
  let! result := next_errno in
  if decide (result <> 0) then move Closing ;; ret result else move InDio ;; ret 0.

Definition overrun : M Serving Z := move Overrun ;; ret STORAGE_STATUE_DEAL_FILE.

Definition storage_nio_notify : M Serving Z := move InPipe ;; ret 0.

Definition put_buffer (off : Z) (b : bytes) (t : Task) : Task := set_tk_data (put_at off b (tk_data t)) t.

Section task.
Context `{FastCommon} (conf : StorageConf).

Definition paths : list FDFSStorePathInfo := g_store_paths (st_sync conf).
Definition path_of (i : Z) : bytes := sp_path (znth inhabitant paths i).

Definition in_length (t : Task) : Z := ci_total_length t - 10.

(** The header of an answer of [total_length] bytes. *)
Definition put_header (status : Z) : M Serving unit :=
  task (fun t => put_buffer 0 (TrackerHeader (in_length t) TRACKER_PROTO_CMD_RESP status) t).

(** The end of the callbacks that answer without a body. *)
Definition notify_answer (result : Z) : M Serving unit :=
  task (fun t => set_tk_length 10 (set_ci_total_offset 0 (set_ci_total_length 10 t))) ;;
  put_header result ;;
  let! _ := storage_nio_notify in ret tt.

(** The disk thread for a file of a store path: an index of [g_dio_contexts]. *)
Definition storage_dio_get_thread_index (t : Task) (store_path_index file_op : Z) : Z :=
  let count := g_disk_reader_threads conf + g_disk_writer_threads conf in
  let first := store_path_index * count in
  let (contexts, count) :=
    if g_disk_rw_separated conf then
      if file_op =? FDFS_STORAGE_FILE_OP_READ then (first, g_disk_reader_threads conf)
      else (first + g_disk_reader_threads conf, g_disk_writer_threads conf)
    else (first, count) in
  contexts + uint32 (tk_fd t) `mod` count.

Definition choose_dio_thread (store_path_index : Z) : M Serving unit :=
  task (fun t => let c := ci_file_context t in
    set_ci_file_context (set_fc_dio_thread_index (storage_dio_get_thread_index t store_path_index (fc_op c)) c) t).

(** ** Trunk files, as the disk threads see them ([trunk_mem.c]). *)
Definition data_trunk_wait_file_ready (filename : bytes) (file_size : Z) : M Serving Z :=
  let! st := files (data_stat filename) in
  match st with
  | inl e => ret (errno_or e ENOENT)
  | inr st =>
      fail_if file_size <=? st_size st with 0 ;;;
      let! t := now in
      fail_if 10 <? Z.abs (t - st_mtime st) with ETIMEDOUT ;;;
      let! obs := gets (fun s => s_observations (s_service s)) in
      let r := wait_loop file_size (st_mtime st) obs in
      service (set_s_observations r.2) ;; ret r.1
  end.

Definition data_trunk_init_file (filename : bytes) (file_size : Z) : M Serving Z :=
  let! fd := files (data_open_excl filename) in
  match fd with
  | inl e => if errno_or e EEXIST =? EEXIST then data_trunk_wait_file_ready filename file_size else ret e
  | inr fd => let! e := files (data_ftruncate fd file_size) in ret e
  end.

Definition data_trunk_check_and_init_file (filename : bytes) : M Serving Z :=
  let file_size := st_trunk_file_size conf in
  let! result := data_trunk_wait_file_ready filename file_size in
  fail_if result =? 0 with 0 ;;;
  if result =? ENOENT then data_trunk_init_file filename file_size
  else
    fail_if negb (result =? ETIMEDOUT) with result ;;;
    let! st := files (data_stat filename) in
    match st with
    | inl e => ret (errno_or e ENOENT)
    | inr _ =>
        let! fd := files (data_open filename O_WRONLY) in
        match fd with
        | inl e => ret (errno_or e EIO)
        | inr fd => files (data_ftruncate fd file_size)
        end
    end.

(** Zeros, in pieces of the zero buffer. *)
Fixpoint data_zero_loop (fuel : nat) (fd : OpenFile) (remain_bytes : Z) : M DataFs Z :=
  match fuel with
  | O => ret 0
  | S fuel' =>
      fail_if remain_bytes <=? 0 with 0 ;;;
      let write_bytes := Z.min remain_bytes (st_zero_buffer_length conf) in
      let! w := data_write fd (replicate (Z.to_nat write_bytes) 0) in
      if decide (w.1 <> 0) then ret (errno_or w.1 EIO)
      else data_zero_loop fuel' w.2 (remain_bytes - write_bytes)
  end.

Definition data_trunk_file_delete (trunk_filename : bytes) (t : FDFSTrunkFullInfo) : M DataFs Z :=
  let! fd := data_open trunk_filename O_WRONLY in
  match fd with
  | inl e => ret (errno_or e EIO)
  | inr fd =>
      let! fd := data_seek fd (tf_offset (ti_file t)) in
      match fd with
      | inl e => ret (errno_or e EIO)
      | inr fd => data_zero_loop (S (Z.to_nat (tf_size (ti_file t)))) fd (tf_size (ti_file t))
      end
  end.

(** [trunk_file_lstat] fills its arguments from the name before it looks at the
    trunk file, so they are set when that fails too. *)
Definition trunk_name_outputs (index : Z) (true_filename : bytes) (filename_len : Z) (t : FDFSTrunkFullInfo)
    (h : FDFSTrunkHeader) : FDFSTrunkFullInfo * FDFSTrunkHeader :=
  let plain := ({| ti_status := ti_status t; ti_path := ti_path t;
                   ti_file := {| tf_id := 0; tf_offset := tf_offset (ti_file t); tf_size := tf_size (ti_file t) |} |}, h) in
  if negb (filename_len =? FDFS_TRUNK_FILENAME_LENGTH) then plain
  else
    let buff := zero_pad 128 (base64_decode_auto
      (take (Z.to_nat FDFS_FILENAME_BASE64_LENGTH) (drop (Z.to_nat FDFS_TRUE_FILE_PATH_LEN) true_filename))) in
    let file_size := buff2long (drop 8 buff) in
    if negb (IS_TRUNK_FILE file_size) then plain
    else
      let t' := (fdfs_decode_trunk_info index true_filename filename_len t).2 in
      (t', header_of_name true_filename filename_len file_size buff (tf_size (ti_file t')) (th_file_type h)).

(** The result, and the two arguments after the call. *)
Definition trunk_file_lstat (index : Z) (true_filename : bytes) (filename_len : Z) (t : FDFSTrunkFullInfo)
    (h : FDFSTrunkHeader) : M Serving ((Z + Stat) * FDFSTrunkFullInfo * FDFSTrunkHeader) :=
  let! view := files data_view in
  match trunk_file_do_lstat_func_ex view paths index true_filename filename_len FDFS_STAT_FUNC_LSTAT t h with
  | inl e => let o := trunk_name_outputs index true_filename filename_len t h in ret (inl e, o.1, o.2)
  | inr (st, t', h', _) => ret (inr st, t', h')
  end.

(** [fdfs_check_data_filename]: [HH/HH/] and a name without a slash. *)
Definition IS_UPPER_HEX (c : Z) : bool := ((48 <=? c) && (c <=? 57)) || ((65 <=? c) && (c <=? 70)).

Definition fdfs_check_data_filename (filename : bytes) (len : Z) : Z :=
  let at_ := znth 0 filename in
  if len <? 6 then EINVAL
  else if negb (IS_UPPER_HEX (at_ 0)) || negb (IS_UPPER_HEX (at_ 1)) || negb (at_ 2 =? 47) ||
          negb (IS_UPPER_HEX (at_ 3)) || negb (IS_UPPER_HEX (at_ 4)) || negb (at_ 5 =? 47) then EINVAL
  else if existsb (Z.eqb 47) (cstr (drop 6 filename)) then EINVAL
  else 0.

(** The store path and the file's full name. *)
Definition storage_logic_to_local_full_filename (logic_filename : bytes) (logic_filename_len filename_size : Z) :
    Z + (Z * bytes) :=
  match storage_split_filename_ex paths logic_filename logic_filename_len with
  | inl e => inl e
  | inr (filename_len, true_filename, index) =>
      let result := fdfs_check_data_filename true_filename filename_len in
      if decide (result <> 0) then inl result
      else inr (index, snprintf filename_size (path_of index ++ bs "/data/" ++ cstr true_filename))
  end.

End task.
