(* ===== verification/StorageDio.v ===== *)
(** * The disk threads ([storage_dio.c]).

    A disk thread takes a task from its queue and calls the task's [deal_func],
    one of the functions below.  What they call back when a file is done is the
    service's, through the interface [Callbacks]. *)

From S2P Require Import Prelude FastCommon TrunkShared TrunkMem TrunkLoad TrackerTypes FileSys SyncBinlog Net DataFiles StorageTask.

(** What the service promises the disk threads: a function per callback. *)
Class Callbacks := { run_done_callback : DoneCallback -> Z -> M Serving unit }.

Local Open Scope c_scope.

Section dio.
Context `{FastCommon} `{Callbacks} (CRC32 : bytes -> Z -> Z) (conf : StorageConf).

Definition done_callback (result : Z) : M Serving unit :=
  let! f := the_file fc_done_callback in
  match f with Some f => run_done_callback f result | None => ret tt end.

Definition continue_callback : M Serving unit :=
  let! f := the_file fc_continue_callback in
  match f with
  | Continue_nio_notify => let! _ := storage_nio_notify in ret tt
  | Continue_calc_crc32 => task (set_tk_length 0) ;; let! _ := storage_dio_queue_push in ret tt
  end.

Definition CRC32_XINIT : Z := 0xFFFFFFFF.
Definition CRC32_FINAL (crc : Z) : Z := Z.lxor crc 0xFFFFFFFF.

(** ** The descriptor of the file. *)
Definition close_fd : M Serving unit := file (set_fc_fd None).

Definition with_fd {A} (bad : A) (k : OpenFile -> M Serving A) : M Serving A :=
  let! fd := the_file fc_fd in match fd with Some fd => k fd | None => ret bad end.

(** [lseek], [fc_safe_write], [fc_safe_read] and [ftruncate] on it: the errno. *)
Definition fd_seek (off : Z) : M Serving Z :=
  with_fd EBADF (fun fd =>
    let! r := files (data_seek fd off) in
    match r with inl e => ret e | inr fd => file (set_fc_fd (Some fd)) ;; ret 0 end).

Definition fd_write (b : bytes) : M Serving Z :=
  with_fd EBADF (fun fd =>
    let! w := files (data_write fd b) in file (set_fc_fd (Some w.2)) ;; ret w.1).

Definition fd_get (n : Z) : M Serving (Z + bytes) :=
  with_fd (inl EBADF) (fun fd =>
    let! r := files (data_read fd n) in
    match r with inl e => ret (inl e) | inr (b, fd) => file (set_fc_fd (Some fd)) ;; ret (inr b) end).

Definition fd_truncate (n : Z) : M Serving Z := with_fd EBADF (fun fd => files (data_ftruncate fd n)).

(** ** Opening. *)
Definition dio_open_file : M Serving Z :=
  let! c := the_file id in
  let! result := (match fc_fd c with
                  | Some _ => ret 0
                  | None =>
                      let! fd := files (data_open (fc_filename c) (fc_open_flags c)) in
                      count (bs "total_file_open_count") 1 ;;
                      match fd with
                      | inl e => ret (errno_or e EACCES)
                      | inr fd => count (bs "success_file_open_count") 1 ;; file (set_fc_fd (Some fd)) ;; ret 0
                      end
                  end) in
  if decide (result <> 0) then ret result
  else
    let! offset := the_file fc_offset in
    if 0 <? offset then let! e := fd_seek offset in ret (if decide (e <> 0) then errno_or e EIO else 0)
    else ret 0.

(** ** Trunk files. *)
Definition check_slot : M Serving Z :=
  let! r := fd_get FDFS_TRUNK_FILE_HEADER_SIZE in
  ret (match r with inl e => dio_check_trunk_file_ex [] e | inr old_header => dio_check_trunk_file_ex old_header 0 end).

Definition dio_check_trunk_file_when_upload : M Serving Z :=
  let! filename := the_file fc_filename in
  let! result := data_trunk_check_and_init_file conf filename in
  if decide (result <> 0) then ret result
  else
    let! result := dio_open_file in
    if decide (result <> 0) then ret result
    else
      let! pos := the_file (fun c => match fc_fd c with Some fd => of_pos fd | None => 0 end) in
      let! e := fd_seek (pos - FDFS_TRUNK_FILE_HEADER_SIZE) in
      if decide (e <> 0) then ret (errno_or e EIO)
      else check_slot.

Definition dio_check_trunk_file_when_sync : M Serving Z :=
  let! filename := the_file fc_filename in data_trunk_check_and_init_file conf filename.

Definition dio_write_chunk_header : M Serving Z :=
  let! c := the_file id in
  let u := fc_upload c in
  let trunkHeader := {|
    th_file_type := if Z.land (up_file_type u) FILE_TYPE_LINK =? 0 then FDFS_TRUNK_FILE_TYPE_REGULAR
                    else FDFS_TRUNK_FILE_TYPE_LINK;
    th_alloc_size := tf_size (ti_file (up_trunk_info u));
    th_file_size := int32 (fc_end c - fc_start c);
    th_crc32 := int32 (fc_crc32 c);
    th_mtime := up_start_time u;
    th_formatted_ext_name := zero_pad 8 (snprintf 8 (up_formatted_ext_name u)) |} in
  let! e := fd_seek (fc_start c - FDFS_TRUNK_FILE_HEADER_SIZE) in
  if decide (e <> 0) then ret (errno_or e EIO)
  else
    let! e := fd_write (trunk_pack_header trunkHeader) in
    ret (if decide (e <> 0) then errno_or e EIO else 0).

Definition before_open_callback : M Serving Z :=
  let! f := the_file (fun c => up_before_open_callback (fc_upload c)) in
  match f with
  | None => ret 0
  | Some Check_trunk_file_when_upload => dio_check_trunk_file_when_upload
  | Some Check_trunk_file_when_sync => dio_check_trunk_file_when_sync
  end.

Definition before_close_callback : M Serving Z :=
  let! f := the_file (fun c => up_before_close_callback (fc_upload c)) in
  match f with None => ret 0 | Some Write_chunk_header => dio_write_chunk_header end.

(** ** After a broken connection, or an error. *)
Definition dio_read_finish_clean_up : M Serving unit := close_fd.

(** [fd > 0]. *)
Definition if_open (k : StorageFileContext -> M Serving unit) : M Serving unit :=
  let! c := the_file id in
  match fc_fd c with Some _ => k c | None => ret tt end.

Definition dio_write_finish_clean_up : M Serving unit :=
  if_open (fun c =>
    close_fd ;;
    if fc_offset c <? fc_end c then let! _ := files (data_unlink (fc_filename c)) in ret tt else ret tt).

Definition dio_append_finish_clean_up : M Serving unit :=
  if_open (fun c =>
    (if (fc_start c <? fc_offset c) && (fc_offset c <? fc_end c)
     then let! _ := fd_truncate (fc_start c) in ret tt else ret tt) ;;
    close_fd).

Definition dio_modify_finish_clean_up : M Serving unit := if_open (fun c => close_fd).

Definition dio_trunk_write_finish_clean_up : M Serving unit :=
  if_open (fun c =>
    close_fd ;;
    if (fc_start c <? fc_offset c) && (fc_offset c <? fc_end c)
    then let! _ := files (data_trunk_file_delete conf (fc_filename c) (up_trunk_info (fc_upload c))) in ret tt
    else ret tt).

Definition run_clean_func (f : CleanFunc) : M Serving unit :=
  match f with
  | Clean_dio_read => dio_read_finish_clean_up
  | Clean_dio_write => dio_write_finish_clean_up
  | Clean_dio_append => dio_append_finish_clean_up
  | Clean_dio_modify => dio_modify_finish_clean_up
  | Clean_dio_trunk_write => dio_trunk_write_finish_clean_up
  end.

(** [pClientInfo->clean_func(pTask)]. *)
Definition clean_func : M Serving unit :=
  let! f := the_task ci_clean_func in
  match f with Some f => run_clean_func f | None => ret tt end.

(** ** Deleting. *)
Definition dio_delete_normal_file : M Serving Z :=
  let! filename := the_file fc_filename in
  let! e := files (data_unlink filename) in
  let result := if decide (e <> 0) then errno_or e EACCES else 0 in
  done_callback result ;; ret result.

Definition dio_delete_trunk_file : M Serving Z :=
  let! c := the_file id in
  let! result := files (data_trunk_file_delete conf (fc_filename c) (up_trunk_info (fc_upload c))) in
  done_callback result ;; ret result.

(** ** Receiving. *)
Definition dio_discard_file : M Serving Z :=
  let! length := the_task tk_length in
  file (fun c => set_fc_offset (fc_offset c + (length - fc_buff_offset c)) c) ;;
  let! c := the_file id in
  (if fc_end c <=? fc_offset c then done_callback 0
   else file (set_fc_buff_offset 0) ;; continue_callback) ;;
  ret 0.

(** The end of a failed write: the clean up, and the callback. *)
Definition write_failed (result : Z) : M Serving Z := clean_func ;; done_callback result ;; ret result.

(** Opening the file, when it is not open yet. *)
Definition open_for_write : M Serving Z :=
  let! fd := the_file fc_fd in
  match fd with
  | Some _ => ret 0
  | None =>
      let! result := before_open_callback in
      if decide (result <> 0) then ret result else dio_open_file
  end.

Definition dio_write_file : M Serving Z :=
  let! result := open_for_write in
  if decide (result <> 0) then write_failed result
  else
    let! t := the_task id in
    let c := ci_file_context t in
    let write_bytes := tk_length t - fc_buff_offset c in
    let pDataBuff := take (Z.to_nat write_bytes) (drop (Z.to_nat (fc_buff_offset c)) (tk_data t)) in
    let! e := fd_write pDataBuff in
    let result := if decide (e <> 0) then errno_or e EIO else 0 in
    count (bs "total_file_write_count") 1 ;;
    if decide (result <> 0) then write_failed result
    else
      count (bs "success_file_write_count") 1 ;;
      file (fun c => if fc_calc_crc32 c then set_fc_crc32 (CRC32 pDataBuff (fc_crc32 c)) c else c) ;;
      file (fun c => set_fc_offset (fc_offset c + write_bytes) c) ;;
      let! c := the_file id in
      if fc_offset c <? fc_end c then
        file (set_fc_buff_offset 0) ;; continue_callback ;; ret 0
      else
        file (fun c => if fc_calc_crc32 c then set_fc_crc32 (CRC32_FINAL (fc_crc32 c)) c else c) ;;
        let! result := before_close_callback in
        close_fd ;;
        done_callback result ;; ret 0.

Definition dio_truncate_file : M Serving Z :=
  let! result := open_for_write in
  if decide (result <> 0) then write_failed result
  else
    let! offset := the_file fc_offset in
    let! e := fd_truncate offset in
    if decide (e <> 0) then write_failed (errno_or e EIO)
    else
      let! result := before_close_callback in
      close_fd ;;
      done_callback result ;; ret 0.

(** ** Sending. *)
Definition dio_read_file : M Serving Z :=
  let! result := dio_open_file in
  let failed result := close_fd ;; done_callback result ;; ret result in
  if decide (result <> 0) then failed result
  else
    let! t := the_task id in
    let c := ci_file_context t in
    let capacity_bytes := tk_size t - tk_length t in
    let read_bytes := int32 (Z.min capacity_bytes (fc_end c - fc_offset c)) in
    (* a negative number is a large [size_t] *)
    let! r := fd_get (if read_bytes <? 0 then read_bytes + 2 ^ 64 else read_bytes) in
    let result := match r with
                  | inl e => errno_or e EIO
                  | inr b => if Z.of_nat (length b) =? read_bytes then 0 else EIO
                  end in
    count (bs "total_file_read_count") 1 ;;
    match r with
    | inr b =>
        if capacity_bytes <? Z.of_nat (length b) then overrun
        else
        task (put_buffer (tk_length t) b) ;;
        if decide (result <> 0) then failed result
        else
          count (bs "success_file_read_count") 1 ;;
          file (fun c => if fc_calc_crc32 c then set_fc_crc32 (CRC32 b (fc_crc32 c)) c else c) ;;
          task (fun t => set_tk_length (tk_length t + read_bytes) t) ;;
          file (fun c => set_fc_offset (fc_offset c + read_bytes) c) ;;
          let! c := the_file id in
          if fc_offset c <? fc_end c then continue_callback ;; ret 0
          else
            close_fd ;;
            file (fun c => if fc_calc_crc32 c then set_fc_crc32 (CRC32_FINAL (fc_crc32 c)) c else c) ;;
            done_callback 0 ;; ret 0
    | inl _ => failed result
    end.

End dio.
