(* ===== verification/StorageSyncIn.v ===== *)
(** * Receiving changes from another storage server ([storage_service.c], the
    [storage_sync_*_file] handlers and their callbacks).

    A handler reads the head of a request from the buffer and decides; the rest
    of the request is for the disk threads.  A handler that returns
    [STORAGE_STATUE_DEAL_FILE] leaves the answer to a callback, any other result
    is the status of the answer. *)

From S2P Require Import Prelude FastCommon TrunkShared TrunkMem StorageIds TrackerTypes FileSys SyncBinlog Net SyncReader SyncPeer DataFiles StorageTask StorageDio.

Definition STORAGE_DELETE_FLAG_NONE : Z := 0.
Definition STORAGE_DELETE_FLAG_FILE : Z := 1.
Definition STORAGE_DELETE_FLAG_LINK : Z := 2.
Definition MKTEMP_MAX_COUNT : nat := 10.

Local Open Scope c_scope.

Section callbacks.
Context `{FastCommon} (conf : StorageConf).

Definition storage_binlog (timestamp op_type : Z) (filename : bytes) : M Serving Z :=
  binlog (storage_binlog_write (st_sync conf) timestamp op_type filename).

(** A record for the file, as its callbacks write it. *)
Definition log_file : M Serving Z :=
  let! c := the_file id in storage_binlog (fc_timestamp2log c) (fc_sync_flag c) (fc_fname2log c).

Definition set_file_utimes : M Serving unit :=
  let! c := the_file id in files (data_utimes (fc_filename c) (fc_timestamp2log c)).

Definition stat_sync_in : M Serving unit :=
  let! c := the_file id in
  CHECK_AND_WRITE_TO_STAT_FILE1_WITH_BYTES (bs "total_sync_in_bytes") (bs "success_sync_in_bytes")
    (fc_end c - fc_start c).

Definition storage_sync_delete_file_done_callback (err_no : Z) : M Serving unit :=
  let! c := the_file id in
  let! result := (if (err_no =? 0) && negb (fc_sync_flag c =? 0) then log_file else ret err_no) in
  (if result =? 0 then CHECK_AND_WRITE_TO_STAT_FILE1 else ret tt) ;;
  notify_answer result.

Definition storage_sync_truncate_file_done_callback (err_no : Z) : M Serving unit :=
  let! c := the_file id in
  let! result := (if (err_no =? 0) && negb (fc_sync_flag c =? 0) then set_file_utimes ;; log_file
                  else ret err_no) in
  (if result =? 0 then CHECK_AND_WRITE_TO_STAT_FILE1 else ret tt) ;;
  notify_answer result.

Definition storage_sync_copy_file_rename_filename : M Serving Z :=
  let! c := the_file id in
  match storage_logic_to_local_full_filename conf (fc_fname2log c) (Z.of_nat (length (fc_fname2log c)))
          (MAX_PATH_SIZE + 256) with
  | inl e => ret e
  | inr (_, full_filename) =>
      let! e := files (data_rename (fc_filename c) full_filename) in
      ret (if decide (e <> 0) then errno_or e EPERM else 0)
  end.

Definition count_failed_bytes (result : Z) : M Serving unit :=
  let! n := the_task ci_total_offset in
  if decide (result <> 0) then count (bs "total_sync_in_bytes") n else ret tt.

Definition storage_sync_copy_file_done_callback (err_no : Z) : M Serving unit :=
  let! c := the_file id in
  let write := fc_op c =? FDFS_STORAGE_FILE_OP_WRITE in
  let! result := (if negb (err_no =? 0) then ret err_no
                  else if write then
                    let! result := (if Z.land (up_file_type (fc_upload c)) FILE_TYPE_TRUNK =? 0
                                    then set_file_utimes ;; storage_sync_copy_file_rename_filename
                                    else ret 0) in
                    (if result =? 0 then let! _ := log_file in ret tt else ret tt) ;; ret result
                  else let! _ := log_file in ret 0) in
  let! result := (if write then (if result =? 0 then stat_sync_in else ret tt) ;; ret result
                  else (if result =? 0 then CHECK_AND_WRITE_TO_STAT_FILE1 else ret tt) ;; ret EEXIST) in
  count_failed_bytes result ;;
  notify_answer result.

Definition storage_sync_modify_file_done_callback (err_no : Z) : M Serving unit :=
  let! c := the_file id in
  let! result := (if negb (err_no =? 0) then ret err_no
                  else if negb (fc_op c =? FDFS_STORAGE_FILE_OP_DISCARD) then
                    set_file_utimes ;; let! _ := log_file in stat_sync_in ;; ret 0
                  else
                    let! st := files (data_lstat (fc_filename c)) in
                    CHECK_AND_WRITE_TO_STAT_FILE1 ;;
                    ret (match st with
                         | inl e => errno_or e ENOENT
                         | inr st => if negb (S_ISREG (st_mode st)) then EEXIST
                                     else if st_size st <? fc_end c then ENOENT else EEXIST
                         end)) in
  count_failed_bytes result ;;
  notify_answer result.

End callbacks.

Definition with_store_path (index : Z) (t : FDFSTrunkFullInfo) : FDFSTrunkFullInfo :=
  with_path {| store_path_index := uint8 index; sub_path_high := sub_path_high (ti_path t);
               sub_path_low := sub_path_low (ti_path t) |} t.

Section handlers.
Context `{FastCommon} (conf : StorageConf).

(** ** Starting the disk threads. *)
Definition storage_write_to_file (file_offset upload_bytes buff_offset : Z) (deal_func : DealFunc)
    (done_callback : DoneCallback) (clean_func : option CleanFunc) (store_path_index : Z) : M Serving Z :=
  task (fun t => set_ci_deal_func (Some deal_func) (set_ci_clean_func clean_func t)) ;;
  file (fun c => set_fc_fd None (set_fc_buff_offset buff_offset (set_fc_offset file_offset
                   (set_fc_start file_offset (set_fc_end (file_offset + upload_bytes) c))))) ;;
  choose_dio_thread conf store_path_index ;;
  file (set_fc_done_callback (Some done_callback)) ;;
  file (fun c => if fc_calc_crc32 c then set_fc_crc32 CRC32_XINIT c else c) ;;
  let! result := storage_dio_queue_push in
  ret (if decide (result <> 0) then result else STORAGE_STATUE_DEAL_FILE).

Definition storage_do_delete_file (done_callback : DoneCallback) (store_path_index : Z) : M Serving Z :=
  file (fun c => set_fc_fd None (set_fc_op FDFS_STORAGE_FILE_OP_DELETE c)) ;;
  choose_dio_thread conf store_path_index ;;
  file (set_fc_done_callback (Some done_callback)) ;;
  let! result := storage_dio_queue_push in
  ret (if decide (result <> 0) then result else STORAGE_STATUE_DEAL_FILE).

(** ** The head of a request. *)
Definition field (t : Task) (p n : Z) : bytes := take (Z.to_nat n) (drop (Z.to_nat p) (tk_data t)).
Definition long_in (t : Task) (p : Z) : Z := buff2long (drop (Z.to_nat p) (tk_data t)).
Definition int_in (t : Task) (p : Z) : Z := buff2int (drop (Z.to_nat p) (tk_data t)).
Definition group_in (t : Task) (p : Z) : bytes := cstr (field t p FDFS_GROUP_NAME_MAX_LEN).
Definition my_group (t : Task) (p : Z) : bool := bool_decide (group_in t p = st_group_name conf).

(** [sizeof(filename)]. *)
Definition filename_size : Z := 128.
Definition bad_length (n : Z) : bool := (n <? 0) || (filename_size <=? n).

Definition set_timestamp (t : Task) (p : Z) : M Serving unit := file (set_fc_timestamp2log (int_in t p)).

(** What the handlers leave when they compute nothing over the content. *)
Definition no_callbacks : M Serving unit :=
  file (set_fc_calc_crc32 false) ;;
  upload (fun u => set_up_before_open_callback None (set_up_before_close_callback None u)) ;;
  file (set_fc_continue_callback Continue_nio_notify).

(** ** A whole file. *)
Fixpoint make_temp_file (count : nat) (store_path_index : Z) : M Serving bool :=
  match count with
  | O => ret false
  | S count' =>
      let! seq := gets (fun s => s_temp_file_sequence (s_service s)) in
      service (set_s_temp_file_sequence (seq + 1)) ;;
      let filename := path_of conf store_path_index ++ bs "/data/.cp" ++ fmt_d seq ++ bs ".tmp" in
      file (set_fc_filename filename) ;;
      let! st := files (data_stat filename) in
      match st with
      | inl _ => ret true
      | inr st =>
          let! t := now in
          if 600 <? t - st_mtime st then
            let! e := files (data_unlink filename) in
            if (e =? 0) || (e =? ENOENT) then ret true else make_temp_file count' store_path_index
          else make_temp_file count' store_path_index
      end
  end.

(** A file that is there with the same size is not written again; the header is
    that of the name when the file is in a trunk. *)
Definition look_for_copy (true_filename : bytes) (filename_len store_path_index file_bytes : Z) :
    M Serving (Z + FDFSTrunkHeader) :=
  let! t0 := the_file (fun c => up_trunk_info (fc_upload c)) in
  let! r := trunk_file_lstat conf store_path_index true_filename filename_len t0 no_header in
  match r with
  | (st, t', h) =>
      upload (set_up_trunk_info t') ;;
      let trunk := if IS_TRUNK_FILE_BY_ID t'
                   then upload (fun u => set_up_file_type (Z.lor (up_file_type u) FILE_TYPE_TRUNK) u) else ret tt in
      match st with
      | inl e => if e =? ENOENT then trunk ;; ret (inr h) else ret (inl e)
      | inr st =>
          (if S_ISREG (st_mode st) && (st_size st =? file_bytes)
           then file (fun c => set_fc_op FDFS_STORAGE_FILE_OP_DISCARD (set_fc_filename [] c)) else ret tt) ;;
          trunk ;; ret (inr h)
      end
  end.

(** The place to write to: the file of the trunk, or a temporary file.  The
    result is the offset and the clean up function. *)
Definition place_for_copy (h : FDFSTrunkHeader) (store_path_index : Z) : M Serving (Z + (Z * CleanFunc)) :=
  let! u := the_file fc_upload in
  if negb (Z.land (up_file_type u) FILE_TYPE_TRUNK =? 0) then
    let t := up_trunk_info u in
    file (set_fc_crc32 (th_crc32 h)) ;;
    upload (fun u => set_up_start_time (th_mtime h)
                       (set_up_formatted_ext_name (snprintf 8 (cstr (th_formatted_ext_name h)))
                          (set_up_before_open_callback (Some Check_trunk_file_when_sync)
                             (set_up_before_close_callback (Some Write_chunk_header) u)))) ;;
    file (fun c => set_fc_filename (trunk_get_full_filename_ex (paths conf) t (MAX_PATH_SIZE + 128))
                     (set_fc_open_flags O_RDWR c)) ;;
    ret (inr (FDFS_TRUNK_FILE_HEADER_SIZE + tf_offset (ti_file t), Clean_dio_trunk_write))
  else
    let! made := make_temp_file MKTEMP_MAX_COUNT store_path_index in
    fail_if negb made with (inl EAGAIN) ;;;
    upload (fun u => set_up_before_open_callback None (set_up_before_close_callback None u)) ;;
    file (set_fc_open_flags O_WRONLY_CREAT_TRUNC) ;;
    ret (inr (0, Clean_dio_write)).

Definition storage_sync_copy_file (proto_cmd : Z) : M Serving Z :=
  let! t := the_task id in
  let nInPackLen := in_length t in
  fail_if nInPackLen <=? 36 with EINVAL ;;;
  let filename_len := int32 (long_in t 10) in
  let file_bytes := long_in t 18 in
  fail_if bad_length filename_len with EINVAL ;;;
  fail_if file_bytes <? 0 with EINVAL ;;;
  set_timestamp t 26 ;;
  fail_if negb (my_group t 30) with EINVAL ;;;
  let have_file_content := znth 0 (tk_data t) 9 =? 0 in
  fail_if negb ((if have_file_content then file_bytes else 0) =? nInPackLen - (36 + filename_len)) with EINVAL ;;;
  let filename := field t 46 filename_len in
  match storage_split_filename_ex (paths conf) filename filename_len with
  | inl e => ret e
  | inr (true_len, true_filename, store_path_index) =>
      let result := fdfs_check_data_filename true_filename true_len in
      if decide (result <> 0) then ret result
      else
        let create := proto_cmd =? STORAGE_PROTO_CMD_SYNC_CREATE_FILE in
        file (set_fc_sync_flag (if create then STORAGE_OP_TYPE_REPLICA_CREATE_FILE else STORAGE_OP_TYPE_REPLICA_UPDATE_FILE)) ;;
        file (fun c => if have_file_content then set_fc_op FDFS_STORAGE_FILE_OP_WRITE c
                       else set_fc_op FDFS_STORAGE_FILE_OP_DISCARD (set_fc_filename [] c)) ;;
        upload (set_up_file_type FILE_TYPE_REGULAR) ;;
        let? h := (if create && have_file_content
                   then look_for_copy true_filename true_len store_path_index file_bytes
                   else ret (inr no_header)) in
        let! op := the_file fc_op in
        let? (file_offset, deal_func, clean_func) :=
          (if op =? FDFS_STORAGE_FILE_OP_WRITE then
             let! r := place_for_copy h store_path_index in
             ret (match r with
                  | inl e => inl e
                  | inr (offset, clean) => inr (offset, Deal_dio_write_file, Some clean)
                  end)
           else
             upload (fun u => set_up_before_open_callback None (set_up_before_close_callback None u)) ;;
             ret (inr (0, Deal_dio_discard_file, None))) in
        file (fun c => set_fc_calc_crc32 false (set_fc_fname2log (cstr filename)
                         (set_fc_continue_callback Continue_nio_notify c))) ;;
        if have_file_content then
          storage_write_to_file file_offset file_bytes (46 + filename_len) deal_func Done_sync_copy_file
            clean_func store_path_index
        else storage_sync_copy_file_done_callback conf 0 ;; ret STORAGE_STATUE_DEAL_FILE
  end.

(** ** A part of a file.

    The head of an append, modify or truncate request: the name and its length
    and two numbers; a truncation has no content. *)
Definition range_head (content : bool) : M Serving (Z + (bytes * Z * Z * Z)) :=
  let! t := the_task id in
  let nInPackLen := in_length t in
  fail_if nInPackLen <=? 44 with (inl EINVAL) ;;;
  let filename_len := int32 (long_in t 10) in
  let a := long_in t 18 in
  let b := long_in t 26 in
  fail_if bad_length filename_len with (inl EINVAL) ;;;
  fail_if negb content && negb (filename_len =? nInPackLen - 44) with (inl EINVAL) ;;;
  fail_if a <? 0 with (inl EINVAL) ;;;
  fail_if b <? 0 with (inl EINVAL) ;;;
  set_timestamp t 34 ;;
  fail_if negb (my_group t 38) with (inl EINVAL) ;;;
  fail_if content && negb (b =? nInPackLen - (44 + filename_len)) with (inl EINVAL) ;;;
  ret (inr (field t 54 filename_len, filename_len, a, b)).

(** The file of a name, and the name for the binlog. *)
Definition local_file (filename : bytes) (filename_len : Z) : M Serving (Z + Z) :=
  match storage_logic_to_local_full_filename conf filename filename_len (MAX_PATH_SIZE + 128) with
  | inl e => ret (inl e)
  | inr (index, full_filename) => file (set_fc_filename full_filename) ;; ret (inr index)
  end.

Definition fname_with_range (filename : bytes) (a b : Z) : bytes :=
  snprintf 131 (cstr filename ++ [32] ++ fmt_d a ++ [32] ++ fmt_d b).

Definition discard_range : M Serving DealFunc :=
  file (fun c => set_fc_op FDFS_STORAGE_FILE_OP_DISCARD (set_fc_open_flags O_RDONLY c)) ;;
  ret Deal_dio_discard_file.

(** Appended only where the file ends; a missing file is found missing by the
    callback. *)
Definition storage_sync_append_file : M Serving Z :=
  let? (filename, filename_len, start_offset, append_bytes) := range_head true in
  let? store_path_index := local_file filename filename_len in
  let! full_filename := the_file fc_filename in
  let! st := files (data_lstat full_filename) in
  let? need_write_file :=
    ret (match st with
         | inl e => if errno_or e ENOENT =? ENOENT then inr false else inl e
         | inr st => inr (S_ISREG (st_mode st) && (st_size st =? start_offset))
         end) in
  file (set_fc_sync_flag STORAGE_OP_TYPE_REPLICA_APPEND_FILE) ;;
  let! deal_func :=
    (if need_write_file : bool then
       file (fun c => set_fc_op FDFS_STORAGE_FILE_OP_APPEND (set_fc_open_flags O_WRONLY_APPEND
                        (set_fc_fname2log (fname_with_range filename start_offset append_bytes) c))) ;;
       ret Deal_dio_write_file
     else discard_range) in
  no_callbacks ;;
  storage_write_to_file start_offset append_bytes (54 + filename_len) deal_func Done_sync_modify_file
    (Some Clean_dio_append) store_path_index.

(** Written anywhere in the file, up to its end. *)
Definition storage_sync_modify_file : M Serving Z :=
  let? (filename, filename_len, start_offset, modify_bytes) := range_head true in
  let? store_path_index := local_file filename filename_len in
  let! full_filename := the_file fc_filename in
  let! st := files (data_lstat full_filename) in
  let? need_write_file :=
    ret (match st with
         | inl e => if errno_or e ENOENT =? ENOENT then inr false else inl e
         | inr st => inr (S_ISREG (st_mode st) && negb (st_size st <? start_offset))
         end) in
  file (set_fc_sync_flag STORAGE_OP_TYPE_REPLICA_MODIFY_FILE) ;;
  let! deal_func :=
    (if need_write_file : bool then
       file (fun c => set_fc_op FDFS_STORAGE_FILE_OP_WRITE (set_fc_open_flags O_WRONLY
                        (set_fc_fname2log (fname_with_range filename start_offset modify_bytes) c))) ;;
       ret Deal_dio_write_file
     else discard_range) in
  no_callbacks ;;
  storage_write_to_file start_offset modify_bytes (54 + filename_len) deal_func Done_sync_modify_file
    (Some Clean_dio_modify) store_path_index.

Definition storage_sync_truncate_file : M Serving Z :=
  let? (filename, filename_len, old_file_size, new_file_size) := range_head false in
  let? store_path_index := local_file filename filename_len in
  let! full_filename := the_file fc_filename in
  let! st := files (data_lstat full_filename) in
  match st with
  | inl e => ret (errno_or e ENOENT)
  | inr st =>
      fail_if negb (S_ISREG (st_mode st)) with EEXIST ;;;
      fail_if negb (st_size st =? old_file_size) with EEXIST ;;;
      file (fun c => set_fc_sync_flag STORAGE_OP_TYPE_REPLICA_TRUNCATE_FILE (set_fc_op FDFS_STORAGE_FILE_OP_WRITE
              (set_fc_open_flags O_WRONLY (set_fc_fname2log (fname_with_range filename old_file_size new_file_size) c)))) ;;
      no_callbacks ;;
      storage_write_to_file new_file_size old_file_size 0 Deal_dio_truncate_file Done_sync_truncate_file
        (Some Clean_dio_read) store_path_index
  end.

(** ** Names. *)
Definition storage_sync_delete_file : M Serving Z :=
  let! t := the_task id in
  let nInPackLen := in_length t in
  task (set_ci_total_length 10) ;;
  fail_if nInPackLen <=? 20 with EINVAL ;;;
  fail_if tk_size t <=? nInPackLen with EINVAL ;;;
  set_timestamp t 10 ;;
  fail_if negb (my_group t 14) with EINVAL ;;;
  let filename_len := int32 (nInPackLen - 20) in
  task (put_buffer (30 + filename_len) [0]) ;;
  let filename := field t 30 filename_len in
  match storage_split_filename_ex (paths conf) filename filename_len with
  | inl e => ret e
  | inr (true_len, true_filename, store_path_index) =>
      let result := fdfs_check_data_filename true_filename true_len in
      if filename_size <=? true_len then overrun  (* true_filename[128] *)
      else if decide (result <> 0) then ret result
      else
        let! t0 := the_file (fun c => up_trunk_info (fc_upload c)) in
        let! r := trunk_file_lstat conf store_path_index true_filename true_len t0 no_header in
        upload (set_up_trunk_info r.1.2) ;;
        match r.1.1 with
        | inl e => ret e
        | inr st =>
            fail_if negb (S_ISREG (st_mode st) || S_ISLNK (st_mode st)) with EINVAL ;;;
            if 131 <=? Z.of_nat (length (cstr filename)) then overrun  (* fname2log[131] *)
            else
            file (set_fc_delete_flag (if S_ISREG (st_mode st) then STORAGE_DELETE_FLAG_FILE else STORAGE_DELETE_FLAG_LINK)) ;;
            let trunk := IS_TRUNK_FILE_BY_ID r.1.2 in
            task (set_ci_deal_func (Some (if trunk then Deal_dio_delete_trunk_file else Deal_dio_delete_normal_file))) ;;
            file (fun c => set_fc_filename
                    (if trunk then trunk_get_full_filename_ex (paths conf) r.1.2 (MAX_PATH_SIZE + 128)
                     else path_of conf store_path_index ++ bs "/data/" ++ cstr true_filename)
                    (set_fc_fname2log (cstr filename) (set_fc_sync_flag STORAGE_OP_TYPE_REPLICA_DELETE_FILE c))) ;;
            storage_do_delete_file Done_sync_delete_file store_path_index
        end
  end.

Definition storage_sync_rename_file : M Serving Z :=
  let! t := the_task id in
  let nInPackLen := in_length t in
  fail_if nInPackLen <=? 36 with EINVAL ;;;
  let dest_filename_len := int32 (long_in t 10) in
  let src_filename_len := int32 (long_in t 18) in
  fail_if bad_length dest_filename_len with EINVAL ;;;
  set_timestamp t 26 ;;
  fail_if negb (my_group t 30) with EINVAL ;;;
  fail_if negb (nInPackLen =? 36 + dest_filename_len + src_filename_len) with EINVAL ;;;
  let dest_filename := field t 46 dest_filename_len in
  let src_filename := field t (46 + dest_filename_len) src_filename_len in
  if bad_length src_filename_len then overrun  (* src_filename[128] *)
  else
  match storage_logic_to_local_full_filename conf dest_filename dest_filename_len MAX_PATH_SIZE with
  | inl e => ret e
  | inr (_, dest_full_filename) =>
      let! e := files (data_access dest_full_filename) in
      fail_if e =? 0 with EEXIST ;;;
      match storage_logic_to_local_full_filename conf src_filename src_filename_len MAX_PATH_SIZE with
      | inl e => ret e
      | inr (_, src_full_filename) =>
          let! e := files (data_rename src_full_filename dest_full_filename) in
          if decide (e <> 0) then ret (errno_or e EPERM)
          else
            let! timestamp := the_file fc_timestamp2log in
            binlog (storage_binlog_write_ex (st_sync conf) timestamp STORAGE_OP_TYPE_REPLICA_RENAME_FILE
                      (cstr dest_filename) (Some (cstr src_filename)))
      end
  end.

(** A link is made by a disk thread: see [storage_do_sync_link_file]. *)
Definition storage_sync_link_file : M Serving Z :=
  let! t := the_task id in
  let nInPackLen := in_length t in
  fail_if nInPackLen <=? 36 with EINVAL ;;;
  let dest_filename_len := int32 (long_in t 10) in
  let src_filename_len := int32 (long_in t 18) in
  fail_if bad_length dest_filename_len with EINVAL ;;;
  set_timestamp t 26 ;;
  fail_if negb (nInPackLen =? 36 + dest_filename_len + src_filename_len) with EINVAL ;;;
  match storage_split_filename_ex (paths conf) (field t 46 dest_filename_len) dest_filename_len with
  | inl e => ret e
  | inr (true_len, true_filename, store_path_index) =>
      let result := fdfs_check_data_filename true_filename true_len in
      if decide (result <> 0) then ret result
      else
        upload (fun u => set_up_trunk_info (with_store_path store_path_index (up_trunk_info u)) u) ;;
        task (set_ci_deal_func (Some Deal_storage_do_sync_link_file)) ;;
        file (fun c => set_fc_fd None (set_fc_op FDFS_STORAGE_FILE_OP_WRITE c)) ;;
        choose_dio_thread conf store_path_index ;;
        let! result := storage_dio_queue_push in
        ret (if decide (result <> 0) then result else STORAGE_STATUE_DEAL_FILE)
  end.

(** ** The connection itself. *)
Definition storage_server_report_server_id : M Serving Z :=
  let! t := the_task id in
  task (set_ci_total_length 10) ;;
  fail_if negb (in_length t =? FDFS_STORAGE_ID_MAX_SIZE) with EINVAL ;;;
  task (put_buffer (10 + (FDFS_STORAGE_ID_MAX_SIZE - 1)) [0]) ;;
  let id := cstr (field t 10 (FDFS_STORAGE_ID_MAX_SIZE - 1)) in
  fail_if bool_decide (id = []) with EINVAL ;;;
  task (set_ci_storage_server_id id) ;; ret 0.

Definition storage_deal_active_test : M Serving Z :=
  let! t := the_task id in
  task (set_ci_total_length 10) ;;
  fail_if negb (in_length t =? 0) with EINVAL ;;;
  ret 0.

End handlers.

Section link.
Context `{FastCommon} `{Callbacks} (CRC32 : bytes -> Z -> Z) (conf : StorageConf).

(** A link in a trunk file: its content is the name of the source. *)
Definition storage_trunk_do_create_link (file_bytes buff_offset : Z) (before_open : BeforeOpen)
    (done_callback : option DoneCallback) : M Serving Z :=
  let! u := the_file fc_upload in
  let t := up_trunk_info u in
  let file_offset := FDFS_TRUNK_FILE_HEADER_SIZE + tf_offset (ti_file t) in
  upload (fun u => set_up_before_open_callback (Some before_open)
                     (set_up_before_close_callback (Some Write_chunk_header) u)) ;;
  file (fun c => set_fc_filename (trunk_get_full_filename_ex (paths conf) t (MAX_PATH_SIZE + 128))
    (set_fc_open_flags O_RDWR (set_fc_op FDFS_STORAGE_FILE_OP_WRITE (set_fc_fd None
    (set_fc_buff_offset buff_offset (set_fc_offset file_offset (set_fc_start file_offset
    (set_fc_end (file_offset + file_bytes) c)))))))) ;;
  choose_dio_thread conf (store_path_index (ti_path t)) ;;
  file (fun c => set_fc_continue_callback Continue_nio_notify (set_fc_done_callback done_callback c)) ;;
  task (set_ci_clean_func (Some Clean_dio_trunk_write)) ;;
  dio_write_file CRC32 conf.

(** Both files of a request, as the disk thread finds them: whether the link is
    to be made, and the header that the name gives. *)
Definition look_for_link (dest_index : Z) (dest_true_filename : bytes) (dest_len : Z) (src_index : Z)
    (src_true_filename : bytes) (src_len : Z) : M Serving (bool * FDFSTrunkHeader) :=
  let! t0 := the_file (fun c => up_trunk_info (fc_upload c)) in
  let! dest := trunk_file_lstat conf dest_index dest_true_filename dest_len t0 no_header in
  upload (set_up_trunk_info dest.1.2) ;;
  match dest.1.1 with
  | inr _ => ret (false, dest.2)
  | inl _ =>
      let! src := trunk_file_lstat conf src_index src_true_filename src_len no_trunk no_header in
      ret (match src.1.1 with inl _ => false | inr _ => true end, dest.2)
  end.

(** [inl]: the [break] with its result. *)
Definition make_link (dest_index : Z) (dest_true_filename : bytes) (src_filename : bytes) (src_filename_len : Z)
    (src_index : Z) (src_true_filename : bytes) (h : FDFSTrunkHeader) : M Serving (Z + unit) :=
  let! u := the_file fc_upload in
  if IS_TRUNK_FILE_BY_ID (up_trunk_info u) then
    upload (fun u => set_up_file_type FILE_TYPE_LINK (set_up_start_time (th_mtime h)
                       (set_up_formatted_ext_name (cstr (th_formatted_ext_name h)) u))) ;;
    file (set_fc_crc32 (th_crc32 h)) ;;
    task (fun t => set_tk_length (tk_size t) t) ;;
    let! size := the_task tk_size in
    let p := size - src_filename_len in
    fail_if p <? 10 with (inl 0) ;;;
    task (put_buffer p src_filename) ;;
    let! result := storage_trunk_do_create_link src_filename_len p Check_trunk_file_when_sync None in
    ret (if decide (result <> 0) then inl result else inr tt)
  else
    let filename := snprintf (MAX_PATH_SIZE + 128) (path_of conf dest_index ++ bs "/data/" ++ cstr dest_true_filename) in
    file (set_fc_filename filename) ;;
    let! e := files (data_symlink (snprintf MAX_PATH_SIZE (path_of conf src_index ++ bs "/data/" ++ cstr src_true_filename))
                       filename) in
    ret (if decide (e <> 0) then if errno_or e EPERM =? EEXIST then inr tt else inl (errno_or e EPERM) else inr tt).

Definition do_sync_link (nInPackLen : Z) : M Serving Z :=
  let! t := the_task id in
  let dest_filename_len := int32 (long_in t 10) in
  let src_filename_len := int32 (long_in t 18) in
  fail_if bad_length src_filename_len with EINVAL ;;;
  fail_if negb (my_group conf t 30) with EINVAL ;;;
  fail_if negb (nInPackLen =? 36 + dest_filename_len + src_filename_len) with EINVAL ;;;
  let dest_filename := field t 46 dest_filename_len in
  let src_filename := field t (46 + dest_filename_len) src_filename_len in
  match storage_split_filename_ex (paths conf) dest_filename dest_filename_len,
        storage_split_filename_ex (paths conf) src_filename src_filename_len with
  | inl e, _ => ret e
  | _, inl e => ret e
  | inr (dest_len, dest_true_filename, dest_index), inr (src_len, src_true_filename, src_index) =>
      let result := fdfs_check_data_filename src_true_filename src_filename_len in
      if decide (result <> 0) then ret result
      else
        let! r := look_for_link dest_index dest_true_filename dest_len src_index src_true_filename src_len in
        let? _ := (if r.1 then make_link dest_index dest_true_filename src_filename src_filename_len src_index
                                 src_true_filename r.2
                   else ret (inr tt)) in
        let! timestamp := the_file fc_timestamp2log in
        storage_binlog conf timestamp STORAGE_OP_TYPE_REPLICA_CREATE_LINK
          (snprintf 256 (cstr dest_filename ++ [32] ++ cstr src_filename))
  end.

Definition storage_do_sync_link_file : M Serving Z :=
  let! nInPackLen := the_task in_length in
  task (set_ci_total_length 10) ;;
  let! result := do_sync_link nInPackLen in
  CHECK_AND_WRITE_TO_STAT_FILE1 ;;
  notify_answer result ;;
  ret result.

End link.
