(* ===== verification/StorageUpload.v ===== *)
(** * Uploads ([storage_service.c], [fdfs_global.c], [trunk_client.c]).

    A client sends a file; the server makes up its name, which tells the server,
    the time, the size and the checksum.  The content goes to a file of the
    store path under a first name, or to a space in a trunk file; when all of it
    is written the file gets its final name.

    The servers do not look for duplicates ([g_check_file_duplicate] is false). *)

From S2P Require Import Prelude FastCommon TrunkShared SharedFunc StorePath TrunkMem StorageIds TrackerTypes TrackerFetch FileSys SyncBinlog Net SyncReader SyncPeer DataFiles StorageTask StorageDio StorageSyncIn.

Definition FDFS_FILE_PREFIX_MAX_LEN : Z := 16.
Definition STORAGE_CREATE_FLAG_NONE : Z := 0.
Definition STORAGE_CREATE_FLAG_FILE : Z := 1.
Definition STORAGE_CREATE_FLAG_LINK : Z := 2.

(** [sizeof(pFileContext->fname2log)]. *)
Definition fname2log_size : Z := 131.

Definition has_type (flag : Z) (u : StorageUploadInfo) : bool := negb (Z.land (up_file_type u) flag =? 0).

(** Letters, digits, [-], [_] and [.]. *)
Definition fdfs_validate_filename (filename : bytes) : Z :=
  let good c := ((97 <=? c) && (c <=? 122)) || ((65 <=? c) && (c <=? 90)) || ((48 <=? c) && (c <=? 57)) ||
                (c =? 45) || (c =? 95) || (c =? 46) in
  if forallb good filename then 0 else EINVAL.

(** The name of a slave file, from that of its master; [ext_name] is not NULL in
    a storage server. *)
Definition fdfs_gen_slave_filename (master_filename prefix_name ext_name : bytes) : Z + bytes :=
  let master_file_len := Z.of_nat (length master_filename) in
  if master_file_len <? 28 + FDFS_FILE_EXT_NAME_MAX_LEN then inl EINVAL
  else
    let head_len := Z.to_nat (master_file_len - (FDFS_FILE_EXT_NAME_MAX_LEN + 1)) in
    let pDot := strchr 46 (drop head_len master_filename) in
    let true_ext_name :=
      match ext_name with
      | [] => []
      | c :: _ => snprintf (FDFS_FILE_EXT_NAME_MAX_LEN + 2) (if c =? 46 then ext_name else 46 :: ext_name)
      end in
    let same_ext := match pDot with
                    | None => bool_decide (true_ext_name = [])
                    | Some (_, ext) => bool_decide (46 :: ext = true_ext_name)
                    end in
    if bool_decide (true_ext_name = []) && bool_decide (prefix_name = bs "-m") then inl EINVAL
    else if bool_decide (prefix_name = []) && same_ext then inl EINVAL
    else inr (match pDot with
              | None => master_filename ++ prefix_name ++ true_ext_name
              | Some (before, _) => take head_len master_filename ++ before ++ prefix_name ++ true_ext_name
              end).

Local Open Scope c_scope.

(** ** Random characters. *)
Fixpoint rands (n : nat) : M Serving (list Z) :=
  match n with O => ret [] | S n' => let! r := rand in let! l := rands n' in ret (r :: l) end.

(** ['0' + (int)(10.0 * (double)rand() / RAND_MAX)]. *)
Definition random_digit (r : Z) : Z := 48 + 10 * r / RAND_MAX.

Definition storage_format_ext_name (file_ext_name : bytes) : M Serving bytes :=
  let ext_name_len := Z.of_nat (length file_ext_name) in
  let pad_len := if ext_name_len =? 0 then FDFS_FILE_EXT_NAME_MAX_LEN + 1 else FDFS_FILE_EXT_NAME_MAX_LEN - ext_name_len in
  let! l := rands (Z.to_nat pad_len) in
  ret ((random_digit <$> l) ++ (if 0 <? ext_name_len then 46 :: file_ext_name else [])).

Definition COMBINE_RAND_FILE_SIZE (file_size : Z) : M Serving Z :=
  let! r := rand in
  ret (Z.lor (int64 (Z.shiftl (int32 (Z.lor (Z.land r 0x007FFFFF) 0x80000000)) 32)) file_size).

Section names.
Context `{FastCommon} (conf : StorageConf).

Definition path_conf : StorePathConf := {|
  g_store_path_mode := g_store_path_mode (st_place conf);
  g_fdfs_store_paths := paths conf;
  g_avg_storage_reserved_mb := g_avg_storage_reserved_mb (st_place conf);
  g_storage_reserved_space := g_storage_reserved_space (st_place conf);
  g_file_distribute_path_mode := g_file_distribute_path_mode (st_place conf);
  g_file_distribute_rotate_count := g_file_distribute_rotate_count (st_place conf);
  g_subdir_count_per_path := g_subdir_count_per_path (st_place conf);
|}.

(** What a name carries. *)
Definition name_buff (timestamp masked_file_size crc32 : Z) : bytes :=
  int2buff (ntohl (st_server_id_in_filename conf)) ++ int2buff (int32 timestamp) ++ long2buff masked_file_size ++
  int2buff (int32 crc32).

Definition sub_dirs (p : FDFSTrunkPathInfo) : bytes := fmt_02X (sub_path_high p) ++ [47] ++ fmt_02X (sub_path_low p) ++ [47].

Definition storage_gen_filename (file_size crc32 : Z) (szFormattedExt : bytes) (timestamp : Z) : M Serving bytes :=
  let! masked_file_size := (if negb (Z.shiftr file_size 32 =? 0) then ret file_size else COMBINE_RAND_FILE_SIZE file_size) in
  let encoded := base64_encode_ex (name_buff timestamp masked_file_size crc32) in
  let! alloced := the_file (fun c => up_if_sub_path_alloced (fc_upload c)) in
  (if negb alloced then
     let! p := dist (storage_get_store_path path_conf encoded) in
     upload (fun u => set_up_if_sub_path_alloced true (set_up_trunk_info
       (with_path {| store_path_index := store_path_index (ti_path (up_trunk_info u));
                     sub_path_high := uint8 p.1; sub_path_low := uint8 p.2 |} (up_trunk_info u)) u))
   else ret tt) ;;
  let! p := the_file (fun c => ti_path (up_trunk_info (fc_upload c))) in
  ret (sub_dirs p ++ encoded ++ take (Z.to_nat (FDFS_FILE_EXT_NAME_MAX_LEN + 1)) szFormattedExt).

(** [i] more attempts at a name that is not taken: the name and the full name. *)
Fixpoint try_names (i : nat) (timestamp file_size crc32 : Z) (szFormattedExt : bytes) (store_path_index : Z) :
    M Serving (option (bytes * bytes)) :=
  match i with
  | O => ret None
  | S i' =>
      let! filename := storage_gen_filename file_size crc32 szFormattedExt timestamp in
      let full_filename := path_of conf store_path_index ++ bs "/data/" ++ filename in
      let! e := files (data_access full_filename) in
      if decide (e <> 0) then ret (Some (filename, full_filename))
      else try_names i' timestamp file_size crc32 szFormattedExt store_path_index
  end.

Definition storage_get_filename (start_time file_size crc32 : Z) (szFormattedExt : bytes) : M Serving (option (bytes * bytes)) :=
  let! index := the_file (fun c => store_path_index (ti_path (up_trunk_info (fc_upload c)))) in
  try_names 10 start_time file_size crc32 szFormattedExt index.

(** ** The trunk server. *)
Definition trunk_client_trunk_alloc_space : M Serving Z :=
  let! a := trunk_answer in
  match a with
  | inl e => ret (errno_or e EAGAIN)
  | inr t => upload (set_up_trunk_info t) ;; ret 0
  end.

Definition trunk_client_trunk_alloc_confirm (status : Z) : M Serving Z :=
  let! a := trunk_answer in ret (match a with inl e => e | inr _ => 0 end).

Definition trunk_client_trunk_free_space : M Serving Z :=
  let! a := trunk_answer in ret (match a with inl e => e | inr _ => 0 end).

(** ** The end of an upload. *)
Definition storage_delete_file_auto : M Serving Z :=
  let! c := the_file id in
  if has_type FILE_TYPE_TRUNK (fc_upload c) then files (data_trunk_file_delete conf (fc_filename c) (up_trunk_info (fc_upload c)))
  else let! e := files (data_unlink (fc_filename c)) in ret (if decide (e <> 0) then errno_or e ENOENT else 0).

Definition unlink_and (filename : bytes) (result : Z) : M Serving Z :=
  let! _ := files (data_unlink filename) in ret result.

(** The time of the file, and the size that its name tells. *)
Definition name_time_and_size : M Serving (Z * Z) :=
  let! c := the_file id in
  let u := fc_upload c in
  let file_size := fc_end c - fc_start c in
  if has_type FILE_TYPE_TRUNK u then
    let! n := COMBINE_RAND_FILE_SIZE file_size in ret (up_start_time u, Z.lor n FDFS_TRUNK_FILE_MARK_SIZE)
  else
    let! st := files (data_stat (fc_filename c)) in
    let! t := now in
    let end_time := match st with inr st => st_mtime st | inl _ => t end in
    if has_type FILE_TYPE_APPENDER u then
      let! n := COMBINE_RAND_FILE_SIZE 0 in ret (end_time, Z.lor n (st_INFINITE_FILE_SIZE conf))
    else ret (end_time, file_size).

(** The position in the trunk file goes between the encoded part and the
    extension. *)
Definition with_trunk_position (t : FDFSTrunkFullInfo) (fname2log filename : bytes) : bytes :=
  take (Z.to_nat (FDFS_LOGIC_FILE_PATH_LEN + FDFS_FILENAME_BASE64_LENGTH)) fname2log ++
  trunk_file_info_encode (ti_file t) ++
  drop (Z.to_nat (FDFS_TRUE_FILE_PATH_LEN + FDFS_FILENAME_BASE64_LENGTH)) filename.

(** A slave file takes the name made from its master's; [new_full_filename] is
    where its content is. *)
Definition name_slave_file (new_fname2log new_full_filename : bytes) : M Serving Z :=
  let! c := the_file id in
  let u := fc_upload c in
  match storage_split_filename_ex (paths conf) (up_master_filename u) (Z.of_nat (length (up_master_filename u))) with
  | inl e => unlink_and new_full_filename e
  | inr (_, true_filename, master_store_path_index) =>
      match fdfs_gen_slave_filename (cstr true_filename) (up_prefix_name u) (up_file_ext_name u) with
      | inl e => unlink_and new_full_filename e
      | inr filename =>
          let full := snprintf (MAX_PATH_SIZE + 128) (path_of conf master_store_path_index ++ bs "/data/" ++ filename) in
          let fname2log := logic_name master_store_path_index filename in
          if fname2log_size <=? Z.of_nat (length fname2log) then overrun
          else
          file (fun c => set_fc_filename full (set_fc_fname2log fname2log c)) ;;
          if st_store_slave_file_use_link conf then
            let! e := files (data_symlink new_full_filename full) in
            if decide (e <> 0) then unlink_and new_full_filename (errno_or e ENOENT)
            else
              let! timestamp := the_file fc_timestamp2log in
              let! result := storage_binlog conf timestamp STORAGE_OP_TYPE_SOURCE_CREATE_FILE new_fname2log in
              let! result := (if result =? 0 then
                                storage_binlog conf timestamp STORAGE_OP_TYPE_SOURCE_CREATE_LINK
                                  (snprintf 256 (fname2log ++ [32] ++ new_fname2log))
                              else ret result) in
              if decide (result <> 0) then
                let! _ := files (data_unlink new_full_filename) in unlink_and full result
              else file (set_fc_create_flag STORAGE_CREATE_FLAG_LINK) ;; ret 0
          else
            let! e := files (data_rename new_full_filename full) in
            if decide (e <> 0) then unlink_and new_full_filename (errno_or e ENOENT)
            else file (set_fc_create_flag STORAGE_CREATE_FLAG_FILE) ;; ret 0
      end
  end.

(** The file that was written is renamed, and the name to log is made. *)
Definition give_name (end_time : Z) (new_filename new_full_filename : bytes) : M Serving Z :=
  upload (set_up_group_name (st_group_name conf)) ;;
  let! c := the_file id in
  let u := fc_upload c in
  let trunk := has_type FILE_TYPE_TRUNK u in
  let plain_fname2log := logic_name (store_path_index (ti_path (up_trunk_info u))) new_filename in
  let new_fname2log := if trunk then with_trunk_position (up_trunk_info u) plain_fname2log new_filename
                       else plain_fname2log in
  let! e := (if trunk then ret 0 else files (data_rename (fc_filename c) new_full_filename)) in
  if decide (e <> 0) then unlink_and (fc_filename c) (errno_or e EPERM)
  else
    file (set_fc_timestamp2log (int32 end_time)) ;;
    if has_type FILE_TYPE_APPENDER u then
      file (fun c => set_fc_fname2log new_fname2log (set_fc_create_flag STORAGE_CREATE_FLAG_FILE c)) ;; ret 0
    else if has_type FILE_TYPE_SLAVE u then name_slave_file new_fname2log new_full_filename
    else
      file (set_fc_fname2log new_fname2log) ;;
      (if trunk then ret tt else file (set_fc_filename new_full_filename)) ;;
      file (set_fc_create_flag (if has_type FILE_TYPE_LINK u then STORAGE_CREATE_FLAG_LINK else STORAGE_CREATE_FLAG_FILE)) ;;
      ret 0.

Definition storage_service_upload_file_done : M Serving Z :=
  let! end_time_and_size := name_time_and_size in
  let end_time := end_time_and_size.1 in
  let! c := the_file id in
  let! new := storage_get_filename end_time end_time_and_size.2 (fc_crc32 c) (up_formatted_ext_name (fc_upload c)) in
  match new with
  | None => let! _ := storage_delete_file_auto in ret ENOENT
  | Some (new_filename, new_full_filename) => give_name end_time new_filename new_full_filename
  end.

(** The answer with a body: a group name and a file name. *)
Definition notify_name (group_name filename : bytes) : M Serving unit :=
  let total := 10 + FDFS_GROUP_NAME_MAX_LEN + Z.of_nat (length filename) in
  task (put_buffer 10 (zero_pad (Z.to_nat FDFS_GROUP_NAME_MAX_LEN) group_name ++ filename)) ;;
  task (fun t => set_tk_length total (set_ci_total_offset 0 (set_ci_total_length total t))) ;;
  put_header 0 ;;
  let! _ := storage_nio_notify in ret tt.

Definition storage_upload_file_done_callback (err_no : Z) : M Serving unit :=
  let! u := the_file fc_upload in
  let! result := (if has_type FILE_TYPE_TRUNK u then
                    let! r := trunk_client_trunk_alloc_confirm err_no in
                    ret (if decide (err_no <> 0) then err_no else r)
                  else ret err_no) in
  let! result := (if result =? 0 then storage_service_upload_file_done else ret result) in
  let! c := the_file id in
  let created := negb (Z.land (fc_create_flag c) STORAGE_CREATE_FLAG_FILE =? 0) in
  let! result := (if (result =? 0) && created
                  then storage_binlog conf (fc_timestamp2log c) STORAGE_OP_TYPE_SOURCE_CREATE_FILE (fc_fname2log c)
                  else ret result) in
  if result =? 0 then
    (if created then
       CHECK_AND_WRITE_TO_STAT_FILE3_WITH_BYTES (bs "total_upload_count") (bs "success_upload_count")
         (bs "total_upload_bytes") (bs "success_upload_bytes") (fc_end c - fc_start c)
     else ret tt) ;;
    notify_name (up_group_name (fc_upload c)) (fc_fname2log c)
  else
    let! n := the_task ci_total_offset in
    (if created then count (bs "total_upload_count") 1 ;; count (bs "total_upload_bytes") n else ret tt) ;;
    notify_answer result.

End names.

Section handlers.
Context `{FastCommon} (conf : StorageConf).

(** The space left on a store path is enough for the file. *)
Definition space_for (index file_bytes : Z) : bool :=
  let p := znth inhabitant (paths conf) index in
  fdfs_check_reserved_space_path (sp_total_mb p) (sp_free_mb p - file_bytes ÷ FDFS_ONE_MB)
    (g_avg_storage_reserved_mb (path_conf conf)) (g_storage_reserved_space (path_conf conf)).

(** The store path the client asks for; -1 leaves it to the server. *)
Definition upload_store_path (index : Z) : M Serving (Z + Z) :=
  if index =? -1 then
    let! r := dist (storage_get_storage_path_index (path_conf conf)) in
    ret (if decide (r.1 <> 0) then inl r.1 else inr r.2)
  else ret (if (index <? 0) || (Z.of_nat (length (paths conf)) <=? index) then inl EINVAL else inr index).

(** A space in a trunk file, or a file of its own. *)
Definition place_for_upload (store_path_index file_bytes : Z) : M Serving (Z + (Z * CleanFunc)) :=
  let! u := the_file fc_upload in
  if has_type FILE_TYPE_TRUNK u then
    upload (set_up_if_sub_path_alloced true) ;;
    let! result := trunk_client_trunk_alloc_space in
    if decide (result <> 0) then ret (inl result)
    else
      let! t := the_file (fun c => up_trunk_info (fc_upload c)) in
      upload (fun u => set_up_if_gen_filename true (set_up_before_open_callback (Some Check_trunk_file_when_upload)
                         (set_up_before_close_callback (Some Write_chunk_header) u))) ;;
      file (fun c => set_fc_filename (trunk_get_full_filename_ex (paths conf) t (MAX_PATH_SIZE + 128))
                       (set_fc_open_flags O_RDWR c)) ;;
      ret (inr (FDFS_TRUNK_FILE_HEADER_SIZE + tf_offset (ti_file t), Clean_dio_trunk_write))
  else
    fail_if negb (space_for store_path_index file_bytes) with (inl ENOSPC) ;;;
    let! crc32 := rand in
    upload (set_up_if_sub_path_alloced false) ;;
    let! u := the_file fc_upload in
    let! new := storage_get_filename conf (up_start_time u) file_bytes crc32 (up_formatted_ext_name u) in
    match new with
    | None => file (set_fc_filename []) ;; ret (inl ENOENT)
    | Some (_, full_filename) =>
        upload (fun u => set_up_if_gen_filename true (set_up_before_open_callback None (set_up_before_close_callback None u))) ;;
        file (fun c => set_fc_filename full_filename (set_fc_open_flags O_WRONLY_CREAT_TRUNC c)) ;;
        ret (inr (0, Clean_dio_write))
    end.

Definition storage_upload_file (bAppenderFile : bool) : M Serving Z :=
  let! t := the_task id in
  let nInPackLen := in_length t in
  fail_if nInPackLen <? 15 with EINVAL ;;;
  let? store_path_index := upload_store_path (int8 (znth 0 (tk_data t) 10)) in
  let file_bytes := long_in t 11 in
  fail_if (file_bytes <? 0) || negb (file_bytes =? nInPackLen - 15) with EINVAL ;;;
  let file_ext_name := cstr (field t 19 FDFS_FILE_EXT_NAME_MAX_LEN) in
  let result := fdfs_validate_filename file_ext_name in
  if decide (result <> 0) then ret result
  else
    let! start_time := now in
    let! formatted := storage_format_ext_name file_ext_name in
    let trunk := negb bAppenderFile && st_if_use_trunk_file conf &&
                 (FDFS_TRUNK_FILE_HEADER_SIZE + file_bytes <=? st_slot_max_size conf) in
    file (fun c => set_fc_calc_crc32 true (set_fc_sync_flag STORAGE_OP_TYPE_SOURCE_CREATE_FILE
                     (set_fc_timestamp2log start_time (set_fc_op FDFS_STORAGE_FILE_OP_WRITE c)))) ;;
    upload (fun u => set_up_start_time start_time (set_up_file_ext_name file_ext_name (set_up_formatted_ext_name formatted
      (set_up_trunk_info (with_store_path store_path_index (up_trunk_info u))
      (set_up_file_type (Z.lor FILE_TYPE_REGULAR (if bAppenderFile then FILE_TYPE_APPENDER
                                                  else if trunk then FILE_TYPE_TRUNK else 0)) u))))) ;;
    let? (file_offset, clean) := place_for_upload store_path_index file_bytes in
    file (set_fc_continue_callback Continue_nio_notify) ;;
    storage_write_to_file conf file_offset file_bytes 25 Deal_dio_write_file Done_upload_file (Some clean) store_path_index.

Definition storage_upload_slave_file : M Serving Z :=
  let! t := the_task id in
  let nInPackLen := in_length t in
  fail_if nInPackLen <=? 38 with EINVAL ;;;
  let master_filename_len := int32 (long_in t 10) in
  let file_bytes := long_in t 18 in
  fail_if (master_filename_len <=? FDFS_LOGIC_FILE_PATH_LEN) || (filename_size <=? master_filename_len) with EINVAL ;;;
  fail_if (file_bytes <? 0) || negb (file_bytes =? nInPackLen - (38 + master_filename_len)) with EINVAL ;;;
  let prefix_name := cstr (field t 26 FDFS_FILE_PREFIX_MAX_LEN) in
  fail_if bool_decide (prefix_name = []) with EINVAL ;;;
  fail_if negb (fdfs_validate_filename prefix_name =? 0) with EINVAL ;;;
  let file_ext_name := cstr (field t 42 FDFS_FILE_EXT_NAME_MAX_LEN) in
  fail_if negb (fdfs_validate_filename file_ext_name =? 0) with EINVAL ;;;
  let master_filename := field t 48 master_filename_len in
  match storage_split_filename_ex (paths conf) master_filename master_filename_len with
  | inl e => ret e
  | inr (true_len, true_filename, store_path_index) =>
      let result := fdfs_check_data_filename true_filename true_len in
      if decide (result <> 0) then ret result
      else
        fail_if negb (space_for store_path_index file_bytes) with ENOSPC ;;;
        let! t0 := the_file (fun c => up_trunk_info (fc_upload c)) in
        let! r := trunk_file_lstat conf store_path_index true_filename true_len t0 no_header in
        upload (set_up_trunk_info r.1.2) ;;
        match r.1.1 with
        | inl e => ret e
        | inr _ =>
            let! formatted := storage_format_ext_name file_ext_name in
            let! start_time := now in
            upload (fun u => set_up_file_ext_name file_ext_name (set_up_formatted_ext_name formatted
              (set_up_start_time start_time (set_up_if_gen_filename false (set_up_if_sub_path_alloced false
              (set_up_trunk_info (with_store_path store_path_index (up_trunk_info u)) u)))))) ;;
            match fdfs_gen_slave_filename (cstr true_filename) prefix_name file_ext_name with
            | inl e => ret e
            | inr filename =>
                if filename_size <=? Z.of_nat (length filename) then overrun  (* filename[128] *)
                else
                let full := snprintf (MAX_PATH_SIZE + 128) (path_of conf store_path_index ++ bs "/data/" ++ filename) in
                file (set_fc_filename full) ;;
                let! e := files (data_access full) in
                fail_if e =? 0 with EEXIST ;;;
                let! crc32 := rand in
                let! new := storage_get_filename conf start_time file_bytes crc32 formatted in
                match new with
                | None => file (set_fc_filename []) ;; ret ENOENT
                | Some (_, full_filename) =>
                    let calc := st_store_slave_file_use_link conf in
                    file (fun c => set_fc_filename full_filename (set_fc_calc_crc32 calc
                      (set_fc_crc32 (if calc then fc_crc32 c else 0) (set_fc_sync_flag STORAGE_OP_TYPE_SOURCE_CREATE_FILE
                      (set_fc_timestamp2log start_time (set_fc_op FDFS_STORAGE_FILE_OP_WRITE
                      (set_fc_open_flags O_WRONLY_CREAT_TRUNC c))))))) ;;
                    upload (fun u => set_up_master_filename (cstr master_filename) (set_up_prefix_name prefix_name
                      (set_up_file_type (Z.lor FILE_TYPE_SLAVE FILE_TYPE_REGULAR)
                      (set_up_before_open_callback None (set_up_before_close_callback None
                      (set_up_trunk_info (with_store_path store_path_index (up_trunk_info u)) u)))))) ;;
                    file (set_fc_continue_callback Continue_nio_notify) ;;
                    storage_write_to_file conf 0 file_bytes (48 + master_filename_len) Deal_dio_write_file Done_upload_file
                      (Some Clean_dio_write) store_path_index
                end
            end
        end
  end.

End handlers.
