(* ===== verification/StorageClient.v ===== *)
(** * The requests of clients ([storage_service.c]).

    Appending to, modifying and truncating an appender file, deleting and
    downloading files, their metadata, and what is known of a file.  Uploads
    are in [StorageUpload]. *)

From S2P Require Import Prelude FastCommon TrunkShared SharedFunc StorePath TrunkMem StorageIds TrackerTypes TrackerFetch Metadata FileSys SyncBinlog Net SyncReader SyncPeer DataFiles StorageTask StorageDio StorageSyncIn StorageUpload.

Definition STORAGE_SET_METADATA_FLAG_OVERWRITE : Z := ch "O".
Definition STORAGE_SET_METADATA_FLAG_MERGE : Z := ch "M".
Definition FDFS_STORAGE_META_FILE_EXT : bytes := bs "-m".

(** [sizeof(TrunkCreateLinkArg)]. *)
Definition create_link_arg_size : Z := 200.

(** The least length of the name of an appender file. *)
Definition appender_name_len : Z := FDFS_LOGIC_FILE_PATH_LEN + FDFS_FILENAME_BASE64_LENGTH + FDFS_FILE_EXT_NAME_MAX_LEN + 1.

Local Open Scope c_scope.

Section callbacks.
Context `{FastCommon} (conf : StorageConf).

(** The head of an answer that was never sent. *)
Definition set_status (status : Z) : M Serving unit := task (put_buffer 9 [uint8 status]).

Definition answer_or_close (err_no : Z) : M Serving unit :=
  let! length := the_task tk_length in
  if length =? 10 then set_status err_no ;; let! _ := storage_nio_notify in ret tt
  else
    task (set_ci_stage FDFS_STORAGE_STAGE_NIO_CLOSE) ;; let! _ := storage_nio_notify in ret tt.

Definition storage_get_metadata_done_callback (err_no : Z) : M Serving unit :=
  if decide (err_no <> 0) then count (bs "total_get_meta_count") 1 ;; answer_or_close err_no
  else
    CHECK_AND_WRITE_TO_STAT_FILE2 (bs "total_get_meta_count") (bs "success_get_meta_count") ;;
    let! _ := storage_nio_notify in ret tt.

Definition storage_download_file_done_callback (err_no : Z) : M Serving unit :=
  let! c := the_file id in
  if decide (err_no <> 0) then
    count (bs "total_download_count") 1 ;; count (bs "total_download_bytes") (fc_offset c - fc_start c) ;;
    answer_or_close err_no
  else
    CHECK_AND_WRITE_TO_STAT_FILE2_WITH_BYTES (bs "total_download_count") (bs "success_download_count")
      (bs "total_download_bytes") (bs "success_download_bytes") (fc_end c - fc_start c) ;;
    let! _ := storage_nio_notify in ret tt.

(** The metadata goes with its file. *)
Definition storage_do_delete_meta_file : M Serving Z :=
  let! c := the_file id in
  let? meta_filename :=
    ret (if has_type FILE_TYPE_TRUNK (fc_upload c) then
           match storage_split_filename_ex (paths conf) (fc_fname2log c) (Z.of_nat (length (fc_fname2log c))) with
           | inl e => inl e
           | inr (_, true_filename, index) =>
               inr (path_of conf index ++ bs "/data/" ++ cstr true_filename ++ FDFS_STORAGE_META_FILE_EXT)
           end
         else inr (fc_filename c ++ FDFS_STORAGE_META_FILE_EXT)) in
  let! e := files (data_access meta_filename) in
  if decide (e <> 0) then ret 0
  else
    let! e := files (data_unlink meta_filename) in
    if decide (e <> 0) then ret (if e =? ENOENT then 0 else e)
    else
      let! t := now in
      storage_binlog conf t STORAGE_OP_TYPE_SOURCE_DELETE_FILE (fc_fname2log c ++ FDFS_STORAGE_META_FILE_EXT).

Definition deleted (flag : Z) (c : StorageFileContext) : bool := negb (Z.land (fc_delete_flag c) flag =? 0).

Definition storage_delete_fdfs_file_done_callback (err_no : Z) : M Serving unit :=
  let! c := the_file id in
  let! result := (if err_no =? 0 then
                    (if has_type FILE_TYPE_TRUNK (fc_upload c) then let! _ := trunk_client_trunk_free_space in ret tt
                     else ret tt) ;;
                    let! t := now in
                    storage_binlog conf t STORAGE_OP_TYPE_SOURCE_DELETE_FILE (fc_fname2log c)
                  else ret err_no) in
  let! result := (if result =? 0 then storage_do_delete_meta_file else ret result) in
  let! c := the_file id in
  (if decide (result <> 0) then
     (if (fc_delete_flag c =? STORAGE_DELETE_FLAG_NONE) || deleted STORAGE_DELETE_FLAG_FILE c
      then count (bs "total_delete_count") 1 else ret tt) ;;
     (if deleted STORAGE_DELETE_FLAG_LINK c then count (bs "total_delete_link_count") 1 else ret tt)
   else
     (if deleted STORAGE_DELETE_FLAG_FILE c
      then CHECK_AND_WRITE_TO_STAT_FILE3 (bs "total_delete_count") (bs "success_delete_count") else ret tt) ;;
     (if deleted STORAGE_DELETE_FLAG_LINK c
      then CHECK_AND_WRITE_TO_STAT_FILE3 (bs "total_delete_link_count") (bs "success_delete_link_count") else ret tt)) ;;
  notify_answer result.

(** The record of a change to a part of a file, with the time of the file. *)
Definition log_range (a b : StorageFileContext -> Z) : M Serving Z :=
  let! filename := the_file fc_filename in
  let! st := files (data_stat filename) in
  (match st with inr st => file (set_fc_timestamp2log (int32 (st_mtime st))) | inl _ => ret tt end) ;;
  let! c := the_file id in
  binlog (storage_binlog_write_ex (st_sync conf) (fc_timestamp2log c) (fc_sync_flag c) (fc_fname2log c)
            (Some (fmt_d (a c) ++ [32] ++ fmt_d (b c)))).

Definition file_length (c : StorageFileContext) : Z := fc_end c - fc_start c.

Definition storage_append_file_done_callback (err_no : Z) : M Serving unit :=
  let! result := (if err_no =? 0 then log_range fc_start file_length else ret err_no) in
  let! n := the_task ci_total_offset in
  let! c := the_file id in
  (if result =? 0 then
     CHECK_AND_WRITE_TO_STAT_FILE3_WITH_BYTES (bs "total_append_count") (bs "success_append_count")
       (bs "total_append_bytes") (bs "success_append_bytes") (file_length c)
   else count (bs "total_append_count") 1 ;; count (bs "total_append_bytes") n) ;;
  notify_answer result.

Definition storage_modify_file_done_callback (err_no : Z) : M Serving unit :=
  let! result := (if err_no =? 0 then log_range fc_start file_length else ret err_no) in
  let! n := the_task ci_total_offset in
  let! c := the_file id in
  (if result =? 0 then
     CHECK_AND_WRITE_TO_STAT_FILE3_WITH_BYTES (bs "total_modify_count") (bs "success_modify_count")
       (bs "total_modify_bytes") (bs "success_modify_bytes") (file_length c)
   else count (bs "total_modify_count") 1 ;; count (bs "total_modify_bytes") n) ;;
  notify_answer result.

Definition storage_do_truncate_file_done_callback (err_no : Z) : M Serving unit :=
  let! result := (if err_no =? 0 then log_range file_length fc_offset else ret err_no) in
  (if result =? 0 then CHECK_AND_WRITE_TO_STAT_FILE3 (bs "total_truncate_count") (bs "success_truncate_count")
   else count (bs "total_truncate_count") 1) ;;
  notify_answer result.

Definition storage_set_metadata_done_callback (err_no : Z) : M Serving unit :=
  let! c := the_file id in
  let! result := (if (err_no =? 0) && negb (fc_sync_flag c =? 0) then log_file conf else ret err_no) in
  (if decide (result <> 0) then count (bs "total_set_meta_count") 1
   else CHECK_AND_WRITE_TO_STAT_FILE3 (bs "total_set_meta_count") (bs "success_set_meta_count")) ;;
  notify_answer result.

(** ** What is known of a file. *)
Definition source_ip (storage_id : Z) (client_ip : bytes) : bytes :=
  if fdfs_get_server_id_type storage_id =? FDFS_ID_TYPE_SERVER_ID then
    match (if g_use_storage_id (st_sync conf) then st_storage_ids conf ≫= fun t => fdfs_get_storage_by_id t (fmt_d storage_id) else None) with
    | Some info => fdfs_get_ipaddr_by_peer_ip (si_ip_addrs info) client_ip
    | None => []
    end
  else inet_ntop storage_id.

Definition query_file_info_response (storage_id fsize mtime crc32 : Z) : M Serving Z :=
  let! client_ip := the_task tk_client_ip in
  let body := long2buff fsize ++ long2buff mtime ++ long2buff (int32 crc32) ++
              zero_pad (Z.to_nat (st_IP_ADDRESS_SIZE conf)) (source_ip storage_id client_ip) in
  task (put_buffer 10 body) ;;
  task (set_ci_total_length (10 + Z.of_nat (length body))) ;;
  ret 0.

(** The answer of [ci_total_length] bytes. *)
Definition notify_total (result : Z) : M Serving unit :=
  task (fun t => set_tk_length (ci_total_length t) (set_ci_total_offset 0 t)) ;;
  put_header result ;;
  let! _ := storage_nio_notify in ret tt.

Definition calc_crc32_done_callback_for_query_finfo (err_no : Z) : M Serving unit :=
  let! info := the_task ci_extra_arg in
  let! crc32 := the_file fc_crc32 in
  let! result := (match info with
                  | Some (Extra_file_info storage_id fsize mtime) =>
                      if err_no =? 0 then query_file_info_response storage_id fsize mtime crc32
                      else task (set_ci_total_length 10) ;; ret err_no
                  | _ => ret err_no
                  end) in
  task (set_ci_extra_arg None) ;;
  notify_total result.

(** An appender file becomes a normal file under a name that tells its size and
    its checksum. *)
Definition rename_appender (fsize : Z) : M Serving Z :=
  let! t := now in
  let! c := the_file id in
  let formatted_ext_name := drop (length (fc_filename c) - Z.to_nat (FDFS_FILE_EXT_NAME_MAX_LEN + 1)) (fc_filename c) in
  file (set_fc_timestamp2log t) ;;
  let! new := storage_get_filename conf t fsize (fc_crc32 c) formatted_ext_name in
  match new with
  | None => ret ENOENT
  | Some (filename, full_filename) =>
      let! e := files (data_rename (fc_filename c) full_filename) in
      if decide (e <> 0) then ret (errno_or e EPERM)
      else
        let! index := the_file (fun c => store_path_index (ti_path (up_trunk_info (fc_upload c)))) in
        let return_filename := snprintf 128 (logic_name index filename) in
        let! result := storage_binlog conf t STORAGE_OP_TYPE_SOURCE_RENAME_FILE (return_filename ++ [32] ++ fc_fname2log c) in
        task (put_buffer 10 (zero_pad (Z.to_nat FDFS_GROUP_NAME_MAX_LEN) (st_group_name conf) ++ return_filename)) ;;
        task (set_ci_total_length (10 + FDFS_GROUP_NAME_MAX_LEN + Z.of_nat (length return_filename))) ;;
        ret result
  end.

Definition calc_crc32_done_callback_for_regenerate (err_no : Z) : M Serving unit :=
  let! info := the_task ci_extra_arg in
  let! result := (match info with
                  | Some (Extra_file_info _ fsize _) => if err_no =? 0 then rename_appender fsize else ret err_no
                  | _ => ret err_no
                  end) in
  task (set_ci_extra_arg None) ;;
  (if decide (result <> 0) then task (set_ci_total_length 10) else ret tt) ;;
  notify_total result.

(** ** Links. *)
Definition storage_trunk_create_link_file_done_callback (err_no : Z) : M Serving unit :=
  let! arg := the_task ci_extra_arg in
  let! r := trunk_client_trunk_alloc_confirm err_no in
  let result := if decide (err_no <> 0) then err_no else r in
  let! result := (if result =? 0 then storage_service_upload_file_done conf else ret result) in
  let! c := the_file id in
  let src := match arg with Some (Extra_create_link s _) => s | _ => [] end in
  let need_response := match arg with Some (Extra_create_link _ b) => b | _ => false end in
  let! result := (if result =? 0 then
                    storage_binlog conf (fc_timestamp2log c) STORAGE_OP_TYPE_SOURCE_CREATE_LINK
                      (fc_fname2log c ++ [32] ++ logic_name (store_path_index (ti_path (up_trunk_info (fc_upload c)))) src)
                  else ret result) in
  (if result =? 0 then
     CHECK_AND_WRITE_TO_STAT_FILE3 (bs "total_create_link_count") (bs "success_create_link_count")
   else count (bs "total_create_link_count") 1) ;;
  if need_response : bool then
    if result =? 0 then notify_name (up_group_name (fc_upload c)) (fc_fname2log c) else notify_answer result
  else ret tt.

End callbacks.

Section handlers.
Context `{FastCommon} (conf : StorageConf).

(** ** Appender files. *)

(** The size in a name. *)
Definition size_in_name (filename : bytes) : Z :=
  buff2long (drop 8 (zero_pad 64 (base64_decode_auto
    (take (Z.to_nat FDFS_FILENAME_BASE64_LENGTH) (drop (Z.to_nat FDFS_LOGIC_FILE_PATH_LEN) filename))))).

Definition is_appender_name (filename : bytes) : bool := IS_APPENDER_FILE (st_INFINITE_FILE_SIZE conf) (size_in_name filename).

(** The regular file of a name that says that it is an appender file. *)
Definition appender_stat (appender_filename : bytes) : M Serving (Z + Stat) :=
  let! full := the_file fc_filename in
  let! st := files (data_lstat full) in
  match st with
  | inl e => ret (inl (errno_or e ENOENT))
  | inr st =>
      fail_if negb (S_ISREG (st_mode st)) with (inl EINVAL) ;;;
      file (set_fc_fname2log (cstr appender_filename)) ;;
      fail_if negb (is_appender_name (cstr appender_filename)) with (inl EINVAL) ;;;
      ret (inr st)
  end.

Definition storage_server_check_appender_file (appender_filename : bytes) (appender_filename_len : Z) :
    M Serving (Z + (Stat * Z * bytes)) :=
  match storage_split_filename_ex (paths conf) appender_filename appender_filename_len with
  | inl e => ret (inl e)
  | inr (true_len, true_filename, index) =>
      let result := fdfs_check_data_filename true_filename true_len in
      if decide (result <> 0) then ret (inl result)
      else
        file (set_fc_filename (snprintf (MAX_PATH_SIZE + 128) (path_of conf index ++ bs "/data/" ++ cstr true_filename))) ;;
        let! st := appender_stat appender_filename in
        ret (match st with inl e => inl e | inr st => inr (st, index, cstr true_filename) end)
  end.

Definition bad_appender_length (n : Z) : bool := (n <? appender_name_len) || (filename_size <=? n).

(** What the handlers of appender files set. *)
Definition set_appender (sync_flag op : Z) (flags : OpenFlags) (index : Z) : M Serving unit :=
  let! t := now in
  file (fun c => set_fc_calc_crc32 false (set_fc_sync_flag sync_flag (set_fc_timestamp2log t (set_fc_op op
                   (set_fc_open_flags flags (set_fc_continue_callback Continue_nio_notify c)))))) ;;
  upload (fun u => set_up_start_time t (set_up_if_gen_filename false (set_up_file_type FILE_TYPE_APPENDER
                     (set_up_before_open_callback None (set_up_before_close_callback None
                     (set_up_trunk_info (with_store_path index (up_trunk_info u)) u)))))).

Definition storage_append_file : M Serving Z :=
  let! t := the_task id in
  let nInPackLen := in_length t in
  fail_if nInPackLen <=? 16 with EINVAL ;;;
  let appender_filename_len := int32 (long_in t 10) in
  let file_bytes := long_in t 18 in
  fail_if bad_appender_length appender_filename_len with EINVAL ;;;
  fail_if (file_bytes <? 0) || negb (file_bytes =? nInPackLen - (16 + appender_filename_len)) with EINVAL ;;;
  let? (st, index, _) := storage_server_check_appender_file (field t 26 appender_filename_len) appender_filename_len in
  fail_if file_bytes =? 0 with 0 ;;;
  set_appender STORAGE_OP_TYPE_SOURCE_APPEND_FILE FDFS_STORAGE_FILE_OP_APPEND O_WRONLY_APPEND index ;;
  storage_write_to_file conf (st_size st) file_bytes (26 + appender_filename_len) Deal_dio_write_file Done_append_file
    (Some Clean_dio_append) index.

Definition storage_modify_file : M Serving Z :=
  let! t := the_task id in
  let nInPackLen := in_length t in
  fail_if nInPackLen <=? 24 with EINVAL ;;;
  let appender_filename_len := int32 (long_in t 10) in
  let file_offset := long_in t 18 in
  let file_bytes := long_in t 26 in
  fail_if bad_appender_length appender_filename_len with EINVAL ;;;
  fail_if file_offset <? 0 with EINVAL ;;;
  fail_if (file_bytes <? 0) || negb (file_bytes =? nInPackLen - (24 + appender_filename_len)) with EINVAL ;;;
  let? (st, index, _) := storage_server_check_appender_file (field t 34 appender_filename_len) appender_filename_len in
  fail_if st_size st <? file_offset with EINVAL ;;;
  fail_if file_bytes =? 0 with 0 ;;;
  set_appender STORAGE_OP_TYPE_SOURCE_MODIFY_FILE FDFS_STORAGE_FILE_OP_WRITE O_WRONLY index ;;
  storage_write_to_file conf file_offset file_bytes (34 + appender_filename_len) Deal_dio_write_file Done_modify_file
    (Some Clean_dio_modify) index.

Definition storage_do_truncate_file : M Serving Z :=
  let! t := the_task id in
  let nInPackLen := in_length t in
  fail_if nInPackLen <=? 16 with EINVAL ;;;
  let appender_filename_len := int32 (long_in t 10) in
  let remain_bytes := long_in t 18 in
  fail_if bad_appender_length appender_filename_len with EINVAL ;;;
  fail_if remain_bytes <? 0 with EINVAL ;;;
  let appender_filename := field t 26 appender_filename_len in
  let? index := local_file conf appender_filename appender_filename_len in
  let? st := appender_stat appender_filename in
  fail_if remain_bytes =? st_size st with 0 ;;;
  set_appender STORAGE_OP_TYPE_SOURCE_TRUNCATE_FILE FDFS_STORAGE_FILE_OP_WRITE O_WRONLY index ;;
  storage_write_to_file conf remain_bytes (st_size st) 0 Deal_dio_truncate_file Done_do_truncate_file
    (Some Clean_dio_read) index.

(** ** Sending a file. *)
Definition storage_read_from_file (file_offset download_bytes : Z) (done_callback : DoneCallback) (store_path_index : Z) :
    M Serving Z :=
  task (fun t => set_ci_deal_func (Some Deal_dio_read_file) (set_ci_clean_func (Some Clean_dio_read)
                   (set_ci_total_length (10 + download_bytes) (set_ci_total_offset 0 t)))) ;;
  file (fun c => set_fc_op FDFS_STORAGE_FILE_OP_READ (set_fc_open_flags O_RDONLY (set_fc_offset file_offset
                   (set_fc_start file_offset (set_fc_end (file_offset + download_bytes) c))))) ;;
  choose_dio_thread conf store_path_index ;;
  file (set_fc_done_callback (Some done_callback)) ;;
  task (set_tk_length 10) ;;
  put_header 0 ;;
  file (fun c => if fc_calc_crc32 c then set_fc_crc32 CRC32_XINIT c else c) ;;
  let! result := storage_dio_queue_push in
  if decide (result <> 0) then file (set_fc_fd None) ;; ret result else ret STORAGE_STATUE_DEAL_FILE.

(** [trunk_file_stat_ex]: what the name leads to, and the descriptor behind the
    header when it is in a trunk file. *)
Definition trunk_file_stat_ex (index : Z) (true_filename : bytes) (filename_len : Z) (with_fd : bool) :
    M Serving ((Z + (Stat * option OpenFile)) * FDFSTrunkFullInfo) :=
  let! view := files data_view in
  match trunk_file_stat_func_ex view (paths conf) index true_filename filename_len FDFS_STAT_FUNC_STAT with_fd no_trunk no_header with
  | inl e => ret (inl e, (trunk_name_outputs index true_filename filename_len no_trunk no_header).1)
  | inr (st, t, _, fd) =>
      let! s := gets (fun s => s_files (s_service s)) in
      let opened := match fd, follow max_links s (trunk_get_full_filename_ex (paths conf) t MAX_PATH_SIZE) with
                    | Some fd, inr name => (fun i => mkOpen i (fd_pos fd) false) <$> d_names s !! name
                    | _, _ => None
                    end in
      ret (inr (st, opened), t)
  end.

(** The name behind a group name at [p] and [n] more bytes of the request: the
    name, its length, its true name with the length, and the store path. *)
Definition group_and_name (t : Task) (p n : Z) : M Serving (Z + (bytes * Z * bytes * Z * Z)) :=
  fail_if negb (my_group conf t p) with (inl EINVAL) ;;;
  let filename_len := int32 n in
  let filename := field t (p + FDFS_GROUP_NAME_MAX_LEN) filename_len in
  task (put_buffer (p + FDFS_GROUP_NAME_MAX_LEN + filename_len) [0]) ;;
  match storage_split_filename_ex (paths conf) filename filename_len with
  | inl e => ret (inl e)
  | inr (true_len, true_filename, index) =>
      if filename_size <=? true_len then let! r := overrun in ret (inl r)  (* true_filename[128] *)
      else
      let result := fdfs_check_data_filename true_filename true_len in
      if decide (result <> 0) then ret (inl result)
      else ret (inr (cstr filename, filename_len, true_filename, true_len, index))
  end.

Definition storage_server_get_metadata : M Serving Z :=
  let! t := the_task id in
  let nInPackLen := in_length t in
  fail_if nInPackLen <=? 16 with EINVAL ;;;
  fail_if tk_size t <=? nInPackLen with EINVAL ;;;
  let? (_, _, true_filename, true_len, index) := group_and_name t 10 (nInPackLen - 16) in
  let! r := trunk_file_stat_ex index true_filename true_len false in
  match r.1 with
  | inl e => ret e
  | inr _ =>
      let filename := path_of conf index ++ bs "/data/" ++ cstr true_filename ++ FDFS_STORAGE_META_FILE_EXT in
      file (set_fc_filename filename) ;;
      let! st := files (data_lstat filename) in
      match st with
      | inl e => ret (errno_or e ENOENT)
      | inr st =>
          fail_if negb (S_ISREG (st_mode st)) with EISDIR ;;;
          file (fun c => set_fc_fd None (set_fc_calc_crc32 false (set_fc_continue_callback Continue_nio_notify c))) ;;
          storage_read_from_file 0 (st_size st) Done_get_metadata index
      end
  end.

Definition storage_server_download_file : M Serving Z :=
  let! t := the_task id in
  let nInPackLen := in_length t in
  fail_if nInPackLen <=? 32 with EINVAL ;;;
  fail_if tk_size t <=? nInPackLen with EINVAL ;;;
  let file_offset := long_in t 10 in
  let download_bytes := long_in t 18 in
  fail_if file_offset <? 0 with EINVAL ;;;
  fail_if download_bytes <? 0 with EINVAL ;;;
  let? (_, _, true_filename, true_len, index) := group_and_name t 26 (nInPackLen - 32) in
  file (set_fc_fd None) ;;
  let! r := trunk_file_stat_ex index true_filename true_len true in
  let trunk := IS_TRUNK_FILE_BY_ID r.2 in
  (if trunk then count (bs "total_file_open_count") 1 else ret tt) ;;
  match r.1 with
  | inl e => ret e
  | inr (st, fd) =>
      file (set_fc_fd fd) ;;
      fail_if negb (S_ISREG (st_mode st)) with EISDIR ;;;
      (if trunk then count (bs "success_file_open_count") 1 else ret tt) ;;
      let file_remain := st_size st - file_offset in
      if negb (download_bytes =? 0) && (file_remain <? download_bytes) then file (set_fc_fd None) ;; ret EINVAL
      else
        let download_bytes := if download_bytes =? 0 then file_remain else download_bytes in
        file (fun c => set_fc_filename
                (if trunk then trunk_get_full_filename_ex (paths conf) r.2 (MAX_PATH_SIZE + 128)
                 else path_of conf index ++ bs "/data/" ++ cstr true_filename)
                (set_fc_calc_crc32 false (set_fc_continue_callback Continue_nio_notify c))) ;;
        storage_read_from_file
          (file_offset + (if trunk then FDFS_TRUNK_FILE_HEADER_SIZE + tf_offset (ti_file r.2) else 0))
          download_bytes Done_download_file index
  end.

(** ** Deleting. *)
Definition storage_is_slave_file (remote_filename : bytes) (filename_len : Z) : bool :=
  if filename_len <? FDFS_NORMAL_LOGIC_FILENAME_LENGTH then false
  else if IS_TRUNK_FILE (size_in_name remote_filename) then FDFS_TRUNK_LOGIC_FILENAME_LENGTH <? filename_len
  else FDFS_NORMAL_LOGIC_FILENAME_LENGTH <? filename_len.

Definition is_prefix (p s : bytes) : bool :=
  (length p <? length s)%nat && bool_decide (take (length p) s = p).

(** The first store path that the name is in. *)
Fixpoint path_with (l : list FDFSStorePathInfo) (i : Z) (name : bytes) : option Z :=
  match l with
  | [] => None
  | p :: l' => if is_prefix (sp_path p) name then Some i else path_with l' (i + 1) name
  end.

(** The file that a slave file is a link to goes first; an errno ends the
    request. *)
Definition delete_slave_source (link : bytes) (index : Z) : M Serving (Z + unit) :=
  let! r := files (data_readlink link (MAX_PATH_SIZE + 128)) in
  match r with
  | inl e => ret (inl (errno_or e EPERM))
  | inr src_filename =>
      if MAX_PATH_SIZE + 128 <=? Z.of_nat (length src_filename) then let! r := overrun in ret (inl r)
      else
      let! e := files (data_unlink src_filename) in
      if decide (e <> 0) then ret (if e =? ENOENT then inr tt else inl e)
      else
        match (if is_prefix (path_of conf index) src_filename then Some index else path_with (paths conf) 0 src_filename) with
        | None => ret (inr tt)
        | Some i =>
            let! t := now in
            let! _ := storage_binlog conf t STORAGE_OP_TYPE_SOURCE_DELETE_FILE
                        (snprintf 128 (logic_name i (drop (length (path_of conf i) + 6) src_filename))) in
            ret (inr tt)
        end
  end.

Definition storage_server_delete_file : M Serving Z :=
  let! t := the_task id in
  let nInPackLen := in_length t in
  task (set_ci_total_length 10) ;;
  file (set_fc_delete_flag STORAGE_DELETE_FLAG_NONE) ;;
  fail_if nInPackLen <=? 16 with EINVAL ;;;
  fail_if tk_size t <=? nInPackLen with EINVAL ;;;
  let? (filename, filename_len, true_filename, true_len, index) := group_and_name t 10 (nInPackLen - 16) in
  let! t0 := the_file (fun c => up_trunk_info (fc_upload c)) in
  let! r := trunk_file_lstat conf index true_filename true_len t0 no_header in
  upload (set_up_trunk_info r.1.2) ;;
  match r.1.1 with
  | inl e => ret e
  | inr st =>
      fail_if negb (S_ISREG (st_mode st) || S_ISLNK (st_mode st)) with EINVAL ;;;
      let link := negb (S_ISREG (st_mode st)) in
      let trunk := IS_TRUNK_FILE_BY_ID r.1.2 in
      let full := path_of conf index ++ bs "/data/" ++ cstr true_filename in
      upload (set_up_file_type (Z.lor (if link then FILE_TYPE_LINK else FILE_TYPE_REGULAR) (if trunk then FILE_TYPE_TRUNK else 0))) ;;
      file (set_fc_delete_flag (if link then STORAGE_DELETE_FLAG_LINK else STORAGE_DELETE_FLAG_FILE)) ;;
      task (set_ci_deal_func (Some (if trunk then Deal_dio_delete_trunk_file else Deal_dio_delete_normal_file))) ;;
      file (set_fc_filename (if trunk then trunk_get_full_filename_ex (paths conf) r.1.2 (MAX_PATH_SIZE + 128) else full)) ;;
      let? _ := (if link && storage_is_slave_file filename filename_len then delete_slave_source full index else ret (inr tt)) in
      if fname2log_size <=? Z.of_nat (length filename) then overrun  (* strcpy(fname2log, filename) *)
      else
      file (set_fc_fname2log filename) ;;
      storage_do_delete_file conf Done_delete_fdfs_file index
  end.

(** ** Metadata. *)
Definition write_metadata (meta_buff : bytes) (exists_flag : Z) : M Serving Z :=
  file (set_fc_sync_flag exists_flag) ;;
  let! filename := the_file fc_filename in
  files (data_put_file filename meta_buff).

Definition overwrite_metadata (meta_buff : bytes) : M Serving Z :=
  let! filename := the_file fc_filename in
  if bool_decide (meta_buff = []) then
    let! e := files (data_access filename) in
    if decide (e <> 0) then ret 0
    else
      file (set_fc_sync_flag STORAGE_OP_TYPE_SOURCE_DELETE_FILE) ;;
      let! e := files (data_unlink filename) in
      ret (if decide (e <> 0) then errno_or e EPERM else 0)
  else
    let! e := files (data_access filename) in
    write_metadata (storage_sort_metadata_buff meta_buff)
      (if decide (e <> 0) then STORAGE_OP_TYPE_SOURCE_CREATE_FILE else STORAGE_OP_TYPE_SOURCE_UPDATE_FILE).

Definition update_metadata (meta_buff : bytes) : M Serving Z :=
  if bool_decide (meta_buff = []) then ret 0
  else
    let! filename := the_file fc_filename in
    let! old := files (data_get_file filename) in
    match old with
    | inl e =>
        if e =? ENOENT then write_metadata (storage_sort_metadata_buff meta_buff) STORAGE_OP_TYPE_SOURCE_CREATE_FILE
        else ret e
    | inr file_buff =>
        let new_meta_list := sort_metadata (fdfs_split_metadata meta_buff) in
        match fdfs_pack_metadata (merge_metadata (fdfs_split_metadata file_buff) new_meta_list) with
        | None => overrun  (* the NUL in front of the allocated buffer *)
        | Some all_meta_buff => write_metadata all_meta_buff STORAGE_OP_TYPE_SOURCE_UPDATE_FILE
        end
    end.

(** In a disk thread. *)
Definition storage_do_set_metadata : M Serving Z :=
  file (set_fc_sync_flag 0) ;;
  let! m := the_file fc_setmeta in
  let! result := (if sm_op_flag m =? STORAGE_SET_METADATA_FLAG_OVERWRITE then overwrite_metadata (sm_meta_buff m)
                  else update_metadata (sm_meta_buff m)) in
  storage_set_metadata_done_callback conf result ;; ret result.

Definition storage_server_set_metadata : M Serving Z :=
  let! t := the_task id in
  let nInPackLen := in_length t in
  fail_if nInPackLen <=? 33 with EINVAL ;;;
  fail_if tk_size t <=? nInPackLen + 10 with EINVAL ;;;
  let filename_len := int32 (long_in t 10) in
  let meta_bytes := int32 (long_in t 18) in
  fail_if (filename_len <=? 0) || (filename_size <=? filename_len) with EINVAL ;;;
  let op_flag := int8 (znth 0 (tk_data t) 26) in
  file (fun c => set_fc_setmeta (mkSetMeta op_flag (sm_meta_buff (fc_setmeta c))) c) ;;
  fail_if negb (op_flag =? STORAGE_SET_METADATA_FLAG_OVERWRITE) && negb (op_flag =? STORAGE_SET_METADATA_FLAG_MERGE) with EINVAL ;;;
  fail_if (meta_bytes <? 0) || negb (meta_bytes =? nInPackLen - (33 + filename_len)) with EINVAL ;;;
  fail_if negb (my_group conf t 27) with EINVAL ;;;
  let filename := field t 43 filename_len in
  match storage_split_filename_ex (paths conf) filename filename_len with
  | inl e => ret e
  | inr (true_len, true_filename, index) =>
      let result := fdfs_check_data_filename true_filename true_len in
      if decide (result <> 0) then ret result
      else
        let meta_buff := field t (43 + filename_len) meta_bytes in
        task (put_buffer (43 + filename_len + meta_bytes) [0]) ;;
        let! t0 := the_file (fun c => up_trunk_info (fc_upload c)) in
        let! r := trunk_file_lstat conf index true_filename true_len t0 no_header in
        upload (set_up_trunk_info r.1.2) ;;
        match r.1.1 with
        | inl e => ret e
        | inr _ =>
            let! now := now in
            file (fun c => set_fc_timestamp2log now (set_fc_setmeta (mkSetMeta op_flag meta_buff)
              (set_fc_filename (path_of conf index ++ bs "/data/" ++ cstr true_filename ++ FDFS_STORAGE_META_FILE_EXT)
              (set_fc_fname2log (cstr filename ++ FDFS_STORAGE_META_FILE_EXT) c)))) ;;
            task (set_ci_deal_func (Some Deal_storage_do_set_metadata)) ;;
            task (fun t => set_ci_file_context (set_fc_dio_thread_index
              (storage_dio_get_thread_index conf t index FDFS_STORAGE_FILE_OP_WRITE) (ci_file_context t)) t) ;;
            let! result := storage_dio_queue_push in
            ret (if decide (result <> 0) then result else STORAGE_STATUE_DEAL_FILE)
        end
  end.

End handlers.

Section info.
Context `{FastCommon} (conf : StorageConf).

(** A disk thread reads the file for its checksum. *)
Definition push_calc_crc32_to_dio_queue (done_callback : DoneCallback) (store_path_index : Z) (file_stat : Stat)
    (storage_id : Z) : M Serving Z :=
  task (set_ci_extra_arg (Some (Extra_file_info storage_id (st_size file_stat) (st_mtime file_stat)))) ;;
  file (fun c => set_fc_fd None (set_fc_calc_crc32 true (set_fc_continue_callback Continue_calc_crc32 c))) ;;
  storage_read_from_file conf 0 (st_size file_stat) done_callback store_path_index.

(** The encoded part of a name. *)
Definition decode_name (filename : bytes) : bytes :=
  zero_pad 64 (base64_decode_auto
    (take (Z.to_nat FDFS_FILENAME_BASE64_LENGTH) (drop (Z.to_nat FDFS_LOGIC_FILE_PATH_LEN) filename))).

Definition query_file_info_deal_response (filename true_filename : bytes) (file_stat : Stat) (store_path_index : Z) :
    M Serving Z :=
  let decode_buff := decode_name filename in
  let storage_id := ntohl (buff2int decode_buff) in
  let file_size := buff2long (drop 8 decode_buff) in
  if IS_APPENDER_FILE (st_INFINITE_FILE_SIZE conf) file_size then
    file (fun c => set_fc_fname2log (snprintf fname2log_size filename)
      (set_fc_filename (snprintf (MAX_PATH_SIZE + 128) (path_of conf store_path_index ++ bs "/data/" ++ true_filename)) c)) ;;
    push_calc_crc32_to_dio_queue Done_calc_crc32_for_query_finfo store_path_index file_stat storage_id
  else
    query_file_info_response conf storage_id (st_size file_stat) (st_mtime file_stat) (buff2int (drop 16 decode_buff)).

(** The file behind a link in a trunk file. *)
Definition trunk_link_target (t : FDFSTrunkFullInfo) (size : Z) : M Serving (Z + Stat) :=
  let! view := files data_view in
  if int32 size <? 0 then let! r := overrun in ret (inl r)  (* a large [size_t] *)
  else
  match trunk_file_get_content_ex view (paths conf) t (int32 size) None (MAX_PATH_SIZE + 127) with
  | inl e => ret (inl e)
  | inr (src_filename, _) =>
      match storage_split_filename_ex (paths conf) src_filename (int32 size) with
      | inl e => ret (inl e)
      | inr (src_len, src_true_filename, src_index) =>
          if filename_size <=? src_len then let! r := overrun in ret (inl r)  (* src_true_filename[128] *)
          else
            let! r := trunk_file_lstat conf src_index src_true_filename src_len t no_header in ret r.1.1
      end
  end.

(** The file behind a symbolic link. *)
Definition plain_link_target (full_filename : bytes) : M Serving (Z + Stat) :=
  let! r := files (data_readlink full_filename (MAX_PATH_SIZE + 128)) in
  match r with
  | inl e => ret (inl (errno_or e EPERM))
  | inr src_filename =>
      if MAX_PATH_SIZE + 128 <=? Z.of_nat (length src_filename) then let! r := overrun in ret (inl r)
      else
        let! st := files (data_stat src_filename) in
        ret (match st with inl e => inl (errno_or e ENOENT) | inr st => inr st end)
  end.

Definition storage_server_query_file_info : M Serving Z :=
  let! t := the_task id in
  let nInPackLen := in_length t in
  fail_if nInPackLen <=? FDFS_GROUP_NAME_MAX_LEN with EINVAL ;;;
  let filename_len := int32 (nInPackLen - FDFS_GROUP_NAME_MAX_LEN) in
  fail_if (filename_len <? 0) || (fname2log_size <=? filename_len) with EINVAL ;;;
  task (put_buffer (26 + filename_len) [0]) ;;
  fail_if negb (my_group conf t 10) with EINVAL ;;;
  let filename := field t 26 filename_len in
  match storage_split_filename_ex (paths conf) filename filename_len with
  | inl e => ret e
  | inr (true_len, true_filename, index) =>
      let result := fdfs_check_data_filename true_filename true_len in
      if decide (result <> 0) then ret result
      else
        let! r := trunk_file_lstat conf index true_filename true_len no_trunk no_header in
        match r.1.1 with
        | inl e => ret e
        | inr file_lstat =>
            let? file_stat :=
              (if S_ISLNK (st_mode file_lstat) then
                 let! st := (if IS_TRUNK_FILE_BY_ID r.1.2 then trunk_link_target r.1.2 (st_size file_lstat)
                             else plain_link_target (path_of conf index ++ bs "/data/" ++ cstr true_filename)) in
                 ret (match st with
                      | inl e => inl e
                      | inr st => inr {| st_mode := st_mode st; st_size := st_size st; st_mtime := st_mtime file_lstat |}
                      end)
               else ret (inr file_lstat)) in
            fail_if filename_len <? FDFS_LOGIC_FILE_PATH_LEN + FDFS_FILENAME_BASE64_LENGTH with EINVAL ;;;
            query_file_info_deal_response (cstr filename) (cstr true_filename) file_stat index
        end
  end.

(** The appender file is to become a normal file. *)
Definition storage_server_regenerate_appender_filename : M Serving Z :=
  let! t := the_task id in
  let nInPackLen := in_length t in
  let appender_filename_len := int32 nInPackLen in
  fail_if (nInPackLen <? appender_name_len) || (appender_filename_len <? 0) || (filename_size <=? appender_filename_len) with EINVAL ;;;
  let? (st, index, true_filename) :=
    storage_server_check_appender_file conf (field t 10 appender_filename_len) appender_filename_len in
  upload (fun u => set_up_if_sub_path_alloced true (set_up_trunk_info
    (with_path {| store_path_index := uint8 index; sub_path_high := uint8 (strtol 16 true_filename).1;
                  sub_path_low := uint8 (strtol 16 (drop 3 true_filename)).1 |} (up_trunk_info u)) u)) ;;
  push_calc_crc32_to_dio_queue Done_calc_crc32_for_regenerate index st (st_server_id_in_filename conf).

End info.
