(* ===== verification/FileInfo.v ===== *)
(** * What a name tells a client ([storage_client.c]).

    [fdfs_get_file_info_ex] reads the source, the time, the size and the checksum
    of a file from its name, and asks a storage server only when the name cannot
    tell.  The theorems compare it with the names and answers the storage server
    makes. *)

From S2P Require Import Prelude FastCommon TrunkShared SharedFunc StorePath TrunkMem StorageIds TrackerTypes TrackerFetch FileSys SyncBinlog Net SyncReader SyncPeer DataFiles StorageTask StorageDio StorageSyncIn StorageUpload StorageClient.

Definition FDFS_FILE_TYPE_NORMAL : Z := 1.
Definition FDFS_FILE_TYPE_APPENDER : Z := 2.
Definition FDFS_FILE_TYPE_SLAVE : Z := 4.

Record FDFSFileInfo := mkFileInfo {
  fi_file_type : Z;
  fi_get_from_server : bool;
  fi_create_timestamp : Z;
  fi_crc32 : Z;
  fi_source_id : Z;
  fi_file_size : Z;
  fi_source_ip_addr : bytes;
}.

Section client.
Context `{FastCommon}.
(** A constant of libfastcommon, the table of server ids, and the size of an
    address. *)
Context (INFINITE_FILE_SIZE : Z) (ids : StorageIds) (IP_ADDRESS_SIZE : Z).

(** [storage_query_file_info] on what was received: the errno, or the body. *)
Definition storage_query_file_info (answer : Z + bytes) (fi : FDFSFileInfo) : Z + FDFSFileInfo :=
  match answer with
  | inl e => inl e
  | inr in_buff =>
      if negb (Z.of_nat (length in_buff) =? 3 * FDFS_PROTO_PKG_LEN_SIZE + IP_ADDRESS_SIZE) then inl EINVAL
      else inr (mkFileInfo (fi_file_type fi) (fi_get_from_server fi) (buff2long (drop 8 in_buff))
                  (int32 (buff2long (drop 16 in_buff))) (fi_source_id fi) (buff2long in_buff)
                  (cstr (take (Z.to_nat (IP_ADDRESS_SIZE - 1)) (drop 24 in_buff))))
  end.

(** The source: its id if the name has one, and its address. *)
Definition file_source (s_addr : Z) : Z * bytes :=
  if fdfs_get_server_id_type s_addr =? FDFS_ID_TYPE_SERVER_ID then
    (s_addr, match fdfs_get_storage_by_id ids (fmt_d s_addr) with
             | Some info => match ips (si_ip_addrs info) with ip :: _ => address ip | [] => [] end
             | None => []
             end)
  else (0, inet_ntop s_addr).

Definition file_type_of (filename_len file_size : Z) : Z :=
  if IS_APPENDER_FILE INFINITE_FILE_SIZE file_size then FDFS_FILE_TYPE_APPENDER
  else if IS_SLAVE_FILE filename_len file_size then FDFS_FILE_TYPE_SLAVE
  else FDFS_FILE_TYPE_NORMAL.

(** The size in the name of a normal file. *)
Definition true_file_size (file_size : Z) : Z :=
  if negb (Z.shiftr file_size 63 =? 0) then Z.land file_size 0xFFFFFFFF
  else if IS_TRUNK_FILE file_size then FDFS_TRUNK_FILE_TRUE_SIZE file_size
  else file_size.

Definition fdfs_get_file_info_ex (remote_filename : bytes) (get_from_server : bool) (answer : Z + bytes) : Z + FDFSFileInfo :=
  let filename_len := Z.of_nat (length remote_filename) in
  if filename_len <? FDFS_NORMAL_LOGIC_FILENAME_LENGTH then inl EINVAL
  else
    let buff := decode_name remote_filename in
    let '(source_id, source_ip_addr) := file_source (ntohl (buff2int buff)) in
    let create_timestamp := buff2int (drop 4 buff) in
    let file_size := buff2long (drop 8 buff) in
    let file_type := file_type_of filename_len file_size in
    if (file_type =? FDFS_FILE_TYPE_SLAVE) || (file_type =? FDFS_FILE_TYPE_APPENDER) ||
       (bool_decide (source_ip_addr = []) && get_from_server) then
      if get_from_server then
        storage_query_file_info answer (mkFileInfo file_type true create_timestamp 0 source_id file_size source_ip_addr)
      else inr (mkFileInfo file_type false create_timestamp 0 source_id (-1) source_ip_addr)
    else inr (mkFileInfo file_type false create_timestamp (buff2int (drop 16 buff)) source_id (true_file_size file_size) source_ip_addr).
End client.

(** ** Reading a name. *)

Lemma byte_of_div z k : 0 <= k -> byte_of z k = (uint32 z / 2 ^ (8 * k)) `mod` 256.
Proof.
  intros. unfold byte_of. change 255 with (Z.ones 8). rewrite Z.land_ones, Z.shiftr_div_pow2 by lia. reflexivity.
Qed.

Lemma uint32_int32 z : uint32 (int32 z) = uint32 z.
Proof. unfold uint32, int32. rewrite Zminus_mod_idemp_l. f_equal. lia. Qed.

(** Four bytes as a number, and back. *)
Definition of_bytes (a b c d : Z) : Z := a * 2 ^ 24 + b * 2 ^ 16 + c * 2 ^ 8 + d.

Lemma ntohl_bytes z : ntohl z = int32 (of_bytes (byte_of z 0) (byte_of z 1) (byte_of z 2) (byte_of z 3)).
Proof. done. Qed.

Lemma byte_of_range z k : is_uint8 (byte_of z k).
Proof. unfold byte_of. change 255 with (Z.ones 8). rewrite Z.land_ones by lia. apply Z.mod_pos_bound. lia. Qed.

Lemma bytes_of_number a b c d : is_uint8 a -> is_uint8 b -> is_uint8 c -> is_uint8 d ->
  let z := int32 (of_bytes a b c d) in byte_of z 0 = d /\ byte_of z 1 = c /\ byte_of z 2 = b /\ byte_of z 3 = a.
Proof.
  intros Ha Hb Hc Hd z. unfold z, is_uint8 in *. rewrite !byte_of_div, uint32_int32 by lia.
  unfold uint32. rewrite (Z.mod_small (of_bytes a b c d)) by (unfold of_bytes; lia). unfold of_bytes.
  repeat split; Z.to_euclidean_division_equations; lia.
Qed.

Lemma number_of_bytes z : of_bytes (byte_of z 3) (byte_of z 2) (byte_of z 1) (byte_of z 0) = uint32 z.
Proof.
  rewrite !byte_of_div by lia. assert (0 <= uint32 z < 2 ^ 32) as Hu by (apply Z.mod_pos_bound; lia).
  set (u := uint32 z) in *. clearbody u. unfold of_bytes. Z.to_euclidean_division_equations. lia.
Qed.

(** The order of the bytes is changed twice. *)
Lemma ntohl_twice z : is_int32 z -> ntohl (ntohl z) = z.
Proof.
  intros Hz. rewrite (ntohl_bytes (ntohl z)), (ntohl_bytes z).
  destruct (bytes_of_number (byte_of z 0) (byte_of z 1) (byte_of z 2) (byte_of z 3)) as (-> & -> & -> & ->); [apply byte_of_range..|].
  rewrite number_of_bytes. unfold int32, uint32, is_int32 in *. rewrite Zplus_mod_idemp_l, Z.mod_small; lia.
Qed.

(** ** The size in a name.

    A size of less than 32 bits is filled up with random bits and the sign; marks
    for appender and trunk files are above them. *)

Lemma lor_add y x k : 0 <= k -> 0 <= x < 2 ^ k -> Z.lor (y * 2 ^ k) x = y * 2 ^ k + x.
Proof.
  intros Hk Hx. assert (Z.land (y * 2 ^ k) x = 0) as H0.
  { apply Z.bits_inj'. intros n Hn. rewrite Z.land_spec, Z.bits_0. destruct (Z.lt_ge_cases n k).
    - by rewrite Z.mul_pow2_bits_low.
    - rewrite <- (Z.mod_small x (2 ^ k)) by done. rewrite Z.mod_pow2_bits_high by lia. apply andb_false_r. }
  by rewrite <- Z.lxor_lor, Z.add_nocarry_lxor.
Qed.

Lemma land_bit z k : 0 <= k -> Z.land z (2 ^ k) = if Z.testbit z k then 2 ^ k else 0.
Proof.
  intros Hk. apply Z.bits_inj'. intros n Hn. rewrite Z.land_spec, Z.pow2_bits_eqb by done.
  destruct (Z.eqb_spec k n) as [->|Hne].
  - destruct (Z.testbit z n); [by rewrite Z.pow2_bits_true|by rewrite Z.bits_0].
  - rewrite andb_false_r. destruct (Z.testbit z k); [by rewrite Z.pow2_bits_false|by rewrite Z.bits_0].
Qed.

Lemma bit_set z k : 0 <= k -> negb (Z.land z (2 ^ k) =? 0) = ((z / 2 ^ k) `mod` 2 =? 1).
Proof.
  intros Hk. rewrite land_bit, <- Z.testbit_eqb by done. destruct (Z.testbit z k); [|done].
  destruct (Z.eqb_spec (2 ^ k) 0) as [E|E]; [|done]. pose proof (Z.pow_pos_nonneg 2 k). lia.
Qed.

Lemma low_half z : Z.land z 0xFFFFFFFF = z `mod` 2 ^ 32.
Proof. change 0xFFFFFFFF with (Z.ones 32). by rewrite Z.land_ones. Qed.

Lemma lor_bit z k : 0 <= k -> Z.testbit z k = false -> Z.lor z (2 ^ k) = z + 2 ^ k.
Proof.
  intros Hk Hz. assert (Z.land z (2 ^ k) = 0) as H0 by (by rewrite land_bit, Hz). by rewrite <- Z.lxor_lor, Z.add_nocarry_lxor.
Qed.

(** The mark of an appender file in libfastcommon. *)
Definition appender_mark : Z := 2 ^ 58.

(** What the number [z] in a name says of a file. *)
Definition tells (trunk appender : bool) (size z : Z) : Prop :=
  is_int64 z /\ IS_APPENDER_FILE appender_mark z = appender /\
  (appender = false -> IS_TRUNK_FILE z = trunk /\ true_file_size z = size).

Lemma tells_plain size : 0 <= size < 2 ^ 55 -> 2 ^ 32 <= size -> tells false false size size.
Proof.
  intros Hs Hl. unfold tells, is_int64, true_file_size, IS_APPENDER_FILE, IS_TRUNK_FILE, appender_mark.
  change FDFS_TRUNK_FILE_MARK_SIZE with (2 ^ 59). rewrite !bit_set, Z.shiftr_div_pow2 by lia.
  replace (size / 2 ^ 58) with 0 by (Z.to_euclidean_division_equations; lia).
  replace (size / 2 ^ 59) with 0 by (Z.to_euclidean_division_equations; lia).
  replace (size / 2 ^ 63) with 0 by (Z.to_euclidean_division_equations; lia). cbn. repeat split; lia.
Qed.

(** The random bits in [y]; [m] is a mark above them. *)
Lemma tells_filled m y size : 0 <= y < 2 ^ 23 -> 0 <= size < 2 ^ 32 -> m = 0 \/ m = 2 ^ 58 \/ m = 2 ^ 59 ->
  tells (m =? 2 ^ 59) (m =? 2 ^ 58) size (- 2 ^ 63 + m + y * 2 ^ 32 + size).
Proof.
  intros Hy Hs Hm. unfold tells, is_int64, true_file_size, IS_APPENDER_FILE, IS_TRUNK_FILE, appender_mark.
  change FDFS_TRUNK_FILE_MARK_SIZE with (2 ^ 59). rewrite !bit_set, Z.shiftr_div_pow2, low_half by lia.
  set (z := - 2 ^ 63 + m + y * 2 ^ 32 + size).
  assert (z / 2 ^ 63 = -1) as -> by (unfold z; Z.to_euclidean_division_equations; lia).
  assert (z `mod` 2 ^ 32 = size) as ->.
  { unfold z. replace (- 2 ^ 63 + m + y * 2 ^ 32 + size) with (size + (- 2 ^ 31 + m / 2 ^ 32 + y) * 2 ^ 32).
    - by rewrite Z.mod_add, Z.mod_small by lia.
    - destruct Hm as [->|[->| ->]]; [change (0 / 2 ^ 32) with 0|change (2 ^ 58 / 2 ^ 32) with (2 ^ 26)|change (2 ^ 59 / 2 ^ 32) with (2 ^ 27)]; lia. }
  assert (z / 2 ^ 58 = -32 + m / 2 ^ 58) as -> by (unfold z; destruct Hm as [->|[->| ->]]; Z.to_euclidean_division_equations; lia).
  assert (z / 2 ^ 59 = -16 + m / 2 ^ 59) as -> by (unfold z; destruct Hm as [->|[->| ->]]; Z.to_euclidean_division_equations; lia).
  unfold z. clear z. split; [|destruct Hm as [->|[->| ->]]; cbn; repeat split; done]. destruct Hm as [->|[->| ->]]; lia.
Qed.

(** [COMBINE_RAND_FILE_SIZE]. *)
Lemma combine_value r size : 0 <= size < 2 ^ 32 ->
  Z.lor (int64 (Z.shiftl (int32 (Z.lor (Z.land r 0x7FFFFF) 0x80000000)) 32)) size = - 2 ^ 63 + (r `mod` 2 ^ 23) * 2 ^ 32 + size.
Proof.
  intros Hs. change 0x7FFFFF with (Z.ones 23). rewrite Z.land_ones by lia. set (y := r `mod` 2 ^ 23).
  assert (0 <= y < 2 ^ 23) as Hy by (apply Z.mod_pos_bound; lia). clearbody y.
  rewrite (Z.lor_comm y). change 0x80000000 with (1 * 2 ^ 31). rewrite lor_add by lia.
  assert (int32 (1 * 2 ^ 31 + y) = - 2 ^ 31 + y) as -> by (unfold int32; Z.to_euclidean_division_equations; lia).
  rewrite Z.shiftl_mul_pow2, int64_id by (unfold is_int64; lia). rewrite lor_add by lia. lia.
Qed.

(** ** Making a name. *)
Definition context_of (s : Serving) : StorageFileContext := ci_file_context (s_task s).
Definition files_of (s : Serving) : DataFs := s_files (s_service s).

(** The directories of an upload that has some. *)
Definition dirs_ok (u : StorageUploadInfo) : Prop :=
  up_if_sub_path_alloced u = true -> is_uint8 (sub_path_high (ti_path (up_trunk_info u))) /\ is_uint8 (sub_path_low (ti_path (up_trunk_info u))).

(** While a name is made up only the directories are chosen: the files stay, and
    the rest of the upload. *)
Record naming (s s' : Serving) : Prop := {
  nm_context : exists u, context_of s' = set_fc_upload u (context_of s);
  nm_type : up_file_type (fc_upload (context_of s')) = up_file_type (fc_upload (context_of s));
  nm_ext : up_formatted_ext_name (fc_upload (context_of s')) = up_formatted_ext_name (fc_upload (context_of s));
  nm_index : store_path_index (ti_path (up_trunk_info (fc_upload (context_of s')))) = store_path_index (ti_path (up_trunk_info (fc_upload (context_of s))));
  nm_space : ti_file (up_trunk_info (fc_upload (context_of s'))) = ti_file (up_trunk_info (fc_upload (context_of s)));
  nm_names : d_names (files_of s') = d_names (files_of s);
  nm_inodes : d_inodes (files_of s') = d_inodes (files_of s);
  nm_faults : d_faults (files_of s) = [] -> d_faults (files_of s') = [];
  nm_dirs : dirs_ok (fc_upload (context_of s)) -> dirs_ok (fc_upload (context_of s'));
}.

#[local] Instance naming_preorder : PreOrder naming.
Proof.
  split.
  - intros s. constructor; try done. exists (fc_upload (context_of s)). by destruct (context_of s).
  - intros s1 s2 s3 [[u E] ? ? ? ? ? ? ? ?] [[u' E'] ? ? ? ? ? ? ? ?]. constructor; try congruence; auto.
    exists u'. rewrite E', E. done.
Qed.

(** The same context and the same files. *)
Definition untouched (s s' : Serving) : Prop := context_of s' = context_of s /\ files_of s' = files_of s.

Lemma untouched_naming s s' : untouched s s' -> naming s s'.
Proof.
  intros [Ec Ef]. constructor; rewrite ?Ec, ?Ef; try done. exists (fc_upload (context_of s)). by destruct (context_of s).
Qed.

Lemma rand_run s : untouched s (rand s).2.
Proof. unfold rand. by destruct (s_rands _). Qed.

Lemma combine_run size s : 0 <= size < 2 ^ 32 ->
  untouched s (COMBINE_RAND_FILE_SIZE size s).2 /\
  exists y, 0 <= y < 2 ^ 23 /\ (COMBINE_RAND_FILE_SIZE size s).1 = - 2 ^ 63 + y * 2 ^ 32 + size.
Proof.
  intros Hs. unfold COMBINE_RAND_FILE_SIZE. rewrite bind_run. split; [apply rand_run|].
  exists ((rand s).1 `mod` 2 ^ 23). split; [apply Z.mod_pos_bound; lia|]. by apply combine_value.
Qed.

Section naming.
Context `{FastCommonLaws} (conf : StorageConf).

(** A number that [storage_gen_filename] takes as it is, or fills up. *)
Definition to_tell (trunk appender : bool) (size z : Z) : Prop :=
  (Z.shiftr z 32 <> 0 /\ tells trunk appender size z) \/ (trunk = false /\ appender = false /\ z = size /\ 0 <= size < 2 ^ 32).

Lemma bind_the_file {A B} (f : StorageFileContext -> A) (k : A -> M Serving B) s : bind (the_file f) k s = k (f (context_of s)) s.
Proof. done. Qed.

Lemma dist_run {A} (c : M DistState A) s : untouched s (dist c s).2.
Proof. unfold dist. by destruct (c _). Qed.

Lemma choose_dirs_run encoded s :
  let r := (if negb (up_if_sub_path_alloced (fc_upload (context_of s))) then
     let! p := dist (storage_get_store_path (path_conf conf) encoded) in
     upload (fun u => set_up_if_sub_path_alloced true (set_up_trunk_info
       (with_path {| store_path_index := store_path_index (ti_path (up_trunk_info u));
                     sub_path_high := uint8 p.1; sub_path_low := uint8 p.2 |} (up_trunk_info u)) u))
   else ret tt)%c s in
  naming s r.2 /\
  (dirs_ok (fc_upload (context_of s)) -> let p := ti_path (up_trunk_info (fc_upload (context_of r.2))) in
     is_uint8 (sub_path_high p) /\ is_uint8 (sub_path_low p)).
Proof.
  destruct (up_if_sub_path_alloced _) eqn:Ea; cbn [negb]; [by split; [|intros Hd; apply Hd]|]. rewrite bind_run.
  set (d := dist _ s). assert (untouched s d.2) as [Ec Ef] by apply dist_run. clearbody d. destruct d as [p s1]. cbn [fst snd] in *.
  unfold upload, file, task, modify. cbn [fst snd]. split; [|intros _; split; apply uint8_range].
  constructor; unfold context_of, files_of in *; cbn; rewrite ?Ec, ?Ef; try done.
  - eexists. reflexivity.
  - intros _ _. split; apply uint8_range.
Qed.

Lemma gen_filename_run trunk appender size z crc32 ext t s : to_tell trunk appender size z ->
  let r := storage_gen_filename conf z crc32 ext t s in
  let p := ti_path (up_trunk_info (fc_upload (context_of r.2))) in
  naming s r.2 /\
  (dirs_ok (fc_upload (context_of s)) -> is_uint8 (sub_path_high p) /\ is_uint8 (sub_path_low p)) /\
  exists masked, tells trunk appender size masked /\
    r.1 = sub_dirs p ++ base64_encode_ex (name_buff conf t masked crc32) ++ take 7 ext.
Proof.
  intros Hz. unfold storage_gen_filename. rewrite bind_run. set (m := if negb _ then _ else _).
  assert (untouched s (m s).2 /\ tells trunk appender size (m s).1) as [Hu Ht].
  { unfold m. destruct Hz as [[Hz Ht]|(-> & -> & -> & Hs)].
    - by rewrite (proj2 (Z.eqb_neq _ _) Hz).
    - rewrite Z.shiftr_div_pow2, Z.div_small by lia. destruct (combine_run size s Hs) as (Hu & y & Hy & E). cbn [negb Z.eqb].
      split; [done|]. rewrite E. rewrite <- (Z.add_0_r (- 2 ^ 63)). by apply (tells_filled 0); [| |left]. }
  clearbody m. destruct (m s) as [masked s1]. cbn [fst snd] in *. cbv zeta. rewrite bind_the_file, bind_run.
  pose proof (choose_dirs_run (base64_encode_ex (name_buff conf t masked crc32)) s1) as [Hn Hd]. set (r := _ s1) in *.
  rewrite bind_the_file. cbn [ret fst snd]. split; [by etransitivity; [apply untouched_naming|]|].
  split; [|by exists masked]. intros Hok. apply Hd. by destruct Hu as [-> _].
Qed.

(** A call on the files that only looks. *)
Lemma files_naming {A} (c : M DataFs A) s :
  d_names (c (files_of s)).2 = d_names (files_of s) -> d_inodes (c (files_of s)).2 = d_inodes (files_of s) ->
  (d_faults (files_of s) = [] -> d_faults (c (files_of s)).2 = []) -> naming s (files c s).2.
Proof.
  unfold files. fold (files_of s). destruct (c (files_of s)) as [a x]. cbn. intros En Ei Ef. constructor; try done.
  exists (fc_upload (context_of s)). unfold context_of. cbn. by destruct (ci_file_context _).
Qed.

Lemma call_run x : d_names (data_call x).2 = d_names x /\ d_inodes (data_call x).2 = d_inodes x /\
  (d_faults x = [] -> data_call x = ((0, 0%nat), x)).
Proof. unfold data_call. by destruct (d_faults x). Qed.

Lemma stat_run name x : d_names (data_stat name x).2 = d_names x /\ d_inodes (data_stat name x).2 = d_inodes x /\
  (d_faults x = [] -> data_stat name x = (sys_stat (view_with 0 0 x) name, x)).
Proof.
  unfold data_stat. rewrite bind_run. destruct (call_run x) as (En & Ei & Ef). cbn [gets fst snd].
  split; [done|]. split; [done|]. intros Hf. by rewrite Ef.
Qed.

(** No file and no directory has the name; a link that leads nowhere may. *)
Definition vacant (x : DataFs) (name : bytes) : Prop :=
  match inode_of x name with None => True | Some i => match i_node i with Symlink _ => True | _ => False end end.

Lemma vacant_same x x' name : d_names x' = d_names x -> d_inodes x' = d_inodes x -> vacant x' name -> vacant x name.
Proof. unfold vacant, inode_of. by intros -> ->. Qed.

(** Files and directories are found by their names. *)
Lemma access_run name s :
  let r := files (data_access name) s in
  naming s r.2 /\ context_of r.2 = context_of s /\ (d_faults (files_of s) = [] -> r.1 <> 0 -> vacant (files_of s) name).
Proof.
  intros r. destruct (stat_run name (files_of s)) as (En & Ei & Ef). split; [|split].
  - apply files_naming; unfold data_access; rewrite bind_run; cbn; [done|done|]. intros Hf. by rewrite Ef.
  - unfold r, files, context_of. by destruct (data_access _ _).
  - intros Hf. unfold r, files. fold (files_of s). unfold data_access. rewrite bind_run, Ef by done. cbn [ret fst snd].
    unfold vacant. cbn. destruct (inode_of (files_of s) name) as [[[b|b|] m]|] eqn:E; cbn; rewrite ?E; try done.
Qed.

(** The parts of a name that was made up. *)
Definition made_name (trunk appender : bool) (size t crc32 : Z) (ext : bytes) (p : FDFSTrunkPathInfo) (filename : bytes) : Prop :=
  exists masked, tells trunk appender size masked /\
    filename = sub_dirs p ++ base64_encode_ex (name_buff conf t masked crc32) ++ take 7 ext.

Lemma try_names_run trunk appender size z crc32 ext t index i s : to_tell trunk appender size z ->
  let r := try_names conf i t z crc32 ext index s in
  let p := ti_path (up_trunk_info (fc_upload (context_of r.2))) in
  naming s r.2 /\
  forall filename full, r.1 = Some (filename, full) ->
    full = path_of conf index ++ bs "/data/" ++ filename /\ made_name trunk appender size t crc32 ext p filename /\
    (dirs_ok (fc_upload (context_of s)) -> is_uint8 (sub_path_high p) /\ is_uint8 (sub_path_low p)) /\
    (d_faults (files_of s) = [] -> vacant (files_of s) full).
Proof.
  intros Hz. revert s. induction i as [|i IH]; intros s; cbn [try_names]; [by split|]. rewrite bind_run.
  destruct (gen_filename_run trunk appender size z crc32 ext t s Hz) as (Hn & Hd & Hm).
  destruct (storage_gen_filename conf z crc32 ext t s) as [filename s1]. cbn [fst snd] in *. cbv zeta. rewrite bind_run.
  destruct (access_run (path_of conf index ++ bs "/data/" ++ filename) s1) as (Ha & Ec & Hc).
  destruct (files (data_access _) s1) as [e s2]. cbn [fst snd] in *. assert (naming s s2) as Hn2 by (by etransitivity). case_decide as He.
  - cbn [ret fst snd]. split; [done|]. intros ? ? [= <- <-]. rewrite Ec. repeat split; try done; try by apply Hd.
    intros Hf. eapply vacant_same; [apply (nm_names _ _ Hn)|apply (nm_inodes _ _ Hn)|]. by apply Hc; [apply (nm_faults _ _ Hn)|].
  - destruct (IH s2) as [Hn3 Hr]. split; [by etransitivity|]. intros f full E. destruct (Hr f full E) as (Ef & Hmade & Hdirs & Hfree).
    split; [done|]. split; [done|]. split; [intros Hok; apply Hdirs; by apply (nm_dirs _ _ Hn2)|].
    intros Hf. eapply vacant_same; [apply (nm_names _ _ Hn2)|apply (nm_inodes _ _ Hn2)|]. by apply Hfree, (nm_faults _ _ Hn2).
Qed.

Definition is_trunk (c : StorageFileContext) : bool := has_type FILE_TYPE_TRUNK (fc_upload c).
Definition is_appender (c : StorageFileContext) : bool := has_type FILE_TYPE_APPENDER (fc_upload c).
Definition size_of (c : StorageFileContext) : Z := fc_end c - fc_start c.

(** Uploads are of less than 32 PB, those to trunk files of less than 4 GB. *)
Definition size_ok (c : StorageFileContext) : Prop :=
  0 <= size_of c < 2 ^ 55 /\ (is_trunk c = true -> size_of c < 2 ^ 32 /\ is_appender c = false).

Lemma filled_negative m y size : 0 <= y < 2 ^ 23 -> 0 <= size < 2 ^ 32 -> m = 2 ^ 58 \/ m = 2 ^ 59 ->
  Z.shiftr (- 2 ^ 63 + y * 2 ^ 32 + size + m) 32 <> 0.
Proof. intros Hy Hs Hm. rewrite Z.shiftr_div_pow2 by lia. destruct Hm as [->| ->]; Z.to_euclidean_division_equations; lia. Qed.

Lemma marked m k y size : 0 <= y < 2 ^ 23 -> 0 <= size < 2 ^ 32 -> m = 2 ^ k -> k = 58 \/ k = 59 ->
  Z.lor (- 2 ^ 63 + y * 2 ^ 32 + size) m = - 2 ^ 63 + y * 2 ^ 32 + size + m.
Proof.
  intros Hy Hs -> Hk. apply lor_bit; [lia|]. rewrite Z.testbit_eqb by lia.
  destruct Hk as [->| ->]; apply Z.eqb_neq; Z.to_euclidean_division_equations; lia.
Qed.

Lemma name_time_and_size_run s : st_INFINITE_FILE_SIZE conf = appender_mark -> size_ok (context_of s) ->
  let r := name_time_and_size conf s in
  naming s r.2 /\ context_of r.2 = context_of s /\
  to_tell (is_trunk (context_of s)) (is_appender (context_of s)) (size_of (context_of s)) r.1.2.
Proof.
  intros Hmark [Hs Ht]. unfold name_time_and_size. rewrite bind_the_file. unfold id. cbv zeta. fold (is_trunk (context_of s)).
  fold (is_appender (context_of s)). fold (size_of (context_of s)). destruct (is_trunk (context_of s)).
  - destruct Ht as [Hl ->]; [done|]. rewrite bind_run. destruct (combine_run (size_of (context_of s)) s) as ([Ec Ef] & y & Hy & E); [lia|].
    cbn [ret fst snd]. rewrite E. split; [by apply untouched_naming|]. split; [done|]. left.
    change FDFS_TRUNK_FILE_MARK_SIZE with (2 ^ 59). rewrite (marked _ 59) by (done || lia). split; [apply filled_negative; lia|].
    replace (- 2 ^ 63 + y * 2 ^ 32 + size_of (context_of s) + 2 ^ 59) with (- 2 ^ 63 + 2 ^ 59 + y * 2 ^ 32 + size_of (context_of s)) by lia.
    apply (tells_filled (2 ^ 59)); [done|lia|auto].
  - rewrite bind_run. set (x := files _ s). assert (naming s x.2 /\ context_of x.2 = context_of s) as [Hn Ec].
    { unfold x. destruct (stat_run (fc_filename (context_of s)) (files_of s)) as (En & Ei & Ef). split.
      - apply files_naming; [done|done|]. intros Hf. by rewrite Ef.
      - unfold files, context_of. by destruct (data_stat _ _). }
    clearbody x. destruct x as [st s1]. cbn [fst snd] in *. rewrite bind_run. cbn [now gets fst snd]. destruct (is_appender (context_of s)).
    + rewrite bind_run. destruct (combine_run 0 s1) as (Hu & y & Hy & E); [lia|]. cbn [ret fst snd]. rewrite E, Hmark.
      split; [etransitivity; [done|by apply untouched_naming]|]. split; [destruct Hu as [-> _]; done|]. left.
      change appender_mark with (2 ^ 58). rewrite (marked _ 58) by (done || lia). split; [apply filled_negative; lia|].
      replace (- 2 ^ 63 + y * 2 ^ 32 + 0 + 2 ^ 58) with (- 2 ^ 63 + 2 ^ 58 + y * 2 ^ 32 + 0) by lia.
      destruct (tells_filled (2 ^ 58) y 0) as (? & ? & _); [done|lia|auto|]. by split; [|split].
    + cbn [ret fst snd]. split; [done|]. split; [done|]. destruct (Z.lt_ge_cases (size_of (context_of s)) (2 ^ 32)) as [Hl|Hl].
      * right. repeat split; lia.
      * left. split; [rewrite Z.shiftr_div_pow2 by lia; Z.to_euclidean_division_equations; lia|]. by apply tells_plain.
Qed.
End naming.

(** ** What is read from a name that was made up. *)
Section reading.
Context `{FastCommonLaws} (conf : StorageConf) (ids : StorageIds) (IP_ADDRESS_SIZE : Z).

Definition path_ok (p : FDFSTrunkPathInfo) : Prop := is_uint8 (sub_path_high p) /\ is_uint8 (sub_path_low p).

Lemma sub_dirs_length p : path_ok p -> length (sub_dirs p) = 6%nat.
Proof.
  intros [Hh Hl]. unfold sub_dirs. destruct (fmt_02X_byte _ Hh) as (a & b & -> & _). by destruct (fmt_02X_byte _ Hl) as (c & d & -> & _).
Qed.

Lemma logic_name_length i f : is_uint8 i -> length (logic_name i f) = (4 + length f)%nat.
Proof. intros Hi. unfold logic_name. by destruct (fmt_02X_byte i Hi) as (a & b & -> & _). Qed.

Lemma logic_name_drop i f n : is_uint8 i -> drop (4 + n) (logic_name i f) = drop n f.
Proof. intros Hi. unfold logic_name. by destruct (fmt_02X_byte i Hi) as (a & b & -> & _). Qed.

Lemma logic_name_take i f n : is_uint8 i -> take (4 + n) (logic_name i f) = logic_name i (take n f).
Proof. intros Hi. unfold logic_name. by destruct (fmt_02X_byte i Hi) as (a & b & -> & _). Qed.

Lemma logic_name_app i f g : logic_name i f ++ g = logic_name i (f ++ g).
Proof. unfold logic_name. by rewrite <- !app_assoc. Qed.

(** The name of a file, with its position in a trunk file or without. *)
Definition whole_name (i : Z) (p : FDFSTrunkPathInfo) (meta pos ext : bytes) : bytes :=
  logic_name i (sub_dirs p ++ base64_encode_ex meta ++ pos ++ ext).

Lemma with_trunk_position_name t i p meta ext : is_uint8 i -> path_ok p -> length meta = 20%nat ->
  let filename := sub_dirs p ++ base64_encode_ex meta ++ ext in
  with_trunk_position t (logic_name i filename) filename = whole_name i p meta (trunk_file_info_encode (ti_file t)) ext.
Proof.
  intros Hi Hp Hm filename. unfold with_trunk_position, whole_name.
  assert (length (base64_encode_ex meta) = 27%nat) as Hb by (by rewrite base64_encode_length, Hm).
  pose proof (sub_dirs_length p Hp) as Hd. change (Z.to_nat (FDFS_LOGIC_FILE_PATH_LEN + FDFS_FILENAME_BASE64_LENGTH)) with (4 + 33)%nat.
  change (Z.to_nat (FDFS_TRUE_FILE_PATH_LEN + FDFS_FILENAME_BASE64_LENGTH)) with 33%nat. rewrite logic_name_take, logic_name_app by done.
  f_equal. assert (filename = (sub_dirs p ++ base64_encode_ex meta) ++ ext) as -> by apply app_assoc.
  assert (length (sub_dirs p ++ base64_encode_ex meta) = 33%nat) as Hl by (by rewrite length_app, Hd, Hb).
  rewrite take_app_length', drop_app_length' by done. by rewrite <- app_assoc.
Qed.

Lemma whole_name_parts i p meta pos ext : is_uint8 i -> path_ok p -> length meta = 20%nat ->
  let name := whole_name i p meta pos ext in
  length name = (37 + length pos + length ext)%nat /\ take 27 (drop 10 name) = base64_encode_ex meta.
Proof.
  intros Hi Hp Hm name. unfold name, whole_name.
  assert (length (base64_encode_ex meta) = 27%nat) as Hb by (by rewrite base64_encode_length, Hm).
  pose proof (sub_dirs_length p Hp) as Hd. rewrite logic_name_length, !length_app, Hd, Hb by done. split; [lia|].
  change 10%nat with (4 + 6)%nat. rewrite logic_name_drop, drop_app_length', take_app_length' by done. done.
Qed.

Lemma name_buff_meta t masked crc32 :
  name_buff conf t masked crc32 = name_meta (ntohl (st_server_id_in_filename conf)) (int32 t) masked (int32 crc32).
Proof. done. Qed.

Lemma meta_source sid rest : is_int32 sid -> ntohl (buff2int (int2buff (ntohl sid) ++ rest)) = sid.
Proof. intros Hs. rewrite buff2int_int2buff by apply int32_range. by apply ntohl_twice. Qed.

Context (sid32 : is_int32 (st_server_id_in_filename conf)).
Context (i : Z) (p : FDFSTrunkPathInfo) (pos ext : bytes) (t masked crc32 size : Z) (trunk appender : bool).
Context (Hi : is_uint8 i) (Hp : path_ok p) (Hext : length ext = 7%nat) (Hpos : length pos = if trunk then 16%nat else 0%nat).
Context (Ht : tells trunk appender size masked).

Abbreviation sid := (st_server_id_in_filename conf).
Abbreviation name := (whole_name i p (name_buff conf t masked crc32) pos ext).

Lemma name_decoded : base64_decode_auto (take 27 (drop 10 name)) = name_meta (ntohl sid) (int32 t) masked (int32 crc32).
Proof.
  destruct (whole_name_parts i p (name_buff conf t masked crc32) pos ext) as [_ ->]; [done|done|by rewrite name_buff_meta, name_meta_length|].
  rewrite name_buff_meta. apply base64_decode_encode, name_meta_bytes.
Qed.

Lemma name_length : Z.of_nat (length name) = if trunk then 60 else 44.
Proof.
  destruct (whole_name_parts i p (name_buff conf t masked crc32) pos ext) as [-> _]; [done|done|by rewrite name_buff_meta, name_meta_length|].
  rewrite Hpos, Hext. by destruct trunk.
Qed.

Lemma name_not_slave : appender = false -> IS_SLAVE_FILE (Z.of_nat (length name)) masked = false.
Proof. intros Ha. destruct Ht as (_ & _ & Hn). destruct (Hn Ha) as [Etrunk _]. rewrite name_length. unfold IS_SLAVE_FILE. rewrite Etrunk. by destruct trunk. Qed.

Lemma file_info_of_name answer :
  fdfs_get_file_info_ex appender_mark ids IP_ADDRESS_SIZE name false answer =
    inr (mkFileInfo (if appender then FDFS_FILE_TYPE_APPENDER else FDFS_FILE_TYPE_NORMAL) false (int32 t)
           (if appender then 0 else int32 crc32) (file_source ids sid).1 (if appender then -1 else size) (file_source ids sid).2).
Proof.
  unfold fdfs_get_file_info_ex. rewrite (proj2 (Z.ltb_ge _ _)) by (rewrite name_length; by destruct trunk). cbv zeta.
  unfold decode_name. change (Z.to_nat FDFS_FILENAME_BASE64_LENGTH) with 27%nat. change (Z.to_nat FDFS_LOGIC_FILE_PATH_LEN) with 10%nat.
  rewrite name_decoded. pose proof name_not_slave as Hns. pose proof Ht as (Hz & Ha & Hn).
  destruct (name_meta_decode 64 (ntohl sid) (int32 t) masked (int32 crc32)) as (-> & -> & ->); [apply int32_range|done|apply int32_range|].
  unfold name_meta, zero_pad at 1. rewrite <- !app_assoc, meta_source by done. destruct (file_source ids sid) as [id ip].
  unfold file_type_of. rewrite Ha. destruct appender.
  - by rewrite orb_true_r.
  - rewrite Hns by done. rewrite andb_false_r. cbn. by destruct (Hn eq_refl) as [_ ->].
Qed.

Lemma file_origin_of_name :
  file_origin appender_mark name =
    mkOrigin sid (if fdfs_get_server_id_type sid =? FDFS_ID_TYPE_SERVER_ID then fmt_d sid else []) (int32 t) (negb appender).
Proof.
  unfold file_origin. rewrite (proj2 (Z.ltb_ge _ _)) by (rewrite name_length; by destruct trunk). cbv zeta.
  change (Z.to_nat FDFS_FILENAME_BASE64_LENGTH) with 27%nat. change (Z.to_nat FDFS_LOGIC_FILE_PATH_LEN) with 10%nat.
  rewrite name_decoded. pose proof name_not_slave as Hns. pose proof Ht as (Hz & Ha & Hn).
  destruct (name_meta_decode 0 (ntohl sid) (int32 t) masked (int32 crc32)) as (Et & Es & _); [apply int32_range|done|apply int32_range|].
  unfold zero_pad in Et, Es. cbn [Nat.sub replicate] in Et, Es. rewrite app_nil_r in Et, Es. rewrite Et, Es.
  unfold name_meta. rewrite meta_source by done. rewrite Ha. f_equal. destruct appender; [by rewrite orb_true_r|by rewrite Hns].
Qed.
End reading.

(** ** The end of an upload. *)
Section uploaded.
Context `{FastCommonLaws} (conf : StorageConf).

(** The name to log. *)
Definition new_fname2log (c : StorageFileContext) (filename : bytes) : bytes :=
  let t := up_trunk_info (fc_upload c) in
  let plain := logic_name (store_path_index (ti_path t)) filename in
  if is_trunk c then with_trunk_position t plain filename else plain.

(** The call that gives the file its name. *)
Definition renaming (c : StorageFileContext) (full_filename : bytes) : M DataFs Z :=
  if is_trunk c then ret 0 else data_rename (fc_filename c) full_filename.

Definition with_file (f : StorageFileContext -> StorageFileContext) (s : Serving) : Serving :=
  set_task (set_ci_file_context (f (context_of s)) (s_task s)) s.

Lemma bind_file {B} f (k : unit -> M Serving B) s : bind (file f) k s = k tt (with_file f s).
Proof. done. Qed.

Lemma bind_files {A B} (c : M DataFs A) (k : A -> M Serving B) s :
  bind (files c) k s = k (c (files_of s)).1 (set_service (set_s_files (c (files_of s)).2 (s_service s)) s).
Proof. unfold bind, files, files_of. by destruct (c _). Qed.

Lemma set_files_same s : set_service (set_s_files (files_of s) (s_service s)) s = s.
Proof. by destruct s as [[] k]. Qed.

(** The renaming, or nothing. *)
Lemma bind_renaming {B} c full (k : Z -> M Serving B) s :
  bind (if is_trunk c then ret 0 else files (data_rename (fc_filename c) full)) k s =
  k (renaming c full (files_of s)).1 (set_service (set_s_files (renaming c full (files_of s)).2 (s_service s)) s).
Proof. unfold renaming. destruct (is_trunk c); [|apply bind_files]. cbn [ret fst snd]. by rewrite set_files_same. Qed.

Lemma give_name_run t filename full s : has_type FILE_TYPE_SLAVE (fc_upload (context_of s)) = false ->
  let r := give_name conf t filename full s in
  let e := renaming (context_of s) full (files_of s) in
  (e.1 = 0 -> r.1 = 0 /\ fc_timestamp2log (context_of r.2) = int32 t /\
              fc_fname2log (context_of r.2) = new_fname2log (context_of s) filename /\ files_of r.2 = e.2) /\
  (e.1 <> 0 -> r.1 <> 0).
Proof.
  intros Hs. unfold give_name, upload. rewrite bind_file, bind_the_file. unfold id. cbv zeta.
  set (s1 := with_file _ s). change (has_type FILE_TYPE_TRUNK (fc_upload (context_of s1))) with (is_trunk (context_of s)).
  change (has_type FILE_TYPE_SLAVE (fc_upload (context_of s1))) with (has_type FILE_TYPE_SLAVE (fc_upload (context_of s))). rewrite Hs.
  change (up_trunk_info (fc_upload (context_of s1))) with (up_trunk_info (fc_upload (context_of s))).
  change (if is_trunk (context_of s) then with_trunk_position _ _ _ else _) with (new_fname2log (context_of s) filename).
  change (fc_filename (context_of s1)) with (fc_filename (context_of s)). rewrite bind_renaming.
  change (files_of s1) with (files_of s). destruct (renaming _ _ _) as [e x]. cbn [fst snd]. case_decide as He.
  - split; [done|]. intros _. unfold unlink_and. rewrite bind_files. cbn. unfold errno_or. by rewrite (proj2 (Z.eqb_neq _ _) He).
  - split; [intros _|done]. rewrite bind_file. destruct (has_type FILE_TYPE_APPENDER _); [by rewrite bind_file|]. rewrite bind_file.
    destruct (is_trunk (context_of s)); [by rewrite bind_run|by rewrite !bind_file].
Qed.

(** The state in which a file that is no slave file gets its name. *)
Record upload_ready (s : Serving) : Prop := {
  ur_mark : st_INFINITE_FILE_SIZE conf = appender_mark;
  ur_server : is_int32 (st_server_id_in_filename conf);
  ur_index : let i := store_path_index (ti_path (up_trunk_info (fc_upload (context_of s)))) in
             is_uint8 i /\ i < Z.of_nat (length (paths conf));
  ur_dirs : dirs_ok (fc_upload (context_of s));
  ur_ext : length (up_formatted_ext_name (fc_upload (context_of s))) = 7%nat;
  ur_size : size_ok (context_of s);
  ur_slave : has_type FILE_TYPE_SLAVE (fc_upload (context_of s)) = false;
}.

(** A name is made up, and given. *)
Lemma upload_done_run s : upload_ready s ->
  let c := context_of s in
  let index := store_path_index (ti_path (up_trunk_info (fc_upload c))) in
  exists s', naming s s' /\
  ((storage_service_upload_file_done conf s = (ENOENT, (storage_delete_file_auto conf s').2)) \/
   exists t filename,
     let full := path_of conf index ++ bs "/data/" ++ filename in
     let p := ti_path (up_trunk_info (fc_upload (context_of s'))) in
     storage_service_upload_file_done conf s = give_name conf t filename full s' /\
     made_name conf (is_trunk c) (is_appender c) (size_of c) t (fc_crc32 c) (up_formatted_ext_name (fc_upload c)) p filename /\
     path_ok p /\ (d_faults (files_of s) = [] -> vacant (files_of s) full)).
Proof.
  intros [Hmark Hid Hidx Hdirs Hext Hsize Hslave]. unfold storage_service_upload_file_done. rewrite bind_run.
  destruct (name_time_and_size_run conf s Hmark Hsize) as (Hn & Ec & Ht). destruct (name_time_and_size conf s) as [[t z] s1].
  cbn [fst snd] in *. cbv zeta. rewrite bind_the_file. unfold id. rewrite bind_run. unfold storage_get_filename. rewrite bind_the_file. rewrite Ec.
  pose proof (try_names_run conf _ _ _ z (fc_crc32 (context_of s)) (up_formatted_ext_name (fc_upload (context_of s))) t
                (store_path_index (ti_path (up_trunk_info (fc_upload (context_of s))))) 10 s1 Ht) as [Hn2 Hr].
  destruct (try_names _ _ _ _ _ _ _ s1) as [[[filename full]|] s2]; cbn [fst snd] in *.
  - exists s2. split; [by etransitivity|]. right. destruct (Hr _ _ eq_refl) as (-> & Hmade & Hp & Hfree). exists t, filename.
    split; [done|]. split; [done|]. split; [apply Hp; by rewrite Ec|]. intros Hf.
    eapply vacant_same; [apply (nm_names _ _ Hn)|apply (nm_inodes _ _ Hn)|]. by apply Hfree, (nm_faults _ _ Hn).
  - exists s2. split; [by etransitivity|]. left. rewrite bind_run. done.
Qed.

(** The name to log of a name that was made up. *)
Lemma new_fname2log_whole c t masked crc32 ext p : length ext = 7%nat -> path_ok p ->
  let i := store_path_index (ti_path (up_trunk_info (fc_upload c))) in is_uint8 i ->
  new_fname2log c (sub_dirs p ++ base64_encode_ex (name_buff conf t masked crc32) ++ take 7 ext) =
    whole_name i p (name_buff conf t masked crc32) (if is_trunk c then trunk_file_info_encode (ti_file (up_trunk_info (fc_upload c))) else []) ext.
Proof.
  intros He Hp i Hi. rewrite take_ge by lia. unfold new_fname2log. destruct (is_trunk c); [|done].
  apply with_trunk_position_name; [done|done|]. by rewrite name_buff_meta, name_meta_length.
Qed.

(** C7: the name that an uploaded file gets tells the client, the tracker and
    the storage server what it should: the store path, the server that made it,
    the time that is logged, whether it is an appender file, and of another file
    the size and the checksum; also when the content is in a trunk file. *)
Theorem uploaded_name_correct ids IP_ADDRESS_SIZE answer s s' :
  upload_ready s -> storage_service_upload_file_done conf s = (0, s') ->
  let c := context_of s in
  let filename := fc_fname2log (context_of s') in
  let t := fc_timestamp2log (context_of s') in
  let sid := st_server_id_in_filename conf in
  (exists true_filename, storage_split_filename_ex (paths conf) filename (Z.of_nat (length filename)) =
     inr (Z.of_nat (length true_filename), true_filename, store_path_index (ti_path (up_trunk_info (fc_upload c))))) /\
  fdfs_get_file_info_ex appender_mark ids IP_ADDRESS_SIZE filename false answer =
    inr (mkFileInfo (if is_appender c then FDFS_FILE_TYPE_APPENDER else FDFS_FILE_TYPE_NORMAL) false t
           (if is_appender c then 0 else int32 (fc_crc32 c)) (file_source ids sid).1
           (if is_appender c then -1 else size_of c) (file_source ids sid).2) /\
  file_origin appender_mark filename =
    mkOrigin sid (if fdfs_get_server_id_type sid =? FDFS_ID_TYPE_SERVER_ID then fmt_d sid else []) t (negb (is_appender c)).
Proof.
  intros Hr E. destruct (upload_done_run s Hr) as (s1 & Hn & [E1|(t & f & E1 & (masked & Htells & Ef) & Hp & _)]); [by rewrite E in E1|].
  rewrite E in E1. destruct Hr as [Hmark Hid [Hi Hip] Hdirs Hext Hsize Hslave].
  set (full := path_of conf _ ++ bs "/data/" ++ f) in E1.
  destruct (give_name_run t f full s1) as [Hz Hnz]; [unfold has_type; by rewrite (nm_type _ _ Hn)|].
  rewrite <- E1 in Hz, Hnz. cbn [fst snd] in Hz, Hnz.
  destruct (decide ((renaming (context_of s1) full (files_of s1)).1 = 0)) as [He|He]; [|by destruct (Hnz He)].
  destruct (Hz He) as (_ & -> & -> & _). cbv zeta. clear Hz Hnz He E1 full.
  assert (is_trunk (context_of s1) = is_trunk (context_of s)) as Etr by (unfold is_trunk, has_type; by rewrite (nm_type _ _ Hn)).
  rewrite Ef, new_fname2log_whole; [|done|done|by rewrite (nm_index _ _ Hn)]. rewrite (nm_index _ _ Hn), Etr.
  set (pos := if is_trunk (context_of s) then _ else _).
  assert (length pos = if is_trunk (context_of s) then 16%nat else 0%nat) as Hpos by (unfold pos; destruct (is_trunk _); [apply file_info_encode_length|done]).
  split; [|split; [by eapply file_info_of_name|by eapply file_origin_of_name]]. eexists. apply storage_split_logic_name; [done|done|].
  rewrite !length_app, sub_dirs_length, Hext by done. lia.
Qed.

(** Nothing but the names [l] has changed. *)
Definition only_changed (l : list bytes) (x x' : DataFs) : Prop := forall n, n ∉ l -> inode_of x' n = inode_of x n.

Lemma rename_run x old new data : d_faults x = [] -> content x old = Some data -> vacant x new ->
  let r := data_rename old new x in
  r.1 = 0 /\ content r.2 new = Some data /\ content r.2 old = None /\ only_changed [old; new] x r.2.
Proof.
  intros Hf Hc Hv. unfold data_rename. rewrite bind_run. destruct (call_run x) as (_ & _ & ->); [|done]. cbn [fst snd]. case_decide; [done|].
  rewrite bind_run. cbn [gets id fst snd]. unfold content, inode_of in Hc. destruct (d_names x !! old) as [i|] eqn:Ei; [|done].
  cbn [mbind option_bind] in Hc. assert (is_directory x new = false) as Hd.
  { unfold is_directory. unfold vacant in Hv. by destruct (inode_of x new) as [[[b|b|] m]|]. }
  rewrite Hd, bind_run. cbn [modify ret fst snd].
  assert (old <> new) as Hne. { intros <-. unfold vacant, inode_of in Hv. rewrite Ei in Hv. cbn in Hv, Hc. by destruct (d_inodes x !! i) as [[[b|b|] m]|]. }
  unfold only_changed, content, inode_of. cbn [d_names d_inodes set_d_names]. repeat split.
  - by rewrite lookup_insert_eq.
  - by rewrite lookup_insert_ne, lookup_delete_eq.
  - intros n [Ho [Hn _]%not_elem_of_cons]%not_elem_of_cons. by rewrite lookup_insert_ne, lookup_delete_ne.
Qed.

Lemma unlink_run x name data : d_faults x = [] -> content x name = Some data ->
  let r := data_unlink name x in content r.2 name = None /\ only_changed [name] x r.2.
Proof.
  intros Hf Hc. unfold data_unlink. rewrite bind_run. destruct (call_run x) as (_ & _ & ->); [|done]. cbn [fst snd]. case_decide; [done|].
  rewrite bind_run. cbn [gets id fst snd]. unfold content, inode_of in Hc. destruct (d_names x !! name) as [i|] eqn:Ei; [|done].
  assert (is_directory x name = false) as Hd.
  { unfold is_directory, inode_of. rewrite Ei. cbn in *. by destruct (d_inodes x !! i) as [[[b|b|] m]|]. }
  rewrite Hd, bind_run. cbn [modify ret fst snd]. unfold only_changed, content, inode_of. cbn [d_names d_inodes set_d_names]. split.
  - by rewrite lookup_delete_eq.
  - intros n [Hn _]%not_elem_of_cons. by rewrite lookup_delete_ne.
Qed.

(** The removal after no name was found. *)
Lemma delete_auto_run s : is_trunk (context_of s) = false ->
  files_of (storage_delete_file_auto conf s).2 = (data_unlink (fc_filename (context_of s)) (files_of s)).2.
Proof.
  intros Ht. unfold storage_delete_file_auto. rewrite bind_the_file. unfold id. fold (is_trunk (context_of s)). rewrite Ht, bind_files. done.
Qed.

Lemma naming_inode s s' n : naming s s' -> inode_of (files_of s') n = inode_of (files_of s) n.
Proof. intros Hn. unfold inode_of. by rewrite (nm_names _ _ Hn), (nm_inodes _ _ Hn). Qed.

Lemma naming_changed s s' l x : naming s s' -> only_changed l (files_of s') x -> only_changed l (files_of s) x.
Proof. intros Hn Ho n Hl. by rewrite Ho, (naming_inode s s'). Qed.

Lemma naming_filename s s' : naming s s' -> fc_filename (context_of s') = fc_filename (context_of s).
Proof. intros [[u ->]]. done. Qed.

(** C6: when no system call fails, the end of the upload of a normal file, which
    is neither a slave file nor stored in a trunk file, gives the file a name that
    no file had: its content is found under the name the client is told, and not
    under the first name any more, and nothing else changes; when ten names in a row are
    taken, the file is removed and the client is told ENOENT. *)
Theorem uploaded_file_correct s data :
  upload_ready s -> is_trunk (context_of s) = false -> d_faults (files_of s) = [] ->
  content (files_of s) (fc_filename (context_of s)) = Some data ->
  let c := context_of s in
  let index := store_path_index (ti_path (up_trunk_info (fc_upload c))) in
  let r := storage_service_upload_file_done conf s in
  content (files_of r.2) (fc_filename c) = None /\
  ((exists filename, let full := path_of conf index ++ bs "/data/" ++ filename in
      r.1 = 0 /\ fc_fname2log (context_of r.2) = logic_name index filename /\ vacant (files_of s) full /\
      content (files_of r.2) full = Some data /\ only_changed [fc_filename c; full] (files_of s) (files_of r.2)) \/
   (r.1 = ENOENT /\ only_changed [fc_filename c] (files_of s) (files_of r.2))).
Proof.
  intros Hr Ht Hf Hc. destruct (upload_done_run s Hr) as (s1 & Hn & Hcases). cbv zeta.
  assert (is_trunk (context_of s1) = false) as Ht1 by (unfold is_trunk, has_type in *; by rewrite (nm_type _ _ Hn)).
  assert (content (files_of s1) (fc_filename (context_of s)) = Some data) as Hc1 by (unfold content in *; by rewrite (naming_inode s)).
  pose proof (naming_filename _ _ Hn) as Efn. pose proof (nm_faults _ _ Hn Hf) as Hf1.
  destruct Hcases as [->|(t & f & -> & Hmade & Hp & Hv)]; cbn [fst snd].
  - rewrite delete_auto_run, Efn by done. destruct (unlink_run _ _ _ Hf1 Hc1) as [Hgone Ho]. split; [done|]. right.
    split; [done|]. by eapply naming_changed.
  - set (full := path_of conf _ ++ bs "/data/" ++ f) in *. pose proof (ur_slave _ Hr) as Hslave.
    destruct (give_name_run t f full s1) as [Hz _]; [unfold has_type in *; by rewrite (nm_type _ _ Hn)|].
    unfold renaming in Hz. rewrite Ht1, Efn in Hz.
    destruct (rename_run (files_of s1) (fc_filename (context_of s)) full data) as (He & Hnew & Hold & Ho); [done|done| |].
    { unfold vacant. rewrite (naming_inode s) by done. by apply Hv. }
    destruct (Hz He) as (-> & _ & En & ->). split; [done|]. left. exists f. split; [done|]. split; [|split; [by apply Hv|]].
    + rewrite En. unfold new_fname2log. by rewrite Ht1, (nm_index _ _ Hn).
    + split; [done|]. by eapply naming_changed.
Qed.
End uploaded.

(** ** The answer to a query. *)
Section query.
Context `{FastCommonLaws} (conf : StorageConf).

Lemma put_at_part (off : nat) b old : take (length b) (drop off (put_at (Z.of_nat off) b old)) = b.
Proof.
  unfold put_at. rewrite Nat2Z.id. rewrite drop_app_length', take_app_length' by (rewrite ?length_take, ?length_app, ?length_replicate; lia). done.
Qed.

(** C36: what a storage server answers to a query is what the client takes from the
    answer: size, time, checksum and the address of the source. *)
Theorem query_answer_roundtrip s storage_id fsize mtime crc32 fi :
  is_int64 fsize -> is_int64 mtime ->
  let ip := source_ip conf storage_id (tk_client_ip (s_task s)) in
  Z.of_nat (length ip) < st_IP_ADDRESS_SIZE conf -> Forall (fun c => c <> 0) ip ->
  let t := s_task (query_file_info_response conf storage_id fsize mtime crc32 s).2 in
  storage_query_file_info (st_IP_ADDRESS_SIZE conf) (inr (take (Z.to_nat (in_length t)) (drop 10 (tk_data t)))) fi =
    inr (mkFileInfo (fi_file_type fi) (fi_get_from_server fi) mtime (int32 crc32) (fi_source_id fi) fsize ip).
Proof.
  intros Hf Hm ip Hl Hz. unfold query_file_info_response, the_task, task, bind, gets, modify, ret. cbn [fst snd s_task set_task].
  fold ip. set (body := long2buff fsize ++ _). cbn [tk_data set_ci_total_length put_buffer set_tk_data in_length ci_total_length].
  replace (Z.to_nat (in_length _)) with (length body) by (unfold in_length; cbn [ci_total_length set_ci_total_length]; lia).
  change 10 with (Z.of_nat 10). rewrite put_at_part. unfold storage_query_file_info.
  set (w := zero_pad (Z.to_nat (st_IP_ADDRESS_SIZE conf)) ip) in *.
  assert (length w = Z.to_nat (st_IP_ADDRESS_SIZE conf)) as Hw by (unfold w, zero_pad; rewrite length_app, length_replicate; lia).
  assert (Z.of_nat (length body) = 3 * FDFS_PROTO_PKG_LEN_SIZE + st_IP_ADDRESS_SIZE conf) as ->.
  { unfold body. rewrite !length_app, !long2buff_length, Hw. unfold FDFS_PROTO_PKG_LEN_SIZE. lia. }
  rewrite Z.eqb_refl. cbn [negb]. unfold body.
  rewrite (drop_field 8 0), (drop_field 8 8), (drop_field 8 0), (drop_field 8 16), (drop_field 8 8), (drop_field 8 0), !drop_0 by apply long2buff_length.
  pose proof (int32_range crc32) as Hc. rewrite !buff2long_long2buff by (done || (unfold is_int32, is_int64 in *; lia)).
  rewrite int32_id by done. do 2 f_equal. unfold w, zero_pad. rewrite take_app_ge by lia.
  assert (exists k, take (Z.to_nat (st_IP_ADDRESS_SIZE conf - 1) - length ip) (replicate (Z.to_nat (st_IP_ADDRESS_SIZE conf) - length ip) 0) = replicate k 0) as [k ->]
    by (eexists; apply take_replicate).
  by apply cstr_zeros.
Qed.
End query.
