(* ===== verification/StorageLink.v ===== *)
(** * Links ([storage_create_link] of [storage_service.c]).

    A client asks for a link to a file of the same store path: a symbolic link,
    or a space in a trunk file that holds the name of the source.  All of it is
    the work of a disk thread. *)

From S2P Require Import Prelude FastCommon TrunkShared SharedFunc StorePath TrunkMem StorageIds TrackerTypes TrackerFetch FileSys SyncBinlog Net SyncReader SyncPeer DataFiles StorageTask StorageDio StorageSyncIn StorageUpload StorageClient.

Local Open Scope c_scope.

Section link.
Context `{FastCommon} `{Callbacks} (CRC32 : bytes -> Z -> Z) (conf : StorageConf).

(** The content of a link in a trunk file is the name of its source, put at the
    end of the buffer. *)
Definition storage_trunk_create_link (src_filename src_true_filename : bytes) (bNeedReponse : bool) : M Serving Z :=
  let file_bytes := Z.of_nat (length src_filename) in
  upload (set_up_if_sub_path_alloced true) ;;
  let! result := trunk_client_trunk_alloc_space in
  if decide (result <> 0) then ret result
  else
    task (fun t => set_tk_length (tk_size t) t) ;;
    let! size := the_task tk_size in
    let p := size - create_link_arg_size - file_bytes in
    fail_if p <? 10 with ENOSPC ;;;
    task (set_ci_extra_arg (Some (Extra_create_link src_true_filename bNeedReponse))) ;;
    let p := p + create_link_arg_size in
    task (put_buffer p src_filename) ;;
    let! _ := storage_trunk_do_create_link CRC32 conf file_bytes p Check_trunk_file_when_upload
                (Some Done_trunk_create_link_file) in
    ret STORAGE_STATUE_DEAL_FILE.

(** A symbolic link; no [filename] stands for one to be made up.  The errno, or
    the name of the link. *)
Definition storage_service_do_create_link (src_true_filename : bytes) (file_size : Z) (file_ext_name filename : bytes) :
    M Serving (Z + bytes) :=
  let! index := the_file (fun c => store_path_index (ti_path (up_trunk_info (fc_upload c)))) in
  let! new :=
    (if bool_decide (filename = []) then
       let! formatted_ext_name := storage_format_ext_name file_ext_name in
       let! crc32 := rand in
       let! t := now in
       storage_get_filename conf t file_size crc32 formatted_ext_name
     else ret (Some (filename, path_of conf index ++ bs "/data/" ++ filename))) in
  match new with
  | None => ret (inl ENOENT)
  | Some (filename, full_filename) =>
      let! e := files (data_symlink (path_of conf index ++ bs "/data/" ++ src_true_filename) full_filename) in
      ret (if decide (e <> 0) then inl (errno_or e ENOENT) else inr (logic_name index filename))
  end.

(** The name of a link that is a slave file. *)
Definition slave_link_name (master_filename prefix_name file_ext_name : bytes) (index : Z) : M Serving (Z + bytes) :=
  match storage_split_filename_ex (paths conf) master_filename (Z.of_nat (length master_filename)) with
  | inl e => ret (inl e)
  | inr (true_len, true_filename, master_store_path_index) =>
      fail_if negb (master_store_path_index =? index) with (inl EINVAL) ;;;
      let result := fdfs_check_data_filename true_filename true_len in
      if decide (result <> 0) then ret (inl result)
      else
        match fdfs_gen_slave_filename (cstr true_filename) prefix_name file_ext_name with
        | inl e => ret (inl e)
        | inr filename =>
            if filename_size <=? Z.of_nat (length filename) then let! r := overrun in ret (inl r)  (* filename[128] *)
            else
              let! e := files (data_access (snprintf MAX_PATH_SIZE (path_of conf index ++ bs "/data/" ++ filename))) in
              ret (if e =? 0 then inl EEXIST else inr filename)
        end
  end.

(** [inl STORAGE_STATUE_DEAL_FILE]: a callback has the rest. *)
Definition storage_create_link_core (src_filename src_true_filename master_filename prefix_name file_ext_name : bytes)
    (bNeedReponse : bool) : M Serving (Z + bytes) :=
  let! t0 := the_file (fun c => up_trunk_info (fc_upload c)) in
  let index := store_path_index (ti_path t0) in
  let failed (e : Z) : M Serving (Z + bytes) := count (bs "total_create_link_count") 1 ;; ret (inl e) in
  let! r := trunk_file_lstat conf index src_true_filename (Z.of_nat (length src_true_filename)) t0 no_header in
  upload (set_up_trunk_info r.1.2) ;;
  match r.1.1 with
  | inl e => failed e
  | inr st =>
      if negb (S_ISREG (st_mode st)) then failed EINVAL
      else
      let plain := bool_decide (master_filename = []) in
      if plain && IS_TRUNK_FILE_BY_ID r.1.2 && negb (st_if_use_trunk_file conf) then failed EINVAL
      else
      (if plain && IS_TRUNK_FILE_BY_ID r.1.2
       then upload (fun u => set_up_file_type (Z.lor (up_file_type u) FILE_TYPE_TRUNK) u) else ret tt) ;;
      let! name := (if plain then ret (inr []) else slave_link_name master_filename prefix_name file_ext_name index) in
      match name with
      | inl e => failed e
      | inr name =>
          upload (fun u => set_up_file_type (Z.lor (up_file_type u) FILE_TYPE_LINK)
                             (set_up_trunk_info (with_store_path index (up_trunk_info u)) u)) ;;
          let! u := the_file fc_upload in
          if has_type FILE_TYPE_TRUNK u then
            let! start_time := now in
            let! crc32 := rand in
            let! formatted := storage_format_ext_name file_ext_name in
            file (fun c => set_fc_calc_crc32 false (set_fc_crc32 crc32 c)) ;;
            upload (fun u => set_up_if_gen_filename true (set_up_start_time start_time
              (set_up_file_ext_name file_ext_name (set_up_formatted_ext_name formatted u)))) ;;
            let! result := storage_trunk_create_link src_filename src_true_filename bNeedReponse in
            ret (inl result)
          else
            upload (set_up_if_sub_path_alloced false) ;;
            let! link := storage_service_do_create_link src_true_filename (st_size st) file_ext_name name in
            match link with
            | inl e => failed e
            | inr filename =>
                let! t := now in
                let! result := storage_binlog conf t STORAGE_OP_TYPE_SOURCE_CREATE_LINK
                                 (snprintf 256 (filename ++ [32] ++ src_filename)) in
                if decide (result <> 0) then failed result
                else
                  CHECK_AND_WRITE_TO_STAT_FILE3 (bs "total_create_link_count") (bs "success_create_link_count") ;;
                  ret (inr filename)
            end
      end
  end.

(** The names are not validated: with a slash in its prefix or its extension a
    link would go to another directory, where it is not followed. *)
Definition has_slash (name : bytes) : bool := existsb (Z.eqb 47) name.

Definition do_create_link (nInPackLen : Z) : M Serving (Z + bytes) :=
  let! t := the_task id in
  fail_if nInPackLen <=? 62 with (inl EINVAL) ;;;
  let master_filename_len := int32 (long_in t 10) in
  let src_filename_len := int32 (long_in t 18) in
  let src_file_sig_len := int32 (long_in t 26) in
  fail_if (master_filename_len <? 0) || (filename_size <=? master_filename_len) with (inl EINVAL) ;;;
  fail_if (src_filename_len <=? 0) || (filename_size <=? src_filename_len) with (inl EINVAL) ;;;
  fail_if (src_file_sig_len <=? 0) || (64 <=? src_file_sig_len) with (inl EINVAL) ;;;
  fail_if negb (src_file_sig_len =? nInPackLen - (62 + master_filename_len + src_filename_len)) with (inl EINVAL) ;;;
  fail_if negb (my_group conf t 34) with (inl EINVAL) ;;;
  let prefix_name := cstr (field t 50 FDFS_FILE_PREFIX_MAX_LEN) in
  let file_ext_name := cstr (field t 66 FDFS_FILE_EXT_NAME_MAX_LEN) in
  fail_if 256 <? master_filename_len + src_filename_len + src_file_sig_len with (inl EINVAL) ;;;
  let master_filename := field t 72 master_filename_len in
  let src_filename := field t (72 + master_filename_len) src_filename_len in
  match storage_split_filename_ex (paths conf) src_filename src_filename_len with
  | inl e => ret (inl e)
  | inr (true_len, src_true_filename, index) =>
      let result := fdfs_check_data_filename src_true_filename true_len in
      if decide (result <> 0) then ret (inl result)
      else if has_slash (prefix_name ++ file_ext_name) then move Elsewhere ;; ret (inl STORAGE_STATUE_DEAL_FILE)
      else
        upload (fun u => set_up_trunk_info (with_store_path index (up_trunk_info u)) u) ;;
        storage_create_link_core (cstr src_filename) (cstr src_true_filename) master_filename prefix_name file_ext_name true
  end.

(** In a disk thread. *)
Definition storage_do_create_link : M Serving Z :=
  let! nInPackLen := the_task in_length in
  task (set_ci_total_length 10) ;;
  let! r := do_create_link nInPackLen in
  match r with
  | inl result =>
      if result =? STORAGE_STATUE_DEAL_FILE then ret 0 else notify_total result ;; ret result
  | inr filename =>
      task (set_ci_total_length (10 + FDFS_GROUP_NAME_MAX_LEN + Z.of_nat (length filename))) ;;
      task (put_buffer 10 (zero_pad (Z.to_nat FDFS_GROUP_NAME_MAX_LEN) (st_group_name conf) ++ filename)) ;;
      notify_total 0 ;; ret 0
  end.

End link.

(** The source's name is looked for where the master's name starts. *)
Definition storage_create_link `{FastCommon} (conf : StorageConf) : M Serving Z :=
  let! t := the_task id in
  let nInPackLen := in_length t in
  fail_if nInPackLen <=? 62 with EINVAL ;;;
  let src_filename_len := int32 (long_in t 18) in
  fail_if (src_filename_len <=? 0) || (filename_size <=? src_filename_len) with EINVAL ;;;
  match storage_split_filename_ex (paths conf) (field t 72 src_filename_len) src_filename_len with
  | inl e => ret e
  | inr (_, _, store_path_index) =>
      task (set_ci_deal_func (Some Deal_storage_do_create_link)) ;;
      file (fun c => set_fc_fd None (set_fc_op FDFS_STORAGE_FILE_OP_WRITE c)) ;;
      choose_dio_thread conf store_path_index ;;
      let! result := storage_dio_queue_push in
      ret (if decide (result <> 0) then result else STORAGE_STATUE_DEAL_FILE)
  end.
