(* ===== verification/StorageServe.v ===== *)
(** * A storage server as a whole ([storage_nio.c], [storage_deal_task]).

    The network threads receive requests piece by piece and send the answers;
    the disk threads do the work.  [serve] is one connection that nobody
    interrupts; [step] is a server whose connections take turns. *)

From S2P Require Import Prelude FastCommon TrunkShared TrunkMem StorageIds TrackerTypes FileSys SyncBinlog Net SyncReader SyncPeer DataFiles StorageTask StorageDio StorageSyncIn StorageUpload StorageClient StorageLink.

(** The requests whose handlers are not modelled: those of the trunk server, and
    of a server that recovers a store path. *)
Definition left_out : list Z := [26; 27; 28; 29; 30; 31; 32; 33].

Local Open Scope c_scope.

Section serve.
Context `{FastCommon} (CRC32 : bytes -> Z -> Z) (conf : StorageConf).

#[export] Instance service_callbacks : Callbacks := {
  run_done_callback f := match f with
    | Done_sync_delete_file => storage_sync_delete_file_done_callback conf
    | Done_sync_truncate_file => storage_sync_truncate_file_done_callback conf
    | Done_sync_copy_file => storage_sync_copy_file_done_callback conf
    | Done_sync_modify_file => storage_sync_modify_file_done_callback conf
    | Done_get_metadata => storage_get_metadata_done_callback
    | Done_download_file => storage_download_file_done_callback
    | Done_delete_fdfs_file => storage_delete_fdfs_file_done_callback conf
    | Done_upload_file => storage_upload_file_done_callback conf
    | Done_append_file => storage_append_file_done_callback conf
    | Done_modify_file => storage_modify_file_done_callback conf
    | Done_do_truncate_file => storage_do_truncate_file_done_callback conf
    | Done_trunk_create_link_file => storage_trunk_create_link_file_done_callback conf
    | Done_calc_crc32_for_query_finfo => calc_crc32_done_callback_for_query_finfo conf
    | Done_calc_crc32_for_regenerate => calc_crc32_done_callback_for_regenerate conf
    end }.

(** [pClientInfo->deal_func(pTask)], in a disk thread. *)
Definition deal_func : M Serving Z :=
  let! f := the_task ci_deal_func in
  match f with
  | Some Deal_dio_read_file => dio_read_file CRC32
  | Some Deal_dio_write_file => dio_write_file CRC32 conf
  | Some Deal_dio_truncate_file => dio_truncate_file conf
  | Some Deal_dio_discard_file => dio_discard_file
  | Some Deal_dio_delete_normal_file => dio_delete_normal_file
  | Some Deal_dio_delete_trunk_file => dio_delete_trunk_file conf
  | Some Deal_storage_do_sync_link_file => storage_do_sync_link_file CRC32 conf
  | Some Deal_storage_do_set_metadata => storage_do_set_metadata conf
  | Some Deal_storage_do_create_link => storage_do_create_link CRC32 conf
  | None => ret 0
  end.

Definition no_upload : StorageUploadInfo := mkUpload false 0 false [] [] [] [] [] 0 no_trunk None None.
Definition no_file_context : StorageFileContext :=
  mkFileContext [] [] 0 0 false O_RDONLY 0 no_upload (mkSetMeta 0 []) 0 0 0 0 0 None 0 0 0 Continue_nio_notify None.

(** A connection that was just accepted. *)
Definition new_task (data : bytes) (size fd : Z) (client_ip : bytes) : Task :=
  mkTask data size 0 0 fd client_ip InPipe [] FDFS_STORAGE_STAGE_NIO_INIT [] no_file_context 0 0 None None None None.

Definition task_finish_clean_up : M Serving unit :=
  clean_func conf ;;
  task (fun t => mkTask (tk_data t) (tk_size t) (tk_length t) (tk_offset t) (-1) (tk_client_ip t) Closed (tk_sent t) 0 []
                   no_file_context 0 0 None None None None).

(** All of the buffer is sent, or the connection breaks. *)
Definition client_sock_write : M Serving unit :=
  let! t := the_task id in
  match tk_place t with
  | Closing | Closed | Elsewhere | Overrun => ret tt
  | _ =>
      let! e := next_errno in
      if decide (e <> 0) then task_finish_clean_up
      else
        let out := take (Z.to_nat (tk_length t - tk_offset t)) (drop (Z.to_nat (tk_offset t)) (tk_data t)) in
        task (fun t => set_tk_sent (tk_sent t ++ out) (set_tk_offset (tk_length t)
               (set_ci_total_offset (ci_total_offset t + tk_length t) t))) ;;
        let! t := the_task id in
        if ci_total_length t <=? ci_total_offset t then
          if (ci_total_length t =? 10) && (int8 (znth 0 (tk_data t) 9) =? EINVAL) then task_finish_clean_up
          else
            task (fun t => set_ci_total_length 0 (set_ci_total_offset 0 (set_tk_offset 0 (set_tk_length 0
                   (set_ci_stage FDFS_STORAGE_STAGE_NIO_RECV t))))) ;;
            move AtSocket
        else
          task (set_tk_length 0) ;; let! _ := storage_dio_queue_push in ret tt
  end.

Definition storage_send_add_event : M Serving Z := task (set_tk_offset 0) ;; client_sock_write ;; ret 0.

(** The handler of a command; [None] for one that is not modelled. *)
Definition deal_command (cmd : Z) : option (M Serving Z) :=
  if cmd =? STORAGE_PROTO_CMD_DOWNLOAD_FILE then Some (storage_server_download_file conf)
  else if cmd =? STORAGE_PROTO_CMD_GET_METADATA then Some (storage_server_get_metadata conf)
  else if cmd =? STORAGE_PROTO_CMD_UPLOAD_FILE then Some (storage_upload_file conf false)
  else if cmd =? STORAGE_PROTO_CMD_UPLOAD_APPENDER_FILE then Some (storage_upload_file conf true)
  else if cmd =? STORAGE_PROTO_CMD_APPEND_FILE then Some (storage_append_file conf)
  else if cmd =? STORAGE_PROTO_CMD_MODIFY_FILE then Some (storage_modify_file conf)
  else if cmd =? STORAGE_PROTO_CMD_TRUNCATE_FILE then Some (storage_do_truncate_file conf)
  else if cmd =? STORAGE_PROTO_CMD_UPLOAD_SLAVE_FILE then Some (storage_upload_slave_file conf)
  else if cmd =? STORAGE_PROTO_CMD_DELETE_FILE then Some (storage_server_delete_file conf)
  else if cmd =? STORAGE_PROTO_CMD_SET_METADATA then Some (storage_server_set_metadata conf)
  else if cmd =? STORAGE_PROTO_CMD_QUERY_FILE_INFO then Some (storage_server_query_file_info conf)
  else if cmd =? STORAGE_PROTO_CMD_CREATE_LINK then Some (storage_create_link conf)
  else if cmd =? STORAGE_PROTO_CMD_REGENERATE_APPENDER_FILENAME then Some (storage_server_regenerate_appender_filename conf)
  else if cmd =? STORAGE_PROTO_CMD_SYNC_CREATE_FILE then Some (storage_sync_copy_file conf cmd)
  else if cmd =? STORAGE_PROTO_CMD_SYNC_DELETE_FILE then Some (storage_sync_delete_file conf)
  else if cmd =? STORAGE_PROTO_CMD_SYNC_UPDATE_FILE then Some (storage_sync_copy_file conf cmd)
  else if cmd =? STORAGE_PROTO_CMD_SYNC_APPEND_FILE then Some (storage_sync_append_file conf)
  else if cmd =? STORAGE_PROTO_CMD_SYNC_MODIFY_FILE then Some (storage_sync_modify_file conf)
  else if cmd =? STORAGE_PROTO_CMD_SYNC_TRUNCATE_FILE then Some (storage_sync_truncate_file conf)
  else if cmd =? STORAGE_PROTO_CMD_SYNC_RENAME_FILE then Some (storage_sync_rename_file conf)
  else if cmd =? STORAGE_PROTO_CMD_SYNC_CREATE_LINK then Some (storage_sync_link_file conf)
  else if cmd =? FDFS_PROTO_CMD_ACTIVE_TEST then Some storage_deal_active_test
  else if cmd =? STORAGE_PROTO_CMD_REPORT_SERVER_ID then Some storage_server_report_server_id
  else if existsb (Z.eqb cmd) left_out then None
  else Some (ret EINVAL).

(** The answer of a handler that left none to a callback. *)
Definition answer (result : Z) : M Serving unit :=
  task (fun t => let t := set_ci_total_offset 0 (if decide (result <> 0) then set_ci_total_length 10 t else t) in
                 set_tk_length (ci_total_length t) t) ;;
  put_header result ;;
  let! _ := storage_send_add_event in ret tt.

Definition storage_deal_task : M Serving Z :=
  let! cmd := the_task (fun t => int8 (znth 0 (tk_data t) 8)) in
  if cmd =? FDFS_PROTO_CMD_QUIT then move Closing ;; ret 0
  else
    match deal_command cmd with
    | None => move Elsewhere ;; ret 0
    | Some c =>
        let! result := c in
        (if negb (result =? STORAGE_STATUE_DEAL_FILE) then answer result else ret tt) ;; ret result
    end.

(** How much is still to come of the header, or of the piece. *)
Definition recv_bytes (t : Task) : Z :=
  (if ci_total_length t =? 0 then 10 else tk_length t) - tk_offset t.

(** A piece is complete. *)
Definition piece_done : M Serving unit :=
  task (fun t => if ci_total_length t <=? ci_total_offset t + tk_length t
                 then set_ci_stage FDFS_STORAGE_STAGE_NIO_SEND t else t) ;;
  let! t := the_task id in
  task (set_ci_total_offset (ci_total_offset t + tk_length t)) ;;
  (if ci_total_offset t =? 0 then storage_deal_task else storage_dio_queue_push) ;;
  ret tt.

(** One [recv] that returns [b]. *)
Definition client_sock_read (b : bytes) : M Serving unit :=
  let! t := the_task id in
  let b := take (Z.to_nat (recv_bytes t)) b in
  let off := tk_offset t + Z.of_nat (length b) in
  task (put_buffer (tk_offset t) b) ;;
  let piece := (task (set_tk_offset off) ;;
                let! t := the_task id in
                if tk_length t <=? tk_offset t then piece_done else ret tt) in
  if ci_total_length t =? 0 then
    if off <? 10 then task (set_tk_offset off)
    else
      let! pkg_len := the_task (fun t => buff2long (tk_data t)) in
      if pkg_len <? 0 then task (set_ci_total_length pkg_len) ;; task_finish_clean_up
      else
        task (fun t => let total := int64 (pkg_len + 10) in
                       set_tk_length (Z.min (tk_size t) total) (set_ci_total_length total t)) ;;
        piece
  else piece.

(** A task comes back through the pipe. *)
Definition storage_recv_notify_read : M Serving unit :=
  task (fun t => set_ci_stage (Z.land (ci_stage t) (Z.lnot FDFS_STORAGE_STAGE_DIO_THREAD)) t) ;;
  let! stage := the_task ci_stage in
  if stage =? FDFS_STORAGE_STAGE_NIO_INIT then
    task (set_ci_stage FDFS_STORAGE_STAGE_NIO_RECV) ;; move AtSocket
  else if stage =? FDFS_STORAGE_STAGE_NIO_RECV then
    task (fun t => set_tk_length (Z.min (tk_size t) (ci_total_length t - ci_total_offset t)) (set_tk_offset 0 t)) ;;
    move AtSocket
  else if stage =? FDFS_STORAGE_STAGE_NIO_SEND then let! _ := storage_send_add_event in ret tt
  else move Closing.

(** ** One connection.  [serve] feeds it as much of [input] as it asks for, and
    gives back what was not read. *)
Fixpoint serve (fuel : nat) (input : bytes) : M Serving bytes :=
  match fuel with
  | O => ret input
  | S fuel' =>
      let! t := the_task id in
      match tk_place t with
      | AtSocket =>
          if bool_decide (input = []) then ret []
          else
            let n := Z.to_nat (recv_bytes t) in
            client_sock_read (take n input) ;; serve fuel' (drop n input)
      | InDio => let! _ := deal_func in serve fuel' input
      | InPipe => storage_recv_notify_read ;; serve fuel' input
      | Closing => task_finish_clean_up ;; serve fuel' input
      | Closed | Elsewhere | Overrun => ret input
      end
  end.

End serve.

(** ** A server with its connections.

    [sr_got] is what each connection has received of its current request; it
    decides nothing. *)
Record Server := mkServer {
  sr_service : Service;
  sr_tasks : gmap nat Task;
  sr_got : gmap nat bytes;
}.

(** What happens outside: time passes, the binlog is flushed or compressed, and
    the next system calls will fail or succeed in some way, [rand] and the trunk
    server will answer something. *)
Record Outside := mkOutside {
  o_clock : Z;
  o_faults : list (Z * nat);
  o_observations : list StatObs;
  o_errnos : list Z;
  o_rands : list Z;
  o_trunk_answers : list (Z + FDFSTrunkFullInfo);
  o_binlog : SyncState -> SyncState;
}.

Inductive Act :=
  | Accept (i : nat) (data : bytes) (fd : Z) (client_ip : bytes)
  | Receive (i : nat) (b : bytes)
  | Broken (i : nat)
  | Disk (i : nat)
  | Notified (i : nat)
  | Finish (i : nat)
  | Meanwhile (o : Outside).

Definition actor (a : Act) : option nat :=
  match a with
  | Accept i _ _ _ | Receive i _ | Broken i | Disk i | Notified i | Finish i => Some i
  | Meanwhile _ => None
  end.

#[global] Instance Place_eq_dec : EqDecision Place.
Proof. solve_decision. Defined.

Definition outside (o : Outside) (s : Service) : Service :=
  let fs := s_files s in
  set_s_files (mkDataFs (d_names fs) (d_inodes fs) (o_clock o) (o_faults o))
    (set_s_binlog (o_binlog o (s_binlog s))
       (set_s_observations (o_observations o) (set_s_errnos (o_errnos o)
          (set_s_rands (o_rands o) (set_s_trunk_answers (o_trunk_answers o) s))))).

Section server.
Context `{FastCommon} (CRC32 : bytes -> Z -> Z) (conf : StorageConf) (buff_size : Z).

(** A new request starts with an empty buffer. *)
Definition starting (t : Task) : bool := (ci_total_offset t =? 0) && (tk_offset t =? 0).

Definition run_task (i : nat) (t : Task) (got : bytes) (c : M Serving unit) (srv : Server) : Server :=
  let s := (c (mkServing (sr_service srv) t)).2 in
  mkServer (s_service s) (<[i := s_task s]> (sr_tasks srv)) (<[i := got]> (sr_got srv)).

Definition got_by (i : nat) (srv : Server) : bytes := default [] (sr_got srv !! i).

(** What [i] does where it is; [None] when it is not there. *)
Definition act_at (p : Place) (i : nat) (c : M Serving unit) (srv : Server) : option Server :=
  match sr_tasks srv !! i with
  | Some t => if decide (tk_place t = p) then Some (run_task i t (got_by i srv) c srv) else None
  | None => None
  end.

Definition server_step (a : Act) (srv : Server) : option Server :=
  match a with
  | Accept i data fd client_ip =>
      if (match sr_tasks srv !! i with Some t => bool_decide (tk_place t = Closed) | None => true end) &&
         (Z.of_nat (length data) =? buff_size)
      then Some (mkServer (sr_service srv) (<[i := new_task data buff_size fd client_ip]> (sr_tasks srv)) (<[i := []]> (sr_got srv)))
      else None
  | Receive i b =>
      match sr_tasks srv !! i with
      | Some t =>
          if bool_decide (tk_place t = AtSocket) && (0 <? Z.of_nat (length b)) && (Z.of_nat (length b) <=? recv_bytes t)
          then Some (run_task i t ((if starting t then [] else got_by i srv) ++ b) (client_sock_read conf b) srv)
          else None
      | None => None
      end
  | Broken i => act_at AtSocket i (task_finish_clean_up conf) srv
  | Disk i => act_at InDio i (let! _ := deal_func CRC32 conf in ret tt)%c srv
  | Notified i => act_at InPipe i (storage_recv_notify_read conf) srv
  | Finish i => act_at Closing i (task_finish_clean_up conf) srv
  | Meanwhile o => Some (mkServer (outside o (sr_service srv)) (sr_tasks srv) (sr_got srv))
  end.

(** Everything that can happen to a server that starts with [s]. *)
Inductive server_reach (s : Service) : Server -> Prop :=
  | reach_start : server_reach s (mkServer s ∅ ∅)
  | reach_act srv a srv' : server_reach s srv -> server_step a srv = Some srv' -> server_reach s srv'.

End server.
