(* ===== verification/DataInv.v ===== *)
(** * Temporary files.

    A copy is written to a name of its own, [<path>/data/.cp<n>.tmp], and renamed
    when it is complete.  Here is what the system calls of [DataFiles] leave
    alone: the files that others are writing. *)

From Stdlib Require Import Classical.
From S2P Require Import Prelude FastCommon TrunkShared StorageIds DataFiles StorageTask.

(** ** Names. *)
Definition temp_name (path : bytes) (q : Z) : bytes := path ++ bs "/data/.cp" ++ fmt_d q ++ bs ".tmp".
Definition is_temp (n : bytes) : Prop := exists p q, 0 <= q /\ n = temp_name p q.

Lemma split_last (c : Z) (a1 a2 b1 b2 : bytes) :
  a1 ++ c :: b1 = a2 ++ c :: b2 -> c ∉ b1 -> c ∉ b2 -> a1 = a2 /\ b1 = b2.
Proof.
  revert a2. induction a1 as [|x a1 IH]; intros [|y a2] E H1 H2; simplify_eq/=; try done.
  - exfalso. apply H1. apply elem_of_app. right. by left.
  - exfalso. apply H2. apply elem_of_app. right. by left.
  - destruct (IH a2) as [-> ->]; eauto.
Qed.

Lemma fmt_d_no_slash q : 0 <= q -> 47 ∉ fmt_d q.
Proof.
  intros Hq E. unfold fmt_d in E. destruct (q <? 0) eqn:Eq; [lia|].
  pose proof (fmt_u_chars q Hq) as F. rewrite Forall_forall in F. specialize (F _ E). cbn in F. lia.
Qed.

Lemma temp_base_no_slash q : 0 <= q -> 47 ∉ bs ".cp" ++ fmt_d q ++ bs ".tmp".
Proof.
  intros Hq E. rewrite !elem_of_app in E. destruct E as [E|[E|E]]; [|by eapply fmt_d_no_slash|];
    cbn in E; rewrite ?elem_of_cons, elem_of_nil in E; intuition lia.
Qed.

Lemma temp_name_eq path q : temp_name path q = (path ++ bs "/data") ++ 47 :: bs ".cp" ++ fmt_d q ++ bs ".tmp".
Proof. unfold temp_name. by rewrite <- !app_assoc. Qed.

Lemma fmt_d_inj q q' : 0 <= q -> 0 <= q' -> fmt_d q = fmt_d q' -> q = q'.
Proof.
  intros Hq Hq'. unfold fmt_d. destruct (q <? 0) eqn:E1; [lia|]. destruct (q' <? 0) eqn:E2; [lia|]. intros E.
  destruct (fmt_u_spec 10 q) as (_ & Hv & _); [lia..|]. destruct (fmt_u_spec 10 q') as (_ & Hv' & _); [lia..|].
  specialize (Hv 0). specialize (Hv' 0). rewrite E in Hv. lia.
Qed.

Lemma temp_name_inj p q p' q' : 0 <= q -> 0 <= q' -> temp_name p q = temp_name p' q' -> q = q'.
Proof.
  intros Hq Hq' E. rewrite !temp_name_eq in E. apply split_last in E as [_ E]; [|by apply temp_base_no_slash..].
  apply app_inv_head, app_inv_tail in E. by apply fmt_d_inj.
Qed.

(** Names of data files, and of trunk files, are no temporary names: the
    directory they are in is not called [data]. *)
Lemma two_level_not_temp p a c r : 47 ∉ c -> c <> bs "data" -> 47 ∉ r -> ~ is_temp (p ++ bs "/data/" ++ a ++ 47 :: c ++ 47 :: r).
Proof.
  intros Hc Hd Hr (p' & q & Hq & E). rewrite temp_name_eq in E.
  replace (p ++ bs "/data/" ++ a ++ 47 :: c ++ 47 :: r) with ((p ++ bs "/data/" ++ a ++ 47 :: c) ++ 47 :: r) in E
    by (rewrite <- !app_assoc; cbn; rewrite <- ?app_assoc; done).
  apply split_last in E as [E _]; [|done|by apply temp_base_no_slash].
  replace (p ++ bs "/data/" ++ a ++ 47 :: c) with ((p ++ bs "/data/" ++ a) ++ 47 :: c) in E by (by rewrite <- !app_assoc).
  change (bs "/data") with (47 :: bs "data") in E.
  apply split_last in E as [_ E]; [by simplify_eq|done|]. cbn; rewrite !elem_of_cons, elem_of_nil; intuition lia.
Qed.

(** A buffer that holds the directories cuts the rest at most. *)
Lemma two_level_cut_not_temp size p a c r : 47 ∉ c -> c <> bs "data" -> 47 ∉ r ->
  Z.of_nat (length p + 6 + length a + 1 + length c + 1) < size ->
  ~ is_temp (snprintf size (p ++ bs "/data/" ++ a ++ 47 :: c ++ 47 :: r)).
Proof.
  intros Hc Hd Hr Hs. unfold snprintf.
  assert (length (bs "/data/") = 6%nat) as Hd6 by done. remember (bs "/data/") as D eqn:ED.
  replace (p ++ D ++ a ++ 47 :: c ++ 47 :: r) with ((p ++ D ++ a ++ 47 :: c ++ [47]) ++ r)
    by (rewrite <- !app_assoc; cbn; rewrite <- ?app_assoc; done).
  rewrite take_app. rewrite take_ge by (rewrite !length_app, Hd6; cbn; rewrite length_app; cbn; lia).
  rewrite <- !app_assoc. cbn. rewrite <- ?app_assoc. cbn. subst D.
  apply (two_level_not_temp p a c); [done..|]. intros E. apply Hr. apply elem_of_take in E as (? & ? & _). by eapply list_elem_of_lookup_2.
Qed.

Lemma hex_no c n : 0 <= n -> is_digit 16 c = false -> c ∉ fmt_u 16 n.
Proof.
  intros Hn Hc E. destruct (fmt_u_spec 16 n) as (Hd & _); [lia..|]. rewrite Forall_forall in Hd.
  specialize (Hd _ E). congruence.
Qed.

Lemma fmt_02X_no c n : is_digit 16 c = false -> c <> 48 -> c ∉ fmt_02X n.
Proof.
  intros Hc H48 E. unfold fmt_02X, pad0 in E. apply elem_of_app in E as [E|E].
  - apply elem_of_replicate in E. lia.
  - eapply hex_no; [|done..]. unfold uint32. apply Z.mod_pos_bound. lia.
Qed.

Lemma fmt_02X_long n : (length (fmt_02X n) <= 8)%nat.
Proof.
  unfold fmt_02X, pad0. rewrite length_app, length_replicate.
  pose proof (fmt_u_length 16 (uint32 n) 8 ltac:(lia)) as Hl. unfold uint32 in *.
  pose proof (Z.mod_pos_bound n (2 ^ 32) ltac:(lia)). specialize (Hl ltac:(lia) ltac:(lia)). lia.
Qed.

Lemma fmt_06u_no_slash n : 47 ∉ fmt_06u n.
Proof.
  unfold fmt_06u, pad0. intros E. apply elem_of_app in E as [E|E]; [apply elem_of_replicate in E; lia|].
  assert (0 <= uint32 n) as Hn by (unfold uint32; apply Z.mod_pos_bound; lia).
  pose proof (fmt_u_chars _ Hn) as F. rewrite Forall_forall in F. specialize (F _ E). cbn in F. lia.
Qed.

Definition short_paths (paths : list FDFSStorePathInfo) : Prop := Forall (fun p => Z.of_nat (length (sp_path p)) <= 200) paths.

Lemma short_path paths i : short_paths paths -> Z.of_nat (length (sp_path (znth inhabitant paths i))) <= 200.
Proof.
  intros Hs. unfold znth. destruct (decide (Z.to_nat i < length paths)%nat) as [Hl|Hl].
  - destruct (nth_lookup_or_length paths (Z.to_nat i) inhabitant) as [E|]; [|lia]. rewrite nth_lookup in E |- *.
    unfold short_paths in Hs. rewrite Forall_lookup in Hs.
    destruct (paths !! Z.to_nat i) as [x|] eqn:Ex; cbn in *; [by eapply Hs|]. apply lookup_ge_None in Ex. lia.
  - rewrite nth_overflow by lia. done.
Qed.

Lemma trunk_file_not_temp paths t size : short_paths paths -> 256 <= size -> ~ is_temp (trunk_get_full_filename_ex paths t size).
Proof.
  intros Hp Hs. unfold trunk_get_full_filename_ex.
  pose proof (short_path paths (store_path_index (ti_path t)) Hp) as Hl.
  apply (two_level_cut_not_temp size _ (fmt_02X (sub_path_high (ti_path t))) (fmt_02X (sub_path_low (ti_path t)))).
  - by apply fmt_02X_no.
  - intros E. apply (fmt_02X_no 116 (sub_path_low (ti_path t))); [done..|]. rewrite E. cbn. rewrite !elem_of_cons. tauto.
  - apply fmt_06u_no_slash.
  - pose proof (fmt_02X_long (sub_path_high (ti_path t))). pose proof (fmt_02X_long (sub_path_low (ti_path t))). lia.
Qed.

Lemma empty_not_temp : ~ is_temp [].
Proof. intros (p & q & _ & E). unfold temp_name in E. by destruct p. Qed.

Lemma not_slash_upper c : IS_UPPER_HEX c = true -> c <> 47 /\ c <> 0.
Proof. unfold IS_UPPER_HEX. lia. Qed.

Lemma existsb_not_in c b : existsb (Z.eqb c) b = false -> c ∉ b.
Proof.
  intros E Hin. assert (existsb (Z.eqb c) b = true); [|congruence].
  apply existsb_exists. exists c. split; [by apply list_elem_of_In|lia].
Qed.

(** What [fdfs_check_data_filename] lets through. *)
Lemma data_filename_shape t len : fdfs_check_data_filename t len = 0 ->
  exists a b c d r, cstr t = [a; b; 47; c; d; 47] ++ r /\ c <> 47 /\ d <> 47 /\ 47 ∉ r.
Proof.
  unfold fdfs_check_data_filename. destruct (len <? 6); [done|].
  destruct (_ || _) eqn:E; [done|]. apply orb_false_iff in E as [E E5].
  repeat (apply orb_false_iff in E as [E ?]). destruct (existsb _ _) eqn:Ex; [done|]. apply existsb_not_in in Ex. intros _.
  assert (5 < length t)%nat as Hl.
  { destruct (decide (5 < length t)%nat) as [|Hl]; [done|]. apply negb_false_iff in E5.
    unfold znth in E5. rewrite nth_overflow in E5 by lia. cbn in E5. done. }
  destruct t as [|a [|b [|x [|c [|d [|y r]]]]]]; cbn in Hl; try lia.
  unfold znth in *. change (Z.to_nat 0) with 0%nat in *. change (Z.to_nat 1) with 1%nat in *.
  change (Z.to_nat 2) with 2%nat in *. change (Z.to_nat 3) with 3%nat in *. change (Z.to_nat 4) with 4%nat in *.
  change (Z.to_nat 5) with 5%nat in *. cbn in *.
  repeat match goal with Hx : negb _ = false |- _ => apply negb_false_iff in Hx end.
  repeat match goal with Hx : IS_UPPER_HEX _ = true |- _ => apply not_slash_upper in Hx as [? ?] end.
  repeat match goal with Hx : (_ =? 47) = true |- _ => apply Z.eqb_eq in Hx end. subst. exists a, b, c, d, (cstr r).
  repeat (rewrite decide_False by lia). cbn. repeat split; try done.
Qed.

Lemma data_file_not_temp p t len : fdfs_check_data_filename t len = 0 -> ~ is_temp (p ++ bs "/data/" ++ cstr t).
Proof.
  intros Hc. destruct (data_filename_shape t len Hc) as (a & b & c & d & r & -> & Hc' & Hd & Hr).
  apply (two_level_not_temp p [a; b] [c; d]); [|done..]. rewrite !elem_of_cons, elem_of_nil. intuition lia.
Qed.

Lemma data_file_cut_not_temp p t len size : fdfs_check_data_filename t len = 0 -> Z.of_nat (length p) <= 200 -> 256 <= size ->
  ~ is_temp (snprintf size (p ++ bs "/data/" ++ cstr t)).
Proof.
  intros Hc Hp Hs. destruct (data_filename_shape t len Hc) as (a & b & c & d & r & -> & Hc' & Hd & Hr).
  apply (two_level_cut_not_temp size p [a; b] [c; d]); [|done..|cbn; lia]. rewrite !elem_of_cons, elem_of_nil. intuition lia.
Qed.

Lemma local_not_temp conf n l size i full : short_paths (paths conf) -> 256 <= size ->
  storage_logic_to_local_full_filename conf n l size = inr (i, full) -> ~ is_temp full.
Proof.
  intros Hp Hs. unfold storage_logic_to_local_full_filename.
  destruct (storage_split_filename_ex _ _ _) as [|[[len t] index]]; [done|]. cbv zeta. case_decide as Hd; [done|].
  intros [= <- <-]. eapply data_file_cut_not_temp; [done|by apply short_path|done].
Qed.

(** ** Files in order: an inode of a temporary name is a regular file that has no
    other name, and no link leads to one. *)
Record tidy (s : DataFs) : Prop := {
  tidy_bound n i : d_names s !! n = Some i -> (i < length (d_inodes s))%nat;
  tidy_regular n i : is_temp n -> d_names s !! n = Some i -> exists data t, d_inodes s !! i = Some (mkInode (Regular data) t);
  tidy_alone n i n' : is_temp n -> d_names s !! n = Some i -> d_names s !! n' = Some i -> n' = n;
  tidy_links i target t : d_inodes s !! i = Some (mkInode (Symlink target) t) -> ~ is_temp target;
}.

(** Following links from a name. *)
Lemma follow_temp fuel s n : tidy s -> is_temp n -> follow fuel s n = inr n.
Proof.
  intros T Hn. assert (forall x, inode_of s n = Some x -> exists data t, x = mkInode (Regular data) t) as Hr.
  { unfold inode_of. intros x E. apply bind_Some in E as (i & Ei & E).
    destruct (tidy_regular _ T n i Hn Ei) as (data & t & Ed). rewrite Ed in E. simplify_eq. eauto. }
  destruct fuel; cbn; (destruct (inode_of s n) as [x|] eqn:E; [destruct (Hr x eq_refl) as (? & ? & ->)|]; done).
Qed.

Lemma follow_plain fuel s n m : tidy s -> ~ is_temp n -> follow fuel s n = inr m -> ~ is_temp m.
Proof.
  intros T. revert n. induction fuel as [|fuel IH]; intros n Hn; cbn;
    destruct (inode_of s n) as [[[data|target|] t]|] eqn:E; try (by intros; simplify_eq).
  apply IH. unfold inode_of in E. apply bind_Some in E as (i & Ei & E). by eapply tidy_links.
Qed.

#[global] Arguments follow : simpl never.

Section frame.
(** From the state [s0] on, the files of the names and inodes [Pr] belong to
    others; [may] are the names one may use, [keep] the temporary names that an
    open file may have. *)
Context (s0 : DataFs) (Pr : bytes -> nat -> Prop) (may keep : bytes -> Prop).
Context (may_pr : forall n i, may n -> ~ Pr n i).
Context (may_temp : forall m n i, may m -> Pr n i -> is_temp m \/ is_temp n).
Context (may_follow : forall m n, may m -> ~ is_temp m -> ~ is_temp n -> may n).

Record Inv (s : DataFs) : Prop := {
  inv_tidy : tidy s;
  inv_length : (length (d_inodes s0) <= length (d_inodes s))%nat;
  inv_others n i : Pr n i -> d_names s !! n = Some i /\ d_inodes s !! i = d_inodes s0 !! i;
  inv_temps n i : is_temp n -> d_names s !! n = Some i -> d_names s0 !! n = Some i \/ (length (d_inodes s0) <= i)%nat;
}.

(** An inode of nobody else. *)
Record free (i : nat) (s : DataFs) : Prop := {
  free_bound : (i < length (d_inodes s))%nat;
  free_others n : ~ Pr n i;
}.

(** An inode one may write to. *)
Record mine (i : nat) (s : DataFs) : Prop := {
  mine_free : free i s;
  mine_temps n : is_temp n -> d_names s !! n = Some i -> keep n;
}.

Definition safely {A} (P : DataFs -> Prop) (c : M DataFs A) (Q : A -> DataFs -> Prop) : Prop :=
  forall s, Inv s -> P s -> Inv (c s).2 /\ (forall i, mine i s -> mine i (c s).2) /\ Q (c s).1 (c s).2.

Lemma safely_ret {A} (a : A) (P : DataFs -> Prop) (Q : A -> DataFs -> Prop) : (forall s, P s -> Q a s) -> safely P (ret a) Q.
Proof. intros HQ s I HP. split; [done|]. split; [done|]. by apply HQ. Qed.

Lemma safely_bind {A B} P (c : M DataFs A) Q (k : A -> M DataFs B) R :
  safely P c Q -> (forall a, safely (Q a) (k a) R) -> safely P (bind c k) R.
Proof.
  intros Hc Hk s I HP. rewrite bind_run. destruct (Hc s I HP) as (I1 & M1 & HQ).
  destruct (Hk _ _ I1 HQ) as (I2 & M2 & HR). eauto.
Qed.

Lemma safely_weaken {A} (P P' : DataFs -> Prop) (c : M DataFs A) (Q Q' : A -> DataFs -> Prop) :
  safely P c Q -> (forall s, Inv s -> P' s -> P s) -> (forall a s, Inv s -> Q a s -> Q' a s) -> safely P' c Q'.
Proof. intros Hc HP HQ s I Hs. destruct (Hc s I (HP s I Hs)) as (I' & Hm & Hq). eauto. Qed.

(** What is mine stays mine. *)
Lemma safely_mine {A} i P (c : M DataFs A) Q :
  safely P c Q -> safely (fun s => P s /\ mine i s) c (fun a s => Q a s /\ mine i s).
Proof. intros Hc s I [HP Hi]. destruct (Hc s I HP) as (I' & Hm & Hq). eauto. Qed.

Lemma may_free m i s : Inv s -> may m -> d_names s !! m = Some i -> free i s.
Proof.
  intros I Hm E. split.
  - by eapply tidy_bound; [apply inv_tidy|].
  - intros n Hp. destruct (inv_others s I n i Hp) as [En _].
    destruct (may_temp m n i Hm Hp) as [Ht|Ht].
    + pose proof (tidy_alone s (inv_tidy s I) m i n Ht E En). subst. by eapply may_pr.
    + pose proof (tidy_alone s (inv_tidy s I) n i m Ht En E). subst. by eapply may_pr.
Qed.

Lemma may_mine m i s : Inv s -> may m -> (is_temp m -> keep m) -> d_names s !! m = Some i -> mine i s.
Proof.
  intros I Hm Hk E. split; [by eapply may_free|].
  intros n Ht En. pose proof (tidy_alone s (inv_tidy s I) n i m Ht En E). subst. auto.
Qed.

(** *** Changes of the state. *)
Lemma inv_put_data i data s : Inv s -> free i s -> Inv (put_data i data s) /\ (forall j, mine j s -> mine j (put_data i data s)).
Proof.
  intros I Hi. split; [split; [split|..]|]; cbn; rewrite ?length_insert.
  - intros n j E. by eapply tidy_bound; [apply inv_tidy|].
  - intros n j Ht E. destruct (decide (i = j)) as [->|].
    + rewrite list_lookup_insert_eq by apply Hi. eauto.
    + rewrite list_lookup_insert_ne by done. by eapply tidy_regular; [apply inv_tidy| |].
  - intros n j n'. by apply tidy_alone, inv_tidy.
  - intros j target t E. apply list_lookup_insert_Some in E as [(_ & E & _)|[_ E]]; [done|].
    by eapply tidy_links; [apply inv_tidy|].
  - apply I.
  - intros n j Hp. destruct (inv_others s I n j Hp) as [? <-]. split; [done|].
    apply list_lookup_insert_ne. intros ->. by eapply free_others.
  - apply I.
  - intros j [[] Hj]. split; [split|]; cbn; rewrite ?length_insert; done.
Qed.

Lemma inv_utimes i t s : Inv s -> free i s ->
  let s' := set_d_inodes (alter (fun x => mkInode (i_node x) t) i (d_inodes s)) s in
  Inv s' /\ (forall j, mine j s -> mine j s').
Proof.
  intros I Hi. split; [split; [split|..]|]; cbn; rewrite ?length_alter.
  - intros n j E. by eapply tidy_bound; [apply inv_tidy|].
  - intros n j Ht E. destruct (tidy_regular s (inv_tidy s I) n j Ht E) as (data & t' & Ed).
    destruct (decide (i = j)) as [->|].
    + rewrite list_lookup_alter_eq, Ed. cbn. eauto.
    + rewrite list_lookup_alter_ne by done. eauto.
  - intros n j n'. by apply tidy_alone, inv_tidy.
  - intros j target t' E. destruct (decide (i = j)) as [->|].
    + rewrite list_lookup_alter_eq in E. destruct (d_inodes s !! j) as [[node tm]|] eqn:Ej; [|done]. cbn in E. simplify_eq.
      by eapply tidy_links; [apply inv_tidy|].
    + rewrite list_lookup_alter_ne in E by done. by eapply tidy_links; [apply inv_tidy|].
  - apply I.
  - intros n j Hp. destruct (inv_others s I n j Hp) as [? <-]. split; [done|].
    apply list_lookup_alter_ne. intros ->. by eapply free_others.
  - apply I.
  - intros j [[] Hj]. split; [split|]; cbn; rewrite ?length_alter; done.
Qed.

Lemma inv_create n node s : Inv s -> may n -> d_names s !! n = None ->
  (is_temp n -> exists data, node = Regular data) -> (forall target, node = Symlink target -> ~ is_temp target) ->
  let s' := create_inode n node s in
  Inv s' /\ (forall j, mine j s -> mine j s') /\ ((is_temp n -> keep n) -> mine (length (d_inodes s)) s').
Proof.
  intros I Hn Hnone Hr Hl. pose proof (inv_tidy s I) as T. 
  assert (forall m i, d_names s !! m = Some i -> i <> length (d_inodes s)) as Hfresh.
  { intros m i E ->. apply (tidy_bound s T) in E. lia. }
  assert (forall m i, d_names (create_inode n node s) !! m = Some i ->
            (m = n /\ i = length (d_inodes s)) \/ (m <> n /\ d_names s !! m = Some i)) as Hnames.
  { cbn. intros m i E. apply lookup_insert_Some in E as [[<- <-]|[? E]]; [by left|right]. done. }
  split; [split; [split|..]|split].
  - intros m i E. cbn. rewrite length_app. cbn. apply Hnames in E as [[-> ->]|[_ E]]; [lia|].
    apply (tidy_bound s T) in E. lia.
  - intros m i Ht E. cbn. apply Hnames in E as [[-> ->]|[_ E]].
    + rewrite lookup_app_r, Nat.sub_diag by done. destruct (Hr Ht) as [data ->]. cbn. eauto.
    + destruct (tidy_regular s T m i Ht E) as (data & t & Ed). exists data, t. by apply lookup_app_l_Some.
  - intros m i m' Ht E E'. apply Hnames in E as [[-> ->]|[Hm E]]; apply Hnames in E' as [[-> E']|[Hm' E']].
    + done.
    + by apply Hfresh in E'.
    + subst. by apply Hfresh in E.
    + by eapply tidy_alone.
  - intros i target t E. cbn in E. apply lookup_app_Some in E as [E|[_ E]]; [by eapply tidy_links|].
    apply list_lookup_singleton_Some in E as [_ E]. simplify_eq. by apply Hl.
  - cbn. rewrite length_app. pose proof (inv_length s I). lia.
  - intros m i Hp. cbn. destruct (inv_others s I m i Hp) as [E Ei]. split.
    + rewrite lookup_insert_ne; [done|]. intros ->. by eapply may_pr.
    + rewrite <- Ei. apply lookup_app_l. by eapply tidy_bound.
  - intros m i Ht E. apply Hnames in E as [[-> ->]|[_ E]]; [|by apply I]. right. apply I.
  - intros j [[Hb Ho] Hj]. split; [split; [|done]|].
    + cbn. rewrite length_app. lia.
    + intros m Ht E. apply Hnames in E as [[-> ->]|[_ E]]; [lia|]. auto.
  - intros Hk. split; [split|].
    + cbn. rewrite length_app. cbn. lia.
    + intros m Hp. destruct (inv_others s I m _ Hp) as [E _]. by apply Hfresh in E.
    + intros m Ht E. apply Hnames in E as [[-> _]|[_ E]]; [auto|]. by apply Hfresh in E.
Qed.

Lemma inv_delete n s : Inv s -> may n ->
  let s' := set_d_names (delete n (d_names s)) s in Inv s' /\ (forall j, mine j s -> mine j s').
Proof.
  intros I Hn. pose proof (inv_tidy s I) as T.
  assert (forall m i, delete n (d_names s) !! m = Some i -> d_names s !! m = Some i) as Hd.
  { intros m i E. by apply lookup_delete_Some in E as [_ E]. }
  split; [split; [split|..]|]; cbn.
  - intros m i E%Hd. by eapply tidy_bound.
  - intros m i Ht E%Hd. by eapply tidy_regular.
  - intros m i m' Ht E%Hd E'%Hd. by eapply tidy_alone.
  - apply T.
  - apply I.
  - intros m i Hp. destruct (inv_others s I m i Hp). split; [|done]. rewrite lookup_delete_ne; [done|].
    intros ->. by eapply may_pr.
  - intros m i Ht E%Hd. by apply I.
  - intros j [[] Hj]. split; [by split|]. intros m Ht E%Hd. auto.
Qed.

Lemma inv_rename old new i s : Inv s -> may old -> (forall j, ~ Pr new j) -> ~ is_temp new -> d_names s !! old = Some i ->
  let s' := set_d_names (<[new := i]> (delete old (d_names s))) s in Inv s' /\ (forall j, mine j s -> mine j s').
Proof.
  intros I Ho Hp Hnew E0. pose proof (inv_tidy s I) as T.
  assert (forall m j, <[new := i]> (delete old (d_names s)) !! m = Some j ->
            (m = new /\ j = i) \/ (m <> new /\ m <> old /\ d_names s !! m = Some j)) as Hn.
  { intros m j E. apply lookup_insert_Some in E as [[<- <-]|[? E]]; [by left|right].
    by apply lookup_delete_Some in E as [? E]. }
  split; [split; [split|..]|]; cbn.
  - intros m j E. apply Hn in E as [[-> ->]|(? & ? & E)]; by eapply tidy_bound.
  - intros m j Ht E. apply Hn in E as [[-> ->]|(? & ? & E)]; [done|]. by eapply tidy_regular.
  - intros m j m' Ht E E'. apply Hn in E as [[-> ->]|(? & Hmo & E)]; [done|].
    apply Hn in E' as [[-> ->]|(? & ? & E')]; [|by eapply tidy_alone].
    exfalso. apply Hmo. symmetry. by eapply tidy_alone.
  - apply T.
  - apply I.
  - intros m j Hpm. destruct (inv_others s I m j Hpm). split; [|done].
    rewrite lookup_insert_ne by (intros ->; by eapply Hp). rewrite lookup_delete_ne; [done|]. intros ->. by eapply may_pr.
  - intros m j Ht E. apply Hn in E as [[-> ->]|(? & ? & E)]; [done|]. by apply I.
  - intros j [[] Hj]. split; [by split|]. intros m Ht E. apply Hn in E as [[-> ->]|(? & ? & E)]; [done|]. auto.
Qed.

(** *** The system calls. *)
Abbreviation anything := (fun _ => True).

Lemma safely_pure {A} (P : DataFs -> Prop) (c : M DataFs A) (Q : A -> DataFs -> Prop) :
  (forall s, Inv s -> P s -> let s' := (c s).2 in Inv s' /\ (forall j, mine j s -> mine j s') /\ Q (c s).1 s') -> safely P c Q.
Proof. done. Qed.

Lemma unchanged (s : DataFs) (Q : Prop) : Inv s -> Q -> Inv s /\ (forall j, mine j s -> mine j s) /\ Q.
Proof. auto. Qed.

(** A call takes the next fault; the rest goes on from there. *)
Lemma safely_call {A} (P : DataFs -> Prop) (k : Z * nat -> M DataFs A) Q :
  (forall s l, P s -> P (set_d_faults l s)) -> (forall f, safely P (k f) Q) -> safely P (bind data_call k) Q.
Proof.
  intros HP Hk s I Hs. rewrite bind_run. unfold data_call. destruct (d_faults s) as [|f l]; cbn; [by apply Hk|].
  destruct (Hk f (set_d_faults l s)) as (I' & Hm & HQ); [|by apply HP|].
  - by destruct I as [[] ? ? ?]; split; [split|..].
  - split; [done|]. split; [|done]. intros j [[? ?] ?]. by apply Hm.
Qed.

Lemma safely_if {A} (b : bool) P (c c' : M DataFs A) Q : safely P c Q -> safely P c' Q -> safely P (if b then c else c') Q.
Proof. by destruct b. Qed.

Lemma safely_gets {A} P (f : DataFs -> A) : safely P (gets f) (fun _ => P).
Proof. intros s I HP. cbn. auto. Qed.

Lemma safely_view P : (forall s l, P s -> P (set_d_faults l s)) -> safely P data_view (fun _ => P).
Proof. intros HP. apply safely_call; [done|]. intros f. apply safely_call; [done|]. intros g. apply safely_gets. Qed.

Lemma safely_stat name : safely anything (data_stat name) (fun _ => anything).
Proof. apply safely_call; [done|]. intros f. apply safely_gets. Qed.

Lemma safely_lstat name : safely anything (data_lstat name) (fun _ => anything).
Proof. apply safely_call; [done|]. intros f. apply safely_gets. Qed.

Lemma safely_access name : safely anything (data_access name) (fun _ => anything).
Proof.
  unfold data_access. eapply safely_bind; [apply safely_stat|]. intros a.
  by apply safely_ret.
Qed.

(** Following a link does not lead to another temporary file. *)
Lemma follow_keep fuel s n m : Inv s -> (is_temp n -> keep n) -> follow fuel s n = inr m -> is_temp m -> keep m.
Proof.
  intros I Hn E Hm. pose proof (inv_tidy s I) as T. destruct (classic (is_temp n)) as [Ht|Ht].
  - rewrite (follow_temp fuel s n T Ht) in E. simplify_eq. auto.
  - by destruct (follow_plain fuel s n m T Ht E).
Qed.

Lemma follow_may fuel s n m : Inv s -> may n -> follow fuel s n = inr m -> may m.
Proof.
  intros I Hn E. pose proof (inv_tidy s I) as T.
  destruct (classic (is_temp n)) as [Ht|Ht].
  - rewrite (follow_temp fuel s n T Ht) in E. by simplify_eq.
  - eapply may_follow; [done..|]. by eapply follow_plain.
Qed.

(** What [open] leads to is nobody else's, and [mine] when the name may be kept. *)
Lemma safely_open_both name flags : may name -> safely anything (data_open name flags)
  (fun r s => forall fd, r = inr fd -> free (of_inode fd) s /\ ((is_temp name -> keep name) -> mine (of_inode fd) s)).
Proof.
  intros Hn. apply safely_call; [done|]. intros f. case_decide; [by apply safely_ret; intros|].
  apply safely_pure. intros s I _. rewrite bind_run. cbn.
  destruct (follow max_links s name) as [e|m] eqn:Em; [by apply unchanged|].
  pose proof (follow_may _ _ _ _ I Hn Em) as Hm.
  destruct (d_names s !! m) as [i|] eqn:Ei.
  - pose proof (may_free m i s I Hm Ei) as Hi.
    assert ((is_temp name -> keep name) -> mine i s) as Hk.
    { intros Hk. apply (may_mine m); try done. by eapply follow_keep. }
    destruct (d_inodes s !! i) as [[[data|t|] tm]|] eqn:En; try (by apply unchanged).
    destruct (fl_trunc flags); cbn.
    + destruct (inv_put_data i [] s I Hi) as [I' Hs]. split; [done|]. split; [done|]. intros fd [= <-]. split; [|by auto].
      destruct Hi. split; cbn; rewrite ?length_insert; done.
    + apply unchanged; [done|]. by intros fd [= <-].
  - destruct (fl_create flags); [|by apply unchanged].
    destruct (inv_create m (Regular []) s I Hm Ei) as (I' & Hs & Hl); [by eauto|done|].
    split; [done|]. split; [done|]. intros fd [= <-]. cbn. split.
    + split; [cbn; rewrite length_app; cbn; lia|]. intros m' Hp. destruct (inv_others s I m' _ Hp) as [E _].
      apply (tidy_bound s (inv_tidy s I)) in E. cbn in E. lia.
    + intros Hk. apply Hl. intros Ht. by apply (follow_keep _ _ _ _ I Hk Em).
Qed.

Lemma safely_open name flags : may name -> (is_temp name -> keep name) ->
  safely anything (data_open name flags) (fun r s => forall fd, r = inr fd -> mine (of_inode fd) s).
Proof. intros Hn Hk. eapply safely_weaken; [by apply safely_open_both|done|]. intros r s _ HQ fd E. by destruct (HQ fd E); auto. Qed.

Lemma safely_open_free name flags : may name ->
  safely anything (data_open name flags) (fun r s => forall fd, r = inr fd -> free (of_inode fd) s).
Proof. intros Hn. eapply safely_weaken; [by apply safely_open_both|done|]. intros r s _ HQ fd E. by destruct (HQ fd E); auto. Qed.

Lemma safely_open_excl name : may name -> (is_temp name -> keep name) ->
  safely anything (data_open_excl name) (fun r s => forall fd, r = inr fd -> mine (of_inode fd) s).
Proof.
  intros Hn Hk. apply safely_call; [done|]. intros f. case_decide; [by apply safely_ret; intros|].
  apply safely_pure. intros s I _. rewrite bind_run. cbn. destruct (d_names s !! name) eqn:En.
  - by apply unchanged.
  - destruct (inv_create name (Regular []) s I Hn En) as (I' & Hs & Hl); [by eauto|done|].
    split; [done|]. split; [done|]. intros fd [= <-]. by apply Hl.
Qed.

Lemma mine_faults i l s : mine i s -> mine i (set_d_faults l s).
Proof. by intros [[? ?] ?]. Qed.
Lemma free_faults i l s : free i s -> free i (set_d_faults l s).
Proof. by intros [? ?]. Qed.

Lemma safely_seek_free fd off :
  safely (free (of_inode fd)) (data_seek fd off) (fun r s => forall fd', r = inr fd' -> of_inode fd' = of_inode fd /\ free (of_inode fd) s).
Proof.
  apply safely_call; [by intros; apply free_faults|]. intros f. intros s I Hi. cbn. split; [done|]. split; [done|].
  intros fd' E. case_decide; [done|]. destruct (off <? 0); [done|]. by simplify_eq.
Qed.

Lemma safely_write_free fd data :
  safely (free (of_inode fd)) (data_write fd data) (fun w s => of_inode w.2 = of_inode fd /\ free (of_inode fd) s).
Proof.
  apply safely_call; [by intros; apply free_faults|]. intros f. apply safely_pure. intros s I Hi. cbn.
  destruct (inv_put_data _ (put_at (if of_append fd then Z.of_nat (length (file_data s (of_inode fd))) else of_pos fd)
    (if decide (f.1 <> 0) then take f.2 data else data) (file_data s (of_inode fd))) s I Hi) as [I' Hs]. split; [done|]. split; [done|].
  split; [done|]. destruct Hi. split; cbn; rewrite ?length_insert; done.
Qed.

Lemma safely_seek fd off :
  safely (mine (of_inode fd)) (data_seek fd off) (fun r s => forall fd', r = inr fd' -> of_inode fd' = of_inode fd /\ mine (of_inode fd) s).
Proof.
  eapply safely_weaken; [apply (safely_mine (of_inode fd)), safely_seek_free| |].
  - intros s _ Hm. split; [apply Hm|done].
  - intros r s _ [HQ Hm] fd' E. by destruct (HQ fd' E).
Qed.

Lemma safely_write fd data :
  safely (mine (of_inode fd)) (data_write fd data) (fun w s => of_inode w.2 = of_inode fd /\ mine (of_inode fd) s).
Proof.
  eapply safely_weaken; [apply (safely_mine (of_inode fd)), safely_write_free| |].
  - intros s _ Hm. split; [apply Hm|done].
  - by intros w s _ [[HQ _] Hm].
Qed.

Lemma safely_read fd n :
  safely (mine (of_inode fd)) (data_read fd n) (fun r s => forall b fd', r = inr (b, fd') -> of_inode fd' = of_inode fd /\ mine (of_inode fd) s).
Proof.
  apply safely_call; [by intros; apply mine_faults|]. intros f. case_decide; [by apply safely_ret; intros|].
  intros s I Hi. cbn. split; [done|]. split; [done|]. intros b fd' [= <- <-]. done.
Qed.

Lemma safely_ftruncate fd n :
  safely (mine (of_inode fd)) (data_ftruncate fd n) (fun _ s => mine (of_inode fd) s).
Proof.
  apply safely_call; [by intros; apply mine_faults|]. intros f. case_decide; [by apply safely_ret; intros|].
  apply safely_if; [by apply safely_ret|]. apply safely_pure. intros s I Hi. cbn.
  destruct (inv_put_data (of_inode fd) (take (Z.to_nat n) (file_data s (of_inode fd)) ++
    replicate (Z.to_nat n - length (file_data s (of_inode fd))) 0) s I (mine_free _ _ Hi)) as [I' Hs]. auto.
Qed.

Lemma safely_unlink name : may name -> safely anything (data_unlink name) (fun _ => anything).
Proof.
  intros Hn. apply safely_call; [done|]. intros f. case_decide; [by apply safely_ret|].
  apply safely_pure. intros s I _. rewrite bind_run. cbn. destruct (d_names s !! name); [|by apply unchanged].
  destruct (is_directory s name); [by apply unchanged|]. cbn. destruct (inv_delete name s I Hn). auto.
Qed.

Lemma safely_rename old new : may old -> (forall j, ~ Pr new j) -> ~ is_temp new ->
  safely anything (data_rename old new) (fun _ => anything).
Proof.
  intros Ho Hp Hnew. apply safely_call; [done|]. intros f. case_decide; [by apply safely_ret|].
  apply safely_pure. intros s I _. rewrite bind_run. cbn. destruct (d_names s !! old) as [i|] eqn:E; [|by apply unchanged].
  destruct (is_directory s new); [by apply unchanged|]. cbn.
  destruct (inv_rename old new i s I Ho Hp Hnew E). auto.
Qed.

Lemma safely_symlink target name : may name -> ~ is_temp name -> ~ is_temp target ->
  safely anything (data_symlink target name) (fun _ => anything).
Proof.
  intros Hn Ht Htar. apply safely_call; [done|]. intros f. case_decide; [by apply safely_ret|].
  apply safely_pure. intros s I _. rewrite bind_run. cbn. destruct (d_names s !! name) eqn:E; [by apply unchanged|]. cbn.
  destruct (inv_create name (Symlink target) s I Hn E) as (? & ? & ?); [done|by intros ? [= <-]|]. auto.
Qed.

Lemma safely_utimes name t : may name -> safely anything (data_utimes name t) (fun _ => anything).
Proof.
  intros Hn. apply safely_call; [done|]. intros f. case_decide; [by apply safely_ret|].
  apply safely_pure. intros s I _. cbn. destruct (follow max_links s name) as [|m] eqn:Em; [by apply unchanged|].
  destruct (d_names s !! m) as [i|] eqn:Ei; [|by apply unchanged].
  destruct (inv_utimes i t s I) as [? ?]; [|by auto]. apply (may_free m i s I); [by eapply follow_may|done].
Qed.

Lemma safely_readlink name size : safely anything (data_readlink name size)
  (fun r s => forall b, r = inr b -> Z.of_nat (length b) < size -> ~ is_temp b).
Proof.
  apply safely_call; [done|]. intros f. case_decide; [by apply safely_ret; intros|].
  apply safely_pure. intros s I _. rewrite bind_run. cbn. apply unchanged; [done|]. intros b Hb Hl.
  unfold inode_of in Hb. destruct (d_names s !! name) as [i|]; [|done]. cbn in Hb.
  destruct (d_inodes s !! i) as [[[data|target|] t]|] eqn:E; simplify_eq.
  rewrite length_take in Hl. rewrite take_ge by lia. eapply tidy_links; [by apply inv_tidy|done].
Qed.

Lemma safely_put_file name buff : may name -> safely anything (data_put_file name buff) (fun _ => anything).
Proof.
  intros Hn. eapply safely_bind; [by apply safely_open_free|]. intros [e|fd]; [by apply safely_ret|].
  eapply safely_bind; [eapply safely_weaken; [apply safely_write_free| |by intros ? ? ? HQ; exact HQ]|].
  - intros s _ HQ. by apply HQ.
  - intros w. by apply safely_ret.
Qed.

Lemma safely_get_file name : may name -> safely anything (data_get_file name) (fun _ => anything).
Proof.
  intros Hn. eapply safely_bind; [by apply safely_open_free|]. intros [e|fd]; [by apply safely_ret|].
  eapply safely_bind; [apply safely_gets|]. intros size.
  eapply safely_bind with (Q := fun _ => anything).
  - apply safely_weaken with (P := anything) (Q := fun _ => anything); [|done..].
    apply safely_call; [done|]. intros f. case_decide; [by apply safely_ret|]. intros s I _. cbn. auto.
  - intros [|[]]; by apply safely_ret.
Qed.

End frame.
