(* ===== verification/StorageNames.v ===== *)
(** * The names that requests make up.

    The names of uploaded files, of slave files and of metadata files are no
    temporary names, whatever a client sends. *)

From Stdlib Require Import Classical.
From S2P Require Import Prelude FastCommon TrunkShared SharedFunc StorePath TrunkMem StorageIds TrackerTypes TrackerFetch FileSys SyncBinlog Net SyncReader SyncPeer DataFiles StorageTask StorageDio StorageSyncIn StorageUpload StorageClient DataInv.

(** ** Strings in a buffer. *)
Lemma cstr_drop j b : (j <= length (cstr b))%nat -> cstr (drop j b) = drop j (cstr b).
Proof.
  revert b. induction j as [|j IH]; intros b Hj; [by rewrite !drop_0|].
  destruct b as [|x b]; [done|]. cbn in *. case_decide; [cbn in Hj; lia|]. cbn in *. apply IH. lia.
Qed.

Lemma cstr_idem b : cstr (cstr b) = cstr b.
Proof. induction b as [|x b IH]; [done|]. cbn. case_decide; [done|]. cbn. rewrite decide_False by done. by rewrite IH. Qed.

Lemma cstr_lookup i b : (i < length (cstr b))%nat -> znth 0 (cstr b) (Z.of_nat i) = znth 0 b (Z.of_nat i).
Proof.
  unfold znth. rewrite Nat2Z.id. revert i. induction b as [|x b IH]; intros i Hi; [done|]. cbn in *.
  case_decide; [cbn in Hi; lia|]. destruct i as [|i]; [done|]. cbn in *. apply IH. lia.
Qed.

Lemma cstr_short b : (length (cstr b) <= length b)%nat.
Proof. induction b as [|x b IH]; [done|]. cbn. case_decide; cbn; lia. Qed.

Lemma in_take (x : Z) n l : x ∈ take n l -> x ∈ l.
Proof. intros Hx. rewrite <- (take_drop n l). apply elem_of_app. by left. Qed.
Lemma in_drop (x : Z) n l : x ∈ drop n l -> x ∈ l.
Proof. intros Hx. rewrite <- (take_drop n l). apply elem_of_app. by right. Qed.

(** ** Two levels of directories and a plain name. *)
Definition plain_name (n : bytes) : Prop :=
  exists a b c d r, n = [a; b; 47; c; d; 47] ++ r /\ c <> 47 /\ d <> 47 /\ 47 ∉ r.

Lemma checked_plain name len : fdfs_check_data_filename name len = 0 -> plain_name (cstr name).
Proof. apply data_filename_shape. Qed.

Lemma plain_not_temp p n : plain_name n -> ~ is_temp (p ++ bs "/data/" ++ n).
Proof.
  intros (a & b & c & d & r & -> & Hc & Hd & Hr).
  apply (two_level_not_temp p [a; b] [c; d]); [|done..]. rewrite !elem_of_cons, elem_of_nil. intuition lia.
Qed.

Lemma plain_cut_not_temp p n size : plain_name n -> Z.of_nat (length p) <= 200 -> 256 <= size ->
  ~ is_temp (snprintf size (p ++ bs "/data/" ++ n)).
Proof.
  intros (a & b & c & d & r & -> & Hc & Hd & Hr) Hp Hs.
  apply (two_level_cut_not_temp size p [a; b] [c; d]); [|done..|cbn; lia]. rewrite !elem_of_cons, elem_of_nil. intuition lia.
Qed.

(** The last slash. *)
Lemma last_slash (b : bytes) : 47 ∈ b -> exists b1 b2, b = b1 ++ 47 :: b2 /\ 47 ∉ b2.
Proof.
  induction b as [|x b IH]; [by intros ?%elem_of_nil|]. intros Hin.
  destruct (classic (47 ∈ b)) as [Hb|Hb].
  - destruct (IH Hb) as (b1 & b2 & -> & ?). by exists (x :: b1), b2.
  - apply elem_of_cons in Hin as [<-|?]; [by exists [], b|done].
Qed.

(** A temporary name has at least eight bytes behind its last slash. *)
Lemma short_end_not_temp n e : (length e <= 7)%nat -> 47 ∈ e -> ~ is_temp (n ++ e).
Proof.
  intros Hl Hin (p & q & Hq & E). apply last_slash in Hin as (b1 & b2 & -> & Hb2).
  rewrite temp_name_eq, app_assoc in E. apply split_last in E as [_ E]; [|done|by apply temp_base_no_slash].
  subst b2. cbn in Hl. rewrite !length_app in Hl. cbn in Hl. rewrite length_app in Hl. cbn in Hl. lia.
Qed.

Section names.
Context `{FastCommonLaws} (conf : StorageConf).

Lemma base64_no_slash b : Forall is_byte b -> 47 ∉ base64_encode_ex b.
Proof.
  intros Hb Hin. apply base64_encode_chars in Hb. rewrite Forall_forall in Hb. specialize (Hb _ Hin). unfold is_base64 in Hb. lia.
Qed.

Lemma name_buff_bytes a b c : Forall is_byte (name_buff conf a b c).
Proof. unfold name_buff. repeat (apply Forall_app; split); apply int2buff_bytes || apply long2buff_bytes. Qed.

(** The name of a new file. *)
Definition gen_name (filename : bytes) : Prop :=
  exists p a b c ext, filename = sub_dirs p ++ base64_encode_ex (name_buff conf a b c) ++ ext /\ (length ext <= 7)%nat.

Lemma gen_name_not_temp path filename : gen_name filename -> ~ is_temp (path ++ bs "/data/" ++ filename).
Proof.
  intros (p & a & b & c & ext & -> & He). destruct (classic (47 ∈ ext)) as [Hin|Hin].
  - rewrite !app_assoc. by apply short_end_not_temp.
  - unfold sub_dirs. rewrite <- !app_assoc. cbn [app].
    apply (two_level_not_temp path (fmt_02X (sub_path_high p)) (fmt_02X (sub_path_low p))).
    + by apply fmt_02X_no.
    + intros E. apply (fmt_02X_no 116 (sub_path_low p)); [done..|]. rewrite E. cbn. rewrite !elem_of_cons. tauto.
    + rewrite elem_of_app. intros [Hb|Hb]; [|done]. by eapply base64_no_slash; [apply name_buff_bytes|].
Qed.

(** The name of a slave file. *)
Lemma strchr_part c (s a b : bytes) : strchr c s = Some (a, b) -> forall x, x ∈ a -> x ∈ s.
Proof.
  revert a b. induction s as [|y s IH]; intros a b E x Hx; [done|]. cbn in E. destruct (y =? c).
  - simplify_eq. by apply elem_of_nil in Hx.
  - destruct (strchr c s) as [[a' b']|] eqn:Es; [|done]. cbn in E. simplify_eq.
    apply elem_of_cons in Hx as [->|Hx]; apply elem_of_cons; [by left|right]. eauto.
Qed.

Lemma slave_name_plain master prefix ext filename : plain_name master -> 47 ∉ prefix -> 47 ∉ ext ->
  fdfs_gen_slave_filename master prefix ext = inr filename -> plain_name filename.
Proof.
  intros (a & b & c & d & r & -> & Hc & Hd & Hr) Hp He. unfold fdfs_gen_slave_filename.
  destruct (Z.ltb_spec (Z.of_nat (length ([a; b; 47; c; d; 47] ++ r))) (28 + FDFS_FILE_EXT_NAME_MAX_LEN)) as [|Hl]; [done|].
  set (master := [a; b; 47; c; d; 47] ++ r) in *. set (head := Z.to_nat _).
  set (true_ext := match ext with [] => [] | _ => _ end).
  assert (47 ∉ true_ext) as Ht.
  { unfold true_ext. destruct ext as [|x ext]; [by apply not_elem_of_nil|]. intros Hin%in_take.
    destruct (x =? 46); [done|]. apply elem_of_cons in Hin as [?|?]; [lia|done]. }
  clearbody true_ext. cbv zeta. destruct (_ && _); [done|]. destruct (_ && _); [done|]. intros [= <-].
  assert (exists k, head = (6 + k)%nat) as [k Hk] by (exists (head - 6)%nat; unfold head, FDFS_FILE_EXT_NAME_MAX_LEN in *; lia).
  destruct (strchr 46 (drop head master)) as [[before ext']|] eqn:E.
  - exists a, b, c, d, (take k r ++ before ++ prefix ++ true_ext). split.
    + rewrite Hk. unfold master. by rewrite take_app_add' by done.
    + split; [done|]. split; [done|]. rewrite !elem_of_app. intros [Hin|[Hin|[Hin|Hin]]]; try done.
      * by apply in_take in Hin.
      * apply (strchr_part _ _ _ _ E) in Hin. rewrite Hk in Hin. unfold master in Hin. rewrite drop_app_add' in Hin by done.
        by apply in_drop in Hin.
  - exists a, b, c, d, (r ++ prefix ++ true_ext). split; [done|]. split; [done|]. split; [done|].
    rewrite !elem_of_app. tauto.
Qed.

(** A metadata file. *)
Lemma meta_not_temp n : ~ is_temp (n ++ FDFS_STORAGE_META_FILE_EXT).
Proof.
  intros (p & q & Hq & E). unfold temp_name in E. apply (f_equal (@rev Z)) in E. rewrite !rev_app_distr in E. cbn in E. done.
Qed.

Lemma meta_path_not_temp p n : ~ is_temp (p ++ bs "/data/" ++ n ++ FDFS_STORAGE_META_FILE_EXT).
Proof. rewrite !app_assoc. apply meta_not_temp. Qed.

Lemma validated_no_slash b : fdfs_validate_filename b = 0 -> 47 ∉ b.
Proof.
  unfold fdfs_validate_filename. destruct (forallb _ _) eqn:E; [|done]. intros _ Hin.
  rewrite forallb_forall in E. specialize (E 47). by specialize (E ltac:(by apply list_elem_of_In)).
Qed.

(** ** The name of a master, as it is kept for the end of an upload. *)
Definition master_ok (m : bytes) : Prop := forall len name i,
  storage_split_filename_ex (paths conf) m (Z.of_nat (length m)) = inr (len, name, i) -> plain_name (cstr name).

Lemma master_checked raw n len name i : Z.of_nat (length raw) <= n ->
  storage_split_filename_ex (paths conf) raw n = inr (len, name, i) -> fdfs_check_data_filename name len = 0 -> master_ok (cstr raw).
Proof.
  intros Hn E Hc len' name' i' E'. apply checked_plain in Hc.
  unfold storage_split_filename_ex, SPLIT_FILENAME_BODY in E, E'.
  destruct (n <=? _); [done|]. destruct (Z.leb_spec (Z.of_nat (length (cstr raw))) FDFS_LOGIC_FILE_PATH_LEN) as [|Hl]; [done|].
  unfold FDFS_LOGIC_FILE_PATH_LEN in Hl. pose proof (cstr_lookup 0 raw ltac:(lia)) as E0. change (Z.of_nat 0) with 0 in E0. rewrite E0 in E'.
  pose proof (cstr_short raw). destruct (negb (znth 0 raw 0 =? _)).
  - injection E as <- <- <-. injection E' as <- <- <-. rewrite take_ge in Hc by lia. rewrite take_ge by lia. by rewrite cstr_idem.
  - destruct (negb _); [done|]. destruct (negb _); [done|].
    destruct (strtol 16 (cstr [znth 0 raw 1; _])) as [v e]. destruct (strtol 16 (cstr [znth 0 (cstr raw) 1; _])) as [v' e'].
    destruct (negb _); [done|]. destruct (negb _); [done|]. destruct (_ && _); [done|]. destruct (_ && _); [done|].
    injection E as <- <- <-. injection E' as <- <- <-.
    rewrite take_ge in Hc by (rewrite length_drop; lia). rewrite take_ge by (rewrite length_drop; lia).
    rewrite <- cstr_drop by lia. rewrite cstr_idem. rewrite cstr_drop in Hc by lia. by rewrite cstr_drop by lia.
Qed.

(** What the names of an upload satisfy from request to request. *)
Definition names_ok (u : StorageUploadInfo) : Prop :=
  47 ∉ up_prefix_name u /\ 47 ∉ up_file_ext_name u /\ master_ok (up_master_filename u).

Lemma master_ok_nil : master_ok [].
Proof. by intros len name i. Qed.

End names.
