(* ===== verification/StorageSafe.v ===== *)
(** * What a request leaves alone.

    Whatever a handler or a disk thread does for one connection, and whatever
    fails, the temporary files of the other connections stay. *)

From S2P Require Import Prelude FastCommon TrunkShared SharedFunc StorePath TrunkMem StorageIds TrackerTypes FileSys SyncBinlog Net SyncReader SyncPeer DataFiles StorageTask StorageDio StorageSyncIn StorageUpload StorageClient StorageLink StorageServe DataInv StorageNames.

Local Open Scope c_scope.

Definition fs_of (s : Serving) : DataFs := s_files (s_service s).
Definition fc_of (s : Serving) : StorageFileContext := ci_file_context (s_task s).

(** What a step may touch: the files of [rg_theirs] are those of other
    connections, from the state [rg_start] on; [rg_may] are the names the step may
    use, [rg_keep] the temporary names that an open file may have, and numbers
    from [rg_seq] on are new, in a server with the settings [rg_conf]. *)
Record Region := mkRegion {
  rg_start : DataFs;
  rg_theirs : bytes -> nat -> Prop;
  rg_may : bytes -> Prop;
  rg_keep : bytes -> Prop;
  rg_seq : Z;
  rg_conf : StorageConf;
}.

Class RegionOk (r : Region) : Prop := {
  region_apart n i : rg_may r n -> ~ rg_theirs r n i;
  region_temp n i : rg_theirs r n i -> is_temp n;
  region_plain n : ~ is_temp n -> rg_may r n;
}.

(** Files may be opened by the name the task holds. *)
Definition can_open (r : Region) : Prop := forall n, rg_may r n -> is_temp n -> rg_keep r n.

(** New temporary names may be taken. *)
Definition can_take (r : Region) : Prop := 0 <= rg_seq r /\ forall p q, rg_seq r <= q -> rg_may r (temp_name p q).

Create HintDb sound.

Section sound.
Context (r : Region) {ok : RegionOk r}.

Abbreviation Invr := (Inv (rg_start r) (rg_theirs r)).
Abbreviation miner := (mine (rg_theirs r) (rg_keep r)).
Abbreviation safelyr := (safely (rg_start r) (rg_theirs r) (rg_keep r)).

Lemma region_may_temp m n i : rg_may r m -> rg_theirs r n i -> is_temp m \/ is_temp n.
Proof. intros _ Hn. right. by eapply region_temp. Qed.
Lemma region_follow m n : rg_may r m -> ~ is_temp m -> ~ is_temp n -> rg_may r n.
Proof. intros _ _ Hn. by apply region_plain. Qed.

Record Sound (s : Serving) : Prop := {
  so_files : Invr (fs_of s);
  so_fd fd : fc_fd (fc_of s) = Some fd -> miner (of_inode fd) (fs_of s);
  so_name : rg_may r (fc_filename (fc_of s));
  so_seq : rg_seq r <= s_temp_file_sequence (s_service s);
  so_bound p q : 0 <= q -> fc_filename (fc_of s) = temp_name p q -> q < s_temp_file_sequence (s_service s);
  so_names : names_ok (rg_conf r) (fc_upload (fc_of s));
}.

Definition sound {A} (c : M Serving A) : Prop := forall s, Sound s -> Sound (c s).2.

Lemma sound_ret {A} (a : A) : sound (ret a).
Proof. by intros s I. Qed.

Lemma sound_bind {A B} (c : M Serving A) (k : A -> M Serving B) : sound c -> (forall a, sound (k a)) -> sound (bind c k).
Proof. intros Hc Hk s I. rewrite bind_run. by apply Hk, Hc. Qed.

Lemma sound_gets {A} (f : Serving -> A) : sound (gets f).
Proof. by intros s I. Qed.

Lemma sound_the_task {A B} (f : Task -> A) (k : A -> M Serving B) :
  (forall t, rg_may r (fc_filename (ci_file_context t)) -> sound (k (f t))) -> sound (bind (the_task f) k).
Proof. intros Hk s I. rewrite bind_run. apply Hk; [apply (so_name s I)|done]. Qed.

Lemma sound_the_file {A B} (f : StorageFileContext -> A) (k : A -> M Serving B) :
  (forall c, rg_may r (fc_filename c) -> sound (k (f c))) -> sound (bind (the_file f) k).
Proof. intros Hk. apply sound_the_task. intros t Ht. by apply (Hk (ci_file_context t)). Qed.

Lemma sound_service f : (forall x, s_files (f x) = s_files x /\ (s_temp_file_sequence x <= s_temp_file_sequence (f x))) -> sound (service f).
Proof.
  intros Hf s [I1 I2 I3 I4 I5 I6]. destruct (Hf (s_service s)) as [E1 E2].
  split; unfold fs_of, fc_of in *; cbn; rewrite ?E1; auto; [lia|].
  intros p q Hq E. specialize (I5 p q Hq E). lia.
Qed.

Lemma sound_task f :
  (forall t, let c := ci_file_context (f t) in let c0 := ci_file_context t in
     (fc_fd c = fc_fd c0 \/ fc_fd c = None) /\ (fc_filename c = fc_filename c0 \/ ~ is_temp (fc_filename c)) /\
     (fc_upload c = fc_upload c0 \/ fc_upload c = no_upload)) -> sound (task f).
Proof.
  intros Hf s [I1 I2 I3 I4 I5 I6]. destruct (Hf (s_task s)) as (E1 & E2 & E3).
  split; unfold fs_of, fc_of in *; cbn; [done| | |done| |].
  - intros fd Hfd. destruct E1 as [E1|E1]; rewrite E1 in Hfd; [auto|done].
  - destruct E2 as [->|E2]; [done|]. by apply region_plain.
  - intros p q Hq E. destruct E2 as [E2|E2]; [rewrite E2 in E; eauto|]. destruct E2. by exists p, q.
  - destruct E3 as [-> | ->]; [done|]. split; [by apply not_elem_of_nil|]. split; [by apply not_elem_of_nil|]. apply master_ok_nil.
Qed.

Lemma sound_file f :
  (forall c, (fc_fd (f c) = fc_fd c \/ fc_fd (f c) = None) /\ (fc_filename (f c) = fc_filename c \/ ~ is_temp (fc_filename (f c))) /\
     (fc_upload (f c) = fc_upload c \/ fc_upload (f c) = no_upload)) -> sound (file f).
Proof. intros Hf. apply sound_task. intros t. apply Hf. Qed.

Lemma sound_upload f : (forall u, names_ok (rg_conf r) u -> names_ok (rg_conf r) (f u)) -> sound (upload f).
Proof. intros Hf s [I1 I2 I3 I4 I5 I6]. split; try done. by apply Hf. Qed.

Lemma sound_files {A} (c : M DataFs A) Q : safelyr (fun _ => True) c Q -> sound (files c).
Proof.
  intros Hc s [I1 I2 I3 I4 I5 I6]. unfold files. destruct (Hc (fs_of s) I1 Logic.I) as (I' & Hm & _). unfold fs_of, fc_of in *.
  destruct (c (s_files (s_service s))) as [a x]. split; unfold fs_of, fc_of; cbn in *; [done| |done..].
  auto.
Qed.

Lemma sound_binlog {A} (c : M SyncState A) : sound (binlog c).
Proof. intros s [I1 I2 I3 I4 I5 I6]. unfold binlog. destruct (c _) as [a x]. by split. Qed.

Lemma sound_next_errno : sound next_errno.
Proof. intros s [I1 I2 I3 I4 I5 I6]. unfold next_errno. destruct (s_errnos (s_service s)); by split. Qed.

Lemma sound_count name n : sound (count name n).
Proof. apply sound_service. intros x. cbn. split; [done|lia]. Qed.

Lemma sound_set_counter name n : sound (set_counter name n).
Proof. apply sound_service. intros x. cbn. split; [done|lia]. Qed.

(** A value that is kept in the task: the descriptor. *)
Lemma sound_with_fd {A} (bad : A) (k : OpenFile -> M Serving A) :
  (forall fd s, Sound s -> fc_fd (fc_of s) = Some fd -> miner (of_inode fd) (fs_of s) -> Sound (k fd s).2) ->
  sound (with_fd bad k).
Proof.
  intros Hk s I. unfold with_fd. rewrite bind_run. cbn. destruct (fc_fd _) as [fd|] eqn:E; [|done].
  by apply (Hk fd s I E), (so_fd s I).
Qed.

(** A call of the file system, and what is made of its result. *)
Lemma files_bind {A B} (c : M DataFs A) (k : A -> M Serving B) P Q s :
  safelyr P c Q -> Sound s -> P (fs_of s) ->
  (forall a s', Sound s' -> Q a (fs_of s') -> Sound (k a s').2) -> Sound (bind (files c) k s).2.
Proof.
  intros Hc [I1 I2 I3 I4 I5 I6] HP Hk. rewrite bind_run. unfold files. destruct (Hc (fs_of s) I1 HP) as (I' & Hm & HQ). unfold fs_of, fc_of in *.
  destruct (c (s_files (s_service s))) as [a x]. apply Hk; [|done]. split; unfold fs_of, fc_of; cbn in *; [done| |done..].
  auto.
Qed.

Lemma Sound_set_fd s fd : Sound s -> miner (of_inode fd) (fs_of s) ->
  Sound (set_task (set_ci_file_context (set_fc_fd (Some fd) (ci_file_context (s_task s))) (s_task s)) s).
Proof. intros [I1 I2 I3 I4 I5 I6] Hm. split; try done. cbn. by intros fd' [= <-]. Qed.

Lemma sound_fd_seek off : sound (fd_seek off).
Proof.
  apply sound_with_fd. intros fd s I E Hm.
  eapply files_bind; [apply safely_seek|done..|]. intros [e|fd'] s' I' HQ; [done|].
  destruct (HQ fd' eq_refl) as [Ei Hm']. apply Sound_set_fd; [done..|]. by rewrite Ei.
Qed.

Lemma sound_fd_write b : sound (fd_write b).
Proof.
  apply sound_with_fd. intros fd s I E Hm.
  eapply files_bind; [apply safely_write|done..|]. intros w s' I' [Ei Hm']. apply Sound_set_fd; [done..|]. by rewrite Ei.
Qed.

Lemma sound_fd_get n : sound (fd_get n).
Proof.
  apply sound_with_fd. intros fd s I E Hm.
  eapply files_bind; [apply safely_read|done..|]. intros [e|[b fd']] s' I' HQ; [done|].
  destruct (HQ b fd' eq_refl) as [Ei Hm']. apply Sound_set_fd; [done..|]. by rewrite Ei.
Qed.

Lemma files_end {A} (c : M DataFs A) P Q s : safelyr P c Q -> Sound s -> P (fs_of s) -> Sound (files c s).2.
Proof.
  intros Hc [I1 I2 I3 I4 I5 I6] HP. unfold files. destruct (Hc (fs_of s) I1 HP) as (I' & Hm & _). unfold fs_of, fc_of in *.
  destruct (c (s_files (s_service s))) as [a x]. split; unfold fs_of, fc_of; cbn in *; [done| |done..].
  auto.
Qed.

Lemma sound_fd_truncate n : sound (fd_truncate n).
Proof. apply sound_with_fd. intros fd s I E Hm. by eapply files_end; [apply safely_ftruncate|..]. Qed.

Lemma sound_close_fd : sound close_fd.
Proof. apply sound_file. intros c. cbn. auto. Qed.

Lemma sound_if {A} (b : bool) (c c' : M Serving A) : sound c -> sound c' -> sound (if b then c else c').
Proof. by destruct b. Qed.

Lemma sound_decide {A} P `{Decision P} (c c' : M Serving A) : sound c -> sound c' -> sound (if decide P then c else c').
Proof. by destruct (decide P). Qed.


Lemma sound_rand : sound rand.
Proof. intros s [I1 I2 I3 I4 I5 I6]. unfold rand. destruct (s_rands (s_service s)); by split. Qed.

Lemma sound_dist {A} (c : M DistState A) : sound (dist c).
Proof. intros s [I1 I2 I3 I4 I5 I6]. unfold dist. destruct (c _); by split. Qed.

Lemma sound_trunk_answer : sound trunk_answer.
Proof. intros s [I1 I2 I3 I4 I5 I6]. unfold trunk_answer. destruct (s_trunk_answers (s_service s)); by split. Qed.

(** The system calls on names. *)
Lemma sound_unlink n : rg_may r n -> sound (files (data_unlink n)).
Proof. intros Hn. eapply sound_files, safely_unlink; eauto using region_apart. Qed.

Lemma sound_rename old new : rg_may r old -> ~ is_temp new -> sound (files (data_rename old new)).
Proof. intros Ho Hn. eapply sound_files, safely_rename; eauto using region_apart, region_plain. Qed.

Lemma sound_symlink target name : ~ is_temp name -> ~ is_temp target -> sound (files (data_symlink target name)).
Proof. intros Hn Ht. eapply sound_files, safely_symlink; eauto using region_apart, region_plain. Qed.

Lemma sound_utimes_of name t : rg_may r name -> sound (files (data_utimes name t)).
Proof. intros Hn. eapply sound_files, safely_utimes; eauto using region_apart, region_may_temp, region_follow. Qed.

Lemma sound_put_file name b : rg_may r name -> sound (files (data_put_file name b)).
Proof. intros Hn. eapply sound_files, safely_put_file; eauto using region_apart, region_may_temp, region_follow, region_plain. Qed.

Lemma sound_get_file name : rg_may r name -> sound (files (data_get_file name)).
Proof. intros Hn. eapply sound_files, safely_get_file; eauto using region_apart, region_may_temp, region_follow, region_plain. Qed.

(** A result that the rest relies on. *)
Definition sound_giving {A} (c : M Serving A) (Q : A -> Prop) : Prop := forall s, Sound s -> Sound (c s).2 /\ Q (c s).1.

Lemma giving_bind {A B} (c : M Serving A) (k : A -> M Serving B) (Q : A -> Prop) :
  sound_giving c Q -> (forall a, Q a -> sound (k a)) -> sound (bind c k).
Proof. intros Hc Hk s I. rewrite bind_run. destruct (Hc s I) as [I' HQ]. by apply Hk. Qed.

Lemma giving_then {A B} (c : M Serving A) (k : A -> M Serving B) (Q : A -> Prop) (R : B -> Prop) :
  sound_giving c Q -> (forall a, Q a -> sound_giving (k a) R) -> sound_giving (bind c k) R.
Proof. intros Hc Hk s I. rewrite bind_run. destruct (Hc s I) as [I' HQ]. by apply Hk. Qed.

Lemma giving_ret {A} (a : A) (Q : A -> Prop) : Q a -> sound_giving (ret a) Q.
Proof. by intros HQ s I. Qed.

Lemma giving_any {A} (c : M Serving A) : sound c -> sound_giving c (fun _ => True).
Proof. intros Hc s I. split; [by apply Hc|done]. Qed.

Lemma giving_if {A} (b : bool) (c c' : M Serving A) (Q : A -> Prop) : sound_giving c Q -> sound_giving c' Q -> sound_giving (if b then c else c') Q.
Proof. by destruct b. Qed.

(** What a link leads to is no temporary file. *)
Lemma giving_readlink name size : sound_giving (files (data_readlink name size))
  (fun x => forall b, x = inr b -> Z.of_nat (length b) < size -> ~ is_temp b).
Proof.
  intros s I. split; [by eapply sound_files; [apply safely_readlink|]|]. destruct I as [I1 _ _ _ _ _]. unfold files.
  destruct (safely_readlink (rg_start r) (rg_theirs r) (rg_keep r) name size (fs_of s) I1 Logic.I) as (_ & _ & HQ). unfold fs_of in HQ.
  by destruct (data_readlink name size (s_files (s_service s))).
Qed.

(** [open], and what is made of the descriptor. *)
Lemma open_bind {B} n flags (k : Z + OpenFile -> M Serving B) s : rg_may r n -> (is_temp n -> rg_keep r n) -> Sound s ->
  (forall x s', Sound s' -> (forall fd, x = inr fd -> miner (of_inode fd) (fs_of s')) -> Sound (k x s').2) ->
  Sound (bind (files (data_open n flags)) k s).2.
Proof.
  intros Hn Hk Hs Hc. apply files_bind with (P := fun _ => True) (Q := fun x s' => forall fd, x = inr fd -> miner (of_inode fd) s'); [|done..].
  apply safely_open with (may := rg_may r); eauto using region_apart, region_may_temp, region_follow.
Qed.

Lemma open_excl_bind {B} n (k : Z + OpenFile -> M Serving B) s : rg_may r n -> (is_temp n -> rg_keep r n) -> Sound s ->
  (forall x s', Sound s' -> (forall fd, x = inr fd -> miner (of_inode fd) (fs_of s')) -> Sound (k x s').2) ->
  Sound (bind (files (data_open_excl n)) k s).2.
Proof.
  intros Hn Hk Hs Hc. apply files_bind with (P := fun _ => True) (Q := fun x s' => forall fd, x = inr fd -> miner (of_inode fd) s'); [|done..].
  apply safely_open_excl with (may := rg_may r); eauto using region_apart.
Qed.

End sound.

(** One step of the proof that a piece of code is sound. *)
Ltac sound_step :=
  lazymatch goal with
  | |- sound _ (bind (the_file _) _) => apply sound_the_file; intros ? ?
  | |- sound _ (bind (the_task _) _) => apply sound_the_task; intros ? ?
  | |- sound _ (bind (storage_get_filename _ _ _ _ _) _) => fail
  | |- sound _ (bind (files (data_readlink _ _)) _) => fail
  | |- sound _ (bind _ _) => apply sound_bind; [|intros ?]
  | |- sound _ (ret _) => apply sound_ret
  | |- sound _ (gets _) => apply sound_gets
  | |- sound _ (the_task _) => apply sound_gets
  | |- sound _ (the_file _) => apply sound_gets
  | |- sound _ now => apply sound_gets
  | |- sound _ rand => apply sound_rand
  | |- sound _ (dist _) => apply sound_dist
  | |- sound _ trunk_answer => apply sound_trunk_answer
  | |- sound _ (binlog _) => apply sound_binlog
  | |- sound _ next_errno => apply sound_next_errno
  | |- sound _ (count _ _) => apply sound_count
  | |- sound _ (set_counter _ _) => apply sound_set_counter
  | |- sound _ (upload _) => apply sound_upload; intros ? (? & ? & ?); repeat case_match; (split; [|split]); cbn; by auto
  | |- sound _ close_fd => apply sound_close_fd; apply _
  | |- sound _ (fd_seek _) => apply sound_fd_seek
  | |- sound _ (fd_write _) => apply sound_fd_write
  | |- sound _ (fd_get _) => apply sound_fd_get
  | |- sound _ (fd_truncate _) => apply sound_fd_truncate
  | |- sound _ (file _) => apply sound_file; [apply _|]; intros ?; repeat case_match; cbn; by eauto 6 using empty_not_temp
  | |- sound _ (task _) => apply sound_task; [apply _|]; intros ?; repeat case_match; cbn; by eauto 6 using empty_not_temp
  | |- sound _ (service _) => apply sound_service; intros ?; cbn; (split; [done|lia])
  | |- sound _ (files (data_stat _)) => eapply sound_files, safely_stat; by eauto
  | |- sound _ (files (data_lstat _)) => eapply sound_files, safely_lstat
  | |- sound _ (files (data_access _)) => eapply sound_files, safely_access
  | |- sound _ (files data_view) => eapply sound_files, safely_view; done
  | |- sound _ (files (data_unlink _)) => apply sound_unlink; solve [auto using region_plain]
  | |- sound _ (if decide _ then _ else _) => apply sound_decide
  | |- sound _ (if ?b then _ else _) => first [apply sound_if | destruct b]
  | |- sound _ (match ?x with _ => _ end) => destruct x eqn:?
  | |- sound _ (let '(_, _) := ?x in _) => destruct x
  end.

Ltac sounds := repeat (sound_step || (progress cbn beta iota zeta)); try done; eauto with sound.

Section common.
Context (r : Region) {ok : RegionOk r}.
Abbreviation sound := (sound r).
Abbreviation Sound := (Sound r).
Abbreviation miner := (mine (rg_theirs r) (rg_keep r)).
Abbreviation safelyr := (safely (rg_start r) (rg_theirs r) (rg_keep r)).

Lemma sound_move p : sound (move p).
Proof. unfold move. sounds. Qed.
#[local] Hint Resolve sound_move : sound.

Lemma sound_notify : sound storage_nio_notify.
Proof. apply sound_bind; [apply sound_move|]. intros. apply sound_ret. Qed.
#[local] Hint Resolve sound_notify : sound.

Lemma sound_push : sound storage_dio_queue_push.
Proof. unfold storage_dio_queue_push. sounds. Qed.
#[local] Hint Resolve sound_push : sound.

Lemma sound_stat_file : sound CHECK_AND_WRITE_TO_STAT_FILE1.
Proof.
  unfold CHECK_AND_WRITE_TO_STAT_FILE1. apply sound_bind; [|intros _; sounds].
  intros s [I1 I2 I3 I4 I5 I6]. cbn. split; unfold fs_of, fc_of in *; cbn; destruct (ci_pSrcStorage (s_task s)); cbn; done.
Qed.
#[local] Hint Resolve sound_stat_file : sound.

Lemma sound_stat_bytes a b n : sound (CHECK_AND_WRITE_TO_STAT_FILE1_WITH_BYTES a b n).
Proof. apply sound_bind; [apply sound_stat_file|]. intros. sounds. Qed.
#[local] Hint Resolve sound_stat_bytes : sound.

Lemma sound_stat_file2 a b : sound (CHECK_AND_WRITE_TO_STAT_FILE2 a b).
Proof. unfold CHECK_AND_WRITE_TO_STAT_FILE2. sounds. Qed.
#[local] Hint Resolve sound_stat_file2 : sound.

Lemma sound_stat_file2_bytes a b c d n : sound (CHECK_AND_WRITE_TO_STAT_FILE2_WITH_BYTES a b c d n).
Proof. unfold CHECK_AND_WRITE_TO_STAT_FILE2_WITH_BYTES. sounds. Qed.

Lemma sound_stat_file3 a b : sound (CHECK_AND_WRITE_TO_STAT_FILE3 a b).
Proof. unfold CHECK_AND_WRITE_TO_STAT_FILE3. sounds. Qed.
#[local] Hint Resolve sound_stat_file3 : sound.

Lemma sound_stat_file3_bytes a b c d n : sound (CHECK_AND_WRITE_TO_STAT_FILE3_WITH_BYTES a b c d n).
Proof. unfold CHECK_AND_WRITE_TO_STAT_FILE3_WITH_BYTES. sounds. Qed.

Lemma sound_overrun : sound overrun.
Proof. unfold overrun. sounds. Qed.

Section conf.
Context `{FastCommon} (CRC32 : bytes -> Z -> Z) (conf : StorageConf).

Lemma sound_put_header e : sound (put_header e).
Proof. unfold put_header. sounds. Qed.
#[local] Hint Resolve sound_put_header : sound.

Lemma sound_notify_answer x : sound (notify_answer x).
Proof. unfold notify_answer. sounds. Qed.
#[local] Hint Resolve sound_notify_answer : sound.

Lemma sound_choose_dio_thread i : sound (choose_dio_thread conf i).
Proof. unfold choose_dio_thread. sounds. Qed.
#[local] Hint Resolve sound_choose_dio_thread : sound.

Lemma sound_lstat i n l t h : sound (trunk_file_lstat conf i n l t h).
Proof. unfold trunk_file_lstat. sounds. Qed.
#[local] Hint Resolve sound_lstat : sound.

(** ** The clean up. *)
Lemma sound_if_open k : (forall c, rg_may r (fc_filename c) -> sound (k c)) -> sound (if_open k).
Proof. intros Hk. unfold if_open. apply sound_the_file. intros c Hc. unfold id. destruct (fc_fd c); [by apply Hk|apply sound_ret]. Qed.

Lemma safely_zero_loop fuel fd n :
  safelyr (free (rg_theirs r) (of_inode fd)) (data_zero_loop conf fuel fd n) (fun _ _ => True).
Proof.
  revert fd n. induction fuel as [|fuel IH]; intros fd n; cbn [data_zero_loop]; [by apply safely_ret|].
  apply safely_if; [by apply safely_ret|]. eapply safely_bind; [apply safely_write_free; done|]. intros w. cbn.
  case_decide; [by apply safely_ret|]. eapply safely_weaken; [apply IH| |done]. intros s _ [-> Hm]. done.
Qed.

(** A space of a trunk file is cleared. *)
Lemma safely_trunk_delete n t : rg_may r n -> safelyr (fun _ => True) (data_trunk_file_delete conf n t) (fun _ _ => True).
Proof.
  intros Hn. eapply safely_bind; [apply safely_open_free with (may := rg_may r); eauto using region_apart, region_may_temp, region_follow|].
  intros [e|fd]; [by apply safely_ret|]. eapply safely_bind.
  { eapply safely_weaken; [apply safely_seek_free; done| |by intros ? ? ? HQ; exact HQ]. intros s _ HQ. by apply HQ. }
  intros [e|fd']; [by apply safely_ret|]. eapply safely_weaken; [apply safely_zero_loop| |done].
  intros s _ HQ. destruct (HQ fd' eq_refl) as [-> Hm]. done.
Qed.

Lemma sound_trunk_delete n t : rg_may r n -> sound (files (data_trunk_file_delete conf n t)).
Proof. intros Hn. by eapply sound_files, safely_trunk_delete. Qed.
#[local] Hint Resolve sound_trunk_delete : sound.

Lemma sound_clean_func : sound (clean_func conf).
Proof.
  unfold clean_func. sounds. unfold run_clean_func, dio_read_finish_clean_up, dio_write_finish_clean_up, dio_append_finish_clean_up,
    dio_modify_finish_clean_up, dio_trunk_write_finish_clean_up.
  destruct c; try (by apply sound_close_fd); apply sound_if_open; intros c Hc; sounds.
Qed.
#[local] Hint Resolve sound_clean_func : sound.

Lemma sound_finish : sound (task_finish_clean_up conf).
Proof. unfold task_finish_clean_up. sounds. Qed.
#[local] Hint Resolve sound_finish : sound.

(** ** The network side. *)
Lemma sound_client_sock_write : sound (client_sock_write conf).
Proof. unfold client_sock_write. sounds. Qed.
#[local] Hint Resolve sound_client_sock_write : sound.

Lemma sound_send : sound (storage_send_add_event conf).
Proof. unfold storage_send_add_event. sounds. Qed.
#[local] Hint Resolve sound_send : sound.

Lemma sound_answer x : sound (answer conf x).
Proof. unfold answer. sounds. Qed.

Lemma sound_notify_read : sound (storage_recv_notify_read conf).
Proof. unfold storage_recv_notify_read. sounds. Qed.

(** ** What the handlers share. *)
Lemma sound_write_to_file a b c d e f g : sound (storage_write_to_file conf a b c d e f g).
Proof. unfold storage_write_to_file. sounds. Qed.

Lemma sound_do_delete_file a b : sound (storage_do_delete_file conf a b).
Proof. unfold storage_do_delete_file. sounds. Qed.

Lemma sound_storage_binlog a b c : sound (storage_binlog conf a b c).
Proof. unfold storage_binlog. sounds. Qed.
#[local] Hint Resolve sound_storage_binlog : sound.

Lemma sound_log_file : sound (log_file conf).
Proof. unfold log_file. sounds. Qed.

Lemma sound_count_failed x : sound (count_failed_bytes x).
Proof. unfold count_failed_bytes. sounds. Qed.

Lemma sound_stat_sync_in : sound stat_sync_in.
Proof. unfold stat_sync_in. sounds. Qed.

Lemma sound_set_timestamp t p : sound (set_timestamp t p).
Proof. unfold set_timestamp. sounds. Qed.

Lemma sound_no_callbacks : sound no_callbacks.
Proof. unfold no_callbacks. sounds. Qed.

Lemma sound_local_file n l : short_paths (paths conf) -> sound (local_file conf n l).
Proof.
  intros Hp. unfold local_file. destruct (storage_logic_to_local_full_filename _ _ _ _) as [e|[i full]] eqn:E; [apply sound_ret|].
  apply local_not_temp in E; [|done..]. sounds.
Qed.

Lemma sound_utimes : sound set_file_utimes.
Proof. unfold set_file_utimes. sounds. by apply sound_utimes_of. Qed.

End conf.

(** ** Opening a file and writing to it. *)
Section disk.
Context `{FastCommon} (CRC32 : bytes -> Z -> Z) (conf : StorageConf) (can : can_open r).

Lemma sound_open n flags : rg_may r n -> sound (
  let! fd := files (data_open n flags) in
  count (bs "total_file_open_count") 1 ;;
  match fd with
  | inl e => ret (errno_or e EACCES)
  | inr fd => count (bs "success_file_open_count") 1 ;; file (set_fc_fd (Some fd)) ;; ret 0
  end).
Proof.
  intros Hn s I. eapply open_bind; [done..|by auto|done|]. intros x s' I' HQ. rewrite bind_run.
  assert (Sound (count (bs "total_file_open_count") 1 s').2) as I1 by (by apply sound_count).
  destruct x as [e|fd]; [done|]. rewrite bind_run, bind_snd. cbn [ret snd]. apply (Sound_set_fd r (count _ 1 _).2); [by apply sound_count|].
  by apply HQ.
Qed.

Lemma sound_dio_open_file : sound dio_open_file.
Proof.
  unfold dio_open_file. apply sound_the_file. intros c Hc. apply sound_bind; [|intros; sounds].
  unfold id. destruct (fc_fd c); [apply sound_ret|]. by apply sound_open.
Qed.
#[local] Hint Resolve sound_dio_open_file : sound.

Lemma sound_open_and_truncate n flags size : rg_may r n -> sound (
  let! fd := files (data_open n flags) in
  match fd with inl e => ret (errno_or e EIO) | inr fd => files (data_ftruncate fd size) end).
Proof.
  intros Hn s I. eapply open_bind; [done..|by auto|done|]. intros [e|fd] s' I' HQ; [done|].
  eapply files_end; [apply safely_ftruncate; done|done|by apply HQ].
Qed.

Lemma sound_wait n size : sound (data_trunk_wait_file_ready n size).
Proof. unfold data_trunk_wait_file_ready. sounds. Qed.
#[local] Hint Resolve sound_wait : sound.

Lemma sound_init n size : rg_may r n -> sound (data_trunk_init_file n size).
Proof.
  intros Hn s I. eapply open_excl_bind; [done..|by auto|done|]. intros [e|fd] s' I' HQ.
  - destruct (errno_or e EEXIST =? EEXIST); [by apply sound_wait|done].
  - rewrite bind_snd. eapply files_end; [apply safely_ftruncate; done|done|by apply HQ].
Qed.

Lemma sound_check_and_init n : rg_may r n -> sound (data_trunk_check_and_init_file conf n).
Proof.
  intros Hn. unfold data_trunk_check_and_init_file. cbv zeta. sound_step; [sounds|]. apply sound_if; [apply sound_ret|].
  apply sound_if; [by apply sound_init|]. apply sound_if; [apply sound_ret|].
  sound_step; [sounds|]. destruct a0; [apply sound_ret|]. by apply sound_open_and_truncate.
Qed.
#[local] Hint Resolve sound_check_and_init : sound.

Lemma sound_before_open : sound (before_open_callback conf).
Proof.
  unfold before_open_callback, dio_check_trunk_file_when_upload, dio_check_trunk_file_when_sync, check_slot. sounds.
Qed.
#[local] Hint Resolve sound_before_open : sound.

Lemma sound_before_close : sound before_close_callback.
Proof. unfold before_close_callback, dio_write_chunk_header. sounds. Qed.

Lemma sound_open_for_write : sound (open_for_write conf).
Proof. unfold open_for_write. sounds. Qed.

Lemma sound_continue : sound continue_callback.
Proof. unfold continue_callback. sounds. Qed.

End disk.
End common.

#[export] Hint Resolve sound_move sound_notify sound_push sound_stat_file sound_stat_bytes sound_stat_file2 sound_stat_file2_bytes
  sound_stat_file3 sound_stat_file3_bytes sound_overrun sound_put_header sound_notify_answer sound_choose_dio_thread sound_lstat
  sound_trunk_delete sound_clean_func sound_finish sound_client_sock_write sound_send sound_answer sound_notify_read
  sound_write_to_file sound_do_delete_file sound_storage_binlog sound_log_file sound_count_failed sound_stat_sync_in
  sound_set_timestamp sound_no_callbacks sound_local_file sound_utimes sound_dio_open_file sound_before_open sound_before_close
  sound_open_for_write sound_continue : sound.
