(* ===== verification/StorageSafeClient.v ===== *)
(** * What a request leaves alone.

    The handlers of [StorageSyncIn], [StorageUpload] and [StorageClient], and
    their callbacks. *)

From S2P Require Import Prelude FastCommon TrunkShared SharedFunc StorePath TrunkMem StorageIds TrackerTypes TrackerFetch FileSys SyncBinlog Net SyncReader SyncPeer DataFiles StorageTask StorageDio StorageSyncIn StorageUpload StorageClient StorageLink StorageServe DataInv StorageNames StorageSafe.

Local Open Scope c_scope.

Section safe.
Context (r : Region) {ok : RegionOk r}.
Context `{FastCommon} (conf : StorageConf) (short : short_paths (paths conf)).
Abbreviation sound := (sound r).
Abbreviation Sound := (Sound r).

(** ** The callbacks. *)
Lemma sound_rename_temp : sound (storage_sync_copy_file_rename_filename conf).
Proof.
  unfold storage_sync_copy_file_rename_filename. apply sound_the_file. intros c Hc. unfold id.
  destruct (storage_logic_to_local_full_filename _ _ _ _) as [e|[i full]] eqn:E; [apply sound_ret|].
  apply local_not_temp in E; [|done|done]. sound_step; [|sounds]. by apply sound_rename.
Qed.
#[local] Hint Resolve sound_rename_temp : sound.

Lemma sound_sync_delete_done x : sound (storage_sync_delete_file_done_callback conf x).
Proof. unfold storage_sync_delete_file_done_callback. sounds. Qed.
Lemma sound_sync_truncate_done x : sound (storage_sync_truncate_file_done_callback conf x).
Proof. unfold storage_sync_truncate_file_done_callback. sounds. Qed.
Lemma sound_sync_copy_done x : sound (storage_sync_copy_file_done_callback conf x).
Proof. unfold storage_sync_copy_file_done_callback. sounds. Qed.
Lemma sound_sync_modify_done x : sound (storage_sync_modify_file_done_callback conf x).
Proof. unfold storage_sync_modify_file_done_callback. sounds. Qed.

(** ** A whole file. *)
Section temp.
Context (take : can_take r).

(** The next number is taken, and the name is the task's. *)
Lemma sound_next_seq {A} (name : Z -> bytes) (k : Z -> M Serving A) :
  (forall q, exists p, name q = temp_name p q) -> (forall q, rg_seq r <= q -> rg_may r (name q) -> sound (k q)) ->
  sound (bind (gets (fun s => s_temp_file_sequence (s_service s))) (fun seq =>
    service (set_s_temp_file_sequence (seq + 1)) ;; file (set_fc_filename (name seq)) ;; k seq)).
Proof.
  destruct take as [Hpos Hnew]. intros Hn Hk s [I1 I2 I3 I4 I5 I6]. rewrite !bind_run. cbn [gets fst snd]. unfold gets. cbn [fst snd].
  set (q := s_temp_file_sequence (s_service s)) in *. destruct (Hn q) as [p E].
  assert (rg_may r (name q)) as Hm by (rewrite E; auto). apply Hk; [done..|].
  split; unfold fs_of, fc_of in *; cbn; [done..|lia| |done].
  intros p' q' Hq'. rewrite E. intros Eq. apply temp_name_inj in Eq; lia.
Qed.

Lemma sound_make_temp count i : sound (make_temp_file conf count i).
Proof.
  induction count as [|count IH]; cbn [make_temp_file]; [apply sound_ret|]. cbv zeta.
  apply (sound_next_seq (fun seq => temp_name (path_of conf i) seq)); [eauto|]. intros q Hq Hm. fold (temp_name (path_of conf i) q).
  sounds.
Qed.
#[local] Hint Resolve sound_make_temp : sound.

Lemma sound_look_for_copy n l i size : sound (look_for_copy conf n l i size).
Proof. unfold look_for_copy. sounds. Qed.
#[local] Hint Resolve sound_look_for_copy : sound.

Lemma sound_place_for_copy h i : sound (place_for_copy conf h i).
Proof.
  unfold place_for_copy. sounds.
  apply sound_file; [done|]; intros c'; cbn; split_and!; [auto| |auto]. right. by apply trunk_file_not_temp.
Qed.
#[local] Hint Resolve sound_place_for_copy : sound.

Lemma sound_sync_copy_file cmd : sound (storage_sync_copy_file conf cmd).
Proof.
  pose proof (sound_sync_copy_done 0). unfold storage_sync_copy_file. sounds.
Qed.
End temp.

(** ** The other handlers. *)
Lemma sound_range_head b : sound (range_head conf b).
Proof. unfold range_head. sounds. Qed.

Lemma sound_discard_range : sound discard_range.
Proof. unfold discard_range. sounds. Qed.
#[local] Hint Resolve sound_range_head sound_discard_range : sound.

Lemma sound_sync_append_file : sound (storage_sync_append_file conf).
Proof. unfold storage_sync_append_file. sounds. Qed.

Lemma sound_sync_modify_file : sound (storage_sync_modify_file conf).
Proof. unfold storage_sync_modify_file. sounds. Qed.

Lemma sound_sync_truncate_file : sound (storage_sync_truncate_file conf).
Proof. unfold storage_sync_truncate_file. sounds. Qed.

Lemma sound_sync_delete_file : sound (storage_sync_delete_file conf).
Proof.
  unfold storage_sync_delete_file, put_buffer. apply sound_the_task. intros t _. cbv zeta. unfold id.
  sound_step; [sounds|]. do 2 (apply sound_if; [apply sound_ret|]). sound_step; [sounds|]. apply sound_if; [apply sound_ret|].
  sound_step; [sounds|]. destruct (storage_split_filename_ex _ _ _) as [e|[[len name] i]]; [apply sound_ret|].
  apply sound_if; [sounds|]. case_decide as Hc; [apply sound_ret|]. sounds.
  apply sound_file; [done|]. intros ?. cbn. split_and!; [auto| |auto]. right.
  destruct (IS_TRUNK_FILE_BY_ID _); [by apply trunk_file_not_temp|]. eapply data_file_not_temp.
  by destruct (decide (fdfs_check_data_filename name len = 0)).
Qed.

Lemma sound_sync_rename_file : sound (storage_sync_rename_file conf).
Proof.
  unfold storage_sync_rename_file. apply sound_the_task. intros t _. cbv zeta. unfold id.
  do 2 (apply sound_if; [apply sound_ret|]). sound_step; [sounds|]. do 2 (apply sound_if; [apply sound_ret|]).
  apply sound_if; [sounds|]. destruct (storage_logic_to_local_full_filename _ _ _ _) as [e|[i dest]] eqn:E1; [apply sound_ret|].
  sound_step; [sounds|]. apply sound_if; [apply sound_ret|].
  destruct (storage_logic_to_local_full_filename _ _ (int32 (long_in t 18)) _) as [e|[j src]] eqn:E2; [apply sound_ret|].
  apply local_not_temp in E1, E2; try done. sound_step; [|sounds]. apply sound_rename; [done|by apply region_plain|done].
Qed.

Lemma sound_sync_link_file : sound (storage_sync_link_file conf).
Proof. unfold storage_sync_link_file. sounds. Qed.

Lemma sound_report_id : sound storage_server_report_server_id.
Proof. unfold storage_server_report_server_id, put_buffer. sounds. Qed.

Lemma sound_active_test : sound storage_deal_active_test.
Proof. unfold storage_deal_active_test. sounds. Qed.

End safe.

#[export] Hint Resolve sound_sync_delete_done sound_sync_truncate_done sound_sync_copy_done sound_sync_modify_done sound_sync_copy_file
  sound_sync_append_file sound_sync_modify_file sound_sync_truncate_file sound_sync_delete_file sound_sync_rename_file
  sound_sync_link_file sound_report_id sound_active_test : sound.

Section safe.
Context (r : Region) {ok : RegionOk r}.
Context `{FastCommonLaws}.
Abbreviation conf := (rg_conf r).
Context (short : short_paths (paths conf)).
Abbreviation sound := (sound r).
Abbreviation Sound := (Sound r).
Abbreviation sound_giving := (sound_giving r).

(** ** Names. *)
Lemma sound_rands n : sound (rands n).
Proof. induction n as [|n IH]; cbn [rands]; sounds. Qed.
#[local] Hint Resolve sound_rands : sound.

Lemma sound_format_ext n : sound (storage_format_ext_name n).
Proof. unfold storage_format_ext_name. sounds. Qed.

Lemma sound_combine n : sound (COMBINE_RAND_FILE_SIZE n).
Proof. unfold COMBINE_RAND_FILE_SIZE. sounds. Qed.
#[local] Hint Resolve sound_format_ext sound_combine : sound.

Lemma giving_gen size crc ext t : sound_giving (storage_gen_filename conf size crc ext t) (gen_name conf).
Proof.
  unfold storage_gen_filename. eapply giving_then; [apply giving_any; sounds|]. intros masked _.
  eapply giving_then; [apply giving_any; sounds|]. intros b _. eapply giving_then; [apply giving_any; sounds|]. intros [] _.
  eapply giving_then; [apply giving_any; sounds|]. intros p _. apply giving_ret. exists p, t, masked, crc, (take 7 ext).
  split; [done|]. rewrite length_take. lia.
Qed.

Definition fresh_name (x : option (bytes * bytes)) : Prop := forall f full, x = Some (f, full) -> ~ is_temp full.

Lemma giving_try i t size crc ext index : sound_giving (try_names conf i t size crc ext index) fresh_name.
Proof.
  induction i as [|i IH]; cbn [try_names]; [by apply giving_ret|].
  eapply giving_then; [apply giving_gen|]. intros f Hf. cbv zeta. eapply giving_then; [apply giving_any; sounds|]. intros e _.
  case_decide; [|done]. apply giving_ret. intros f' full [= <- <-]. by eapply gen_name_not_temp.
Qed.

Lemma giving_get_filename t size crc ext : sound_giving (storage_get_filename conf t size crc ext) fresh_name.
Proof. unfold storage_get_filename. eapply giving_then; [apply giving_any; sounds|]. intros i _. apply giving_try. Qed.

(** A name was made up, or none was found. *)
Lemma sound_with_name {B} t size crc ext (k : option (bytes * bytes) -> M Serving B) :
  sound (k None) -> (forall f full, ~ is_temp full -> sound (k (Some (f, full)))) ->
  sound (bind (storage_get_filename conf t size crc ext) k).
Proof. intros Hn Hk. eapply giving_bind; [apply giving_get_filename|]. intros [[f full]|] Hf; [|done]. apply Hk. by eapply Hf. Qed.

Lemma sound_alloc : sound trunk_client_trunk_alloc_space.
Proof. unfold trunk_client_trunk_alloc_space. sounds. Qed.
Lemma sound_confirm e : sound (trunk_client_trunk_alloc_confirm e).
Proof. unfold trunk_client_trunk_alloc_confirm. sounds. Qed.
Lemma sound_free : sound trunk_client_trunk_free_space.
Proof. unfold trunk_client_trunk_free_space. sounds. Qed.
#[local] Hint Resolve sound_alloc sound_confirm sound_free : sound.

(** ** The end of an upload. *)
Lemma sound_delete_auto : sound (storage_delete_file_auto conf).
Proof. unfold storage_delete_file_auto. sounds. Qed.

Lemma sound_unlink_and n e : rg_may r n -> sound (unlink_and n e).
Proof. intros Hn. unfold unlink_and. sounds. Qed.

Lemma sound_time_and_size : sound (name_time_and_size conf).
Proof. unfold name_time_and_size. sounds. Qed.
#[local] Hint Resolve sound_delete_auto sound_unlink_and sound_time_and_size : sound.

(** The names of the upload are as they were left. *)
Lemma sound_the_upload {B} (k : StorageFileContext -> M Serving B) :
  (forall c, rg_may r (fc_filename c) -> names_ok conf (fc_upload c) -> sound (k c)) -> sound (bind (the_file id) k).
Proof. intros Hk s I. rewrite bind_run. apply Hk; [apply (so_name r s I)|apply (so_names r s I)|done]. Qed.

Lemma sound_name_slave a full : ~ is_temp full -> sound (name_slave_file conf a full).
Proof.
  intros Hf. unfold name_slave_file. apply sound_the_upload. intros c Hc (Hp & He & Hm). cbv zeta. unfold id.
  assert (rg_may r full) as Hfull by (by apply region_plain).
  destruct (storage_split_filename_ex _ _ _) as [e|[[len name] i]] eqn:E; [sounds|].
  destruct (fdfs_gen_slave_filename _ _ _) as [e|filename] eqn:Eg; [sounds|].
  pose proof (slave_name_plain _ _ _ _ (Hm _ _ _ E) Hp He Eg) as Hplain.
  assert (~ is_temp (snprintf (MAX_PATH_SIZE + 128) (path_of conf i ++ bs "/data/" ++ filename))) as Ht
    by (apply plain_cut_not_temp; [done|by apply short_path|done]).
  pose proof (region_plain _ Ht). sounds; first [by apply sound_symlink | by apply sound_rename].
Qed.
#[local] Hint Resolve sound_name_slave : sound.

Lemma sound_upload_done : sound (storage_service_upload_file_done conf).
Proof.
  unfold storage_service_upload_file_done, give_name. sounds. apply sound_with_name; [sounds|]. intros f full Hf. sounds.
  by apply sound_rename.
Qed.
#[local] Hint Resolve sound_upload_done : sound.

Lemma sound_notify_name a b : sound (notify_name a b).
Proof. unfold notify_name. sounds. Qed.
#[local] Hint Resolve sound_notify_name : sound.

Lemma sound_upload_done_callback e : sound (storage_upload_file_done_callback conf e).
Proof. unfold storage_upload_file_done_callback. sounds. Qed.

(** ** Uploading. *)
Lemma sound_upload_store_path i : sound (upload_store_path conf i).
Proof. unfold upload_store_path. sounds. Qed.

Lemma sound_place_for_upload i n : sound (place_for_upload conf i n).
Proof.
  unfold place_for_upload. sounds.
  - apply sound_file; [done|]. intros ?. cbn. split_and!; [auto| |auto]. right. by apply trunk_file_not_temp.
  - apply sound_with_name; [sounds|]. intros f full Hf. sounds.
Qed.
#[local] Hint Resolve sound_upload_store_path sound_place_for_upload : sound.

Lemma sound_upload_file b : sound (storage_upload_file conf b).
Proof.
  unfold storage_upload_file. apply sound_the_task. intros t _. cbv zeta. unfold id. apply sound_if; [apply sound_ret|].
  sound_step; [sounds|]. destruct a as [e|i]; [apply sound_ret|]. apply sound_if; [apply sound_ret|].
  case_decide as Hv; [apply sound_ret|]. assert (47 ∉ cstr (field t 19 FDFS_FILE_EXT_NAME_MAX_LEN)) as Hext
    by (apply validated_no_slash; lia).
  sounds.
Qed.

Lemma sound_upload_slave_file : sound (storage_upload_slave_file conf).
Proof.
  unfold storage_upload_slave_file. apply sound_the_task. intros t _. cbv zeta. unfold id. do 4 (apply sound_if; [apply sound_ret|]).
  destruct (fdfs_validate_filename (cstr (field t 26 _)) =? 0) eqn:Hp; cbn [negb]; [|apply sound_ret].
  destruct (fdfs_validate_filename (cstr (field t 42 _)) =? 0) eqn:He; cbn [negb]; [|apply sound_ret].
  apply Z.eqb_eq, validated_no_slash in Hp, He.
  destruct (storage_split_filename_ex _ _ _) as [e|[[len name] i]] eqn:E; [apply sound_ret|]. case_decide as Hc; [apply sound_ret|].
  assert (fdfs_check_data_filename name len = 0) as Hcheck by lia. clear Hc.
  assert (master_ok conf (cstr (field t 48 (int32 (long_in t 10))))) as Hm.
  { destruct (Z.le_gt_cases 0 (int32 (long_in t 10))) as [Hn|Hn].
    - eapply master_checked; [|done|done]. unfold field. rewrite length_take. lia.
    - unfold storage_split_filename_ex, SPLIT_FILENAME_BODY in E. destruct (Z.leb_spec (int32 (long_in t 10)) FDFS_LOGIC_FILE_PATH_LEN); [done|].
      unfold FDFS_LOGIC_FILE_PATH_LEN in *. lia. }
  sounds.
  - apply sound_file; [done|]. intros ?. cbn. split_and!; [auto| |auto]. right. apply plain_cut_not_temp; [|by apply short_path|done].
    eapply slave_name_plain; [by eapply checked_plain| | |done]; done.
  - apply sound_with_name; [sounds|]. intros f full Hf. sounds.
Qed.

(** ** The callbacks of the other requests. *)
Lemma sound_answer_or_close e : sound (answer_or_close e).
Proof. unfold answer_or_close, set_status, put_buffer. sounds. Qed.
#[local] Hint Resolve sound_answer_or_close : sound.

Lemma sound_get_metadata_done e : sound (storage_get_metadata_done_callback e).
Proof. unfold storage_get_metadata_done_callback. sounds. Qed.
Lemma sound_download_done e : sound (storage_download_file_done_callback e).
Proof. unfold storage_download_file_done_callback. sounds. Qed.

Lemma sound_delete_meta : sound (storage_do_delete_meta_file conf).
Proof.
  unfold storage_do_delete_meta_file. apply sound_the_file. intros c Hc. unfold id.
  eapply giving_bind with (Q := fun x => forall n, x = inr n -> ~ is_temp n).
  - apply giving_ret. intros n. destruct (has_type _ _).
    + destruct (storage_split_filename_ex _ _ _) as [e|[[len name] i]]; [done|]. intros E.
      assert (n = path_of conf i ++ bs "/data/" ++ cstr name ++ FDFS_STORAGE_META_FILE_EXT) as -> by congruence.
      apply meta_path_not_temp.
    + intros E. assert (n = fc_filename c ++ FDFS_STORAGE_META_FILE_EXT) as -> by congruence. apply meta_not_temp.
  - intros [e|n] Hn; [apply sound_ret|]. specialize (Hn n eq_refl). pose proof (region_plain n Hn). sounds.
Qed.
#[local] Hint Resolve sound_delete_meta : sound.

Lemma sound_delete_done e : sound (storage_delete_fdfs_file_done_callback conf e).
Proof. unfold storage_delete_fdfs_file_done_callback. sounds. Qed.

Lemma sound_log_range a b : sound (log_range conf a b).
Proof. unfold log_range. sounds. Qed.
#[local] Hint Resolve sound_log_range : sound.

Lemma sound_append_done e : sound (storage_append_file_done_callback conf e).
Proof. unfold storage_append_file_done_callback. sounds. Qed.
Lemma sound_modify_done e : sound (storage_modify_file_done_callback conf e).
Proof. unfold storage_modify_file_done_callback. sounds. Qed.
Lemma sound_truncate_done e : sound (storage_do_truncate_file_done_callback conf e).
Proof. unfold storage_do_truncate_file_done_callback. sounds. Qed.
Lemma sound_set_metadata_done e : sound (storage_set_metadata_done_callback conf e).
Proof. unfold storage_set_metadata_done_callback. sounds. Qed.

Lemma sound_query_response a b c d : sound (query_file_info_response conf a b c d).
Proof. unfold query_file_info_response. sounds. Qed.
Lemma sound_notify_total e : sound (notify_total e).
Proof. unfold notify_total. sounds. Qed.
#[local] Hint Resolve sound_query_response sound_notify_total : sound.

Lemma sound_query_done e : sound (calc_crc32_done_callback_for_query_finfo conf e).
Proof. unfold calc_crc32_done_callback_for_query_finfo. sounds. Qed.

Lemma sound_rename_appender n : sound (rename_appender conf n).
Proof.
  unfold rename_appender. sounds. apply sound_with_name; [sounds|]. intros f full Hf. sounds. by apply sound_rename.
Qed.
#[local] Hint Resolve sound_rename_appender : sound.

Lemma sound_regenerate_done e : sound (calc_crc32_done_callback_for_regenerate conf e).
Proof. unfold calc_crc32_done_callback_for_regenerate. sounds. Qed.

Lemma sound_create_link_done e : sound (storage_trunk_create_link_file_done_callback conf e).
Proof. unfold storage_trunk_create_link_file_done_callback. sounds. Qed.

(** ** Appender files. *)
Lemma sound_appender_stat n : sound (appender_stat conf n).
Proof. unfold appender_stat. sounds. Qed.
#[local] Hint Resolve sound_appender_stat : sound.

Lemma sound_check_appender n l : sound (storage_server_check_appender_file conf n l).
Proof.
  unfold storage_server_check_appender_file. destruct (storage_split_filename_ex _ _ _) as [e|[[len name] i]]; [apply sound_ret|].
  cbv zeta. case_decide as Hc; [apply sound_ret|]. sounds.
  apply sound_file; [done|]. intros ?. cbn. split_and!; [auto| |auto]. right. apply plain_cut_not_temp; [|by apply short_path|done].
  eapply checked_plain. by destruct (decide (fdfs_check_data_filename name len = 0)).
Qed.
#[local] Hint Resolve sound_check_appender : sound.

Lemma sound_set_appender a b c d : sound (set_appender a b c d).
Proof. unfold set_appender. sounds. Qed.
#[local] Hint Resolve sound_set_appender : sound.

Lemma sound_append_file : sound (storage_append_file conf).
Proof. unfold storage_append_file. sounds. Qed.
Lemma sound_modify_file : sound (storage_modify_file conf).
Proof. unfold storage_modify_file. sounds. Qed.
Lemma sound_truncate_file : sound (storage_do_truncate_file conf).
Proof. unfold storage_do_truncate_file. sounds. Qed.

(** ** Sending a file. *)
Lemma sound_read_from_file a b c d : sound (storage_read_from_file conf a b c d).
Proof. unfold storage_read_from_file. sounds. Qed.
#[local] Hint Resolve sound_read_from_file : sound.

Lemma sound_trunk_stat a b c d : sound (trunk_file_stat_ex conf a b c d).
Proof. unfold trunk_file_stat_ex. sounds. Qed.
#[local] Hint Resolve sound_trunk_stat : sound.

Lemma sound_group_and_name t p n : sound (group_and_name conf t p n).
Proof. unfold group_and_name, put_buffer. sounds. Qed.

(** The true name is a checked one. *)
Lemma giving_group_and_name t p n : sound_giving (group_and_name conf t p n)
  (fun x => forall f l name tl i, x = inr (f, l, name, tl, i) -> plain_name (cstr name)).
Proof.
  intros s I. split; [by apply sound_group_and_name|]. unfold group_and_name. destruct (negb _); [done|]. cbv zeta. rewrite bind_run.
  destruct (storage_split_filename_ex _ _ _) as [e|[[len name] i]]; [done|]. destruct (_ <=? _); [by rewrite bind_run|].
  case_decide as Hc; [done|]. intros f l name' tl i' [= <- <- <- <- <-]. eapply checked_plain.
  by destruct (decide (fdfs_check_data_filename name len = 0)).
Qed.

Lemma sound_get_metadata : sound (storage_server_get_metadata conf).
Proof.
  unfold storage_server_get_metadata. apply sound_the_task. intros t _. cbv zeta. do 2 (apply sound_if; [apply sound_ret|]).
  eapply giving_bind; [apply giving_group_and_name|]. intros [e|[[[[f l] name] tl] i]] Hn; [apply sound_ret|]. sounds.
  apply sound_file; [done|]. intros ?. cbn. split_and!; [auto| |auto]. right. apply (meta_path_not_temp (path_of conf i) (cstr name)).
Qed.

(** A file that was opened by the name of a trunk file. *)
Lemma giving_trunk_stat i n l b s : Sound s -> let res := (trunk_file_stat_ex conf i n l b s) in
  Sound res.2 /\ forall st fd, res.1.1 = inr (st, Some fd) -> mine (rg_theirs r) (rg_keep r) (of_inode fd) (fs_of res.2).
Proof.
  intros I. cbv zeta. split; [by apply sound_trunk_stat|]. unfold trunk_file_stat_ex. rewrite bind_run.
  set (v := files data_view s). assert (Sound v.2) as Iv. { assert (sound (files data_view)) as Hv by (eapply sound_files, safely_view; done). by apply Hv. }
  destruct (trunk_file_stat_func_ex _ _ _ _ _ _ _ _ _) as [e|[[[st t] h] fd]]; [done|]. rewrite bind_run. unfold gets. cbn [fst snd ret].
  intros st' fd' E. destruct fd as [fd|]; [|done]. destruct (follow _ _ _) as [e|name] eqn:Ef; [done|].
  destruct (d_names _ !! name) as [j|] eqn:Ej; [|done]. cbn in E. injection E as <- <-. cbn [of_inode].
  assert (~ is_temp (trunk_get_full_filename_ex (paths conf) t MAX_PATH_SIZE)) as Ht by (by apply trunk_file_not_temp).
  destruct Iv as [Iv _ _ _ _ _]. fold (fs_of v.2) in *. pose proof (follow_plain _ _ _ _ (inv_tidy _ _ _ Iv) Ht Ef) as Hp.
  eapply may_mine with (m := name); eauto using region_apart, region_may_temp, region_plain. done.
Qed.

Lemma sound_download : sound (storage_server_download_file conf).
Proof.
  unfold storage_server_download_file. apply sound_the_task. intros t _. cbv zeta. do 4 (apply sound_if; [apply sound_ret|]).
  eapply giving_bind; [apply giving_group_and_name|]. intros [e|[[[[f l] name] tl] i]] Hn; [apply sound_ret|].
  specialize (Hn _ _ _ _ _ eq_refl). sound_step; [sounds|]. intros s I. rewrite bind_run.
  destruct (giving_trunk_stat i name tl true s I) as [I1 Hfd]. set (res := trunk_file_stat_ex _ _ _ _ _ s) in *. clearbody res.
  destruct res as [[res t'] s1]. cbn [fst snd] in *. rewrite bind_run.
  set (c := if IS_TRUNK_FILE_BY_ID t' then count (bs "total_file_open_count") 1 else ret tt).
  assert (Sound (c s1).2 /\ fs_of (c s1).2 = fs_of s1) as [I2 E2].
  { assert (sound c) as Hc by (unfold c; sounds). split; [by apply Hc|]. unfold c. by destruct (IS_TRUNK_FILE_BY_ID t'). }
  rewrite <- E2 in Hfd. clear E2. set (s2 := (c s1).2) in *. clearbody s2. clear s I s1 I1 c. rename s2 into s, I2 into I.
  destruct res as [e|[st fd]]; [done|]. rewrite bind_run.
  assert (Sound (file (set_fc_fd fd) s).2) as I'.
  { destruct fd as [fd|]; [|by apply (sound_file r (set_fc_fd None)); auto 10]. by apply Sound_set_fd; [|by eapply Hfd]. }
  enough (sound (
      fail_if negb (S_ISREG (st_mode st)) with EISDIR ;;;
      (if IS_TRUNK_FILE_BY_ID t' then count (bs "success_file_open_count") 1 else ret tt) ;;
      let file_remain := st_size st - long_in (id t) 10 in
      if negb (long_in (id t) 18 =? 0) && (file_remain <? long_in (id t) 18) then file (set_fc_fd None) ;; ret EINVAL
      else
        let download_bytes := if long_in (id t) 18 =? 0 then file_remain else long_in (id t) 18 in
        file (fun c => set_fc_filename
                (if IS_TRUNK_FILE_BY_ID t' then trunk_get_full_filename_ex (paths conf) t' (MAX_PATH_SIZE + 128)
                 else path_of conf i ++ bs "/data/" ++ cstr name)
                (set_fc_calc_crc32 false (set_fc_continue_callback Continue_nio_notify c))) ;;
        storage_read_from_file conf
          (long_in (id t) 10 + (if IS_TRUNK_FILE_BY_ID t' then FDFS_TRUNK_FILE_HEADER_SIZE + tf_offset (ti_file t') else 0))
          download_bytes Done_download_file i)) as Hk by (by apply Hk).
  clear s I Hfd I'. sounds. apply sound_file; [done|]. intros ?. cbn -[path_of]. split_and!; [auto| |auto]. right.
  destruct (IS_TRUNK_FILE_BY_ID t'); [by apply trunk_file_not_temp|by apply (plain_not_temp (path_of conf i))].
Qed.

(** ** Deleting. *)
Lemma sound_delete_slave_source n i : sound (delete_slave_source conf n i).
Proof.
  unfold delete_slave_source. eapply giving_bind; [apply giving_readlink|]. intros [e|b] Hb; [apply sound_ret|].
  destruct (Z.leb_spec (MAX_PATH_SIZE + 128) (Z.of_nat (length b))); [sounds|].
  pose proof (region_plain b (Hb b eq_refl ltac:(lia))). sounds.
Qed.
#[local] Hint Resolve sound_delete_slave_source : sound.

Lemma sound_delete_file : sound (storage_server_delete_file conf).
Proof.
  unfold storage_server_delete_file. apply sound_the_task. intros t _. cbv zeta. do 2 (sound_step; [sounds|]).
  do 2 (apply sound_if; [apply sound_ret|]).
  eapply giving_bind; [apply giving_group_and_name|]. intros [e|[[[[f l] name] tl] i]] Hn; [apply sound_ret|].
  specialize (Hn _ _ _ _ _ eq_refl). sounds.
  apply sound_file; [done|]. intros ?. cbn -[path_of]. split_and!; [auto| |auto]. right.
  destruct (IS_TRUNK_FILE_BY_ID _); [by apply trunk_file_not_temp|by apply (plain_not_temp (path_of conf i))].
Qed.

(** ** Metadata. *)
Lemma sound_write_metadata b e : sound (write_metadata b e).
Proof. unfold write_metadata. sounds. by apply sound_put_file. Qed.
#[local] Hint Resolve sound_write_metadata : sound.

Lemma sound_do_set_metadata : sound (storage_do_set_metadata conf).
Proof.
  pose proof sound_set_metadata_done. unfold storage_do_set_metadata, overwrite_metadata, update_metadata. sounds. by apply sound_get_file.
Qed.

Lemma sound_set_metadata : sound (storage_server_set_metadata conf).
Proof.
  unfold storage_server_set_metadata, put_buffer. sounds. apply sound_file; [done|]. intros ?. cbn -[path_of]. split_and!; [auto| |auto]. right.
  apply (meta_path_not_temp (path_of conf _) (cstr _)).
Qed.

(** ** What is known of a file. *)
Lemma sound_push_crc a b c d : sound (push_calc_crc32_to_dio_queue conf a b c d).
Proof. unfold push_calc_crc32_to_dio_queue. sounds. Qed.
#[local] Hint Resolve sound_push_crc : sound.

Lemma sound_trunk_link_target t n : sound (trunk_link_target conf t n).
Proof. unfold trunk_link_target. sounds. Qed.

Lemma sound_plain_link_target n : sound (plain_link_target n).
Proof. unfold plain_link_target. eapply giving_bind; [apply giving_readlink|]. intros x _. sounds. Qed.
#[local] Hint Resolve sound_trunk_link_target sound_plain_link_target : sound.

Lemma sound_deal_response f n st i : plain_name n -> sound (query_file_info_deal_response conf f n st i).
Proof.
  intros Hn. unfold query_file_info_deal_response. sounds. apply sound_file; [done|]. intros ?. cbn -[path_of]. split_and!; [auto| |auto]. right.
  apply plain_cut_not_temp; [done|by apply short_path|done].
Qed.
#[local] Hint Resolve sound_deal_response : sound.

Lemma sound_query_file_info : sound (storage_server_query_file_info conf).
Proof.
  unfold storage_server_query_file_info. apply sound_the_task. intros t _. cbv zeta. do 2 (apply sound_if; [apply sound_ret|]).
  unfold put_buffer. sound_step; [sounds|]. apply sound_if; [apply sound_ret|].
  destruct (storage_split_filename_ex _ _ _) as [e|[[len name] i]]; [apply sound_ret|]. case_decide as Hc; [apply sound_ret|].
  assert (plain_name (cstr name)) as Hn by (apply (checked_plain name len); lia). sounds.
Qed.

Lemma sound_regenerate : sound (storage_server_regenerate_appender_filename conf).
Proof. unfold storage_server_regenerate_appender_filename. sounds. Qed.

End safe.

#[export] Hint Resolve sound_rands sound_format_ext sound_combine sound_alloc sound_confirm sound_free sound_upload_done_callback
  sound_upload_file sound_upload_slave_file sound_get_metadata_done sound_download_done sound_delete_done sound_append_done
  sound_modify_done sound_truncate_done sound_set_metadata_done sound_notify_total sound_query_done sound_regenerate_done
  sound_create_link_done sound_append_file sound_modify_file sound_truncate_file sound_get_metadata sound_download
  sound_delete_file sound_do_set_metadata sound_set_metadata sound_query_file_info sound_regenerate : sound.
