(* ===== verification/StorageSafeDisk.v ===== *)
(** * What the disk threads and the network threads leave alone.

    Everything that a step of a connection runs. *)

From S2P Require Import Prelude FastCommon TrunkShared SharedFunc StorePath TrunkMem StorageIds TrackerTypes TrackerFetch FileSys SyncBinlog Net SyncReader SyncPeer DataFiles StorageTask StorageDio StorageSyncIn StorageUpload StorageClient StorageLink StorageServe DataInv StorageNames StorageSafe StorageSafeClient.

Local Open Scope c_scope.

(** The names of a request for a link are checked before it is queued. *)
Definition link_checked `{FastCommon} (conf : StorageConf) (t : Task) : Prop := forall len name i,
  storage_split_filename_ex (paths conf) (field t 46 (int32 (long_in t 10))) (int32 (long_in t 10)) = inr (len, name, i) ->
  exists l, fdfs_check_data_filename name l = 0.

Section safe.
Context (r : Region) {ok : RegionOk r}.
Context `{FastCommonLaws} (CRC32 : bytes -> Z -> Z).
Abbreviation conf := (rg_conf r).
Context (short : short_paths (paths conf)).
Abbreviation sound := (sound r).
Abbreviation Sound := (Sound r).
Abbreviation sound_giving := (sound_giving r).
Abbreviation sc := (service_callbacks conf).

Lemma sound_done x : sound (@done_callback sc x).
Proof. unfold done_callback. sounds. destruct d; cbn; auto with sound. Qed.
#[local] Hint Resolve sound_done : sound.

(** ** The disk threads. *)
Section disk.
Context (can : can_open r).

Lemma sound_dio_write_file : sound (@dio_write_file _ sc CRC32 conf).
Proof. unfold dio_write_file, write_failed. sounds. Qed.
Lemma sound_dio_truncate_file : sound (@dio_truncate_file _ sc conf).
Proof. unfold dio_truncate_file, write_failed. sounds. Qed.
Lemma sound_dio_discard_file : sound (@dio_discard_file sc).
Proof. unfold dio_discard_file. sounds. Qed.
Lemma sound_dio_read_file : sound (@dio_read_file sc CRC32).
Proof. unfold dio_read_file, put_buffer. cbv zeta. sounds. Qed.
Lemma sound_dio_delete_normal_file : sound (@dio_delete_normal_file sc).
Proof. unfold dio_delete_normal_file. sounds. Qed.
Lemma sound_dio_delete_trunk_file : sound (@dio_delete_trunk_file sc conf).
Proof. unfold dio_delete_trunk_file. sounds. Qed.
#[local] Hint Resolve sound_dio_write_file : sound.

Lemma sound_do_create_link a b c d : sound (@storage_trunk_do_create_link _ sc CRC32 conf a b c d).
Proof.
  unfold storage_trunk_do_create_link. sounds. apply sound_file; [done|]. intros ?. cbn. split_and!; [auto| |auto].
  right. by apply trunk_file_not_temp.
Qed.
#[local] Hint Resolve sound_do_create_link : sound.

(** *** A link from another server. *)
Lemma sound_make_link i n x l j m h : ~ is_temp (snprintf (MAX_PATH_SIZE + 128) (path_of conf i ++ bs "/data/" ++ cstr n)) ->
  ~ is_temp (snprintf MAX_PATH_SIZE (path_of conf j ++ bs "/data/" ++ cstr m)) ->
  sound (@make_link _ sc CRC32 conf i n x l j m h).
Proof. intros Hn Hm. unfold make_link, put_buffer. sounds. by apply sound_symlink. Qed.

Lemma sound_do_sync_link n s : link_checked conf (s_task s) -> Sound s -> Sound (@do_sync_link _ sc CRC32 conf n s).2.
Proof.
  intros Hl I. unfold do_sync_link. rewrite bind_run. unfold the_task, gets. cbn [fst snd]. unfold id. cbv zeta.
  set (t := s_task s) in *. clearbody t. revert s I.
  match goal with |- forall s, _ -> Sound (?c s).2 => enough (sound c) as Hk by exact Hk end.
  do 3 (apply sound_if; [apply sound_ret|]).
  destruct (storage_split_filename_ex _ (field t 46 _) _) as [e|[[len name] i]] eqn:E1; [apply sound_ret|].
  destruct (storage_split_filename_ex _ (field t (46 + _) _) _) as [e|[[len' name'] j]]; [apply sound_ret|].
  case_decide as Hc; [apply sound_ret|]. destruct (Hl _ _ _ E1) as [l Hd].
  sound_step; [unfold look_for_link; sounds|]. sound_step; [|sounds].
  destruct a.1; [|apply sound_ret]. apply sound_make_link.
  - eapply data_file_cut_not_temp; [done|by apply short_path|done].
  - apply (data_file_cut_not_temp _ _ (int32 (long_in t 18))); [lia|by apply short_path|done].
Qed.

(** *** A link for a client. *)
Lemma has_slash_false n : has_slash n = false -> 47 ∉ n.
Proof. apply existsb_not_in. Qed.

Lemma sound_trunk_create_link a b c : sound (@storage_trunk_create_link _ sc CRC32 conf a b c).
Proof. unfold storage_trunk_create_link, put_buffer. sounds. Qed.
#[local] Hint Resolve sound_trunk_create_link : sound.

Lemma sound_service_create_link src size ext name : plain_name src -> (name = [] \/ plain_name name) ->
  sound (storage_service_do_create_link conf src size ext name).
Proof.
  intros Hs Hn. unfold storage_service_do_create_link. apply sound_the_file. intros c _.
  set (i := store_path_index _). eapply giving_bind with (Q := fresh_name).
  - case_bool_decide as Hnil.
    + do 3 (eapply giving_then; [apply giving_any; sounds|]; intros ? _). by apply giving_get_filename.
    + apply giving_ret. destruct Hn as [|Hn]; [done|]. intros f full E. assert (full = path_of conf i ++ bs "/data/" ++ name) as -> by congruence.
      by apply plain_not_temp.
  - intros [[f full]|] Hf; [|sounds]. specialize (Hf _ _ eq_refl). sounds. apply sound_symlink; [done|done|]. by apply plain_not_temp.
Qed.

Lemma giving_slave_link m p e i : 47 ∉ p -> 47 ∉ e -> sound_giving (slave_link_name conf m p e i)
  (fun x => forall n, x = inr n -> plain_name n).
Proof.
  intros Hp He. unfold slave_link_name. destruct (storage_split_filename_ex _ _ _) as [?|[[len name] j]]; [by apply giving_ret|].
  apply giving_if; [by apply giving_ret|]. cbv zeta. case_decide as Hc; [by apply giving_ret|].
  destruct (fdfs_gen_slave_filename _ _ _) as [?|filename] eqn:E; [by apply giving_ret|]. apply giving_if.
  - eapply giving_then; [apply giving_any; sounds|]. intros ? _. by apply giving_ret.
  - eapply giving_then; [apply giving_any; sounds|]. intros a _. apply giving_ret. intros n. destruct (a =? 0); [done|]. intros [= <-].
    eapply slave_name_plain; [|exact Hp|exact He|exact E]. apply (checked_plain name len). lia.
Qed.

Lemma sound_create_link_core a src m p e b : plain_name src -> 47 ∉ p -> 47 ∉ e ->
  sound (@storage_create_link_core _ sc CRC32 conf a src m p e b).
Proof.
  intros Hs Hp He. unfold storage_create_link_core. sound_step. cbv zeta. sound_step; [sounds|]. sound_step; [sounds|].
  destruct (a0.1.1) as [x|st]; [sounds|]. do 2 (apply sound_if; [sounds|]). sound_step; [sounds|].
  eapply giving_bind with (Q := fun x => forall n, x = inr n -> n = [] \/ plain_name n).
  - apply giving_if; [apply giving_ret; intros n [= <-]; by left|]. intros s I.
    destruct (giving_slave_link m p e (store_path_index (ti_path (up_trunk_info (fc_upload c)))) Hp He s I) as [I' HQ].
    split; [done|]. intros n E. right. by apply HQ.
  - intros [x|n] Hn; [sounds|]. specialize (Hn n eq_refl). sounds. by apply sound_service_create_link.
Qed.

Lemma sound_do_create_link_file : sound (@storage_do_create_link _ sc CRC32 conf).
Proof.
  assert (forall n, sound (@do_create_link _ sc CRC32 conf n)) as Hk.
  { intros n. unfold do_create_link. apply sound_the_task. intros t _. cbv zeta. unfold id. do 7 (apply sound_if; [apply sound_ret|]).
    destruct (storage_split_filename_ex _ _ _) as [e|[[len name] i]]; [apply sound_ret|]. case_decide as Hc; [apply sound_ret|].
    destruct (has_slash _) eqn:Hsl; [sounds|]. apply has_slash_false in Hsl. rewrite elem_of_app in Hsl. sound_step; [sounds|].
    apply sound_create_link_core; [|tauto..]. apply (checked_plain name len). lia. }
  unfold storage_do_create_link, put_buffer. sounds.
Qed.

#[local] Hint Resolve sound_dio_truncate_file sound_dio_discard_file sound_dio_read_file sound_dio_delete_normal_file
  sound_dio_delete_trunk_file sound_do_create_link_file : sound.

(** *** Everything a disk thread does. *)
Lemma sound_deal_func s : (ci_deal_func (s_task s) = Some Deal_storage_do_sync_link_file -> link_checked conf (s_task s)) ->
  Sound s -> Sound (deal_func CRC32 conf s).2.
Proof.
  intros Hl I. unfold deal_func. rewrite bind_run. unfold the_task, gets. cbn [fst snd].
  destruct (ci_deal_func (s_task s)) as [f|] eqn:E; [|done].
  destruct f; try (match goal with |- Sound (?c s).2 => assert (sound c) as Hk by auto with sound end; by apply Hk).
  unfold storage_do_sync_link_file. rewrite bind_run. unfold the_task, gets. cbn [fst snd]. rewrite bind_run.
  set (s1 := (task (set_ci_total_length 10) s).2). assert (Sound s1) as I1 by (destruct I; by split).
  rewrite bind_run. apply (sound_do_sync_link (in_length (s_task s))) in I1; [|by apply Hl].
  set (s2 := (do_sync_link _ _ _ _).2) in *. clearbody s2. revert s2 I1.
  enough (forall x, sound (CHECK_AND_WRITE_TO_STAT_FILE1 ;; notify_answer x ;; ret x)) as Hend by (intros; by apply Hend).
  intros x. sounds.
Qed.

End disk.

(** ** The network threads. *)
Section network.
Context (take : can_take r).

Lemma sound_create_link : sound (storage_create_link conf).
Proof. unfold storage_create_link. sounds. Qed.
#[local] Hint Resolve sound_create_link : sound.

Lemma sound_deal_command cmd c : deal_command conf cmd = Some c -> sound c.
Proof. unfold deal_command. intros E. repeat (case_match; [simplify_eq; auto with sound|]). simplify_eq. apply sound_ret. Qed.

Lemma sound_deal_task : sound (storage_deal_task conf).
Proof.
  unfold storage_deal_task. apply sound_the_task. intros t _. cbv beta. apply sound_if; [sounds|].
  destruct (deal_command _ _) as [c|] eqn:E; [|sounds]. apply sound_deal_command in E. sounds.
Qed.
#[local] Hint Resolve sound_deal_task : sound.

Lemma sound_client_sock_read b : sound (client_sock_read conf b).
Proof. unfold client_sock_read, piece_done, put_buffer. sounds. Qed.

End network.
End safe.
