(* ===== verification/StorageSteps.v ===== *)
(** * What a handler leaves to the disk threads.

    The handlers and the disk functions, followed through the task alone:
    whatever the files answer, a handler returns an error, or has queued the
    task with all that the disk threads rely on, or has prepared the answer. *)

From S2P Require Import Prelude FastCommon TrunkShared SharedFunc StorePath TrunkMem StorageIds TrackerTypes FileSys SyncBinlog Net SyncReader SyncPeer DataFiles StorageTask StorageDio StorageSyncIn StorageUpload StorageClient StorageLink StorageServe DataInv StorageNames StorageSafe StorageSafeClient StorageSafeDisk.

Local Open Scope c_scope.

(** ** From a task to a task. *)
Definition seq_of (s : Serving) : Z := s_temp_file_sequence (s_service s).

Definition exec {A} (t : Task) (c : M Serving A) (Q : A -> Task -> Prop) : Prop :=
  forall s, s_task s = t -> 0 <= seq_of s -> Q (c s).1 (s_task (c s).2) /\ 0 <= seq_of (c s).2.

(** The task is not touched. *)
Definition still {A} (c : M Serving A) : Prop := forall s, s_task (c s).2 = s_task s /\ (0 <= seq_of s -> 0 <= seq_of (c s).2).

Lemma exec_ret {A} t (a : A) (Q : A -> Task -> Prop) : Q a t -> exec t (ret a) Q.
Proof. by intros HQ s <-. Qed.

Lemma exec_task t f (Q : unit -> Task -> Prop) : Q tt (f t) -> exec t (task f) Q.
Proof. by intros HQ s <-. Qed.

Lemma exec_still {A} t (c : M Serving A) (Q : A -> Task -> Prop) : still c -> (forall a, Q a t) -> exec t c Q.
Proof. intros Hc HQ s <- Hs. destruct (Hc s) as [-> ?]. auto. Qed.

Lemma exec_bind {A B} t (c : M Serving A) (k : A -> M Serving B) (R : A -> Task -> Prop) Q :
  exec t c R -> (forall a t', R a t' -> exec t' (k a) Q) -> exec t (bind c k) Q.
Proof. intros Hc Hk s Es Hs. rewrite bind_run. destruct (Hc s Es Hs) as [HR Hs']. by eapply Hk. Qed.

Lemma exec_weaken {A} t (c : M Serving A) (Q Q' : A -> Task -> Prop) :
  exec t c Q -> (forall a t', Q a t' -> Q' a t') -> exec t c Q'.
Proof. intros Hc HQ s Es Hs. destruct (Hc s Es Hs). auto. Qed.

Lemma exec_bind_still {A B} t (c : M Serving A) (k : A -> M Serving B) Q :
  still c -> (forall a, exec t (k a) Q) -> exec t (bind c k) Q.
Proof. intros Hc Hk s <- Hs. rewrite bind_run. destruct (Hc s) as [E ?]. apply Hk; auto. Qed.

Lemma exec_bind_task {B} t f (k : unit -> M Serving B) Q : exec (f t) (k tt) Q -> exec t (bind (task f) k) Q.
Proof. intros Hk s <- Hs. rewrite bind_run. by apply Hk. Qed.

Definition with_context (c : StorageFileContext) (t : Task) : Task := set_ci_file_context c t.

Lemma with_context_twice c c' t : with_context c (with_context c' t) = with_context c t.
Proof. done. Qed.
Lemma with_context_get c t : ci_file_context (with_context c t) = c.
Proof. done. Qed.

Lemma exec_bind_file {B} t f (k : unit -> M Serving B) Q :
  exec (with_context (f (ci_file_context t)) t) (k tt) Q -> exec t (bind (file f) k) Q.
Proof. exact (exec_bind_task t (fun t => set_ci_file_context (f (ci_file_context t)) t) k Q). Qed.

Lemma exec_bind_ret {A B} t (a : A) (k : A -> M Serving B) Q : exec t (k a) Q -> exec t (bind (ret a) k) Q.
Proof. done. Qed.

Lemma exec_bind_the_task {A B} t (f : Task -> A) (k : A -> M Serving B) Q :
  exec t (k (f t)) Q -> exec t (bind (the_task f) k) Q.
Proof. intros Hk s <-. by apply Hk. Qed.

Lemma exec_bind_assoc {A B C} t (c : M Serving A) (k : A -> M Serving B) (l : B -> M Serving C) Q :
  exec t (bind c (fun a => bind (k a) l)) Q -> exec t (bind (bind c k) l) Q.
Proof. intros Hc s Es. rewrite bind_assoc. by apply Hc. Qed.

Lemma exec_bind_if {A B} t (b : bool) (c c' : M Serving A) (k : A -> M Serving B) Q :
  (b = true -> exec t (bind c k) Q) -> (b = false -> exec t (bind c' k) Q) -> exec t (bind (if b then c else c') k) Q.
Proof. destruct b; auto. Qed.

Lemma exec_if {A} t (b : bool) (c c' : M Serving A) Q :
  (b = true -> exec t c Q) -> (b = false -> exec t c' Q) -> exec t (if b then c else c') Q.
Proof. destruct b; auto. Qed.

Lemma still_files {A} (c : M DataFs A) : still (files c).
Proof. intros s. unfold files. by destruct (c _). Qed.
Lemma still_binlog {A} (c : M SyncState A) : still (binlog c).
Proof. intros s. unfold binlog. by destruct (c _). Qed.
Lemma still_service f : (forall x, s_temp_file_sequence x <= s_temp_file_sequence (f x)) -> still (service f).
Proof. intros Hf s. split; [done|]. unfold seq_of. cbn. specialize (Hf (s_service s)). lia. Qed.
Lemma still_gets {A} (f : Serving -> A) : still (gets f).
Proof. done. Qed.
Lemma still_ret {A} (a : A) : still (ret a).
Proof. done. Qed.
Lemma still_next_errno : still next_errno.
Proof. intros s. unfold next_errno. by destruct (s_errnos _). Qed.
Lemma still_bind {A B} (c : M Serving A) (k : A -> M Serving B) : still c -> (forall a, still (k a)) -> still (bind c k).
Proof. intros Hc Hk s. rewrite bind_run. destruct (Hc s) as [<- Hs], (Hk (c s).1 (c s).2) as [<- Hs']. auto. Qed.
Lemma still_if {A} (b : bool) (c c' : M Serving A) : still c -> still c' -> still (if b then c else c').
Proof. by destruct b. Qed.

Lemma still_rand : still rand.
Proof. intros s. unfold rand. by destruct (s_rands _). Qed.
Lemma still_dist {A} (c : M DistState A) : still (dist c).
Proof. intros s. unfold dist. by destruct (c _). Qed.
Lemma still_trunk_answer : still trunk_answer.
Proof. intros s. unfold trunk_answer. by destruct (s_trunk_answers _). Qed.

Create HintDb still.
#[export] Hint Resolve still_files still_binlog still_gets still_ret still_next_errno still_rand still_dist still_trunk_answer : still.

Lemma still_count n k : still (count n k).
Proof. apply still_service. intros x. cbn. lia. Qed.
Lemma still_set_counter n k : still (set_counter n k).
Proof. apply still_service. intros x. cbn. lia. Qed.
Lemma still_now : still now.
Proof. apply still_gets. Qed.
Lemma still_the_task {A} (f : Task -> A) : still (the_task f).
Proof. apply still_gets. Qed.
#[export] Hint Resolve still_count still_set_counter still_now still_the_task : still.
#[export] Hint Resolve still_bind still_if : still.

Section conf.
Context `{FastCommon} (CRC32 : bytes -> Z -> Z) (conf : StorageConf).

Lemma still_lstat i n l t h : still (trunk_file_lstat conf i n l t h).
Proof. apply still_bind; [apply still_files|]. intros view. destruct (trunk_file_do_lstat_func_ex _ _ _ _ _ _ _ _) as [|[[[? ?] ?] ?]]; apply still_ret. Qed.
Lemma still_log_file : still (log_file conf).
Proof. apply still_bind; [apply still_the_task|]. intros. apply still_binlog. Qed.
Lemma still_utimes : still set_file_utimes.
Proof. apply still_bind; [apply still_the_task|]. intros. apply still_files. Qed.
Lemma still_rename_temp : still (storage_sync_copy_file_rename_filename conf).
Proof.
  apply still_bind; [apply still_the_task|]. intros c. destruct (storage_logic_to_local_full_filename _ _ _ _) as [|[? ?]]; [apply still_ret|].
  apply still_bind; [apply still_files|]. intros. apply still_ret.
Qed.
Lemma still_count_failed r : still (count_failed_bytes r).
Proof. apply still_bind; [apply still_the_task|]. intros. case_decide; [apply still_count|apply still_ret]. Qed.


#[local] Hint Resolve still_lstat still_log_file still_utimes still_rename_temp still_count_failed : still.

(** ** The common endings. *)
Definition movable (t : Task) : Prop :=
  match tk_place t with Closing | Closed | Elsewhere | Overrun => False | _ => True end.

Lemma exec_move t p (Q : unit -> Task -> Prop) : movable t -> Q tt (set_tk_place p t) -> exec t (move p) Q.
Proof. intros Hm HQ. apply exec_task. unfold movable in Hm. by destruct (tk_place t). Qed.

Lemma exec_bind_move {B} t p (k : unit -> M Serving B) Q :
  movable t -> exec (set_tk_place p t) (k tt) Q -> exec t (bind (move p) k) Q.
Proof.
  intros Hm Hk. apply (exec_bind _ _ _ (fun _ t' => t' = set_tk_place p t)); [by apply exec_move|]. by intros [] t' ->.
Qed.

Lemma exec_push t (Q : Z -> Task -> Prop) : movable t ->
  (forall r p, r = 0 /\ p = InDio \/ r <> 0 /\ p = Closing ->
     Q r (set_tk_place p (set_ci_stage (Z.lor (ci_stage t) FDFS_STORAGE_STAGE_DIO_THREAD) t))) ->
  exec t storage_dio_queue_push Q.
Proof.
  intros Hm HQ. apply exec_bind_task, exec_bind_still; [apply still_next_errno|]. intros e.
  case_decide; (apply exec_bind_move; [done|]); apply exec_ret, HQ; intuition lia.
Qed.

Lemma exec_stat_file t (Q : unit -> Task -> Prop) : (forall x, Q tt (set_ci_pSrcStorage x t)) -> exec t CHECK_AND_WRITE_TO_STAT_FILE1 Q.
Proof.
  intros HQ. unfold CHECK_AND_WRITE_TO_STAT_FILE1. eapply (exec_bind _ _ _ (fun _ t' => exists x, t' = set_ci_pSrcStorage x t)).
  - intros s <- Hs. cbn. split; [|done]. destruct (ci_pSrcStorage (s_task s)) as [x|] eqn:E; [|eauto]. exists (Some x). rewrite <- E. by destruct (s_task s).
  - intros _ t' [x ->]. apply exec_still; [|intros []; apply HQ]. apply still_bind; [auto with still|]. intros src.
    apply still_bind; [auto with still|]. intros ts. apply still_bind; [|auto with still].
    destruct src; [|auto with still]. apply still_bind; [apply still_service; cbn; lia|auto with still].
Qed.

Lemma exec_bind_stat_file {B} t (k : unit -> M Serving B) Q :
  (forall x, exec (set_ci_pSrcStorage x t) (k tt) Q) -> exec t (bind CHECK_AND_WRITE_TO_STAT_FILE1 k) Q.
Proof.
  intros Hk. apply (exec_bind _ _ _ (fun _ t' => exists x, t' = set_ci_pSrcStorage x t)); [apply exec_stat_file; eauto|].
  intros [] t' [x ->]. apply Hk.
Qed.

(** The answer without a body is ready. *)
Record answered (t : Task) : Prop := {
  an_place : tk_place t = InPipe;
  an_total : ci_total_length t = 10;
  an_offset : ci_total_offset t = 0;
  an_length : tk_length t = 10;
}.

Lemma exec_notify_answer t r (Q : unit -> Task -> Prop) : movable t ->
  (forall t', answered t' -> ci_file_context t' = ci_file_context t -> ci_stage t' = ci_stage t -> tk_size t' = tk_size t -> Q tt t') ->
  exec t (notify_answer r) Q.
Proof.
  intros Hm HQ. unfold notify_answer, put_header. do 2 apply exec_bind_task. unfold storage_nio_notify. apply exec_bind_assoc.
  apply exec_bind_move; [done|]. apply exec_bind_ret, exec_ret, HQ; done.
Qed.

(** ** What a handler leaves. *)

(** A file of another server is being received, whole. *)
Definition writing (t : Task) : Prop :=
  ci_deal_func t = Some Deal_dio_write_file /\ fc_done_callback (ci_file_context t) = Some Done_sync_copy_file.

(** A link of another server is being made. *)
Definition linking (t : Task) : Prop := ci_deal_func t = Some Deal_storage_do_sync_link_file.

(** Anything else. *)
Definition quiet (t : Task) : Prop := ~ writing t /\ ~ linking t.

#[export] Instance DealFunc_eq_dec : EqDecision DealFunc.
Proof. solve_decision. Defined.
#[export] Instance DoneCallback_eq_dec : EqDecision DoneCallback.
Proof. solve_decision. Defined.
#[export] Instance writing_dec t : Decision (writing t) := _.
#[export] Instance linking_dec t : Decision (linking t) := _.

Lemma quiet_or t : quiet t \/ writing t \/ linking t.
Proof. unfold quiet. destruct (decide (writing t)), (decide (linking t)); auto. Qed.

(** A plain file is being received. *)
Definition copying (t : Task) : Prop := writing t /\ Z.land (up_file_type (fc_upload (ci_file_context t))) FILE_TYPE_TRUNK = 0.

(** The file context of such a request, for a file of [size] bytes. *)
Record copy_context (name : bytes) (size : Z) (c : StorageFileContext) : Prop := {
  cc_op : fc_op c = FDFS_STORAGE_FILE_OP_WRITE;
  cc_name : fc_fname2log c = cstr name;
  cc_temp : is_temp (fc_filename c);
  cc_flags : fc_open_flags c = O_WRONLY_CREAT_TRUNC;
  cc_open : up_before_open_callback (fc_upload c) = None;
  cc_close : up_before_close_callback (fc_upload c) = None;
  cc_crc : fc_calc_crc32 c = false;
  cc_continue : fc_continue_callback c = Continue_nio_notify;
  cc_start : fc_start c = 0;
  cc_end : fc_end c = size;
}.

(** The task as it was when the handler was called, but for what it is about. *)
Record same_buffer (t t' : Task) : Prop := {
  sb_length : tk_length t' = tk_length t;
  sb_offset : tk_offset t' = tk_offset t;
  sb_total_offset : ci_total_offset t' = ci_total_offset t;
  sb_total : ci_total_length t' = ci_total_length t \/ 0 < ci_total_length t';
}.

(** The request in a buffer that a copy was started from. *)
Definition name_len_in (b : bytes) : Z := int32 (buff2long (drop 10 b)).
Definition name_in (b : bytes) : bytes := take (Z.to_nat (name_len_in b)) (drop 46 b).
Definition size_in (b : bytes) : Z := buff2long (drop 18 b).

Record copy_queued (t t' : Task) : Prop := {
  cq_context : copy_context (name_in (tk_data t)) (size_in (tk_data t)) (ci_file_context t');
  cq_data : tk_data t' = tk_data t;
  cq_clean : ci_clean_func t' = Some Clean_dio_write;
  cq_head : 0 <= name_len_in (tk_data t) < 128 /\ 0 <= size_in (tk_data t);
  cq_same : ci_total_length t' = ci_total_length t;
  cq_total : ci_total_length t = 46 + name_len_in (tk_data t) + size_in (tk_data t);
  cq_buff : fc_buff_offset (ci_file_context t') = 46 + name_len_in (tk_data t);
  cq_offset : fc_offset (ci_file_context t') = 0;
  cq_fd : fc_fd (ci_file_context t') = None;
}.

(** A piece of a file from another server waits for a disk thread. *)
Record queued (t : Task) : Prop := {
  qu_clean : ci_clean_func t <> None;
  qu_continue : fc_continue_callback (ci_file_context t) = Continue_nio_notify;
  qu_buff : 0 <= fc_buff_offset (ci_file_context t);
  qu_rest : fc_offset (ci_file_context t) + (tk_length t - fc_buff_offset (ci_file_context t)) +
              (ci_total_length t - ci_total_offset t) = fc_end (ci_file_context t);
}.

Definition begun (t : Task) : Prop := Z.land (ci_stage t) 7 <> 0.

Definition handled (t : Task) (r : Z) (t' : Task) : Prop :=
  tk_size t' = tk_size t /\ (begun t -> begun t') /\
  match tk_place t' with
  | AtSocket => r = STORAGE_STATUE_DEAL_FILE -> same_buffer t t'
  | InDio => r = STORAGE_STATUE_DEAL_FILE /\ (linking t' -> link_checked conf t') /\
             (writing t' -> ci_stage t' = Z.lor (ci_stage t) FDFS_STORAGE_STAGE_DIO_THREAD /\ queued t' /\
                            same_buffer t t' /\ ci_total_length t' = ci_total_length t /\ 10 < ci_total_length t) /\
             (copying t' -> copy_queued t t')
  | InPipe => r = STORAGE_STATUE_DEAL_FILE /\ answered t'
  | Closing | Overrun => True
  | Closed | Elsewhere => False
  end.

Lemma begun_lor x : Z.land x 7 <> 0 -> Z.land (Z.lor x FDFS_STORAGE_STAGE_DIO_THREAD) 7 <> 0.
Proof. rewrite Z.land_lor_distr_l. intros Hn E. apply Hn. by apply Z.lor_eq_0_l in E. Qed.

Lemma begun_dio t t' : ci_stage t' = Z.lor (ci_stage t) FDFS_STORAGE_STAGE_DIO_THREAD -> begun t -> begun t'.
Proof. unfold begun. intros ->. apply begun_lor. Qed.

Lemma begun_push t : begun t -> begun (set_ci_stage (Z.lor (ci_stage t) FDFS_STORAGE_STAGE_DIO_THREAD) t).
Proof. exact (begun_lor (ci_stage t)). Qed.

Lemma begun_same t t' : ci_stage t' = ci_stage t -> begun t -> begun t'.
Proof. unfold begun. by intros ->. Qed.

(** ** What is kept while a handler runs, or a disk thread. *)
Definition keeping (P : Task -> Prop) {A} (c : M Serving A) : Prop := forall t, P t -> exec t c (fun _ => P).

Lemma keeping_bind P {A B} (c : M Serving A) (k : A -> M Serving B) : keeping P c -> (forall a, keeping P (k a)) -> keeping P (bind c k).
Proof. intros Hc Hk t HP. eapply exec_bind; [by apply Hc|]. intros a t' HP'. by apply Hk. Qed.

Lemma keeping_if P {A} (b : bool) (c c' : M Serving A) : keeping P c -> keeping P c' -> keeping P (if b then c else c').
Proof. by destruct b. Qed.

Lemma keeping_still (P : Task -> Prop) {A} (c : M Serving A) : still c -> keeping P c.
Proof. intros Hc t HP. by apply exec_still. Qed.

Lemma keeping_task (P : Task -> Prop) f : (forall t, P t -> P (f t)) -> keeping P (task f).
Proof. intros Hf t HP. apply exec_task. auto. Qed.

Lemma keeping_file (P : Task -> Prop) f : (forall t, P t -> P (with_context (f (ci_file_context t)) t)) -> keeping P (file f).
Proof. apply (keeping_task P (fun t => set_ci_file_context (f (ci_file_context t)) t)). Qed.

Lemma keeping_both (P Q : Task -> Prop) {A} (c : M Serving A) : keeping P c -> keeping Q c -> keeping (fun t => P t /\ Q t) c.
Proof. intros HP HQ t [P1 Q1] s Es Hs. destruct (HP t P1 s Es Hs), (HQ t Q1 s Es Hs). auto. Qed.

(** The buffer of a task at its socket stays as it is, or an array was overrun. *)
Record kept (t0 t : Task) : Prop := {
  kp_size : tk_size t = tk_size t0;
  kp_stage : ci_stage t = ci_stage t0;
  kp_where : tk_place t = AtSocket /\ same_buffer t0 t \/ tk_place t = Overrun;
}.

Lemma kept_start t0 : tk_place t0 = AtSocket -> kept t0 t0.
Proof. intros Hp. split; [done..|]. left. split; [done|]. split; auto. Qed.

(** A task that is away from its socket, with a request of no other server. *)
Record away (n : Z) (t : Task) : Prop := {
  aw_size : tk_size t = n;
  aw_place : tk_place t <> AtSocket;
  aw_begun : begun t;
  aw_quiet : quiet t;
}.

Definition dealing (d : option DealFunc) (t : Task) : Prop := ci_deal_func t = d.
End conf.

(** What a change of the task keeps. *)
Ltac keeps_it :=
  intros ?;
  lazymatch goal with
  | |- kept _ _ -> _ =>
      let Hb := fresh in let Hw := fresh in
      intros [? ? Hw]; split; cbn; [by repeat case_match|by repeat case_match|];
      destruct Hw as [[? Hb]|Hw]; [|right; repeat case_match; cbn; congruence];
      try (left; split; [by repeat case_match|]; destruct Hb; split; cbn; repeat case_match; cbn; solve [auto | lia | right; lia]);
      try (right; repeat case_match; cbn; congruence)
  | |- away _ _ -> _ =>
      let Hq := fresh in
      intros [? ? ? Hq]; split; cbn;
      [by repeat case_match|by repeat case_match; cbn; congruence|repeat case_match; first [assumption | by apply begun_push | by unfold begun]|
       revert Hq; unfold quiet, writing, linking; cbn; repeat case_match; cbn; by try (intros [? ?]; split; intros ?; naive_solver)]
  | |- _ => unfold dealing; cbn; by repeat case_match
  end.

Create HintDb keeping.

Ltac keep_step :=
  lazymatch goal with
  | |- keeping _ (bind _ _) => apply keeping_bind; [|intros ?]
  | |- keeping (fun t => _ /\ _) _ => apply keeping_both
  | |- keeping _ (if decide _ then _ else _) => case_decide
  | |- keeping _ (if ?b then _ else _) => first [apply keeping_if | destruct b]
  | |- keeping _ (match ?x with _ => _ end) => destruct x
  | |- keeping _ (task _) => apply keeping_task; keeps_it
  | |- keeping _ (file _) => apply keeping_file; keeps_it
  | |- keeping _ (upload _) => apply keeping_file; keeps_it
  | |- keeping _ (move _) => apply keeping_task; keeps_it
  | |- keeping _ overrun => unfold overrun
  | |- keeping _ _ => first [apply keeping_still; solve [eauto with still] | solve [eauto with keeping]]
  end.
Ltac keepings := repeat keep_step.

(** ** How a handler ends. *)
Section ending.
Context `{FastCommon} (conf : StorageConf) (t0 : Task).

Definition ending (P : Task -> Prop) (c : M Serving Z) : Prop := forall t, P t -> exec t c (handled conf t0).

Lemma ending_bind {A} P (c : M Serving A) k : keeping P c -> (forall a, ending P (k a)) -> ending P (bind c k).
Proof. intros Hc Hk t HP. eapply exec_bind; [by apply Hc|]. intros a t' HP'. by apply Hk. Qed.

Lemma ending_assoc {A B} P (c : M Serving A) (k : A -> M Serving B) l :
  ending P (bind c (fun a => bind (k a) l)) -> ending P (bind (bind c k) l).
Proof. intros Hc t HP. by apply exec_bind_assoc, Hc. Qed.

Lemma ending_bind_ret {A} P (a : A) k : ending P (k a) -> ending P (bind (ret a) k).
Proof. done. Qed.

Lemma ending_if P (b : bool) c c' : ending P c -> ending P c' -> ending P (if b then c else c').
Proof. by destruct b. Qed.

Lemma ending_task (P P' : Task -> Prop) f k : (forall t, P t -> P' (f t)) -> ending P' (k tt) -> ending P (bind (task f) k).
Proof. intros Hf Hk t HP. apply exec_bind_task, Hk. auto. Qed.

Lemma ending_file (P P' : Task -> Prop) f k : (forall t, P t -> P' (with_context (f (ci_file_context t)) t)) -> ending P' (k tt) ->
  ending P (bind (file f) k).
Proof. apply (ending_task P P' (fun t => set_ci_file_context (f (ci_file_context t)) t)). Qed.

Lemma ending_weaken (P P' : Task -> Prop) c : (forall t, P t -> P' t) -> ending P' c -> ending P c.
Proof. intros HP Hc t Ht. apply Hc. auto. Qed.

Lemma kept_handled t r : kept t0 t -> handled conf t0 r t.
Proof.
  intros [K1 K2 [[Kp Kb]|Kp]]; (split; [done|]; split; [by apply begun_same|]); by rewrite Kp.
Qed.

Lemma ending_ret r : ending (kept t0) (ret r).
Proof. intros t K. by apply exec_ret, kept_handled. Qed.

(** A task for the disk threads that is none of another server. *)
Record ready (t : Task) : Prop := {
  re_size : tk_size t = tk_size t0;
  re_stage : ci_stage t = ci_stage t0;
  re_place : tk_place t = AtSocket \/ tk_place t = Overrun;
  re_quiet : quiet t;
}.

(** It was not taken. *)
Record gone (t : Task) : Prop := {
  go_size : tk_size t = tk_size t0;
  go_begun : begun t0 -> begun t;
  go_place : tk_place t = Closing \/ tk_place t = Overrun;
}.

Lemma gone_handled t r : gone t -> handled conf t0 r t.
Proof. intros [G1 G2 G3]. split; [done|]. split; [done|]. by destruct G3 as [-> | ->]. Qed.

Lemma kept_ready t : kept t0 t -> quiet t -> ready t.
Proof. intros [K1 K2 K3] Hq. split; try done. destruct K3 as [[? _]|?]; auto. Qed.

Lemma exec_queue t k : ready t -> (forall r t', gone t' -> exec t' (k r) (handled conf t0)) ->
  (forall t', handled conf t0 STORAGE_STATUE_DEAL_FILE t' -> exec t' (k 0) (handled conf t0)) ->
  exec t (bind storage_dio_queue_push k) (handled conf t0).
Proof.
  intros [R1 R2 R3 [Q1 Q2]] Hgone Hin. unfold storage_dio_queue_push. apply exec_bind_assoc, exec_bind_task, exec_bind_assoc.
  apply exec_bind_still; [auto with still|]. intros e.
  assert (begun t0 -> forall p, begun (set_tk_place p (set_ci_stage (Z.lor (ci_stage t) FDFS_STORAGE_STAGE_DIO_THREAD) t))) as Hb
    by (intros ? ?; eapply begun_dio; [|done]; cbn; by rewrite R2).
  destruct R3 as [Rp|Rp].
  - case_decide; (apply exec_bind_assoc, exec_bind_move; [by unfold movable; cbn; rewrite Rp|]); apply exec_bind_ret.
    + apply Hgone. split; [done|auto|by left].
    + apply Hin. split; [done|]. split; [auto|]. cbn. split; [done|].
      split_and!; intros X; exfalso; [exact (Q2 X)|exact (Q1 X)|exact (Q1 (proj1 X))].
  - case_decide; apply exec_bind_assoc, exec_bind_task; cbn; rewrite Rp; apply exec_bind_ret, Hgone;
      (split; [done|intros B; exact (Hb B Overrun)|by right]).
Qed.

Lemma ready_queue t : ready t ->
  exec t (let! result := storage_dio_queue_push in ret (if decide (result <> 0) then result else STORAGE_STATUE_DEAL_FILE)) (handled conf t0).
Proof.
  intros R. apply exec_queue; [done|intros; by apply exec_ret, gone_handled|intros; by apply exec_ret].
Qed.

End ending.

