(* ===== verification/StorageHandled.v ===== *)
(** * What the handlers leave to the disk threads.

    Whatever the files answer, a handler returns a result with the buffer as it
    was, or it has queued the task with all that the disk threads rely on, or the
    answer is ready. *)

From S2P Require Import Prelude FastCommon TrunkShared SharedFunc StorePath TrunkMem StorageIds TrackerTypes FileSys SyncBinlog Net SyncReader SyncPeer DataFiles StorageTask StorageDio StorageSyncIn StorageUpload StorageClient StorageLink StorageServe DataInv StorageNames StorageSafeDisk StorageSteps.

Local Open Scope c_scope.

Section still.
Context `{FastCommon} (conf : StorageConf).

Lemma still_rands n : still (rands n).
Proof. induction n as [|n IH]; cbn; [auto with still|]. apply still_bind; [auto with still|]. intros r. apply still_bind; auto with still. Qed.
Lemma still_format_ext n : still (storage_format_ext_name n).
Proof. apply still_bind; [apply still_rands|]. intros l. auto with still. Qed.
Lemma still_combine n : still (COMBINE_RAND_FILE_SIZE n).
Proof. apply still_bind; auto with still. Qed.
Lemma still_binlog_record t op n : still (storage_binlog conf t op n).
Proof. apply still_binlog. Qed.
Lemma still_store_path i : still (upload_store_path conf i).
Proof. unfold upload_store_path. apply still_if; [|auto with still]. apply still_bind; auto with still. Qed.

End still.
#[export] Hint Resolve still_rands still_format_ext still_combine still_binlog_record still_store_path still_lstat : still.

(** A task is prepared for the disk threads, none for another server. *)
Ltac prepare :=
  repeat lazymatch goal with
  | |- exec _ (bind (task _) _) _ => apply exec_bind_task
  | |- exec _ (bind (file _) _) _ => apply exec_bind_file
  | |- exec _ (bind (upload _) _) _ => apply exec_bind_file
  | |- exec _ (bind (bind _ _) _) _ => apply exec_bind_assoc
  end.

Section handlers.
Context `{FastCommon} (conf : StorageConf) (t0 : Task).
Abbreviation ending := (ending conf t0 (kept t0)).
Abbreviation keeping := (keeping (kept t0)).

(** ** Their parts. *)
Lemma kept_overrun : keeping overrun.
Proof. keepings. Qed.
#[local] Hint Resolve kept_overrun : keeping.

Lemma kept_timestamp t p : keeping (set_timestamp t p).
Proof. unfold set_timestamp. keepings. Qed.
Lemma kept_no_callbacks : keeping no_callbacks.
Proof. unfold no_callbacks. keepings. Qed.
Lemma kept_discard_range : keeping discard_range.
Proof. unfold discard_range. keepings. Qed.
Lemma kept_local_file a b : keeping (local_file conf a b).
Proof. unfold local_file. keepings. Qed.
Lemma kept_choose i : keeping (choose_dio_thread conf i).
Proof. unfold choose_dio_thread. keepings. Qed.
#[local] Hint Resolve kept_timestamp kept_no_callbacks kept_discard_range kept_local_file kept_choose : keeping.
Lemma kept_range_head b : keeping (range_head conf b).
Proof. unfold range_head. keepings. Qed.
#[local] Hint Resolve kept_range_head : keeping.

Lemma kept_gen_filename a b c d : keeping (storage_gen_filename conf a b c d).
Proof. unfold storage_gen_filename. keepings. Qed.
#[local] Hint Resolve kept_gen_filename : keeping.
Lemma kept_try_names n a b c d i : keeping (try_names conf n a b c d i).
Proof. induction n as [|n IH]; cbn [try_names]; keepings. Qed.
Lemma kept_get_filename a b c d : keeping (storage_get_filename conf a b c d).
Proof. unfold storage_get_filename. keepings. apply kept_try_names. Qed.
Lemma kept_alloc_space : keeping trunk_client_trunk_alloc_space.
Proof. unfold trunk_client_trunk_alloc_space. keepings. Qed.
#[local] Hint Resolve kept_get_filename kept_alloc_space : keeping.
Lemma kept_place_for_upload i n : keeping (place_for_upload conf i n).
Proof. unfold place_for_upload. keepings. Qed.

Lemma kept_appender_stat n : keeping (appender_stat conf n).
Proof. unfold appender_stat. keepings. Qed.
#[local] Hint Resolve kept_place_for_upload kept_appender_stat : keeping.
Lemma kept_check_appender n l : keeping (storage_server_check_appender_file conf n l).
Proof. unfold storage_server_check_appender_file. keepings. Qed.
Lemma kept_set_appender a b c d : keeping (set_appender a b c d).
Proof. unfold set_appender. keepings. Qed.
Lemma kept_group_and_name t p n : keeping (group_and_name conf t p n).
Proof. unfold group_and_name. keepings. Qed.
Lemma kept_stat_ex i n l b : keeping (trunk_file_stat_ex conf i n l b).
Proof. unfold trunk_file_stat_ex. keepings. Qed.
Lemma kept_trunk_target t n : keeping (trunk_link_target conf t n).
Proof. unfold trunk_link_target. keepings. Qed.
Lemma kept_plain_target n : keeping (plain_link_target n).
Proof. unfold plain_link_target. keepings. Qed.
#[local] Hint Resolve kept_check_appender kept_set_appender kept_group_and_name kept_stat_ex kept_trunk_target kept_plain_target : keeping.

(** ** Their ends. *)
Lemma ending_tail c : keeping c -> ending c.
Proof. intros Hc t K. eapply exec_weaken; [by apply Hc|]. intros r t' K'. by apply kept_handled. Qed.

Ltac is_ready K :=
  let H1 := fresh in let H2 := fresh in let H3 := fresh in
  destruct K as [H1 H2 H3]; split; [exact H1|exact H2|destruct H3 as [[? _]|?]; [by left|by right]|].

Lemma ending_write_to_file a b c d f g i : ~ (d = Deal_dio_write_file /\ f = Done_sync_copy_file) -> d <> Deal_storage_do_sync_link_file ->
  ending (storage_write_to_file conf a b c d f g i).
Proof.
  intros Hd Hl t K. unfold storage_write_to_file, choose_dio_thread. prepare. apply ready_queue. is_ready K.
  split; [intros [[= ->] E]; cbn in E; repeat case_match; cbn in E; simplify_eq; auto|by intros [= ->]].
Qed.

Lemma ending_delete_file f i d : d <> Deal_dio_write_file -> d <> Deal_storage_do_sync_link_file ->
  StorageSteps.ending conf t0 (fun t => kept t0 t /\ dealing (Some d) t) (storage_do_delete_file conf f i).
Proof.
  intros Hd Hl t [K D]. unfold storage_do_delete_file, choose_dio_thread. prepare. apply ready_queue. unfold dealing in D. is_ready K.
  split; [intros [E _]; cbn in E; congruence|intros E; unfold linking in E; cbn in E; congruence].
Qed.

Lemma ending_read_from_file a b f i : ending (storage_read_from_file conf a b f i).
Proof.
  intros t K. unfold storage_read_from_file, choose_dio_thread, put_header. prepare. apply exec_queue.
  - is_ready K. by split; [intros [[=] _]|intros [=]].
  - intros r t' G. case_decide; [|by apply exec_ret, gone_handled]. apply exec_bind_file, exec_ret, gone_handled. by destruct G.
  - intros t' Hh. rewrite decide_False by lia. by apply exec_ret.
Qed.
#[local] Hint Resolve ending_read_from_file : keeping.

Lemma ending_calc_crc32 f i st n : ending (push_calc_crc32_to_dio_queue conf f i st n).
Proof. unfold push_calc_crc32_to_dio_queue. do 2 (apply ending_bind; [keepings|intros _]). apply ending_read_from_file. Qed.
#[local] Hint Resolve ending_calc_crc32 : keeping.

Lemma ending_push d : d <> Deal_dio_write_file -> d <> Deal_storage_do_sync_link_file ->
  StorageSteps.ending conf t0 (fun t => kept t0 t /\ dealing (Some d) t)
    (let! result := storage_dio_queue_push in ret (if decide (result <> 0) then result else STORAGE_STATUE_DEAL_FILE)).
Proof.
  intros Hd Hl t [K D]. apply ready_queue. unfold dealing in D. is_ready K.
  split; [intros [E _]; cbn in E; congruence|intros E; unfold linking in E; cbn in E; congruence].
Qed.

Lemma ending_deal d k : StorageSteps.ending conf t0 (fun t => kept t0 t /\ dealing d t) (k tt) -> ending (bind (task (set_ci_deal_func d)) k).
Proof. apply ending_task. intros t K. split; [|done]. revert t K. keeps_it. Qed.

Lemma ending_either (Q : Task -> Prop) c : ending c -> StorageSteps.ending conf t0 (fun t => kept t0 t /\ Q t) c.
Proof. apply ending_weaken. by intros t []. Qed.

Ltac end_step :=
  lazymatch goal with
  | |- StorageSteps.ending _ _ _ (bind (ret _) _) => apply ending_bind_ret
  | |- StorageSteps.ending _ _ _ (bind (bind _ _) _) => apply ending_assoc
  | |- StorageSteps.ending _ _ _ (bind (task (set_ci_deal_func _)) _) => apply ending_deal
  | |- StorageSteps.ending _ _ _ (bind storage_dio_queue_push _) => apply ending_push; by repeat case_match
  | |- StorageSteps.ending _ _ _ (storage_do_delete_file _ _ _) => apply ending_delete_file; by repeat case_match
  | |- StorageSteps.ending _ _ _ (bind _ _) => apply ending_bind; [keepings|intros ?]
  | |- StorageSteps.ending _ _ _ (if decide _ then _ else _) => case_decide
  | |- StorageSteps.ending _ _ _ (if ?b then _ else _) => first [apply ending_if | destruct b]
  | |- StorageSteps.ending _ _ _ (match ?x with _ => _ end) => destruct x
  | |- StorageSteps.ending _ _ _ (ret _) => first [apply ending_ret | apply ending_either, ending_ret]
  | |- StorageSteps.ending _ _ _ (storage_write_to_file _ _ _ _ _ _ _ _) => apply ending_write_to_file; [naive_solver|done]
  | |- StorageSteps.ending _ _ _ _ => first [solve [eauto with keeping] | apply ending_tail; solve [keepings] | apply ending_either, ending_tail; solve [keepings]]
  end.
Ltac endings := cbv zeta; repeat (end_step; cbv zeta).

(** ** Each of them. *)
Lemma ending_active_test : ending storage_deal_active_test.
Proof. unfold storage_deal_active_test. endings. Qed.
Lemma ending_report_server_id : ending storage_server_report_server_id.
Proof. unfold storage_server_report_server_id. endings. Qed.
Lemma ending_sync_append : ending (storage_sync_append_file conf).
Proof.
  unfold storage_sync_append_file, discard_range. repeat (end_step; cbv zeta;
    try lazymatch goal with |- StorageSteps.ending _ _ _ (bind (if ?b then _ else _) _) => destruct b end).
Qed.
Lemma ending_sync_modify : ending (storage_sync_modify_file conf).
Proof.
  unfold storage_sync_modify_file, discard_range. repeat (end_step; cbv zeta;
    try lazymatch goal with |- StorageSteps.ending _ _ _ (bind (if ?b then _ else _) _) => destruct b end).
Qed.
Lemma ending_sync_truncate : ending (storage_sync_truncate_file conf).
Proof. unfold storage_sync_truncate_file. endings. Qed.
Lemma ending_sync_rename : ending (storage_sync_rename_file conf).
Proof. unfold storage_sync_rename_file. endings. Qed.
Lemma ending_download : ending (storage_server_download_file conf).
Proof. unfold storage_server_download_file. endings. Qed.
Lemma ending_get_metadata : ending (storage_server_get_metadata conf).
Proof. unfold storage_server_get_metadata. endings. Qed.
Lemma ending_upload b : ending (storage_upload_file conf b).
Proof. unfold storage_upload_file. endings. Qed.
Lemma ending_upload_slave : ending (storage_upload_slave_file conf).
Proof. unfold storage_upload_slave_file. endings. Qed.
Lemma ending_append : ending (storage_append_file conf).
Proof. unfold storage_append_file. endings. Qed.
Lemma ending_modify : ending (storage_modify_file conf).
Proof. unfold storage_modify_file. endings. Qed.
Lemma ending_truncate : ending (storage_do_truncate_file conf).
Proof. unfold storage_do_truncate_file. endings. Qed.
Lemma ending_query : ending (storage_server_query_file_info conf).
Proof. unfold storage_server_query_file_info, query_file_info_deal_response, query_file_info_response. endings. Qed.
Lemma ending_regenerate : ending (storage_server_regenerate_appender_filename conf).
Proof. unfold storage_server_regenerate_appender_filename. endings. Qed.
Lemma dealing_delete_source d l i : StorageSteps.keeping (dealing d) (delete_slave_source conf l i).
Proof. unfold delete_slave_source. keepings. Qed.
Lemma kept_delete_source l i : keeping (delete_slave_source conf l i).
Proof. unfold delete_slave_source. keepings. Qed.
#[local] Hint Resolve dealing_delete_source kept_delete_source : keeping.
Lemma ending_sync_delete : ending (storage_sync_delete_file conf).
Proof. unfold storage_sync_delete_file. endings. Qed.
Lemma ending_delete : ending (storage_server_delete_file conf).
Proof. unfold storage_server_delete_file. endings. Qed.
Lemma ending_set_metadata : ending (storage_server_set_metadata conf).
Proof. unfold storage_server_set_metadata. endings. Qed.
Lemma ending_create_link : ending (storage_create_link conf).
Proof. unfold storage_create_link, choose_dio_thread. endings. Qed.

End handlers.

(** ** A copy and a link. *)

(** One step of following a handler. *)
Ltac walk_step :=
  lazymatch goal with
  | |- exec _ (bind (bind _ _) _) _ => apply exec_bind_assoc
  | |- exec _ (bind (ret _) _) _ => apply exec_bind_ret
  | |- exec _ (bind CHECK_AND_WRITE_TO_STAT_FILE1 _) _ => apply exec_bind_stat_file; intros ?
  | |- exec _ (bind (task _) _) _ => apply exec_bind_task
  | |- exec _ (bind (file _) _) _ => apply exec_bind_file; cbv beta; rewrite ?with_context_twice, ?with_context_get
  | |- exec _ (bind (upload _) _) _ => apply exec_bind_file; cbv beta; rewrite ?with_context_twice, ?with_context_get
  | |- exec _ (bind (the_task _) _) _ => apply exec_bind_the_task
  | |- exec _ (bind (the_file _) _) _ => apply exec_bind_the_task
  | |- exec _ (bind (if decide _ then _ else _) _) _ => case_decide
  | |- exec _ (bind (if _ then _ else _) _) _ => first [apply exec_bind_if; intros ?; try done | case_match]
  | |- exec _ (bind (match ?x with _ => _ end) _) _ => destruct x eqn:?
  | |- exec _ (if decide _ then _ else _) _ => case_decide
  | |- exec _ (if _ then _ else _) _ => first [apply exec_if; intros ?; try done | case_match]
  | |- exec _ (match ?x with _ => _ end) _ => destruct x eqn:?
  | |- exec _ (ret _) _ => apply exec_ret
  | |- exec _ (let '(_, _) := ?x in _) _ => destruct x eqn:?
  | |- exec _ (bind _ _) _ => apply exec_bind_still; [by eauto with still|intros ?]
  | |- exec _ _ _ => apply exec_still; [by eauto with still|intros ?]
  end.
Ltac walk := repeat (walk_step || (progress cbn beta iota zeta)).

#[export] Hint Resolve still_log_file still_utimes still_rename_temp still_count_failed : still.

Section copy.
Context `{FastCommon} (conf : StorageConf).

(** The end of a copy. *)
Definition ended (t t' : Task) : Prop :=
  answered t' /\ ci_file_context t' = ci_file_context t /\ ci_stage t' = ci_stage t /\ tk_size t' = tk_size t.

Lemma exec_copy_callback t r : movable t -> exec t (storage_sync_copy_file_done_callback conf r) (fun _ => ended t).
Proof.
  intros Hm. unfold storage_sync_copy_file_done_callback, stat_sync_in, CHECK_AND_WRITE_TO_STAT_FILE1_WITH_BYTES.
  walk; (apply exec_notify_answer; [done|by intros t' ? ? ? ?]).
Qed.

Lemma exec_next_seq {A} t (k : Z -> M Serving A) Q : (forall q, 0 <= q -> exec t (k q) Q) ->
  exec t (bind (gets (fun s => s_temp_file_sequence (s_service s))) (fun q =>
    service (set_s_temp_file_sequence (q + 1)) ;; k q)) Q.
Proof. intros Hk s Es Hs. rewrite !bind_run. apply (Hk (seq_of s)); [done..|]. unfold seq_of in *. cbn. lia. Qed.

Lemma exec_make_temp t count i : exec t (make_temp_file conf count i) (fun made t' =>
  exists n, (made = true -> is_temp n) /\ t' = with_context (set_fc_filename n (ci_file_context t)) t).
Proof.
  revert t. induction count as [|count IH]; intros t; cbn [make_temp_file].
  { apply exec_ret. exists (fc_filename (ci_file_context t)). split; [done|]. by destruct t as [? ? ? ? ? ? ? ? ? ? []]. }
  apply exec_next_seq. intros q Hq. cbv zeta. fold (temp_name (path_of conf i) q).
  assert (is_temp (temp_name (path_of conf i) q)) as Ht by (by exists (path_of conf i), q).
  walk; eauto; (eapply exec_weaken; [apply IH|]); intros made t' (n & Hn & ->); eauto.
Qed.

(** Only the file context has changed. *)
Definition only_context (P : StorageFileContext -> Prop) (t t' : Task) : Prop := exists c, t' = with_context c t /\ P c.

Lemma exec_look_for_copy t a b c d : exec t (look_for_copy conf a b c d) (fun _ => only_context (fun _ => True) t).
Proof.
  unfold look_for_copy. walk; rewrite ?with_context_twice, ?with_context_get; unfold only_context; eauto.
Qed.

(** The place chosen for a copy. *)
Definition placed (r : Z + Z * CleanFunc) (c : StorageFileContext) : Prop :=
  match r with
  | inl _ => True
  | inr (offset, clean) =>
     if Z.land (up_file_type (fc_upload c)) FILE_TYPE_TRUNK =? 0
     then offset = 0 /\ clean = Clean_dio_write /\ is_temp (fc_filename c) /\ fc_open_flags c = O_WRONLY_CREAT_TRUNC /\
          up_before_open_callback (fc_upload c) = None /\ up_before_close_callback (fc_upload c) = None
     else True
  end.

Lemma exec_place_for_copy t h i : exec t (place_for_copy conf h i) (fun r => only_context (fun c =>
  fc_op c = fc_op (ci_file_context t) /\ placed r c) t).
Proof.
  unfold place_for_copy. walk; rewrite ?with_context_twice, ?with_context_get.
  - eexists. split; [done|]. cbn. by destruct (Z.land _ _ =? 0).
  - eapply exec_bind; [apply exec_make_temp|]. intros made t' (n & Hn & ->). walk; eexists; (split; [done|]); cbn; [done|].
    destruct made; [|done]. destruct (Z.land _ _ =? 0); auto 10.
Qed.

(** A context that a copy may start from. *)
Definition copy_from (c : StorageFileContext) (off : Z) (deal : DealFunc) (clean : option CleanFunc) : Prop :=
  deal = Deal_dio_write_file -> Z.land (up_file_type (fc_upload c)) FILE_TYPE_TRUNK = 0 ->
  off = 0 /\ clean = Some Clean_dio_write /\ is_temp (fc_filename c) /\ fc_open_flags c = O_WRONLY_CREAT_TRUNC /\
  up_before_open_callback (fc_upload c) = None /\ up_before_close_callback (fc_upload c) = None /\
  fc_op c = FDFS_STORAGE_FILE_OP_WRITE.

Lemma placed_copy_from r c off deal clean : placed r c -> (fc_op c =? FDFS_STORAGE_FILE_OP_WRITE) = true ->
  match r with inl e => inl e | inr (offset, clean) => inr (offset, Deal_dio_write_file, Some clean) end = inr (A := Z) (off, deal, clean) ->
  (deal = Deal_dio_write_file /\ clean <> None \/ deal = Deal_dio_discard_file) /\ copy_from c off deal clean.
Proof.
  destruct r as [e|[off' clean']]; [done|]. cbn. intros Hp Ho [= <- <- <-]. split; [by left|]. intros _ Ht. rewrite Ht in Hp.
  apply Z.eqb_eq in Ho. cbn in Hp. intuition congruence.
Qed.

Section handler.
Context (t0 : Task) (at_socket : tk_place t0 = AtSocket) (first : ci_total_offset t0 = tk_length t0).

Lemma exec_start_copy c off deal clean i :
  let n := name_len_in (tk_data t0) in let size := size_in (tk_data t0) in
  deal = Deal_dio_write_file /\ clean <> None \/ deal = Deal_dio_discard_file ->
  0 <= n < 128 -> 0 <= size -> ci_total_length t0 = 46 + n + size ->
  fc_calc_crc32 c = false -> fc_fname2log c = cstr (name_in (tk_data t0)) -> fc_continue_callback c = Continue_nio_notify ->
  copy_from c off deal clean ->
  exec (with_context c t0) (storage_write_to_file conf off size (46 + n) deal Done_sync_copy_file clean i) (handled conf t0).
Proof.
  cbv zeta. intros Hd Hn Hsize Htotal Hcrc Hname Hcont Hfrom. unfold storage_write_to_file, choose_dio_thread. prepare.
  unfold storage_dio_queue_push. apply exec_bind_assoc, exec_bind_task, exec_bind_assoc, exec_bind_still; [auto with still|]. intros e.
  cbn. rewrite ?Hcrc. cbn.
  case_decide; (apply exec_bind_assoc, exec_bind_move; [by unfold movable; cbn; rewrite at_socket|]); apply exec_bind_ret, exec_ret;
    (split; [done|]); (split; [intros B; by apply begun_lor|]); [done|]. cbn. split; [done|]. split; [|split].
  - intros E. unfold linking in E. cbn in E. destruct Hd as [[-> _]| ->]; congruence.
  - intros [Ed _]. cbn in Ed. split; [done|]. split; [|split; [split; cbn; auto|split; [done|lia]]]. assert (deal = Deal_dio_write_file) as -> by congruence.
    destruct Hd as [[_ Hc]|]; [|done]. split; cbn; try done; try lia.
  - intros [[Ed _] Ht]. cbn in Ed, Ht. assert (deal = Deal_dio_write_file) as -> by congruence.
    destruct (Hfrom eq_refl Ht) as (-> & -> & ? & ? & ? & ? & ?). split; cbn; auto; try lia.
    split; cbn; auto; lia.
Qed.

(** The task is at its socket. *)
Lemma at_socket_handled t r : tk_size t = tk_size t0 -> ci_stage t = ci_stage t0 -> tk_place t = AtSocket ->
  same_buffer t0 t -> handled conf t0 r t.
Proof. intros E1 E2 Hp Hb. split; [done|]. split; [by apply begun_same|]. by rewrite Hp. Qed.

Ltac unhandled := apply at_socket_handled; [done|done|done|split; cbn; solve [auto | right; lia]].

Lemma exec_copy_file cmd : exec t0 (storage_sync_copy_file conf cmd) (handled conf t0).
Proof.
  unfold storage_sync_copy_file, set_timestamp. apply exec_bind_the_task. cbv zeta. unfold id.
  destruct (znth 0 (tk_data t0) 9 =? 0);
  walk; try (eapply exec_bind; [apply exec_look_for_copy|]; intros r t' (c & -> & Hc); rewrite ?with_context_twice; cbn in Hc; walk);
   try (eapply exec_bind; [apply exec_place_for_copy|]; intros r' t' (c' & -> & Ho & Hc'); rewrite ?with_context_twice; cbn in Ho, Hc'; walk);
   try (eapply exec_bind; [apply exec_copy_callback; unfold movable; cbn; by rewrite at_socket|]; intros [] t' (Ha & Hend & Hst & Hz); walk).
  all: try unhandled.
  all: try (split; [done|]; split; [by apply begun_same|]; rewrite (an_place _ Ha); done).
  all: try match goal with Hp : placed _ _, E : _ = inr (_, _, _) |- _ =>
      destruct (placed_copy_from _ _ _ _ _ Hp ltac:(rewrite Ho; (reflexivity || assumption)) E) as [Hd Hfrom] end.
  all: apply exec_start_copy; unfold name_len_in, size_in, long_in, bad_length, filename_size, in_length in *;
    change (Z.to_nat 10) with 10%nat in *; change (Z.to_nat 18) with 18%nat in *; auto; try lia; try done.
Qed.

Lemma exec_link_file : exec t0 (storage_sync_link_file conf) (handled conf t0).
Proof.
  unfold storage_sync_link_file, set_timestamp, choose_dio_thread. walk; try unhandled.
  unfold storage_dio_queue_push. apply exec_bind_assoc, exec_bind_task, exec_bind_assoc, exec_bind_still; [auto with still|]. intros e.
  case_decide; (apply exec_bind_assoc, exec_bind_move; [by unfold movable; cbn; rewrite at_socket|]); apply exec_bind_ret, exec_ret;
    (split; [done|]); (split; [intros B; by apply begun_lor|]); [done|]. cbn. split; [done|].
  split; [|split; [by intros [[=] _]|by intros [[[=] _] _]]].
  intros _ len name i. unfold field, long_in, id in *. cbn. intros E.
  match goal with E' : _ = inr _ |- _ => rewrite E' in E; injection E as <- <- <- end. eauto.
Qed.

Lemma exec_deal_command cmd c : deal_command conf cmd = Some c -> exec t0 c (handled conf t0).
Proof.
  unfold deal_command. intros E. repeat case_match; simplify_eq;
    try (by apply exec_copy_file || by apply exec_link_file);
    match goal with |- exec t0 ?c (handled conf t0) => enough (ending conf t0 (kept t0) c) as Hc by (apply Hc; by apply kept_start) end;
    auto using ending_active_test, ending_report_server_id, ending_sync_append, ending_sync_modify, ending_sync_truncate,
      ending_sync_rename, ending_sync_delete, ending_download, ending_get_metadata, ending_upload, ending_upload_slave, ending_append,
      ending_modify, ending_truncate, ending_query, ending_regenerate, ending_delete, ending_set_metadata, ending_create_link, ending_ret.
Qed.

End handler.
End copy.
