(* ===== verification/StorageStepsDisk.v ===== *)
(** * What the disk threads leave.

    The disk functions and the callbacks, followed through the task alone. *)

From S2P Require Import Prelude FastCommon TrunkShared SharedFunc StorePath TrunkMem StorageIds TrackerTypes FileSys SyncBinlog Net SyncReader SyncPeer DataFiles StorageTask StorageDio StorageSyncIn StorageUpload StorageClient StorageLink StorageServe DataInv StorageNames StorageSafeDisk StorageSteps StorageHandled.

Local Open Scope c_scope.

(** ** A task that is away stays away. *)
Section away.
Context `{FastCommon} (CRC32 : bytes -> Z -> Z) (conf : StorageConf) (n : Z).
Abbreviation keeping := (keeping (away n)).
Abbreviation sc := (service_callbacks conf).

Lemma away_stat_file : keeping CHECK_AND_WRITE_TO_STAT_FILE1.
Proof. intros t A. apply exec_stat_file. intros x. by destruct A. Qed.
Lemma away_notify : keeping storage_nio_notify.
Proof. unfold storage_nio_notify. keepings. Qed.
Lemma away_header x : keeping (put_header x).
Proof. unfold put_header. keepings. Qed.
#[local] Hint Resolve away_stat_file away_notify away_header : keeping.
Lemma away_answer x : keeping (notify_answer x).
Proof. unfold notify_answer. keepings. Qed.
Lemma away_name g f : keeping (notify_name g f).
Proof. unfold notify_name. keepings. Qed.
Lemma away_total x : keeping (notify_total x).
Proof. unfold notify_total. keepings. Qed.
Lemma away_overrun : keeping overrun.
Proof. keepings. Qed.
#[local] Hint Resolve away_answer away_name away_total away_overrun : keeping.

Lemma still_stat2 a b : still (CHECK_AND_WRITE_TO_STAT_FILE2 a b).
Proof. unfold CHECK_AND_WRITE_TO_STAT_FILE2. eauto 6 with still. Qed.
#[local] Hint Resolve still_stat2 : still.
Lemma still_stat3 a b : still (CHECK_AND_WRITE_TO_STAT_FILE3 a b).
Proof. unfold CHECK_AND_WRITE_TO_STAT_FILE3. eauto 6 with still. Qed.
#[local] Hint Resolve still_stat3 : still.
Lemma still_stat_bytes2 a b c d k : still (CHECK_AND_WRITE_TO_STAT_FILE2_WITH_BYTES a b c d k).
Proof. unfold CHECK_AND_WRITE_TO_STAT_FILE2_WITH_BYTES. eauto 6 with still. Qed.
Lemma still_stat_bytes3 a b c d k : still (CHECK_AND_WRITE_TO_STAT_FILE3_WITH_BYTES a b c d k).
Proof. unfold CHECK_AND_WRITE_TO_STAT_FILE3_WITH_BYTES. eauto 6 with still. Qed.
#[local] Hint Resolve still_stat_bytes2 still_stat_bytes3 : still.

(** *** The names. *)
Lemma away_gen_filename a b c d : keeping (storage_gen_filename conf a b c d).
Proof. unfold storage_gen_filename. keepings. Qed.
#[local] Hint Resolve away_gen_filename : keeping.
Lemma away_try_names k a b c d i : keeping (try_names conf k a b c d i).
Proof. induction k as [|k IH]; cbn [try_names]; keepings. Qed.
#[local] Hint Resolve away_try_names : keeping.
Lemma away_get_filename a b c d : keeping (storage_get_filename conf a b c d).
Proof. unfold storage_get_filename. keepings. Qed.
Lemma away_alloc_space : keeping trunk_client_trunk_alloc_space.
Proof. unfold trunk_client_trunk_alloc_space. keepings. Qed.
Lemma still_time_and_size : still (name_time_and_size conf).
Proof.
  unfold name_time_and_size. apply still_bind; [auto with still|]. intros c. cbv zeta. apply still_if.
  - apply still_bind; auto with still.
  - apply still_bind; [auto with still|]. intros st. apply still_bind; [auto with still|]. intros t. apply still_if; [|auto with still].
    apply still_bind; auto with still.
Qed.
#[local] Hint Resolve away_get_filename away_alloc_space : keeping.
#[local] Hint Resolve still_time_and_size : still.
Lemma away_slave a b : keeping (name_slave_file conf a b).
Proof. unfold name_slave_file, unlink_and. keepings. Qed.
#[local] Hint Resolve away_slave : keeping.
Lemma away_upload_done : keeping (storage_service_upload_file_done conf).
Proof. unfold storage_service_upload_file_done, give_name, storage_delete_file_auto, unlink_and. keepings. Qed.
#[local] Hint Resolve away_upload_done : keeping.

(** *** The callbacks. *)
Lemma away_log_range a b : keeping (log_range conf a b).
Proof. unfold log_range. keepings. Qed.
Lemma away_delete_meta : keeping (storage_do_delete_meta_file conf).
Proof. unfold storage_do_delete_meta_file. keepings. Qed.
Lemma away_answer_or_close e : keeping (answer_or_close e).
Proof. unfold answer_or_close, set_status. keepings. Qed.
Lemma away_rename_appender k : keeping (rename_appender conf k).
Proof. unfold rename_appender. keepings. Qed.
Lemma away_query_response a b c d : keeping (query_file_info_response conf a b c d).
Proof. unfold query_file_info_response. keepings. Qed.
#[local] Hint Resolve away_log_range away_delete_meta away_answer_or_close away_rename_appender away_query_response : keeping.

Lemma away_callback f r : keeping (@run_done_callback sc f r).
Proof.
  destruct f; cbn; unfold storage_sync_delete_file_done_callback, storage_sync_truncate_file_done_callback,
    storage_sync_copy_file_done_callback, storage_sync_modify_file_done_callback, stat_sync_in,
    CHECK_AND_WRITE_TO_STAT_FILE1_WITH_BYTES, storage_get_metadata_done_callback, storage_download_file_done_callback,
    storage_delete_fdfs_file_done_callback, storage_upload_file_done_callback, storage_append_file_done_callback,
    storage_modify_file_done_callback, storage_do_truncate_file_done_callback, storage_trunk_create_link_file_done_callback,
    calc_crc32_done_callback_for_query_finfo, calc_crc32_done_callback_for_regenerate, trunk_client_trunk_alloc_confirm,
    trunk_client_trunk_free_space; keepings.
Qed.
Lemma away_done r : keeping (@done_callback sc r).
Proof. unfold done_callback. keepings. apply away_callback. Qed.
Lemma away_continue : keeping continue_callback.
Proof. unfold continue_callback, storage_dio_queue_push. keepings. Qed.
#[local] Hint Resolve away_done away_continue : keeping.
(** *** The disk functions. *)
Lemma away_fd_seek x : keeping (fd_seek x).
Proof. unfold fd_seek, with_fd. keepings. Qed.
Lemma away_fd_write x : keeping (fd_write x).
Proof. unfold fd_write, with_fd. keepings. Qed.
Lemma away_fd_get x : keeping (fd_get x).
Proof. unfold fd_get, with_fd. keepings. Qed.
Lemma away_fd_truncate x : keeping (fd_truncate x).
Proof. unfold fd_truncate, with_fd. keepings. Qed.
Lemma away_close : keeping close_fd.
Proof. unfold close_fd. keepings. Qed.
#[local] Hint Resolve away_fd_seek away_fd_write away_fd_get away_fd_truncate away_close : keeping.

Lemma away_clean : keeping (clean_func conf).
Proof.
  unfold clean_func. keepings. destruct c; cbn; unfold dio_read_finish_clean_up, dio_write_finish_clean_up, dio_append_finish_clean_up,
    dio_modify_finish_clean_up, dio_trunk_write_finish_clean_up, if_open; keepings.
Qed.
Lemma away_write_failed r : keeping (@write_failed sc conf r).
Proof. unfold write_failed. keepings. apply away_clean. Qed.
Lemma still_check_and_init x : still (data_trunk_check_and_init_file conf x).
Proof.
  assert (forall y, still (data_trunk_wait_file_ready x y)) as Hw.
  { intros y. unfold data_trunk_wait_file_ready. apply still_bind; [auto with still|]. intros [e|st]; [auto with still|].
    apply still_if; [auto with still|]. apply still_bind; [auto with still|]. intros t. apply still_if; [auto with still|].
    apply still_bind; [auto with still|]. intros o. apply still_bind; [|auto with still]. apply still_service. done. }
  unfold data_trunk_check_and_init_file, data_trunk_init_file.
  repeat match goal with
  | |- still (bind _ _) => apply still_bind; [|intros ?]
  | |- still (match ?x with _ => _ end) => destruct x
  end; auto with still.
Qed.
#[local] Hint Resolve still_check_and_init : still.
Lemma away_open_file : keeping dio_open_file.
Proof. unfold dio_open_file. keepings. Qed.
#[local] Hint Resolve away_write_failed away_open_file : keeping.
Lemma away_open_for_write : keeping (open_for_write conf).
Proof. unfold open_for_write, before_open_callback, dio_check_trunk_file_when_upload, dio_check_trunk_file_when_sync, check_slot. keepings. Qed.
Lemma away_before_close : keeping before_close_callback.
Proof. unfold before_close_callback, dio_write_chunk_header. keepings. Qed.
#[local] Hint Resolve away_open_for_write away_before_close : keeping.

Lemma away_write_file : keeping (@dio_write_file _ sc CRC32 conf).
Proof. unfold dio_write_file. cbv zeta. keepings. Qed.
Lemma away_truncate_file : keeping (@dio_truncate_file _ sc conf).
Proof. unfold dio_truncate_file. keepings. Qed.
Lemma away_discard_file : keeping (@dio_discard_file sc).
Proof. unfold dio_discard_file. keepings. Qed.
Lemma away_read_file : keeping (@dio_read_file sc CRC32).
Proof. unfold dio_read_file. cbv zeta. keepings. Qed.
Lemma away_delete_normal : keeping (@dio_delete_normal_file sc).
Proof. unfold dio_delete_normal_file. keepings. Qed.
Lemma away_delete_trunk : keeping (@dio_delete_trunk_file sc conf).
Proof. unfold dio_delete_trunk_file. keepings. Qed.
#[local] Hint Resolve away_write_file : keeping.

(** *** Metadata and links. *)
Lemma away_set_metadata : keeping (storage_do_set_metadata conf).
Proof. unfold storage_do_set_metadata, overwrite_metadata, update_metadata, write_metadata, storage_set_metadata_done_callback. keepings. Qed.
Lemma away_trunk_do_create_link a b c d : d <> Some Done_sync_copy_file -> keeping (@storage_trunk_do_create_link _ sc CRC32 conf a b c d).
Proof. intros Hd. unfold storage_trunk_do_create_link, choose_dio_thread. keepings. Qed.
Lemma away_trunk_create_link a b c : keeping (@storage_trunk_create_link _ sc CRC32 conf a b c).
Proof. unfold storage_trunk_create_link. keepings. by apply away_trunk_do_create_link. Qed.
Lemma away_service_create_link a b c d : keeping (storage_service_do_create_link conf a b c d).
Proof. unfold storage_service_do_create_link. keepings. Qed.
Lemma away_slave_link a b c d : keeping (slave_link_name conf a b c d).
Proof. unfold slave_link_name. keepings. Qed.
#[local] Hint Resolve away_trunk_create_link away_service_create_link away_slave_link : keeping.
Lemma away_create_link_core a b c d e f : keeping (@storage_create_link_core _ sc CRC32 conf a b c d e f).
Proof. unfold storage_create_link_core. cbv zeta. keepings. Qed.
#[local] Hint Resolve away_create_link_core : keeping.
Lemma away_do_create_link : keeping (@storage_do_create_link _ sc CRC32 conf).
Proof. unfold storage_do_create_link, do_create_link. cbv zeta. keepings. Qed.

(** Whatever a disk thread does for a request of a client. *)
Lemma away_deal_func t : away n t -> exec t (deal_func CRC32 conf) (fun _ => away n).
Proof.
  intros A. unfold deal_func. apply exec_bind_the_task. pose proof (aw_quiet _ _ A) as [_ Q]. unfold linking in Q.
  destruct (ci_deal_func t) as [[]|]; try done; try (by apply exec_ret);
    revert t A Q; match goal with |- forall t, _ -> _ -> exec t ?c _ => enough (keeping c) as Hc by (intros; by apply Hc) end;
    auto using away_read_file, away_write_file, away_truncate_file, away_discard_file, away_delete_normal, away_delete_trunk,
      away_set_metadata, away_do_create_link.
Qed.
End away.

(** ** A request of another server. *)
Section written.
Context `{FastCommon} (CRC32 : bytes -> Z -> Z) (conf : StorageConf).
Abbreviation sc := (service_callbacks conf).

(** Nothing changes but the descriptor. *)
Definition set_fd (fd : option OpenFile) (t : Task) : Task := with_context (set_fc_fd fd (ci_file_context t)) t.
Definition only_fd {A} (c : M Serving A) : Prop := forall t, exec t c (fun _ t' => exists fd, t' = set_fd fd t).

Lemma set_fd_same t : set_fd (fc_fd (ci_file_context t)) t = t.
Proof. by destruct t as [? ? ? ? ? ? ? ? ? ? []]. Qed.

Lemma only_fd_still {A} (c : M Serving A) : still c -> only_fd c.
Proof. intros Hc t. apply exec_still; [done|]. intros a. eexists. symmetry. apply set_fd_same. Qed.

Lemma only_fd_bind {A B} (c : M Serving A) (k : A -> M Serving B) : only_fd c -> (forall a, only_fd (k a)) -> only_fd (bind c k).
Proof.
  intros Hc Hk t. eapply exec_bind; [apply Hc|]. intros a t' [fd ->]. eapply exec_weaken; [apply Hk|].
  intros b t' [fd' ->]. by exists fd'.
Qed.

Lemma only_fd_if {A} (b : bool) (c c' : M Serving A) : only_fd c -> only_fd c' -> only_fd (if b then c else c').
Proof. by destruct b. Qed.

Lemma only_fd_set fd : only_fd (file (set_fc_fd fd)).
Proof. intros t. apply exec_task. by exists fd. Qed.

Create HintDb only_fd.
#[local] Hint Resolve only_fd_set : only_fd.
#[local] Hint Resolve still_check_and_init : still.
#[local] Hint Extern 5 (only_fd _) => apply only_fd_still; solve [eauto with still] : only_fd.

Ltac only_fds := repeat match goal with
  | |- only_fd (bind _ _) => apply only_fd_bind; [|intros ?]
  | |- only_fd (if decide _ then _ else _) => case_decide
  | |- only_fd (if _ then _ else _) => apply only_fd_if
  | |- only_fd (match ?x with _ => _ end) => destruct x
  | |- only_fd (let '(_, _) := ?x in _) => destruct x
  end; eauto with only_fd.

Lemma only_fd_with_fd {A} (bad : A) k : (forall fd, only_fd (k fd)) -> only_fd (with_fd bad k).
Proof. intros Hk. unfold with_fd. only_fds. Qed.

Lemma only_fd_seek off : only_fd (fd_seek off).
Proof. apply only_fd_with_fd. intros fd. only_fds. Qed.
Lemma only_fd_write b : only_fd (fd_write b).
Proof. apply only_fd_with_fd. intros fd. only_fds. Qed.
Lemma only_fd_get n : only_fd (fd_get n).
Proof. apply only_fd_with_fd. intros fd. only_fds. Qed.
Lemma only_fd_close : only_fd close_fd.
Proof. apply only_fd_set. Qed.
#[local] Hint Resolve only_fd_seek only_fd_write only_fd_get only_fd_close : only_fd.

Lemma only_fd_open_file : only_fd dio_open_file.
Proof. unfold dio_open_file. only_fds. Qed.
#[local] Hint Resolve only_fd_open_file : only_fd.

Lemma only_fd_open_for_write : only_fd (open_for_write conf).
Proof.
  unfold open_for_write, before_open_callback, dio_check_trunk_file_when_upload, dio_check_trunk_file_when_sync, check_slot. only_fds.
Qed.

Lemma only_fd_before_close : only_fd before_close_callback.
Proof. unfold before_close_callback, dio_write_chunk_header. only_fds. Qed.

Lemma only_fd_clean : only_fd (clean_func conf).
Proof.
  assert (forall x, only_fd (fd_truncate x)) by (intros x; apply only_fd_with_fd; intros fd; only_fds).
  unfold clean_func. only_fds. destruct c; cbn; unfold dio_read_finish_clean_up, dio_write_finish_clean_up, dio_append_finish_clean_up,
    dio_modify_finish_clean_up, dio_trunk_write_finish_clean_up, if_open; only_fds.
Qed.

(** What the callback finds at the end. *)
Record closing (t t1 : Task) : Prop := {
  cl_done : fc_done_callback (ci_file_context t1) = fc_done_callback (ci_file_context t);
  cl_place : tk_place t1 = tk_place t;
  cl_stage : ci_stage t1 = ci_stage t;
  cl_size : tk_size t1 = tk_size t;
}.

Definition calls_back (t : Task) (R : Task -> Prop) : Prop :=
  forall t1 r, closing t t1 -> exec t1 (@done_callback sc r) (fun _ => R).

Lemma exec_write_failed fd t r R : calls_back t R -> exec (set_fd fd t) (@write_failed sc conf r) (fun _ => R).
Proof.
  intros Hd. unfold write_failed. eapply exec_bind; [by apply only_fd_clean|]. intros [] t' [fd' ->].
  eapply exec_bind; [by apply Hd|]. intros [] t' He. by apply exec_ret.
Qed.

(** What a piece leaves: the answer, or the task as it was, further on. *)
Definition further (fd : option OpenFile) (crc n : Z) (c : StorageFileContext) : StorageFileContext :=
  set_fc_buff_offset 0 (set_fc_offset (fc_offset c + n) (set_fc_crc32 crc (set_fc_fd fd c))).

Definition went_on (t t' : Task) : Prop :=
  let c := ci_file_context t in let n := tk_length t - fc_buff_offset c in
  fc_offset c + n < fc_end c /\ exists fd crc, t' = set_tk_place InPipe (with_context (further fd crc n c) t).

(** The task comes back with the answer. *)
Definition answer_ready (t t' : Task) : Prop := answered t' /\ ci_stage t' = ci_stage t /\ tk_size t' = tk_size t.

Lemma callback_ready t : movable t -> fc_done_callback (ci_file_context t) = Some Done_sync_copy_file -> calls_back t (answer_ready t).
Proof.
  intros Hm Hd t1 r [C1 C2 C3 C4]. unfold done_callback. apply exec_bind_the_task. rewrite C1, Hd. cbn.
  eapply exec_weaken; [apply exec_copy_callback|].
  - unfold movable in *. by rewrite C2.
  - intros [] t' (Ha & Hc & Hs & Hz). split; [done|]. split; congruence.
Qed.

Lemma exec_bind_crc {B} t (b : StorageFileContext -> bool) (f : StorageFileContext -> Z) (k : unit -> M Serving B) Q :
  (forall crc, exec (with_context (set_fc_crc32 crc (ci_file_context t)) t) (k tt) Q) ->
  exec t (bind (file (fun c => if b c then set_fc_crc32 (f c) c else c)) k) Q.
Proof.
  intros Hk. apply exec_bind_file. destruct (b _); [apply Hk|].
  specialize (Hk (fc_crc32 (ci_file_context t))). by destruct t as [? ? ? ? ? ? ? ? ? ? []].
Qed.

Lemma exec_write t R : movable t -> fc_continue_callback (ci_file_context t) = Continue_nio_notify -> calls_back t R ->
  exec t (@dio_write_file _ sc CRC32 conf) (fun _ t' => R t' \/ went_on t t').
Proof.
  intros Hm Hc Hd. unfold dio_write_file, continue_callback, storage_nio_notify.
  assert (forall fd r, exec (set_fd fd t) (@write_failed sc conf r) (fun _ t' => R t' \/ went_on t t')) as Hfail.
  { intros fd r. eapply exec_weaken; [by apply exec_write_failed|]. intros a t' He. by left. }
  eapply exec_bind; [apply only_fd_open_for_write|]. intros r t' [fd ->]. case_decide; [apply Hfail|].
  apply exec_bind_the_task. cbv zeta. unfold id. eapply exec_bind; [apply only_fd_write|]. intros e t' [fd' ->].
  change (set_fd fd' (set_fd fd t)) with (set_fd fd' t).
  apply exec_bind_still; [auto with still|]. intros _. case_decide; [apply Hfail|].
  apply exec_bind_still; [auto with still|]. intros _. apply exec_bind_crc. intros crc.
  apply exec_bind_file. apply exec_bind_the_task. apply exec_if; intros Hoff.
  - apply exec_bind_file. apply exec_bind_assoc, exec_bind_the_task. cbn. rewrite Hc. cbn.
    repeat apply exec_bind_assoc. apply exec_bind_move; [done|]. repeat apply exec_bind_ret. apply exec_ret. right.
    split; [cbn in Hoff; lia|]. by exists fd', crc.
  - apply exec_bind_crc. intros crc'. eapply exec_bind; [apply only_fd_before_close|]. intros r' t' [fd'' ->].
    apply exec_bind_file. eapply exec_bind; [by apply Hd|]. intros [] t' He. apply exec_ret. by left.
Qed.

(** A link is made in one go, and its callback is none. *)
Record linked (t t' : Task) : Prop := {
  li_place : movable t';
  li_stage : ci_stage t' = ci_stage t;
  li_size : tk_size t' = tk_size t;
}.

Lemma exec_create_link t n p b : movable t -> tk_length t = p + n ->
  exec t (@storage_trunk_do_create_link _ sc CRC32 conf n p b None) (fun _ => linked t).
Proof.
  intros Hm Hn. unfold storage_trunk_do_create_link, choose_dio_thread. walk.
  eapply exec_weaken; [apply (exec_write _ (linked t)); [done..|]|].
  - intros t1 r [C1 C2 C3 C4]. unfold done_callback. apply exec_bind_the_task. rewrite C1. cbn. apply exec_ret.
    split; [|done|done]. unfold movable. by rewrite C2.
  - intros a t' [Hl|(Hw & _)]; [done|]. cbn in Hw. lia.
Qed.

Lemma exec_make_link t i n x l j m h : movable t -> exec t (@make_link _ sc CRC32 conf i n x l j m h) (fun _ => linked t).
Proof.
  intros Hm. unfold make_link. walk; try done.
  eapply exec_bind; [apply exec_create_link; [done|cbn; lia]|]. intros r t' [L2 L3 L4]. by apply exec_ret.
Qed.

Lemma exec_look_for_link t i n l j m k : exec t (look_for_link conf i n l j m k) (fun _ => only_context (fun _ => True) t).
Proof. unfold look_for_link, only_context. walk; (eexists; split; [done|]); done. Qed.

Lemma exec_link t : movable t -> exec t (@storage_do_sync_link_file _ sc CRC32 conf) (fun _ => answer_ready t).
Proof.
  intros Hm. unfold storage_do_sync_link_file. apply exec_bind_the_task, exec_bind_task.
  eapply (exec_bind _ _ _ (fun _ => linked t)).
  - unfold do_sync_link, storage_binlog. walk; try done.
    eapply exec_bind; [apply exec_look_for_link|]. intros r t' (c & -> & _). apply exec_bind_if; intros _.
    + eapply exec_bind; [by apply exec_make_link|]. intros r' t' [L2 L3 L4]. walk; done.
    + walk; done.
  - intros r t' [L2 L3 L4]. walk.
    apply (exec_bind _ _ _ (fun _ => ended (set_ci_pSrcStorage x t'))); [apply exec_notify_answer; [done|]|].
    + by intros t'' Ha Hc Hs Hz.
    + intros [] t'' (Ha & Hc & Hs & Hz). apply exec_ret. split; [done|]. cbn in *. split; congruence.
Qed.

(** ** Everything a disk thread does. *)
Lemma exec_deal_func t : movable t -> writing t \/ linking t -> (writing t -> queued t) ->
  exec t (deal_func CRC32 conf) (fun _ t' => answer_ready t t' \/ writing t /\ went_on t t').
Proof.
  intros Hm Hs Hq. unfold deal_func. apply exec_bind_the_task. destruct Hs as [Hw|Hl].
  - pose proof Hw as [-> Hd]. destruct (Hq Hw). eapply exec_weaken; [apply exec_write; [done|done|by apply callback_ready]|].
    intros r t' [Ht|Ht]; auto.
  - rewrite Hl. eapply exec_weaken; [by apply exec_link|]. auto.
Qed.

End written.
