(* ===== verification/StorageCopy.v ===== *)
(** * The disk threads write a copy.

    A file received from another server is written under a temporary name; what
    is visible, the files of all other names, changes only when it is complete. *)

From S2P Require Import Prelude FastCommon TrunkShared TrunkMem StorageIds TrackerTypes FileSys SyncBinlog Net SyncReader SyncPeer DataFiles StorageTask StorageDio StorageSyncIn StorageServe DataInv StorageNames StorageSafe StorageSteps StorageHandled StorageStepsDisk.

Local Open Scope c_scope.

(** ** Visible files. *)
Definition unseen (fs fs' : DataFs) : Prop := forall n, ~ is_temp n -> content fs' n = content fs n.

Lemma unseen_refl fs : unseen fs fs.
Proof. done. Qed.
Lemma unseen_trans fs1 fs2 fs3 : unseen fs1 fs2 -> unseen fs2 fs3 -> unseen fs1 fs3.
Proof. intros H1 H2 n Hn. by rewrite H2, H1. Qed.
#[export] Hint Resolve unseen_refl : unseen.

Lemma unseen_faults fs l : unseen fs (set_d_faults l fs).
Proof. done. Qed.

(** The temporary name [n] leads to [ino], which holds [b], and no other name does. *)
Record holding (fs : DataFs) (n : bytes) (ino : nat) (b : bytes) : Prop := {
  ho_temp : is_temp n;
  ho_name : d_names fs !! n = Some ino;
  ho_data : exists t, d_inodes fs !! ino = Some (mkInode (Regular b) t);
  ho_alone m : d_names fs !! m = Some ino -> m = n;
}.

Lemma holding_faults fs n ino b l : holding fs n ino b -> holding (set_d_faults l fs) n ino b.
Proof. intros [H1 H2 H3 H4]. by split. Qed.

(** Whatever happens to that inode is not seen. *)
Lemma unseen_inode fs n ino b x : holding fs n ino b -> unseen fs (set_d_inodes (<[ino := x]> (d_inodes fs)) fs).
Proof.
  intros [H1 H2 H3 H4] m Hm. unfold content, inode_of. cbn. destruct (d_names fs !! m) as [j|] eqn:E; [|done]. cbn.
  rewrite list_lookup_insert_ne; [done|]. intros ->. apply H4 in E. by subst.
Qed.

Lemma holding_put fs n ino b b' : holding fs n ino b -> holding (put_data ino b' fs) n ino b'.
Proof.
  intros [H1 H2 [t H3] H4]. split; [done..| |done]. exists (d_clock fs). cbn.
  apply list_lookup_insert_eq. by eapply lookup_lt_Some.
Qed.

Lemma data_call_run fs : exists f l, data_call fs = (f, set_d_faults l fs) /\ (d_faults fs = [] -> f.1 = 0 /\ l = []).
Proof.
  unfold data_call. destruct fs as [names inodes clock [|f l]]; cbn; [by exists (0, 0%nat), []|]. by exists f, l.
Qed.

(** The fault of a call, and the state after it was taken. *)
Ltac call f l E := rewrite bind_run; match goal with |- context [data_call ?fs] =>
  destruct (data_call_run fs) as (f & l & E & ?); rewrite E; cbn [fst snd] end.

Lemma open_temp fs n : tidy fs -> is_temp n ->
  let r := data_open n O_WRONLY_CREAT_TRUNC fs in
  unseen fs r.2 /\ match r.1 with
                   | inl e => True
                   | inr fd => of_pos fd = 0 /\ of_append fd = false /\ holding r.2 n (of_inode fd) []
                   end.
Proof.
  intros T Hn. unfold data_open. call f l E. case_decide; [done|].
  rewrite bind_run. unfold gets. cbn [fst snd]. unfold id. set (fs1 := set_d_faults l fs).
  assert (tidy fs1) as T1 by (by destruct T). rewrite follow_temp by done.
  destruct (d_names fs1 !! n) as [i|] eqn:En.
  - destruct (tidy_regular fs1 T1 n i Hn En) as (data & t & Ei). rewrite Ei. cbn.
    assert (holding fs1 n i data) as Hh by (split; eauto using tidy_alone).
    split; [exact (unseen_inode fs1 n i data _ Hh)|]. split_and!; [done..|]. by eapply holding_put.
  - cbn. split.
    + intros m Hm. unfold content, inode_of. cbn. rewrite lookup_insert_ne by congruence.
      destruct (d_names fs !! m) as [j|] eqn:Em; [|done]. cbn. rewrite lookup_app_l; [done|]. by eapply (tidy_bound fs).
    + split_and!; [done..|]. split; cbn.
      * done.
      * by rewrite lookup_insert_eq.
      * exists (d_clock fs). by rewrite lookup_app_r, Nat.sub_diag by lia.
      * intros m [[<- _]|[? Em]]%lookup_insert_Some; [done|]. apply (tidy_bound fs) in Em; [lia|done].
Qed.

Lemma put_at_end (b d : bytes) : put_at (Z.of_nat (length b)) d b = b ++ d.
Proof.
  unfold put_at. rewrite Nat2Z.id. rewrite take_app_le by lia. rewrite firstn_all.
  rewrite drop_ge by lia. by rewrite app_nil_r.
Qed.

Lemma write_temp fs n fd b d : holding fs n (of_inode fd) b -> of_pos fd = Z.of_nat (length b) -> of_append fd = false ->
  let r := data_write fd d fs in
  unseen fs r.2 /\ of_inode r.1.2 = of_inode fd /\
  (r.1.1 = 0 -> of_pos r.1.2 = Z.of_nat (length (b ++ d)) /\ of_append r.1.2 = false /\ holding r.2 n (of_inode fd) (b ++ d)) /\
  exists b', holding r.2 n (of_inode fd) b'.
Proof.
  intros Hh Hp Ha. unfold data_write. call f l E. rewrite !bind_run. unfold gets, modify. cbn [fst snd ret].
  set (fs1 := set_d_faults l fs). assert (holding fs1 n (of_inode fd) b) as H1 by (by apply holding_faults).
  assert (file_data fs1 (of_inode fd) = b) as -> by (unfold file_data; by destruct (ho_data _ _ _ _ H1) as [t ->]).
  rewrite Ha, Hp, put_at_end. split; [exact (unseen_inode fs1 _ _ _ _ H1)|]. split; [done|]. split; [|eexists; by eapply holding_put].
  intros E0. rewrite decide_False by (by intros ?). split; [|split; [done|by eapply holding_put]]. cbn. rewrite length_app. lia.
Qed.

Lemma unlink_temp fs n : is_temp n -> unseen fs (data_unlink n fs).2.
Proof.
  intros Hn. unfold data_unlink. call f l E. case_decide; [done|]. rewrite bind_run. unfold gets. cbn [fst snd]. unfold id.
  set (fs1 := set_d_faults l fs). destruct (d_names fs1 !! n) eqn:En; [|done]. destruct (is_directory fs1 n); [done|].
  cbn. intros m Hm. unfold content, inode_of. cbn. rewrite lookup_delete_ne by congruence. done.
Qed.

Lemma utimes_temp fs n ino b t : holding fs n ino b ->
  unseen fs (data_utimes n t fs).2 /\ holding (data_utimes n t fs).2 n ino b.
Proof.
  intros Hh. unfold data_utimes. call f l E. assert (holding (set_d_faults l fs) n ino b) as H1 by (by apply holding_faults).
  case_decide; [done|]. unfold modify. cbn [fst snd]. set (fs1 := set_d_faults l fs) in *.
  assert (follow max_links fs1 n = inr n) as ->.
  { destruct H1 as [_ H2 [t' H3] _]. assert (inode_of fs1 n = Some (mkInode (Regular b) t')) as Ei by (unfold inode_of; by rewrite H2).
    unfold max_links. cbv beta iota delta [follow]. by rewrite Ei. }
  change (d_names (set_d_faults l fs)) with (d_names fs1).
  pose proof (ho_name _ _ _ _ H1) as ->. split.
  - intros m Hm. unfold content, inode_of. cbn. destruct (d_names fs !! m) as [j|] eqn:Em; [|done]. cbn.
    rewrite list_lookup_alter_ne; [done|]. intros ->. apply (ho_alone _ _ _ _ Hh) in Em. subst. by destruct Hm, Hh.
  - destruct H1 as [H1 H2 [t' H3] H4]. split; [done..| |done]. exists t. cbn. rewrite list_lookup_alter_eq. cbn in H3. by rewrite H3.
Qed.

Lemma rename_temp fs n ino b full : holding fs n ino b -> ~ is_temp full ->
  let r := data_rename n full fs in
  (r.1 <> 0 /\ unseen fs r.2) \/
  (r.1 = 0 /\ content r.2 full = Some b /\ forall m, ~ is_temp m -> m <> full -> content r.2 m = content fs m).
Proof.
  intros Hh Hf. unfold data_rename. call f l E. assert (holding (set_d_faults l fs) n ino b) as H1 by (by apply holding_faults).
  case_decide; [by left|]. rewrite bind_run. unfold gets. cbn [fst snd]. unfold id. set (fs1 := set_d_faults l fs) in *.
  rewrite (ho_name _ _ _ _ H1). destruct (is_directory fs1 full); [by left|]. right. cbn. split; [done|].
  destruct H1 as [H1 H2 [t' H3] H4]. split.
  - unfold content, inode_of. cbn. rewrite lookup_insert_eq. cbn. cbn in H3. by rewrite H3.
  - intros m Hm Hne. unfold content, inode_of. cbn. rewrite lookup_insert_ne by done. by rewrite lookup_delete_ne by congruence.
Qed.

(** ** With the task and the files. *)
Definition run {A} (t : Task) (R : DataFs -> Prop) (c : M Serving A) (Q : A -> Task -> DataFs -> Prop) : Prop :=
  forall s, s_task s = t -> R (fs_of s) -> Q (c s).1 (s_task (c s).2) (fs_of (c s).2).

(** Neither is touched. *)
Definition calm {A} (c : M Serving A) : Prop := forall s, s_task (c s).2 = s_task s /\ fs_of (c s).2 = fs_of s.

Lemma run_ret {A} t R (a : A) (Q : A -> Task -> DataFs -> Prop) : (forall fs, R fs -> Q a t fs) -> run t R (ret a) Q.
Proof. intros HQ s <- HR. by apply HQ. Qed.

Lemma run_bind {A B} t R (c : M Serving A) (k : A -> M Serving B) P Q :
  run t R c P -> (forall a t', run t' (P a t') (k a) Q) -> run t R (bind c k) Q.
Proof. intros Hc Hk s Es HR. rewrite bind_run. eapply Hk; [done|by apply Hc]. Qed.

Lemma run_weaken {A} t (R R' : DataFs -> Prop) (c : M Serving A) (Q Q' : A -> Task -> DataFs -> Prop) :
  run t R c Q -> (forall fs, R' fs -> R fs) -> (forall a t' fs, Q a t' fs -> Q' a t' fs) -> run t R' c Q'.
Proof. intros Hc HR HQ s Es Hs. apply HQ, Hc; auto. Qed.

Lemma run_bind_ret {A B} t R (a : A) (k : A -> M Serving B) Q : run t R (k a) Q -> run t R (bind (ret a) k) Q.
Proof. done. Qed.

Lemma run_bind_calm {A B} t R (c : M Serving A) (k : A -> M Serving B) Q :
  calm c -> (forall a, run t R (k a) Q) -> run t R (bind c k) Q.
Proof. intros Hc Hk s <- HR. rewrite bind_run. destruct (Hc s) as [E1 E2]. apply Hk; [done|by rewrite E2]. Qed.

Lemma run_bind_task {B} t R f (k : unit -> M Serving B) Q : run (f t) R (k tt) Q -> run t R (bind (task f) k) Q.
Proof. intros Hk s <- HR. rewrite bind_run. by apply Hk. Qed.

Lemma run_bind_file {B} t R f (k : unit -> M Serving B) Q :
  run (with_context (f (ci_file_context t)) t) R (k tt) Q -> run t R (bind (file f) k) Q.
Proof. exact (run_bind_task t R (fun t => set_ci_file_context (f (ci_file_context t)) t) k Q). Qed.

Lemma run_bind_the_task {A B} t R (f : Task -> A) (k : A -> M Serving B) Q : run t R (k (f t)) Q -> run t R (bind (the_task f) k) Q.
Proof. intros Hk s <-. by apply Hk. Qed.

Lemma run_bind_assoc {A B C} t R (c : M Serving A) (k : A -> M Serving B) (l : B -> M Serving C) Q :
  run t R (bind c (fun a => bind (k a) l)) Q -> run t R (bind (bind c k) l) Q.
Proof. intros Hc s Es HR. rewrite bind_assoc. by apply Hc. Qed.

Lemma run_files {A} t R (c : M DataFs A) (Q : A -> Task -> DataFs -> Prop) :
  (forall fs, R fs -> Q (c fs).1 t (c fs).2) -> run t R (files c) Q.
Proof. intros Hc s <- HR. unfold files, fs_of in *. specialize (Hc _ HR). destruct (c (s_files (s_service s))). done. Qed.

(** The rest does not look at the files. *)
Lemma run_calm {A} t R (c : M Serving A) (P : A -> Task -> Prop) :
  (forall s, s_task s = t -> P (c s).1 (s_task (c s).2)) -> (forall s, fs_of (c s).2 = fs_of s) ->
  run t R c (fun a t' fs => P a t' /\ R fs).
Proof. intros Hc Hf s Es HR. split; [by apply Hc|]. by rewrite Hf. Qed.

Lemma calm_gets {A} (f : Serving -> A) : calm (gets f).
Proof. done. Qed.
Lemma calm_ret {A} (a : A) : calm (ret a).
Proof. done. Qed.
Lemma calm_service f : (forall x, s_files (f x) = s_files x) -> calm (service f).
Proof. intros Hf s. split; [done|]. unfold fs_of. cbn. apply Hf. Qed.
Lemma calm_count n k : calm (count n k).
Proof. by apply calm_service. Qed.
Lemma calm_set_counter n k : calm (set_counter n k).
Proof. by apply calm_service. Qed.
Lemma calm_binlog {A} (c : M SyncState A) : calm (binlog c).
Proof. intros s. unfold binlog. by destruct (c _). Qed.
Lemma calm_bind {A B} (c : M Serving A) (k : A -> M Serving B) : calm c -> (forall a, calm (k a)) -> calm (bind c k).
Proof. intros Hc Hk s. rewrite bind_run. destruct (Hc s) as [<- <-]. apply Hk. Qed.
Lemma calm_if {A} (b : bool) (c c' : M Serving A) : calm c -> calm c' -> calm (if b then c else c').
Proof. by destruct b. Qed.

(** The files are not touched. *)
Definition keeps {A} (c : M Serving A) : Prop := forall s, fs_of (c s).2 = fs_of s.

Lemma keeps_calm {A} (c : M Serving A) : calm c -> keeps c.
Proof. intros Hc s. apply Hc. Qed.
Lemma keeps_task f : keeps (task f).
Proof. done. Qed.
Lemma files_kept_bind {A B} (c : M Serving A) (k : A -> M Serving B) : keeps c -> (forall a, keeps (k a)) -> keeps (bind c k).
Proof. intros Hc Hk s. rewrite bind_run. by rewrite Hk. Qed.
Lemma files_kept_if {A} (b : bool) (c c' : M Serving A) : keeps c -> keeps c' -> keeps (if b then c else c').
Proof. by destruct b. Qed.

Lemma run_keeps {A} t R (c : M Serving A) : keeps c -> run t R c (fun _ _ => R).
Proof. intros Hc s Es HR. by rewrite Hc. Qed.

Create HintDb keeps.
#[export] Hint Resolve calm_gets calm_ret calm_count calm_set_counter calm_binlog : keeps.
#[export] Hint Resolve keeps_task : keeps.
#[export] Hint Extern 4 (keeps _) => apply keeps_calm; solve [eauto with keeps] : keeps.

Ltac keep := repeat match goal with
  | |- keeps (bind _ _) => apply files_kept_bind; [|intros ?]
  | |- keeps (if decide _ then _ else _) => case_decide
  | |- keeps (if _ then _ else _) => apply files_kept_if
  | |- keeps (match ?x with _ => _ end) => destruct x
  end; eauto with keeps.

Lemma keeps_move p : keeps (move p).
Proof. apply keeps_task. Qed.
Lemma keeps_notify_answer `{FastCommon} r : keeps (notify_answer r).
Proof. unfold notify_answer, put_header, storage_nio_notify. keep. Qed.
Lemma keeps_stat_file : keeps CHECK_AND_WRITE_TO_STAT_FILE1.
Proof.
  unfold CHECK_AND_WRITE_TO_STAT_FILE1. keep; done.
Qed.
Lemma keeps_stat_sync_in : keeps stat_sync_in.
Proof.
  unfold stat_sync_in, CHECK_AND_WRITE_TO_STAT_FILE1_WITH_BYTES. keep; apply keeps_stat_file.
Qed.
Lemma keeps_count_failed r : keeps (count_failed_bytes r).
Proof. unfold count_failed_bytes. keep. Qed.
#[export] Hint Resolve keeps_move keeps_notify_answer keeps_stat_file keeps_stat_sync_in keeps_count_failed : keeps.

Section copy.
Context `{FastCommon} (CRC32 : bytes -> Z -> Z) (conf : StorageConf) (short : short_paths (paths conf)).

(** The name [name] leads to a file. *)
Definition full_name (name : bytes) : option bytes :=
  match storage_logic_to_local_full_filename conf name (Z.of_nat (length name)) (MAX_PATH_SIZE + 256) with
  | inl _ => None
  | inr (_, full) => Some full
  end.

(** Nothing is seen, or the whole file. *)
Definition all_or_nothing (fs fs' : DataFs) (name b : bytes) : Prop :=
  unseen fs fs' \/
  exists full, full_name name = Some full /\ ~ is_temp full /\ content fs' full = Some b /\
               forall n, ~ is_temp n -> n <> full -> content fs' n = content fs n.

Lemma full_name_not_temp name full : full_name name = Some full -> ~ is_temp full.
Proof.
  unfold full_name. destruct (storage_logic_to_local_full_filename _ _ _ _) as [|[i f]] eqn:E; [done|].
  intros [= <-]. by eapply local_not_temp in E.
Qed.

Lemma run_notify_answer t R r : run t R (notify_answer r) (fun _ t' fs => R fs /\ ci_total_offset t' = 0).
Proof.
  intros s <- HR. split; [by rewrite keeps_notify_answer|]. unfold notify_answer, put_header, storage_nio_notify, move, task, modify.
  rewrite !bind_run. cbn. by destruct (tk_place _).
Qed.

Lemma run_answer {A} t R (c : M Serving A) r : keeps c -> run t R (c ;; notify_answer r) (fun _ t' fs => R fs /\ ci_total_offset t' = 0).
Proof. intros Hc. eapply run_bind; [by apply run_keeps|]. intros a t'. apply run_notify_answer. Qed.

Lemma run_copy_failed t R e : e <> 0 ->
  run t R (storage_sync_copy_file_done_callback conf e) (fun _ t' fs => R fs /\ ci_total_offset t' = 0).
Proof.
  intros He. unfold storage_sync_copy_file_done_callback. apply run_bind_the_task. cbv zeta.
  rewrite (proj2 (Z.eqb_neq e 0) He). cbn [negb]. eapply run_bind; [apply run_keeps, keeps_calm, calm_ret|]. intros r t'.
  eapply run_bind; [apply run_keeps; keep|]. intros r' t''. by apply run_answer, keeps_count_failed.
Qed.

Lemma keeps_log_file : keeps (log_file conf).
Proof. unfold log_file, storage_binlog. keep. Qed.

(** The end of a copy. *)
Lemma run_copy_done t fs0 n ino b :
  let c := ci_file_context t in
  fc_op c = FDFS_STORAGE_FILE_OP_WRITE -> Z.land (up_file_type (fc_upload c)) FILE_TYPE_TRUNK = 0 -> fc_filename c = n ->
  run t (fun fs => unseen fs0 fs /\ holding fs n ino b) (storage_sync_copy_file_done_callback conf 0)
    (fun _ t' fs => all_or_nothing fs0 fs (fc_fname2log c) b /\ ci_total_offset t' = 0).
Proof.
  cbv zeta. intros Ho Ht Hn. unfold storage_sync_copy_file_done_callback. apply run_bind_the_task. cbv zeta. unfold id.
  rewrite Ho, Ht. change (FDFS_STORAGE_FILE_OP_WRITE =? FDFS_STORAGE_FILE_OP_WRITE) with true. cbn [negb Z.eqb].
  eapply (run_bind _ _ _ _ (fun _ _ fs => all_or_nothing fs0 fs (fc_fname2log (ci_file_context t)) b)).
  - eapply (run_bind _ _ _ _ (fun _ _ fs => all_or_nothing fs0 fs (fc_fname2log (ci_file_context t)) b)).
    + apply run_bind_assoc, run_bind_the_task. unfold id. rewrite Hn.
      apply (run_bind _ _ _ _ (fun _ t' fs => t' = t /\ unseen fs0 fs /\ holding fs n ino b)).
      * apply run_files. intros fs [Hu Hh]. split; [done|]. destruct (utimes_temp fs n ino b (fc_timestamp2log (ci_file_context t)) Hh).
        split; [|done]. by eapply unseen_trans.
      * intros [] t'. intros s Es (-> & Hu & Hh). revert s Es Hu Hh. intros s <- Hu Hh.
        unfold storage_sync_copy_file_rename_filename. rewrite bind_run. unfold the_file, the_task, gets. cbn [fst snd]. unfold id.
        destruct (storage_logic_to_local_full_filename _ _ _ _) as [e|[i full]] eqn:E; [by left|].
        assert (full_name (fc_fname2log (ci_file_context (s_task s))) = Some full) as Ef by (unfold full_name; by rewrite E).
        pose proof (full_name_not_temp _ _ Ef) as Hf. rewrite bind_snd. cbn [ret snd]. rewrite Hn. unfold files.
        destruct (rename_temp (s_files (s_service s)) n ino b full Hh Hf) as [[_ Hu']|(_ & Hc & Hm)];
          destruct (data_rename _ _ _) as [r fs']; cbn in *.
        -- left. by eapply unseen_trans.
        -- right. exists full. split_and!; [done..|]. intros m Hm1 Hm2. unfold fs_of in *. cbn. by rewrite Hm, Hu.
    + intros r t'. apply run_keeps. keep; apply keeps_log_file.
  - intros r t'. eapply run_bind; [apply run_keeps; keep|]. intros r' t''. apply run_answer, keeps_count_failed.
Qed.

(** ** A piece of a copy. *)

(** What is written so far. *)
Definition written (fs : DataFs) (t : Task) (b : bytes) : Prop :=
  exists fd, fc_fd (ci_file_context t) = Some fd /\ of_pos fd = Z.of_nat (length b) /\ of_append fd = false /\
             holding fs (fc_filename (ci_file_context t)) (of_inode fd) b.

(** The outcome of a piece: nothing is seen and [b] is written, or the answer is
    ready and nothing is seen or the complete file. *)
Definition copied (fs0 : DataFs) (t : Task) (b : bytes) (t' : Task) (fs : DataFs) : Prop :=
  (unseen fs0 fs /\ written fs t' b) \/
  (ci_total_offset t' = 0 /\
     (unseen fs0 fs \/
      (fc_end (ci_file_context t) <= Z.of_nat (length b) /\ all_or_nothing fs0 fs (fc_fname2log (ci_file_context t)) b))).

Lemma run_write_failed t fs0 b r : r <> 0 -> ci_clean_func t = Some Clean_dio_write ->
  fc_done_callback (ci_file_context t) = Some Done_sync_copy_file -> is_temp (fc_filename (ci_file_context t)) ->
  run t (unseen fs0) (@write_failed (service_callbacks conf) conf r) (fun _ => copied fs0 t b).
Proof.
  intros Hr Hc Hd Hn. unfold write_failed, clean_func. apply run_bind_assoc, run_bind_the_task. rewrite Hc. cbn [run_clean_func].
  unfold dio_write_finish_clean_up, if_open. apply run_bind_assoc, run_bind_the_task. unfold id.
  assert (forall t', ci_file_context t' = ci_file_context t \/ ci_file_context t' = set_fc_fd None (ci_file_context t) ->
            run t' (unseen fs0) (@done_callback (service_callbacks conf) r ;; ret r) (fun _ => copied fs0 t b)) as Hend.
  { intros t' Ht. unfold done_callback. apply run_bind_assoc, run_bind_the_task.
    assert (fc_done_callback (ci_file_context t') = Some Done_sync_copy_file) as -> by (by destruct Ht as [-> | ->]). cbn [run_done_callback service_callbacks].
    eapply run_bind; [by apply run_copy_failed|]. intros [] t''. apply run_ret. intros fs [Hu Ho]. right. auto. }
  destruct (fc_fd _) eqn:Ef.
  - apply run_bind_assoc, run_bind_file. destruct (_ <? _).
    + apply run_bind_assoc. apply (run_bind _ _ _ _ (fun _ t' fs => t' = set_fd None t /\ unseen fs0 fs)).
      * apply run_files. intros fs Hu. split; [done|]. eapply unseen_trans; [done|]. by apply unlink_temp.
      * intros e t' s Es (-> & Hu). rewrite bind_run. apply (Hend (set_fd None t)); auto.
    + apply (Hend (set_fd None t)). auto.
  - apply (Hend t). auto.
Qed.

(** The file is open, or opening it failed. *)
Definition opened (fs0 : DataFs) (t : Task) (b : bytes) (r : Z) (t' : Task) (fs : DataFs) : Prop :=
  unseen fs0 fs /\ (exists fd, t' = set_fd fd t) /\ (r = 0 -> written fs t' b).

Lemma run_open_for_write t fs0 b name size :
  let c := ci_file_context t in copy_context name size c -> fc_offset c = Z.of_nat (length b) ->
  run t (fun fs => tidy fs /\ unseen fs0 fs /\ (fc_fd c = None /\ b = [] \/ written fs t b)) (open_for_write conf) (opened fs0 t b).
Proof.
  cbv zeta. intros [C1 C2 C3 C4 C5 C6 C7 C10 C8 C9] Hoff. unfold open_for_write. apply run_bind_the_task.
  destruct (fc_fd (ci_file_context t)) as [fd|] eqn:Ef.
  { apply run_ret. intros fs (T & Hu & [[? _]|Hw]); [done|]. split; [done|]. split; [|done]. exists (Some fd). by rewrite <- Ef, set_fd_same. }
  unfold before_open_callback. apply run_bind_assoc, run_bind_the_task. rewrite C5. apply run_bind_ret. rewrite decide_False by (by intros ?).
  unfold dio_open_file. apply run_bind_the_task. unfold id. rewrite Ef, C4.
  apply (run_bind _ _ _ _ (fun r t' fs => opened fs0 t b r t' fs /\ b = [])).
  - apply (run_bind _ _ _ _ (fun r t' fs => t' = t /\ unseen fs0 fs /\ b = [] /\
      forall fd, r = inr fd -> of_pos fd = 0 /\ of_append fd = false /\ holding fs (fc_filename (ci_file_context t)) (of_inode fd) [])).
    + apply run_files. intros fs (T & Hu & [[_ Hb]|(fd & Hfd & _)]); [|congruence]. destruct (open_temp fs (fc_filename (ci_file_context t)) T C3) as [Hu' Ho].
      split; [done|]. split; [by eapply unseen_trans|]. split; [done|]. intros fd E. by rewrite E in Ho.
    + intros r t'. apply run_bind_calm; [apply calm_count|]. intros _. destruct r as [e|fd].
      * apply run_ret. intros fs (-> & Hu & Hb & _). split; [|done]. split; [done|].
        split; [by exists (fc_fd (ci_file_context t)); rewrite set_fd_same|]. unfold errno_or. by destruct (Z.eqb_spec e 0).
      * apply run_bind_calm; [apply calm_count|]. intros _. apply run_bind_file, run_ret. intros fs (-> & Hu & Hb & Ho). split; [|done].
        destruct (Ho fd eq_refl) as (? & ? & ?). split; [done|]. split; [by exists (Some fd)|]. intros _. exists fd. by rewrite Hb.
  - intros r t' s <- [Ho ->]. case_decide; [done|]. rewrite bind_run. unfold the_file, the_task, gets. cbn [fst snd].
    assert (fc_offset (ci_file_context (s_task s)) = 0) as -> by (by destruct Ho as (_ & [fd ->] & _)).
    by replace r with 0 in Ho by lia.
Qed.

Lemma run_copy_piece t fs0 b0 name size :
  let c := ci_file_context t in
  let n := tk_length t - fc_buff_offset c in
  let piece := take (Z.to_nat n) (drop (Z.to_nat (fc_buff_offset c)) (tk_data t)) in
  copying t -> copy_context name size c -> ci_clean_func t = Some Clean_dio_write -> fc_offset c = Z.of_nat (length b0) ->
  Z.of_nat (length piece) = n ->
  run t (fun fs => tidy fs /\ unseen fs0 fs /\ (fc_fd c = None /\ b0 = [] \/ written fs t b0))
    (@dio_write_file _ (service_callbacks conf) CRC32 conf) (fun _ => copied fs0 t (b0 ++ piece)).
Proof.
  cbv zeta. intros [[Hdeal Hdone] Htype] Hcc Hclean Hoff Hlen. unfold dio_write_file.
  set (c := ci_file_context t) in *.
  set (piece := take (Z.to_nat (tk_length t - fc_buff_offset c)) (drop (Z.to_nat (fc_buff_offset c)) (tk_data t))) in *.
  assert (forall fd r, r <> 0 -> run (set_fd fd t) (unseen fs0) (@write_failed (service_callbacks conf) conf r)
            (fun _ => copied fs0 t (b0 ++ piece))) as Hfail.
  { intros fd r Hr. apply (run_write_failed (set_fd fd t)); [done..|]. apply Hcc. }
  eapply run_bind; [by eapply run_open_for_write|]. intros r t' s Es (Hu & [fd ->] & Hw). case_decide; [by eapply Hfail|].
  assert (written (fs_of s) (set_fd fd t) b0) as (fd0 & Hfd & Hpos & Happ & Hh) by (apply Hw; lia). clear Hw. revert s Es Hu Hh.
  enough (run (set_fd fd t) (fun fs => unseen fs0 fs /\ holding fs (fc_filename c) (of_inode fd0) b0)
    (let! t0 := the_task id in
     let! e := fd_write piece in
     let result := if decide (e <> 0) then errno_or e EIO else 0 in
     count (bs "total_file_write_count") 1 ;;
     if decide (result <> 0) then @write_failed (service_callbacks conf) conf result
     else
       count (bs "success_file_write_count") 1 ;;
       file (fun c => if fc_calc_crc32 c then set_fc_crc32 (CRC32 piece (fc_crc32 c)) c else c) ;;
       file (fun c' => set_fc_offset (fc_offset c' + (tk_length t - fc_buff_offset c)) c') ;;
       let! c := the_file id in
       if fc_offset c <? fc_end c then
         file (set_fc_buff_offset 0) ;; continue_callback ;; ret 0
       else
         file (fun c => if fc_calc_crc32 c then set_fc_crc32 (CRC32_FINAL (fc_crc32 c)) c else c) ;;
         let! result := before_close_callback in
         close_fd ;;
         @done_callback (service_callbacks conf) result ;; ret 0) (fun _ => copied fs0 t (b0 ++ piece))) as Hk.
  { intros s Es Hu Hh. specialize (Hk s Es (conj Hu Hh)). unfold the_task, gets in *. rewrite !bind_run in *. cbn [fst snd] in *. unfold id in *.
    rewrite Es. exact Hk. }
  apply run_bind_the_task.
  apply (run_bind _ _ _ _ (fun e t' fs => exists fd, t' = set_fd fd t /\ unseen fs0 fs /\ (e = 0 -> written fs t' (b0 ++ piece)))).
  { unfold fd_write, with_fd. apply run_bind_the_task. rewrite Hfd.
    apply (run_bind _ _ _ _ (fun w t' fs => t' = set_fd fd t /\ unseen fs0 fs /\ (w.1 = 0 ->
      of_pos w.2 = Z.of_nat (length (b0 ++ piece)) /\ of_append w.2 = false /\ holding fs (fc_filename c) (of_inode w.2) (b0 ++ piece)))).
    - apply run_files. intros fs (Hu & Hh). destruct (write_temp fs _ fd0 b0 piece Hh Hpos Happ) as (Hu' & Hi & Hw & _).
      split; [done|]. split; [by eapply unseen_trans|]. intros E. rewrite Hi. auto.
    - intros [e fd1] t'. apply run_bind_file, run_ret. cbn. intros fs (-> & Hu & Hw). exists (Some fd1). split; [done|]. split; [done|].
      intros E. destruct (Hw E) as (? & ? & ?). by exists fd1. }
  intros e t'. cbv zeta. apply run_bind_calm; [apply calm_count|]. intros _. intros s Es (fd1 & -> & Hu & Hw).
  case_decide as Hr; [by eapply Hfail|].
  assert (e = 0) as -> by (case_decide; [|lia]; unfold errno_or in Hr; destruct (Z.eqb_spec e 0); lia).
  specialize (Hw eq_refl). destruct Hw as (fd2 & Hfd2 & Hpos2 & Happ2 & Hh2). cbn in Hfd2. subst fd1. cbn in Hh2.
  enough (run (set_fd (Some fd2) t) (fun fs => unseen fs0 fs /\ holding fs (fc_filename c) (of_inode fd2) (b0 ++ piece))
    (count (bs "success_file_write_count") 1 ;;
     file (fun c => if fc_calc_crc32 c then set_fc_crc32 (CRC32 piece (fc_crc32 c)) c else c) ;;
     file (fun c' => set_fc_offset (fc_offset c' + (tk_length t - fc_buff_offset c)) c') ;;
     let! c := the_file id in
     if fc_offset c <? fc_end c then
       file (set_fc_buff_offset 0) ;; continue_callback ;; ret 0
     else
       file (fun c => if fc_calc_crc32 c then set_fc_crc32 (CRC32_FINAL (fc_crc32 c)) c else c) ;;
       let! result := before_close_callback in
       close_fd ;;
       @done_callback (service_callbacks conf) result ;; ret 0) (fun _ => copied fs0 t (b0 ++ piece))) as Hk by (by apply Hk).
  clear s Es Hu Hh2. apply run_bind_calm; [apply calm_count|]. intros _. apply run_bind_file.
  change (fc_calc_crc32 (ci_file_context (set_fd (Some fd2) t))) with (fc_calc_crc32 c). rewrite (cc_crc _ _ _ Hcc).
  apply run_bind_file. apply run_bind_the_task. destruct (_ <? _) eqn:Hend.
  - apply run_bind_file. unfold continue_callback. apply run_bind_assoc, run_bind_the_task.
    change (fc_continue_callback _) with (fc_continue_callback c). rewrite (cc_continue _ _ _ Hcc).
    unfold storage_nio_notify. do 2 apply run_bind_assoc. intros s Es (Hu & Hh). rewrite !bind_run. cbn. left. split; [done|].
    unfold fs_of in *. cbn. rewrite Es. cbn. exists fd2. destruct (tk_place t); cbn; split_and!; done.
  - apply run_bind_file. cbn. change (fc_calc_crc32 (ci_file_context t)) with (fc_calc_crc32 c). rewrite (cc_crc _ _ _ Hcc).
    unfold before_close_callback. apply run_bind_assoc, run_bind_the_task. cbn. fold c. rewrite (cc_close _ _ _ Hcc). apply run_bind_ret.
    apply run_bind_file. unfold done_callback. apply run_bind_assoc, run_bind_the_task. cbn. fold c. rewrite Hdone. cbn.
    eapply run_bind; [eapply run_copy_done|]; cbn; [apply Hcc|done|done|]. intros [] t'. apply run_ret. intros fs [Ha Ho]. right.
    split; [done|]. right. split; [|done]. change ((fc_offset c + (tk_length t - fc_buff_offset c) <? fc_end c) = false) in Hend.
    fold c. rewrite length_app. lia.
Qed.

(** ** A piece that cannot be written. *)

(** One of the system calls of the piece fails: the open, when the file is not
    open yet, or the write. *)
Definition piece_fails (c : StorageFileContext) (fs : DataFs) : Prop :=
  exists f, f ∈ take (match fc_fd c with Some _ => 1 | None => 2 end) (d_faults fs) /\ f.1 <> 0.

(** The task with the answer to send. *)
Definition with_answer (r : Z) (t : Task) : Task :=
  set_tk_place InPipe (put_buffer 0 (TrackerHeader 0 TRACKER_PROTO_CMD_RESP r)
    (set_tk_length 10 (set_ci_total_offset 0 (set_ci_total_length 10 t)))).

(** Nothing but the descriptor and the answer changed. *)
Definition refused (t : Task) (t' : Task) : Prop := exists fd r, r <> 0 /\ t' = with_answer r (set_fd fd t).

Lemma run_refused t R r : movable t -> r <> 0 -> fc_op (ci_file_context t) = FDFS_STORAGE_FILE_OP_WRITE ->
  run t R (storage_sync_copy_file_done_callback conf r) (fun _ t' _ => t' = with_answer r t).
Proof.
  intros Hm Hr Hop. unfold storage_sync_copy_file_done_callback. apply run_bind_the_task. cbv zeta. unfold id. rewrite Hop.
  rewrite (proj2 (Z.eqb_neq r 0) Hr). cbn [negb]. apply run_bind_ret. cbn. apply run_bind_assoc. rewrite (proj2 (Z.eqb_neq r 0) Hr).
  do 2 apply run_bind_ret. unfold count_failed_bytes. apply run_bind_assoc, run_bind_the_task. rewrite decide_True by done.
  apply run_bind_calm; [apply calm_count|]. intros _. intros s <- _. unfold notify_answer, put_header, storage_nio_notify, move, task, modify.
  rewrite !bind_run. cbn. unfold with_answer, movable in *. by destruct (tk_place (s_task s)).
Qed.

Lemma run_write_refused t fd r R : movable t -> r <> 0 -> ci_clean_func t = Some Clean_dio_write ->
  fc_op (ci_file_context t) = FDFS_STORAGE_FILE_OP_WRITE -> fc_done_callback (ci_file_context t) = Some Done_sync_copy_file ->
  run (set_fd fd t) R (@write_failed (service_callbacks conf) conf r) (fun _ t' _ => refused t t').
Proof.
  intros Hm Hr Hc Hop Hd.
  assert (forall fd' R', run (set_fd fd' t) R' (@done_callback (service_callbacks conf) r ;; ret r) (fun _ t' _ => refused t t')) as Hend.
  { intros fd' R'. unfold done_callback. apply run_bind_assoc, run_bind_the_task. cbn. rewrite Hd. cbn.
    eapply run_bind; [by apply (run_refused (set_fd fd' t))|]. intros [] t'. apply run_ret. intros _ ->. by exists fd', r. }
  unfold write_failed, clean_func. apply run_bind_assoc, run_bind_the_task. cbn. rewrite Hc. cbn [run_clean_func].
  unfold dio_write_finish_clean_up, if_open. apply run_bind_assoc, run_bind_the_task. unfold id. cbn. destruct fd as [fd|]; [|apply Hend].
  apply run_bind_assoc, run_bind_file. destruct (_ <? _); [|apply (Hend None)]. apply run_bind_assoc.
  apply (run_bind _ _ _ _ (fun _ t' _ => t' = set_fd None t)); [by apply run_files|].
  intros e t' s Es ->. rewrite bind_run. by apply (Hend None (fun _ => True)).
Qed.

(** The open passes the failure on, or leaves it to the write. *)
Lemma run_open_fails t : up_before_open_callback (fc_upload (ci_file_context t)) = None -> fc_offset (ci_file_context t) = 0 \/ fc_fd (ci_file_context t) <> None ->
  run t (piece_fails (ci_file_context t)) (open_for_write conf)
    (fun r t' fs => exists fd, t' = set_fd fd t /\ (r = 0 -> piece_fails (ci_file_context t') fs /\ fd <> None)).
Proof.
  intros Hopen Hoff. unfold open_for_write. apply run_bind_the_task. destruct (fc_fd (ci_file_context t)) as [fd|] eqn:Ef.
  { apply run_ret. intros fs Hx. exists (Some fd). rewrite <- Ef, set_fd_same. split; [done|]. intros _. by rewrite Ef. }
  destruct Hoff as [Hoff|]; [|done]. unfold before_open_callback. apply run_bind_assoc, run_bind_the_task. rewrite Hopen.
  apply run_bind_ret. rewrite decide_False by (by intros ?). unfold dio_open_file. apply run_bind_the_task. unfold id. rewrite Ef.
  apply (run_bind _ _ _ _ (fun r t' fs => exists fd, t' = set_fd fd t /\ (r = 0 -> piece_fails (ci_file_context t') fs /\ fd <> None))).
  - apply (run_bind _ _ _ _ (fun r t' fs => t' = t /\ forall fd, r = inr fd -> exists f l, d_faults fs = f :: l /\ f.1 <> 0)).
    + apply run_files. intros fs (f & Hin & Hf). rewrite Ef in Hin. split; [done|]. intros fd Hr.
      destruct (d_faults fs) as [|f1 l] eqn:El; [by apply elem_of_nil in Hin|].
      unfold data_open, data_call in *. rewrite bind_run in *. rewrite El in *. cbn in Hr |- *.
      case_decide as Hf1; [done|]. assert (d_faults (set_d_faults l fs) = l) as E by done.
      enough (exists f2 l2, l = f2 :: l2 /\ f2.1 <> 0) as (f2 & l2 & -> & H2).
      { exists f2, l2. split; [|done]. revert Hr. unfold bind, gets, ret, modify. cbn. repeat case_match; simplify_eq; done. }
      apply elem_of_cons in Hin as [->|Hin]; [lia|]. destruct l as [|f2 l2]; [by apply elem_of_nil in Hin|].
      apply list_elem_of_singleton in Hin as ->. by exists f2, l2.
    + intros r t'. apply run_bind_calm; [apply calm_count|]. intros _. destruct r as [e|fd].
      * apply run_ret. intros fs (-> & _). exists (fc_fd (ci_file_context t)). rewrite set_fd_same. split; [done|].
        unfold errno_or. by destruct (Z.eqb_spec e 0).
      * apply run_bind_calm; [apply calm_count|]. intros _. apply run_bind_file, run_ret. intros fs (-> & Hfs).
        destruct (Hfs fd eq_refl) as (f & l & El & Hf). exists (Some fd). split; [done|]. intros _. split; [|done].
        exists f. cbn. rewrite El. split; [left|done].
  - intros r t' s <- (fd & Et & Hr). case_decide; [by exists fd|]. rewrite bind_run. unfold the_file, the_task, gets. cbn [fst snd].
    rewrite Et. cbn [with_context set_fd ci_file_context set_ci_file_context fc_offset set_fc_fd]. rewrite Hoff. cbn. rewrite Et. exists fd. split; [done|]. intros _.
    rewrite <- Et. apply Hr. lia.
Qed.

Lemma run_piece_fails t : movable t -> ci_clean_func t = Some Clean_dio_write ->
  up_before_open_callback (fc_upload (ci_file_context t)) = None -> fc_op (ci_file_context t) = FDFS_STORAGE_FILE_OP_WRITE ->
  fc_done_callback (ci_file_context t) = Some Done_sync_copy_file ->
  fc_offset (ci_file_context t) = 0 \/ fc_fd (ci_file_context t) <> None ->
  run t (piece_fails (ci_file_context t)) (@dio_write_file _ (service_callbacks conf) CRC32 conf) (fun _ t' _ => refused t t').
Proof.
  intros Hm Hc Hopen Hop Hd Hoff. unfold dio_write_file. eapply run_bind; [by apply run_open_fails|].
  intros r t' s Es (fd & -> & Hr). case_decide as Hz; [by apply (run_write_refused t fd r (fun _ => True))|].
  destruct (Hr ltac:(lia)) as [Hf Hfd]. destruct fd as [fd|]; [|done]. clear Hfd Hr.
  assert (forall piece, run (set_fd (Some fd) t) (piece_fails (ci_file_context (set_fd (Some fd) t))) (fd_write piece)
    (fun e t' _ => e <> 0 /\ exists fd', t' = set_fd fd' t)) as Hw.
  { intros piece. unfold fd_write, with_fd. apply run_bind_the_task. cbn.
    apply (run_bind _ _ _ _ (fun w t' _ => w.1 <> 0 /\ t' = set_fd (Some fd) t)).
    - apply run_files. intros fs (f & Hin & Hf1). cbn in Hin. destruct (d_faults fs) as [|f1 l] eqn:El; [by apply elem_of_nil in Hin|].
      apply list_elem_of_singleton in Hin as ->. unfold data_write, data_call. rewrite bind_run, El. by cbn.
    - intros w t'. apply run_bind_file, run_ret. intros _ [Hw ->]. split; [done|]. by exists (Some w.2). }
  rewrite bind_run. unfold the_task at 1, gets at 1. cbn [fst snd]. cbv beta zeta. rewrite bind_run.
  match goal with |- context [fd_write ?b ?s'] => change s' with s end.
  match goal with |- context [fd_write ?b s] => specialize (Hw b s Es Hf) end.
  destruct (fd_write _ s) as [e s1]. cbn [fst snd] in Hw. destruct Hw as [He [fd' Es1]]. cbn [fst snd]. cbv zeta.
  rewrite (decide_True _ _ He). assert (errno_or e EIO <> 0) as Hn by (unfold errno_or; by destruct (Z.eqb_spec e 0)).
  rewrite bind_run. rewrite (decide_True _ _ Hn). destruct (calm_count (bs "total_file_write_count") 1 s1) as [E1 _].
  by apply (run_write_refused t fd' (errno_or e EIO) (fun _ => True)); [..|rewrite E1|].
Qed.

End copy.
