(* ===== verification/StorageRun.v ===== *)
(** * A connection from request to request.

    What holds of a task wherever it is, and that every step of it keeps that:
    how much of its request has arrived, what the disk threads were left, and
    for a copy that the bytes written so far are those received. *)

From S2P Require Import Prelude FastCommon TrunkShared TrunkMem StorageIds TrackerTypes FileSys SyncBinlog Net SyncReader SyncPeer DataFiles StorageTask StorageDio StorageSyncIn StorageServe DataInv StorageNames StorageSafe StorageSafeDisk StorageSteps StorageHandled StorageStepsDisk StorageCopy.

Local Open Scope c_scope.

Section run.
Context `{FastCommonLaws} (CRC32 : bytes -> Z -> Z) (conf : StorageConf) (buff_size : Z).

Definition head_in (b : bytes) : Z := 46 + name_len_in b.

(** The file of a request. *)
Definition body_in (got : bytes) : bytes := drop (Z.to_nat (head_in got)) got.

(** ** The head of a request does not depend on what follows. *)
Lemma buff2long_drop_app n (b rest : bytes) : (n + 8 <= length b)%nat -> buff2long (drop n (b ++ rest)) = buff2long (drop n b).
Proof.
  intros Hn. rewrite drop_app_le by lia. rewrite <- (firstn_skipn 8 (drop n b)), <- app_assoc.
  assert (length (take 8 (drop n b)) = 8%nat) as Hl by (rewrite length_take, length_drop; lia). by rewrite !buff2long_app.
Qed.

Lemma name_len_in_app req rest : (18 <= length req)%nat -> name_len_in (req ++ rest) = name_len_in req.
Proof. intros Hl. unfold name_len_in. by rewrite buff2long_drop_app. Qed.

Lemma size_in_app req rest : (26 <= length req)%nat -> size_in (req ++ rest) = size_in req.
Proof. intros Hl. unfold size_in. by rewrite buff2long_drop_app. Qed.

Lemma name_in_app req rest : 0 <= name_len_in req -> head_in req <= Z.of_nat (length req) -> name_in (req ++ rest) = name_in req.
Proof.
  unfold head_in, name_in. intros Hn Hl. rewrite name_len_in_app by lia. rewrite drop_app_le by lia.
  rewrite take_app_le; [done|]. rewrite length_drop. lia.
Qed.

Lemma head_in_app req rest : (18 <= length req)%nat -> head_in (req ++ rest) = head_in req.
Proof. intros Hl. unfold head_in. by rewrite name_len_in_app. Qed.

Lemma body_in_app req rest : 0 <= name_len_in req -> head_in req <= Z.of_nat (length req) -> body_in (req ++ rest) = body_in req ++ rest.
Proof. intros Hn Hl. unfold body_in. rewrite head_in_app by (unfold head_in in Hl; lia). rewrite drop_app_le; [done|lia]. Qed.


(** ** What a copy knows of its request. *)
Record copy_state (req : bytes) (t : Task) : Prop := {
  cp_context : copy_context (name_in req) (size_in req) (ci_file_context t);
  cp_head : 0 <= name_len_in req < 128;
  cp_size : 0 <= size_in req;
  cp_total : ci_total_length t = head_in req + size_in req;
  cp_clean : ci_clean_func t = Some Clean_dio_write;
  cp_length : head_in req <= Z.of_nat (length req);
}.

(** In the middle of a file from another server, of whose request [req] was
    handed over. *)
Record mid_task (req : bytes) (t : Task) : Prop := {
  mi_length : Z.of_nat (length req) = ci_total_offset t;
  mi_within : 0 < ci_total_offset t < ci_total_length t;
  mi_buff : fc_buff_offset (ci_file_context t) = 0;
  mi_rest : fc_offset (ci_file_context t) + (ci_total_length t - ci_total_offset t) = fc_end (ci_file_context t);
  mi_writing : writing t;
  mi_clean : ci_clean_func t <> None;
  mi_continue : fc_continue_callback (ci_file_context t) = Continue_nio_notify;
  mi_copy : copying t -> copy_state req t;
}.

(** ** At the socket. *)
Definition got_now (t : Task) (got : bytes) : bytes := if starting t then [] else got.

Record socket_first (got : bytes) (t : Task) : Prop := {
  sf_length : Z.of_nat (length (got_now t got)) = tk_offset t;
  sf_data : take (Z.to_nat (tk_offset t)) (tk_data t) = got_now t got;
  sf_piece : ci_total_length t <> 0 -> tk_length t = Z.min buff_size (ci_total_length t);
  sf_offset : ci_total_offset t = 0;
}.

Record socket_mid (got : bytes) (t : Task) : Prop := {
  sm_mid : mid_task (take (Z.to_nat (ci_total_offset t)) got) t;
  sm_length : Z.of_nat (length got) = ci_total_offset t + tk_offset t;
  sm_data : take (Z.to_nat (tk_offset t)) (tk_data t) = drop (Z.to_nat (ci_total_offset t)) got;
  sm_offset : 0 <= tk_offset t;
  sm_piece : tk_length t = Z.min buff_size (ci_total_length t - ci_total_offset t);
}.

(** In the middle of anything else. *)
Definition quiet_mid (t : Task) : Prop := ci_total_offset t <> 0 /\ quiet t.

Definition socket_ok (got : bytes) (t : Task) : Prop :=
  0 < recv_bytes t -> ci_stage t = FDFS_STORAGE_STAGE_NIO_RECV /\ (socket_first got t \/ quiet_mid t \/ socket_mid got t).

(** ** In a disk thread. *)
Definition whole (t : Task) : Prop :=
  ci_stage t = Z.lor FDFS_STORAGE_STAGE_NIO_SEND FDFS_STORAGE_STAGE_DIO_THREAD /\ ci_total_length t <= ci_total_offset t \/
  ci_stage t = Z.lor FDFS_STORAGE_STAGE_NIO_RECV FDFS_STORAGE_STAGE_DIO_THREAD.

(** The piece in the buffer, and where it belongs. *)
Record dio_copy (got : bytes) (t : Task) : Prop := {
  dc_state : copy_state got t;
  dc_length : Z.of_nat (length got) = ci_total_offset t;
  dc_piece : 0 <= tk_length t <= ci_total_offset t;
  dc_within : ci_total_offset t <= ci_total_length t;
  dc_data : take (Z.to_nat (tk_length t)) (tk_data t) = drop (Z.to_nat (ci_total_offset t - tk_length t)) got;
  dc_where : fc_buff_offset (ci_file_context t) = head_in got /\ ci_total_offset t = tk_length t /\
               head_in got <= tk_length t /\ fc_fd (ci_file_context t) = None \/
             fc_buff_offset (ci_file_context t) = 0 /\ head_in got <= ci_total_offset t - tk_length t;
}.

(** A piece of a file from another server. *)
Record dio_piece (got : bytes) (t : Task) : Prop := {
  di_queued : queued t;
  di_offset : 0 < ci_total_offset t;
  di_whole : whole t;
  di_length : Z.of_nat (length got) = ci_total_offset t;
  di_copy : copying t -> dio_copy got t;
}.

Record dio_ok (got : bytes) (t : Task) : Prop := {
  do_begun : begun t;
  do_link : linking t -> link_checked conf t;
  do_write : writing t -> dio_piece got t;
}.

(** ** In the pipe. *)
Record pipe_new (t : Task) : Prop := {
  pn_stage : ci_stage t = FDFS_STORAGE_STAGE_NIO_INIT;
  pn_total : ci_total_length t = 0;
  pn_total_offset : ci_total_offset t = 0;
  pn_offset : tk_offset t = 0;
}.

Definition pipe_mid (got : bytes) (t : Task) : Prop :=
  mid_task got t /\ ci_stage t = Z.lor FDFS_STORAGE_STAGE_NIO_RECV FDFS_STORAGE_STAGE_DIO_THREAD.

Definition task_ok (got : bytes) (t : Task) : Prop :=
  tk_size t = buff_size /\
  match tk_place t with
  | AtSocket => socket_ok got t
  | InDio => dio_ok got t
  | InPipe => pipe_new t \/ begun t /\ (quiet t \/ answered t \/ pipe_mid got t)
  | _ => True
  end.

(** After the first piece. *)
Definition just_started (t : Task) : Prop :=
  match tk_place t with
  | AtSocket => 0 < recv_bytes t -> ci_total_offset t = 0
  | InDio => copying t -> ci_total_offset t = tk_length t
  | InPipe => ci_total_offset t = 0
  | _ => True
  end.

Definition started_ok (got : bytes) (t : Task) : Prop := task_ok got t /\ just_started t.

(** ** The handler is called. *)
Lemma copy_queued_dio t t' : copy_queued t t' -> same_buffer t t' -> ci_total_offset t = tk_length t ->
  tk_length t = Z.min buff_size (ci_total_length t) -> 256 <= buff_size ->
  Z.of_nat (length (take (Z.to_nat (tk_length t)) (tk_data t))) = tk_length t ->
  dio_copy (take (Z.to_nat (tk_length t)) (tk_data t)) t'.
Proof.
  set (req := take (Z.to_nat (tk_length t)) (tk_data t)). intros [C1 C2 C3 C4 C0 C5 C6 C7 C8] [S2 S3 S4 S5] Hfirst Hpiece Hsize Hlen.
  assert (tk_data t = req ++ drop (Z.to_nat (tk_length t)) (tk_data t)) as Ed by (symmetry; apply firstn_skipn).
  fold req in Hlen. assert (46 <= length req)%nat as Hl by lia.
  rewrite Ed in C1, C4, C5, C6. rewrite name_len_in_app, size_in_app in * by lia.
  assert (head_in req <= Z.of_nat (length req)) as Hhead by (unfold head_in; lia).
  rewrite name_in_app in C1 by lia.
  split.
  - split; try done; try apply C4. unfold head_in. lia.
  - lia.
  - lia.
  - lia.
  - rewrite S2, S4, Hfirst, C2, Z.sub_diag. done.
  - left. rewrite S4, S2. unfold head_in in *. split_and!; done || lia.
Qed.

(** The same request, somewhere else. *)
Lemma mid_task_same req t t' :
  ci_file_context t' = ci_file_context t -> ci_total_length t' = ci_total_length t -> ci_total_offset t' = ci_total_offset t ->
  ci_deal_func t' = ci_deal_func t -> ci_clean_func t' = ci_clean_func t -> mid_task req t -> mid_task req t'.
Proof.
  intros E1 E2 E3 E4 E5 [M1 M2 M3 M4 M5 M6 M7 M8]. split; unfold copying, writing in *; rewrite ?E1, ?E2, ?E3, ?E4, ?E5; try done.
  intros Hc. destruct (M8 Hc) as [C1 C2 C3 C4 C5 C6]. split; rewrite ?E1, ?E2, ?E5; done.
Qed.

(** ** A piece was worked on. *)
Lemma copying_further fd crc n t : copying (set_tk_place InPipe (with_context (further fd crc n (ci_file_context t)) t)) -> copying t.
Proof. done. Qed.

Lemma copy_state_further req fd crc n t : copy_state req t ->
  copy_state req (set_tk_place InPipe (with_context (further fd crc n (ci_file_context t)) t)).
Proof. intros [[] C2 C3 C4 C5 C6]. by split; [split|..]. Qed.

Lemma went_on_ok got t t' : begun t -> writing t -> dio_piece got t -> tk_size t = buff_size -> went_on t t' -> task_ok got t'.
Proof.
  intros B Hwr [[Q1 Q2 Q3 Q4] O W L C] Hs (Hlt & fd & crc & ->). split; [done|]. cbn. right. split; [exact B|]. right. right.
  split; [split; cbn|]; cbn; try done; try lia.
  - intros Hc. apply copy_state_further. by destruct (C (copying_further _ _ _ _ Hc)).
  - destruct W as [[_ ?]|?]; [lia|done].
Qed.

Lemma answer_ready_ok got t t' : begun t -> tk_size t = buff_size -> answer_ready t t' -> task_ok got t'.
Proof.
  intros B Hs (Ha & Hst & Hz). split; [congruence|]. rewrite (an_place _ Ha). right. split; [|auto]. by eapply begun_same.
Qed.

Lemma away_ok got t : away buff_size t -> task_ok got t.
Proof.
  intros [A1 A2 A3 [A4 A5]]. split; [done|]. destruct (tk_place t); try done.
  right. split; [done|]. by left.
Qed.

Lemma disk_ok got t : task_ok got t -> tk_place t = InDio ->
  exec t (deal_func CRC32 conf) (fun _ => task_ok got).
Proof.
  intros [Hs Hok] Hp. rewrite Hp in Hok. destruct Hok as [B L W].
  assert (movable t) as Hm by (unfold movable; by rewrite Hp). destruct (quiet_or t) as [Hq|Hq].
  - eapply exec_weaken; [apply (away_deal_func CRC32 conf buff_size); split; [done|congruence|done..]|]. intros r t' A. by apply away_ok.
  - eapply exec_weaken; [apply exec_deal_func; [done|done|intros Hw; apply (W Hw)]|].
    intros r t' [Ha|[Hw Ha]]; [by eapply answer_ready_ok|]. eapply went_on_ok; eauto.
Qed.

(** ** An answer is sent. *)
Definition closed (t t' : Task) : Prop := tk_place t' = Closed /\ tk_size t' = tk_size t.

Record idle (t t' : Task) : Prop := {
  id_place : tk_place t' = AtSocket;
  id_size : tk_size t' = tk_size t;
  id_stage : ci_stage t' = FDFS_STORAGE_STAGE_NIO_RECV;
  id_total : ci_total_length t' = 0;
  id_total_offset : ci_total_offset t' = 0;
  id_offset : tk_offset t' = 0;
  id_context : ci_file_context t' = ci_file_context t;
}.

Lemma exec_finish t : exec t (task_finish_clean_up conf) (fun _ => closed t).
Proof.
  unfold task_finish_clean_up. eapply exec_bind; [apply only_fd_clean|]. intros [] t' [fd ->]. by apply exec_task.
Qed.

(** Sending the last piece, or any. *)
Lemma exec_sock_write t : movable t ->
  exec t (client_sock_write conf) (fun _ t' => closed t t' \/ idle t t' \/
    ci_total_offset t + tk_length t < ci_total_length t /\ tk_size t' = tk_size t /\ (begun t -> begun t') /\ (quiet t -> quiet t') /\
      (tk_place t' = InDio \/ tk_place t' = Closing)).
Proof.
  intros Hm. unfold client_sock_write. apply exec_bind_the_task. unfold id. unfold movable in Hm.
  match goal with |- exec _ (match tk_place t with AtSocket => ?c | InDio => _ | InPipe => _ | Closing => _ | Closed => _ | Elsewhere => _ | Overrun => _ end) ?Q =>
    assert (exec t c Q) as Hk; [|by destruct (tk_place t)] end.
  apply exec_bind_still; [apply still_next_errno|]. intros e.
  case_decide; [eapply exec_weaken; [apply exec_finish|]; intros [] t' Hc; by left|]. cbv zeta.
  apply exec_bind_task, exec_bind_the_task. unfold id. cbn [ci_total_length ci_total_offset set_tk_sent set_tk_offset set_ci_total_offset].
  destruct (Z.leb_spec (ci_total_length t) (ci_total_offset t + tk_length t)).
  - destruct (_ && _); [eapply exec_weaken; [apply exec_finish|]; intros [] t' Hc; by left|].
    apply exec_bind_task. apply exec_move; [done|]. right. by left.
  - apply exec_bind_task. unfold storage_dio_queue_push. apply exec_bind_assoc, exec_bind_task, exec_bind_assoc.
    apply exec_bind_still; [auto with still|]. intros r.
    case_decide; (apply exec_bind_assoc, exec_bind_move; [done|]); apply exec_bind_ret, exec_ret; right; right;
      (split; [done|]); (split; [done|]); (split; [exact (begun_lor (ci_stage t))|]); (split; [done|]); auto.
Qed.

Lemma idle_ok got t t' : idle t t' -> tk_size t = buff_size -> task_ok got t'.
Proof.
  intros [I1 I2 I3 I4 I5 I6 I7] Hs. split; [congruence|]. rewrite I1. intros _. split; [done|]. left.
  assert (got_now t' got = []) as E by (unfold got_now, starting; by rewrite I5, I6).
  split; rewrite ?E, ?I6; done.
Qed.

Lemma closed_ok got t t' : closed t t' -> tk_size t = buff_size -> task_ok got t'.
Proof. intros [C1 C2] Hs. split; [congruence|]. by rewrite C1. Qed.

(** ** A task comes back through the pipe. *)

(** It is at the socket without a request, or not with a file of another server. *)
Definition settled (t : Task) : Prop := ci_total_offset t = 0 \/ quiet t \/ tk_place t = Closed \/ tk_place t = Closing.

Lemma socket_first_new got t : ci_total_offset t = 0 -> tk_offset t = 0 ->
  (ci_total_length t <> 0 -> tk_length t = Z.min buff_size (ci_total_length t)) -> socket_first got t.
Proof.
  intros E1 E2 E3. assert (got_now t got = []) as E by (unfold got_now, starting; by rewrite E1, E2). split; rewrite ?E, ?E2; done.
Qed.

Lemma begun_nio t : begun t -> Z.land (ci_stage t) (Z.lnot FDFS_STORAGE_STAGE_DIO_THREAD) <> FDFS_STORAGE_STAGE_NIO_INIT.
Proof.
  unfold begun. intros Hb E. apply Hb. apply (f_equal (fun x => Z.land x 7)) in E. rewrite <- Z.land_assoc in E. exact E.
Qed.

Lemma pipe_ok got t : task_ok got t -> tk_place t = InPipe -> exec t (storage_recv_notify_read conf)
  (fun _ t' => task_ok got t' /\ (settled t' \/ pipe_mid got t)).
Proof.
  intros [Hs Hok] Hp. rewrite Hp in Hok. unfold storage_recv_notify_read. apply exec_bind_task, exec_bind_the_task.
  cbn [ci_stage set_ci_stage]. destruct Hok as [[N1 N2 N3 N4]|[B Hok]].
  { rewrite N1. cbn. apply exec_bind_task. apply exec_move; [by unfold movable; cbn; rewrite Hp|]. split; [|by left; left]. split; [done|].
    cbn. intros _. split; [done|]. left. apply socket_first_new; done. }
  pose proof (begun_nio t B) as Hn. apply Z.eqb_neq in Hn. rewrite Hn. apply exec_if; intros Est.
  - apply exec_bind_task. apply exec_move; [by unfold movable; cbn; rewrite Hp|]. cbn in Est. apply Z.eqb_eq in Est.
    split; [split; [done|]; cbn; intros _; split; [done|]|].
    + destruct (Z.eq_dec (ci_total_offset t) 0) as [E0|E0]; [left; apply socket_first_new; cbn; rewrite ?E0, ?Z.sub_0_r, ?Hs; done|].
      right. destruct Hok as [Hq|[Ha|[M1 M2]]]; [by left|by destruct E0, Ha|right].
      pose proof (mi_length _ _ M1) as Hl. split; cbn; try done.
      * rewrite <- Hl, Nat2Z.id, firstn_all. by apply (mid_task_same _ t).
      * lia.
      * rewrite <- Hl, Nat2Z.id, drop_ge by lia. done.
      * by rewrite Hs.
    + destruct Hok as [Hq|[Ha|Hm]]; [left; by right; left|left; left; apply Ha|by right].
  - destruct Hok as [Hq|[Ha|[_ M2]]]; [| |by rewrite M2 in Est].
    + apply exec_if; intros Est'.
      * unfold storage_send_add_event. apply exec_bind_assoc, exec_bind_task, exec_bind_assoc.
        eapply exec_bind; [apply exec_sock_write; cbn; by unfold movable; cbn; rewrite Hp|].
        intros [] t' Ht. apply exec_bind_ret, exec_ret. destruct Ht as [Hc|[Hi|(_ & H1 & H2 & H3 & H4)]].
        -- split; [by eapply closed_ok|]. left. right. right. left. apply Hc.
        -- split; [by eapply idle_ok|]. left. left. apply Hi.
        -- assert (begun t') as B' by (apply H2; unfold begun; cbn; rewrite <- Z.land_assoc; exact B).
           assert (quiet t') as Hq' by by apply H3. split; [|by left; right; left]. cbn in H1. split; [congruence|]. destruct Hq' as [Q1 Q2].
           by destruct H4 as [-> | ->].
      * apply exec_move; [by unfold movable; cbn; rewrite Hp|]. split; [done|]. left. by right; right; right.
    + pose proof Ha as [A1 A2 A3 A4]. apply exec_if; intros Est'.
      * unfold storage_send_add_event. apply exec_bind_assoc, exec_bind_task, exec_bind_assoc.
        eapply exec_bind; [apply exec_sock_write; cbn; by unfold movable; cbn; rewrite Hp|].
        intros [] t' Ht. apply exec_bind_ret, exec_ret. destruct Ht as [Hc|[Hi|(Hlt & _)]]; [| |cbn in Hlt; lia].
        -- split; [by eapply closed_ok|]. left. right. right. left. apply Hc.
        -- split; [by eapply idle_ok|]. left. left. apply Hi.
      * apply exec_move; [by unfold movable; cbn; rewrite Hp|]. split; [done|]. left. by right; right; right.
Qed.

(** ** Bytes arrive. *)
Lemma put_at_take (off : Z) (b data : bytes) : 0 <= off -> off <= Z.of_nat (length data) ->
  take (Z.to_nat (off + Z.of_nat (length b))) (put_at off b data) = take (Z.to_nat off) data ++ b.
Proof.
  intros H1 H2. unfold put_at. rewrite app_assoc, (take_app_le data) by lia. rewrite take_app_le, firstn_all2; [done|..];
    rewrite length_app, length_take; lia.
Qed.

Lemma put_at_take_le (off : Z) (b data : bytes) : 0 <= off -> off <= Z.of_nat (length data) ->
  Z.of_nat (length (take (Z.to_nat off) data)) = off.
Proof. intros H1 H2. rewrite length_take. lia. Qed.

(** The state that an answer starts from. *)
Lemma answer_ok got t r : (tk_place t = AtSocket \/ tk_place t = Closing \/ tk_place t = Overrun) ->
  tk_size t = buff_size -> exec t (answer conf r) (fun _ => started_ok got).
Proof.
  intros Hp Hs. unfold answer, put_header, storage_send_add_event. apply exec_bind_task, exec_bind_task.
  set (t1 := put_buffer _ _ _).
  assert (tk_place t1 = tk_place t /\ tk_size t1 = tk_size t /\
          ci_total_offset t1 = 0 /\ tk_length t1 = ci_total_length t1) as (E1 & E3 & E4 & E5) by (unfold t1; by case_decide).
  clearbody t1. apply exec_bind_assoc, exec_bind_task, exec_bind_assoc. destruct Hp as [Hp|Hp].
  - eapply exec_bind; [apply exec_sock_write; by unfold movable; cbn; rewrite E1, Hp|].
    intros [] t' Ht. apply exec_bind_ret, exec_ret. destruct Ht as [Hc|[Hi|(Hlt & _)]]; [| |cbn in Hlt; lia].
    + split; [eapply closed_ok; [done|cbn; congruence]|]. unfold just_started. by destruct Hc as [-> _].
    + split; [eapply idle_ok; [done|cbn; congruence]|]. unfold just_started. by destruct Hi as [-> ? ? ? ? ? ?].
  - unfold client_sock_write. apply exec_bind_assoc, exec_bind_the_task. cbn.
    destruct Hp as [Hp|Hp]; rewrite E1, Hp; apply exec_bind_ret, exec_bind_ret, exec_ret; (split; [split; cbn; [congruence|]; by rewrite E1, Hp|unfold just_started; cbn; by rewrite E1, Hp]).
Qed.

(** The first piece is there. *)
Record first_piece (got : bytes) (t : Task) : Prop := {
  fp_place : tk_place t = AtSocket;
  fp_size : tk_size t = buff_size;
  fp_stage : ci_stage t = FDFS_STORAGE_STAGE_NIO_RECV;
  fp_total_offset : ci_total_offset t = 0;
  fp_total : ci_total_length t <> 0;
  fp_length : tk_length t = Z.min buff_size (ci_total_length t);
  fp_offset : tk_length t <= tk_offset t;
  fp_exact : 10 < ci_total_length t -> tk_offset t = tk_length t;
  fp_data : take (Z.to_nat (tk_offset t)) (tk_data t) = got;
  fp_got : Z.of_nat (length got) = tk_offset t;
}.

Lemma handled_ok got t t' r : 256 <= buff_size -> first_piece got t ->
  let t0 := set_ci_total_offset (tk_length t)
    (if ci_total_length t <=? tk_length t then set_ci_stage FDFS_STORAGE_STAGE_NIO_SEND t else t) in
  handled conf t0 r t' -> r = STORAGE_STATUE_DEAL_FILE -> started_ok got t'.
Proof.
  intros Hb [F1 F2 F4 F5 F6 F7 F8 F9 F10 F11] t0 (Hz & Hbegun & Hh) Hr.
  assert (tk_size t0 = buff_size /\ tk_length t0 = tk_length t /\ ci_total_length t0 = ci_total_length t /\ tk_offset t0 = tk_offset t /\
    ci_total_offset t0 = tk_length t /\ tk_data t0 = tk_data t) as (E1 & E2 & E3 & E4 & E5 & E6) by (unfold t0; by destruct (_ <=? _)).
  assert (ci_stage t0 = FDFS_STORAGE_STAGE_NIO_SEND /\ ci_total_length t <= tk_length t \/ ci_stage t0 = FDFS_STORAGE_STAGE_NIO_RECV) as Est
    by (unfold t0; destruct (Z.leb_spec (ci_total_length t) (tk_length t)); auto).
  clearbody t0.
  assert (begun t') as B by (apply Hbegun; unfold begun; by destruct Est as [[-> _]| ->]).
  assert (tk_place t' = AtSocket -> 0 < recv_bytes t' -> False) as Hdead.
  { intros Ep Ha. rewrite Ep in Hh. destruct Hh as [S3 S4 S5 S6]; [done|]. unfold recv_bytes in Ha. rewrite S3, S4, E2, E4 in Ha.
    destruct (Z.eqb_spec (ci_total_length t') 0); [|lia]. lia. }
  split; [split; [congruence|]|].
  2: { unfold just_started. destruct (tk_place t') eqn:Ep; try done; [intros Ha; by destruct (Hdead eq_refl Ha)| |].
       - destruct Hh as (_ & _ & Hw & _). intros Hc. destruct (Hw (proj1 Hc)) as (_ & _ & [S3 S4 S5 S6] & _ & _). congruence.
       - destruct Hh as (_ & [A1 A2 A3 A4]). done. }
  destruct (tk_place t') eqn:Ep; try done.
  - intros Ha. by destruct (Hdead eq_refl Ha).
  - destruct Hh as (_ & Hl & Hw & Hc). split; [done|done|]. intros Hwr. destruct (Hw Hwr) as (Hst & Hq & Hsb & Htot & H10).
    rewrite E3 in H10. specialize (F9 H10). pose proof Hsb as [S3 S4 S5 S6].
    split; [done|rewrite S5, E5; lia| |rewrite S5, E5; lia|].
    + unfold whole. rewrite Hst, S5, E5. destruct Est as [[-> Hle]| ->]; [left|by right]. split; [done|].
      lia.
    + intros Hcp. rewrite <- F10, F9, <- E2, <- E6. apply copy_queued_dio; auto; [congruence|by rewrite E2, E3|].
      rewrite E2, E6, <- F9, F10. congruence.
  - destruct Hh as (_ & Ha). right. auto.
Qed.
Lemma first_piece_ok got t : 256 <= buff_size -> first_piece got t -> exec t (piece_done conf) (fun _ => started_ok got).
Proof.
  intros Hb F. pose proof F as [F1 F2 F4 F5 F6 F7 F8 F9 F10 F11]. unfold piece_done. apply exec_bind_task, exec_bind_the_task, exec_bind_task.
  set (t0 := set_ci_total_offset _ _).
  assert (t0 = set_ci_total_offset (tk_length t) (if ci_total_length t <=? tk_length t then set_ci_stage FDFS_STORAGE_STAGE_NIO_SEND t else t)) as E0.
  { unfold t0, id. assert (ci_total_offset t + tk_length t = tk_length t) as -> by lia. destruct (ci_total_length t <=? tk_length t); f_equal; cbn; lia. }
  assert (ci_total_offset (id (if ci_total_length t <=? ci_total_offset t + tk_length t
    then set_ci_stage FDFS_STORAGE_STAGE_NIO_SEND t else t)) = 0) as -> by (by destruct (_ <=? _)).
  cbn [Z.eqb]. rewrite E0. clear E0. clearbody t0. clear t0. set (t0 := set_ci_total_offset _ _).
  assert (tk_place t0 = AtSocket /\ ci_total_offset t0 = tk_length t0 /\ tk_size t0 = buff_size)
    as (G1 & G3 & G4) by (unfold t0; destruct (_ <=? _); auto).
  apply (exec_bind _ _ _ (fun _ => started_ok got)); [|intros; by apply exec_ret].
  unfold storage_deal_task. apply exec_bind_the_task. destruct (_ =? FDFS_PROTO_CMD_QUIT).
  { apply exec_bind_move; [by unfold movable; rewrite G1|]. apply exec_ret; split; [split; [exact G4|done]|done]. }
  destruct (deal_command _ _) as [c|] eqn:Ec.
  2: { apply exec_bind_move; [by unfold movable; rewrite G1|]. apply exec_ret; split; [split; [exact G4|done]|done]. }
  eapply exec_bind; [by eapply (exec_deal_command conf t0)|]. intros r t' Hh.
  destruct (Z.eqb_spec r STORAGE_STATUE_DEAL_FILE) as [->|Hr]; cbn [negb].
  - apply exec_bind_ret, exec_ret. by eapply handled_ok.
  - destruct Hh as (Hz & _ & Hh). apply (exec_bind _ _ _ (fun _ => started_ok got)); [|intros; by apply exec_ret].
    apply answer_ok; [|congruence]. destruct (tk_place t') eqn:Ep; try done; auto; by destruct Hh.
Qed.

(** The next piece of a request is there. *)
Lemma got_grows (got b : bytes) n : n <= Z.of_nat (length got) -> take (Z.to_nat n) (got ++ b) = take (Z.to_nat n) got.
Proof. intros Hn. apply take_app_le. lia. Qed.

Lemma copy_state_app req rest t t' : copy_state req t -> ci_file_context t' = ci_file_context t -> ci_total_length t' = ci_total_length t ->
  ci_clean_func t' = ci_clean_func t -> copy_state (req ++ rest) t'.
Proof.
  intros [C1 C2 C3 C4 C5 C6] E1 E2 E3. assert (46 <= length req)%nat as Hl by (unfold head_in in C6; lia).
  split; rewrite ?E1, ?E2, ?E3, ?name_len_in_app, ?size_in_app, ?head_in_app, ?name_in_app by lia; try done.
  rewrite length_app. lia.
Qed.

Lemma mid_piece_ok got b t : socket_mid got t -> tk_place t = AtSocket -> tk_size t = buff_size -> ci_stage t = FDFS_STORAGE_STAGE_NIO_RECV ->
  Z.of_nat (length b) <= tk_length t - tk_offset t ->
  let t1 := set_tk_offset (tk_offset t + Z.of_nat (length b)) (put_buffer (tk_offset t) b t) in
  exec t1 (let! t := the_task id in if tk_length t <=? tk_offset t then piece_done conf else ret tt) (fun _ => task_ok (got ++ b)).
Proof.
  intros [S1 S2 S3 S4 S5] Hp Hs Hst Hb t1. pose proof S1 as [M1 M2 M3 M4 M5 M6 M7 M8].
  set (off := tk_offset t + Z.of_nat (length b)).
  assert (tk_offset t <= Z.of_nat (length (tk_data t))) as Hd.
  { apply (f_equal length) in S3. rewrite length_take, length_drop in S3. lia. }
  assert (take (Z.to_nat off) (tk_data t1) = drop (Z.to_nat (ci_total_offset t)) (got ++ b)) as Hdata.
  { unfold t1, off. cbn. rewrite put_at_take, S3 by lia. rewrite drop_app_le by lia. done. }
  apply exec_bind_the_task. unfold id. apply exec_if; cbn [tk_length tk_offset t1 set_tk_offset]; intros Hle.
  - unfold piece_done. apply exec_bind_task, exec_bind_the_task, exec_bind_task. unfold id.
    apply (exec_bind _ _ _ (fun _ => task_ok (got ++ b))); [|intros; by apply exec_ret].
    set (t2 := if ci_total_length t1 <=? ci_total_offset t1 + tk_length t1 then set_ci_stage FDFS_STORAGE_STAGE_NIO_SEND t1 else t1).
    assert (ci_total_offset t2 = ci_total_offset t /\ tk_length t2 = tk_length t) as [E1 E2] by (unfold t2; destruct (ci_total_length t1 <=? _); auto).
    rewrite E1, E2. destruct (Z.eqb_spec (ci_total_offset t) 0); [lia|].
    assert (off = tk_length t) as Hoff by (unfold off; cbn in Hle; lia).
    set (t3 := set_ci_total_offset (ci_total_offset t + tk_length t) t2).
    assert (ci_file_context t3 = ci_file_context t /\ ci_total_length t3 = ci_total_length t /\ ci_clean_func t3 = ci_clean_func t /\
      ci_deal_func t3 = ci_deal_func t /\ tk_length t3 = tk_length t /\ tk_data t3 = tk_data t1 /\ tk_size t3 = buff_size /\ tk_place t3 = AtSocket /\
      ci_total_offset t3 = ci_total_offset t + tk_length t) as (G1 & G2 & G3 & G4 & G5 & G6 & G7 & G8 & G9)
      by (unfold t3, t2; destruct (ci_total_length t1 <=? _); split_and!; done).
    assert (ci_stage t3 = FDFS_STORAGE_STAGE_NIO_SEND /\ ci_total_length t3 <= ci_total_offset t3 \/ ci_stage t3 = FDFS_STORAGE_STAGE_NIO_RECV) as Gst.
    { rewrite G2, G9. unfold t3, t2. change (ci_total_length t1) with (ci_total_length t). change (ci_total_offset t1) with (ci_total_offset t).
      change (tk_length t1) with (tk_length t). destruct (Z.leb_spec (ci_total_length t) (ci_total_offset t + tk_length t)); auto. }
    assert (Z.of_nat (length (got ++ b)) = ci_total_offset t + tk_length t) as Hlen by (rewrite length_app; lia).
    clearbody t3. clear t2 E1 E2. apply exec_push; [by unfold movable; rewrite G8|].
    assert (begun t3) as B3 by (unfold begun; by destruct Gst as [[-> _]| ->]).
    intros r p [[_ ->]|[_ ->]]; (split; [done|]); [|done]. split; [by apply begun_push| |].
    { unfold linking, writing in *. cbn. rewrite G4. destruct M5 as [Hw _]. congruence. }
    intros _. split; cbn; rewrite ?G9; try done; try lia.
    + split; cbn; rewrite ?G1, ?G2, ?G3, ?G5, ?G9; done || lia.
    + unfold whole. cbn. rewrite G2, G9 in *. destruct Gst as [[-> ?]| ->]; auto.
    + intros [K1 K2]. unfold copying, writing in *. cbn in K1, K2. rewrite G4, G1 in K1. rewrite G1 in K2.
      pose proof (M8 (conj K1 K2)) as Hc. pose proof Hc as [C1 C2 C3 C4 C5 C6].
      assert (got ++ b = take (Z.to_nat (ci_total_offset t)) got ++ drop (Z.to_nat (ci_total_offset t)) (got ++ b)) as Eg
        by (rewrite <- (got_grows got b) by lia; symmetry; apply firstn_skipn).
      split; cbn; rewrite ?G1, ?G5, ?G6, ?G9; try lia.
      * rewrite Eg. eapply copy_state_app; done.
      * rewrite <- Hoff, Hdata. f_equal. lia.
      * right. split; [done|]. rewrite Eg, head_in_app by (unfold head_in in C6; lia). lia.
  - apply exec_ret. split; [done|]. cbn. rewrite Hp. intros _. split; [done|]. right. right. split; cbn; try lia.
    + rewrite got_grows by lia. by apply (mid_task_same _ t).
    + rewrite length_app. lia.
    + exact Hdata.
Qed.

(** In the middle of something else. *)
Lemma quiet_piece got t : tk_place t = AtSocket -> tk_size t = buff_size -> ci_stage t = FDFS_STORAGE_STAGE_NIO_RECV -> quiet_mid t ->
  exec t (let! t := the_task id in if tk_length t <=? tk_offset t then piece_done conf else ret tt)
    (fun _ t' => task_ok got t' /\ quiet t').
Proof.
  intros Hp Hs Hst [Ho Hq]. apply exec_bind_the_task. unfold id. apply exec_if; intros _.
  - unfold piece_done. apply exec_bind_task, exec_bind_the_task, exec_bind_task. unfold id.
    apply (exec_bind _ _ _ (fun _ t' => task_ok got t' /\ quiet t')); [|intros; by apply exec_ret].
    set (t2 := if ci_total_length t <=? ci_total_offset t + tk_length t then set_ci_stage FDFS_STORAGE_STAGE_NIO_SEND t else t).
    assert (ci_total_offset t2 = ci_total_offset t /\ begun t2 /\ tk_place t2 = AtSocket /\ quiet t2 /\ tk_size t2 = buff_size) as (E1 & E2 & E3 & E4 & E5)
      by (unfold t2, begun; destruct (ci_total_length t <=? _); cbn; rewrite ?Hst; split_and!; done).
    clearbody t2. rewrite E1, (proj2 (Z.eqb_neq _ _) Ho). apply exec_push; [by unfold movable; cbn; rewrite E3|].
    intros r p [[_ ->]|[_ ->]]; (split; [|done]); (split; [done|]); [|done].
    split; [by apply begun_push|intros X; by destruct E4 as [_ []]|intros X; by destruct E4 as [[] _]].
  - apply exec_ret. split; [|done]. split; [done|]. rewrite Hp. intros _. split; [done|]. right. by left.
Qed.

Lemma quiet_read_ok got b t : task_ok got t -> tk_place t = AtSocket -> ci_stage t = FDFS_STORAGE_STAGE_NIO_RECV -> quiet_mid t ->
  exec t (client_sock_read conf b) (fun _ t' => forall got', task_ok got' t' /\ (quiet t' \/ tk_place t' = Closed)).
Proof.
  intros [Hs _] Hp Hst Hq. unfold client_sock_read. apply exec_bind_the_task. unfold id. cbv zeta. apply exec_bind_task.
  set (t1 := put_buffer _ _ t).
  assert (tk_place t1 = AtSocket /\ tk_size t1 = buff_size /\ ci_stage t1 = FDFS_STORAGE_STAGE_NIO_RECV /\ quiet_mid t1) as (E1 & E2 & E3 & E4) by done.
  clearbody t1.
  assert (forall t2, tk_place t2 = AtSocket -> tk_size t2 = buff_size -> ci_stage t2 = FDFS_STORAGE_STAGE_NIO_RECV -> quiet_mid t2 ->
    exec t2 (let! t := the_task id in if tk_length t <=? tk_offset t then piece_done conf else ret tt)
      (fun _ t' => forall got', task_ok got' t' /\ (quiet t' \/ tk_place t' = Closed))) as Hpiece.
  { intros t2 G1 G2 G3 G4 s Es Hseq. split.
    - intros got'. destruct (quiet_piece got' t2 G1 G2 G3 G4 s Es Hseq) as [[] _]. auto.
    - by apply (quiet_piece got t2 G1 G2 G3 G4 s Es Hseq). }
  apply exec_if; intros _.
  - apply exec_if; intros _.
    + apply exec_task. intros got'. split; [|by left; apply E4]. split; [done|]. cbn. rewrite E1. intros _. split; [done|]. right. by left.
    + apply exec_bind_the_task. apply exec_if; intros _.
      * apply exec_bind_task. eapply exec_weaken; [apply exec_finish|]. intros r t' Hc got'. split; [eapply closed_ok; [exact Hc|exact E2]|]. right. apply Hc.
      * do 2 apply exec_bind_task. by apply Hpiece.
  - apply exec_bind_task. by apply Hpiece.
Qed.

(** At the start of a request, or in the middle of a file from another server. *)
Lemma socket_read_part got b t : 256 <= buff_size -> tk_size t = buff_size -> tk_place t = AtSocket ->
  (0 < length b)%nat -> Z.of_nat (length b) <= recv_bytes t -> ci_stage t = FDFS_STORAGE_STAGE_NIO_RECV ->
  socket_first got t \/ socket_mid got t ->
  exec t (client_sock_read conf b) (fun _ t' => task_ok (got_now t got ++ b) t' /\ (ci_total_offset t = 0 -> just_started t')).
Proof.
  intros Hb Hs Hp Hb0 Hb1 Hst Hsock.
  unfold client_sock_read. apply exec_bind_the_task. unfold id. cbv zeta.
  rewrite (firstn_all2 b) by lia. apply exec_bind_task. set (off := tk_offset t + Z.of_nat (length b)).
  destruct Hsock as [[F1 F2 F4 F5]|Hmid].
  2: { assert (got_now t got = got) as -> by (unfold got_now, starting; destruct Hmid as [[] ? ? ? ?]; by rewrite (proj2 (Z.eqb_neq _ _)) by lia).
       assert (ci_total_length t <> 0) as Hne by (destruct Hmid as [[] ? ? ? ?]; lia). rewrite (proj2 (Z.eqb_neq _ _) Hne).
       apply exec_bind_task. eapply exec_weaken; [apply mid_piece_ok; try done|intros r t' Ht; split; [done|]; intros E; destruct Hmid as [[] ? ? ? ?]; lia]. unfold recv_bytes in Hb1. rewrite (proj2 (Z.eqb_neq _ _) Hne) in Hb1. done. }
  set (got' := got_now t got ++ b). assert (Z.of_nat (length got') = off) as Hlen by (unfold got', off; rewrite length_app; lia).
  assert (take (Z.to_nat off) (put_at (tk_offset t) b (tk_data t)) = got') as Hdata.
  { unfold got', off. rewrite put_at_take, F2; [done|lia|]. apply (f_equal length) in F2. rewrite length_take in F2. lia. }
  assert (forall t', tk_offset t' = off -> got_now t' got' = got') as Hnow.
  { intros t' E. unfold got_now, starting. rewrite E, (proj2 (Z.eqb_neq off 0)) by lia. by rewrite andb_false_r. }
  assert (forall t1, tk_place t1 = AtSocket -> tk_size t1 = buff_size ->
            ci_stage t1 = FDFS_STORAGE_STAGE_NIO_RECV -> ci_total_offset t1 = 0 -> ci_total_length t1 <> 0 ->
            tk_length t1 = Z.min buff_size (ci_total_length t1) -> tk_offset t1 = off ->
            (10 < ci_total_length t1 -> tk_length t1 <= off -> off = tk_length t1) ->
            tk_data t1 = put_at (tk_offset t) b (tk_data t) ->
            exec t1 (let! t := the_task id in if tk_length t <=? tk_offset t then piece_done conf else ret tt) (fun _ => started_ok got')) as Hpiece.
  { intros t1 G1 G2 G4 G5 G6 G7 G8 G9 G10. apply exec_bind_the_task. unfold id. apply exec_if; intros Hle.
    - rewrite G8 in Hle. apply first_piece_ok; [done|]. split; try done; rewrite ?G8; try lia. by rewrite G10.
    - apply exec_ret. split; [|unfold just_started; by rewrite G1]. split; [done|]. rewrite G1. intros _. split; [done|]. left. specialize (Hnow t1 G8).
      split; rewrite ?Hnow, ?G8; try done. by rewrite G10. }
  destruct (Z.eqb_spec (ci_total_length t) 0) as [E0|E0].
  - unfold recv_bytes in Hb1. rewrite E0 in Hb1. cbn in Hb1. apply exec_if; intros Hoff.
    + apply exec_task. split; [|unfold just_started; cbn; by rewrite Hp]. split; [done|]. cbn. rewrite Hp. intros _. split; [done|]. left. specialize (Hnow _ (eq_refl : tk_offset (set_tk_offset off (put_buffer (tk_offset t) b t)) = off)).
      split; cbn; rewrite ?Hnow; try done.
    + apply exec_bind_the_task. apply exec_if; intros Hneg.
      * apply exec_bind_task. eapply exec_weaken; [apply exec_finish|]. intros r t' Hc. split; [eapply closed_ok; [exact Hc|done]|]. intros _. unfold just_started. by destruct Hc as [-> _].
      * do 2 apply exec_bind_task. set (pkg := buff2long _) in *. assert (off = 10) as H10 by (unfold off; lia).
        eapply exec_weaken; [apply Hpiece; cbn; try done|by intros r t' []].
        -- assert (is_int64 pkg) as Hr by apply buff2long_range. unfold int64, is_int64 in *. intros E. dlia.
        -- by rewrite Hs.
        -- lia.
  - unfold recv_bytes in Hb1. rewrite (proj2 (Z.eqb_neq _ _) E0) in Hb1. apply exec_bind_task. eapply exec_weaken; [apply Hpiece; cbn; try done; [by apply F4|]|by intros r t' []].
    intros _ Hle. unfold off in *. lia.
Qed.

Lemma socket_read_ok got b t : 256 <= buff_size -> task_ok got t -> tk_place t = AtSocket ->
  (0 < length b)%nat -> Z.of_nat (length b) <= recv_bytes t ->
  exec t (client_sock_read conf b) (fun _ t' => task_ok (got_now t got ++ b) t' /\
    (ci_total_offset t = 0 -> just_started t') /\ (quiet_mid t -> quiet t' \/ tk_place t' = Closed)).
Proof.
  intros Hb Htask Hp Hb0 Hb1. pose proof Htask as [Hs Hok]. rewrite Hp in Hok. destruct (Hok ltac:(lia)) as [Hst Hsock]. clear Hok.
  destruct Hsock as [Hf|[Hq|Hm]].
  - eapply exec_weaken; [apply (socket_read_part got); auto|]. intros r t' [? ?]. split_and!; [done..|]. intros [Hz _]. by destruct Hz, Hf.
  - eapply exec_weaken; [by eapply quiet_read_ok|]. intros r t' Ht. split_and!; [apply Ht|by intros E; destruct Hq|intros _; apply (Ht got)].
  - eapply exec_weaken; [apply (socket_read_part got); auto|]. intros r t' [? ?]. split_and!; [done..|]. intros [_ [Hw _]].
    destruct Hw. apply (mi_writing _ _ (sm_mid _ _ Hm)).
Qed.

End run.
