(* ===== verification/StorageServer.v ===== *)
(** * A server in any order of steps.

    The temporary files of a server belong to the connections that took their
    numbers, and a step of one connection leaves the files of the others alone;
    what a connection that receives a file makes visible is nothing, or the
    complete file. *)

From S2P Require Import Prelude FastCommon TrunkShared TrunkMem StorageIds TrackerTypes FileSys SyncBinlog Net SyncReader SyncPeer DataFiles StorageTask StorageDio StorageSyncIn StorageServe DataInv StorageNames StorageSafe StorageSafeClient StorageSafeDisk StorageSteps StorageHandled StorageStepsDisk StorageCopy StorageRun.

Local Open Scope c_scope.

Definition context_of (t : Task) : StorageFileContext := ci_file_context t.

(** [owner q] is the connection that took the number [q]. *)
Section owner.
Context (conf : StorageConf) (owner : Z -> option nat).

Definition owned (k : nat) (n : bytes) : Prop := forall p q, 0 <= q -> n = temp_name p q -> owner q = Some k.

Record owns (fs : DataFs) (k : nat) (t : Task) : Prop := {
  ow_name : owned k (fc_filename (ci_file_context t));
  ow_bound fd : fc_fd (ci_file_context t) = Some fd -> (of_inode fd < length (d_inodes fs))%nat;
  ow_fd fd n : fc_fd (ci_file_context t) = Some fd -> d_names fs !! n = Some (of_inode fd) -> owned k n;
  ow_names : names_ok conf (fc_upload (ci_file_context t));
}.

Record shared (svc : Service) (tasks : gmap nat Task) : Prop := {
  sh_tidy : tidy (s_files svc);
  sh_seq : 0 <= s_temp_file_sequence svc;
  sh_fresh q k : owner q = Some k -> q < s_temp_file_sequence svc;
  sh_owns k t : tasks !! k = Some t -> owns (s_files svc) k t;
}.
End owner.

Section step.
Context (conf : StorageConf) (owner : Z -> option nat) (svc : Service) (tasks : gmap nat Task) (i : nat) (t : Task).
Context (world : shared conf owner svc tasks) (mine : tasks !! i = Some t).
(** Whether the step may take numbers. *)
Context (fresh : Prop).

Definition of_others (n : bytes) (j : nat) : Prop :=
  exists k t', k <> i /\ tasks !! k = Some t' /\ n = fc_filename (ci_file_context t') /\ is_temp n /\ d_names (s_files svc) !! n = Some j.

Definition usable (n : bytes) : Prop :=
  forall p q, 0 <= q -> n = temp_name p q -> owner q = Some i \/ (fresh /\ s_temp_file_sequence svc <= q).

Definition step_region : Region :=
  mkRegion (s_files svc) of_others usable (owned owner i) (s_temp_file_sequence svc) conf.

#[export] Instance step_region_ok : RegionOk step_region.
Proof.
  split.
  - intros n j Hu (k & t' & Hk & Ht & -> & (p & q & Hq & E) & _).
    pose proof (ow_name _ _ _ _ _ (sh_owns _ _ _ _ world k t' Ht) p q Hq E) as Ho.
    destruct (Hu p q Hq E) as [Ho'|[_ Hs]]; [congruence|]. apply (sh_fresh _ _ _ _ world) in Ho. lia.
  - intros n j (k & t' & _ & _ & _ & Hn & _). done.
  - intros n Hn p q Hq ->. destruct Hn. by exists p, q.
Qed.

Lemma step_can_open : ~ fresh -> can_open step_region.
Proof. intros Hf n Hu _ p q Hq E. by destruct (Hu p q Hq E) as [|[? _]]. Qed.

Lemma step_can_take : fresh -> can_take step_region.
Proof.
  intros Hf. pose proof (sh_seq _ _ _ _ world) as Hs. split; [done|]. intros p q Hq p' q' Hq' E. cbn in Hq.
  apply temp_name_inj in E; [|lia..]. subst. auto.
Qed.

Lemma sound_start : Sound step_region (mkServing svc t).
Proof.
  pose proof (sh_owns _ _ _ _ world i t mine) as [On Ob Of Om]. split; unfold fs_of, fc_of; cbn.
  - split; [apply world|done| |by left]. intros n j (k & t' & _ & _ & _ & _ & E). done.
  - intros fd Hfd. split; [split; [by apply Ob|]|].
    + intros n (k & t' & Hk & Ht & -> & (p & q & Hq & E) & En).
      pose proof (Of fd _ Hfd En p q Hq E). pose proof (ow_name _ _ _ _ _ (sh_owns _ _ _ _ world k t' Ht) p q Hq E). congruence.
    + intros n Hn En p q Hq E. by eapply Of.
  - intros p q Hq E. left. by eapply On.
  - done.
  - intros p q Hq E. eapply (sh_fresh _ _ _ _ world). by eapply On.
  - done.
Qed.

(** What others have written stays. *)
Definition keeps_written (fs fs' : DataFs) : Prop :=
  forall k t' b, k <> i -> tasks !! k = Some t' -> written fs t' b -> written fs' t' b.

Lemma sound_end s' : Sound step_region s' ->
  (exists owner', shared conf owner' (s_service s') (<[i := s_task s']> tasks)) /\ keeps_written (s_files svc) (fs_of s').
Proof.
  intros [[T L O M] F N Q B G]. cbn in L, O, M, F, N, Q, G. split.
  - set (q1 := s_temp_file_sequence (s_service s')) in *.
    exists (fun q => if decide (s_temp_file_sequence svc <= q < q1) then Some i else owner q).
    assert (forall q k, owner q = Some k ->
      (if decide (s_temp_file_sequence svc <= q < q1) then Some i else owner q) = Some k) as Hold.
    { intros q k Ho. pose proof (sh_fresh _ _ _ _ world q k Ho). rewrite decide_False by lia. done. }
    split; [done| | |].
    + pose proof (sh_seq _ _ _ _ world). fold q1. lia.
    + intros q k. case_decide; [lia|]. intros Ho. apply (sh_fresh _ _ _ _ world) in Ho. fold q1. lia.
    + intros k t' [[<- <-]|[Hk Ht]]%lookup_insert_Some.
      * split; [| | |done].
        -- intros p q Hq E. destruct (N p q Hq E) as [Ho|[_ Hs]]; [by apply Hold|]. rewrite decide_True; [done|]. split; [done|]. by eapply B.
        -- intros fd Hfd. by destruct (F fd Hfd) as [[Hb _] _].
        -- intros fd n Hfd En p q Hq E. destruct (F fd Hfd) as [_ Hm]. apply Hold.
           by apply (Hm n (ex_intro _ p (ex_intro _ q (conj Hq E))) En p q Hq E).
      * destruct (sh_owns _ _ _ _ world k t' Ht) as [On Ob Of Om]. split; [| | |done].
        -- intros p q Hq E. by apply Hold, (On p).
        -- intros fd Hfd. pose proof (Ob fd Hfd). unfold fs_of in *. lia.
        -- intros fd n Hfd En p q Hq E. apply Hold. assert (is_temp n) as Hn by (by exists p, q).
           destruct (M n (of_inode fd) Hn En) as [E0|Hj]; [by apply (Of fd n Hfd E0 p q)|]. pose proof (Ob fd Hfd). lia.
  - intros k t' b Hk Ht (fd & Hfd & Hpos & Happ & [H1 H2 H3 H4]). exists fd. split_and!; [done..|].
    destruct (O (fc_filename (ci_file_context t')) (of_inode fd)) as [En Ei]; [by exists k, t'|].
    split; [done|done|by rewrite Ei|]. intros m Em. by eapply (tidy_alone _ T).
Qed.

End step.

Section server.
Context `{FastCommonLaws} (CRC32 : bytes -> Z -> Z) (conf : StorageConf) (buff_size : Z).
Context (short : short_paths (paths conf)) (enough : 256 <= buff_size).

(** What a copy has written of its file. *)
Definition copy_files (fs : DataFs) (got : bytes) (t : Task) : Prop :=
  copying t -> ci_total_offset t <> 0 ->
  match tk_place t with
  | AtSocket => 0 < recv_bytes t -> written fs t (body_in (take (Z.to_nat (ci_total_offset t)) got))
  | InPipe => written fs t (body_in got)
  | InDio => ci_total_offset t <> tk_length t ->
             written fs t (body_in (take (Z.to_nat (ci_total_offset t - tk_length t)) got))
  | _ => True
  end.

Definition connection_ok (fs : DataFs) (got : bytes) (t : Task) : Prop := task_ok conf buff_size got t /\ copy_files fs got t.

Definition server_ok (srv : Server) : Prop :=
  (exists owner, shared conf owner (sr_service srv) (sr_tasks srv)) /\
  forall k t, sr_tasks srv !! k = Some t -> connection_ok (s_files (sr_service srv)) (got_by k srv) t.

Lemma copy_files_kept fs fs' got t : (forall b, written fs t b -> written fs' t b) -> copy_files fs got t -> copy_files fs' got t.
Proof. intros Hk Hc H1 H2. specialize (Hc H1 H2). destruct (tk_place t); auto. Qed.

Lemma server_run srv i t got c :
  let s' := (c (mkServing (sr_service srv) t)).2 in
  server_ok srv -> sr_tasks srv !! i = Some t ->
  (exists owner, shared conf owner (s_service s') (<[i := s_task s']> (sr_tasks srv))) /\
    keeps_written (sr_tasks srv) i (s_files (sr_service srv)) (fs_of s') ->
  connection_ok (fs_of s') got (s_task s') -> server_ok (run_task i t got c srv).
Proof.
  cbv zeta. intros [_ Hok] Ht [Hsh Hkeep] Hc. unfold run_task. set (s' := (c _).2) in *. split; [done|]. cbn [sr_tasks sr_service].
  intros k t' Hk. unfold got_by. cbn [sr_got]. destruct (decide (k = i)) as [->|Hne].
  - rewrite lookup_insert_eq in Hk. rewrite lookup_insert_eq. by simplify_eq.
  - rewrite lookup_insert_ne in Hk by done. rewrite lookup_insert_ne by done. destruct (Hok k t' Hk) as [Ho1 Ho2]. split; [done|].
    eapply copy_files_kept; [|done]. intros b. apply (Hkeep k t' b Hne Hk).
Qed.

(** Only the task changes, and it has the same file. *)
Lemma shared_same owner svc svc' tasks i t t' : shared conf owner svc tasks -> tasks !! i = Some t ->
  s_files svc' = s_files svc -> s_temp_file_sequence svc' = s_temp_file_sequence svc ->
  ci_file_context t' = ci_file_context t ->
  shared conf owner svc' (<[i := t']> tasks) /\ keeps_written tasks i (s_files svc) (s_files svc').
Proof.
  intros [S1 S2 S3 S4] Ht E1 E2 E3. split; [|rewrite E1; by intros k t'' b]. split; rewrite ?E1, ?E2; try done.
  intros k t'' [[<- <-]|[Hk Hl]]%lookup_insert_Some; [|by apply S4].
  destruct (S4 i t Ht) as [O1 O2 O3 O4]. split; rewrite E3; done.
Qed.

(** ** The steps of a connection, for what it shares with others. *)
Lemma shared_run {A} fresh (c : M Serving A) owner svc tasks i t (Hsh : shared conf owner svc tasks) (Ht : tasks !! i = Some t) :
  (let r := step_region conf owner svc tasks i fresh in Sound r (mkServing svc t) -> Sound r (c (mkServing svc t)).2) ->
  let s' := (c (mkServing svc t)).2 in
  (exists owner, shared conf owner (s_service s') (<[i := s_task s']> tasks)) /\ keeps_written tasks i (s_files svc) (fs_of s').
Proof. intros Hrun. apply (sound_end conf owner svc tasks i Hsh fresh). by apply Hrun, sound_start. Qed.

Lemma shared_read b owner svc tasks i t : shared conf owner svc tasks -> tasks !! i = Some t ->
  let s' := (client_sock_read conf b (mkServing svc t)).2 in
  (exists owner, shared conf owner (s_service s') (<[i := s_task s']> tasks)) /\ keeps_written tasks i (s_files svc) (fs_of s').
Proof.
  intros Hsh Ht. apply (shared_run True _ owner _ _ i t Hsh Ht). intros r. pose proof (step_region_ok conf owner svc tasks i Hsh True).
  apply (sound_client_sock_read r); [exact short|exact (step_can_take conf owner svc tasks i Hsh True Logic.I)].
Qed.

Lemma shared_pipe owner svc tasks i t : shared conf owner svc tasks -> tasks !! i = Some t ->
  let s' := (storage_recv_notify_read conf (mkServing svc t)).2 in
  (exists owner, shared conf owner (s_service s') (<[i := s_task s']> tasks)) /\ keeps_written tasks i (s_files svc) (fs_of s').
Proof.
  intros Hsh Ht. apply (shared_run True _ owner _ _ i t Hsh Ht). intros r. pose proof (step_region_ok conf owner svc tasks i Hsh True).
  apply (sound_notify_read r).
Qed.

Lemma shared_close owner svc tasks i t : shared conf owner svc tasks -> tasks !! i = Some t ->
  let s' := (task_finish_clean_up conf (mkServing svc t)).2 in
  (exists owner, shared conf owner (s_service s') (<[i := s_task s']> tasks)) /\ keeps_written tasks i (s_files svc) (fs_of s').
Proof.
  intros Hsh Ht. apply (shared_run True _ owner _ _ i t Hsh Ht). intros r. pose proof (step_region_ok conf owner svc tasks i Hsh True).
  apply (sound_finish r).
Qed.

Lemma shared_disk owner svc tasks i t : shared conf owner svc tasks -> tasks !! i = Some t -> (linking t -> link_checked conf t) ->
  let s' := (deal_func CRC32 conf (mkServing svc t)).2 in
  (exists owner, shared conf owner (s_service s') (<[i := s_task s']> tasks)) /\ keeps_written tasks i (s_files svc) (fs_of s').
Proof.
  intros Hsh Ht Hl. apply (shared_run False _ owner _ _ i t Hsh Ht). intros r. pose proof (step_region_ok conf owner svc tasks i Hsh False).
  intros I. apply (sound_deal_func r CRC32 short); [|exact Hl|exact I]. apply step_can_open. by intros [].
Qed.

(** ** In the middle of a request the files are not touched. *)
Record same_file (s s' : Serving) : Prop := {
  sa_files : s_files (s_service s') = s_files (s_service s);
  sa_seq : s_temp_file_sequence (s_service s') = s_temp_file_sequence (s_service s);
  sa_context : ci_file_context (s_task s') = ci_file_context (s_task s);
  sa_deal : ci_deal_func (s_task s') = ci_deal_func (s_task s);
}.

Lemma bind_the_task {A B} (f : Task -> A) (k : A -> M Serving B) s : bind (the_task f) k s = k (f (s_task s)) s.
Proof. done. Qed.
Lemma bind_task {B} f (k : unit -> M Serving B) s : bind (task f) k s = k tt (set_task (f (s_task s)) s).
Proof. done. Qed.

Lemma push_same s : tk_place (s_task s) = AtSocket ->
  let s' := (storage_dio_queue_push s).2 in
  same_file s s' /\ ci_total_offset (s_task s') = ci_total_offset (s_task s) /\ tk_length (s_task s') = tk_length (s_task s) /\
  (tk_place (s_task s') = InDio \/ tk_place (s_task s') = Closing).
Proof.
  intros Hp. unfold storage_dio_queue_push. rewrite bind_task, bind_run. unfold next_errno. cbn [set_task s_service].
  destruct (s_errnos _) as [|e l]; cbn [fst snd]; case_decide; try lia; unfold move; rewrite bind_task; cbn; rewrite Hp; cbn;
    (split; [by split|auto]).
Qed.

Lemma mid_read s b : tk_place (s_task s) = AtSocket -> ci_total_length (s_task s) <> 0 -> ci_total_offset (s_task s) <> 0 ->
  let s' := (client_sock_read conf b s).2 in
  same_file s s' /\
  ((tk_place (s_task s') = AtSocket /\ ci_total_offset (s_task s') = ci_total_offset (s_task s)) \/
   (tk_place (s_task s') = InDio /\ tk_length (s_task s') = tk_length (s_task s) /\
      ci_total_offset (s_task s') = ci_total_offset (s_task s) + tk_length (s_task s)) \/
   tk_place (s_task s') = Closing).
Proof.
  destruct s as [svc t]. cbn [s_task s_service]. intros Hp Hl Ho. unfold client_sock_read.
  rewrite bind_the_task. cbv zeta. cbn [s_task]. unfold id. rewrite bind_task, (proj2 (Z.eqb_neq _ _) Hl), bind_task, bind_the_task.
  cbn [set_task s_service s_task]. destruct (_ <=? _); [|by split; [|left]].
  unfold piece_done. rewrite bind_task, bind_the_task, bind_task. cbn [set_task s_service s_task].
  set (t2 := if _ <=? _ then set_ci_stage _ _ else _).
  assert (ci_total_offset t2 = ci_total_offset t /\ tk_length t2 = tk_length t /\ tk_place t2 = tk_place t /\ ci_deal_func t2 = ci_deal_func t /\
    ci_file_context t2 = ci_file_context t) as (E1 & E2 & E3 & E4 & E5) by (unfold t2; destruct (_ <=? _); split_and!; done).
  clearbody t2. unfold id. rewrite E1, E2, (proj2 (Z.eqb_neq _ _) Ho).
  rewrite bind_snd. cbn [ret snd]. match goal with |- context [storage_dio_queue_push ?s] => set (s1 := s) end.
  destruct (push_same s1) as ([F1 F2 F3 F4] & G1 & G2 & G3); [cbn; congruence|]. set (s2 := (storage_dio_queue_push s1).2) in *. clearbody s2.
  split; [split|]; rewrite ?F1, ?F2, ?F3, ?F4; cbn; try congruence. right. rewrite G1, G2. cbn. rewrite E2.
  destruct G3 as [->| ->]; auto.
Qed.

Lemma mid_notify s got : tk_place (s_task s) = InPipe -> pipe_mid got (s_task s) ->
  let s' := (storage_recv_notify_read conf s).2 in
  same_file s s' /\ tk_place (s_task s') = AtSocket /\ ci_total_offset (s_task s') = ci_total_offset (s_task s).
Proof.
  intros Hp [_ Hst]. unfold storage_recv_notify_read. rewrite bind_task, bind_the_task. cbn [set_task s_task ci_stage set_ci_stage]. rewrite Hst.
  change (Z.land (Z.lor FDFS_STORAGE_STAGE_NIO_RECV FDFS_STORAGE_STAGE_DIO_THREAD) (Z.lnot FDFS_STORAGE_STAGE_DIO_THREAD)) with 1.
  change (1 =? FDFS_STORAGE_STAGE_NIO_INIT) with false. change (1 =? FDFS_STORAGE_STAGE_NIO_RECV) with true. cbv iota.
  destruct s as [svc t]. unfold move. rewrite bind_task. unfold task, modify.
  cbn [snd set_task s_task s_service tk_place set_tk_length set_tk_offset set_ci_stage] in *. rewrite Hp. by split; [split|].
Qed.

Lemma written_same s s' b : same_file s s' -> written (fs_of s) (s_task s) b -> written (fs_of s') (s_task s') b.
Proof. intros [F1 F2 F3 F4] (fd & ? & ? & ? & ?). exists fd. unfold fs_of in *. by rewrite F1, F3. Qed.

Lemma copying_same s s' : same_file s s' -> copying (s_task s') -> copying (s_task s).
Proof. intros [F1 F2 F3 F4]. unfold copying, writing. by rewrite F3, F4. Qed.

(** ** A disk thread with a copy. *)
Lemma disk_copy got s : tk_place (s_task s) = InDio -> connection_ok (fs_of s) got (s_task s) -> tidy (fs_of s) -> copying (s_task s) ->
  let s' := (deal_func CRC32 conf s).2 in
  copied conf (fs_of s) (s_task s) (body_in got) (s_task s') (fs_of s') /\
  fc_fname2log (ci_file_context (s_task s)) = cstr (name_in got) /\
  (fc_end (ci_file_context (s_task s)) <= Z.of_nat (length (body_in got)) -> Z.of_nat (length (body_in got)) = size_in got).
Proof.
  intros Hp [[Hs Hok] Hf] T Hc. rewrite Hp in Hok. destruct Hok as [_ _ Hdio]. destruct (Hdio (proj1 Hc)) as [[_ _ Hb0 Q] O W L C]. destruct (C Hc) as [Cs Cl Cp Cw Cd Cx].
  specialize (Hf Hc ltac:(lia)). rewrite Hp in Hf. destruct Cs as [Cc Ch Csz Ct Ccl Cln]. set (t := s_task s) in *.
  pose proof Hc as [[K1 K2] K3]. rewrite (cc_end _ _ _ Cc) in Q.
  assert (Z.of_nat (length (body_in got)) = ci_total_offset t - head_in got) as Hbody.
  { unfold body_in. rewrite length_drop. unfold head_in in *. lia. }
  split; [|split; [apply Cc|]; rewrite (cc_end _ _ _ Cc); lia].
  unfold deal_func. rewrite bind_the_task. fold t. rewrite K1.
  set (n := tk_length t - fc_buff_offset (ci_file_context t)).
  assert (forall b0 : bytes, fc_offset (ci_file_context t) = Z.of_nat (length b0) ->
    drop (Z.to_nat (fc_buff_offset (ci_file_context t))) (take (Z.to_nat (tk_length t)) (tk_data t)) = drop (length b0) (body_in got) ->
    b0 = take (length b0) (body_in got) -> fc_buff_offset (ci_file_context t) <= tk_length t ->
    (fc_fd (ci_file_context t) = None /\ b0 = [] \/ written (fs_of s) t b0) ->
    copied conf (fs_of s) t (body_in got) (s_task (@dio_write_file _ (service_callbacks conf) CRC32 conf s).2)
      (fs_of (@dio_write_file _ (service_callbacks conf) CRC32 conf s).2)) as Hrun.
  { intros b0 Hoff Hpiece Hb Hle Hw.
    assert (take (Z.to_nat n) (drop (Z.to_nat (fc_buff_offset (ci_file_context t))) (tk_data t)) = drop (length b0) (body_in got)) as Ep.
    { rewrite <- Hpiece. rewrite skipn_firstn_comm. f_equal. unfold n. lia. }
    rewrite <- (firstn_skipn (length b0) (body_in got)), <- Hb, <- Ep.
    eapply (run_copy_piece CRC32 conf short t (fs_of s) b0); try done.
    apply (f_equal length) in Cd. rewrite length_take, length_drop in Cd. rewrite length_take, length_drop. lia. }
  destruct Cx as [(X1 & X2 & X3 & X4)|(X1 & X2)].
  - apply (Hrun []); cbn; auto; [lia| |lia]. rewrite X1, Cd, X2, Z.sub_diag. cbn. by rewrite drop_0.
  - set (r := take (Z.to_nat (ci_total_offset t - tk_length t)) got) in *.
    assert (Z.of_nat (length r) = ci_total_offset t - tk_length t) as Hr by (unfold r; rewrite length_take; lia).
    assert (got = r ++ drop (Z.to_nat (ci_total_offset t - tk_length t)) got) as Eg by (unfold r; symmetry; apply firstn_skipn).
    clearbody r. assert (name_len_in r = name_len_in got) as En. { rewrite Eg, name_len_in_app; [done|]. unfold head_in in *. lia. }
    assert (head_in r = head_in got) as Eh by (unfold head_in; by rewrite En).
    assert (body_in got = body_in r ++ drop (Z.to_nat (ci_total_offset t - tk_length t)) got) as Eb.
    { rewrite Eg at 1. rewrite body_in_app by lia. done. }
    assert (Z.of_nat (length (body_in r)) = ci_total_offset t - tk_length t - head_in got) as Hlr.
    { unfold body_in. rewrite length_drop, Eh. unfold head_in in *. lia. }
    apply (Hrun (body_in r)).
    + lia.
    + rewrite X1, Cd, Eb, drop_app_le, (drop_ge (body_in r)) by lia. cbn. by rewrite drop_0.
    + rewrite Eb, take_app_le, firstn_all by lia. done.
    + lia.
    + right. apply Hf. unfold head_in in *. lia.
Qed.

(** A disk thread whose piece cannot be written. *)
Lemma disk_refused got s : tk_place (s_task s) = InDio -> connection_ok (fs_of s) got (s_task s) -> copying (s_task s) ->
  piece_fails (ci_file_context (s_task s)) (fs_of s) -> refused (s_task s) (s_task (deal_func CRC32 conf s).2).
Proof.
  intros Hp [[Hs Hok] Hf] Hc Hfail. rewrite Hp in Hok. destruct Hok as [_ _ Hdio]. destruct (Hdio (proj1 Hc)) as [Q O W L C].
  destruct (C Hc) as [Cs Cl Cp Cw Cd Cx]. specialize (Hf Hc ltac:(lia)). rewrite Hp in Hf. destruct Cs as [Cc Ch Csz Ct Ccl Cln].
  pose proof Hc as [[K1 K2] K3]. unfold deal_func. rewrite bind_the_task, K1.
  eapply (run_piece_fails CRC32 conf (s_task s)); [unfold movable; by rewrite Hp|done|apply Cc|apply Cc|done| |done|exact Hfail].
  destruct Q as [_ _ _ Q]. rewrite (cc_end _ _ _ Cc) in Q. destruct Cx as [(X1 & X2 & X3 & X4)|(X1 & X2)]; [left; lia|right].
  destruct (Hf ltac:(unfold head_in in *; lia)) as (fd & -> & _). done.
Qed.

(** ** Every step keeps all that. *)
Lemma connection_closed fs got t : tk_place t = Closed -> tk_size t = buff_size -> connection_ok fs got t.
Proof. intros Hp Hs. split; [split; [done|by rewrite Hp]|]. intros _ _. by rewrite Hp. Qed.

Lemma exec_at {A} svc t (c : M Serving A) Q : 0 <= s_temp_file_sequence svc -> exec t c Q ->
  Q (c (mkServing svc t)).1 (s_task (c (mkServing svc t)).2).
Proof. intros Hs Hc. by apply (Hc (mkServing svc t)). Qed.

Lemma close_ok srv i t c got : (forall svc, c (mkServing svc t) = task_finish_clean_up conf (mkServing svc t)) ->
  server_ok srv -> sr_tasks srv !! i = Some t -> server_ok (run_task i t got c srv).
Proof.
  intros Hc Hok Ht. pose proof Hok as [[owner Hsh] Hall]. destruct (Hall i t Ht) as [[Hs _] _]. apply server_run; [done..| |].
  - rewrite Hc. by eapply shared_close.
  - rewrite Hc. destruct (exec_at (sr_service srv) t _ _ (sh_seq _ _ _ _ Hsh) (exec_finish conf t)). by apply connection_closed; [|congruence].
Qed.

Lemma receive_ok srv i t b : server_ok srv -> sr_tasks srv !! i = Some t -> tk_place t = AtSocket ->
  (0 < length b)%nat -> Z.of_nat (length b) <= recv_bytes t ->
  server_ok (run_task i t (got_now t (got_by i srv) ++ b) (client_sock_read conf b) srv).
Proof.
  intros Hok Ht Hp Hb0 Hb1. pose proof Hok as [[owner Hsh] Hall]. destruct (Hall i t Ht) as [Htask Hf]. set (got := got_by i srv) in *.
  pose proof (exec_at (sr_service srv) t _ _ (sh_seq _ _ _ _ Hsh) (socket_read_ok CRC32 conf buff_size got b t enough Htask Hp Hb0 Hb1)) as (Hok' & Hjust & Hquiet).
  pose proof Htask as [Hs Hsock]. rewrite Hp in Hsock. destruct (Hsock ltac:(lia)) as [Hst [Hfirst|[Hqm|Hmid]]].
  - destruct Hfirst as [F1 F2 F4 F5]. apply server_run; [done..| |].
    + by eapply shared_read.
    + split; [done|]. intros Hc Ho. specialize (Hjust F5). unfold just_started in Hjust. set (s' := (client_sock_read conf b _).2) in *.
      destruct (tk_place (s_task s')); try done; [intros Ha; by rewrite Hjust in Ho|intros Ha; by rewrite (Hjust Hc) in Ha].
  - apply server_run; [done..| |].
    + by eapply shared_read.
    + split; [done|]. intros Hc Ho. destruct (Hquiet Hqm) as [Hq|Hp']; [by destruct (proj1 Hq), Hc|]. by rewrite Hp'.
  - pose proof Hmid as [[M1 M2 M3 M4 M5 M6 M7 M8] N2 N3 N4 N5].
    destruct (mid_read (mkServing (sr_service srv) t) b Hp ltac:(cbn; lia) ltac:(cbn; lia)) as [Hsame Hwhere].
    set (s' := (client_sock_read conf b _).2) in *. pose proof Hsame as [E1 E2 E3 E4]. cbn in E1, E2, E3, E4.
    assert (got_now t got = got) as Eg by (unfold got_now, starting; by rewrite (proj2 (Z.eqb_neq _ _)) by lia).
    apply server_run; [done..| |].
    + destruct (shared_same owner (sr_service srv) (s_service s') _ i t (s_task s') Hsh Ht E1 E2 E3). eauto.
    + change (connection_ok (fs_of s') (got_now t got ++ b) (s_task s')). split; [done|]. intros Hc Ho. specialize (Hf (copying_same _ _ Hsame Hc) ltac:(cbn; lia)). rewrite Hp in Hf.
      specialize (Hf ltac:(lia)). apply (written_same (mkServing (sr_service srv) t) s' _ Hsame) in Hf.
      rewrite Eg. destruct Hwhere as [[Wp Wo]|[(Wp & Wl & Wo)|Wp]]; rewrite Wp; try done.
      * intros _. rewrite Wo. cbn. by rewrite got_grows by lia.
      * intros _. rewrite Wo, Wl. cbn. replace (ci_total_offset t + tk_length t - tk_length t) with (ci_total_offset t) by lia. by rewrite got_grows by lia.
Qed.

Lemma notified_ok srv i t : server_ok srv -> sr_tasks srv !! i = Some t -> tk_place t = InPipe ->
  server_ok (run_task i t (got_by i srv) (storage_recv_notify_read conf) srv).
Proof.
  intros Hok Ht Hp. pose proof Hok as [[owner Hsh] Hall]. destruct (Hall i t Ht) as [Htask Hf]. set (got := got_by i srv) in *.
  pose proof (exec_at (sr_service srv) t _ _ (sh_seq _ _ _ _ Hsh) (pipe_ok conf buff_size got t Htask Hp)) as [Hok' Hsettled].
  apply server_run; [done..| |].
  - by eapply shared_pipe.
  - split; [done|]. intros Hc Ho. set (s' := (storage_recv_notify_read conf _).2) in *.
    destruct Hsettled as [[Hz|[Hq|Hq]]|Hmid]; [done|by destruct (proj1 Hq), Hc|by destruct Hq as [-> | ->]|].
    assert (ci_total_offset t <> 0) as E0 by (destruct Hmid as [[] _]; lia).
    destruct (mid_notify (mkServing (sr_service srv) t) got Hp Hmid) as (Hsame & Wp & Wo). fold s' in Hsame, Wp, Wo.
    specialize (Hf (copying_same _ _ Hsame Hc) E0). rewrite Hp in Hf. rewrite Wp, Wo. intros _. apply (written_same _ _ _ Hsame). cbn.
    destruct Hmid as [[M1 _ _ _ _ _ _ _] _]. by rewrite <- M1, Nat2Z.id, firstn_all.
Qed.

Lemma disk_step_ok srv i t : server_ok srv -> sr_tasks srv !! i = Some t -> tk_place t = InDio ->
  server_ok (run_task i t (got_by i srv) (let! _ := deal_func CRC32 conf in ret tt) srv).
Proof.
  intros Hok Ht Hp. pose proof Hok as [[owner Hsh] Hall]. destruct (Hall i t Ht) as [Htask Hf]. set (got := got_by i srv) in *.
  pose proof Htask as [Hs Hdio]. rewrite Hp in Hdio. assert (movable t) as Hm by (unfold movable; by rewrite Hp).
  pose proof (exec_at (sr_service srv) t _ _ (sh_seq _ _ _ _ Hsh) (disk_ok CRC32 conf buff_size got t Htask Hp)) as Hok'.
  apply server_run; [done..| |].
  - rewrite bind_snd. cbn [ret snd]. eapply shared_disk; [done..|]. apply Hdio.
  - rewrite bind_snd. cbn [ret snd]. split; [done|]. set (s' := (deal_func CRC32 conf _).2) in *. intros Hc Ho.
    destruct (quiet_or t) as [Hq|Hq].
    { pose proof (exec_at (sr_service srv) t _ _ (sh_seq _ _ _ _ Hsh) (away_deal_func CRC32 conf buff_size t
        ltac:(split; [done|congruence|apply Hdio|done]))) as [_ _ _ [Hq' _]]. by destruct Hq', Hc. }
    pose proof (exec_at (sr_service srv) t _ _ (sh_seq _ _ _ _ Hsh) (exec_deal_func CRC32 conf t Hm Hq
      (fun Hw => di_queued _ _ (do_write _ _ _ Hdio Hw)))) as [[[A1 A2 A3 A4] _]|[Hw (Hlt & fd & crc & Et)]]; [done|].
    fold s' in Et. assert (copying t) as Hct by (rewrite Et in Hc; done).
    destruct (disk_copy got (mkServing (sr_service srv) t) Hp (conj Htask Hf) (sh_tidy _ _ _ _ Hsh) Hct) as [Hcopied _]. fold s' in Hcopied.
    assert (tk_place (s_task s') = InPipe) as Wp by (by rewrite Et). rewrite Wp. by destruct Hcopied as [[_ Hw']|[Hz _]].
Qed.

Lemma server_step_ok srv a srv' : server_ok srv -> server_step CRC32 conf buff_size a srv = Some srv' -> server_ok srv'.
Proof.
  intros Hok. destruct a as [i data fd ip|i b|i|i|i|i|o]; cbn [server_step]; unfold act_at.
  - destruct (_ && _) eqn:E; [|done]. intros [= <-]. destruct Hok as [[owner [S1 S2 S3 S4]] Hall]. apply andb_true_iff in E as [_ E]. split.
    + exists owner. split; [done..|]. cbn. intros k t [[<- <-]|[Hk Hl]]%lookup_insert_Some; [|by apply S4].
      split; cbn; [|done|done|]; [intros p q Hq Eq; destruct empty_not_temp; by exists p, q|].
      split; [by apply not_elem_of_nil|]. split; [by apply not_elem_of_nil|]. apply master_ok_nil.
    + cbn [sr_tasks sr_service]. intros k t Hk. unfold got_by. cbn [sr_got]. destruct (decide (k = i)) as [->|Hne].
      * rewrite lookup_insert_eq in Hk. simplify_eq. split; [split; [done|]; by left|]. by intros _ ?.
      * rewrite lookup_insert_ne in Hk by done. rewrite lookup_insert_ne by done. by apply Hall.
  - destruct (sr_tasks srv !! i) as [t|] eqn:Ht; [|done]. destruct (_ && _) eqn:E; [|done]. intros [= <-].
    apply andb_true_iff in E as [E E2]. apply andb_true_iff in E as [E0 E1]. apply bool_decide_eq_true in E0.
    by apply receive_ok; try lia.
  - destruct (sr_tasks srv !! i) as [t|] eqn:Ht; [|done]. case_decide; [|done]. intros [= <-]. by apply close_ok.
  - destruct (sr_tasks srv !! i) as [t|] eqn:Ht; [|done]. case_decide; [|done]. intros [= <-]. by apply disk_step_ok.
  - destruct (sr_tasks srv !! i) as [t|] eqn:Ht; [|done]. case_decide; [|done]. intros [= <-]. by apply notified_ok.
  - destruct (sr_tasks srv !! i) as [t|] eqn:Ht; [|done]. case_decide; [|done]. intros [= <-]. by apply close_ok.
  - intros [= <-]. destruct Hok as [[owner [S1 S2 S3 S4]] Hall]. split.
    + exists owner. split; cbn; try done; [by destruct S1|]. intros k t Hk. destruct (S4 k t Hk). by split.
    + intros k t Hk. destruct (Hall k t Hk) as [H1 H2]. split; [done|]. eapply copy_files_kept; [|done].
      intros b (fd & ? & ? & ? & [? ? ? ?]). by exists fd.
Qed.

Lemma server_reach_ok s srv : tidy (s_files s) -> 0 <= s_temp_file_sequence s ->
  server_reach CRC32 conf buff_size s srv -> server_ok srv.
Proof.
  intros T Hs. induction 1 as [|srv a srv' _ IH Hstep]; [|by eapply server_step_ok].
  split; [|done]. exists (fun _ => None). by split.
Qed.

End server.

(** C3: a file that another server sends, and that is no part of a trunk
    file, becomes visible as a whole or not at all.  Whatever the connections of
    the server have done so far, in whatever order, with whatever faults, when a
    disk thread works on a piece of such a file, then either no file but
    temporary ones changes, or the file of the request's name holds exactly the
    bytes received, as many as announced, and no other file changes.  (A space
    of a trunk file is written in place.) *)
Theorem copy_all_or_nothing `{FastCommonLaws} CRC32 conf buff_size s srv i t srv' :
  short_paths (paths conf) -> 256 <= buff_size -> tidy (s_files s) -> 0 <= s_temp_file_sequence s ->
  server_reach CRC32 conf buff_size s srv ->
  sr_tasks srv !! i = Some t -> copying t ->
  server_step CRC32 conf buff_size (Disk i) srv = Some srv' ->
  let fs := s_files (sr_service srv) in let fs' := s_files (sr_service srv') in let got := got_by i srv in
  unseen fs fs' \/
  exists full, full_name conf (cstr (name_in got)) = Some full /\ Z.of_nat (length (body_in got)) = size_in got /\
    content fs' full = Some (body_in got) /\ forall n, ~ is_temp n -> n <> full -> content fs' n = content fs n.
Proof.
  intros Hshort Hb T Hq Hreach Ht Hc. cbn [server_step]. unfold act_at. rewrite Ht. case_decide as Hp; [|done]. intros [= <-]. cbv zeta.
  destruct (server_reach_ok CRC32 conf buff_size Hshort Hb s srv T Hq Hreach) as [[owner Hsh] Hall].
  pose proof (disk_copy CRC32 conf buff_size Hshort (got_by i srv) (mkServing (sr_service srv) t) Hp (Hall i t Ht) (sh_tidy _ _ _ _ Hsh) Hc)
    as (Hcopied & Hname & Hsize).
  unfold run_task. rewrite bind_snd. cbn [ret snd sr_service]. set (s' := (deal_func CRC32 conf _).2) in *.
  destruct Hcopied as [[Hu _]|[_ [Hu|[Hend [Hu|(full & Hf & _ & Hc' & Ho)]]]]]; [by left..|right].
  exists full. rewrite <- Hname. auto.
Qed.

(** C4: connections that receive files from other servers keep out of each
    other's way.  Whatever the server has done so far, with whatever faults, a
    connection that got a file for a plain name, no space of a trunk file, and
    whose last piece was written by a disk thread with more to come, has written
    exactly the bytes it received of the file, to a temporary file that no other
    connection has. *)
Theorem copy_in_progress `{FastCommonLaws} CRC32 conf buff_size s srv i t :
  short_paths (paths conf) -> 256 <= buff_size -> tidy (s_files s) -> 0 <= s_temp_file_sequence s ->
  server_reach CRC32 conf buff_size s srv ->
  sr_tasks srv !! i = Some t -> copying t -> tk_place t = InPipe -> ci_total_offset t <> 0 ->
  let n := fc_filename (ci_file_context t) in
  is_temp n /\ content (s_files (sr_service srv)) n = Some (body_in (got_by i srv)) /\
  forall k t', k <> i -> sr_tasks srv !! k = Some t' -> fc_filename (ci_file_context t') <> n.
Proof.
  intros Hshort Hb T Hq Hreach Ht Hc Hp Ho. cbv zeta.
  destruct (server_reach_ok CRC32 conf buff_size Hshort Hb s srv T Hq Hreach) as [[owner Hsh] Hall].
  destruct (Hall i t Ht) as [_ Hf]. specialize (Hf Hc Ho). rewrite Hp in Hf. destruct Hf as (fd & _ & _ & _ & [F1 F2 [tm F3] F4]).
  split; [done|]. split; [unfold content, inode_of; rewrite F2; cbn; by rewrite F3|].
  intros k t' Hk Ht' E. destruct F1 as (p & q & Hq' & En).
  pose proof (ow_name _ _ _ _ _ (sh_owns _ _ _ _ Hsh i t Ht) p q Hq' En).
  pose proof (ow_name _ _ _ _ _ (sh_owns _ _ _ _ Hsh k t' Ht') p q Hq' ltac:(congruence)). congruence.
Qed.

(** C5: when a system call fails that a disk thread makes for a piece of a file
    that another server sends, and more of the file is still to come, then the
    answer with the error is made, but not sent: the connection goes back to
    reading, and takes the next ten bytes of the file for the header of a
    request. *)
Theorem write_failure_unanswered `{FastCommonLaws} CRC32 conf buff_size s srv i t srv1 srv2 :
  short_paths (paths conf) -> 256 <= buff_size -> tidy (s_files s) -> 0 <= s_temp_file_sequence s ->
  server_reach CRC32 conf buff_size s srv ->
  sr_tasks srv !! i = Some t -> copying t -> ci_total_offset t < ci_total_length t ->
  piece_fails (ci_file_context t) (s_files (sr_service srv)) ->
  server_step CRC32 conf buff_size (Disk i) srv = Some srv1 ->
  server_step CRC32 conf buff_size (Notified i) srv1 = Some srv2 ->
  exists t1 t2 e, sr_tasks srv1 !! i = Some t1 /\ sr_tasks srv2 !! i = Some t2 /\
    e <> 0 /\ take 10 (tk_data t1) = TrackerHeader 0 TRACKER_PROTO_CMD_RESP e /\ tk_length t1 = 10 /\
    tk_sent t1 = tk_sent t /\ tk_sent t2 = tk_sent t /\
    tk_place t2 = AtSocket /\ ci_total_offset t2 = 0 /\ ci_total_length t2 = 10 /\ recv_bytes t2 = 10.
Proof.
  intros Hshort Hb T Hq Hreach Ht Hc Hlt Hfail Hdisk Hnotify.
  destruct (server_reach_ok CRC32 conf buff_size Hshort Hb s srv T Hq Hreach) as [[owner Hsh] Hall]. pose proof (Hall i t Ht) as Hconn.
  revert Hdisk. cbn [server_step]. unfold act_at. rewrite Ht. case_decide as Hp; [|done]. intros [= <-].
  destruct (disk_refused CRC32 conf buff_size (got_by i srv) (mkServing (sr_service srv) t) Hp Hconn Hc Hfail) as (fd & e & He & Et).
  destruct Hconn as [[Hs Hok] _]. rewrite Hp in Hok. destruct (do_write _ _ _ Hok (proj1 Hc)) as [_ _ W _ _].
  assert (ci_stage t = Z.lor FDFS_STORAGE_STAGE_NIO_RECV FDFS_STORAGE_STAGE_DIO_THREAD) as Hst by (destruct W as [[_ ?]|?]; [lia|done]).
  revert Hnotify. unfold run_task. rewrite bind_snd. cbn [ret snd server_step act_at sr_tasks]. set (s' := (deal_func CRC32 conf _).2) in *.
  unfold act_at. cbn [sr_tasks]. rewrite !lookup_insert_eq. case_decide as Hp'; [|done]. intros [= <-]. cbn [s_task] in Et.
  exists (s_task s'). cbn [sr_tasks sr_service run_task]. rewrite lookup_insert_eq.
  unfold storage_recv_notify_read. rewrite bind_task, bind_the_task. cbn [set_task s_task]. rewrite Et. cbn [ci_stage set_ci_stage with_answer set_tk_place put_buffer set_tk_data set_tk_length set_ci_total_offset set_ci_total_length set_fd with_context set_ci_file_context]. rewrite Hst.
  change (Z.land (Z.lor FDFS_STORAGE_STAGE_NIO_RECV FDFS_STORAGE_STAGE_DIO_THREAD) (Z.lnot FDFS_STORAGE_STAGE_DIO_THREAD)) with 1.
  change (1 =? FDFS_STORAGE_STAGE_NIO_INIT) with false. change (1 =? FDFS_STORAGE_STAGE_NIO_RECV) with true. cbv iota.
  unfold move. rewrite bind_task. unfold task, modify. cbn. eexists _, e. split_and!; try done.
  - unfold put_at. change (Z.to_nat 0) with 0%nat. rewrite firstn_O, app_nil_l. apply take_app_length'. unfold TrackerHeader. by rewrite length_app, long2buff_length.
  - unfold recv_bytes. cbn. lia.
Qed.
