(* ===== verification/Examples.v ===== *)
(** * A sample storage server.

    A small configuration, an empty trunk manager and a few spaces; runs of the
    operations on them, and for every theorem with hypotheses an instance at
    these data. *)

From S2P Require Import Prelude Avl FastCommon TrunkShared FreeBlocks SharedFunc StorePath TrunkBinlog TrunkMem TrunkInv TrunkFiles TrunkAlloc.
Import ListAvl RefCommon.

(** ** Data. *)
Definition sample_paths : list FDFSStorePathInfo :=
  [{| sp_total_mb := 1000; sp_free_mb := 500; sp_path := bs "/s0"; sp_mark := None |};
   {| sp_total_mb := 1000; sp_free_mb := 50; sp_path := bs "/s1"; sp_mark := None |}].

Definition sample_path_conf : StorePathConf := {|
  g_store_path_mode := FDFS_STORE_PATH_ROUND_ROBIN;
  g_fdfs_store_paths := sample_paths;
  g_avg_storage_reserved_mb := 100;
  g_storage_reserved_space := RESERVED_SPACE_MB 100;
  g_file_distribute_path_mode := FDFS_FILE_DIST_PATH_ROUND_ROBIN;
  g_file_distribute_rotate_count := 2;
  g_subdir_count_per_path := 3;
|}.

Definition sample_conf : TrunkConf := {|
  path_conf := sample_path_conf;
  g_slot_min_size := 16;
  g_slot_max_size := 512;
  g_trunk_alloc_alignment_size := 8;
  g_trunk_file_size := 1024;
  g_trunk_create_file_space_threshold := 2048;
  g_if_trunker_self := true;
  g_trunk_create_file_advance := true;
  g_current_time := 1700000000;
|}.

Definition sample_dist : DistState := {|
  g_store_path_index := 0; g_dist_path_index_high := 0; g_dist_path_index_low := 0;
  g_dist_write_file_count := 0; g_stat_change_count := 0 |}.

Definition sample_mem : TrunkMemory list := mkMemory ∅ [[]; []] [] [].

Definition sample_path (i : Z) : FDFSTrunkPathInfo :=
  {| store_path_index := i; sub_path_high := 1; sub_path_low := 2 |}.

Definition sample_space (id off size : Z) : FDFSTrunkFullInfo :=
  {| ti_status := FDFS_TRUNK_STATUS_FREE; ti_path := sample_path 0;
     ti_file := {| tf_id := id; tf_offset := off; tf_size := size |} |}.

Definition sample_files : gmap bytes bytes := {[ file_of sample_conf (sample_space 7 0 64) := [] ]}.

Definition sample_state : TrunkState list :=
  mkState sample_mem 0 7 STORAGE_TRUNK_INIT_FLAG_DONE (mkBinlog [] [] 1 []) sample_dist 7 sample_files [] [].

Definition run_free (t : FDFSTrunkFullInfo) : TrunkState list -> Z * TrunkState list :=
  trunk_free_space sample_conf t true.
Definition run_alloc (size : Z) : TrunkState list -> Z * FDFSTrunkFullInfo * TrunkState list :=
  trunk_alloc_space sample_conf size (sample_space 0 0 0).

(** ** Runs. *)

(** A space, then one that overlaps it. *)
Example free_then_overlap :
  let '(r1, s1) := run_free (sample_space 7 0 64) sample_state in
  let '(r2, s2) := run_free (sample_space 7 32 64) s1 in
  (r1, r2, g_trunk_total_free_space s2) = (0, EEXIST, 64).
Proof. vm_compute. reflexivity. Qed.

(** 40 bytes from a free space of 64: 40 on hold, 24 stay free. *)
Example alloc_splits :
  let '(_, s1) := run_free (sample_space 7 0 64) sample_state in
  let '((r, res), s2) := run_alloc 40 s1 in
  (r, ti_status res, t_offset res, t_size res, t_size <$> spaces (mem s2)) =
  (0, FDFS_TRUNK_STATUS_HOLD, 0, 40, [40; 24]).
Proof. vm_compute. reflexivity. Qed.

(** Without free space a trunk file is created: id 8. *)
Example alloc_creates :
  let '((r, res), s1) := run_alloc 100 sample_state in
  (r, tf_id (ti_file res), t_size res, ini_trunk_file_id s1, t_size <$> spaces (mem s1)) =
  (0, 8, 104, 8, [104; 920]).
Proof. vm_compute. reflexivity. Qed.

(** The binlog of an allocation from a new file. *)
Example alloc_binlog :
  let '(_, s1) := run_alloc 100 sample_state in
  bl_cache (binlog s1) =
  bs "1700000000 A 0 0 0 8 0 1024" ++ [10] ++ bs "1700000000 D 0 0 0 8 0 1024" ++ [10] ++
  bs "1700000000 A 0 0 0 8 104 920" ++ [10] ++ bs "1700000000 A 0 0 0 8 0 104" ++ [10].
Proof. vm_compute. reflexivity. Qed.

(** Allocation, then the three ways to confirm it. *)
Example confirm_runs :
  let '((_, res), s1) := run_alloc 100 sample_state in
  let '(r0, s2) := trunk_alloc_confirm sample_conf res 0 s1 in
  let '(r1, s3) := trunk_alloc_confirm sample_conf res ENOENT s1 in
  let '(r2, _) := trunk_alloc_confirm sample_conf res 0 s2 in
  (r0, t_size <$> spaces (mem s2), r1, ti_status <$> spaces (mem s3), r2) = (0, [920], 0, [0; 0], ENOENT).
Proof. vm_compute. reflexivity. Qed.

(** Creating trunk files in advance: one file of 1024 bytes is created, but
    [g_trunk_total_free_space] grows by 2048.  [trunk_create_trunk_file]
    counts the file with its log record, [trunk_add_free_block] again. *)
Lemma advance_counts_twice :
  let conf := {| path_conf := sample_path_conf; g_slot_min_size := 16; g_slot_max_size := 512;
    g_trunk_alloc_alignment_size := 8; g_trunk_file_size := 1024;
    g_trunk_create_file_space_threshold := 1024; g_if_trunker_self := true;
    g_trunk_create_file_advance := true; g_current_time := 1700000000 |} in
  let '(r, s) := trunk_create_trunk_file_advance conf sample_state in
  (r, t_size <$> spaces (mem s), g_trunk_total_free_space s) = (0, [1024], 2048).
Proof. vm_compute. reflexivity. Qed.

(** ** The hypotheses hold. *)
Lemma sample_conf_ok : conf_ok sample_conf.
Proof.
  split; cbn; try lia; [|unfold is_int32; lia]. repeat constructor; vm_compute; congruence.
Qed.

Lemma sample_fb_inv : fb_inv sample_mem.
Proof. split; constructor. Qed.

Lemma sample_inv : state_inv sample_conf sample_state.
Proof.
  split; [|done|done|by intros b ?%not_elem_of_nil|unfold dist_ok; cbn; lia|done].
  split; [apply sample_fb_inv| |done|constructor].
  intros [|[|i]] tr Hi; cbn in Hi; simplify_eq; split; constructor.
Qed.

Lemma sample_no_oom : no_oom (mem sample_state).
Proof. constructor. Qed.

Lemma sample_info_ok id off size :
  is_int32 id -> 0 <= off -> 0 < size -> off + size < 2 ^ 31 -> info_ok (sample_space id off size).
Proof. intros. split; [|done]. unfold block_ok. cbn. auto. Qed.

Lemma sample_valid off size :
  0 <= off -> 0 < size -> off + size < 2 ^ 31 -> valid_space sample_conf sample_state (sample_space 7 off size).
Proof.
  intros. split; [split; [by apply sample_info_ok|done..]|done|].
  exists []. unfold sample_state, sample_files. cbn [files]. apply lookup_singleton_Some. done.
Qed.

Lemma sample_log_ok : log_ok (binlog sample_state).
Proof. split; [done|constructor]. Qed.

(** A checker that holds one block. *)
Definition sample_block : FDFSTrunkFullInfo := sample_space 7 0 64.
Definition sample_held : TrunkMemory list :=
  mkMemory {[ 1 := sample_block; 2 := sample_space 7 64 32 ]} [[]; []]
    [{| tb_trunk_file_id := FILL_FILE_IDENTIFIER sample_block;
        tb_block_array := {| ba_alloc := 32; ba_blocks := [1] |} |}] [].

Lemma sample_held_inv : fb_inv sample_held.
Proof.
  split; [repeat constructor|]. constructor; [|constructor]. split; cbn.
  - unfold ident_ok, is_int32. cbn. lia.
  - intros p ->%list_elem_of_singleton. by exists sample_block.
  - split; repeat constructor; vm_compute; congruence.
  - lia.
Qed.

(** ** Instances of the theorems. *)
Lemma trunk_reachable_safe_witness :
  let s' := (run_alloc 100 sample_state).2 in
  (forall i j a b, i <> j -> spaces (mem s') !! i = Some a -> spaces (mem s') !! j = Some b ->
     same_file a b -> ~ overlaps a b) /\
  g_trunk_total_free_space s' = int64 (zsum (t_size <$> spaces (mem s'))) /\ state_inv sample_conf s'.
Proof.
  apply (trunk_reachable_safe sample_conf sample_state); [apply sample_conf_ok|apply sample_inv|apply sample_no_oom|reflexivity|].
  apply rtc_once, (step_alloc sample_conf sample_state 100 (sample_space 0 0 0) (run_alloc 100 sample_state).1);
    [cbn; lia|vm_compute; reflexivity|cbn; lia|vm_compute; congruence|apply surjective_pairing].
Defined.

Lemma trunk_alloc_space_correct_witness :
  let '((r, res), s') := trunk_alloc_space sample_conf 100 (sample_space 0 0 0) sample_state in
  state_inv sample_conf s' /\ no_oom (mem s') /\
  (r = 0 -> exists from, allocated sample_conf sample_state 0 (trunk_aligned_size sample_conf 100) from res s') /\
  (syscalls_ok sample_state -> log_ok (binlog sample_state) -> r = 0).
Proof.
  apply (trunk_alloc_space_correct sample_conf sample_state 100 (sample_space 0 0 0));
    [apply sample_conf_ok|apply sample_inv|apply sample_no_oom|reflexivity|cbn; lia|vm_compute; reflexivity|cbn; lia|
     vm_compute; congruence].
Defined.

Lemma trunk_free_space_correct_witness :
  let '(r, s') := trunk_free_space sample_conf sample_block true sample_state in
  state_inv sample_conf s' /\ no_oom (mem s') /\
  (if false then r = EINVAL /\ s' = sample_state
   else if false then r = 0 /\ s' = sample_state
   else
     (r = EEXIST /\ spaces (mem s') = spaces (mem sample_state) /\ binlog s' = binlog sample_state /\
      exists b, b ∈ spaces (mem sample_state) /\ same_file b sample_block /\ overlaps sample_block b) \/
     ((r, binlog s') = log_write sample_conf true TRUNK_OP_TYPE_ADD_SPACE
        (with_st FDFS_TRUNK_STATUS_FREE sample_block) (binlog sample_state) /\
      spaces (mem s') ≡ₚ with_st FDFS_TRUNK_STATUS_FREE sample_block :: spaces (mem sample_state) /\
      forall b, b ∈ spaces (mem sample_state) -> same_file b sample_block -> ~ overlaps sample_block b)).
Proof.
  apply (trunk_free_space_correct sample_conf sample_state sample_block true);
    [apply sample_inv|apply sample_no_oom|apply sample_valid; lia].
Defined.

(** The state in which the confirmation is made: the space is on hold. *)
Lemma trunk_alloc_confirm_correct_witness :
  let s := (run_alloc 100 sample_state).2 in
  let t := (run_alloc 100 sample_state).1.2 in
  let held := with_st FDFS_TRUNK_STATUS_HOLD t in
  let '(r, s') := trunk_alloc_confirm sample_conf t 0 s in
  state_inv sample_conf s' /\ no_oom (mem s') /\
  ((held ∈ spaces (mem s) /\ (0 = 0 \/ 0 = EEXIST) /\
    (r, binlog s') = log_write sample_conf true TRUNK_OP_TYPE_DEL_SPACE held (binlog s) /\
    spaces (mem s) ≡ₚ held :: spaces (mem s')) \/
   (held ∈ spaces (mem s) /\ 0 <> 0 /\ 0 <> EEXIST /\ r = 0 /\ binlog s' = binlog s /\
    exists rest, spaces (mem s) ≡ₚ held :: rest /\ spaces (mem s') ≡ₚ with_st FDFS_TRUNK_STATUS_FREE t :: rest) \/
   ((held ∉ spaces (mem s)) /\ r = ENOENT /\ s' = s)).
Proof.
  intros s t. assert (flight sample_conf s 0) as [Hinv Hoom]%flight_0.
  { destruct (alloc_space_spec sample_conf sample_state 100 (sample_space 0 0 0)) as (r & res & s' & Heq & Hf & _);
      [apply sample_conf_ok|apply sample_inv|apply sample_no_oom|reflexivity|cbn; lia|vm_compute; reflexivity|cbn; lia|
       vm_compute; congruence|].
    unfold s, run_alloc. rewrite Heq. exact Hf. }
  apply (trunk_alloc_confirm_correct sample_conf s t 0); [done|done|vm_compute; reflexivity|vm_compute; split; congruence].
Defined.

Lemma trunk_binlog_replays_witness :
  let s' := (run_alloc 100 sample_state).2 in
  exists ops, bl_log (binlog s') = bl_log (binlog sample_state) ++ log_text sample_conf ops /\
    apply_ops sample_conf (files s') ops (erase <$> spaces (mem sample_state)) (erase <$> spaces (mem s')).
Proof.
  apply (trunk_binlog_replays sample_conf sample_state);
    [apply sample_conf_ok|apply sample_inv|apply sample_no_oom|reflexivity|apply sample_log_ok|].
  apply rtc_once. split; [constructor|].
  apply (step_alloc sample_conf sample_state 100 (sample_space 0 0 0) (run_alloc 100 sample_state).1);
    [cbn; lia|vm_compute; reflexivity|cbn; lia|vm_compute; congruence|apply surjective_pairing].
Defined.

Definition sample_records : list TrunkBinLogRecord :=
  [{| rec_timestamp := 1700000000; rec_op_type := TRUNK_OP_TYPE_ADD_SPACE; rec_trunk := sample_block |};
   {| rec_timestamp := 1700000001; rec_op_type := TRUNK_OP_TYPE_DEL_SPACE; rec_trunk := sample_block |}].

Lemma binlog_roundtrip_witness :
  exists b',
    (let! r := for_each (fun x => trunk_binlog_write (rec_timestamp x) (rec_op_type x) (rec_trunk x)) sample_records in
     if decide (r = 0) then trunk_binlog_flush else ret r)%c (mkBinlog [] [] 1 []) = (0, b') /\
    bl_cache b' = [] /\
    read_records 3 b' (trunk_open_readable_binlog b' (mkReader [] 0 0 0)) (hd (Build_TrunkBinLogRecord 0 0 sample_block) [])
    = (with_status FDFS_TRUNK_STATUS_FREE <$> sample_records, ENOENT).
Proof.
  apply (binlog_roundtrip sample_records (mkBinlog [] [] 1 []) (Build_TrunkBinLogRecord 0 0 sample_block));
    [|done|constructor|cbn; lia].
  repeat constructor; unfold is_int32, is_byte; cbn; try lia; done.
Defined.

Lemma binlog_cache_bounded_witness :
  let b := mkBinlog [] [] 1 [] in
  (forall ts op t, record_ok ts op t ->
     Z.of_nat (length (bl_cache b ++ record_line ts op t)) < TRUNK_BINLOG_BUFFER_SIZE /\
     cache_ok (trunk_binlog_write ts op t b).2) /\
  (forall buff, Z.of_nat (length (bl_cache (trunk_binlog_write_buffer buff b).2)) <= TRUNK_BINLOG_BUFFER_SIZE).
Proof. apply (binlog_cache_bounded (mkBinlog [] [] 1 [])); [done|constructor]. Defined.

Lemma trunk_create_next_file_correct_witness :
  let '((r, t'), s') := trunk_create_next_file sample_conf sample_block sample_state in
  (forall rounds, (size (files sample_state) < rounds)%nat ->
     create_next_loop sample_conf rounds sample_block sample_state = (Some (r, t'), s')) /\
  (mem s' = mem sample_state /\ binlog s' = binlog sample_state /\
   g_trunk_total_free_space s' = g_trunk_total_free_space sample_state) /\
  files sample_state ⊆ files s' /\
  (r = 0 -> files sample_state !! file_of sample_conf t' = None /\ is_Some (files s' !! file_of sample_conf t') /\
    tf_id (ti_file t') = ini_trunk_file_id s' /\
    t_offset t' = t_offset sample_block /\ t_size t' = t_size sample_block /\
    store_path_index (ti_path t') = store_path_index (ti_path sample_block)) /\
  (Forall (fun e => e = 0) (syscalls sample_state) -> r = 0 /\
    files s' !! file_of sample_conf t' = Some (replicate (Z.to_nat (g_trunk_file_size sample_conf)) 0)).
Proof.
  apply (trunk_create_next_file_correct sample_conf sample_conf_ok sample_block sample_state);
    [apply (si_dist _ _ sample_inv)|apply (si_id _ _ sample_inv)|vm_compute; reflexivity].
Defined.

Lemma trunk_aligned_size_correct_witness :
  100 <= trunk_aligned_size sample_conf 100 /\ 16 <= trunk_aligned_size sample_conf 100 /\
  (trunk_aligned_size sample_conf 100 = 16 \/ trunk_aligned_size sample_conf 100 < 100 + Z.max 1 8) /\
  (16 < 100 -> 8 <> 0 -> trunk_aligned_size sample_conf 100 `mod` 8 = 0).
Proof. apply (trunk_aligned_size_correct sample_conf 100 sample_conf_ok). cbn. lia. Defined.

Lemma check_duplicate_correct_witness :
  let t := sample_space 7 32 64 in
  (trunk_free_block_check_duplicate sample_held t = 0 \/ trunk_free_block_check_duplicate sample_held t = EEXIST) /\
  (trunk_free_block_check_duplicate sample_held t = EEXIST <->
   exists p b, p ∈ fb_ptrs sample_held /\ nodes sample_held !! p = Some b /\ same_file b t /\ overlaps t b).
Proof.
  apply (check_duplicate_correct sample_held (sample_space 7 32 64) sample_held_inv). by apply sample_info_ok; try lia.
Defined.

Lemma trunk_free_block_insert_correct_witness :
  let '(r, m') := trunk_free_block_insert 2 sample_held in
  fb_inv m' /\ nodes m' = nodes sample_held /\ tree_info_by_sizes m' = tree_info_by_sizes sample_held /\
  (no_oom sample_held -> r = 0) /\ (r = 0 -> fb_ptrs m' ≡ₚ 2 :: fb_ptrs sample_held) /\
  (r <> 0 -> fb_ptrs m' ≡ₚ fb_ptrs sample_held).
Proof.
  apply (trunk_free_block_insert_correct sample_held 2 (sample_space 7 64 32) sample_held_inv);
    [done|by apply sample_info_ok; try lia|vm_compute; reflexivity].
Defined.

Lemma trunk_free_block_delete_correct_witness :
  (forall p, p ∈ fb_ptrs sample_held -> nodes sample_held !! p = Some sample_block ->
    let '(r, m') := trunk_free_block_delete sample_block sample_held in
    fb_inv m' /\ nodes m' = nodes sample_held /\ (no_oom sample_held -> r = 0) /\ fb_ptrs sample_held ≡ₚ p :: fb_ptrs m') /\
  ((forall p b, p ∈ fb_ptrs sample_held -> nodes sample_held !! p = Some b -> same_file b sample_block ->
      t_offset b <> t_offset sample_block) ->
    trunk_free_block_delete sample_block sample_held = (ENOENT, sample_held)).
Proof.
  apply (trunk_free_block_delete_correct sample_held sample_block sample_held_inv). by apply sample_info_ok; try lia.
Defined.

(** A trunk file with one small file in it, and the name that leads to it. *)
Definition sample_size : Z := FDFS_TRUNK_FILE_MARK_SIZE + 5.
Definition sample_ext : bytes := bs "abcd.js".
Definition sample_header : FDFSTrunkHeader := {|
  th_file_type := FDFS_TRUNK_FILE_TYPE_REGULAR; th_formatted_ext_name := sample_ext ++ [0];
  th_alloc_size := 64; th_file_size := 5; th_crc32 := 99; th_mtime := 1700000000 |}.
Definition sample_data : bytes := trunk_pack_header sample_header ++ bs "hello".
Definition sample_view : FileView := {|
  sys_stat := fun _ => inl ENOENT; sys_lstat := fun _ => inl ENOENT; sys_read := fun _ => inr sample_data |}.
Definition sample_name : bytes :=
  trunk_name 1 2 (name_meta 1 1700000000 sample_size 99) (ti_file sample_block) sample_ext.

Lemma trunk_unpack_pack_header_witness : trunk_unpack_header (trunk_pack_header sample_header ++ bs "hello") = sample_header.
Proof. apply (trunk_unpack_pack_header sample_header (bs "hello")). by repeat split. Defined.

Lemma trunk_file_info_decode_encode_witness :
  trunk_file_info_decode (trunk_file_info_encode (ti_file sample_block) ++ bs ".txt") = ti_file sample_block.
Proof. apply (trunk_file_info_decode_encode (ti_file sample_block) (bs ".txt")). by repeat split. Defined.

Lemma storage_split_logic_name_witness :
  storage_split_filename_ex sample_paths (logic_name 1 (bs "00/0A/file")) 14 = inr (10, bs "00/0A/file", 1).
Proof. apply (storage_split_logic_name sample_paths 1 (bs "00/0A/file")); [done|done|cbn; lia]. Defined.

Lemma storage_split_filename_safe_witness :
  0 <= 1 < 2 /\ 6 < 10 <= 14 /\ Z.of_nat (length (bs "00/0A/file")) = 10.
Proof.
  apply (storage_split_filename_safe sample_paths (bs "M01/00/0A/file") 14 10 (bs "00/0A/file") 1);
    [done|done|vm_compute; reflexivity].
Defined.

Lemma trunk_lookup_found_witness :
  trunk_file_do_lstat_func_ex sample_view sample_paths 0 sample_name FDFS_TRUNK_FILENAME_LENGTH FDFS_STAT_FUNC_STAT
    sample_block sample_header
  = inr ({| st_mode := S_IFREG; st_size := 5; st_mtime := 1700000000 |}, sample_block, sample_header,
         Some {| fd_data := sample_data; fd_pos := 24 |}).
Proof.
  apply (trunk_lookup_found sample_view sample_paths 1 2 1 1700000000 sample_size 99 (ti_file sample_block) sample_ext
    sample_data 0 FDFS_TRUNK_FILE_TYPE_REGULAR sample_block sample_header FDFS_STAT_FUNC_STAT);
    try done; try (by left); by repeat split.
Defined.

Lemma trunk_lookup_sound_witness :
  FDFS_TRUNK_FILENAME_LENGTH = FDFS_TRUNK_FILENAME_LENGTH /\
  sys_read sample_view (trunk_get_full_filename_ex sample_paths sample_block MAX_PATH_SIZE) = inr sample_data /\
  take 24 (drop 0 sample_data) = trunk_pack_header sample_header /\ 24 = 0 + FDFS_TRUNK_FILE_HEADER_SIZE /\
  (th_file_type sample_header = FDFS_TRUNK_FILE_TYPE_REGULAR \/ th_file_type sample_header = FDFS_TRUNK_FILE_TYPE_LINK) /\
  5 = th_file_size sample_header /\ 1700000000 = th_mtime sample_header /\ th_alloc_size sample_header = 64.
Proof.
  apply (trunk_lookup_sound sample_view sample_paths 0 sample_name FDFS_TRUNK_FILENAME_LENGTH FDFS_STAT_FUNC_STAT
    sample_block sample_header {| st_mode := S_IFREG; st_size := 5; st_mtime := 1700000000 |} sample_block sample_header
    {| fd_data := sample_data; fd_pos := 24 |}).
  vm_compute. reflexivity.
Defined.

(** The second path has less free space than the reserve: the first is chosen. *)
Lemma storage_get_storage_path_index_correct_witness :
  let '((r, i), d') := storage_get_storage_path_index sample_path_conf (set_store_path_index 1 sample_dist) in
  (r = 0 \/ r = ENOSPC) /\ (r = 0 -> 0 <= i < 2) /\
  (FDFS_STORE_PATH_ROUND_ROBIN <> FDFS_STORE_PATH_LOAD_BALANCE ->
    (r = 0 -> path_has_space sample_path_conf i = true /\
      (1 < 2 -> g_store_path_index d' = next_path_index sample_path_conf i)) /\
    (r = ENOSPC -> forall k, 0 <= k < 2 -> path_has_space sample_path_conf k = false)).
Proof.
  apply (storage_get_storage_path_index_correct sample_path_conf (set_store_path_index 1 sample_dist)); done.
Defined.

Example choose_paths_runs :
  choose_paths sample_path_conf 7 sample_dist = [(0, 0); (0, 0); (0, 1); (0, 1); (0, 2); (0, 2); (1, 0)].
Proof. vm_compute. reflexivity. Qed.

Lemma storage_get_store_path_round_robin_witness :
  0 <= 1 < 3 /\ 0 <= 0 < 3 /\ 1 * 3 + 0 = ((dist_pos sample_path_conf sample_dist + 6) `mod` dist_round sample_path_conf) / 2.
Proof.
  apply (storage_get_store_path_round_robin sample_path_conf 7 6 sample_dist 1 0);
    [done|unfold dist_ok; cbn; lia|cbn; lia|cbn; lia|cbn; lia|vm_compute; reflexivity].
Defined.
