(* ===== verification/RestartExamples.v ===== *)
(** * A sample restart.

    The sample server of [Examples] saves its spaces, works on, stops and
    starts again; instances of the theorems on saving and loading. *)

From S2P Require Import Prelude Avl FastCommon FileWriter TrunkShared FreeBlocks SharedFunc StorePath TrunkBinlog TrunkMem TrunkSave TrunkLoad TrunkInv TrunkFiles TrunkAlloc TrunkSnapshot TrunkRestore TrunkRestart Examples.
Import ListAvl RefCommon RefWriter.

Definition sample_sconf : SaveConf := {|
  trunk_conf := sample_conf;
  g_fdfs_base_path := bs "/base";
  g_trunk_free_space_merge := false;
  g_delete_unused_trunk_files := false;
  g_trunk_init_check_occupying := false;
  g_trunk_init_reload_from_binlog := false;
  g_trunk_compress_binlog_interval := 0;
|}.

Definition sample_data_name : bytes := bs "/base/data/storage_trunk.dat".

Definition sample_save : TrunkState list -> Z * TrunkState list := storage_trunk_do_save (W := RefW) sample_sconf false.

(** One space of 104 bytes on hold, one of 920 free. *)
Definition working : TrunkState list := (run_alloc 100 sample_state).2.
(** Saved, then another 64 bytes allocated. *)
Definition saved : TrunkState list := (sample_save working).2.
Definition worked : TrunkState list := (run_alloc 60 saved).2.
(** The next start. *)
Definition started : TrunkState list :=
  mkState (mkMemory ∅ [] [] []) 0 8 STORAGE_TRUNK_INIT_FLAG_NONE (mkBinlog [] (bl_log (binlog worked)) 1 []) sample_dist 8
    (files worked) [] [].

(** The snapshot: the size of the binlog and the two spaces. *)
Example snapshot_content :
  files saved !! sample_data_name =
  Some (bs "112" ++ [10] ++ bs "1700000000 A 0 0 0 8 0 104" ++ [10] ++ bs "1700000000 A 0 0 0 8 104 920" ++ [10]).
Proof. vm_compute. reflexivity. Qed.

(** The 920 bytes were cut, and everything is free after the restart. *)
Example restart_runs :
  let '(r, s) := storage_trunk_init sample_sconf sample_save started in
  (r, (fun t => (t_offset t, t_size t, ti_status t)) <$> spaces (mem s), g_trunk_total_free_space s) =
  (0, [(0, 104, 0); (104, 64, 0); (168, 856, 0)], 1024).
Proof. vm_compute. reflexivity. Qed.

(** ** The hypotheses hold. *)
Lemma working_flight : flight sample_conf working 0.
Proof.
  destruct (alloc_space_spec sample_conf sample_state 100 (sample_space 0 0 0)) as (r & res & s' & Heq & Hf & _);
    [apply sample_conf_ok|apply sample_inv|apply sample_no_oom|reflexivity|cbn; lia|vm_compute; reflexivity|cbn; lia|
     vm_compute; congruence|].
  unfold working, run_alloc. rewrite Heq. exact Hf.
Qed.

Lemma working_log_ok : log_ok (binlog working).
Proof. split; [vm_compute; congruence|constructor]. Qed.

Lemma sample_base_ok : base_ok sample_sconf.
Proof. vm_compute. congruence. Qed.

Lemma sample_saves : saves_snapshot (W := RefW) sample_sconf (fun s => sample_save s).
Proof. done. Qed.

Lemma short_text (text : bytes) : Z.of_nat (length text) < LOAD_BUFFER_SIZE -> ~ buffer_hits_end text.
Proof. intros Hl (a & b & -> & Hb & _). rewrite length_app in Hl. lia. Qed.

Lemma working_spaces :
  (fun t => (t_offset t, t_size t)) <$> spaces (mem working) = [(0, 104); (104, 920)].
Proof. vm_compute. reflexivity. Qed.

Lemma working_large : large_enough sample_sconf working.
Proof.
  unfold large_enough. apply Forall_forall. intros t Ht.
  assert ((t_offset t, t_size t) ∈ [(0, 104); (104, 920)]) as Hin.
  { rewrite <- working_spaces. apply list_elem_of_fmap. by exists t. }
  change (16 <= t_size t). set_unfold in Hin. destruct Hin as [[= _ ->]|[[= _ ->]|[]]]; lia.
Qed.

Lemma saved_syscalls : syscalls_ok saved.
Proof. unfold syscalls_ok. replace (syscalls saved) with (@nil Z) by (vm_compute; reflexivity). constructor. Qed.

Lemma worked_data : files worked !! storage_trunk_get_data_filename sample_sconf = files saved !! sample_data_name.
Proof. vm_compute. reflexivity. Qed.

Lemma started_restarted : restarted sample_sconf worked started.
Proof.
  split; [exact eq_refl|exact eq_refl|unfold started; cbn [binlog bl_version]; lia|exact eq_refl|exact eq_refl|constructor|
    apply (si_dist _ _ sample_inv)|unfold is_int32, started; cbn [g_current_trunk_file_id]; lia|constructor].
Qed.

(** ** Instances of the theorems. *)
Lemma storage_trunk_save_correct_witness :
  let '(r, s') := sample_save working in
  mem s' = mem working /\ g_trunk_total_free_space s' = g_trunk_total_free_space working /\
  (forall n, n ∉ [temp_data_filename sample_sconf; storage_trunk_get_data_filename sample_sconf] -> files s' !! n = files working !! n) /\
  (r = 0 -> exists size l, l ≡ₚ spaces (mem working) /\
    files s' !! storage_trunk_get_data_filename sample_sconf = Some (snapshot_text sample_sconf size l) /\
    (syscalls_ok working -> size = Z.of_nat (length (bl_file (binlog s'))))) /\
  (syscalls_ok working -> r = 0).
Proof.
  apply (storage_trunk_save_correct (W := RefW) sample_sconf working); [apply sample_base_ok|reflexivity|].
  apply (fl_mem _ _ _ working_flight).
Defined.

Lemma storage_trunk_restart_correct_witness :
  exists s3, storage_trunk_init sample_sconf (fun s => sample_save s) started = (0, s3) /\ state_inv sample_conf s3 /\
    spaces (mem s3) ≡ₚ erase <$> spaces (mem worked) /\ STORAGE_TRUNK_CHECK_STATUS sample_conf s3 = true.
Proof.
  destruct (proj1 (flight_0 _ _) working_flight) as [Hinv Hoom].
  refine (storage_trunk_restart_correct (W := RefW) sample_sconf sample_conf_ok eq_refl sample_base_ok
    (fun s => sample_save s) working worked started sample_saves (conj eq_refl eq_refl) eq_refl Hinv Hoom _
    working_log_ok _ _ _ _ started_restarted _).
  - vm_compute. reflexivity.
  - constructor.
  - exact working_large.
  - vm_compute. split; reflexivity.
  - apply rtc_once. split; [exact saved_syscalls|].
    refine (step_alloc sample_conf saved 60 (sample_space 0 0 0) (run_alloc 60 saved).1 worked _ _ _ _ _).
    + split; vm_compute; [discriminate|reflexivity].
    + vm_compute. reflexivity.
    + vm_compute. reflexivity.
    + vm_compute. discriminate.
    + apply surjective_pairing.
  - intros text Ht. apply short_text. rewrite worked_data, snapshot_content in Ht. injection Ht as <-. vm_compute. reflexivity.
Defined.

(** 132 lines of 31 bytes behind a first line of 4. *)
Definition many_spaces : list FDFSTrunkFullInfo :=
  map (fun i => sample_space 7 (100000 + 16 * Z.of_nat i) 16) (seq 0 132).

Definition full_buffer : TrunkState list :=
  mkState (mkMemory ∅ [[]; []] [] []) 0 8 STORAGE_TRUNK_INIT_FLAG_NONE (mkBinlog [] (replicate 123 10) 1 []) sample_dist 8
    (<[sample_data_name := snapshot_text sample_sconf 123 many_spaces]> sample_files) [] [].

Lemma many_spaces_lookup i a : many_spaces !! i = Some a -> a = sample_space 7 (100000 + 16 * Z.of_nat i) 16 /\ (i < 132)%nat.
Proof.
  unfold many_spaces. rewrite list_lookup_fmap. destruct (seq 0 132 !! i) as [j|] eqn:E; [|done].
  apply lookup_seq in E as [-> Hi]. cbn. intros [= <-]. done.
Qed.

Lemma load_at_buffer_end_witness :
  (storage_trunk_load sample_sconf (fun s => sample_save s) full_buffer).1 = ENOENT.
Proof.
  apply (load_at_buffer_end sample_sconf sample_conf_ok eq_refl sample_base_ok (fun s => sample_save s) 123 many_spaces (erase <$> many_spaces));
    [done| |done|constructor|lia|vm_compute; reflexivity|vm_compute; reflexivity|].
  - split; [split; [split; constructor| |done|constructor]|done|done|by intros b ?%not_elem_of_nil|unfold dist_ok; cbn; lia|done|constructor].
    intros [|[|i]] tr Hi; cbn in Hi; simplify_eq; split; constructor.
  - rewrite <- (app_nil_r (erase <$> many_spaces)).
    apply (apply_adds sample_sconf eq_refl).
    + apply Forall_lookup. intros i a [-> Hi]%many_spaces_lookup. split; [split; [apply sample_info_ok; lia || done|done..]|done|].
      exists []. vm_compute. reflexivity.
    + apply Forall_lookup. intros i a [-> Hi]%many_spaces_lookup. cbn. lia.
    + intros i j a b Hij [-> Hi]%many_spaces_lookup [-> Hj]%many_spaces_lookup _ [Ho1 Ho2].
      unfold t_offset, t_size in *. cbn in *. lia.
    + by intros a _ b ?%not_elem_of_nil.
Defined.
