(* ===== verification/CompressExamples.v ===== *)
(** * The theorems on the compression of the binlog at concrete inputs. *)

From S2P Require Import Prelude TrunkShared TrunkBinlog TrunkCompress CompressSafe.

(** Reading a line of at most [size - 1] bytes. *)
Definition line_gets (size : Z) (b : bytes) : nat :=
  match upto 10 b with
  | Some l => Nat.min (length l) (Z.to_nat size - 1)
  | None => Nat.min (length b) (Z.to_nat size - 1)
  end.

Lemma line_gets_law l rest : 10 ∉ l -> (length l + 1 < 32)%nat -> line_gets 32 ((l ++ [10]) ++ rest) = S (length l).
Proof. intros Hl Hn. unfold line_gets. rewrite upto_line by done. rewrite length_app. cbn. lia. Qed.

(** A log of two records, one still in the cache. *)
Definition example_log : CompressState :=
  mkC (mkDir (Some (bs "1 A 0 0 0 1 0 500" ++ [10])) None None None None) [bs "10.0.0.2_23000.mark"]
    STORAGE_TRUNK_COMPRESS_STAGE_NONE [] STORAGE_TRUNK_COMPRESS_STAGE_NONE true
    (bs "2 D 0 0 0 1 0 500" ++ [10]) 7 0 0 true (bs "1 A 0 0 0 1 0 500" ++ [10]).

Definition example_lines : bytes := bs "3 A 0 0 0 1 0 500" ++ [10].
Definition example_w1 : bytes * bool := (bs "4 A 0 0 0 2 0 900" ++ [10], true).
Definition example_w2 : bytes * bool := (bs "5 D 0 0 0 2 0 900" ++ [10], false).

Lemma example_can_compress : can_compress example_log.
Proof. split; try reflexivity; [discriminate|]. by left. Qed.

(** The process dies in the [n]-th system call. *)
Definition dies_at (n : nat) : list Outcome := repeat Done n ++ [Die 5].

Definition example_run (n : nat) : option Z * CompressState :=
  trunk_binlog_compress_func line_gets true true 900 1000 false example_w1 example_w2 example_lines
    (set_outcomes (dies_at n) example_log).

Definition example_recovery (os : list Outcome) (s : CompressState) : option Z * CompressState :=
  storage_trunk_binlog_compress_check_recovery line_gets true true (reboot true os s).

Lemma dies_at_crashes n : only_crashes (dies_at n).
Proof. induction n; cbn; by repeat constructor. Qed.

Lemma result_is {A} (x : option A * CompressState) r : x.1 = r -> x = (r, x.2).
Proof. destruct x. by intros <-. Qed.

Lemma example_run_is n r :
  (example_run n).1 = r ->
  trunk_binlog_compress_func line_gets true true 900 1000 false example_w1 example_w2 example_lines
    (set_outcomes (dies_at n) example_log) = (r, (example_run n).2).
Proof. exact (result_is (example_run n) r). Qed.

Lemma example_recovery_is os s r :
  (example_recovery os s).1 = r ->
  storage_trunk_binlog_compress_check_recovery line_gets true true (reboot true os s) = (r, (example_recovery os s).2).
Proof. exact (result_is (example_recovery os s) r). Qed.

(** The process dies before the merged file is renamed, and again while the
    recovery merges the old log back. *)
Definition example_crashed : CompressState := (example_run 32).2.
Definition example_crashed_again : CompressState := (example_recovery (dies_at 7) example_crashed).2.

Lemma example_after_crash :
  after_crash line_gets 900 1000 false example_w1 example_w2 example_lines example_log example_crashed_again.
Proof.
  apply (crash_in_recovery _ _ _ _ _ _ _ _ example_crashed true (dies_at 7)).
  - apply (crash_in_compress _ _ _ _ _ _ _ _ (dies_at 32) _ (dies_at_crashes _)).
    apply (example_run_is 32). vm_compute. reflexivity.
  - apply dies_at_crashes.
  - apply (example_recovery_is (dies_at 7) example_crashed). vm_compute. reflexivity.
Qed.

Lemma example_size (b : bytes * bool) :
  b = example_w1 -> Z.of_nat (length ((c_history example_log ++ trunk_binlog_write_cache example_log) ++ b.1)) < 2 ^ 63.
Proof. intros ->. vm_compute. reflexivity. Qed.

Lemma compress_crash_safe_witness :
  (example_recovery [] example_crashed_again).1 = Some 0 /\
  old_or_new example_lines example_log (example_recovery [] example_crashed_again).2.
Proof.
  split; [vm_compute; reflexivity|].
  refine (proj2 (compress_crash_safe line_gets 900 1000 false example_w1 example_w2 example_lines example_log
    example_crashed_again true [] 0 (example_recovery [] example_crashed_again).2
    line_gets_law example_can_compress (example_size _ eq_refl) example_after_crash (Forall_nil_2 _) _)).
  apply example_recovery_is. vm_compute. reflexivity.
Defined.

Lemma compress_recovery_completes_witness :
  exists s', example_recovery [] example_crashed_again = (Some 0, s') /\ old_or_new example_lines example_log s'.
Proof.
  exact (compress_recovery_completes line_gets 900 1000 false example_w1 example_w2 example_lines example_log
    example_crashed_again true line_gets_law example_can_compress (example_size _ eq_refl) example_after_crash).
Defined.

(** The recovery brings the log of three records back. *)
Example example_recovered :
  f_binlog (c_dir (example_recovery [] example_crashed_again).2)
  = Some ((bs "1 A 0 0 0 1 0 500" ++ [10]) ++ (bs "2 D 0 0 0 1 0 500" ++ [10]) ++ bs "4 A 0 0 0 2 0 900" ++ [10]
          ++ bs "5 D 0 0 0 2 0 900" ++ [10]).
Proof. vm_compute. reflexivity. Qed.

Lemma trunk_binlog_compress_func_correct_witness :
  exists s', trunk_binlog_compress_func line_gets true true 900 1000 false example_w1 example_w2 example_lines example_log = (Some 0, s')
    /\ c_ini_stage s' = STORAGE_TRUNK_COMPRESS_STAGE_FINISHED /\ f_data (c_dir s') = None /\ c_marks s' = []
    /\ exists tail, c_history s' = (c_history example_log ++ trunk_binlog_write_cache example_log) ++ tail
         /\ f_binlog (c_dir s') = Some (example_lines ++ tail).
Proof.
  refine (trunk_binlog_compress_func_correct line_gets 900 1000 false example_w1 example_w2 example_lines example_log
    line_gets_law example_can_compress eq_refl _ (example_size _ eq_refl)).
  split; [lia|]. split; [vm_compute; discriminate|reflexivity].
Defined.

(** The disk is full while the compression is undone. *)
Definition example_full : CompressState :=
  set_outcomes [Done; Done; Done; Done; Done; Fail 3 ENOSPC] (reboot true [] example_crashed).

Lemma rollback_merge_failure_witness :
  exists s', trunk_compress_rollback_binlog_file line_gets example_full = (Some ENOSPC, s')
    /\ f_rollback (c_dir s') = None /\ f_binlog (c_dir s') = Some (example_w1.1 ++ example_w2.1)
    /\ c_ini_stage s' = STORAGE_TRUNK_COMPRESS_STAGE_ROLLBACK_MERGE_DONE.
Proof.
  refine (rollback_merge_failure line_gets example_full
    ((bs "1 A 0 0 0 1 0 500" ++ [10]) ++ bs "2 D 0 0 0 1 0 500" ++ [10]) (example_w1.1 ++ example_w2.1) 3 ENOSPC _ _ _ _);
    vm_compute; first [reflexivity|discriminate].
Defined.
