(* ===== verification/TrackerExamples.v ===== *)
(** * The theorems on the leader election at concrete inputs. *)

From S2P Require Import Prelude TrunkShared FastCommon TrunkBinlog ServerInfo TrackerElection TrackerSafe TrackerChoice TrackerRound.
Import RefCommon.

#[local] Instance ref_connections : Connections := {|
  FC_CONNECTION_SERVER_EQUAL c ip p := bool_decide (ip_addr c = ip /\ port c = p);
|}.

#[local] Instance ref_connections_laws : ConnectionsLaws.
Proof. split. intros c ip p. cbn. apply bool_decide_eq_true. Qed.

Definition address (m : nat) : ConnectionInfo := mkConn (bs "10.0.0." ++ [49 + Z.of_nat m]) 22122.

(** Two trackers; each lists itself first. *)
Definition tracker_conf (n : nat) : TrackerConf := {|
  servers := [[address n]; [address (1 - n)]];
  g_server_port := 22122;
  local_ips := [ip_addr (address n)];
  is_local_host_ip ip := bool_decide (ip = ip_addr (address n));
|}.
Definition two_trackers : list TrackerConf := [tracker_conf 0; tracker_conf 1].

Lemma address_inj n m : address n = address m -> n = m.
Proof. intros E. apply (f_equal ip_addr) in E. cbn in E. injection E as E. lia. Qed.

Lemma two_lookup n conf : two_trackers !! n = Some conf -> (n < 2)%nat /\ conf = tracker_conf n.
Proof. destruct n as [|[|n]]; cbn; intros; simplify_eq; (split; [lia|done]). Qed.

Lemma two_server a m : is_server two_trackers [address a] m <-> a = m /\ (m < 2)%nat.
Proof.
  rewrite is_server_spec. split.
  - intros (conf & c & Hm & Hc & Hip & _). apply two_lookup in Hm as [Hm ->]. apply list_elem_of_singleton in Hc as ->.
    cbn in Hip. apply list_elem_of_singleton in Hip. injection Hip as E. split; [lia|done].
  - intros [-> Hm]. exists (tracker_conf m), (address m). split; [by destruct m as [|[|]]; [| |lia]|].
    split; [left|]. split; [left|done].
Qed.

Lemma two_servers n k s : (n < 2)%nat -> servers (tracker_conf n) !! k = Some s -> s = [address (if k =? 0 then n else 1 - n)]%nat /\ (k < 2)%nat.
Proof. intros Hn. destruct k as [|[|k]]; cbn; intros; simplify_eq; (split; [done|lia]). Qed.

Lemma two_entry n m k : entry two_trackers n m k <-> (n < 2 /\ m < 2 /\ k = if m =? n then 0 else 1)%nat.
Proof.
  unfold entry. split.
  - intros (conf & s & Hn & Hs & Hm). apply two_lookup in Hn as [Hn ->]. apply two_servers in Hs as [-> Hk]; [|done].
    apply two_server in Hm as [E Hm]. destruct k as [|[|k]]; cbn in E; [..|lia]; destruct (Nat.eqb_spec m n); lia.
  - intros (Hn & Hm & ->). exists (tracker_conf n), [address m]. split; [by destruct n as [|[|]]; [| |lia]|].
    split; [|by apply two_server]. destruct (Nat.eqb_spec m n) as [->|]; [done|]. cbn. do 3 f_equal. lia.
Qed.

Lemma two_ok : cluster_ok 16 two_trackers.
Proof.
  split.
  - intros n conf ip Hn. apply two_lookup in Hn as [_ ->]. cbn. rewrite bool_decide_eq_true. by rewrite list_elem_of_singleton.
  - intros n conf k s Hn Hs. apply two_lookup in Hn as [Hn ->]. apply two_servers in Hs as [-> Hk]; [|done].
    eexists. apply two_server. split; [done|]. destruct (k =? 0)%nat; lia.
  - intros n m m' k H H'. apply two_entry in H, H'. destruct (Nat.eqb_spec m n), (Nat.eqb_spec m' n); lia.
  - intros n m Hn Hm. eexists. by apply two_entry.
  - intros n m k k' H H'. apply two_entry in H, H'. lia.
  - intros n conf k s m confm c Hn Hs Hm Hcm Hc. apply two_lookup in Hn as [Hn ->]. apply two_servers in Hs as [-> Hk]; [|done].
    apply two_server in Hm as [E Hm]. apply two_lookup in Hcm as [_ ->]. apply list_elem_of_singleton in Hc as ->. rewrite E.
    split; [|split; [left|done]]. destruct m as [|[|]]; [..|lia]; (split; [apply (bool_decide_unpack _); vm_compute; exact I|]).
    all: split; [by repeat constructor|]; split; [by unfold is_int32; cbn; lia|vm_compute; lia].
Qed.

Lemma two_same : same_addresses two_trackers.
Proof.
  intros n m a k k' confn confm s s' Hn Hm Hs Hs' Ha Ha'. apply two_lookup in Hn as [Hn ->], Hm as [Hm ->].
  apply two_servers in Hs as [-> _], Hs' as [-> _]; [|done..]. apply two_server in Ha as [-> _], Ha' as [-> _]. done.
Qed.

(** Both trackers start and the second runs an election. *)
Definition off : TrackerNode := mkNode false (-1) (-1) false 0 0 0 0 0 1 Sleeping.
Definition nd (c : list TrackerNode) (n : nat) : TrackerNode := nth n c off.

Definition e0 : list TrackerNode := [off; off].
Definition e1 : list TrackerNode := <[0%nat := new_node 1000 0 1]> e0.
Definition e2 : list TrackerNode := <[1%nat := new_node 1000 0 1]> e1.
Definition e3 : list TrackerNode := <[1%nat := set_thread (GettingStatus 0 [] 0) (nd e2 1)]> e2.
Definition conf1 : TrackerConf := tracker_conf 1.
Definition e4 : list TrackerNode :=
  <[1%nat := (status_answered conf1 0 [] 0 false (inr (local_status 0 (nd e3 1))) (nd e3 1)).2]> e3.
Definition st1 : TrackerRunningStatus := mkStatus 0 0 0 false.
Definition e5 : list TrackerNode :=
  <[1%nat := (status_answered conf1 1 [st1] 0 false (status_reply 1 Answered (nd e4 0)) (nd e4 1)).2]> e4.

Lemma e5_reachable partition : reachable 16 two_trackers partition e5.
Proof.
  apply reach_step with e4; [apply reach_step with e3; [apply reach_step with e2; [apply reach_step with e1; [apply reach_step with e0|]|]|]|].
  - apply reach_start; [done|]. repeat constructor; by exists 0, 1.
  - by apply (step_start _ _ _ e0 0 off).
  - by apply (step_start _ _ _ e1 1 off).
  - by apply (step_select _ _ _ e2 1 conf1 (nd e2 1)).
  - by apply (step_status_local _ _ _ e3 1 conf1 (nd e3 1)).
  - apply (step_status _ _ _ e4 1 conf1 (nd e4 1) 1 [st1] 0 false [address 0] 0 (nd e4 0) Answered); try done.
    apply two_server; lia.
Qed.

(** The second has the higher address and is the candidate. *)
Example e5_candidate : thread (nd e5 1) = Notifying 0 st1 0 false.
Proof. vm_compute. reflexivity. Qed.

Lemma e5_quiet : quiet_cluster two_trackers e5.
Proof. split; [done|]. intros [|[|m]] y; vm_compute; intros; by simplify_eq. Qed.

Lemma undisturbed_election_witness :
  let call := answered_call 16 two_trackers 1 in
  exists c' x', nsteps call 4 e5 c' /\ (forall c1, rtc call e5 c1 -> rtc call c1 c') /\ c' !! 1%nat = Some x' /\ thread x' = Sleeping /\
    forall m y, c' !! m = Some y -> follows two_trackers m y 1 /\ (g_if_leader_self y = true <-> m = 1%nat).
Proof.
  refine (undisturbed_election 16 two_trackers e5 1 conf1 (nd e5 1) st1 false two_ok two_same e5_quiet _ e5_candidate _).
  - split; [reflexivity|]. split; vm_compute; reflexivity.
  - vm_compute. reflexivity.
Defined.

(** The calls of the round. *)
Definition e6 : list TrackerNode := <[1%nat := (bind (notify_self 0) (fun r => notified conf1 0 st1 0 r false) (nd e5 1)).2]> e5.
Definition message1 : bytes := leader_message 16 (address 1).
Definition conf0 : TrackerConf := tracker_conf 0.
Definition e7 : list TrackerNode :=
  after_call e6 1 0 (tracker_deal_notify_next_leader 16 conf0 message1 (nd e6 0)).2 (notified conf1 1 st1 1 0 false).
Definition e8 : list TrackerNode := <[1%nat := (bind (commit_self 0) (fun r => commit_done conf1 0 st1 0 r false) (nd e7 1)).2]> e7.
Definition e9 : list TrackerNode :=
  after_call e8 1 0 (tracker_deal_commit_next_leader 16 conf0 message1 (nd e8 0)).2 (commit_done conf1 1 st1 1 0 false).

Lemma e9_reachable : reachable 16 two_trackers false e9.
Proof.
  apply reach_step with e8; [apply reach_step with e7; [apply reach_step with e6; [apply reach_step with e5; [apply e5_reachable|]|]|]|].
  - by apply (step_notify_self _ _ _ e5 1 conf1 (nd e5 1) 0 st1 0 false).
  - apply (step_notify _ _ _ e6 1 conf1 (nd e6 1) 1 st1 1 false [address 0] 0 conf0 (nd e6 0) Answered 0); try done.
    apply two_server; lia.
  - by apply (step_commit_self _ _ _ e7 1 conf1 (nd e7 1) 0 st1 0 false).
  - apply (step_commit _ _ _ e8 1 conf1 (nd e8 1) 1 st1 1 false [address 0] 0 conf0 (nd e8 0) Answered 0); try done.
    apply two_server; lia.
Qed.

(** The second tracker is the leader and the first follows it; no one else
    claims to lead. *)
Lemma one_tracker_leader_witness :
  g_if_leader_self (nd e9 1) = true /\ leader_index (nd e9 0) = 1 /\
  forall m y, e9 !! m = Some y -> g_if_leader_self y = true -> m = 1%nat.
Proof.
  split; [vm_compute; reflexivity|]. split; [vm_compute; reflexivity|]. intros m y Hy HL.
  refine (one_tracker_leader 16 two_trackers e9 m 1 y (nd e9 1) two_ok e9_reachable Hy _ HL _); vm_compute; reflexivity.
Defined.

(** The statuses as the two trackers collect them; each has itself first. *)
Definition seen (n : nat) : list TrackerRunningStatus :=
  if (n =? 0)%nat then [mkStatus 0 600 300 false; mkStatus 1 600 0 false] else [mkStatus 0 600 0 false; mkStatus 1 600 300 false].

(** The second was down less long. *)
Lemma relationship_get_tracker_leader_agree_witness :
  rank conf0 (mkStatus 1 600 0 false) = rank conf1 (mkStatus 0 600 0 false) /\
  forall x, x ∈ seen 0 -> ranks_below (rank conf0 x) (rank conf0 (mkStatus 1 600 0 false)).
Proof.
  refine (relationship_get_tracker_leader_agree conf0 conf1 (seen 0) (seen 1) 0 0 _ _ _ _ _ _ _).
  - repeat constructor; vm_compute; (reflexivity || discriminate).
  - repeat constructor; vm_compute; (reflexivity || discriminate).
  - change (rank conf0 <$> seen 0) with [rank conf0 (mkStatus 0 600 300 false); rank conf0 (mkStatus 1 600 0 false)].
    change (rank conf1 <$> seen 1) with [rank conf0 (mkStatus 1 600 0 false); rank conf0 (mkStatus 0 600 300 false)].
    apply perm_swap.
  - vm_compute. reflexivity.
  - vm_compute. reflexivity.
Defined.

Lemma fdfs_server_equal_correct_witness :
  fdfs_server_equal [address 0; address 1; address 2] [address 2; address 0; address 1] = true <->
  [address 0; address 1; address 2] ≡ₚ [address 2; address 0; address 1].
Proof.
  refine (fdfs_server_equal_correct _ _ _ _).
  - apply (bool_decide_unpack _). vm_compute. exact I.
  - apply (bool_decide_unpack _). vm_compute. exact I.
Defined.

(** ** A partition.

    When a connection to a running tracker can fail, two trackers can lead. *)
Definition local_steps (n : nat) (x x' : TrackerNode) : Prop :=
  forall c, c !! n = Some x -> rtc (step 16 two_trackers true) c (<[n := x']> c).

Lemma local_steps_trans n x y z : local_steps n x y -> local_steps n y z -> local_steps n x z.
Proof.
  intros H1 H2 c Hc. etrans; [by apply H1|]. apply lookup_lt_Some in Hc as Hl.
  rewrite <- (list_insert_insert_eq c n z y). apply H2. by rewrite list_lookup_insert_eq.
Qed.

Lemma unreachable c s : connect_fails two_trackers true c s 110.
Proof. split; [lia|by left]. Qed.

(** A tracker that reaches no other one elects itself. *)
Definition self_status : TrackerRunningStatus := mkStatus 0 0 0 false.
Definition lone_leader : TrackerNode :=
  mkNode true 0 (-1) true 1 0 1000 1000 0 1 Sleeping.

Lemma alone_leads n : (n < 2)%nat -> local_steps n (new_node 1000 0 1) lone_leader.
Proof.
  intros Hn. set (conf := tracker_conf n).
  assert (Hconf : two_trackers !! n = Some conf) by (by destruct n as [|[|]]; [| |lia]).
  assert (Hl : contain_local conf 0 = true) by (by destruct n as [|[|]]; [| |lia]).
  assert (Hl1 : contain_local conf 1 = false) by (by destruct n as [|[|]]; [| |lia]).
  set (x := new_node 1000 0 1). set (th t := set_thread t x).
  assert (Hb : (status_answered conf 1 [self_status] 0 false (inl 110) (th (GettingStatus 1 [self_status] 0))).2
    = th (Notifying 0 self_status 0 false)).
  { destruct n as [|[|]]; [vm_compute; reflexivity..|lia]. }
  set (own := set_next_leader_index 0 x).
  set (lead := count_leader_chg (set_if_leader_self true (set_next_leader_index (-1) (set_leader_index 0 own)))).
  apply local_steps_trans with (th (GettingStatus 0 [] 0)).
  { intros c Hc. apply rtc_once. by apply (step_select _ _ _ c n conf x). }
  apply local_steps_trans with (th (GettingStatus 1 [self_status] 0)).
  { intros c Hc. apply rtc_once. by apply (step_status_local _ _ _ c n conf (th (GettingStatus 0 [] 0)) 0 [] 0 false). }
  apply local_steps_trans with (th (Notifying 0 self_status 0 false)).
  { intros c Hc. apply rtc_once.
    pose proof (step_status_fails 16 two_trackers true c n conf (th (GettingStatus 1 [self_status] 0)) 1 [self_status] 0 false
      [address (1 - n)] 110 ltac:(done) ltac:(done) Hl1 ltac:(done) (unreachable _ _)) as Hstep.
    by rewrite Hb in Hstep. }
  apply local_steps_trans with (set_thread (Notifying 1 self_status 1 false) own).
  { intros c Hc. apply rtc_once. by apply (step_notify_self _ _ _ c n conf (th (Notifying 0 self_status 0 false)) 0 self_status 0 false). }
  apply local_steps_trans with (set_thread (Committing 0 self_status 0 true) own).
  { intros c Hc. apply rtc_once.
    by apply (step_notify_fails _ _ _ c n conf (set_thread (Notifying 1 self_status 1 false) own) 1 self_status 1 false [address (1 - n)] 110);
      try apply unreachable. }
  apply local_steps_trans with (set_thread (Committing 1 self_status 1 true) lead).
  { intros c Hc. apply rtc_once.
    by apply (step_commit_self _ _ _ c n conf (set_thread (Committing 0 self_status 0 true) own) 0 self_status 0 true). }
  intros c Hc. apply rtc_once.
  by apply (step_commit_fails _ _ _ c n conf (set_thread (Committing 1 self_status 1 true) lead) 1 self_status 1 true [address (1 - n)] 110);
    try apply unreachable.
Qed.

Lemma reachable_rtc partition c c' :
  reachable 16 two_trackers partition c -> rtc (step 16 two_trackers partition) c c' -> reachable 16 two_trackers partition c'.
Proof. intros Hc. induction 1 as [|c c1 c2 Hstep _ IH]; [done|]. apply IH. by apply reach_step with c. Qed.

Theorem partition_two_leaders :
  exists c, reachable 16 two_trackers true c /\ forall n, (n < 2)%nat -> c !! n = Some lone_leader.
Proof.
  exists [lone_leader; lone_leader]. split; [|intros [|[|n]] Hn; [done|done|lia]].
  apply reachable_rtc with [lone_leader; new_node 1000 0 1].
  - apply reachable_rtc with [new_node 1000 0 1; new_node 1000 0 1].
    + apply reach_step with [new_node 1000 0 1; off]; [apply reach_step with e0; [apply reach_start; [done|]|]|].
      * repeat constructor; by exists 0, 1.
      * by apply (step_start _ _ _ e0 0 off).
      * by apply (step_start _ _ _ [new_node 1000 0 1; off] 1 off).
    + by apply (alone_leads 0); [lia|].
  - by apply (alone_leads 1); [lia|].
Qed.

(** ** A stale flag.

    A candidate that was overtaken sees [EBUSY] at its own commit; when the
    connection to an earlier server failed, [bConnectFail] is still set and it
    goes on to commit the others. *)
Theorem overtaken_candidate_goes_on conf k st sc x :
  g_next_leader_index x <> Z.of_nat k -> (S k < length (servers conf))%nat ->
  bind (commit_self k) (fun r => commit_done conf k st sc r true) x =
    (0, set_thread (Committing (S k) st sc true) (set_next_leader_index (-1) x)).
Proof.
  intros Hg Hk. unfold bind at 1, commit_self, bind at 1. cbn [gets].
  rewrite (proj2 (Z.eqb_neq _ _) Hg). cbn [negb]. unfold bind at 1, modify at 1. 
  unfold commit_done. change (EBUSY =? 0) with false. cbn [negb andb]. by rewrite (proj2 (Nat.ltb_lt _ _)) by lia.
Qed.
