(* ===== verification/TrackerServiceExamples.v ===== *)
(** * The theorems on the tracker's service at concrete inputs. *)

From S2P Require Import Prelude FastCommon SharedFunc TrunkShared SortedArray StorageIds ServerInfo TrackerTypes TrackerMem TrackerMemInv TrackerService TrackerJoin TrackerStore TrackerFetch TrackerTask TrackerTaskInv TrackerReach TrackerQuery TrackerDownload.
Import RefCommon.

(** ** A cluster with one group of two servers. *)

(** Round robin everywhere, or the search by the settings of the caller. *)
Definition demo_conf (lookup sserver : Z) (trunk ids : bool) (table : StorageIds) : TrackerMemConf := {|
  IP_ADDRESS_SIZE := 16; store_lookup := lookup; store_server := sserver; download_server := 0; store_path := 0; store_group := [];
  g_if_use_trunk_file := trunk; g_use_storage_id := ids; storage_ids := table;
  g_storage_reserved_space := RESERVED_SPACE_MB 1000; g_check_active_interval := 100; g_storage_sync_file_max_delay := 86400;
  g_storage_sync_file_max_time := 300; g_trunk_init_check_occupying := false; g_trunk_init_reload_from_binlog := false;
|}.
Definition no_ids : StorageIds := mkStorageIds [] [] [].
Definition plain : TrackerMemConf := demo_conf 0 0 false false no_ids.

Definition world : TrackerMem :=
  mkTrackerMem ∅ [] 0 [] None 0 0 [] 0 0 0 true 0 1000000 [] (fun _ _ => inr 0).

Definition INFINITE_FILE_SIZE : Z := 2 ^ 58.

Definition join_body (group : bytes) (paths : Z) : bytes :=
  pad 17 group ++ long2buff 23000 ++ long2buff 8888 ++ long2buff paths ++ long2buff 256 ++ long2buff 10 ++ long2buff 999000 ++
  long2buff 999000 ++ pad 6 (bs "6.12") ++ pad 128 [] ++ [0; 7] ++ pad 16 [] ++ long2buff 1 ++ pad 40 (bs "10.0.0.9:22122").

Definition df_body (l : list (Z * Z)) : bytes := mjoin ((fun '(total, free) => long2buff total ++ long2buff free) <$> l).

(** What happens, one thing after the other; [None] when a request is not
    answered or not a safe one. *)
Inductive event :=
  | Accept (k : nat)
  | Ask (k : nat) (client_ip : bytes) (cmd : Z) (body : bytes)
  | Close (k : nat)
  | FindTrunkServers.

Definition happen (conf : TrackerMemConf) (t : Tracker) (e : event) : option Tracker :=
  let '(mkTracker m cs) := t in
  match e with
  | Accept k => match cs !! k with None => Some (mkTracker m (<[k := new_client]> cs)) | Some _ => None end
  | Ask k client_ip cmd body =>
      c ← cs !! k;
      run ← tracker_deal_task conf INFINITE_FILE_SIZE 8192 131072 client_ip None cmd c body;
      if (length client_ip <? 16)%nat && negb (cmd =? TRACKER_PROTO_CMD_SERVER_DELETE_GROUP) &&
         negb (cmd =? TRACKER_PROTO_CMD_STORAGE_REPORT_IP_CHANGED) &&
         (negb (cmd =? TRACKER_PROTO_CMD_STORAGE_JOIN) || bool_decide (ci_pGroup c = None))
      then match run m with
           | (Answered c' _, m') => Some (mkTracker m' (<[k := c']> cs))
           | _ => None
           end
      else None
  | Close k => c ← cs !! k; Some (mkTracker (task_finish_clean_up conf c m).2 (delete k cs))
  | FindTrunkServers => Some (mkTracker (tracker_mem_find_trunk_servers conf m).2 cs)
  end.

Definition history (conf : TrackerMemConf) (l : list event) : option Tracker :=
  foldl (fun o e => t ← o; happen conf t e) (Some (start world)) l.

Lemma happen_step conf t e t' : happen conf t e = Some t' -> step conf INFINITE_FILE_SIZE 8192 131072 t t'.
Proof.
  destruct t as [m cs], e as [k|k client_ip cmd body|k|]; cbn.
  - destruct (cs !! k) eqn:E; [done|]. intros [= <-]. by constructor.
  - intros (c & Hc & (run & Hrun & H)%bind_Some)%bind_Some. destruct (_ && _) eqn:E in H; [|done].
    destruct (run m) as [[c' r| |] m'] eqn:Em; [|done..]. injection H as <-.
    repeat (apply andb_true_iff in E as [E ?]).
    eapply step_request; [exact Hc|by apply Nat.ltb_lt|exact Hrun| |exact Em].
    repeat match goal with H : negb _ = true |- _ => apply negb_true_iff, Z.eqb_neq in H end.
    split; [done|]. split; [|done]. intros -> p i Hp. exfalso.
    match goal with H : _ || _ = true |- _ => rewrite Z.eqb_refl in H; apply bool_decide_eq_true in H end. congruence.
  - intros (c & Hc & [= <-])%bind_Some. by apply (step_close _ _ _ _ m cs k c).
  - intros [= <-]. constructor.
Qed.

Lemma history_run conf l t : history conf l = Some t -> rtc (step conf INFINITE_FILE_SIZE 8192 131072) (start world) t.
Proof.
  revert t. induction l as [|e l IH] using rev_ind; intros t; unfold history; [intros [= <-]; constructor|].
  rewrite foldl_snoc. intros (t1 & H1 & H2)%bind_Some. eapply rtc_r; [by apply IH|by eapply happen_step].
Qed.

Lemma history_ok conf l t :
  ids_short conf -> IP_ADDRESS_SIZE conf = 16 -> history conf l = Some t -> state_ok (t_mem t).
Proof. intros H1 H2 Hl. apply history_run, steps_ok in Hl as [Hl _]; [done..|apply start_ok]. Qed.

(** Storage server [n] of the group [g]; its connection is number [n]. *)
Definition ip (n : nat) : bytes := bs "10.0.0." ++ fmt_d (Z.of_nat n).
Definition joins (g : bytes) (n : nat) : list event :=
  [Accept n; Ask n (ip n) TRACKER_PROTO_CMD_STORAGE_JOIN (join_body g 2)].
Definition reports (n : nat) (d : list (Z * Z)) : event := Ask n (ip n) TRACKER_PROTO_CMD_STORAGE_REPORT_DISK_USAGE (df_body d).

(** Two servers with space; two groups of one server. *)
Definition one_group : list event :=
  joins (bs "group1") 1 ++ joins (bs "group1") 2 ++ [reports 1 [(10000,5000);(10000,500)]; reports 2 [(10000,7000);(10000,800)]].
Definition two_groups : list event :=
  joins (bs "group1") 1 ++ joins (bs "group2") 2 ++ [reports 1 [(10000,5000);(10000,500)]; reports 2 [(10000,7000);(10000,800)]].
Definition state_of (conf : TrackerMemConf) (l : list event) : TrackerMem := t_mem (default (start world) (history conf l)).
Definition server_conf : TrackerMemConf := demo_conf 0 1 true false no_ids.
(** Server 1 has little space, and the group shows more than that, as server 3,
    which is gone, had less; server 3 told of 30 MB in trunk files. *)
Definition little_space : list event :=
  joins (bs "group1") 3 ++ [reports 3 [(10000,100);(10000,100)]; Ask 3 (ip 3) TRACKER_PROTO_CMD_STORAGE_REPORT_TRUNK_FREE (long2buff 30)] ++
  joins (bs "group1") 2 ++ [reports 2 [(10000,5000);(10000,5000)]; Close 3] ++
  joins (bs "group1") 1 ++ [reports 1 [(10000,480);(10000,10)];
   Ask 1 (ip 1) TRACKER_PROTO_CMD_SERVICE_QUERY_STORE_WITH_GROUP_ONE (pad 16 (bs "group1"))].

(** A cluster with server ids. *)
#[local] Instance ref_text : TextTools := {|
  split s c := RefCommon.split_go c 1000 [] s;
  trim s := reverse (skip_blanks (reverse (skip_blanks s)));
  getIpaddrByName h := Some h;
|}.
Definition ids_file : bytes :=
  bs "# id group address" ++ 10 :: bs "100001 group1 10.0.0.1" ++ 10 :: bs "100002  group1  10.0.0.2,58.1.2.3" ++ [10].
Definition ids_table : StorageIds := match fdfs_load_storage_ids ids_file with inr t => t | inl _ => no_ids end.
Definition ids_conf : TrackerMemConf := demo_conf 0 0 false true ids_table.

(** The name of a file that server 100002 made. *)
Definition file_name : bytes :=
  bs "M00/00/00/" ++ base64_encode_ex ([162; 134; 1; 0] ++ int2buff 999990 ++ long2buff 1000 ++ int2buff 77) ++ bs ".jpg".

Ltac run_ok :=
  match goal with |- state_ok (state_of ?c ?l) => apply (history_ok c l) end;
  [split; apply (bool_decide_unpack _); vm_compute; exact I|reflexivity|vm_compute; reflexivity].

Ltac numbers Hk a b :=
  match type of Hk with ?m <= _ < ?n => replace m with a in Hk by (vm_compute; reflexivity); replace n with b in Hk by (vm_compute; reflexivity) end.

Lemma one_group_ok : state_ok (state_of plain one_group).
Proof. run_ok. Qed.
Lemma two_groups_ok : state_ok (state_of plain two_groups).
Proof. run_ok. Qed.
Lemma little_space_ok : state_ok (state_of server_conf little_space).
Proof. run_ok. Qed.
Lemma ids_group_ok : state_ok (state_of ids_conf one_group).
Proof. run_ok. Qed.

(** ** Instances of the theorems. *)
Lemma tracker_state_ok_witness :
  exists t, history plain one_group = Some t /\ tracker_ok t.
Proof.
  exists (default (start world) (history plain one_group)). split; [vm_compute; reflexivity|].
  refine (tracker_state_ok plain INFINITE_FILE_SIZE 8192 131072 _ _ _ _).
  - split; constructor.
  - reflexivity.
  - exists world. apply (history_run plain one_group). vm_compute. reflexivity.
Defined.

Lemma pick_group_errors_witness :
  let s := state_of plain one_group in
  exists p, (pick_group plain None s).1 = inr p /\ has_active (heap s !!! p) = true.
Proof.
  intros s. destruct (pick_group plain None s) as [r s'] eqn:E.
  pose proof (pick_group_errors plain s r s' one_group_ok ltac:(vm_compute; lia) (or_introl eq_refl) E) as (_ & _ & H).
  cbv zeta in H. destruct H as (p & Hr & _ & Ha & _); [|exists p; exact (conj Hr Ha)].
  exists 1%nat. split; [|split]; [vm_compute; left|vm_compute; reflexivity|vm_compute; reflexivity].
Defined.

Lemma round_robin_reaches_witness :
  let s := state_of plain two_groups in inr 2%nat ∈ (picks plain (count s) s).1.
Proof.
  refine (round_robin_reaches plain _ 2 two_groups_ok _ _ _ _ _).
  - reflexivity.
  - vm_compute. split; congruence.
  - vm_compute. right. left.
  - vm_compute. reflexivity.
  - vm_compute. reflexivity.
Defined.

Lemma query_storage_correct_witness :
  let s := state_of plain one_group in
  exists a, (query_storage plain None true s).1 = inr a /\ sa_servers a = g_active_servers (heap s !!! sa_group a).
Proof.
  intros s. destruct (query_storage plain None true s) as [[e|a] s'] eqn:E; [vm_compute in E; discriminate E|]. exists a. split; [reflexivity|].
  pose proof (query_storage_correct plain None true s a s' one_group_ok E) as (_ & _ & _ & _ & _ & _ & H). exact (H eq_refl).
Defined.

Lemma wrapped_search_refuses_witness :
  let s := state_of server_conf little_space in
  (query_storage server_conf (Some (bs "group1")) false s).1 = inl ENOSPC /\
  let s1 := (query_storage server_conf (Some (bs "group1")) false s).2 in
  (query_storage server_conf (Some (bs "group1")) false s1).1 = inr (mkStoreAnswer 1 [2%nat] 0).
Proof.
  intros s.
  pose proof (wrapped_search_refuses server_conf (bs "group1") s 1 2 0 little_space_ok ltac:(vm_compute; lia) ltac:(vm_compute; reflexivity)
    ltac:(vm_compute; congruence) eq_refl) as H. cbv zeta in H.
  destruct (query_storage server_conf (Some (bs "group1")) false s) as [r1 s1]. apply H.
  - vm_compute. reflexivity.
  - vm_compute. split; congruence.
  - intros k Hk. numbers Hk 0 2. assert (k = 0 \/ k = 1) as [-> | ->] by lia; vm_compute; reflexivity.
  - intros k Hk. numbers Hk 1 2. assert (k = 1) as -> by lia. vm_compute. reflexivity.
  - vm_compute. reflexivity.
Defined.

Lemma download_servers_correct_witness :
  let s := state_of ids_conf one_group in
  exists p l, (tracker_mem_get_storage_by_filename ids_conf INFINITE_FILE_SIZE TRACKER_PROTO_CMD_SERVICE_QUERY_FETCH_ONE (bs "group1") file_name s).1 = inr (p, l) /\
    Forall (fun i => i ∈ g_active_servers (heap s !!! p)) l.
Proof.
  intros s. destruct (tracker_mem_get_storage_by_filename _ _ _ _ _ s) as [[e|[p l]] s'] eqn:E; [vm_compute in E; discriminate E|].
  exists p, l. split; [reflexivity|].
  pose proof (download_servers_correct ids_conf INFINITE_FILE_SIZE _ _ _ s p l s' ids_group_ok (or_introl eq_refl) E) as (_ & _ & _ & H & _). exact H.
Defined.

Lemma fetch_all_misses_source_witness :
  let g := heap (state_of ids_conf one_group) !!! 1%nat in
  let o := file_origin INFINITE_FILE_SIZE file_name in
  fetch_all ids_conf 1000000 g o 0 = [0%nat] /\ forall k, k ∈ g_active_servers g -> read_server ids_conf 1000000 g o 0 k = 1%nat.
Proof.
  refine (fetch_all_misses_source ids_conf 1000000 _ _ 1 0 _ _ _ _ _ _ _ _).
  - apply heap_group_ok, ids_group_ok.
  - vm_compute. reflexivity.
  - vm_compute. congruence.
  - vm_compute. reflexivity.
  - congruence.
  - vm_compute. congruence.
  - reflexivity.
  - intros k Hk. assert (k = 0%nat \/ k = 1%nat) as [-> | ->].
    { vm_compute in Hk. apply elem_of_cons in Hk as [->|Hk]; [auto|]. apply list_elem_of_singleton in Hk. auto. }
    all: split; [rewrite <- is_synced_spec|]; vm_compute; congruence.
Defined.

Lemma fdfs_load_storage_ids_correct_witness :
  exists ids, entries ids_file = Some ids /\ NoDup (si_id <$> ids) /\ length ids = 2%nat.
Proof.
  assert (fdfs_load_storage_ids ids_file = inr ids_table) as Hl by (vm_compute; reflexivity).
  destruct (fdfs_load_storage_ids_correct ids_file ids_table Hl) as (ids & He & Hd & _).
  exists ids. split; [exact He|]. split; [exact Hd|]. apply (f_equal (fmap length)) in He. vm_compute in He. injection He as He. exact (eq_sym He).
Defined.
