(* ===== verification/SyncExamples.v ===== *)
(** * The theorems on the binlog and its readers at concrete inputs. *)

From S2P Require Import Prelude FastCommon TrunkShared StorageIds TrackerTypes FileSys SyncBinlog SyncReader Net SyncPeer SyncThread SyncFiles SyncPlace SyncReading SyncSafe SyncRecords SyncConfirm.

Import RefCommon RefFiles.

Definition example_conf : SyncConf := {|
  g_fdfs_base_path := bs "/b";
  g_use_storage_id := false;
  g_server_port := 23000;
  g_write_mark_file_freq := 1;
  g_file_sync_skip_invalid_record := false;
  g_store_paths := [{| sp_total_mb := 100; sp_free_mb := 50; sp_path := bs "/p"; sp_mark := None |}];
|}.

Definition no_time (_ : Z) : Tm := mkTm 0 0 0 0 0 0.

Definition example_tc : ThreadConf := {|
  tc_sync := example_conf;
  g_sync_part_time := false;
  g_sync_start_time := {| ti_hour := 0; ti_minute := 0 |};
  g_sync_end_time := {| ti_hour := 23; ti_minute := 59 |};
  g_heart_beat_interval := 30;
  tc_storage_ids := None;
  localtime := no_time;
  mktime := fun _ => 0;
  is_local_host_ip := fun _ => false;
|}.

Definition no_files : FileView := {|
  sys_stat := fun _ => inl ENOENT; sys_lstat := fun _ => inl ENOENT; sys_read := fun _ => inl ENOENT;
|}.

Definition example_view : PeerView := {|
  peer_paths := g_store_paths example_conf;
  peer_files := no_files;
  peer_readlink := fun _ => inl ENOENT;
  peer_group_name := bs "group1";
  peer_server_id := bs "10.0.0.1";
  peer_stack := [];
  peer_IP_ADDRESS_SIZE := 16;
|}.

Definition empty_fs : FileSys := mkFS ∅ [] ∅ ∅ 0 [].
Definition example_s0 : SyncState := mkSync empty_fs None 0 0 0 [] 1 true 2000.
Definition example_s1 : SyncState := (storage_sync_init example_conf example_s0).2.

Definition good_answer : bytes := repeat 0 8 ++ [100; 0].

Definition example_t0 : SyncThread :=
  mkThread P_Outer (mkWorld example_s1 (fresh_reader example_conf (bs "10.0.0.2")) [] [SrcEmpty] [])
    (mkBrief FDFS_STORAGE_STATUS_ACTIVE (bs "10.0.0.2") (bs "10.0.0.2")) None
    [Connected (mkNet [] (good_answer ++ good_answer ++ good_answer) 0 [])] example_view
    (mkSyncRecord 0 0 [] [] [] 0 0 0 0) 0 0 [] 0 0 0 0 0.

(** ** A run: a record is written and flushed, and the thread sends it. *)
Definition example_t1 : SyncThread :=
  on_server (write_calls example_conf [WriteRecord 1000 68 (bs "M00/00/00/abcdefghij") None; FlushRecords] example_s1).2 example_t0.

Fixpoint thread_run (n : nat) (t : SyncThread) : SyncThread :=
  match n with O => t | S n => thread_run n (sync_thread_step example_tc (t_record example_t0) t).2 end.

Definition example_mark : bytes := get_mark_filename_by_reader example_conf (bs "10.0.0.2").

Definition small_mark_b (w : SyncWorld) : bool :=
  match mark_of example_mark w with
  | Some t => match iniLoadFromText t with
              | inr c => iniGetInt64Value MARK_ITEM_BINLOG_FILE_OFFSET c (-1) <? 2 ^ 63 - 1
              | inl _ => true
              end
  | None => true
  end.

Lemma small_mark_b_ok w : small_mark_b w = true -> small_mark example_mark w.
Proof. unfold small_mark_b, small_mark. intros Hb t c Ht Hc. rewrite Ht, Hc in Hb. lia. Qed.

Definition same_index (t t' : SyncThread) : bool :=
  g_binlog_index (w_sync (t_world t')) =? g_binlog_index (w_sync (t_world t)).

Fixpoint run_ok (n : nat) (t : SyncThread) : bool :=
  match n with
  | O => true
  | S n => let t' := (sync_thread_step example_tc (t_record example_t0) t).2 in
           small_mark_b (t_world t) && same_index t t' && (g_binlog_index (w_sync (t_world t')) <? 2 ^ 31 - 1) && run_ok n t'
  end.

Lemma run_reach n t0 t :
  run_ok n t = true -> sync_reach example_conf example_mark example_tc t0 t ->
  sync_reach example_conf example_mark example_tc t0 (thread_run n t).
Proof.
  revert t. induction n as [|n IH]; intros t Hok Hr; [done|]. cbn [run_ok thread_run] in *.
  apply andb_prop in Hok as [[[Hs Hi]%andb_prop Hg]%andb_prop Hok]. apply IH; [done|]. eapply reach_step; [exact Hr|..].
  - by apply small_mark_b_ok.
  - apply step_thread. unfold same_index in Hi. lia.
  - lia.
Qed.

Definition wf_b (fs : FileSys) : bool :=
  bool_decide (NoDup (map_to_list (fs_names fs)).*2) &&
  forallb (fun p => (p.2 <? length (fs_inodes fs))%nat) (map_to_list (fs_names fs)).

Lemma wf_b_ok fs : wf_b fs = true -> fs_wf fs.
Proof.
  unfold wf_b. intros [Hd Hf]%andb_prop. apply bool_decide_eq_true in Hd. rewrite forallb_forall in Hf. split.
  - intros n i E%elem_of_map_to_list. specialize (Hf (n, i) ltac:(by apply list_elem_of_In)). cbn in Hf.
    by apply Nat.ltb_lt in Hf.
  - intros n m i En%elem_of_map_to_list Em%elem_of_map_to_list. revert Hd En Em. generalize (map_to_list (fs_names fs)).
    induction l as [|[k x] l IH]; [by intros _ []%elem_of_nil|]. rewrite fmap_cons, NoDup_cons. cbn.
    intros [Hx Hd] [Hn|Hn]%elem_of_cons [Hm|Hm]%elem_of_cons.
    + congruence.
    + simplify_eq. exfalso. apply Hx. by apply (list_elem_of_fmap_2 snd _ (m, x)).
    + simplify_eq. exfalso. apply Hx. by apply (list_elem_of_fmap_2 snd _ (n, x)).
    + by apply IH.
Qed.

Lemma example_conf_ok : conf_ok example_conf.
Proof. by split; vm_compute; [lia|repeat constructor]. Qed.

Lemma example_mark_ends : last example_mark = Some (ch "k").
Proof. vm_compute. reflexivity. Qed.

Lemma example_gzip_short : (length (get_gzip_command_filename (FastFiles := ref_files)) <= 60)%nat.
Proof. vm_compute. lia. Qed.

(** The files of the example hold nothing before the thread starts. *)
Lemma example_fresh : sync_fresh example_conf example_mark example_t0.
Proof.
  do 6 (split; [vm_compute; reflexivity|]). exists (fun _ => []). split; [|by vm_compute]. split.
  - apply wf_b_ok. vm_compute. reflexivity.
  - by vm_compute.
  - exists 1%nat. split_and!; [vm_compute; reflexivity..|right; vm_compute; reflexivity].
  - change (g_binlog_index (w_sync (t_world example_t0))) with 0. intros i Hi. lia.
  - vm_compute. reflexivity.
  - intros i n [=].
Qed.

Lemma example_reach n : run_ok n example_t1 = true -> sync_reach example_conf example_mark example_tc example_t0 (thread_run n example_t1).
Proof.
  intros Hok. apply run_reach; [done|]. eapply reach_step; [apply reach_start| | |by vm_compute].
  - apply small_mark_b_ok. vm_compute. reflexivity.
  - exact (step_write _ _ _ example_t0 [WriteRecord 1000 68 (bs "M00/00/00/abcdefghij") None; FlushRecords]).
Qed.

Definition example_line : bytes := bs "1000 D M00/00/00/abcdefghij" ++ [10].
Definition example_end : SyncThread := thread_run 7 example_t1.
Definition example_ini : bytes := default [] (mark_of example_mark (t_world example_end)).

Lemma no_record_passed_over_witness :
  exists h, (0, 0, h) ∈ w_history (t_world example_end) /\ fits example_conf h example_line.
Proof.
  refine (no_record_passed_over example_conf example_conf_ok example_mark example_mark_ends example_gzip_short
    eq_refl example_tc eq_refl example_t0 example_end example_ini
    (match iniLoadFromText example_ini with inr c => c | inl _ => [] end) 0 example_line 0 example_line
    example_fresh (example_reach 7 _) (small_mark_b_ok _ _) _ _ _ _ _);
    [vm_compute; reflexivity..| | |].
  - left. vm_compute. reflexivity.
  - split; [by left|vm_compute; reflexivity].
  - right. split; vm_compute; reflexivity.
Defined.

(** The files of the server hold the record before the thread starts, and
    another one is written after it was sent. *)
Lemma example_written_fresh : sync_fresh example_conf example_mark example_t1.
Proof.
  do 6 (split; [vm_compute; reflexivity|]). exists (fun _ => example_line). split; [|by vm_compute]. split.
  - apply wf_b_ok. vm_compute. reflexivity.
  - by vm_compute.
  - exists 1%nat. split_and!; [vm_compute; reflexivity..|right; vm_compute; reflexivity].
  - change (g_binlog_index (w_sync (t_world example_t1))) with 0. intros i Hi. lia.
  - vm_compute. reflexivity.
  - intros i n [=].
Qed.

Definition example_more : SyncThread :=
  on_server (write_calls example_conf [WriteRecord 1001 67 (bs "M00/00/00/bbcdefghij") None; FlushRecords] (w_sync (t_world example_end))).2 example_end.

Lemma binlog_text_stays_witness :
  exists more, holds example_conf (ss_fs (w_sync (t_world example_more))) 0 (example_line ++ more).
Proof.
  destruct (binlog_text_stays example_conf example_conf_ok example_mark example_mark_ends example_gzip_short
    eq_refl example_tc eq_refl example_t1 example_more 0 example_line example_written_fresh) as (more & Hm & _).
  - unfold example_more. eapply (reach_step _ _ _ _ example_end).
    + unfold example_end. apply (run_reach 7); [vm_compute; reflexivity|apply reach_start].
    + apply small_mark_b_ok. vm_compute. reflexivity.
    + apply step_write.
    + vm_compute. reflexivity.
  - split; vm_compute; discriminate.
  - left. vm_compute. reflexivity.
  - exists more. exact Hm.
Defined.

Lemma binlog_record_roundtrip_witness :
  parse_sync_record example_conf (binlog_line 1000 67 (logic_name 0 (bs "00/00/abcdefghij")) None) (t_record example_t0) =
    (0, mkSyncRecord 1000 67 (bs "M00/00/00/abcdefghij") (bs "00/00/abcdefghij") [] 20 16 0 0).
Proof.
  refine (proj2 (binlog_record_roundtrip example_conf 1000 67 0 (bs "00/00/abcdefghij") None [] (t_record example_t0) _)).
  split.
  - split; [discriminate|reflexivity].
  - split; [|split]; discriminate.
  - split; [split; [discriminate|reflexivity]|reflexivity].
  - cbn. lia.
  - vm_compute. repeat constructor; discriminate.
  - intros [=].
  - vm_compute. lia.
Defined.

Lemma write_cache_fits_witness :
  cache_len (write_calls example_conf [WriteRecord 1000 67 (bs "M00/00/00/abcdefghij") None] example_s1).2 +
  Z.of_nat (length example_line) + 1 <= SYNC_BINLOG_WRITE_BUFF_SIZE.
Proof.
  refine (write_cache_fits example_conf [WriteRecord 1000 67 (bs "M00/00/00/abcdefghij") None] example_s1 1000 68
    (bs "M00/00/00/abcdefghij") None _ _); vm_compute; [discriminate|lia].
Defined.


