(* ===== verification/StorageExamples.v ===== *)
(** * Storage servers at concrete inputs.

    A server with one connection, over which another server sends it a file. *)

From S2P Require Import Prelude FastCommon TrunkShared TrunkMem StorageIds TrackerTypes FileSys SyncBinlog Net SyncReader SyncPeer SyncThread DataFiles StorageTask StorageDio StorageSyncIn StorageServe DataInv StorageNames StorageSafe StorageSteps StorageHandled StorageStepsDisk StorageCopy StorageRun StorageServer SharedFunc StorePath SyncExamples StorageUpload StorageClient FileInfo.

Import RefCommon RefFiles.

Definition one_path_conf : StorageConf := {|
  st_sync := example_conf;
  st_group_name := bs "group1";
  st_trunk_file_size := 1000;
  st_zero_buffer_length := 64;
  g_disk_rw_separated := false;
  g_disk_reader_threads := 1;
  g_disk_writer_threads := 1;
  st_place := {| g_store_path_mode := 0; g_fdfs_store_paths := []; g_avg_storage_reserved_mb := 0;
                 g_storage_reserved_space := RESERVED_SPACE_MB 0;
                 g_file_distribute_path_mode := 0; g_file_distribute_rotate_count := 100; g_subdir_count_per_path := 256 |};
  st_if_use_trunk_file := false;
  st_slot_max_size := 500;
  st_store_slave_file_use_link := false;
  st_server_id_in_filename := 100;
  st_storage_ids := None;
  st_INFINITE_FILE_SIZE := 256 * 1024 * 1024 * 1024 * 1024 * 1024;
  st_IP_ADDRESS_SIZE := 16;
|}.

Definition same_crc (_ : bytes) (crc : Z) : Z := crc.

(** A server that has no files; its system calls fail as [faults] says. *)
Definition fresh_service (faults : list (Z * nat)) : Service :=
  mkService (mkDataFs ∅ [] 5000 faults) example_s1 0 ∅ ∅ [] [] (Build_DistState 0 0 0 0 0) [] [].

Definition sent_name : bytes := bs "M00/00/00/abcdefghij".

(** The request that brings [sent_name] with [body]. *)
Definition copy_request (body : bytes) : bytes :=
  TrackerHeader (36 + 20 + Z.of_nat (length body)) STORAGE_PROTO_CMD_SYNC_CREATE_FILE 0 ++
  long2buff 20 ++ long2buff (Z.of_nat (length body)) ++ int2buff 1234 ++ zero_pad 16 (bs "group1") ++ sent_name ++ body.

Definition sent_body : bytes := repeat 111 300.

Fixpoint run_acts (acts : list Act) (srv : Server) : option Server :=
  match acts with
  | [] => Some srv
  | a :: acts' =>
      match server_step same_crc one_path_conf 256 a srv with
      | Some srv' => run_acts acts' srv'
      | None => None
      end
  end.

Definition fresh_server faults : Server := mkServer (fresh_service faults) ∅ ∅.
Definition server_with faults (acts : list Act) : Server := default (fresh_server faults) (run_acts acts (fresh_server faults)).
Definition server_after : list Act -> Server := server_with [].
Definition first_task (srv : Server) : Task := default (new_task [] 0 0 []) (sr_tasks srv !! 0%nat).

Lemma run_acts_reach acts srv srv' :
  forall s, server_reach same_crc one_path_conf 256 s srv -> run_acts acts srv = Some srv' ->
  server_reach same_crc one_path_conf 256 s srv'.
Proof.
  intros s. revert srv. induction acts as [|a acts IH]; intros srv Hr E; cbn in E; [by simplify_eq|].
  destruct (server_step _ _ _ a srv) as [s1|] eqn:Ea; [|done]. by eapply IH; [eapply reach_act|].
Qed.

Lemma server_after_reach faults acts : server_reach same_crc one_path_conf 256 (fresh_service faults) (server_with faults acts).
Proof.
  unfold server_with. destruct (run_acts acts (fresh_server faults)) as [srv|] eqn:E; cbn; [|apply reach_start].
  eapply run_acts_reach; [apply reach_start|done].
Qed.

Lemma one_path_short : short_paths (paths one_path_conf).
Proof. apply Forall_singleton. vm_compute. discriminate. Qed.

Lemma fresh_tidy faults : tidy (s_files (fresh_service faults)).
Proof. split; cbn; intros *; rewrite ?lookup_empty; done. Qed.

(** The first buffer of the request; the disk thread writes it; the rest. *)
Definition first_piece : list Act :=
  [Accept 0 (repeat 7 256) 5 (bs "10.0.0.2"); Notified 0; Receive 0 (take 10 (copy_request sent_body));
   Receive 0 (drop 10 (take 256 (copy_request sent_body))); Disk 0].
Definition whole_request : list Act :=
  first_piece ++ [Notified 0; Receive 0 (drop 256 (copy_request sent_body))].

Lemma copy_in_progress_witness :
  let srv := server_after first_piece in let t := first_task srv in
  is_temp (fc_filename (ci_file_context t)) /\
  content (s_files (sr_service srv)) (fc_filename (ci_file_context t)) = Some (body_in (got_by 0 srv)) /\
  body_in (got_by 0 srv) = repeat 111 190.
Proof.
  cbv zeta.
  assert (copying (first_task (server_after first_piece))) as Hc by (split; [split|]; vm_compute; reflexivity).
  destruct (copy_in_progress same_crc one_path_conf 256 (fresh_service []) (server_after first_piece) 0
    (first_task (server_after first_piece)) one_path_short ltac:(lia) (fresh_tidy []) ltac:(done)
    (server_after_reach _ _) ltac:(vm_compute; reflexivity) Hc ltac:(vm_compute; reflexivity) ltac:(vm_compute; done)) as (H1 & H2 & _).
  split; [exact H1|]. split; [exact H2|]. vm_compute; reflexivity.
Defined.

Lemma copy_all_or_nothing_witness :
  let srv := server_after whole_request in
  exists srv', server_step same_crc one_path_conf 256 (Disk 0) srv = Some srv' /\
  content (s_files (sr_service srv')) (bs "/p/data/00/00/abcdefghij") = Some sent_body /\
  (unseen (s_files (sr_service srv)) (s_files (sr_service srv')) \/
   exists full, full_name one_path_conf (cstr (name_in (got_by 0 srv))) = Some full /\
     Z.of_nat (length (body_in (got_by 0 srv))) = size_in (got_by 0 srv) /\
     content (s_files (sr_service srv')) full = Some (body_in (got_by 0 srv)) /\
     forall n, ~ is_temp n -> n <> full -> content (s_files (sr_service srv')) n = content (s_files (sr_service srv)) n).
Proof.
  cbv zeta. set (srv' := server_after (whole_request ++ [Disk 0])).
  assert (server_step same_crc one_path_conf 256 (Disk 0) (server_after whole_request) = Some srv') as Hs by (vm_compute; reflexivity).
  exists srv'. split; [exact Hs|]. split; [vm_compute; reflexivity|].
  apply (copy_all_or_nothing same_crc one_path_conf 256 (fresh_service []) (server_after whole_request) 0
    (first_task (server_after whole_request)) srv' one_path_short ltac:(lia) (fresh_tidy []) ltac:(done)
    (server_after_reach _ _) ltac:(vm_compute; reflexivity) ltac:(split; [split|]; vm_compute; reflexivity) Hs).
Defined.

(** The first write fails, and the file is full of the byte that makes its next
    ten bytes an active test: the server answers with success. *)
Definition failing_write : list (Z * nat) := [(0, 0%nat); (0, 0%nat); (0, 0%nat); (0, 0%nat); (28, 3%nat)].
Definition failed_request : list Act :=
  first_piece ++ [Notified 0; Receive 0 (take 10 (drop 256 (copy_request sent_body)))].

Lemma write_failure_unanswered_witness :
  let srv2 := server_with failing_write (first_piece ++ [Notified 0]) in
  let srv3 := server_with failing_write failed_request in
  (exists t2, sr_tasks srv2 !! 0%nat = Some t2 /\ tk_place t2 = AtSocket /\ tk_sent t2 = [] /\ recv_bytes t2 = 10) /\
  tk_sent (first_task srv3) = repeat 0 8 ++ [100; 0] /\
  content (s_files (sr_service srv3)) (bs "/p/data/00/00/abcdefghij") = None.
Proof.
  cbv zeta. split; [|vm_compute; split; reflexivity].
  set (srv := server_with failing_write (take 4 first_piece)).
  assert (copying (first_task srv)) as Hc by (split; [split|]; vm_compute; reflexivity).
  assert (piece_fails (ci_file_context (first_task srv)) (s_files (sr_service srv))) as Hf
    by (exists (28, 3%nat); split; [apply (bool_decide_unpack _); vm_compute; exact I|discriminate]).
  destruct (write_failure_unanswered same_crc one_path_conf 256 (fresh_service failing_write) srv 0 (first_task srv)
    (server_with failing_write first_piece) (server_with failing_write (first_piece ++ [Notified 0]))
    one_path_short ltac:(lia) (fresh_tidy _) ltac:(done) (server_after_reach _ _) ltac:(vm_compute; reflexivity) Hc
    ltac:(vm_compute; reflexivity) Hf ltac:(vm_compute; reflexivity) ltac:(vm_compute; reflexivity))
    as (t1 & t2 & e & E1 & E2 & He & Hd & Hl & Hs1 & Hs2 & Hp & Hoff & Hlen & Hr).
  exists t2. split; [exact E2|]. split; [exact Hp|]. split; [|exact Hr]. rewrite Hs2. vm_compute. reflexivity.
Defined.

(** ** A client uploads a file. *)
Definition upload_body : bytes := bs "hello".
Definition upload_request : bytes :=
  TrackerHeader (15 + Z.of_nat (length upload_body)) STORAGE_PROTO_CMD_UPLOAD_FILE 0 ++
  [0] ++ long2buff (Z.of_nat (length upload_body)) ++ zero_pad 6 (bs "txt") ++ upload_body.

Definition upload_received : list Act :=
  [Accept 0 (repeat 7 256) 5 (bs "10.0.0.2"); Notified 0; Receive 0 (take 10 upload_request); Receive 0 (drop 10 upload_request)].

Definition upload_server : Server := server_after (upload_received ++ [Disk 0]).

(** The answer names the file, and the file has the content. *)
Example upload_served :
  let t := first_task upload_server in
  take 16 (drop 10 (tk_data t)) = zero_pad 16 (bs "group1") /\
  exists name, drop 26 (take (Z.to_nat (tk_length t)) (tk_data t)) = logic_name 0 name /\
    content (s_files (sr_service upload_server)) (bs "/p/data/" ++ name) = Some upload_body.
Proof. vm_compute. split; [reflexivity|]. eexists. split; reflexivity. Qed.

(** The connection when the content is written: the file has its first name. *)
Definition upload_written : Serving :=
  let s := mkServing (sr_service (server_after upload_received)) (first_task (server_after upload_received)) in
  (files (data_put_file (fc_filename (context_of s)) upload_body) s).2.

Lemma upload_written_ready : upload_ready one_path_conf upload_written.
Proof. constructor; vm_compute; repeat split; done. Qed.

Definition upload_ended : Serving := (storage_service_upload_file_done one_path_conf upload_written).2.

Lemma upload_ended_run : storage_service_upload_file_done one_path_conf upload_written = (0, upload_ended).
Proof.
  assert ((storage_service_upload_file_done one_path_conf upload_written).1 = 0) as E by (vm_compute; reflexivity).
  unfold upload_ended. rewrite <- E. apply surjective_pairing.
Qed.

Definition no_ids : StorageIds := mkStorageIds [] [] [].

Lemma uploaded_name_correct_witness :
  take 10 (fc_fname2log (context_of upload_ended)) = bs "M00/00/00/" /\
  drop 37 (fc_fname2log (context_of upload_ended)) = bs "000.txt" /\
  exists fi, fdfs_get_file_info_ex appender_mark no_ids 16 (fc_fname2log (context_of upload_ended)) false (inl ENOENT) = inr fi /\
    fi_file_size fi = 5 /\ fi_source_id fi = 100 /\ fi_file_type fi = FDFS_FILE_TYPE_NORMAL.
Proof.
  destruct (uploaded_name_correct one_path_conf no_ids 16 (inl ENOENT) upload_written upload_ended upload_written_ready
    upload_ended_run) as (_ & H & _).
  split; [vm_compute; reflexivity|]. split; [vm_compute; reflexivity|]. eexists. split; [exact H|]. vm_compute. repeat split.
Defined.

Lemma uploaded_file_correct_witness :
  content (files_of upload_ended) (fc_filename (context_of upload_written)) = None /\
  content (files_of upload_ended) (bs "/p/data/" ++ drop 4 (fc_fname2log (context_of upload_ended))) = Some (bs "hello").
Proof.
  destruct (uploaded_file_correct one_path_conf upload_written (bs "hello") upload_written_ready ltac:(vm_compute; reflexivity)
    ltac:(vm_compute; reflexivity) ltac:(vm_compute; reflexivity)) as [H _].
  split; [exact H|]. vm_compute. reflexivity.
Defined.

Lemma query_answer_roundtrip_witness :
  let t := s_task (query_file_info_response one_path_conf 100 5 1234 99 upload_written).2 in
  storage_query_file_info 16 (inr (take (Z.to_nat (in_length t)) (drop 10 (tk_data t)))) (mkFileInfo 1 true 0 0 100 0 []) =
    inr (mkFileInfo 1 true 1234 99 100 5 (source_ip one_path_conf 100 (bs "10.0.0.2"))).
Proof.
  apply (query_answer_roundtrip one_path_conf upload_written 100 5 1234 99 (mkFileInfo 1 true 0 0 100 0 []));
    vm_compute; repeat constructor; discriminate.
Defined.
